(* ===== verification/_CoqProject ===== *)
-Q . S2P
Prelude.v
PyValue.v
Jobs.v
Claims.v
TaskControl.v
Control.v
LeaseInv.v
LeaseSteps.v
LeaseClaims.v
ClaimOrder.v
LeaseMachine.v
LeaseProps.v
OrderStatus.v
Phones.v
Receipts.v
Clues.v
HqPool.v
ClueStatus.v
FollowUp.v
FollowUpInv.v
FollowUpProps.v
FollowUpUndo.v
Evidence.v
Metrics.v
EvidenceProps.v
MetricProps.v
EvidenceThms.v
Candidates.v
CandidateProps.v
Allocation.v
AllocationProps.v
ClueHistory.v
AllocationThms.v
RuleVersions.v
RuleInv.v
RuleSteps.v
RuleThms.v
AllocationWitness.v
Quota.v
QuotaProps.v
FeeTables.v
FeeLedger.v
FeeProps.v
FeeRefunds.v
FeeThms.v
Statements.v
StatementProps.v
StatementLines.v
StatementThms.v
StatementWitness.v
SaleAccounts.v
SaleProps.v
FeeResults.v
FeeResultProps.v
ResultRuns.v
ResultBasis.v
ResultThms.v
Attribution.v
AttributionProps.v
Qualification.v
QualificationProps.v
RecordedEvidence.v
ResultWitness.v
Lineage.v
LineageProps.v
LineageThms.v
LineageWitness.v
BillingSources.v
BillingSourceProps.v
PendingBills.v
PendingProps.v
PendingThms.v
BillingWitness.v
Pages.v
PagesProps.v
PagesThms.v
Sparse.v
SealedReads.v
PublishProps.v
PublishThms.v
