(* ===== verification/Prelude.v ===== *)
(** * dy-data: a verification development

    The program is the dy-data platform: workers pull orders, coupons,
    verifications, refunds and sales leads ("clues") of car dealerships from
    the Douyin open platform, settle fees on them and bill the stores, allocate
    the leads to stores and follow their life, and a web API controls the jobs.
    This library models the parts of it that decide something: who may write,
    what a lead, an order or a coupon is worth, who owns it, what a store pays
    for it, and which published rows a reader sees.

    ** How the parts interact

    A synchronization job is a row of [job_runs].  Workers claim it through a
    fenced lease (apps/worker/repositories.py, apps/worker/task_control.py) and
    an administrator steers it (apps/api/dy_api/routes/operations.py).  A job
    sends requests to the platform through governors that keep its quotas
    (src/dy_data/douyin_rate_limits.py, apps/worker/douyin_api_quota.py,
    apps/worker/priority_budget.py), page by page with a checkpoint in between
    (apps/worker/paged_collection.py).  What it stores is read with the status
    vocabulary of apps/worker/order_status.py, the amounts of
    apps/worker/receipt_amounts.py and the phones of src/dy_data/phones.py.

    A lead is allocated to a store by apps/worker/clue_allocation_engine.py
    under the rule that apps/worker/clue_rule_versions.py binds it to, followed
    by apps/worker/clue_follow_up_state.py, held at headquarters by
    apps/worker/clue_headquarters_pool.py, and closed when its order turns out
    to be terminal (apps/worker/clue_allocation.py).  The follow-up rates are
    computed from the raw rows by apps/api/dy_api/clue_followup_metrics.py.

    A verified coupon earns a promotion and a management fee
    (apps/worker/settlement.py).  The store of the sale comes from the account
    table and its bindings, from approved decisions
    (apps/worker/historical_sale_attribution.py) and needs the qualification of
    the account in its month (apps/worker/account_qualification.py).  Refunds and
    canceled verifications post adjustments, a locked statement freezes a month,
    and what arrives later is carried into the next open one.  The results are
    published as generations of projection rows; readers find the rows of a
    partition through apps/worker/projection_lineage.py.  The sources of bills
    are frozen (apps/worker/billing_source_capture.py) and billed against the
    published rows (apps/worker/billing_statements.py).

    ** Which file models which part

    - Shared: [Prelude] (outcomes [result] of code that raises, notations,
      tactics, hint databases, lemmas on lists, maps and texts), [PyValue]
      (dynamically typed Python values).
    - Control plane: [Jobs] (tables of dy_api/models.py), [Claims]
      (repositories.py), [TaskControl] (task_control.py), [Control]
      (routes/operations.py).  [LeaseInv], [LeaseSteps], [LeaseClaims],
      [ClaimOrder] and [LeaseMachine] hold the invariant, its preservation by
      each operation, the order of candidates and the step relation;
      [LeaseProps] the theorems.
    - Statuses, phones, amounts: [OrderStatus], [Phones], [Receipts].
    - Leads: [Clues] (tables), [HqPool] (clue_headquarters_pool.py),
      [ClueStatus] (terminal evidence, clue_allocation.py), [FollowUp]
      (clue_follow_up_state.py, src/dy_data/clue_access.py) with [FollowUpInv],
      [FollowUpProps], [FollowUpUndo]; [Candidates] and
      [Allocation] (clue_allocation_engine.py) with [CandidateProps],
      [AllocationProps], [ClueHistory], [AllocationThms]; [RuleVersions]
      (clue_rule_versions.py) with [RuleInv], [RuleSteps],
      [RuleThms]; [AllocationWitness] runs rules and engine on
      concrete tables.
    - Evidence and metrics: [Evidence] (the loaders of
      clue_followup_metrics.py) with [EvidenceProps], [EvidenceThms]; [Metrics]
      (the evaluation of a round) with [MetricProps].
    - Quotas: [Quota] with [QuotaProps].
    - The fee ledger: [FeeTables] (tables of dy_api/models.py), [FeeLedger]
      (refunds, cancellations and carryforward sources of settlement.py) with
      [FeeProps], [FeeRefunds], [FeeThms].
    - Statements: [Statements] (applying carryforwards and locking) with
      [StatementProps], [StatementLines], [StatementThms], [StatementWitness].
    - The fee calculation: [SaleAccounts] (the account and store of a sale) with
      [SaleProps]; [FeeResults] ([rebuild_dual_fee_results]) with
      [FeeResultProps] (its writes as ledger steps),
      [ResultRuns], [ResultBasis], [ResultThms], [ResultWitness];
      [Attribution] (historical_sale_attribution.py) with [AttributionProps];
      [Qualification] (account_qualification.py) with [QualificationProps];
      [RecordedEvidence].
    - Publication and bills: [Lineage] (projection_lineage.py) with
      [LineageProps], [LineageThms], [LineageWitness]; [BillingSources]
      (billing_source_capture.py) with [BillingSourceProps]; [PendingBills]
      (billing_statements.py) with [PendingProps], [PendingThms];
      [BillingWitness].
    - Collection: [Pages] (paged_collection.py) with [PagesProps], [PagesThms].
    - Building and publishing a projection: [Sparse] (the sparse builder of
      settlement.py and projection_publish.py) with [SealedReads] (the reads of
      [Lineage] on tables that change), [PublishProps], [PublishThms].

    A database is a record of tables: finite maps from keys to rows for the
    control plane and the leads, lists of rows in insertion order for the
    ledger.  A row is a record with the columns the modelled code reads or
    writes.  An operation takes the database and returns the new one, or
    [Raise]: an exception aborts the transaction of the caller, so it carries no
    database.  Row locks and the isolation of transactions make one operation
    one step; interleavings are sequences of steps.  Administrative job control
    takes no lock: it is a read and a commit, with other steps in between
    ([control_read], [control_commit]), and the lease machine states the
    condition it needs of the commit ([undisturbed]).  The edits of rule versions
    take no lock either and are modelled one after another.  Two components meet in an
    interface where the source has a call between them: [RuleBinder] states
    what the engine needs of a rule binding, with its instance in
    [RuleThms]; [SaleEvidence] states what the fee calculation asks of the
    attribution ledger and the frozen qualifications, with its instance in
    [RecordedEvidence].

    ** What the theorems show

    - Control plane (LeaseProps): when no cancel or retry of an idle job commits
      after a claim has taken that job, every reachable state is well formed, at
      most one job of the heavy slot runs and one attempt is open, and a claim
      leaves no other heavy writer running ([cancel_race_breaks_lease] shows the
      torn state such a cancel leaves); a claim fences all former tokens, a finished token
      has no effect again, attempts stay within their budget, the candidate
      loop ends and an idle slot is claimed in the documented order; the retry
      policy; control requests are idempotent.
    - Amounts and statuses: in an order of several coupons without receipts
      of their own no receipt is counted twice, the batch loader
      agrees with the per-order queries, the two status vocabularies agree,
      masks reveal nothing.
    - Leads: through any history of allocations, actions, due runs and
      deletions a lead has one owner at most and closed rounds stay closed; a
      terminal order fences follow-up; due runs settle every passed deadline;
      deleting the record of an action that does not close its round undoes it;
      an allocation takes the store of the first strategy that selects one (the
      sale store, the anchor store in source-store mode, else the best ranked
      eligible store of the city), is idempotent, and otherwise parks the lead at
      headquarters.
    - Rules: a version that left the draft state is frozen, one version of a
      rule is published at most, the most specific published rule is resolved,
      a binding is final and the engine reads back what was published.
    - Evidence and metrics: the evidence of an order does not depend on the
      batch it is loaded in, a verification of the raw tables fences follow-up,
      and a round's contribution to the rates is consistent and becomes final.
    - Quotas: any interleaving keeps the daily limits and the reserve, pacing
      keeps the quota of every window, overrides only tighten.
    - Fee ledger: refunds that arrive in the order of their times settle a plain
      result at the fee of what remains, a canceled verification brings it to zero, and a refund
      that is seen late leaves the residue the theorem gives.
    - Statements: a locked statement has every source of its month once with the
      sums on its head, no source is billed twice, carryforwards conserve every
      total and the month they are carried to is the first open one.
    - Fee calculation: through any sequence of runs a coupon has one active
      result per direction and frozen statements keep their sources; a ready
      basis that is not frozen is written, once; a fee rests on a verification,
      a receipt, a rule and a proven store; a match of the sale account is not
      contradicted by other evidence; an imported decision is the one that is
      resolved, and a frozen month of qualifications is final.
    - Publication and bills: the lineage resolver implements the specification
      "the nearest generation of the base chain with a manifest for the key" or
      fails with its own error, and the rows it points to exist; frozen sources
      load as they were captured; a billing run only appends, its bills show the
      published totals and the frozen sources, and repeating it adds nothing.
    - Collection: the pages that any number of interrupted runs and concurrent
      workers commit are those of one reader of each stream, each once; a run that
      returns has read every stream to its end, every run ends, and interruptions
      do not change what is collected.
    - Publication: the workers that build, certify and publish generations never
      change what a reader pinned to a published one sees; a rebuild that was
      published is what readers find for the months it rebuilt, over what they
      found before; a base has one successor, the active pointer never comes
      back, and a repeated publication has no effect.  The months of a build are
      closed under the links of the ledger, up to a bound on their number.

    ** Bounds and fuel

    The candidate loop of a heavy claim runs with one turn per row of
    [job_runs] plus one, which [LeaseProps] proves to be enough on every
    well-formed database.  The search for the first open month runs with
    [month_turns] turns; [StatementProps] shows it complete for the years 2000 to 2099.  The
    provenance verifier of the lineage runs with [provenance_turns] turns for each
    claim, one more than the compact generations a path may visit
    ([LineageProps] shows that it never runs out), and the base chain with the
    bound of the source.  Loops over texts (trimming, decoding, squeezing) take
    the length of the text as fuel and consume a character per turn.  All other
    recursion is structural.  The loop over the pages of a stream runs with one turn
    more than the page guard of 100000, which [PagesThms] shows to be enough.  The closure
    of the months of a build runs with one turn more than its limit of 120 months,
    which [PublishProps] shows to be enough.

    ** What is an argument

    Code outside the repository: SHA-256 ([hexdigest]) and the digest of a value's
    canonical JSON ([digest]), [datetime.isoformat] and [datetime.fromisoformat],
    [str()] of a value that is neither a string nor an integer ([repr_of]), the
    texts of times and rates ([str_datetime], [str_rate], [read_rate]),
    [json.loads] and [json.dumps] ([json_loads], [json_text], [encoded_length]),
    the conversion of a decimal to the nearest float ([to_float]), the
    great-circle distance and rounding to six digits ([haversine_km], [round6]),
    the JSON form of numbers ([coord_json], [float_json]) and [urlsplit].

    Code of the repository that is not modelled: the rows the aggregations of
    settlement.py return ([monthly_query], [ranking_query]), the rolling digest of
    a partition ([extend_digest]), the checksum of manifests
    ([manifest_checksum]) and the verification of a compaction ([reverify]).  The
    theorems hold for every choice of them; a monthly query returns rows of the
    month it is asked for.

    ** What is not modelled

    - The rest of settlement.py: the SQL aggregations behind the sparse overlays
      and rankings, which are arguments of [Sparse], and the older monthly
      projection; the runners around a build
      (settlement_rebuild.py), and those that compact and bootstrap generations
      (settlement_compaction.py, legacy_projection_bootstrap.py).
    - Planning: the daily windows, the priority scheduler, recovery of days and
      the stage runners, which decide which job rows exist; the control plane
      takes any rows.
    - Collection: the HTTP client, the collectors that normalise rows and the raw
      upserts of repositories.py; they are arguments of [Pages].
    - Operations around the ledger: month_close.py, historical_fee_correction.py,
      missing_fee_repair.py, refund_replay.py, the authority of protected bills.
    - The surroundings of leads: the projection pass of clue_allocation.py,
      clue_allocation_cycles.py, clue_center.py and the recovery jobs.
    - The web routes other than job control, access control and sessions, the
      rankings, the command line, the operations agent, deployment scripts,
      exports and the browser automation. *)
From stdpp Require Export base gmap strings list fin_maps sorting numbers pretty.
From Stdlib Require Export ZArith Lia.

Declare Scope dy_scope.
Delimit Scope dy_scope with dy.
#[global] Open Scope dy_scope.
#[global] Open Scope Z_scope.

(** ** Outcomes: a Python call returns a value or raises *)

(** The exceptions the modelled code raises, by class; the text is the message. *)
Inductive exn :=
| ValueError (msg : string)
| RuntimeError (msg : string)
| TypeError (msg : string)
| AssertionError
| NamedError (cls : string) (msg : string).

Inductive result (A : Type) :=
| Ok (a : A)
| Raise (e : exn).
Arguments Ok {A} a.
Arguments Raise {A} e.

Definition result_bind {A B} (r : result A) (k : A -> result B) : result B :=
  match r with
  | Ok a => k a
  | Raise e => Raise e
  end.

Notation "'let*' x := c 'in' k" := (result_bind c (fun x => k))
  (at level 10, x pattern, c at level 100, k at level 200) : dy_scope.

Lemma result_bind_Ok {A B} (r : result A) (k : A -> result B) b :
  result_bind r k = Ok b -> exists a, r = Ok a /\ k a = Ok b.
Proof. destruct r; cbn; [eauto | discriminate]. Qed.

#[export] Instance exn_eq_dec : EqDecision exn.
Proof. solve_decision. Defined.

#[export] Instance result_eq_dec {A} `{EqDecision A} : EqDecision (result A).
Proof. solve_decision. Defined.

(** ** Guards *)

(** [raise e] when the condition holds *)
Definition raise_if (b : bool) (e : exn) : result unit := if b then Raise e else Ok tt.

Lemma raise_if_ok b e : raise_if b e = Ok tt -> b = false.
Proof. by destruct b. Qed.

(** Splits a chain of guards that returned. *)
Ltac guards H :=
  repeat match type of H with
  | result_bind (raise_if ?b ?e) _ = Ok _ =>
      let G := fresh "G" in
      destruct (raise_if b e) as [[]|] eqn:G; [|discriminate H]; apply raise_if_ok in G; cbn [result_bind] in H
  | result_bind ?x _ = Ok _ =>
      let G := fresh "G" in destruct x as [?|] eqn:G; [|discriminate H]; cbn [result_bind] in H
  end.

(** ** Record update

    [r <| f := v |>] is [r] with its field [f] set to [v]: the Python attribute
    assignment [r.f = v].  A record declares its eta expansion as an [Eta]
    instance; the update is found by abstracting the field in it. *)
Class Eta (R : Type) := eta : R -> R.
Class FieldSet {R T : Type} (proj : R -> T) := field_set : (T -> T) -> R -> R.

Ltac solve_field_set :=
  match goal with
  | |- @FieldSet ?R ?T ?proj =>
      let e := constr:(_ : Eta R) in
      exact (fun (g : T -> T) (r : R) =>
        ltac:(let body := eval cbv beta delta [eta] in (@eta R e r) in
              let body := eval hnf in body in
              let abs := eval pattern (proj r) in body in
              match abs with
              | ?h _ => let u := eval cbv beta in (h (g (proj r))) in exact u
              end))
  end.
#[export] Hint Extern 1 (FieldSet _) => solve_field_set : typeclass_instances.

Notation "r <| f := v |>" := (@field_set _ _ f _ (fun _ => v) r)
  (at level 1, f constr at level 0, left associativity) : dy_scope.

(** ** Proof automation *)

Create HintDb dy.
Create Rewrite HintDb dy_simpl.

(** Split every test of the goal and of the hypotheses. *)
Ltac split_tests :=
  repeat
    match goal with
    | H : context [ match ?x with _ => _ end ] |- _ => destruct x eqn:?; simplify_eq/=; try done
    | |- context [ match ?x with _ => _ end ] => destruct x eqn:?; simplify_eq/=; try done
    end.

Ltac split_tests_in H :=
  repeat
    match type of H with
    | context [ match ?x with _ => _ end ] => destruct x eqn:?; simplify_eq/=; try done
    end.

(** Turn boolean tests into the propositions they decide. *)
Ltac bool_to_prop :=
  repeat
    match goal with
    | H : andb _ _ = true |- _ => apply andb_true_iff in H; destruct H
    | H : orb _ _ = false |- _ => apply orb_false_iff in H; destruct H
    | H : negb _ = true |- _ => apply negb_true_iff in H
    | H : negb _ = false |- _ => apply negb_false_iff in H
    | H : bool_decide _ = true |- _ => apply bool_decide_eq_true in H
    | H : bool_decide _ = false |- _ => apply bool_decide_eq_false in H
    | H : (_ <? _) = true |- _ => apply Z.ltb_lt in H
    | H : (_ <? _) = false |- _ => apply Z.ltb_ge in H
    | H : (_ <=? _) = true |- _ => apply Z.leb_le in H
    | H : (_ <=? _) = false |- _ => apply Z.leb_gt in H
    | H : (_ =? _) = true |- _ => apply Z.eqb_eq in H
    | H : (_ =? _) = false |- _ => apply Z.eqb_neq in H
    end.

(** ** Python truthiness helpers *)

(** [int(x or 0)] and [int(x or d)] on a nullable integer column. *)
Definition or_int (x : option Z) (d : Z) : Z :=
  match x with
  | Some n => if n =? 0 then d else n
  | None => d
  end.

Definition or0 (x : option Z) : Z := or_int x 0.

Lemma or0_Some n : or0 (Some n) = n.
Proof. unfold or0, or_int. destruct (Z.eqb_spec n 0); lia. Qed.
#[export] Hint Rewrite or0_Some : dy_simpl.

(** [x in (a, b, ...)] for strings. *)
Definition str_in (s : string) (l : list string) : bool := bool_decide (s ∈ l).

(** [s1 == s2] for strings. *)
Definition str_eqb (a b : string) : bool := bool_decide (a = b).

(** Comparing a nullable column with a value, as SQL and Python do. *)
Definition opt_is {A} `{EqDecision A} (x : option A) (a : A) : bool :=
  bool_decide (x = Some a).

(** ** Tests on strings and nullable columns *)

Lemma str_eqb_true a b : str_eqb a b = true <-> a = b.
Proof. unfold str_eqb. apply bool_decide_eq_true. Qed.
Lemma opt_is_true {A} `{EqDecision A} (x : option A) a : opt_is x a = true <-> x = Some a.
Proof. unfold opt_is. apply bool_decide_eq_true. Qed.

Ltac tests :=
  repeat match goal with
  | H : str_eqb _ _ = true |- _ => apply str_eqb_true in H
  | H : opt_is _ _ = true |- _ => apply opt_is_true in H
  | _ => progress bool_to_prop
  end.

Lemma str_eqb_refl s : str_eqb s s = true.
Proof. by apply str_eqb_true. Qed.
Lemma opt_is_refl {A} `{EqDecision A} (a : A) : opt_is (Some a) a = true.
Proof. by apply opt_is_true. Qed.
#[export] Hint Rewrite str_eqb_refl @opt_is_refl Z.eqb_refl : dy_simpl.

(** ** Lists of rows *)

Lemma lfilter_app {A} (P : A -> bool) (l k : list A) :
  List.filter P (l ++ k) = List.filter P l ++ List.filter P k.
Proof. apply List.filter_app. Qed.

Lemma lfilter_nil_iff {A} (P : A -> bool) (l : list A) :
  List.filter P l = [] <-> forall a, a ∈ l -> P a = false.
Proof.
  induction l as [|a l IH]; cbn; [split; [by intros _ a ?%elem_of_nil|done]|].
  destruct (P a) eqn:E.
  - split; [done|]. intros H. specialize (H a ltac:(by left)). congruence.
  - rewrite IH. setoid_rewrite elem_of_cons. naive_solver.
Qed.

Lemma fmap_NoDup_inj {A B} (f : A -> B) (l : list A) x y :
  NoDup (f <$> l) -> x ∈ l -> y ∈ l -> f x = f y -> x = y.
Proof.
  intros Hnd [i Hi]%list_elem_of_lookup [k Hk]%list_elem_of_lookup Hf.
  assert (i = k) as ->; [|congruence].
  eapply NoDup_lookup; [done| |]; rewrite list_lookup_fmap; [by rewrite Hi|].
  rewrite Hk. cbn. by rewrite Hf.
Qed.

Lemma find_none_intro {A} (p : A -> bool) l : (forall x, x ∈ l -> p x = false) -> List.find p l = None.
Proof.
  induction l as [|x l IH]; intros H; [done|]. cbn. rewrite (H x) by set_solver. apply IH. set_solver.
Qed.

Lemma existsb_false {A} (P : A -> bool) l : (forall a, a ∈ l -> P a = false) -> existsb P l = false.
Proof.
  induction l as [|a l IH]; intros H; cbn; [done|].
  rewrite H by left. apply IH. intros b Hb. apply H. by right.
Qed.

Lemma existsb_false_in {A} (P : A -> bool) l a : existsb P l = false -> a ∈ l -> P a = false.
Proof.
  intros H Ha. destruct (P a) eqn:E; [|done]. assert (existsb P l = true); [|congruence].
  apply existsb_exists. exists a. by rewrite <- list_elem_of_In.
Qed.

Lemma find_some_in {A} (P : A -> bool) l x : List.find P l = Some x -> x ∈ l /\ P x = true.
Proof. intros H. apply List.find_some in H as [H1 H2]. by rewrite list_elem_of_In. Qed.

Lemma filter_filter {A} (P Q : A -> bool) l :
  List.filter P (List.filter Q l) = List.filter (fun a => Q a && P a) l.
Proof.
  induction l as [|a l IH]; [done|]. cbn. destruct (Q a); cbn; [destruct (P a)|]; by rewrite IH.
Qed.

Lemma filter_ext_in {A} (P Q : A -> bool) l : (forall a, P a = Q a) -> List.filter P l = List.filter Q l.
Proof. intros H. induction l as [|a l IH]; [done|]. cbn. by rewrite H, IH. Qed.

Lemma filter_ext_elem {A} (P Q : A -> bool) l :
  (forall a, a ∈ l -> P a = Q a) -> List.filter P l = List.filter Q l.
Proof.
  induction l as [|a l IH]; intros H; [done|]. cbn. rewrite (H a) by left.
  rewrite IH by (intros; apply H; by right). done.
Qed.

#[export] Instance filter_proper {A} :
  Proper (pointwise_relation A eq ==> eq ==> eq) (@List.filter A).
Proof. intros P Q H l _ <-. by apply filter_ext_in. Qed.

Lemma filter_le {A} (P Q : A -> bool) l :
  (forall a, a ∈ l -> P a = true -> Q a = true) ->
  (length (List.filter P l) <= length (List.filter Q l))%nat.
Proof.
  induction l as [|a l IH]; intros H; [done|]. cbn. specialize (IH ltac:(intros; apply H; [by right|done])).
  specialize (H a ltac:(left)). destruct (P a), (Q a); cbn; try lia; by discriminate H.
Qed.

Lemma forallb_impl {A} (P Q : A -> bool) l :
  (forall a, P a = true -> Q a = true) -> forallb P l = true -> forallb Q l = true.
Proof. intros H. rewrite !forallb_forall. auto. Qed.

Lemma filter_all {A} (P : A -> bool) l : forallb P l = true -> List.filter P l = l.
Proof.
  induction l as [|a l IH]; [done|]. cbn. rewrite andb_true_iff. intros [-> ?]. by rewrite IH.
Qed.

Lemma fmap_filter_sub {A B} (f : A -> B) (P : A -> bool) l : NoDup (f <$> l) -> NoDup (f <$> List.filter P l).
Proof.
  induction l as [|a l IH]; cbn; [done|]. rewrite NoDup_cons. intros [Hn Hnd].
  destruct (P a); [|auto]. cbn. apply NoDup_cons. split; [|auto]. intros (x & Ex & Hx)%list_elem_of_fmap.
  apply Hn. rewrite Ex. apply list_elem_of_fmap_2. apply list_elem_of_In, List.filter_In in Hx as [Hx _].
  by apply list_elem_of_In.
Qed.

Lemma lfilter_fmap {A B} (P : B -> bool) (f : A -> B) l :
  List.filter P (f <$> l) = f <$> List.filter (fun x => P (f x)) l.
Proof. induction l as [|x l IH]; [done|]. cbn. rewrite IH. by destruct (P (f x)). Qed.

Lemma find_app {A} (P : A -> bool) l k :
  List.find P (l ++ k) = match List.find P l with Some a => Some a | None => List.find P k end.
Proof. induction l as [|a l IH]; cbn; [done|]. by destruct (P a). Qed.

(** ** Text *)

Definition chars (s : string) : list Ascii.ascii := String.list_ascii_of_string s.
Definition text (l : list Ascii.ascii) : string := String.string_of_list_ascii l.

Lemma text_chars s : text (chars s) = s.
Proof. apply String.string_of_list_ascii_of_string. Qed.
Lemma chars_text l : chars (text l) = l.
Proof. apply String.list_ascii_of_string_of_list_ascii. Qed.
#[export] Hint Rewrite text_chars chars_text : dy_simpl.

Definition bytes_of (l : list nat) : list Ascii.ascii := Ascii.ascii_of_nat <$> l.

(** The white space [str.strip] removes, each character as its UTF-8 bytes:
    the ASCII ones, then U+0085, U+00A0, U+1680, U+2000 to U+200A, U+2028,
    U+2029, U+202F, U+205F and U+3000. *)
Definition whitespace : list (list Ascii.ascii) :=
  ((fun c => bytes_of [c]) <$> [9; 10; 11; 12; 13; 28; 29; 30; 31; 32]%nat) ++
  (bytes_of <$>
   [[194; 133]; [194; 160]; [225; 154; 128]]%nat) ++
  ((fun c => bytes_of [226; 128; c]%nat) <$>
   [128; 129; 130; 131; 132; 133; 134; 135; 136; 137; 138; 168; 169; 175]%nat) ++
  (bytes_of <$> [[226; 129; 159]; [227; 128; 128]]%nat).

(** [drop_token p s] is [s] without the leading [p], when [s] starts with [p]. *)
Fixpoint drop_token (p s : list Ascii.ascii) : option (list Ascii.ascii) :=
  match p, s with
  | [], _ => Some s
  | a :: p', b :: s' => if Ascii.eqb a b then drop_token p' s' else None
  | _ :: _, [] => None
  end.

Fixpoint drop_any (toks : list (list Ascii.ascii)) (s : list Ascii.ascii)
  : option (list Ascii.ascii) :=
  match toks with
  | [] => None
  | p :: toks' =>
      match drop_token p s with
      | Some s' => Some s'
      | None => drop_any toks' s
      end
  end.

Fixpoint trim_fuel (fuel : nat) (toks : list (list Ascii.ascii)) (s : list Ascii.ascii)
  : list Ascii.ascii :=
  match fuel with
  | O => s
  | S fuel' =>
      match drop_any toks s with
      | Some s' => trim_fuel fuel' toks s'
      | None => s
      end
  end.

(** Every token is non-empty, so [length s] rounds remove all leading ones. *)
Definition trim_left (toks : list (list Ascii.ascii)) (s : list Ascii.ascii) :=
  trim_fuel (length s) toks s.

(** [s.strip()] *)
Definition strip (s : string) : string :=
  text (rev (trim_left (@rev Ascii.ascii <$> whitespace)
              (rev (trim_left whitespace (chars s))))).

(** [not s.strip()] *)
Definition blank (s : string) : bool := str_eqb (strip s) "".

Definition ascii_lower (c : Ascii.ascii) : Ascii.ascii :=
  let n := Ascii.nat_of_ascii c in
  if ((65 <=? n)%nat && (n <=? 90)%nat)%bool then Ascii.ascii_of_nat (n + 32) else c.

(** [s.lower()]; letters outside ASCII have no case in the vocabularies the
    code compares with, and keep their bytes. *)
Definition lower (s : string) : string := text (ascii_lower <$> chars s).

(** [s.startswith(p)] *)
Definition startswith (p s : string) : bool :=
  match drop_token (chars p) (chars s) with Some _ => true | None => false end.

(** [s.endswith(p)] *)
Definition endswith (p s : string) : bool :=
  match drop_token (rev (chars p)) (rev (chars s)) with Some _ => true | None => false end.

(** [len(s)]: the code points of [s], each counted at its first UTF-8 byte. *)
Definition py_len (s : string) : Z :=
  Z.of_nat (length (List.filter (fun c => let n := Ascii.nat_of_ascii c in
                                   ((n <? 128)%nat || (192 <=? n)%nat)%bool) (chars s))).

(** [str(n)] for an integer. *)
Definition str_of_Z (n : Z) : string := pretty n.

(** [sep.join(parts)] *)
Fixpoint join (sep : string) (parts : list string) : string :=
  match parts with
  | [] => ""
  | [p] => p
  | p :: parts' => (p +:+ sep +:+ join sep parts')%string
  end.

(** ** Facts about [strip] *)

Lemma drop_token_app p s s' : drop_token p s = Some s' <-> s = p ++ s'.
Proof.
  revert s. induction p as [|a p IH]; intros [|b s]; cbn; try naive_solver.
  destruct (Ascii.eqb_spec a b) as [->|Hne]; rewrite ?IH; naive_solver.
Qed.

Lemma drop_any_Some toks s s' :
  drop_any toks s = Some s' -> exists p, p ∈ toks /\ s = p ++ s'.
Proof.
  induction toks as [|p toks IH]; cbn; [done|].
  destruct (drop_token p s) eqn:E.
  - intros [= <-]. apply drop_token_app in E. exists p. split; [left|done].
  - intros H. destruct (IH H) as (q & ? & ?). exists q. split; [by right|done].
Qed.

Lemma drop_any_None toks s :
  drop_any toks s = None <-> forall p s', p ∈ toks -> s <> p ++ s'.
Proof.
  split.
  - induction toks as [|q toks IH]; cbn; [set_solver|]. destruct (drop_token q s) eqn:E; [done|].
    intros H p s' [->|Hp]%elem_of_cons; [|by apply IH]. intros Hs. apply drop_token_app in Hs. congruence.
  - intros H. destruct (drop_any toks s) as [s'|] eqn:E; [|done].
    apply drop_any_Some in E as (p & Hp & ->). by destruct (H p s' Hp).
Qed.

(** Trimming stops at a text without a leading token, a suffix of the given one. *)
Lemma trim_left_spec toks s :
  (forall p, p ∈ toks -> p <> []) ->
  drop_any toks (trim_left toks s) = None /\ exists w, s = w ++ trim_left toks s.
Proof.
  intros Hne. unfold trim_left. assert (Hlen : (length s <= length s)%nat) by lia. revert Hlen.
  generalize (length s) at 2 3 4 as fuel. intros fuel. revert s.
  induction fuel as [|fuel IH]; intros s Hlen; cbn.
  - destruct s; [|cbn in Hlen; lia]. split; [|by exists []]. apply drop_any_None.
    intros p s' Hp. destruct p; [by destruct (Hne _ Hp)|done].
  - destruct (drop_any toks s) as [s'|] eqn:E; [|split; [done|by exists []]].
    apply drop_any_Some in E as (p & Hp & ->).
    destruct (IH s') as [H1 [w Hw]].
    + rewrite length_app in Hlen. destruct p; [by destruct (Hne _ Hp)|cbn in Hlen; lia].
    + split; [done|]. exists (p ++ w). by rewrite <- app_assoc, <- Hw.
Qed.

Lemma trim_left_id toks s : drop_any toks s = None -> trim_left toks s = s.
Proof. unfold trim_left. destruct s as [|c s]; [done|]. cbn [length trim_fuel]. by intros ->. Qed.

Lemma whitespace_nonempty p : p ∈ whitespace -> p <> [].
Proof.
  assert (H : forallb (fun p => match p with [] => false | _ => true end) whitespace = true) by done.
  rewrite forallb_forall in H. intros Hp. apply list_elem_of_In, H in Hp. by destruct p.
Qed.

Lemma rev_whitespace_nonempty p : p ∈ @rev Ascii.ascii <$> whitespace -> p <> [].
Proof.
  intros (q & -> & Hq)%list_elem_of_fmap. apply whitespace_nonempty in Hq. intros E.
  apply Hq. by rewrite <- (rev_involutive q), E.
Qed.

(** A text with neither a leading nor a trailing white space token is its own
    [strip]. *)
Lemma strip_id s :
  drop_any whitespace (chars s) = None ->
  drop_any (@rev Ascii.ascii <$> whitespace) (rev (chars s)) = None -> strip s = s.
Proof.
  intros H1 H2. unfold strip. rewrite (trim_left_id _ _ H1), (trim_left_id _ _ H2), rev_involutive.
  apply text_chars.
Qed.

Lemma strip_clean s :
  drop_any whitespace (chars (strip s)) = None /\
  drop_any (@rev Ascii.ascii <$> whitespace) (rev (chars (strip s))) = None.
Proof.
  unfold strip. rewrite chars_text, rev_involutive.
  destruct (trim_left_spec whitespace (chars s) whitespace_nonempty) as [H1 _].
  set (l := trim_left whitespace (chars s)) in *.
  destruct (trim_left_spec _ (rev l) rev_whitespace_nonempty) as [H2 [w Hw]].
  set (r := trim_left _ (rev l)) in *. split; [|done].
  rewrite drop_any_None in *. intros p s' Hp E. apply (H1 p (s' ++ rev w) Hp).
  rewrite <- (rev_involutive l), Hw, rev_app_distr, E. by rewrite <- app_assoc.
Qed.

Lemma strip_idem s : strip (strip s) = strip s.
Proof. destruct (strip_clean s). by apply strip_id. Qed.

(** A character that belongs to no white space token survives. *)
Lemma trim_fuel_keeps fuel toks s x : x ∈ s -> (forall p, p ∈ toks -> x ∉ p) -> x ∈ trim_fuel fuel toks s.
Proof.
  revert s. induction fuel as [|fuel IH]; intros s Hx Hp; cbn; [done|].
  destruct (drop_any toks s) as [s'|] eqn:E; [|done].
  apply drop_any_Some in E as (p & Hin & ->). apply IH; [|done].
  apply elem_of_app in Hx as [Hx|Hx]; [by destruct (Hp _ Hin)|done].
Qed.

Lemma elem_of_rev {A} (l : list A) x : x ∈ rev l <-> x ∈ l.
Proof. rewrite !list_elem_of_In. symmetry. apply in_rev. Qed.

Lemma strip_keeps s x : x ∈ chars s -> (forall p, p ∈ whitespace -> x ∉ p) -> x ∈ chars (strip s).
Proof.
  intros Hx Hp. unfold strip. rewrite chars_text, elem_of_rev.
  apply trim_fuel_keeps; [apply elem_of_rev; by apply trim_fuel_keeps|].
  intros p (q & -> & Hq)%list_elem_of_fmap. rewrite elem_of_rev. by apply Hp.
Qed.

Lemma strip_nonblank s x : x ∈ chars s -> (forall p, p ∈ whitespace -> x ∉ p) -> strip s <> "".
Proof. intros Hx Hp E. pose proof (strip_keeps s x Hx Hp) as H. rewrite E in H. by apply elem_of_nil in H. Qed.
