(* ===== verification/PyValue.v ===== *)
(** * Python values

    The dynamically typed values the code reads from decoded JSON payloads and
    nullable columns ([Any] in the source): their constructors, truth value,
    dictionary access, [str()], exact numeric conversions and the grammar of
    [decimal.Decimal(text)]. *)
From S2P Require Import Prelude.

(** A [float] is [m * 2^e], an infinity or a NaN. *)
Inductive pyfloat :=
| FFin (m e : Z)
| FInf (negative : bool)
| FNan.

(** A [Decimal] is [c * 10^e] (with its sign in [c]), an infinity or a NaN. *)
Inductive pydec :=
| DFin (c e : Z)
| DInf (negative : bool)
| DNan.

Inductive pyval :=
| PNone
| PBool (b : bool)
| PInt (z : Z)
| PFloat (f : pyfloat)
| PDec (d : pydec)
| PStr (s : string)
| PList (l : list pyval)
| PDict (d : list (string * pyval)).

#[export] Instance pyfloat_eq_dec : EqDecision pyfloat.
Proof. solve_decision. Defined.
#[export] Instance pydec_eq_dec : EqDecision pydec.
Proof. solve_decision. Defined.

Abbreviation pydict := (list (string * pyval)).

(** ** Dictionaries *)

(** [d.get(k)] distinguishing an absent key from a [None] value. *)
Fixpoint dict_lookup (k : string) (d : pydict) : option pyval :=
  match d with
  | [] => None
  | (k', v) :: d' => if decide (k = k') then Some v else dict_lookup k d'
  end.

(** [k in d] *)
Definition dict_mem (k : string) (d : pydict) : bool :=
  match dict_lookup k d with Some _ => true | None => false end.

(** [d.get(k, default)] *)
Definition dict_get_default (k : string) (default : pyval) (d : pydict) : pyval :=
  match dict_lookup k d with Some v => v | None => default end.

(** [d.get(k)] *)
Definition dict_get (k : string) (d : pydict) : pyval := dict_get_default k PNone d.

(** [v if isinstance(v, dict) else {}] *)
Definition as_dict (v : pyval) : pydict :=
  match v with PDict d => d | _ => [] end.

Definition is_dict (v : pyval) : bool := match v with PDict _ => true | _ => false end.
Definition is_list (v : pyval) : bool := match v with PList _ => true | _ => false end.
Definition is_none (v : pyval) : bool := match v with PNone => true | _ => false end.

(** [v == s] for a string constant [s]. *)
Definition is_str (v : pyval) (s : string) : bool :=
  match v with PStr t => str_eqb t s | _ => false end.

(** [bool(v)] *)
Definition truthy (v : pyval) : bool :=
  match v with
  | PNone => false
  | PBool b => b
  | PInt z => negb (z =? 0)
  | PFloat (FFin m _) => negb (m =? 0)
  | PFloat _ => true
  | PDec (DFin c _) => negb (c =? 0)
  | PDec _ => true
  | PStr s => negb (str_eqb s "")
  | PList l => match l with [] => false | _ => true end
  | PDict d => match d with [] => false | _ => true end
  end.

(** [a or b] *)
Definition py_or (a b : pyval) : pyval := if truthy a then a else b.

(** ** Numbers *)

(** [f.is_integer()] with [int(f)], for a finite float. *)
Definition float_int (m e : Z) : option Z :=
  if 0 <=? e then Some (m * 2 ^ e)
  else if m mod 2 ^ (- e) =? 0 then Some (m / 2 ^ (- e)) else None.

(** [d == d.to_integral_value()] with [int(d)], for a finite decimal. *)
Definition dec_int (c e : Z) : option Z :=
  if 0 <=? e then Some (c * 10 ^ e)
  else if c mod 10 ^ (- e) =? 0 then Some (c / 10 ^ (- e)) else None.

(** ** [Decimal(text)] *)

Definition digit_val (c : Ascii.ascii) : option Z :=
  let n := Z.of_nat (Ascii.nat_of_ascii c) in
  if (48 <=? n) && (n <=? 57) then Some (n - 48) else None.

(** Reads leading digits: their value, their number and the rest. *)
Fixpoint read_digits (acc : Z) (count : Z) (s : list Ascii.ascii)
  : Z * Z * list Ascii.ascii :=
  match s with
  | c :: s' =>
      match digit_val c with
      | Some d => read_digits (10 * acc + d) (count + 1) s'
      | None => (acc, count, s)
      end
  | [] => (acc, count, s)
  end.

Definition char_is (c : Ascii.ascii) (k : nat) : bool :=
  bool_decide (Ascii.nat_of_ascii c = k).

(** An optional sign: true for minus. *)
Definition read_sign (s : list Ascii.ascii) : bool * list Ascii.ascii :=
  match s with
  | c :: s' => if char_is c 45 then (true, s') else if char_is c 43 then (false, s') else (false, s)
  | [] => (false, s)
  end.

Definition signed (negative : bool) (z : Z) : Z := if negative then - z else z.

(** An optional exponent part up to the end of the text. *)
Definition read_exponent (s : list Ascii.ascii) : option Z :=
  match s with
  | [] => Some 0
  | c :: s' =>
      if char_is c 101 || char_is c 69 then
        let '(neg, s1) := read_sign s' in
        match read_digits 0 0 s1 with
        | (v, n, []) => if n =? 0 then None else Some (signed neg v)
        | _ => None
        end
      else None
  end.

Definition drop_underscores (s : list Ascii.ascii) : list Ascii.ascii :=
  List.filter (fun c => negb (char_is c 95)) s.

(** [Decimal(text)] for an already stripped text; [None] is [InvalidOperation].
    The grammar is the documented one over ASCII digits, with underscores
    removed, and with the named infinities and NaNs. *)
Definition decimal_of_text (s : string) : option pydec :=
  let '(neg, body) := read_sign (drop_underscores (chars s)) in
  let word := lower (text body) in
  if str_in word ["inf"; "infinity"] then Some (DInf neg)
  else if startswith "nan" word || startswith "snan" word then
    (let tail := if startswith "nan" word then drop 3 (chars word) else drop 4 (chars word) in
     match read_digits 0 0 tail with
     | (_, _, []) => Some DNan
     | _ => None
     end)
  else
    let '(ip, n1, s1) := read_digits 0 0 body in
    let '(v, n2, s2) :=
      match s1 with
      | c :: s1' => if char_is c 46 then read_digits ip 0 s1' else (ip, 0, s1)
      | [] => (ip, 0, s1)
      end in
    if n1 + n2 =? 0 then None
    else match read_exponent s2 with
         | Some ex => Some (DFin (signed neg v) (ex - n2))
         | None => None
         end.

(** [int(value)], [None] for a [TypeError] or a [ValueError] *)
Definition py_int (v : pyval) : option Z :=
  match v with
  | PInt z => Some z
  | PBool b => Some (Z.b2z b)
  | PFloat (FFin m e) => Some (if 0 <=? e then m * 2 ^ e else Z.quot m (2 ^ (- e)))
  | PStr s => match read_sign (drop_underscores (chars (strip s))) with
              | (neg, body) => match read_digits 0 0 body with
                               | (z, n, []) => if n =? 0 then None else Some (signed neg z)
                               | _ => None
                               end
              end
  | _ => None
  end.

(** ** [str(v)]

    Text, integers, booleans and [None] print as Python prints them; [repr_of]
    stands for the printer of floats, decimals and containers. *)
Section Str.
Variable repr_of : pyval -> string.

Definition py_str (v : pyval) : string :=
  match v with
  | PStr s => s
  | PInt z => str_of_Z z
  | PBool true => "True"
  | PBool false => "False"
  | PNone => "None"
  | _ => repr_of v
  end.
End Str.

Example decimal_ex1 : decimal_of_text "-12.50" = Some (DFin (-1250) (-2)).
Proof. vm_compute. reflexivity. Qed.
Example decimal_ex2 : decimal_of_text "1e3" = Some (DFin 1 3).
Proof. vm_compute. reflexivity. Qed.
Example decimal_ex3 : decimal_of_text "12x" = None.
Proof. vm_compute. reflexivity. Qed.
Example decimal_ex4 : decimal_of_text ".5" = Some (DFin 5 (-1)).
Proof. vm_compute. reflexivity. Qed.
Example decimal_ex5 : decimal_of_text "NaN" = Some DNan.
Proof. vm_compute. reflexivity. Qed.

(** An integral value is the only integer the scaled number can be. *)
Lemma float_int_exact m e z :
  float_int m e = Some z -> if 0 <=? e then z = m * 2 ^ e else m = z * 2 ^ (- e).
Proof.
  unfold float_int. destruct (0 <=? e) eqn:E; [by intros [= <-] |].
  destruct (m mod 2 ^ (- e) =? 0) eqn:Em; [|done]. intros [= <-]. bool_to_prop.
  rewrite (Z.mul_comm (m / _)). apply Z.div_exact; [|done].
  apply Z.pow_nonzero; lia.
Qed.

Lemma dec_int_exact c e z :
  dec_int c e = Some z -> if 0 <=? e then z = c * 10 ^ e else c = z * 10 ^ (- e).
Proof.
  unfold dec_int. destruct (0 <=? e) eqn:E; [by intros [= <-] |].
  destruct (c mod 10 ^ (- e) =? 0) eqn:Em; [|done]. intros [= <-]. bool_to_prop.
  rewrite (Z.mul_comm (c / _)). apply Z.div_exact; [|done].
  apply Z.pow_nonzero; lia.
Qed.
