(* ===== verification/Jobs.v ===== *)
(** * The synchronization control plane: tables

    The rows of [job_runs], [job_attempts], [component_heartbeats] and
    [job_events] (apps/api/dy_api/models.py) as the lease state machine of
    apps/worker/repositories.py and apps/worker/task_control.py reads and writes
    them.  Columns that no modelled operation touches (progress and memory
    counters, idempotency keys, creation stamps) are left out.  An instant is a
    number of microseconds in UTC, a business date a day number. *)
From S2P Require Import Prelude PyValue.

Abbreviation instant := Z.
Abbreviation day := Z.

Definition seconds (n : Z) : Z := n * 1000000.

(** [job_runs.status] *)
Inductive job_status :=
| Pending | Queued | Running | RetryWait | Success | Succeeded | Partial | Failed | Cancelled.

#[export] Instance job_status_eq_dec : EqDecision job_status.
Proof. solve_decision. Defined.

(** [job_runs.job_kind] *)
Inductive job_kind_t :=
| RangeSync | ParentSync | DateSync | Finalize | ProductSync.

#[export] Instance job_kind_eq_dec : EqDecision job_kind_t.
Proof. solve_decision. Defined.

(** [job_attempts.exit_type] *)
Inductive exit_type_t :=
| ExitSuccess | ExitRetryableFailure | ExitFatalFailure | ExitCancelled
| ExitCrashed | ExitResourceGuard.

#[export] Instance exit_type_eq_dec : EqDecision exit_type_t.
Proof. solve_decision. Defined.

(** [component_heartbeats.status] *)
Inductive component_status_t :=
| Starting | Healthy | Degraded | Draining | Unhealthy | Stopped.

#[export] Instance component_status_eq_dec : EqDecision component_status_t.
Proof. solve_decision. Defined.

Record JobRun := MkJobRun {
  job_id : string;
  job_name : string;
  status : job_status;
  finished_at : option instant;
  success_count : Z;
  failed_count : Z;
  error_message : option string;
  metadata_json : pyval;
  parent_job_id : option string;
  job_kind : option job_kind_t;
  execution_slot : option string;
  business_date : option day;
  data_source : option string;
  config_version : option string;
  window_start : option instant;
  window_end : option instant;
  current_stage : option string;
  attempt_count : option Z;
  max_attempts : option Z;
  quota_pause_count : option Z;
  lease_owner : option string;
  lease_epoch : option Z;
  lease_expires_at : option instant;
  heartbeat_at : option instant;
  next_retry_at : option instant;
  error_code : option string;
  error_summary : option string;
  cancel_requested_at : option instant;
  pause_after_stage_requested_at : option instant;
}.

#[export] Instance eta_JobRun : Eta JobRun := fun j =>
  MkJobRun (job_id j) (job_name j) (status j) (finished_at j) (success_count j)
    (failed_count j) (error_message j) (metadata_json j) (parent_job_id j) (job_kind j)
    (execution_slot j) (business_date j) (data_source j) (config_version j)
    (window_start j) (window_end j) (current_stage j) (attempt_count j) (max_attempts j)
    (quota_pause_count j) (lease_owner j) (lease_epoch j) (lease_expires_at j)
    (heartbeat_at j) (next_retry_at j) (error_code j) (error_summary j)
    (cancel_requested_at j) (pause_after_stage_requested_at j).

Record JobAttempt := MkJobAttempt {
  at_attempt_id : string;
  at_job_id : string;
  at_attempt_number : Z;
  at_lease_epoch : Z;
  at_component_type : string;
  at_component_instance_id : string;
  at_started_at : instant;
  at_finished_at : option instant;
  at_exit_type : option exit_type_t;
  at_exit_code : option Z;
  at_rss_peak_bytes : option Z;
  at_error_code : option string;
  at_error_summary : option string;
}.

#[export] Instance eta_JobAttempt : Eta JobAttempt := fun a =>
  MkJobAttempt (at_attempt_id a) (at_job_id a) (at_attempt_number a) (at_lease_epoch a)
    (at_component_type a) (at_component_instance_id a) (at_started_at a)
    (at_finished_at a) (at_exit_type a) (at_exit_code a) (at_rss_peak_bytes a)
    (at_error_code a) (at_error_summary a).

Record ComponentHeartbeat := MkComponentHeartbeat {
  ch_component_instance_id : string;
  ch_component_type : string;
  ch_status : component_status_t;
  ch_started_at : instant;
  ch_last_heartbeat_at : instant;
  ch_current_job_id : option string;
  ch_current_attempt_id : option string;
  ch_updated_at : instant;
}.

#[export] Instance eta_ComponentHeartbeat : Eta ComponentHeartbeat := fun c =>
  MkComponentHeartbeat (ch_component_instance_id c) (ch_component_type c) (ch_status c)
    (ch_started_at c) (ch_last_heartbeat_at c) (ch_current_job_id c)
    (ch_current_attempt_id c) (ch_updated_at c).

(** The random [event_id] is not kept: no code reads it. *)
Record JobEvent := MkJobEvent {
  ev_job_id : string;
  ev_attempt_id : option string;
  ev_event_type : string;
  ev_from_status : option job_status;
  ev_to_status : option job_status;
  ev_actor_type : string;
  ev_actor_id : option string;
  ev_reason : option string;
  ev_idempotency_key : option string;
  ev_payload_json : pydict;
  ev_occurred_at : instant;
}.

(** The database: the primary-key tables as maps, the attempt history as rows in
    insertion order, the audit log newest last. *)
Record db := MkDb {
  job_runs : gmap string JobRun;
  job_attempts : list JobAttempt;
  component_heartbeats : gmap string ComponentHeartbeat;
  job_events : list JobEvent;
}.

#[export] Instance eta_db : Eta db := fun d =>
  MkDb (job_runs d) (job_attempts d) (component_heartbeats d) (job_events d).

(** [UPDATE ... WHERE p SET f] over a list table, with its row count. *)
Definition update_where {A} (p : A -> bool) (f : A -> A) (rows : list A) : list A * Z :=
  ((fun a => if p a then f a else a) <$> rows,
   Z.of_nat (length (filter (fun a => p a = true) rows))).

(** Writes one job row back ([session.flush] of a mutated row). *)
Definition put_job (j : JobRun) (d : db) : db :=
  d <| job_runs := <[job_id j := j]> (job_runs d) |>.

Definition put_component (c : ComponentHeartbeat) (d : db) : db :=
  d <| component_heartbeats := <[ch_component_instance_id c := c]> (component_heartbeats d) |>.

(** [_add_job_event]: the actor is the worker when there is an actor id, the
    system otherwise. *)
Definition add_job_event (jid : string) (attempt_id : option string) (event_type : string)
    (from_status to_status : option job_status) (actor_id : option string)
    (occurred_at : instant) (reason : option string) (payload : pydict) (d : db) : db :=
  d <| job_events := job_events d ++
        [MkJobEvent jid attempt_id event_type from_status to_status
           (match actor_id with Some _ => "worker" | None => "system" end)
           actor_id reason None payload occurred_at] |>.
