(* ===== verification/Claims.v ===== *)
(** * Fenced claims on the heavy synchronization slot

    apps/worker/repositories.py: which row may be claimed, in which order the
    candidates are tried, the inspection that fences a malformed row, and the
    claim, heartbeat, completion, failure and cancellation of a lease.  Every
    function takes the database and returns the new one; a raised exception
    aborts the caller's transaction, so it carries no database. *)
From S2P Require Import Prelude PyValue Jobs.

Definition DOUYIN_RATE_LIMIT_ERROR_CODE : string := "douyin_rate_limited".
Definition MAX_CONTROL_HISTORY_ROWS : Z := 10000.
Definition PRIORITY_DAILY_CONFIG_VERSION : string := "priority-daily-v1".
Definition DAILY_REQUIRED_PURPOSE : string := "daily_required".
Definition SCHEDULER_PAUSE_MARKERS : list string :=
  ["priority_budget_pause"; "worker_resource_pause"].

(** ** Admission *)

Definition is_priority_resource_config (config_version : option string) : bool :=
  match config_version with
  | Some c =>
      str_eqb c PRIORITY_DAILY_CONFIG_VERSION
      || startswith (PRIORITY_DAILY_CONFIG_VERSION +:+ "-dimensions-") c
      || startswith (PRIORITY_DAILY_CONFIG_VERSION +:+ "-recovery") c
  | None => false
  end.

(** A sampled resource decision, seen through [_resource_action_value]: the text
    of its action, [None] when the action is not text. *)
Abbreviation resource_decision := (option (option string)).

Definition resource_action_value (r : resource_decision) : option string :=
  match r with
  | None => None
  | Some action => action
  end.

Definition resource_admission_allows_job (j : JobRun) (r : resource_decision) : bool :=
  match r with
  | None => true
  | Some _ =>
      let action := resource_action_value r in
      if opt_is action "allow" then true
      else if negb (opt_is action "drain") then false
      else is_priority_resource_config (config_version j)
           && is_str (dict_get "priority_purpose" (as_dict (metadata_json j)))
                DAILY_REQUIRED_PURPOSE
  end.

(** A row that occupies the heavy slot's writers: the slot itself, or a legacy
    settlement rebuild, which has no slot. *)
Definition heavy_writer (j : JobRun) : bool :=
  opt_is (execution_slot j) "heavy_sync" || str_eqb (job_name j) "settlement_rebuild".

Definition job_rows (d : db) : list JobRun := (map_to_list (job_runs d)).*2.

(** [no_other_running_heavy_job()] evaluated on row [j]. *)
Definition no_other_running_heavy_job (d : db) (j : JobRun) : bool :=
  forallb (fun o =>
    negb (negb (str_eqb (job_id o) (job_id j))
          && bool_decide (status o = Running) && heavy_writer o)) (job_rows d).

Definition heavy_sync_rate_limit_cooldown_active (d : db) (now : instant) : bool :=
  existsb (fun j =>
    heavy_writer j && bool_decide (status j = RetryWait)
    && opt_is (error_code j) DOUYIN_RATE_LIMIT_ERROR_CODE
    && match next_retry_at j with Some t => now <? t | None => false end) (job_rows d).

(** ** The order in which candidates are tried *)

Abbreviation order_key := (Z * Z * Z * option day * string)%type.

Definition heavy_claim_order_key (j : JobRun) : order_key :=
  (if opt_is (job_kind j) ParentSync then 0 else 1,
   if bool_decide (status j = Running) then 0 else 1,
   match business_date j with None => 0 | Some _ => 1 end,
   business_date j,
   job_id j).

Definition str_ltb (a b : string) : bool := negb (String.leb b a).

(** [_heavy_claim_after_key]: row [j] comes strictly after [last_key]. *)
Definition heavy_claim_after_key (last_key : order_key) (j : JobRun) : bool :=
  let '(last_kind, last_status, last_date_null, last_date, last_job_id) := last_key in
  let '(kind_priority, status_priority, date_null_priority, bdate, jid) :=
    heavy_claim_order_key j in
  let same_kind := kind_priority =? last_kind in
  let same_status := same_kind && (status_priority =? last_status) in
  let same_date_null := same_status && (date_null_priority =? last_date_null) in
  let date_after :=
    match last_date with
    | None =>
        (same_status && (last_date_null <? date_null_priority))
        || (same_date_null && bool_decide (bdate = None) && str_ltb last_job_id jid)
    | Some ld =>
        (same_status && (last_date_null <? date_null_priority))
        || (same_date_null && match bdate with Some b => ld <? b | None => false end)
        || (same_date_null && match bdate with Some b => b =? ld | None => false end
            && str_ltb last_job_id jid)
    end in
  (last_kind <? kind_priority)
  || (same_kind && (last_status <? status_priority))
  || date_after.

(** [SELECT ... ORDER BY key LIMIT 1]: the row no other row precedes. *)
Definition first_by_key (rows : list JobRun) : option JobRun :=
  fold_right (fun j best =>
    match best with
    | None => Some j
    | Some b => if heavy_claim_after_key (heavy_claim_order_key b) j then Some b else Some j
    end) None rows.

Record ClaimedJobRecord := MkClaimedJobRecord {
  cl_job_id : string;
  cl_attempt_id : string;
  cl_attempt_number : Z;
  cl_lease_owner : string;
  cl_lease_epoch : Z;
  cl_component_instance_id : string;
  cl_business_date : option day;
  cl_current_stage : string;
}.

Record ActiveExecutionState := MkActiveExecutionState {
  ae_attempt_number : Z;
  ae_max_attempts : Z;
  ae_quota_pause_count : Z;
}.

(** ** Inspection of the control history *)

Record ExpiredRunningControlState := MkControlState {
  cs_attempts : list JobAttempt;
  cs_unfinished_attempts : list JobAttempt;
  cs_current_token_attempt : option JobAttempt;
  cs_current_token_binding_valid : bool;
  cs_reasons : list string;
  cs_counter_anomaly : bool;
  cs_history_anomaly : bool;
  cs_observed_attempt_count : Z;
  cs_observed_max_attempt_number : option Z;
  cs_observed_max_lease_epoch : option Z;
}.

(** [ORDER BY attempt_number, attempt_id] *)
Definition attempt_le (a b : JobAttempt) : Prop :=
  at_attempt_number a < at_attempt_number b
  \/ (at_attempt_number a = at_attempt_number b
      /\ String.le (at_attempt_id a) (at_attempt_id b)).

#[export] Instance attempt_le_dec a b : Decision (attempt_le a b).
Proof. unfold attempt_le. apply _. Defined.

Definition attempts_of (jid : string) (d : db) : list JobAttempt :=
  merge_sort attempt_le (filter (fun a => at_job_id a = jid) (job_attempts d)).

Definition unfinished (a : JobAttempt) : bool := bool_decide (at_finished_at a = None).

(** A finished attempt that yielded to the scheduler. *)
Definition pause_attempt (a : JobAttempt) : bool :=
  negb (unfinished a)
  && match at_error_code a with Some e => str_in e SCHEDULER_PAUSE_MARKERS | None => false end.

(** [dict.fromkeys(l)]: the first occurrence of each element, in order. *)
Fixpoint fromkeys (seen l : list string) : list string :=
  match l with
  | [] => []
  | x :: l' => if decide (x ∈ seen) then fromkeys seen l' else x :: fromkeys (x :: seen) l'
  end.

(** [max(l, default=None)] *)
Definition max_list (l : list Z) : option Z :=
  match l with
  | [] => None
  | x :: l' => Some (fold_left Z.max l' x)
  end.

(** [[r] if b else []], for [if b: reasons.append(r)]. *)
Definition reason_if (b : bool) (r : string) : list string := if b then [r] else [].

(** The component row of an attempt: same instance and same type. *)
Definition component_of (a : JobAttempt) (d : db) : option ComponentHeartbeat :=
  match component_heartbeats d !! at_component_instance_id a with
  | Some c => if decide (ch_component_type c = at_component_type a) then Some c else None
  | None => None
  end.

Definition bound_to (a : JobAttempt) (c : ComponentHeartbeat) : bool :=
  opt_is (ch_current_job_id c) (at_job_id a) && opt_is (ch_current_attempt_id c) (at_attempt_id a).

Definition non_running_ready (s : job_status) : bool :=
  bool_decide (s = Pending) || bool_decide (s = RetryWait).

Definition falsy_text (o : option string) : bool :=
  match o with None => true | Some s => str_eqb s "" end.

(** [_inspect_expired_running_control] *)
Definition inspect_expired_running_control (d : db) (j : JobRun) : ExpiredRunningControlState :=
  let n := or0 (attempt_count j) in
  let history_limit := Z.min (Z.max (n + 1) 1) MAX_CONTROL_HISTORY_ROWS in
  let attempts := take (Z.to_nat history_limit) (attempts_of (job_id j) d) in
  let unfinished_attempts := List.filter unfinished attempts in
  let q := or0 (quota_pause_count j) in
  let maxa := or_int (max_attempts j) 3 in
  let epoch := or0 (lease_epoch j) in
  let observed_numbers := at_attempt_number <$> attempts in
  let observed_epochs := at_lease_epoch <$> attempts in
  let expected := seqZ 1 n in
  let non_contiguous :=
    negb (bool_decide (merge_sort Z.le observed_numbers = expected))
    || negb (bool_decide (merge_sort Z.le observed_epochs = expected))
    || existsb (fun a => negb (at_attempt_number a =? at_lease_epoch a)) attempts in
  let bad_type := existsb (fun a => negb (str_eqb (at_component_type a) "worker")) attempts in
  let pause_attempts :=
    Z.of_nat (length (List.filter pause_attempt attempts)) in
  let expected_pauses := if is_priority_resource_config (config_version j) then q else 0 in
  let pause_mismatch :=
    (n + 1 <=? MAX_CONTROL_HISTORY_ROWS) && negb (pause_attempts =? expected_pauses) in
  let counter_reasons :=
    reason_if (q <? 0) "quota_pause_count_invalid"
    ++ reason_if ((maxa <? 1) || (3 <? maxa)) "max_attempts_invalid"
    ++ reason_if ((n <? 0) || (maxa + Z.max q 0 <? n)) "attempt_count_invalid"
    ++ reason_if (n <? q) "quota_pause_count_exceeds_attempt_count"
    ++ reason_if (MAX_CONTROL_HISTORY_ROWS <? n + 1) "attempt_history_exceeds_safety_limit"
    ++ reason_if (negb (epoch =? n)) "lease_epoch_counter_mismatch"
    ++ reason_if (negb (Z.of_nat (length attempts) =? n)) "attempt_row_count_mismatch"
    ++ reason_if non_contiguous "attempt_history_non_contiguous"
    ++ reason_if bad_type "history_component_type_invalid"
    ++ reason_if pause_mismatch "quota_pause_count_history_mismatch" in
  let owner_blank := match lease_owner j with Some o => blank o | None => true end in
  let status_reasons :=
    if decide (status j = Running) then
      reason_if owner_blank "lease_owner_missing"
      ++ reason_if (epoch <=? 0) "lease_epoch_invalid"
      ++ (match unfinished_attempts with
          | [] => ["unfinished_attempt_missing"]
          | [_] => []
          | _ => ["multiple_unfinished_attempts"]
          end)
    else match unfinished_attempts with
         | _ :: _ => ["unfinished_attempt_unexpected"]
         | [] => reason_if (non_running_ready (status j)
                            && (negb (bool_decide (lease_owner j = None))
                                || negb (bool_decide (lease_expires_at j = None))))
                   "active_lease_on_non_running"
         end in
  let negative_epoch_reasons :=
    if epoch <? 0 then
      ["lease_epoch_invalid"]
      ++ reason_if (non_running_ready (status j) && falsy_text (lease_owner j)) "lease_owner_missing"
      ++ (if non_running_ready (status j) && bool_decide (unfinished_attempts = [])
          then ["unfinished_attempt_missing"; "current_token_attempt_missing"] else [])
    else [] in
  let current := List.find (fun a => at_lease_epoch a =? epoch) unfinished_attempts in
  let current_missing :=
    reason_if (bool_decide (status j = Running) && bool_decide (current = None))
      "current_token_attempt_missing" in
  let '(binding_valid, binding_reasons) :=
    match current with
    | None => (false, [])
    | Some a =>
        match component_of a d with
        | None => (false, ["current_token_component_missing"])
        | Some c =>
            (bound_to a c,
             if negb (str_eqb (at_component_type a) "worker") then ["component_type_invalid"]
             else reason_if (negb (bound_to a c)) "current_token_component_binding_mismatch")
        end
    end in
  let stale :=
    existsb (fun a =>
      negb (unfinished a)
      && match component_of a d with Some c => bound_to a c | None => false end) attempts in
  {| cs_attempts := attempts;
     cs_unfinished_attempts := unfinished_attempts;
     cs_current_token_attempt := current;
     cs_current_token_binding_valid := binding_valid;
     cs_reasons := fromkeys []
       (counter_reasons ++ status_reasons ++ negative_epoch_reasons ++ current_missing
        ++ binding_reasons ++ reason_if stale "finished_attempt_component_binding_stale");
     cs_counter_anomaly :=
       (q <? 0) || ((maxa <? 1) || (3 <? maxa)) || ((n <? 0) || (maxa + Z.max q 0 <? n))
       || (n <? q) || negb (epoch =? n) || negb (Z.of_nat (length attempts) =? n)
       || pause_mismatch;
     cs_history_anomaly :=
       (MAX_CONTROL_HISTORY_ROWS <? n + 1) || non_contiguous || bad_type || stale;
     cs_observed_attempt_count := Z.of_nat (length attempts);
     cs_observed_max_attempt_number := max_list observed_numbers;
     cs_observed_max_lease_epoch := max_list observed_epochs |}.

(** ** Closing attempts and releasing components *)

(** Writes an attempt row back, by primary key. *)
Definition put_attempt (a : JobAttempt) (d : db) : db :=
  d <| job_attempts := (fun b => if decide (at_attempt_id b = at_attempt_id a) then a else b)
                        <$> job_attempts d |>.

(** [_attempt_finished_timestamp] *)
Definition attempt_finished_timestamp (started_at database_now : instant) : instant * bool :=
  if database_now <? started_at then (started_at, true) else (database_now, false).

(** [UPDATE component_heartbeats ... WHERE] the component of [a] is bound to [a]:
    the new database and the row count. *)
Definition release_bound_component (a : JobAttempt) (st : component_status_t)
    (database_now : instant) (d : db) : db * Z :=
  match component_of a d with
  | Some c =>
      if bound_to a c then
        (put_component (c <| ch_status := st |> <| ch_current_job_id := None |>
                          <| ch_current_attempt_id := None |>
                          <| ch_updated_at := database_now |>) d, 1)
      else (d, 0)
  | None => (d, 0)
  end.

Definition quarantine_summary : string :=
  "job failed closed after control-plane identity validation".

(** One turn of the quarantine loop: close the attempt when it is open, release
    its component when it is bound to it; counts closed, released, anomalies. *)
Definition quarantine_attempt (database_now : instant) (acc : db * Z * Z * Z) (a : JobAttempt)
  : db * Z * Z * Z :=
  let '(d, closed, released, anomalies) := acc in
  let '(d1, closed1, anomalies1) :=
    if unfinished a then
      let '(fin, anomaly) := attempt_finished_timestamp (at_started_at a) database_now in
      (put_attempt (a <| at_finished_at := Some fin |>
                      <| at_exit_type := Some ExitFatalFailure |>
                      <| at_error_code := Some "control_plane_identity_invalid" |>
                      <| at_error_summary := Some quarantine_summary |>) d,
       closed + 1, anomalies + (if anomaly then 1 else 0))
    else (d, closed, anomalies) in
  let '(d2, n) := release_bound_component a Degraded database_now d1 in
  (d2, closed1, released + n, anomalies1).

(** [_quarantine_invalid_expired_running_job] *)
Definition quarantine_invalid_expired_running_job (d : db) (j : JobRun)
    (database_now : instant) (control_state : option ExpiredRunningControlState)
    (require_expired : bool) : result db :=
  if require_expired
     && (negb (bool_decide (status j = Running))
         || match lease_expires_at j with None => true | Some t => database_now <? t end)
  then Raise (RuntimeError "invalid quarantine target is not an expired running job")
  else
    let cs := match control_state with
              | Some c => c
              | None => inspect_expired_running_control d j
              end in
    let all_attempts := attempts_of (job_id j) d in
    let all_unfinished := List.filter unfinished all_attempts in
    let current := List.find (fun a => at_lease_epoch a =? or0 (lease_epoch j)) all_unfinished in
    let binding_valid :=
      match current with
      | Some a =>
          if match cs_current_token_attempt cs with
             | None => true
             | Some b => negb (str_eqb (at_attempt_id a) (at_attempt_id b))
             end
          then match component_of a d with Some c => bound_to a c | None => false end
          else cs_current_token_binding_valid cs
      | None => cs_current_token_binding_valid cs
      end in
    let '(d1, closed, released, anomalies) :=
      fold_left (quarantine_attempt database_now) all_attempts (d, 0, 0, 0) in
    let kept := List.filter (fun r =>
      negb (str_eqb r "current_token_attempt_missing" && bool_decide (is_Some current)))
      (cs_reasons cs) in
    let kept1 := kept ++
      reason_if (match current with
                 | Some a => negb (str_eqb (at_component_type a) "worker")
                 | None => false end
                 && negb (str_in "component_type_invalid" kept)) "component_type_invalid" in
    let kept2 := kept1 ++
      reason_if (bool_decide (is_Some current) && negb binding_valid
                 && negb (str_in "current_token_component_binding_mismatch" kept1))
        "current_token_component_binding_mismatch" in
    let j1 := j <| status := Failed |>
                <| failed_count := Z.max (failed_count j) 1 |>
                <| finished_at := Some database_now |>
                <| lease_owner := None |>
                <| lease_expires_at := None |>
                <| heartbeat_at := None |>
                <| next_retry_at := None |>
                <| error_code := Some "control_plane_identity_invalid" |>
                <| error_summary := Some quarantine_summary |>
                <| error_message := Some quarantine_summary |> in
    Ok (add_job_event (job_id j) (at_attempt_id <$> current) "job_quarantined"
          (Some (status j)) (Some Failed) None database_now (Some quarantine_summary)
          [("error_code", PStr "control_plane_identity_invalid");
           ("expired_lease_epoch", PInt (or0 (lease_epoch j)));
           ("attempt_present", PBool (negb (bool_decide (all_unfinished = []))));
           ("closed_attempt_count", PInt closed);
           ("released_component_count", PInt released);
           ("missing_attempt", PBool (bool_decide (current = None)));
           ("current_token_attempt_missing", PBool (bool_decide (current = None)));
           ("current_token_binding_mismatch",
             PBool (bool_decide (is_Some current) && negb binding_valid));
           ("timestamp_anomaly", PBool (0 <? anomalies));
           ("timestamp_anomaly_attempt_count", PInt anomalies);
           ("control_state_reasons", PList (PStr <$> kept2));
           ("counter_anomaly", PBool (cs_counter_anomaly cs));
           ("history_anomaly", PBool (cs_history_anomaly cs));
           ("observed_attempt_count",
             PInt (Z.max (cs_observed_attempt_count cs) (Z.of_nat (length all_attempts))));
           ("observed_max_attempt_number",
             PInt (Z.max (or0 (cs_observed_max_attempt_number cs))
                     (or0 (max_list (at_attempt_number <$> all_attempts)))));
           ("observed_max_lease_epoch",
             PInt (Z.max (or0 (cs_observed_max_lease_epoch cs))
                     (or0 (max_list (at_lease_epoch <$> all_attempts)))))]
          (put_job j1 d1)).

(** [_preserve_previous_error] on an attempt row, which has no metadata. *)
Definition preserve_previous_error_attempt (a : JobAttempt) (new_summary : string) : JobAttempt :=
  let previous := strip (default "" (at_error_summary a)) in
  let summary :=
    if negb (str_eqb previous "") && negb (str_eqb previous new_summary)
    then (new_summary +:+ "; previous: " +:+ previous)%string else new_summary in
  a <| at_error_summary := Some summary |>.

(** [metadata.setdefault(k, v)] *)
Definition dict_setdefault (k : string) (v : pyval) (m : pydict) : pydict :=
  if dict_mem k m then m else m ++ [(k, v)].

(** [_preserve_previous_error] on a job row, whose metadata keeps the old text. *)
Definition preserve_previous_error_job (j : JobRun) (new_summary : string) : JobRun :=
  let previous := strip (default "" (error_summary j)) in
  if negb (str_eqb previous "") && negb (str_eqb previous new_summary) then
    match as_dict (metadata_json j) with
    | [] => j <| error_summary := Some (new_summary +:+ "; previous: " +:+ previous)%string |>
    | metadata =>
        j <| metadata_json :=
              PDict (dict_setdefault "previous_error_summary" (PStr previous) metadata) |>
          <| error_summary := Some new_summary |>
    end
  else j <| error_summary := Some new_summary |>.

(** [_close_expired_attempt] *)
Definition close_expired_attempt (d : db) (a : JobAttempt) (database_now : instant) : db :=
  let '(fin, anomaly) := attempt_finished_timestamp (at_started_at a) database_now in
  let a1 := preserve_previous_error_attempt
              (a <| at_finished_at := Some fin |> <| at_exit_type := Some ExitCrashed |>
                 <| at_error_code := Some "lease_expired" |>)
              "lease expired before the attempt completed" in
  let '(d1, released) := release_bound_component a Degraded database_now (put_attempt a1 d) in
  add_job_event (at_job_id a) (Some (at_attempt_id a)) "lease_expired" (Some Running)
    (Some Running) None database_now (Some "lease expired before completion")
    [("expired_lease_epoch", PInt (at_lease_epoch a));
     ("released_component_count", PInt released);
     ("timestamp_anomaly", PBool anomaly)] d1.

(** [_fail_job_after_exhausted_crash] *)
Definition fail_job_after_exhausted_crash (d : db) (j : JobRun) (a : JobAttempt)
    (database_now : instant) (maxa q : Z) : db :=
  let j1 := preserve_previous_error_job
              (j <| status := Failed |> <| failed_count := 1 |>
                 <| finished_at := Some database_now |> <| lease_owner := None |>
                 <| lease_expires_at := None |> <| next_retry_at := None |>
                 <| error_code := Some "max_attempts_exhausted_after_crash" |>)
              "lease expired after the final permitted attempt" in
  let j2 := j1 <| error_message := error_summary j1 |> in
  add_job_event (job_id j) (Some (at_attempt_id a)) "job_failed" (Some Running) (Some Failed)
    None database_now (error_summary j2)
    [("error_code", PStr "max_attempts_exhausted_after_crash");
     ("max_attempts", PInt maxa);
     ("quota_pause_count", PInt q);
     ("effective_attempts", PInt (Z.max 0 (or0 (attempt_count j) - q)))]
    (put_job j2 d).

(** [_finish_attempt]: exactly one open row of the token must be there. *)
Definition finish_attempt (d : db) (jid : string) (epoch : Z) (aid : string)
    (fin : instant) (ex : exit_type_t) (code summary : option string) : result db :=
  let '(rows, n) :=
    update_where (fun a => str_eqb (at_job_id a) jid && (at_lease_epoch a =? epoch)
                           && str_eqb (at_attempt_id a) aid && unfinished a)
      (fun a => a <| at_finished_at := Some fin |> <| at_exit_type := Some ex |>
                  <| at_error_code := code |> <| at_error_summary := summary |>)
      (job_attempts d) in
  if n =? 1 then Ok (d <| job_attempts := rows |>)
  else Raise (RuntimeError "active lease has no matching unfinished attempt").

(** The worker component bound to this execution. *)
Definition bound_worker (d : db) (cid jid aid : string) : option ComponentHeartbeat :=
  match component_heartbeats d !! cid with
  | Some c =>
      if str_eqb (ch_component_type c) "worker" && opt_is (ch_current_job_id c) jid
         && opt_is (ch_current_attempt_id c) aid
      then Some c else None
  | None => None
  end.

(** [_release_component_attempt] *)
Definition release_component_attempt (d : db) (cid jid aid : string)
    (database_now : instant) (st : component_status_t) : result db :=
  match bound_worker d cid jid aid with
  | Some c =>
      Ok (put_component (c <| ch_status := st |> <| ch_current_job_id := None |>
                           <| ch_current_attempt_id := None |>
                           <| ch_updated_at := database_now |>) d)
  | None => Raise (RuntimeError "active attempt is not bound to the claimed worker component")
  end.

(** [_lock_worker_component] *)
Definition lock_worker_component (d : db) (cid : string) (previous : option JobAttempt)
  : result (option ComponentHeartbeat) :=
  match component_heartbeats d !! cid with
  | None => Ok None
  | Some c =>
      if negb (str_eqb (ch_component_type c) "worker")
      then Raise (RuntimeError "component instance is registered with a non-worker type")
      else if bool_decide (ch_current_job_id c = None)
              && bool_decide (ch_current_attempt_id c = None) then Ok (Some c)
      else match previous with
           | Some a =>
               if bound_to a c then Ok (Some c)
               else Raise (RuntimeError "worker component is already bound to another execution")
           | None => Raise (RuntimeError "worker component is already bound to another execution")
           end
  end.

(** [_prepare_worker_component] *)
Definition prepare_worker_component (cid : string) (database_now : instant)
    (existing : option ComponentHeartbeat) : ComponentHeartbeat :=
  match existing with
  | None => MkComponentHeartbeat cid "worker" Healthy database_now database_now None None
              database_now
  | Some c => c <| ch_status := Healthy |> <| ch_last_heartbeat_at := database_now |>
                <| ch_updated_at := database_now |>
  end.

(** [_lock_expired_attempt] *)
Definition lock_expired_attempt (d : db) (jid : string) (epoch : Z) : result JobAttempt :=
  match List.find (fun a => str_eqb (at_job_id a) jid && (at_lease_epoch a =? epoch)
                            && unfinished a) (job_attempts d) with
  | Some a => Ok a
  | None => Raise (RuntimeError "expired fenced job has no matching attempt record")
  end.

(** ** The parent gate *)

Section Gate.
(** [validate_parent_sync_execution_identity] and
    [validate_parent_sync_child_identity] of apps/worker/daily_windows.py. *)
Variables validate_execution validate_child : db -> JobRun -> bool.

Definition str_list_of (v : pyval) : option (list string) :=
  match v with
  | PList l => mapM (fun x => match x with PStr s => Some s | _ => None end) l
  | _ => None
  end.

(** [metadata.get("required_stages") == ["finalize"]] *)
Definition required_stages_is_finalize (v : pyval) : bool :=
  match v with PList [x] => is_str x "finalize" | _ => false end.

Definition truthy_text (o : option string) : bool := negb (falsy_text o).

Definition parent_sync_gate_allows_claim (d : db) (j : JobRun) : bool :=
  if opt_is (job_kind j) ParentSync then validate_execution d j
  else if opt_is (job_kind j) Finalize then
    let metadata := as_dict (metadata_json j) in
    if negb (str_eqb (job_name j) "finalize")
       || negb (opt_is (execution_slot j) "heavy_sync")
       || negb (bool_decide (business_date j = None))
       || falsy_text (parent_job_id j)
       || negb (match parent_job_id j with
                | Some p => is_str (dict_get "parent_job_id" metadata) p
                | None => false end)
       || negb (is_str (dict_get "target" metadata) "all"
                || is_str (dict_get "target" metadata) "settlement")
       || negb (required_stages_is_finalize (dict_get "required_stages" metadata))
       || negb (is_list (dict_get "settle_stage_fences" metadata))
    then false
    else match parent_job_id j with
         | Some p =>
             match job_runs d !! p with
             | Some parent =>
                 opt_is (job_kind parent) RangeSync
                 && negb (bool_decide (status parent ∈ [Success; Failed; Cancelled]))
                 && bool_decide (data_source parent = data_source j)
                 && bool_decide (config_version parent = config_version j)
                 && bool_decide (window_start parent = window_start j)
                 && bool_decide (window_end parent = window_end j)
             | None => false
             end
         | None => false
         end
  else if negb (opt_is (job_kind j) DateSync) then true
  else match parent_job_id j with
       | None => false
       | Some p =>
           if str_eqb p "" then false
           else if negb (validate_child d j) then false
           else match job_runs d !! p with
                | Some parent =>
                    if negb (opt_is (job_kind parent) RangeSync) then false
                    else match str_list_of (dict_get "parent_targets"
                                              (as_dict (metadata_json parent))) with
                         | None => false
                         | Some [] => true
                         | Some _ =>
                             match List.filter (fun r =>
                                     opt_is (parent_job_id r) (job_id parent)
                                     && opt_is (job_kind r) ParentSync) (job_rows d) with
                             | [r] => bool_decide (status r = Success)
                             | _ => false
                             end
                         end
                | None => false
                end
       end.
End Gate.

(** ** Claiming *)

(** What the rest of the system decides during one claim call: the advisory
    locks, the rows that [SKIP LOCKED] passes over at each scan, the clock at
    each statement, the fresh attempt identity. *)
Record claim_env := MkClaimEnv {
  ce_global_lock : bool;
  ce_cooldown_now : instant;
  ce_row_locked : nat -> string -> bool;
  ce_date_lock : nat -> day -> string -> string -> bool;
  ce_statement_now : nat -> instant;
  ce_clock_now : nat -> instant;
  ce_claim_now : instant;
  ce_attempt_id : string;
}.

Definition lease_expired_at (now : instant) (j : JobRun) : bool :=
  bool_decide (status j = Running)
  && match lease_expires_at j with Some t => t <=? now | None => false end.

(** [ready_to_start] *)
Definition ready_to_start (now : instant) (j : JobRun) : bool :=
  (bool_decide (status j = Pending)
   || (bool_decide (status j = RetryWait)
       && match next_retry_at j with Some t => t <=? now | None => false end))
  && (default 0 (attempt_count j)
      <? default 3 (max_attempts j) + default 0 (quota_pause_count j)).

Definition successful_parent_exists (d : db) (j : JobRun) : bool :=
  existsb (fun p =>
    match parent_job_id p, parent_job_id j with
    | Some a, Some b => str_eqb a b
    | _, _ => false
    end
    && opt_is (job_kind p) ParentSync
    && bool_decide (status p = Success)
    && opt_is (execution_slot p) "heavy_sync"
    && bool_decide (business_date p = None)
    && match data_source p, data_source j with Some a, Some b => str_eqb a b | _, _ => false end
    && match config_version p, config_version j with
       | Some a, Some b => str_eqb a b | _, _ => false end) (job_rows d).

(** The SQL predicates of one scan. *)
Definition claimable (d : db) (now : instant) (kinds : list job_kind_t)
    (only : option string) (j : JobRun) : bool :=
  let targets := dict_lookup "parent_targets" (as_dict (metadata_json j)) in
  let shape_valid := match targets with None => true | Some v => is_list v end in
  let empty := match targets with
               | None => true
               | Some (PList []) => true
               | Some _ => false end in
  match job_kind j with Some k => bool_decide (k ∈ kinds) | None => false end
  && opt_is (execution_slot j) "heavy_sync"
  && (ready_to_start now j || lease_expired_at now j)
  && no_other_running_heavy_job d j
  && (negb (opt_is (job_kind j) DateSync) || bool_decide (is_Some (business_date j)))
  && (lease_expired_at now j || negb (opt_is (job_kind j) DateSync)
      || (shape_valid && (empty || successful_parent_exists d j)))
  && match only with Some i => str_eqb (job_id j) i | None => true end.

(** One scan: the first claimable, unlocked row after [last_key]. *)
Definition next_candidate (d : db) (now : instant) (locked : string -> bool)
    (kinds : list job_kind_t) (only : option string) (last_key : option order_key)
  : option JobRun :=
  first_by_key (List.filter (fun j =>
    claimable d now kinds only j && negb (locked (job_id j))
    && match last_key with Some k => heavy_claim_after_key k j | None => true end) (job_rows d)).

(** What one candidate leads to: it is taken, passed over (with the database
    after a quarantine), or the call ends with nothing. *)
Inductive verdict :=
| Take (j : JobRun)
| PassOver (d : db).

Section Claim.
Variable gate : db -> JobRun -> bool.
Variable env : claim_env.
Variables (kinds : list job_kind_t) (only : option string) (rd : resource_decision).

(** The body of the candidate loop, after the scan found [j] at turn [i]. *)
Definition judge_candidate (i : nat) (d : db) (j : JobRun) : result verdict :=
  let now := ce_clock_now env i in
  let cs := inspect_expired_running_control d j in
  let bad := negb (bool_decide (cs_reasons cs = [])) in
  if lease_expired_at now j && bad then
    let* d1 := quarantine_invalid_expired_running_job d j now (Some cs) true in
    Ok (PassOver d1)
  else if non_running_ready (status j) && bad then
    let* d1 := quarantine_invalid_expired_running_job d j now (Some cs) false in
    Ok (PassOver d1)
  else if negb (gate d j) then
    if lease_expired_at now j then
      let* d1 := quarantine_invalid_expired_running_job d j now None true in
      Ok (PassOver d1)
    else Ok (PassOver d)
  else if negb (resource_admission_allows_job j rd) then Ok (PassOver d)
  else if opt_is (job_kind j) DateSync then
    match business_date j, data_source j, config_version j with
    | Some b, Some s, Some c =>
        if ce_date_lock env i b s c then Ok (Take j) else Ok (PassOver d)
    | _, _, _ => Raise AssertionError
    end
  else Ok (Take j).

(** The candidate loop.  [None] in the result means that no row is claimed. *)
Fixpoint claim_loop (fuel : nat) (i : nat) (last_key : option order_key) (d : db)
  : option (result (db * option JobRun)) :=
  match fuel with
  | O => None
  | S fuel' =>
      match next_candidate d (ce_statement_now env i) (ce_row_locked env i) kinds only last_key with
      | None => Some (Ok (d, None))
      | Some j =>
          match judge_candidate i d j with
          | Raise e => Some (Raise e)
          | Ok (Take j') => Some (Ok (d, Some j'))
          | Ok (PassOver d1) =>
              match only with
              | Some _ => Some (Ok (d1, None))
              | None => claim_loop fuel' (S i) (Some (heavy_claim_order_key j)) d1
              end
          end
      end
  end.

(** Inserting an attempt row, under the primary key and the unique keys
    (job, number) and (job, epoch). *)
Definition insert_attempt (a : JobAttempt) (d : db) : result db :=
  if existsb (fun b =>
       str_eqb (at_attempt_id b) (at_attempt_id a)
       || (str_eqb (at_job_id b) (at_job_id a)
           && ((at_attempt_number b =? at_attempt_number a)
               || (at_lease_epoch b =? at_lease_epoch a)))) (job_attempts d)
  then Raise (NamedError "IntegrityError" "job_attempts")
  else Ok (d <| job_attempts := job_attempts d ++ [a] |>).

(** The row a claim leaves, the attempt it opens and the component it binds. *)
Definition claimed_row (j : JobRun) (owner : string) (lease_seconds : Z) (now : instant) : JobRun :=
  j <| status := Running |>
    <| attempt_count := Some (or0 (attempt_count j) + 1) |>
    <| lease_owner := Some owner |>
    <| lease_epoch := Some (or0 (lease_epoch j) + 1) |>
    <| lease_expires_at := Some (now + seconds lease_seconds) |>
    <| next_retry_at := None |>
    <| finished_at := None |>
    <| current_stage := Some (default "collect" (current_stage j)) |>
    <| error_code := None |>
    <| error_summary := None |>
    <| error_message := None |>.

Definition claimed_attempt (j : JobRun) (aid cid : string) (now : instant) : JobAttempt :=
  MkJobAttempt aid (job_id j) (or0 (attempt_count j) + 1) (or0 (lease_epoch j) + 1) "worker" cid now
    None None None None None None.

Definition claimed_component (c : ComponentHeartbeat) (jid aid : string) (now : instant)
  : ComponentHeartbeat :=
  c <| ch_status := Healthy |>
    <| ch_last_heartbeat_at := now |>
    <| ch_current_job_id := Some jid |>
    <| ch_current_attempt_id := Some aid |>
    <| ch_updated_at := now |>.

(** The writes of a claim once the row's budget is known to allow it: lock and
    prepare the component, close the expired attempt of a takeover, move the row
    to the next epoch, insert the attempt and bind the component to it. *)
Definition open_lease (d : db) (j : JobRun) (previous : option JobAttempt) (owner cid : string)
    (lease_seconds : Z) : result (db * option ClaimedJobRecord) :=
  let now := ce_claim_now env in
  let aid := ce_attempt_id env in
  let* existing := lock_worker_component d cid previous in
  let component := prepare_worker_component cid now existing in
  let d1 := put_component component d in
  let d2 := match previous with
            | Some a => close_expired_attempt d1 a now
            | None => d1
            end in
  let* d3 := insert_attempt (claimed_attempt j aid cid now)
               (put_job (claimed_row j owner lease_seconds now) d2) in
  let d4 := put_component (claimed_component component (job_id j) aid now) d3 in
  Ok (add_job_event (job_id j) (Some aid) "job_claimed" (Some (status j))
        (Some Running) (Some owner) now None [("lease_epoch", PInt (or0 (lease_epoch j) + 1))] d4,
      Some (MkClaimedJobRecord (job_id j) aid (or0 (attempt_count j) + 1) owner
              (or0 (lease_epoch j) + 1) cid (business_date j)
              (default "collect" (current_stage j)))).

(** The writes of a claim on the selected row [j], up to the end of the call: a
    takeover whose budget is spent fails the job instead. *)
Definition take_lease (d : db) (j : JobRun) (owner cid : string) (lease_seconds : Z)
  : result (db * option ClaimedJobRecord) :=
  let now := ce_claim_now env in
  if decide (status j = Running) then
    let* a := lock_expired_attempt d (job_id j) (or0 (lease_epoch j)) in
    let maxa := or_int (max_attempts j) 3 in
    let q := or0 (quota_pause_count j) in
    if maxa + q <=? or0 (attempt_count j)
    then Ok (fail_job_after_exhausted_crash (close_expired_attempt d a now) j a now maxa q, None)
    else open_lease d j (Some a) owner cid lease_seconds
  else open_lease d j None owner cid lease_seconds.

(** [claim_next_heavy_job]; [None] would mean that the fuel of the candidate
    loop ran out. *)
Definition claim_next_heavy_job (d : db) (owner cid : string) (lease_seconds : Z)
  : option (result (db * option ClaimedJobRecord)) :=
  if opt_is (resource_action_value rd) "stop" then Some (Ok (d, None))
  else if negb (ce_global_lock env) then Some (Ok (d, None))
  else if heavy_sync_rate_limit_cooldown_active d (ce_cooldown_now env) then Some (Ok (d, None))
  else
    match claim_loop (S (size (job_runs d))) 0 None d with
    | None => None
    | Some (Raise e) => Some (Raise e)
    | Some (Ok (d1, None)) => Some (Ok (d1, None))
    | Some (Ok (d1, Some j)) => Some (take_lease d1 j owner cid lease_seconds)
    end.
End Claim.

(** The default [job_kinds] of a heavy claim, and the date-only wrapper. *)
Definition HEAVY_JOB_KINDS : list job_kind_t := [ParentSync; DateSync; Finalize].

Definition claim_next_date_sync (gate : db -> JobRun -> bool) (env : claim_env)
    (only : option string) (rd : resource_decision) (d : db) (owner cid : string)
    (lease_seconds : Z) : option (result (db * option ClaimedJobRecord)) :=
  claim_next_heavy_job gate env [DateSync] only rd d owner cid lease_seconds.

(** ** Operations under a live lease *)

(** The identity every fenced mutation presents. *)
Record LeaseToken := MkLeaseToken {
  tk_job_id : string;
  tk_attempt_id : string;
  tk_attempt_number : Z;
  tk_lease_owner : string;
  tk_lease_epoch : Z;
  tk_component_instance_id : string;
  tk_business_date : option day;
  tk_current_stage : string;
}.

(** [_active_lease_conditions] *)
Definition active_lease (tk : LeaseToken) (now : instant) (j : JobRun) : bool :=
  str_eqb (job_id j) (tk_job_id tk)
  && bool_decide (status j = Running)
  && opt_is (lease_owner j) (tk_lease_owner tk)
  && opt_is (lease_epoch j) (tk_lease_epoch tk)
  && match lease_expires_at j with Some t => now <? t | None => false end.

Definition open_attempt_of (tk : LeaseToken) (a : JobAttempt) : bool :=
  str_eqb (at_job_id a) (tk_job_id tk)
  && str_eqb (at_attempt_id a) (tk_attempt_id tk)
  && (at_lease_epoch a =? tk_lease_epoch tk)
  && str_eqb (at_component_type a) "worker"
  && str_eqb (at_component_instance_id a) (tk_component_instance_id tk)
  && unfinished a.

(** [lock_active_execution_state]; [now] is the clock read after the row lock. *)
Definition lock_active_execution_state (d : db) (tk : LeaseToken) (now : instant)
    (require_cancel_intent : bool) : option ActiveExecutionState :=
  match job_runs d !! tk_job_id tk with
  | Some j =>
      if negb (active_lease tk now j) then None
      else if require_cancel_intent && bool_decide (cancel_requested_at j = None) then None
      else match List.find (open_attempt_of tk) (job_attempts d) with
           | None => None
           | Some _ =>
               match bound_worker d (tk_component_instance_id tk) (tk_job_id tk) (tk_attempt_id tk) with
               | None => None
               | Some _ => Some (MkActiveExecutionState (or0 (attempt_count j))
                                   (or_int (max_attempts j) 3) (or0 (quota_pause_count j)))
               end
           end
  | None => None
  end.

(** The row an [UPDATE ... WHERE _active_lease_conditions] would change. *)
Definition active_row (d : db) (tk : LeaseToken) (now : instant) : option JobRun :=
  match job_runs d !! tk_job_id tk with
  | Some j => if active_lease tk now j then Some j else None
  | None => None
  end.

(** [heartbeat_claim]; [now1] is the clock of the check, [now2] of the update. *)
Definition heartbeat_claim (d : db) (tk : LeaseToken) (lease_seconds : Z) (now1 now2 : instant)
  : result (db * bool) :=
  match lock_active_execution_state d tk now1 false with
  | None => Ok (d, false)
  | Some _ =>
      match active_row d tk now2 with
      | None => Ok (d, false)
      | Some j =>
          let d1 := put_job (j <| heartbeat_at := Some now2 |>
                               <| lease_expires_at := Some (now2 + seconds lease_seconds) |>) d in
          match bound_worker d1 (tk_component_instance_id tk) (tk_job_id tk) (tk_attempt_id tk) with
          | Some c =>
              Ok (put_component (c <| ch_last_heartbeat_at := now2 |> <| ch_updated_at := now2 |>) d1,
                  true)
          | None =>
              Raise (RuntimeError "active attempt is not bound to the claimed worker component")
          end
      end
  end.

(** The common tail of completion, failure and cancellation: close the attempt,
    release the component, append the event. *)
Definition close_execution (d : db) (tk : LeaseToken) (now : instant) (ex : exit_type_t)
    (code summary : option string) (component_status : component_status_t)
    (event_type : string) (to_status : job_status) (reason : option string) (payload : pydict)
  : result (db * bool) :=
  let* d1 := finish_attempt d (tk_job_id tk) (tk_lease_epoch tk) (tk_attempt_id tk) now ex
               code summary in
  let* d2 := release_component_attempt d1 (tk_component_instance_id tk) (tk_job_id tk)
               (tk_attempt_id tk) now component_status in
  Ok (add_job_event (tk_job_id tk) (Some (tk_attempt_id tk)) event_type (Some Running)
        (Some to_status) (Some (tk_lease_owner tk)) now reason payload d2, true).

(** [complete_claim] *)
Definition complete_claim (d : db) (tk : LeaseToken) (n_success : Z) (now1 now2 : instant)
  : result (db * bool) :=
  match lock_active_execution_state d tk now1 false with
  | None => Ok (d, false)
  | Some _ =>
      match active_row d tk now2 with
      | None => Ok (d, false)
      | Some j =>
          let j1 := j <| status := Success |>
                      <| success_count := n_success |>
                      <| failed_count := 0 |>
                      <| finished_at := Some now2 |>
                      <| lease_owner := None |>
                      <| lease_expires_at := None |>
                      <| next_retry_at := None |>
                      <| error_code := None |>
                      <| error_summary := None |>
                      <| error_message := None |> in
          close_execution (put_job j1 d) tk now2 ExitSuccess None None Healthy
            "job_succeeded" Success None []
      end
  end.

(** [previous_attempt_exit_type] *)
Definition previous_attempt_exit_type (d : db) (jid : string) (number : Z) : option exit_type_t :=
  if number <=? 1 then None
  else match List.find (fun a => str_eqb (at_job_id a) jid
                                 && (at_attempt_number a =? number - 1)) (job_attempts d) with
       | Some a => at_exit_type a
       | None => None
       end.

(** [fail_claim] *)
Definition fail_claim (d : db) (tk : LeaseToken) (st : job_status) (delay : option Z)
    (ex : exit_type_t) (code summary : string) (inc_pause inc_failed : bool)
    (now1 now2 : instant) : result (db * bool) :=
  match lock_active_execution_state d tk now1 false with
  | None => Ok (d, false)
  | Some _ =>
      match active_row d tk now2 with
      | None => Ok (d, false)
      | Some j =>
          let j1 := j <| status := st |>
                      <| finished_at := if decide (st = Failed) then Some now2 else None |>
                      <| lease_owner := None |>
                      <| lease_expires_at := None |>
                      <| next_retry_at := (fun s => now2 + seconds s) <$> delay |>
                      <| error_code := Some code |>
                      <| error_summary := Some summary |>
                      <| error_message := Some summary |>
                      <| failed_count := if inc_failed then 1 else failed_count j |>
                      <| quota_pause_count :=
                           if inc_pause then Some (default 0 (quota_pause_count j) + 1)
                           else quota_pause_count j |> in
          close_execution (put_job j1 d) tk now2 ex (Some code) (Some summary)
            (if decide (st = RetryWait) then Degraded else Unhealthy)
            (if decide (st = RetryWait) then "job_retry_scheduled" else "job_failed")
            st (Some summary)
            [("error_code", PStr code);
             ("delay_seconds", match delay with Some s => PInt s | None => PNone end)]
      end
  end.

(** [cancel_claim] *)
Definition cancel_claim (d : db) (tk : LeaseToken) (reason : string) (now1 now2 : instant)
  : result (db * bool) :=
  match lock_active_execution_state d tk now1 true with
  | None => Ok (d, false)
  | Some _ =>
      match active_row d tk now2 with
      | None => Ok (d, false)
      | Some j =>
          if bool_decide (cancel_requested_at j = None) then Ok (d, false)
          else
            let j1 := j <| status := Cancelled |>
                        <| finished_at := Some now2 |>
                        <| lease_owner := None |>
                        <| lease_expires_at := None |>
                        <| next_retry_at := None |> in
            close_execution (put_job j1 d) tk now2 ExitCancelled None None Healthy
              "job_cancelled" Cancelled (Some reason) []
      end
  end.
