(* ===== verification/TaskControl.v ===== *)
(** * Task control: the retry policy and the fenced job operations

    apps/worker/task_control.py: the classification of a failed attempt into a
    bounded retry or a terminal failure, and the public operations a worker runs
    under its lease token, over the claims of [Claims].  The PostgreSQL branch
    is modelled; the SQLite branch of the source serves its unit tests. *)
From S2P Require Import Prelude PyValue Jobs Claims.

Definition DEFAULT_MAX_ATTEMPTS : Z := 3.
Definition DEFAULT_RETRY_BASE_DELAY_SECONDS : Z := 30.
Definition MAX_BUDGET_PAUSE_DELAY_SECONDS : Z := 172800.
Definition PRIORITY_BUDGET_PAUSE_MARKER : string := "priority_budget_pause".
Definition WORKER_RESOURCE_PAUSE_MARKER : string := "worker_resource_pause".

Inductive FailureKind :=
| TRANSIENT | BROWSER | DATA_INTEGRITY | MEMORY_GUARD | CRASHED | BUDGET_PAUSE | RESOURCE_PAUSE.

#[export] Instance FailureKind_eq_dec : EqDecision FailureKind.
Proof. solve_decision. Defined.

(** [failure_kind in {BUDGET_PAUSE, RESOURCE_PAUSE}] *)
Definition scheduler_pause (k : FailureKind) : bool :=
  match k with BUDGET_PAUSE | RESOURCE_PAUSE => true | _ => false end.

Definition scheduler_pause_error_code (k : FailureKind) : result string :=
  match k with
  | BUDGET_PAUSE => Ok PRIORITY_BUDGET_PAUSE_MARKER
  | RESOURCE_PAUSE => Ok WORKER_RESOURCE_PAUSE_MARKER
  | _ => Raise (ValueError "failure kind is not a scheduler pause")
  end.

Record RetryDecision := MkRetryDecision {
  rd_status : job_status;
  rd_delay_seconds : option Z;
}.

(** [retry_policy]; the guards raise in the source's order. *)
Definition retry_policy (k : FailureKind) (attempt_number maxa pauses : Z)
    (previous : option exit_type_t) (base : Z) (fixed : option Z) : result RetryDecision :=
  if attempt_number <=? 0 then Raise (ValueError "attempt_number must be positive")
  else if (maxa <=? 0) || (DEFAULT_MAX_ATTEMPTS <? maxa)
  then Raise (ValueError "max_attempts must be between 1 and 3")
  else if pauses <? 0 then Raise (ValueError "quota_pause_count cannot be negative")
  else if base <=? 0 then Raise (ValueError "base_delay_seconds must be positive")
  else if match fixed with Some f => f <=? 0 | None => false end
  then Raise (ValueError "fixed_delay_seconds must be positive")
  else if scheduler_pause k then
    Ok (MkRetryDecision RetryWait
          (Some (Z.min (or_int fixed base) MAX_BUDGET_PAUSE_DELAY_SECONDS)))
  else
    let effective := attempt_number - pauses in
    let is_fatal0 := bool_decide (k = DATA_INTEGRITY) in
    let is_fatal1 := if decide (k = MEMORY_GUARD)
                     then bool_decide (previous = Some ExitResourceGuard) else is_fatal0 in
    let is_fatal := if maxa <=? effective then true else is_fatal1 in
    if is_fatal then Ok (MkRetryDecision Failed None)
    else Ok (MkRetryDecision RetryWait
               (Some (match fixed with
                      | Some f => f
                      | None => base * 2 ^ (Z.max 1 effective - 1)
                      end))).

(** [_validate_claim_inputs] *)
Definition validate_claim_inputs (owner cid : string) (lease_seconds : Z) : result unit :=
  if blank owner then Raise (ValueError "lease_owner is required")
  else if blank cid then Raise (ValueError "component_instance_id is required")
  else if lease_seconds <=? 0 then Raise (ValueError "lease_seconds must be positive")
  else Ok tt.

Definition token_of (r : ClaimedJobRecord) : LeaseToken :=
  MkLeaseToken (cl_job_id r) (cl_attempt_id r) (cl_attempt_number r) (cl_lease_owner r)
    (cl_lease_epoch r) (cl_component_instance_id r) (cl_business_date r) (cl_current_stage r).

(** [claim_next_job] and, with [only := Some job_id], [claim_job]. *)
Definition claim_next_job (gate : db -> JobRun -> bool) (env : claim_env)
    (only : option string) (r : resource_decision) (d : db) (owner cid : string)
    (lease_seconds : Z) : option (result (db * option LeaseToken)) :=
  match validate_claim_inputs owner cid lease_seconds with
  | Raise e => Some (Raise e)
  | Ok _ =>
      match claim_next_heavy_job gate env HEAVY_JOB_KINDS only r d owner cid lease_seconds with
      | None => None
      | Some (Raise e) => Some (Raise e)
      | Some (Ok (d1, rec)) => Some (Ok (d1, token_of <$> rec))
      end
  end.

Definition claim_job (gate : db -> JobRun -> bool) (env : claim_env) (jid : string)
    (r : resource_decision) (d : db) (owner cid : string) (lease_seconds : Z) :=
  claim_next_job gate env (Some jid) r d owner cid lease_seconds.

(** [heartbeat_job] *)
Definition heartbeat_job (d : db) (tk : LeaseToken) (lease_seconds : Z) (now1 now2 : instant)
  : result (db * bool) :=
  if lease_seconds <=? 0 then Raise (ValueError "lease_seconds must be positive")
  else heartbeat_claim d tk lease_seconds now1 now2.

(** [record_attempt_observation] *)
Definition record_attempt_observation (d : db) (tk : LeaseToken) (exit_code rss : option Z)
    (code summary : option string) (now : instant) : result (db * bool) :=
  if match rss with Some b => b <? 0 | None => false end
  then Raise (ValueError "rss_peak_bytes cannot be negative")
  else match lock_active_execution_state d tk now false with
       | None => Ok (d, false)
       | Some _ =>
           let '(rows, n) :=
             update_where (fun a => str_eqb (at_job_id a) (tk_job_id tk)
                                    && str_eqb (at_attempt_id a) (tk_attempt_id tk)
                                    && (at_lease_epoch a =? tk_lease_epoch tk) && unfinished a)
               (fun a => a <| at_exit_code := exit_code |> <| at_rss_peak_bytes := rss |>
                           <| at_error_code := code |> <| at_error_summary := summary |>)
               (job_attempts d) in
           Ok (d <| job_attempts := rows |>, n =? 1)
       end.

(** [_attempt_exit_type] *)
Definition attempt_exit_type (k : FailureKind) (dec : RetryDecision) : exit_type_t :=
  if scheduler_pause k then ExitRetryableFailure
  else match k with
       | MEMORY_GUARD => ExitResourceGuard
       | CRASHED => ExitCrashed
       | _ => if decide (rd_status dec = RetryWait) then ExitRetryableFailure
              else ExitFatalFailure
       end.

(** [fail_job] *)
Definition fail_job (d : db) (tk : LeaseToken) (k : FailureKind) (code summary : string)
    (base : Z) (fixed : option Z) (now1 now2 now3 : instant)
  : result (db * option RetryDecision) :=
  if blank code then Raise (ValueError "error_code is required")
  else if blank summary then Raise (ValueError "error_summary is required")
  else if scheduler_pause k && match fixed with Some f => f <=? 0 | None => true end
  then Raise (ValueError "scheduler pause requires a positive fixed delay")
  else
    let priority := match job_runs d !! tk_job_id tk with
                    | Some j => is_priority_resource_config (config_version j)
                    | None => false
                    end in
    if scheduler_pause k && negb priority then Ok (d, None)
    else
      let* code1 := (if scheduler_pause k then scheduler_pause_error_code k else Ok code) in
      match lock_active_execution_state d tk now1 false with
      | None => Ok (d, None)
      | Some st =>
          let* dec := retry_policy k (ae_attempt_number st) (ae_max_attempts st)
                        (ae_quota_pause_count st)
                        (previous_attempt_exit_type d (tk_job_id tk) (ae_attempt_number st))
                        base fixed in
          let* (d1, updated) := fail_claim d tk (rd_status dec) (rd_delay_seconds dec)
                                  (attempt_exit_type k dec) (strip code1) (strip summary)
                                  (scheduler_pause k) (negb (scheduler_pause k)) now2 now3 in
          Ok (d1, if updated : bool then Some dec else None)
      end.

(** [confirm_cancel_job] *)
Definition confirm_cancel_job (d : db) (tk : LeaseToken) (reason : string) (now1 now2 : instant)
  : result (db * bool) :=
  if blank reason then Raise (ValueError "cancel reason is required")
  else cancel_claim d tk (strip reason) now1 now2.

Section Complete.
(** [verify_finalize_publication] and [promote_range_parent_if_ready] of
    finalize.py and [enqueue_finalize_if_ready] of daily_windows.py. *)
Variable verify_finalize_publication : db -> string -> result unit.
Variables promote_range_parent_if_ready enqueue_finalize_if_ready : db -> string -> result db.

(** [complete_job]: a [RuntimeError] of the finalize planner leaves the
    completion in place. *)
Definition complete_job (d : db) (tk : LeaseToken) (n_success : Z) (now1 now2 : instant)
  : result (db * bool) :=
  if n_success <? 0 then Raise (ValueError "success_count cannot be negative")
  else
    let job := job_runs d !! tk_job_id tk in
    let kind := match job with Some j => job_kind j | None => None end in
    let parent := match job with Some j => parent_job_id j | None => None end in
    let* _ := (if opt_is kind Finalize
               then verify_finalize_publication d (tk_job_id tk) else Ok tt) in
    let* (d1, completed) := complete_claim d tk n_success now1 now2 in
    match parent with
    | Some p =>
        if completed && opt_is kind Finalize && negb (str_eqb p "") then
          let* d2 := promote_range_parent_if_ready d1 p in Ok (d2, completed)
        else if completed && opt_is kind DateSync && negb (str_eqb p "") then
          match enqueue_finalize_if_ready d1 p with
          | Ok d2 => Ok (d2, completed)
          | Raise (RuntimeError _) => Ok (d1, completed)
          | Raise e => Raise e
          end
        else Ok (d1, completed)
    | None => Ok (d1, completed)
    end.
End Complete.
