(* ===== verification/Control.v ===== *)
(** * Administrative control of jobs

    The pause, resume, cancel and retry intents of
    apps/api/dy_api/routes/operations.py ([_control_job]), with the idempotency
    key that makes a repeated request a replay.  The handler reads the job
    without a lock and commits at its end, so reading and committing are two
    definitions: other transactions may commit in between. *)
From S2P Require Import Prelude PyValue Jobs.

Inductive control_action := ActPause | ActResume | ActCancel | ActRetry.

Definition action_name (a : control_action) : string :=
  match a with
  | ActPause => "pause" | ActResume => "resume" | ActCancel => "cancel" | ActRetry => "retry"
  end.

Definition http_error (status_code : Z) (detail : string) : exn :=
  NamedError "HTTPException" (str_of_Z status_code +:+ " " +:+ detail).

(** The earliest event of a key, by [occurred_at]. *)
Definition earliest (l : list JobEvent) : option JobEvent :=
  fold_right (fun e best => match best with
                            | Some b => if ev_occurred_at b <? ev_occurred_at e then Some b else Some e
                            | None => Some e
                            end) None l.

(** [_existing_control_event] *)
Definition existing_control_event (d : db) (jid : option string) (idempotency_key request_sha : string)
  : result (option JobEvent) :=
  match earliest (List.filter (fun e =>
          opt_is (ev_idempotency_key e) idempotency_key
          && match jid with Some j => str_eqb (ev_job_id e) j | None => true end) (job_events d)) with
  | None => Ok None
  | Some e =>
      if is_str (dict_get "request_sha256" (ev_payload_json e)) request_sha then Ok (Some e)
      else Raise (http_error 409 "Idempotency-Key request mismatch")
  end.

Definition control_event (jid action actor reason idempotency_key request_sha : string)
    (from_status to_status : option job_status) (now : instant) : JobEvent :=
  MkJobEvent jid None action from_status to_status "user" (Some actor) (Some reason)
    (Some idempotency_key)
    [("request_sha256", PStr request_sha); ("control_intent_only", PBool true)] now.

(** The insertion of [_add_control_event]'s row, at the commit, under the unique
    index on the job and the key. *)
Definition add_control_event (e : JobEvent) (d : db) : result db :=
  if existsb (fun x => str_eqb (ev_job_id x) (ev_job_id e)
                && bool_decide (ev_idempotency_key x = ev_idempotency_key e)) (job_events d)
  then Raise (NamedError "IntegrityError" "uq_job_events_idempotency_key")
  else Ok (d <| job_events := job_events d ++ [e] |>).

(** What an intent does to the row, or the conflict it raises. *)
Definition apply_control (a : control_action) (now : instant) (j : JobRun) : result JobRun :=
  match a with
  | ActPause =>
      if bool_decide (status j ∈ [Success; Failed; Cancelled])
      then Raise (http_error 409 "Terminal job cannot be paused")
      else Ok (j <| pause_after_stage_requested_at := Some now |>)
  | ActResume => Ok (j <| pause_after_stage_requested_at := None |>)
  | ActCancel =>
      if bool_decide (status j ∈ [Pending; Queued; RetryWait])
      then Ok (j <| status := Cancelled |> <| finished_at := Some now |>)
      else if bool_decide (status j = Running) then Ok (j <| cancel_requested_at := Some now |>)
      else Raise (http_error 409 "Job cannot be cancelled")
  | ActRetry =>
      if negb (bool_decide (status j = Failed))
      then Raise (http_error 409 "Only failed jobs can be retried")
      else if or_int (max_attempts j) 3 <=? or0 (attempt_count j)
      then Raise (http_error 409 "Job reached the retry limit")
      else Ok (j <| status := RetryWait |> <| next_retry_at := Some now |>
                 <| finished_at := None |> <| error_code := None |> <| error_summary := None |>
                 <| error_message := None |>)
  end.

(** ** The write *)

(** What the handler holds when it commits: the row as it was read, the row as
    it was changed in the session, and the event. *)
Record control_write := MkControlWrite {
  cw_read : JobRun;
  cw_new : JobRun;
  cw_event : JobEvent;
}.

(** A column of the UPDATE: set when the session changed it, else kept as it is
    in the table at the commit. *)
Definition flushed {A} `{!EqDecision A} (read new current : A) : A :=
  if decide (new = read) then current else new.

(** The row after the UPDATE; the intents assign these columns only. *)
Definition flush_row (read new current : JobRun) : JobRun :=
  current
    <| status := flushed (status read) (status new) (status current) |>
    <| finished_at := flushed (finished_at read) (finished_at new) (finished_at current) |>
    <| pause_after_stage_requested_at :=
         flushed (pause_after_stage_requested_at read) (pause_after_stage_requested_at new)
           (pause_after_stage_requested_at current) |>
    <| cancel_requested_at :=
         flushed (cancel_requested_at read) (cancel_requested_at new) (cancel_requested_at current) |>
    <| next_retry_at := flushed (next_retry_at read) (next_retry_at new) (next_retry_at current) |>
    <| error_code := flushed (error_code read) (error_code new) (error_code current) |>
    <| error_summary := flushed (error_summary read) (error_summary new) (error_summary current) |>
    <| error_message := flushed (error_message read) (error_message new) (error_message current) |>.

(** The commit of [_control_job], on the tables as they are then.  With
    the row gone the transaction fails. *)
Definition control_commit (w : control_write) (d : db) : result db :=
  match job_runs d !! job_id (cw_read w) with
  | None => Raise (NamedError "StaleDataError" "job_runs")
  | Some current =>
      add_control_event (cw_event w) (put_job (flush_row (cw_read w) (cw_new w) current) d)
  end.

Section Control.
(** The digest of the request's canonical JSON, and [sha256] of a text. *)
Variable canonical_sha256 : string -> string -> string -> string.
Variable sha256 : string -> string.

(** [_idempotency_hash] *)
Definition idempotency_hash (value : string) : result string :=
  let normalized := strip value in
  if (16 <=? py_len normalized) && (py_len normalized <=? 128) then Ok (sha256 normalized)
  else Raise (http_error 422 "Idempotency-Key must contain 16 to 128 characters").

Definition control_key (a : control_action) (hash : string) : string :=
  ("admin-" +:+ action_name a +:+ ":" +:+ hash)%string.

(** [_control_job] up to its commit, for the four intents on the row itself: the
    write it will commit, or nothing for a replay. *)
Definition control_read (d : db) (jid : string) (a : control_action) (reason actor idempotency_key : string)
    (now event_now : instant) : result (option control_write) :=
  match job_runs d !! jid with
  | None => Raise (http_error 404 "Job not found")
  | Some j =>
      let request_sha := canonical_sha256 jid (action_name a) reason in
      let* hash := idempotency_hash idempotency_key in
      let key := control_key a hash in
      let* existing := existing_control_event d (Some jid) key request_sha in
      match existing with
      | Some _ => Ok None
      | None =>
          let* j1 := apply_control a now j in
          Ok (Some (MkControlWrite j j1
            (control_event (job_id j) ("admin_" +:+ action_name a +:+ "_requested") actor reason
               key request_sha (Some (status j)) (Some (status j1)) event_now)))
      end
  end.

(** [_control_job] undisturbed: it commits on the tables it read; the flag says
    that the request was a replay. *)
Definition control_job (d : db) (jid : string) (a : control_action) (reason actor idempotency_key : string)
    (now event_now : instant) : result (db * bool) :=
  let* w := control_read d jid a reason actor idempotency_key now event_now in
  match w with
  | None => Ok (d, true)
  | Some w => let* d1 := control_commit w d in Ok (d1, false)
  end.
End Control.
