(* ===== verification/LeaseInv.v ===== *)
(** * The lease state machine: well-formedness

    What the control plane keeps true of its tables, and that the inspection
    of [Claims] finds nothing to object to in such a state. *)
From S2P Require Import Prelude PyValue Jobs Claims TaskControl.

(** Rows of the heavy slot of a kind that claims manage.  Other heavy writers
    (product synchronization, rebuilds, compactions) run without attempts. *)
Definition managed (j : JobRun) : Prop :=
  execution_slot j = Some "heavy_sync"
  /\ match job_kind j with Some k => k ∈ HEAVY_JOB_KINDS | None => False end.

Lemma managed_same j j' :
  execution_slot j' = execution_slot j -> job_kind j' = job_kind j -> managed j -> managed j'.
Proof. unfold managed. by intros -> ->. Qed.

(** The attempt rows of a job, in insertion order. *)
Definition history (jid : string) (d : db) : list JobAttempt :=
  filter (fun a => at_job_id a = jid) (job_attempts d).

(** The counters of a job row agree with its attempt history [h]. *)
Record hist_ok (j : JobRun) (h : list JobAttempt) : Prop := MkHistOk {
  ho_count : 0 <= or0 (attempt_count j);
  ho_epoch : or0 (lease_epoch j) = or0 (attempt_count j);
  ho_max : 1 <= or_int (max_attempts j) 3 <= 3;
  ho_pause : 0 <= or0 (quota_pause_count j) <= or0 (attempt_count j);
  ho_budget : or0 (attempt_count j) <= or_int (max_attempts j) 3 + or0 (quota_pause_count j);
  ho_numbers : at_attempt_number <$> h = seqZ 1 (or0 (attempt_count j));
  ho_epochs : at_lease_epoch <$> h = seqZ 1 (or0 (attempt_count j));
  ho_types : Forall (fun a => at_component_type a = "worker") h;
  ho_pauses : Z.of_nat (length (List.filter pause_attempt h))
              = if is_priority_resource_config (config_version j)
                then or0 (quota_pause_count j) else 0;
  ho_running : status j = Running ->
    exists h0 a owner, h = h0 ++ [a] /\ unfinished a = true
      /\ List.filter unfinished h0 = []
      /\ lease_owner j = Some owner /\ blank owner = false
      /\ is_Some (lease_expires_at j);
  ho_idle : status j <> Running ->
    List.filter unfinished h = [] /\ lease_owner j = None /\ lease_expires_at j = None;
}.

Record wf (d : db) : Prop := MkWf {
  wf_job_keys : forall k j, job_runs d !! k = Some j -> job_id j = k;
  wf_comp_keys : forall k c, component_heartbeats d !! k = Some c -> ch_component_instance_id c = k;
  wf_attempt_ids : NoDup (at_attempt_id <$> job_attempts d);
  wf_hist : forall k j, job_runs d !! k = Some j -> managed j -> hist_ok j (history k d);
  wf_owned : forall a, a ∈ job_attempts d ->
    exists j, job_runs d !! at_job_id a = Some j /\ managed j;
  wf_bound : forall a, a ∈ job_attempts d -> unfinished a = true ->
    exists c, component_heartbeats d !! at_component_instance_id a = Some c
      /\ ch_component_type c = "worker" /\ bound_to a c = true;
  wf_binding : forall k c, component_heartbeats d !! k = Some c ->
    (ch_current_job_id c = None /\ ch_current_attempt_id c = None)
    \/ (exists a, a ∈ job_attempts d /\ unfinished a = true /\ bound_to a c = true
                 /\ at_component_instance_id a = k);
  wf_exclusive : forall k1 k2 j1 j2,
    job_runs d !! k1 = Some j1 -> job_runs d !! k2 = Some j2 ->
    status j1 = Running -> status j2 = Running ->
    execution_slot j1 = Some "heavy_sync" -> execution_slot j2 = Some "heavy_sync" -> k1 = k2;
}.

(** ** Lists of rows *)

Lemma Sorted_merge_id {A} (R : relation A) `{!forall x y, Decision (R x y)}
    `{!Transitive R} `{!Total R} `{!AntiSymm (=) R} (l : list A) :
  StronglySorted R l -> merge_sort R l = l.
Proof.
  intros Hs. eapply (StronglySorted_unique R); [|done|apply merge_sort_Permutation].
  apply StronglySorted_merge_sort; apply _.
Qed.

Lemma seqZ_sorted m n : StronglySorted Z.le (seqZ m n).
Proof.
  unfold seqZ. generalize (Z.to_nat n) as k. intros k. generalize 0%nat as s.
  induction k as [|k IH]; intros s; cbn; constructor; [apply IH|].
  apply Forall_fmap, Forall_forall. intros x Hx%elem_of_seq. cbn. lia.
Qed.

Lemma merge_sort_seqZ m n : merge_sort Z.le (seqZ m n) = seqZ m n.
Proof. apply Sorted_merge_id; [apply _..|]. apply seqZ_sorted. Qed.

#[export] Instance attempt_le_total : Total attempt_le.
Proof.
  intros a b. unfold attempt_le.
  destruct (Z.lt_trichotomy (at_attempt_number a) (at_attempt_number b)) as [?|[E|?]]; [tauto| |tauto].
  destruct (String.le_total (at_attempt_id a) (at_attempt_id b)); [left|right]; right; done.
Qed.

#[export] Instance attempt_le_trans : Transitive attempt_le.
Proof.
  intros a b c [H1|[H1 H1']] [H2|[H2 H2']]; unfold attempt_le; try (left; lia).
  right. split; [lia|]. by transitivity (at_attempt_id b).
Qed.

(** Consecutive numbers identify the rows, so sorting is the identity even
    though [attempt_le] is not antisymmetric on rows. *)
Lemma history_sorted (h : list JobAttempt) m n :
  at_attempt_number <$> h = seqZ m n -> StronglySorted attempt_le h.
Proof.
  revert m n. induction h as [|a h IH]; intros m n Hn; constructor; cbn in Hn;
    (destruct (decide (0 < n)); [|by rewrite seqZ_nil in Hn by lia]);
    rewrite seqZ_cons in Hn by lia; injection Hn as Ha Hn; [by eapply IH|].
  apply Forall_forall. intros b Hb. left.
  apply (list_elem_of_fmap_2 at_attempt_number) in Hb. rewrite Hn in Hb.
  apply elem_of_seqZ in Hb. lia.
Qed.

Lemma merge_sort_history (h : list JobAttempt) m n :
  at_attempt_number <$> h = seqZ m n -> merge_sort attempt_le h = h.
Proof.
  intros Hn. apply (StronglySorted_unique_strong attempt_le).
  - intros a b Ha Hb Hab Hba. rewrite merge_sort_Permutation in Ha.
    eapply (fmap_NoDup_inj at_attempt_number); [|done|done|].
    + rewrite Hn. apply NoDup_seqZ.
    + destruct Hab as [?|[? _]], Hba as [?|[? _]]; lia.
  - apply StronglySorted_merge_sort; apply _.
  - by eapply history_sorted.
  - apply merge_sort_Permutation.
Qed.

Lemma reason_if_false b r : b = false -> reason_if b r = [].
Proof. by intros ->. Qed.

Lemma fmap_seqZ_length {A} (f : A -> Z) (h : list A) n :
  0 <= n -> f <$> h = seqZ 1 n -> Z.of_nat (length h) = n.
Proof. intros Hn E. apply (f_equal length) in E. rewrite length_fmap, length_seqZ in E. lia. Qed.

Lemma attempts_of_history j d :
  hist_ok j (history (job_id j) d) -> attempts_of (job_id j) d = history (job_id j) d.
Proof. intros H. eapply merge_sort_history, (ho_numbers _ _ H). Qed.

(** The rows the bounded inspection reads are the whole history. *)
Lemma inspected_history j d :
  hist_ok j (history (job_id j) d) -> or0 (attempt_count j) + 1 <= MAX_CONTROL_HISTORY_ROWS ->
  take (Z.to_nat (Z.min (Z.max (or0 (attempt_count j) + 1) 1) MAX_CONTROL_HISTORY_ROWS))
    (attempts_of (job_id j) d) = history (job_id j) d.
Proof.
  intros H Hlim. rewrite attempts_of_history by done. apply take_ge.
  pose proof (fmap_seqZ_length _ _ _ (ho_count _ _ H) (ho_numbers _ _ H)).
  pose proof (ho_count _ _ H). unfold MAX_CONTROL_HISTORY_ROWS in *. lia.
Qed.

(** Numbers and epochs of the same history agree row by row. *)
Lemma hist_number_epoch j h a : hist_ok j h -> a ∈ h -> at_attempt_number a = at_lease_epoch a.
Proof.
  intros H [i Hi]%list_elem_of_lookup.
  assert (E : (at_attempt_number <$> h) !! i = (at_lease_epoch <$> h) !! i)
    by (rewrite (ho_numbers _ _ H), (ho_epochs _ _ H); done).
  rewrite !list_lookup_fmap, Hi in E. by injection E.
Qed.

(** The last row of the history carries the current epoch. *)
Lemma hist_last_epoch j h0 a :
  hist_ok j (h0 ++ [a]) ->
  at_lease_epoch a = or0 (attempt_count j) /\ 0 < or0 (attempt_count j).
Proof.
  intros H. pose proof (ho_epochs _ _ H) as E. pose proof (ho_count _ _ H).
  assert (L := fmap_seqZ_length _ _ _ (ho_count _ _ H) (ho_epochs _ _ H)).
  rewrite length_app in L. cbn in L.
  assert (Hk : (at_lease_epoch <$> h0 ++ [a]) !! length h0 = Some (at_lease_epoch a)).
  { rewrite list_lookup_fmap, lookup_app_r, Nat.sub_diag by lia. done. }
  rewrite E, lookup_seqZ_lt in Hk by lia. injection Hk. lia.
Qed.

Lemma elem_of_history a jid d : a ∈ history jid d <-> at_job_id a = jid /\ a ∈ job_attempts d.
Proof. unfold history. by rewrite list_elem_of_filter. Qed.

(** An attempt row that is not open is bound by no component. *)
Lemma finished_not_bound d a :
  wf d -> a ∈ job_attempts d -> unfinished a = false ->
  match component_of a d with Some c => bound_to a c | None => false end = false.
Proof.
  intros W Ha Hu. unfold component_of.
  destruct (component_heartbeats d !! at_component_instance_id a) as [c|] eqn:Hc; [|done].
  case_decide; [|done]. destruct (bound_to a c) eqn:Hb; [|done].
  destruct (wf_binding _ W _ _ Hc) as [[E1 E2]|(b & Hbin & Hbu & Hbb & _)].
  - unfold bound_to, opt_is in Hb. rewrite E1 in Hb. by cbn in Hb.
  - unfold bound_to, opt_is in Hb, Hbb. bool_to_prop.
    assert (a = b) by (eapply (fmap_NoDup_inj at_attempt_id); eauto using wf_attempt_ids; congruence).
    congruence.
Qed.

(** The statuses a claim considers. *)
Definition live_status (s : job_status) : Prop := s = Pending \/ s = RetryWait \/ s = Running.

Section Inspection.
Context (d : db) (k : string) (j : JobRun).
Context (W : wf d) (Hk : job_runs d !! k = Some j) (Hm : managed j)
  (Hlim : or0 (attempt_count j) + 1 <= MAX_CONTROL_HISTORY_ROWS).

Lemma inspected_hist_ok : hist_ok j (history (job_id j) d).
Proof. rewrite (wf_job_keys _ W _ _ Hk). by apply wf_hist. Qed.

Let h := history (job_id j) d.

Lemma inspect_non_contiguous_false :
  negb (bool_decide (merge_sort Z.le (at_attempt_number <$> h) = seqZ 1 (or0 (attempt_count j))))
  || negb (bool_decide (merge_sort Z.le (at_lease_epoch <$> h) = seqZ 1 (or0 (attempt_count j))))
  || existsb (fun a => negb (at_attempt_number a =? at_lease_epoch a)) h = false.
Proof.
  pose proof inspected_hist_ok as H. unfold h.
  rewrite (ho_numbers _ _ H), (ho_epochs _ _ H), merge_sort_seqZ, !bool_decide_eq_true_2 by done.
  cbn. apply existsb_false. intros a Ha. rewrite (hist_number_epoch _ _ _ H Ha), Z.eqb_refl. done.
Qed.

Lemma inspect_stale_false :
  existsb (fun a => negb (unfinished a)
    && match component_of a d with Some c => bound_to a c | None => false end) h = false.
Proof.
  apply existsb_false. intros a [_ Ha]%elem_of_history.
  destruct (unfinished a) eqn:Hu; [done|]. cbn. by apply finished_not_bound.
Qed.

(** Every row of the history has a worker component. *)
Lemma inspect_types_false :
  existsb (fun a => negb (str_eqb (at_component_type a) "worker")) h = false.
Proof.
  apply existsb_false. intros a Ha. pose proof (ho_types _ _ inspected_hist_ok) as Ht.
  rewrite Forall_forall in Ht. unfold str_eqb. rewrite (Ht _ Ha). by rewrite bool_decide_eq_true_2.
Qed.
End Inspection.

Lemma fromkeys_nil l : l = [] -> fromkeys [] l = [].
Proof. by intros ->. Qed.

Lemma filter_unfinished_snoc h0 a :
  List.filter unfinished h0 = [] -> unfinished a = true -> List.filter unfinished (h0 ++ [a]) = [a].
Proof. intros H0 Ha. rewrite lfilter_app, H0. cbn. by rewrite Ha. Qed.

(** A live row of a well-formed database passes the inspection. *)
Lemma inspect_no_reasons d k j :
  wf d -> job_runs d !! k = Some j -> managed j -> live_status (status j) ->
  or0 (attempt_count j) + 1 <= MAX_CONTROL_HISTORY_ROWS ->
  cs_reasons (inspect_expired_running_control d j) = [].
Proof.
  intros W Hk Hm Hs Hlim.
  pose proof (inspected_hist_ok d k j W Hk Hm) as H.
  pose proof (ho_count _ _ H). pose proof (ho_epoch _ _ H) as He. pose proof (ho_max _ _ H).
  pose proof (ho_pause _ _ H). pose proof (ho_budget _ _ H). pose proof (ho_pauses _ _ H) as Hp.
  pose proof (fmap_seqZ_length _ _ _ (ho_count _ _ H) (ho_numbers _ _ H)) as Hlen.
  unfold inspect_expired_running_control. rewrite inspected_history by done.
  rewrite (inspect_non_contiguous_false d k j W Hk Hm), (inspect_stale_false d j W),
    (inspect_types_false d k j W Hk Hm), He.
  rewrite Hp, Hlen, Z.eqb_refl.
  rewrite (reason_if_false (_ <? 0)), (reason_if_false ((_ <? 1) || _)),
    (reason_if_false ((_ <? 0) || _)), (reason_if_false (_ <? or0 (quota_pause_count j))),
    (reason_if_false (MAX_CONTROL_HISTORY_ROWS <? _)) by lia.
  rewrite !Z.eqb_refl, (andb_false_r (_ <=? MAX_CONTROL_HISTORY_ROWS)).
  replace (or0 (attempt_count j) <? 0) with false by lia. cbn [reason_if negb app].
  destruct Hs as [Es|[Es|Es]].
  1, 2: destruct (ho_idle _ _ H) as (-> & -> & ->); [by rewrite Es|]; rewrite Es; reflexivity.
  destruct (ho_running _ _ H Es) as (h0 & a & owner & Eh & Hu & Hu0 & Eo & Hb & _).
  rewrite Eh, filter_unfinished_snoc, Es, Eo, Hb by done. cbn [List.find].
  rewrite Eh in H. destruct (hist_last_epoch _ _ _ H) as [-> ?]. rewrite Z.eqb_refl.
  assert (Ha : a ∈ history (job_id j) d) by (rewrite Eh; set_solver).
  apply elem_of_history in Ha as [_ Ha].
  destruct (wf_bound _ W _ Ha Hu) as (c & Hc & Ht & Hbt).
  pose proof (ho_types _ _ H) as Hty. rewrite Forall_app, Forall_singleton in Hty.
  destruct Hty as [_ Hty]. unfold component_of.
  rewrite Hc, decide_True, Hbt, Hty by congruence.
  replace (or0 (attempt_count j) <=? 0) with false by lia. reflexivity.
Qed.
