(* ===== verification/LeaseSteps.v ===== *)
(** * The lease state machine: preservation

    Every operation of the control plane keeps the tables well formed.  The two
    moves behind all of them are closing the open attempt of a running job and
    opening a new attempt on an idle one. *)
From S2P Require Import Prelude PyValue Jobs Claims TaskControl LeaseInv.

(** Well-formedness does not read the audit log. *)
Lemma wf_ext d1 d2 :
  job_runs d1 = job_runs d2 -> job_attempts d1 = job_attempts d2 ->
  component_heartbeats d1 = component_heartbeats d2 -> wf d1 -> wf d2.
Proof.
  destruct d1 as [j1 a1 c1 e1], d2 as [j2 a2 c2 e2]. cbn. intros -> -> -> [].
  constructor; assumption.
Qed.

(** ** Replacing one attempt row *)

Definition replace_attempt (a' b : JobAttempt) : JobAttempt :=
  if decide (at_attempt_id b = at_attempt_id a') then a' else b.

(** The columns an attempt never changes. *)
Definition same_identity (a b : JobAttempt) : Prop :=
  at_attempt_id a = at_attempt_id b /\ at_job_id a = at_job_id b
  /\ at_attempt_number a = at_attempt_number b /\ at_lease_epoch a = at_lease_epoch b
  /\ at_component_type a = at_component_type b
  /\ at_component_instance_id a = at_component_instance_id b.

Section Replace.
Context (l : list JobAttempt) (a a' : JobAttempt).
Context (Hnd : NoDup (at_attempt_id <$> l)) (Ha : a ∈ l) (Hid : same_identity a a').

Lemma replace_other b : b ∈ l -> b <> a -> replace_attempt a' b = b.
Proof.
  intros Hb Hne. unfold replace_attempt. case_decide as E; [|done].
  destruct Hne. eapply (fmap_NoDup_inj at_attempt_id); eauto. destruct Hid. congruence.
Qed.

Lemma replace_self : replace_attempt a' a = a'.
Proof. unfold replace_attempt. destruct Hid as [-> _]. by rewrite decide_True. Qed.

Lemma replace_ids : at_attempt_id <$> (replace_attempt a' <$> l) = at_attempt_id <$> l.
Proof.
  rewrite <- list_fmap_compose. apply list_fmap_ext. intros i b Hb%list_elem_of_lookup_2.
  cbn. unfold replace_attempt. by case_decide.
Qed.

Lemma elem_of_replace b :
  b ∈ replace_attempt a' <$> l <-> b = a' \/ (b ∈ l /\ b <> a).
Proof.
  rewrite list_elem_of_fmap. split.
  - intros (c & -> & Hc). destruct (decide (at_attempt_id c = at_attempt_id a)) as [E|E].
    + left. unfold replace_attempt. destruct Hid. rewrite decide_True by congruence. done.
    + right. assert (c <> a) by congruence. by rewrite replace_other.
  - intros [->|[Hb Hne]].
    + exists a. by rewrite replace_self.
    + exists b. by rewrite replace_other.
Qed.

Lemma filter_replace (P : JobAttempt -> Prop) `{!forall x, Decision (P x)} :
  (P a <-> P a') ->
  filter P (replace_attempt a' <$> l) = replace_attempt a' <$> filter P l.
Proof.
  intros HP. assert (Hsub : forall b, b ∈ l -> P (replace_attempt a' b) <-> P b).
  { intros b Hb. destruct (decide (at_attempt_id b = at_attempt_id a)) as [E|E].
    - assert (b = a) as -> by (by eapply (fmap_NoDup_inj at_attempt_id)).
      rewrite replace_self. by symmetry.
    - rewrite replace_other; [done|done|congruence]. }
  clear Hnd Ha. induction l as [|b k IH]; [done|]. rewrite fmap_cons.
  rewrite !filter_cons. specialize (Hsub b ltac:(left)) as Hb.
  rewrite IH by (intros c Hc; apply Hsub; by right).
  case_decide; case_decide; try done; tauto.
Qed.
End Replace.

(** Replacing the last row of one history leaves the other histories alone. *)
Lemma history_replace d1 d2 a a' h0 :
  NoDup (at_attempt_id <$> job_attempts d1) -> same_identity a a' ->
  history (at_job_id a) d1 = h0 ++ [a] ->
  job_attempts d2 = replace_attempt a' <$> job_attempts d1 ->
  history (at_job_id a) d2 = h0 ++ [a'] /\
  forall k, k <> at_job_id a -> history k d2 = history k d1.
Proof.
  intros Hnd Hid Hh E.
  assert (Ha : a ∈ job_attempts d1)
    by (apply (elem_of_history a (at_job_id a)); rewrite Hh; set_solver).
  assert (Hout : forall m : list JobAttempt, (forall b, b ∈ m -> b ∈ job_attempts d1 /\ b <> a) ->
                 replace_attempt a' <$> m = m).
  { intros m Hm. rewrite <- (list_fmap_id m) at 2. apply list_fmap_ext.
    intros i b Hb%list_elem_of_lookup_2. cbn. destruct (Hm _ Hb). by apply (replace_other (job_attempts d1) a a'). }
  assert (Hndh : NoDup (h0 ++ [a])).
  { rewrite <- Hh. apply (NoDup_fmap_1 at_attempt_id). unfold history.
    eapply sublist_NoDup; [exact Hnd|]. apply fmap_sublist, sublist_filter. }
  split.
  - unfold history in *. rewrite E, (filter_replace _ a); [|done..|by destruct Hid as (_ & -> & _)].
    rewrite Hh, fmap_app. cbn. rewrite (replace_self a a' Hid), Hout; [done|].
    intros b Hb. split.
    + apply (elem_of_history b (at_job_id a)). unfold history. rewrite Hh. set_solver.
    + intros ->. apply NoDup_app in Hndh as (_ & Hn & _). apply (Hn a); [done|set_solver].
  - intros k Hk. unfold history. rewrite E, (filter_replace _ a); [|done..|].
    + apply Hout. intros b [Hb Hb']%list_elem_of_filter. split; [done|]. intros ->. done.
    + destruct Hid as (_ & <- & _). done.
Qed.

Lemma bound_to_same a b c : bound_to a c = true -> bound_to b c = true -> at_attempt_id a = at_attempt_id b.
Proof. unfold bound_to, opt_is. intros. bool_to_prop. congruence. Qed.

(** ** Closing the open attempt of a running job *)
Section Close.
Context (d d' : db) (j j' : JobRun) (a a' : JobAttempt) (h0 : list JobAttempt)
  (c c' : ComponentHeartbeat).
Context (W : wf d) (Hj : job_runs d !! at_job_id a = Some j) (Hm : managed j)
  (Hh : history (at_job_id a) d = h0 ++ [a]) (Hu : unfinished a = true)
  (Hid : same_identity a a') (Hu' : unfinished a' = false)
  (Hj' : job_id j' = at_job_id a) (Hm' : managed j') (Hs' : status j' <> Running)
  (Hok' : hist_ok j' (h0 ++ [a']))
  (Hc : component_heartbeats d !! at_component_instance_id a = Some c)
  (Hb : bound_to a c = true)
  (Hk' : ch_component_instance_id c' = at_component_instance_id a)
  (Hcj' : ch_current_job_id c' = None) (Hca' : ch_current_attempt_id c' = None)
  (Ejobs : job_runs d' = <[at_job_id a := j']> (job_runs d))
  (Eatt : job_attempts d' = replace_attempt a' <$> job_attempts d)
  (Ecomp : component_heartbeats d' = <[at_component_instance_id a := c']> (component_heartbeats d)).

Lemma close_member : a ∈ job_attempts d.
Proof. apply (elem_of_history a (at_job_id a)). rewrite Hh. set_solver. Qed.

(** The rows of [d'] that are open were open before, and are not [a]. *)
Lemma close_open_rows b : b ∈ job_attempts d' -> unfinished b = true -> b ∈ job_attempts d /\ b <> a.
Proof.
  rewrite Eatt, (elem_of_replace _ a); [|apply W|apply close_member|done].
  intros [->|?]; [congruence|done].
Qed.

(** No other component was bound to [a]. *)
Lemma close_other_component b :
  b ∈ job_attempts d -> unfinished b = true -> b <> a ->
  at_component_instance_id b <> at_component_instance_id a.
Proof.
  intros Hin Hub Hne E. destruct (wf_bound _ W _ Hin Hub) as (cb & Hcb & _ & Hbb).
  rewrite E, Hc in Hcb. injection Hcb as <-. apply Hne.
  eapply (fmap_NoDup_inj at_attempt_id); [apply W|done|apply close_member|].
  by eapply bound_to_same.
Qed.

Lemma wf_close : wf d'.
Proof.
  destruct (history_replace d d' a a' h0 (wf_attempt_ids _ W) Hid Hh Eatt) as [Hh' Hother].
  pose proof close_member as Ha.
  constructor.
  - intros k x. rewrite Ejobs, lookup_insert. case_decide; [by intros [= <-]; congruence|apply W].
  - intros k x. rewrite Ecomp, lookup_insert. case_decide; [by intros [= <-]; congruence|apply W].
  - rewrite Eatt, replace_ids. apply W.
  - intros k x. rewrite Ejobs, lookup_insert. case_decide; subst.
    + intros [= <-] _. by rewrite Hh'.
    + rewrite Hother by done. apply W.
  - intros b. rewrite Eatt, (elem_of_replace _ a); [|apply W|done|done].
    rewrite Ejobs. intros [->|[Hin _]].
    + destruct Hid as (_ & <- & _). rewrite lookup_insert_eq. eauto.
    + destruct (wf_owned _ W _ Hin) as (x & Hx & ?). rewrite lookup_insert. case_decide; eauto.
  - intros b Hin Hub. destruct (close_open_rows _ Hin Hub).
    rewrite Ecomp, lookup_insert_ne by (apply not_eq_sym; by apply close_other_component).
    by apply W.
  - intros k x. rewrite Ecomp, lookup_insert. case_decide as E; [intros [= <-]; by left|].
    intros Hx. destruct (wf_binding _ W _ _ Hx) as [?|(b & Hin & Hub & Hbb & Hbk)]; [by left|right].
    exists b. split_and!; try done. rewrite Eatt, (elem_of_replace _ a); [|apply W|done|done].
    right. split; [done|]. intros ->. done.
  - intros k1 k2 j1 j2. rewrite Ejobs, !lookup_insert.
    case_decide; case_decide; subst; try done; try (by intros [= <-]); try (by intros _ [= <-]).
    apply W.
Qed.
End Close.

(** ** Opening an attempt on an idle job *)
Section Open.
Context (d d' : db) (j j' : JobRun) (a : JobAttempt) (c' : ComponentHeartbeat).
Context (W : wf d) (Hj : job_runs d !! at_job_id a = Some j) (Hm : managed j)
  (Hfree : forall k x, job_runs d !! k = Some x -> status x = Running -> heavy_writer x = true -> False)
  (Hu : unfinished a = true) (Htype : at_component_type a = "worker")
  (Hnew : forall b, b ∈ job_attempts d -> at_attempt_id b <> at_attempt_id a)
  (Hj' : job_id j' = at_job_id a) (Hm' : managed j')
  (Hok' : hist_ok j' (history (at_job_id a) d ++ [a]))
  (Hk' : ch_component_instance_id c' = at_component_instance_id a)
  (Ht' : ch_component_type c' = "worker") (Hb' : bound_to a c' = true)
  (Ejobs : job_runs d' = <[at_job_id a := j']> (job_runs d))
  (Eatt : job_attempts d' = job_attempts d ++ [a])
  (Ecomp : component_heartbeats d' = <[at_component_instance_id a := c']> (component_heartbeats d)).

Lemma slot_heavy_writer x : execution_slot x = Some "heavy_sync" -> heavy_writer x = true.
Proof. unfold heavy_writer, opt_is. by intros ->. Qed.

Lemma managed_heavy_writer x : managed x -> heavy_writer x = true.
Proof. intros [? _]. by apply slot_heavy_writer. Qed.

(** With the slot free, no attempt is open. *)
Lemma open_all_finished b : b ∈ job_attempts d -> unfinished b = false.
Proof.
  intros Hin. destruct (unfinished b) eqn:Hub; [|done]. exfalso.
  destruct (wf_owned _ W _ Hin) as (x & Hx & Hmx).
  destruct (decide (status x = Running)) as [Hr|Hr].
  - by eapply Hfree; eauto using managed_heavy_writer.
  - destruct (ho_idle _ _ (wf_hist _ W _ _ Hx Hmx) Hr) as [Hf _].
    rewrite lfilter_nil_iff in Hf. rewrite Hf in Hub; [done|]. by apply elem_of_history.
Qed.

Lemma open_history k :
  history k d' = if decide (k = at_job_id a) then history k d ++ [a] else history k d.
Proof.
  unfold history. rewrite Eatt, filter_app, filter_cons, filter_nil.
  case_decide; case_decide; subst; try done. by rewrite app_nil_r.
Qed.

Lemma wf_open : wf d'.
Proof.
  constructor.
  - intros k x. rewrite Ejobs, lookup_insert. case_decide; [by intros [= <-]; congruence|apply W].
  - intros k x. rewrite Ecomp, lookup_insert. case_decide; [by intros [= <-]; congruence|apply W].
  - rewrite Eatt, fmap_app. apply NoDup_app. split_and!; [apply W| |apply NoDup_singleton].
    intros i (b & -> & Hin)%list_elem_of_fmap Hi%list_elem_of_singleton. by eapply Hnew.
  - intros k x. rewrite Ejobs, lookup_insert, open_history. case_decide; subst.
    + intros [= <-] _. by rewrite decide_True.
    + rewrite decide_False by done. apply W.
  - intros b. rewrite Eatt, elem_of_app, list_elem_of_singleton, Ejobs. intros [Hin| ->].
    + destruct (wf_owned _ W _ Hin) as (x & Hx & ?). rewrite lookup_insert. case_decide; eauto.
    + rewrite lookup_insert_eq. eauto.
  - intros b. rewrite Eatt, elem_of_app, list_elem_of_singleton. intros [Hin| ->] Hub.
    + by rewrite open_all_finished in Hub.
    + rewrite Ecomp, lookup_insert_eq. eauto.
  - intros k x. rewrite Ecomp, lookup_insert. case_decide; subst.
    + intros [= <-]. right. exists a. rewrite Eatt. set_solver.
    + intros Hx. destruct (wf_binding _ W _ _ Hx) as [?|(b & Hin & Hub & _)]; [by left|].
      by rewrite open_all_finished in Hub.
  - intros k1 k2 j1 j2. rewrite Ejobs, !lookup_insert.
    case_decide; case_decide; subst; try done; intros H1 H2 S1 S2 W1 W2; exfalso;
      eauto using slot_heavy_writer.
Qed.
End Open.

(** ** Counters *)

Lemma pause_attempt_open a : unfinished a = true -> pause_attempt a = false.
Proof. unfold pause_attempt. by intros ->. Qed.

Lemma lfilter_length_le {A} (P : A -> bool) l : (length (List.filter P l) <= length l)%nat.
Proof. induction l as [|x l IH]; cbn; [lia|]. destruct (P x); cbn; lia. Qed.

(** The columns no lease operation changes. *)
Definition same_plan (j j' : JobRun) : Prop :=
  job_id j' = job_id j /\ execution_slot j' = execution_slot j /\ job_kind j' = job_kind j
  /\ config_version j' = config_version j /\ max_attempts j' = max_attempts j.

Lemma hist_ok_close j j' h0 a a' :
  hist_ok j (h0 ++ [a]) -> same_plan j j' -> same_identity a a' ->
  status j = Running -> unfinished a = true -> unfinished a' = false ->
  status j' <> Running -> lease_owner j' = None -> lease_expires_at j' = None ->
  attempt_count j' = attempt_count j -> lease_epoch j' = lease_epoch j ->
  (if pause_attempt a'
   then is_priority_resource_config (config_version j) = true
        /\ or0 (quota_pause_count j') = or0 (quota_pause_count j) + 1
   else or0 (quota_pause_count j') = or0 (quota_pause_count j)) ->
  hist_ok j' (h0 ++ [a']).
Proof.
  intros H (_ & _ & _ & Ecfg & Emax) (_ & _ & Enum & Eep & Ety & _) Hr Hu Hu' Hs' Ho' He' Ec Ee Hq.
  pose proof (fmap_seqZ_length _ _ _ (ho_count _ _ H) (ho_numbers _ _ H)) as Hlen.
  rewrite length_app in Hlen. cbn in Hlen.
  destruct (ho_running _ _ H Hr) as (h1 & a1 & owner & E & _ & Hu0 & _).
  apply app_inj_tail in E as [<- <-].
  pose proof (ho_pauses _ _ H) as Hp. rewrite lfilter_app in Hp. cbn in Hp.
  rewrite (pause_attempt_open _ Hu), app_nil_r in Hp.
  pose proof (lfilter_length_le pause_attempt h0).
  pose proof (ho_pause _ _ H). pose proof (ho_budget _ _ H). pose proof (ho_max _ _ H).
  assert (Hnum := ho_numbers _ _ H). assert (Hep := ho_epochs _ _ H).
  rewrite fmap_app in Hnum, Hep. cbn in Hnum, Hep.
  constructor; rewrite ?Ec, ?Ee, ?Emax, ?Ecfg.
  - apply H.
  - apply H.
  - apply H.
  - destruct (pause_attempt a'); [destruct Hq as [Hpr Hq]; rewrite Hpr in Hp|]; lia.
  - destruct (pause_attempt a'); [destruct Hq as [_ Hq]|]; lia.
  - by rewrite fmap_app, <- Hnum, Enum.
  - by rewrite fmap_app, <- Hep, Eep.
  - pose proof (ho_types _ _ H) as Ht. rewrite Forall_app, !Forall_singleton in *. by rewrite <- Ety.
  - rewrite lfilter_app. cbn. destruct (pause_attempt a').
    + destruct Hq as [Hpr Hq]. rewrite Hpr in *. rewrite length_app. cbn. lia.
    + rewrite app_nil_r, Hp, Hq. done.
  - done.
  - intros _. rewrite lfilter_app, Hu0. cbn. by rewrite Hu'.
Qed.

Lemma seqZ_snoc n : 0 <= n -> seqZ 1 (n + 1) = seqZ 1 n ++ [n + 1].
Proof. intros. rewrite seqZ_app by lia. f_equal. rewrite seqZ_cons by lia. rewrite seqZ_nil by lia. f_equal. lia. Qed.

Lemma hist_ok_open j j' h a owner :
  hist_ok j h -> same_plan j j' -> status j <> Running ->
  or0 (attempt_count j) < or_int (max_attempts j) 3 + or0 (quota_pause_count j) ->
  status j' = Running -> lease_owner j' = Some owner -> blank owner = false ->
  is_Some (lease_expires_at j') ->
  attempt_count j' = Some (or0 (attempt_count j) + 1) ->
  lease_epoch j' = Some (or0 (lease_epoch j) + 1) ->
  quota_pause_count j' = quota_pause_count j ->
  unfinished a = true -> at_component_type a = "worker" ->
  at_attempt_number a = or0 (attempt_count j) + 1 ->
  at_lease_epoch a = or0 (lease_epoch j) + 1 ->
  hist_ok j' (h ++ [a]).
Proof.
  intros H (_ & _ & _ & Ecfg & Emax) Hs Hbud Hs' Ho Hbl He Ec Ee Eq Hu Hty Hnum Hep.
  pose proof (ho_count _ _ H). pose proof (ho_pause _ _ H). pose proof (ho_max _ _ H).
  rewrite (ho_epoch _ _ H) in *.
  destruct (ho_idle _ _ H Hs) as [Hf _].
  constructor; rewrite ?Ec, ?Ee, ?Eq, ?Emax, ?Ecfg, ?or0_Some; try lia.
  - rewrite fmap_app, (ho_numbers _ _ H), seqZ_snoc by lia. cbn. by rewrite Hnum.
  - rewrite fmap_app, (ho_epochs _ _ H), seqZ_snoc by lia. cbn. by rewrite Hep.
  - rewrite Forall_app, Forall_singleton. split; [apply H|done].
  - rewrite lfilter_app. cbn. rewrite (pause_attempt_open _ Hu), app_nil_r. apply H.
  - intros _. eauto 10.
  - done.
Qed.

(** ** What a live token points at *)
Record live (d : db) (tk : LeaseToken) (j : JobRun) (h0 : list JobAttempt) (a : JobAttempt)
    (c : ComponentHeartbeat) : Prop := MkLive {
  lv_job : job_runs d !! tk_job_id tk = Some j;
  lv_managed : managed j;
  lv_status : status j = Running;
  lv_owner : lease_owner j = Some (tk_lease_owner tk);
  lv_epoch : lease_epoch j = Some (tk_lease_epoch tk);
  lv_history : history (tk_job_id tk) d = h0 ++ [a];
  lv_open : unfinished a = true;
  lv_closed : List.filter unfinished h0 = [];
  lv_attempt : at_attempt_id a = tk_attempt_id tk;
  lv_attempt_job : at_job_id a = tk_job_id tk;
  lv_attempt_epoch : at_lease_epoch a = tk_lease_epoch tk;
  lv_instance : at_component_instance_id a = tk_component_instance_id tk;
  lv_component : component_heartbeats d !! tk_component_instance_id tk = Some c;
  lv_worker : ch_component_type c = "worker";
  lv_bound : bound_to a c = true;
}.

Lemma lock_active_live d tk now b st :
  wf d -> lock_active_execution_state d tk now b = Some st ->
  exists j h0 a c, live d tk j h0 a c /\ active_lease tk now j = true
    /\ st = MkActiveExecutionState (or0 (attempt_count j)) (or_int (max_attempts j) 3)
              (or0 (quota_pause_count j))
    /\ (b = true -> is_Some (cancel_requested_at j)).
Proof.
  unfold lock_active_execution_state. intros W Hl.
  destruct (job_runs d !! tk_job_id tk) as [j|] eqn:Hj; [|done].
  destruct (active_lease tk now j) eqn:Hact; [|done]. cbn in Hl.
  destruct (b && _) eqn:Hcancel; [done|].
  destruct (List.find _ _) as [a|] eqn:Hf; [|done].
  destruct (bound_worker _ _ _ _) as [c|] eqn:Hbw; [|done]. injection Hl as <-.
  apply List.find_some in Hf as [Hin Hopen]. apply list_elem_of_In in Hin.
  assert (Hlease := Hact). unfold active_lease in Hact. unfold open_attempt_of in Hopen. tests.
  destruct (wf_owned _ W _ Hin) as (j0 & Hj0 & Hm). simplify_eq.
  assert (j0 = j) as -> by congruence.
  destruct (ho_running _ _ (wf_hist _ W _ _ Hj Hm) ltac:(done))
    as (h0 & a0 & owner & Eh & Hu0 & Hcl & _).
  assert (a ∈ history (tk_job_id tk) d) as Ha by (by apply elem_of_history).
  assert (a = a0) as ->.
  { rewrite Eh in Ha. apply elem_of_app in Ha as [Ha|Ha%list_elem_of_singleton]; [|done].
    rewrite lfilter_nil_iff in Hcl. rewrite Hcl in * by done. done. }
  unfold bound_worker in Hbw.
  destruct (component_heartbeats d !! tk_component_instance_id tk) as [c0|] eqn:Hc; [|done].
  destruct (_ && _) eqn:Hb in Hbw; [|done]. injection Hbw as ->. tests.
  exists j, h0, a0, c. split_and!; try done.
  - constructor; try done. unfold bound_to, opt_is. rewrite !bool_decide_eq_true_2; [done|congruence..].
  - intros ->. cbn in Hcancel. bool_to_prop. destruct (cancel_requested_at j); [eauto|done].
Qed.

(** ** The common tail of the terminal operations *)

Definition released (c : ComponentHeartbeat) (st : component_status_t) (now : instant) :=
  c <| ch_status := st |> <| ch_current_job_id := None |> <| ch_current_attempt_id := None |>
    <| ch_updated_at := now |>.

Definition closed_attempt (a : JobAttempt) (fin : instant) (ex : exit_type_t)
    (code summary : option string) : JobAttempt :=
  a <| at_finished_at := Some fin |> <| at_exit_type := Some ex |>
    <| at_error_code := code |> <| at_error_summary := summary |>.

Lemma closed_attempt_identity a fin ex code summary :
  same_identity a (closed_attempt a fin ex code summary).
Proof. done. Qed.

Lemma filter_unique {A} (P : A -> bool) (l : list A) a :
  NoDup l -> a ∈ l -> (forall b, b ∈ l -> P b = true <-> b = a) ->
  filter (fun b => P b = true) l = [a].
Proof.
  induction l as [|b l IH]; intros Hnd Ha HP; [by apply elem_of_nil in Ha|].
  apply NoDup_cons in Hnd as [Hb Hnd]. rewrite filter_cons.
  apply elem_of_cons in Ha as [->|Ha].
  - rewrite decide_True by (apply HP; [left|done]). f_equal.
    destruct (filter _ l) as [|x k] eqn:E; [done|]. exfalso.
    assert (Hx : x ∈ filter (fun b => P b = true) l) by (rewrite E; left).
    apply list_elem_of_filter in Hx as [Hp Hx]. apply HP in Hp; [subst; done|by right].
  - rewrite decide_False by (intros E%HP; [subst; done|left]).
    apply IH; [done|done|]. intros x Hx. apply HP. by right.
Qed.

(** The row test of [_finish_attempt]. *)
Definition token_row (tk : LeaseToken) (b : JobAttempt) : bool :=
  str_eqb (at_job_id b) (tk_job_id tk) && (at_lease_epoch b =? tk_lease_epoch tk)
  && str_eqb (at_attempt_id b) (tk_attempt_id tk) && unfinished b.

Lemma live_member d tk j h0 a c : live d tk j h0 a c -> a ∈ job_attempts d.
Proof.
  intros L. apply (elem_of_history a (tk_job_id tk)).
  rewrite (lv_history _ _ _ _ _ _ L). set_solver.
Qed.

Lemma token_row_iff d tk j h0 a c b :
  wf d -> live d tk j h0 a c -> b ∈ job_attempts d -> token_row tk b = true <-> b = a.
Proof.
  intros W L Hb. unfold token_row. split.
  - intros Hp. tests. eapply (fmap_NoDup_inj at_attempt_id); [apply W|done|by eapply live_member|].
    by rewrite (lv_attempt _ _ _ _ _ _ L).
  - intros ->. destruct L. rewrite lv_attempt_job0, lv_attempt_epoch0, lv_attempt0, lv_open0.
    unfold str_eqb. by rewrite !bool_decide_eq_true_2, Z.eqb_refl.
Qed.

(** The fenced [UPDATE] of the attempt touches exactly the open row. *)
Lemma update_token_row d tk j h0 a c f :
  wf d -> live d tk j h0 a c -> same_identity a (f a) ->
  update_where (token_row tk) f (job_attempts d)
  = (replace_attempt (f a) <$> job_attempts d, 1).
Proof.
  intros W L Hid. unfold update_where.
  rewrite (filter_unique _ _ a);
    [|eapply NoDup_fmap_1, W|by eapply live_member|intros; by eapply token_row_iff].
  f_equal. apply list_fmap_ext. intros i b Hb%list_elem_of_lookup_2.
  pose proof (token_row_iff _ _ _ _ _ _ _ W L Hb) as HP.
  destruct (token_row tk b) eqn:E.
  - destruct HP as [HP _]. rewrite (HP eq_refl). by rewrite (replace_self a _ Hid).
  - rewrite (replace_other (job_attempts d) a); [done|apply W|by eapply live_member|done|done|].
    intros ->. destruct HP as [_ HP]. specialize (HP eq_refl). done.
Qed.

(** Closing the execution of a live token succeeds and closes the open attempt. *)
Lemma close_execution_live d tk j h0 a c j1 now ex code summary cst ev st' reason payload :
  wf d -> live d tk j h0 a c ->
  exists d', close_execution (put_job j1 d) tk now ex code summary cst ev st' reason payload
             = Ok (d', true)
    /\ job_runs d' = <[job_id j1 := j1]> (job_runs d)
    /\ job_attempts d' = replace_attempt (closed_attempt a now ex code summary) <$> job_attempts d
    /\ component_heartbeats d'
       = <[at_component_instance_id a := released c cst now]> (component_heartbeats d)
    /\ job_events d' = job_events d ++
         [MkJobEvent (tk_job_id tk) (Some (tk_attempt_id tk)) ev (Some Running) (Some st')
            "worker" (Some (tk_lease_owner tk)) reason None payload now].
Proof.
  intros W L. unfold close_execution, finish_attempt.
  change (update_where _ _ (job_attempts (put_job j1 d)))
    with (update_where (token_row tk) (fun b => closed_attempt b now ex code summary)
            (job_attempts d)).
  rewrite (update_token_row _ _ _ _ _ _ (fun b => closed_attempt b now ex code summary) W L
             (closed_attempt_identity _ _ _ _ _)).
  cbn. unfold release_component_attempt, bound_worker. cbn.
  rewrite (lv_component _ _ _ _ _ _ L). pose proof (lv_bound _ _ _ _ _ _ L) as Hb.
  unfold bound_to in Hb. rewrite (lv_attempt_job _ _ _ _ _ _ L), (lv_attempt _ _ _ _ _ _ L) in Hb.
  apply andb_true_iff in Hb as [-> ->]. unfold str_eqb.
  rewrite (lv_worker _ _ _ _ _ _ L), bool_decide_eq_true_2 by done. cbn.
  eexists. split; [reflexivity|]. cbn. split_and!; try done.
  rewrite (lv_instance _ _ _ _ _ _ L), (wf_comp_keys _ W _ _ (lv_component _ _ _ _ _ _ L)). done.
Qed.

(** The row after a terminal operation: released, counters kept. *)
Record settled (j j1 : JobRun) : Prop := MkSettled {
  se_plan : same_plan j j1;
  se_status : status j1 <> Running;
  se_owner : lease_owner j1 = None;
  se_expires : lease_expires_at j1 = None;
  se_count : attempt_count j1 = attempt_count j;
  se_epoch : lease_epoch j1 = lease_epoch j;
}.

(** How the pause counter follows the error code of the closed attempt. *)
Definition pause_accounted (j j1 : JobRun) (a' : JobAttempt) : Prop :=
  if pause_attempt a'
  then is_priority_resource_config (config_version j) = true
       /\ or0 (quota_pause_count j1) = or0 (quota_pause_count j) + 1
  else or0 (quota_pause_count j1) = or0 (quota_pause_count j).

Lemma wf_settle d d' jid j h0 a c j1 a' c' :
  wf d -> job_runs d !! jid = Some j -> managed j -> status j = Running ->
  history jid d = h0 ++ [a] -> unfinished a = true ->
  component_heartbeats d !! at_component_instance_id a = Some c -> bound_to a c = true ->
  settled j j1 -> same_identity a a' -> unfinished a' = false -> pause_accounted j j1 a' ->
  ch_component_instance_id c' = at_component_instance_id a ->
  ch_current_job_id c' = None -> ch_current_attempt_id c' = None ->
  job_runs d' = <[job_id j1 := j1]> (job_runs d) ->
  job_attempts d' = replace_attempt a' <$> job_attempts d ->
  component_heartbeats d' = <[at_component_instance_id a := c']> (component_heartbeats d) ->
  wf d'.
Proof.
  intros W Hj Hm Hr Hh Hu Hc Hb [(P1 & P2 & Pk & P3 & P4) S1 S2 S3 S4 S5] Hid Hu' Hp Hk' Hcj Hca E1 E2 E3.
  assert (Ha : at_job_id a = jid).
  { assert (a ∈ history jid d) as ?%elem_of_history by (rewrite Hh; set_solver). tauto. }
  pose proof (wf_job_keys _ W _ _ Hj) as Hjid. rewrite P1, Hjid, <- Ha in E1. subst jid.
  eapply (wf_close d d' j j1 a a' h0 c c'); try done.
  - congruence.
  - by eapply managed_same.
  - eapply hist_ok_close; try done. rewrite <- Hh. by apply W.
Qed.

Lemma released_key c st now : ch_component_instance_id (released c st now) = ch_component_instance_id c.
Proof. done. Qed.

Lemma wf_settle_live d d' tk j h0 a c j1 now ex code summary cst :
  wf d -> live d tk j h0 a c -> settled j j1 ->
  pause_accounted j j1 (closed_attempt a now ex code summary) ->
  job_runs d' = <[job_id j1 := j1]> (job_runs d) ->
  job_attempts d' = replace_attempt (closed_attempt a now ex code summary) <$> job_attempts d ->
  component_heartbeats d'
  = <[at_component_instance_id a := released c cst now]> (component_heartbeats d) ->
  wf d'.
Proof.
  intros W L S P E1 E2 E3. pose proof (wf_comp_keys _ W _ _ (lv_component _ _ _ _ _ _ L)).
  destruct L. rewrite lv_instance0 in *.
  eapply (wf_settle d d' (tk_job_id tk) j h0 a c j1 (closed_attempt a now ex code summary)
            (released c cst now)); rewrite ?lv_instance0; done.
Qed.

Lemma pause_accounted_none j j1 a now ex summary :
  or0 (quota_pause_count j1) = or0 (quota_pause_count j) ->
  pause_accounted j j1 (closed_attempt a now ex None summary).
Proof. done. Qed.

Lemma active_row_live d tk now j h0 a c j2 :
  live d tk j h0 a c -> active_row d tk now = Some j2 -> j2 = j.
Proof.
  intros L. unfold active_row. rewrite (lv_job _ _ _ _ _ _ L).
  destruct (active_lease tk now j); congruence.
Qed.

Lemma wf_complete d tk n now1 now2 d' r :
  wf d -> complete_claim d tk n now1 now2 = Ok (d', r) -> wf d'.
Proof.
  intros W. unfold complete_claim.
  destruct (lock_active_execution_state d tk now1 false) as [st|] eqn:Hl; [|by intros [= <- _]].
  destruct (lock_active_live _ _ _ _ _ W Hl) as (j & h0 & a & c & L & _).
  destruct (active_row d tk now2) as [j2|] eqn:Hr; [|by intros [= <- _]].
  rewrite (active_row_live _ _ _ _ _ _ _ _ L Hr).
  match goal with |- close_execution (put_job ?j1 _) _ _ ?ex _ _ ?cst ?ev ?s ?re ?pl = _ -> _ =>
    destruct (close_execution_live d tk j h0 a c j1 now2 ex None None cst ev s re pl W L)
      as (d1 & -> & E1 & E2 & E3 & _) end.
  intros [= <- _]. eapply (wf_settle_live d d1); try done; by constructor.
Qed.

Lemma wf_cancel d tk reason now1 now2 d' r :
  wf d -> cancel_claim d tk reason now1 now2 = Ok (d', r) -> wf d'.
Proof.
  intros W. unfold cancel_claim.
  destruct (lock_active_execution_state d tk now1 true) as [st|] eqn:Hl; [|by intros [= <- _]].
  destruct (lock_active_live _ _ _ _ _ W Hl) as (j & h0 & a & c & L & _).
  destruct (active_row d tk now2) as [j2|] eqn:Hr; [|by intros [= <- _]].
  rewrite (active_row_live _ _ _ _ _ _ _ _ L Hr).
  destruct (bool_decide _); [by intros [= <- _]|].
  match goal with |- close_execution (put_job ?j1 _) _ _ ?ex _ _ ?cst ?ev ?s ?re ?pl = _ -> _ =>
    destruct (close_execution_live d tk j h0 a c j1 now2 ex None None cst ev s re pl W L)
      as (d1 & -> & E1 & E2 & E3 & _) end.
  intros [= <- _]. eapply (wf_settle_live d d1); try done; by constructor.
Qed.

(** A failure keeps the tables well formed when its code is a pause marker
    exactly for a pause of a priority job. *)
Definition pause_code_ok (d : db) (tk : LeaseToken) (code : string) (inc_pause : bool) : Prop :=
  if inc_pause
  then str_in code SCHEDULER_PAUSE_MARKERS = true
       /\ (forall j, job_runs d !! tk_job_id tk = Some j ->
             is_priority_resource_config (config_version j) = true)
  else str_in code SCHEDULER_PAUSE_MARKERS = false.

Lemma default_or0 x : default 0 x = or0 x.
Proof. destruct x as [n|]; [by rewrite or0_Some|done]. Qed.

Lemma wf_fail d tk st delay ex code summary inc_pause inc_failed now1 now2 d' r :
  wf d -> st <> Running -> pause_code_ok d tk code inc_pause ->
  fail_claim d tk st delay ex code summary inc_pause inc_failed now1 now2 = Ok (d', r) -> wf d'.
Proof.
  intros W Hst Hpc. unfold fail_claim.
  destruct (lock_active_execution_state d tk now1 false) as [ae|] eqn:Hl; [|by intros [= <- _]].
  destruct (lock_active_live _ _ _ _ _ W Hl) as (j & h0 & a & c & L & _).
  destruct (active_row d tk now2) as [j2|] eqn:Hr; [|by intros [= <- _]].
  rewrite (active_row_live _ _ _ _ _ _ _ _ L Hr).
  match goal with |- close_execution (put_job ?j1 _) _ _ ?ex ?co ?su ?cst ?ev ?s ?re ?pl = _ -> _ =>
    destruct (close_execution_live d tk j h0 a c j1 now2 ex co su cst ev s re pl W L)
      as (d1 & -> & E1 & E2 & E3 & _) end.
  intros [= <- _]. eapply (wf_settle_live d d1); try done; [by constructor|].
  unfold pause_accounted, pause_attempt, unfinished. cbn -[or0].
  unfold pause_code_ok in Hpc. destruct inc_pause; cbn -[or0].
  - destruct Hpc as [-> Hpr]. split; [apply Hpr, (lv_job _ _ _ _ _ _ L)|].
    by rewrite or0_Some, default_or0.
  - by rewrite Hpc.
Qed.

(** ** Changes that keep the execution in place *)

Lemma wf_row d d' k j j' :
  wf d -> job_runs d !! k = Some j -> job_id j' = k ->
  execution_slot j' = execution_slot j -> job_kind j' = job_kind j ->
  (status j' = Running -> status j = Running) ->
  (managed j -> hist_ok j' (history k d)) ->
  job_runs d' = <[k := j']> (job_runs d) -> job_attempts d' = job_attempts d ->
  component_heartbeats d' = component_heartbeats d -> wf d'.
Proof.
  intros W Hj Hk Hslot Hkind Hst Hok E1 E2 E3.
  assert (Hm : managed j' <-> managed j) by (unfold managed; by rewrite Hslot, Hkind).
  assert (Hhist : forall i, history i d' = history i d) by (intros; unfold history; by rewrite E2).
  constructor; rewrite ?E2, ?E3; try apply W.
  - intros i x. rewrite E1, lookup_insert. case_decide; [intros [= <-]; congruence|apply W].
  - intros i x. rewrite E1, Hhist, lookup_insert. case_decide; subst; [|apply W].
    intros [= <-] ?. apply Hok. by apply Hm.
  - intros a Ha. destruct (wf_owned _ W _ Ha) as (x & Hx & ?). rewrite E1, lookup_insert.
    case_decide; eauto. exists j'. split; [done|]. apply Hm. congruence.
  - intros k1 k2 j1 j2. rewrite E1, !lookup_insert.
    case_decide; case_decide; subst; try done; intros H1 H2 S1 S2 W1 W2; simplify_eq;
      rewrite ?Hslot in *; eapply (wf_exclusive _ W); eauto.
Qed.

Lemma wf_component d d' k c c' :
  wf d -> component_heartbeats d !! k = Some c ->
  ch_component_instance_id c' = k -> ch_component_type c' = ch_component_type c ->
  ch_current_job_id c' = ch_current_job_id c -> ch_current_attempt_id c' = ch_current_attempt_id c ->
  job_runs d' = job_runs d -> job_attempts d' = job_attempts d ->
  component_heartbeats d' = <[k := c']> (component_heartbeats d) -> wf d'.
Proof.
  intros W Hc Hk Ht Hcj Hca E1 E2 E3.
  assert (Hb : forall a, bound_to a c' = bound_to a c) by (intros; unfold bound_to; by rewrite Hcj, Hca).
  assert (Hhist : forall i, history i d' = history i d) by (intros; unfold history; by rewrite E2).
  constructor; rewrite ?E1, ?E2; try apply W.
  - intros i x. rewrite E3, lookup_insert. case_decide; [intros [= <-]; congruence|apply W].
  - intros i x. rewrite Hhist. apply W.
  - intros a Ha Hu. destruct (wf_bound _ W _ Ha Hu) as (x & Hx & Hxt & Hxb).
    rewrite E3, lookup_insert. case_decide; eauto. subst k. exists c'. rewrite Ht, Hb.
    assert (x = c) as -> by congruence. done.
  - intros i x. rewrite E3, lookup_insert. case_decide; subst; [|apply W].
    intros [= <-]. rewrite Hcj, Hca. setoid_rewrite Hb. by apply (wf_binding _ W).
Qed.

Lemma hist_ok_observe j h0 a a' :
  hist_ok j (h0 ++ [a]) -> same_identity a a' -> unfinished a = true -> unfinished a' = true ->
  hist_ok j (h0 ++ [a']).
Proof.
  intros H (_ & _ & Enum & Eep & Ety & _) Hu Hu'.
  constructor; try apply H.
  - rewrite <- (ho_numbers _ _ H), !fmap_app. cbn. by rewrite Enum.
  - rewrite <- (ho_epochs _ _ H), !fmap_app. cbn. by rewrite Eep.
  - pose proof (ho_types _ _ H) as Ht. rewrite Forall_app, !Forall_singleton in *. by rewrite <- Ety.
  - rewrite <- (ho_pauses _ _ H), !lfilter_app. cbn. by rewrite !pause_attempt_open.
  - intros Hr. destruct (ho_running _ _ H Hr) as (h1 & a1 & o & E & Hrest).
    apply app_inj_tail in E as [<- <-]. naive_solver.
  - intros Hr. destruct (ho_idle _ _ H Hr) as [E _]. rewrite lfilter_app in E. cbn in E.
    rewrite Hu in E. by destruct (List.filter unfinished h0).
Qed.

Lemma wf_observe d d' tk j h0 a c a' :
  wf d -> live d tk j h0 a c -> same_identity a a' -> unfinished a' = true ->
  job_runs d' = job_runs d -> job_attempts d' = replace_attempt a' <$> job_attempts d ->
  component_heartbeats d' = component_heartbeats d -> wf d'.
Proof.
  intros W L Hid Hu' E1 E2 E3. pose proof (live_member _ _ _ _ _ _ L) as Ha.
  pose proof (lv_history _ _ _ _ _ _ L) as Hh. rewrite <- (lv_attempt_job _ _ _ _ _ _ L) in Hh.
  destruct (history_replace d d' a a' h0 (wf_attempt_ids _ W) Hid Hh E2) as [Hh' Hother].
  assert (Hin : forall b, b ∈ job_attempts d' <-> b = a' \/ (b ∈ job_attempts d /\ b <> a)).
  { intros b. rewrite E2. apply elem_of_replace; [apply W|done|done]. }
  assert (Hb : forall x, bound_to a' x = bound_to a x).
  { intros x. unfold bound_to. by destruct Hid as (-> & -> & _). }
  constructor; rewrite ?E1, ?E3; try apply W.
  - rewrite E2, replace_ids. apply W.
  - intros k x Hk Hm. destruct (decide (k = at_job_id a)) as [->|Hne].
    + rewrite Hh'. eapply hist_ok_observe; [|done|apply L|done]. rewrite <- Hh. by apply W.
    + rewrite Hother by done. by apply W.
  - intros b [->|[Hb' _]]%Hin; [|by apply W]. destruct Hid as (_ & <- & _). by apply W.
  - intros b [->|[Hb' _]]%Hin Hub; [|by apply W].
    destruct (wf_bound _ W _ Ha (lv_open _ _ _ _ _ _ L)) as (x & ? & ? & ?).
    exists x. rewrite Hb. destruct Hid as (_ & _ & _ & _ & _ & <-). done.
  - intros k x Hk. destruct (wf_binding _ W _ _ Hk) as [?|(b & Hb1 & Hb2 & Hb3 & Hb4)]; [by left|right].
    destruct (decide (at_attempt_id b = at_attempt_id a)) as [Eb|Nb].
    + assert (b = a) as -> by (eapply (fmap_NoDup_inj at_attempt_id); eauto; apply W).
      exists a'. rewrite Hin, Hb. destruct Hid as (_ & _ & _ & _ & _ & <-). auto.
    + exists b. rewrite Hin. split_and!; try done. right. split; [done|congruence].
Qed.

Lemma wf_record_observation d tk ec rss code summary now d' r :
  wf d -> record_attempt_observation d tk ec rss code summary now = Ok (d', r) -> wf d'.
Proof.
  intros W. unfold record_attempt_observation. destruct (match rss with Some _ => _ | None => _ end); [done|].
  destruct (lock_active_execution_state d tk now false) as [st|] eqn:Hl; [|by intros [= <- _]].
  destruct (lock_active_live _ _ _ _ _ W Hl) as (j & h0 & a & c & L & _).
  set (f := fun b : JobAttempt => b <| at_exit_code := ec |> <| at_rss_peak_bytes := rss |>
                           <| at_error_code := code |> <| at_error_summary := summary |>).
  replace (update_where _ f (job_attempts d)) with (update_where (token_row tk) f (job_attempts d)).
  2: { unfold update_where, token_row. f_equal.
       - apply list_fmap_ext. intros i b _. destruct (str_eqb _ _), (str_eqb _ _), (_ =? _); done.
       - do 3 f_equal. apply list_filter_iff. intros b.
         destruct (str_eqb _ _), (str_eqb _ _), (_ =? _); done. }
  rewrite (update_token_row _ _ _ _ _ _ f W L); [|done]. intros [= <- _].
  eapply (wf_observe d _ tk j h0 a c (f a)); try done. apply (lv_open _ _ _ _ _ _ L).
Qed.

Lemma wf_heartbeat d tk s now1 now2 d' r :
  wf d -> heartbeat_claim d tk s now1 now2 = Ok (d', r) -> wf d'.
Proof.
  intros W. unfold heartbeat_claim.
  destruct (lock_active_execution_state d tk now1 false) as [st|] eqn:Hl; [|by intros [= <- _]].
  destruct (lock_active_live _ _ _ _ _ W Hl) as (j & h0 & a & c & L & _).
  destruct (active_row d tk now2) as [j2|] eqn:Hr; [|by intros [= <- _]].
  rewrite (active_row_live _ _ _ _ _ _ _ _ L Hr).
  set (j1 := j <| heartbeat_at := _ |> <| lease_expires_at := _ |>).
  pose proof (wf_job_keys _ W _ _ (lv_job _ _ _ _ _ _ L)) as Hid.
  assert (W1 : wf (put_job j1 d)).
  { eapply (wf_row d _ (tk_job_id tk) j j1); try done; [apply (lv_job _ _ _ _ _ _ L)| |].
    - intros Hm. pose proof (wf_hist _ W _ _ (lv_job _ _ _ _ _ _ L) Hm) as H.
      constructor; try apply H; [|intros Hs; by destruct Hs; apply L].
      intros Hs. destruct (ho_running _ _ H Hs) as (h1 & a1 & o & Hrest).
      exists h1, a1, o. cbn. naive_solver.
    - cbn. by rewrite Hid. }
  destruct (bound_worker _ _ _ _) as [c1|] eqn:Hb; [|done]. intros [= <- _].
  unfold bound_worker in Hb. cbn in Hb. rewrite (lv_component _ _ _ _ _ _ L) in Hb.
  destruct (_ && _); [|done]. injection Hb as <-.
  pose proof (wf_comp_keys _ W _ _ (lv_component _ _ _ _ _ _ L)) as Hck.
  eapply (wf_component (put_job j1 d) _ (tk_component_instance_id tk) c (c <| ch_last_heartbeat_at := now2 |> <| ch_updated_at := now2 |>)); try done; cbn.
  - apply (lv_component _ _ _ _ _ _ L).
  - by rewrite <- Hck.
Qed.
