(* ===== verification/LeaseClaims.v ===== *)
(** * The lease state machine: claims

    Quarantine, takeover of an expired lease and the claim itself keep the
    tables well formed, and the candidate loop always ends. *)
From S2P Require Import Prelude PyValue Jobs Claims TaskControl LeaseInv LeaseSteps.

(** A managed running row of a well-formed database, with its open attempt. *)
Lemma running_row d k j :
  wf d -> job_runs d !! k = Some j -> managed j -> status j = Running ->
  exists h0 a c, history k d = h0 ++ [a] /\ unfinished a = true
    /\ List.filter unfinished h0 = [] /\ at_job_id a = k /\ a ∈ job_attempts d
    /\ at_component_type a = "worker"
    /\ component_heartbeats d !! at_component_instance_id a = Some c
    /\ ch_component_type c = "worker" /\ bound_to a c = true.
Proof.
  intros W Hj Hm Hr. pose proof (wf_hist _ W _ _ Hj Hm) as H.
  destruct (ho_running _ _ H Hr) as (h0 & a & o & Eh & Hu & Hc & _).
  assert (Ha : a ∈ history k d) by (rewrite Eh; set_solver).
  apply elem_of_history in Ha as [Hk Ha].
  destruct (wf_bound _ W _ Ha Hu) as (c & Hcc & Hct & Hcb).
  pose proof (ho_types _ _ H) as Ht. rewrite Eh, Forall_app, Forall_singleton in Ht.
  destruct Ht. exists h0, a, c. done.
Qed.

(** Closing an open attempt and releasing its component. *)
Lemma release_after_close d a a' c st now :
  component_heartbeats d !! at_component_instance_id a = Some c ->
  ch_component_type c = at_component_type a -> bound_to a c = true ->
  release_bound_component a st now (put_attempt a' d)
  = (put_component (released c st now) (put_attempt a' d), 1).
Proof.
  intros Hc Ht Hb. unfold release_bound_component, component_of. cbn.
  by rewrite Hc, decide_True, Hb.
Qed.

(** ** Quarantine *)

Lemma quarantine_finished now d a x y z :
  wf d -> a ∈ job_attempts d -> unfinished a = false ->
  quarantine_attempt now (d, x, y, z) a = (d, x, y, z).
Proof.
  intros W Ha Hu. unfold quarantine_attempt. rewrite Hu. unfold release_bound_component.
  pose proof (finished_not_bound _ _ W Ha Hu) as Hb.
  destruct (component_of a d) as [c|]; [rewrite Hb|]; by rewrite Z.add_0_r.
Qed.

Lemma quarantine_finished_all now d l x y z :
  wf d -> (forall a, a ∈ l -> a ∈ job_attempts d) -> List.filter unfinished l = [] ->
  fold_left (quarantine_attempt now) l (d, x, y, z) = (d, x, y, z).
Proof.
  intros W Hin Hf. rewrite lfilter_nil_iff in Hf. induction l as [|a l IH]; [done|].
  cbn [fold_left]. rewrite quarantine_finished; [|done|apply Hin; left|apply Hf; left].
  apply IH; intros; [apply Hin|apply Hf]; by right.
Qed.

Definition quarantined_row (j : JobRun) (now : instant) : JobRun :=
  j <| status := Failed |> <| failed_count := Z.max (failed_count j) 1 |>
    <| finished_at := Some now |> <| lease_owner := None |> <| lease_expires_at := None |>
    <| heartbeat_at := None |> <| next_retry_at := None |>
    <| error_code := Some "control_plane_identity_invalid" |>
    <| error_summary := Some quarantine_summary |>
    <| error_message := Some quarantine_summary |>.

Definition quarantined_attempt (a : JobAttempt) (now : instant) : JobAttempt :=
  closed_attempt a (fst (attempt_finished_timestamp (at_started_at a) now)) ExitFatalFailure
    (Some "control_plane_identity_invalid") (Some quarantine_summary).

Lemma quarantine_open now d a c x y z :
  unfinished a = true -> component_heartbeats d !! at_component_instance_id a = Some c ->
  ch_component_type c = at_component_type a -> bound_to a c = true ->
  exists z', quarantine_attempt now (d, x, y, z) a
  = (put_component (released c Degraded now) (put_attempt (quarantined_attempt a now) d),
     x + 1, y + 1, z').
Proof.
  intros Hu Hc Ht Hb. unfold quarantine_attempt. rewrite Hu.
  destruct (attempt_finished_timestamp (at_started_at a) now) as [fin an] eqn:E.
  pose proof (release_after_close d a (quarantined_attempt a now) c Degraded now Hc Ht Hb) as R.
  unfold quarantined_attempt in *. rewrite E in *. cbn [fst] in *. unfold closed_attempt in *.
  rewrite R. eauto.
Qed.

(** What a quarantine leaves of the tables. *)
Lemma quarantine_effect d j now cs req d' :
  wf d -> job_runs d !! job_id j = Some j -> managed j ->
  quarantine_invalid_expired_running_job d j now cs req = Ok d' ->
  job_runs d' = <[job_id j := quarantined_row j now]> (job_runs d) /\
  ((status j <> Running /\ job_attempts d' = job_attempts d
    /\ component_heartbeats d' = component_heartbeats d)
   \/ (status j = Running /\ exists h0 a c,
       history (job_id j) d = h0 ++ [a] /\ unfinished a = true
       /\ component_heartbeats d !! at_component_instance_id a = Some c /\ bound_to a c = true
       /\ job_attempts d' = replace_attempt (quarantined_attempt a now) <$> job_attempts d
       /\ component_heartbeats d'
          = <[at_component_instance_id a := released c Degraded now]> (component_heartbeats d))).
Proof.
  intros W Hj Hm. pose proof (wf_hist _ W _ _ Hj Hm) as H.
  unfold quarantine_invalid_expired_running_job. destruct (req && _); [done|].
  rewrite (attempts_of_history _ _ H).
  destruct (decide (status j = Running)) as [Hr|Hr].
  - destruct (running_row _ _ _ W Hj Hm Hr)
      as (h0 & a & c & Eh & Hu & Hf & Hjid & Ha & Hty & Hc & Hct & Hb).
    rewrite Eh, fold_left_app, quarantine_finished_all; [|done| |done]; cycle 1.
    { intros b Hb'. apply (elem_of_history b (job_id j)). rewrite Eh. set_solver. }
    cbn [fold_left]. destruct (quarantine_open now d a c 0 0 0 Hu Hc ltac:(congruence) Hb) as [z ->].
    intros [= <-]. split; [done|]. right. split; [done|]. exists h0, a, c. split_and!; try done.
    cbn. by rewrite (wf_comp_keys _ W _ _ Hc).
  - destruct (ho_idle _ _ H Hr) as [Hf _]. rewrite quarantine_finished_all; [|done| |done].
    + intros [= <-]. split; [done|]. by left.
    + intros a Ha. by apply elem_of_history in Ha as [_ ?].
Qed.

Lemma wf_quarantine d j now cs req d' :
  wf d -> job_runs d !! job_id j = Some j -> managed j ->
  quarantine_invalid_expired_running_job d j now cs req = Ok d' -> wf d'.
Proof.
  intros W Hj Hm Hq. destruct (quarantine_effect _ _ _ _ _ _ W Hj Hm Hq)
    as [E1 [(Hr & E2 & E3)|(Hr & h0 & a & c & Hh & Hu & Hc & Hb & E2 & E3)]].
  - eapply (wf_row d d' (job_id j) j (quarantined_row j now)); try done.
    intros _. pose proof (wf_hist _ W _ _ Hj Hm) as H.
    constructor; try apply H; try done.
    destruct (ho_idle _ _ H Hr) as [Hf _]. done.
  - eapply (wf_settle d d' (job_id j) j h0 a c (quarantined_row j now) (quarantined_attempt a now)
              (released c Degraded now)); try done; try by constructor.
    rewrite released_key. by apply (wf_comp_keys _ W).
Qed.

(** ** Taking the lease *)

Lemma preserve_previous_job_same j s :
  let j1 := preserve_previous_error_job j s in
  same_plan j j1 /\ status j1 = status j /\ lease_owner j1 = lease_owner j
  /\ lease_expires_at j1 = lease_expires_at j /\ attempt_count j1 = attempt_count j
  /\ lease_epoch j1 = lease_epoch j /\ quota_pause_count j1 = quota_pause_count j
  /\ job_name j1 = job_name j.
Proof. unfold preserve_previous_error_job. repeat case_match; done. Qed.

Definition expired_attempt (a : JobAttempt) (now : instant) : JobAttempt :=
  preserve_previous_error_attempt
    (a <| at_finished_at := Some (fst (attempt_finished_timestamp (at_started_at a) now)) |>
       <| at_exit_type := Some ExitCrashed |> <| at_error_code := Some "lease_expired" |>)
    "lease expired before the attempt completed".

Lemma expired_attempt_facts a now :
  same_identity a (expired_attempt a now) /\ unfinished (expired_attempt a now) = false
  /\ pause_attempt (expired_attempt a now) = false.
Proof. done. Qed.

Lemma close_expired_effect d a c now :
  component_heartbeats d !! at_component_instance_id a = Some c ->
  ch_component_instance_id c = at_component_instance_id a ->
  ch_component_type c = at_component_type a -> bound_to a c = true ->
  let d' := close_expired_attempt d a now in
  job_runs d' = job_runs d
  /\ job_attempts d' = replace_attempt (expired_attempt a now) <$> job_attempts d
  /\ component_heartbeats d'
     = <[at_component_instance_id a := released c Degraded now]> (component_heartbeats d).
Proof.
  intros Hc Hk Ht Hb. unfold close_expired_attempt.
  pose proof (release_after_close d a (expired_attempt a now) c Degraded now Hc Ht Hb) as R.
  unfold expired_attempt in R.
  destruct (attempt_finished_timestamp (at_started_at a) now) as [fin an] eqn:E. cbn [fst] in R.
  rewrite R. cbn. unfold expired_attempt. rewrite E, Hk. done.
Qed.

(** The expired attempt a takeover locks is the open one. *)
Lemma lock_expired_open d k j epoch b :
  wf d -> job_runs d !! k = Some j -> managed j -> status j = Running ->
  lock_expired_attempt d k epoch = Ok b ->
  exists h0, history k d = h0 ++ [b] /\ unfinished b = true.
Proof.
  intros W Hj Hm Hr. unfold lock_expired_attempt. destruct (List.find _ _) as [a|] eqn:Hf; [|done].
  intros [= ->]. apply List.find_some in Hf as [Hin Hp]. apply list_elem_of_In in Hin. tests.
  destruct (running_row _ _ _ W Hj Hm Hr) as (h0 & a & c & Eh & Hu & Hcl & _).
  exists h0. assert (Hb : b ∈ history k d) by (by apply elem_of_history).
  rewrite Eh in Hb. apply elem_of_app in Hb as [Hb|Hb%list_elem_of_singleton]; [|by subst].
  rewrite lfilter_nil_iff in Hcl. rewrite Hcl in * by done. done.
Qed.

(** A row that may be taken: managed, alone in its slot, within its budget. *)
Record takeable (d : db) (j : JobRun) : Prop := MkTakeable {
  tk_row : job_runs d !! job_id j = Some j;
  tk_managed : managed j;
  tk_alone : forall k x, job_runs d !! k = Some x -> status x = Running ->
    heavy_writer x = true -> k = job_id j;
  tk_ready : status j <> Running ->
    or0 (attempt_count j) < or_int (max_attempts j) 3 + or0 (quota_pause_count j);
}.

Lemma insert_attempt_Ok a d d' :
  insert_attempt a d = Ok d' ->
  d' = d <| job_attempts := job_attempts d ++ [a] |>
  /\ forall b, b ∈ job_attempts d -> at_attempt_id b <> at_attempt_id a.
Proof.
  unfold insert_attempt. destruct (existsb _ _) eqn:E; [done|]. intros [= <-]. split; [done|].
  intros b Hb Heq. apply Bool.not_true_iff_false in E. destruct E. apply List.existsb_exists.
  exists b. split; [by apply list_elem_of_In|]. unfold str_eqb. by rewrite bool_decide_eq_true_2.
Qed.

Lemma prepare_worker_facts d cid previous existing now :
  wf d -> lock_worker_component d cid previous = Ok existing ->
  ch_component_instance_id (prepare_worker_component cid now existing) = cid
  /\ ch_component_type (prepare_worker_component cid now existing) = "worker"
  /\ existing = component_heartbeats d !! cid
  /\ (forall c, existing = Some c -> (ch_current_job_id c = None /\ ch_current_attempt_id c = None)
       \/ exists a, previous = Some a /\ bound_to a c = true).
Proof.
  intros W. unfold lock_worker_component.
  destruct (component_heartbeats d !! cid) as [c|] eqn:Hc; [|intros [= <-]; done].
  destruct (negb (str_eqb _ _)) eqn:Ht; [done|]. tests.
  pose proof (wf_comp_keys _ W _ _ Hc).
  destruct (bool_decide _ && bool_decide _) eqn:Hn.
  - intros [= <-]. tests. split_and!; try done. intros x [= <-]. by left.
  - destruct previous as [a|]; [|done]. destruct (bound_to a c) eqn:Hb; [|done].
    intros [= <-]. split_and!; try done. intros x [= <-]. eauto.
Qed.

Definition idle_row (j : JobRun) : JobRun :=
  j <| status := RetryWait |> <| lease_owner := None |> <| lease_expires_at := None |>.

Lemma wf_take_open dm d' j jm owner aid cid ls now comp :
  wf dm -> job_runs dm !! job_id j = Some jm -> managed j -> same_plan jm j ->
  attempt_count jm = attempt_count j -> lease_epoch jm = lease_epoch j ->
  quota_pause_count jm = quota_pause_count j -> status jm <> Running ->
  (forall k x, job_runs dm !! k = Some x -> status x = Running -> heavy_writer x = true -> False) ->
  or0 (attempt_count j) < or_int (max_attempts j) 3 + or0 (quota_pause_count j) ->
  blank owner = false -> (forall b, b ∈ job_attempts dm -> at_attempt_id b <> aid) ->
  ch_component_instance_id comp = cid -> ch_component_type comp = "worker" ->
  job_runs d' = <[job_id j := claimed_row j owner ls now]> (job_runs dm) ->
  job_attempts d' = job_attempts dm ++ [claimed_attempt j aid cid now] ->
  component_heartbeats d'
  = <[cid := claimed_component comp (job_id j) aid now]> (component_heartbeats dm) ->
  wf d'.
Proof.
  intros W Hj Hm Hplan Ec Ee Eq Hs Hfree Hbud Hbl Hnew Hk Ht E1 E2 E3.
  destruct (Hplan) as (P1 & P2 & Pk & P3 & P4).
  assert (Hmm : managed jm) by (by eapply managed_same).
  eapply (wf_open dm d' jm (claimed_row j owner ls now) (claimed_attempt j aid cid now)
            (claimed_component comp (job_id j) aid now)); try done.
  - eapply (hist_ok_open jm); try done; cbn -[or0]; rewrite ?Ec, ?Ee, <- ?P4, ?Eq; try done.
    by apply W.
  - unfold bound_to, opt_is. cbn. by rewrite !bool_decide_eq_true_2.
Qed.

(** What [open_lease] writes. *)
Lemma open_lease_effect env d j prev owner cid ls d' r :
  wf d -> open_lease env d j prev owner cid ls = Ok (d', r) ->
  let now := ce_claim_now env in let aid := ce_attempt_id env in
  exists comp, let d1 := put_component comp d in
    let d2 := match prev with Some a => close_expired_attempt d1 a now | None => d1 end in
  ch_component_instance_id comp = cid /\ ch_component_type comp = "worker"
  /\ (forall c, component_heartbeats d !! cid = Some c ->
        (ch_current_job_id comp = ch_current_job_id c
         /\ ch_current_attempt_id comp = ch_current_attempt_id c)
        /\ ((ch_current_job_id c = None /\ ch_current_attempt_id c = None)
            \/ exists a, prev = Some a /\ bound_to a c = true))
  /\ (forall b, b ∈ job_attempts d2 -> at_attempt_id b <> aid)
  /\ job_runs d' = <[job_id j := claimed_row j owner ls now]> (job_runs d2)
  /\ job_attempts d' = job_attempts d2 ++ [claimed_attempt j aid cid now]
  /\ component_heartbeats d'
     = <[cid := claimed_component comp (job_id j) aid now]> (component_heartbeats d2)
  /\ r = Some (MkClaimedJobRecord (job_id j) aid (or0 (attempt_count j) + 1) owner
                 (or0 (lease_epoch j) + 1) cid (business_date j)
                 (default "collect" (current_stage j))).
Proof.
  intros W. unfold open_lease. intros (ex & Hlock & Hrest)%result_bind_Ok.
  apply result_bind_Ok in Hrest as (d3 & Hins & Heq). injection Heq as <- <-.
  apply insert_attempt_Ok in Hins as [-> Hnew].
  destruct (prepare_worker_facts d cid prev ex (ce_claim_now env) W Hlock) as (F1 & F2 & -> & F4).
  exists (prepare_worker_component cid (ce_claim_now env) (component_heartbeats d !! cid)).
  split_and!; try done.
  - intros c Hc. rewrite Hc in *. split; [done|]. by apply F4.
  - cbn. by rewrite F1.
Qed.

(** A takeover of the budget's last attempt fails the job. *)
Lemma exhausted_effect d j h0 a c now maxa q :
  wf d -> job_runs d !! job_id j = Some j -> managed j -> status j = Running ->
  history (job_id j) d = h0 ++ [a] -> unfinished a = true ->
  component_heartbeats d !! at_component_instance_id a = Some c ->
  ch_component_type c = at_component_type a -> bound_to a c = true ->
  let d' := fail_job_after_exhausted_crash (close_expired_attempt d a now) j a now maxa q in
  wf d' /\ exists j1, settled j j1 /\ status j1 = Failed
    /\ quota_pause_count j1 = quota_pause_count j
    /\ job_runs d' = <[job_id j := j1]> (job_runs d)
    /\ job_attempts d' = replace_attempt (expired_attempt a now) <$> job_attempts d.
Proof.
  intros W Hj Hm Hr Hh Hu Hc Ht Hb. cbn zeta.
  destruct (close_expired_effect d a c now Hc (wf_comp_keys _ W _ _ Hc) Ht Hb) as (E1 & E2 & E3).
  unfold fail_job_after_exhausted_crash.
  match goal with |- context [preserve_previous_error_job ?x ?y] =>
    destruct (preserve_previous_job_same x y) as ((P1 & P2 & Pk & P3 & P4) & Ps & Po & Pe & Pc & Pl & Pq & _);
    generalize dependent (preserve_previous_error_job x y) end.
  cbn -[close_expired_attempt or0]. intros j1 P1 P2 Pk P3 P4 Ps Po Pe Pc Pl Pq.
  assert (S : settled j (j1 <| error_message := error_summary j1 |>)).
  { constructor; cbn; [|by rewrite ?Ps, ?Po, ?Pe, ?Pc, ?Pl..]. split_and!; cbn; done. }
  split.
  - eapply (wf_settle d _ (job_id j) j h0 a c (j1 <| error_message := error_summary j1 |>)
              (expired_attempt a now) (released c Degraded now)); try done.
    + unfold pause_accounted. rewrite (proj2 (proj2 (expired_attempt_facts a now))). cbn -[or0].
      by rewrite Pq.
    + rewrite released_key. by apply (wf_comp_keys _ W).
    + cbn -[close_expired_attempt]. by rewrite E1.
  - eexists. split_and!; [exact S|exact Ps|exact Pq| |].
    + cbn -[close_expired_attempt]. rewrite E1, P1. done.
    + cbn -[close_expired_attempt]. by rewrite E2.
Qed.

Lemma wf_take_lease env d j owner cid ls d' r :
  wf d -> takeable d j -> blank owner = false ->
  take_lease env d j owner cid ls = Ok (d', r) -> wf d'.
Proof.
  intros W T Hbl. destruct T as [Hj Hm Hal Hrd]. unfold take_lease. case_decide as Hr.
  - intros (a & Hlock & Hrest)%result_bind_Ok. revert Hrest.
    destruct (lock_expired_open _ _ _ _ _ W Hj Hm Hr Hlock) as (h0 & Eh & Hu).
    destruct (running_row _ _ _ W Hj Hm Hr)
      as (h1 & a1 & c & Eh1 & _ & _ & Hjid & Ha & Hty & Hc & Hct & Hb).
    rewrite Eh in Eh1. apply app_inj_tail in Eh1 as [<- <-].
    destruct (_ <=? _) eqn:Hbud.
    + intros [= <- _]. eapply exhausted_effect; try done. congruence.
    + intros Hopen. destruct (open_lease_effect _ _ _ _ _ _ _ _ _ W Hopen)
        as (comp & F1 & F2 & F3 & Hnew & E1 & E2 & E3 & _).
      set (now := ce_claim_now env) in *.
      assert (Hcl : exists c1, component_heartbeats (put_component comp d) !! at_component_instance_id a
                               = Some c1 /\ ch_component_type c1 = at_component_type a
                               /\ bound_to a c1 = true
                               /\ ch_component_instance_id c1 = at_component_instance_id a).
      { cbn. rewrite F1, lookup_insert. case_decide as Ecid.
        - exists comp. rewrite Hty. split_and!; try done; [|congruence]. rewrite <- Ecid in Hc.
          destruct (F3 _ Hc) as [[Ej Ea] _]. unfold bound_to in *. by rewrite Ej, Ea.
        - exists c. split_and!; try done; [congruence|]. by apply (wf_comp_keys _ W). }
      destruct Hcl as (c1 & Hc1 & Ht1 & Hb1 & Hk1).
      destruct (close_expired_effect (put_component comp d) a c1 now Hc1 Hk1 Ht1 Hb1)
        as (G1 & G2 & G3).
      set (dm := MkDb (<[job_id j := idle_row j]> (job_runs d))
                      (replace_attempt (expired_attempt a now) <$> job_attempts d)
                      (<[at_component_instance_id a := released c Degraded now]> (component_heartbeats d))
                      []).
      assert (Wm : wf dm).
      { eapply (wf_settle d dm (job_id j) j h0 a c (idle_row j) (expired_attempt a now)
                  (released c Degraded now)); try done; try by constructor.
        rewrite released_key. by apply (wf_comp_keys _ W). }
      eapply (wf_take_open dm d' j (idle_row j) owner (ce_attempt_id env) cid ls now comp Wm);
        try done; cbn [job_runs job_attempts component_heartbeats dm].
      * by rewrite lookup_insert_eq.
      * intros k x. rewrite lookup_insert. case_decide as Ek; [intros [= <-]; done|].
        intros Hx Hsx Hwx. apply Ek. symmetry. by eapply Hal.
      * lia.
      * rewrite G2 in Hnew. exact Hnew.
      * by rewrite E1, G1, insert_insert_eq.
      * by rewrite E2, G2.
      * rewrite E3, G3. cbn. rewrite F1. destruct (decide (cid = at_component_instance_id a)) as [->|Hne].
        -- by rewrite !insert_insert_eq.
        -- assert (c1 = c) as ->.
           { cbn in Hc1. rewrite F1, lookup_insert_ne in Hc1 by done. congruence. }
           rewrite (insert_insert_ne (component_heartbeats d)) by congruence.
           by rewrite insert_insert_eq.
  - intros Hopen. destruct (open_lease_effect _ _ _ _ _ _ _ _ _ W Hopen)
      as (comp & F1 & F2 & F3 & Hnew & E1 & E2 & E3 & _).
    eapply (wf_take_open d d' j j owner (ce_attempt_id env) cid ls _ comp W); try done; auto.
    + intros k x Hx Hs Hw. assert (k = job_id j) as -> by eauto. congruence.
    + rewrite E3. cbn. by rewrite F1, insert_insert_eq.
Qed.
