(* ===== verification/ClaimOrder.v ===== *)
(** * The order of candidates and the end of the candidate loop

    [heavy_claim_after_key] is a strict total order on the keys of rows, the
    scan returns the least claimable row, and the loop of a heavy claim visits
    each live row at most once, so that one turn per row of the table is enough. *)
From S2P Require Import Prelude PyValue Jobs Claims TaskControl LeaseInv LeaseSteps LeaseClaims.

(** ** The order of keys *)

Lemma str_ltb_irrefl a : str_ltb a a = false.
Proof. unfold str_ltb. apply negb_false_iff. destruct (String.leb_total a a); done. Qed.

Lemma leb_le a b : String.leb a b = true <-> String.le a b.
Proof. unfold String.le. by destruct (String.leb a b). Qed.

Lemma str_ltb_spec a b : str_ltb a b = true <-> String.le a b /\ a <> b.
Proof.
  unfold str_ltb. rewrite negb_true_iff, <- Bool.not_true_iff_false, leb_le. split.
  - intros H. destruct (String.le_total a b) as [?|?]; [|done]. split; [done|]. by intros ->.
  - intros [H1 H2] H3. apply H2. by apply (anti_symm String.le).
Qed.

Lemma str_ltb_trans a b c : str_ltb a b = true -> str_ltb b c = true -> str_ltb a c = true.
Proof.
  rewrite !str_ltb_spec. intros [H1 H2] [H3 H4]. split; [by transitivity b|].
  intros ->. apply H2. by apply (anti_symm String.le).
Qed.

Lemma str_ltb_total a b : str_ltb a b = true \/ a = b \/ str_ltb b a = true.
Proof.
  destruct (decide (a = b)) as [->|Hne]; [by right; left|].
  destruct (String.le_total a b); [left|do 2 right]; apply str_ltb_spec; done.
Qed.

(** The order read off the key: kind, then running, then no date, then date,
    then the job id. *)
Definition key_lt (a b : JobRun) : Prop :=
  let '(ka, sa, na, da, ia) := heavy_claim_order_key a in
  let '(kb, sb, nb, db, ib) := heavy_claim_order_key b in
  ka < kb \/ (ka = kb /\ (sa < sb \/ (sa = sb /\ (na < nb \/ (na = nb /\
    (default 0 da < default 0 db \/ (default 0 da = default 0 db /\ str_ltb ia ib = true))))))).

Lemma after_key_lt a b : heavy_claim_after_key (heavy_claim_order_key a) b = true <-> key_lt a b.
Proof.
  unfold heavy_claim_after_key, key_lt, heavy_claim_order_key.
  generalize (if opt_is (job_kind a) ParentSync then 0 else 1) as ka.
  generalize (if opt_is (job_kind b) ParentSync then 0 else 1) as kb.
  generalize (if bool_decide (status a = Running) then 0 else 1) as sa.
  generalize (if bool_decide (status b = Running) then 0 else 1) as sb.
  intros sb sa kb ka.
  destruct (business_date a) as [da|], (business_date b) as [dd|]; cbn;
    rewrite ?bool_decide_eq_true_2, ?(bool_decide_eq_false_2 (Some _ = None)) by done;
    rewrite ?orb_true_iff, ?andb_true_iff, ?Z.ltb_lt, ?Z.eqb_eq; intuition (try lia; try done).
Qed.

Lemma key_lt_irrefl a : ~ key_lt a a.
Proof.
  unfold key_lt, heavy_claim_order_key. rewrite str_ltb_irrefl.
  intuition (try lia; try done).
Qed.

Lemma key_lt_trans a b c : key_lt a b -> key_lt b c -> key_lt a c.
Proof.
  unfold key_lt. destruct (heavy_claim_order_key a) as [[[[ka sa] na] da] ia],
    (heavy_claim_order_key b) as [[[[kb sb] nb] db] ib], (heavy_claim_order_key c) as [[[[kc sc] nc] dc] ic].
  pose proof (str_ltb_trans ia ib ic).
  generalize (default 0 da), (default 0 db), (default 0 dc). intros.
  intuition lia.
Qed.

Lemma key_lt_total a b : key_lt a b \/ job_id a = job_id b \/ key_lt b a.
Proof.
  unfold key_lt, heavy_claim_order_key.
  generalize (if opt_is (job_kind a) ParentSync then 0 else 1) as ka.
  generalize (if opt_is (job_kind b) ParentSync then 0 else 1) as kb.
  generalize (if bool_decide (status a = Running) then 0 else 1) as sa.
  generalize (if bool_decide (status b = Running) then 0 else 1) as sb.
  intros sb sa kb ka.
  destruct (str_ltb_total (job_id a) (job_id b)) as [H|[H|H]]; [|by right; left|];
    rewrite H; lia.
Qed.

Lemma first_by_key_None rows : first_by_key rows = None -> rows = [].
Proof.
  destruct rows as [|x rows]; [done|]. cbn. fold (first_by_key rows). repeat case_match; done.
Qed.

(** The scan returns a least row of its list. *)
Lemma first_by_key_spec rows j :
  (forall a b, a ∈ rows -> b ∈ rows -> job_id a = job_id b -> a = b) ->
  first_by_key rows = Some j ->
  j ∈ rows /\ forall r, r ∈ rows -> r = j \/ key_lt j r.
Proof.
  revert j. induction rows as [|x rows IH]; intros j Hinj; cbn [first_by_key fold_right]; [done|].
  fold (first_by_key rows). destruct (first_by_key rows) as [b|] eqn:E.
  - destruct (IH b ltac:(set_solver) eq_refl) as [Hb Hmin].
    destruct (heavy_claim_after_key (heavy_claim_order_key b) x) eqn:Ha; intros [= <-].
    + split; [by right|]. intros r [->|Hr]%elem_of_cons; [|auto]. right. by apply after_key_lt.
    + split; [by left|]. assert (~ key_lt b x) as Hn by (rewrite <- after_key_lt; congruence).
      assert (Hx : x = b \/ key_lt x b).
      { destruct (key_lt_total x b) as [?|[?|?]]; [by right| |done]. left. apply Hinj; set_solver. }
      intros r [->|Hr]%elem_of_cons; [by left|].
      destruct (Hmin r Hr) as [->|?], Hx as [->|?]; auto. right. by eapply key_lt_trans.
  - intros [= <-]. apply first_by_key_None in E as ->. set_solver.
Qed.

(** ** The rows of the table *)

Lemma elem_of_job_rows d j : wf d -> j ∈ job_rows d <-> job_runs d !! job_id j = Some j.
Proof.
  intros W. unfold job_rows. rewrite list_elem_of_fmap. split.
  - intros ([k x] & -> & Hx%elem_of_map_to_list). cbn. by rewrite (wf_job_keys _ W _ _ Hx).
  - intros Hj. exists (job_id j, j). split; [done|]. by apply elem_of_map_to_list.
Qed.

Lemma next_candidate_spec d now locked kinds only last j :
  wf d -> next_candidate d now locked kinds only last = Some j ->
  job_runs d !! job_id j = Some j /\ claimable d now kinds only j = true
  /\ locked (job_id j) = false
  /\ (forall k, last = Some k -> heavy_claim_after_key k j = true)
  /\ (forall r, job_runs d !! job_id r = Some r -> claimable d now kinds only r = true ->
        locked (job_id r) = false -> (forall k, last = Some k -> heavy_claim_after_key k r = true) ->
        r = j \/ key_lt j r).
Proof.
  intros W Hn. unfold next_candidate in Hn. set (P := fun j => _) in Hn.
  assert (HP : forall r, P r = true <-> claimable d now kinds only r = true
     /\ locked (job_id r) = false /\ (forall k, last = Some k -> heavy_claim_after_key k r = true)).
  { intros r. unfold P. rewrite !andb_true_iff, negb_true_iff. destruct last; naive_solver. }
  assert (Hin : forall r, r ∈ List.filter P (job_rows d) <-> job_runs d !! job_id r = Some r /\ P r = true).
  { intros r. rewrite list_elem_of_In, List.filter_In, <- list_elem_of_In. by rewrite elem_of_job_rows. }
  apply first_by_key_spec in Hn as [Hj Hmin].
  - apply Hin in Hj as [Hj Hpj]. apply HP in Hpj as (H1 & H2 & H3). split_and!; try done.
    intros r Hr Hc Hl Hk. apply Hmin, Hin. split; [done|]. by apply HP.
  - intros a b [Ha _]%Hin [Hb _]%Hin E. congruence.
Qed.

Lemma no_other_alone d j k x :
  wf d -> no_other_running_heavy_job d j = true -> job_runs d !! k = Some x ->
  status x = Running -> heavy_writer x = true -> k = job_id j.
Proof.
  intros W Hn Hx Hs Hw. unfold no_other_running_heavy_job in Hn. rewrite forallb_forall in Hn.
  pose proof (wf_job_keys _ W _ _ Hx) as <-.
  specialize (Hn x ltac:(by apply list_elem_of_In, elem_of_job_rows)).
  rewrite Hw, bool_decide_eq_true_2 in Hn by done.
  destruct (str_eqb (job_id x) (job_id j)) eqn:E; [by apply str_eqb_true in E|done].
Qed.

Lemma ready_budget now j h :
  hist_ok j h -> ready_to_start now j = true ->
  or0 (attempt_count j) < or_int (max_attempts j) 3 + or0 (quota_pause_count j).
Proof.
  intros H. pose proof (ho_max _ _ H). pose proof (ho_count _ _ H). unfold ready_to_start.
  rewrite andb_true_iff, Z.ltb_lt, !default_or0. intros [_ Hb].
  destruct (max_attempts j) as [m|]; cbn in *; [|done]. unfold or_int in *. cbn in *.
  destruct (m =? 0) eqn:E; lia.
Qed.

Lemma candidate_takeable d now kinds only j :
  wf d -> kinds ⊆ HEAVY_JOB_KINDS ->
  job_runs d !! job_id j = Some j -> claimable d now kinds only j = true ->
  takeable d j /\ live_status (status j)
  /\ (ready_to_start now j = true \/ lease_expired_at now j = true).
Proof.
  intros W Hkinds Hj. unfold claimable. rewrite !andb_true_iff. intros [[[[[[Hkd Hslot] Hr] Hn] _] _] _].
  assert (Hm : managed j).
  { apply opt_is_true in Hslot. split; [done|]. destruct (job_kind j); [|done].
    apply bool_decide_eq_true in Hkd. by apply Hkinds. }
  pose proof (wf_hist _ W _ _ Hj Hm) as H.
  apply orb_true_iff in Hr. split_and!; [constructor| |].
  - done.
  - done.
  - intros k x. by apply no_other_alone.
  - intros Hs. destruct Hr as [Hr|Hr]; [by eapply ready_budget|].
    unfold lease_expired_at in Hr. by tests.
  - unfold live_status. destruct Hr as [Hr|Hr].
    + unfold ready_to_start in Hr. apply andb_true_iff in Hr as [Hr _].
      apply orb_true_iff in Hr as [Hr|Hr]; tests; auto.
    + unfold lease_expired_at in Hr. tests. auto.
  - done.
Qed.

(** ** One turn of the loop *)

(** A passed-over candidate leaves the table as it was, or its own row failed. *)
Lemma judge_pass_over gate env rd i d j d1 :
  wf d -> job_runs d !! job_id j = Some j -> managed j ->
  judge_candidate gate env rd i d j = Ok (PassOver d1) ->
  wf d1 /\ (d1 = d \/ exists j1, status j1 = Failed /\ settled j j1
                        /\ job_runs d1 = <[job_id j := j1]> (job_runs d)).
Proof.
  intros W Hj Hm.
  assert (HQ : forall now cs req, (let* x := quarantine_invalid_expired_running_job d j now cs req in
                Ok (PassOver x)) = Ok (PassOver d1) -> wf d1 /\ (d1 = d \/ exists j1, status j1 = Failed
                /\ settled j j1
                /\ job_runs d1 = <[job_id j := j1]> (job_runs d))).
  { intros now cs req (x & Hq & [= <-])%result_bind_Ok.
    split; [by eapply wf_quarantine|]. right. exists (quarantined_row j now).
    destruct (quarantine_effect _ _ _ _ _ _ W Hj Hm Hq) as [E1 _]. done. }
  unfold judge_candidate.
  repeat match goal with
  | |- (if ?b then _ else _) = _ -> _ => destruct b
  | |- match ?o with _ => _ end = _ -> _ => destruct o
  end; first [apply HQ | intros Heq; simplify_eq; eauto].
Qed.

Lemma judge_take gate env rd i d j j' :
  judge_candidate gate env rd i d j = Ok (Take j') -> j' = j.
Proof.
  unfold judge_candidate, result_bind. repeat case_match; intros Heq; simplify_eq; done.
Qed.

(** ** The loop ends *)

(** The rows a later scan may still return. *)
Definition may_follow (last : option order_key) (j : JobRun) : bool :=
  bool_decide (status j ∈ [Pending; RetryWait; Running])
  && match last with Some k => heavy_claim_after_key k j | None => true end.

Lemma failed_may_not_follow last j : status j = Failed -> may_follow last j = false.
Proof. unfold may_follow. by intros ->. Qed.

Definition pending_turns (last : option order_key) (d : db) : nat :=
  size (filter (fun x => may_follow last x.2 = true) (job_runs d)).

Lemma pending_turns_decrease d d1 last j :
  job_runs d !! job_id j = Some j -> live_status (status j) ->
  (forall k, last = Some k -> exists r, k = heavy_claim_order_key r /\ key_lt r j) ->
  (d1 = d \/ exists j1, status j1 = Failed /\ job_runs d1 = <[job_id j := j1]> (job_runs d)) ->
  (pending_turns (Some (heavy_claim_order_key j)) d1 < pending_turns last d)%nat.
Proof.
  intros Hj Hs Hl Hd. unfold pending_turns. apply map_subset_size.
  assert (Hjl : may_follow last j = true).
  { unfold may_follow. rewrite bool_decide_eq_true_2 by (unfold live_status in Hs; set_solver).
    destruct last as [k|]; [|done]. destruct (Hl k eq_refl) as (r & -> & Hr). by apply after_key_lt. }
  apply map_subset_alt. split.
  - apply map_subseteq_spec. intros k x. rewrite !map_lookup_filter_Some. intros [Hk Hp]. cbn in *.
    assert (Hx : job_runs d !! k = Some x).
    { destruct Hd as [->|(j1 & Hf & E)]; [done|]. rewrite E, lookup_insert in Hk.
      case_decide; [|done]. injection Hk as <-. by rewrite failed_may_not_follow in Hp. }
    split; [done|]. unfold may_follow in *. apply andb_true_iff in Hp as [-> Hp]. cbn.
    destruct last as [kl|]; [|done]. destruct (Hl kl eq_refl) as (r & -> & Hr).
    apply after_key_lt in Hp. apply after_key_lt. exact (key_lt_trans _ _ _ Hr Hp).
  - exists (job_id j). split.
    + apply map_lookup_filter_None. right. intros x Hx. cbn. destruct Hd as [->|(j1 & Hf & E)].
      * rewrite Hj in Hx. injection Hx as <-. unfold may_follow. rewrite andb_true_iff, after_key_lt.
        intros [_ ?]. by eapply key_lt_irrefl.
      * rewrite E, lookup_insert_eq in Hx. injection Hx as <-. by rewrite failed_may_not_follow.
    + exists j. by apply map_lookup_filter_Some.
Qed.

Section Loop.
Variable gate : db -> JobRun -> bool.
Variable env : claim_env.
Variables (kinds : list job_kind_t) (only : option string) (rd : resource_decision).
Hypothesis Hkinds : kinds ⊆ HEAVY_JOB_KINDS.

(** The epoch of a row as the loop leaves it. *)
Definition same_epochs (d d' : db) : Prop :=
  forall k j, job_runs d !! k = Some j -> exists j', job_runs d' !! k = Some j'
    /\ lease_epoch j' = lease_epoch j /\ (status j' = Running -> j' = j).

Lemma same_epochs_refl d : same_epochs d d.
Proof. intros k j Hj. eauto. Qed.

Lemma same_epochs_trans d1 d2 d3 : same_epochs d1 d2 -> same_epochs d2 d3 -> same_epochs d1 d3.
Proof.
  intros H1 H2 k j Hj. destruct (H1 _ _ Hj) as (j2 & Hj2 & E2 & R2).
  destruct (H2 _ _ Hj2) as (j3 & Hj3 & E3 & R3). exists j3. split_and!; [done|congruence|].
  intros Hr. assert (j3 = j2) as -> by auto. auto.
Qed.

Lemma judge_same_epochs i d j d1 :
  wf d -> job_runs d !! job_id j = Some j -> managed j ->
  judge_candidate gate env rd i d j = Ok (PassOver d1) -> same_epochs d d1.
Proof.
  intros W Hj Hm Hp. destruct (judge_pass_over _ _ _ _ _ _ _ W Hj Hm Hp) as [_ [->|(j1 & Hf & S & E)]].
  - apply same_epochs_refl.
  - intros k x Hx. rewrite E, lookup_insert. case_decide; subst; [|eauto].
    exists j1. rewrite Hj in Hx. injection Hx as <-. split_and!; [done|apply S|congruence].
Qed.

(** What the loop leaves: a well-formed database in which the chosen row, if
    any, may be taken. *)
Lemma claim_loop_spec fuel : forall i last d d1 o,
  wf d -> claim_loop gate env kinds only rd fuel i last d = Some (Ok (d1, o)) ->
  wf d1 /\ same_epochs d d1 /\ forall j, o = Some j -> takeable d1 j /\ exists now,
    ready_to_start now j = true \/ lease_expired_at now j = true.
Proof.
  induction fuel as [|fuel IH]; intros i last d d1 o W; cbn; [done|].
  destruct (next_candidate _ _ _ _ _ _) as [j|] eqn:Hn;
    [|intros [= <- <-]; split_and!; [done|apply same_epochs_refl|done]].
  apply next_candidate_spec in Hn as (Hj & Hc & _); [|done].
  destruct (candidate_takeable _ _ _ _ _ W Hkinds Hj Hc) as (T & _ & Hr).
  destruct (judge_candidate gate env rd i d j) as [[j'|d2]|] eqn:Hv; [| |done].
  - apply judge_take in Hv as ->. intros [= <- <-]. split_and!; [done|apply same_epochs_refl|].
    intros x [= <-]. eauto.
  - pose proof (judge_same_epochs _ _ _ _ W Hj (tk_managed _ _ T) Hv) as S.
    destruct (judge_pass_over _ _ _ _ _ _ _ W Hj (tk_managed _ _ T) Hv) as [W2 _].
    destruct only.
    + intros [= <- <-]. done.
    + intros Hrec. destruct (IH _ _ _ _ _ W2 Hrec) as (? & ? & ?). eauto using same_epochs_trans.
Qed.

(** The loop ends as soon as its fuel exceeds the rows still to visit. *)
Lemma claim_loop_ends fuel : forall i last d,
  wf d -> (forall k, last = Some k -> exists r, k = heavy_claim_order_key r) ->
  (pending_turns last d < fuel)%nat ->
  claim_loop gate env kinds only rd fuel i last d <> None.
Proof.
  induction fuel as [|fuel IH]; intros i last d W Hl Hf; cbn; [lia|].
  destruct (next_candidate _ _ _ _ _ _) as [j|] eqn:Hn; [|done].
  apply next_candidate_spec in Hn as (Hj & Hc & _ & Hafter & _); [|done].
  destruct (candidate_takeable _ _ _ _ _ W Hkinds Hj Hc) as (T & Hs & _).
  destruct (judge_candidate gate env rd i d j) as [[j'|d2]|] eqn:Hv; [done| |done].
  destruct (judge_pass_over _ _ _ _ _ _ _ W Hj (tk_managed _ _ T) Hv) as [W2 Hd2].
  destruct only; [done|]. apply IH; [done|intros k [= <-]; eauto|].
  enough (pending_turns (Some (heavy_claim_order_key j)) d2 < pending_turns last d)%nat by lia.
  apply pending_turns_decrease; [done|done| |].
  - intros k Hk. destruct (Hl k Hk) as [r ->]. exists r. split; [done|].
    apply after_key_lt. by apply Hafter.
  - destruct Hd2 as [?|(j1 & ? & _ & ?)]; eauto.
Qed.

Lemma claim_loop_fuel d i :
  wf d -> claim_loop gate env kinds only rd (S (size (job_runs d))) i None d <> None.
Proof.
  intros W. apply claim_loop_ends; [done|done|]. unfold pending_turns.
  apply Nat.lt_succ_r, map_subseteq_size, map_filter_subseteq.
Qed.
End Loop.
