(* ===== verification/LeaseMachine.v ===== *)
(** * The lease state machine: steps and reachable states

    The operations of the control plane as one step relation, the invariant of
    its reachable states and the fencing of lease tokens. *)
From S2P Require Import Prelude PyValue Jobs Claims TaskControl Control LeaseInv LeaseSteps LeaseClaims ClaimOrder.

(** ** What an operation does to the job rows *)

(** The rows of [d'] follow those of [d]: a managed row stays, its epoch never
    decreases, and it starts running only with a larger epoch. *)
Definition advances (d d' : db) : Prop :=
  forall k j, job_runs d !! k = Some j -> managed j ->
  exists j', job_runs d' !! k = Some j' /\ managed j'
    /\ or0 (lease_epoch j) <= or0 (lease_epoch j')
    /\ (status j' = Running -> status j = Running \/ or0 (lease_epoch j) < or0 (lease_epoch j')).

#[export] Instance advances_refl : Reflexive advances.
Proof. intros d k j Hj Hm. exists j. auto with lia. Qed.

#[export] Instance advances_trans : Transitive advances.
Proof.
  intros d1 d2 d3 H1 H2 k j Hj Hm. destruct (H1 _ _ Hj Hm) as (j2 & Hj2 & Hm2 & E2 & R2).
  destruct (H2 _ _ Hj2 Hm2) as (j3 & Hj3 & Hm3 & E3 & R3). exists j3. split_and!; [done|done|lia|].
  intros Hr. destruct (R3 Hr) as [Hr2|?]; [destruct (R2 Hr2); [by left|right; lia]|right; lia].
Qed.

Lemma advances_same d d' : job_runs d' = job_runs d -> advances d d'.
Proof. intros E k j. rewrite E. apply (advances_refl d). Qed.

Lemma advances_put d d' k j j1 :
  job_runs d !! k = Some j -> job_runs d' = <[k := j1]> (job_runs d) ->
  (managed j -> managed j1 /\ or0 (lease_epoch j) <= or0 (lease_epoch j1)
    /\ (status j1 = Running -> status j = Running \/ or0 (lease_epoch j) < or0 (lease_epoch j1))) ->
  advances d d'.
Proof.
  intros Hj E H i x Hx Hm. rewrite E, lookup_insert. case_decide; subst.
  - assert (x = j) as -> by congruence. destruct (H Hm) as (? & ? & ?). eauto.
  - by apply (advances_refl d).
Qed.

Lemma settled_managed j j1 : settled j j1 -> managed j -> managed j1.
Proof. intros [(_ & P2 & Pk & _)]. by apply managed_same. Qed.

(** The outcome of completing, failing or cancelling: nothing, or the row of the
    token settled. *)
Definition terminal_outcome (d : db) (tk : LeaseToken) (d' : db) (r : bool) : Prop :=
  (r = false /\ d' = d)
  \/ (r = true /\ exists j j1, job_runs d !! tk_job_id tk = Some j /\ managed j
        /\ lease_epoch j = Some (tk_lease_epoch tk) /\ settled j j1
        /\ job_runs d' = <[tk_job_id tk := j1]> (job_runs d)).

(** Every fenced operation does nothing, or runs its body on the live row. *)
Lemma under_lease d tk now1 b now2 (body : JobRun -> result (db * bool)) d' r :
  wf d ->
  match lock_active_execution_state d tk now1 b with
  | None => Ok (d, false)
  | Some _ => match active_row d tk now2 with None => Ok (d, false) | Some j => body j end
  end = Ok (d', r) ->
  (r = false /\ d' = d) \/ exists j h0 a c, live d tk j h0 a c /\ body j = Ok (d', r).
Proof.
  intros W. destruct (lock_active_execution_state d tk now1 b) as [ae|] eqn:Hl;
    [|by intros [= <- <-]; left].
  destruct (lock_active_live _ _ _ _ _ W Hl) as (j & h0 & a & c & L & _).
  destruct (active_row d tk now2) as [j2|] eqn:Hr; [|by intros [= <- <-]; left].
  rewrite (active_row_live _ _ _ _ _ _ _ _ L Hr). right. eauto 6.
Qed.

Lemma settled_outcome d tk j h0 a c j1 now ex code summary cst ev st' reason payload d' r :
  wf d -> live d tk j h0 a c -> settled j j1 ->
  close_execution (put_job j1 d) tk now ex code summary cst ev st' reason payload = Ok (d', r) ->
  terminal_outcome d tk d' r.
Proof.
  intros W L S. destruct (close_execution_live d tk j h0 a c j1 now ex code summary cst ev st' reason
                            payload W L) as (d1 & -> & E & _).
  intros [= <- <-]. right. split; [done|]. exists j, j1.
  split_and!; [apply L|apply L|apply L|done|]. destruct S as [(P1 & _)].
  by rewrite E, P1, (wf_job_keys _ W _ _ (lv_job _ _ _ _ _ _ L)).
Qed.

Lemma complete_outcome d tk n now1 now2 d' r :
  wf d -> complete_claim d tk n now1 now2 = Ok (d', r) -> terminal_outcome d tk d' r.
Proof.
  intros W [?|(j & h0 & a & c & L & Hc)]%under_lease; [by left| |done].
  eapply settled_outcome in Hc; try done; by constructor.
Qed.

Lemma cancel_outcome d tk reason now1 now2 d' r :
  wf d -> cancel_claim d tk reason now1 now2 = Ok (d', r) -> terminal_outcome d tk d' r.
Proof.
  intros W [?|(j & h0 & a & c & L & Hc)]%under_lease; [by left| |done].
  destruct (bool_decide _); [by left; simplify_eq|].
  eapply settled_outcome in Hc; try done; by constructor.
Qed.

Lemma fail_outcome d tk st delay ex code summary p f now1 now2 d' r :
  wf d -> st <> Running ->
  fail_claim d tk st delay ex code summary p f now1 now2 = Ok (d', r) -> terminal_outcome d tk d' r.
Proof.
  intros W Hst [?|(j & h0 & a & c & L & Hc)]%under_lease; [by left| |done].
  eapply settled_outcome in Hc; try done; by constructor.
Qed.

Lemma terminal_advances d tk d' r : terminal_outcome d tk d' r -> advances d d'.
Proof.
  intros [[_ ->]|(_ & j & j1 & Hj & Hm & _ & S & E)]; [reflexivity|].
  eapply advances_put; [done|done|]. intros _. split_and!; [by eapply settled_managed| |].
  - by rewrite (se_epoch _ _ S).
  - intros Hr. by destruct (se_status _ _ S).
Qed.

(** A heartbeat keeps the lease; an observation does not touch the rows. *)
Lemma heartbeat_outcome d tk s now1 now2 d' r :
  wf d -> heartbeat_claim d tk s now1 now2 = Ok (d', r) ->
  (r = false /\ d' = d)
  \/ (r = true /\ exists j, job_runs d !! tk_job_id tk = Some j
      /\ job_runs d' = <[tk_job_id tk := j <| heartbeat_at := Some now2 |>
                           <| lease_expires_at := Some (now2 + seconds s) |>]> (job_runs d)).
Proof.
  intros W [?|(j & h0 & a & c & L & Hc)]%under_lease; [by left| |done].
  right. destruct (bound_worker _ _ _ _); [|done]. injection Hc as <- <-. split; [done|].
  exists j. split; [apply L|]. cbn. by rewrite (wf_job_keys _ W _ _ (lv_job _ _ _ _ _ _ L)).
Qed.

Lemma heartbeat_advances d tk s now1 now2 d' r :
  wf d -> heartbeat_claim d tk s now1 now2 = Ok (d', r) -> advances d d'.
Proof.
  intros W H. destruct (heartbeat_outcome _ _ _ _ _ _ _ W H) as [[_ ->]|(_ & j & Hj & E)]; [reflexivity|].
  eapply advances_put; [done|done|]. intros Hm. split_and!; [done|cbn; lia|auto].
Qed.

Lemma observe_job_runs d tk ec rss code summary now d' r :
  record_attempt_observation d tk ec rss code summary now = Ok (d', r) -> job_runs d' = job_runs d.
Proof.
  unfold record_attempt_observation. destruct (match rss with Some _ => _ | None => _ end); [done|].
  destruct (lock_active_execution_state _ _ _ _); [|by intros [= <- _]].
  unfold update_where. by intros [= <- _].
Qed.

(** ** Claims *)

(** The row of a job after [take_lease]. *)
Lemma take_lease_rows env d j owner cid ls d' r :
  wf d -> takeable d j -> take_lease env d j owner cid ls = Ok (d', r) ->
  (r = None /\ status j = Running /\ exists j1, settled j j1 /\ status j1 = Failed
     /\ job_runs d' = <[job_id j := j1]> (job_runs d))
  \/ (r = Some (MkClaimedJobRecord (job_id j) (ce_attempt_id env) (or0 (attempt_count j) + 1) owner
                  (or0 (lease_epoch j) + 1) cid (business_date j) (default "collect" (current_stage j)))
      /\ job_runs d' = <[job_id j := claimed_row j owner ls (ce_claim_now env)]> (job_runs d)).
Proof.
  intros W T. destruct T as [Hj Hm Hal Hrd]. unfold take_lease. case_decide as Hr.
  - intros (a & Hlock & Hrest)%result_bind_Ok. revert Hrest.
    destruct (lock_expired_open _ _ _ _ _ W Hj Hm Hr Hlock) as (h0 & Eh & Hu).
    destruct (running_row _ _ _ W Hj Hm Hr)
      as (h1 & a1 & c & Eh1 & _ & _ & Hjid & Ha & Hty & Hc & Hct & Hb).
    rewrite Eh in Eh1. apply app_inj_tail in Eh1 as [<- <-].
    destruct (_ <=? _) eqn:Hbud.
    + intros [= <- <-]. left. split_and!; [done|done|].
      destruct (exhausted_effect d j h0 a c (ce_claim_now env) (or_int (max_attempts j) 3)
                  (or0 (quota_pause_count j)) W Hj Hm Hr Eh Hu Hc ltac:(congruence) Hb)
        as (_ & j1 & S & Hf & _ & E & _). eauto.
    + intros Hopen. destruct (open_lease_effect _ _ _ _ _ _ _ _ _ W Hopen)
        as (comp & _ & _ & _ & _ & E1 & _ & _ & ->). right. split; [done|]. rewrite E1.
      unfold close_expired_attempt. destruct (attempt_finished_timestamp _ _).
      destruct (release_bound_component _ _ _ _) eqn:Hrel. cbn. f_equal.
      revert Hrel. unfold release_bound_component. repeat case_match; by intros [= <- _].
  - intros Hopen. destruct (open_lease_effect _ _ _ _ _ _ _ _ _ W Hopen)
      as (comp & _ & _ & _ & _ & E1 & _ & _ & ->). right. done.
Qed.

Section ClaimFacts.
Variable gate : db -> JobRun -> bool.
Variable env : claim_env.
Variables (kinds : list job_kind_t) (only : option string) (rd : resource_decision).
Hypothesis Hkinds : kinds ⊆ HEAVY_JOB_KINDS.

Lemma loop_advances fuel : forall i last d d1 o,
  wf d -> claim_loop gate env kinds only rd fuel i last d = Some (Ok (d1, o)) -> advances d d1.
Proof.
  induction fuel as [|fuel IH]; intros i last d d1 o W; cbn; [done|].
  destruct (next_candidate _ _ _ _ _ _) as [j|] eqn:Hn; [|by intros [= <- <-]].
  apply next_candidate_spec in Hn as (Hj & Hc & _); [|done].
  destruct (candidate_takeable _ _ _ _ _ W Hkinds Hj Hc) as (T & _ & Hr).
  destruct (judge_candidate gate env rd i d j) as [[j'|d2]|] eqn:Hv; [by intros [= <- <-]| |done].
  destruct (judge_pass_over _ _ _ _ _ _ _ W Hj (tk_managed _ _ T) Hv) as [W2 Hd2].
  assert (A : advances d d2).
  { destruct Hd2 as [->|(j1 & Hf & S & E)]; [reflexivity|].
    eapply advances_put; [done|done|]. intros Hm.
    split_and!; [by eapply settled_managed|by rewrite (se_epoch _ _ S)|by rewrite Hf]. }
  destruct only.
  - by intros [= <- <-].
  - intros Hrec. etransitivity; [done|]. by eapply IH.
Qed.

(** A claim keeps the tables well formed and only moves rows forward; a claimed
    token names a row that was not running under it before. *)
Lemma claim_facts d owner cid ls d' r :
  wf d -> blank owner = false ->
  claim_next_heavy_job gate env kinds only rd d owner cid ls = Some (Ok (d', r)) ->
  wf d' /\ advances d d' /\ forall c, r = Some c -> exists dm j, wf dm /\ advances d dm
    /\ takeable dm j /\ take_lease env dm j owner cid ls = Ok (d', Some c).
Proof.
  intros W Hbl. unfold claim_next_heavy_job.
  destruct (opt_is _ _); [by intros [= <- <-]|]. destruct (negb _); [by intros [= <- <-]|].
  destruct (heavy_sync_rate_limit_cooldown_active _ _); [by intros [= <- <-]|].
  destruct (claim_loop _ _ _ _ _ _ _ _ _) as [[[d1 [j|]]|]|] eqn:Hl; [| |done|done].
  - intros [= Ht]. pose proof (loop_advances _ _ _ _ _ _ W Hl) as A.
    apply claim_loop_spec in Hl as (W1 & _ & Hj); [|done|done].
    destruct (Hj j eq_refl) as [T _]. split_and!; [by eapply wf_take_lease| |].
    + transitivity d1; [done|].
      destruct (take_lease_rows _ _ _ _ _ _ _ _ W1 T Ht) as [(_ & _ & j1 & S & Hf & E)|[_ E]];
        (eapply advances_put; [apply T|exact E|]); intros Hm.
      * split_and!; [by eapply settled_managed|by rewrite (se_epoch _ _ S)|by rewrite Hf].
      * unfold claimed_row. cbn -[or0]. rewrite or0_Some. split_and!; [done|lia|intros _; right; lia].
    + intros c ->. eauto 6.
  - intros [= <- <-]. pose proof (loop_advances _ _ _ _ _ _ W Hl) as A.
    apply claim_loop_spec in Hl as (W1 & _ & Hj); done.
Qed.

Lemma claim_ends d owner cid ls :
  wf d -> claim_next_heavy_job gate env kinds only rd d owner cid ls <> None.
Proof.
  intros W. unfold claim_next_heavy_job. repeat (destruct (opt_is _ _) || destruct (negb _)
    || destruct (heavy_sync_rate_limit_cooldown_active _ _)); try done.
  pose proof (claim_loop_fuel gate env kinds only rd Hkinds d 0 W).
  destruct (claim_loop _ _ _ _ _ _ _ _ _) as [[[? [?|]]|]|]; done.
Qed.
End ClaimFacts.

(** ** Failure with the retry policy *)

Lemma retry_policy_not_running k n m q prev base fixed dec :
  retry_policy k n m q prev base fixed = Ok dec -> rd_status dec <> Running.
Proof.
  unfold retry_policy. repeat (destruct (_ <=? _) || destruct (_ || _) || destruct (_ <? _)); try done;
    destruct fixed as [f|]; try destruct (f <=? 0); try done; destruct (scheduler_pause k);
    try (by intros [= <-]); case_match; by intros [= <-].
Qed.

(** A failure code of the worker that is no pause marker once stripped. *)
Definition honest_code (k : FailureKind) (code : string) : Prop :=
  scheduler_pause k = false -> str_in (strip code) SCHEDULER_PAUSE_MARKERS = false.

(** [fail_job] does nothing, or runs [fail_claim] with a code that accounts for
    the pause. *)
Lemma fail_job_claim d tk k code summary base fixed now1 now2 now3 d' o :
  honest_code k code ->
  fail_job d tk k code summary base fixed now1 now2 now3 = Ok (d', o) ->
  (d' = d /\ o = None) \/ exists st dec ex code1 r,
    retry_policy k (ae_attempt_number st) (ae_max_attempts st) (ae_quota_pause_count st)
      (previous_attempt_exit_type d (tk_job_id tk) (ae_attempt_number st)) base fixed = Ok dec
    /\ lock_active_execution_state d tk now1 false = Some st
    /\ pause_code_ok d tk code1 (scheduler_pause k)
    /\ fail_claim d tk (rd_status dec) (rd_delay_seconds dec) ex code1 (strip summary)
         (scheduler_pause k) (negb (scheduler_pause k)) now2 now3 = Ok (d', r)
    /\ o = if r : bool then Some dec else None.
Proof.
  intros Hh. unfold fail_job. destruct (blank code); [done|]. destruct (blank summary); [done|].
  destruct (scheduler_pause k && match fixed with Some _ => _ | None => _ end); [done|].
  destruct (scheduler_pause k && negb _) eqn:Hpr; [intros [= <- <-]; by left|].
  intros (code1 & Hcode & Hrest)%result_bind_Ok. revert Hrest.
  destruct (lock_active_execution_state d tk now1 false) as [st|] eqn:Hl; [|intros [= <- <-]; by left].
  intros (dec & Hdec & Hrest)%result_bind_Ok. apply result_bind_Ok in Hrest as ([d1 r] & Hf & Heq).
  injection Heq as <- <-. right.
  exists st, dec, (attempt_exit_type k dec), (strip code1), r. split_and!; try done.
  unfold pause_code_ok, honest_code in *. destruct (scheduler_pause k) eqn:Hk.
  - split.
    + destruct k; cbn in Hcode; simplify_eq; by vm_compute.
    + intros j Hj. rewrite Hj in Hpr. cbn in Hpr. by apply negb_false_iff in Hpr.
  - injection Hcode as <-. auto.
Qed.

Lemma fail_job_facts d tk k code summary base fixed now1 now2 now3 d' o :
  wf d -> honest_code k code ->
  fail_job d tk k code summary base fixed now1 now2 now3 = Ok (d', o) ->
  wf d' /\ terminal_outcome d tk d' (bool_decide (is_Some o)).
Proof.
  intros W Hh Hf. destruct (fail_job_claim _ _ _ _ _ _ _ _ _ _ _ _ Hh Hf)
    as [[-> ->]|(st & dec & ex & code1 & r & Hdec & _ & Hpc & Hfc & ->)]; [split; [done|by left]|].
  apply retry_policy_not_running in Hdec. split; [by eapply wf_fail|].
  apply fail_outcome in Hfc; [|done|done]. by destruct r.
Qed.

(** ** Administrative control *)

(** An intent changes the status of an idle row only, and to another idle one. *)
Lemma apply_control_status a now j j1 :
  apply_control a now j = Ok j1 -> status j1 = status j \/ (status j <> Running /\ status j1 <> Running).
Proof.
  unfold apply_control. destruct a; repeat (case_match; try done); intros [= <-];
    bool_to_prop; cbn; rewrite ?elem_of_cons, ?elem_of_nil in *; intuition congruence.
Qed.

(** On the row it was decided on, the UPDATE gives the row the handler computed. *)
Lemma flushed_same {A} `{!EqDecision A} (x y : A) : flushed x y x = y.
Proof. unfold flushed. by case_decide. Qed.

Lemma flush_row_same a now j j1 : apply_control a now j = Ok j1 -> flush_row j j1 j = j1.
Proof.
  intros H. unfold flush_row. rewrite !flushed_same. revert H.
  unfold apply_control. destruct a; repeat (case_match; try done); intros [= <-]; by destruct j.
Qed.

Lemma flush_row_keeps r n cur :
  same_plan cur (flush_row r n cur) /\ lease_epoch (flush_row r n cur) = lease_epoch cur
  /\ attempt_count (flush_row r n cur) = attempt_count cur
  /\ quota_pause_count (flush_row r n cur) = quota_pause_count cur
  /\ lease_owner (flush_row r n cur) = lease_owner cur
  /\ lease_expires_at (flush_row r n cur) = lease_expires_at cur.
Proof. by split_and!. Qed.

Lemma control_read_write s1 s2 d jid a reason actor key now enow w :
  control_read s1 s2 d jid a reason actor key now enow = Ok (Some w) ->
  job_runs d !! jid = Some (cw_read w) /\ apply_control a now (cw_read w) = Ok (cw_new w)
  /\ ev_job_id (cw_event w) = job_id (cw_read w).
Proof.
  unfold control_read. destruct (job_runs d !! jid) as [j|] eqn:Hj; [|done].
  intros (hash & _ & Hrest)%result_bind_Ok. apply result_bind_Ok in Hrest as ([e|] & _ & Hrest); [done|].
  apply result_bind_Ok in Hrest as (j1 & Hap & [= <-]). done.
Qed.

Lemma control_commit_rows w d d' :
  control_commit w d = Ok d' ->
  exists cur, job_runs d !! job_id (cw_read w) = Some cur
    /\ job_runs d' = <[job_id cur := flush_row (cw_read w) (cw_new w) cur]> (job_runs d)
    /\ job_attempts d' = job_attempts d /\ component_heartbeats d' = component_heartbeats d.
Proof.
  unfold control_commit, add_control_event. destruct (job_runs d !! _) as [cur|]; [|done].
  destruct (existsb _ _); [done|]. intros [= <-]. by exists cur.
Qed.

(** What keeps a write harmless: one that sets the status commits while the job
    does not run, so no claim took the job since it was read. *)
Definition undisturbed (w : control_write) (d : db) : Prop :=
  status (cw_new w) <> status (cw_read w) ->
  forall j, job_runs d !! job_id (cw_read w) = Some j -> status j <> Running.

(** The row an undisturbed write leaves runs exactly when it ran before. *)
Lemma undisturbed_running a now w d cur :
  apply_control a now (cw_read w) = Ok (cw_new w) -> undisturbed w d ->
  job_runs d !! job_id (cw_read w) = Some cur ->
  status (flush_row (cw_read w) (cw_new w) cur) = Running <-> status cur = Running.
Proof.
  intros Hap Hu Hc. cbn. unfold flushed. case_decide as E; [done|].
  pose proof (Hu E _ Hc). destruct (apply_control_status _ _ _ _ Hap) as [?|[_ ?]]; done.
Qed.

Lemma hist_ok_control j j1 h :
  same_plan j j1 -> lease_epoch j1 = lease_epoch j ->
  attempt_count j1 = attempt_count j -> quota_pause_count j1 = quota_pause_count j ->
  lease_owner j1 = lease_owner j -> lease_expires_at j1 = lease_expires_at j ->
  (status j1 = Running <-> status j = Running) -> hist_ok j h -> hist_ok j1 h.
Proof.
  intros (_ & _ & _ & Ecfg & Emax) Ee Ec Eq Eo Ex Hs [].
  constructor; rewrite ?Ee, ?Ec, ?Eq, ?Eo, ?Ex, ?Ecfg, ?Emax, ?Hs; done.
Qed.

Section ControlFacts.
Variable canonical_sha256 : string -> string -> string -> string.
Variable sha256 : string -> string.

(** A write decided on any earlier state keeps the tables well formed. *)
Lemma control_facts d0 d jid a reason actor key now enow w d' :
  wf d -> control_read canonical_sha256 sha256 d0 jid a reason actor key now enow = Ok (Some w) ->
  undisturbed w d -> control_commit w d = Ok d' -> wf d' /\ advances d d'.
Proof.
  intros W (_ & Hap & _)%control_read_write Hu Hcom.
  destruct (control_commit_rows _ _ _ Hcom) as (cur & Hcur & E1 & E2 & E3).
  pose proof (undisturbed_running _ _ _ _ _ Hap Hu Hcur) as Hs.
  destruct (flush_row_keeps (cw_read w) (cw_new w) cur) as (P & Ee & Ec & Eq & Eo & Ex).
  rewrite (wf_job_keys _ W _ _ Hcur) in E1. revert P Ee Ec Eq Eo Ex Hs E1.
  generalize (flush_row (cw_read w) (cw_new w) cur) as j'. intros j' P Ee Ec Eq Eo Ex Hs E1.
  destruct (P) as (P1 & P2 & Pk & _). pose proof (wf_job_keys _ W _ _ Hcur) as Hid. split.
  - eapply (wf_row d d' (job_id (cw_read w)) cur j'); [done|done|congruence|done|done|apply Hs| |done..].
    intros Hm. eapply hist_ok_control; [done..|by apply W].
  - eapply (advances_put d d' _ cur j'); [done|done|]. intros Hm. rewrite Ee.
    split_and!; [by eapply managed_same|lia|]. intros Hr. left. by apply Hs.
Qed.
End ControlFacts.

(** ** New rows and other writers of the slot *)

(** A planned row: nothing has run under it. *)
Record fresh_row (j : JobRun) : Prop := MkFreshRow {
  fr_status : status j = Pending;
  fr_count : or0 (attempt_count j) = 0;
  fr_epoch : or0 (lease_epoch j) = 0;
  fr_pause : or0 (quota_pause_count j) = 0;
  fr_max : 1 <= or_int (max_attempts j) 3 <= 3;
  fr_owner : lease_owner j = None;
  fr_expires : lease_expires_at j = None;
}.

Lemma wf_new_row d d' j :
  wf d -> job_runs d !! job_id j = None -> fresh_row j ->
  job_runs d' = <[job_id j := j]> (job_runs d) -> job_attempts d' = job_attempts d ->
  component_heartbeats d' = component_heartbeats d -> wf d'.
Proof.
  intros W Hn F E1 E2 E3.
  assert (Hhist : forall i, history i d' = history i d) by (intros; unfold history; by rewrite E2).
  assert (Hempty : history (job_id j) d = []).
  { destruct (history (job_id j) d) as [|a h] eqn:E; [done|]. exfalso.
    assert (a ∈ history (job_id j) d) as [Ha Hin]%elem_of_history by (rewrite E; left).
    destruct (wf_owned _ W _ Hin) as (x & Hx & _). congruence. }
  destruct F. constructor; rewrite ?E2, ?E3; try apply W.
  - intros i x. rewrite E1, lookup_insert. case_decide; [intros [= <-]; congruence|apply W].
  - intros i x. rewrite E1, Hhist, lookup_insert. case_decide; subst; [|apply W].
    intros [= <-] _. rewrite Hempty.
    constructor; rewrite ?fr_count0, ?fr_epoch0, ?fr_pause0, ?fr_status0; try done; try lia.
    + by destruct (is_priority_resource_config _).
  - intros a Ha. destruct (wf_owned _ W _ Ha) as (x & Hx & ?). rewrite E1, lookup_insert_ne; [eauto|congruence].
  - intros k1 k2 j1 j2. rewrite E1, !lookup_insert.
    case_decide; case_decide; subst; try done; intros H1 H2 S1 S2 W1 W2; simplify_eq; try congruence;
      by eapply (wf_exclusive _ W).
Qed.

(** A change of one row outside the claims' management, such as a rebuild or a
    product synchronization.  Nothing is assumed of it but the partial unique
    index uq_job_runs_heavy_sync_running_slot of models.py, under which the
    database refuses a second running row of the slot; a settlement rebuild
    without a slot may start at any time. *)
Definition other_writer (d d' : db) (j' : JobRun) : Prop :=
  ~ managed j' /\ (forall j, job_runs d !! job_id j' = Some j -> ~ managed j)
  /\ (status j' = Running -> execution_slot j' = Some "heavy_sync" ->
      forall k x, job_runs d !! k = Some x -> status x = Running ->
        execution_slot x = Some "heavy_sync" -> k = job_id j')
  /\ job_runs d' = <[job_id j' := j']> (job_runs d) /\ job_attempts d' = job_attempts d
  /\ component_heartbeats d' = component_heartbeats d.

Lemma wf_other d d' j' : wf d -> other_writer d d' j' -> wf d' /\ advances d d'.
Proof.
  intros W (Hm & Hold & Hslot & E1 & E2 & E3).
  assert (Hhist : forall i, history i d' = history i d) by (intros; unfold history; by rewrite E2).
  split.
  - constructor; rewrite ?E2, ?E3; try apply W.
    + intros i x. rewrite E1, lookup_insert. case_decide; [intros [= <-]; congruence|apply W].
    + intros i x. rewrite E1, Hhist, lookup_insert. case_decide; subst; [by intros [= <-] ?|apply W].
    + intros a Ha. destruct (wf_owned _ W _ Ha) as (x & Hx & ?). rewrite E1, lookup_insert_ne; [eauto|].
      intros Heq. eapply Hold; [by rewrite Heq|done].
    + intros k1 k2 j1 j2. rewrite E1, !lookup_insert.
      case_decide; case_decide; subst; try done; intros H1 H2 S1 S2 W1 W2; simplify_eq.
      * symmetry. by eapply Hslot.
      * by eapply Hslot.
      * by eapply (wf_exclusive _ W).
  - intros k j Hj Hmj. rewrite E1, lookup_insert_ne; [by apply (advances_refl d)|].
    intros <-. by eapply Hold.
Qed.

(** ** The machine *)

(** One committed transaction of the control plane.  A call that raises commits
    nothing and is no step.  An administrative intent commits what it decided on
    any tables it read before, under the condition [undisturbed], which the code
    does not enforce: [cancel_race_breaks_lease] shows what happens without it. *)
Inductive step : db -> db -> Prop :=
| StepClaim gate env only r d owner cid ls d' tk :
    claim_next_job gate env only r d owner cid ls = Some (Ok (d', tk)) -> step d d'
| StepHeartbeat d tk s now1 now2 d' r : heartbeat_job d tk s now1 now2 = Ok (d', r) -> step d d'
| StepObserve d tk ec rss code summary now d' r :
    record_attempt_observation d tk ec rss code summary now = Ok (d', r) -> step d d'
| StepComplete d tk n now1 now2 d' r : complete_claim d tk n now1 now2 = Ok (d', r) -> step d d'
| StepFail d tk k code summary base fixed now1 now2 now3 d' o :
    honest_code k code ->
    fail_job d tk k code summary base fixed now1 now2 now3 = Ok (d', o) -> step d d'
| StepCancel d tk reason now1 now2 d' r :
    confirm_cancel_job d tk reason now1 now2 = Ok (d', r) -> step d d'
| StepControl sha_request sha_key d0 jid a reason actor key now enow w d d' :
    control_read sha_request sha_key d0 jid a reason actor key now enow = Ok (Some w) ->
    undisturbed w d -> control_commit w d = Ok d' -> step d d'
| StepEnqueue d d' j :
    job_runs d !! job_id j = None -> fresh_row j ->
    job_runs d' = <[job_id j := j]> (job_runs d) -> job_attempts d' = job_attempts d ->
    component_heartbeats d' = component_heartbeats d -> step d d'
| StepOther d d' j' : other_writer d d' j' -> step d d'.

Abbreviation steps := (rtc step).

Definition empty_db : db := MkDb ∅ [] ∅ [].
Definition reachable (d : db) : Prop := steps empty_db d.

Lemma validate_claim_owner owner cid ls :
  validate_claim_inputs owner cid ls = Ok tt -> blank owner = false.
Proof. unfold validate_claim_inputs. by destruct (blank owner). Qed.

(** The claim of [task_control] is the heavy claim with checked inputs. *)
Lemma claim_next_job_facts gate env only r d owner cid ls d' o :
  wf d -> claim_next_job gate env only r d owner cid ls = Some (Ok (d', o)) ->
  wf d' /\ advances d d' /\ forall tk, o = Some tk -> exists dm j c, wf dm /\ advances d dm
    /\ takeable dm j /\ blank owner = false
    /\ take_lease env dm j owner cid ls = Ok (d', Some c) /\ tk = token_of c.
Proof.
  intros W. unfold claim_next_job.
  destruct (validate_claim_inputs owner cid ls) as [[]|] eqn:Hv; [|done].
  apply validate_claim_owner in Hv.
  destruct (claim_next_heavy_job _ _ _ _ _ _ _ _ _) as [[[d1 rec]|]|] eqn:Hc; [|done|done].
  intros [= <- <-]. apply claim_facts in Hc as (W' & A & Hj); [|done|done|done].
  split_and!; [done|done|]. intros tk Htk. destruct rec as [c|]; [|done]. injection Htk as <-.
  destruct (Hj c eq_refl) as (dm & j & ? & ? & ? & ?). eauto 10.
Qed.

Lemma step_wf d d' : wf d -> step d d' -> wf d' /\ advances d d'.
Proof.
  intros W. destruct 1 as [gate env only r d owner cid ls d' tk H|d tk s now1 now2 d' r H|d tk ec rss code
    summary now d' r H|d tk n now1 now2 d' r H|d tk k code summary base fixed now1 now2 now3 d' o Hh H
    |d tk reason now1 now2 d' r H|s1 s2 d0 jid a reason actor key now enow w d d' Hrd Hu H|d d' j Hn F E1 E2 E3|d d' j' H].
  - apply claim_next_job_facts in H; [tauto|done].
  - unfold heartbeat_job in H. destruct (s <=? 0); [done|].
    split; [by eapply wf_heartbeat|by eapply heartbeat_advances].
  - split; [by eapply wf_record_observation|]. by eapply advances_same, observe_job_runs.
  - split; [by eapply wf_complete|]. by eapply terminal_advances, complete_outcome.
  - apply fail_job_facts in H as [? ?]; [|done|done]. split; [done|by eapply terminal_advances].
  - unfold confirm_cancel_job in H. destruct (blank reason); [done|].
    split; [by eapply wf_cancel|]. by eapply terminal_advances, cancel_outcome.
  - by eapply control_facts.
  - split; [by eapply wf_new_row|]. intros k x Hx Hm. rewrite E1, lookup_insert_ne by congruence.
    by apply (advances_refl d).
  - by eapply wf_other.
Qed.

Lemma steps_wf d d' : wf d -> steps d d' -> wf d' /\ advances d d'.
Proof.
  intros W. induction 1 as [d|d d1 d2 H1 _ IH]; [split; [done|reflexivity]|].
  apply step_wf in H1 as [W1 A1]; [|done]. destruct (IH W1) as [W2 A2].
  split; [done|by transitivity d1].
Qed.

Lemma wf_empty : wf empty_db.
Proof.
  constructor; try done; try (intros k x Hx; by apply lookup_empty_Some in Hx);
    try (intros a Ha; by apply elem_of_nil in Ha).
  - constructor.
Qed.

(** ** Tokens *)

(** The job of a dead token has moved past its epoch, or left it. *)
Definition dead (tk : LeaseToken) (d : db) : Prop :=
  exists j, job_runs d !! tk_job_id tk = Some j /\ managed j
    /\ (tk_lease_epoch tk < or0 (lease_epoch j)
        \/ (tk_lease_epoch tk <= or0 (lease_epoch j) /\ status j <> Running)).

Lemma dead_advances tk d d' : dead tk d -> advances d d' -> dead tk d'.
Proof.
  intros (j & Hj & Hm & H) A. destruct (A _ _ Hj Hm) as (j' & Hj' & Hm' & He & Hr).
  exists j'. split_and!; [done|done|].
  destruct (decide (status j' = Running)) as [E|E]; [left|right; split; [lia|done]].
  destruct (Hr E), H as [?|[? ?]]; try done; lia.
Qed.

Lemma dead_lock tk d now b : dead tk d -> lock_active_execution_state d tk now b = None.
Proof.
  intros (j & Hj & _ & H). unfold lock_active_execution_state. rewrite Hj.
  destruct (active_lease tk now j) eqn:Ha; [|done]. unfold active_lease in Ha. tests.
  match goal with He : lease_epoch j = Some _ |- _ => rewrite He, or0_Some in H end. destruct H as [?|[_ ?]]; [lia|done].
Qed.

(** Every fenced operation, as one of its tokens. *)
Inductive fenced_op :=
| OpHeartbeat (lease_seconds : Z) (now1 now2 : instant)
| OpObserve (exit_code rss : option Z) (code summary : option string) (now : instant)
| OpComplete (n_success : Z) (now1 now2 : instant)
| OpFail (k : FailureKind) (code summary : string) (base : Z) (fixed : option Z)
    (now1 now2 now3 : instant)
| OpCancel (reason : string) (now1 now2 : instant).

(** Running one of them; the flag says that it took effect. *)
Definition run_op (d : db) (tk : LeaseToken) (op : fenced_op) : result (db * bool) :=
  match op with
  | OpHeartbeat s now1 now2 => heartbeat_job d tk s now1 now2
  | OpObserve ec rss code summary now => record_attempt_observation d tk ec rss code summary now
  | OpComplete n now1 now2 => complete_claim d tk n now1 now2
  | OpFail k code summary base fixed now1 now2 now3 =>
      let* (d', o) := fail_job d tk k code summary base fixed now1 now2 now3 in
      Ok (d', bool_decide (is_Some o))
  | OpCancel reason now1 now2 => confirm_cancel_job d tk reason now1 now2
  end.

Definition op_terminal (op : fenced_op) : bool :=
  match op with OpHeartbeat _ _ _ | OpObserve _ _ _ _ _ => false | _ => true end.

Definition op_honest (op : fenced_op) : Prop :=
  match op with OpFail k code _ _ _ _ _ _ => honest_code k code | _ => True end.

Lemma dead_run tk d op d' r : dead tk d -> run_op d tk op = Ok (d', r) -> d' = d /\ r = false.
Proof.
  intros Hd. destruct op; cbn.
  - unfold heartbeat_job, heartbeat_claim. rewrite dead_lock by done.
    destruct (_ <=? 0); [done|]. by intros [= <- <-].
  - unfold record_attempt_observation. rewrite dead_lock by done.
    destruct (match rss with Some _ => _ | None => _ end); [done|]. by intros [= <- <-].
  - unfold complete_claim. rewrite dead_lock by done. by intros [= <- <-].
  - intros ([d1 o] & Hf & Heq)%result_bind_Ok. injection Heq as <- <-. revert Hf. unfold fail_job.
    repeat match goal with |- (if ?b then _ else _) = _ -> _ => destruct b; [by intros [= <- <-] || done|] end.
    intros (code1 & _ & Hrest)%result_bind_Ok. rewrite dead_lock in Hrest by done. by injection Hrest as <- <-.
  - unfold confirm_cancel_job, cancel_claim. rewrite dead_lock by done.
    destruct (blank reason); [done|]. by intros [= <- <-].
Qed.

Lemma terminal_dead d tk d' : terminal_outcome d tk d' true -> dead tk d'.
Proof.
  intros [[? _]|(_ & j & j1 & Hj & Hm & He & S & E)]; [done|]. exists j1.
  rewrite E, lookup_insert_eq. split_and!; [done|by eapply settled_managed|]. right.
  rewrite (se_epoch _ _ S), He, or0_Some. split; [lia|apply S].
Qed.

Lemma run_terminal d tk op d' r :
  wf d -> op_honest op -> op_terminal op = true -> run_op d tk op = Ok (d', r) ->
  wf d' /\ terminal_outcome d tk d' r.
Proof.
  intros W Hh Ht. destruct op; try done; cbn in *.
  - intros H. split; [by eapply wf_complete|by eapply complete_outcome].
  - intros ([d1 o] & Hf & Heq)%result_bind_Ok. injection Heq as <- <-. by eapply fail_job_facts.
  - unfold confirm_cancel_job. destruct (blank reason); [done|].
    intros H. split; [by eapply wf_cancel|by eapply cancel_outcome].
Qed.

(** ** Open attempts *)

(** The job of an open attempt is running, and the attempt is its last. *)
Lemma open_attempt_running d a :
  wf d -> a ∈ job_attempts d -> unfinished a = true ->
  exists j h0, job_runs d !! at_job_id a = Some j /\ managed j /\ status j = Running
    /\ history (at_job_id a) d = h0 ++ [a] /\ List.filter unfinished h0 = [].
Proof.
  intros W Ha Hu. destruct (wf_owned _ W _ Ha) as (j & Hj & Hm).
  pose proof (wf_hist _ W _ _ Hj Hm) as H.
  assert (Hin : a ∈ history (at_job_id a) d) by (by apply elem_of_history).
  destruct (decide (status j = Running)) as [Hr|Hr].
  - destruct (ho_running _ _ H Hr) as (h0 & b & o & Eh & _ & Hf & _). exists j, h0.
    rewrite Eh in *. apply elem_of_app in Hin as [Hin|Hin%list_elem_of_singleton].
    + rewrite lfilter_nil_iff in Hf. by rewrite Hf in Hu.
    + by subst.
  - destruct (ho_idle _ _ H Hr) as [Hf _]. rewrite lfilter_nil_iff in Hf. by rewrite Hf in Hu.
Qed.

Lemma wf_open_unique d a b :
  wf d -> a ∈ job_attempts d -> b ∈ job_attempts d -> unfinished a = true -> unfinished b = true ->
  a = b.
Proof.
  intros W Ha Hb Hua Hub.
  destruct (open_attempt_running _ _ W Ha Hua) as (j1 & h1 & Hj1 & Hm1 & Hr1 & Eh1 & Hf1).
  destruct (open_attempt_running _ _ W Hb Hub) as (j2 & h2 & Hj2 & Hm2 & Hr2 & Eh2 & Hf2).
  assert (E : at_job_id a = at_job_id b)
    by (eapply (wf_exclusive _ W); eauto; by apply Hm1 || apply Hm2).
  rewrite E, Eh2 in Eh1. by apply app_inj_tail in Eh1 as [_ ->].
Qed.

(** ** A fresh token *)

Lemma open_lease_binding env d j prev owner cid ls d' r :
  wf d -> open_lease env d j prev owner cid ls = Ok (d', r) ->
  claimed_attempt j (ce_attempt_id env) cid (ce_claim_now env) ∈ job_attempts d'
  /\ exists comp, ch_component_type comp = "worker" /\ component_heartbeats d' !! cid
      = Some (claimed_component comp (job_id j) (ce_attempt_id env) (ce_claim_now env)).
Proof.
  intros W H. destruct (open_lease_effect _ _ _ _ _ _ _ _ _ W H)
    as (comp & F1 & F2 & _ & _ & _ & E2 & E3 & _). rewrite E2, E3. split; [set_solver|].
  exists comp. by rewrite lookup_insert_eq.
Qed.

Lemma take_lease_binding env d j owner cid ls d' c :
  wf d -> take_lease env d j owner cid ls = Ok (d', Some c) ->
  claimed_attempt j (ce_attempt_id env) cid (ce_claim_now env) ∈ job_attempts d'
  /\ exists comp, ch_component_type comp = "worker" /\ component_heartbeats d' !! cid
      = Some (claimed_component comp (job_id j) (ce_attempt_id env) (ce_claim_now env)).
Proof.
  intros W. unfold take_lease. case_decide; [|by apply open_lease_binding].
  intros (a & _ & Hrest)%result_bind_Ok. revert Hrest. destruct (_ <=? _); [done|].
  by apply open_lease_binding.
Qed.

(** A claimed token is active until its lease expires. *)
Lemma claimed_active env d j owner cid ls d' c now :
  wf d -> takeable d j -> take_lease env d j owner cid ls = Ok (d', Some c) ->
  now < ce_claim_now env + seconds ls ->
  let tk := token_of c in
  active_row d' tk now = Some (claimed_row j owner ls (ce_claim_now env))
  /\ is_Some (lock_active_execution_state d' tk now false)
  /\ is_Some (bound_worker d' (tk_component_instance_id tk) (tk_job_id tk) (tk_attempt_id tk)).
Proof.
  intros W T Ht Hnow. destruct (take_lease_binding _ _ _ _ _ _ _ _ W Ht) as (Ha & comp & Hct & Hc).
  destruct (take_lease_rows _ _ _ _ _ _ _ _ W T Ht) as [(? & _)|[[= ->] E]]; [done|]. cbn zeta.
  set (tk := token_of _).
  assert (Hact : active_lease tk now (claimed_row j owner ls (ce_claim_now env)) = true).
  { unfold active_lease, tk. cbn -[or0]. rewrite str_eqb_refl, !opt_is_refl. cbn.
    by apply Z.ltb_lt. }
  assert (Hrow : job_runs d' !! tk_job_id tk = Some (claimed_row j owner ls (ce_claim_now env)))
    by (rewrite E; cbn; apply lookup_insert_eq).
  assert (Hb : is_Some (bound_worker d' (tk_component_instance_id tk) (tk_job_id tk) (tk_attempt_id tk))).
  { unfold bound_worker, tk. cbn [tk_component_instance_id token_of cl_component_instance_id]. rewrite Hc.
    cbn. unfold str_eqb. rewrite Hct, bool_decide_eq_true_2, !opt_is_refl by done. eauto. }
  split_and!; [|unfold lock_active_execution_state|done].
  - unfold active_row. by rewrite Hrow, Hact.
  - rewrite Hrow, Hact. cbn [negb andb].
    destruct (List.find (open_attempt_of tk) (job_attempts d')) as [b|] eqn:Hf.
    + destruct Hb as [x ->]. eauto.
    + exfalso. apply list_elem_of_In, (List.find_none _ _ Hf) in Ha. revert Ha.
      unfold open_attempt_of, tk. cbn -[or0]. by rewrite !str_eqb_refl, Z.eqb_refl.
Qed.

(** ** A claim on an idle slot *)

Lemma next_candidate_exists d now locked kinds only r :
  wf d -> job_runs d !! job_id r = Some r -> claimable d now kinds only r = true ->
  locked (job_id r) = false -> is_Some (next_candidate d now locked kinds only None).
Proof.
  intros W Hr Hc Hl. unfold next_candidate. destruct (first_by_key _) as [j|] eqn:E; [eauto|].
  apply first_by_key_None in E. exfalso.
  assert (In r (List.filter (fun j => claimable d now kinds only j && negb (locked (job_id j)) && true)
                  (job_rows d))) as Hin.
  { apply List.filter_In. split; [by apply list_elem_of_In, elem_of_job_rows|]. by rewrite Hc, Hl. }
  rewrite E in Hin. done.
Qed.

(** What a claim needs of the environment to take a waiting row at once. *)
Record admitting (gate : db -> JobRun -> bool) (env : claim_env) (d : db) (owner cid : string)
    (ls : Z) : Prop := MkAdmitting {
  ad_inputs : validate_claim_inputs owner cid ls = Ok tt;
  ad_global : ce_global_lock env = true;
  ad_cooldown : heavy_sync_rate_limit_cooldown_active d (ce_cooldown_now env) = false;
  ad_date_lock : forall i b s c, ce_date_lock env i b s c = true;
  ad_gate : forall r, gate d r = true;
  ad_history : forall k r, job_runs d !! k = Some r ->
    or0 (attempt_count r) + 1 <= MAX_CONTROL_HISTORY_ROWS;
  ad_date_rows : forall k r, job_runs d !! k = Some r -> job_kind r = Some DateSync ->
    is_Some (data_source r) /\ is_Some (config_version r);
  ad_fresh : forall b, b ∈ job_attempts d -> at_attempt_id b <> ce_attempt_id env;
  ad_component : forall c, component_heartbeats d !! cid = Some c ->
    ch_component_type c = "worker" /\ ch_current_job_id c = None /\ ch_current_attempt_id c = None;
}.

Lemma lock_free_component d cid :
  (forall c, component_heartbeats d !! cid = Some c ->
    ch_component_type c = "worker" /\ ch_current_job_id c = None /\ ch_current_attempt_id c = None) ->
  exists e, lock_worker_component d cid None = Ok e.
Proof.
  intros H. unfold lock_worker_component. destruct (component_heartbeats d !! cid) as [c|]; [|eauto].
  destruct (H c eq_refl) as (Ht & -> & ->). unfold str_eqb. rewrite Ht, bool_decide_eq_true_2 by done.
  eauto.
Qed.

Lemma judge_admits gate env d owner cid ls kinds only i j now :
  wf d -> admitting gate env d owner cid ls -> kinds ⊆ HEAVY_JOB_KINDS ->
  job_runs d !! job_id j = Some j -> claimable d now kinds only j = true -> status j <> Running ->
  judge_candidate gate env None i d j = Ok (Take j).
Proof.
  intros W Ad Hk Hj Hc Hs. destruct (candidate_takeable _ _ _ _ _ W Hk Hj Hc) as (T & Hlive & _).
  unfold judge_candidate.
  rewrite (inspect_no_reasons d (job_id j) j W Hj (tk_managed _ _ T) Hlive (ad_history _ _ _ _ _ _ Ad _ _ Hj)).
  rewrite bool_decide_eq_true_2, !andb_false_r by done.
  rewrite (ad_gate _ _ _ _ _ _ Ad). cbn [negb resource_admission_allows_job].
  destruct (opt_is (job_kind j) DateSync) eqn:Hd; [|done].
  unfold claimable in Hc. rewrite Hd in Hc. tests.
  destruct (ad_date_rows _ _ _ _ _ _ Ad _ _ Hj ltac:(done)) as [[s ->] [c ->]].
  destruct (business_date j) as [b|]; [by rewrite (ad_date_lock _ _ _ _ _ _ Ad)|].
  match goal with H : _ || bool_decide (is_Some None) = true |- _ => by cbn in H end.
Qed.

Lemma idle_open_lease gate env d j owner cid ls :
  wf d -> admitting gate env d owner cid ls -> job_runs d !! job_id j = Some j -> managed j ->
  exists d' c, open_lease env d j None owner cid ls = Ok (d', Some c).
Proof.
  intros W Ad Hj Hm. destruct (lock_free_component d cid (ad_component _ _ _ _ _ _ Ad)) as [e He].
  unfold open_lease. rewrite He. cbn [result_bind]. unfold insert_attempt.
  destruct (existsb _ _) eqn:Hx; [|cbn; eauto]. exfalso.
  apply List.existsb_exists in Hx as (b & Hb & Hp). apply list_elem_of_In in Hb. cbn -[or0] in Hp, Hb.
  apply orb_true_iff in Hp as [Hp|Hp].
  - apply str_eqb_true in Hp. by eapply (ad_fresh _ _ _ _ _ _ Ad).
  - apply andb_true_iff in Hp as [Hi Hp]. apply str_eqb_true in Hi.
    pose proof (wf_hist _ W _ _ Hj Hm) as H.
    assert (Hin : b ∈ history (job_id j) d) by (by apply elem_of_history).
    assert (Hn := list_elem_of_fmap_2 at_attempt_number _ _ Hin).
    assert (He' := list_elem_of_fmap_2 at_lease_epoch _ _ Hin).
    rewrite (ho_numbers _ _ H), elem_of_seqZ in Hn. rewrite (ho_epochs _ _ H), elem_of_seqZ in He'.
    pose proof (ho_epoch _ _ H). apply orb_true_iff in Hp as [Hp|Hp]; apply Z.eqb_eq in Hp; lia.
Qed.

Lemma idle_claim gate env d owner cid ls r :
  wf d -> admitting gate env d owner cid ls ->
  (forall k j, job_runs d !! k = Some j -> status j <> Running) ->
  job_runs d !! job_id r = Some r ->
  claimable d (ce_statement_now env 0) HEAVY_JOB_KINDS None r = true ->
  ce_row_locked env 0 (job_id r) = false ->
  exists d' tk j, claim_next_job gate env None None d owner cid ls = Some (Ok (d', Some tk))
    /\ job_runs d !! tk_job_id tk = Some j /\ tk_lease_epoch tk = or0 (lease_epoch j) + 1
    /\ next_candidate d (ce_statement_now env 0) (ce_row_locked env 0) HEAVY_JOB_KINDS None None = Some j.
Proof.
  intros W Ad Hidle Hr Hc Hl.
  destruct (next_candidate_exists _ _ _ _ _ _ W Hr Hc Hl) as [j Hn].
  destruct (next_candidate_spec _ _ _ _ _ _ _ W Hn) as (Hj & Hcj & _).
  pose proof (Hidle _ _ Hj) as Hs.
  destruct (candidate_takeable _ _ _ _ _ W (reflexivity _) Hj Hcj) as (T & _ & _).
  destruct (idle_open_lease _ _ _ _ _ _ _ W Ad Hj (tk_managed _ _ T)) as (d' & c & Ho).
  assert (Ht : take_lease env d j owner cid ls = Ok (d', Some c))
    by (unfold take_lease; by rewrite decide_False).
  exists d', (token_of c), j. unfold claim_next_job, claim_next_heavy_job.
  rewrite (ad_inputs _ _ _ _ _ _ Ad), (ad_global _ _ _ _ _ _ Ad), (ad_cooldown _ _ _ _ _ _ Ad).
  change (opt_is (resource_action_value None) "stop") with false. cbn [claim_loop negb]. rewrite Hn.
  rewrite (judge_admits gate env d owner cid ls HEAVY_JOB_KINDS None 0 j (ce_statement_now env 0))
    by done. rewrite Ht.
  destruct (take_lease_rows _ _ _ _ _ _ _ _ W T Ht) as [(? & _)|[[= ->] _]]; [done|].
  split_and!; try reflexivity. exact Hj.
Qed.

(** ** A failure under a live lease *)

Lemma fail_claim_live d tk st delay ex code summary p f now1 now2 j :
  wf d -> is_Some (lock_active_execution_state d tk now1 false) -> active_row d tk now2 = Some j ->
  exists d' j', fail_claim d tk st delay ex code summary p f now1 now2 = Ok (d', true)
    /\ job_runs d' = <[tk_job_id tk := j']> (job_runs d)
    /\ status j' = st /\ lease_owner j' = None /\ lease_expires_at j' = None
    /\ next_retry_at j' = (fun s => now2 + seconds s) <$> delay
    /\ or0 (quota_pause_count j') = or0 (quota_pause_count j) + (if p then 1 else 0).
Proof.
  intros W [ae Hl] Hr. destruct (lock_active_live _ _ _ _ _ W Hl) as (j0 & h0 & a & c & L & _).
  assert (j = j0) as -> by (by eapply active_row_live).
  pose proof (wf_job_keys _ W _ _ (lv_job _ _ _ _ _ _ L)) as Hid.
  unfold fail_claim. rewrite Hl, Hr.
  match goal with |- context [close_execution (put_job ?j1 _) _ _ ?ex ?co ?su ?cst ?ev ?s ?re ?pl] =>
    destruct (close_execution_live d tk j0 h0 a c j1 now2 ex co su cst ev s re pl W L)
      as (d1 & -> & E & _); exists d1, j1 end.
  split; [reflexivity|]. rewrite E. cbn -[or0]. rewrite Hid.
  split_and!; try reflexivity. destruct p; [by rewrite or0_Some, default_or0|lia].
Qed.

(** The code [fail_job] records. *)
Lemma fail_code_pause k code :
  exists code1, (if scheduler_pause k then scheduler_pause_error_code k else Ok code) = Ok code1.
Proof. destruct k; cbn; eauto. Qed.
