(* ===== verification/LeaseProps.v ===== *)
(** * The lease state machine: properties

    What the control plane guarantees in every reachable state: the invariant,
    the exclusion of the heavy slot, the fencing of lease tokens, the attempt
    budget, and that a claim ends, takes the first candidate and succeeds when
    nothing stands in its way. *)
From S2P Require Import Prelude PyValue Jobs Claims TaskControl Control LeaseInv LeaseSteps LeaseClaims ClaimOrder LeaseMachine.

(** ** A concrete run, for the witnesses *)
Module LeaseDemo.
Definition planned : JobRun :=
  MkJobRun "p1" "parent_sync" Pending None 0 0 None (PDict []) (Some "r1") (Some ParentSync)
    (Some "heavy_sync") None (Some "douyin") (Some "priority-daily-v1") None None None (Some 0)
    (Some 3) (Some 0) None (Some 0) None None None None None None None.
Definition open_gate : db -> JobRun -> bool := fun _ _ => true.
Definition at_time (now : Z) (aid : string) : claim_env :=
  MkClaimEnv true now (fun _ _ => false) (fun _ _ _ _ => true) (fun _ => now) (fun _ => now) now aid.
Definition claim_at (now : Z) (aid cid : string) (d : db) :=
  claim_next_job open_gate (at_time now aid) None None d "owner" cid 60.
Definition claimed (now : Z) (aid cid : string) (d : db) : db * LeaseToken :=
  match claim_at now aid cid d with
  | Some (Ok (d', Some tk)) => (d', tk)
  | _ => (d, MkLeaseToken "" "" 0 "" 0 "" None "")
  end.
Definition d0 : db := put_job planned empty_db.
Definition d1 : db := fst (claimed (seconds 10) "a1" "w1" d0).
Definition tk1 : LeaseToken := snd (claimed (seconds 10) "a1" "w1" d0).
(** The lease of [tk1] has run out and another worker takes the job over. *)
Definition d2 : db := fst (claimed (seconds 100) "a2" "w2" d1).
Definition tk2 : LeaseToken := snd (claimed (seconds 100) "a2" "w2" d1).
(** [tk2] completes. *)
Definition d3 : db :=
  match complete_claim d2 tk2 5 (seconds 110) (seconds 110) with
  | Ok (d, _) => d
  | Raise _ => d2
  end.

Lemma claim1 : claim_at (seconds 10) "a1" "w1" d0 = Some (Ok (d1, Some tk1)).
Proof. vm_compute. reflexivity. Qed.
Lemma claim2 : claim_at (seconds 100) "a2" "w2" d1 = Some (Ok (d2, Some tk2)).
Proof. vm_compute. reflexivity. Qed.
Lemma done3 : complete_claim d2 tk2 5 (seconds 110) (seconds 110) = Ok (d3, true).
Proof. vm_compute. reflexivity. Qed.

Lemma rows0 k j : job_runs d0 !! k = Some j -> j = planned.
Proof.
  change (job_runs d0) with (<["p1" := planned]> (∅ : gmap string JobRun)).
  rewrite lookup_insert_Some, lookup_empty. naive_solver.
Qed.
Lemma reachable0 : reachable d0.
Proof.
  apply rtc_once. eapply (StepEnqueue _ _ planned); try reflexivity. constructor; vm_compute; done.
Qed.
Lemma reachable1 : reachable d1.
Proof. eapply rtc_r; [apply reachable0|]. eapply StepClaim, claim1. Qed.
Lemma reachable2 : reachable d2.
Proof. eapply rtc_r; [apply reachable1|]. eapply StepClaim, claim2. Qed.
End LeaseDemo.

(** ** The invariant *)

(** C3: every state reachable by claims, heartbeats, observations, completions,
    failures, cancellations, administrative control, planning and other writers
    of the slot is well formed: the counters and epochs of each managed job match
    its attempt history, only a running job has an open attempt and exactly one,
    and components and open attempts are bound to each other one to one.  An
    administrative intent may have read the tables at any earlier time; the
    condition on its commit ([undisturbed]) is that one that sets the status,
    a cancel or a retry of an idle job, finds the job not running. *)
Theorem reachable_wf d : reachable d -> wf d.
Proof. intros H. exact (proj1 (steps_wf _ _ wf_empty H)). Qed.

Lemma reachable_wf_witness : reachable LeaseDemo.d2 /\ wf LeaseDemo.d2.
Proof. split; [apply LeaseDemo.reachable2|]. apply reachable_wf, LeaseDemo.reachable2. Defined.

(** The control-plane inspection that precedes a claim finds nothing wrong
    with any waiting or running managed job of a reachable state, so a claim
    quarantines a job only for its parent gate or past the history limit. *)
Lemma reachable_inspection_clean d k j :
  reachable d -> job_runs d !! k = Some j -> managed j -> live_status (status j) ->
  or0 (attempt_count j) + 1 <= MAX_CONTROL_HISTORY_ROWS ->
  cs_reasons (inspect_expired_running_control d j) = [].
Proof.
  intros H. apply inspect_no_reasons. exact (proj1 (steps_wf _ _ wf_empty H)).
Qed.

Lemma reachable_inspection_clean_witness :
  cs_reasons (inspect_expired_running_control LeaseDemo.d2
                (default LeaseDemo.planned (job_runs LeaseDemo.d2 !! "p1"))) = [].
Proof.
  apply (reachable_inspection_clean LeaseDemo.d2 "p1").
  - apply LeaseDemo.reachable2.
  - vm_compute. reflexivity.
  - split; [vm_compute; reflexivity|]. vm_compute. left.
  - right. right. vm_compute. reflexivity.
  - vm_compute. discriminate.
Defined.

(** The row a claim left behind. *)
Lemma claimed_token_row gate env only r d owner cid ls d' tk :
  wf d -> claim_next_job gate env only r d owner cid ls = Some (Ok (d', Some tk)) ->
  exists dm j, wf dm /\ advances d dm /\ takeable dm j /\ tk_job_id tk = job_id j
    /\ tk_lease_epoch tk = or0 (lease_epoch j) + 1 /\ tk_lease_owner tk = owner
    /\ tk_component_instance_id tk = cid /\ tk_attempt_id tk = ce_attempt_id env
    /\ tk_attempt_number tk = or0 (attempt_count j) + 1
    /\ job_runs d' = <[job_id j := claimed_row j owner ls (ce_claim_now env)]> (job_runs dm)
    /\ exists c, take_lease env dm j owner cid ls = Ok (d', Some c).
Proof.
  intros W H. destruct (claim_next_job_facts _ _ _ _ _ _ _ _ _ _ W H) as (_ & _ & Hj).
  destruct (Hj tk eq_refl) as (dm & j & c & Wm & A & T & _ & Ht & ->).
  destruct (take_lease_rows _ _ _ _ _ _ _ _ Wm T Ht) as [(? & _)|[[= ->] E]]; [done|].
  exists dm, j. cbn. split_and!; eauto.
Qed.

(** C6: the heavy slot is exclusive in every reachable state: two running rows
    of the slot are the same job and two open attempts are the same attempt; and
    a claim that grants a token leaves no running heavy writer, a settlement
    rebuild without a slot included, but the job of the token.  Of the writers
    outside the claims only the partial unique index on running rows of the slot
    is assumed, and of administrative intents the condition [undisturbed]. *)
Theorem slot_exclusive d :
  reachable d ->
  (forall k1 k2 j1 j2, job_runs d !! k1 = Some j1 -> job_runs d !! k2 = Some j2 ->
     status j1 = Running -> status j2 = Running ->
     execution_slot j1 = Some "heavy_sync" -> execution_slot j2 = Some "heavy_sync" -> k1 = k2)
  /\ (forall a b, a ∈ job_attempts d -> b ∈ job_attempts d ->
        unfinished a = true -> unfinished b = true -> a = b)
  /\ (forall gate env only r owner cid ls d' tk k j,
        claim_next_job gate env only r d owner cid ls = Some (Ok (d', Some tk)) ->
        job_runs d' !! k = Some j -> status j = Running -> heavy_writer j = true ->
        k = tk_job_id tk).
Proof.
  intros H. destruct (steps_wf _ _ wf_empty H) as [W _]. split_and!; [apply W| |].
  - intros a b Ha Hb Hua Hub. by apply (wf_open_unique d).
  - intros gate env only r owner cid ls d' tk k j Hc Hk Hs Hw.
    destruct (claimed_token_row _ _ _ _ _ _ _ _ _ _ W Hc)
      as (dm & j0 & _ & _ & T & -> & _ & _ & _ & _ & _ & E & _).
    rewrite E, lookup_insert in Hk. case_decide; [done|]. by eapply (tk_alone _ _ T).
Qed.

Lemma slot_exclusive_witness :
  reachable LeaseDemo.d1
  /\ (forall a b, a ∈ job_attempts LeaseDemo.d1 -> b ∈ job_attempts LeaseDemo.d1 ->
        unfinished a = true -> unfinished b = true -> a = b)
  /\ (forall k j, job_runs LeaseDemo.d2 !! k = Some j -> status j = Running -> heavy_writer j = true ->
        k = tk_job_id LeaseDemo.tk2).
Proof.
  split; [apply LeaseDemo.reachable1|].
  destruct (slot_exclusive LeaseDemo.d1 LeaseDemo.reachable1) as (_ & H1 & H2). split; [exact H1|].
  intros k j. apply (H2 _ _ _ _ _ _ _ _ _ _ _ LeaseDemo.claim2).
Defined.

(** ** Fencing *)

(** C5: once a completion, failure or cancellation under a token took effect,
    that token is spent: in every later state no operation under it changes the
    database or reports success. *)
Theorem terminal_once d tk op d1 d2 op' d3 r :
  wf d -> op_honest op -> op_terminal op = true -> run_op d tk op = Ok (d1, true) ->
  steps d1 d2 -> run_op d2 tk op' = Ok (d3, r) -> d3 = d2 /\ r = false.
Proof.
  intros W Hh Ht H1 H2 H3. destruct (run_terminal _ _ _ _ _ W Hh Ht H1) as [W1 Ho].
  destruct (steps_wf _ _ W1 H2) as [_ A]. eapply dead_run; [|done].
  eapply dead_advances; [by apply (terminal_dead d)|done].
Qed.

Lemma terminal_once_witness :
  exists d r, run_op LeaseDemo.d3 LeaseDemo.tk2 (OpHeartbeat 60 (seconds 111) (seconds 111)) = Ok (d, r)
    /\ d = LeaseDemo.d3 /\ r = false.
Proof.
  exists LeaseDemo.d3, false. assert (H : run_op LeaseDemo.d3 LeaseDemo.tk2
    (OpHeartbeat 60 (seconds 111) (seconds 111)) = Ok (LeaseDemo.d3, false)) by (vm_compute; reflexivity).
  split; [exact H|]. apply (terminal_once LeaseDemo.d2 LeaseDemo.tk2
    (OpComplete 5 (seconds 110) (seconds 110)) LeaseDemo.d3 LeaseDemo.d3
    (OpHeartbeat 60 (seconds 111) (seconds 111))).
  - apply (steps_wf _ _ wf_empty), LeaseDemo.reachable2.
  - exact I.
  - reflexivity.
  - exact LeaseDemo.done3.
  - apply rtc_refl.
  - exact H.
Defined.

(** C31: when a job is claimed, every token under which it was held before is
    fenced off for good: no operation under the old token changes any later
    state or reports success. *)
Theorem takeover_fences gate env only r d owner cid ls d1 tk1 tk d2 op d3 b :
  wf d -> claim_next_job gate env only r d owner cid ls = Some (Ok (d1, Some tk1)) ->
  tk_job_id tk = tk_job_id tk1 ->
  (exists j, job_runs d !! tk_job_id tk = Some j /\ managed j
             /\ tk_lease_epoch tk <= or0 (lease_epoch j)) ->
  steps d1 d2 -> run_op d2 tk op = Ok (d3, b) -> d3 = d2 /\ b = false.
Proof.
  intros W Hc Hid (j0 & Hj0 & Hm0 & He0) Hs Hop.
  destruct (claim_next_job_facts _ _ _ _ _ _ _ _ _ _ W Hc) as (W1 & _ & _).
  destruct (claimed_token_row _ _ _ _ _ _ _ _ _ _ W Hc)
    as (dm & j & Wm & A & T & Hid1 & _ & _ & _ & _ & _ & E & _).
  destruct (steps_wf _ _ W1 Hs) as [_ A2].
  eapply dead_run; [|done]. eapply dead_advances; [|done].
  destruct (A _ _ Hj0 Hm0) as (jm & Hjm & _ & He & _).
  rewrite Hid, Hid1, (tk_row _ _ T) in Hjm. injection Hjm as <-.
  exists (claimed_row j owner ls (ce_claim_now env)). rewrite E, Hid, Hid1, lookup_insert_eq.
  split_and!; [done|apply T|]. left. cbn -[or0]. rewrite or0_Some. lia.
Qed.

Lemma takeover_fences_witness :
  exists d b, run_op LeaseDemo.d2 LeaseDemo.tk1 (OpComplete 1 (seconds 101) (seconds 101)) = Ok (d, b)
    /\ d = LeaseDemo.d2 /\ b = false.
Proof.
  exists LeaseDemo.d2, false. assert (H : run_op LeaseDemo.d2 LeaseDemo.tk1
    (OpComplete 1 (seconds 101) (seconds 101)) = Ok (LeaseDemo.d2, false)) by (vm_compute; reflexivity).
  split; [exact H|].
  apply (takeover_fences LeaseDemo.open_gate (LeaseDemo.at_time (seconds 100) "a2") None None
    LeaseDemo.d1 "owner" "w2" 60 LeaseDemo.d2 LeaseDemo.tk2 LeaseDemo.tk1 LeaseDemo.d2
    (OpComplete 1 (seconds 101) (seconds 101))).
  - apply (steps_wf _ _ wf_empty), LeaseDemo.reachable1.
  - exact LeaseDemo.claim2.
  - vm_compute. reflexivity.
  - exists (default LeaseDemo.planned (job_runs LeaseDemo.d1 !! "p1")).
    split_and!; [vm_compute; reflexivity..| |vm_compute; discriminate]. split; vm_compute; [reflexivity|left].
  - apply rtc_refl.
  - exact H.
Defined.

(** The attempt budget holds in every reachable state: a managed job has
    started at most [max_attempts] attempts (between one and three) that were not
    paused by the scheduler, its lease epoch counts its attempts, and its attempt
    rows are numbered from one without a gap. *)
Lemma attempt_budget d k j :
  reachable d -> job_runs d !! k = Some j -> managed j ->
  1 <= or_int (max_attempts j) 3 <= 3
  /\ or0 (attempt_count j) - or0 (quota_pause_count j) <= or_int (max_attempts j) 3
  /\ 0 <= or0 (quota_pause_count j) <= or0 (attempt_count j)
  /\ or0 (lease_epoch j) = or0 (attempt_count j)
  /\ at_attempt_number <$> history k d = seqZ 1 (or0 (attempt_count j)).
Proof.
  intros H Hj Hm. destruct (steps_wf _ _ wf_empty H) as [W _].
  destruct (wf_hist _ W _ _ Hj Hm). split_and!; try done; lia.
Qed.

Lemma attempt_budget_witness :
  let j := default LeaseDemo.planned (job_runs LeaseDemo.d2 !! "p1") in
  or0 (attempt_count j) = 2
  /\ at_attempt_number <$> history "p1" LeaseDemo.d2 = seqZ 1 (or0 (attempt_count j)).
Proof.
  split; [vm_compute; reflexivity|].
  apply (attempt_budget LeaseDemo.d2 "p1" (default LeaseDemo.planned (job_runs LeaseDemo.d2 !! "p1"))).
  - apply LeaseDemo.reachable2.
  - vm_compute. reflexivity.
  - split; [vm_compute; reflexivity|]. vm_compute. left.
Defined.

(** A claim always ends: on a well-formed database the candidate loop stops
    within one turn per job row, whatever the gate, the locks and the clocks do. *)
Lemma claim_terminates gate env only r d owner cid ls :
  wf d -> claim_next_job gate env only r d owner cid ls <> None.
Proof.
  intros W. unfold claim_next_job. destruct (validate_claim_inputs owner cid ls); [|done].
  pose proof (claim_ends gate env HEAVY_JOB_KINDS only r ltac:(done) d owner cid ls W).
  destruct (claim_next_heavy_job _ _ _ _ _ _ _ _ _) as [[[? ?]|]|]; done.
Qed.

Lemma claim_terminates_witness :
  claim_next_job LeaseDemo.open_gate (LeaseDemo.at_time 0 "a1") None None LeaseDemo.d1 "o" "w" 60 <> None.
Proof. apply claim_terminates, (steps_wf _ _ wf_empty), LeaseDemo.reachable1. Defined.

(** A claimed token is live: until the lease it was granted runs out, its
    heartbeat succeeds and moves the expiry to the heartbeat's time plus the
    requested lease. *)
Lemma claimed_token_heartbeats gate env only r d owner cid ls d1 tk s now1 now2 :
  wf d -> claim_next_job gate env only r d owner cid ls = Some (Ok (d1, Some tk)) ->
  0 < s -> now1 < ce_claim_now env + seconds ls -> now2 < ce_claim_now env + seconds ls ->
  exists d2 j, heartbeat_job d1 tk s now1 now2 = Ok (d2, true)
    /\ job_runs d2 !! tk_job_id tk = Some j /\ status j = Running
    /\ lease_epoch j = Some (tk_lease_epoch tk)
    /\ lease_expires_at j = Some (now2 + seconds s).
Proof.
  intros W Hc Hs H1 H2. destruct (claim_next_job_facts _ _ _ _ _ _ _ _ _ _ W Hc) as (W1 & _ & Hj).
  destruct (Hj tk eq_refl) as (dm & j & c & Wm & _ & T & _ & Ht & ->).
  destruct (claimed_active _ _ _ _ _ _ _ _ _ Wm T Ht H1) as (_ & [st Hst] & _).
  destruct (claimed_active _ _ _ _ _ _ _ _ _ Wm T Ht H2) as (Hrow & _ & [x Hb]).
  destruct (take_lease_rows _ _ _ _ _ _ _ _ Wm T Ht) as [(? & _)|[Ec _]]; [done|].
  assert (Hh : exists d2, heartbeat_claim d1 (token_of c) s now1 now2 = Ok (d2, true)).
  { unfold heartbeat_claim. rewrite Hst, Hrow. unfold bound_worker in *.
    change (component_heartbeats (put_job _ _)) with (component_heartbeats d1). rewrite Hb. eauto. }
  destruct Hh as [d2 Hh]. unfold heartbeat_job. replace (s <=? 0) with false by lia.
  destruct (heartbeat_outcome _ _ _ _ _ _ _ W1 Hh) as [[? _]|(_ & j2 & Hj2 & E)]; [done|].
  exists d2, (j2 <| heartbeat_at := Some now2 |> <| lease_expires_at := Some (now2 + seconds s) |>).
  rewrite E, lookup_insert_eq. unfold active_row in Hrow. rewrite Hj2 in Hrow.
  destruct (active_lease _ _ _); [|done]. injection Hrow as ->. injection Ec as ->. split_and!; [exact Hh|reflexivity..].
Qed.

Lemma claimed_token_heartbeats_witness :
  exists d2 j, heartbeat_job LeaseDemo.d1 LeaseDemo.tk1 60 (seconds 20) (seconds 21) = Ok (d2, true)
    /\ job_runs d2 !! tk_job_id LeaseDemo.tk1 = Some j /\ status j = Running
    /\ lease_epoch j = Some (tk_lease_epoch LeaseDemo.tk1)
    /\ lease_expires_at j = Some (seconds 21 + seconds 60).
Proof.
  apply (claimed_token_heartbeats LeaseDemo.open_gate (LeaseDemo.at_time (seconds 10) "a1") None None
           LeaseDemo.d0 "owner" "w1" 60 LeaseDemo.d1 LeaseDemo.tk1).
  - apply (steps_wf _ _ wf_empty), LeaseDemo.reachable0.
  - exact LeaseDemo.claim1.
  - reflexivity.
  - reflexivity.
  - reflexivity.
Defined.

(** Progress: when no job runs, a waiting row is claimable and unlocked, the
    gates and locks are open, the history is within the limit, the worker's
    component is free and its attempt id is new, the claim returns a token, and
    for the first claimable row in the order parent jobs first, then undated,
    then oldest business date, then smallest id. *)
Lemma idle_slot_claim gate env d owner cid ls r :
  wf d -> admitting gate env d owner cid ls ->
  (forall k j, job_runs d !! k = Some j -> status j <> Running) ->
  job_runs d !! job_id r = Some r ->
  claimable d (ce_statement_now env 0) HEAVY_JOB_KINDS None r = true ->
  ce_row_locked env 0 (job_id r) = false ->
  exists d' tk j, claim_next_job gate env None None d owner cid ls = Some (Ok (d', Some tk))
    /\ job_runs d !! tk_job_id tk = Some j /\ tk_lease_epoch tk = or0 (lease_epoch j) + 1
    /\ forall r', job_runs d !! job_id r' = Some r' ->
         claimable d (ce_statement_now env 0) HEAVY_JOB_KINDS None r' = true ->
         ce_row_locked env 0 (job_id r') = false -> r' = j \/ key_lt j r'.
Proof.
  intros W Ad Hidle Hr Hc Hl.
  destruct (idle_claim _ _ _ _ _ _ _ W Ad Hidle Hr Hc Hl) as (d' & tk & j & H1 & H2 & H3 & Hn).
  exists d', tk, j. split_and!; try done. intros r' Hr' Hc' Hl'.
  apply next_candidate_spec in Hn as (_ & _ & _ & _ & Hmin); [|done]. by apply Hmin.
Qed.

Lemma idle_slot_claim_witness :
  exists d' tk j, LeaseDemo.claim_at (seconds 10) "a1" "w1" LeaseDemo.d0 = Some (Ok (d', Some tk))
    /\ job_runs LeaseDemo.d0 !! tk_job_id tk = Some j /\ tk_lease_epoch tk = or0 (lease_epoch j) + 1.
Proof.
  destruct (idle_slot_claim LeaseDemo.open_gate (LeaseDemo.at_time (seconds 10) "a1") LeaseDemo.d0
              "owner" "w1" 60 LeaseDemo.planned) as (d' & tk & j & H1 & H2 & H3 & _).
  - apply (steps_wf _ _ wf_empty), LeaseDemo.reachable0.
  - constructor; try (vm_compute; reflexivity).
    + intros k r' ->%LeaseDemo.rows0. vm_compute. discriminate.
    + intros k r' ->%LeaseDemo.rows0. vm_compute. discriminate.
    + intros b Hb. by apply elem_of_nil in Hb.
    + intros c Hc. by vm_compute in Hc.
  - intros k j ->%LeaseDemo.rows0. discriminate.
  - vm_compute. reflexivity.
  - vm_compute. reflexivity.
  - reflexivity.
  - exists d', tk, j. split_and!; assumption.
Defined.

(** ** Retries *)

Definition retry_fatal (k : FailureKind) (n m q : Z) (previous : option exit_type_t) : bool :=
  (m <=? n - q) || bool_decide (k = DATA_INTEGRITY)
  || (bool_decide (k = MEMORY_GUARD) && bool_decide (previous = Some ExitResourceGuard)).

Definition positive_delay (fixed : option Z) : Prop :=
  match fixed with Some f => 0 < f | None => True end.

Lemma retry_policy_cases k n m q previous base fixed :
  0 < n -> 1 <= m <= 3 -> 0 <= q -> 0 < base -> positive_delay fixed ->
  retry_policy k n m q previous base fixed =
  Ok (if scheduler_pause k
      then MkRetryDecision RetryWait (Some (Z.min (or_int fixed base) MAX_BUDGET_PAUSE_DELAY_SECONDS))
      else if retry_fatal k n m q previous then MkRetryDecision Failed None
      else MkRetryDecision RetryWait
             (Some (default (base * 2 ^ (Z.max 1 (n - q) - 1)) fixed))).
Proof.
  intros Hn Hm Hq Hb Hf. unfold retry_policy, DEFAULT_MAX_ATTEMPTS.
  replace (n <=? 0) with false by lia. replace ((m <=? 0) || (3 <? m)) with false by lia.
  replace (q <? 0) with false by lia. replace (base <=? 0) with false by lia.
  replace (match fixed with Some f => f <=? 0 | None => false end) with false
    by (destruct fixed; cbn in Hf; lia).
  destruct (scheduler_pause k); [done|]. unfold retry_fatal.
  destruct (m <=? n - q); cbn [orb]; [done|].
  destruct k; cbn; try (destruct fixed; done).
  destruct (bool_decide (previous = _)); destruct fixed; done.
Qed.

(** The retry policy on valid inputs never raises; a scheduler pause always
    waits, for at most two days; any other failure is terminal exactly when the
    unpaused attempts reach the maximum, the data is corrupt, or the memory guard
    struck twice in a row; otherwise the job waits for the fixed delay, or between
    one and two base delays. *)
Lemma retry_policy_spec k n m q previous base fixed :
  0 < n -> 1 <= m <= 3 -> 0 <= q -> 0 < base -> positive_delay fixed ->
  exists dec, retry_policy k n m q previous base fixed = Ok dec
    /\ (rd_status dec = Failed <-> scheduler_pause k = false /\ retry_fatal k n m q previous = true)
    /\ (rd_status dec = Failed -> rd_delay_seconds dec = None)
    /\ (rd_status dec <> Failed -> rd_status dec = RetryWait
        /\ exists delay, rd_delay_seconds dec = Some delay /\ 0 < delay
           /\ (scheduler_pause k = true -> delay <= MAX_BUDGET_PAUSE_DELAY_SECONDS)
           /\ (scheduler_pause k = false -> fixed = None -> base <= delay <= 2 * base)
           /\ (scheduler_pause k = false -> forall f, fixed = Some f -> delay = f)).
Proof.
  intros Hn Hm Hq Hb Hf. rewrite retry_policy_cases by done. eexists. split; [reflexivity|].
  destruct (scheduler_pause k) eqn:Hk; cbn [rd_status rd_delay_seconds].
  - split_and!; try done; [naive_solver|]. intros _. split; [done|]. eexists. split_and!; try done.
    + unfold MAX_BUDGET_PAUSE_DELAY_SECONDS, or_int. destruct fixed as [f|]; cbn in Hf; [|lia].
      destruct (Z.eqb_spec f 0); lia.
    + lia.
  - destruct (retry_fatal k n m q previous) eqn:Hfat; cbn; split_and!; try done; [naive_solver|].
    intros _. split; [done|]. eexists. split_and!; try done.
    + destruct fixed; cbn in *; [lia|]. apply Z.mul_pos_pos; [lia|]. apply Z.pow_pos_nonneg; lia.
    + intros _ ->. cbn. unfold retry_fatal in Hfat. bool_to_prop.
      assert (Z.max 1 (n - q) = 1 \/ Z.max 1 (n - q) = 2) as [-> | ->] by lia; cbn; lia.
    + by intros _ f ->.
Qed.

Lemma retry_policy_spec_witness :
  exists dec, retry_policy TRANSIENT 2 3 0 None 30 None = Ok dec /\ rd_status dec <> Failed.
Proof.
  destruct (retry_policy_spec TRANSIENT 2 3 0 None 30 None) as (dec & E & Hs & _);
    [lia|lia|lia|lia|exact I|]. exists dec. split; [exact E|]. intros H. apply Hs in H. 
  destruct H as [_ H]. vm_compute in H. discriminate.
Defined.

(** A failure reported under a live lease always takes effect: the policy
    answers, the job is released into the decided status with its retry time, the
    pause counter grows exactly on a scheduler pause, the database stays well
    formed and the worker learns the decision. *)
Lemma fail_job_applies d tk k code summary base fixed now1 now2 now3 j :
  wf d -> is_Some (lock_active_execution_state d tk now1 false) ->
  is_Some (lock_active_execution_state d tk now2 false) ->
  is_Some (active_row d tk now3) -> job_runs d !! tk_job_id tk = Some j ->
  honest_code k code -> blank code = false -> blank summary = false -> 0 < base ->
  positive_delay fixed ->
  (scheduler_pause k = true -> is_Some fixed /\ is_priority_resource_config (config_version j) = true) ->
  exists d' dec j',
    retry_policy k (or0 (attempt_count j)) (or_int (max_attempts j) 3) (or0 (quota_pause_count j))
      (previous_attempt_exit_type d (tk_job_id tk) (or0 (attempt_count j))) base fixed = Ok dec
    /\ fail_job d tk k code summary base fixed now1 now2 now3 = Ok (d', Some dec) /\ wf d'
    /\ job_runs d' !! tk_job_id tk = Some j' /\ status j' = rd_status dec
    /\ lease_owner j' = None /\ lease_expires_at j' = None
    /\ next_retry_at j' = (fun s => now3 + seconds s) <$> rd_delay_seconds dec
    /\ or0 (quota_pause_count j')
       = or0 (quota_pause_count j) + (if scheduler_pause k then 1 else 0).
Proof.
  intros W [st1 H1] [st2 H2] [j3 H3] Hj Hh Hcode Hsum Hbase Hpos Hpause.
  destruct (lock_active_live _ _ _ _ _ W H1) as (j0 & h0 & a & c & L & _ & -> & _).
  assert (j0 = j) as -> by (pose proof (lv_job _ _ _ _ _ _ L); congruence).
  assert (j3 = j) as -> by (eapply active_row_live; eauto).
  pose proof (wf_hist _ W _ _ Hj (lv_managed _ _ _ _ _ _ L)) as H.
  assert (Hn : 0 < or0 (attempt_count j)).
  { rewrite (lv_history _ _ _ _ _ _ L) in H. by apply hist_last_epoch in H as [_ ?]. }
  pose proof (retry_policy_cases k (or0 (attempt_count j)) (or_int (max_attempts j) 3)
    (or0 (quota_pause_count j)) (previous_attempt_exit_type d (tk_job_id tk) (or0 (attempt_count j)))
    base fixed Hn (ho_max _ _ H) (proj1 (ho_pause _ _ H)) Hbase Hpos) as Hdec.
  match type of Hdec with _ = Ok ?x => set (dec := x) in * end.
  destruct (fail_code_pause k code) as [code1 Hcode1].
  destruct (fail_claim_live d tk (rd_status dec) (rd_delay_seconds dec) (attempt_exit_type k dec)
              (strip code1) (strip summary) (scheduler_pause k) (negb (scheduler_pause k)) now2 now3 j W
              ltac:(eauto) H3) as (d' & j' & Hf & E & S1 & S2 & S3 & S4 & S5).
  assert (HF : fail_job d tk k code summary base fixed now1 now2 now3 = Ok (d', Some dec)).
  { unfold fail_job. rewrite Hcode, Hsum, Hj, H1, Hcode1. cbn [result_bind ae_attempt_number
      ae_max_attempts ae_quota_pause_count]. rewrite Hdec. cbn [result_bind]. rewrite Hf.
    destruct (scheduler_pause k); [|done]. destruct (Hpause eq_refl) as [[f ->] ->].
    cbn in Hpos. cbn. by replace (f <=? 0) with false by lia. }
  exists d', dec, j'. rewrite E, lookup_insert_eq.
  split_and!; try assumption; [|reflexivity].
  by eapply fail_job_facts.
Qed.

Lemma fail_job_applies_witness :
  exists d' dec j', fail_job LeaseDemo.d2 LeaseDemo.tk2 RESOURCE_PAUSE "paused" "memory" 30 (Some 900)
      (seconds 101) (seconds 102) (seconds 103) = Ok (d', Some dec)
    /\ job_runs d' !! "p1" = Some j' /\ status j' = rd_status dec
    /\ or0 (quota_pause_count j') = 1.
Proof.
  destruct (fail_job_applies LeaseDemo.d2 LeaseDemo.tk2 RESOURCE_PAUSE "paused" "memory" 30 (Some 900)
      (seconds 101) (seconds 102) (seconds 103)
      (default LeaseDemo.planned (job_runs LeaseDemo.d2 !! "p1")))
    as (d' & dec & j' & _ & H1 & _ & H2 & H3 & _ & _ & _ & H4).
  - apply (steps_wf _ _ wf_empty), LeaseDemo.reachable2.
  - vm_compute. eexists. reflexivity.
  - vm_compute. eexists. reflexivity.
  - vm_compute. eexists. reflexivity.
  - vm_compute. reflexivity.
  - intros H. discriminate.
  - vm_compute. reflexivity.
  - vm_compute. reflexivity.
  - lia.
  - reflexivity.
  - intros _. split; [eexists; reflexivity|vm_compute; reflexivity].
  - exists d', dec, j'. split_and!; [exact H1|exact H2|exact H3|rewrite H4; vm_compute; reflexivity].
Defined.

(** ** Administrative control *)

Lemma filter_key_none (l : list JobEvent) key jid :
  existsb (fun e => str_eqb (ev_job_id e) jid && bool_decide (ev_idempotency_key e = Some key)) l = false ->
  List.filter (fun e => opt_is (ev_idempotency_key e) key && str_eqb (ev_job_id e) jid) l = [].
Proof.
  intros H. apply lfilter_nil_iff. intros e He. apply not_true_is_false. intros Hk.
  apply Bool.not_true_iff_false in H. apply H, List.existsb_exists. exists e.
  split; [by apply list_elem_of_In|]. unfold opt_is in Hk. by rewrite andb_comm.
Qed.

(** After an event was added under its key, looking the key up finds it. *)
Lemma existing_control_event_added d d1 e key jid sha :
  add_control_event e d = Ok d1 -> ev_idempotency_key e = Some key -> ev_job_id e = jid ->
  existing_control_event d1 (Some jid) key sha =
  if is_str (dict_get "request_sha256" (ev_payload_json e)) sha then Ok (Some e)
  else Raise (http_error 409 "Idempotency-Key request mismatch").
Proof.
  unfold add_control_event. intros H Hk Hjid. rewrite Hk, Hjid in H.
  destruct (existsb _ _) eqn:Hex; [done|]. injection H as Hd. unfold existing_control_event.
  replace (job_events d1) with (job_events d ++ [e]) by (by rewrite <- Hd).
  rewrite lfilter_app, (filter_key_none _ _ _ Hex). cbn [app List.filter].
  rewrite Hk, Hjid, opt_is_refl, str_eqb_refl. reflexivity.
Qed.

Lemma control_read_event s1 s2 d jid a reason actor key now enow w :
  control_read s1 s2 d jid a reason actor key now enow = Ok (Some w) ->
  exists hash, idempotency_hash s2 key = Ok hash
    /\ ev_idempotency_key (cw_event w) = Some (control_key a hash)
    /\ dict_get "request_sha256" (ev_payload_json (cw_event w)) = PStr (s1 jid (action_name a) reason).
Proof.
  unfold control_read. destruct (job_runs d !! jid) as [j|]; [|done].
  intros (hash & Hh & Hrest)%result_bind_Ok. apply result_bind_Ok in Hrest as ([e|] & _ & Hrest); [done|].
  apply result_bind_Ok in Hrest as (j1 & _ & [= <-]). eauto.
Qed.

(** A control request is idempotent: repeating it under the same key, at any
    later time, is recognised as a replay and changes nothing, and the same key
    with a request of another digest is refused with a conflict. *)
Lemma control_replay sha_request sha_key d jid a reason actor key now enow d1 :
  wf d -> control_job sha_request sha_key d jid a reason actor key now enow = Ok (d1, false) ->
  (forall actor' now' enow',
     control_job sha_request sha_key d1 jid a reason actor' key now' enow' = Ok (d1, true))
  /\ (forall reason' actor' now' enow',
        sha_request jid (action_name a) reason' <> sha_request jid (action_name a) reason ->
        control_job sha_request sha_key d1 jid a reason' actor' key now' enow'
        = Raise (http_error 409 "Idempotency-Key request mismatch")).
Proof.
  intros W (w & Hw & Hrest)%result_bind_Ok. destruct w as [w|]; [|done].
  apply result_bind_Ok in Hrest as (d2 & Hcom & [= <-]).
  destruct (control_read_event _ _ _ _ _ _ _ _ _ _ _ Hw) as (hash & Hh & Hk & Hp).
  destruct (control_read_write _ _ _ _ _ _ _ _ _ _ _ Hw) as (Hj & _ & Hid).
  rewrite (wf_job_keys _ W _ _ Hj) in Hid.
  destruct (control_commit_rows _ _ _ Hcom) as (cur & Hcur & E & _).
  rewrite (wf_job_keys _ W _ _ Hcur), (wf_job_keys _ W _ _ Hj) in E.
  unfold control_commit in Hcom. rewrite Hcur in Hcom.
  pose proof (fun sha => existing_control_event_added _ _ _ _ _ sha Hcom Hk Hid) as Hex.
  unfold control_job, control_read. rewrite E, lookup_insert_eq, Hh. cbn [result_bind].
  split; intros; rewrite Hex, Hp; cbn [is_str].
  - by rewrite str_eqb_refl.
  - unfold str_eqb. by rewrite bool_decide_eq_false_2 by congruence.
Qed.

Lemma control_replay_witness :
  exists d1,
    control_job (fun a b c => (a +:+ b +:+ c)%string) (fun s => s) LeaseDemo.d0 "p1" ActCancel
      "wrong range" "root" "0123456789abcdef" 5 5 = Ok (d1, false)
    /\ control_job (fun a b c => (a +:+ b +:+ c)%string) (fun s => s) d1 "p1" ActCancel
         "wrong range" "root" "0123456789abcdef" 9 9 = Ok (d1, true).
Proof.
  eexists. assert (H : control_job (fun a b c => (a +:+ b +:+ c)%string) (fun s => s) LeaseDemo.d0 "p1"
    ActCancel "wrong range" "root" "0123456789abcdef" 5 5 = Ok (_, false)) by (vm_compute; reflexivity).
  split; [exact H|]. exact (proj1 (control_replay _ _ _ _ _ _ _ _ _ _ _
    (proj1 (steps_wf _ _ wf_empty LeaseDemo.reachable0)) H) "root" 9 9).
Defined.

(** ** A cancel that races a claim *)

(** A write that read an idle row sets the status whatever the row has become. *)
Lemma cancel_flush now w cur :
  apply_control ActCancel now (cw_read w) = Ok (cw_new w) -> status (cw_read w) <> Running ->
  status (flush_row (cw_read w) (cw_new w) cur) = Cancelled.
Proof.
  cbn [apply_control]. case_bool_decide as Hi.
  - intros [= <-] _. cbn. unfold flushed. rewrite decide_False; [done|].
    rewrite !elem_of_cons, elem_of_nil in Hi. intros E. rewrite <- E in Hi. intuition done.
  - intros H Hr. by rewrite bool_decide_eq_false_2 in H.
Qed.

(** Without the condition [undisturbed] the control plane is torn.  When a
    cancel has read a job that was idle, and at its commit a claim has made the
    job run, the committed row is cancelled but still holds the lease, its
    attempt stays open and bound to the worker's component, no token issued so
    far can heartbeat, complete, fail or cancel it any more, and the tables are
    not well formed. *)
Lemma cancel_race_breaks_lease s1 s2 d0 jid reason actor key now enow w d j d' :
  wf d0 -> control_read s1 s2 d0 jid ActCancel reason actor key now enow = Ok (Some w) ->
  status (cw_read w) <> Running -> steps d0 d ->
  job_runs d !! jid = Some j -> managed j -> status j = Running ->
  control_commit w d = Ok d' ->
  exists j' a c, job_runs d' !! jid = Some j' /\ status j' = Cancelled
    /\ is_Some (lease_owner j') /\ is_Some (lease_expires_at j')
    /\ a ∈ job_attempts d' /\ at_job_id a = jid /\ unfinished a = true
    /\ component_heartbeats d' !! at_component_instance_id a = Some c /\ bound_to a c = true
    /\ (forall tk op d2 r, tk_job_id tk = jid -> tk_lease_epoch tk <= or0 (lease_epoch j) ->
          run_op d' tk op = Ok (d2, r) -> d2 = d' /\ r = false)
    /\ ~ wf d'.
Proof.
  intros W0 Hrd Hidle Hs Hj Hm Hrun Hcom. destruct (steps_wf _ _ W0 Hs) as [W _].
  destruct (control_read_write _ _ _ _ _ _ _ _ _ _ _ Hrd) as (Hj0 & Hap & _).
  destruct (control_commit_rows _ _ _ Hcom) as (cur & Hcur & E1 & E2 & E3).
  rewrite (wf_job_keys _ W0 _ _ Hj0), Hj in Hcur. injection Hcur as <-.
  rewrite (wf_job_keys _ W _ _ Hj) in E1. pose proof (cancel_flush _ _ j Hap Hidle) as Hc.
  destruct (flush_row_keeps (cw_read w) (cw_new w) j) as ((_ & Hsl & Hk & _) & Ee & _ & _ & Eo & Ex).
  destruct (ho_running _ _ (wf_hist _ W _ _ Hj Hm) Hrun) as (h0 & a & o & Eh & Hu & _ & Ho & _ & Hx).
  assert (a ∈ history jid d) as [Haj Ha]%elem_of_history by (rewrite Eh; set_solver).
  destruct (wf_bound _ W _ Ha Hu) as (c & Hcm & _ & Hb).
  revert Hc Hsl Hk Ee Eo Ex E1. generalize (flush_row (cw_read w) (cw_new w) j) as j'.
  intros j' Hc Hsl Hk Ee Eo Ex E1.
  assert (Hj' : job_runs d' !! jid = Some j') by (by rewrite E1, lookup_insert_eq).
  assert (Hm' : managed j') by (by eapply managed_same).
  exists j', a, c. rewrite E2, E3, Eo, Ex, Ho. split_and!; try done.
  - intros tk op d2 r Ht Hep. apply dead_run. exists j'. rewrite Ht, Ee, Hc. split_and!; auto.
  - intros W'. destruct (ho_idle _ _ (wf_hist _ W' _ _ Hj' Hm')) as [Hf _]; [by rewrite Hc|].
    rewrite lfilter_nil_iff in Hf. rewrite Hf in Hu; [done|].
    apply elem_of_history. by rewrite E2.
Qed.

Lemma cancel_race_breaks_lease_witness :
  exists w d', control_read (fun a b c => (a +:+ b +:+ c)%string) (fun s => s) LeaseDemo.d0 "p1" ActCancel
      "wrong range" "root" "0123456789abcdef" 5 5 = Ok (Some w)
    /\ control_commit w LeaseDemo.d1 = Ok d' /\ ~ wf d'.
Proof.
  eexists _, _. assert (H : control_read (fun a b c => (a +:+ b +:+ c)%string) (fun s => s) LeaseDemo.d0 "p1"
    ActCancel "wrong range" "root" "0123456789abcdef" 5 5 = Ok (Some _)) by (vm_compute; reflexivity).
  match type of H with _ = Ok (Some ?w) =>
    assert (H2 : control_commit w LeaseDemo.d1 = Ok _) by (vm_compute; reflexivity) end.
  split; [exact H|]. split; [exact H2|].
  assert (Hm : managed (default LeaseDemo.planned (job_runs LeaseDemo.d1 !! "p1"))).
  { split; [vm_compute; reflexivity|]. vm_compute. left. }
  edestruct (fun Hi Hr Hs => cancel_race_breaks_lease _ _ LeaseDemo.d0 "p1" "wrong range" "root"
    "0123456789abcdef" 5 5 _ LeaseDemo.d1 _ _ (proj1 (steps_wf _ _ wf_empty LeaseDemo.reachable0)) H
    Hi (rtc_once _ _ (StepClaim _ _ _ _ _ _ _ _ _ _ LeaseDemo.claim1)) Hr Hm Hs H2)
    as (? & ? & ? & Hr); [| | |apply Hr].
  - vm_compute. discriminate.
  - vm_compute. reflexivity.
  - vm_compute. reflexivity.
Defined.
