(* ===== verification/OrderStatus.v ===== *)
(** * Order and coupon statuses

    apps/worker/order_status.py: the stable vocabulary the platform's order and
    coupon statuses are mapped to, for settlement ([normalize_order_status]) and
    for the clue master ([resolve_clue_order_status]). *)
From S2P Require Import Prelude PyValue.

Definition ACTIVE_ORDER_STATUSES : list string := ["201"; "履约中"; "待使用"].
Definition COMPLETED_ORDER_STATUSES : list string :=
  ["1"; "已完成"; "已核销"; "交易成功"; "completed"; "fulfilled"; "transaction_success"].
Definition PAID_ORDER_STATUSES : list string :=
  ["200"; "paid"; "success"; "payment_success"; "支付成功"].
Definition CLOSED_ORDER_STATUSES : list string :=
  ["101"; "closed"; "cancelled"; "canceled"; "unpaid_closed"; "支付取消"; "交易关闭"].
Definition REFUNDED_ORDER_STATUSES : list string :=
  ["300"; "301"; "refund"; "refunded"; "fully_refunded"; "已退款"].
Definition ACTIVE_COUPON_STATUSES : list string :=
  ["100"; "200"; "201"; "400"; "available"; "unused"; "valid"].
Definition VERIFIED_COUPON_STATUSES : list string :=
  ["1"; "401"; "fulfilled"; "verified"; "used"; "success"; "transaction_success"].
Definition REFUNDED_COUPON_STATUSES : list string :=
  ["301"; "refund"; "refunded"; "fully_refunded"].
Definition CLOSED_COUPON_STATUSES : list string :=
  ["101"; "closed"; "cancelled"; "canceled"; "交易关闭"].

(** [s.replace("-", "_")] *)
Definition dash_to_underscore (s : string) : string :=
  text ((fun c => if char_is c 45 then Ascii.ascii_of_nat 95 else c) <$> chars s).

(** [s[:-2]] *)
Definition drop_last2 (s : string) : string :=
  let l := chars s in text (take (length l - 2) l).

Section OrderStatus.
Variable repr_of : pyval -> string.

(** [_status_text] *)
Definition status_text (value : pyval) : string :=
  match value with
  | PNone | PStr "" => ""
  | _ =>
      let result := dash_to_underscore (lower (strip (py_str repr_of value))) in
      if endswith ".0" result then drop_last2 result else result
  end.

(** [value in (None, "", 0, "0")]: Python compares numbers by value. *)
Definition no_refund_time (value : pyval) : bool :=
  match value with
  | PNone => true
  | PBool b => negb b
  | PInt z => z =? 0
  | PFloat (FFin m _) => m =? 0
  | PDec (DFin c _) => c =? 0
  | PStr s => str_in s [""; "0"]
  | _ => false
  end.

(** [_refund_time_text] *)
Definition refund_time_text (value : pyval) : option string :=
  if no_refund_time value then None
  else let t := strip (py_str repr_of value) in if str_eqb t "" then None else Some t.

(** The dictionaries of a list value. *)
Definition dict_items (v : pyval) : list pydict :=
  match v with
  | PList l => omap (fun x => match x with PDict d => Some d | _ => None end) l
  | _ => []
  end.

Definition certificate_rows (payload : pydict) : list pydict :=
  let rows := mjoin ((fun key => dict_items (dict_get key payload)) <$>
                 ["certificate"; "certificates"; "certificate_list"; "coupons"; "coupon_list"]) in
  match rows with
  | [] =>
      let order_items :=
        py_or (py_or (dict_get "order_items" payload) (dict_get "items" payload)) (PList []) in
      mjoin ((fun item =>
        dict_items (py_or (py_or (dict_get "certificates" item) (dict_get "coupons" item)) (PList [])))
        <$> dict_items order_items)
  | _ => rows
  end.

(** [certificate_statuses] *)
Definition certificate_statuses (payload : pyval) : list (string * option string) :=
  match payload with
  | PDict d =>
      (fun row =>
        (status_text (dict_get_default "item_status"
                        (dict_get_default "coupon_status" (dict_get "status" row) row) row),
         refund_time_text (dict_get_default "refund_time" (dict_get "coupon_refund_time" row) row)))
      <$> certificate_rows d
  | _ => []
  end.

Definition is_refunded_certificate (status : string) (refund_time : option string) : bool :=
  str_in status REFUNDED_COUPON_STATUSES
  || match refund_time with Some t => negb (str_eqb t "") && negb (str_eqb t "0") | None => false end.

Definition nonempty {A} (l : list A) : bool := match l with [] => false | _ => true end.

Definition all_certificates_refunded (cs : list (string * option string)) : bool :=
  nonempty cs && forallb (fun c => is_refunded_certificate c.1 c.2) cs.
Definition has_verified_certificate (cs : list (string * option string)) : bool :=
  existsb (fun c => str_in c.1 VERIFIED_COUPON_STATUSES) cs.
Definition has_active_certificate (cs : list (string * option string)) : bool :=
  existsb (fun c => str_in c.1 ACTIVE_COUPON_STATUSES) cs.
Definition all_certificates_closed (cs : list (string * option string)) : bool :=
  nonempty cs && forallb (fun c => str_in c.1 CLOSED_COUPON_STATUSES) cs.

(** [normalize_order_status] *)
Definition normalize_order_status (value payload : pyval) : string :=
  let status := status_text value in
  let certificates := certificate_statuses payload in
  if str_in status CLOSED_ORDER_STATUSES then "closed"
  else if str_in status REFUNDED_ORDER_STATUSES || all_certificates_refunded certificates
  then "refunded"
  else if all_certificates_closed certificates then "closed"
  else if str_in status ACTIVE_ORDER_STATUSES || str_in status PAID_ORDER_STATUSES then "paid"
  else if str_in status COMPLETED_ORDER_STATUSES || str_eqb status "150" then "paid"
  else "unknown".

(** [a & b] is non-empty, and [a <= b], for sets given by their elements. *)
Definition meets (a b : list string) : bool := existsb (fun x => str_in x b) a.
Definition within (a b : list string) : bool := forallb (fun x => str_in x b) a.

(** [resolve_clue_order_status] *)
Definition resolve_clue_order_status (value payload normalized_order_status : pyval)
    (coupon_statuses : list pyval) : string :=
  let status := status_text value in
  let certificates := certificate_statuses payload in
  let normalized_order := status_text normalized_order_status in
  let normalized_coupons :=
    List.filter (fun s => negb (str_eqb s "")) (status_text <$> coupon_statuses) in
  if str_in status CLOSED_ORDER_STATUSES then "closed"
  else if str_in status REFUNDED_ORDER_STATUSES || all_certificates_refunded certificates
  then "refunded"
  else if str_eqb normalized_order "closed" then "closed"
  else if str_eqb normalized_order "refunded" then "refunded"
  else if nonempty normalized_coupons && within normalized_coupons CLOSED_COUPON_STATUSES
  then "closed"
  else if nonempty normalized_coupons && within normalized_coupons REFUNDED_COUPON_STATUSES
  then "refunded"
  else if nonempty normalized_coupons && meets normalized_coupons VERIFIED_COUPON_STATUSES
          && negb (meets normalized_coupons ACTIVE_COUPON_STATUSES)
  then "verified"
  else if str_in status ACTIVE_ORDER_STATUSES || str_in status PAID_ORDER_STATUSES then
    if all_certificates_closed certificates then "closed"
    else if has_verified_certificate certificates && negb (has_active_certificate certificates)
    then "verified"
    else if str_in status ACTIVE_ORDER_STATUSES then "active"
    else if str_in normalized_order ("active" :: ACTIVE_ORDER_STATUSES)
            || has_active_certificate certificates
            || meets normalized_coupons ACTIVE_COUPON_STATUSES
    then "active" else "unknown"
  else if str_in status COMPLETED_ORDER_STATUSES then
    if all_certificates_closed certificates then "closed"
    else if has_verified_certificate certificates then "verified"
    else if negb (str_eqb status "1") then "verified" else "unknown"
  else "unknown".

(** [normalize_coupon_status] *)
Definition normalize_coupon_status (value : pyval) : string :=
  let status := status_text value in
  if str_in status REFUNDED_COUPON_STATUSES then "refunded"
  else if str_in status VERIFIED_COUPON_STATUSES then "verified"
  else if str_in status ACTIVE_COUPON_STATUSES then "available"
  else if str_in status CLOSED_COUPON_STATUSES then "closed"
  else if str_in status ["300"; "cancelled"; "canceled"; "revoked"; "reversed"; "refund_pending"]
  then "cancelled"
  else "unknown".
End OrderStatus.

(** ** Properties *)

Ltac cases_if :=
  repeat match goal with
  | |- context [if ?b then _ else _] => destruct b eqn:?; cbn [andb orb negb] in *; try done
  end.

(** The clue status refines the settlement status: without projections from
    other endpoints, an order the clue master calls active or verified is paid
    for settlement, closed and refunded agree, and an order settlement leaves
    unknown is never active or verified. *)
Lemma clue_status_refines_settlement repr_of value payload :
  let clue := resolve_clue_order_status repr_of value payload PNone [] in
  let settled := normalize_order_status repr_of value payload in
  (clue = "refunded" <-> settled = "refunded")
  /\ (clue = "closed" -> settled = "closed")
  /\ (clue = "active" \/ clue = "verified" -> settled = "paid")
  /\ (settled = "paid" -> clue = "active" \/ clue = "verified" \/ clue = "unknown").
Proof.
  cbn zeta. unfold resolve_clue_order_status, normalize_order_status.
  generalize (status_text repr_of value) as s. generalize (certificate_statuses repr_of payload) as cs.
  intros cs s. cbn [List.filter fmap list_fmap nonempty andb status_text].
  change (str_eqb "" "closed") with false. change (str_eqb "" "refunded") with false.
  destruct (str_in s CLOSED_ORDER_STATUSES); [naive_solver|].
  destruct (str_in s REFUNDED_ORDER_STATUSES || all_certificates_refunded cs); [naive_solver|].
  destruct (all_certificates_closed cs);
    destruct (str_in s ACTIVE_ORDER_STATUSES || str_in s PAID_ORDER_STATUSES);
    destruct (str_in s COMPLETED_ORDER_STATUSES); cbn [orb]; cases_if; naive_solver.
Qed.

(** Payment alone never makes a clue order active: an active order whose
    status is not a waiting-use status has waiting-use evidence in the projected
    order, in a certificate or in a coupon. *)
Lemma payment_alone_is_not_active repr_of value payload order coupons :
  resolve_clue_order_status repr_of value payload order coupons = "active" ->
  str_in (status_text repr_of value) ACTIVE_ORDER_STATUSES = true
  \/ str_in (status_text repr_of order) ("active" :: ACTIVE_ORDER_STATUSES) = true
  \/ has_active_certificate (certificate_statuses repr_of payload) = true
  \/ exists c, c ∈ coupons /\ str_in (status_text repr_of c) ACTIVE_COUPON_STATUSES = true.
Proof.
  unfold resolve_clue_order_status.
  set (ns := List.filter _ _).
  assert (Hm : meets ns ACTIVE_COUPON_STATUSES = true ->
     exists c, c ∈ coupons /\ str_in (status_text repr_of c) ACTIVE_COUPON_STATUSES = true).
  { intros (x & Hx & Ha)%List.existsb_exists. apply List.filter_In in Hx as [Hx _].
    apply list_elem_of_In, list_elem_of_fmap in Hx as (c & -> & Hc). eauto. }
  destruct (has_active_certificate _); [auto|].
  destruct (meets ns ACTIVE_COUPON_STATUSES); [auto|].
  destruct (str_in (status_text repr_of order) _); [auto|].
  destruct (str_in (status_text repr_of value) ACTIVE_ORDER_STATUSES); [auto|]. cbn [orb].
  intros H. exfalso. revert H. cases_if.
Qed.

(** The settlement vocabulary is stable: normalizing a normalized order
    status again, without a payload, gives it back. *)
Lemma order_status_stable repr_of value payload :
  let s := normalize_order_status repr_of value payload in
  normalize_order_status repr_of (PStr s) PNone = s.
Proof.
  cbn zeta. unfold normalize_order_status at 2 3.
  cases_if; vm_compute; reflexivity.
Qed.

(** The coupon vocabulary is stable except for cancelled coupons, which a second
    normalization calls closed: the earlier test for closed statuses shadows the
    spelling "cancelled" of the last one. *)
Lemma coupon_status_stable repr_of value :
  let s := normalize_coupon_status repr_of value in
  normalize_coupon_status repr_of (PStr s) = if str_eqb s "cancelled" then "closed" else s.
Proof.
  cbn zeta. unfold normalize_coupon_status at 2 3 4.
  cases_if; vm_compute; reflexivity.
Qed.

(** A cancelled coupon does not keep its status: its normalized value is
    read back as closed, so a clue order whose only coupon is cancelled resolves
    to closed. *)
Lemma cancelled_coupon_reads_closed repr_of value :
  normalize_coupon_status repr_of value = "cancelled" ->
  normalize_coupon_status repr_of (PStr (normalize_coupon_status repr_of value)) = "closed"
  /\ resolve_clue_order_status repr_of (PStr "paid") PNone PNone
       [PStr (normalize_coupon_status repr_of value)] = "closed".
Proof. intros ->. split; vm_compute; reflexivity. Qed.

Lemma cancelled_coupon_reads_closed_witness :
  normalize_coupon_status (fun _ => "") (PInt 300) = "cancelled"
  /\ normalize_coupon_status (fun _ => "") (PStr (normalize_coupon_status (fun _ => "") (PInt 300))) = "closed".
Proof.
  split; [vm_compute; reflexivity|].
  apply (cancelled_coupon_reads_closed (fun _ => "") (PInt 300)). vm_compute. reflexivity.
Defined.

Lemma payment_alone_is_not_active_witness :
  resolve_clue_order_status (fun _ => "") (PStr "PAID") PNone PNone [PInt 100] = "active"
  /\ exists c, c ∈ [PInt 100] /\ str_in (status_text (fun _ => "") c) ACTIVE_COUPON_STATUSES = true.
Proof.
  assert (H : resolve_clue_order_status (fun _ => "") (PStr "PAID") PNone PNone [PInt 100] = "active")
    by (vm_compute; reflexivity).
  split; [exact H|].
  destruct (payment_alone_is_not_active _ _ _ _ _ H) as [H1|[H1|[H1|H1]]];
    [vm_compute in H1; discriminate..|exact H1].
Defined.
