(* ===== verification/Phones.v ===== *)
(** * Phone numbers

    src/dy_data/phones.py: what is a usable Chinese mobile number, its mask and
    the fingerprint of its source.  The regular expressions are written out as
    tests on characters; [\d] is Unicode's decimal digits, so the masked form is
    matched on code points. *)
From S2P Require Import Prelude PyValue.
From Stdlib Require Import Ascii.

(** ** Characters *)

Definition code (c : Ascii.ascii) : Z := Z.of_nat (Ascii.nat_of_ascii c).

(** A UTF-8 decoder: each element is one code point (a stray byte stands for
    itself). *)
Fixpoint codepoints_fuel (fuel : nat) (s : list Ascii.ascii) : list Z :=
  match fuel with
  | O => []
  | S fuel' =>
      match s with
      | [] => []
      | a :: s1 =>
          let x := code a in
          if x <? 128 then x :: codepoints_fuel fuel' s1
          else match s1 with
          | b :: s2 =>
              if (192 <=? x) && (x <? 224)
              then ((x - 192) * 64 + (code b - 128)) :: codepoints_fuel fuel' s2
              else match s2 with
              | c :: s3 =>
                  if (224 <=? x) && (x <? 240)
                  then ((x - 224) * 4096 + (code b - 128) * 64 + (code c - 128))
                         :: codepoints_fuel fuel' s3
                  else match s3 with
                  | d :: s4 =>
                      if 240 <=? x
                      then ((x - 240) * 262144 + (code b - 128) * 4096 + (code c - 128) * 64
                            + (code d - 128)) :: codepoints_fuel fuel' s4
                      else x :: codepoints_fuel fuel' s1
                  | [] => x :: codepoints_fuel fuel' s1
                  end
              | [] => x :: codepoints_fuel fuel' s1
              end
          | [] => x :: codepoints_fuel fuel' s1
          end
      end
  end.

(** Every turn consumes a byte. *)
Definition codepoints (s : list Ascii.ascii) : list Z := codepoints_fuel (length s) s.

(** The first code points of Unicode's decimal digits, ten each. *)
Definition digit_blocks : list Z :=
  [48; 1632; 1776; 1984; 2406; 2534; 2662; 2790; 2918; 3046; 3174; 3302; 3430; 3558; 3664; 3792;
   3872; 4160; 4240; 6112; 6160; 6470; 6608; 6784; 6800; 6992; 7088; 7232; 7248; 42528; 43216;
   43264; 43472; 43504; 43600; 44016; 65296; 66720; 68912; 69734; 69872; 69942; 70096; 70384;
   70736; 70864; 71248; 71360; 71472; 71904; 72016; 72784; 73040; 73120; 92768; 92864; 93008;
   120782; 120792; 120802; 120812; 120822; 123200; 123632; 125264; 130032].

Definition unicode_digit (c : Z) : bool := existsb (fun b => (b <=? c) && (c <=? b + 9)) digit_blocks.

Definition is_digit (c : Ascii.ascii) : bool := (48 <=? code c) && (code c <=? 57).
Definition in_range (lo hi : Z) (c : Z) : bool := (lo <=? c) && (c <=? hi).

(** [_MASKED_PHONE_RE]: [1[3-9]\d\*{4}\d{4}] *)
Definition masked_phone (s : list Ascii.ascii) : bool :=
  match codepoints s with
  | [a; b; c; m1; m2; m3; m4; d; e; f; g] =>
      (a =? 49) && in_range 51 57 b && unicode_digit c
      && (m1 =? 42) && (m2 =? 42) && (m3 =? 42) && (m4 =? 42)
      && unicode_digit d && unicode_digit e && unicode_digit f && unicode_digit g
  | _ => false
  end.

(** [_PHONE_ALLOWED_RE]: one or more of [+0-9() .\-\t] *)
Definition allowed_char (c : Ascii.ascii) : bool :=
  is_digit c || existsb (fun k => code c =? k) [43; 40; 41; 32; 46; 45; 9].
Definition phone_allowed (s : list Ascii.ascii) : bool :=
  match s with [] => false | _ => forallb allowed_char s end.

(** [re.sub(r"[\s().\-]", "", text)]; an allowed text has only two white space
    characters. *)
Definition separator (c : Ascii.ascii) : bool :=
  existsb (fun k => code c =? k) [9; 10; 11; 12; 13; 28; 29; 30; 31; 32; 40; 41; 46; 45].
Definition compact_of (s : list Ascii.ascii) : list Ascii.ascii :=
  List.filter (fun c => negb (separator c)) s.

(** [_COUNTRY_PREFIX_RE] *)
Definition drop_country (s : list Ascii.ascii) : list Ascii.ascii :=
  match drop_token (chars "+86") s with
  | Some r => r
  | None => match drop_token (chars "0086") s with Some r => r | None => s end
  end.

(** [_MOBILE_RE]: [1[3-9]\d{9}]; the text is ASCII at this point. *)
Definition mobile (s : list Ascii.ascii) : bool :=
  match s with
  | a :: b :: r =>
      (code a =? 49) && in_range 51 57 (code b) && bool_decide (length r = 9%nat) && forallb is_digit r
  | _ => false
  end.

Section Phones.
Variable repr_of : pyval -> string.
Variable sha256 : string -> string.

(** [is_online_cipher] *)
Definition is_online_cipher (value : pyval) : bool :=
  match value with PStr s => startswith "Enc." (strip s) | _ => false end.

(** [normalize_phone] *)
Definition normalize_phone (value : pyval) : string :=
  if is_none value || is_online_cipher value then ""
  else
    let t := chars (strip (py_str repr_of value)) in
    if negb (phone_allowed t) || masked_phone t then ""
    else
      let compact := drop_country (compact_of t) in
      if mobile compact then text compact else "".

(** [f"{phone[:3]}****{phone[-4:]}"] *)
Definition mask_digits (phone : string) : string :=
  let l := chars phone in
  text (take 3 l ++ chars "****" ++ drop (length l - 4) l).

(** [mask_phone] *)
Definition mask_phone (value : pyval) : string :=
  let masked := match value with
                | PStr s => if masked_phone (chars (strip s)) then Some (strip s) else None
                | _ => None
                end in
  match masked with
  | Some t => t
  | None =>
      let phone := normalize_phone value in
      if str_eqb phone "" then "" else mask_digits phone
  end.

(** [phone_source_fingerprint] *)
Definition phone_source_fingerprint (plain_phone cipher_text : pyval) : option string :=
  let normalized := normalize_phone plain_phone in
  if negb (str_eqb normalized "") then Some (sha256 ("plain:v1:" +:+ normalized)%string)
  else if is_online_cipher cipher_text
  then Some (sha256 ("cipher:v1:" +:+ strip (py_str repr_of cipher_text))%string)
  else None.
End Phones.

(** ** Digits at the edges *)

Lemma digit_no_token_head c l :
  is_digit c = true -> drop_any whitespace (c :: l) = None
  /\ drop_any (@rev Ascii.ascii <$> whitespace) (c :: l) = None.
Proof.
  intros Hc.
  assert (H : forall toks, forallb (fun p => match p with x :: _ => negb (is_digit x) | [] => false end) toks
                           = true -> drop_any toks (c :: l) = None).
  { intros toks Ht. apply drop_any_None. intros p s' Hp E. rewrite forallb_forall in Ht.
    apply list_elem_of_In, Ht in Hp. destruct p as [|x p]; [done|]. injection E as <- _.
    by rewrite Hc in Hp. }
  split; apply H; vm_compute; reflexivity.
Qed.

Lemma strip_digit_edges a l b :
  is_digit a = true -> is_digit b = true -> strip (text (a :: l ++ [b])) = text (a :: l ++ [b]).
Proof.
  intros Ha Hb. apply strip_id; rewrite chars_text.
  - exact (proj1 (digit_no_token_head _ _ Ha)).
  - cbn [rev]. rewrite rev_app_distr. cbn [rev app]. exact (proj2 (digit_no_token_head _ _ Hb)).
Qed.

Lemma digit_code c : is_digit c = true -> 48 <= code c <= 57.
Proof. unfold is_digit. intros. bool_to_prop. lia. Qed.

Lemma digit_allowed c : is_digit c = true -> allowed_char c = true /\ separator c = false.
Proof.
  intros H. split; [unfold allowed_char; by rewrite H|]. apply digit_code in H.
  unfold separator. cbn [existsb]. lia.
Qed.

Lemma codepoints_digits l :
  forallb (fun c => code c <? 128) l = true -> codepoints l = code <$> l.
Proof.
  unfold codepoints. induction l as [|c l IH]; [done|]. cbn [forallb length codepoints_fuel].
  rewrite andb_true_iff. intros [-> Hl]. rewrite IH by done. done.
Qed.

Lemma digit_unicode c : is_digit c = true -> unicode_digit (code c) = true.
Proof.
  intros H%digit_code. unfold unicode_digit, digit_blocks. cbn [existsb].
  by replace ((48 <=? code c) && (code c <=? 48 + 9)) with true by lia.
Qed.

(** The eleven digits of a mobile number. *)
Lemma mobile_digits l :
  mobile l = true ->
  exists b d1 d2 d3 d4 d5 d6 d7 d8 d9 a, l = [a; b; d1; d2; d3; d4; d5; d6; d7; d8; d9]
    /\ code a = 49 /\ in_range 51 57 (code b) = true /\ forallb is_digit l = true.
Proof.
  destruct l as [|a [|b r]]; [done..|]. unfold mobile. rewrite !andb_true_iff, Z.eqb_eq, bool_decide_eq_true.
  intros [[[Ha Hb] Hl] Hr]. do 9 (destruct r as [|? r]; [done|]). destruct r; [|done].
  do 11 eexists. split; [reflexivity|]. split_and!; [done|done|]. cbn [forallb] in *. rewrite Hr.
  unfold is_digit, in_range in *. rewrite Ha. cbn. rewrite andb_true_r. bool_to_prop. lia.
Qed.

Lemma compact_digits l : forallb is_digit l = true -> compact_of l = l.
Proof.
  intros H. apply filter_all. eapply forallb_impl; [|done]. intros a Ha.
  apply digit_allowed in Ha as [_ ->]. done.
Qed.

Lemma drop_country_mobile l : mobile l = true -> drop_country l = l.
Proof.
  intros H. apply mobile_digits in H as (b & d1 & d2 & d3 & d4 & d5 & d6 & d7 & d8 & d9 & a & -> & Ha & _ & _).
  unfold drop_country. cbn [chars String.list_ascii_of_string drop_token].
  destruct (Ascii.eqb_spec "+"%char a) as [<-|_]; [vm_compute in Ha; discriminate|].
  destruct (Ascii.eqb_spec "0"%char a) as [<-|_]; [vm_compute in Ha; discriminate|]. done.
Qed.

Lemma mobile_not_masked l : mobile l = true -> masked_phone l = false.
Proof.
  intros H. apply mobile_digits in H as (b & d1 & d2 & d3 & d4 & d5 & d6 & d7 & d8 & d9 & a & -> & _ & _ & Hd).
  unfold masked_phone. rewrite codepoints_digits.
  - cbn [forallb] in Hd. bool_to_prop. cbn [fmap list_fmap].
    replace (code d2 =? 42) with false by (pose proof (digit_code d2 ltac:(done)); lia).
    by rewrite !andb_false_r.
  - eapply forallb_impl; [|done]. intros c Hc%digit_code. lia.
Qed.

Lemma mobile_strip l : mobile l = true -> strip (text l) = text l.
Proof.
  intros H. apply mobile_digits in H as (b & d1 & d2 & d3 & d4 & d5 & d6 & d7 & d8 & d9 & a & -> & _ & _ & Hd).
  cbn [forallb] in Hd. bool_to_prop.
  by apply (strip_digit_edges a [b; d1; d2; d3; d4; d5; d6; d7; d8] d9).
Qed.

Lemma mobile_not_cipher l : mobile l = true -> is_online_cipher (PStr (text l)) = false.
Proof.
  intros H. cbn. rewrite mobile_strip by done. unfold startswith. rewrite chars_text.
  apply mobile_digits in H as (b & d1 & d2 & d3 & d4 & d5 & d6 & d7 & d8 & d9 & a & -> & Ha & _ & _).
  cbn [chars String.list_ascii_of_string drop_token].
  destruct (Ascii.eqb_spec "E"%char a) as [<-|_]; [vm_compute in Ha; discriminate|done].
Qed.

(** A mobile number normalizes to itself. *)
Lemma normalize_mobile repr_of l : mobile l = true -> normalize_phone repr_of (PStr (text l)) = text l.
Proof.
  intros H. unfold normalize_phone. rewrite mobile_not_cipher by done. cbn [is_none orb py_str].
  rewrite mobile_strip, chars_text, mobile_not_masked by done.
  assert (Hd : forallb is_digit l = true) by (by apply mobile_digits in H as (? & ? & ? & ? & ? & ? & ? & ? & ? & ? & ? & -> & _ & _ & ?)).
  replace (phone_allowed l) with true.
  - cbn. by rewrite compact_digits, drop_country_mobile, H.
  - destruct l; [done|]. unfold phone_allowed. symmetry. eapply forallb_impl; [|done].
    intros c Hc. by apply digit_allowed.
Qed.

Lemma normalize_phone_cases repr_of v :
  normalize_phone repr_of v = "" \/ exists l, mobile l = true /\ normalize_phone repr_of v = text l.
Proof.
  unfold normalize_phone. destruct (is_none v || is_online_cipher v); [by left|].
  destruct (negb _ || _); [by left|]. destruct (mobile _) eqn:E; [right|by left]. eauto.
Qed.

Lemma mask_digits_masked l : mobile l = true ->
  masked_phone (chars (mask_digits (text l))) = true
  /\ strip (mask_digits (text l)) = mask_digits (text l).
Proof.
  intros H. apply mobile_digits in H as (b & d1 & d2 & d3 & d4 & d5 & d6 & d7 & d8 & d9 & a & -> & Ha & Hb & Hd).
  cbn [forallb] in Hd. bool_to_prop.
  change (mask_digits _) with (text [a; b; d1; "*"%char; "*"%char; "*"%char; "*"%char; d6; d7; d8; d9]).
  split.
  - rewrite chars_text. unfold masked_phone. rewrite codepoints_digits.
    + cbn [fmap list_fmap]. rewrite Ha, Hb, !digit_unicode by done. vm_compute. reflexivity.
    + cbn [forallb]. rewrite !andb_true_iff.
      repeat match goal with Hx : is_digit _ = true |- _ => apply digit_code in Hx end.
      split_and!; try done; lia.
  - by apply (strip_digit_edges a [b; d1; "*"%char; "*"%char; "*"%char; "*"%char; d6; d7; d8] d9).
Qed.

Lemma masked_not_cipher s : masked_phone (chars s) = true -> startswith "Enc." s = false.
Proof.
  unfold startswith, masked_phone. destruct (chars s) as [|a l]; [done|].
  cbn [chars String.list_ascii_of_string drop_token].
  destruct (Ascii.eqb_spec "E"%char a) as [<-|_]; [|done]. unfold codepoints. cbn [length codepoints_fuel].
  change (code "E" <? 128) with true. cbn match.
  generalize (codepoints_fuel (length l) l) as k. intros k.
  do 10 (destruct k as [|? k]; [done|]). by destruct k.
Qed.

(** A normalized phone is empty or a complete mobile number (1, a digit from
    3 to 9, nine more digits), and normalizing it again changes nothing. *)
Lemma normalize_phone_stable repr_of v :
  (normalize_phone repr_of v = "" \/ mobile (chars (normalize_phone repr_of v)) = true)
  /\ normalize_phone repr_of (PStr (normalize_phone repr_of v)) = normalize_phone repr_of v.
Proof.
  destruct (normalize_phone_cases repr_of v) as [->|(l & Hl & ->)].
  - split; [by left|]. vm_compute. reflexivity.
  - rewrite chars_text. split; [by right|]. by apply normalize_mobile.
Qed.

(** A mask is stable and never passes for a phone: masking a mask gives it
    back, no mask normalizes to a number or yields a fingerprint, and the mask of
    a number shows only its first three and last four digits. *)
Lemma mask_phone_safe repr_of sha256 v :
  let m := mask_phone repr_of v in
  mask_phone repr_of (PStr m) = m
  /\ normalize_phone repr_of (PStr m) = ""
  /\ phone_source_fingerprint repr_of sha256 (PStr m) (PStr m) = None
  /\ (forall l, mobile l = true ->
       mask_phone repr_of (PStr (text l)) = text (take 3 l ++ chars "****" ++ drop 7 l)).
Proof.
  cbn zeta.
  assert (Hm : mask_phone repr_of v = "" \/ (masked_phone (chars (mask_phone repr_of v)) = true
               /\ strip (mask_phone repr_of v) = mask_phone repr_of v)).
  { unfold mask_phone. case_match eqn:E.
    - right. destruct v; try done. destruct (masked_phone _) eqn:Hk; [|done]. injection E as <-.
      by rewrite strip_idem.
    - destruct (normalize_phone_cases repr_of v) as [->|(l & Hl & ->)]; [by left|].
      destruct (str_eqb (text l) ""); [by left|]. right. by apply mask_digits_masked. }
  assert (Hshow : forall l, mobile l = true ->
    mask_phone repr_of (PStr (text l)) = text (take 3 l ++ chars "****" ++ drop 7 l)).
  { intros l Hl. unfold mask_phone. rewrite mobile_strip, chars_text, mobile_not_masked by done.
    rewrite normalize_mobile by done.
    apply mobile_digits in Hl as (b & d1 & d2 & d3 & d4 & d5 & d6 & d7 & d8 & d9 & a & -> & _).
    done. }
  generalize dependent (mask_phone repr_of v). intros m [->|[Hk Hs]].
  { split_and!; [vm_compute; reflexivity..|exact Hshow]. }
  assert (Hn : normalize_phone repr_of (PStr m) = "").
  { unfold normalize_phone. destruct (is_none _ || _); [done|]. cbn [py_str]. by rewrite Hs, Hk, orb_true_r. }
  split_and!; [|done| |done].
  - unfold mask_phone. by rewrite Hs, Hk.
  - unfold phone_source_fingerprint. rewrite Hn. cbn [str_eqb negb is_online_cipher].
    by rewrite Hs, masked_not_cipher.
Qed.
