(* ===== verification/Receipts.v ===== *)
(** * Receipt amounts

    apps/worker/receipt_amounts.py: the receipt amount in cents a settlement fee
    may be based on, taken only from proven, unambiguously attributed evidence.
    The coupons of an order are rows of a table; the batch loader's counts and
    the per-coupon queries are both modelled. *)
From S2P Require Import Prelude PyValue.

Definition RECEIPT_AMOUNT_FIELD : string := "receipt_amount".
Definition SUB_ORDER_AMOUNT_FIELD : string := "sub_order_amount_infos".
Definition ORDER_ITEM_ID_FIELD : string := "order_item_id".
Definition SUB_ORDER_ID_FIELD : string := "sub_order_id".
Definition INTERFACE_COUNT_FIELD : string := "count".

(** The integer a value is proven to be, before the sign test. *)
Definition proven_integer (value : pyval) : option Z :=
  match value with
  | PInt z => Some z
  | PDec (DFin c e) => dec_int c e
  | PFloat (FFin m e) => float_int m e
  | PStr s =>
      let t := strip s in
      if str_eqb t "" then None
      else match decimal_of_text t with Some (DFin c e) => dec_int c e | _ => None end
  | _ => None
  end.

(** [parse_receipt_amount_cent] *)
Definition parse_receipt_amount_cent (value : pyval) : option Z :=
  match proven_integer value with
  | Some amount => if amount <? 0 then None else Some amount
  | None => None
  end.

Record SubOrderReceipts := MkSubOrderReceipts {
  so_unique : gmap string Z;
  so_unusable : gset string;
  so_entries_present : bool;
  so_complete_total : option Z;
  so_corrupt : bool;
}.

(** [observed.setdefault(item_id, []).append(parsed)], the insertion order left
    out: nothing reads it. *)
Definition observe (observed : gmap string (list (option Z))) (item_id : string) (parsed : option Z) :=
  <[item_id := default [] (observed !! item_id) ++ [parsed]]> observed.

Definition no_lines : SubOrderReceipts := MkSubOrderReceipts ∅ ∅ false None false.
Definition corrupt_field : SubOrderReceipts := MkSubOrderReceipts ∅ ∅ false None true.
Definition corrupt_identity : SubOrderReceipts := MkSubOrderReceipts ∅ ∅ true None true.

Section Receipts.
Variable repr_of : pyval -> string.

(** What one entry of the list tells: nothing usable, contradictory
    identifiers, or an amount with the item it names, if any. *)
Inductive entry_fact :=
| NotADict
| Contradiction
| Line (item_id : option string) (parsed : option Z).

Definition entry_facts (entry : pyval) : entry_fact :=
  match entry with
  | PDict d =>
      let parsed := parse_receipt_amount_cent (dict_get RECEIPT_AMOUNT_FIELD d) in
      let raw_item := dict_get ORDER_ITEM_ID_FIELD d in
      let raw_sub := dict_get SUB_ORDER_ID_FIELD d in
      if negb (is_none raw_item) && negb (is_none raw_sub)
         && negb (str_eqb (strip (py_str repr_of raw_item)) (strip (py_str repr_of raw_sub)))
      then Contradiction
      else
        let raw := if is_none raw_item then raw_sub else raw_item in
        let item_id := strip (py_str repr_of raw) in
        Line (if is_none raw || str_eqb item_id "" then None else Some item_id) parsed
  | _ => NotADict
  end.

(** The accumulators of the loop: observations, total, completeness. *)
Record scan := MkScan {
  sc_observed : gmap string (list (option Z));
  sc_total : Z;
  sc_complete : bool;
}.

(** The loop over the entries; [None] is the early return on a contradiction. *)
Fixpoint scan_entries (entries : list pyval) (s : scan) : option scan :=
  match entries with
  | [] => Some s
  | entry :: rest =>
      match entry_facts entry with
      | NotADict => scan_entries rest (MkScan (sc_observed s) (sc_total s) false)
      | Contradiction => None
      | Line item parsed =>
          let s1 := match parsed with
                    | None => MkScan (sc_observed s) (sc_total s) false
                    | Some p => MkScan (sc_observed s) (sc_total s + p) (sc_complete s)
                    end in
          scan_entries rest
            (match item with
             | Some i => MkScan (observe (sc_observed s1) i parsed) (sc_total s1) (sc_complete s1)
             | None => s1
             end)
      end
  end.

(** The only proven value of an item, if it has exactly one entry. *)
Definition single (parsed_values : list (option Z)) : option Z :=
  match parsed_values with [Some p] => Some p | _ => None end.

(** [SubOrderReceipts.from_payload] *)
Definition from_payload (payload : pyval) : SubOrderReceipts :=
  match payload with
  | PDict d =>
      match dict_lookup SUB_ORDER_AMOUNT_FIELD d with
      | None => no_lines
      | Some (PList []) => no_lines
      | Some (PList entries) =>
          match scan_entries entries (MkScan ∅ 0 true) with
          | None => corrupt_identity
          | Some s =>
              let unique := omap single (sc_observed s) in
              let unusable := dom (filter (fun x => single x.2 = None) (sc_observed s)) in
              let complete := sc_complete s && bool_decide (unusable = ∅) in
              MkSubOrderReceipts unique unusable true
                (if complete then Some (sc_total s) else None) false
          end
      | Some _ => corrupt_field
      end
  | _ => no_lines
  end.

(** ** Orders and coupons *)

Record RawDouyinOrder := MkOrder {
  or_id : Z;
  or_raw_payload : pyval;
}.

Record RawDouyinOrderCoupon := MkCoupon {
  cp_raw_order_id : Z;
  cp_order_item_id : option string;
  cp_raw_payload : pyval;
}.

Definition order_coupon_count (coupons : list RawDouyinOrderCoupon) (order : RawDouyinOrder) : Z :=
  Z.of_nat (length (List.filter (fun c => cp_raw_order_id c =? or_id order) coupons)).

Definition coupon_item_share_count (coupons : list RawDouyinOrderCoupon) (order : RawDouyinOrder)
    (item_id : string) : Z :=
  Z.of_nat (length (List.filter (fun c => (cp_raw_order_id c =? or_id order)
                                          && opt_is (cp_order_item_id c) item_id) coupons)).

Record OrderAttribution := MkAttribution {
  oa_coupon_count : Z;
  oa_item_share_counts : gmap string Z;
}.

Definition item_share_count_of (a : OrderAttribution) (item_id : string) : Z :=
  default 0 (oa_item_share_counts a !! item_id).

(** [SELECT key, count( * ) ... GROUP BY key] *)
Definition group_count {K} `{Countable K} (keys : list K) : gmap K Z :=
  foldr (fun k m => <[k := default 0 (m !! k) + 1]> m) ∅ keys.

(** [shares.setdefault(order, {})[item] = count], row by row. *)
Definition nest_shares (grouped : gmap (Z * string) Z) : gmap Z (gmap string Z) :=
  map_fold (fun k n m => <[k.1 := <[k.2 := n]> (default ∅ (m !! k.1))]> m) ∅ grouped.

(** [load_order_attributions]: two grouped queries over the orders asked for. *)
Definition load_order_attributions (coupons : list RawDouyinOrderCoupon) (order_ids : list Z)
  : gmap Z OrderAttribution :=
  let ids := remove_dups order_ids in
  let rows := List.filter (fun c => bool_decide (cp_raw_order_id c ∈ ids)) coupons in
  let counts := group_count (cp_raw_order_id <$> rows) in
  let shares := nest_shares (group_count
    (omap (fun c => (fun i => (cp_raw_order_id c, i)) <$> cp_order_item_id c) rows)) in
  list_to_map ((fun oid =>
    (oid, MkAttribution (default 0 (counts !! oid)) (default ∅ (shares !! oid)))) <$> ids).

(** [_item_share_count] *)
Definition item_share_count (coupons : list RawDouyinOrderCoupon) (order : RawDouyinOrder)
    (item_id : string) (attribution : option OrderAttribution) : Z :=
  match attribution with
  | Some a => item_share_count_of a item_id
  | None => coupon_item_share_count coupons order item_id
  end.

(** [_interface_count_blocks_order_basis] *)
Definition interface_count_blocks_order_basis (order_payload : pydict) : bool :=
  match dict_lookup INTERFACE_COUNT_FIELD order_payload with
  | None => false
  | Some v => match parse_receipt_amount_cent v with Some n => 1 <? n | None => false end
  end.

(** [resolve_coupon_receipt_cent] *)
Definition resolve_coupon_receipt_cent (coupons : list RawDouyinOrderCoupon) (order : RawDouyinOrder)
    (coupon : RawDouyinOrderCoupon) (attribution : option OrderAttribution) : option Z :=
  match dict_lookup RECEIPT_AMOUNT_FIELD (as_dict (cp_raw_payload coupon)) with
  | Some v => parse_receipt_amount_cent v
  | None =>
      let order_payload := as_dict (or_raw_payload order) in
      let sub_orders := from_payload (PDict order_payload) in
      if so_corrupt sub_orders then None
      else
        let coupon_count := match attribution with
                            | Some a => oa_coupon_count a
                            | None => order_coupon_count coupons order
                            end in
        if negb (coupon_count =? 1) then
          match cp_order_item_id coupon with
          | Some item_id =>
              if str_eqb item_id "" then None
              else if bool_decide (item_id ∈ so_unusable sub_orders) then None
              else match so_unique sub_orders !! item_id with
                   | Some amount =>
                       if negb (item_share_count coupons order item_id attribution =? 1) then None
                       else Some amount
                   | None => None
                   end
          | None => None
          end
        else if interface_count_blocks_order_basis order_payload then None
        else if so_entries_present sub_orders then so_complete_total sub_orders
        else match dict_lookup RECEIPT_AMOUNT_FIELD order_payload with
             | Some v => parse_receipt_amount_cent v
             | None => None
             end
  end.
End Receipts.

(** ** Batch attribution *)

Fixpoint occurrences {K} `{EqDecision K} (k : K) (l : list K) : Z :=
  match l with
  | [] => 0
  | x :: l' => (if decide (x = k) then 1 else 0) + occurrences k l'
  end.

Lemma group_count_occurrences {K} `{Countable K} (keys : list K) k :
  default 0 (group_count keys !! k) = occurrences k keys.
Proof.
  induction keys as [|x keys IH]; cbn; [by rewrite lookup_empty|].
  fold (group_count keys). rewrite lookup_insert.
  destruct (decide (x = k)) as [->|Hne]; cbn; rewrite IH; lia.
Qed.

Lemma nest_shares_lookup grouped o i :
  default ∅ (nest_shares grouped !! o) !! i = grouped !! (o, i).
Proof.
  unfold nest_shares. revert o i.
  apply (map_fold_weak_ind (fun (m : gmap Z (gmap string Z)) g =>
    forall o i, (default ∅ (m !! o)) !! i = g !! (o, i))); [done|].
  intros [o' i'] n g m Hg IH o i. cbn. rewrite !lookup_insert.
  destruct (decide (o' = o)) as [->|Ho]; cbn.
  - rewrite lookup_insert. destruct (decide (i' = i)) as [->|Hi].
    + by rewrite decide_True.
    + rewrite decide_False by congruence. apply IH.
  - rewrite decide_False by congruence. apply IH.
Qed.

Lemma occurrences_filter {A K} `{EqDecision K} (f : A -> option K) (l : list A) k :
  occurrences k (omap f l) = Z.of_nat (length (List.filter (fun a => opt_is (f a) k) l)).
Proof.
  induction l as [|a l IH]; [done|]. cbn. unfold opt_is at 1.
  destruct (f a) as [x|]; cbn; rewrite IH.
  - destruct (decide (x = k)) as [->|Hne].
    + rewrite bool_decide_eq_true_2 by done. cbn. lia.
    + rewrite bool_decide_eq_false_2 by congruence. done.
  - by rewrite bool_decide_eq_false_2.
Qed.

Lemma omap_Some_fmap {A B} (f : A -> B) (l : list A) : f <$> l = omap (fun a => Some (f a)) l.
Proof. induction l as [|a l IH]; [done|]. cbn. by f_equal. Qed.

Lemma load_attribution_counts coupons ids order a :
  or_id order ∈ ids -> load_order_attributions coupons ids !! or_id order = Some a ->
  oa_coupon_count a = order_coupon_count coupons order
  /\ forall i, item_share_count_of a i = coupon_item_share_count coupons order i.
Proof.
  intros Hin Hl. unfold load_order_attributions in Hl.
  apply elem_of_list_to_map_2, list_elem_of_fmap in Hl as (oid & [= <- ->] & Hoid).
  cbn [oa_coupon_count]. unfold item_share_count_of. cbn [oa_item_share_counts]. split.
  - rewrite group_count_occurrences, omap_Some_fmap, occurrences_filter, filter_filter.
    unfold order_coupon_count. do 2 f_equal. apply filter_ext_in. intros c.
    unfold opt_is. destruct (Z.eqb_spec (cp_raw_order_id c) (or_id order)) as [->|Hne].
    + by rewrite !bool_decide_eq_true_2.
    + by rewrite (bool_decide_eq_false_2 (Some _ = _)), andb_false_r by congruence.
  - intros i. rewrite nest_shares_lookup, group_count_occurrences, occurrences_filter, filter_filter.
    unfold coupon_item_share_count. do 2 f_equal. apply filter_ext_in. intros c.
    destruct (cp_order_item_id c) as [x|]; cbn; unfold opt_is.
    + destruct (Z.eqb_spec (cp_raw_order_id c) (or_id order)) as [->|Hne].
      * rewrite bool_decide_eq_true_2 by done. cbn. apply bool_decide_ext. naive_solver.
      * by rewrite (bool_decide_eq_false_2 (Some (_, _) = _)), andb_false_r by congruence.
    + by rewrite (bool_decide_eq_false_2 (None = Some (_, _))),
        (bool_decide_eq_false_2 (None = Some i)), !andb_false_r by done.
Qed.

Lemma load_attribution_present coupons ids oid :
  oid ∈ ids -> is_Some (load_order_attributions coupons ids !! oid).
Proof.
  intros Hin. unfold load_order_attributions. apply elem_of_dom. rewrite dom_list_to_map.
  apply elem_of_list_to_set. rewrite <- list_fmap_compose. cbn. apply list_elem_of_fmap.
  exists oid. split; [done|]. by apply elem_of_remove_dups.
Qed.

(** Resolving a coupon with the counts loaded for a batch of orders gives
    exactly what the per-coupon queries give. *)
Lemma batch_resolution_agrees repr_of coupons ids order coupon :
  or_id order ∈ ids ->
  resolve_coupon_receipt_cent repr_of coupons order coupon
    (load_order_attributions coupons ids !! or_id order)
  = resolve_coupon_receipt_cent repr_of coupons order coupon None.
Proof.
  intros Hin. destruct (load_attribution_present coupons ids _ Hin) as [a Ha].
  destruct (load_attribution_counts _ _ _ _ Hin Ha) as [Hc Hs]. rewrite Ha.
  unfold resolve_coupon_receipt_cent. cbn [item_share_count]. rewrite Hc. repeat case_match; try done;
    rewrite Hs in *; congruence.
Qed.

Lemma batch_resolution_agrees_witness :
  let coupons := [MkCoupon 7 (Some "i1") (PDict []); MkCoupon 7 (Some "i2") (PDict [])] in
  let order := MkOrder 7 (PDict [("sub_order_amount_infos",
     PList [PDict [("sub_order_id", PStr "i1"); ("receipt_amount", PInt 500)];
            PDict [("sub_order_id", PStr "i2"); ("receipt_amount", PInt 300)]])]) in
  resolve_coupon_receipt_cent (fun _ => "") coupons order (MkCoupon 7 (Some "i1") (PDict []))
    (load_order_attributions coupons [7] !! 7)
  = resolve_coupon_receipt_cent (fun _ => "") coupons order (MkCoupon 7 (Some "i1") (PDict [])) None.
Proof. cbn zeta. apply (batch_resolution_agrees _ _ [7] (MkOrder 7 _)). left. Defined.

(** ** No money is attributed twice *)

Definition sum_list (l : list Z) : Z := foldr Z.add 0 l.

(** The proven amount of one observation list and of one entry. *)
Definition proven_sum (l : list (option Z)) : Z := sum_list (default 0 <$> l).

Definition line_amount repr_of (entry : pyval) : Z :=
  match entry_facts repr_of entry with Line _ (Some p) => p | _ => 0 end.

(** The total of the proven lines of an order. *)
Definition lines_total repr_of (order : RawDouyinOrder) : Z :=
  match dict_lookup SUB_ORDER_AMOUNT_FIELD (as_dict (or_raw_payload order)) with
  | Some (PList entries) => sum_list (line_amount repr_of <$> entries)
  | _ => 0
  end.

Lemma sum_list_cons x l : sum_list (x :: l) = x + sum_list l.
Proof. done. Qed.

Lemma sum_list_app l k : sum_list (l ++ k) = sum_list l + sum_list k.
Proof. induction l as [|x l IH]; [done|]. cbn [app]. rewrite !sum_list_cons, IH. lia. Qed.

Lemma parse_nonneg v n : parse_receipt_amount_cent v = Some n -> 0 <= n.
Proof.
  unfold parse_receipt_amount_cent. destruct (proven_integer v); [|done].
  destruct (_ <? 0) eqn:E; [done|]. intros [= <-]. lia.
Qed.

Lemma line_parsed_nonneg repr_of e item p : entry_facts repr_of e = Line item (Some p) -> 0 <= p.
Proof.
  destruct e; try done. unfold entry_facts. destruct (_ && _); [done|]. intros [= _ H]. by eapply parse_nonneg.
Qed.

(** What the observations of distinct items add up to. *)
Definition observed_sum (o : gmap string (list (option Z))) (items : list string) : Z :=
  sum_list ((fun i => proven_sum (default [] (o !! i))) <$> items).

Lemma observed_sum_other o items i p :
  i ∉ items -> observed_sum (observe o i p) items = observed_sum o items.
Proof.
  unfold observed_sum. induction items as [|x items IH]; intros Hi; [done|].
  rewrite !fmap_cons, !sum_list_cons, IH by set_solver.
  unfold observe at 1. rewrite lookup_insert_ne by set_solver. done.
Qed.

Lemma observed_sum_observe o items i p :
  NoDup items -> 0 <= default 0 p ->
  observed_sum (observe o i p) items <= observed_sum o items + default 0 p.
Proof.
  intros Hnd Hp. induction items as [|x items IH]; [cbn; lia|].
  apply NoDup_cons in Hnd as [Hx Hnd]. unfold observed_sum. rewrite !fmap_cons, !sum_list_cons.
  fold (observed_sum (observe o i p) items). fold (observed_sum o items).
  destruct (decide (i = x)) as [->|Hne].
  - rewrite observed_sum_other by done. unfold observe. rewrite lookup_insert_eq.
    match goal with |- context [default [] (Some ?l)] => change (default [] (Some l)) with l end.
    unfold proven_sum. rewrite fmap_app, sum_list_app.
    change (sum_list (default 0 <$> [p])) with (default 0 p + 0). lia.
  - unfold observe at 1. rewrite lookup_insert_ne by done. specialize (IH Hnd). lia.
Qed.

Lemma scan_observed_bound repr_of entries : forall s s' items,
  NoDup items -> scan_entries repr_of entries s = Some s' ->
  observed_sum (sc_observed s') items
  <= observed_sum (sc_observed s) items + sum_list (line_amount repr_of <$> entries).
Proof.
  induction entries as [|e entries IH]; intros s s' items Hnd; cbn [scan_entries fmap list_fmap].
  - intros [= <-]. cbn. lia.
  - rewrite sum_list_cons. change (list_fmap pyval Z (line_amount repr_of) entries) with (line_amount repr_of <$> entries).
    unfold line_amount at 1.
    destruct (entry_facts repr_of e) as [| |item parsed] eqn:E; [|done|].
    + intros H. apply (IH _ _ _ Hnd) in H. cbn in H. lia.
    + intros H. apply (IH _ _ _ Hnd) in H.
      assert (0 <= default 0 parsed) by (destruct parsed; [by eapply line_parsed_nonneg|done]).
      destruct item as [i|]; destruct parsed as [p|]; cbn [sc_observed default from_option] in *; try lia.
      * pose proof (observed_sum_observe (sc_observed s) items i (Some p) Hnd ltac:(done)). cbn in *. lia.
      * pose proof (observed_sum_observe (sc_observed s) items i None Hnd ltac:(done)). cbn in *. lia.
      * cbn in *. lia.
Qed.

(** What the scan of an order's lines observed. *)
Definition observations repr_of (order : RawDouyinOrder) : gmap string (list (option Z)) :=
  match dict_lookup SUB_ORDER_AMOUNT_FIELD (as_dict (or_raw_payload order)) with
  | Some (PList entries) =>
      match scan_entries repr_of entries (MkScan ∅ 0 true) with
      | Some s => sc_observed s
      | None => ∅
      end
  | _ => ∅
  end.

(** An item with one proven line: its amount is what was observed. *)
Lemma unique_observed repr_of order i amount :
  so_unique (from_payload repr_of (PDict (as_dict (or_raw_payload order)))) !! i = Some amount ->
  proven_sum (default [] (observations repr_of order !! i)) = amount.
Proof.
  unfold from_payload, observations.
  assert (He : (∅ : gmap string Z) !! i <> Some amount) by (by rewrite lookup_empty).
  destruct (dict_lookup _ _) as [v|]; [|done].
  destruct v as [| | | | | |[|e entries]|]; try done.
  destruct (scan_entries repr_of (e :: entries) _) as [s|]; [|done].
  cbn [so_unique]. rewrite lookup_omap. intros H.
  destruct (sc_observed s !! i) as [[|[p|] [|? ?]]|]; try done. injection H as <-.
  unfold proven_sum. cbn. lia.
Qed.

Lemma line_amount_nonneg repr_of e : 0 <= line_amount repr_of e.
Proof.
  unfold line_amount. destruct (entry_facts repr_of e) as [| |? [p|]] eqn:E; try done.
  by eapply line_parsed_nonneg.
Qed.

Lemma sum_list_nonneg {A} (f : A -> Z) l : (forall a, 0 <= f a) -> 0 <= sum_list (f <$> l).
Proof.
  intros H. induction l as [|a l IH]; [done|]. rewrite fmap_cons, sum_list_cons. specialize (H a). lia.
Qed.

Lemma observed_sum_empty items : observed_sum ∅ items = 0.
Proof.
  unfold observed_sum. induction items as [|i items IH]; [done|].
  rewrite fmap_cons, sum_list_cons, IH, lookup_empty. done.
Qed.

Lemma observations_bound repr_of order items :
  NoDup items -> observed_sum (observations repr_of order) items <= lines_total repr_of order.
Proof.
  intros Hnd. unfold observations, lines_total. destruct (dict_lookup _ _) as [v|];
    [|by rewrite observed_sum_empty].
  destruct v; try by rewrite observed_sum_empty.
  destruct (scan_entries repr_of l _) as [s|] eqn:Es.
  - apply (scan_observed_bound _ _ _ _ _ Hnd) in Es. cbn [sc_observed] in Es.
    by rewrite observed_sum_empty in Es.
  - rewrite observed_sum_empty. apply sum_list_nonneg, line_amount_nonneg.
Qed.

(** The coupons of an order, and the item a coupon is paid for by the sub-order
    lines. *)
Definition order_coupons (coupons : list RawDouyinOrderCoupon) (order : RawDouyinOrder) :=
  List.filter (fun c => cp_raw_order_id c =? or_id order) coupons.

Definition paid_item repr_of (coupons : list RawDouyinOrderCoupon) (order : RawDouyinOrder)
    (c : RawDouyinOrderCoupon) : option string :=
  match resolve_coupon_receipt_cent repr_of coupons order c None with
  | Some _ => cp_order_item_id c
  | None => None
  end.

Lemma multi_resolution repr_of coupons order c amount :
  dict_lookup RECEIPT_AMOUNT_FIELD (as_dict (cp_raw_payload c)) = None ->
  order_coupon_count coupons order <> 1 ->
  resolve_coupon_receipt_cent repr_of coupons order c None = Some amount ->
  exists i, cp_order_item_id c = Some i
    /\ so_unique (from_payload repr_of (PDict (as_dict (or_raw_payload order)))) !! i = Some amount
    /\ coupon_item_share_count coupons order i = 1.
Proof.
  intros Hno Hn. unfold resolve_coupon_receipt_cent. rewrite Hno.
  destruct (so_corrupt _); [done|]. replace (order_coupon_count coupons order =? 1) with false by lia.
  cbn [negb]. destruct (cp_order_item_id c) as [i|]; [|done]. destruct (str_eqb i ""); [done|].
  destruct (bool_decide _); [done|]. destruct (so_unique _ !! i) as [x|] eqn:Hu; [|done].
  cbn [item_share_count]. destruct (coupon_item_share_count coupons order i =? 1) eqn:Hs; [|done].
  intros [= <-]. exists i. split_and!; [done|done|lia].
Qed.

Lemma occurrences_NoDup {K} `{EqDecision K} (l : list K) :
  (forall k, k ∈ l -> occurrences k l <= 1) -> NoDup l.
Proof.
  induction l as [|x l IH]; intros H; [constructor|].
  assert (Hpos : forall k (m : list K), 0 <= occurrences k m).
  { intros k m. induction m as [|y m IHm]; cbn; [lia|]. case_decide; lia. }
  assert (Hin : forall k (m : list K), k ∈ m -> 1 <= occurrences k m).
  { intros k m. induction m as [|y m IHm]; intros Hk; [by apply elem_of_nil in Hk|]. cbn.
    pose proof (Hpos k m). apply elem_of_cons in Hk as [->|Hk]; [rewrite decide_True by done; lia|].
    specialize (IHm Hk). case_decide; lia. }
  constructor.
  - intros Hx. specialize (H x ltac:(left)). cbn in H. rewrite decide_True in H by done.
    specialize (Hin _ _ Hx). lia.
  - apply IH. intros k Hk. specialize (H k ltac:(by right)). cbn in H. case_decide; lia.
Qed.

Lemma paid_items_distinct repr_of coupons order :
  order_coupon_count coupons order <> 1 ->
  (forall c, c ∈ order_coupons coupons order ->
     dict_lookup RECEIPT_AMOUNT_FIELD (as_dict (cp_raw_payload c)) = None) ->
  NoDup (omap (paid_item repr_of coupons order) (order_coupons coupons order)).
Proof.
  intros Hn Hno. apply occurrences_NoDup. intros i (c & Hc & Hi)%list_elem_of_omap.
  rewrite occurrences_filter. unfold paid_item in Hi.
  destruct (resolve_coupon_receipt_cent _ _ _ _ _) as [x|] eqn:Hr; [|done].
  destruct (multi_resolution _ _ _ _ _ (Hno _ Hc) Hn Hr) as (i' & Hi' & _ & Hs).
  rewrite Hi' in Hi. injection Hi as ->. unfold coupon_item_share_count in Hs.
  enough (length (List.filter (fun a => opt_is (paid_item repr_of coupons order a) i)
            (order_coupons coupons order))
          <= length (List.filter (fun c => (cp_raw_order_id c =? or_id order)%Z
                                           && opt_is (cp_order_item_id c) i) coupons))%nat by lia.
  unfold order_coupons. rewrite filter_filter. apply filter_le. intros a _ Ha.
  apply andb_true_iff in Ha as [-> Ha]. cbn. unfold paid_item in Ha.
  destruct (resolve_coupon_receipt_cent repr_of coupons order a None); [done|]. by apply opt_is_true in Ha.
Qed.

(** C23: no receipt is counted twice: in an order with several coupons, none of
    which carries its own receipt, the amounts resolved for its coupons add up to
    at most the proven sub-order lines of the order. *)
Theorem receipts_not_double_counted repr_of coupons order :
  order_coupon_count coupons order <> 1 ->
  (forall c, c ∈ order_coupons coupons order ->
     dict_lookup RECEIPT_AMOUNT_FIELD (as_dict (cp_raw_payload c)) = None) ->
  sum_list (omap (fun c => resolve_coupon_receipt_cent repr_of coupons order c None)
              (order_coupons coupons order))
  <= lines_total repr_of order.
Proof.
  intros Hn Hno. pose proof (paid_items_distinct repr_of coupons order Hn Hno) as Hnd.
  etransitivity; [|by apply observations_bound]. apply Z.eq_le_incl.
  clear Hnd. induction (order_coupons coupons order) as [|c l IH]; [done|].
  specialize (IH ltac:(intros; apply Hno; by right)). cbn [omap list_omap].
  unfold paid_item at 1.
  destruct (resolve_coupon_receipt_cent repr_of coupons order c None) as [x|] eqn:Hr; [|exact IH].
  destruct (multi_resolution _ _ _ _ _ (Hno c ltac:(left)) Hn Hr) as (i & -> & Hu & _).
  unfold observed_sum. rewrite fmap_cons, !sum_list_cons, (unique_observed _ _ _ _ Hu).
  f_equal. exact IH.
Qed.

Lemma receipts_not_double_counted_witness :
  let coupons := [MkCoupon 7 (Some "i1") (PDict []); MkCoupon 7 (Some "i2") (PDict [])] in
  let order := MkOrder 7 (PDict [("sub_order_amount_infos",
     PList [PDict [("sub_order_id", PStr "i1"); ("receipt_amount", PInt 500)];
            PDict [("sub_order_id", PStr "i2"); ("receipt_amount", PStr "300.0")]])]) in
  sum_list (omap (fun c => resolve_coupon_receipt_cent (fun _ => "") coupons order c None)
              (order_coupons coupons order)) <= 800.
Proof.
  cbn zeta. etransitivity.
  - apply receipts_not_double_counted.
    + vm_compute. discriminate.
    + intros c Hc. vm_compute in Hc. apply elem_of_cons in Hc as [->|Hc]; [reflexivity|].
      apply elem_of_cons in Hc as [->|Hc]; [reflexivity|]. by apply elem_of_nil in Hc.
  - vm_compute. discriminate.
Defined.
