(* ===== verification/Clues.v ===== *)
(** * Clue leads: tables

    The rows of the clue subsystem (apps/api/dy_api/models.py) that the follow-up
    state machine, the headquarters pool and the allocation engine read and
    write: master leads, assignment rounds, the order-grain compatibility
    projection, follow-up records, headquarters pool entries, allocation
    decisions and order status events.  Status columns are text, as in the source.  An instant is a
    number of microseconds in UTC; a coordinate a number of millionths of a
    degree (the column is [Numeric(10, 6)]). *)
From S2P Require Import Prelude PyValue Jobs.

Record ClueMasterLead := MkLead {
  ml_lead_key : string;
  ml_master_kind : Z;
  ml_order_id : option string;
  ml_raw_order_status : option string;
  ml_normalized_order_status : string;
  ml_status_source : string;
  ml_order_status_observed_at : option instant;
  ml_lifecycle_status : string;
  ml_pool_location : option string;
  ml_allocation_state : string;
  ml_current_assignment_round_id : option string;
  ml_allocation_cycle_id : option string;
  ml_ended_without_assignment : bool;
  ml_closed_at : option instant;
  ml_closed_reason : option string;
  ml_anchor_poi_id : option string;
  ml_anchor_store_id : option string;
  ml_anchor_source : option string;
  ml_anchor_unavailable_reason : option string;
  ml_anchor_province : option string;
  ml_anchor_city : option string;
  ml_anchor_city_code : option string;
  ml_anchor_longitude : option Z;
  ml_anchor_latitude : option Z;
  ml_is_complete_pool : bool;
  ml_state_version : option Z;
  ml_updated_at : instant;
}.

#[export] Instance eta_ClueMasterLead : Eta ClueMasterLead := fun x =>
  MkLead (ml_lead_key x) (ml_master_kind x) (ml_order_id x) (ml_raw_order_status x)
    (ml_normalized_order_status x) (ml_status_source x) (ml_order_status_observed_at x)
    (ml_lifecycle_status x) (ml_pool_location x) (ml_allocation_state x)
    (ml_current_assignment_round_id x) (ml_allocation_cycle_id x)
    (ml_ended_without_assignment x) (ml_closed_at x) (ml_closed_reason x) (ml_anchor_poi_id
    x) (ml_anchor_store_id x) (ml_anchor_source x) (ml_anchor_unavailable_reason x)
    (ml_anchor_province x) (ml_anchor_city x) (ml_anchor_city_code x) (ml_anchor_longitude
    x) (ml_anchor_latitude x) (ml_is_complete_pool x) (ml_state_version x) (ml_updated_at x).

Record ClueAssignmentRound := MkRound {
  rn_assignment_round_id : string;
  rn_order_id : string;
  rn_lead_key : option string;
  rn_rule_version_id : option string;
  rn_strategy_type : option string;
  rn_allocation_decision_id : option string;
  rn_allocation_cycle_id : option string;
  rn_round_no : Z;
  rn_assigned_at : option instant;
  rn_assigned_at_source : string;
  rn_assigned_store_id : option string;
  rn_assigned_store_name : option string;
  rn_followed_at : option instant;
  rn_follow_result : string;
  rn_is_followed : bool;
  rn_is_follow_success : bool;
  rn_round_status : string;
  rn_execution_mode : string;
  rn_matured_at : option instant;
  rn_terminal_reason : option string;
  rn_expires_at : option instant;
  rn_first_sla_expires_at : option instant;
  rn_protection_started_at : option instant;
  rn_protection_expires_at : option instant;
  rn_auto_expiry_enabled : option bool;
  rn_first_follow_up_sla_hours : option Z;
  rn_protection_days : option Z;
  rn_reassign_reason : option string;
  rn_reassigned_at : option instant;
  rn_verified_store_id : option string;
  rn_verified_at : option instant;
  rn_updated_at : instant;
}.

#[export] Instance eta_ClueAssignmentRound : Eta ClueAssignmentRound := fun x =>
  MkRound (rn_assignment_round_id x) (rn_order_id x) (rn_lead_key x) (rn_rule_version_id x)
    (rn_strategy_type x) (rn_allocation_decision_id x) (rn_allocation_cycle_id x)
    (rn_round_no x) (rn_assigned_at x) (rn_assigned_at_source x) (rn_assigned_store_id x)
    (rn_assigned_store_name x) (rn_followed_at x) (rn_follow_result x) (rn_is_followed x)
    (rn_is_follow_success x) (rn_round_status x) (rn_execution_mode x) (rn_matured_at x)
    (rn_terminal_reason x) (rn_expires_at x) (rn_first_sla_expires_at x)
    (rn_protection_started_at x) (rn_protection_expires_at x) (rn_auto_expiry_enabled x)
    (rn_first_follow_up_sla_hours x) (rn_protection_days x) (rn_reassign_reason x)
    (rn_reassigned_at x) (rn_verified_store_id x) (rn_verified_at x) (rn_updated_at x).

Record ClueCenterOrder := MkCenter {
  co_order_id : string;
  co_lead_status : string;
  co_current_assignment_round_id : option string;
  co_current_round_no : Z;
  co_current_round_status : string;
  co_assigned_at : option instant;
  co_assigned_at_source : string;
  co_assigned_store_id : option string;
  co_assigned_store_name : option string;
  co_assigned_city : option string;
  co_assigned_province : option string;
  co_follow_result : string;
  co_is_followed : bool;
  co_is_follow_success : bool;
  co_verified_store_id : option string;
  co_verified_store_name : option string;
  co_verified_at : option instant;
  co_is_self_store_verified : bool;
  co_expires_at : option instant;
  co_reassign_reason : option string;
  co_updated_at : instant;
}.

#[export] Instance eta_ClueCenterOrder : Eta ClueCenterOrder := fun x =>
  MkCenter (co_order_id x) (co_lead_status x) (co_current_assignment_round_id x)
    (co_current_round_no x) (co_current_round_status x) (co_assigned_at x)
    (co_assigned_at_source x) (co_assigned_store_id x) (co_assigned_store_name x)
    (co_assigned_city x) (co_assigned_province x) (co_follow_result x) (co_is_followed x)
    (co_is_follow_success x) (co_verified_store_id x) (co_verified_store_name x)
    (co_verified_at x) (co_is_self_store_verified x) (co_expires_at x) (co_reassign_reason
    x) (co_updated_at x).

Record ClueFollowUpRecord := MkFollowUp {
  fu_follow_up_record_id : string;
  fu_order_id : string;
  fu_assignment_round_id : string;
  fu_round_no : Z;
  fu_assigned_store_id : option string;
  fu_follow_result : string;
  fu_note : option string;
  fu_operator_user_id : option string;
  fu_operator_username : option string;
  fu_created_at : instant;
  fu_deleted_at : option instant;
  fu_deleted_by_user_id : option string;
  fu_deleted_by_username : option string;
  fu_deletion_reason : option string;
}.

#[export] Instance eta_ClueFollowUpRecord : Eta ClueFollowUpRecord := fun x =>
  MkFollowUp (fu_follow_up_record_id x) (fu_order_id x) (fu_assignment_round_id x)
    (fu_round_no x) (fu_assigned_store_id x) (fu_follow_result x) (fu_note x)
    (fu_operator_user_id x) (fu_operator_username x) (fu_created_at x) (fu_deleted_at x)
    (fu_deleted_by_user_id x) (fu_deleted_by_username x) (fu_deletion_reason x).

Record ClueHeadquartersPoolEntry := MkPoolEntry {
  hp_headquarters_pool_entry_id : string;
  hp_lead_key : string;
  hp_status : string;
  hp_reason : string;
  hp_entered_at : instant;
  hp_closed_at : option instant;
  hp_close_reason : option string;
  hp_source_assignment_round_id : option string;
  hp_source_decision_id : option string;
  hp_source_rule_version_id : option string;
  hp_allocation_cycle_id : option string;
  hp_source_snapshot : pydict;
  hp_updated_at : instant;
}.

#[export] Instance eta_ClueHeadquartersPoolEntry : Eta ClueHeadquartersPoolEntry := fun x =>
  MkPoolEntry (hp_headquarters_pool_entry_id x) (hp_lead_key x) (hp_status x) (hp_reason x)
    (hp_entered_at x) (hp_closed_at x) (hp_close_reason x) (hp_source_assignment_round_id x)
    (hp_source_decision_id x) (hp_source_rule_version_id x) (hp_allocation_cycle_id x)
    (hp_source_snapshot x) (hp_updated_at x).

Record ClueAllocationDecision := MkDecision {
  de_decision_id : string;
  de_attempt_key : string;
  de_lead_key : string;
  de_order_id : option string;
  de_rule_id : pyval;
  de_rule_version_id : option string;
  de_scope_type : option string;
  de_scope_key : option string;
  de_strategy_type : string;
  de_execution_order : option Z;
  de_allocation_cycle_id : option string;
  de_execution_mode : string;
  de_assignment_round_id : option string;
  de_round_no : option Z;
  de_selected_store_id : option string;
  de_selected_store_name : option string;
  de_decision_status : string;
  de_reason : option string;
  de_decision_snapshot : pydict;
  de_actor : string;
  de_executed_at : instant;
}.

#[export] Instance eta_ClueAllocationDecision : Eta ClueAllocationDecision := fun x =>
  MkDecision (de_decision_id x) (de_attempt_key x) (de_lead_key x) (de_order_id x) (de_rule_id x)
    (de_rule_version_id x) (de_scope_type x) (de_scope_key x) (de_strategy_type x) (de_execution_order x)
    (de_allocation_cycle_id x) (de_execution_mode x) (de_assignment_round_id x) (de_round_no
    x) (de_selected_store_id x) (de_selected_store_name x) (de_decision_status x) (de_reason
    x) (de_decision_snapshot x) (de_actor x) (de_executed_at x).

Record ClueOrderStatusEvent := MkStatusEvent {
  se_event_id : string;
  se_event_key : string;
  se_lead_key : string;
  se_order_id : option string;
  se_raw_status : option string;
  se_normalized_status : string;
  se_status_source : string;
  se_observed_at : instant;
  se_created_at : instant;
}.

Record cluedb := MkClueDb {
  clue_master_leads : gmap string ClueMasterLead;
  clue_assignment_rounds : gmap string ClueAssignmentRound;
  clue_center_orders : gmap string ClueCenterOrder;
  clue_follow_up_records : list ClueFollowUpRecord;
  clue_headquarters_pool_entries : list ClueHeadquartersPoolEntry;
  clue_allocation_decisions : list ClueAllocationDecision;
  clue_order_status_events : list ClueOrderStatusEvent;
}.

#[export] Instance eta_cluedb : Eta cluedb := fun x =>
  MkClueDb (clue_master_leads x) (clue_assignment_rounds x) (clue_center_orders x)
    (clue_follow_up_records x) (clue_headquarters_pool_entries x) (clue_allocation_decisions
    x) (clue_order_status_events x).

(** Writing one row back, by primary key. *)
Definition put_lead (l : ClueMasterLead) (d : cluedb) : cluedb :=
  d <| clue_master_leads := <[ml_lead_key l := l]> (clue_master_leads d) |>.
Definition put_round (r : ClueAssignmentRound) (d : cluedb) : cluedb :=
  d <| clue_assignment_rounds := <[rn_assignment_round_id r := r]> (clue_assignment_rounds d) |>.
Definition put_center (c : ClueCenterOrder) (d : cluedb) : cluedb :=
  d <| clue_center_orders := <[co_order_id c := c]> (clue_center_orders d) |>.

Definition hours (n : Z) : Z := seconds (n * 3600).
Definition days (n : Z) : Z := hours (n * 24).

(** [_clean] and [_text] on a nullable text: stripped, [None] when blank. *)
Definition clean (value : option string) : option string :=
  match value with
  | Some s => let t := strip s in if str_eqb t "" then None else Some t
  | None => None
  end.

(** Truth of a nullable text. *)
Definition has_text (value : option string) : bool :=
  match value with Some s => negb (str_eqb s "") | None => false end.

Lemma has_text_Some s : s <> "" -> has_text (Some s) = true.
Proof. intros H. cbn. unfold str_eqb. by rewrite bool_decide_false. Qed.

(** [a or b] on a nullable text. *)
Definition text_or (value : option string) (other : string) : string :=
  if has_text value then default "" value else other.
