(* ===== verification/HqPool.v ===== *)
(** * The headquarters pool

    apps/worker/clue_headquarters_pool.py: the reasons a lead is held at
    headquarters for, and the entries that record it, at most one of them active
    per lead.  The optional cache of active entries, a view of the same rows for
    one materialization pass, is left out. *)
From S2P Require Import Prelude PyValue Jobs Clues.

Definition HEADQUARTERS_POOL_REASON_CODES : list string :=
  ["missing_follow_poi"; "anchor_store_unmapped"; "anchor_geo_invalid"; "no_published_rule";
   "all_strategies_disabled"; "no_eligible_candidate"; "all_strategies_exhausted";
   "data_inconsistency"].

Definition HEADQUARTERS_POOL_REASON_ALIASES : list (string * string) :=
  [("missing_follow_poi", "missing_follow_poi");
   ("follow_poi_missing", "missing_follow_poi");
   ("anchor_store_unmapped", "anchor_store_unmapped");
   ("follow_poi_unmapped", "anchor_store_unmapped");
   ("follow_poi_store_missing", "anchor_store_unmapped");
   ("anchor_geo_invalid", "anchor_geo_invalid");
   ("anchor_coordinates_invalid", "anchor_geo_invalid");
   ("anchor_province_missing", "anchor_geo_invalid");
   ("anchor_city_missing", "anchor_geo_invalid");
   ("anchor_city_code_missing", "anchor_geo_invalid");
   ("no_published_rule", "no_published_rule");
   ("rule_version_unavailable", "no_published_rule");
   ("all_strategies_disabled", "all_strategies_disabled");
   ("strategy_disabled", "all_strategies_disabled");
   ("no_eligible_candidate", "no_eligible_candidate");
   ("no_candidate", "no_eligible_candidate");
   ("sale_store_unmapped", "no_eligible_candidate");
   ("all_strategies_exhausted", "all_strategies_exhausted");
   ("strategies_exhausted", "all_strategies_exhausted");
   ("data_inconsistency", "data_inconsistency");
   ("headquarters_pool_retained", "data_inconsistency");
   ("order_id_missing", "data_inconsistency");
   ("headquarters", "data_inconsistency")].

Fixpoint assoc (k : string) (l : list (string * string)) : option string :=
  match l with
  | [] => None
  | (k', v) :: l' => if decide (k = k') then Some v else assoc k l'
  end.

(** [canonical_headquarters_pool_reason] *)
Definition canonical_headquarters_pool_reason (value : option string) : string :=
  default "data_inconsistency" (assoc (strip (default "" value)) HEADQUARTERS_POOL_REASON_ALIASES).

(** [headquarters_pool_reason_storage_values] *)
Definition headquarters_pool_reason_storage_values (reason_code : string) : list string :=
  let canonical := canonical_headquarters_pool_reason (Some reason_code) in
  merge_sort String.le (fst <$> List.filter (fun p => str_eqb p.2 canonical) HEADQUARTERS_POOL_REASON_ALIASES).

(** [ORDER BY entered_at DESC, headquarters_pool_entry_id DESC] *)
Definition newer_entry (a b : ClueHeadquartersPoolEntry) : bool :=
  (hp_entered_at b <? hp_entered_at a)
  || ((hp_entered_at a =? hp_entered_at b)
      && String.leb (hp_headquarters_pool_entry_id b) (hp_headquarters_pool_entry_id a)).

Definition active_of (lead_key : string) (e : ClueHeadquartersPoolEntry) : bool :=
  str_eqb (hp_lead_key e) lead_key && str_eqb (hp_status e) "active".

(** [get_active_headquarters_pool_entry] *)
Definition get_active_headquarters_pool_entry (d : cluedb) (lead_key : string)
  : option ClueHeadquartersPoolEntry :=
  fold_right (fun e best => match best with
                            | Some b => if newer_entry b e then Some b else Some e
                            | None => Some e
                            end) None
    (List.filter (active_of lead_key) (clue_headquarters_pool_entries d)).

(** Writes a pool entry back, by primary key. *)
Definition put_entry (e : ClueHeadquartersPoolEntry) (d : cluedb) : cluedb :=
  d <| clue_headquarters_pool_entries :=
        (fun x => if decide (hp_headquarters_pool_entry_id x = hp_headquarters_pool_entry_id e)
                  then e else x) <$> clue_headquarters_pool_entries d |>.

Definition closed_entry (e : ClueHeadquartersPoolEntry) (status close_reason : string)
    (closed_at : instant) : ClueHeadquartersPoolEntry :=
  e <| hp_status := status |> <| hp_closed_at := Some closed_at |>
    <| hp_close_reason := Some close_reason |> <| hp_updated_at := closed_at |>.

(** [close_current_headquarters_pool_entry] *)
Definition close_current_headquarters_pool_entry (d : cluedb) (lead_key : string)
    (closed_at : instant) (close_reason status : string) : cluedb :=
  match get_active_headquarters_pool_entry d lead_key with
  | None => d
  | Some e => put_entry (closed_entry e status close_reason closed_at) d
  end.

(** [session.add(entry)], flushed under the primary key and the unique index on
    the active entry of a lead. *)
Definition insert_entry (e : ClueHeadquartersPoolEntry) (d : cluedb) : result cluedb :=
  if existsb (fun x => str_eqb (hp_headquarters_pool_entry_id x) (hp_headquarters_pool_entry_id e)
                       || (str_eqb (hp_status e) "active" && active_of (hp_lead_key e) x))
       (clue_headquarters_pool_entries d)
  then Raise (NamedError "IntegrityError" "clue_headquarters_pool_entries")
  else Ok (d <| clue_headquarters_pool_entries := clue_headquarters_pool_entries d ++ [e] |>).

Section Pool.
(** [sha256(...).hexdigest()[:24]] and [datetime.isoformat]. *)
Variable digest24 : string -> string.
Variable isoformat : instant -> string.

Definition pool_entry_id (lead_key : string) (decision_id : option string) (canonical : string)
    (cycle : option string) (occurred_at : instant) : string :=
  ("headquarters-pool-" +:+ digest24 (join "|"
     [lead_key; default "" decision_id; canonical; default "" cycle; isoformat occurred_at]))%string.

(** [setdefault("original_reason_code", ...)] on the snapshot *)
Definition with_original_reason (original canonical : string) (snapshot : pydict) : pydict :=
  if negb (str_eqb original "") && negb (str_eqb original canonical)
     && negb (dict_mem "original_reason_code" snapshot)
  then snapshot ++ [("original_reason_code", PStr original)] else snapshot.

Definition or_else {A} (a b : option A) : option A := match a with Some _ => a | None => b end.

(** [enter_headquarters_pool] *)
Definition enter_headquarters_pool (d : cluedb) (lead : ClueMasterLead) (reason : string)
    (entered_at : instant) (source_decision : option ClueAllocationDecision)
    (source_round source_rule cycle : option string) (source_snapshot : pydict)
  : result (cluedb * ClueHeadquartersPoolEntry) :=
  let original := strip reason in
  let canonical := canonical_headquarters_pool_reason (Some original) in
  let decision_id := de_decision_id <$> source_decision in
  let entry := MkPoolEntry
    (pool_entry_id (ml_lead_key lead) decision_id canonical cycle entered_at)
    (ml_lead_key lead) "active" canonical entered_at None None
    (or_else source_round (source_decision ≫= de_assignment_round_id)) decision_id
    (or_else source_rule (source_decision ≫= de_rule_version_id))
    (or_else cycle (source_decision ≫= de_allocation_cycle_id))
    (with_original_reason original canonical
       (match source_decision with Some s => de_decision_snapshot s | None => source_snapshot end))
    entered_at in
  match get_active_headquarters_pool_entry d (ml_lead_key lead) with
  | Some e =>
      if decide (hp_source_decision_id e = decision_id) then Ok (d, e)
      else
        let d1 := close_current_headquarters_pool_entry d (ml_lead_key lead) entered_at
                    "superseded_by_new_allocation" "superseded" in
        let* d2 := insert_entry entry d1 in Ok (d2, entry)
  | None => let* d2 := insert_entry entry d in Ok (d2, entry)
  end.

(** [ensure_active_headquarters_pool_entry] *)
Definition ensure_active_headquarters_pool_entry (d : cluedb) (lead : ClueMasterLead) (reason : string)
    (entered_at : instant) (source_snapshot : pydict) : result (cluedb * ClueHeadquartersPoolEntry) :=
  match get_active_headquarters_pool_entry d (ml_lead_key lead) with
  | Some e => Ok (d, e)
  | None => enter_headquarters_pool d lead reason entered_at None None None None source_snapshot
  end.
End Pool.

(** ** Reasons *)

(** Every stored reason is one of the eight canonical codes, canonical codes
    are kept, and an entry is found again under the storage values of the reason
    it was entered for. *)
Lemma pool_reasons_canonical reason :
  let canonical := canonical_headquarters_pool_reason (Some reason) in
  canonical ∈ HEADQUARTERS_POOL_REASON_CODES
  /\ canonical_headquarters_pool_reason (Some canonical) = canonical
  /\ canonical ∈ headquarters_pool_reason_storage_values reason.
Proof.
  cbn zeta.
  assert (H : Forall (fun c => canonical_headquarters_pool_reason (Some c) = c
     /\ (c, c) ∈ HEADQUARTERS_POOL_REASON_ALIASES) HEADQUARTERS_POOL_REASON_CODES).
  { repeat constructor; vm_compute; try reflexivity; repeat (left || right). }
  assert (Hin : canonical_headquarters_pool_reason (Some reason) ∈ HEADQUARTERS_POOL_REASON_CODES).
  { unfold canonical_headquarters_pool_reason. generalize (strip (default "" (Some reason))) as s.
    intros s. cbn [assoc HEADQUARTERS_POOL_REASON_ALIASES].
    repeat (case_decide; [cbn; unfold HEADQUARTERS_POOL_REASON_CODES; repeat (left || right)|]).
    cbn. unfold HEADQUARTERS_POOL_REASON_CODES. repeat (left || right). }
  rewrite Forall_forall in H. destruct (H _ Hin) as [H1 H2]. split_and!; [done|done|].
  unfold headquarters_pool_reason_storage_values. rewrite merge_sort_Permutation.
  apply list_elem_of_fmap. exists (canonical_headquarters_pool_reason (Some reason),
    canonical_headquarters_pool_reason (Some reason)). split; [done|].
  apply list_elem_of_In, List.filter_In. split; [by apply list_elem_of_In|]. apply str_eqb_refl.
Qed.

(** The reasons the allocation engine gives for an unusable anchor that no alias
    maps: they are filed as inconsistent data, not as the anchor problem they
    name. *)
Lemma anchor_reasons_unmapped :
  canonical_headquarters_pool_reason (Some "anchor_coordinates_unavailable") = "data_inconsistency"
  /\ canonical_headquarters_pool_reason (Some "anchor_store_missing") = "data_inconsistency"
  /\ canonical_headquarters_pool_reason (Some "anchor_coordinates_invalid") = "anchor_geo_invalid".
Proof. vm_compute. auto. Qed.

(** ** One active entry per lead *)

Record pool_ok (d : cluedb) : Prop := MkPoolOk {
  po_ids : NoDup (hp_headquarters_pool_entry_id <$> clue_headquarters_pool_entries d);
  po_active : forall k a b, a ∈ clue_headquarters_pool_entries d -> b ∈ clue_headquarters_pool_entries d ->
    active_of k a = true -> active_of k b = true -> a = b;
}.

Lemma get_active_spec d k :
  match get_active_headquarters_pool_entry d k with
  | Some e => e ∈ clue_headquarters_pool_entries d /\ active_of k e = true
  | None => forall e, e ∈ clue_headquarters_pool_entries d -> active_of k e = false
  end.
Proof.
  unfold get_active_headquarters_pool_entry.
  induction (clue_headquarters_pool_entries d) as [|x l IH]; cbn; [set_solver|].
  destruct (active_of k x) eqn:Hx; cbn.
  - destruct (fold_right _ _ _) as [b|]; [|split; [left|done]].
    destruct IH as [IH1 IH2]. destruct (newer_entry b x); (split; [|done]); [by right|left].
  - destruct (fold_right _ _ _) as [b|].
    + destruct IH. split; [by right|done].
    + intros e [->|He]%elem_of_cons; auto.
Qed.

Lemma elem_of_put_entry d e e' x :
  NoDup (hp_headquarters_pool_entry_id <$> clue_headquarters_pool_entries d) ->
  e ∈ clue_headquarters_pool_entries d ->
  hp_headquarters_pool_entry_id e' = hp_headquarters_pool_entry_id e ->
  x ∈ clue_headquarters_pool_entries (put_entry e' d) <->
  x = e' \/ (x ∈ clue_headquarters_pool_entries d /\ x <> e).
Proof.
  intros Hnd He Hid. cbn. rewrite list_elem_of_fmap. split.
  - intros (y & -> & Hy). case_decide as E; [by left|]. right. split; [done|]. intros ->. congruence.
  - intros [->|[Hx Hne]].
    + exists e. rewrite decide_True by done. done.
    + exists x. rewrite decide_False; [done|]. intros E. apply Hne.
      eapply (fmap_NoDup_inj hp_headquarters_pool_entry_id); eauto. congruence.
Qed.

Lemma get_active_iff d k e : pool_ok d ->
  get_active_headquarters_pool_entry d k = Some e <->
  e ∈ clue_headquarters_pool_entries d /\ active_of k e = true.
Proof.
  intros Hok. pose proof (get_active_spec d k) as H. split.
  - intros E. by rewrite E in H.
  - intros [He Ha]. destruct (get_active_headquarters_pool_entry d k) as [x|].
    + destruct H as [Hx Hxa]. f_equal. by apply (po_active d Hok k).
    + rewrite (H e He) in Ha. discriminate.
Qed.

Lemma get_active_same d d' k : pool_ok d -> pool_ok d' ->
  (forall e, active_of k e = true ->
     e ∈ clue_headquarters_pool_entries d <-> e ∈ clue_headquarters_pool_entries d') ->
  get_active_headquarters_pool_entry d k = get_active_headquarters_pool_entry d' k.
Proof.
  intros H H' Hiff. apply option_eq. intros e. rewrite !get_active_iff by done.
  split; intros [? ?]; (split; [|done]); by apply Hiff.
Qed.

Lemma closed_not_active k e status reason at_ : status <> "active" ->
  active_of k (closed_entry e status reason at_) = false.
Proof.
  intros Hs. unfold active_of. cbn. apply andb_false_iff. right.
  unfold str_eqb. by apply bool_decide_eq_false.
Qed.

Lemma elem_of_close d k at_ reason status x : pool_ok d -> status <> "active" ->
  active_of k x = false -> forall k', active_of k' x = true ->
  x ∈ clue_headquarters_pool_entries (close_current_headquarters_pool_entry d k at_ reason status)
  <-> x ∈ clue_headquarters_pool_entries d.
Proof.
  intros Hok Hs Hx k' Hx'. unfold close_current_headquarters_pool_entry.
  destruct (get_active_headquarters_pool_entry d k) as [e|] eqn:E; [|done].
  apply get_active_iff in E as [He Ha]; [|done].
  rewrite elem_of_put_entry; [|apply Hok|exact He|done]. split.
  - intros [->|[? _]]; [|done]. by rewrite (closed_not_active k' e) in Hx'.
  - intros ?. right. split; [done|]. intros ->. congruence.
Qed.

(** Closing keeps the invariant and leaves the lead without an active entry. *)
Lemma close_pool_ok d k at_ reason status : pool_ok d -> status <> "active" ->
  let d' := close_current_headquarters_pool_entry d k at_ reason status in
  pool_ok d' /\ get_active_headquarters_pool_entry d' k = None
  /\ hp_headquarters_pool_entry_id <$> clue_headquarters_pool_entries d'
     = hp_headquarters_pool_entry_id <$> clue_headquarters_pool_entries d.
Proof.
  intros Hok Hs. unfold close_current_headquarters_pool_entry. cbn zeta.
  destruct (get_active_headquarters_pool_entry d k) as [e|] eqn:E; [|done].
  apply get_active_iff in E as [He Ha]; [|done].
  set (e' := closed_entry e status reason at_).
  assert (Hcl : forall k', active_of k' e' = false) by (intros k'; by apply closed_not_active).
  assert (Hin : forall x, x ∈ clue_headquarters_pool_entries (put_entry e' d) <->
     x = e' \/ (x ∈ clue_headquarters_pool_entries d /\ x <> e))
    by (intros x; apply elem_of_put_entry; [apply Hok|exact He|done]).
  assert (Hids : hp_headquarters_pool_entry_id <$> clue_headquarters_pool_entries (put_entry e' d)
     = hp_headquarters_pool_entry_id <$> clue_headquarters_pool_entries d).
  { cbn. rewrite <- list_fmap_compose. apply list_fmap_ext. intros i x _. cbn.
    case_decide as Ex; [by rewrite Ex|done]. }
  split_and!; [|..|exact Hids].
  - split; [rewrite Hids; apply Hok|]. intros k' a b Ha' Hb' Haa Hbb.
    apply Hin in Ha' as [->|[Ha' _]]; [by rewrite Hcl in Haa|].
    apply Hin in Hb' as [->|[Hb' _]]; [by rewrite Hcl in Hbb|].
    by apply (po_active d Hok k').
  - pose proof (get_active_spec (put_entry e' d) k) as Hg.
    destruct (get_active_headquarters_pool_entry (put_entry e' d) k) as [x|]; [|done].
    destruct Hg as [Hx Hxa]. apply Hin in Hx as [->|[Hx Hne]]; [by rewrite Hcl in Hxa|].
    destruct Hne. by apply (po_active d Hok k).
Qed.

(** Inserting an active entry under a fresh key for a lead without one. *)
Lemma insert_pool_ok d e : pool_ok d -> hp_status e = "active" ->
  hp_headquarters_pool_entry_id e ∉ (hp_headquarters_pool_entry_id <$> clue_headquarters_pool_entries d) ->
  get_active_headquarters_pool_entry d (hp_lead_key e) = None ->
  exists d', insert_entry e d = Ok d' /\ pool_ok d'
    /\ clue_headquarters_pool_entries d' = clue_headquarters_pool_entries d ++ [e].
Proof.
  intros Hok Hst Hid Hnone. unfold insert_entry. rewrite existsb_false.
  2:{ intros x Hx. pose proof (get_active_spec d (hp_lead_key e)) as Hg. rewrite Hnone in Hg.
      rewrite (Hg x Hx), andb_false_r, orb_false_r.
      unfold str_eqb. apply bool_decide_eq_false. intros Ex. apply Hid. rewrite <- Ex.
      by apply list_elem_of_fmap_2. }
  eexists. split; [reflexivity|]. split; [|done]. split; cbn.
  - rewrite fmap_app. apply NoDup_app. split_and!; [apply Hok| |apply NoDup_singleton].
    intros x Hx Hy. apply list_elem_of_singleton in Hy. subst x. by apply Hid.
  - pose proof (get_active_spec d (hp_lead_key e)) as Hg. rewrite Hnone in Hg.
    intros k a b Ha Hb Haa Hbb.
    assert (Hk : forall x, x ∈ clue_headquarters_pool_entries d -> active_of k x = true ->
              active_of k e = true -> False).
    { intros x Hx Hxa Hea. apply andb_true_iff in Hea as [Hke _]. apply str_eqb_true in Hke.
      subst k. rewrite (Hg x Hx) in Hxa. discriminate. }
    apply elem_of_app in Ha as [Ha|Ha%list_elem_of_singleton];
    apply elem_of_app in Hb as [Hb|Hb%list_elem_of_singleton]; subst; try done.
    + by apply (po_active d Hok k).
    + by destruct (Hk a Ha Haa Hbb).
    + by destruct (Hk b Hb Hbb Haa).
Qed.

(** The inserted entry becomes the active one of its lead, and of no other. *)
Lemma insert_becomes_active d e : pool_ok d -> hp_status e = "active" ->
  hp_headquarters_pool_entry_id e ∉ (hp_headquarters_pool_entry_id <$> clue_headquarters_pool_entries d) ->
  get_active_headquarters_pool_entry d (hp_lead_key e) = None ->
  exists d', insert_entry e d = Ok d' /\ pool_ok d'
    /\ get_active_headquarters_pool_entry d' (hp_lead_key e) = Some e
    /\ forall k, k <> hp_lead_key e ->
         get_active_headquarters_pool_entry d' k = get_active_headquarters_pool_entry d k.
Proof.
  intros Hok Hst Hid Hnone.
  destruct (insert_pool_ok d e Hok Hst Hid Hnone) as (d' & Hins & Hok' & Hl).
  exists d'. split_and!; [done|done| |].
  - apply get_active_iff; [done|]. rewrite Hl. split; [set_solver|].
    unfold active_of. by rewrite Hst, !str_eqb_refl.
  - intros k Hk. apply get_active_same; [done|done|]. intros x Hx. rewrite Hl, elem_of_app.
    split; [|by left]. intros [?| ->%list_elem_of_singleton]; [done|].
    apply andb_true_iff in Hx as [Hx _]. apply str_eqb_true in Hx. by destruct Hk.
Qed.

(** Superseding the active entry of a lead does not touch the other leads. *)
Lemma close_other d k k' at_ reason status : pool_ok d -> status <> "active" -> k' <> k ->
  get_active_headquarters_pool_entry (close_current_headquarters_pool_entry d k at_ reason status) k'
  = get_active_headquarters_pool_entry d k'.
Proof.
  intros Hok Hs Hk. destruct (close_pool_ok d k at_ reason status Hok Hs) as (Hok1 & _).
  apply get_active_same; [done|done|]. intros e He. apply elem_of_close with k'; try done.
  destruct (active_of k e) eqn:E; [|done].
  apply andb_true_iff in He as [He _]. apply andb_true_iff in E as [E _].
  apply str_eqb_true in He, E. congruence.
Qed.

Lemma enter_replays digest24 isoformat d e lead reason at_ decision round rule cycle snapshot :
  get_active_headquarters_pool_entry d (ml_lead_key lead) = Some e ->
  hp_source_decision_id e = de_decision_id <$> decision ->
  enter_headquarters_pool digest24 isoformat d lead reason at_ decision round rule cycle snapshot
  = Ok (d, e).
Proof. intros Hg Hd. unfold enter_headquarters_pool. rewrite Hg. by rewrite decide_True. Qed.

Lemma insert_entry_fresh d e d' : insert_entry e d = Ok d' ->
  hp_headquarters_pool_entry_id e ∉ (hp_headquarters_pool_entry_id <$> clue_headquarters_pool_entries d)
  /\ d' = d <| clue_headquarters_pool_entries := clue_headquarters_pool_entries d ++ [e] |>.
Proof.
  unfold insert_entry. destruct (existsb _ _) eqn:E; [done|]. intros [= <-]. split; [|done].
  intros (x & Ex & Hx)%list_elem_of_fmap.
  assert (existsb (fun x => str_eqb (hp_headquarters_pool_entry_id x) (hp_headquarters_pool_entry_id e)
      || (str_eqb (hp_status e) "active" && active_of (hp_lead_key e) x))
    (clue_headquarters_pool_entries d) = true); [|congruence].
  apply List.existsb_exists. exists x. split; [by apply list_elem_of_In|]. by rewrite Ex, str_eqb_refl.
Qed.

(** Only the pool changes. *)
Record only_pool (d d' : cluedb) : Prop := MkOnlyPool {
  op_leads : clue_master_leads d' = clue_master_leads d;
  op_rounds : clue_assignment_rounds d' = clue_assignment_rounds d;
  op_centers : clue_center_orders d' = clue_center_orders d;
  op_records : clue_follow_up_records d' = clue_follow_up_records d;
  op_decisions : clue_allocation_decisions d' = clue_allocation_decisions d;
}.

(** A successful entry, whatever it returned. *)
Lemma enter_pool_ok digest24 isoformat d lead reason at_ decision round rule cycle snapshot d' e :
  pool_ok d ->
  enter_headquarters_pool digest24 isoformat d lead reason at_ decision round rule cycle snapshot = Ok (d', e) ->
  pool_ok d' /\ only_pool d d' /\ get_active_headquarters_pool_entry d' (ml_lead_key lead) = Some e
  /\ hp_source_decision_id e = de_decision_id <$> decision.
Proof.
  intros Hok. unfold enter_headquarters_pool. cbv zeta.
  match goal with |- context [insert_entry ?x] => set (entry := x) end.
  destruct (get_active_headquarters_pool_entry d (ml_lead_key lead)) as [a|] eqn:Ha.
  - case_decide as Hdec; [by intros [= <- <-]|].
    destruct (close_pool_ok d (ml_lead_key lead) at_ "superseded_by_new_allocation" "superseded")
      as (Hok1 & Hnone1 & _); [done|done|].
    set (d1 := close_current_headquarters_pool_entry _ _ _ _ _) in *.
    destruct (insert_entry entry d1) as [d2|] eqn:Hi; [|done]. intros [= <- <-].
    destruct (insert_entry_fresh _ _ _ Hi) as [Hf Hd2].
    destruct (insert_becomes_active d1 entry Hok1) as (d3 & Hi' & H1 & H2 & _); [done|done|done|].
    assert (d3 = d2) as -> by congruence. split_and!; [done| |done|done].
    rewrite Hd2. subst d1. unfold close_current_headquarters_pool_entry. rewrite Ha. done.
  - destruct (insert_entry entry d) as [d2|] eqn:Hi; [|done]. intros [= <- <-].
    destruct (insert_entry_fresh _ _ _ Hi) as [Hf Hd2].
    destruct (insert_becomes_active d entry Hok) as (d3 & Hi' & H1 & H2 & _); [done|done|done|].
    assert (d3 = d2) as -> by congruence. split_and!; [done| |done|done]. by rewrite Hd2.
Qed.

(** Entering the pool always leaves exactly one active entry for the lead.
    Given entries of which at most one is active per lead, and a fresh entry key,
    entering succeeds, keeps that invariant, makes the returned entry the active
    one of the lead, and does not touch the active entry of another lead; the entry
    carries the decision it was entered for, and entering again for the same
    decision, whatever the reason or the time, returns it and changes nothing. *)
Lemma enter_pool_spec digest24 isoformat d lead reason entered_at decision round rule cycle snapshot
    (Hok : pool_ok d)
    (Hfresh : pool_entry_id digest24 isoformat (ml_lead_key lead) (de_decision_id <$> decision)
                (canonical_headquarters_pool_reason (Some (strip reason))) cycle entered_at
              ∉ (hp_headquarters_pool_entry_id <$> clue_headquarters_pool_entries d)) :
  exists d' e,
    enter_headquarters_pool digest24 isoformat d lead reason entered_at decision round rule cycle snapshot
      = Ok (d', e)
    /\ pool_ok d'
    /\ get_active_headquarters_pool_entry d' (ml_lead_key lead) = Some e
    /\ hp_source_decision_id e = de_decision_id <$> decision
    /\ (forall k, k <> ml_lead_key lead ->
         get_active_headquarters_pool_entry d' k = get_active_headquarters_pool_entry d k)
    /\ forall reason' at' round' rule' cycle' snapshot',
         enter_headquarters_pool digest24 isoformat d' lead reason' at' decision round' rule' cycle' snapshot'
         = Ok (d', e).
Proof.
  unfold enter_headquarters_pool at 1. cbn zeta.
  match goal with |- context [insert_entry ?x] => set (entry := x) end.
  destruct (get_active_headquarters_pool_entry d (ml_lead_key lead)) as [a|] eqn:Ha.
  - case_decide as Hdec.
    { exists d, a. split_and!; try done. intros. by apply enter_replays. }
    destruct (close_pool_ok d (ml_lead_key lead) entered_at "superseded_by_new_allocation" "superseded")
      as (Hok1 & Hnone1 & Hids1); [done|done|].
    destruct (insert_becomes_active _ entry Hok1) as (d2 & -> & Hok2 & Hg2 & Hother);
      [done|by rewrite Hids1|done|].
    exists d2, entry. split_and!; try done; [|intros; by apply enter_replays].
    intros k Hk. rewrite Hother by done. by apply close_other.
  - destruct (insert_becomes_active d entry Hok) as (d2 & -> & Hok2 & Hg2 & Hother); try done.
    exists d2, entry. split_and!; try done. intros. by apply enter_replays.
Qed.

Definition sample_lead : ClueMasterLead :=
  MkLead "lead-1" 10 (Some "order-1") None "active" "order" None "active" (Some "headquarters_pool")
    "headquarters" None None false None None None None None None None None None None None
    true (Some 1) 0.

Definition sample_decision (id : string) : ClueAllocationDecision :=
 MkDecision id id "lead-1" (Some "order-1") PNone None None None "none" None None "formal" None None None None
    "headquarters" (Some "no_candidate") [] "worker" 5.

Definition sample_entry : ClueHeadquartersPoolEntry :=
  MkPoolEntry "headquarters-pool-a" "lead-1" "active" "no_eligible_candidate" 5 None None None
    (Some "decision-1") None None [] 5.

Definition sample_pool : cluedb := MkClueDb ∅ ∅ ∅ [] [sample_entry] [] [].

Lemma sample_pool_ok : pool_ok sample_pool.
Proof.
  split; [apply (bool_decide_unpack _); vm_compute; exact I|].
  intros k a b ->%list_elem_of_singleton ->%list_elem_of_singleton. done.
Qed.

Lemma enter_pool_spec_witness :
  exists d' e, enter_headquarters_pool id (fun _ => "at") sample_pool sample_lead " strategies_exhausted" 9
      (Some (sample_decision "decision-2")) None None None [] = Ok (d', e)
    /\ get_active_headquarters_pool_entry d' "lead-1" = Some e
    /\ hp_reason e = "all_strategies_exhausted"
    /\ length (clue_headquarters_pool_entries d') = 2%nat.
Proof.
  destruct (enter_pool_spec id (fun _ => "at") sample_pool sample_lead " strategies_exhausted" 9
    (Some (sample_decision "decision-2")) None None None [] sample_pool_ok)
    as (d' & e & H & _ & Hg & _).
  { apply (bool_decide_unpack _); vm_compute; exact I. }
  exists d', e. split; [exact H|]. split; [exact Hg|].
  vm_compute in H. injection H as <- <-. vm_compute. auto.
Defined.
