(* ===== verification/ClueStatus.v ===== *)
(** * Terminal order evidence of a lead

    The part of apps/worker/clue_allocation.py that closes a lead when its order
    turns out to be verified, refunded or closed: the acceptance of status
    evidence, its effect on the master lead, the status event it leaves, and the
    closing of the current assignment round and its projection.  The evidence
    itself ([load_terminal_evidence], a reader of the raw order, coupon, refund
    and verification tables) is an argument of
    [refresh_terminal_evidence_for_locked_lead]. *)
From S2P Require Import Prelude PyValue Jobs Clues HqPool.

Definition BUSINESS_EXECUTION_MODE : string := "formal".
Definition ACTIVE_ROUND_STATUSES : list string := ["active_unfollowed"; "active_followed"].
Definition TERMINAL_ORDER_STATUSES : list string := ["verified"; "refunded"; "closed"].

Record TerminalEvidence := MkTerminalEvidence {
  te_kind : option string;
  te_terminal_at : option instant;
  te_observed_at : option instant;
  te_source : option string;
  te_evidence_ids : list string;
}.

(** The kind of terminal evidence, when [is_terminal] holds. *)
Definition terminal_kind (t : option TerminalEvidence) : option (TerminalEvidence * string) :=
  match t with
  | Some e => match te_kind e with
              | Some k => if str_in k TERMINAL_ORDER_STATUSES then Some (e, k) else None
              | None => None
              end
  | None => None
  end.

Record StatusResolution := MkStatusResolution {
  sr_raw_status : option string;
  sr_normalized_status : string;
  sr_status_source : string;
  sr_closed_at : option instant;
}.

Definition lifecycle_status (normalized_status : string) : string :=
  default "status_review" (assoc normalized_status
    [("verified", "closed_verified"); ("refunded", "closed_refunded"); ("closed", "closed_order");
     ("active", "active")]).

Definition closed_reason (normalized_status : string) : option string :=
  assoc normalized_status
    [("verified", "order_verified"); ("refunded", "order_refunded"); ("closed", "order_closed");
     ("unknown", "order_status_unknown")].

Definition terminal_round_status (lifecycle : string) : string :=
  default "closed_order_status_unknown" (assoc lifecycle
    [("closed_verified", "closed_order_verified"); ("closed_refunded", "closed_order_refunded");
     ("closed_order", "closed_order_closed")]).

Definition terminal_reason (lifecycle : string) : string :=
  default "order_status_unknown" (assoc lifecycle
    [("closed_verified", "order_verified"); ("closed_refunded", "order_refunded");
     ("closed_order", "order_closed")]).

Definition terminal_center_lead_status (lifecycle : string) : string :=
  default "status_review" (assoc lifecycle
    [("closed_verified", "converted"); ("closed_refunded", "refunded"); ("closed_order", "closed")]).

(** [_accepts_status_evidence] *)
Definition accepts_status_evidence (lead : ClueMasterLead) (incoming : string) (observed_at : instant) : bool :=
  negb (match ml_order_status_observed_at lead with Some t => observed_at <? t | None => false end)
  && negb (str_in (ml_normalized_order_status lead) TERMINAL_ORDER_STATUSES
           && negb (str_in incoming TERMINAL_ORDER_STATUSES)).

(** [_master_state_signature] *)
Definition master_state_signature (l : ClueMasterLead) :=
  (ml_master_kind l, ml_normalized_order_status l, ml_status_source l, ml_lifecycle_status l,
   ml_pool_location l, ml_allocation_state l, ml_current_assignment_round_id l,
   ml_allocation_cycle_id l, ml_ended_without_assignment l, ml_closed_reason l, ml_closed_at l,
   ml_is_complete_pool l, ml_anchor_poi_id l, ml_anchor_store_id l, ml_anchor_unavailable_reason l).

(** [_active_self_owned_current_round], with the locked rounds at hand *)
Definition active_self_owned_current_round (lead : ClueMasterLead)
    (rounds : gmap string ClueAssignmentRound) : option ClueAssignmentRound :=
  match ml_current_assignment_round_id lead with
  | Some id =>
      if str_eqb id "" then None
      else match rounds !! id with
           | Some r => if str_eqb (rn_execution_mode r) BUSINESS_EXECUTION_MODE
                          && str_in (rn_round_status r) ACTIVE_ROUND_STATUSES
                       then Some r else None
           | None => None
           end
  | None => None
  end.

Section Evidence.
(** [sha256(...).hexdigest()] and [datetime.isoformat]. *)
Variable hexdigest : string -> string.
Variable isoformat : instant -> string.

(** [_record_status_event], without a set of known ids *)
Definition record_status_event (d : cluedb) (lead_key : string) (order_id : option string)
    (r : StatusResolution) (observed_at created_at : instant) : cluedb :=
  let digest := hexdigest (join "|" [lead_key; sr_status_source r; default "" (sr_raw_status r);
                                     sr_normalized_status r; isoformat observed_at]) in
  let event_id := ("status-" +:+ text (take 24 (chars digest)))%string in
  if existsb (fun e => str_eqb (se_event_id e) event_id) (clue_order_status_events d) then d
  else d <| clue_order_status_events := clue_order_status_events d ++
         [MkStatusEvent event_id digest lead_key order_id (sr_raw_status r) (sr_normalized_status r)
            (sr_status_source r) observed_at created_at] |>.

(** The lead after accepted evidence, before its version is bumped. *)
Definition with_status_evidence (lead : ClueMasterLead) (r : StatusResolution) (observed_at : instant)
    (rounds : gmap string ClueAssignmentRound) : ClueMasterLead :=
  let status_changed := negb (bool_decide
    ((ml_raw_order_status lead, ml_normalized_order_status lead, ml_status_source lead)
     = (sr_raw_status r, sr_normalized_status r, sr_status_source r))) in
  let lifecycle := lifecycle_status (sr_normalized_status r) in
  let lead := lead <| ml_raw_order_status := sr_raw_status r |>
                   <| ml_normalized_order_status := sr_normalized_status r |>
                   <| ml_status_source := sr_status_source r |>
                   <| ml_order_status_observed_at := Some observed_at |>
                   <| ml_lifecycle_status := lifecycle |> in
  if str_in lifecycle ["closed_verified"; "closed_refunded"; "closed_order"] then
    lead <| ml_pool_location := Some "closed" |> <| ml_allocation_state := "closed" |>
         <| ml_closed_at := sr_closed_at r |>
         <| ml_closed_reason := closed_reason (sr_normalized_status r) |>
         <| ml_ended_without_assignment :=
              bool_decide (ml_current_assignment_round_id lead = None)
              && bool_decide (ml_allocation_cycle_id lead = None) |>
  else if str_eqb lifecycle "status_review" then
    lead <| ml_pool_location := Some "status_review" |> <| ml_allocation_state := "status_review" |>
  else if status_changed then
    match active_self_owned_current_round lead rounds with
    | Some _ => lead <| ml_pool_location := Some "store_follow_up_pool" |>
                     <| ml_allocation_state := "assigned" |>
    | None =>
        if opt_is (ml_pool_location lead) "headquarters_pool" || has_text (ml_anchor_unavailable_reason lead)
        then lead <| ml_pool_location := Some "headquarters_pool" |>
                  <| ml_allocation_state := "headquarters" |>
        else lead <| ml_pool_location := None |> <| ml_allocation_state := "pending_allocation" |>
    end
  else lead.

(** [_apply_independent_status_evidence] *)
Definition apply_independent_status_evidence (d : cluedb) (lead : ClueMasterLead) (r : StatusResolution)
    (observed_at now : instant) (rounds : gmap string ClueAssignmentRound)
  : cluedb * ClueMasterLead * bool :=
  if negb (accepts_status_evidence lead (sr_normalized_status r) observed_at) then (d, lead, false)
  else
    let status_changed := negb (bool_decide
      ((ml_raw_order_status lead, ml_normalized_order_status lead, ml_status_source lead)
       = (sr_raw_status r, sr_normalized_status r, sr_status_source r))) in
    let lead1 := with_status_evidence lead r observed_at rounds in
    let changed := negb (bool_decide (master_state_signature lead = master_state_signature lead1)) in
    let lead2 := if changed
                 then lead1 <| ml_state_version := Some (Z.max (or_int (ml_state_version lead1) 1) 1 + 1) |>
                            <| ml_updated_at := now |>
                 else lead1 in
    let d1 := put_lead lead2 d in
    let d2 := if status_changed
              then record_status_event d1 (ml_lead_key lead2) (ml_order_id lead2) r observed_at now
              else d1 in
    (d2, lead2, changed || str_in (lifecycle_status (sr_normalized_status r))
                             ["closed_verified"; "closed_refunded"; "closed_order"]).

(** [_close_current_assignment], with the locked round and projection at hand *)
Definition close_current_assignment (d : cluedb) (order_id lifecycle : string) (closed_at : instant)
    (current : option string) (rounds : gmap string ClueAssignmentRound)
    (centers : gmap string ClueCenterOrder) : cluedb :=
  let center := centers !! order_id in
  let round_id := if has_text current then current else center ≫= co_current_assignment_round_id in
  let round := if has_text round_id then round_id ≫= (fun id => rounds !! id) else None in
  let d1 := match round with
            | Some r =>
                if str_eqb (rn_execution_mode r) BUSINESS_EXECUTION_MODE
                then put_round (r <| rn_round_status := terminal_round_status lifecycle |>
                                  <| rn_terminal_reason := Some (terminal_reason lifecycle) |>
                                  <| rn_matured_at := Some closed_at |>
                                  <| rn_updated_at := closed_at |>) d
                else d
            | None => d
            end in
  match center with
  | Some c =>
      if bool_decide (current = None) || bool_decide (co_current_assignment_round_id c = current)
      then put_center (c <| co_lead_status := terminal_center_lead_status lifecycle |>
                         <| co_current_round_status := terminal_round_status lifecycle |>
                         <| co_reassign_reason := Some (terminal_reason lifecycle) |>
                         <| co_updated_at := closed_at |>) d1
      else d1
  | None => d1
  end.

(** [lock_clue_assignment_round_for_update], [lock_clue_center_order_for_update] *)
Definition lock_clue_assignment_round_for_update (d : cluedb) (id : string) : option ClueAssignmentRound :=
  if str_eqb (strip id) "" then None else clue_assignment_rounds d !! id.
Definition lock_clue_center_order_for_update (d : cluedb) (order_id : string) : option ClueCenterOrder :=
  if str_eqb (strip order_id) "" then None else clue_center_orders d !! order_id.

(** What [load_terminal_evidence] finds for one requested order at an observation
    cutoff; it answers for every order id that is not blank. *)
Variable terminal_evidence : cluedb -> instant -> string -> TerminalEvidence.

Definition terminal_evidence_of (d : cluedb) (now : instant) (order_id : string)
  : option TerminalEvidence :=
  if str_eqb (strip order_id) "" then None else Some (terminal_evidence d now order_id).

(** [max(filter(None, (a, b)), default=now)] *)
Definition latest_of (a b : option instant) (now : instant) : instant :=
  match a, b with
  | Some x, Some y => Z.max x y
  | Some x, None => x
  | None, Some y => y
  | None, None => now
  end.

(** The round of the lead that closes with it: its current round, or the one the
    order projection points at, when it belongs to the lead and its order. *)
Definition owned_rounds (d : cluedb) (lead : ClueMasterLead) (order_id : string)
  : gmap string ClueAssignmentRound :=
  let round_id := if has_text (ml_current_assignment_round_id lead)
                  then ml_current_assignment_round_id lead
                  else (clue_center_orders d !! order_id) ≫= co_current_assignment_round_id in
  let round := if has_text round_id then round_id ≫= lock_clue_assignment_round_for_update d else None in
  match round with
  | Some r => if opt_is (rn_lead_key r) (ml_lead_key lead) && str_eqb (rn_order_id r) order_id
              then {[ rn_assignment_round_id r := r ]} else ∅
  | None => ∅
  end.

(** [refresh_terminal_evidence_for_locked_lead] *)
Definition refresh_terminal_evidence_for_locked_lead (d : cluedb) (lead : ClueMasterLead) (now : instant)
    (terminal : option TerminalEvidence) : cluedb * ClueMasterLead * bool :=
  match ml_order_id lead with
  | Some order_id =>
      if str_eqb order_id "" then (d, lead, false)
      else
        let terminal := match terminal with
                        | Some t => Some t
                        | None => terminal_evidence_of d now order_id
                        end in
        match terminal_kind terminal with
        | None => (d, lead, false)
        | Some (t, kind) =>
            let rounds := owned_rounds d lead order_id in
            let center := lock_clue_center_order_for_update d order_id in
            let resolution := MkStatusResolution (ml_raw_order_status lead) kind (text_or (te_source t) "order")
              (Some (default (default now (ml_closed_at lead)) (te_terminal_at t))) in
            let observed_at := latest_of (te_observed_at t) (ml_order_status_observed_at lead) now in
            let '(d1, lead1, applied) :=
              apply_independent_status_evidence d lead resolution observed_at now rounds in
            let closed_at := default now (ml_closed_at lead1) in
            let d2 :=
              if applied then
                close_current_assignment
                  (close_current_headquarters_pool_entry d1 (ml_lead_key lead1) closed_at
                     (text_or (ml_closed_reason lead1) "order_closed") "closed")
                  order_id (ml_lifecycle_status lead1) closed_at (ml_current_assignment_round_id lead1)
                  rounds (match center with Some c => {[ order_id := c ]} | None => ∅ end)
              else d1 in
            (d2, lead1, true)
        end
  | None => (d, lead, false)
  end.
End Evidence.
