(* ===== verification/FollowUp.v ===== *)
(** * Follow-up of assigned leads

    apps/worker/clue_follow_up_state.py: one follow-up action of a store on its
    current round, the due transitions (first-contact SLA, protection period,
    terminal orders), the audited deletion of a follow-up record, and the check
    that guards revealing a phone; with the store scope of
    src/dy_data/clue_access.py. *)
From S2P Require Import Prelude PyValue Jobs Clues HqPool ClueStatus.

Definition FOLLOW_UP_ACTIONS : list string :=
  ["appointment"; "further_follow_up"; "lost"; "unreachable"; "request_store_change"].
Definition PROTECTION_ACTIONS : list string := ["appointment"; "further_follow_up"; "unreachable"].

Record FollowUpStateResult := MkFollowUpResult {
  fr_status : string;
  fr_record : option ClueFollowUpRecord;
  fr_assignment_round_id : option string;
}.

Definition refused (status : string) : FollowUpStateResult := MkFollowUpResult status None None.

(** ** Reading a round and its lead *)

(** [_locked_round_state] *)
Definition locked_round_state (d : cluedb) (assignment_round_id : string)
  : option ClueAssignmentRound * option ClueMasterLead :=
  match clue_assignment_rounds d !! assignment_round_id with
  | None => (None, None)
  | Some r => (Some r, if has_text (rn_lead_key r)
                       then rn_lead_key r ≫= (fun k => clue_master_leads d !! k) else None)
  end.

(** [_is_current_self_owned_round], [_is_current_active_round] *)
Definition is_current_self_owned_round (lead : ClueMasterLead) (r : ClueAssignmentRound) : bool :=
  str_eqb (rn_execution_mode r) BUSINESS_EXECUTION_MODE
  && opt_is (ml_current_assignment_round_id lead) (rn_assignment_round_id r).

Definition is_current_active_round (lead : ClueMasterLead) (r : ClueAssignmentRound) : bool :=
  is_current_self_owned_round lead r
  && str_eqb (ml_lifecycle_status lead) "active"
  && str_eqb (ml_normalized_order_status lead) "active"
  && opt_is (ml_pool_location lead) "store_follow_up_pool"
  && str_in (rn_round_status r) ACTIVE_ROUND_STATUSES.

(** ** Round summaries and their projection *)

(** [_locked_center], when it points at the round *)
Definition pointing_center (d : cluedb) (r : ClueAssignmentRound) : option ClueCenterOrder :=
  match clue_center_orders d !! rn_order_id r with
  | Some c => if opt_is (co_current_assignment_round_id c) (rn_assignment_round_id r) then Some c else None
  | None => None
  end.

(** The projection of a round's summary into the order row. *)
Definition summary_row (c : ClueCenterOrder) (r : ClueAssignmentRound) (now : instant) : ClueCenterOrder :=
  c <| co_follow_result := rn_follow_result r |> <| co_is_followed := rn_is_followed r |>
    <| co_is_follow_success := rn_is_follow_success r |> <| co_current_round_status := rn_round_status r |>
    <| co_updated_at := now |>.

(** [_project_current_round_summary] *)
Definition project_current_round_summary (d : cluedb) (r : ClueAssignmentRound) (now : instant) : cluedb :=
  match pointing_center d r with
  | Some c => put_center ((summary_row c r now) <| co_lead_status := "active" |>
                            <| co_reassign_reason := None |>) d
  | None => d
  end.

(** [_project_closed_round] *)
Definition project_closed_round (d : cluedb) (r : ClueAssignmentRound) (reason : string) (now : instant)
  : cluedb :=
  match pointing_center d r with
  | Some c => put_center ((summary_row c r now) <| co_is_follow_success := false |>
                            <| co_lead_status := "pending_reassign" |>
                            <| co_reassign_reason := Some reason |>) d
  | None => d
  end.

(** [_apply_visible_summary] *)
Definition apply_visible_summary (r : ClueAssignmentRound) (action : string) (now : instant)
  : ClueAssignmentRound :=
  let r1 := r <| rn_followed_at := Some now |> <| rn_follow_result := action |>
              <| rn_is_followed := true |> <| rn_is_follow_success := str_in action PROTECTION_ACTIONS |>
              <| rn_round_status := "active_followed" |> <| rn_updated_at := now |> in
  if str_in action PROTECTION_ACTIONS && bool_decide (rn_protection_started_at r1 = None)
  then r1 <| rn_protection_started_at := Some now |>
          <| rn_protection_expires_at := Some (now + days (or_int (rn_protection_days r1) 7)) |>
  else r1.

Definition reason_by_cause (cause : string) : string :=
  default "" (assoc cause
    [("lost", "follow_lost"); ("request_store_change", "request_store_change");
     ("sla_expired", "first_sla_expired"); ("protection_expired", "protection_expired")]).

(** [_close_for_reassignment]: the closed round, and the whole step *)
Definition reassigned_round (r : ClueAssignmentRound) (cause : string) (now : instant) : ClueAssignmentRound :=
  let followed := if str_in cause FOLLOW_UP_ACTIONS then Some now else rn_followed_at r in
  r <| rn_followed_at := followed |>
    <| rn_follow_result := if str_in cause FOLLOW_UP_ACTIONS then cause else rn_follow_result r |>
    <| rn_is_followed := bool_decide (is_Some followed) |>
    <| rn_is_follow_success := false |>
    <| rn_round_status := "closed_reassigned" |>
    <| rn_terminal_reason := Some (reason_by_cause cause) |>
    <| rn_reassign_reason := Some (reason_by_cause cause) |>
    <| rn_reassigned_at := Some now |>
    <| rn_matured_at := Some now |>
    <| rn_updated_at := now |>.

Definition close_for_reassignment (d : cluedb) (lead : ClueMasterLead) (r : ClueAssignmentRound)
    (cause : string) (now : instant) : cluedb :=
  let r1 := reassigned_round r cause now in
  let lead1 := lead <| ml_current_assignment_round_id := None |> <| ml_pool_location := None |>
                    <| ml_allocation_state := "pending_reassign" |> <| ml_updated_at := now |> in
  project_closed_round (put_lead lead1 (put_round r1 d)) r1 (reason_by_cause cause) now.

(** [_close_for_terminal_order] *)
Definition close_for_terminal_order (d : cluedb) (lead : ClueMasterLead) (r : ClueAssignmentRound)
    (now : instant) : cluedb :=
  let verified := str_eqb (ml_normalized_order_status lead) "verified" in
  let refunded := str_eqb (ml_normalized_order_status lead) "refunded" in
  let pick a b c : string := if verified then a else if refunded then b else c in
  let reason := pick "order_verified" "order_refunded" "order_closed" in
  let closed_at := default now (ml_closed_at lead) in
  let r1 := r <| rn_round_status :=
                   pick "closed_order_verified" "closed_order_refunded" "closed_order_closed" |>
              <| rn_terminal_reason := Some reason |>
              <| rn_matured_at := Some closed_at |> <| rn_updated_at := now |> in
  let lead1 := lead <| ml_lifecycle_status := pick "closed_verified" "closed_refunded" "closed_order" |>
                    <| ml_pool_location := Some "closed" |> <| ml_allocation_state := "closed" |>
                    <| ml_current_assignment_round_id := None |> <| ml_closed_at := Some closed_at |>
                    <| ml_closed_reason := Some reason |> <| ml_updated_at := now |> in
  let d1 := put_lead lead1 (put_round r1 d) in
  match pointing_center d1 r1 with
  | Some c => put_center (c <| co_lead_status := pick "converted" "refunded" "closed" |>
                            <| co_current_round_status := rn_round_status r1 |>
                            <| co_reassign_reason := Some reason |> <| co_updated_at := now |>) d1
  | None => d1
  end.

(** ** Recalculation from the visible records *)

(** [ORDER BY created_at, follow_up_record_id] *)
Definition earlier_record (a b : ClueFollowUpRecord) : Prop :=
  fu_created_at a < fu_created_at b
  \/ (fu_created_at a = fu_created_at b
      /\ String.le (fu_follow_up_record_id a) (fu_follow_up_record_id b)).

#[export] Instance earlier_record_dec : RelDecision earlier_record.
Proof. unfold earlier_record. intros a b. solve_decision. Defined.

Definition visible_records (d : cluedb) (round_id : string) : list ClueFollowUpRecord :=
  merge_sort earlier_record
    (List.filter (fun f => str_eqb (fu_assignment_round_id f) round_id
                           && bool_decide (fu_deleted_at f = None)) (clue_follow_up_records d)).

Definition protects (f : ClueFollowUpRecord) : bool := str_in (fu_follow_result f) PROTECTION_ACTIONS.

(** The summary [_recalculate_active_round_summary] computes from sorted records. *)
Definition active_summary (records : list ClueFollowUpRecord) (r : ClueAssignmentRound)
  : ClueAssignmentRound :=
  match last records with
  | None =>
      r <| rn_followed_at := None |> <| rn_follow_result := "pending" |> <| rn_is_followed := false |>
        <| rn_is_follow_success := false |> <| rn_round_status := "active_unfollowed" |>
        <| rn_protection_started_at := None |> <| rn_protection_expires_at := None |>
  | Some latest =>
      let r1 := r <| rn_followed_at := Some (fu_created_at latest) |>
                  <| rn_follow_result := fu_follow_result latest |> <| rn_is_followed := true |>
                  <| rn_is_follow_success := protects latest |>
                  <| rn_round_status := "active_followed" |> in
      match List.find protects records with
      | None => r1 <| rn_protection_started_at := None |> <| rn_protection_expires_at := None |>
      | Some first => r1 <| rn_protection_started_at := Some (fu_created_at first) |>
                         <| rn_protection_expires_at :=
                              Some (fu_created_at first + days (or_int (rn_protection_days r) 7)) |>
      end
  end.

(** [_recalculate_active_round_summary] *)
Definition recalculate_active_round_summary (d : cluedb) (r : ClueAssignmentRound) (now : instant) : cluedb :=
  let r1 := (active_summary (visible_records d (rn_assignment_round_id r)) r) <| rn_updated_at := now |> in
  project_current_round_summary (put_round r1 d) r1 now.

(** [_recalculate_detached_round_summary] *)
Definition recalculate_detached_round_summary (d : cluedb) (r : ClueAssignmentRound) (now : instant) : cluedb :=
  if negb (str_in (rn_round_status r) ACTIVE_ROUND_STATUSES) then d
  else
    let '(r1, reassign_reason) :=
      match last (visible_records d (rn_assignment_round_id r)) with
      | None =>
          (r <| rn_followed_at := None |> <| rn_follow_result := "pending" |> <| rn_is_followed := false |>
             <| rn_is_follow_success := false |> <| rn_round_status := "active_unfollowed" |>, None)
      | Some latest =>
          let lost := str_eqb (fu_follow_result latest) "lost" in
          let change := str_eqb (fu_follow_result latest) "request_store_change" in
          (r <| rn_followed_at := Some (fu_created_at latest) |>
             <| rn_follow_result := fu_follow_result latest |> <| rn_is_followed := true |>
             <| rn_is_follow_success := str_in (fu_follow_result latest) (PROTECTION_ACTIONS ++ ["success"]) |>
             <| rn_round_status := if lost || change then "failed_pending_reassign" else "active_followed" |>,
           if lost then Some "follow_lost" else if change then Some "request_store_change" else None)
      end in
    let r2 := r1 <| rn_reassign_reason := reassign_reason |> <| rn_updated_at := now |> in
    let d1 := put_round r2 d in
    match pointing_center d1 r2 with
    | Some c => put_center ((summary_row c r2 now)
        <| co_lead_status := if str_eqb (rn_round_status r2) "failed_pending_reassign"
                             then "pending_reassign" else "active" |>
        <| co_reassign_reason := reassign_reason |>) d1
    | None => d1
    end.

(** [session.add(record)] under the primary key. *)
Definition insert_record (f : ClueFollowUpRecord) (d : cluedb) : result cluedb :=
  if existsb (fun x => str_eqb (fu_follow_up_record_id x) (fu_follow_up_record_id f))
       (clue_follow_up_records d)
  then Raise (NamedError "IntegrityError" "clue_follow_up_records")
  else Ok (d <| clue_follow_up_records := clue_follow_up_records d ++ [f] |>).

(** Writes a follow-up record back, by primary key. *)
Definition put_record (f : ClueFollowUpRecord) (d : cluedb) : cluedb :=
  d <| clue_follow_up_records :=
        (fun x => if decide (fu_follow_up_record_id x = fu_follow_up_record_id f) then f else x)
        <$> clue_follow_up_records d |>.

Section FollowUp.
Variable repr_of : pyval -> string.
Variable hexdigest : string -> string.
Variable isoformat : instant -> string.
Variable terminal_evidence : cluedb -> instant -> string -> TerminalEvidence.

(** [str(value or "").strip()], and [_text] *)
Definition stripped (value : pyval) : string := strip (py_str repr_of (py_or value (PStr ""))).
Definition text_value (value : pyval) : option string :=
  let s := stripped value in if str_eqb s "" then None else Some s.

(** [can_access_clue_store] *)
Definition can_access_clue_store (actor : pydict) (store_id : option string) : bool :=
  let role := stripped (dict_get "role" actor) in
  let target := strip (default "" store_id) in
  if negb (str_in role ["admin"; "highest_admin"; "store"]) || str_eqb target "" then false
  else
    let scope_mode :=
      if is_str (dict_get "auth_type" actor) "env_admin" && truthy (dict_get "is_highest_admin" actor)
      then PStr "all" else dict_get "store_scope_mode" actor in
    if is_str scope_mode "all" then str_in role ["admin"; "highest_admin"]
    else if negb (is_str scope_mode "specified") then false
    else
      let store_ids := dict_get "store_ids" actor in
      if negb (truthy store_ids) then false
      else match store_ids with
           | PList l => str_in target ((fun v => strip (py_str repr_of v))
                                       <$> List.filter (fun v => negb (is_none v)) l)
           | _ => false
           end.

(** [apply_follow_up_action] *)
Definition apply_follow_up_action (d : cluedb) (order_id assignment_round_id : string)
    (follow_result : option string) (actor : pydict) (note : option string) (now : instant)
    (uuid : string) : result (cluedb * FollowUpStateResult) :=
  let action := strip (default "" follow_result) in
  if negb (str_in action FOLLOW_UP_ACTIONS) then Ok (d, refused "conflict")
  else match locked_round_state d assignment_round_id with
  | (None, _) => Ok (d, refused "not_found")
  | (Some r, lead) =>
      if negb (str_eqb (rn_order_id r) order_id) then Ok (d, refused "not_found")
      else match lead with
      | None => Ok (d, refused "conflict")
      | Some lead =>
          if negb (can_access_clue_store actor (rn_assigned_store_id r)) then Ok (d, refused "forbidden")
          else
            let '(d1, lead1, closed) := refresh_terminal_evidence_for_locked_lead hexdigest isoformat
                                          terminal_evidence d lead now None in
            if closed then Ok (d1, refused "conflict")
            else if str_in (ml_normalized_order_status lead) TERMINAL_ORDER_STATUSES then
              if negb (is_current_self_owned_round lead r) then Ok (d, refused "conflict")
              else Ok (close_for_terminal_order d lead r now, refused "conflict")
            else if negb (is_current_active_round lead r) then Ok (d, refused "conflict")
            else
              let record := MkFollowUp uuid order_id (rn_assignment_round_id r) (rn_round_no r)
                (rn_assigned_store_id r) action (clean note) (text_value (dict_get "user_id" actor))
                (text_value (dict_get "username" actor)) now None None None None in
              let* d1 := insert_record record d in
              if str_in action ["lost"; "request_store_change"]
              then Ok (close_for_reassignment d1 lead r action now, MkFollowUpResult "ok" (Some record) None)
              else
                let r1 := apply_visible_summary r action now in
                Ok (project_current_round_summary (put_round r1 d1) r1 now,
                    MkFollowUpResult "ok" (Some record) (Some (rn_assignment_round_id r)))
      end
  end.

(** ** Due transitions *)

Record due_stats := MkDueStats { sla_expired : Z; protection_expired : Z; terminal_closed : Z }.

(** One round of [process_due_transitions]; [terminal] is the evidence loaded
    for its order before the loop. *)
Definition due_step (now : instant) (terminal : string -> option TerminalEvidence)
    (st : cluedb * due_stats) (round_id : string) : cluedb * due_stats :=
  let '(d, s) := st in
  match locked_round_state d round_id with
  | (Some r, Some lead) =>
      if negb (is_current_self_owned_round lead r) then st
      else
        let '(d1, lead1, closed) := refresh_terminal_evidence_for_locked_lead hexdigest isoformat
                                      terminal_evidence d lead now (terminal (rn_order_id r)) in
        if closed then (d1, MkDueStats (sla_expired s) (protection_expired s) (terminal_closed s + 1))
        else if str_in (ml_normalized_order_status lead) TERMINAL_ORDER_STATUSES then
          (close_for_terminal_order d lead r now,
           MkDueStats (sla_expired s) (protection_expired s) (terminal_closed s + 1))
        else if negb (is_current_active_round lead r) then st
        else if negb (default false (rn_auto_expiry_enabled r)) then st
        else
          let sla := match rn_first_sla_expires_at r with Some t => Some t | None => rn_expires_at r end in
          if negb (rn_is_followed r) && match sla with Some t => t <=? now | None => false end then
            (close_for_reassignment d lead r "sla_expired" now,
             MkDueStats (sla_expired s + 1) (protection_expired s) (terminal_closed s))
          else if match rn_protection_expires_at r with Some t => t <=? now | None => false end then
            (close_for_reassignment d lead r "protection_expired" now,
             MkDueStats (sla_expired s) (protection_expired s + 1) (terminal_closed s))
          else st
  | _ => st
  end.

(** [ORDER BY lead_key, assignment_round_id], rows without a lead key last *)
Definition round_order (a b : ClueAssignmentRound) : Prop :=
  match rn_lead_key a, rn_lead_key b with
  | Some x, Some y =>
      if decide (x = y) then String.le (rn_assignment_round_id a) (rn_assignment_round_id b) else String.le x y
  | Some _, None => True
  | None, Some _ => False
  | None, None => String.le (rn_assignment_round_id a) (rn_assignment_round_id b)
  end.

#[export] Instance round_order_dec : RelDecision round_order.
Proof. unfold round_order. intros a b. repeat case_match; apply _. Defined.

Definition is_active_formal (r : ClueAssignmentRound) : bool :=
  str_eqb (rn_execution_mode r) BUSINESS_EXECUTION_MODE && str_in (rn_round_status r) ACTIVE_ROUND_STATUSES.

Definition due_refs (d : cluedb) : list (string * string) :=
  (fun r => (rn_assignment_round_id r, rn_order_id r))
  <$> merge_sort round_order
        (List.filter is_active_formal ((map_to_list (clue_assignment_rounds d)).*2)).

(** [process_due_transitions] *)
Definition process_due_transitions (d : cluedb) (now : instant) : cluedb * due_stats :=
  let refs := due_refs d in
  let terminal order_id := if str_in order_id (refs.*2) then terminal_evidence_of terminal_evidence d now order_id else None in
  foldl (due_step now terminal) (d, MkDueStats 0 0 0) (refs.*1).

(** ** Deleting a record, revealing a phone *)

(** [soft_delete_follow_up_record] *)
Definition soft_delete_follow_up_record (d : cluedb) (follow_up_record_id : string) (actor : pydict)
    (reason : option string) (now : instant) : cluedb * FollowUpStateResult :=
  if negb (str_in (stripped (dict_get "role" actor)) ["admin"; "highest_admin"])
  then (d, refused "forbidden")
  else match List.find (fun f => str_eqb (fu_follow_up_record_id f) follow_up_record_id)
               (clue_follow_up_records d) with
  | None => (d, refused "not_found")
  | Some record =>
      match locked_round_state d (fu_assignment_round_id record) with
      | (None, _) => (d, refused "not_found")
      | (Some r, lead) =>
          if negb (can_access_clue_store actor (rn_assigned_store_id r)) then (d, refused "not_found")
          else if negb (str_eqb (rn_execution_mode r) BUSINESS_EXECUTION_MODE) then (d, refused "conflict")
          else if bool_decide (is_Some (fu_deleted_at record)) then (d, refused "conflict")
          else
            let record1 := record <| fu_deleted_at := Some now |>
              <| fu_deleted_by_user_id := text_value (dict_get "user_id" actor) |>
              <| fu_deleted_by_username := text_value (dict_get "username" actor) |>
              <| fu_deletion_reason := clean reason |> in
            let d1 := put_record record1 d in
            let d2 := match lead with
                      | Some l => if is_current_active_round l r then recalculate_active_round_summary d1 r now
                                  else recalculate_detached_round_summary d1 r now
                      | None => recalculate_detached_round_summary d1 r now
                      end in
            (d2, MkFollowUpResult "ok" (Some record1) (Some (rn_assignment_round_id r)))
      end
  end.

(** [can_reveal_current_order_phone] *)
Definition can_reveal_current_order_phone (d : cluedb) (order_id : string) (actor : pydict) : bool :=
  match clue_center_orders d !! order_id with
  | None => false
  | Some c =>
      if negb (has_text (co_current_assignment_round_id c)) then false
      else match locked_round_state d (default "" (co_current_assignment_round_id c)) with
           | (Some r, Some lead) => is_current_active_round lead r
                                    && can_access_clue_store actor (rn_assigned_store_id r)
           | _ => false
           end
  end.
End FollowUp.
