(* ===== verification/FollowUpInv.v ===== *)
(** * How the clue tables evolve

    The invariant of assignment rounds ([follow_ok]) and the preorder
    ([evolves]) that every follow-up operation follows: rounds keep their
    identity and never reopen, leads keep theirs and only ever drop a round that
    is closed. *)
From S2P Require Import Prelude PyValue Jobs Clues HqPool ClueStatus FollowUp.

(** Both rows are absent, or both present and related. *)
Definition rows_related {A} (R : A -> A -> Prop) : option A -> option A -> Prop :=
  option_relation R (fun _ => False) (fun _ => False).

Lemma rows_related_refl {A} (R : A -> A -> Prop) o : (forall a, R a a) -> rows_related R o o.
Proof. destruct o; cbn; auto. Qed.

Record round_evolves (r r' : ClueAssignmentRound) : Prop := MkRoundEvolves {
  re_id : rn_assignment_round_id r' = rn_assignment_round_id r;
  re_lead : rn_lead_key r' = rn_lead_key r;
  re_order : rn_order_id r' = rn_order_id r;
  re_mode : rn_execution_mode r' = rn_execution_mode r;
  re_store : rn_assigned_store_id r' = rn_assigned_store_id r;
  re_active : is_active_formal r' = true -> is_active_formal r = true;
}.

Definition closed_in (d : cluedb) (id : string) : Prop :=
  forall r, clue_assignment_rounds d !! id = Some r -> is_active_formal r = false.

Record lead_evolves (d' : cluedb) (l l' : ClueMasterLead) : Prop := MkLeadEvolves {
  le_key : ml_lead_key l' = ml_lead_key l;
  le_order : ml_order_id l' = ml_order_id l;
  le_current : ml_current_assignment_round_id l' = ml_current_assignment_round_id l
    \/ (ml_current_assignment_round_id l' = None
        /\ exists id, ml_current_assignment_round_id l = Some id /\ closed_in d' id);
}.

Record evolves (d d' : cluedb) : Prop := MkEvolves {
  ev_rounds : forall i, rows_related round_evolves
    (clue_assignment_rounds d !! i) (clue_assignment_rounds d' !! i);
  ev_leads : forall k, rows_related (lead_evolves d')
    (clue_master_leads d !! k) (clue_master_leads d' !! k);
  ev_centers : forall o, rows_related
    (fun c c' => co_order_id c' = co_order_id c
                 /\ co_current_assignment_round_id c' = co_current_assignment_round_id c)
    (clue_center_orders d !! o) (clue_center_orders d' !! o);
}.

Lemma lead_evolves_refl d l : lead_evolves d l l.
Proof. split; auto. Qed.
#[export] Hint Resolve lead_evolves_refl : dy.

#[export] Instance round_evolves_refl : Reflexive round_evolves.
Proof. by intros r. Qed.
#[export] Instance round_evolves_trans : Transitive round_evolves.
Proof. intros a b c [] []. split; congruence || auto. Qed.

Lemma closed_in_evolves d d' id :
  (forall i, rows_related round_evolves
    (clue_assignment_rounds d !! i) (clue_assignment_rounds d' !! i)) ->
  closed_in d id -> closed_in d' id.
Proof.
  intros He Hc r' Hr'. specialize (He id). rewrite Hr' in He.
  destruct (clue_assignment_rounds d !! id) as [r|] eqn:Hr; [|by destruct He].
  destruct (is_active_formal r') eqn:E; [|done]. apply (re_active _ _ He) in E. by rewrite (Hc _ Hr) in E.
Qed.

#[export] Instance evolves_preorder : PreOrder evolves.
Proof.
  split.
  - intros d. split; intros x; apply rows_related_refl; auto with dy. reflexivity.
  - intros a b c [R1 L1 C1] [R2 L2 C2]. split; intros x.
    + specialize (R1 x). specialize (R2 x).
      destruct (clue_assignment_rounds a !! x), (clue_assignment_rounds b !! x),
        (clue_assignment_rounds c !! x); cbn in *; try done. by etransitivity.
    + specialize (L1 x). specialize (L2 x).
      destruct (clue_master_leads a !! x) as [la|], (clue_master_leads b !! x) as [lb|],
        (clue_master_leads c !! x) as [lc|]; cbn in *; try done.
      destruct L1 as [K1 O1 [E1|(N1 & i & I1 & Cl1)]], L2 as [K2 O2 [E2|(N2 & j & I2 & Cl2)]];
        split; try congruence.
      * left. congruence.
      * right. split; [done|]. exists j. split; [congruence|done].
      * right. split; [congruence|]. exists i. split; [done|]. by apply (closed_in_evolves b c).
    + specialize (C1 x). specialize (C2 x).
      destruct (clue_center_orders a !! x), (clue_center_orders b !! x), (clue_center_orders c !! x);
        cbn in *; try done. destruct C1, C2. split; congruence.
Qed.

(** ** The row updates *)

Lemma evolves_same d d' :
  clue_assignment_rounds d' = clue_assignment_rounds d -> clue_master_leads d' = clue_master_leads d ->
  clue_center_orders d' = clue_center_orders d -> evolves d d'.
Proof.
  intros H1 H2 H3. split; intros x; rewrite ?H1, ?H2, ?H3; apply rows_related_refl; auto with dy.
  reflexivity.
Qed.

Lemma evolves_put_round d r r' :
  clue_assignment_rounds d !! rn_assignment_round_id r = Some r -> round_evolves r r' ->
  evolves d (put_round r' d).
Proof.
  intros Hr He. split; intros x; cbn.
  - rewrite (re_id _ _ He). destruct (decide (x = rn_assignment_round_id r)) as [->|Hx].
    + by rewrite lookup_insert_eq, Hr.
    + rewrite lookup_insert_ne by done. by apply rows_related_refl.
  - apply rows_related_refl; auto with dy.
  - apply rows_related_refl; auto.
Qed.

Lemma evolves_put_lead d l l' :
  clue_master_leads d !! ml_lead_key l = Some l -> lead_evolves d l l' -> evolves d (put_lead l' d).
Proof.
  intros Hl He. split; intros x; cbn.
  - by apply rows_related_refl.
  - rewrite (le_key _ _ _ He). destruct (decide (x = ml_lead_key l)) as [->|Hx].
    + rewrite lookup_insert_eq, Hl. cbn. destruct He. split; auto.
    + rewrite lookup_insert_ne by done. apply rows_related_refl; auto with dy.
  - apply rows_related_refl; auto.
Qed.

Lemma evolves_put_center d c c' :
  clue_center_orders d !! co_order_id c = Some c -> co_order_id c' = co_order_id c ->
  co_current_assignment_round_id c' = co_current_assignment_round_id c -> evolves d (put_center c' d).
Proof.
  intros Hc Ho Hp. split; intros x; cbn.
  - by apply rows_related_refl.
  - apply rows_related_refl; auto with dy.
  - rewrite Ho. destruct (decide (x = co_order_id c)) as [->|Hx].
    + by rewrite lookup_insert_eq, Hc.
    + rewrite lookup_insert_ne by done. by apply rows_related_refl.
Qed.

(** ** The invariant *)

Record follow_ok (d : cluedb) : Prop := MkFollowOk {
  fo_leads : forall k l, clue_master_leads d !! k = Some l -> ml_lead_key l = k /\ strip k <> "";
  fo_rounds : forall i r, clue_assignment_rounds d !! i = Some r -> rn_assignment_round_id r = i /\ strip i <> "";
  fo_centers : forall o c, clue_center_orders d !! o = Some c -> co_order_id c = o;
  fo_current : forall i r, clue_assignment_rounds d !! i = Some r -> is_active_formal r = true ->
    exists k l, rn_lead_key r = Some k /\ clue_master_leads d !! k = Some l
      /\ ml_current_assignment_round_id l = Some i /\ ml_order_id l = Some (rn_order_id r)
      /\ strip (rn_order_id r) <> "";
}.

Lemma evolves_ok d d' : follow_ok d -> evolves d d' -> follow_ok d'.
Proof.
  intros Hok [HR HL HC]. split.
  - intros k l' Hl'. specialize (HL k). rewrite Hl' in HL.
    destruct (clue_master_leads d !! k) as [l|] eqn:Hl; [|done].
    destruct (fo_leads d Hok _ _ Hl) as [<- ?]. rewrite (le_key _ _ _ HL). done.
  - intros i r' Hr'. specialize (HR i). rewrite Hr' in HR.
    destruct (clue_assignment_rounds d !! i) as [r|] eqn:Hr; [|done].
    destruct (fo_rounds d Hok _ _ Hr) as [<- ?]. rewrite (re_id _ _ HR). done.
  - intros o c' Hc'. specialize (HC o). rewrite Hc' in HC.
    destruct (clue_center_orders d !! o) as [c|] eqn:Hc; [|done].
    rewrite (proj1 HC). by apply (fo_centers d Hok).
  - intros i r' Hr' Ha. pose proof (HR i) as He. rewrite Hr' in He.
    destruct (clue_assignment_rounds d !! i) as [r|] eqn:Hr; [|done].
    destruct (fo_current d Hok i r Hr (re_active _ _ He Ha)) as (k & l & Hk & Hl & Hcur & Ho & Hne).
    specialize (HL k). rewrite Hl in HL. destruct (clue_master_leads d' !! k) as [l'|] eqn:Hl'; [|done].
    exists k, l'. destruct HL as [_ HLo [HLc|(_ & j & Hj & Hcl)]].
    + rewrite (re_lead _ _ He), (re_order _ _ He), HLo, HLc. auto.
    + rewrite Hcur in Hj. injection Hj as <-. by rewrite (Hcl _ Hr') in Ha.
Qed.

(** At most one formal round of a lead is active. *)
Lemma active_round_unique d i j r s : follow_ok d ->
  clue_assignment_rounds d !! i = Some r -> clue_assignment_rounds d !! j = Some s ->
  is_active_formal r = true -> is_active_formal s = true -> rn_lead_key r = rn_lead_key s -> i = j.
Proof.
  intros Hok Hr Hs Ha Hb E.
  destruct (fo_current d Hok i r Hr Ha) as (k & l & Hk & Hl & Hc & _).
  destruct (fo_current d Hok j s Hs Hb) as (k' & l' & Hk' & Hl' & Hc' & _).
  assert (k = k') as <- by congruence. congruence.
Qed.

(** ** The follow-up operations *)

(** The round and lead that an operation has locked. *)
Record locked (d : cluedb) (lead : ClueMasterLead) (r : ClueAssignmentRound) : Prop := MkLocked {
  lk_round : clue_assignment_rounds d !! rn_assignment_round_id r = Some r;
  lk_lead : clue_master_leads d !! ml_lead_key lead = Some lead;
  lk_key : rn_lead_key r = Some (ml_lead_key lead);
}.

Lemma locked_round_state_spec d i r lead : follow_ok d ->
  locked_round_state d i = (Some r, Some lead) -> rn_assignment_round_id r = i /\ locked d lead r.
Proof.
  intros Hok. unfold locked_round_state.
  destruct (clue_assignment_rounds d !! i) as [s|] eqn:Hs; [|done].
  destruct (fo_rounds d Hok _ _ Hs) as [Hi _].
  destruct (has_text (rn_lead_key s)); [|done]. destruct (rn_lead_key s) as [k|] eqn:Hk; [|done].
  intros [= -> Hl]. destruct (fo_leads d Hok _ _ Hl) as [Hkey _]. subst i k. by split.
Qed.

Lemma locked_round_state_round d i r o : follow_ok d ->
  locked_round_state d i = (Some r, o) ->
  clue_assignment_rounds d !! rn_assignment_round_id r = Some r /\ rn_assignment_round_id r = i.
Proof.
  intros Hok. unfold locked_round_state.
  destruct (clue_assignment_rounds d !! i) as [s|] eqn:Hs; [|done].
  destruct (fo_rounds d Hok _ _ Hs) as [Hi _]. intros [= -> _]. by subst i.
Qed.

Lemma pointing_center_spec d r c : follow_ok d -> pointing_center d r = Some c ->
  clue_center_orders d !! co_order_id c = Some c.
Proof.
  intros Hok. unfold pointing_center. destruct (clue_center_orders d !! _) as [c'|] eqn:Hc; [|done].
  case_match; [|done]. intros [= ->]. by rewrite (fo_centers d Hok _ _ Hc).
Qed.

Lemma evolves_project_current d r now : follow_ok d -> evolves d (project_current_round_summary d r now).
Proof.
  intros Hok. unfold project_current_round_summary. case_match eqn:E; [|reflexivity].
  eapply evolves_put_center; [by eapply pointing_center_spec|done|done].
Qed.

Lemma evolves_project_closed d r reason now : follow_ok d -> evolves d (project_closed_round d r reason now).
Proof.
  intros Hok. unfold project_closed_round. case_match eqn:E; [|reflexivity].
  eapply evolves_put_center; [by eapply pointing_center_spec|done|done].
Qed.

Lemma inactive_status r : str_in (rn_round_status r) ACTIVE_ROUND_STATUSES = false ->
  is_active_formal r = false.
Proof. intros H. unfold is_active_formal. by rewrite H, andb_false_r. Qed.

(** Closing the current round of a lead, and dropping it from the lead. *)
Lemma evolves_close d lead r r' lead' : locked d lead r -> follow_ok d ->
  ml_current_assignment_round_id lead = Some (rn_assignment_round_id r) ->
  rn_assignment_round_id r' = rn_assignment_round_id r -> rn_lead_key r' = rn_lead_key r ->
  rn_order_id r' = rn_order_id r -> rn_execution_mode r' = rn_execution_mode r ->
  rn_assigned_store_id r' = rn_assigned_store_id r ->
  str_in (rn_round_status r') ACTIVE_ROUND_STATUSES = false ->
  ml_lead_key lead' = ml_lead_key lead -> ml_order_id lead' = ml_order_id lead ->
  ml_current_assignment_round_id lead' = None ->
  evolves d (put_lead lead' (put_round r' d)).
Proof.
  intros [Hr Hl Hk] Hok Hc Ha Hb Hd Hm Hs Hoff H1 H2 H3. apply inactive_status in Hoff.
  assert (He : round_evolves r r') by (split; congruence).
  etransitivity; [by apply (evolves_put_round d r)|].
  apply (evolves_put_lead _ lead); [done|]. split; [done|done|]. right. split; [done|].
  exists (rn_assignment_round_id r). split; [done|]. intros s. cbn.
  rewrite (re_id _ _ He), lookup_insert_eq. by intros [= <-].
Qed.

Lemma evolves_close_for_reassignment d lead r cause now : locked d lead r -> follow_ok d ->
  ml_current_assignment_round_id lead = Some (rn_assignment_round_id r) ->
  evolves d (close_for_reassignment d lead r cause now).
Proof.
  intros Hlk Hok Hc. unfold close_for_reassignment.
  match goal with |- evolves d (project_closed_round ?x _ _ _) => assert (He : evolves d x) end.
  { by apply (evolves_close d lead r). }
  etransitivity; [exact He|]. apply evolves_project_closed. by apply (evolves_ok d).
Qed.

Lemma evolves_close_for_terminal d lead r now : locked d lead r -> follow_ok d ->
  ml_current_assignment_round_id lead = Some (rn_assignment_round_id r) ->
  evolves d (close_for_terminal_order d lead r now).
Proof.
  intros Hlk Hok Hc. unfold close_for_terminal_order. cbn zeta.
  match goal with |- context [match pointing_center ?x ?s with _ => _ end] =>
    assert (He : evolves d x);
    [|destruct (pointing_center x s) as [c|] eqn:Hp; [|exact He]] end.
  { apply (evolves_close d lead r); try done. cbn. by repeat case_match. }
  etransitivity; [exact He|]. apply (evolves_put_center _ c); [|done|done].
  eapply pointing_center_spec; [|done]. by apply (evolves_ok d).
Qed.

(** Recalculating the summary of an active round keeps it active. *)
Lemma evolves_recalculate_active d r now : follow_ok d ->
  clue_assignment_rounds d !! rn_assignment_round_id r = Some r -> is_active_formal r = true ->
  evolves d (recalculate_active_round_summary d r now).
Proof.
  intros Hok Hr Ha. unfold recalculate_active_round_summary.
  match goal with |- evolves d (project_current_round_summary ?x _ _) => assert (He : evolves d x) end.
  { apply (evolves_put_round d r); [done|]. unfold active_summary.
    repeat case_match; split; done. }
  etransitivity; [exact He|]. apply evolves_project_current. by apply (evolves_ok d).
Qed.

Lemma evolves_recalculate_detached d r now : follow_ok d ->
  clue_assignment_rounds d !! rn_assignment_round_id r = Some r ->
  rn_execution_mode r = BUSINESS_EXECUTION_MODE ->
  evolves d (recalculate_detached_round_summary d r now).
Proof.
  intros Hok Hr Hm. unfold recalculate_detached_round_summary.
  destruct (str_in (rn_round_status r) ACTIVE_ROUND_STATUSES) eqn:Ha; [|reflexivity]. cbn [negb].
  assert (Hact : is_active_formal r = true) by (unfold is_active_formal; by rewrite Hm, Ha).
  case_match eqn:Eq. match goal with |- context [put_round ?s d] => assert (He : evolves d (put_round s d)) end.
  { apply (evolves_put_round d r); [done|]. destruct (last _); injection Eq as <- _; by split. }
  destruct (pointing_center _ _) as [ce|] eqn:Hp; [|exact He].
  etransitivity; [exact He|]. apply (evolves_put_center _ ce); [|done|done].
  eapply pointing_center_spec; [|done]. by apply (evolves_ok d).
Qed.

(** ** Terminal evidence *)

(** A lead as terminal evidence of a kind leaves it. *)
Record closed_by (kind : string) (lead lead' : ClueMasterLead) : Prop := MkClosedBy {
  cb_key : ml_lead_key lead' = ml_lead_key lead;
  cb_order : ml_order_id lead' = ml_order_id lead;
  cb_current : ml_current_assignment_round_id lead' = ml_current_assignment_round_id lead;
  cb_status : ml_normalized_order_status lead' = kind;
  cb_lifecycle : ml_lifecycle_status lead' = lifecycle_status kind;
  cb_pool : ml_pool_location lead' = Some "closed";
  cb_state : ml_allocation_state lead' = "closed";
}.

Lemma terminal_lifecycle kind : str_in kind TERMINAL_ORDER_STATUSES = true ->
  str_in (lifecycle_status kind) ["closed_verified"; "closed_refunded"; "closed_order"] = true
  /\ str_in (terminal_round_status (lifecycle_status kind)) ACTIVE_ROUND_STATUSES = false
  /\ lifecycle_status kind <> "active".
Proof.
  intros H. unfold str_in in H. apply bool_decide_eq_true in H. unfold TERMINAL_ORDER_STATUSES in H.
  repeat (apply elem_of_cons in H as [->|H]; [vm_compute; split_and!; congruence|]).
  by apply elem_of_nil in H.
Qed.

Section Refresh.
Context (hexdigest : string -> string) (isoformat : instant -> string)
  (terminal_evidence : cluedb -> instant -> string -> TerminalEvidence).

Lemma with_terminal_evidence lead r observed rounds :
  str_in (sr_normalized_status r) TERMINAL_ORDER_STATUSES = true ->
  closed_by (sr_normalized_status r) lead (with_status_evidence lead r observed rounds).
Proof.
  intros Ht. destruct (terminal_lifecycle _ Ht) as (Hl & _).
  unfold with_status_evidence. cbv zeta. rewrite Hl. by split.
Qed.

(** The tables status evidence leaves alone. *)
Record only_leads (d d' : cluedb) : Prop := MkOnlyLeads {
  ol_rounds : clue_assignment_rounds d' = clue_assignment_rounds d;
  ol_centers : clue_center_orders d' = clue_center_orders d;
  ol_records : clue_follow_up_records d' = clue_follow_up_records d;
  ol_pool : clue_headquarters_pool_entries d' = clue_headquarters_pool_entries d;
  ol_decisions : clue_allocation_decisions d' = clue_allocation_decisions d;
}.

Lemma record_status_event_frame d k o r t now :
  only_leads d (record_status_event hexdigest isoformat d k o r t now)
  /\ clue_master_leads (record_status_event hexdigest isoformat d k o r t now) = clue_master_leads d.
Proof. unfold record_status_event. cbv zeta. case_match; by repeat split. Qed.

Lemma closed_by_version kind lead lead1 (b : bool) v now : closed_by kind lead lead1 ->
  closed_by kind lead (if b then lead1 <| ml_state_version := v |> <| ml_updated_at := now |> else lead1).
Proof. intros []. destruct b; by split. Qed.

Lemma apply_terminal_evidence d lead r observed now rounds :
  str_in (sr_normalized_status r) TERMINAL_ORDER_STATUSES = true ->
  accepts_status_evidence lead (sr_normalized_status r) observed = true ->
  exists d' lead',
    apply_independent_status_evidence hexdigest isoformat d lead r observed now rounds = (d', lead', true)
    /\ closed_by (sr_normalized_status r) lead lead' /\ only_leads d d'
    /\ clue_master_leads d' = <[ml_lead_key lead := lead']> (clue_master_leads d).
Proof.
  intros Ht Hacc. destruct (terminal_lifecycle _ Ht) as (Hl & _).
  pose proof (with_terminal_evidence lead r observed rounds Ht) as Hcb.
  unfold apply_independent_status_evidence. rewrite Hacc, Hl. cbn [negb]. cbv zeta. rewrite orb_true_r.
  generalize dependent (with_status_evidence lead r observed rounds). intros lead1 Hcb.
  match goal with |- context [put_lead ?x d] =>
    assert (Hx : closed_by (sr_normalized_status r) lead x) by (by apply closed_by_version);
    generalize dependent x; intros lead2 Hx end.
  eexists _, lead2. split; [reflexivity|]. split; [done|].
  case_match; [|split; [done|]]; cbn; rewrite ?(cb_key _ _ _ Hx).
  - destruct (record_status_event_frame (put_lead lead2 d) (ml_lead_key lead) (ml_order_id lead2) r observed now)
      as [[] Hm]. split; [split; done|]. rewrite Hm. cbn. by rewrite (cb_key _ _ _ Hx).
  - done.
Qed.

Lemma latest_of_accepts lead kind t now : str_in kind TERMINAL_ORDER_STATUSES = true ->
  accepts_status_evidence lead kind (latest_of t (ml_order_status_observed_at lead) now) = true.
Proof.
  intros Hk. unfold accepts_status_evidence. rewrite Hk, andb_false_r, andb_true_r.
  unfold latest_of. destruct t, (ml_order_status_observed_at lead); cbn; try done;
    apply negb_true_iff, Z.ltb_ge; lia.
Qed.

(** What closing the round and its projection touches. *)
Lemma close_assignment_frame d order_id lifecycle closed_at current rounds centers :
  let d' := close_current_assignment d order_id lifecycle closed_at current rounds centers in
  clue_master_leads d' = clue_master_leads d
  /\ clue_follow_up_records d' = clue_follow_up_records d
  /\ clue_headquarters_pool_entries d' = clue_headquarters_pool_entries d
  /\ clue_allocation_decisions d' = clue_allocation_decisions d.
Proof. unfold close_current_assignment. cbv zeta. repeat case_match; done. Qed.

Lemma pool_close_frame d k at_ reason status :
  let d' := close_current_headquarters_pool_entry d k at_ reason status in
  clue_master_leads d' = clue_master_leads d
  /\ clue_assignment_rounds d' = clue_assignment_rounds d
  /\ clue_center_orders d' = clue_center_orders d
  /\ clue_follow_up_records d' = clue_follow_up_records d
  /\ clue_allocation_decisions d' = clue_allocation_decisions d.
Proof. unfold close_current_headquarters_pool_entry. case_match; done. Qed.

Lemma owned_rounds_spec d lead order_id i r : follow_ok d ->
  owned_rounds d lead order_id !! i = Some r ->
  i = rn_assignment_round_id r /\ clue_assignment_rounds d !! i = Some r
  /\ rn_lead_key r = Some (ml_lead_key lead) /\ rn_order_id r = order_id.
Proof.
  intros Hok. unfold owned_rounds. cbv zeta.
  match goal with |- context [match ?o with Some _ => _ | None => ∅ end] =>
    destruct o as [s|] eqn:Hs; [|by rewrite lookup_empty] end.
  destruct (opt_is _ _ && _) eqn:E; [|by rewrite lookup_empty].
  intros [<- <-]%lookup_singleton_Some. tests. split_and!; try done.
  destruct (has_text _); [|done]. apply bind_Some in Hs as (j & _ & Hj).
  unfold lock_clue_assignment_round_for_update in Hj. case_match; [done|].
  by destruct (fo_rounds d Hok _ _ Hj) as [-> _].
Qed.

(** Closing the assignment of a lead whose lifecycle is terminal. *)
Lemma close_assignment_spec d order_id lifecycle closed_at current rounds centers :
  follow_ok d ->
  (forall i r, rounds !! i = Some r ->
     i = rn_assignment_round_id r /\ clue_assignment_rounds d !! i = Some r) ->
  (forall o c, centers !! o = Some c -> clue_center_orders d !! co_order_id c = Some c) ->
  str_in (terminal_round_status lifecycle) ACTIVE_ROUND_STATUSES = false ->
  let d' := close_current_assignment d order_id lifecycle closed_at current rounds centers in
  evolves d d'
  /\ (forall i, rounds !! i = None -> clue_assignment_rounds d' !! i = clue_assignment_rounds d !! i)
  /\ (forall i r, rounds !! i = Some r -> current = Some i -> i <> "" -> closed_in d' i).
Proof.
  intros Hok Hrounds Hcenters Hoff. cbn zeta. unfold close_current_assignment. cbv zeta.
  match goal with |- context [match ?o with Some r => if str_eqb (rn_execution_mode r) _ then _ else _ | None => d end] =>
    set (ro := o); set (d1 := match ro with Some _ => _ | None => d end) end.
  assert (Hd1 : evolves d d1 /\ clue_center_orders d1 = clue_center_orders d
    /\ (forall i, rounds !! i = None -> clue_assignment_rounds d1 !! i = clue_assignment_rounds d !! i)
    /\ (forall i r, rounds !! i = Some r -> current = Some i -> i <> "" -> closed_in d1 i)).
  { destruct ro as [r|] eqn:Hro; subst ro d1.
    - destruct (has_text _) eqn:Ht; [|done]. apply bind_Some in Hro as (j & Hj & Hr).
      destruct (Hrounds _ _ Hr) as [-> Hrd].
      assert (Hcur : forall i, current = Some i -> i <> "" -> i = rn_assignment_round_id r).
      { intros i -> Hi. rewrite has_text_Some in Hj by done. congruence. }
      destruct (str_eqb (rn_execution_mode r) BUSINESS_EXECUTION_MODE) eqn:Hm.
      + split_and!; [|done|..].
        * apply (evolves_put_round d r); [done|]. split; try done.
          rewrite inactive_status by done. done.
        * intros i Hi. cbn. rewrite lookup_insert_ne; [done|]. intros <-. congruence.
        * intros i r' _ Hc Hi s. rewrite (Hcur i Hc Hi). cbn. rewrite lookup_insert_eq.
          intros [= <-]. by apply inactive_status.
      + split_and!; [reflexivity|done|done|]. intros i r' _ Hc Hi s. rewrite (Hcur i Hc Hi), Hrd.
        intros [= <-]. unfold is_active_formal. by rewrite Hm.
    - split_and!; [reflexivity|done|done|]. intros i r Hr -> Hi.
      rewrite !(has_text_Some i) in Hro by done. cbn in Hro. congruence. }
  clearbody d1. clear ro. destruct Hd1 as (He & Hc1 & Hfr & Hcl).
  destruct (centers !! order_id) as [c|] eqn:Hc; [|done].
  case_match; [|done]. split_and!; [|done|done].
  etransitivity; [exact He|]. apply (evolves_put_center _ c); [|done|done].
  rewrite Hc1. by apply (Hcenters order_id).
Qed.

Lemma evolves_only_leads d d' lead lead' kind :
  only_leads d d' -> clue_master_leads d' = <[ml_lead_key lead := lead']> (clue_master_leads d) ->
  clue_master_leads d !! ml_lead_key lead = Some lead -> closed_by kind lead lead' -> evolves d d'.
Proof.
  intros [H1 H2 _ _ _] H3 Hl Hcb. etransitivity; [apply (evolves_put_lead d lead lead'); [done|]|].
  - destruct Hcb. split; auto.
  - apply evolves_same; cbn; rewrite ?(cb_key _ _ _ Hcb); done.
Qed.

(** Refreshed evidence: either none is terminal and nothing happens, or the lead
    is closed, its pool entry and its current round with it, and no other round. *)
Inductive refreshed (d : cluedb) (lead : ClueMasterLead) (now : instant)
    (terminal : option TerminalEvidence) : cluedb * ClueMasterLead * bool -> Prop :=
| refreshed_open :
    (forall order_id, ml_order_id lead = Some order_id -> order_id <> "" ->
       terminal_kind (match terminal with
                      | Some t => Some t
                      | None => terminal_evidence_of terminal_evidence d now order_id
                      end) = None) ->
    refreshed d lead now terminal (d, lead, false)
| refreshed_closed d' lead' order_id kind t :
    ml_order_id lead = Some order_id -> order_id <> "" ->
    terminal_kind (match terminal with
                   | Some t => Some t
                   | None => terminal_evidence_of terminal_evidence d now order_id
                   end) = Some (t, kind) ->
    closed_by kind lead lead' ->
    clue_master_leads d' = <[ml_lead_key lead := lead']> (clue_master_leads d) ->
    clue_follow_up_records d' = clue_follow_up_records d ->
    clue_allocation_decisions d' = clue_allocation_decisions d ->
    (exists at_ reason d0, clue_headquarters_pool_entries d0 = clue_headquarters_pool_entries d
       /\ clue_headquarters_pool_entries d'
          = clue_headquarters_pool_entries
              (close_current_headquarters_pool_entry d0 (ml_lead_key lead) at_ reason "closed")) ->
    evolves d d' ->
    (forall i, owned_rounds d lead order_id !! i = None ->
       clue_assignment_rounds d' !! i = clue_assignment_rounds d !! i) ->
    (forall i r, owned_rounds d lead order_id !! i = Some r ->
       ml_current_assignment_round_id lead = Some i -> i <> "" -> closed_in d' i) ->
    refreshed d lead now terminal (d', lead', true).

Lemma terminal_kind_in t e kind : terminal_kind t = Some (e, kind) ->
  str_in kind TERMINAL_ORDER_STATUSES = true.
Proof. unfold terminal_kind. repeat case_match; by intros [= _ <-]. Qed.

Lemma refresh_spec d lead now terminal : follow_ok d ->
  clue_master_leads d !! ml_lead_key lead = Some lead ->
  refreshed d lead now terminal
    (refresh_terminal_evidence_for_locked_lead hexdigest isoformat terminal_evidence d lead now terminal).
Proof.
  intros Hok Hl. unfold refresh_terminal_evidence_for_locked_lead.
  destruct (ml_order_id lead) as [order_id|] eqn:Ho.
  2:{ apply refreshed_open. rewrite Ho. done. }
  destruct (str_eqb order_id "") eqn:Hne.
  { apply refreshed_open. rewrite Ho. intros o [= <-] Hn. tests. done. }
  assert (Hneq : order_id <> "") by (intros ->; done). cbv zeta.
  destruct (terminal_kind _) as [[t kind]|] eqn:Hk.
  2:{ apply refreshed_open. rewrite Ho. by intros o [= <-] _. }
  pose proof (terminal_kind_in _ _ _ Hk) as Hin. destruct (terminal_lifecycle _ Hin) as (_ & Hoff & _).
  match goal with |- context [apply_independent_status_evidence _ _ d lead ?res ?obs now ?rs] =>
    destruct (apply_terminal_evidence d lead res obs now rs) as (d1 & lead1 & -> & Hcb & Hol & Hm);
    [exact Hin | by apply latest_of_accepts |] end.
  cbn [sr_normalized_status] in Hcb.
  assert (He1 : evolves d d1) by (by eapply evolves_only_leads).
  rewrite (cb_key _ _ _ Hcb), (cb_lifecycle _ _ _ Hcb), (cb_current _ _ _ Hcb).
  generalize (default now (ml_closed_at lead1)) as at_.
  generalize (text_or (ml_closed_reason lead1) "order_closed") as reason. intros reason at_.
  set (d2 := close_current_headquarters_pool_entry d1 (ml_lead_key lead) at_ reason "closed").
  destruct (pool_close_frame d1 (ml_lead_key lead) at_ reason "closed") as (F1 & F2 & F3 & F4 & F5).
  fold d2 in F1, F2, F3, F4, F5.
  assert (He2 : evolves d d2) by (etransitivity; [exact He1 | by apply evolves_same]).
  match goal with |- context [close_current_assignment d2 ?o ?lf ?t ?cur ?rs ?cs] =>
    destruct (close_assignment_frame d2 o lf t cur rs cs) as (G1 & G2 & G3 & G4);
    destruct (close_assignment_spec d2 o lf t cur rs cs) as (He3 & Hfr & Hcl);
    [by apply (evolves_ok d) | | | exact Hoff |] end.
  - intros i r Hr. destruct (owned_rounds_spec _ _ _ _ _ Hok Hr) as (-> & Hr' & _).
    split; [done|]. rewrite F2, (ol_rounds _ _ Hol). exact Hr'.
  - intros o c. unfold lock_clue_center_order_for_update.
    destruct (str_eqb (strip order_id) ""); [by rewrite lookup_empty|].
    destruct (clue_center_orders d !! order_id) as [c0|] eqn:Hc; [|by rewrite lookup_empty].
    intros [<- <-]%lookup_singleton_Some. by rewrite F3, (ol_centers _ _ Hol), (fo_centers d Hok _ _ Hc).
  - eapply refreshed_closed; [exact Ho|exact Hneq|exact Hk|exact Hcb|..].
    + by rewrite G1, F1, Hm.
    + rewrite G2, F4. apply Hol.
    + rewrite G4, F5. apply Hol.
    + exists at_, reason, d1. split; [apply Hol|]. by rewrite G3.
    + etransitivity; [exact He2|exact He3].
    + intros i Hi. rewrite Hfr by done. by rewrite F2, (ol_rounds _ _ Hol).
    + intros i r Hr Hc. by eapply Hcl.
Qed.
End Refresh.
