(* ===== verification/FollowUpProps.v ===== *)
(** * Properties of the follow-up operations *)
From S2P Require Import Prelude PyValue Jobs Clues HqPool ClueStatus FollowUp FollowUpInv.

Section Props.
Context (repr_of : pyval -> string) (hexdigest : string -> string) (isoformat : instant -> string)
  (terminal_evidence : cluedb -> instant -> string -> TerminalEvidence).

Definition apply_action := apply_follow_up_action repr_of hexdigest isoformat terminal_evidence.
Definition process_due := process_due_transitions hexdigest isoformat terminal_evidence.

(** What an accepted action requires. *)
Record operable (d : cluedb) (order_id round_id action : string) (actor : pydict) (now : instant)
    (lead : ClueMasterLead) (r : ClueAssignmentRound) : Prop := MkOperable {
  op_action : str_in action FOLLOW_UP_ACTIONS = true;
  op_locked : locked d lead r;
  op_round : rn_assignment_round_id r = round_id;
  op_order : rn_order_id r = order_id;
  op_scope : can_access_clue_store repr_of actor (rn_assigned_store_id r) = true;
  op_no_terminal : forall o, ml_order_id lead = Some o ->
    terminal_kind (terminal_evidence_of terminal_evidence d now o) = None;
  op_current : is_current_active_round lead r = true;
}.

Lemma project_current_frame d r now :
  clue_follow_up_records (project_current_round_summary d r now) = clue_follow_up_records d
  /\ clue_assignment_rounds (project_current_round_summary d r now) = clue_assignment_rounds d
  /\ clue_master_leads (project_current_round_summary d r now) = clue_master_leads d.
Proof. unfold project_current_round_summary. by case_match. Qed.

Lemma close_for_reassignment_frame d lead r cause now :
  clue_follow_up_records (close_for_reassignment d lead r cause now) = clue_follow_up_records d
  /\ clue_assignment_rounds (close_for_reassignment d lead r cause now)
     = <[rn_assignment_round_id r := reassigned_round r cause now]> (clue_assignment_rounds d)
  /\ (forall k, k <> ml_lead_key lead ->
       clue_master_leads (close_for_reassignment d lead r cause now) !! k = clue_master_leads d !! k).
Proof.
  unfold close_for_reassignment, project_closed_round. cbv zeta.
  case_match; cbn; (split_and!; [done|done|]); intros k Hk; by rewrite lookup_insert_ne.
Qed.

Lemma close_for_terminal_frame d lead r now :
  clue_follow_up_records (close_for_terminal_order d lead r now) = clue_follow_up_records d
  /\ (forall k, k <> ml_lead_key lead ->
       clue_master_leads (close_for_terminal_order d lead r now) !! k = clue_master_leads d !! k)
  /\ exists r', clue_assignment_rounds (close_for_terminal_order d lead r now)
     = <[rn_assignment_round_id r := r']> (clue_assignment_rounds d)
     /\ str_in (rn_round_status r') ACTIVE_ROUND_STATUSES = false.
Proof.
  unfold close_for_terminal_order. cbv zeta.
  case_match; cbn; (split_and!; [done|intros k Hk; by rewrite lookup_insert_ne|]);
    (eexists; split; [reflexivity|]); cbn; by repeat case_match.
Qed.

Lemma current_active_formal lead r : is_current_active_round lead r = true -> is_active_formal r = true.
Proof.
  unfold is_current_active_round, is_current_self_owned_round, is_active_formal. intros H.
  bool_to_prop. apply andb_true_iff. done.
Qed.

Lemma current_self_owned lead r : is_current_self_owned_round lead r = true ->
  rn_execution_mode r = BUSINESS_EXECUTION_MODE
  /\ ml_current_assignment_round_id lead = Some (rn_assignment_round_id r).
Proof. unfold is_current_self_owned_round. intros H. tests. done. Qed.

Lemma current_active_owned lead r : is_current_active_round lead r = true ->
  ml_current_assignment_round_id lead = Some (rn_assignment_round_id r)
  /\ ml_normalized_order_status lead = "active".
Proof.
  unfold is_current_active_round. intros H. tests. split; [|done]. by apply current_self_owned.
Qed.

(** The record an accepted action leaves. *)
Definition action_record (r : ClueAssignmentRound) (order_id action : string) (actor : pydict)
    (note : option string) (now : instant) (uuid : string) : ClueFollowUpRecord :=
  MkFollowUp uuid order_id (rn_assignment_round_id r) (rn_round_no r) (rn_assigned_store_id r) action
    (clean note) (text_value repr_of (dict_get "user_id" actor))
    (text_value repr_of (dict_get "username" actor)) now None None None None.

Definition after_action (d : cluedb) (lead : ClueMasterLead) (r : ClueAssignmentRound) (action : string)
    (now : instant) : cluedb :=
  if str_in action ["lost"; "request_store_change"] then close_for_reassignment d lead r action now
  else let r1 := apply_visible_summary r action now in
       project_current_round_summary (put_round r1 d) r1 now.

(** The outcomes of an action: refused without a record, or accepted on the
    current active round with one. *)
Inductive action_outcome (d : cluedb) (order_id round_id action : string) (actor : pydict)
    (note : option string) (now : instant) (uuid : string) : result (cluedb * FollowUpStateResult) -> Prop :=
| outcome_refused d' s : s <> "ok" -> evolves d d' ->
    clue_follow_up_records d' = clue_follow_up_records d ->
    (forall lead r, ~ operable d order_id round_id action actor now lead r) ->
    action_outcome d order_id round_id action actor note now uuid (Ok (d', refused s))
| outcome_taken lead r : operable d order_id round_id action actor now lead r ->
    uuid ∈ (fu_follow_up_record_id <$> clue_follow_up_records d) ->
    action_outcome d order_id round_id action actor note now uuid
      (Raise (NamedError "IntegrityError" "clue_follow_up_records"))
| outcome_ok lead r : operable d order_id round_id action actor now lead r ->
    uuid ∉ (fu_follow_up_record_id <$> clue_follow_up_records d) ->
    action_outcome d order_id round_id action actor note now uuid
      (Ok (after_action (d <| clue_follow_up_records := clue_follow_up_records d
               ++ [action_record r order_id action actor note now uuid] |>) lead r action now,
           MkFollowUpResult "ok" (Some (action_record r order_id action actor note now uuid))
             (if str_in action ["lost"; "request_store_change"] then None else Some round_id))).

Lemma load_blank d now : terminal_evidence_of terminal_evidence d now "" = None.
Proof. done. Qed.

Lemma operable_same d order_id round_id action actor now lead' r r' lo : follow_ok d ->
  locked_round_state d round_id = (Some r, lo) -> operable d order_id round_id action actor now lead' r' ->
  r' = r /\ lo = Some lead'.
Proof.
  intros Hok Hlk [_ [Hr' Hl' Hk'] Hi _ _ _ _].
  destruct (locked_round_state_round _ _ _ _ Hok Hlk) as [Hr Hrid].
  assert (r' = r) as -> by congruence. split; [done|].
  unfold locked_round_state in Hlk. rewrite <- Hrid, Hr in Hlk. injection Hlk as <-.
  rewrite Hk', has_text_Some; [done|].
  destruct (fo_leads d Hok _ _ Hl') as [_ Hne]. intros E. apply Hne. by rewrite E.
Qed.

Lemma insert_record_cases f d :
  (insert_record f d = Raise (NamedError "IntegrityError" "clue_follow_up_records")
   /\ fu_follow_up_record_id f ∈ (fu_follow_up_record_id <$> clue_follow_up_records d))
  \/ (insert_record f d = Ok (d <| clue_follow_up_records := clue_follow_up_records d ++ [f] |>)
      /\ fu_follow_up_record_id f ∉ (fu_follow_up_record_id <$> clue_follow_up_records d)).
Proof.
  unfold insert_record. destruct (existsb _ _) eqn:E; [left|right]; (split; [done|]).
  - apply List.existsb_exists in E as (x & Hx & Ex). tests. rewrite <- Ex.
    apply list_elem_of_fmap_2, list_elem_of_In, Hx.
  - intros (x & Ex & Hx)%list_elem_of_fmap.
    assert (existsb (fun y => str_eqb (fu_follow_up_record_id y) (fu_follow_up_record_id f))
              (clue_follow_up_records d) = true); [|congruence].
    apply List.existsb_exists. exists x. split; [by apply list_elem_of_In|]. by apply str_eqb_true.
Qed.

Lemma apply_action_outcome d order_id round_id result actor note now uuid : follow_ok d ->
  action_outcome d order_id round_id (strip (default "" result)) actor note now uuid
    (apply_action d order_id round_id result actor note now uuid).
Proof.
  intros Hok. unfold apply_action, apply_follow_up_action. cbv zeta.
  generalize (strip (default "" result)) as action. intros action.
  destruct (str_in action FOLLOW_UP_ACTIONS) eqn:Hact; cbn [negb].
  2:{ apply outcome_refused; try done. intros lead r []. congruence. }
  destruct (locked_round_state d round_id) as [[r|] lo] eqn:Hlk.
  2:{ apply outcome_refused; try done. intros lead r [_ [Hr _ _] <- _ _ _ _].
      unfold locked_round_state in Hlk. by rewrite Hr in Hlk. }
  assert (Hsame := fun lead' r' => operable_same d order_id round_id action actor now lead' r r' lo Hok Hlk).
  destruct (str_eqb (rn_order_id r) order_id) eqn:Ho; cbn [negb].
  2:{ apply outcome_refused; try done. intros lead' r' Hop. destruct (Hsame _ _ Hop) as [-> _].
      rewrite (op_order _ _ _ _ _ _ _ _ Hop), str_eqb_refl in Ho. done. }
  destruct lo as [lead|]; [|apply outcome_refused; try done; intros l' r' Hop; by destruct (Hsame _ _ Hop)].
  destruct (locked_round_state_spec _ _ _ _ Hok Hlk) as [Hrid Hlocked]. tests.
  assert (Hsame' : (operable d order_id round_id action actor now lead r -> False) ->
    forall lead' r', ~ operable d order_id round_id action actor now lead' r').
  { intros HP lead' r' Hop. destruct (Hsame _ _ Hop) as [-> [= ->]]. by apply HP. }
  clear Hsame. destruct (can_access_clue_store repr_of actor (rn_assigned_store_id r)) eqn:Hsc; cbn [negb].
  2:{ apply outcome_refused; try done. apply Hsame'. intros []. congruence. }
  destruct (refresh_spec hexdigest isoformat terminal_evidence d lead now None Hok (lk_lead _ _ _ Hlocked))
    as [Hopen|d1 lead1 o kind t Hoid Hone Hk Hcb Hl Hrec _ _ Hev _ _].
  2:{ apply outcome_refused; try done. apply Hsame'. intros [].
      rewrite (op_no_terminal0 o Hoid) in Hk. done. }
  destruct (str_in (ml_normalized_order_status lead) TERMINAL_ORDER_STATUSES) eqn:Hterm.
  { assert (Hn : operable d order_id round_id action actor now lead r -> False).
    { intros []. destruct (current_active_owned _ _ op_current0) as [_ E]. by rewrite E in Hterm. }
    destruct (is_current_self_owned_round lead r) eqn:Hown; cbn [negb].
    - destruct (current_self_owned _ _ Hown) as [_ Hcur].
      apply outcome_refused; [done|by apply evolves_close_for_terminal| |by apply Hsame'].
      by destruct (close_for_terminal_frame d lead r now).
    - apply outcome_refused; try done. by apply Hsame'. }
  destruct (is_current_active_round lead r) eqn:Hca; cbn [negb].
  2:{ apply outcome_refused; try done. apply Hsame'. intros []. congruence. }
  assert (Hop : operable d order_id round_id action actor now lead r).
  { split; try done. intros o' Ho'. destruct (decide (o' = "")) as [->|Hne]; [done|].
    by apply Hopen. }
  fold (action_record r order_id action actor note now uuid).
  destruct (insert_record_cases (action_record r order_id action actor note now uuid) d)
    as [[-> Hin]|[-> Hout]]; [by apply (outcome_taken _ _ _ _ _ _ _ _ lead r)|].
  cbn [result_bind]. pose proof (outcome_ok d order_id round_id action actor note now uuid lead r Hop Hout) as Hres.
  unfold after_action in Hres. subst round_id. by destruct (str_in action ["lost"; "request_store_change"]).
Qed.

Lemma after_action_frame d lead r action now :
  clue_follow_up_records (after_action d lead r action now) = clue_follow_up_records d.
Proof.
  unfold after_action. case_match; [apply close_for_reassignment_frame|].
  cbv zeta. by rewrite (proj1 (project_current_frame _ _ _)).
Qed.

Lemma apply_visible_evolves r action now : is_active_formal r = true ->
  round_evolves r (apply_visible_summary r action now).
Proof. intros Ha. unfold apply_visible_summary. cbv zeta. case_match; by split. Qed.

Lemma evolves_after_action d records lead r action now : follow_ok d -> locked d lead r ->
  is_current_active_round lead r = true ->
  evolves d (after_action (d <| clue_follow_up_records := records |>) lead r action now).
Proof.
  intros Hok Hlk Hca. set (d1 := d <| clue_follow_up_records := records |>).
  assert (He : evolves d d1) by (by apply evolves_same).
  assert (Hok1 : follow_ok d1) by (by apply (evolves_ok d)).
  assert (Hlk1 : locked d1 lead r) by (destruct Hlk; by split).
  etransitivity; [exact He|]. unfold after_action. case_match.
  - apply evolves_close_for_reassignment; [done|done|]. by apply current_active_owned.
  - cbv zeta.
    assert (He2 : evolves d1 (put_round (apply_visible_summary r action now) d1)).
    { apply (evolves_put_round d1 r); [apply Hlk1|]. apply apply_visible_evolves.
      by eapply current_active_formal. }
    etransitivity; [exact He2|]. apply evolves_project_current. by apply (evolves_ok d1).
Qed.

(** C9: an action is accepted exactly when it may be.  In a consistent database
    and with a fresh record id a follow-up action always answers; it answers ok
    exactly when the action is known, the round is the one named, of the order
    named and inside the actor's store scope, no evidence closes the order, and
    the round is the current active formal round of its lead; accepted, it adds
    one record with the actor's identity; refused, it adds none; and the database
    stays consistent. *)
Theorem follow_up_accepted_iff d order_id round_id result actor note now uuid
    (Hok : follow_ok d) (Hfresh : uuid ∉ (fu_follow_up_record_id <$> clue_follow_up_records d)) :
  exists d' res, apply_action d order_id round_id result actor note now uuid = Ok (d', res)
    /\ follow_ok d'
    /\ (fr_status res = "ok" <->
        exists lead r, operable d order_id round_id (strip (default "" result)) actor now lead r)
    /\ (forall lead r, operable d order_id round_id (strip (default "" result)) actor now lead r ->
         clue_follow_up_records d' = clue_follow_up_records d
           ++ [action_record r order_id (strip (default "" result)) actor note now uuid])
    /\ (fr_status res <> "ok" -> clue_follow_up_records d' = clue_follow_up_records d).
Proof.
  destruct (apply_action_outcome d order_id round_id result actor note now uuid Hok)
    as [d' s Hs He Hr Hno|lead r _ Hin|lead r Hop Hout]; [| done |].
  - exists d', (refused s). split_and!; [done|by apply (evolves_ok d)| |naive_solver|done].
    split; [done|naive_solver].
  - eexists _, _. split; [reflexivity|]. split.
    { apply (evolves_ok d); [done|]. destruct Hop. by apply evolves_after_action. }
    split_and!; [cbn; naive_solver| |done].
    intros lead' r' Hop'. rewrite after_action_frame. cbn.
    assert (r' = r) as ->; [|done].
    pose proof (lk_round _ _ _ (op_locked _ _ _ _ _ _ _ _ Hop)) as H1.
    pose proof (lk_round _ _ _ (op_locked _ _ _ _ _ _ _ _ Hop')) as H2.
    rewrite (op_round _ _ _ _ _ _ _ _ Hop) in H1. rewrite (op_round _ _ _ _ _ _ _ _ Hop') in H2. congruence.
Qed.

Lemma owned_current d lead r o : follow_ok d -> locked d lead r ->
  ml_current_assignment_round_id lead = Some (rn_assignment_round_id r) -> rn_order_id r = o ->
  owned_rounds d lead o !! rn_assignment_round_id r = Some r.
Proof.
  intros Hok [Hr Hl Hkey] Hc Ho. destruct (fo_rounds d Hok _ _ Hr) as [_ Hne].
  unfold owned_rounds. cbv zeta. rewrite Hc, !has_text_Some by (intros E; by rewrite E in Hne).
  cbn [mbind option_bind]. unfold lock_clue_assignment_round_for_update, str_eqb at 1.
  rewrite (bool_decide_false _ Hne), Hr, Hkey, opt_is_refl, Ho, str_eqb_refl. cbn [andb]. by rewrite lookup_singleton_eq.
Qed.

Lemma evidence_fences_action d order_id round_id result actor note now uuid r lead t kind
    (Hok : follow_ok d) (Hpool : pool_ok d)
    (Hlk : locked_round_state d round_id = (Some r, Some lead)) (Ha : is_active_formal r = true)
    (Ho : rn_order_id r = order_id) (Hact : str_in (strip (default "" result)) FOLLOW_UP_ACTIONS = true)
    (Hsc : can_access_clue_store repr_of actor (rn_assigned_store_id r) = true)
    (Hk : terminal_kind (terminal_evidence_of terminal_evidence d now order_id) = Some (t, kind)) :
  exists d' lead',
    apply_action d order_id round_id result actor note now uuid = Ok (d', refused "conflict")
    /\ clue_follow_up_records d' = clue_follow_up_records d
    /\ clue_master_leads d' !! ml_lead_key lead = Some lead' /\ closed_by kind lead lead'
    /\ closed_in d' round_id
    /\ get_active_headquarters_pool_entry d' (ml_lead_key lead) = None.
Proof.
  destruct (locked_round_state_spec _ _ _ _ Hok Hlk) as [Hrid [Hr Hl Hkey]].
  destruct (fo_current d Hok _ _ Hr Ha) as (k & l & Hk' & Hl' & Hcur & Hord & Hne).
  assert (l = lead) as -> by congruence. rewrite Ho in Hord, Hne. clear k Hk' Hl'.
  assert (Hnr : strip round_id <> "") by (rewrite <- Hrid; apply (fo_rounds d Hok _ _ Hr)).
  unfold apply_action, apply_follow_up_action. cbv zeta.
  rewrite Hact, Hlk, Ho, str_eqb_refl, Hsc. cbn [negb].
  destruct (refresh_spec hexdigest isoformat terminal_evidence d lead now None Hok Hl)
    as [Hopen|d1 lead1 o kind' t' Hoid Hone Hk' Hcb Hm Hrec _ Hp Hev _ Hcl].
  { rewrite (Hopen order_id Hord) in Hk; [done|]. intros ->. done. }
  assert (o = order_id) as -> by congruence. assert (kind' = kind) as -> by congruence.
  exists d1, lead1. split_and!; try done.
  - by rewrite Hm, lookup_insert_eq.
  - apply (Hcl round_id r); [|by rewrite <- Hrid|intros ->; done].
    rewrite <- Hrid. by apply owned_current.
  - destruct Hp as (at_ & reason & d0 & E0 & E1). unfold get_active_headquarters_pool_entry. rewrite E1.
    apply (close_pool_ok d0 (ml_lead_key lead) at_ reason "closed"); [|done].
    destruct Hpool. split; by rewrite E0.
Qed.

(** Terminal evidence fences an action.  When the raw tables already show the
    order of an active round verified, refunded or closed, an action on it is
    refused as a conflict, adds no record, and closes the lead, the round and the
    lead's headquarters entry, whatever the lead's own status still says. *)
Lemma terminal_evidence_fences d order_id round_id result actor note now uuid r lead t kind
    (Hok : follow_ok d) (Hpool : pool_ok d)
    (Hlk : locked_round_state d round_id = (Some r, Some lead)) (Ha : is_active_formal r = true)
    (Ho : rn_order_id r = order_id) (Hact : str_in (strip (default "" result)) FOLLOW_UP_ACTIONS = true)
    (Hsc : can_access_clue_store repr_of actor (rn_assigned_store_id r) = true)
    (Hk : terminal_kind (terminal_evidence_of terminal_evidence d now order_id) = Some (t, kind)) :
  exists d' lead',
    apply_action d order_id round_id result actor note now uuid = Ok (d', refused "conflict")
    /\ clue_follow_up_records d' = clue_follow_up_records d
    /\ clue_master_leads d' !! ml_lead_key lead = Some lead' /\ closed_by kind lead lead'
    /\ closed_in d' round_id
    /\ get_active_headquarters_pool_entry d' (ml_lead_key lead) = None.
Proof. by eapply evidence_fences_action. Qed.

(** ** Due transitions *)

Definition step_due := due_step hexdigest isoformat terminal_evidence.

(** No deadline of the round has passed and its order is open. *)
Definition idle_row (now : instant) (lead : ClueMasterLead) (r : ClueAssignmentRound) : bool :=
  let sla := match rn_first_sla_expires_at r with Some t => Some t | None => rn_expires_at r end in
  negb (str_in (ml_normalized_order_status lead) TERMINAL_ORDER_STATUSES)
  && (negb (is_current_active_round lead r) || negb (default false (rn_auto_expiry_enabled r))
      || (negb (negb (rn_is_followed r) && match sla with Some t => t <=? now | None => false end)
          && negb (match rn_protection_expires_at r with Some t => t <=? now | None => false end))).

Definition idle (now : instant) (terminal : string -> option TerminalEvidence) (d : cluedb) (id : string) : Prop :=
  forall r lead, locked_round_state d id = (Some r, Some lead) ->
    is_current_self_owned_round lead r = true -> is_active_formal r = true ->
    idle_row now lead r = true /\ terminal_kind (terminal (rn_order_id r)) = None.

(** What one due step does: nothing, or it closes its own round, dropping or
    closing the lead that has it as its current round, and touches no other. *)
Inductive due_effect (now : instant) (terminal : string -> option TerminalEvidence) (d : cluedb)
    (s : due_stats) (id : string) : cluedb * due_stats -> Prop :=
| due_quiet : idle now terminal d id -> due_effect now terminal d s id (d, s)
| due_closes d' s' lead r : locked d lead r -> rn_assignment_round_id r = id ->
    is_current_self_owned_round lead r = true ->
    evolves d d' -> clue_follow_up_records d' = clue_follow_up_records d ->
    (is_active_formal r = true -> closed_in d' id) ->
    (forall i, i <> id -> clue_assignment_rounds d' !! i = clue_assignment_rounds d !! i) ->
    (forall k, k <> ml_lead_key lead -> clue_master_leads d' !! k = clue_master_leads d !! k) ->
    due_effect now terminal d s id (d', s').

Lemma owned_only_current d lead o i id : ml_current_assignment_round_id lead = Some id -> id <> "" ->
  follow_ok d -> i <> id -> owned_rounds d lead o !! i = None.
Proof.
  intros Hc Hne Hok Hi. destruct (owned_rounds d lead o !! i) as [r|] eqn:E; [|done].
  unfold owned_rounds in E. cbv zeta in E. rewrite Hc, !has_text_Some in E by done.
  cbn [mbind option_bind] in E. unfold lock_clue_assignment_round_for_update in E.
  destruct (str_eqb (strip id) ""); [by rewrite lookup_empty in E|].
  destruct (clue_assignment_rounds d !! id) as [s|] eqn:Hs; [|by rewrite lookup_empty in E].
  destruct (_ && _); [|by rewrite lookup_empty in E].
  apply lookup_singleton_Some in E as [<- _]. by destruct Hi; apply (fo_rounds d Hok _ _ Hs).
Qed.

Lemma due_step_effect d s id now terminal : follow_ok d ->
  (forall o, strip o <> "" -> terminal o = None ->
     forall r, clue_assignment_rounds d !! id = Some r -> is_active_formal r = true -> rn_order_id r <> o) ->
  due_effect now terminal d s id (step_due now terminal (d, s) id).
Proof.
  intros Hok Hterm. unfold step_due, due_step.
  destruct (locked_round_state d id) as [[r|] [lead|]] eqn:Hlk;
    try (apply due_quiet; intros ? ? E; rewrite Hlk in E; discriminate).
  destruct (locked_round_state_spec _ _ _ _ Hok Hlk) as [Hrid Hlocked].
  destruct (is_current_self_owned_round lead r) eqn:Hown; cbn [negb].
  2:{ apply due_quiet. intros ? ? E Ho. rewrite Hlk in E. injection E as <- <-. congruence. }
  destruct (current_self_owned _ _ Hown) as [Hmode Hcur].
  assert (Hre : forall cause s', due_effect now terminal d s id (close_for_reassignment d lead r cause now, s')).
  { intros cause s'. destruct (close_for_reassignment_frame d lead r cause now) as (F1 & F2 & F3).
    eapply due_closes; [exact Hlocked|done|done|by apply evolves_close_for_reassignment|done|..|done].
    - intros _ x. rewrite F2, Hrid, lookup_insert_eq. intros [= <-]. by apply inactive_status.
    - intros i Hi. by rewrite F2, Hrid, lookup_insert_ne. }
  destruct (refresh_spec hexdigest isoformat terminal_evidence d lead now (terminal (rn_order_id r)) Hok
    (lk_lead _ _ _ Hlocked)) as [Hopen|d1 lead1 o kind t Hoid Hone _ Hcb Hm Hrec _ _ Hev Hfr Hcl].
  2:{ assert (Hidne : id <> "").
      { destruct (fo_rounds d Hok _ _ (lk_round _ _ _ Hlocked)) as [_ Hne]. intros ->. by rewrite Hrid in Hne. }
      rewrite Hrid in Hcur. eapply due_closes; [exact Hlocked|done|done|done|done|..].
      - intros Ha. destruct (fo_current d Hok _ _ (lk_round _ _ _ Hlocked) Ha)
          as (k & l & Hk & Hl & _ & Ho & _).
        assert (l = lead) as -> by (pose proof (lk_lead _ _ _ Hlocked); pose proof (lk_key _ _ _ Hlocked); congruence).
        assert (o = rn_order_id r) as -> by congruence.
        apply (Hcl id r); [|done|done]. rewrite <- Hrid. apply owned_current; try done. by rewrite Hrid.
      - intros i Hi. apply Hfr. by apply (owned_only_current _ _ _ _ id).
      - intros k Hk. by rewrite Hm, lookup_insert_ne. }
  destruct (str_in (ml_normalized_order_status lead) TERMINAL_ORDER_STATUSES) eqn:Hts.
  { destruct (close_for_terminal_frame d lead r now) as (F1 & F2 & r' & F3 & F4).
    eapply due_closes; [exact Hlocked|done|done|by apply evolves_close_for_terminal|done|..|done].
    - intros _ x. rewrite F3, Hrid, lookup_insert_eq. intros [= <-]. by apply inactive_status.
    - intros i Hi. by rewrite F3, Hrid, lookup_insert_ne. }
  assert (Hq : idle_row now lead r = true -> due_effect now terminal d s id (d, s)).
  { intros Hi. apply due_quiet. intros ? ? E _ Ha. rewrite Hlk in E. injection E as <- <-. split; [done|].
    destruct (fo_current d Hok _ _ (lk_round _ _ _ Hlocked) Ha) as (k & l & Hk & Hl & _ & Ho & Hne).
    assert (l = lead) as -> by (pose proof (lk_lead _ _ _ Hlocked); pose proof (lk_key _ _ _ Hlocked); congruence).
    specialize (Hopen _ Ho ltac:(intros E; by rewrite E in Hne)).
    destruct (terminal (rn_order_id r)) eqn:Et; [done|].
    destruct (Hterm _ Hne Et r); [by rewrite <- Hrid; apply Hlocked|done|done]. }
  unfold idle_row in Hq. rewrite Hts in Hq. cbn [negb andb] in Hq. clear Hopen Hterm.
  repeat (case_match; cbn [negb andb orb] in *); first [by apply Hq | apply Hre].
Qed.

(** Evidence loaded for the orders of a set of rounds. *)
Definition covers (d : cluedb) (terminal : string -> option TerminalEvidence) (ids : list string) : Prop :=
  forall id r, id ∈ ids -> clue_assignment_rounds d !! id = Some r -> is_active_formal r = true ->
    strip (rn_order_id r) <> "" -> is_Some (terminal (rn_order_id r)).

Lemma covers_evolves d d' terminal ids : evolves d d' -> covers d terminal ids -> covers d' terminal ids.
Proof.
  intros [HR _ _] Hc id r' Hid Hr' Ha Hne. specialize (HR id). rewrite Hr' in HR.
  destruct (clue_assignment_rounds d !! id) as [r|] eqn:Hr; [|done].
  rewrite (re_order _ _ HR) in *. apply (Hc id r); try done. by apply HR.
Qed.

Lemma due_step_effect' d s id now terminal ids : follow_ok d -> covers d terminal ids -> id ∈ ids ->
  due_effect now terminal d s id (step_due now terminal (d, s) id).
Proof.
  intros Hok Hc Hid. apply due_step_effect; [done|]. intros o Hne Hn r Hr Ha <-.
  destruct (Hc id r Hid Hr Ha Hne) as [t Ht]. congruence.
Qed.

Definition settled (now : instant) (terminal : string -> option TerminalEvidence) (d : cluedb) (id : string) : Prop :=
  closed_in d id \/ idle now terminal d id.

Lemma effect_evolves now terminal d s id st : due_effect now terminal d s id st ->
  evolves d st.1 /\ clue_follow_up_records st.1 = clue_follow_up_records d.
Proof. intros []; [split; [reflexivity|done]|done]. Qed.

(** A due step settles its round, *)
Lemma due_effect_settles now terminal d s id st : due_effect now terminal d s id st ->
  settled now terminal st.1 id.
Proof.
  intros [Hi|d' s' lead r Hlk <- Hown He _ Hcl _ _]; [by right|left]. cbn.
  destruct (is_active_formal r) eqn:Ha; [by apply Hcl|].
  apply (closed_in_evolves d); [apply He|]. intros x. rewrite (lk_round _ _ _ Hlk). by intros [= <-].
Qed.

(** and leaves the rounds that are settled alone. *)
Lemma due_effect_keeps now terminal d s id st id' : follow_ok d -> due_effect now terminal d s id st ->
  settled now terminal d id' -> settled now terminal st.1 id'.
Proof.
  intros Hok Heff Hs. destruct (decide (id' = id)) as [->|Hne]; [by eapply due_effect_settles|].
  destruct Heff as [_|d' s' lead r Hlk <- Hown He _ _ Hfr Hfl]; [done|]. cbn.
  destruct Hs as [Hc|Hi]; [left; by apply (closed_in_evolves d); [apply He|]|right].
  intros r1 lead1 Hlk1 Hown1 Ha1.
  assert (Hok' : follow_ok d') by (by apply (evolves_ok d)).
  destruct (locked_round_state_spec _ _ _ _ Hok' Hlk1) as [<- [Hr1 Hl1 Hk1]].
  destruct (current_self_owned _ _ Hown) as [_ Hcur]. destruct (current_self_owned _ _ Hown1) as [_ Hcur1].
  destruct (decide (ml_lead_key lead1 = ml_lead_key lead)) as [Ek|Ek].
  - pose proof (ev_leads _ _ He (ml_lead_key lead)) as Hle. rewrite <- Ek in Hle at 2.
    rewrite (lk_lead _ _ _ Hlk), Hl1 in Hle. destruct Hle as [_ _ [E|[E _]]]; congruence.
  - apply (Hi r1 lead1); [|done|done]. rewrite Hfr in Hr1 by done. rewrite Hfl in Hl1 by done.
    unfold locked_round_state. rewrite Hr1, Hk1. rewrite has_text_Some; [cbn; by rewrite Hl1|].
    destruct (fo_leads d Hok _ _ Hl1) as [_ Hn]. intros E. by rewrite E in Hn.
Qed.

Lemma due_fold_spec ids0 ids d s now terminal : follow_ok d -> covers d terminal ids0 -> ids ⊆ ids0 ->
  let d' := (foldl (step_due now terminal) (d, s) ids).1 in
  evolves d d' /\ clue_follow_up_records d' = clue_follow_up_records d
  /\ (forall id, id ∈ ids \/ settled now terminal d id -> settled now terminal d' id).
Proof.
  cbv zeta. revert d s. induction ids as [|id ids IH]; intros d s Hok Hc Hsub; cbn [foldl].
  { split_and!; [reflexivity|done|]. intros id [?%elem_of_nil|]; done. }
  pose proof (due_step_effect' d s id now terminal ids0 Hok Hc ltac:(set_solver)) as Heff.
  destruct (effect_evolves _ _ _ _ _ _ Heff) as [He Hr].
  pose proof (due_effect_settles _ _ _ _ _ _ Heff) as Hset.
  pose proof (fun id' => due_effect_keeps _ _ _ _ _ _ id' Hok Heff) as Hkeep.
  destruct (step_due now terminal (d, s) id) as [d1 s1]. cbn in *.
  destruct (IH d1 s1) as (He' & Hr' & Hs'); [by apply (evolves_ok d)|by apply (covers_evolves d)|set_solver|].
  split_and!; [by etransitivity|congruence|]. intros id' [[->|Hin]%elem_of_cons|Hs]; apply Hs'; auto.
Qed.

Lemma elem_of_due_refs d id o : follow_ok d ->
  (id, o) ∈ due_refs d <->
  exists r, clue_assignment_rounds d !! id = Some r /\ is_active_formal r = true /\ rn_order_id r = o.
Proof.
  intros Hok. unfold due_refs. rewrite list_elem_of_fmap. setoid_rewrite merge_sort_Permutation.
  setoid_rewrite list_elem_of_In. setoid_rewrite List.filter_In. setoid_rewrite <- list_elem_of_In.
  split.
  - intros (r & [= -> ->] & Hr & Ha). apply list_elem_of_fmap in Hr as ([i x] & -> & Hx).
    apply elem_of_map_to_list in Hx. cbn in *. destruct (fo_rounds d Hok _ _ Hx) as [-> _]. eauto.
  - intros (r & Hr & Ha & <-). exists r. split; [by destruct (fo_rounds d Hok _ _ Hr) as [-> _]|]. split; [|done].
    apply list_elem_of_fmap. exists (id, r). split; [done|]. by apply elem_of_map_to_list.
Qed.

Lemma due_refs_orders d id r : follow_ok d -> clue_assignment_rounds d !! id = Some r ->
  is_active_formal r = true -> id ∈ (due_refs d).*1 /\ rn_order_id r ∈ (due_refs d).*2.
Proof.
  intros Hok Hr Ha. assert (Hin : (id, rn_order_id r) ∈ due_refs d) by (apply elem_of_due_refs; eauto).
  split; [by apply (list_elem_of_fmap_2 fst _ _ Hin)|by apply (list_elem_of_fmap_2 snd _ _ Hin)].
Qed.

(** The evidence the due run of [d] loads. *)
Definition due_evidence (d : cluedb) (now : instant) (order_id : string) : option TerminalEvidence :=
  if str_in order_id ((due_refs d).*2) then terminal_evidence_of terminal_evidence d now order_id else None.

Lemma due_evidence_of d now id r : follow_ok d -> clue_assignment_rounds d !! id = Some r ->
  is_active_formal r = true ->
  due_evidence d now (rn_order_id r) = terminal_evidence_of terminal_evidence d now (rn_order_id r).
Proof.
  intros Hok Hr Ha. unfold due_evidence, str_in.
  by rewrite bool_decide_true by (by eapply due_refs_orders).
Qed.

Lemma due_evidence_covers d now : follow_ok d -> covers d (due_evidence d now) ((due_refs d).*1).
Proof.
  intros Hok id r _ Hr Ha Hne. rewrite (due_evidence_of d now id r) by done.
  unfold terminal_evidence_of, str_eqb. rewrite bool_decide_false by done. eauto.
Qed.

Lemma process_due_fold d now :
  process_due d now = foldl (step_due now (due_evidence d now)) (d, MkDueStats 0 0 0) ((due_refs d).*1).
Proof. done. Qed.

(** An idle round is left alone. *)
Lemma idle_step d s id r now terminal : follow_ok d -> clue_assignment_rounds d !! id = Some r ->
  is_active_formal r = true -> is_Some (terminal (rn_order_id r)) -> idle now terminal d id ->
  step_due now terminal (d, s) id = (d, s).
Proof.
  intros Hok Hr Ha [t Ht] Hi. unfold step_due, due_step.
  destruct (locked_round_state d id) as [[r'|] [lead|]] eqn:Hlk; try done.
  destruct (locked_round_state_spec _ _ _ _ Hok Hlk) as [Hrid Hlocked].
  assert (r' = r) as -> by (pose proof (lk_round _ _ _ Hlocked); congruence).
  destruct (is_current_self_owned_round lead r) eqn:Hown; [|done]. cbn [negb].
  destruct (Hi r lead Hlk Hown Ha) as [Hrow Hk].
  destruct (refresh_spec hexdigest isoformat terminal_evidence d lead now (terminal (rn_order_id r)) Hok
    (lk_lead _ _ _ Hlocked)) as [_|? ? o kind e _ _ Hk'].
  - unfold idle_row in Hrow. apply andb_true_iff in Hrow as [H1 H2]. apply negb_true_iff in H1. rewrite H1.
    repeat (case_match; cbn [negb andb orb] in *; try done).
  - rewrite Ht in *. congruence.
Qed.

Lemma idle_fold ids d s now terminal :
  (forall id s, id ∈ ids -> step_due now terminal (d, s) id = (d, s)) ->
  foldl (step_due now terminal) (d, s) ids = (d, s).
Proof.
  revert s. induction ids as [|id ids IH]; intros s H; cbn [foldl]; [done|].
  rewrite H by left. apply IH. intros. apply H. by right.
Qed.

(** The due run finishes its work.  After a run at a given time every active
    formal round that is left has an open order and no passed deadline, no
    follow-up record was touched, and a second run at the same time with the same
    evidence changes nothing and counts nothing. *)
Lemma due_run_settles d now (Hok : follow_ok d)
    (Hev : forall o, terminal_evidence (process_due d now).1 now o = terminal_evidence d now o) :
  let d' := (process_due d now).1 in
  clue_follow_up_records d' = clue_follow_up_records d
  /\ (forall id r lead, locked_round_state d' id = (Some r, Some lead) -> is_active_formal r = true ->
       idle_row now lead r = true
       /\ terminal_kind (terminal_evidence_of terminal_evidence d now (rn_order_id r)) = None)
  /\ process_due d' now = (d', MkDueStats 0 0 0).
Proof.
  cbv zeta. rewrite (process_due_fold d now) in *.
  destruct (due_fold_spec _ ((due_refs d).*1) d (MkDueStats 0 0 0) now _ Hok (due_evidence_covers d now Hok))
    as (He & Hrec & Hset); [done|].
  set (d' := (foldl _ _ _).1) in *. assert (Hok' : follow_ok d') by (by apply (evolves_ok d)).
  assert (Hidle : forall id r, clue_assignment_rounds d' !! id = Some r -> is_active_formal r = true ->
    idle now (due_evidence d now) d' id
    /\ due_evidence d now (rn_order_id r) = terminal_evidence_of terminal_evidence d now (rn_order_id r)).
  { intros id r' Hr' Ha. pose proof (ev_rounds _ _ He id) as HR. rewrite Hr' in HR.
    destruct (clue_assignment_rounds d !! id) as [r|] eqn:Hr; [|done].
    pose proof (re_active _ _ HR Ha) as Har. split.
    - destruct (Hset id) as [Hc|Hi]; [|by rewrite (Hc _ Hr') in Ha|done].
      left. by eapply due_refs_orders.
    - rewrite (re_order _ _ HR). by apply (due_evidence_of d now id). }
  split_and!; [done| |].
  - intros id r lead Hlk Ha. destruct (locked_round_state_spec _ _ _ _ Hok' Hlk) as [Hid [Hr Hl Hk]].
    rewrite Hid in Hr. destruct (Hidle id r Hr Ha) as [Hi <-]. apply (Hi r lead Hlk); [|done].
    destruct (fo_current d' Hok' _ _ Hr Ha) as (k & l & Hk' & Hl' & Hc & _).
    assert (l = lead) as -> by congruence. unfold is_active_formal in Ha. tests.
    unfold is_current_self_owned_round. apply andb_true_iff. split; [by apply str_eqb_true|].
    apply opt_is_true. by rewrite Hc, Hid.
  - rewrite process_due_fold. apply idle_fold. intros id s Hid.
    apply list_elem_of_fmap in Hid as ([i o] & -> & Hin).
    apply (elem_of_due_refs d' _ _ Hok') in Hin as (r & Hr & Ha & <-). cbn [fst].
    destruct (Hidle i r Hr Ha) as [Hi Hde]. apply (idle_step d' s i r); [done|done|done| |].
    + apply (due_evidence_covers d' now Hok' i r); [by eapply due_refs_orders|done|done|].
      by destruct (fo_current d' Hok' _ _ Hr Ha) as (? & ? & _ & _ & _ & _ & ?).
    + intros r1 lead Hlk1 Hown1 Ha1. destruct (Hi r1 lead Hlk1 Hown1 Ha1) as [H1 H2]. split; [done|].
      assert (r1 = r) as -> by (destruct (locked_round_state_round _ _ _ _ Hok' Hlk1) as [E1 E2]; congruence).
      rewrite (due_evidence_of d' now i r) by done. rewrite <- H2, Hde.
      unfold terminal_evidence_of. by rewrite Hev.
Qed.

(** ** Deleting a record *)

Definition soft_delete := soft_delete_follow_up_record repr_of.

Lemma soft_delete_evolves d id actor reason now : follow_ok d ->
  evolves d (soft_delete d id actor reason now).1.
Proof.
  intros Hok. unfold soft_delete, soft_delete_follow_up_record.
  destruct (negb _); [reflexivity|]. destruct (List.find _ _) as [f|]; [|reflexivity].
  destruct (locked_round_state d (fu_assignment_round_id f)) as [[r|] lo] eqn:Hlk; [|reflexivity].
  destruct (negb _); [reflexivity|].
  destruct (str_eqb (rn_execution_mode r) BUSINESS_EXECUTION_MODE) eqn:Hm; [|reflexivity]. cbn [negb].
  case_match; [reflexivity|]. cbv zeta. cbn [fst]. tests.
  match goal with |- context [put_record ?x d] => set (d1 := put_record x d) end.
  assert (He : evolves d d1) by (by apply evolves_same).
  assert (Hok1 : follow_ok d1) by (by apply (evolves_ok d)).
  destruct (locked_round_state_round _ _ _ _ Hok Hlk) as [Hr _].
  etransitivity; [exact He|]. destruct lo as [lead|]; [|by apply evolves_recalculate_detached].
  destruct (is_current_active_round lead r) eqn:Hca.
  - apply evolves_recalculate_active; [done|done|]. by eapply current_active_formal.
  - by apply evolves_recalculate_detached.
Qed.

(** One call of the follow-up component, by any actor at any time. *)
Inductive follow_step : cluedb -> cluedb -> Prop :=
| step_action d order_id round_id result actor note now uuid d' res :
    apply_action d order_id round_id result actor note now uuid = Ok (d', res) -> follow_step d d'
| step_due_run d now : follow_step d (process_due d now).1
| step_delete d id actor reason now : follow_step d (soft_delete d id actor reason now).1.

Lemma follow_step_evolves d d' : follow_ok d -> follow_step d d' -> evolves d d'.
Proof.
  intros Hok Hs. revert Hok.
  destruct Hs as [d0 order_id round_id result actor note now uuid d1 res H|d0 now|d0 id actor reason now]; intros Hok.
  - pose proof (apply_action_outcome d0 order_id round_id result actor note now uuid Hok) as Ho.
    rewrite H in Ho. inversion Ho as [? ? ? He|?|lead r Hop]; subst; [done|]. destruct Hop.
    by apply evolves_after_action.
  - rewrite process_due_fold. by apply (due_fold_spec _ _ _ _ _ _ Hok (due_evidence_covers d0 now Hok)).
  - by apply soft_delete_evolves.
Qed.

Lemma follow_steps_evolve d d' : rtc follow_step d d' -> follow_ok d -> follow_ok d' /\ evolves d d'.
Proof.
  induction 1 as [d|d d1 d' Hs _ IH]; intros Hok; [split; [done|reflexivity]|].
  pose proof (follow_step_evolves _ _ Hok Hs) as He.
  destruct IH as [Hok' He']; [by apply (evolves_ok d)|]. split; [done|by etransitivity].
Qed.
End Props.
