(* ===== verification/FollowUpUndo.v ===== *)
(** * Follow-up summaries and their undoing

    The summary a round carries is the one its visible records give: recording an
    action updates it incrementally, deleting a record recalculates it, and the
    two agree. *)
From S2P Require Import Prelude PyValue Jobs Clues HqPool ClueStatus FollowUp FollowUpInv FollowUpProps.

#[export] Instance earlier_record_trans : Transitive earlier_record.
Proof.
  intros a b c [H1|[H1 H1']] [H2|[H2 H2']]; [left; lia..|].
  right. split; [lia|]. by etransitivity.
Qed.

#[export] Instance earlier_record_total : Total earlier_record.
Proof.
  intros a b. unfold earlier_record.
  destruct (Z.lt_trichotomy (fu_created_at a) (fu_created_at b)) as [H|[H|H]]; [by left; left| |by right; left].
  destruct (String.le_total (fu_follow_up_record_id a) (fu_follow_up_record_id b)); [left|right]; right; auto.
Qed.

Definition visible_of (round_id : string) (f : ClueFollowUpRecord) : bool :=
  str_eqb (fu_assignment_round_id f) round_id && bool_decide (fu_deleted_at f = None).

(** A new latest record comes last. *)
Lemma sort_snoc (l : list ClueFollowUpRecord) f :
  NoDup (fu_follow_up_record_id <$> (l ++ [f])) -> (forall g, g ∈ l -> fu_created_at g < fu_created_at f) ->
  merge_sort earlier_record (l ++ [f]) = merge_sort earlier_record l ++ [f].
Proof.
  intros Hnd Hlt. apply (StronglySorted_unique_strong earlier_record).
  - intros x y Hx Hy Hxy Hyx. rewrite merge_sort_Permutation in Hx.
    rewrite elem_of_app, merge_sort_Permutation, <- elem_of_app in Hy.
    apply (fmap_NoDup_inj fu_follow_up_record_id (l ++ [f])); try done.
    destruct Hxy as [?|[? H1]], Hyx as [?|[? H2]]; try lia. by apply (anti_symm String.le).
  - apply StronglySorted_merge_sort; apply _.
  - apply StronglySorted_app. split_and!.
    + intros x y Hx ->%list_elem_of_singleton. rewrite merge_sort_Permutation in Hx. left. by apply Hlt.
    + apply StronglySorted_merge_sort; apply _.
    + repeat constructor.
  - by rewrite !merge_sort_Permutation.
Qed.

Lemma visible_snoc d d' round_id f :
  clue_follow_up_records d' = clue_follow_up_records d ++ [f] ->
  NoDup (fu_follow_up_record_id <$> clue_follow_up_records d') ->
  (forall g, g ∈ clue_follow_up_records d -> visible_of round_id g = true -> fu_created_at g < fu_created_at f) ->
  visible_of round_id f = true ->
  visible_records d' round_id = visible_records d round_id ++ [f].
Proof.
  intros Hd' Hnd Hlt Hf. unfold visible_records. fold (visible_of round_id).
  rewrite Hd' in Hnd |- *. rewrite lfilter_app. cbn. rewrite Hf. apply sort_snoc.
  - apply (fmap_filter_sub _ (visible_of round_id)) in Hnd. rewrite lfilter_app in Hnd. cbn in Hnd. by rewrite Hf in Hnd.
  - intros g Hg. apply list_elem_of_In, List.filter_In in Hg as [Hg Hv]. by apply Hlt; [apply list_elem_of_In|].
Qed.

(** Hiding the record again gives the former records back. *)
Lemma visible_hidden (l : list ClueFollowUpRecord) f f' round_id :
  fu_follow_up_record_id f' = fu_follow_up_record_id f -> visible_of round_id f' = false ->
  fu_follow_up_record_id f ∉ (fu_follow_up_record_id <$> l) ->
  List.filter (visible_of round_id)
    ((fun x => if decide (fu_follow_up_record_id x = fu_follow_up_record_id f') then f' else x) <$> (l ++ [f]))
  = List.filter (visible_of round_id) l.
Proof.
  intros Hid Hv Hn. rewrite fmap_app, lfilter_app. cbn. rewrite decide_True, Hv, app_nil_r by done. f_equal.
  rewrite <- (list_fmap_id l) at 2. apply list_fmap_ext. intros i x Hx. rewrite decide_False; [done|].
  intros E. apply Hn. rewrite <- Hid, <- E. apply list_elem_of_fmap_2. by eapply list_elem_of_lookup_2.
Qed.

(** ** Incremental and recalculated summaries *)

Lemma protection_actions action : str_in action FOLLOW_UP_ACTIONS = true ->
  str_in action ["lost"; "request_store_change"] = false -> str_in action PROTECTION_ACTIONS = true.
Proof.
  unfold str_in, FOLLOW_UP_ACTIONS, PROTECTION_ACTIONS. rewrite !bool_decide_eq_true, bool_decide_eq_false. set_solver.
Qed.

Lemma round_eta (r : ClueAssignmentRound) : eta r = r.
Proof. by destruct r. Qed.

(** The fields a summary sets. *)
Definition summary_fields (r : ClueAssignmentRound) :=
  (rn_followed_at r, rn_follow_result r, rn_is_followed r, rn_is_follow_success r, rn_round_status r,
   rn_protection_started_at r, rn_protection_expires_at r).

(** Recalculation depends on the round only through the other fields. *)
Lemma active_summary_forget l r action now :
  (active_summary l (apply_visible_summary r action now)) <| rn_updated_at := rn_updated_at r |>
  = active_summary l r.
Proof.
  unfold active_summary, apply_visible_summary. cbv zeta. destruct r.
  destruct (last l); [destruct (List.find protects l)|]; case_match; reflexivity.
Qed.

Lemma apply_visible_recalculated l f r action now :
  active_summary l r = r -> fu_follow_result f = action -> fu_created_at f = now ->
  str_in action PROTECTION_ACTIONS = true ->
  active_summary (l ++ [f]) (apply_visible_summary r action now) = apply_visible_summary r action now.
Proof.
  intros Hr Hf Hn Hp. unfold active_summary at 1. rewrite last_snoc, find_app.
  assert (Hpf : protects f = true) by (unfold protects; by rewrite Hf).
  assert (Hst : match List.find protects l with
    | Some g => rn_protection_started_at r = Some (fu_created_at g)
                /\ rn_protection_expires_at r = Some (fu_created_at g + days (or_int (rn_protection_days r) 7))
    | None => rn_protection_started_at r = None
    end).
  { pose proof (f_equal rn_protection_started_at Hr) as H1. pose proof (f_equal rn_protection_expires_at Hr) as H2.
    unfold active_summary in H1, H2. destruct (last l) as [x|] eqn:El.
    - destruct (List.find protects l); [|exact (eq_sym H1)].
      split; [exact (eq_sym H1)|exact (eq_sym H2)].
    - apply last_None in El as ->. exact (eq_sym H1). }
  clear Hr. unfold apply_visible_summary. cbv zeta. cbn [List.find]. rewrite Hpf, Hp, Hf, Hn. destruct r; cbn in *.
  destruct (List.find protects l) as [g|]; cbn.
  - destruct Hst as [-> ->]. rewrite bool_decide_false by discriminate.
    cbv -[days or_int fu_created_at Z.add]. reflexivity.
  - rewrite Hst, bool_decide_true by reflexivity. cbv -[days or_int fu_created_at Z.add]. rewrite Hn. reflexivity.
Qed.

(** ** Recording and deleting an action *)

Section Undo.
Context (repr_of : pyval -> string) (hexdigest : string -> string) (isoformat : instant -> string)
  (terminal_evidence : cluedb -> instant -> string -> TerminalEvidence).

#[local] Notation apply_action := (apply_action repr_of hexdigest isoformat terminal_evidence).
#[local] Notation soft_delete := (soft_delete repr_of).
#[local] Notation operable := (operable repr_of terminal_evidence).

Lemma find_last (l : list ClueFollowUpRecord) f :
  fu_follow_up_record_id f ∉ (fu_follow_up_record_id <$> l) ->
  List.find (fun g => str_eqb (fu_follow_up_record_id g) (fu_follow_up_record_id f)) (l ++ [f]) = Some f.
Proof.
  intros Hn. rewrite find_app. destruct (List.find _ l) as [g|] eqn:E.
  - apply List.find_some in E as [Hg Eg]. tests. destruct Hn. rewrite <- Eg.
    apply list_elem_of_fmap_2. by apply list_elem_of_In.
  - cbn. by rewrite str_eqb_refl.
Qed.

(** The accepted, not closing, action and the row it leaves. *)
Lemma accepted_row d order_id round_id result actor note now uuid lead r : follow_ok d ->
  uuid ∉ (fu_follow_up_record_id <$> clue_follow_up_records d) ->
  operable d order_id round_id (strip (default "" result)) actor now lead r ->
  str_in (strip (default "" result)) ["lost"; "request_store_change"] = false ->
  exists d' res, apply_action d order_id round_id result actor note now uuid = Ok (d', res)
    /\ fr_status res = "ok" /\ follow_ok d'
    /\ clue_follow_up_records d' = clue_follow_up_records d
         ++ [action_record repr_of r order_id (strip (default "" result)) actor note now uuid]
    /\ clue_assignment_rounds d'
       = <[round_id := apply_visible_summary r (strip (default "" result)) now]> (clue_assignment_rounds d)
    /\ clue_master_leads d' = clue_master_leads d.
Proof.
  intros Hok Hfresh Hop Hkeep.
  destruct (apply_action_outcome repr_of hexdigest isoformat terminal_evidence d order_id round_id result actor note now uuid Hok)
    as [d' s _ _ _ Hno|lead' r' _ Hin|lead' r' Hop' _]; [by destruct (Hno lead r)|done|].
  pose proof (lk_round _ _ _ (op_locked _ _ _ _ _ _ _ _ _ _ Hop)) as H1.
  pose proof (lk_round _ _ _ (op_locked _ _ _ _ _ _ _ _ _ _ Hop')) as H2.
  rewrite (op_round _ _ _ _ _ _ _ _ _ _ Hop) in H1. rewrite (op_round _ _ _ _ _ _ _ _ _ _ Hop') in H2.
  assert (r' = r) as -> by congruence.
  eexists _, _. split; [reflexivity|]. split; [done|]. split.
  { apply (evolves_ok d); [done|]. destruct Hop'. by apply evolves_after_action. }
  rewrite after_action_frame. unfold after_action. rewrite Hkeep. cbv zeta.
  destruct (project_current_frame (put_round (apply_visible_summary r (strip (default "" result)) now)
    (d <| clue_follow_up_records := clue_follow_up_records d ++
       [action_record repr_of r order_id (strip (default "" result)) actor note now uuid] |>))
    (apply_visible_summary r (strip (default "" result)) now) now) as (_ & -> & ->).
  split_and!; [done| |done]. cbn.
  assert (rn_assignment_round_id (apply_visible_summary r (strip (default "" result)) now) = round_id) as ->; [|done].
  rewrite <- (op_round _ _ _ _ _ _ _ _ _ _ Hop). unfold apply_visible_summary. cbv zeta. by case_match.
Qed.

Lemma active_keeps lead r action now : is_current_active_round lead r = true ->
  is_current_active_round lead (apply_visible_summary r action now) = true.
Proof.
  unfold is_current_active_round, is_current_self_owned_round, apply_visible_summary. cbv zeta. intros H.
  apply andb_true_iff in H as [H _]. apply andb_true_iff. split; [|case_match; reflexivity].
  etransitivity; [|exact H]. case_match; reflexivity.
Qed.

Lemma recalculated_round d r now :
  clue_assignment_rounds (recalculate_active_round_summary d r now)
  = <[rn_assignment_round_id r :=
        (active_summary (visible_records d (rn_assignment_round_id r)) r) <| rn_updated_at := now |>]>
      (clue_assignment_rounds d)
  /\ clue_follow_up_records (recalculate_active_round_summary d r now) = clue_follow_up_records d.
Proof.
  unfold recalculate_active_round_summary. cbv zeta.
  destruct (project_current_frame (put_round
    ((active_summary (visible_records d (rn_assignment_round_id r)) r) <| rn_updated_at := now |>) d)
    ((active_summary (visible_records d (rn_assignment_round_id r)) r) <| rn_updated_at := now |>) now)
    as (-> & -> & _). split; [|done]. cbn. f_equal.
  unfold active_summary. by repeat case_match.
Qed.

(** Deleting a record of the current active round recalculates it. *)
Lemma soft_delete_active d uuid admin reason later f lead r : follow_ok d ->
  str_in (stripped repr_of (dict_get "role" admin)) ["admin"; "highest_admin"] = true ->
  List.find (fun g => str_eqb (fu_follow_up_record_id g) uuid) (clue_follow_up_records d) = Some f ->
  fu_deleted_at f = None -> locked d lead r -> fu_assignment_round_id f = rn_assignment_round_id r ->
  can_access_clue_store repr_of admin (rn_assigned_store_id r) = true ->
  is_current_active_round lead r = true ->
  exists f' res, fu_follow_up_record_id f' = fu_follow_up_record_id f
    /\ (forall i, visible_of i f' = false) /\ fr_status res = "ok"
    /\ soft_delete d uuid admin reason later
       = (recalculate_active_round_summary (put_record f' d) r later, res).
Proof.
  intros Hok Hrole Hfind Hdel [Hr Hl Hk] Hfr Hsc Hca.
  unfold FollowUpProps.soft_delete, soft_delete_follow_up_record. rewrite Hrole, Hfind, Hfr. cbn [negb].
  unfold locked_round_state. rewrite Hr, Hk.
  assert (ml_lead_key lead <> "") by (destruct (fo_leads d Hok _ _ Hl) as [_ Hn]; intros E; by rewrite E in Hn).
  rewrite has_text_Some by done. cbn [mbind option_bind]. rewrite Hl, Hsc. cbn [negb].
  destruct (current_self_owned lead r) as [-> _].
  { unfold is_current_active_round in Hca. by bool_to_prop. }
  rewrite str_eqb_refl, Hdel, bool_decide_false, Hca by (by intros [? ?]). cbn [negb].
  eexists _, _. split_and!; [| | |reflexivity]; [done| |done].
  intros i. unfold visible_of. cbn. apply andb_false_r.
Qed.

(** C32: a recorded action other than lost and request_store_change, which close
    the round, can be undone.  For the current active round, when its summary is
    the one its visible records give and all of them are strictly older than the
    action, the summary after the action is again the one its visible records
    give; and when an administrator in scope deletes the record, the round is back
    exactly as it was, but for the time of its last update, and so are its
    visible records. *)
Theorem follow_up_undone d order_id round_id result actor note now uuid lead r admin reason later
    (Hok : follow_ok d) (Hfresh : uuid ∉ (fu_follow_up_record_id <$> clue_follow_up_records d))
    (Hnd : NoDup (fu_follow_up_record_id <$> clue_follow_up_records d))
    (Hop : operable d order_id round_id (strip (default "" result)) actor now lead r)
    (Hkeep : str_in (strip (default "" result)) ["lost"; "request_store_change"] = false)
    (Hsum : active_summary (visible_records d round_id) r = r)
    (Hlt : forall g, g ∈ clue_follow_up_records d -> visible_of round_id g = true -> fu_created_at g < now)
    (Hrole : str_in (stripped repr_of (dict_get "role" admin)) ["admin"; "highest_admin"] = true)
    (Hscope : can_access_clue_store repr_of admin (rn_assigned_store_id r) = true) :
  exists d1 res1 r1 d2 res2,
    apply_action d order_id round_id result actor note now uuid = Ok (d1, res1)
    /\ clue_assignment_rounds d1 !! round_id = Some r1
    /\ active_summary (visible_records d1 round_id) r1 = r1
    /\ soft_delete d1 uuid admin reason later = (d2, res2) /\ fr_status res2 = "ok"
    /\ clue_assignment_rounds d2 !! round_id = Some (r <| rn_updated_at := later |>)
    /\ visible_records d2 round_id = visible_records d round_id.
Proof.
  destruct (accepted_row d order_id round_id result actor note now uuid lead r Hok Hfresh Hop Hkeep)
    as (d1 & res1 & Happ & _ & Hok1 & Hrec1 & Hrounds1 & Hleads1).
  pose proof (op_locked _ _ _ _ _ _ _ _ _ _ Hop) as [Hr Hl Hk].
  pose proof (op_round _ _ _ _ _ _ _ _ _ _ Hop) as Hrid.
  revert Happ Hrec1 Hrounds1 Hkeep. pose proof (op_action _ _ _ _ _ _ _ _ _ _ Hop) as Hact. revert Hact.
  pose proof (op_current _ _ _ _ _ _ _ _ _ _ Hop) as Hca. clear Hop.
  generalize (strip (default "" result)) as action. intros action Hact Happ Hrec1 Hrounds1 Hkeep.
  set (f := action_record repr_of r order_id action actor note now uuid) in *.
  set (r1 := apply_visible_summary r action now) in *.
  assert (Hr1 : clue_assignment_rounds d1 !! round_id = Some r1) by (by rewrite Hrounds1, lookup_insert_eq).
  destruct (fo_rounds d1 Hok1 _ _ Hr1) as [Hr1id _].
  assert (Hvis : visible_records d1 round_id = visible_records d round_id ++ [f]).
  { apply visible_snoc; [done| |done|].
    - rewrite Hrec1, fmap_app. apply NoDup_app. split_and!; [done| |apply NoDup_singleton].
      intros x Hx ->%list_elem_of_singleton. done.
    - unfold visible_of. cbn. by rewrite Hrid, str_eqb_refl. }
  assert (Hlk1 : locked d1 lead r1).
  { split; [by rewrite Hr1id|by rewrite Hleads1|]. rewrite <- Hk. subst r1. unfold apply_visible_summary. cbv zeta. by case_match. }
  destruct (soft_delete_active d1 uuid admin reason later f lead r1) as (f' & res2 & Hf'id & Hf'v & Hs2 & Hdel);
    [done|done| |done|exact Hlk1|cbn; congruence| |by apply active_keeps|].
  { rewrite Hrec1. by apply (find_last _ f). }
  { rewrite <- Hscope. f_equal. subst r1. unfold apply_visible_summary. cbv zeta. by case_match. }
  destruct (recalculated_round (put_record f' d1) r1 later) as [Hrounds2 Hrec2]. rewrite Hr1id in Hrounds2.
  assert (Hvis2 : forall d', clue_follow_up_records d' = clue_follow_up_records (put_record f' d1) ->
            visible_records d' round_id = visible_records d round_id).
  { intros d' E. unfold visible_records. fold (visible_of round_id). rewrite E. cbn. rewrite Hrec1. f_equal.
    by apply visible_hidden. }
  eexists d1, res1, r1, _, res2. split_and!; [exact Happ|exact Hr1| |exact Hdel|done| |by apply Hvis2].
  - rewrite Hvis. apply apply_visible_recalculated; [done|done|done|]. by apply protection_actions.
  - rewrite Hrounds2, lookup_insert_eq, Hvis2 by done. f_equal.
    transitivity ((active_summary (visible_records d round_id) r) <| rn_updated_at := later |>);
      [|by rewrite Hsum]. rewrite <- (active_summary_forget (visible_records d round_id) r action now).
    fold r1. by destruct (active_summary _ r1).
Qed.
End Undo.

(** * Revealing a phone, and the follow-up properties on a concrete database *)

(** A store account's scope is the list of its stores. *)
Lemma store_scope repr_of actor store :
  can_access_clue_store repr_of actor store = true -> stripped repr_of (dict_get "role" actor) = "store" ->
  strip (default "" store) <> ""
  /\ exists l v, dict_get "store_ids" actor = PList l /\ v ∈ l /\ v <> PNone
       /\ strip (py_str repr_of v) = strip (default "" store).
Proof.
  unfold can_access_clue_store. cbv zeta. intros H Hrole. rewrite Hrole in H.
  destruct (str_eqb (strip (default "" store)) "") eqn:Hne; [by rewrite orb_true_r in H|].
  split; [intros E; rewrite E in Hne; done|].
  change (str_in "store" ["admin"; "highest_admin"; "store"]) with true in H.
  change (str_in "store" ["admin"; "highest_admin"]) with false in H. cbn [negb orb] in H.
  destruct (is_str _ "all"); [done|]. destruct (negb (is_str _ "specified")); [done|].
  destruct (negb (truthy _)); [done|]. destruct (dict_get "store_ids" actor) as [| | | | | |l|]; try done.
  unfold str_in in H. apply bool_decide_eq_true, list_elem_of_fmap in H as (v & Hv & Hin).
  apply list_elem_of_In, List.filter_In in Hin as [Hin Hnn]. exists l, v.
  split_and!; [done|by apply list_elem_of_In| |done]. intros ->. done.
Qed.

(** A phone is revealed only to those who work the lead.  When an order's
    phone may be revealed to an actor, the order has a current active formal round
    of a lead whose order is open, every known action of that actor on it is
    acceptable unless evidence closes the order, and a store account has the
    round's store in its explicit scope. *)
Lemma reveal_needs_current_round repr_of terminal_evidence d order_id actor
    (Hok : follow_ok d) (Hreveal : can_reveal_current_order_phone repr_of d order_id actor = true) :
  exists lead r, ml_lifecycle_status lead = "active" /\ is_active_formal r = true
    /\ (forall action now, str_in action FOLLOW_UP_ACTIONS = true ->
         (forall o, ml_order_id lead = Some o ->
            terminal_kind (terminal_evidence_of terminal_evidence d now o) = None) ->
         operable repr_of terminal_evidence d (rn_order_id r) (rn_assignment_round_id r) action actor now lead r)
    /\ (stripped repr_of (dict_get "role" actor) = "store" ->
         exists l v, dict_get "store_ids" actor = PList l /\ v ∈ l /\ v <> PNone
           /\ strip (py_str repr_of v) = strip (default "" (rn_assigned_store_id r))).
Proof.
  unfold can_reveal_current_order_phone in Hreveal.
  destruct (clue_center_orders d !! order_id) as [c|]; [|done]. destruct (negb _); [done|].
  destruct (locked_round_state d _) as [[r|] [lead|]] eqn:Hlk; try done.
  destruct (locked_round_state_spec _ _ _ _ Hok Hlk) as [_ Hlocked].
  apply andb_true_iff in Hreveal as [Hca Hsc]. exists lead, r. split_and!.
  - unfold is_current_active_round in Hca. by tests.
  - by eapply current_active_formal.
  - intros action now Ha Hev. by split.
  - intros Hrole. by destruct (store_scope _ _ _ Hsc Hrole).
Qed.

(** ** A concrete database *)

Definition wlead : ClueMasterLead :=
  MkLead "lead-1" 10 (Some "order-1") (Some "201") "active" "order" (Some 10) "active"
    (Some "store_follow_up_pool") "assigned" (Some "round-1") None false None None None None None None None None
    None None None true (Some 1) 10.

Definition wround : ClueAssignmentRound :=
  MkRound "round-1" "order-1" (Some "lead-1") None (Some "sale_store") None None 1 (Some 10) "system"
    (Some "store-1") None None "pending" false false "active_unfollowed" "formal" None None
    (Some 100) (Some 100) None None (Some true) None (Some 7) None None None None 10.

Definition wcenter : ClueCenterOrder :=
  MkCenter "order-1" "active" (Some "round-1") 1 "active_unfollowed" (Some 10) "system" (Some "store-1") None
    None None "pending" false false None None None false (Some 100) None 10.

Definition wdb : cluedb :=
  MkClueDb {["lead-1" := wlead]} {["round-1" := wround]} {["order-1" := wcenter]} [] [] [] [].

Definition wrepr (v : pyval) : string := "".
Definition open_evidence (d : cluedb) (now : instant) (o : string) : TerminalEvidence :=
  MkTerminalEvidence None None None None [].
Definition refund_evidence (d : cluedb) (now : instant) (o : string) : TerminalEvidence :=
  MkTerminalEvidence (Some "refunded") (Some 40) (Some 45) (Some "refund") [].

Definition store_actor : pydict :=
  [("role", PStr "store"); ("store_scope_mode", PStr "specified"); ("store_ids", PList [PStr "store-1"]);
   ("user_id", PStr "u1"); ("username", PStr "shop")].
Definition admin_actor : pydict :=
  [("role", PStr "admin"); ("store_scope_mode", PStr "all"); ("user_id", PStr "u2")].

Lemma wdb_ok : follow_ok wdb.
Proof.
  split; cbn.
  - intros k l [<- <-]%lookup_singleton_Some. split; [done|]. vm_compute. discriminate.
  - intros i r [<- <-]%lookup_singleton_Some. split; [done|]. vm_compute. discriminate.
  - by intros o c [<- <-]%lookup_singleton_Some.
  - intros i r [<- <-]%lookup_singleton_Some _. exists "lead-1", wlead.
    split_and!; [done|by rewrite lookup_singleton_eq|done|done|]. vm_compute. discriminate.
Qed.

Lemma wdb_operable action :
  str_in action FOLLOW_UP_ACTIONS = true ->
  operable wrepr open_evidence wdb "order-1" "round-1" action store_actor 50 wlead wround.
Proof.
  intros Ha. split; [done| |done|done|vm_compute; reflexivity| |vm_compute; reflexivity].
  - split; [by vm_compute|by vm_compute|done].
  - intros o [= <-]. vm_compute. reflexivity.
Qed.

Lemma follow_up_accepted_iff_witness :
  exists d' res, apply_action wrepr id (fun _ => "") open_evidence wdb "order-1" "round-1" (Some " lost ")
      store_actor None 50 "rec-1" = Ok (d', res) /\ fr_status res = "ok"
    /\ length (clue_follow_up_records d') = 1%nat.
Proof.
  destruct (follow_up_accepted_iff wrepr id (fun _ => "") open_evidence wdb "order-1" "round-1" (Some " lost ")
    store_actor None 50 "rec-1" wdb_ok) as (d' & res & H & _ & Hiff & Hrec & _); [set_solver|].
  assert (Hop : operable wrepr open_evidence wdb "order-1" "round-1" (strip (default "" (Some " lost ")))
    store_actor 50 wlead wround) by (apply wdb_operable; vm_compute; reflexivity).
  exists d', res. split; [exact H|]. split; [apply Hiff; eauto|]. by rewrite (Hrec _ _ Hop).
Defined.

Lemma terminal_evidence_fences_witness :
  exists d', apply_action wrepr id (fun _ => "") refund_evidence wdb "order-1" "round-1" (Some "lost")
      store_actor None 50 "rec-1" = Ok (d', refused "conflict") /\ closed_in d' "round-1".
Proof.
  destruct (terminal_evidence_fences wrepr id (fun _ => "") refund_evidence wdb "order-1" "round-1" (Some "lost")
    store_actor None 50 "rec-1" wround wlead (refund_evidence wdb 50 "order-1") "refunded" wdb_ok)
    as (d' & lead' & H & _ & _ & _ & Hc & _); try (vm_compute; reflexivity).
  - split; cbn; [constructor|]. by intros k a b ?%elem_of_nil.
  - exists d'. split; [exact H|exact Hc].
Defined.

Lemma due_run_settles_witness :
  let d' := (process_due id (fun _ => "") open_evidence wdb 200).1 in
  closed_in d' "round-1" /\ process_due id (fun _ => "") open_evidence d' 200 = (d', MkDueStats 0 0 0).
Proof.
  cbv zeta. split.
  - intros r. vm_compute. by intros [= <-].
  - apply (due_run_settles id (fun _ => "") open_evidence wdb 200 wdb_ok). done.
Defined.

Lemma follow_up_undone_witness :
  exists d1 res1 r1 d2 res2,
    apply_action wrepr id (fun _ => "") open_evidence wdb "order-1" "round-1" (Some "appointment")
      store_actor None 50 "rec-1" = Ok (d1, res1)
    /\ clue_assignment_rounds d1 !! "round-1" = Some r1 /\ rn_protection_started_at r1 = Some 50
    /\ soft_delete wrepr d1 "rec-1" admin_actor None 60 = (d2, res2)
    /\ clue_assignment_rounds d2 !! "round-1" = Some (wround <| rn_updated_at := 60 |>).
Proof.
  destruct (follow_up_undone wrepr id (fun _ => "") open_evidence wdb "order-1" "round-1" (Some "appointment")
    store_actor None 50 "rec-1" wlead wround admin_actor None 60 wdb_ok) as
    (d1 & res1 & r1 & d2 & res2 & H1 & H2 & _ & H3 & _ & H4 & _).
  - set_solver.
  - constructor.
  - apply wdb_operable. vm_compute. reflexivity.
  - vm_compute. reflexivity.
  - vm_compute. reflexivity.
  - by intros g ?%elem_of_nil.
  - vm_compute. reflexivity.
  - vm_compute. reflexivity.
  - exists d1, res1, r1, d2, res2. split_and!; [exact H1|exact H2| |exact H3|exact H4].
    vm_compute in H1. injection H1 as <- <-. vm_compute in H2. by injection H2 as <-.
Defined.

Lemma reveal_needs_current_round_witness :
  exists lead r, ml_lifecycle_status lead = "active" /\ is_active_formal r = true
    /\ can_reveal_current_order_phone wrepr wdb "order-1" store_actor = true.
Proof.
  assert (H : can_reveal_current_order_phone wrepr wdb "order-1" store_actor = true) by (vm_compute; reflexivity).
  destruct (reveal_needs_current_round wrepr open_evidence wdb "order-1" store_actor wdb_ok H)
    as (lead & r & H1 & H2 & _). exists lead, r. auto.
Defined.
