(* ===== verification/Evidence.v ===== *)
(** * Evidence of terminal orders

    apps/api/dy_api/clue_followup_metrics.py, the loaders: which verification,
    refund or closure of an order the raw tables show at an observation cutoff.
    A table is the list of its rows in the order a query returns them; an instant
    is a number of microseconds in UTC.  The cutoff is [observed_through], or the
    clock when that is [None].

    [repr_of] prints a value that is neither text nor an integer, [to_float] is
    the nearest float of a rational and [fromisoformat] is
    [datetime.fromisoformat] followed by the reading of a naive time as UTC, none
    for its [ValueError].  An integer of a payload is within the range of a
    float, and the digits of a numeric text are ASCII digits. *)
From Stdlib Require Export QArith Qround.
From S2P Require Import Prelude PyValue Jobs OrderStatus Clues HqPool ClueStatus.
#[local] Open Scope Z_scope.

Definition EVIDENCE_QUERY_BATCH_SIZE : nat := 500%nat.
Definition VERIFY_SUCCESS_STATUSES : list string :=
  ["1"; "401"; "success"; "verified"; "已核销"; "used"; "fulfilled"; "transaction_success"].
Definition REFUND_COMPLETE_STATUS : Z := 2.
Definition FULL_REFUND_TYPES : list string := ["2"; "full"; "full_refund"; "all"].
Definition REFUND_TIME_KEYS : list string :=
  ["refund_completed_at"; "completed_at"; "finish_time"; "refund_done_at"; "complete_time";
   "refund_time"; "coupon_refund_time"].

(** ** Raw tables *)

Record RawDouyinOrder := MkRawOrder {
  ro_order_id : string;
  ro_order_status : option string;
  ro_order_status_normalized : option string;
  ro_raw_payload : pyval;
  ro_source_observed_at : option instant;
  ro_updated_at : option instant;
}.

Record RawDouyinClue := MkRawClue {
  rc_order_id : option string;
  rc_order_status : option string;
  rc_raw_payload : pyval;
  rc_source_observed_at : option instant;
  rc_updated_at : option instant;
}.

Record RawDouyinOrderCoupon := MkRawCoupon {
  oc_coupon_id : string;
  oc_order_id : string;
  oc_coupon_status : option string;
  oc_coupon_status_raw : option string;
  oc_coupon_status_normalized : option string;
  oc_coupon_updated_at : option instant;
  oc_coupon_refund_time : option instant;
  oc_latest_refund_at : option instant;
  oc_source_observed_at : option instant;
}.

Record RawDouyinRefundRecord := MkRawRefund {
  rr_source_record_key : string;
  rr_order_id : string;
  rr_normalized_refund_status : Z;
  rr_refund_completed_at : option instant;
  rr_raw_payload : pyval;
  rr_source_observed_at : option instant;
  rr_gmt_modified : option instant;
}.

Record DouyinRefundEvent := MkRefundEvent {
  ev_refund_event_id : string;
  ev_order_id : string;
  ev_refund_type : Z;
  ev_refund_status : Z;
  ev_occurred_at : instant;
  ev_source_observed_at : option instant;
  ev_updated_at : option instant;
}.

Record RawDouyinVerifyRecord := MkRawVerify {
  vr_verify_id : string;
  vr_coupon_id : option string;
  vr_verify_status : option string;
  vr_verify_time : option instant;
  vr_poi_id : option string;
  vr_cancel_time : option instant;
  vr_source_observed_at : option instant;
}.

Record SettlementOrderDetail := MkDetail {
  sd_coupon_id : string;
  sd_order_id : string;
  sd_verify_id : option string;
  sd_is_verified : bool;
  sd_verify_store_id : option string;
  sd_verify_time : option instant;
  sd_updated_at : option instant;
}.

(** The tables the loaders read, the assignment rounds and follow-up records
    apart, which are those of [Clues]. *)
Record rawdb := MkRawDb {
  raw_douyin_orders : list RawDouyinOrder;
  raw_douyin_clues : list RawDouyinClue;
  raw_douyin_order_coupons : list RawDouyinOrderCoupon;
  raw_douyin_refund_records : list RawDouyinRefundRecord;
  douyin_refund_events : list DouyinRefundEvent;
  raw_douyin_verify_records : list RawDouyinVerifyRecord;
  settlement_order_details : list SettlementOrderDetail;
}.

(** ** Times *)

(** [_max_time(...)] *)
Fixpoint max_time (ts : list (option instant)) : option instant :=
  match ts with
  | [] => None
  | Some t :: ts' => Some (match max_time ts' with Some u => Z.max t u | None => t end)
  | None :: ts' => max_time ts'
  end.

(** The attributes [_status_observed_at] looks for on a row: the observation of
    the source, and those of [updated_at], [gmt_modified] and
    [coupon_updated_at] the row has. *)
Class StatusRow (A : Type) := {
  source_observed_at : A -> option instant;
  modification_times : A -> list (option instant);
}.
#[export] Instance order_row : StatusRow RawDouyinOrder :=
  {| source_observed_at := ro_source_observed_at; modification_times r := [ro_updated_at r] |}.
#[export] Instance clue_row : StatusRow RawDouyinClue :=
  {| source_observed_at := rc_source_observed_at; modification_times r := [rc_updated_at r] |}.
#[export] Instance coupon_row : StatusRow RawDouyinOrderCoupon :=
  {| source_observed_at := oc_source_observed_at; modification_times r := [oc_coupon_updated_at r] |}.
#[export] Instance refund_row : StatusRow RawDouyinRefundRecord :=
  {| source_observed_at := rr_source_observed_at; modification_times r := [rr_gmt_modified r] |}.
#[export] Instance event_row : StatusRow DouyinRefundEvent :=
  {| source_observed_at := ev_source_observed_at; modification_times r := [ev_updated_at r] |}.

(** [_status_observed_at] *)
Definition status_observed_at {A} `{StatusRow A} (row : A) : option instant :=
  match source_observed_at row with
  | Some t => Some t
  | None => max_time (modification_times row)
  end.

(** [observed is None or observed <= cutoff] *)
Definition not_after (cutoff : instant) (t : option instant) : bool :=
  match t with Some u => u <=? cutoff | None => true end.

Definition visible {A} `{StatusRow A} (cutoff : instant) (row : A) : bool :=
  not_after cutoff (status_observed_at row).

(** The nearest integer, ties to the even one. *)
Definition round_half_even (q : Q) : Z :=
  let f := Qfloor q in
  match (q - inject_Z f ?= (1 # 2))%Q with
  | Lt => f
  | Gt => f + 1
  | Eq => if Z.even f then f else f + 1
  end.

(** [datetime.fromtimestamp(seconds, tz=timezone.utc)]; the years are 1 to 9999. *)
Definition fromtimestamp (q : Q) : option instant :=
  let us := round_half_even (q * inject_Z 1000000)%Q in
  if (-62135596800000000 <=? us) && (us <=? 253402300799999999) then Some us else None.

(** The value of a finite [float]. *)
Definition float_value (m e : Z) : Q :=
  if 0 <=? e then inject_Z (m * 2 ^ e) else Qmake m (Z.to_pos (2 ^ (- e))).

(** [s.replace("Z", "+00:00")] *)
Definition replace_zulu (s : string) : string :=
  text (mjoin ((fun c => if char_is c 90 then chars "+00:00" else [c]) <$> chars s)).

(** [s.isdigit()], with the number it denotes *)
Definition digits_value (s : string) : option Z :=
  match read_digits 0 0 (chars s) with
  | (z, n, []) => if n =? 0 then None else Some z
  | _ => None
  end.

Section Reading.
Context (repr_of : pyval -> string) (to_float : Q -> Q) (fromisoformat : string -> option instant).

(** Seconds, or milliseconds when the number is large. *)
Definition epoch_seconds (q : Q) : Q :=
  match (q ?= inject_Z 10000000000)%Q with
  | Gt => to_float (q / inject_Z 1000)%Q
  | _ => q
  end.

(** One key of [_first_time]: none when the loop goes on. *)
Definition time_of_value (value : pyval) : option instant :=
  let value := match value with
               | PDict d => py_or (py_or (dict_get "value" d) (dict_get "time" d)) (dict_get "timestamp" d)
               | v => v
               end in
  if no_refund_time value then None
  else match value with
       | PBool b => fromtimestamp (epoch_seconds (inject_Z (Z.b2z b)))
       | PInt z => fromtimestamp (epoch_seconds (to_float (inject_Z z)))
       | PFloat (FFin m e) => fromtimestamp (epoch_seconds (float_value m e))
       | PFloat _ => None
       | _ =>
           let raw := replace_zulu (strip (py_str repr_of value)) in
           match digits_value raw with
           | Some n => fromtimestamp (epoch_seconds (inject_Z n))
           | None => fromisoformat raw
           end
       end.

(** [_first_time] *)
Fixpoint first_time_of (d : pydict) (keys : list string) : option instant :=
  match keys with
  | [] => None
  | key :: keys' =>
      match time_of_value (dict_get key d) with
      | Some t => Some t
      | None => first_time_of d keys'
      end
  end.
Definition first_time (payload : pyval) (keys : list string) : option instant :=
  match payload with
  | PDict d => first_time_of d keys
  | _ => None
  end.

(** [_refund_times_from_payload] *)
Fixpoint refund_times_from_payload (payload : pyval) : list instant :=
  match payload with
  | PDict d =>
      (fix items (d : pydict) : list instant :=
         match d with
         | [] => []
         | (key, child) :: d' =>
             (if str_in (lower key) REFUND_TIME_KEYS
              then match first_time (PDict [(key, child)]) [key] with Some t => [t] | None => [] end
              else refund_times_from_payload child) ++ items d'
         end) d
  | PList l =>
      (fix members (l : list pyval) : list instant :=
         match l with
         | [] => []
         | child :: l' => refund_times_from_payload child ++ members l'
         end) l
  | _ => []
  end.

(** [_normal_status] *)
Definition normal_status (value : pyval) : string :=
  dash_to_underscore (lower
    (match value with
     | PNone | PStr "" => ""
     | _ => strip (py_str repr_of value)
     end)).

(** [is_platform_after_sale_payload] *)
Definition is_platform_after_sale_payload (payload : pydict) : bool :=
  existsb (fun key => dict_mem key payload)
    ["after_sale_id"; "after_sale"; "refund_info_list"; "times_card_refund_info_list";
     "merchant_account_id"; "total_refund_amount"; "real_refund_amount"; "user_refund_amount"].

(** [_refund_type] *)
Definition refund_type (row : RawDouyinRefundRecord) : option string :=
  match rr_raw_payload row with
  | PDict payload =>
      if is_platform_after_sale_payload payload then None
      else
        let value := py_or (dict_get "refund_type" payload) (dict_get "type" payload) in
        Some (normal_status (match value with PDict d => dict_get "value" d | v => v end))
  | _ => Some (normal_status PNone)
  end.

Definition is_full_type (t : option string) : bool :=
  match t with Some s => str_in s FULL_REFUND_TYPES | None => false end.

(** [_is_full_completed_refund] *)
Definition is_full_completed_refund (row : RawDouyinRefundRecord) : bool :=
  (rr_normalized_refund_status row =? REFUND_COMPLETE_STATUS)
  && (is_full_type (refund_type row) || bool_decide (refund_type row = None)).

(** ** Verifications *)

End Reading.

Record VerificationEvidence := MkVerification {
  ve_verify_id : string;
  ve_order_id : string;
  ve_verified_at : option instant;
  ve_poi_id : option string;
  ve_store_id : option string;
  ve_cancel_at : option instant;
  ve_observed_at : option instant;
  ve_source : string;
}.

(** The key [(verified_at, verify_id)] of [min]. *)
Definition verified_before (a b : VerificationEvidence) : bool :=
  let ta := default 0 (ve_verified_at a) in
  let tb := default 0 (ve_verified_at b) in
  (ta <? tb) || ((ta =? tb) && String.ltb (ve_verify_id a) (ve_verify_id b)).

(** [min(l, key=...)]: the first of the least. *)
Fixpoint earliest_verification (best : VerificationEvidence) (l : list VerificationEvidence)
  : VerificationEvidence :=
  match l with
  | [] => best
  | v :: l' => earliest_verification (if verified_before v best then v else best) l'
  end.

Definition opt_val (s : option string) : pyval :=
  match s with Some t => PStr t | None => PNone end.

Section Terminal.
Context (repr_of : pyval -> string) (to_float : Q -> Q) (fromisoformat : string -> option instant).
#[local] Notation first_time := (first_time repr_of to_float fromisoformat).
#[local] Notation refund_times_from_payload := (refund_times_from_payload repr_of to_float fromisoformat).
#[local] Notation refund_type := (refund_type repr_of).
#[local] Notation is_full_completed_refund := (is_full_completed_refund repr_of).

(** [_settlement_verification_is_canceled] *)
Definition settlement_verification_is_canceled (row : SettlementOrderDetail) (verified_at : instant)
    (canceled_verify_ids : gset string) (canceled_coupon_cancel_times : gmap string (list instant)) : bool :=
  match clean (sd_verify_id row) with
  | Some verify_id => bool_decide (verify_id ∈ canceled_verify_ids)
  | None =>
      match clean (Some (sd_coupon_id row)) with
      | Some coupon_id =>
          existsb (fun cancel_at => verified_at <=? cancel_at)
            (default [] (canceled_coupon_cancel_times !! coupon_id))
      | None => false
      end
  end.

(** The status a coupon contributes: none when its verification was canceled. *)
Definition coupon_status_of (canceled_coupon_ids : gset string) (c : RawDouyinOrderCoupon) : option string :=
  let status :=
    match clean (oc_coupon_status_normalized c) with
    | Some s => s
    | None => normalize_coupon_status repr_of
                (opt_val (if has_text (oc_coupon_status_raw c) then oc_coupon_status_raw c
                          else oc_coupon_status c))
    end in
  if str_eqb status "verified"
     && match clean (Some (oc_coupon_id c)) with
        | Some id => bool_decide (id ∈ canceled_coupon_ids)
        | None => false
        end
  then None else Some status.

(** The status of an order without a status of its own: from its clues, else
    from its coupons. *)
Definition status_from_clues (raw_clues : list RawDouyinClue) (coupon_statuses : list string) : option string :=
  let statuses := omap (fun clue =>
    match rc_order_status clue with
    | Some s => if str_eqb s "" then None
                else Some (resolve_clue_order_status repr_of (PStr s) (rc_raw_payload clue) PNone
                             (PStr <$> coupon_statuses))
    | None => None
    end) raw_clues in
  let resolved := match List.find (fun s => str_in s statuses) ["refunded"; "closed"; "verified"] with
                  | Some s => Some s
                  | None => head statuses
                  end in
  if negb (match resolved with Some s => str_in s ["refunded"; "closed"; "verified"] | None => false end)
     && nonempty coupon_statuses
  then
    let coupon_resolved :=
      resolve_clue_order_status repr_of PNone PNone PNone (PStr <$> coupon_statuses) in
    if str_in coupon_resolved ["refunded"; "closed"; "verified"] then Some coupon_resolved else resolved
  else resolved.

Definition no_evidence : TerminalEvidence := MkTerminalEvidence None None None None [].

(** [a or b] on nullable times *)
Definition time_or (a b : option instant) : option instant :=
  match a with Some t => Some t | None => b end.

(** [_terminal_from_rows] *)
Definition terminal_from_rows (raw_order : option RawDouyinOrder) (raw_clues : list RawDouyinClue)
    (coupons : list RawDouyinOrderCoupon) (refunds : list RawDouyinRefundRecord)
    (refund_events : list DouyinRefundEvent) (verifications : list VerificationEvidence)
    (observed_through : instant) (canceled_coupon_ids : gset string) : TerminalEvidence :=
  let visible_raw_order :=
    match raw_order with
    | Some o => if visible observed_through o then Some o else None
    | None => None
    end in
  let valid_verifications := List.filter (fun v =>
    match ve_verified_at v with
    | Some t => (t <=? observed_through) && not_after observed_through (ve_observed_at v)
    | None => false
    end) verifications in
  match valid_verifications with
  | v :: vs =>
      let earliest := earliest_verification v vs in
      MkTerminalEvidence (Some "verified") (ve_verified_at earliest)
        (time_or (max_time (ve_observed_at <$> valid_verifications)) (ve_verified_at earliest))
        (Some (ve_source earliest)) (ve_verify_id <$> valid_verifications)
  | [] =>
      let canceled := filter (fun id => blank id = false) canceled_coupon_ids in
      let coupon_statuses := omap (coupon_status_of canceled) coupons in
      let coupon_times := (fun c => max_time [oc_coupon_refund_time c; oc_latest_refund_at c]) <$> coupons in
      let coupon_observed := status_observed_at <$> coupons in
      let raw_payload := match visible_raw_order with Some o => ro_raw_payload o | None => PNone end in
      let normalized_order := visible_raw_order ≫= ro_order_status_normalized in
      let raw_order_status := visible_raw_order ≫= ro_order_status in
      let order_status := if has_text raw_order_status then raw_order_status else normalized_order in
      let resolved :=
        if has_text order_status
        then Some (resolve_clue_order_status repr_of (opt_val order_status) raw_payload
                     (opt_val normalized_order) (PStr <$> coupon_statuses))
        else status_from_clues raw_clues coupon_statuses in
      let all_coupons status := nonempty coupon_statuses && forallb (str_eqb status) coupon_statuses in
      let full_refund_rows := List.filter (fun row =>
        is_full_completed_refund row
        && (is_full_type (refund_type row) || opt_is resolved "refunded" || all_coupons "refunded")) refunds in
      let full_refund_events := List.filter (fun row =>
        (ev_refund_status row =? REFUND_COMPLETE_STATUS) && (ev_refund_type row =? 2)) refund_events in
      let order_observed := visible_raw_order ≫= status_observed_at in
      if opt_is resolved "refunded" || all_coupons "refunded" || nonempty full_refund_rows
         || nonempty full_refund_events
      then
        let terminal_at := max_time
          (coupon_times
           ++ (Some <$> refund_times_from_payload raw_payload)
           ++ (Some <$> mjoin ((fun c => refund_times_from_payload (rc_raw_payload c)) <$> raw_clues))
           ++ ((fun row => max_time [rr_refund_completed_at row;
                  first_time (rr_raw_payload row)
                    ["refund_completed_at"; "completed_at"; "finish_time"; "complete_time"]]) <$> full_refund_rows)
           ++ ((fun row => Some (ev_occurred_at row)) <$> full_refund_events)) in
        let observed_at := max_time
          (coupon_observed ++ (status_observed_at <$> full_refund_rows)
           ++ (status_observed_at <$> full_refund_events) ++ [visible_raw_order ≫= ro_source_observed_at]) in
        MkTerminalEvidence (Some "refunded") terminal_at (time_or observed_at terminal_at) (Some "refund")
          ((rr_source_record_key <$> full_refund_rows) ++ (ev_refund_event_id <$> full_refund_events))
      else
        let observed_at :=
          max_time (order_observed :: (status_observed_at <$> raw_clues) ++ coupon_observed) in
        if opt_is resolved "closed" || all_coupons "closed"
        then
          let terminal_at :=
            first_time raw_payload ["closed_at"; "close_time"; "cancel_time"; "cancelled_at"; "canceled_at"] in
          MkTerminalEvidence (Some "closed") terminal_at (time_or observed_at terminal_at) (Some "status") []
        else if opt_is resolved "verified"
        then
          let verified_at :=
            first_time raw_payload ["verified_at"; "verify_time"; "used_at"; "completed_at"; "finish_time"] in
          let coupon_only := bool_decide (visible_raw_order = None) && negb (nonempty raw_clues)
                             && existsb (str_eqb "verified") coupon_statuses in
          MkTerminalEvidence (Some "verified") verified_at (time_or observed_at verified_at)
            (Some (if coupon_only then "coupon" else "order")) []
        else no_evidence
  end.
End Terminal.

(** ** Grouping rows *)

(** [groups[key].append(row)] on a [defaultdict(list)] *)
Definition push {A} (key : string) (row : A) (groups : gmap string (list A)) : gmap string (list A) :=
  <[key := default [] (groups !! key) ++ [row]]> groups.

(** The rows of a query, each under its key. *)
Definition group {A} (key : A -> string) (rows : list A) (groups : gmap string (list A)) : gmap string (list A) :=
  foldl (fun g row => push (key row) row g) groups rows.

(** [groups.get(key, ())] *)
Definition rows_at {A} (key : string) (groups : gmap string (list A)) : list A := default [] (groups !! key).

Record AssignmentRoundEvidence := MkRoundEvidence {
  ae_assignment_round_id : string;
  ae_order_id : string;
  ae_round_no : Z;
  ae_assigned_store_id : option string;
  ae_assigned_at : option instant;
  ae_execution_mode : string;
  ae_verified_store_id : option string;
  ae_verified_at : option instant;
  ae_updated_at : option instant;
}.

(** [AssignmentRoundEvidence.from_row] *)
Definition round_evidence (r : ClueAssignmentRound) : AssignmentRoundEvidence :=
  MkRoundEvidence (rn_assignment_round_id r) (rn_order_id r) (rn_round_no r) (clean (rn_assigned_store_id r))
    (rn_assigned_at r) (default "formal" (clean (Some (rn_execution_mode r))))
    (clean (rn_verified_store_id r)) (rn_verified_at r) (Some (rn_updated_at r)).

Record FollowUpEvidence := MkFollowUpEvidence {
  fe_follow_up_record_id : string;
  fe_order_id : string;
  fe_assignment_round_id : string;
  fe_assigned_store_id : option string;
  fe_created_at : option instant;
  fe_deleted_at : option instant;
}.

(** [FollowUpEvidence.from_row] *)
Definition follow_up_evidence (f : ClueFollowUpRecord) : FollowUpEvidence :=
  MkFollowUpEvidence (fu_follow_up_record_id f) (fu_order_id f) (fu_assignment_round_id f)
    (clean (fu_assigned_store_id f)) (Some (fu_created_at f)) (fu_deleted_at f).

(** ** The loaders *)

(** What the loaders accumulate over the batches of order ids. *)
Record gathered := MkGathered {
  raw_orders : gmap string RawDouyinOrder;
  raw_clues_by_order : gmap string (list RawDouyinClue);
  coupons_by_order : gmap string (list RawDouyinOrderCoupon);
  refunds_by_order : gmap string (list RawDouyinRefundRecord);
  refund_events_by_order : gmap string (list DouyinRefundEvent);
  verifications_by_order : gmap string (list VerificationEvidence);
  rounds_by_order : gmap string (list AssignmentRoundEvidence);
  follows_by_round : gmap string (list FollowUpEvidence);
  canceled_verify_ids : gset string;
  canceled_coupon_ids : gset string;
  canceled_coupon_cancel_times : gmap string (list instant);
  canceled_order_ids : gset string;
}.

#[export] Instance eta_gathered : Eta gathered := fun x =>
  MkGathered (raw_orders x) (raw_clues_by_order x) (coupons_by_order x) (refunds_by_order x)
    (refund_events_by_order x) (verifications_by_order x) (rounds_by_order x) (follows_by_round x)
    (canceled_verify_ids x) (canceled_coupon_ids x) (canceled_coupon_cancel_times x) (canceled_order_ids x).

Definition nothing_gathered : gathered := MkGathered ∅ ∅ ∅ ∅ ∅ ∅ ∅ ∅ ∅ ∅ ∅ ∅.

(** The slices of a list. *)
Fixpoint slices {A} (fuel size : nat) (l : list A) : list (list A) :=
  match fuel, l with
  | S fuel', _ :: _ => take size l :: slices fuel' size (drop size l)
  | _, _ => []
  end.

(** [_batch]: the sorted set of the ids that are not blank, in slices *)
Definition requested_ids (values : list string) : list string :=
  merge_sort String.le (remove_dups (List.filter (fun v => negb (blank v)) values)).
Definition batch (values : list string) : list (list string) :=
  let ordered := requested_ids values in
  slices (length ordered) EVIDENCE_QUERY_BATCH_SIZE ordered.

(** [select(...).join(...)]: the verifications of the coupons of a batch, with the
    order of the coupon *)
Definition coupon_verifications (raw : rawdb) (c : RawDouyinOrderCoupon) : list (string * RawDouyinVerifyRecord) :=
  (fun v => (oc_order_id c, v)) <$>
    List.filter (fun v => opt_is (vr_coupon_id v) (oc_coupon_id c)) (raw_douyin_verify_records raw).
Definition joined_verifications (raw : rawdb) (ids : list string) : list (string * RawDouyinVerifyRecord) :=
  mjoin (coupon_verifications raw <$>
    List.filter (fun c => str_in (oc_order_id c) ids) (raw_douyin_order_coupons raw)).

Section Loaders.
Context (repr_of : pyval -> string) (to_float : Q -> Q) (fromisoformat : string -> option instant).
Context (raw : rawdb) (d : cluedb) (cutoff : instant).
#[local] Notation terminal_from_rows := (terminal_from_rows repr_of to_float fromisoformat).

(** Neither the verification nor its observation is later than the cutoff. *)
Definition verify_known (v : RawDouyinVerifyRecord) : bool :=
  match vr_verify_time v with
  | Some t => (t <=? cutoff) && not_after cutoff (vr_source_observed_at v)
  | None => false
  end.

(** The cancellation of a verification, when it happened by the cutoff. *)
Definition cancel_known (v : RawDouyinVerifyRecord) : option instant :=
  match vr_cancel_time v with
  | Some t => if t <=? cutoff then Some t else None
  | None => None
  end.

(** The evidence of a verification that counts. *)
Definition verify_evidence (order_id : string) (v : RawDouyinVerifyRecord) : option VerificationEvidence :=
  if str_in (normal_status repr_of (opt_val (vr_verify_status v))) VERIFY_SUCCESS_STATUSES
  then Some (MkVerification (vr_verify_id v) order_id (vr_verify_time v) (clean (vr_poi_id v)) None
               (vr_cancel_time v) (time_or (vr_source_observed_at v) (vr_verify_time v)) "raw_verify")
  else None.

(** One row of the verification query. *)
Definition add_verify_row (g : gathered) (row : string * RawDouyinVerifyRecord) : gathered :=
  let '(order_id, v) := row in
  if negb (verify_known v) then g
  else match cancel_known v with
       | Some cancel_at =>
           let g := g <| canceled_order_ids := {[order_id]} ∪ canceled_order_ids g |>
                      <| canceled_verify_ids := {[vr_verify_id v]} ∪ canceled_verify_ids g |> in
           match vr_coupon_id v with
           | Some coupon_id =>
               if str_eqb coupon_id "" then g
               else g <| canceled_coupon_ids := {[coupon_id]} ∪ canceled_coupon_ids g |>
                      <| canceled_coupon_cancel_times :=
                           push coupon_id cancel_at (canceled_coupon_cancel_times g) |>
           | None => g
           end
       | None =>
           match verify_evidence order_id v with
           | Some e => g <| verifications_by_order := push order_id e (verifications_by_order g) |>
           | None => g
           end
       end.

(** One settled order line: its verification counts unless it was canceled. *)
Definition settlement_evidence (verify_ids : gset string) (cancel_times : gmap string (list instant))
    (row : SettlementOrderDetail) : option VerificationEvidence :=
  match sd_verify_time row with
  | Some verify_at =>
      let observed_at := default verify_at (sd_updated_at row) in
      if sd_is_verified row && (verify_at <=? cutoff)
         && negb (settlement_verification_is_canceled row verify_at verify_ids cancel_times)
         && (observed_at <=? cutoff)
      then Some (MkVerification (text_or (sd_verify_id row) (sd_coupon_id row)) (sd_order_id row)
                   (Some verify_at) None (clean (sd_verify_store_id row)) None (Some observed_at) "settlement")
      else None
  | None => None
  end.

Definition add_settlement_row (g : gathered) (row : SettlementOrderDetail) : gathered :=
  match settlement_evidence (canceled_verify_ids g) (canceled_coupon_cancel_times g) row with
  | Some e => g <| verifications_by_order := push (sd_order_id row) e (verifications_by_order g) |>
  | None => g
  end.

(** The raw rows of a batch, as both loaders read them: the orders, clues, coupons,
    refunds, refund events, verifications and settled lines. *)
Definition gather_raw (include_raw_clues : bool) (g : gathered) (ids : list string) : gathered :=
  let g := g <| raw_orders :=
                  foldl (fun m o => <[ro_order_id o := o]> m) (raw_orders g)
                    (List.filter (fun o => str_in (ro_order_id o) ids) (raw_douyin_orders raw)) |> in
  let g := if include_raw_clues
           then g <| raw_clues_by_order :=
                       group (fun r => default "None" (rc_order_id r))
                         (List.filter (fun r => match rc_order_id r with Some o => str_in o ids | None => false end
                                                && visible cutoff r) (raw_douyin_clues raw))
                         (raw_clues_by_order g) |>
           else g in
  let g := g <| coupons_by_order :=
                  group oc_order_id
                    (List.filter (fun r => str_in (oc_order_id r) ids && visible cutoff r)
                       (raw_douyin_order_coupons raw)) (coupons_by_order g) |>
             <| refunds_by_order :=
                  group rr_order_id
                    (List.filter (fun r => str_in (rr_order_id r) ids && visible cutoff r)
                       (raw_douyin_refund_records raw)) (refunds_by_order g) |>
             <| refund_events_by_order :=
                  group ev_order_id
                    (List.filter (fun r => str_in (ev_order_id r) ids && visible cutoff r)
                       (douyin_refund_events raw)) (refund_events_by_order g) |> in
  let g := foldl add_verify_row g (joined_verifications raw ids) in
  foldl add_settlement_row g
    (List.filter (fun r => str_in (sd_order_id r) ids) (settlement_order_details raw)).

(** The formal rounds of a batch. *)
Definition gather_rounds (g : gathered) (ids : list string) : gathered * list AssignmentRoundEvidence :=
  let rounds := round_evidence <$>
    List.filter (fun r => str_in (rn_order_id r) ids && str_eqb (rn_execution_mode r) "formal")
      ((map_to_list (clue_assignment_rounds d)).*2) in
  (g <| rounds_by_order := group ae_order_id rounds (rounds_by_order g) |>, rounds).

(** The follow-up records of these rounds. *)
Definition gather_follow_ups (g : gathered) (rounds : list AssignmentRoundEvidence) : gathered :=
  g <| follows_by_round :=
         group fe_assignment_round_id
           (follow_up_evidence <$>
             List.filter (fun f => str_in (fu_assignment_round_id f) (ae_assignment_round_id <$> rounds)
                                   && (fu_created_at f <=? cutoff)) (clue_follow_up_records d))
           (follows_by_round g) |>.

(** The verification summary of a round, a legacy projection. *)
Definition round_verification (row : AssignmentRoundEvidence) : option VerificationEvidence :=
  match ae_verified_at row with
  | Some verified_at =>
      let observed_at := default verified_at (ae_updated_at row) in
      if (verified_at <=? cutoff) && (observed_at <=? cutoff)
      then Some (MkVerification ("round:" +:+ ae_assignment_round_id row)%string (ae_order_id row)
                   (Some verified_at) None (ae_verified_store_id row) None (Some observed_at)
                   "assignment_round")
      else None
  | None => None
  end.

(** The verifications of an order after the pass over the rounds. *)
Definition verifications_of (g : gathered) (order_id : string) : list VerificationEvidence :=
  rows_at order_id (verifications_by_order g)
  ++ (if bool_decide (order_id ∈ canceled_order_ids g) then []
      else omap round_verification (rows_at order_id (rounds_by_order g))).

(** The terminal evidence of one requested order. *)
Definition terminal_of (g : gathered) (order_id : string) : TerminalEvidence :=
  terminal_from_rows (raw_orders g !! order_id) (rows_at order_id (raw_clues_by_order g))
    (rows_at order_id (coupons_by_order g)) (rows_at order_id (refunds_by_order g))
    (rows_at order_id (refund_events_by_order g)) (verifications_of g order_id) cutoff (canceled_coupon_ids g).

Definition by_order {A} (f : string -> A) (ids : list string) : gmap string A :=
  list_to_map ((fun o => (o, f o)) <$> ids).

(** [load_terminal_evidence] *)
Definition load_terminal_evidence (include_raw_clues : bool) (order_ids : list string)
  : gmap string TerminalEvidence :=
  let g := foldl (fun g ids => (gather_rounds (gather_raw include_raw_clues g ids) ids).1)
             nothing_gathered (batch order_ids) in
  by_order (terminal_of g) (requested_ids order_ids).

Record ClueFollowUpEvidence := MkClueEvidence {
  ce_order_id : string;
  ce_rounds : list AssignmentRoundEvidence;
  ce_follow_ups_by_round : gmap string (list FollowUpEvidence);
  ce_verifications : list VerificationEvidence;
  ce_terminal : TerminalEvidence;
  ce_observed_through : instant;
}.

(** The sort keys of the rounds and of the follow-up records; the least [datetime]
    stands for a missing time. *)
Definition datetime_min : instant := -62135596800000000.
Definition round_before (a b : AssignmentRoundEvidence) : Prop :=
  let ta := default datetime_min (ae_assigned_at a) in
  let tb := default datetime_min (ae_assigned_at b) in
  ta < tb \/ (ta = tb /\ (ae_round_no a < ae_round_no b
    \/ (ae_round_no a = ae_round_no b /\ String.le (ae_assignment_round_id a) (ae_assignment_round_id b)))).
Definition follow_before (a b : FollowUpEvidence) : Prop :=
  let ta := default datetime_min (fe_created_at a) in
  let tb := default datetime_min (fe_created_at b) in
  ta < tb \/ (ta = tb /\ String.le (fe_follow_up_record_id a) (fe_follow_up_record_id b)).
#[export] Instance round_before_dec a b : Decision (round_before a b).
Proof. unfold round_before. apply _. Defined.
#[export] Instance follow_before_dec a b : Decision (follow_before a b).
Proof. unfold follow_before. apply _. Defined.

(** [load_clue_followup_evidence] *)
Definition load_clue_followup_evidence (include_raw_clues : bool) (order_ids : list string)
  : gmap string ClueFollowUpEvidence :=
  let g := foldl (fun g ids =>
    let '(g, rounds) := gather_rounds g ids in
    gather_raw include_raw_clues (gather_follow_ups g rounds) ids) nothing_gathered (batch order_ids) in
  by_order (fun order_id =>
    MkClueEvidence order_id
      (merge_sort round_before (rows_at order_id (rounds_by_order g)))
      (merge_sort follow_before <$>
         filter (fun kv => existsb (fun f => str_eqb (fe_assignment_round_id f) kv.1
                                             && str_eqb (fe_order_id f) order_id) kv.2 = true)
           (follows_by_round g))
      (verifications_of g order_id) (terminal_of g order_id) cutoff) (requested_ids order_ids).
End Loaders.
