(* ===== verification/Metrics.v ===== *)
(** * Follow-up metrics

    apps/api/dy_api/clue_followup_metrics.py: the contribution of one assignment
    round to the follow-up rates ([evaluate_clue_followup_round]), from its
    records and the terminal evidence of its order, and the evaluation of many
    rounds over one load of the evidence. *)
From S2P Require Import Prelude PyValue Jobs OrderStatus Clues HqPool ClueStatus Evidence.
#[local] Open Scope Z_scope.

Definition FOLLOW_UP_WINDOW : Z := hours 24.

Record FollowUpMetric := MkMetric {
  fm_assignment_round_id : string;
  fm_order_id : string;
  fm_numerator : Z;
  fm_denominator : Z;
  fm_follow_any_numerator : Z;
  fm_follow_any_denominator : Z;
  fm_reason_code : string;
  fm_deadline : option instant;
  fm_terminal_kind : option string;
  fm_terminal_at : option instant;
  fm_follow_record_ids : list string;
  fm_follow_any_record_ids : list string;
  fm_under_observation : bool;
  fm_follow_action_numerator : Z;
  fm_follow_action_denominator : Z;
  fm_follow_action_record_ids : list string;
}.

(** [self.is_terminal] *)
Definition is_terminal (t : TerminalEvidence) : bool :=
  match te_kind t with Some k => str_in k TERMINAL_ORDER_STATUSES | None => false end.

(** [_terminal_visible_at] *)
Definition terminal_visible_at (terminal : TerminalEvidence) (cutoff : instant) : TerminalEvidence :=
  if negb (not_after cutoff (te_observed_at terminal)) || negb (not_after cutoff (te_terminal_at terminal))
  then MkTerminalEvidence None None (te_observed_at terminal) (te_source terminal) (te_evidence_ids terminal)
  else terminal.

(** The records of the round that count: the first of each id, not deleted, of the
    round, order and store, created from the assignment to the cutoff. *)
Definition valid_action (r : AssignmentRoundEvidence) (assigned_at cutoff : instant) (f : FollowUpEvidence)
  : bool :=
  match fe_deleted_at f, fe_created_at f with
  | None, Some created_at =>
      str_eqb (fe_order_id f) (ae_order_id r)
      && str_eqb (fe_assignment_round_id f) (ae_assignment_round_id r)
      && bool_decide (fe_assigned_store_id f = ae_assigned_store_id r)
      && (assigned_at <=? created_at) && (created_at <=? cutoff)
  | _, _ => false
  end.

Fixpoint valid_actions (r : AssignmentRoundEvidence) (assigned_at cutoff : instant) (seen : list string)
    (follow_ups : list FollowUpEvidence) : list FollowUpEvidence :=
  match follow_ups with
  | [] => []
  | f :: rest =>
      if str_in (fe_follow_up_record_id f) seen then valid_actions r assigned_at cutoff seen rest
      else
        (if valid_action r assigned_at cutoff f then [f] else [])
        ++ valid_actions r assigned_at cutoff (fe_follow_up_record_id f :: seen) rest
  end.

(** [terminal_at is None or created_at < terminal_at], [created_at <= deadline] *)
Definition before_terminal (terminal_at : option instant) (f : FollowUpEvidence) : bool :=
  match terminal_at with Some t => default 0 (fe_created_at f) <? t | None => true end.
Definition in_window (deadline : instant) (f : FollowUpEvidence) : bool :=
  default 0 (fe_created_at f) <=? deadline.

(** [evaluate_clue_followup_round] *)
Definition evaluate_clue_followup_round (r : AssignmentRoundEvidence) (follow_ups : list FollowUpEvidence)
    (terminal : option TerminalEvidence) (cutoff : instant) : FollowUpMetric :=
  let deadline := (fun t => t + FOLLOW_UP_WINDOW) <$> ae_assigned_at r in
  let empty reason :=
    MkMetric (ae_assignment_round_id r) (ae_order_id r) 0 0 0 0 reason deadline
      (terminal ≫= te_kind) (terminal ≫= te_terminal_at) [] [] false 0 0 [] in
  if negb (str_eqb (ae_execution_mode r) "formal") then empty "non_formal_round"
  else match ae_assigned_at r with
  | None => empty "unassigned_round"
  | Some assigned_at =>
      if cutoff <? assigned_at then empty "assignment_after_observation_cutoff"
      else
        let due := assigned_at + FOLLOW_UP_WINDOW in
        let actions := valid_actions r assigned_at cutoff [] follow_ups in
        let action_ids := fe_follow_up_record_id <$> actions in
        let seen := terminal_visible_at (default no_evidence terminal) cutoff in
        let terminal_at := te_terminal_at seen in
        let metric n m any_n any_m reason ids any_ids under :=
          MkMetric (ae_assignment_round_id r) (ae_order_id r) n m any_n any_m reason deadline
            (te_kind seen) terminal_at ids any_ids under (Z.b2z (nonempty actions)) 1 action_ids in
        if is_terminal seen && bool_decide (terminal_at = None)
        then metric 0 0 0 0 "terminal_time_unknown" [] [] false
        else if match terminal_at with Some t => t <=? assigned_at | None => false end
        then metric 0 0 0 0 "terminal_before_assignment" [] [] false
        else
          let any := List.filter (before_terminal terminal_at) actions in
          let window := List.filter (fun f => before_terminal terminal_at f && in_window due f) actions in
          let under_observation := bool_decide (terminal_at = None) && (cutoff <? due) in
          let '(numerator, denominator, reason) :=
            if match terminal_at with Some t => t <=? due | None => false end then
              if opt_is (te_kind seen) "verified" then (1, 1, "verified_within_24h")
              else if nonempty window then (1, 1, "terminal_within_24h_followed")
              else (0, 0, "terminal_within_24h_unfollowed")
            else (Z.b2z (nonempty window), 1,
                  if bool_decide (is_Some terminal_at) then "terminal_after_24h"
                  else if under_observation then "active_under_observation" else "active_matured") in
          metric numerator denominator
            (Z.b2z (negb (denominator =? 0) && (opt_is (te_kind seen) "verified" || nonempty any)))
            denominator reason (fe_follow_up_record_id <$> window) (fe_follow_up_record_id <$> any)
            under_observation
  end.

Section Bulk.
Context (repr_of : pyval -> string) (to_float : Q -> Q) (fromisoformat : string -> option instant).

(** [bulk_evaluate_clue_followup_metrics], the selected rounds converted by
    [round_evidence] *)
Definition bulk_evaluate_clue_followup_metrics (raw : rawdb) (d : cluedb) (cutoff : instant)
    (order_ids : list string) (round_rows : list AssignmentRoundEvidence) : gmap string FollowUpMetric :=
  let loaded := load_clue_followup_evidence repr_of to_float fromisoformat raw d cutoff true order_ids in
  let selected := match round_rows with
                  | [] => mjoin (ce_rounds <$> (map_to_list loaded).*2)
                  | _ => round_rows
                  end in
  foldl (fun metrics row =>
    let evidence := loaded !! ae_order_id row in
    <[ae_assignment_round_id row :=
        evaluate_clue_followup_round row
          (match evidence with
           | Some e => rows_at (ae_assignment_round_id row) (ce_follow_ups_by_round e)
           | None => []
           end)
          (Some (match evidence with Some e => ce_terminal e | None => no_evidence end)) cutoff]> metrics)
    ∅ selected.
End Bulk.
