(* ===== verification/EvidenceProps.v ===== *)
(** * The evidence of an order does not depend on the request

    Both loaders give each requested order the evidence a request for this order
    alone gives, whatever the batches. *)
From S2P Require Import Prelude PyValue Jobs OrderStatus Clues HqPool ClueStatus Evidence.
#[local] Open Scope Z_scope.
#[local] Set Default Proof Using "Type".

(** ** Groups *)

Lemma rows_at_push {A} key o (row : A) g :
  rows_at o (push key row g) = rows_at o g ++ (if str_eqb key o then [row] else []).
Proof.
  unfold rows_at, push, str_eqb. destruct (decide (key = o)) as [->|Hne].
  - rewrite bool_decide_true by done. by rewrite lookup_insert_eq.
  - rewrite bool_decide_false by done. rewrite lookup_insert_ne by done. by rewrite app_nil_r.
Qed.

Lemma rows_at_group {A} (key : A -> string) rows o g :
  rows_at o (group key rows g) = rows_at o g ++ List.filter (fun r => str_eqb (key r) o) rows.
Proof.
  unfold group. revert g. induction rows as [|r rows IH]; intros g; cbn; [by rewrite app_nil_r|].
  rewrite IH, rows_at_push, <- app_assoc. by destruct (str_eqb (key r) o).
Qed.

(** The rows of one order among those of the requested orders. *)
Lemma filter_key_in {A} (key : A -> string) (P : A -> bool) ids o rows :
  List.filter (fun r => str_eqb (key r) o) (List.filter (fun r => str_in (key r) ids && P r) rows)
  = if str_in o ids then List.filter (fun r => str_eqb (key r) o && P r) rows else [].
Proof.
  rewrite filter_filter. destruct (str_in o ids) eqn:E.
  - apply filter_ext_in. intros r. destruct (str_eqb (key r) o) eqn:Ek; rewrite ?andb_false_r; [|done].
    tests. subst. by rewrite E, andb_true_r.
  - apply lfilter_nil_iff. intros r _. destruct (str_eqb (key r) o) eqn:Ek; rewrite ?andb_false_r; [|done].
    tests. subst. by rewrite E.
Qed.

Lemma filter_key_only {A} (key : A -> string) ids o rows :
  List.filter (fun r => str_eqb (key r) o) (List.filter (fun r => str_in (key r) ids) rows)
  = if str_in o ids then List.filter (fun r => str_eqb (key r) o) rows else [].
Proof.
  pose proof (filter_key_in key (fun _ => true) ids o rows) as H.
  setoid_rewrite andb_true_r in H. exact H.
Qed.

Lemma str_in_single o k : str_in k [o] = str_eqb k o.
Proof. unfold str_in, str_eqb. apply bool_decide_ext. set_solver. Qed.

(** ** The verification rows *)
Section Props.
Context (repr_of : pyval -> string).
Context (raw : rawdb) (d : cluedb) (cutoff : instant).
#[local] Notation add_verify_row := (add_verify_row repr_of cutoff).
#[local] Notation add_settlement_row := (add_settlement_row cutoff).
#[local] Notation gather_raw := (gather_raw repr_of raw cutoff).
#[local] Notation gather_rounds := (gather_rounds d).

(** The evidence a row of the join gives, and whether it is a cancellation. *)
Definition counted (p : string * RawDouyinVerifyRecord) : option VerificationEvidence :=
  if verify_known cutoff p.2 && bool_decide (cancel_known cutoff p.2 = None)
  then verify_evidence repr_of p.1 p.2 else None.
Definition canceled_at (p : string * RawDouyinVerifyRecord) : option instant :=
  if verify_known cutoff p.2 then cancel_known cutoff p.2 else None.

(** What a fold over the verification rows leaves as it was. *)
Definition same_rows (g g' : gathered) : Prop :=
  raw_orders g' = raw_orders g /\ raw_clues_by_order g' = raw_clues_by_order g
  /\ coupons_by_order g' = coupons_by_order g /\ refunds_by_order g' = refunds_by_order g
  /\ refund_events_by_order g' = refund_events_by_order g /\ rounds_by_order g' = rounds_by_order g
  /\ follows_by_round g' = follows_by_round g.

(** The rows [l] of the join are added to [g]. *)
Record adds (l : list (string * RawDouyinVerifyRecord)) (g g' : gathered) : Prop := MkAdds {
  ad_same : same_rows g g';
  ad_counted : forall o, rows_at o (verifications_by_order g')
    = rows_at o (verifications_by_order g) ++ omap counted (List.filter (fun p => str_eqb p.1 o) l);
  ad_verify : forall x, x ∈ canceled_verify_ids g' <-> x ∈ canceled_verify_ids g
    \/ exists p, p ∈ l /\ is_Some (canceled_at p) /\ vr_verify_id p.2 = x;
  ad_coupon : forall x, x ∈ canceled_coupon_ids g' <-> x ∈ canceled_coupon_ids g
    \/ exists p, p ∈ l /\ is_Some (canceled_at p) /\ vr_coupon_id p.2 = Some x /\ x <> "";
  ad_times : forall x t, t ∈ rows_at x (canceled_coupon_cancel_times g') <->
    t ∈ rows_at x (canceled_coupon_cancel_times g)
    \/ exists p, p ∈ l /\ canceled_at p = Some t /\ vr_coupon_id p.2 = Some x /\ x <> "";
  ad_orders : forall o, o ∈ canceled_order_ids g' <-> o ∈ canceled_order_ids g
    \/ exists p, p ∈ l /\ is_Some (canceled_at p) /\ p.1 = o;
}.

Lemma same_rows_trans g1 g2 g3 : same_rows g1 g2 -> same_rows g2 g3 -> same_rows g1 g3.
Proof. unfold same_rows. intros. destruct_and!. repeat split; congruence. Qed.

Lemma adds_nil g : adds [] g g.
Proof.
  split; [by repeat split|intros; by rewrite app_nil_r|..];
    intros; split; [auto| |auto| |auto| |auto|]; intros [?|(? & ?%elem_of_nil & _)]; done.
Qed.

Lemma ex_app {A} (P : A -> Prop) l k :
  (exists p, p ∈ l ++ k /\ P p) <-> (exists p, p ∈ l /\ P p) \/ (exists p, p ∈ k /\ P p).
Proof. setoid_rewrite elem_of_app. naive_solver. Qed.

Lemma adds_app l k g1 g2 g3 : adds l g1 g2 -> adds k g2 g3 -> adds (l ++ k) g1 g3.
Proof.
  intros [a1 a2 a3 a4 a5 a6] [b1 b2 b3 b4 b5 b6]. split.
  - by eapply same_rows_trans.
  - intros o. rewrite b2, a2, lfilter_app, omap_app. by rewrite app_assoc.
  - intros x. rewrite ex_app, b3, a3. tauto.
  - intros x. rewrite ex_app, b4, a4. tauto.
  - intros x t. rewrite ex_app, b5, a5. tauto.
  - intros x. rewrite ex_app, b6, a6. tauto.
Qed.

Lemma ex_one {A} (P : A -> Prop) q : (exists p, p ∈ [q] /\ P p) <-> P q.
Proof. setoid_rewrite list_elem_of_singleton. naive_solver. Qed.

Lemma not_canceled_adds p g g' :
  canceled_at p = None -> same_rows g g' ->
  canceled_verify_ids g' = canceled_verify_ids g -> canceled_coupon_ids g' = canceled_coupon_ids g ->
  canceled_coupon_cancel_times g' = canceled_coupon_cancel_times g ->
  canceled_order_ids g' = canceled_order_ids g ->
  (forall o, rows_at o (verifications_by_order g')
     = rows_at o (verifications_by_order g) ++ (if str_eqb p.1 o then omap counted [p] else [])) ->
  adds [p] g g'.
Proof.
  intros Hc Hs E1 E2 E3 E4 Hv. split; [done| |..];
    [intros o; rewrite Hv; cbn [List.filter]; by destruct (str_eqb p.1 o)|..];
    intros; rewrite ?E1, ?E2, ?E3, ?E4, ex_one, Hc; (split; [by left|intros [?|[Hx _]]; [done|by inversion Hx]]).
Qed.

Lemma adds_row p g : adds [p] g (add_verify_row g p).
Proof.
  destruct p as [o v]. unfold add_verify_row.
  destruct (verify_known cutoff v) eqn:Hk; cbn [negb].
  2: { apply not_canceled_adds; try done; [unfold canceled_at; cbn; by rewrite Hk|].
       intros o'. cbn [omap list_omap]. unfold counted. cbn. rewrite Hk. destruct (str_eqb o o'); by rewrite app_nil_r. }
  destruct (cancel_known cutoff v) as [t|] eqn:Hc.
  - assert (canceled_at (o, v) = Some t) as Hat by (unfold canceled_at; cbn; by rewrite Hk).
    assert (counted (o, v) = None) as Hno by (unfold counted; cbn; by rewrite Hk, Hc).
    assert (forall o', omap counted (List.filter (fun p => str_eqb p.1 o') [(o, v)]) = []) as Hnil.
    { intros o'. cbn. destruct (str_eqb o o'); cbn; by rewrite ?Hno. }
    destruct (vr_coupon_id v) as [c|] eqn:Hcp; [destruct (str_eqb c "") eqn:Hce|];
      (split; [by repeat split|intros; rewrite Hnil, app_nil_r; done|..]; intros; rewrite ex_one, Hat;
       cbn [fst snd field_set canceled_verify_ids canceled_coupon_ids canceled_order_ids canceled_coupon_cancel_times];
       rewrite ?Hcp; rewrite ?rows_at_push).
    all: rewrite ?elem_of_union, ?elem_of_singleton, ?elem_of_app.
    all: assert (is_Some (Some t)) by eauto.
    all: unfold str_eqb in *; repeat case_bool_decide; rewrite ?list_elem_of_singleton, ?elem_of_nil;
      naive_solver.
  - assert (canceled_at (o, v) = None) as Hat by (unfold canceled_at; cbn; by rewrite Hk, Hc).
    assert (counted (o, v) = verify_evidence repr_of o v) as Hev by (unfold counted; cbn; by rewrite Hk, Hc).
    destruct (verify_evidence repr_of o v) as [e|] eqn:He; apply not_canceled_adds; try done; intros o'; cbn;
      rewrite Hev; [by rewrite rows_at_push|]. destruct (str_eqb o o'); by rewrite app_nil_r.
Qed.

Lemma adds_rows l g : adds l g (foldl add_verify_row g l).
Proof.
  revert g. induction l as [|p l IH]; intros g; [apply adds_nil|].
  cbn [foldl]. change (p :: l) with ([p] ++ l). eapply adds_app; [apply adds_row|apply IH].
Qed.

(** The settled lines of a batch, under the cancellations found so far. *)
Lemma add_settlement_rows l g :
  let g' := foldl add_settlement_row g l in
  same_rows g g' /\ canceled_verify_ids g' = canceled_verify_ids g
  /\ canceled_coupon_ids g' = canceled_coupon_ids g
  /\ canceled_coupon_cancel_times g' = canceled_coupon_cancel_times g
  /\ canceled_order_ids g' = canceled_order_ids g
  /\ forall o, rows_at o (verifications_by_order g') = rows_at o (verifications_by_order g)
       ++ omap (settlement_evidence cutoff (canceled_verify_ids g) (canceled_coupon_cancel_times g))
            (List.filter (fun r => str_eqb (sd_order_id r) o) l).
Proof.
  revert g. induction l as [|r l IH]; intros g; cbn zeta; cbn [foldl].
  { repeat split. intros o. by rewrite app_nil_r. }
  destruct (IH (add_settlement_row g r)) as (Hs & E1 & E2 & E3 & E4 & Hv). clear IH.
  unfold add_settlement_row in *.
  destruct (settlement_evidence _ _ _ r) as [e|] eqn:He.
  - repeat split; rewrite ?E1, ?E2, ?E3, ?E4; try done; try (apply Hs). intros o. rewrite Hv.
    cbn [field_set verifications_by_order canceled_verify_ids canceled_coupon_cancel_times List.filter].
    rewrite rows_at_push, <- app_assoc. f_equal. destruct (str_eqb (sd_order_id r) o); [|done].
    cbn [omap list_omap]. by rewrite He.
  - repeat split; try done; try apply Hs. intros o. rewrite Hv. f_equal. cbn [List.filter].
    destruct (str_eqb (sd_order_id r) o); [|done]. cbn [omap list_omap]. by rewrite He.
Qed.

(** ** One batch, order by order *)

Lemma orders_lookup rows k : forall m : gmap string RawDouyinOrder,
  foldl (fun m o => <[ro_order_id o := o]> m) m rows !! k
  = match last (List.filter (fun o => str_eqb (ro_order_id o) k) rows) with
    | Some o => Some o
    | None => m !! k
    end.
Proof.
  induction rows as [|r rows IH]; intros m; [done|]. cbn [foldl]. rewrite IH. cbn [List.filter].
  unfold str_eqb. case_bool_decide as E; [|by rewrite lookup_insert_ne].
  rewrite last_cons. destruct (last _); [done|]. by rewrite E, lookup_insert_eq.
Qed.

Lemma elem_of_joined ids p :
  p ∈ joined_verifications raw ids <-> exists c,
    c ∈ raw_douyin_order_coupons raw /\ oc_order_id c ∈ ids /\ p.1 = oc_order_id c
    /\ p.2 ∈ raw_douyin_verify_records raw /\ vr_coupon_id p.2 = Some (oc_coupon_id c).
Proof.
  unfold joined_verifications. rewrite list_elem_of_join. setoid_rewrite list_elem_of_fmap. split.
  - intros (l & Hp & c & -> & Hc). apply list_elem_of_In, filter_In in Hc as [Hc Ho].
    apply list_elem_of_fmap in Hp as (v & -> & Hv). apply list_elem_of_In, filter_In in Hv as [Hv He].
    exists c. rewrite <- !list_elem_of_In in *. unfold str_in in Ho. tests. auto.
  - intros (c & Hc & Ho & E1 & Hv & E2).
    eexists. split; [|exists c; split; [reflexivity|apply list_elem_of_In, filter_In]].
    + apply list_elem_of_fmap. exists p.2. split; [destruct p; cbn in *; by rewrite E1|].
      apply list_elem_of_In, filter_In. rewrite <- list_elem_of_In. split; [done|]. by apply opt_is_true.
    + rewrite <- list_elem_of_In. split; [done|]. unfold str_in. by apply bool_decide_true.
Qed.

Lemma joined_order ids o :
  List.filter (fun p => str_eqb p.1 o) (joined_verifications raw ids)
  = if str_in o ids then joined_verifications raw [o] else [].
Proof.
  unfold joined_verifications. induction (raw_douyin_order_coupons raw) as [|c l IH]; cbn [List.filter];
    [by destruct (str_in o ids)|].
  rewrite str_in_single.
  assert (forall c, List.filter (fun p => str_eqb p.1 o) (coupon_verifications raw c)
    = if str_eqb (oc_order_id c) o then coupon_verifications raw c else []) as Hf.
  { intros c'. unfold coupon_verifications. induction (raw_douyin_verify_records raw) as [|v k IHk]; cbn [List.filter].
    - by destruct (str_eqb _ _).
    - destruct (opt_is _ _); [|done]. rewrite fmap_cons. cbn [List.filter fst]. rewrite IHk.
      by destruct (str_eqb _ _). }
  destruct (str_in (oc_order_id c) ids) eqn:Ei; destruct (str_eqb (oc_order_id c) o) eqn:Eo;
    rewrite ?fmap_cons; cbn [mjoin list_join]; rewrite ?lfilter_app, ?IH, ?Hf, ?Eo; tests; subst; try done.
  - rewrite Ei in *. by f_equal.
  - rewrite Ei in *. done.
Qed.

(** The rows of one order that the cutoff shows. *)
Record order_view := MkView {
  vw_order : option RawDouyinOrder;
  vw_clues : list RawDouyinClue;
  vw_coupons : list RawDouyinOrderCoupon;
  vw_refunds : list RawDouyinRefundRecord;
  vw_events : list DouyinRefundEvent;
}.

Definition view (g : gathered) (o : string) : order_view :=
  MkView (raw_orders g !! o) (rows_at o (raw_clues_by_order g)) (rows_at o (coupons_by_order g))
    (rows_at o (refunds_by_order g)) (rows_at o (refund_events_by_order g)).
Definition no_view : order_view := MkView None [] [] [] [].

Definition own_view (include_raw_clues : bool) (o : string) : order_view :=
  MkView (last (List.filter (fun r => str_eqb (ro_order_id r) o) (raw_douyin_orders raw)))
    (if include_raw_clues
     then List.filter (fun r => opt_is (rc_order_id r) o && visible cutoff r) (raw_douyin_clues raw) else [])
    (List.filter (fun r => str_eqb (oc_order_id r) o && visible cutoff r) (raw_douyin_order_coupons raw))
    (List.filter (fun r => str_eqb (rr_order_id r) o && visible cutoff r) (raw_douyin_refund_records raw))
    (List.filter (fun r => str_eqb (ev_order_id r) o && visible cutoff r) (douyin_refund_events raw)).

Lemma clue_rows ids o :
  List.filter (fun r => str_eqb (default "None" (rc_order_id r)) o)
    (List.filter (fun r => match rc_order_id r with Some o => str_in o ids | None => false end
                           && visible cutoff r) (raw_douyin_clues raw))
  = if str_in o ids then List.filter (fun r => opt_is (rc_order_id r) o && visible cutoff r) (raw_douyin_clues raw)
    else [].
Proof.
  rewrite filter_filter. destruct (str_in o ids) eqn:E.
  - apply filter_ext_in. intros r. destruct (rc_order_id r) as [k|]; cbn; [|done].
    unfold opt_is, str_eqb in *. destruct (decide (k = o)) as [->|Hne].
    + rewrite E, !bool_decide_true by done. by rewrite andb_true_r.
    + rewrite !bool_decide_false by congruence. by rewrite andb_false_r.
  - apply lfilter_nil_iff. intros r _. destruct (rc_order_id r) as [k|]; cbn; [|done].
    destruct (str_eqb k o) eqn:Ek; rewrite ?andb_false_r; [|done]. tests. subst. by rewrite E.
Qed.

(** The rows a batch adds to those gathered before. *)
Definition gather_tables (include_raw_clues : bool) (g : gathered) (ids : list string) : gathered :=
  MkGathered
    (foldl (fun m o => <[ro_order_id o := o]> m) (raw_orders g)
       (List.filter (fun o => str_in (ro_order_id o) ids) (raw_douyin_orders raw)))
    (if include_raw_clues
     then group (fun r => default "None" (rc_order_id r))
            (List.filter (fun r => match rc_order_id r with Some o => str_in o ids | None => false end
                                   && visible cutoff r) (raw_douyin_clues raw)) (raw_clues_by_order g)
     else raw_clues_by_order g)
    (group oc_order_id (List.filter (fun r => str_in (oc_order_id r) ids && visible cutoff r)
       (raw_douyin_order_coupons raw)) (coupons_by_order g))
    (group rr_order_id (List.filter (fun r => str_in (rr_order_id r) ids && visible cutoff r)
       (raw_douyin_refund_records raw)) (refunds_by_order g))
    (group ev_order_id (List.filter (fun r => str_in (ev_order_id r) ids && visible cutoff r)
       (douyin_refund_events raw)) (refund_events_by_order g))
    (verifications_by_order g) (rounds_by_order g) (follows_by_round g) (canceled_verify_ids g)
    (canceled_coupon_ids g) (canceled_coupon_cancel_times g) (canceled_order_ids g).

Lemma gather_raw_unfold incl g ids :
  gather_raw incl g ids
  = foldl add_settlement_row (foldl add_verify_row (gather_tables incl g ids) (joined_verifications raw ids))
      (List.filter (fun r => str_in (sd_order_id r) ids) (settlement_order_details raw)).
Proof. by destruct incl. Qed.

Lemma view_same g g' o : same_rows g g' -> view g' o = view g o.
Proof. intros (E1 & E2 & E3 & E4 & E5 & _). unfold view. by rewrite E1, E2, E3, E4, E5. Qed.

Lemma gather_tables_view incl g ids o :
  if str_in o ids then view g o = no_view -> view (gather_tables incl g ids) o = own_view incl o
  else view (gather_tables incl g ids) o = view g o.
Proof.
  unfold view, own_view, no_view, gather_tables.
  cbn [raw_orders raw_clues_by_order coupons_by_order refunds_by_order refund_events_by_order].
  rewrite orders_lookup, filter_key_only, !rows_at_group, !filter_key_in.
  destruct incl; rewrite ?rows_at_group, ?clue_rows; destruct (str_in o ids); intros;
    simplify_eq/=; rewrite ?app_nil_r; try done; f_equal; try congruence; try (by destruct (last _)).
  all: match goal with H : ?x = [] |- ?x ++ _ = _ => by rewrite H end.
Qed.

(** ** What the evidence of an order depends on *)

(** The data of the raw tables that name the same coupon or verification agree on
    its order. *)
Record raw_consistent : Prop := MkRawConsistent {
  rw_verify : forall s c v, s ∈ settlement_order_details raw -> c ∈ raw_douyin_order_coupons raw ->
    v ∈ raw_douyin_verify_records raw -> vr_coupon_id v = Some (oc_coupon_id c) ->
    clean (sd_verify_id s) = Some (vr_verify_id v) -> oc_order_id c = sd_order_id s;
  rw_detail : forall s c, s ∈ settlement_order_details raw -> c ∈ raw_douyin_order_coupons raw ->
    clean (Some (sd_coupon_id s)) = Some (oc_coupon_id c) -> oc_order_id c = sd_order_id s;
  rw_coupon : forall c c', c ∈ raw_douyin_order_coupons raw -> c' ∈ raw_douyin_order_coupons raw ->
    clean (Some (oc_coupon_id c)) = Some (oc_coupon_id c') -> oc_order_id c' = oc_order_id c;
}.

Lemma existsb_elem {A} (P : A -> bool) l k :
  (forall a, a ∈ l <-> a ∈ k) -> existsb P l = existsb P k.
Proof.
  intros H. apply eq_true_iff_eq. rewrite !existsb_exists. setoid_rewrite <- list_elem_of_In.
  by setoid_rewrite H.
Qed.

Lemma settlement_evidence_ext ids1 ids2 times1 times2 r :
  (forall x, clean (sd_verify_id r) = Some x -> x ∈ ids1 <-> x ∈ ids2) ->
  (forall x t, clean (Some (sd_coupon_id r)) = Some x -> t ∈ rows_at x times1 <-> t ∈ rows_at x times2) ->
  settlement_evidence cutoff ids1 times1 r = settlement_evidence cutoff ids2 times2 r.
Proof.
  intros Hv Hc. unfold settlement_evidence. destruct (sd_verify_time r) as [t|]; [|done].
  assert (settlement_verification_is_canceled r t ids1 times1
          = settlement_verification_is_canceled r t ids2 times2) as ->; [|done].
  unfold settlement_verification_is_canceled. destruct (clean (sd_verify_id r)) as [x|].
  - apply bool_decide_ext. auto.
  - destruct (clean (Some _)) as [x|]; [|done]. apply existsb_elem. intros a. by apply Hc.
Qed.

(** The cancellations among the verifications of one order. *)
Definition cancellations (o : string) : gathered := foldl add_verify_row nothing_gathered (joined_verifications raw [o]).

Definition own_verifications (o : string) : list VerificationEvidence :=
  omap counted (joined_verifications raw [o])
  ++ omap (settlement_evidence cutoff (canceled_verify_ids (cancellations o))
             (canceled_coupon_cancel_times (cancellations o)))
       (List.filter (fun r => str_eqb (sd_order_id r) o) (settlement_order_details raw)).

Definition own_rounds (o : string) : list AssignmentRoundEvidence :=
  round_evidence <$>
    List.filter (fun r => str_eqb (rn_order_id r) o && str_eqb (rn_execution_mode r) "formal")
      ((map_to_list (clue_assignment_rounds d)).*2).

(** [g] holds what the orders [ids] have. *)
Record holds (incl : bool) (ids : list string) (g : gathered) : Prop := MkHolds {
  hd_view : forall o, view g o = if str_in o ids then own_view incl o else no_view;
  hd_verifications : forall o,
    rows_at o (verifications_by_order g) = if str_in o ids then own_verifications o else [];
  hd_verify : forall x, x ∈ canceled_verify_ids g <->
    exists p, p ∈ joined_verifications raw ids /\ is_Some (canceled_at p) /\ vr_verify_id p.2 = x;
  hd_coupon : forall x, x ∈ canceled_coupon_ids g <->
    exists p, p ∈ joined_verifications raw ids /\ is_Some (canceled_at p) /\ vr_coupon_id p.2 = Some x /\ x <> "";
  hd_times : forall x t, t ∈ rows_at x (canceled_coupon_cancel_times g) <->
    exists p, p ∈ joined_verifications raw ids /\ canceled_at p = Some t /\ vr_coupon_id p.2 = Some x /\ x <> "";
  hd_orders : forall o, o ∈ canceled_order_ids g <->
    exists p, p ∈ joined_verifications raw ids /\ is_Some (canceled_at p) /\ p.1 = o;
}.

Lemma joined_nil : joined_verifications raw [] = [].
Proof.
  unfold joined_verifications. assert (List.filter (fun c => str_in (oc_order_id c) [])
    (raw_douyin_order_coupons raw) = []) as ->; [|done].
  apply lfilter_nil_iff. intros c _. unfold str_in. apply bool_decide_false. apply not_elem_of_nil.
Qed.

Lemma holds_nothing incl : holds incl [] nothing_gathered.
Proof.
  split; intros; rewrite ?joined_nil; try done.
  all: split; [|intros (p & Hp%elem_of_nil & _); done].
  all: cbn; unfold rows_at; rewrite ?lookup_empty; cbn; set_solver.
Qed.

Lemma joined_app ids1 ids2 p :
  p ∈ joined_verifications raw (ids1 ++ ids2)
  <-> p ∈ joined_verifications raw ids1 \/ p ∈ joined_verifications raw ids2.
Proof. rewrite !elem_of_joined. setoid_rewrite elem_of_app. naive_solver. Qed.

Lemma ex_joined ids1 ids2 (P : _ -> Prop) :
  (exists p, p ∈ joined_verifications raw (ids1 ++ ids2) /\ P p) <->
  (exists p, p ∈ joined_verifications raw ids1 /\ P p) \/ (exists p, p ∈ joined_verifications raw ids2 /\ P p).
Proof. setoid_rewrite joined_app. naive_solver. Qed.

Lemma joined_single ids o p : o ∈ ids -> p ∈ joined_verifications raw ids -> p.1 = o -> p ∈ joined_verifications raw [o].
Proof.
  rewrite !elem_of_joined. intros _ (c & Hc & _ & E & Hv & Ev) <-. exists c.
  rewrite list_elem_of_singleton. auto.
Qed.

Lemma joined_from ids o p : o ∈ ids -> p ∈ joined_verifications raw [o] -> p ∈ joined_verifications raw ids /\ p.1 = o.
Proof.
  rewrite !elem_of_joined. intros Ho (c & Hc & E%list_elem_of_singleton & Ep & Hv & Ev).
  split; [exists c|]; subst; auto.
Qed.

(** With consistent data a settled line is judged by the cancellations of its own
    order. *)
Lemma own_cancellations ids g r :
  raw_consistent -> r ∈ settlement_order_details raw -> sd_order_id r ∈ ids ->
  (forall x, x ∈ canceled_verify_ids g <->
    exists p, p ∈ joined_verifications raw ids /\ is_Some (canceled_at p) /\ vr_verify_id p.2 = x) ->
  (forall x t, t ∈ rows_at x (canceled_coupon_cancel_times g) <->
    exists p, p ∈ joined_verifications raw ids /\ canceled_at p = Some t /\ vr_coupon_id p.2 = Some x /\ x <> "") ->
  settlement_evidence cutoff (canceled_verify_ids g) (canceled_coupon_cancel_times g) r
  = settlement_evidence cutoff (canceled_verify_ids (cancellations (sd_order_id r)))
      (canceled_coupon_cancel_times (cancellations (sd_order_id r))) r.
Proof.
  intros Hw Hr Ho Hv Ht.
  pose proof (adds_rows (joined_verifications raw [sd_order_id r]) nothing_gathered) as Ha.
  change (foldl add_verify_row _ _) with (cancellations (sd_order_id r)) in Ha.
  apply settlement_evidence_ext.
  - intros x Hx. rewrite Hv, (ad_verify _ _ _ Ha). split.
    + intros (p & Hp & Hc & <-). right. exists p. split; [|done]. eapply joined_single; [done|done|].
      apply elem_of_joined in Hp as (c & Hcc & _ & -> & Hvv & E). by eapply (rw_verify Hw r c p.2).
    + intros [[]%not_elem_of_empty|(p & Hp & Hc)]. exists p. split; [|done]. by eapply joined_from.
  - intros x t Hx. rewrite Ht, (ad_times _ _ _ Ha). split.
    + intros (p & Hp & Hc & Hcp & Hne). right. exists p. split; [|done]. eapply joined_single; [done|done|].
      apply elem_of_joined in Hp as (c & Hcc & _ & -> & Hvv & E). apply (rw_detail Hw r c); [done|done|congruence].
    + intros [Hn|(p & Hp & Hc)]; [by apply elem_of_nil in Hn|]. exists p. split; [|done]. by eapply joined_from.
Qed.

Lemma omap_ext_in {A B} (f h : A -> option B) (l : list A) : (forall a, a ∈ l -> f a = h a) -> omap f l = omap h l.
Proof.
  induction l as [|a l IH]; intros H; [done|]. cbn. rewrite (H a) by left.
  rewrite IH by (intros; apply H; by right). done.
Qed.

Lemma holds_step incl ids1 ids2 g :
  raw_consistent -> holds incl ids1 g -> (forall o, o ∈ ids1 -> o ∈ ids2 -> False) ->
  holds incl (ids1 ++ ids2) (gather_raw incl g ids2).
Proof.
  intros Hw [hv hw hi hc ht ho] Hdis. rewrite gather_raw_unfold.
  set (g0 := gather_tables incl g ids2).
  pose proof (adds_rows (joined_verifications raw ids2) g0) as [a1 a2 a3 a4 a5 a6].
  set (g1 := foldl add_verify_row g0 _) in *.
  pose proof (add_settlement_rows (List.filter (fun r => str_in (sd_order_id r) ids2)
    (settlement_order_details raw)) g1) as (b1 & b2 & b3 & b4 & b5 & b6).
  set (g2 := foldl add_settlement_row g1 _) in *.
  assert (forall o, str_in o (ids1 ++ ids2) = str_in o ids1 || str_in o ids2) as Hin.
  { intros o. unfold str_in. rewrite <- bool_decide_or. apply bool_decide_ext. apply elem_of_app. }
  assert (forall o, str_in o ids2 = true -> str_in o ids1 = false) as Hout.
  { intros o. unfold str_in. rewrite bool_decide_eq_true, bool_decide_eq_false. eauto. }
  assert (forall x, x ∈ canceled_verify_ids g1 <-> exists p, p ∈ joined_verifications raw (ids1 ++ ids2)
    /\ is_Some (canceled_at p) /\ vr_verify_id p.2 = x) as Hi1.
  { intros x. rewrite ex_joined, a3. by rewrite <- hi. }
  assert (forall x t, t ∈ rows_at x (canceled_coupon_cancel_times g1) <-> exists p,
    p ∈ joined_verifications raw (ids1 ++ ids2) /\ canceled_at p = Some t /\ vr_coupon_id p.2 = Some x /\ x <> "") as Ht1.
  { intros x t. rewrite ex_joined, a5. by rewrite <- ht. }
  split.
  - intros o. rewrite (view_same g0 g2 o) by (by eapply same_rows_trans).
    pose proof (gather_tables_view incl g ids2 o) as Hg. fold g0 in Hg. rewrite Hin.
    destruct (str_in o ids2) eqn:E; [|by rewrite Hg, orb_false_r, hv].
    rewrite orb_true_r. apply Hg. rewrite hv. by rewrite (Hout o E).
  - intros o. rewrite b6, a2, joined_order, Hin, filter_key_only.
    assert (rows_at o (verifications_by_order g0) = if str_in o ids1 then own_verifications o else []) as ->
      by apply hw.
    destruct (str_in o ids2) eqn:E; [|by rewrite orb_false_r, !app_nil_r].
    rewrite orb_true_r, (Hout o E). cbn [app]. unfold own_verifications. f_equal.
    apply omap_ext_in. intros r Hr. apply list_elem_of_In, filter_In in Hr as [Hr Eo].
    apply str_eqb_true in Eo. subst o.
    apply (own_cancellations (ids1 ++ ids2)); [done|by apply list_elem_of_In| |done|done].
    unfold str_in in E. apply bool_decide_eq_true in E. apply elem_of_app. by right.
  - intros x. by rewrite b2.
  - intros x. rewrite b3, ex_joined, a4. by rewrite <- hc.
  - intros x t. by rewrite b4.
  - intros o. rewrite b5, ex_joined, a6. by rewrite <- ho.
Qed.

(** ** All batches *)

Definition holds_rounds (ids : list string) (g : gathered) : Prop :=
  forall o, rows_at o (rounds_by_order g) = if str_in o ids then own_rounds o else [].

Lemma gather_raw_rounds incl g ids : rounds_by_order (gather_raw incl g ids) = rounds_by_order g.
Proof.
  rewrite gather_raw_unfold.
  pose proof (adds_rows (joined_verifications raw ids) (gather_tables incl g ids)) as [a1 _ _ _ _ _].
  set (g1 := foldl add_verify_row _ _) in *.
  pose proof (add_settlement_rows (List.filter (fun r => str_in (sd_order_id r) ids)
    (settlement_order_details raw)) g1) as (b1 & _).
  pose proof (same_rows_trans _ _ _ a1 b1) as (_ & _ & _ & _ & _ & E & _). by rewrite E.
Qed.

Lemma gather_rounds_step ids1 ids2 g :
  holds_rounds ids1 g -> (forall o, o ∈ ids1 -> o ∈ ids2 -> False) ->
  holds_rounds (ids1 ++ ids2) (gather_rounds g ids2).1.
Proof.
  intros H Hdis o. unfold gather_rounds. cbn [fst field_set rounds_by_order].
  rewrite rows_at_group, H, lfilter_fmap.
  change (fun a => str_eqb (ae_order_id (round_evidence a)) o) with (fun a => str_eqb (rn_order_id a) o).
  rewrite (filter_key_in rn_order_id (fun r => str_eqb (rn_execution_mode r) "formal")).
  unfold str_in. rewrite (bool_decide_ext _ _ (elem_of_app ids1 ids2 o)), bool_decide_or.
  destruct (bool_decide (o ∈ ids2)) eqn:E2; [|by rewrite orb_false_r, app_nil_r].
  rewrite orb_true_r. rewrite bool_decide_eq_true in E2. by rewrite bool_decide_false by eauto.
Qed.

(** A loader's batch keeps both. *)
Definition complete (incl : bool) (ids : list string) (g : gathered) : Prop :=
  holds incl ids g /\ holds_rounds ids g.

Definition terminal_batch (incl : bool) (g : gathered) (ids : list string) : gathered :=
  (gather_rounds (gather_raw incl g ids) ids).1.
Definition followup_batch (incl : bool) (g : gathered) (ids : list string) : gathered :=
  let '(g, rounds) := gather_rounds g ids in
  gather_raw incl (gather_follow_ups d cutoff g rounds) ids.

Lemma terminal_batch_complete incl ids1 ids2 g :
  raw_consistent -> complete incl ids1 g -> (forall o, o ∈ ids1 -> o ∈ ids2 -> False) ->
  complete incl (ids1 ++ ids2) (terminal_batch incl g ids2).
Proof.
  intros Hw [Hh Hr] Hdis. destruct (holds_step incl ids1 ids2 g Hw Hh Hdis) as [h1 h2 h3 h4 h5 h6].
  split; [by split|]. apply gather_rounds_step; [|done]. intros o. by rewrite gather_raw_rounds.
Qed.

Lemma followup_batch_complete incl ids1 ids2 g :
  raw_consistent -> complete incl ids1 g -> (forall o, o ∈ ids1 -> o ∈ ids2 -> False) ->
  complete incl (ids1 ++ ids2) (followup_batch incl g ids2).
Proof.
  intros Hw [[h1 h2 h3 h4 h5 h6] Hr] Hdis. unfold followup_batch.
  pose proof (gather_rounds_step ids1 ids2 g Hr Hdis) as Hr2.
  destruct (gather_rounds g ids2) as [g' rounds] eqn:E.
  assert (g' = g <| rounds_by_order := rounds_by_order g' |>) as Eg by (by inversion E).
  split.
  - apply holds_step; [done| |done]. rewrite Eg. by split.
  - intros o. rewrite gather_raw_rounds. apply Hr2.
Qed.

Lemma batches_complete incl (step : gathered -> list string -> gathered) bs :
  (forall ids1 ids2 g, complete incl ids1 g -> (forall o, o ∈ ids1 -> o ∈ ids2 -> False) ->
     complete incl (ids1 ++ ids2) (step g ids2)) ->
  NoDup (mjoin bs) -> complete incl (mjoin bs) (foldl step nothing_gathered bs).
Proof.
  intros Hstep. assert (forall ids g, complete incl ids g -> NoDup (ids ++ mjoin bs) ->
    complete incl (ids ++ mjoin bs) (foldl step g bs)) as H.
  { induction bs as [|b bs IH]; intros ids g Hg Hnd; cbn in *; [by rewrite app_nil_r|].
    rewrite app_assoc. apply IH; [|by rewrite <- app_assoc]. apply Hstep; [done|].
    intros o Ho Hb. apply NoDup_app in Hnd as (_ & Hnd & _). eapply Hnd; [exact Ho|]. apply elem_of_app. by left. }
  intros Hnd. apply (H []); [|done]. split; [apply holds_nothing|]. intros o. by rewrite <- (app_nil_r []).
Qed.

Lemma slices_join {A} size (l : list A) : forall fuel,
  (0 < size)%nat -> (length l <= fuel)%nat -> mjoin (slices fuel size l) = l.
Proof.
  intros fuel Hs. revert l. induction fuel as [|fuel IH]; intros [|a l] Hl; cbn [slices]; try done; [cbn in Hl; lia|].
  cbn [mjoin list_join]. rewrite IH; [apply take_drop|]. rewrite length_drop. cbn in *. lia.
Qed.

Lemma batch_join values : mjoin (batch values) = requested_ids values.
Proof. unfold batch. apply slices_join; [unfold EVIDENCE_QUERY_BATCH_SIZE; lia|done]. Qed.

Lemma requested_nodup values : NoDup (requested_ids values).
Proof.
  unfold requested_ids. rewrite merge_sort_Permutation. apply NoDup_remove_dups.
Qed.

Lemma elem_of_requested values o : o ∈ requested_ids values <-> o ∈ values /\ blank o = false.
Proof.
  unfold requested_ids. rewrite merge_sort_Permutation, elem_of_remove_dups, list_elem_of_In, filter_In, <- list_elem_of_In.
  by rewrite negb_true_iff.
Qed.

(** ** The evidence of one order *)

Context (to_float : Q -> Q) (fromisoformat : string -> option instant).

(** The reference: the evidence of an order from its own rows alone. *)
Definition order_evidence (incl : bool) (o : string) : TerminalEvidence :=
  let v := own_view incl o in
  terminal_from_rows repr_of to_float fromisoformat (vw_order v) (vw_clues v) (vw_coupons v) (vw_refunds v)
    (vw_events v)
    (own_verifications o
     ++ (if bool_decide (o ∈ canceled_order_ids (cancellations o)) then []
         else omap (round_verification cutoff) (own_rounds o)))
    cutoff (canceled_coupon_ids (cancellations o)).

Lemma coupon_status_ext ids1 ids2 (c : RawDouyinOrderCoupon) :
  (forall x, clean (Some (oc_coupon_id c)) = Some x -> x ∈ ids1 <-> x ∈ ids2) ->
  coupon_status_of repr_of (filter (fun id => blank id = false) ids1) c
  = coupon_status_of repr_of (filter (fun id => blank id = false) ids2) c.
Proof.
  intros H. unfold coupon_status_of. destruct (clean (Some (oc_coupon_id c))) as [x|]; [|done].
  assert (bool_decide (x ∈ filter (fun id => blank id = false) ids1)
          = bool_decide (x ∈ filter (fun id => blank id = false) ids2)) as ->; [|done].
  apply bool_decide_ext. rewrite !elem_of_filter. by rewrite (H x).
Qed.

Lemma terminal_from_rows_ext o clues coupons refunds events vs ids1 ids2 :
  (forall c x, c ∈ coupons -> clean (Some (oc_coupon_id c)) = Some x -> x ∈ ids1 <-> x ∈ ids2) ->
  terminal_from_rows repr_of to_float fromisoformat o clues coupons refunds events vs cutoff ids1
  = terminal_from_rows repr_of to_float fromisoformat o clues coupons refunds events vs cutoff ids2.
Proof.
  intros H. unfold terminal_from_rows.
  assert (omap (coupon_status_of repr_of (filter (fun id => blank id = false) ids1)) coupons
          = omap (coupon_status_of repr_of (filter (fun id => blank id = false) ids2)) coupons) as ->; [|done].
  apply omap_ext_in. intros c Hc. apply coupon_status_ext. eauto.
Qed.

Lemma own_canceled_orders incl ids g o :
  holds incl ids g -> o ∈ ids ->
  bool_decide (o ∈ canceled_order_ids g) = bool_decide (o ∈ canceled_order_ids (cancellations o)).
Proof.
  intros Hh Ho. apply bool_decide_ext. rewrite (hd_orders _ _ _ Hh).
  rewrite (ad_orders _ _ _ (adds_rows (joined_verifications raw [o]) nothing_gathered)). split.
  - intros (p & Hp & Hc & E). right. exists p. split; [by eapply joined_single|done].
  - intros [[]%not_elem_of_empty|(p & Hp & Hc)]. exists p. split; [by eapply joined_from|done].
Qed.

Lemma own_canceled_coupons incl ids g o c x :
  raw_consistent -> holds incl ids g -> o ∈ ids -> c ∈ vw_coupons (own_view incl o) ->
  clean (Some (oc_coupon_id c)) = Some x ->
  x ∈ canceled_coupon_ids g <-> x ∈ canceled_coupon_ids (cancellations o).
Proof.
  intros Hw Hh Ho Hc Hx. rewrite (hd_coupon _ _ _ Hh).
  rewrite (ad_coupon _ _ _ (adds_rows (joined_verifications raw [o]) nothing_gathered)).
  cbn [own_view vw_coupons] in Hc. apply list_elem_of_In, filter_In in Hc as [Hc Eo].
  apply andb_true_iff in Eo as [Eo%str_eqb_true _]. apply list_elem_of_In in Hc. split.
  - intros (p & Hp & Hcan & Hcp & Hne). right. exists p. split; [|done]. eapply joined_single; [done|done|].
    apply elem_of_joined in Hp as (c' & Hc' & _ & -> & _ & E). subst o.
    apply (rw_coupon Hw c c'); [done|done|]. congruence.
  - intros [[]%not_elem_of_empty|(p & Hp & Hcan)]. exists p. split; [by eapply joined_from|done].
Qed.

Lemma terminal_of_complete incl ids g o :
  raw_consistent -> complete incl ids g -> o ∈ ids ->
  terminal_of repr_of to_float fromisoformat cutoff g o = order_evidence incl o.
Proof.
  intros Hw [Hh Hr] Ho. assert (str_in o ids = true) as Hi by (by apply bool_decide_true).
  pose proof (hd_view _ _ _ Hh o) as Hv. rewrite Hi in Hv. unfold view in Hv.
  unfold terminal_of, order_evidence, verifications_of. rewrite <- Hv. cbn [vw_order vw_clues vw_coupons vw_refunds vw_events].
  rewrite (hd_verifications _ _ _ Hh o), (Hr o), Hi, (own_canceled_orders _ _ _ _ Hh Ho).
  apply terminal_from_rows_ext. intros c x Hc. apply (own_canceled_coupons incl ids); [done|done|done|].
  rewrite <- Hv. exact Hc.
Qed.

Lemma by_order_lookup {A} (f : string -> A) ids o :
  by_order f ids !! o = if str_in o ids then Some (f o) else None.
Proof.
  unfold by_order, str_in. case_bool_decide as E.
  - apply elem_of_list_to_map_1'.
    + intros y (k & [= -> ->] & _)%list_elem_of_fmap. done.
    + apply list_elem_of_fmap. eauto.
  - apply not_elem_of_list_to_map_1. rewrite <- list_fmap_compose. cbn. by rewrite list_fmap_id.
Qed.

Lemma evidence_by_order incl values (Hw : raw_consistent) o :
  load_terminal_evidence repr_of to_float fromisoformat raw d cutoff incl values !! o
    = (if str_in o (requested_ids values) then Some (order_evidence incl o) else None)
  /\ ce_terminal <$> load_clue_followup_evidence repr_of to_float fromisoformat raw d cutoff incl values !! o
    = (if str_in o (requested_ids values) then Some (order_evidence incl o) else None).
Proof.
  pose proof (requested_nodup values) as Hnd. rewrite <- batch_join in Hnd.
  pose proof (batches_complete incl (terminal_batch incl) (batch values)
    (fun ids1 ids2 g => terminal_batch_complete incl ids1 ids2 g Hw) Hnd) as H1.
  pose proof (batches_complete incl (followup_batch incl) (batch values)
    (fun ids1 ids2 g => followup_batch_complete incl ids1 ids2 g Hw) Hnd) as H2.
  rewrite batch_join in H1, H2. unfold load_terminal_evidence, load_clue_followup_evidence.
  rewrite !by_order_lookup. unfold str_in. case_bool_decide as E; [|done]. cbn [fmap option_fmap option_map ce_terminal].
  split; f_equal; by apply (terminal_of_complete incl (requested_ids values)).
Qed.

(** With data that agree on the order of a coupon, both loaders give each
    requested order exactly the evidence of its own rows, whatever the other
    requested orders and the batches are, and nothing for an order that was not
    requested or is blank. *)
Lemma evidence_order_by_order incl values (Hw : raw_consistent) o :
  load_terminal_evidence repr_of to_float fromisoformat raw d cutoff incl values !! o
    = (if str_in o (requested_ids values) then Some (order_evidence incl o) else None)
  /\ ce_terminal <$> load_clue_followup_evidence repr_of to_float fromisoformat raw d cutoff incl values !! o
    = (if str_in o (requested_ids values) then Some (order_evidence incl o) else None).
Proof. by apply evidence_by_order. Qed.
End Props.
