(* ===== verification/MetricProps.v ===== *)
(** * Properties of the follow-up metrics *)
From S2P Require Import Prelude PyValue Jobs OrderStatus Clues HqPool ClueStatus Evidence Metrics.
#[local] Open Scope Z_scope.

(** ** The records that count *)

Lemma valid_actions_elem r a c fs f : forall seen,
  f ∈ valid_actions r a c seen fs ->
  f ∈ fs /\ valid_action r a c f = true /\ ~ fe_follow_up_record_id f ∈ seen.
Proof.
  induction fs as [|g fs IH]; intros seen; cbn; [by intros ?%elem_of_nil|].
  unfold str_in. case_bool_decide as E.
  - intros (H & ?)%IH. split; [by right|done].
  - rewrite elem_of_app. intros [H|(H & Hv & Hs)%IH].
    + destruct (valid_action r a c g) eqn:Ev; [|by apply elem_of_nil in H].
      apply list_elem_of_singleton in H as ->. split; [by left|done].
    + split; [by right|]. split; [done|]. intros Hx. apply Hs. by right.
Qed.













(** ** After the deadline the result is final *)

Lemma valid_actions_app r a c fs gs : forall seen,
  exists seen', valid_actions r a c seen (fs ++ gs)
    = valid_actions r a c seen fs ++ valid_actions r a c seen' gs.
Proof.
  induction fs as [|f fs IH]; intros seen; cbn; [by exists seen|].
  destruct (str_in _ _); [apply IH|]. destruct (IH (fe_follow_up_record_id f :: seen)) as [s E].
  exists s. by rewrite E, app_assoc.
Qed.

Lemma window_stable r a c1 c2 due P fs : forall seen,
  due <= c1 -> c1 <= c2 ->
  List.filter (fun f => P f && in_window due f) (valid_actions r a c2 seen fs)
  = List.filter (fun f => P f && in_window due f) (valid_actions r a c1 seen fs).
Proof.
  induction fs as [|f fs IH]; intros seen Hd Hc; cbn; [done|].
  destruct (str_in _ _); [by apply IH|]. rewrite !lfilter_app, IH by done. f_equal.
  unfold valid_action, in_window. destruct (fe_deleted_at f); [done|].
  destruct (fe_created_at f) as [t|] eqn:Et; [|done].
  destruct (Z.leb_spec t c1); [replace (t <=? c2) with true by (symmetry; apply Z.leb_le; lia); done|].
  rewrite andb_false_r. destruct (_ && (t <=? c2)); [|done]. cbn. rewrite Et. cbn.
  replace (t <=? due) with false by (symmetry; apply Z.leb_gt; lia). by rewrite andb_false_r.
Qed.

(** Once 24 hours have passed, a round's 24-hour result is final: records made
    later, and a later cutoff, change neither numerator, denominator, reason nor
    the records counted, as long as the terminal evidence was known by then. *)
Lemma metric_final r fs later terminal a c1 c2
    (Ha : ae_assigned_at r = Some a) (Hdue : a + FOLLOW_UP_WINDOW <= c1) (Hc : c1 <= c2)
    (Hlater : forall f t, f ∈ later -> fe_created_at f = Some t -> c1 < t)
    (Hknown : not_after c1 (te_observed_at terminal) && not_after c1 (te_terminal_at terminal) = true) :
  let m1 := evaluate_clue_followup_round r fs (Some terminal) c1 in
  let m2 := evaluate_clue_followup_round r (fs ++ later) (Some terminal) c2 in
  fm_numerator m2 = fm_numerator m1 /\ fm_denominator m2 = fm_denominator m1
  /\ fm_reason_code m2 = fm_reason_code m1 /\ fm_follow_record_ids m2 = fm_follow_record_ids m1
  /\ fm_terminal_at m2 = fm_terminal_at m1.
Proof.
  assert (forall P, List.filter (fun f => P f && in_window (a + FOLLOW_UP_WINDOW) f)
      (valid_actions r a c2 [] (fs ++ later))
    = List.filter (fun f => P f && in_window (a + FOLLOW_UP_WINDOW) f) (valid_actions r a c1 [] fs)) as Hwin.
  { intros P. destruct (valid_actions_app r a c2 fs later []) as [seen ->].
    rewrite lfilter_app, (window_stable r a c1 c2) by done.
    rewrite (proj2 (lfilter_nil_iff _ (valid_actions r a c2 seen later))); [by rewrite app_nil_r|].
    intros f (Hf & Hv & _)%valid_actions_elem. unfold valid_action in Hv. unfold in_window.
    destruct (fe_deleted_at f); [done|]. destruct (fe_created_at f) as [t|] eqn:Et; [|done].
    specialize (Hlater f t Hf Et). cbn. replace (t <=? _) with false by (symmetry; apply Z.leb_gt; lia).
    by rewrite andb_false_r. }
  assert (forall c, c1 <= c -> terminal_visible_at terminal c = terminal) as Hvis.
  { intros c Hle. unfold terminal_visible_at, not_after in *. apply andb_true_iff in Hknown as [H1 H2].
    destruct (te_observed_at terminal), (te_terminal_at terminal); bool_to_prop;
      repeat (rewrite (proj2 (Z.leb_le _ _)) by lia); done. }
  cbn zeta. unfold evaluate_clue_followup_round. rewrite Ha. cbn [default from_option id].
  rewrite !Hvis by lia. unfold FOLLOW_UP_WINDOW, hours, seconds in *.
  destruct (negb _); [done|].
  rewrite !(proj2 (Z.ltb_ge _ a)) by lia.
  destruct (is_terminal terminal && _); [done|].
  destruct (match te_terminal_at terminal with Some t => t <=? a | None => false end); [done|].
  rewrite Hwin. rewrite !(proj2 (Z.ltb_ge _ (a + _))) by lia.
  destruct (match te_terminal_at terminal with Some t => t <=? _ | None => false end); [|done].
  destruct (opt_is (te_kind terminal) "verified"); [done|].
  by destruct (nonempty _).
Qed.
