(* ===== verification/EvidenceThms.v ===== *)
(** * What the raw tables prove about an order

    A verification that was not canceled decides, a canceled one counts nowhere,
    and a follow-up action on an order the raw tables show verified is refused. *)
From S2P Require Import Prelude PyValue Jobs OrderStatus Clues HqPool ClueStatus FollowUp FollowUpInv FollowUpProps FollowUpUndo Evidence Metrics EvidenceProps MetricProps.
#[local] Open Scope Z_scope.

Section Thms.
Context (repr_of : pyval -> string) (to_float : Q -> Q) (fromisoformat : string -> option instant).
Context (raw : rawdb).
#[local] Notation order_evidence d cutoff incl o := (order_evidence repr_of raw d cutoff to_float fromisoformat incl o).
#[local] Notation counted := (counted repr_of).

(** A successful verification of a coupon of the order that happened and was
    observed by the cutoff, and was not canceled by then. *)
Record verified_by (cutoff : instant) (o : string) (c : RawDouyinOrderCoupon) (v : RawDouyinVerifyRecord)
    (t : instant) : Prop := MkVerifiedBy {
  vb_coupon : c ∈ raw_douyin_order_coupons raw;
  vb_order : oc_order_id c = o;
  vb_verify : v ∈ raw_douyin_verify_records raw;
  vb_join : vr_coupon_id v = Some (oc_coupon_id c);
  vb_time : vr_verify_time v = Some t;
  vb_known : verify_known cutoff v = true;
  vb_valid : cancel_known cutoff v = None;
  vb_status : str_in (normal_status repr_of (opt_val (vr_verify_status v))) VERIFY_SUCCESS_STATUSES = true;
}.

Lemma earliest_le l : forall best,
  default 0 (ve_verified_at (earliest_verification best l)) <= default 0 (ve_verified_at best)
  /\ (earliest_verification best l = best \/ earliest_verification best l ∈ l)
  /\ forall v, v ∈ l -> default 0 (ve_verified_at (earliest_verification best l)) <= default 0 (ve_verified_at v).
Proof.
  induction l as [|w l IH]; intros best; cbn [earliest_verification].
  { split; [lia|]. split; [by left|]. by intros v ?%elem_of_nil. }
  destruct (IH (if verified_before w best then w else best)) as (H1 & H2 & H3).
  assert (default 0 (ve_verified_at (if verified_before w best then w else best)) <= default 0 (ve_verified_at best)
    /\ default 0 (ve_verified_at (if verified_before w best then w else best)) <= default 0 (ve_verified_at w)) as [Ha Hb].
  { unfold verified_before.
    destruct (Z.ltb_spec (default 0 (ve_verified_at w)) (default 0 (ve_verified_at best))); cbn; [lia|].
    destruct (Z.eqb_spec (default 0 (ve_verified_at w)) (default 0 (ve_verified_at best))); cbn; [|lia].
    destruct (String.ltb _ _); lia. }
  split; [lia|]. split.
  - destruct H2 as [->|H2]; [|right; by right]. destruct (verified_before w best); [right; left|by left].
  - intros v [->|Hv]%elem_of_cons; [lia|auto].
Qed.

Definition valid_at (cutoff : instant) (v : VerificationEvidence) : bool :=
  match ve_verified_at v with
  | Some t => (t <=? cutoff) && not_after cutoff (ve_observed_at v)
  | None => false
  end.

(** A valid verification decides, at the earliest time of one. *)
Lemma verification_decides o clues coupons refunds events vs cutoff ids v t :
  v ∈ vs -> ve_verified_at v = Some t -> valid_at cutoff v = true ->
  let e := terminal_from_rows repr_of to_float fromisoformat o clues coupons refunds events vs cutoff ids in
  te_kind e = Some "verified" /\ exists t0, te_terminal_at e = Some t0 /\ t0 <= t.
Proof.
  intros Hv Ht Hok. cbv zeta. unfold terminal_from_rows. fold (valid_at cutoff).
  change (List.filter _ vs) with (List.filter (valid_at cutoff) vs).
  destruct (List.filter (valid_at cutoff) vs) as [|w ws] eqn:E.
  { assert (v ∈ ([] : list VerificationEvidence)) as []%elem_of_nil.
    rewrite <- E. apply list_elem_of_In, filter_In. split; [by apply list_elem_of_In|done]. }
  cbn [te_kind te_terminal_at]. split; [done|].
  destruct (earliest_le ws w) as (H1 & H2 & H3).
  assert (earliest_verification w ws ∈ w :: ws) as Hin by (destruct H2 as [->|]; [left|by right]).
  rewrite <- E in Hin. apply list_elem_of_In, filter_In in Hin as [_ Hin]. unfold valid_at in Hin.
  destruct (ve_verified_at (earliest_verification w ws)) as [t0|]; [|done]. exists t0. split; [done|].
  assert (v ∈ w :: ws) as Hvw.
  { rewrite <- E. apply list_elem_of_In, filter_In. split; [by apply list_elem_of_In|done]. }
  apply elem_of_cons in Hvw as [->|Hvw]; [|specialize (H3 v Hvw)]; rewrite Ht in *; cbn in *; lia.
Qed.

Lemma verified_by_counted d cutoff incl o c v t :
  verified_by cutoff o c v t ->
  te_kind (order_evidence d cutoff incl o) = Some "verified"
  /\ exists t0, te_terminal_at (order_evidence d cutoff incl o) = Some t0 /\ t0 <= t.
Proof.
  intros [Hc Ho Hv Hj Ht Hk Hn Hs].
  assert ((o, v) ∈ joined_verifications raw [o]) as Hp.
  { apply elem_of_joined. exists c. cbn. rewrite Ho, list_elem_of_singleton. auto. }
  unfold order_evidence. cbv zeta.
  eapply (verification_decides _ _ _ _ _ _ _ _
    (MkVerification (vr_verify_id v) o (vr_verify_time v) (clean (vr_poi_id v)) None
       (vr_cancel_time v) (time_or (vr_source_observed_at v) (vr_verify_time v)) "raw_verify")); [|done|].
  - apply elem_of_app. left. apply elem_of_app. left. apply list_elem_of_omap. exists (o, v). split; [done|].
    unfold counted, verify_evidence. cbn [fst snd]. rewrite Hk, bool_decide_true by done. cbn. by rewrite Hs.
  - unfold valid_at. cbn. unfold verify_known in Hk. rewrite Ht in *. apply andb_true_iff in Hk as [H1 H2].
    rewrite H1. cbn. unfold time_or. by destruct (vr_source_observed_at v).
Qed.

(** Every verification of the coupons of the order was canceled by the cutoff, there
    is one, and the settled lines of the order name such verifications. *)
Record all_canceled (cutoff : instant) (o : string) : Prop := MkAllCanceled {
  ac_all : forall p, p ∈ joined_verifications raw [o] -> is_Some (canceled_at cutoff p);
  ac_some : joined_verifications raw [o] <> [];
  ac_settled : forall s, s ∈ settlement_order_details raw -> sd_order_id s = o -> sd_is_verified s = true ->
    exists p, p ∈ joined_verifications raw [o] /\ clean (sd_verify_id s) = Some (vr_verify_id p.2);
}.

Lemma omap_nil {A B} (f : A -> option B) (l : list A) : (forall a, a ∈ l -> f a = None) -> omap f l = [].
Proof.
  intros H. induction l as [|a l IH]; [done|]. cbn. rewrite H by left. apply IH. intros; apply H; by right.
Qed.

Lemma canceled_counts_nothing cutoff o :
  all_canceled cutoff o ->
  own_verifications repr_of raw cutoff o = []
  /\ o ∈ canceled_order_ids (cancellations repr_of raw cutoff o).
Proof.
  intros [Hall Hsome Hset].
  pose proof (adds_rows repr_of cutoff (joined_verifications raw [o]) nothing_gathered) as Ha.
  change (foldl _ _ _) with (cancellations repr_of raw cutoff o) in Ha. split.
  - unfold own_verifications. rewrite !omap_nil; [done| |].
    + intros s Hs. apply list_elem_of_In, filter_In in Hs as [Hs Eo%str_eqb_true]. apply list_elem_of_In in Hs.
      unfold settlement_evidence. destruct (sd_verify_time s) as [t|]; [|done].
      destruct (sd_is_verified s) eqn:Ev; [|done].
      destruct (Hset s Hs Eo Ev) as (p & Hp & E). unfold settlement_verification_is_canceled. rewrite E.
      rewrite (bool_decide_true (_ ∈ _)) by (apply (ad_verify _ _ _ _ _ Ha); right; eauto).
      cbn [negb]. by rewrite andb_false_r.
    + intros p Hp. apply Hall in Hp as [t Ht]. unfold canceled_at in Ht. unfold counted.
      destruct (verify_known cutoff p.2); [|done]. cbn [andb]. by rewrite Ht.
  - apply (ad_orders _ _ _ _ _ Ha). right. destruct (joined_verifications raw [o]) as [|p l] eqn:E; [done|].
    exists p. split; [by left|]. split; [apply Hall; by left|].
    assert (p ∈ joined_verifications raw [o]) as Hp by (rewrite E; by left).
    apply elem_of_joined in Hp as (c & _ & Hc%list_elem_of_singleton & -> & _). done.
Qed.

(** Without verifications the evidence is the status of order, clues and coupons. *)
Lemma status_only o clues coupons refunds events cutoff ids :
  let e := terminal_from_rows repr_of to_float fromisoformat o clues coupons refunds events [] cutoff ids in
  te_kind e = Some "verified" -> te_evidence_ids e = [] /\ (te_source e = Some "order" \/ te_source e = Some "coupon").
Proof.
  cbv zeta. unfold terminal_from_rows. cbn [List.filter].
  match goal with |- te_kind (if ?b then _ else _) = _ -> _ => destruct b; [done|] end.
  match goal with |- te_kind (if ?b then _ else _) = _ -> _ => destruct b; [done|] end.
  match goal with |- te_kind (if ?b then _ else _) = _ -> _ => destruct b; [|done] end.
  intros _. cbn [te_evidence_ids te_source]. split; [done|].
  match goal with |- Some (if ?b then _ else _) = _ \/ _ => destruct b; auto end.
Qed.

(** C: a canceled verification counts nowhere.  When all verifications of an order
    were canceled by the cutoff, the order is verified only if its own status, or
    a coupon without a verification, says so: neither the raw verification, nor the
    settled line that still names it, nor the verified time of a round does. *)
Theorem canceled_verification_forgotten d cutoff incl o (Hw : raw_consistent raw) (Hc : all_canceled cutoff o)
    (Hne : blank o = false) :
  exists e, load_terminal_evidence repr_of to_float fromisoformat raw d cutoff incl [o] !! o = Some e
    /\ (te_kind e = Some "verified" ->
        te_evidence_ids e = [] /\ (te_source e = Some "order" \/ te_source e = Some "coupon")).
Proof.
  exists (order_evidence d cutoff incl o). split.
  - rewrite (proj1 (evidence_by_order repr_of raw d cutoff to_float fromisoformat incl [o] Hw o)).
    unfold str_in. rewrite bool_decide_true; [done|]. apply elem_of_requested. by rewrite list_elem_of_singleton.
  - destruct (canceled_counts_nothing cutoff o Hc) as [Ev Eo].
    unfold order_evidence. cbv zeta. rewrite Ev, (bool_decide_true _ Eo). cbn [app]. apply status_only.
Qed.

(** The reader of terminal evidence the follow-up operations use. *)
Definition raw_evidence (d : cluedb) (now : instant) (o : string) : TerminalEvidence :=
  default no_evidence (load_terminal_evidence repr_of to_float fromisoformat raw d now true [o] !! o).

Lemma raw_evidence_spec d now o : raw_consistent raw -> blank o = false ->
  raw_evidence d now o = order_evidence d now true o.
Proof.
  intros Hw Hb. unfold raw_evidence.
  rewrite (proj1 (evidence_by_order repr_of raw d now to_float fromisoformat true [o] Hw o)).
  unfold str_in. rewrite bool_decide_true; [done|]. apply elem_of_requested. by rewrite list_elem_of_singleton.
Qed.

(** A verification in the raw tables fences follow-up.  As soon as a coupon of
    the order has a successful verification that is not canceled, an action on the
    order's round is refused, adds no record and closes lead, round and
    headquarters entry as verified. *)
Lemma raw_verification_fences hexdigest isoformat d order_id round_id result actor note now uuid r lead c v t
    (Hw : raw_consistent raw) (Hok : follow_ok d) (Hpool : pool_ok d)
    (Hlk : locked_round_state d round_id = (Some r, Some lead)) (Ha : is_active_formal r = true)
    (Ho : rn_order_id r = order_id) (Hact : str_in (strip (default "" result)) FOLLOW_UP_ACTIONS = true)
    (Hsc : can_access_clue_store repr_of actor (rn_assigned_store_id r) = true)
    (Hb : blank order_id = false) (Hv : verified_by now order_id c v t) :
  exists d' lead',
    apply_follow_up_action repr_of hexdigest isoformat raw_evidence d order_id round_id result actor note now uuid
      = Ok (d', refused "conflict")
    /\ clue_follow_up_records d' = clue_follow_up_records d
    /\ clue_master_leads d' !! ml_lead_key lead = Some lead' /\ closed_by "verified" lead lead'
    /\ closed_in d' round_id
    /\ get_active_headquarters_pool_entry d' (ml_lead_key lead) = None.
Proof.
  eapply evidence_fences_action; try done.
  unfold terminal_evidence_of. unfold blank in Hb. rewrite Hb. unfold terminal_kind.
  rewrite raw_evidence_spec by done.
  destruct (verified_by_counted d now true order_id c v t Hv) as [-> _]. reflexivity.
Qed.
End Thms.

(** * The evidence properties on concrete tables *)

Definition wcoupon : RawDouyinOrderCoupon :=
  MkRawCoupon "coupon-1" "order-1" (Some "400") None None (Some 20) None None None.
Definition wcoupon2 : RawDouyinOrderCoupon :=
  MkRawCoupon "coupon-2" "order-2" (Some "401") None None (Some 20) None None None.
Definition wverify : RawDouyinVerifyRecord :=
  MkRawVerify "verify-1" (Some "coupon-1") (Some "1") (Some 30) (Some "poi-1") None (Some 35).
Definition wcanceled : RawDouyinVerifyRecord :=
  MkRawVerify "verify-2" (Some "coupon-2") (Some "1") (Some 30) (Some "poi-1") (Some 40) (Some 42).
Definition wdetail : SettlementOrderDetail :=
  MkDetail "coupon-2" "order-2" (Some "verify-2") true (Some "store-1") (Some 30) (Some 36).
Definition wraw : rawdb :=
  MkRawDb [MkRawOrder "order-1" (Some "201") None PNone (Some 20) None;
           MkRawOrder "order-2" (Some "201") None PNone (Some 20) None] []
    [wcoupon; wcoupon2] [] [] [wverify; wcanceled] [wdetail].

Definition wfloat (q : Q) : Q := q.
Definition wiso (s : string) : option instant := None.

(** Splits a membership in a concrete list. *)
Ltac members :=
  repeat match goal with
  | H : _ ∈ [] |- _ => by apply elem_of_nil in H
  | H : _ ∈ _ :: _ |- _ => apply elem_of_cons in H as [->|H]
  end.

Lemma wraw_consistent : raw_consistent wraw.
Proof.
  split; cbn [wraw settlement_order_details raw_douyin_order_coupons raw_douyin_verify_records]; intros; members;
    cbn in *; try done; vm_compute in H2; congruence.
Qed.

Lemma evidence_order_by_order_witness :
  te_kind <$> load_terminal_evidence wrepr wfloat wiso wraw wdb 50 true ["order-2"; ""; "order-1"] !! "order-1"
    = Some (Some "verified")
  /\ load_terminal_evidence wrepr wfloat wiso wraw wdb 50 true ["order-2"; ""; "order-1"] !! "order-1"
    = Some (order_evidence wrepr wraw wdb 50 wfloat wiso true "order-1").
Proof.
  split; [vm_compute; reflexivity|].
  destruct (evidence_order_by_order wrepr wraw wdb 50 wfloat wiso true ["order-2"; ""; "order-1"]
    wraw_consistent "order-1") as [H _]. exact H.
Defined.

Lemma raw_verification_fences_witness :
  exists d', apply_follow_up_action wrepr id (fun _ => "") (raw_evidence wrepr wfloat wiso wraw) wdb "order-1" "round-1"
      (Some "lost") store_actor None 50 "rec-1" = Ok (d', refused "conflict") /\ closed_in d' "round-1".
Proof.
  destruct (raw_verification_fences wrepr wfloat wiso wraw id (fun _ => "") wdb "order-1" "round-1" (Some "lost")
    store_actor None 50 "rec-1" wround wlead wcoupon wverify 30 wraw_consistent wdb_ok)
    as (d' & lead' & H & _ & _ & _ & Hc & _); try (vm_compute; reflexivity).
  - split; cbn; [constructor|]. by intros k a b ?%elem_of_nil.
  - split; try (vm_compute; reflexivity); cbn; left.
  - exists d'. split; [exact H|exact Hc].
Defined.

Lemma canceled_verification_forgotten_witness :
  exists e, load_terminal_evidence wrepr wfloat wiso wraw wdb 50 true ["order-2"] !! "order-2" = Some e
    /\ te_kind e = None
    /\ (te_kind e = Some "verified" -> te_evidence_ids e = [] /\ (te_source e = Some "order" \/ te_source e = Some "coupon")).
Proof.
  destruct (canceled_verification_forgotten wrepr wfloat wiso wraw wdb 50 true "order-2" wraw_consistent)
    as (e & He & Hs); [|vm_compute; reflexivity|].
  - assert (joined_verifications wraw ["order-2"] = [("order-2", wcanceled)]) as Ej by (vm_compute; reflexivity).
    split; rewrite Ej.
    + intros p Hp. members. exists 40. vm_compute. reflexivity.
    + discriminate.
    + intros s Hs Eo Ev. cbn in Hs. members. exists ("order-2", wcanceled). split; [left|].
      vm_compute. reflexivity.
  - exists e. split; [exact He|]. split; [|exact Hs]. vm_compute in He. injection He as <-. vm_compute. reflexivity.
Defined.

(** A round assigned at time zero, with one record after an hour and one after two days. *)
Definition wround_evidence : AssignmentRoundEvidence :=
  MkRoundEvidence "round-1" "order-1" 1 (Some "store-1") (Some 0) "formal" None None None.
Definition wfollow (i : string) (t : instant) : FollowUpEvidence :=
  MkFollowUpEvidence i "order-1" "round-1" (Some "store-1") (Some t) None.

Lemma metric_final_witness :
  let m1 := evaluate_clue_followup_round wround_evidence [wfollow "rec-1" (hours 1)] (Some no_evidence) (hours 24) in
  let m2 := evaluate_clue_followup_round wround_evidence ([wfollow "rec-1" (hours 1)] ++ [wfollow "rec-2" (hours 48)])
              (Some no_evidence) (hours 72) in
  fm_numerator m1 = 1 /\ fm_numerator m2 = fm_numerator m1 /\ fm_follow_record_ids m2 = fm_follow_record_ids m1.
Proof.
  cbv zeta.
  destruct (metric_final wround_evidence [wfollow "rec-1" (hours 1)] [wfollow "rec-2" (hours 48)] no_evidence 0
    (hours 24) (hours 72)) as (H1 & _ & _ & H4 & _); try (vm_compute; reflexivity).
  - vm_compute. discriminate.
  - vm_compute. discriminate.
  - intros f t Hf Ht. members. injection Ht as <-. vm_compute. reflexivity.
  - split; [vm_compute; reflexivity|]. split; [exact H1|exact H4].
Defined.
