(* ===== verification/Candidates.v ===== *)
(** * Allocation candidates

    The pure part of apps/worker/clue_allocation_engine.py: the strategies of a
    rule snapshot, the eligibility of a store, its distance and score, and the
    ranking of candidates.  A finite [float] (a distance in kilometres, a score)
    is the rational number it denotes; [haversine_km] and [round(x, 6)] are
    arguments.  Coordinates are millionths of a degree, as in Clues. *)
From Stdlib Require Export QArith.
From S2P Require Import Prelude PyValue Jobs Clues HqPool.
#[local] Open Scope Z_scope.

Definition FIXED_STRATEGY_TYPES : list string :=
  ["sales_store_priority"; "nearby_city_optimization"; "city_fallback"].

Definition DEFAULT_DISTANCE_KM (strategy_type : string) : option Q :=
  if str_eqb strategy_type "sales_store_priority" then Some (inject_Z 10)
  else if str_eqb strategy_type "nearby_city_optimization" then Some (inject_Z 15) else None.

Record DimStore := MkStore {
  ds_store_id : string;
  ds_store_name : string;
  ds_is_active : bool;
  ds_standard_province : option string;
  ds_standard_city : option string;
  ds_city_code : option string;
  ds_longitude : option Z;
  ds_latitude : option Z;
  ds_is_douyin_clue_applicable : bool;
  ds_participates_in_clue_allocation : bool;
  ds_location_status : string;
}.

Record StoreScoreSnapshot := MkScore {
  ss_snapshot_id : string;
  ss_snapshot_run_id : string;
  ss_snapshot_date : string;
  ss_store_id : string;
  ss_conversion_rate : Q;
  ss_conversion_value_source : string;
  ss_follow_24h_rate : Q;
  ss_follow_24h_value_source : string;
  ss_store_weight : Q;
  ss_composite_score : Q;
  ss_config_json : pyval;
  ss_computed_at : instant;
}.

Record ClueLeadRuleVersionBinding := MkBinding {
  rb_lead_key : string;
  rb_rule_version_id : string;
  rb_scope_type : string;
  rb_scope_key : string;
  rb_scope_resolution_snapshot : pydict;
  rb_rule_version_snapshot : pydict;
}.

(** ** Text *)

(** ["".join(s.split())]: every white space character removed. *)
Fixpoint squeeze (fuel : nat) (s : list Ascii.ascii) : list Ascii.ascii :=
  match fuel with
  | O => []
  | S fuel' =>
      match drop_any whitespace s with
      | Some s' => squeeze fuel' s'
      | None => match s with [] => [] | c :: s' => c :: squeeze fuel' s' end
      end
  end.

(** [normalize_city_code] *)
Definition normalize_city_code (value : option string) : option string :=
  match clean value with
  | None => None
  | Some city =>
      let city := text (squeeze (length (chars city)) (chars city)) in
      Some (if endswith "市" city then text (take (length (chars city) - 3)%nat (chars city)) else city)
  end.

(** ** Strategies of a rule snapshot *)

Record StrategyConfig := MkStrategy {
  sc_strategy_type : string;
  sc_enabled : bool;
  sc_execution_order : Z;
  sc_params : pydict;
}.

(** The last config of a type in [strategy_configs]; [{}] when there is none. *)
Definition raw_config (rule_snapshot : pydict) (strategy_type : string) : pydict :=
  match dict_get_default "strategy_configs" (PList []) rule_snapshot with
  | PList l => fold_left (fun found v => match v with
                                         | PDict c => if is_str (dict_get "strategy_type" c) strategy_type
                                                      then c else found
                                         | _ => found
                                         end) l []
  | _ => []
  end.

(** [int(x) if isinstance(x, int) else index] *)
Definition order_of (v : pyval) (index : Z) : Z :=
  match v with PInt z => z | PBool b => Z.b2z b | _ => index end.

Definition strategy_of (rule_snapshot : pydict) (index : Z) (strategy_type : string) : StrategyConfig :=
  let config := raw_config rule_snapshot strategy_type in
  MkStrategy strategy_type (truthy (dict_get "enabled" config))
    (order_of (dict_get "execution_order" config) index) (as_dict (dict_get "params" config)).

(** Sort key [(execution_order, strategy_type)] *)
Definition strategy_before (a b : StrategyConfig) : Prop :=
  sc_execution_order a < sc_execution_order b
  \/ (sc_execution_order a = sc_execution_order b /\ String.le (sc_strategy_type a) (sc_strategy_type b)).

#[export] Instance strategy_before_dec : RelDecision strategy_before.
Proof. intros a b. unfold strategy_before. apply _. Defined.

(** [_strategy_configs] *)
Definition strategy_configs (rule_snapshot : pydict) : list StrategyConfig :=
  merge_sort strategy_before (imap (fun i t => strategy_of rule_snapshot (Z.of_nat i + 1) t) FIXED_STRATEGY_TYPES).

(** A distance limit: none, a number, a float never exceeded (NaN, infinity) or
    one always exceeded (minus infinity). *)
Inductive km_limit := NoLimit | Km (q : Q) | KmNever (f : pyfloat) | KmAlways.

Definition exceeds (distance : Q) (l : km_limit) : bool :=
  match l with
  | NoLimit | KmNever _ => false
  | Km q => negb (Qle_bool distance q)
  | KmAlways => true
  end.

Definition dec_Q (c e : Z) : Q :=
  if 0 <=? e then inject_Z (c * 10 ^ e) else Qmake c (Z.to_pos (10 ^ (- e))).

(** ** Scores *)

Record score_payload := MkPayload {
  sp_used_for_ranking : bool;
  sp_snapshot : option StoreScoreSnapshot;
  sp_composite_score : Q;
}.

(** [_score_snapshot_rule_version_id] *)
Definition score_snapshot_rule_version_id (s : StoreScoreSnapshot) : option string :=
  match dict_get "rule_version_id" (as_dict (ss_config_json s)) with
  | PStr v => if str_eqb (strip v) "" then None else Some (strip v)
  | _ => None
  end.

(** [_score_snapshot_payload]; the fields copied for the audit are those of the
    snapshot row it keeps. *)
Definition score_snapshot_payload (s : option StoreScoreSnapshot) (used_for_ranking : bool) : score_payload :=
  MkPayload used_for_ranking s (match s with Some x => ss_composite_score x | None => 0%Q end).

(** [ORDER BY computed_at DESC, snapshot_id DESC], within a store *)
Definition later_score (a b : StoreScoreSnapshot) : bool :=
  (ss_computed_at b <? ss_computed_at a)
  || ((ss_computed_at a =? ss_computed_at b) && String.leb (ss_snapshot_id b) (ss_snapshot_id a)).

(** [_latest_scores], for one store *)
Definition latest_score (rows : list StoreScoreSnapshot) (rule_version_id store_id : string)
  : option StoreScoreSnapshot :=
  fold_right (fun s best => match best with
                            | Some b => if later_score b s then Some b else Some s
                            | None => Some s
                            end) None
    (List.filter (fun s => str_eqb (ss_store_id s) store_id
                           && opt_is (score_snapshot_rule_version_id s) rule_version_id) rows).

(** ** Candidates *)

Record candidate := MkCandidate {
  cd_store_id : option string;
  cd_store_name : option string;
  cd_city_code : option string;
  cd_eligible : bool;
  cd_exclusion_reasons : list string;
  cd_distance_km : option Q;
  cd_score : score_payload;
  cd_rank : option Z;
}.

Definition with_rank (c : candidate) (rank : option Z) : candidate :=
  MkCandidate (cd_store_id c) (cd_store_name c) (cd_city_code c) (cd_eligible c) (cd_exclusion_reasons c)
    (cd_distance_km c) (cd_score c) rank.

(** [_valid_coordinates] *)
Definition valid_coordinates (latitude longitude : option Z) : bool :=
  match latitude, longitude with
  | Some la, Some lo => (-90000000 <=? la) && (la <=? 90000000) && (-180000000 <=? lo) && (lo <=? 180000000)
  | _, _ => false
  end.

(** [_candidate_eligibility_reasons] *)
Definition candidate_eligibility_reasons (s : DimStore) : list string :=
  (if ds_is_active s then [] else ["store_inactive"])
  ++ (if ds_is_douyin_clue_applicable s then [] else ["douyin_clue_not_applicable"])
  ++ (if ds_participates_in_clue_allocation s then [] else ["allocation_participation_disabled"])
  ++ (if str_eqb (ds_location_status s) "valid" then [] else ["location_not_valid"])
  ++ (if has_text (clean (ds_standard_province s)) then [] else ["province_missing"])
  ++ (if has_text (clean (ds_standard_city s)) then [] else ["city_missing"])
  ++ (if has_text (normalize_city_code (ds_city_code s)) then [] else ["city_code_missing"])
  ++ (if valid_coordinates (ds_latitude s) (ds_longitude s) then [] else ["coordinates_invalid"]).

Definition is_nil {A} (l : list A) : bool := match l with [] => true | _ => false end.

(** Facts about the sale store of an order. *)
Record sale_store_evidence := MkSale {
  sv_status : string;
  sv_store_id : option string;
  sv_store_ids : list string;
}.

Definition missing_sale_store_evidence : sale_store_evidence := MkSale "sale_store_missing" None [].

(** [_resolve_sale_store_evidence], on the sale stores of the order's details *)
Definition resolve_sale_store_evidence (sale_store_ids : list (option string)) : sale_store_evidence :=
  match merge_sort String.le (remove_dups (omap clean sale_store_ids)) with
  | [] => missing_sale_store_evidence
  | [s] => MkSale "resolved" (Some s) [s]
  | l => MkSale "sale_store_ambiguous" None l
  end.

Record candidate_summary := MkSummary {
  cs_store_universe_count : Z;
  cs_in_scope_store_count : Z;
  cs_omitted_out_of_city_count : Z;
  cs_evaluated_count : Z;
  cs_eligible_count : Z;
}.

Definition count {A} (l : list A) : Z := Z.of_nat (length l).

(** [_candidate_summary] *)
Definition summarize (stores : list DimStore) (candidates : list candidate) (in_scope omitted : Z)
  : candidate_summary :=
  MkSummary (count stores) in_scope (Z.max omitted 0) (count candidates)
    (count (List.filter cd_eligible candidates)).

(** [_unknown_store_candidate] *)
Definition unknown_store_candidate (store_id : option string) (reason : string) : candidate :=
  MkCandidate store_id None None false [reason] None (score_snapshot_payload None false) None.

Definition find_store (stores : list DimStore) (id : option string) : option DimStore :=
  match id with
  | Some i => List.find (fun s => str_eqb (ds_store_id s) i) stores
  | None => None
  end.

Definition lexi (c : comparison) (rest : bool) : bool :=
  match c with Lt => true | Gt => false | Eq => rest end.

(** Sort key [(-composite_score, distance_km, store_id)] *)
Definition ranks_before (a b : candidate) : Prop :=
  lexi (Qcompare (sp_composite_score (cd_score b)) (sp_composite_score (cd_score a)))
    (lexi (Qcompare (default 0%Q (cd_distance_km a)) (default 0%Q (cd_distance_km b)))
       (String.leb (default "" (cd_store_id a)) (default "" (cd_store_id b)))) = true.

#[export] Instance ranks_before_dec : RelDecision ranks_before.
Proof. intros a b. unfold ranks_before. apply _. Defined.

(** The position of a candidate among the ranked ones, from 1; the candidates
    are the objects that are ranked, known by their store. *)
Fixpoint rank_in (ranked : list candidate) (position : Z) (c : candidate) : option Z :=
  match ranked with
  | [] => None
  | x :: ranked' =>
      if decide (cd_store_id x = cd_store_id c) then Some position else rank_in ranked' (position + 1) c
  end.

(** Sorts the eligible candidates and writes their ranks. *)
Definition rank_candidates (candidates : list candidate) : list candidate :=
  let ranked := merge_sort ranks_before (List.filter cd_eligible candidates) in
  (fun c => if cd_eligible c then with_rank c (rank_in ranked 1 c) else c) <$> candidates.

Section Candidates.
Variable repr_of : pyval -> string.
(** Nearest [float] of a decimal, the great-circle distance, and [round(x, 6)]. *)
Variable to_float : Q -> Q.
Variable haversine_km : Z -> Z -> Z -> Z -> Q.
Variable round6 : Q -> Q.

(** [_strategy_distance] *)
Definition strategy_distance (strategy_type : string) (params : pydict) : km_limit :=
  match DEFAULT_DISTANCE_KM strategy_type with
  | None => NoLimit
  | Some default_km =>
      match dict_lookup "max_distance_km" params with
      | None => Km default_km
      | Some v =>
          let s := strip (py_str repr_of v) in
          (* a signalling NaN has no float *)
          if existsb (fun p => startswith p (lower s)) ["snan"; "+snan"; "-snan"] then Km default_km
          else match decimal_of_text s with
          | Some (DFin c e) => Km (to_float (dec_Q c e))
          | Some (DInf true) => KmAlways
          | Some (DInf false) => KmNever (FInf false)
          | Some DNan => KmNever FNan
          | None => Km default_km
          end
      end
  end.

(** [_distance_from_anchor] *)
Definition distance_from_anchor (lead : ClueMasterLead) (s : DimStore) : option Q :=
  if valid_coordinates (ml_anchor_latitude lead) (ml_anchor_longitude lead)
     && valid_coordinates (ds_latitude s) (ds_longitude s)
  then Some (haversine_km (default 0 (ml_anchor_latitude lead)) (default 0 (ml_anchor_longitude lead))
               (default 0 (ds_latitude s)) (default 0 (ds_longitude s)))
  else None.

(** [_candidate_record] *)
Definition candidate_record (s : DimStore) (lead : ClueMasterLead) (score : option StoreScoreSnapshot)
    (require_same_city exclude_history : bool) (historical_store_ids : list string)
    (max_distance_km : km_limit) (used_for_ranking : bool) : candidate :=
  let reasons0 := candidate_eligibility_reasons s in
  let distance := if is_nil reasons0 then distance_from_anchor lead s else None in
  let reasons :=
    reasons0
    ++ (if is_nil reasons0 && bool_decide (distance = None) then ["anchor_coordinates_unavailable"] else [])
    ++ (if require_same_city
           && negb (bool_decide (normalize_city_code (ds_city_code s)
                                 = normalize_city_code (ml_anchor_city_code lead)))
        then ["city_mismatch"] else [])
    ++ (if exclude_history && str_in (ds_store_id s) historical_store_ids
        then ["historically_self_owned"] else [])
    ++ (if match distance with Some km => exceeds km max_distance_km | None => false end
        then ["distance_exceeds_max"] else []) in
  MkCandidate (Some (ds_store_id s)) (Some (ds_store_name s)) (normalize_city_code (ds_city_code s))
    (is_nil reasons) reasons (round6 <$> distance) (score_snapshot_payload score used_for_ranking) None.

(** The candidate of the exact Douyin source store. *)
Definition source_store_candidate (s : DimStore) (historical_store_ids : list string) : candidate :=
  let reasons :=
    (if ds_is_active s then [] else ["store_inactive"])
    ++ (if ds_participates_in_clue_allocation s then [] else ["allocation_participation_disabled"])
    ++ (if str_in (ds_store_id s) historical_store_ids then ["historically_self_owned"] else []) in
  MkCandidate (Some (ds_store_id s)) (Some (ds_store_name s)) (normalize_city_code (ds_city_code s))
    (is_nil reasons) reasons None (score_snapshot_payload None false)
    (if is_nil reasons then Some 1 else None).

(** [_strategy_candidates] *)
Definition strategy_candidates (strategy_type : string) (lead : ClueMasterLead)
    (sale_store : sale_store_evidence) (stores : list DimStore)
    (score_of : string -> option StoreScoreSnapshot) (historical_store_ids : list string)
    (max_distance_km : km_limit) (source_store_mode : bool)
  : list candidate * option string * candidate_summary :=
  if source_store_mode && negb (str_eqb strategy_type "sales_store_priority") then
    if negb (str_eqb strategy_type "nearby_city_optimization")
    then ([], Some "source_store_only", summarize stores [] 0 0)
    else
      let c := match find_store stores (ml_anchor_store_id lead) with
               | None => unknown_store_candidate (ml_anchor_store_id lead) "follow_poi_store_missing"
               | Some s => source_store_candidate s historical_store_ids
               end in
      ([c], if cd_eligible c then None else Some "source_store_ineligible", summarize stores [c] 1 0)
  else if str_eqb strategy_type "sales_store_priority" then
    if negb (str_eqb (sv_status sale_store) "resolved")
    then ([], Some (sv_status sale_store), summarize stores [] 0 0)
    else match find_store stores (sv_store_id sale_store) with
         | None =>
             let cs := [unknown_store_candidate (sv_store_id sale_store) "sale_store_unmapped"] in
             (cs, Some "sale_store_unmapped", summarize stores cs 1 0)
         | Some s =>
             let c := candidate_record s lead (score_of (ds_store_id s)) false true historical_store_ids
                        max_distance_km false in
             if negb (cd_eligible c) then
               let reason := if str_in "distance_exceeds_max" (cd_exclusion_reasons c)
                             then "sale_store_over_distance"
                             else if str_in "historically_self_owned" (cd_exclusion_reasons c)
                             then "sale_store_previously_assigned" else "sale_store_ineligible" in
               ([c], Some reason, summarize stores [c] 1 0)
             else
               let c := with_rank c (Some 1) in
               ([c], None, summarize stores [c] 1 0)
         end
  else
    let scoped := List.filter (fun s => bool_decide (normalize_city_code (ds_city_code s)
                                        = normalize_city_code (ml_anchor_city_code lead))) stores in
    let cs := (fun s => candidate_record s lead (score_of (ds_store_id s)) true true historical_store_ids
                          max_distance_km true) <$> scoped in
    let ranked := rank_candidates cs in
    (ranked, if existsb cd_eligible cs then None else Some "no_candidate",
     summarize stores ranked (count scoped) (count stores - count scoped)).

(** [next(c for c in candidates if c["rank"] == 1)] *)
Definition selected_candidate (candidates : list candidate) : option candidate :=
  List.find (fun c => opt_is (cd_rank c) 1) candidates.
End Candidates.
