(* ===== verification/CandidateProps.v ===== *)
(** * The candidates a strategy selects *)
From Stdlib Require Import Lqa.
From S2P Require Import Prelude PyValue Jobs Clues HqPool Candidates.
#[local] Open Scope Z_scope.

(** ** The ranking order *)

Lemma lexi_Q_total x y r s : r = true \/ s = true -> lexi (Qcompare x y) r = true \/ lexi (Qcompare y x) s = true.
Proof. rewrite <- (Qcompare_antisym x y). intros H. destruct (Qcompare x y); cbn; auto. Qed.

Lemma lexi_Q_trans x y z r s t : (r = true -> s = true -> t = true) ->
  lexi (Qcompare x y) r = true -> lexi (Qcompare y z) s = true -> lexi (Qcompare x z) t = true.
Proof.
  intros H. destruct (Qcompare_spec x y), (Qcompare_spec y z), (Qcompare_spec x z); cbn; auto; try done;
    intros Hr Hs; exfalso; lra.
Qed.

#[export] Instance ranks_before_total : Total ranks_before.
Proof.
  intros a b. unfold ranks_before. apply lexi_Q_total, lexi_Q_total. apply String.leb_total.
Qed.

#[export] Instance ranks_before_trans : Transitive ranks_before.
Proof.
  intros a b c. unfold ranks_before. intros H1 H2. revert H2 H1. apply lexi_Q_trans. intros H2 H1. revert H1 H2.
  apply lexi_Q_trans. intros H1 H2.
  apply Is_true_true. etransitivity; apply Is_true_true; eassumption.
Qed.

(** ** Ranks *)

Lemma rank_in_ge ranked p c k : rank_in ranked p c = Some k -> p <= k.
Proof.
  revert p. induction ranked as [|x l IH]; intros p; cbn; [done|].
  case_decide; [intros [= <-]; lia|]. intros E. specialize (IH _ E). lia.
Qed.

Lemma rank_in_first ranked p c : rank_in ranked p c = Some p ->
  exists h l, ranked = h :: l /\ cd_store_id h = cd_store_id c.
Proof.
  destruct ranked as [|h l]; cbn; [done|]. case_decide; [eauto|].
  intros E. apply rank_in_ge in E. lia.
Qed.

Definition ranked_of (cs : list candidate) : list candidate :=
  merge_sort ranks_before (List.filter cd_eligible cs).

Lemma elem_of_ranked cs x : x ∈ ranked_of cs <-> x ∈ cs /\ cd_eligible x = true.
Proof.
  unfold ranked_of. rewrite merge_sort_Permutation, list_elem_of_In, List.filter_In, <- list_elem_of_In. done.
Qed.

(** The candidate selected after ranking is the best eligible one. *)
Lemma rank_selected cs c : NoDup (cd_store_id <$> cs) -> (forall x, x ∈ cs -> cd_rank x = None) ->
  selected_candidate (rank_candidates cs) = Some c ->
  exists c0, c0 ∈ cs /\ c = with_rank c0 (Some 1) /\ cd_eligible c0 = true
    /\ forall x, x ∈ cs -> cd_eligible x = true -> ranks_before c0 x.
Proof.
  intros Hnd Hnone Hsel. apply List.find_some in Hsel as [Hin Hr]. tests.
  apply list_elem_of_In, list_elem_of_fmap in Hin as (c0 & -> & Hc0).
  destruct (cd_eligible c0) eqn:He; [|by rewrite (Hnone _ Hc0) in Hr]. cbn in Hr.
  exists c0. split_and!; [done|by rewrite Hr|done|].
  destruct (rank_in_first _ _ _ Hr) as (h & l & Hrk & Hid). fold (ranked_of cs) in Hrk.
  assert (Hh : h ∈ cs) by (apply elem_of_ranked; rewrite Hrk; left).
  assert (h = c0) as -> by (eapply (fmap_NoDup_inj cd_store_id); eauto).
  intros x Hx Hex. assert (Hxr : x ∈ ranked_of cs) by (by apply elem_of_ranked).
  pose proof (StronglySorted_merge_sort ranks_before (List.filter cd_eligible cs)) as Hs.
  fold (ranked_of cs) in Hs. rewrite Hrk in Hxr, Hs. apply StronglySorted_inv in Hs as [_ Hall].
  apply elem_of_cons in Hxr as [->|Hxl].
  - destruct (ranks_before_total c0 c0); done.
  - rewrite Forall_forall in Hall. auto.
Qed.

Lemma rank_selects cs : existsb cd_eligible cs = true ->
  exists c, selected_candidate (rank_candidates cs) = Some c.
Proof.
  intros He. destruct (ranked_of cs) as [|h l] eqn:Hr.
  - apply List.existsb_exists in He as (x & Hx & Hex).
    assert (Hin : x ∈ ranked_of cs) by (apply elem_of_ranked; split; [by apply list_elem_of_In|done]).
    rewrite Hr in Hin. by apply elem_of_nil in Hin.
  - assert (Hh : h ∈ ranked_of cs) by (rewrite Hr; left). apply elem_of_ranked in Hh as [Hh Heh].
    unfold selected_candidate.
    destruct (List.find (fun c => opt_is (cd_rank c) 1) (rank_candidates cs)) as [c|] eqn:Hf; [eauto|exfalso].
    assert (Hin : with_rank h (Some 1) ∈ rank_candidates cs).
    { apply list_elem_of_fmap. exists h. split; [|done]. rewrite Heh. fold (ranked_of cs). rewrite Hr. cbn.
      by rewrite decide_True. }
    apply list_elem_of_In in Hin. by pose proof (List.find_none _ _ Hf _ Hin).
Qed.

(** Without an eligible candidate nothing is selected. *)
Lemma rank_selects_none cs : existsb cd_eligible cs = false -> (forall x, x ∈ cs -> cd_rank x = None) ->
  selected_candidate (rank_candidates cs) = None.
Proof.
  intros He Hnone. destruct (selected_candidate _) as [c|] eqn:Hsel; [exfalso|done].
  apply List.find_some in Hsel as [Hin Hr]. tests.
  apply list_elem_of_In, list_elem_of_fmap in Hin as (c0 & -> & Hc0).
  destruct (cd_eligible c0) eqn:E; [|by rewrite (Hnone _ Hc0) in Hr].
  assert (existsb cd_eligible cs = true); [|congruence].
  apply List.existsb_exists. exists c0. split; [by apply list_elem_of_In|done].
Qed.

(** ** Eligibility *)

Lemma is_nil_true {A} (l : list A) : is_nil l = true <-> l = [].
Proof. by destruct l. Qed.

Lemma if_nil (b : bool) (s : string) : (if b then [] else [s]) = [] -> b = true.
Proof. by destruct b. Qed.
Lemma if_nil' (b : bool) (s : string) : (if b then [s] else []) = [] -> b = false.
Proof. by destruct b. Qed.

Lemma eligible_store s : candidate_eligibility_reasons s = [] ->
  ds_is_active s = true /\ ds_participates_in_clue_allocation s = true.
Proof.
  unfold candidate_eligibility_reasons. intros H.
  apply app_nil in H as [H1 H]. apply app_nil in H as [_ H]. apply app_nil in H as [H3 _].
  by split; eapply if_nil.
Qed.

Section Select.
Context (repr_of : pyval -> string) (to_float : Q -> Q) (haversine_km : Z -> Z -> Z -> Z -> Q) (round6 : Q -> Q).

#[local] Notation record := (candidate_record haversine_km round6).

Lemma candidate_record_eligible s lead score city hist limit used :
  cd_eligible (record s lead score city true hist limit used) = true ->
  candidate_eligibility_reasons s = []
  /\ (exists km, distance_from_anchor haversine_km lead s = Some km /\ exceeds km limit = false)
  /\ ds_store_id s ∉ hist
  /\ (city = true -> normalize_city_code (ds_city_code s) = normalize_city_code (ml_anchor_city_code lead)).
Proof.
  unfold candidate_record. cbn [cd_eligible]. rewrite is_nil_true. intros H.
  apply app_nil in H as [H0 H]. rewrite H0 in *. cbn [is_nil andb] in H.
  apply app_nil in H as [H1 H]. apply app_nil in H as [H2 H]. apply app_nil in H as [H3 H4].
  apply if_nil' in H1, H2, H3, H4. apply bool_decide_eq_false in H1.
  destruct (distance_from_anchor haversine_km lead s) as [km|] eqn:Hd; [|done].
  split_and!; [done|eauto| |].
  - cbn in H3. unfold str_in in H3. by apply bool_decide_eq_false in H3.
  - intros ->. cbn in H2. apply negb_false_iff in H2. by apply bool_decide_eq_true in H2.
Qed.

Lemma find_store_spec stores id s : find_store stores id = Some s ->
  s ∈ stores /\ id = Some (ds_store_id s).
Proof.
  unfold find_store. destruct id as [i|]; [|done]. intros [Hin E]%List.find_some. tests.
  split; [by apply list_elem_of_In|congruence].
Qed.

Definition same_city (lead : ClueMasterLead) (s : DimStore) : Prop :=
  normalize_city_code (ds_city_code s) = normalize_city_code (ml_anchor_city_code lead).

(** The store [s] of the network that a strategy chose as candidate [c]: active,
    participating, never an owner of the lead.  For the sale-store priority it is
    the resolved sale store.  For another strategy in source-store mode it is the
    anchor store of the lead, by the nearby-city strategy only, without a test of
    eligibility or distance.  In the other cases, and for the sale store, it passes
    every eligibility test and lies within the distance limit of the anchor; and a
    city strategy outside source-store mode chose it, among the eligible stores of
    the anchor's city, as the first in the order by score (highest first), distance
    and store id. *)
Record chosen_store (strategy_type : string) (lead : ClueMasterLead) (sale : sale_store_evidence)
    (stores : list DimStore)
    (score_of : string -> option StoreScoreSnapshot) (hist : list string) (limit : km_limit)
    (source_mode : bool) (c : candidate) (s : DimStore) : Prop := MkChosen {
  ch_known : s ∈ stores;
  ch_store : cd_store_id c = Some (ds_store_id s);
  ch_fresh : ds_store_id s ∉ hist;
  ch_active : ds_is_active s = true;
  ch_participates : ds_participates_in_clue_allocation s = true;
  ch_sale : strategy_type = "sales_store_priority" ->
    sv_status sale = "resolved" /\ sv_store_id sale = Some (ds_store_id s);
  ch_source : source_mode = true -> strategy_type <> "sales_store_priority" ->
    strategy_type = "nearby_city_optimization" /\ ml_anchor_store_id lead = Some (ds_store_id s);
  ch_eligible : source_mode = false \/ strategy_type = "sales_store_priority" ->
    candidate_eligibility_reasons s = []
    /\ exists km, distance_from_anchor haversine_km lead s = Some km /\ exceeds km limit = false;
  ch_best : source_mode = false -> strategy_type <> "sales_store_priority" ->
    same_city lead s
    /\ forall s', s' ∈ stores -> same_city lead s' ->
         let c' := record s' lead (score_of (ds_store_id s')) true true hist limit true in
         cd_eligible c' = true -> ranks_before c c';
}.

(** A strategy selects such a store, or gives the reason why it selects none. *)
Lemma strategy_selection strategy_type lead sale stores score_of hist limit source_mode cs reason summary :
  NoDup (ds_store_id <$> stores) ->
  strategy_candidates haversine_km round6 strategy_type lead sale stores score_of hist limit source_mode
    = (cs, reason, summary) ->
  match selected_candidate cs with
  | None => reason <> None
  | Some c =>
      reason = None /\ exists s, chosen_store strategy_type lead sale stores score_of hist limit source_mode c s
  end.
Proof.
  intros Hids Hcs. unfold strategy_candidates in Hcs.
  destruct (source_mode && negb (str_eqb strategy_type "sales_store_priority")) eqn:Hsrc.
  { apply andb_true_iff in Hsrc as [-> Hns]. apply negb_true_iff in Hns.
    assert (Hst : strategy_type <> "sales_store_priority") by (intros ->; by rewrite str_eqb_refl in Hns).
    destruct (negb _) eqn:Hnb; injection Hcs as <- <- _; [by cbn|]. apply negb_false_iff, str_eqb_true in Hnb.
    destruct (find_store stores (ml_anchor_store_id lead)) as [s|] eqn:Hf; [|by cbn].
    apply find_store_spec in Hf as [Hin Hid]. unfold selected_candidate, source_store_candidate. cbn.
    match goal with |- context [is_nil ?l] => destruct (is_nil l) eqn:Hn end; cbn; [|done].
    apply is_nil_true in Hn. apply app_nil in Hn as [H1 Hn]. apply app_nil in Hn as [H2 H3].
    apply if_nil in H1, H2. apply if_nil' in H3. unfold str_in in H3. apply bool_decide_eq_false in H3.
    split; [done|]. exists s. split; try done. intros [?|?]; congruence. }
  destruct (str_eqb strategy_type "sales_store_priority") eqn:Hsp.
  { apply str_eqb_true in Hsp as ->. destruct (negb (str_eqb (sv_status sale) "resolved")) eqn:Hrs; [injection Hcs as <- <- _; by cbn|].
    destruct (find_store stores (sv_store_id sale)) as [s|] eqn:Hf; [|injection Hcs as <- <- _; by cbn].
    apply negb_false_iff, str_eqb_true in Hrs. apply find_store_spec in Hf as [Hin Hid].
    destruct (cd_eligible _) eqn:He; cbn [negb] in Hcs; injection Hcs as <- <- _; [|by cbn].
    apply candidate_record_eligible in He as (H1 & H2 & H3 & _). destruct (eligible_store _ H1).
    cbn. split; [done|]. exists s. by split. }
  destruct source_mode; [done|]. clear Hsrc. set (mk := fun s => record s lead _ true true hist limit true) in Hcs.
  set (scoped := List.filter _ stores) in Hcs. injection Hcs as <- <- _.
  assert (Hscoped : forall s, s ∈ scoped <-> s ∈ stores /\ same_city lead s).
  { intros s. unfold scoped. rewrite list_elem_of_In, List.filter_In, bool_decide_eq_true, <- list_elem_of_In. done. }
  assert (Hnone : forall x, x ∈ mk <$> scoped -> cd_rank x = None) by (by intros x (s & -> & _)%list_elem_of_fmap).
  destruct (existsb cd_eligible (mk <$> scoped)) eqn:Hex.
  2:{ rewrite rank_selects_none by done. done. }
  destruct (rank_selects _ Hex) as [c Hc]. rewrite Hc. split; [done|].
  apply rank_selected in Hc as (c0 & Hc0 & -> & He & Hbest); [| |done].
  2:{ rewrite <- list_fmap_compose. change (cd_store_id ∘ mk) with (Some ∘ ds_store_id).
      rewrite list_fmap_compose. apply (NoDup_fmap_2 _), fmap_filter_sub, Hids. }
  apply list_elem_of_fmap in Hc0 as (s & -> & Hs%Hscoped). destruct Hs as [Hin Hcity].
  destruct (candidate_record_eligible _ _ _ _ _ _ _ He) as (H1 & H2 & H3 & _). destruct (eligible_store _ H1).
  assert (Hst : strategy_type <> "sales_store_priority") by (intros ->; by rewrite str_eqb_refl in Hsp).
  exists s. split; try done. intros _ _. split; [done|].
  intros s' Hs' Hc' c' Hec'. apply (Hbest c'); [|done].
  apply list_elem_of_fmap. exists s'. split; [done|]. by apply Hscoped.
Qed.
End Select.

(** ** Strategies *)

#[export] Instance strategy_before_total : Total strategy_before.
Proof.
  intros a b. unfold strategy_before.
  destruct (Z.lt_trichotomy (sc_execution_order a) (sc_execution_order b)) as [?|[?|?]]; [by left; left| |by right; left].
  destruct (String.le_total (sc_strategy_type a) (sc_strategy_type b)); [left|right]; right; auto.
Qed.

#[export] Instance strategy_before_trans : Transitive strategy_before.
Proof.
  intros a b c [H1|[H1 H1']] [H2|[H2 H2']]; [left; lia..|]. right. split; [lia|]. by etransitivity.
Qed.

(** Every rule snapshot, well formed or not, yields the three fixed
    strategies, each exactly once, in the order of their execution order. *)
Lemma strategies_complete rule_snapshot :
  (sc_strategy_type <$> strategy_configs rule_snapshot) ≡ₚ FIXED_STRATEGY_TYPES
  /\ StronglySorted strategy_before (strategy_configs rule_snapshot).
Proof.
  split; [|by apply StronglySorted_merge_sort; apply _].
  unfold strategy_configs. by rewrite merge_sort_Permutation.
Qed.
