(* ===== verification/Allocation.v ===== *)
(** * The allocation engine

    apps/worker/clue_allocation_engine.py, [allocate_lead] and what it calls:
    the guards on the lead, the strategies in order, the append-only decision
    log keyed by attempt, the assignment round, and the projection of the result
    into the lead, the headquarters pool and the order row.  The rule binding
    ([clue_rule_versions.bind_lead_rule_version]) is the interface [RuleBinder];
    the conversions to [float] and the digests are arguments. *)
From S2P Require Import Prelude PyValue Jobs Clues HqPool ClueStatus FollowUp Candidates.
#[local] Open Scope Z_scope.

Definition SELF_OWNED_EXECUTION_MODES : list string := ["formal"; "trial"].

(** ** What the engine asks of the rule versions

    Binding a lead returns its binding, or raises; a bound lead keeps its
    binding. *)
Class RuleBinder (R : Type) := MkRuleBinder {
  bind_lead_rule_version : R -> string -> option string -> option string ->
                           result (R * ClueLeadRuleVersionBinding);
  bind_stable : forall s key store city s' b,
    bind_lead_rule_version s key store city = Ok (s', b) ->
    forall store' city', bind_lead_rule_version s' key store' city' = Ok (s', b);
}.

Record AllocationResult := MkAllocation {
  ar_lead_key : string;
  ar_status : string;
  ar_reason : option string;
  ar_selected_store_id : option string;
  ar_assignment_round_id : option string;
  ar_decision_ids : list string;
}.

(** The normalized arguments of one call. *)
Record allocation_run := MkRun {
  run_mode : string;
  run_cycle : option string;
  run_actor : string;
  run_at : instant;
  run_transition : option string;
  run_override : option bool;
}.

(** The tables the engine only reads: the stores by id, the score snapshots, and
    the sale stores of an order's settlement details. *)
Record allocation_inputs := MkInputs {
  in_stores : list DimStore;
  in_scores : list StoreScoreSnapshot;
  in_sale_stores : string -> list (option string);
}.

(** ** Small readers *)

(** [_positive_int] *)
Definition positive_int (v : pyval) (default_value : Z) : Z :=
  match py_int v with
  | Some z => if 0 <? z then z else default_value
  | None => default_value
  end.

(** [_anchor_unavailable_reason] *)
Definition anchor_unavailable_reason (lead : ClueMasterLead) : option string :=
  if has_text (ml_anchor_unavailable_reason lead) then ml_anchor_unavailable_reason lead
  else if negb (has_text (clean (ml_anchor_poi_id lead))) then Some "follow_poi_missing"
  else if negb (has_text (clean (ml_anchor_store_id lead))) then Some "anchor_store_missing"
  else if negb (has_text (normalize_city_code (ml_anchor_city_code lead))) then Some "anchor_city_code_missing"
  else if negb (valid_coordinates (ml_anchor_latitude lead) (ml_anchor_longitude lead))
  then Some "anchor_coordinates_unavailable"
  else None.

(** The identity check that replaces it in source-store mode. *)
Definition source_anchor_reason (lead : ClueMasterLead) : option string :=
  if negb (has_text (clean (ml_anchor_poi_id lead))) then Some "follow_poi_missing"
  else if negb (has_text (clean (ml_anchor_store_id lead))) then Some "follow_poi_unmapped"
  else if negb (opt_is (ml_anchor_source lead) "douyin_follow_poi") then Some "follow_poi_source_invalid"
  else None.

Definition rounds_of (d : cluedb) : list ClueAssignmentRound := (map_to_list (clue_assignment_rounds d)).*2.

(** [_historical_self_owned_store_ids], sorted *)
Definition historical_self_owned_store_ids (d : cluedb) (lead_key : string) : list string :=
  merge_sort String.le (remove_dups (omap (fun r => clean (rn_assigned_store_id r))
    (List.filter (fun r => opt_is (rn_lead_key r) lead_key
                           && str_in (rn_execution_mode r) SELF_OWNED_EXECUTION_MODES) (rounds_of d)))).

(** [_next_round_no] *)
Definition next_round_no (d : cluedb) (lead_key mode : string) : Z :=
  or0 (fold_right (fun r acc => match acc with
                                | Some m => Some (Z.max (rn_round_no r) m)
                                | None => Some (rn_round_no r)
                                end) None
    (List.filter (fun r => opt_is (rn_lead_key r) lead_key && str_eqb (rn_execution_mode r) mode)
       (rounds_of d))) + 1.

(** [_is_retriable_rule_version_unavailable] *)
Definition is_retriable_rule_version_unavailable (d : cluedb) (lead_key : string) : bool :=
  existsb (fun e => active_of lead_key e
                    && str_in (hp_reason e) (headquarters_pool_reason_storage_values "no_published_rule"))
    (clue_headquarters_pool_entries d).

(** [_current_self_owned_round] *)
Definition current_self_owned_round (d : cluedb) (lead : ClueMasterLead) : option ClueAssignmentRound :=
  if has_text (ml_current_assignment_round_id lead) then
    match ml_current_assignment_round_id lead ≫= lock_clue_assignment_round_for_update d with
    | Some r => if str_in (rn_execution_mode r) SELF_OWNED_EXECUTION_MODES then Some r else None
    | None => None
    end
  else None.

Section Engine.
Variable repr_of : pyval -> string.
Variable hexdigest : string -> string.
Variable isoformat : instant -> string.
Variable terminal_evidence : cluedb -> instant -> string -> TerminalEvidence.
Variable to_float : Q -> Q.
Variable haversine_km : Z -> Z -> Z -> Z -> Q.
Variable round6 : Q -> Q.
(** The JSON numbers of a coordinate and of a float. *)
Variable coord_json : Z -> pyval.
Variable float_json : Q -> pyval.

Definition digest24 (s : string) : string := text (take 24 (chars (hexdigest s))).

(** ** Snapshots *)

Definition opt_json (o : option string) : pyval := match o with Some s => PStr s | None => PNone end.
Definition order_json (o : option Z) : pyval := match o with Some z => PInt z | None => PNone end.
Definition strings_json (l : list string) : pyval := PList (PStr <$> l).

Definition km_json (l : km_limit) : pyval :=
  match l with
  | NoLimit => PNone
  | Km q => float_json q
  | KmNever f => PFloat f
  | KmAlways => PFloat (FInf true)
  end.

Definition score_json (p : score_payload) : pyval :=
  PDict ([("used_for_ranking", PBool (sp_used_for_ranking p))] ++
    match sp_snapshot p with
    | None => [("snapshot_id", PNone); ("snapshot_run_id", PNone); ("rule_version_id", PNone);
               ("snapshot_date", PNone); ("computed_at", PNone); ("composite_score", float_json 0%Q);
               ("conversion_rate", float_json 0%Q); ("conversion_value_source", PStr "score_snapshot_missing");
               ("follow_24h_rate", float_json 0%Q); ("follow_24h_value_source", PStr "score_snapshot_missing");
               ("store_weight", float_json 1%Q)]
    | Some s => [("snapshot_id", PStr (ss_snapshot_id s)); ("snapshot_run_id", PStr (ss_snapshot_run_id s));
                 ("rule_version_id", opt_json (score_snapshot_rule_version_id s));
                 ("snapshot_date", PStr (ss_snapshot_date s));
                 ("computed_at", PStr (isoformat (ss_computed_at s)));
                 ("composite_score", float_json (ss_composite_score s));
                 ("conversion_rate", float_json (ss_conversion_rate s));
                 ("conversion_value_source", PStr (ss_conversion_value_source s));
                 ("follow_24h_rate", float_json (ss_follow_24h_rate s));
                 ("follow_24h_value_source", PStr (ss_follow_24h_value_source s));
                 ("store_weight", float_json (ss_store_weight s))]
    end).

Definition candidate_json (c : candidate) : pyval :=
  PDict [("store_id", opt_json (cd_store_id c)); ("store_name", opt_json (cd_store_name c));
         ("city_code", opt_json (cd_city_code c)); ("eligible", PBool (cd_eligible c));
         ("exclusion_reasons", strings_json (cd_exclusion_reasons c));
         ("distance_km", match cd_distance_km c with Some q => float_json q | None => PNone end);
         ("score", score_json (cd_score c)); ("rank", order_json (cd_rank c))].

Definition summary_json (s : option candidate_summary) : pyval :=
  PDict match s with
        | Some s => [("store_universe_count", PInt (cs_store_universe_count s));
                     ("in_scope_store_count", PInt (cs_in_scope_store_count s));
                     ("omitted_out_of_city_count", PInt (cs_omitted_out_of_city_count s));
                     ("evaluated_count", PInt (cs_evaluated_count s));
                     ("eligible_count", PInt (cs_eligible_count s))]
        | None => []
        end.

(** [_rule_snapshot_payload] *)
Definition rule_snapshot_payload (binding : option ClueLeadRuleVersionBinding) : pyval :=
  match binding with
  | None => PNone
  | Some b =>
      let snapshot := rb_rule_version_snapshot b in
      let copy k := (k, dict_get k snapshot) in
      PDict [("rule_id", dict_get "rule_id" (rb_scope_resolution_snapshot b));
             ("rule_version_id", PStr (rb_rule_version_id b));
             ("version_no", dict_get "version_no" snapshot);
             ("scope", PDict (rb_scope_resolution_snapshot b));
             ("timing", PDict (copy <$> ["auto_expiry_enabled"; "first_follow_up_sla_hours"; "protection_days";
                                         "lookback_days"; "min_samples"; "conversion_weight";
                                         "follow_24h_weight"]))]
  end.

(** [_base_snapshot] *)
Definition base_snapshot (lead : ClueMasterLead) (binding : option ClueLeadRuleVersionBinding)
    (sale_store : sale_store_evidence) (strategy_type : string) (enabled : bool) (execution_order : option Z)
    (params : pydict) (max_distance_km : km_limit) (historical_store_ids : list string)
    (candidates : list candidate) (selected_store_id : option string) (summary : option candidate_summary)
  : pydict :=
  let coord o := match o with Some z => coord_json z | None => PNone end in
  [("anchor", PDict [("poi_id", opt_json (ml_anchor_poi_id lead));
                     ("store_id", opt_json (ml_anchor_store_id lead));
                     ("province", opt_json (ml_anchor_province lead)); ("city", opt_json (ml_anchor_city lead));
                     ("city_code", opt_json (ml_anchor_city_code lead));
                     ("longitude", coord (ml_anchor_longitude lead));
                     ("latitude", coord (ml_anchor_latitude lead));
                     ("unavailable_reason", opt_json (ml_anchor_unavailable_reason lead))]);
   ("sale_store", PDict [("status", PStr (sv_status sale_store)); ("store_id", opt_json (sv_store_id sale_store));
                         ("store_ids", strings_json (sv_store_ids sale_store));
                         ("source", PStr "settlement_order_details")]);
   ("rule_version", rule_snapshot_payload binding);
   ("strategy", PDict [("strategy_type", PStr strategy_type); ("enabled", PBool enabled);
                       ("execution_order", order_json execution_order); ("params", PDict params);
                       ("max_distance_km", km_json max_distance_km)]);
   ("historical_self_owned_store_ids", strings_json historical_store_ids);
   ("candidate_summary", summary_json summary);
   ("candidates", PList (candidate_json <$> candidates));
   ("selected_store_id", opt_json selected_store_id)].

(** ** Decisions *)

(** [_attempt_key] *)
Definition attempt_key (lead_key : string) (run : allocation_run) (strategy_type : string)
    (execution_order : option Z) : string :=
  ("clue-allocation:" +:+ hexdigest (join "|"
     [lead_key; run_mode run; default "" (run_cycle run); strategy_type;
      match execution_order with Some z => str_of_Z z | None => "" end;
      default "" (run_transition run)]))%string.

Definition decision_of (d : cluedb) (key : string) : option ClueAllocationDecision :=
  List.find (fun x => str_eqb (de_attempt_key x) key) (clue_allocation_decisions d).

(** The round a selection names. *)
Record selection := MkSelection {
  sel_store_id : option string;
  sel_store_name : option string;
  sel_round_id : string;
  sel_round_no : Z;
}.

(** [_record_decision] *)
Definition record_decision (d : cluedb) (lead : ClueMasterLead) (binding : option ClueLeadRuleVersionBinding)
    (run : allocation_run) (strategy_type : string) (execution_order : option Z) (status : string)
    (reason : option string) (snapshot : pydict) (sel : option selection)
  : result (cluedb * ClueAllocationDecision) :=
  let key := attempt_key (ml_lead_key lead) run strategy_type execution_order in
  match decision_of d key with
  | Some existing => Ok (d, existing)
  | None =>
      let decision := MkDecision
        ("allocation-decision-" +:+ digest24 key)%string key (ml_lead_key lead) (ml_order_id lead)
        (match binding with Some b => dict_get "rule_id" (rb_scope_resolution_snapshot b) | None => PNone end)
        (rb_rule_version_id <$> binding) (rb_scope_type <$> binding) (rb_scope_key <$> binding)
        strategy_type execution_order (run_cycle run) (run_mode run) (sel_round_id <$> sel)
        (sel_round_no <$> sel) (sel ≫= sel_store_id) (sel ≫= sel_store_name) status reason snapshot
        (run_actor run) (run_at run) in
      if existsb (fun x => str_eqb (de_decision_id x) (de_decision_id decision)) (clue_allocation_decisions d)
      then Raise (NamedError "IntegrityError" "clue_allocation_decisions")
      else Ok (d <| clue_allocation_decisions := clue_allocation_decisions d ++ [decision] |>, decision)
  end.

(** [_assignment_round_id] *)
Definition assignment_round_id (lead_key : string) (run : allocation_run) (round_no : Z) : string :=
  ("allocation-round-" +:+ digest24 (join "|"
     [lead_key; run_mode run; default "" (run_cycle run); str_of_Z round_no]))%string.

Definition auto_expiry (run : allocation_run) (rule_snapshot : pydict) : bool :=
  match run_override run with
  | Some b => b
  | None => truthy (dict_get_default "auto_expiry_enabled" (PBool true) rule_snapshot)
  end.

(** [_ensure_selected_round] *)
Definition ensure_selected_round (d : cluedb) (lead : ClueMasterLead) (binding : ClueLeadRuleVersionBinding)
    (decision : ClueAllocationDecision) (selected : candidate) (run : allocation_run)
  : result (cluedb * ClueAssignmentRound) :=
  match de_assignment_round_id decision, de_round_no decision with
  | Some id, Some round_no =>
      if str_eqb id "" then Raise (RuntimeError "selected allocation decision must contain its round identity")
      else match lock_clue_assignment_round_for_update d id with
      | Some existing => Ok (d, existing)
      | None =>
          let rule_snapshot := rb_rule_version_snapshot binding in
          let sla := positive_int (dict_get "first_follow_up_sla_hours" rule_snapshot) 24 in
          let protection := positive_int (dict_get "protection_days" rule_snapshot) 7 in
          let due := run_at run + hours sla in
          let r := MkRound id (default "" (ml_order_id lead)) (Some (ml_lead_key lead))
            (Some (rb_rule_version_id binding)) (Some (de_strategy_type decision))
            (Some (de_decision_id decision)) (de_allocation_cycle_id decision) round_no (Some (run_at run))
            "clue_allocation_engine" (cd_store_id selected) (cd_store_name selected) None "pending" false
            false "active_unfollowed" (de_execution_mode decision) None None (Some due) (Some due) None None
            (Some (auto_expiry run rule_snapshot)) (Some sla) (Some protection) None None None None
            (run_at run) in
          if bool_decide (is_Some (clue_assignment_rounds d !! id))
             || existsb (fun x => bool_decide (rn_lead_key x = rn_lead_key r)
                                  && str_eqb (rn_execution_mode x) (rn_execution_mode r)
                                  && (rn_round_no x =? rn_round_no r)) (rounds_of d)
          then Raise (NamedError "IntegrityError" "clue_assignment_rounds")
          else Ok (put_round r d, r)
      end
  | _, _ => Raise (RuntimeError "selected allocation decision must contain its round identity")
  end.

(** ** Projections *)

Definition new_center (order_id : string) (now : instant) : ClueCenterOrder :=
  MkCenter order_id "active" None 1 "active_unfollowed" None "clue_create_time_detail" None None None None
    "pending" false false None None None false None None now.

(** [_project_self_owned_assignment] *)
Definition project_self_owned_assignment (d : cluedb) (lead : ClueMasterLead) (r : ClueAssignmentRound)
    (selected : candidate) (cycle : option string) (now : instant) : cluedb :=
  let d1 := close_current_headquarters_pool_entry d (ml_lead_key lead) now "allocated_to_store" "closed" in
  let lead1 := lead <| ml_pool_location := Some "store_follow_up_pool" |>
                    <| ml_allocation_state := "assigned" |>
                    <| ml_current_assignment_round_id := Some (rn_assignment_round_id r) |>
                    <| ml_allocation_cycle_id := cycle |>
                    <| ml_ended_without_assignment := false |> <| ml_updated_at := now |> in
  let d2 := put_lead lead1 d1 in
  let '(d3, center) := match lock_clue_center_order_for_update d2 (rn_order_id r) with
                       | Some c => (d2, c)
                       | None => (put_center (new_center (rn_order_id r) now) d2, new_center (rn_order_id r) now)
                       end in
  let held := match (if has_text (co_current_assignment_round_id center)
                     then co_current_assignment_round_id center ≫= (fun i => clue_assignment_rounds d3 !! i)
                     else None) with
              | Some x => str_in (rn_execution_mode x) SELF_OWNED_EXECUTION_MODES
                          && negb (opt_is (rn_lead_key x) (ml_lead_key lead))
              | None => false
              end in
  if held then d3
  else put_center (center <| co_lead_status := "active" |>
    <| co_current_assignment_round_id := Some (rn_assignment_round_id r) |>
    <| co_current_round_no := rn_round_no r |> <| co_current_round_status := rn_round_status r |>
    <| co_assigned_at := rn_assigned_at r |> <| co_assigned_at_source := rn_assigned_at_source r |>
    <| co_assigned_store_id := rn_assigned_store_id r |> <| co_assigned_store_name := rn_assigned_store_name r |>
    <| co_assigned_city := clean (cd_city_code selected) |>
    <| co_assigned_province := clean (ml_anchor_province lead) |>
    <| co_follow_result := rn_follow_result r |> <| co_is_followed := rn_is_followed r |>
    <| co_is_follow_success := rn_is_follow_success r |> <| co_verified_store_id := None |>
    <| co_verified_store_name := None |> <| co_verified_at := None |>
    <| co_is_self_store_verified := false |> <| co_expires_at := None |>
    <| co_reassign_reason := None |> <| co_updated_at := now |>) d3.

(** The order row that points at a round of the lead, to be cleared. *)
Definition headquarters_center (d : cluedb) (lead : ClueMasterLead) : option ClueCenterOrder :=
  if has_text (ml_order_id lead) then
    match ml_order_id lead ≫= (fun o => clue_center_orders d !! o) with
    | Some snapshot =>
        if has_text (co_current_assignment_round_id snapshot) then
          match co_current_assignment_round_id snapshot ≫= lock_clue_assignment_round_for_update d with
          | Some r => if opt_is (rn_lead_key r) (ml_lead_key lead)
                      then ml_order_id lead ≫= lock_clue_center_order_for_update d else None
          | None => None
          end
        else None
    | None => None
    end
  else None.

(** [_project_headquarters] *)
Definition project_headquarters (d : cluedb) (lead : ClueMasterLead) (now : instant)
    (decision : ClueAllocationDecision) : result cluedb :=
  let lead1 := lead <| ml_pool_location := Some "headquarters_pool" |>
                    <| ml_allocation_state := "headquarters" |>
                    <| ml_current_assignment_round_id := None |>
                    <| ml_allocation_cycle_id := de_allocation_cycle_id decision |>
                    <| ml_ended_without_assignment := false |> <| ml_updated_at := now |> in
  let* (d1, _) := enter_headquarters_pool digest24 isoformat (put_lead lead1 d) lead1
                     (text_or (de_reason decision) "headquarters") now (Some decision) None None None [] in
  Ok match headquarters_center d1 lead1 with
     | Some c => put_center (c <| co_current_assignment_round_id := None |> <| co_current_round_no := 0 |>
         <| co_current_round_status := "headquarters" |> <| co_assigned_at := None |>
         <| co_assigned_store_id := None |> <| co_assigned_store_name := None |>
         <| co_assigned_city := None |> <| co_assigned_province := None |> <| co_expires_at := None |>
         <| co_reassign_reason := Some "headquarters_pool" |> <| co_updated_at := now |>) d1
     | None => d1
     end.

(** Records a headquarters decision and projects it. *)
Definition send_to_headquarters (d : cluedb) (lead : ClueMasterLead)
    (binding : option ClueLeadRuleVersionBinding) (run : allocation_run) (reason : string) (snapshot : pydict)
    (strategy_type : string) (execution_order : option Z) (decision_ids : list string)
  : result (cluedb * AllocationResult) :=
  let* (d1, decision) := record_decision d lead binding run strategy_type execution_order "headquarters"
                            (Some reason) snapshot None in
  let* d2 := project_headquarters d1 lead (run_at run) decision in
  Ok (d2, MkAllocation (ml_lead_key lead) "headquarters" (de_reason decision) None None
            (decision_ids ++ [de_decision_id decision])).

(** ** The strategies *)

(** The store a strategy selected becomes the owner of a new round. *)
Definition assign_selected (d : cluedb) (lead : ClueMasterLead) (binding : ClueLeadRuleVersionBinding)
    (run : allocation_run) (config : StrategyConfig) (sale_store : sale_store_evidence)
    (historical : list string) (source_store_mode : bool) (limit : km_limit) (candidates : list candidate)
    (summary : candidate_summary) (selected : candidate) (decision_ids : list string)
  : result (cluedb * AllocationResult) :=
  let rule_snapshot := rb_rule_version_snapshot binding in
  let round_no := if source_store_mode && str_eqb (sc_strategy_type config) "sales_store_priority"
                     && is_nil historical
                  then 0 else next_round_no d (ml_lead_key lead) (run_mode run) in
  let round_id := assignment_round_id (ml_lead_key lead) run round_no in
  let snapshot :=
    base_snapshot lead (Some binding) sale_store (sc_strategy_type config) true (Some (sc_execution_order config))
      (sc_params config) limit historical candidates (cd_store_id selected) (Some summary)
    ++ [("assignment_round", PDict [("assignment_round_id", PStr round_id); ("round_no", PInt round_no);
                                    ("execution_mode", PStr (run_mode run));
                                    ("allocation_cycle_id", opt_json (run_cycle run))]);
        ("execution_timing", PDict [("auto_expiry_enabled", PBool (auto_expiry run rule_snapshot));
                                    ("source", PStr (match run_override run with
                                                     | Some _ => "cycle_override"
                                                     | None => "rule_version"
                                                     end))])] in
  let* (d1, decision) := record_decision d lead (Some binding) run (sc_strategy_type config)
    (Some (sc_execution_order config)) "selected" (Some "selected") snapshot
    (Some (MkSelection (cd_store_id selected) (cd_store_name selected) round_id round_no)) in
  let* (d2, r) := ensure_selected_round d1 lead binding decision selected run in
  let d3 := project_self_owned_assignment d2 lead r selected (run_cycle run) (run_at run) in
  Ok (d3, MkAllocation (ml_lead_key lead) "assigned" (Some "selected") (cd_store_id selected)
            (Some (rn_assignment_round_id r)) (decision_ids ++ [de_decision_id decision])).

(** The loop over the strategies. *)
Fixpoint run_strategies (configs : list StrategyConfig) (d : cluedb) (lead : ClueMasterLead)
    (binding : ClueLeadRuleVersionBinding) (run : allocation_run) (stores : list DimStore)
    (score_of : string -> option StoreScoreSnapshot) (sale_store : sale_store_evidence)
    (historical : list string) (source_store_mode : bool) (start_after_order : option Z)
    (decision_ids : list string) : result (cluedb * AllocationResult) :=
  match configs with
  | [] =>
      send_to_headquarters d lead (Some binding) run "no_candidate"
        (base_snapshot lead (Some binding) sale_store "allocation_finalization" false None [] NoLimit historical
           [] None None)
        "allocation_finalization" None decision_ids
  | config :: configs' =>
      let strategy_type := sc_strategy_type config in
      let order := sc_execution_order config in
      let limit := strategy_distance repr_of to_float strategy_type (sc_params config) in
      let continue d decision_ids := run_strategies configs' d lead binding run stores score_of sale_store
                                       historical source_store_mode start_after_order decision_ids in
      if match start_after_order with Some o => order <=? o | None => false end then continue d decision_ids
      else if negb (sc_enabled config) then
        let* (d1, decision) := record_decision d lead (Some binding) run strategy_type (Some order) "skipped"
          (Some "strategy_disabled")
          (base_snapshot lead (Some binding) sale_store strategy_type false (Some order) (sc_params config) limit
             historical [] None None) None in
        continue d1 (decision_ids ++ [de_decision_id decision])
      else
        let '(candidates, reason, summary) := strategy_candidates haversine_km round6 strategy_type lead
          sale_store stores score_of historical limit source_store_mode in
        match selected_candidate candidates with
        | None =>
            let* (d1, decision) := record_decision d lead (Some binding) run strategy_type (Some order)
              "skipped" (Some (text_or reason "no_candidate"))
              (base_snapshot lead (Some binding) sale_store strategy_type true (Some order) (sc_params config)
                 limit historical candidates None (Some summary)) None in
            continue d1 (decision_ids ++ [de_decision_id decision])
        | Some selected =>
            assign_selected d lead binding run config sale_store historical source_store_mode limit candidates
              summary selected decision_ids
        end
  end.

(** ** One lead *)

Context {R : Type} `{RuleBinder R}.

Definition missing_snapshot (lead : ClueMasterLead) (binding : option ClueLeadRuleVersionBinding)
    (strategy_type : string) (enabled : bool) (execution_order : option Z) : pydict :=
  base_snapshot lead binding missing_sale_store_evidence strategy_type enabled execution_order [] NoLimit [] []
    None None.

Definition skipped (lead : ClueMasterLead) (reason : string) : AllocationResult :=
  MkAllocation (ml_lead_key lead) "skipped" (Some reason) None None [].

(** [source_store_mode] *)
Definition source_store_mode_of (rule_snapshot : pydict) : bool :=
  existsb (fun c => str_eqb (sc_strategy_type c) "nearby_city_optimization"
                    && is_str (dict_get "selection_mode" (sc_params c)) "douyin_source_store")
    (strategy_configs rule_snapshot).

(** From the bound rule to the result. *)
Definition allocate_bound (inputs : allocation_inputs) (d : cluedb) (lead : ClueMasterLead)
    (binding : ClueLeadRuleVersionBinding) (run : allocation_run) (start_after_strategy : option string)
  : result (cluedb * AllocationResult) :=
  let rule_snapshot := rb_rule_version_snapshot binding in
  let configs := strategy_configs rule_snapshot in
  let source_store_mode := source_store_mode_of rule_snapshot in
  let anchor_reason := if source_store_mode then source_anchor_reason lead else anchor_unavailable_reason lead in
  match anchor_reason with
  | Some reason =>
      send_to_headquarters d lead (Some binding) run reason
        (missing_snapshot lead (Some binding) "anchor_validation" true (Some 0)) "anchor_validation" (Some 0) []
  | None =>
      if negb (has_text (clean (ml_order_id lead))) then
        send_to_headquarters d lead (Some binding) run "order_id_missing"
          (missing_snapshot lead (Some binding) "allocation_finalization" false None)
          "allocation_finalization" None []
      else
        let* start_after_order :=
          match clean start_after_strategy with
          | None => Ok None
          | Some t => match List.find (fun c => str_eqb (sc_strategy_type c) t) configs with
                      | Some c => Ok (Some (sc_execution_order c))
                      | None => Raise (ValueError "start_after_strategy must be a configured strategy type")
                      end
          end in
        run_strategies configs d lead binding run (in_stores inputs)
          (fun id => if source_store_mode then None
                     else latest_score (in_scores inputs) (rb_rule_version_id binding) id)
          (resolve_sale_store_evidence (in_sale_stores inputs (default "" (ml_order_id lead))))
          (historical_self_owned_store_ids d (ml_lead_key lead)) source_store_mode start_after_order []
  end.

(** [allocate_lead] *)
Definition allocate_lead (inputs : allocation_inputs) (rules : R) (d : cluedb) (lead_key execution_mode : string)
    (allocation_cycle_id actor : option string) (now : instant)
    (start_after_strategy transition_key : option string) (auto_expiry_enabled_override : option bool)
    (terminal : option TerminalEvidence) : result (R * cluedb * AllocationResult) :=
  if blank lead_key then Raise (ValueError "lead_key is required")
  else if blank execution_mode then Raise (ValueError "execution_mode is required")
  else if negb (str_in (strip execution_mode) SELF_OWNED_EXECUTION_MODES)
  then Raise (ValueError "execution_mode must be formal or trial")
  else
    let run := MkRun (strip execution_mode) (clean allocation_cycle_id) (text_or (clean actor) "manual") now
                 (clean transition_key) auto_expiry_enabled_override in
    match clue_master_leads d !! strip lead_key with
    | None => Raise (ValueError "clue master lead was not found")
    | Some lead0 =>
        let '(d, lead, closed) := refresh_terminal_evidence_for_locked_lead hexdigest isoformat
                                    terminal_evidence d lead0 now terminal in
        if closed then Ok (rules, d, skipped lead "order_already_terminal")
        else if negb (str_eqb (ml_lifecycle_status lead) "active")
                || negb (str_eqb (ml_normalized_order_status lead) "active")
        then Ok (rules, d, skipped lead "lead_not_active")
        else if opt_is (ml_pool_location lead) "headquarters_pool"
                && negb (is_retriable_rule_version_unavailable d (ml_lead_key lead))
        then Raise (ValueError "headquarters_reentry_not_supported")
        else match current_self_owned_round d lead with
        | Some r =>
            Ok (rules, d, MkAllocation (ml_lead_key lead) "assigned" (Some "current_self_owned_round_exists")
                            (rn_assigned_store_id r) (Some (rn_assignment_round_id r))
                            (if has_text (rn_allocation_decision_id r)
                             then [default "" (rn_allocation_decision_id r)] else []))
        | None =>
            match decision_of d (attempt_key (ml_lead_key lead) run "allocation_finalization" None) with
            | Some completed =>
                let* d1 := project_headquarters d lead now completed in
                Ok (rules, d1, MkAllocation (ml_lead_key lead) "headquarters" (de_reason completed) None None
                                 [de_decision_id completed])
            | None =>
                match bind_lead_rule_version rules (ml_lead_key lead) (ml_anchor_store_id lead)
                        (ml_anchor_city_code lead) with
                | Raise (NamedError cls msg) =>
                    if str_eqb cls "RuleResolutionError" then
                      let* (d1, res) := send_to_headquarters d lead None run "rule_version_unavailable"
                        (missing_snapshot lead None "rule_version_resolution" false None)
                        "rule_version_resolution" None [] in
                      Ok (rules, d1, res)
                    else Raise (NamedError cls msg)
                | Raise e => Raise e
                | Ok (rules1, binding) =>
                    let* (d1, res) := allocate_bound inputs d lead binding run start_after_strategy in
                    Ok (rules1, d1, res)
                end
            end
        end
    end.
End Engine.

(** ** A batch of leads *)

Section Batch.
Variable repr_of : pyval -> string.
Variable hexdigest : string -> string.
Variable isoformat : instant -> string.
Variable terminal_evidence : cluedb -> instant -> string -> TerminalEvidence.
Variable to_float : Q -> Q.
Variable haversine_km : Z -> Z -> Z -> Z -> Q.
Variable round6 : Q -> Q.
Variable coord_json : Z -> pyval.
Variable float_json : Q -> pyval.
Context {R : Type} `{RuleBinder R}.

(** [sorted(indexed_keys, key=...)]: by key, and in the caller's order for equal ones. *)
Definition batch_before (a b : nat * string) : Prop :=
  if decide (a.2 = b.2) then (a.1 <= b.1)%nat else String.le a.2 b.2.

#[export] Instance batch_before_dec : RelDecision batch_before.
Proof. intros a b. unfold batch_before. case_decide; apply _. Defined.

(** [allocate_leads] *)
Definition allocate_leads (inputs : allocation_inputs) (rules : R) (d : cluedb) (lead_keys : list string)
    (execution_mode : string) (allocation_cycle_id actor : option string) (now : instant)
    (auto_expiry_enabled_override : option bool) : result (R * cluedb * list AllocationResult) :=
  let keys := strip <$> lead_keys in
  if existsb (fun k => str_eqb k "") keys then Raise (ValueError "lead_key is required")
  else if existsb (fun k => bool_decide (clue_master_leads d !! k = None)) keys
  then Raise (ValueError "clue master lead was not found")
  else
    let requested := omap (fun k => clue_master_leads d !! k ≫= ml_order_id) keys in
    let terminal (order_id : option string) :=
      match order_id with
      | Some o => if str_in o requested then terminal_evidence_of terminal_evidence d now o else None
      | None => None
      end in
    let step acc (entry : nat * string) :=
      let* (rules1, d1, results) := acc in
      let* (rules2, d2, res) :=
        allocate_lead repr_of hexdigest isoformat terminal_evidence to_float haversine_km round6 coord_json
          float_json inputs rules1 d1 entry.2 execution_mode allocation_cycle_id actor now None None
          auto_expiry_enabled_override (terminal (clue_master_leads d1 !! entry.2 ≫= ml_order_id)) in
      Ok (rules2, d2, <[entry.1 := res]> results) in
    let* (rules', d', results) :=
      foldl step (Ok (rules, d, ∅ : gmap nat AllocationResult)) (merge_sort batch_before (imap pair keys)) in
    Ok (rules', d', omap (fun i => results !! i) (seq 0 (length keys))).
End Batch.
