(* ===== verification/AllocationProps.v ===== *)
(** * Properties of the allocation engine *)
From S2P Require Import Prelude PyValue Jobs Clues HqPool ClueStatus FollowUp FollowUpInv FollowUpProps Candidates CandidateProps Allocation.
#[local] Open Scope Z_scope.

Section Props.
Context (repr_of : pyval -> string) (hexdigest : string -> string) (isoformat : instant -> string)
  (terminal_evidence : cluedb -> instant -> string -> TerminalEvidence)
  (to_float : Q -> Q) (haversine_km : Z -> Z -> Z -> Z -> Q) (round6 : Q -> Q)
  (coord_json : Z -> pyval) (float_json : Q -> pyval).

#[local] Notation record_decision := (record_decision hexdigest).
#[local] Notation attempt_key := (attempt_key hexdigest).
#[local] Notation project_headquarters := (project_headquarters hexdigest isoformat).
#[local] Notation send_to_headquarters := (send_to_headquarters hexdigest isoformat).
#[local] Notation assign_selected := (assign_selected hexdigest isoformat coord_json float_json).
#[local] Notation run_strategies := (run_strategies repr_of hexdigest isoformat to_float haversine_km round6 coord_json float_json).

(** ** The decision log *)

(** Attempt keys and decision ids are unique, a named round has an id, and the
    mode is one of the two self-owned ones. *)
Record log_ok (d : cluedb) : Prop := MkLogOk {
  lo_keys : NoDup (de_attempt_key <$> clue_allocation_decisions d);
  lo_ids : NoDup (de_decision_id <$> clue_allocation_decisions d);
  lo_rounds : forall x i, x ∈ clue_allocation_decisions d -> de_assignment_round_id x = Some i -> strip i <> "";
  lo_modes : forall x, x ∈ clue_allocation_decisions d ->
    str_in (de_execution_mode x) SELF_OWNED_EXECUTION_MODES = true;
}.

(** [d'] is [d] with decisions appended. *)
Definition logs (d d' : cluedb) : Prop :=
  exists new, d' = d <| clue_allocation_decisions := clue_allocation_decisions d ++ new |>.

#[export] Instance logs_refl : Reflexive logs.
Proof. intros []. exists []. cbn. unfold field_set. cbn. by rewrite app_nil_r. Qed.
#[export] Instance logs_trans : Transitive logs.
Proof. intros a b c [n1 ->] [n2 ->]. exists (n1 ++ n2). cbn. by rewrite app_assoc. Qed.

Lemma find_none_not_in {A} (f : A -> string) l k :
  List.find (fun x => str_eqb (f x) k) l = None -> k ∉ (f <$> l).
Proof.
  intros Hf (x & -> & Hx)%list_elem_of_fmap. apply list_elem_of_In in Hx.
  pose proof (List.find_none _ _ Hf _ Hx) as E. cbn in E. by rewrite str_eqb_refl in E.
Qed.

Lemma existsb_not_in {A} (f : A -> string) l k :
  existsb (fun x => str_eqb (f x) k) l = false -> k ∉ (f <$> l).
Proof.
  intros He (x & -> & Hx)%list_elem_of_fmap.
  assert (existsb (fun y => str_eqb (f y) (f x)) l = true); [|congruence].
  apply List.existsb_exists. exists x. split; [by apply list_elem_of_In|apply str_eqb_refl].
Qed.

Lemma record_decision_spec d lead binding run st order status reason snapshot sel d' dec :
  str_in (run_mode run) SELF_OWNED_EXECUTION_MODES = true ->
  (forall x, sel = Some x -> strip (sel_round_id x) <> "") ->
  record_decision d lead binding run st order status reason snapshot sel = Ok (d', dec) ->
  logs d d' /\ (log_ok d -> log_ok d') /\ dec ∈ clue_allocation_decisions d'
  /\ de_attempt_key dec = attempt_key (ml_lead_key lead) run st order.
Proof.
  intros Hm Hsel. unfold Allocation.record_decision. cbv zeta.
  destruct (decision_of d _) as [x|] eqn:Hx.
  - intros [= <- <-]. split; [reflexivity|]. split; [done|].
    apply List.find_some in Hx as [Hin E]. tests. split; [by apply list_elem_of_In|done].
  - destruct (existsb _ _) eqn:He; [done|]. intros [= <- <-]. split; [by eexists|]. split.
    + intros [H1 H2 H3 H4]. apply find_none_not_in in Hx. apply existsb_not_in in He.
      split; cbn; rewrite ?fmap_app;
        [apply NoDup_app; (split_and!; [done| |apply NoDup_singleton]);
         intros y Hy ->%list_elem_of_singleton; done..| |].
      * intros x i [Hin| ->%list_elem_of_singleton]%elem_of_app; [by apply H3|]. cbn.
        destruct sel as [x|]; [|done]. intros [= <-]. by apply Hsel.
      * intros x [Hin| ->%list_elem_of_singleton]%elem_of_app; [by apply H4|done].
    + split; [|done]. cbn. apply elem_of_app. right. left.
Qed.

(** ** Consistency *)

Record alloc_ok (d : cluedb) : Prop := MkAllocOk {
  ao_follow : follow_ok d;
  ao_pool : pool_ok d;
  ao_log : log_ok d;
}.

(** The lead has no active formal round. *)
Definition unowned (d : cluedb) (lead : ClueMasterLead) : Prop :=
  forall i r, clue_assignment_rounds d !! i = Some r -> is_active_formal r = true ->
    rn_lead_key r <> Some (ml_lead_key lead).

Lemma follow_ok_tables d d' :
  clue_master_leads d' = clue_master_leads d -> clue_assignment_rounds d' = clue_assignment_rounds d ->
  clue_center_orders d' = clue_center_orders d -> follow_ok d -> follow_ok d'.
Proof. intros E1 E2 E3 Hok. apply (evolves_ok d); [done|]. by apply evolves_same. Qed.

Lemma pool_ok_tables d d' :
  clue_headquarters_pool_entries d' = clue_headquarters_pool_entries d -> pool_ok d -> pool_ok d'.
Proof. intros E []. split; by rewrite E. Qed.

Lemma log_ok_tables d d' :
  clue_allocation_decisions d' = clue_allocation_decisions d -> log_ok d -> log_ok d'.
Proof. intros E []. split; by rewrite E. Qed.

Lemma logs_ok d d' : logs d d' -> (log_ok d -> log_ok d') -> alloc_ok d -> alloc_ok d'.
Proof.
  intros [new ->] Hl [H1 H2 H3]. split; [by apply (follow_ok_tables d)|by apply (pool_ok_tables d)|auto].
Qed.

Lemma follow_ok_put_center d c : follow_ok d -> follow_ok (put_center c d).
Proof.
  intros []. split; try done. cbn. intros o x. destruct (decide (o = co_order_id c)) as [->|Hne].
  - rewrite lookup_insert_eq. by intros [= <-].
  - rewrite lookup_insert_ne by done. auto.
Qed.

(** Changing a lead that owns no active round. *)
Lemma follow_ok_put_lead d lead lead' : follow_ok d -> clue_master_leads d !! ml_lead_key lead = Some lead ->
  ml_lead_key lead' = ml_lead_key lead -> unowned d lead -> follow_ok (put_lead lead' d).
Proof.
  intros Hok Hl Hk Hun. split; cbn.
  - intros k l. rewrite Hk. destruct (decide (k = ml_lead_key lead)) as [->|Hne].
    + rewrite lookup_insert_eq. intros [= <-]. split; [done|]. by apply (fo_leads d Hok _ _ Hl).
    + rewrite lookup_insert_ne by done. apply (fo_leads d Hok).
  - apply (fo_rounds d Hok).
  - apply (fo_centers d Hok).
  - intros i r Hr Ha. destruct (fo_current d Hok i r Hr Ha) as (k & l & H1 & H2 & H3).
    exists k, l. split; [done|]. rewrite Hk, lookup_insert_ne; [done|]. intros <-. by apply (Hun i r).
Qed.

(** Opening a round for such a lead. *)
Lemma follow_ok_new_round d lead lead' r : follow_ok d -> clue_master_leads d !! ml_lead_key lead = Some lead ->
  ml_lead_key lead' = ml_lead_key lead -> unowned d lead ->
  clue_assignment_rounds d !! rn_assignment_round_id r = None -> strip (rn_assignment_round_id r) <> "" ->
  rn_lead_key r = Some (ml_lead_key lead) ->
  ml_current_assignment_round_id lead' = Some (rn_assignment_round_id r) ->
  ml_order_id lead' = Some (rn_order_id r) -> strip (rn_order_id r) <> "" ->
  follow_ok (put_lead lead' (put_round r d)).
Proof.
  intros Hok Hl Hk Hun Hnew Hid Hrk Hcur Hord Hone.
  pose proof (follow_ok_put_lead d lead lead' Hok Hl Hk Hun) as Hok1. split; cbn.
  - apply (fo_leads _ Hok1).
  - intros i x. destruct (decide (i = rn_assignment_round_id r)) as [->|Hne].
    + rewrite lookup_insert_eq. by intros [= <-].
    + rewrite lookup_insert_ne by done. apply (fo_rounds d Hok).
  - apply (fo_centers d Hok).
  - intros i x. destruct (decide (i = rn_assignment_round_id r)) as [->|Hne].
    + rewrite lookup_insert_eq. intros [= <-] _. exists (ml_lead_key lead), lead'.
      rewrite <- Hk at 2. rewrite lookup_insert_eq. done.
    + rewrite lookup_insert_ne by done. apply (fo_current _ Hok1).
Qed.

(** Existing rounds only ever evolve. *)
Definition rounds_kept (d d' : cluedb) : Prop :=
  forall i r, clue_assignment_rounds d !! i = Some r ->
    exists r', clue_assignment_rounds d' !! i = Some r' /\ round_evolves r r'.

#[export] Instance rounds_kept_refl : Reflexive rounds_kept.
Proof. intros d i r Hr. exists r. split; [done|reflexivity]. Qed.
#[export] Instance rounds_kept_trans : Transitive rounds_kept.
Proof.
  intros a b c H1 H2 i r Hr. destruct (H1 i r Hr) as (r1 & Hr1 & E1). destruct (H2 i r1 Hr1) as (r2 & Hr2 & E2).
  exists r2. split; [done|by etransitivity].
Qed.

Lemma evolves_kept d d' : evolves d d' -> rounds_kept d d'.
Proof.
  intros He i r Hr. pose proof (ev_rounds _ _ He i) as H. rewrite Hr in H.
  destruct (clue_assignment_rounds d' !! i) as [r'|]; [eauto|done].
Qed.

Lemma kept_same d d' : clue_assignment_rounds d' = clue_assignment_rounds d -> rounds_kept d d'.
Proof. intros E i r Hr. exists r. split; [by rewrite E|reflexivity]. Qed.

(** ** Projections *)

Record sent_to_headquarters (d d' : cluedb) (lead : ClueMasterLead) (decision_id : string) : Prop := MkSent {
  hq_rounds : clue_assignment_rounds d' = clue_assignment_rounds d;
  hq_records : clue_follow_up_records d' = clue_follow_up_records d;
  hq_decisions : clue_allocation_decisions d' = clue_allocation_decisions d;
  hq_lead : exists lead', clue_master_leads d' !! ml_lead_key lead = Some lead'
    /\ ml_pool_location lead' = Some "headquarters_pool" /\ ml_allocation_state lead' = "headquarters"
    /\ ml_current_assignment_round_id lead' = None /\ ml_order_id lead' = ml_order_id lead;
  hq_entry : exists e, get_active_headquarters_pool_entry d' (ml_lead_key lead) = Some e
    /\ hp_source_decision_id e = Some decision_id;
}.

Lemma pool_get_tables d d' k :
  clue_headquarters_pool_entries d' = clue_headquarters_pool_entries d ->
  get_active_headquarters_pool_entry d' k = get_active_headquarters_pool_entry d k.
Proof. intros E. unfold get_active_headquarters_pool_entry. by rewrite E. Qed.

Lemma project_headquarters_spec d lead now dec d' : alloc_ok d ->
  clue_master_leads d !! ml_lead_key lead = Some lead -> unowned d lead ->
  project_headquarters d lead now dec = Ok d' ->
  alloc_ok d' /\ sent_to_headquarters d d' lead (de_decision_id dec).
Proof.
  intros [Hf Hp Hg] Hl Hun. unfold Allocation.project_headquarters. cbv zeta.
  match goal with |- context [put_lead ?x d] => set (lead1 := x) end.
  destruct (enter_headquarters_pool _ _ (put_lead lead1 d) lead1 _ _ _ _ _ _ _) as [[d1 e]|] eqn:He; [|done].
  cbn [result_bind]. apply enter_pool_ok in He as (Hp1 & [L1 L2 L3 L4 L5] & Hact & Hsrc);
    [|by apply (pool_ok_tables d)].
  assert (Hf1 : follow_ok d1).
  { apply (follow_ok_tables (put_lead lead1 d)); [done..|]. by apply (follow_ok_put_lead d lead). }
  assert (Hlead : clue_master_leads d1 !! ml_lead_key lead = Some lead1).
  { rewrite L1. cbn. by rewrite lookup_insert_eq. }
  assert (Hsent : forall x, clue_assignment_rounds x = clue_assignment_rounds d1 ->
    clue_follow_up_records x = clue_follow_up_records d1 ->
    clue_allocation_decisions x = clue_allocation_decisions d1 ->
    clue_master_leads x = clue_master_leads d1 ->
    clue_headquarters_pool_entries x = clue_headquarters_pool_entries d1 ->
    sent_to_headquarters d x lead (de_decision_id dec)).
  { intros x E1 E2 E3 E4 E5. split; [by rewrite E1, L2|by rewrite E2, L4|by rewrite E3, L5| |].
    - exists lead1. by rewrite E4, Hlead.
    - exists e. rewrite (pool_get_tables d1 x) by done. done. }
  destruct (headquarters_center d1 lead1) as [c|]; intros [= <-].
  - split; [|by apply Hsent]. split; [by apply follow_ok_put_center|by apply (pool_ok_tables d1)|].
    by apply (log_ok_tables d).
  - split; [|by apply Hsent]. split; [done|done|]. by apply (log_ok_tables d).
Qed.

(** What an assignment leaves. *)
Record assigned_to (d d' : cluedb) (lead : ClueMasterLead) (r : ClueAssignmentRound) : Prop := MkAssigned {
  as_rounds : clue_assignment_rounds d' = clue_assignment_rounds d;
  as_records : clue_follow_up_records d' = clue_follow_up_records d;
  as_decisions : clue_allocation_decisions d' = clue_allocation_decisions d;
  as_lead : exists lead', clue_master_leads d' = <[ml_lead_key lead := lead']> (clue_master_leads d)
    /\ ml_lead_key lead' = ml_lead_key lead /\ ml_order_id lead' = ml_order_id lead
    /\ ml_pool_location lead' = Some "store_follow_up_pool"
    /\ ml_lifecycle_status lead' = ml_lifecycle_status lead
    /\ ml_normalized_order_status lead' = ml_normalized_order_status lead
    /\ ml_current_assignment_round_id lead' = Some (rn_assignment_round_id r);
  as_pool : get_active_headquarters_pool_entry d' (ml_lead_key lead) = None;
  as_pool_ok : pool_ok d';
  as_centers : exists c, clue_center_orders d' = clue_center_orders d
    \/ clue_center_orders d' = <[co_order_id c := c]> (clue_center_orders d);
}.

Lemma project_self_owned_spec d lead r selected cycle now : pool_ok d ->
  assigned_to d (project_self_owned_assignment d lead r selected cycle now) lead r.
Proof.
  intros Hp. unfold project_self_owned_assignment. cbv zeta.
  match goal with |- context [put_lead ?x _] => set (lead1 := x) end.
  destruct (close_pool_ok d (ml_lead_key lead) now "allocated_to_store" "closed") as (Hp1 & Hnone & _); [done|done|].
  destruct (pool_close_frame d (ml_lead_key lead) now "allocated_to_store" "closed") as (F1 & F2 & F3 & F4 & F5).
  set (d1 := close_current_headquarters_pool_entry _ _ _ _ _) in *.
  assert (Hall : forall x, clue_assignment_rounds x = clue_assignment_rounds d1 ->
    clue_follow_up_records x = clue_follow_up_records d1 ->
    clue_allocation_decisions x = clue_allocation_decisions d1 ->
    clue_master_leads x = clue_master_leads (put_lead lead1 d1) ->
    clue_headquarters_pool_entries x = clue_headquarters_pool_entries d1 ->
    (exists c, clue_center_orders x = clue_center_orders d1
       \/ clue_center_orders x = <[co_order_id c := c]> (clue_center_orders d1)) ->
    assigned_to d x lead r).
  { intros x E1 E2 E3 E4 E5 E6. split; rewrite ?E1, ?E2, ?E3, ?F1, ?F2, ?F3, ?F4, ?F5 in *; try done.
    - exists lead1. rewrite E4. cbn. by rewrite F1.
    - rewrite (pool_get_tables d1 x) by done. done.
    - by apply (pool_ok_tables d1). }
  destruct (lock_clue_center_order_for_update (put_lead lead1 d1) (rn_order_id r)) as [c0|].
  - match goal with |- context [if ?b then _ else _] => destruct b end.
    + apply Hall; try done. exists c0. by left.
    + apply Hall; try done. eexists. right. reflexivity.
  - match goal with |- context [if ?b then _ else _] => destruct b end.
    + apply Hall; try done. eexists. right. reflexivity.
    + apply Hall; try done. match goal with |- context [put_center ?c (put_center _ _)] => exists c end.
      right. apply insert_insert_eq.
Qed.

Lemma assignment_round_id_named lead_key run n :
  strip (assignment_round_id hexdigest lead_key run n) <> "".
Proof.
  apply (strip_nonblank _ (Ascii.ascii_of_nat 97)).
  - unfold assignment_round_id. cbn. left.
  - assert (H : forallb (fun p => bool_decide (Ascii.ascii_of_nat 97 ∉ p)) whitespace = true)
      by (vm_compute; reflexivity).
    rewrite forallb_forall in H. intros p Hp. apply list_elem_of_In, H in Hp. by apply bool_decide_eq_true in Hp.
Qed.

(** The round opened for a selection. *)
Record opened_round (lead : ClueMasterLead) (dec : ClueAllocationDecision) (selected : candidate)
    (now : instant) (r : ClueAssignmentRound) : Prop := MkOpened {
  or_id : de_assignment_round_id dec = Some (rn_assignment_round_id r);
  or_lead : rn_lead_key r = Some (ml_lead_key lead);
  or_order : rn_order_id r = default "" (ml_order_id lead);
  or_store : rn_assigned_store_id r = cd_store_id selected;
  or_mode : rn_execution_mode r = de_execution_mode dec;
  or_status : rn_round_status r = "active_unfollowed";
  or_due : exists t, rn_first_sla_expires_at r = Some t /\ now < t;
}.

Lemma positive_int_pos v n : 0 < n -> 0 < positive_int v n.
Proof. unfold positive_int. intros Hn. case_match; [|done]. destruct (0 <? z) eqn:E; [|done]. bool_to_prop. done. Qed.

Lemma ensure_selected_round_spec d lead binding dec selected run d' r : log_ok d -> follow_ok d ->
  dec ∈ clue_allocation_decisions d ->
  ensure_selected_round d lead binding dec selected run = Ok (d', r) ->
  (d' = d /\ clue_assignment_rounds d !! rn_assignment_round_id r = Some r
   /\ de_assignment_round_id dec = Some (rn_assignment_round_id r))
  \/ (d' = put_round r d /\ clue_assignment_rounds d !! rn_assignment_round_id r = None
      /\ strip (rn_assignment_round_id r) <> "" /\ opened_round lead dec selected (run_at run) r).
Proof.
  intros Hlog Hf Hin. unfold ensure_selected_round.
  destruct (de_assignment_round_id dec) as [id|] eqn:Hid; [|done].
  destruct (de_round_no dec) as [n|]; [|done]. destruct (str_eqb id ""); [done|].
  destruct (lock_clue_assignment_round_for_update d id) as [x|] eqn:Hx.
  - intros [= <- <-]. left. unfold lock_clue_assignment_round_for_update in Hx.
    destruct (str_eqb (strip id) ""); [done|]. destruct (fo_rounds d Hf _ _ Hx) as [-> _]. done.
  - cbv zeta. match goal with |- (if ?b then _ else _) = _ -> _ => destruct b eqn:Hb end; [done|].
    intros [= <- <-]. right. apply orb_false_iff in Hb as [Hb _]. apply bool_decide_eq_false in Hb. cbn.
    split; [done|]. split; [by apply eq_None_not_Some|]. split; [by apply (lo_rounds d Hlog dec)|].
    split; try done. eexists. split; [reflexivity|].
    pose proof (positive_int_pos (dict_get "first_follow_up_sla_hours" (rb_rule_version_snapshot binding)) 24 ltac:(lia)).
    unfold hours, seconds. lia.
Qed.

(** Assigning to a selected store keeps the database consistent. *)
Record assign_outcome (d d' : cluedb) (lead : ClueMasterLead) (selected : candidate) (run : allocation_run)
    (strategy_type : string) (order : Z) (res : AllocationResult) : Prop := MkAssignOutcome {
  ac_ok : alloc_ok d';
  ac_kept : rounds_kept d d';
  ac_records : clue_follow_up_records d' = clue_follow_up_records d;
  ac_log : exists new, clue_allocation_decisions d' = clue_allocation_decisions d ++ new;
  ac_status : ar_status res = "assigned";
  ac_reason : ar_reason res = Some "selected";
  ac_store : ar_selected_store_id res = cd_store_id selected;
  ac_round : exists dec r lead', dec ∈ clue_allocation_decisions d'
    /\ de_attempt_key dec = attempt_key (ml_lead_key lead) run strategy_type (Some order)
    /\ ar_assignment_round_id res = Some (rn_assignment_round_id r)
    /\ de_assignment_round_id dec = Some (rn_assignment_round_id r)
    /\ clue_assignment_rounds d' !! rn_assignment_round_id r = Some r
    /\ clue_master_leads d' !! ml_lead_key lead = Some lead'
    /\ ml_current_assignment_round_id lead' = Some (rn_assignment_round_id r)
    /\ ml_lifecycle_status lead' = ml_lifecycle_status lead
    /\ ml_normalized_order_status lead' = ml_normalized_order_status lead
    /\ ml_pool_location lead' = Some "store_follow_up_pool"
    /\ ml_order_id lead' = ml_order_id lead
    /\ (clue_assignment_rounds d !! rn_assignment_round_id r = None ->
         opened_round lead dec selected (run_at run) r);
}.

Lemma unowned_logs d d' lead : logs d d' -> unowned d lead -> unowned d' lead.
Proof. by intros [new ->]. Qed.

Lemma centers_ok d d' c : (forall o x, clue_center_orders d !! o = Some x -> co_order_id x = o) ->
  clue_center_orders d' = clue_center_orders d \/ clue_center_orders d' = <[co_order_id c := c]> (clue_center_orders d) ->
  forall o x, clue_center_orders d' !! o = Some x -> co_order_id x = o.
Proof.
  intros Hc [->| ->] o x; [apply Hc|]. destruct (decide (o = co_order_id c)) as [->|Hne].
  - rewrite lookup_insert_eq. by intros [= <-].
  - rewrite lookup_insert_ne by done. apply Hc.
Qed.

(** A consistent database with the lead's row and rounds of [d0], and good centers. *)
Lemma follow_ok_projected d0 d' : follow_ok d0 ->
  clue_assignment_rounds d' = clue_assignment_rounds d0 -> clue_master_leads d' = clue_master_leads d0 ->
  (forall o x, clue_center_orders d' !! o = Some x -> co_order_id x = o) -> follow_ok d'.
Proof. intros [] E1 E2 E3. split; rewrite ?E1, ?E2; done. Qed.

(** The projected assignment of a round that was there or has just been opened. *)
Lemma assigned_follow_ok d0 d1 d' lead dec selected run r : follow_ok d0 ->
  clue_master_leads d0 !! ml_lead_key lead = Some lead -> unowned d0 lead ->
  strip (default "" (ml_order_id lead)) <> "" ->
  (d1 = d0 /\ clue_assignment_rounds d0 !! rn_assignment_round_id r = Some r
   /\ de_assignment_round_id dec = Some (rn_assignment_round_id r))
  \/ (d1 = put_round r d0 /\ clue_assignment_rounds d0 !! rn_assignment_round_id r = None
      /\ strip (rn_assignment_round_id r) <> "" /\ opened_round lead dec selected (run_at run) r) ->
  assigned_to d1 d' lead r -> follow_ok d' /\ rounds_kept d0 d'
  /\ clue_assignment_rounds d' !! rn_assignment_round_id r = Some r.
Proof.
  intros Hf Hl Hun Hord Hcase [A1 _ _ (lead' & Alead & Ak & Aord & _ & _ & _ & Acur) _ _ (c & Ac)].
  assert (Hcen : forall o x, clue_center_orders d' !! o = Some x -> co_order_id x = o).
  { apply (centers_ok d1 d' c); [|done]. destruct Hcase as [(-> & _)|(-> & _)]; apply (fo_centers d0 Hf). }
  destruct Hcase as [(-> & Hr & _)|(-> & Hnew & Hid & [O1 O2 O3 _ _ _ _])].
  - split_and!; [|by apply kept_same|by rewrite A1].
    apply (follow_ok_projected (put_lead lead' d0)); [by apply (follow_ok_put_lead d0 lead)|done| |done].
    cbn. by rewrite Ak.
  - split_and!; [|..|by rewrite A1; cbn; rewrite lookup_insert_eq].
    + apply (follow_ok_projected (put_lead lead' (put_round r d0))); [|done| |done].
      * apply (follow_ok_new_round d0 lead); try done; rewrite ?O3; [|done].
        rewrite Aord. destruct (ml_order_id lead); [done|]. by destruct Hord.
      * cbn. by rewrite Ak.
    + intros i x Hx. exists x. split; [|reflexivity]. rewrite A1. cbn.
      rewrite lookup_insert_ne; [done|]. intros <-. congruence.
Qed.

Lemma assign_selected_spec d lead binding run config sale hist mode limit cands summary selected ids d' res :
  str_in (run_mode run) SELF_OWNED_EXECUTION_MODES = true -> alloc_ok d -> clue_master_leads d !! ml_lead_key lead = Some lead -> unowned d lead ->
  strip (default "" (ml_order_id lead)) <> "" ->
  assign_selected d lead binding run config sale hist mode limit cands summary selected ids = Ok (d', res) ->
  assign_outcome d d' lead selected run (sc_strategy_type config) (sc_execution_order config) res.
Proof.
  intros Hm Hok Hl Hun Hord. unfold Allocation.assign_selected. cbv zeta.
  match goal with |- context [Allocation.record_decision ?h d lead ?b run ?st ?o ?s ?rs ?sn ?sel] =>
    destruct (Allocation.record_decision h d lead b run st o s rs sn sel) as [[d1 dec]|] eqn:Hrec; [|done] end.
  cbn [result_bind].
  apply record_decision_spec in Hrec as (Hlogs & Hlog & Hin & Hkey);
    [|done|intros x [= <-]; apply assignment_round_id_named].
  pose proof (logs_ok _ _ Hlogs Hlog Hok) as [Hf1 Hp1 Hg1].
  destruct (ensure_selected_round d1 lead binding dec selected run) as [[d2 r]|] eqn:Hens; [|done].
  cbn [result_bind]. intros [= <- <-].
  apply ensure_selected_round_spec in Hens; [|done|done|done].
  assert (Hpool2 : pool_ok d2) by (destruct Hens as [(-> & _)|(-> & _)]; [done|by apply (pool_ok_tables d1)]).
  pose proof (project_self_owned_spec d2 lead r selected (run_cycle run) (run_at run) Hpool2) as Has.
  set (d3 := project_self_owned_assignment _ _ _ _ _ _) in *.
  destruct Hlogs as [new ->].
  destruct (assigned_follow_ok _ d2 d3 lead dec selected run r Hf1 Hl Hun Hord Hens Has) as (Hf3 & Hk3 & Hr3).
  assert (Hsame : clue_follow_up_records d2 = clue_follow_up_records d
    /\ clue_allocation_decisions d2 = clue_allocation_decisions d ++ new
    /\ clue_master_leads d2 = clue_master_leads d) by (destruct Hens as [(-> & _)|(-> & _)]; done).
  destruct Hsame as (S1 & S2 & S3).
  destruct Has as [A1 A2 A3 (lead' & Alead & Ak & Aord & Apool & Alc & Ans & Acur) A5 A6 A7].
  split; [|exact Hk3|by rewrite A2|exists new; by rewrite A3|done|done|done|].
  - split; [done|done|]. eapply log_ok_tables; [|exact Hg1]. by rewrite A3, S2.
  - exists dec, r, lead'. split_and!; try done.
    + by rewrite A3, S2.
    + by destruct Hens as [(_ & _ & ?)|(_ & _ & _ & [])].
    + by rewrite Alead, lookup_insert_eq.
    + intros Hnone. destruct Hens as [(-> & Hx & _)|(_ & _ & _ & ?)]; [|done]. cbn in Hx. congruence.
Qed.

Lemma send_spec d lead binding run reason snapshot st order ids d' res :
  str_in (run_mode run) SELF_OWNED_EXECUTION_MODES = true -> alloc_ok d ->
  clue_master_leads d !! ml_lead_key lead = Some lead -> unowned d lead ->
  send_to_headquarters d lead binding run reason snapshot st order ids = Ok (d', res) ->
  alloc_ok d' /\ exists dec new d1, d1 = d <| clue_allocation_decisions := clue_allocation_decisions d ++ new |>
    /\ dec ∈ clue_allocation_decisions d1 /\ de_attempt_key dec = attempt_key (ml_lead_key lead) run st order
    /\ sent_to_headquarters d1 d' lead (de_decision_id dec)
    /\ res = MkAllocation (ml_lead_key lead) "headquarters" (de_reason dec) None None (ids ++ [de_decision_id dec]).
Proof.
  intros Hm Hok Hl Hun. unfold Allocation.send_to_headquarters.
  destruct (Allocation.record_decision _ _ _ _ _ _ _ _ _ _ _) as [[d1 dec]|] eqn:Hrec; [|done]. cbn [result_bind].
  apply record_decision_spec in Hrec as ([new ->] & Hlog & Hin & Hkey); [|done|done].
  destruct (Allocation.project_headquarters _ _ _ _ _ _) as [d2|] eqn:Hproj; [|done].
  cbn [result_bind]. intros [= <- <-].
  apply project_headquarters_spec in Hproj as [Hok2 Hsent]; [|by apply (logs_ok d); [by eexists|..]|done|done].
  split; [done|]. by exists dec, new, (d <| clue_allocation_decisions := clue_allocation_decisions d ++ new |>).
Qed.

(** ** The strategies *)

Definition applies (start_after : option Z) (c : StrategyConfig) : bool :=
  sc_enabled c && negb (match start_after with Some o => sc_execution_order c <=? o | None => false end).

(** The candidates of a strategy, and the one it selects. *)
Definition evaluated (lead : ClueMasterLead) (stores : list DimStore)
    (score_of : string -> option StoreScoreSnapshot) (sale : sale_store_evidence) (hist : list string)
    (mode : bool) (c : StrategyConfig) : list candidate * option string * candidate_summary :=
  strategy_candidates haversine_km round6 (sc_strategy_type c) lead sale stores score_of hist
    (strategy_distance repr_of to_float (sc_strategy_type c) (sc_params c)) mode.

Inductive strategies_end (configs : list StrategyConfig) (d : cluedb) (lead : ClueMasterLead)
    (binding : ClueLeadRuleVersionBinding) (run : allocation_run) (stores : list DimStore)
    (score_of : string -> option StoreScoreSnapshot) (sale : sale_store_evidence) (hist : list string)
    (mode : bool) (start : option Z) (d' : cluedb) (res : AllocationResult) : Prop :=
| end_selected pre c post sel d1 cands reason summary ids :
    configs = pre ++ c :: post -> applies start c = true ->
    evaluated lead stores score_of sale hist mode c = (cands, reason, summary) ->
    selected_candidate cands = Some sel ->
    (forall x, x ∈ pre -> applies start x = true ->
       selected_candidate (evaluated lead stores score_of sale hist mode x).1.1 = None) ->
    logs d d1 -> (log_ok d -> log_ok d1) ->
    assign_selected d1 lead binding run c sale hist mode
      (strategy_distance repr_of to_float (sc_strategy_type c) (sc_params c)) cands summary sel ids = Ok (d', res) ->
    strategies_end configs d lead binding run stores score_of sale hist mode start d' res
| end_headquarters d1 snapshot ids :
    (forall x, x ∈ configs -> applies start x = true ->
       selected_candidate (evaluated lead stores score_of sale hist mode x).1.1 = None) ->
    logs d d1 -> (log_ok d -> log_ok d1) ->
    send_to_headquarters d1 lead (Some binding) run "no_candidate" snapshot "allocation_finalization" None ids
      = Ok (d', res) ->
    strategies_end configs d lead binding run stores score_of sale hist mode start d' res.

Lemma strategies_end_cons c configs d d1 lead binding run stores score_of sale hist mode start d' res :
  (applies start c = true -> selected_candidate (evaluated lead stores score_of sale hist mode c).1.1 = None) ->
  logs d d1 -> (log_ok d -> log_ok d1) ->
  strategies_end configs d1 lead binding run stores score_of sale hist mode start d' res ->
  strategies_end (c :: configs) d lead binding run stores score_of sale hist mode start d' res.
Proof.
  intros Hc Hl Hlo [pre x post sel d2 cands reason summary ids -> Ha He Hs Hpre Hl2 Hlo2 Has|d2 sn ids Hall Hl2 Hlo2 Hsend].
  - apply (end_selected _ _ _ _ _ _ _ _ _ _ _ _ _ (c :: pre) x post sel d2 cands reason summary ids);
      [done|done|done|done| |by transitivity d1|auto|done].
    intros y [->|Hy]%elem_of_cons; auto.
  - apply (end_headquarters _ _ _ _ _ _ _ _ _ _ _ _ _ d2 sn ids); [|by transitivity d1|auto|done]. intros y [->|Hy]%elem_of_cons; auto.
Qed.

Lemma run_strategies_spec configs d lead binding run stores score_of sale hist mode start ids d' res :
  str_in (run_mode run) SELF_OWNED_EXECUTION_MODES = true ->
  run_strategies configs d lead binding run stores score_of sale hist mode start ids = Ok (d', res) ->
  strategies_end configs d lead binding run stores score_of sale hist mode start d' res.
Proof.
  intros Hm. revert d ids. induction configs as [|c configs IH]; intros d ids H; cbn [Allocation.run_strategies] in H.
  { eapply end_headquarters; [by intros x ?%elem_of_nil|reflexivity|done|exact H]. }
  destruct (match start with Some o => sc_execution_order c <=? o | None => false end) eqn:Hst.
  { eapply (strategies_end_cons c configs d d); [|reflexivity|done|by eapply IH].
    unfold applies. rewrite Hst, andb_false_r. done. }
  destruct (sc_enabled c) eqn:Hen; cbn [negb] in H.
  2:{ destruct (Allocation.record_decision _ _ _ _ _ _ _ _ _ _ _) as [[d1 dec]|] eqn:Hrec; [|done].
      apply record_decision_spec in Hrec as (Hl & Hlo & _); [|done|done].
      eapply (strategies_end_cons c configs d d1); [|done|done|by eapply IH]. unfold applies. by rewrite Hen. }
  fold (evaluated lead stores score_of sale hist mode c) in H.
  destruct (evaluated lead stores score_of sale hist mode c) as [[cands reason] summary] eqn:Hev.
  destruct (selected_candidate cands) as [sel|] eqn:Hsel.
  - apply (end_selected _ _ _ _ _ _ _ _ _ _ _ _ _ [] c configs sel d cands reason summary ids);
      [done| |done|done|by intros x ?%elem_of_nil|reflexivity|done|done].
    unfold applies. by rewrite Hen, Hst.
  - destruct (Allocation.record_decision _ _ _ _ _ _ _ _ _ _ _) as [[d1 dec]|] eqn:Hrec; [|done].
    apply record_decision_spec in Hrec as (Hl & Hlo & _); [|done|done].
    eapply (strategies_end_cons c configs d d1); [|done|done|by eapply IH]. by rewrite Hev.
Qed.

(** ** One lead *)

Lemma not_owned d lead : follow_ok d -> clue_master_leads d !! ml_lead_key lead = Some lead ->
  current_self_owned_round d lead = None -> unowned d lead.
Proof.
  intros Hok Hl Hnone i r Hr Ha Hk. destruct (fo_current d Hok i r Hr Ha) as (k & l & Hk' & Hl' & Hc & _).
  assert (l = lead) as -> by congruence. destruct (fo_rounds d Hok _ _ Hr) as [_ Hne].
  unfold current_self_owned_round in Hnone. rewrite Hc, has_text_Some in Hnone by (intros ->; done).
  cbn [mbind option_bind] in Hnone. unfold lock_clue_assignment_round_for_update, str_eqb in Hnone.
  rewrite bool_decide_false, Hr in Hnone by done. unfold is_active_formal in Ha. tests.
  by match goal with E : rn_execution_mode r = _ |- _ => rewrite E in Hnone end.
Qed.

Context {R : Type} `{RuleBinder R}.

#[local] Notation allocate_bound := (allocate_bound repr_of hexdigest isoformat to_float haversine_km round6 coord_json float_json).

Definition allocate := allocate_lead repr_of hexdigest isoformat terminal_evidence to_float haversine_km round6
  coord_json float_json.

Definition run_of (execution_mode : string) (cycle actor : option string) (now : instant)
    (transition : option string) (override : option bool) : allocation_run :=
  MkRun (strip execution_mode) (clean cycle) (text_or (clean actor) "manual") now (clean transition) override.

(** How a call that returns goes. *)
Inductive allocation_outcome (inputs : allocation_inputs) (rules : R) (d : cluedb) (lead : ClueMasterLead)
    (run : allocation_run) (start : option string) (terminal : option TerminalEvidence)
  : R -> cluedb -> AllocationResult -> Prop :=
| out_terminal d' lead' :
    refreshed terminal_evidence d lead (run_at run) terminal (d', lead', true) ->
    allocation_outcome inputs rules d lead run start terminal rules d' (skipped lead' "order_already_terminal")
| out_inactive :
    allocation_outcome inputs rules d lead run start terminal rules d (skipped lead "lead_not_active")
| out_current r : current_self_owned_round d lead = Some r ->
    allocation_outcome inputs rules d lead run start terminal rules d
      (MkAllocation (ml_lead_key lead) "assigned" (Some "current_self_owned_round_exists")
         (rn_assigned_store_id r) (Some (rn_assignment_round_id r))
         (if has_text (rn_allocation_decision_id r) then [default "" (rn_allocation_decision_id r)] else []))
| out_completed dec d' : current_self_owned_round d lead = None -> dec ∈ clue_allocation_decisions d ->
    project_headquarters d lead (run_at run) dec = Ok d' ->
    allocation_outcome inputs rules d lead run start terminal rules d'
      (MkAllocation (ml_lead_key lead) "headquarters" (de_reason dec) None None [de_decision_id dec])
| out_unbound snapshot d' res : current_self_owned_round d lead = None ->
    send_to_headquarters d lead None run "rule_version_unavailable" snapshot "rule_version_resolution" None []
      = Ok (d', res) ->
    allocation_outcome inputs rules d lead run start terminal rules d' res
| out_bound rules1 binding d' res : current_self_owned_round d lead = None ->
    ml_lifecycle_status lead = "active" -> ml_normalized_order_status lead = "active" ->
    bind_lead_rule_version rules (ml_lead_key lead) (ml_anchor_store_id lead) (ml_anchor_city_code lead)
      = Ok (rules1, binding) ->
    allocate_bound inputs d lead binding run start = Ok (d', res) ->
    allocation_outcome inputs rules d lead run start terminal rules1 d' res.

Lemma allocate_outcome inputs rules d key mode cycle actor now start transition override terminal rules' d' res :
  alloc_ok d ->
  allocate inputs rules d key mode cycle actor now start transition override terminal = Ok (rules', d', res) ->
  exists lead, clue_master_leads d !! ml_lead_key lead = Some lead /\ ml_lead_key lead = strip key
    /\ str_in (strip mode) SELF_OWNED_EXECUTION_MODES = true
    /\ allocation_outcome inputs rules d lead (run_of mode cycle actor now transition override) start terminal
         rules' d' res.
Proof.
  intros [Hf Hp Hg]. unfold allocate, allocate_lead.
  destruct (blank key); [done|]. destruct (blank mode); [done|].
  destruct (str_in (strip mode) SELF_OWNED_EXECUTION_MODES) eqn:Hmode; [|done]. cbn [negb]. cbv zeta.
  fold (run_of mode cycle actor now transition override).
  destruct (clue_master_leads d !! strip key) as [lead|] eqn:Hl0; [|done].
  destruct (fo_leads d Hf _ _ Hl0) as [Hkey _]. rewrite <- Hkey in Hl0.
  intros Hres. exists lead. split; [done|]. split; [done|]. split; [done|]. revert Hres.
  pose proof (refresh_spec hexdigest isoformat terminal_evidence d lead now terminal Hf Hl0) as Hrefr.
  destruct (refresh_terminal_evidence_for_locked_lead _ _ _ _ _ _ _) as [[d1 lead1] b].
  destruct b; [intros [= <- <- <-]; by apply out_terminal|]. inversion Hrefr; subst d1 lead1. clear Hrefr.
  destruct (str_eqb (ml_lifecycle_status lead) "active") eqn:E1; cbn [negb orb];
    [|intros [= <- <- <-]; apply out_inactive].
  destruct (str_eqb (ml_normalized_order_status lead) "active") eqn:E2; cbn [negb orb];
    [|intros [= <- <- <-]; apply out_inactive]. tests.
  destruct (opt_is _ _ && _); [done|].
  destruct (current_self_owned_round d lead) as [r|] eqn:Hcur; [intros [= <- <- <-]; by apply out_current|].
  destruct (decision_of d _) as [dec|] eqn:Hdec.
  - destruct (Allocation.project_headquarters _ _ _ _ _ _) as [d2|] eqn:Hproj; [|done]. intros [= <- <- <-].
    apply out_completed; [done| |done]. apply List.find_some in Hdec as [Hin _]. by apply list_elem_of_In.
  - destruct (bind_lead_rule_version _ _ _ _) as [[rules1 binding]|e] eqn:Hb.
    + destruct (Allocation.allocate_bound _ _ _ _ _ _ _ _ _ _ _ _ _ _) as [[d2 r2]|] eqn:Hab; [|done].
      intros [= <- <- <-]. by eapply out_bound.
    + destruct e as [| | | |cls msg]; try done. destruct (str_eqb cls "RuleResolutionError"); [|done].
      destruct (Allocation.send_to_headquarters _ _ _ _ _ _ _ _ _ _ _) as [[d2 r2]|] eqn:Hs; [|done].
      intros [= <- <- <-]. by eapply out_unbound.
Qed.

(** What every call keeps. *)
Record alloc_effect (d d' : cluedb) : Prop := MkEffect {
  ef_ok : alloc_ok d';
  ef_kept : rounds_kept d d';
  ef_records : clue_follow_up_records d' = clue_follow_up_records d;
  ef_log : exists new, clue_allocation_decisions d' = clue_allocation_decisions d ++ new;
}.

Lemma sent_effect d d1 d' new lead id : d1 = d <| clue_allocation_decisions := clue_allocation_decisions d ++ new |> ->
  alloc_ok d' -> sent_to_headquarters d1 d' lead id -> alloc_effect d d'.
Proof.
  intros -> Hok [S1 S2 S3 _ _]. split; [done|by apply kept_same|done|]. by exists new.
Qed.

Lemma send_effect d lead binding run reason snapshot st order ids d' res :
  str_in (run_mode run) SELF_OWNED_EXECUTION_MODES = true -> alloc_ok d ->
  clue_master_leads d !! ml_lead_key lead = Some lead -> unowned d lead ->
  send_to_headquarters d lead binding run reason snapshot st order ids = Ok (d', res) -> alloc_effect d d'.
Proof.
  intros Hm Hok Hl Hun Hs. apply send_spec in Hs as (Hok' & dec & new & d1 & Hd1 & _ & _ & Hsent & _); [|done..].
  by eapply sent_effect.
Qed.

Lemma effect_logs d d1 d' : logs d d1 -> alloc_effect d1 d' -> alloc_effect d d'.
Proof.
  intros [n ->] [H1 H2 H3 [m Hm]]. split; [done|exact H2|done|]. exists (n ++ m). rewrite Hm. cbn. by rewrite app_assoc.
Qed.

Lemma strategies_end_effect configs d lead binding run stores score_of sale hist mode start d' res :
  str_in (run_mode run) SELF_OWNED_EXECUTION_MODES = true ->
  alloc_ok d -> clue_master_leads d !! ml_lead_key lead = Some lead -> unowned d lead ->
  strip (default "" (ml_order_id lead)) <> "" ->
  strategies_end configs d lead binding run stores score_of sale hist mode start d' res -> alloc_effect d d'.
Proof.
  intros Hm Hok Hl Hun Hord [pre c post sel d1 cands reason summary ids _ _ _ _ _ Hlogs Hlog Has
                         |d1 sn ids _ Hlogs Hlog Hs].
  - pose proof (logs_ok _ _ Hlogs Hlog Hok) as Hok1. apply (effect_logs d d1); [done|]. destruct Hlogs as [new ->].
    apply assign_selected_spec in Has as []; [|done..]. by split.
  - pose proof (logs_ok _ _ Hlogs Hlog Hok) as Hok1. apply (effect_logs d d1); [done|]. destruct Hlogs as [new ->].
    by apply send_effect in Hs.
Qed.

(** A bound call goes to headquarters at once or runs the strategies. *)
Lemma allocate_bound_cases inputs d lead binding run start d' res :
  str_in (run_mode run) SELF_OWNED_EXECUTION_MODES = true ->
  allocate_bound inputs d lead binding run start = Ok (d', res) ->
  (exists reason snapshot st order,
     send_to_headquarters d lead (Some binding) run reason snapshot st order [] = Ok (d', res))
  \/ (strip (default "" (ml_order_id lead)) <> ""
      /\ exists start_order,
        strategies_end (strategy_configs (rb_rule_version_snapshot binding)) d lead binding run (in_stores inputs)
          (fun id => if source_store_mode_of (rb_rule_version_snapshot binding) then None
                     else latest_score (in_scores inputs) (rb_rule_version_id binding) id)
          (resolve_sale_store_evidence (in_sale_stores inputs (default "" (ml_order_id lead))))
          (historical_self_owned_store_ids d (ml_lead_key lead))
          (source_store_mode_of (rb_rule_version_snapshot binding)) start_order d' res).
Proof.
  intros Hm. unfold Allocation.allocate_bound. cbv zeta.
  destruct (if source_store_mode_of _ then _ else _) as [reason|]; [intros Hs; left; eauto 10|].
  destruct (has_text (clean (ml_order_id lead))) eqn:Ho; cbn [negb]; [|intros Hs; left; eauto 10].
  intros Hs. right. split.
  { unfold clean in Ho. destruct (ml_order_id lead) as [o|]; [|done].
    cbn [default from_option id]. destruct (str_eqb (strip o) "") eqn:E; [done|]. intros E'. by rewrite E' in E. }
  destruct (match clean start with Some _ => _ | None => _ end) as [so|] eqn:Hso; [|done]. cbn [result_bind] in Hs.
  exists so. by eapply run_strategies_spec.
Qed.

Lemma allocate_effect inputs rules d key mode cycle actor now start transition override terminal rules' d' res :
  alloc_ok d ->
  allocate inputs rules d key mode cycle actor now start transition override terminal = Ok (rules', d', res) ->
  alloc_effect d d'.
Proof.
  intros Hok Hres. pose proof Hok as [Hf Hp Hg].
  assert (Hrefl : alloc_effect d d) by (split; [done|reflexivity|done|exists []; by rewrite app_nil_r]).
  apply allocate_outcome in Hres as (lead & Hl & _ & Hm & Hout); [|done].
  destruct Hout as [d' lead' Hr| |r _|dec d' Hcur Hin Hproj|sn d' res Hcur Hs|rules1 binding d' res Hcur _ _ _ Hab]; try done.
  - inversion Hr as [|d0 lead0 o kind t Ho Hone Hk Hcb Hleads Hrec Hdec Hpool Hev Hfr Hcl]; subst.
    split; [|by apply evolves_kept|done|exists []; by rewrite app_nil_r].
    split; [by apply (evolves_ok d)| |by apply (log_ok_tables d)].
    destruct Hpool as (at_ & reason & d0 & E0 & E1). eapply pool_ok_tables; [exact E1|].
    apply close_pool_ok; [by apply (pool_ok_tables d)|done].
  - apply project_headquarters_spec in Hproj as [Hok' [S1 S2 S3 _ _]]; [|done|done|by apply not_owned].
    split; [done|by apply kept_same|done|]. exists []. by rewrite app_nil_r.
  - apply send_effect in Hs; [done|done|done|done|by apply not_owned].
  - apply allocate_bound_cases in Hab as [(reason & sn & st & o & Hs)|(Hord & so & Hend)]; [| |done].
    + apply send_effect in Hs; [done|done|done|done|by apply not_owned].
    + apply strategies_end_effect in Hend; [done|done|done|done|by apply not_owned|done].
Qed.
End Props.
