(* ===== verification/ClueHistory.v ===== *)
(** * The life of a lead

    Follow-up and allocation together: the invariants hold through any sequence
    of their operations. *)
From S2P Require Import Prelude PyValue Jobs Clues HqPool ClueStatus FollowUp FollowUpInv FollowUpProps Candidates CandidateProps Allocation AllocationProps.
#[local] Open Scope Z_scope.

(** The decisions stay, and the pool stays consistent. *)
Definition side (d d' : cluedb) : Prop :=
  clue_allocation_decisions d' = clue_allocation_decisions d /\ (pool_ok d -> pool_ok d').

#[export] Instance side_refl : Reflexive side.
Proof. by intros d. Qed.
#[export] Instance side_trans : Transitive side.
Proof. intros a b c [H1 H2] [H3 H4]. split; [congruence|auto]. Qed.

Lemma side_same d d' : clue_allocation_decisions d' = clue_allocation_decisions d ->
  clue_headquarters_pool_entries d' = clue_headquarters_pool_entries d -> side d d'.
Proof. intros H1 H2. split; [done|by apply pool_ok_tables]. Qed.

Lemma side_project_current d r now : side d (project_current_round_summary d r now).
Proof. unfold project_current_round_summary. case_match; by apply side_same. Qed.

Lemma side_close_for_reassignment d lead r cause now : side d (close_for_reassignment d lead r cause now).
Proof. unfold close_for_reassignment, project_closed_round. case_match; by apply side_same. Qed.

Lemma side_close_for_terminal d lead r now : side d (close_for_terminal_order d lead r now).
Proof. unfold close_for_terminal_order. cbv zeta. case_match; by apply side_same. Qed.

Lemma side_recalculate_detached d r now : side d (recalculate_detached_round_summary d r now).
Proof. unfold recalculate_detached_round_summary. repeat case_match; by apply side_same. Qed.

Lemma side_recalculate_active d r now : side d (recalculate_active_round_summary d r now).
Proof.
  unfold recalculate_active_round_summary. cbv zeta. etransitivity; [|apply side_project_current]. by apply side_same.
Qed.

Section History.
Context (repr_of : pyval -> string) (hexdigest : string -> string) (isoformat : instant -> string)
  (terminal_evidence : cluedb -> instant -> string -> TerminalEvidence)
  (to_float : Q -> Q) (haversine_km : Z -> Z -> Z -> Z -> Q) (round6 : Q -> Q)
  (coord_json : Z -> pyval) (float_json : Q -> pyval).
Context {R : Type} `{RuleBinder R}.

#[local] Notation refresh := (refresh_terminal_evidence_for_locked_lead hexdigest isoformat terminal_evidence).
#[local] Notation apply_action := (apply_action repr_of hexdigest isoformat terminal_evidence).
#[local] Notation allocate := (allocate repr_of hexdigest isoformat terminal_evidence to_float haversine_km round6 coord_json float_json).
#[local] Notation follow_step := (follow_step repr_of hexdigest isoformat terminal_evidence).

Lemma side_refresh d lead now terminal : follow_ok d -> clue_master_leads d !! ml_lead_key lead = Some lead ->
  side d (refresh d lead now terminal).1.1.
Proof.
  intros Hok Hl. destruct (refresh_spec hexdigest isoformat terminal_evidence d lead now terminal Hok Hl)
    as [_|d' lead' o kind t _ _ _ _ _ _ Hdec (at_ & reason & d0 & E0 & E1) _ _ _]; [reflexivity|].
  split; [done|]. intros Hp. eapply pool_ok_tables; [exact E1|]. apply close_pool_ok; [|done].
  by apply (pool_ok_tables d).
Qed.

Lemma side_apply d order_id round_id result actor note now uuid d' res : follow_ok d ->
  apply_action d order_id round_id result actor note now uuid = Ok (d', res) -> side d d'.
Proof.
  intros Hok. unfold FollowUpProps.apply_action, apply_follow_up_action. cbv zeta.
  destruct (negb _); [by intros [= <- _]|].
  destruct (locked_round_state d round_id) as [[r|] lo] eqn:Hlk; [|by intros [= <- _]].
  destruct (negb _); [by intros [= <- _]|]. destruct lo as [lead|]; [|by intros [= <- _]].
  destruct (locked_round_state_spec _ _ _ _ Hok Hlk) as [_ [_ Hl _]].
  destruct (negb _); [by intros [= <- _]|].
  pose proof (side_refresh d lead now None Hok Hl) as Hs.
  destruct (refresh d lead now None) as [[d1 lead1] closed].
  destruct closed; [by intros [= <- _]|]. destruct (str_in (ml_normalized_order_status lead) _).
  { destruct (negb _); intros [= <- _]; [reflexivity|apply side_close_for_terminal]. }
  destruct (negb _); [by intros [= <- _]|].
  match goal with |- context [insert_record ?f d] => destruct (insert_record_cases f d) as [[-> _]|[-> _]] end; [done|].
  cbn [result_bind]. case_match; intros [= <- _].
  - etransitivity; [|apply side_close_for_reassignment]. by apply side_same.
  - etransitivity; [|apply side_project_current]. by apply side_same.
Qed.

Lemma side_due_step d s id now terminal : follow_ok d ->
  side d (step_due hexdigest isoformat terminal_evidence now terminal (d, s) id).1.
Proof.
  intros Hok. unfold step_due, due_step.
  destruct (locked_round_state d id) as [[r|] [lead|]] eqn:Hlk; try reflexivity.
  destruct (locked_round_state_spec _ _ _ _ Hok Hlk) as [_ [_ Hl _]].
  destruct (negb _); [reflexivity|].
  pose proof (side_refresh d lead now (terminal (rn_order_id r)) Hok Hl) as Hs.
  destruct (refresh d lead now _) as [[d1 lead1] closed].
  destruct closed; [done|]. destruct (str_in (ml_normalized_order_status lead) _); [apply side_close_for_terminal|].
  repeat case_match; cbn [fst]; first [reflexivity | apply side_close_for_reassignment].
Qed.

Lemma side_due_fold ids0 ids d s now terminal : follow_ok d -> covers d terminal ids0 -> ids ⊆ ids0 ->
  side d (foldl (step_due hexdigest isoformat terminal_evidence now terminal) (d, s) ids).1.
Proof.
  revert d s. induction ids as [|id ids IH]; intros d s Hok Hc Hsub; cbn [foldl]; [reflexivity|].
  pose proof (side_due_step d s id now terminal Hok) as Hs.
  pose proof (due_step_effect' hexdigest isoformat terminal_evidence d s id now terminal ids0 Hok Hc ltac:(set_solver)) as Heff.
  destruct (effect_evolves _ _ _ _ _ _ Heff) as [He _].
  destruct (step_due hexdigest isoformat terminal_evidence now terminal (d, s) id) as [d1 s1]. cbn [fst] in Hs, He.
  etransitivity; [exact Hs|]. apply IH; [by apply (evolves_ok d)|by apply (covers_evolves d)|set_solver].
Qed.

Lemma side_follow_step d d' : follow_ok d -> follow_step d d' -> side d d'.
Proof.
  intros Hok Hs. revert Hok.
  destruct Hs as [d0 order_id round_id result actor note now uuid d1 res Ha|d0 now|d0 id actor reason now]; intros Hok.
  - by eapply side_apply.
  - rewrite process_due_fold. eapply side_due_fold; [done|by apply due_evidence_covers|done].
  - unfold soft_delete, soft_delete_follow_up_record.
    repeat (case_match; cbn [fst]; try reflexivity);
      (etransitivity; [|first [apply side_recalculate_active | apply side_recalculate_detached]]); by apply side_same.
Qed.

(** One call of either component. *)
Inductive clue_step : R * cluedb -> R * cluedb -> Prop :=
| step_follow rules d d' : follow_step d d' -> clue_step (rules, d) (rules, d')
| step_allocate inputs rules d key mode cycle actor now start transition override terminal rules' d' res :
    allocate inputs rules d key mode cycle actor now start transition override terminal = Ok (rules', d', res) ->
    clue_step (rules, d) (rules', d').

Lemma clue_step_effect st st' : clue_step st st' -> alloc_ok st.2 ->
  alloc_ok st'.2 /\ rounds_kept st.2 st'.2
  /\ (exists new, clue_allocation_decisions st'.2 = clue_allocation_decisions st.2 ++ new).
Proof.
  intros [rules d d' Hf|inputs rules d key mode cycle actor now start transition override terminal rules' d' res Ha] Hok;
    cbn [snd] in *.
  - destruct Hok as [H1 H2 H3]. destruct (side_follow_step _ _ H1 Hf) as [S1 S2].
    pose proof (follow_step_evolves _ _ _ _ _ _ H1 Hf) as He. split_and!; [|by apply evolves_kept|].
    + split; [by apply (evolves_ok d)|auto|by apply (log_ok_tables d)].
    + exists []. by rewrite app_nil_r.
  - apply allocate_effect in Ha as [E1 E2 _ E4]; done.
Qed.

Lemma clue_steps_effect st st' : rtc clue_step st st' -> alloc_ok st.2 ->
  alloc_ok st'.2 /\ rounds_kept st.2 st'.2
  /\ (exists new, clue_allocation_decisions st'.2 = clue_allocation_decisions st.2 ++ new).
Proof.
  induction 1 as [st|st st1 st' Hs _ IH]; intros Hok.
  { split_and!; [done|reflexivity|]. exists []. by rewrite app_nil_r. }
  destruct (clue_step_effect _ _ Hs Hok) as (Hok1 & K1 & n & En).
  destruct (IH Hok1) as (Hok2 & K2 & m & Em). split_and!; [done|by etransitivity|].
  exists (n ++ m). by rewrite Em, En, app_assoc.
Qed.

(** C10: ownership is exclusive, closing is final and the log only grows.  Through
    any sequence of allocations, follow-up actions, due runs and deletions from a
    consistent database, every active formal round is the current round of its
    lead, so that a lead never has two owners; a closed round never becomes active
    again, and no round changes its lead, order or store; at most one headquarters
    entry of a lead is active; and the decision log is append-only with one
    decision per attempt. *)
Theorem clue_history rules d rules' d' (Hok : alloc_ok d) (Hsteps : rtc clue_step (rules, d) (rules', d')) :
  alloc_ok d'
  /\ (forall i j r s, clue_assignment_rounds d' !! i = Some r -> clue_assignment_rounds d' !! j = Some s ->
       is_active_formal r = true -> is_active_formal s = true -> rn_lead_key r = rn_lead_key s -> i = j)
  /\ (forall i r, clue_assignment_rounds d !! i = Some r ->
       exists r', clue_assignment_rounds d' !! i = Some r'
         /\ rn_lead_key r' = rn_lead_key r /\ rn_order_id r' = rn_order_id r
         /\ rn_assigned_store_id r' = rn_assigned_store_id r
         /\ (is_active_formal r = false -> is_active_formal r' = false))
  /\ (exists new, clue_allocation_decisions d' = clue_allocation_decisions d ++ new)
  /\ NoDup (de_attempt_key <$> clue_allocation_decisions d').
Proof.
  destruct (clue_steps_effect _ _ Hsteps Hok) as (Hok' & Hkept & Hlog). cbn [snd] in *.
  split_and!; [done| | |done|apply Hok'].
  - intros. eapply active_round_unique; eauto. apply Hok'.
  - intros i r Hr. destruct (Hkept i r Hr) as (r' & Hr' & [_ E1 E2 _ E3 E4]).
    exists r'. split_and!; try done. intros Ha. destruct (is_active_formal r'); [|done]. by rewrite E4 in Ha.
Qed.
End History.
