(* ===== verification/AllocationThms.v ===== *)
(** * What an allocation decides

    The choice of [allocate_lead], its idempotence, and the headquarters outcome,
    proved from the cases of AllocationProps. *)
From S2P Require Import Prelude PyValue Jobs Clues HqPool ClueStatus FollowUp FollowUpInv FollowUpProps Candidates CandidateProps Allocation AllocationProps.
#[local] Open Scope Z_scope.

Section Thms.
Context (repr_of : pyval -> string) (hexdigest : string -> string) (isoformat : instant -> string)
  (terminal_evidence : cluedb -> instant -> string -> TerminalEvidence)
  (to_float : Q -> Q) (haversine_km : Z -> Z -> Z -> Z -> Q) (round6 : Q -> Q)
  (coord_json : Z -> pyval) (float_json : Q -> pyval).
Context {R : Type} `{RuleBinder R}.

#[local] Notation allocate := (allocate repr_of hexdigest isoformat terminal_evidence to_float haversine_km round6 coord_json float_json).
#[local] Notation strategies_end := (strategies_end repr_of hexdigest isoformat to_float haversine_km round6 coord_json float_json).
#[local] Notation evaluated := (evaluated repr_of to_float haversine_km round6).
#[local] Notation attempt_key := (attempt_key hexdigest).

(** The scores and the sale store a bound call uses. *)
Definition scores_for (inputs : allocation_inputs) (binding : ClueLeadRuleVersionBinding) (id : string)
  : option StoreScoreSnapshot :=
  if source_store_mode_of (rb_rule_version_snapshot binding) then None
  else latest_score (in_scores inputs) (rb_rule_version_id binding) id.
Definition sale_store_for (inputs : allocation_inputs) (lead : ClueMasterLead) : sale_store_evidence :=
  resolve_sale_store_evidence (in_sale_stores inputs (default "" (ml_order_id lead))).

(** A call that assigns anew ran the strategies of the bound rule. *)
Lemma allocate_selected inputs rules d key mode cycle actor now start transition override terminal rules' d' res :
  alloc_ok d ->
  allocate inputs rules d key mode cycle actor now start transition override terminal = Ok (rules', d', res) ->
  ar_status res = "assigned" -> ar_reason res = Some "selected" ->
  exists lead binding start_order,
    clue_master_leads d !! strip key = Some lead /\ ml_lead_key lead = strip key
    /\ str_in (strip mode) SELF_OWNED_EXECUTION_MODES = true
    /\ ml_lifecycle_status lead = "active" /\ ml_normalized_order_status lead = "active"
    /\ unowned d lead /\ strip (default "" (ml_order_id lead)) <> ""
    /\ bind_lead_rule_version rules (strip key) (ml_anchor_store_id lead) (ml_anchor_city_code lead)
         = Ok (rules', binding)
    /\ strategies_end (strategy_configs (rb_rule_version_snapshot binding)) d lead binding
         (run_of mode cycle actor now transition override) (in_stores inputs) (scores_for inputs binding)
         (sale_store_for inputs lead) (historical_self_owned_store_ids d (ml_lead_key lead))
         (source_store_mode_of (rb_rule_version_snapshot binding)) start_order d' res.
Proof.
  intros Hok Hres Hst Hre. pose proof Hok as [Hf _ _].
  apply allocate_outcome in Hres as (lead & Hl & Hk & Hm & Hout); [|done].
  destruct Hout as [| |r _|dec d' Hcur Hin Hproj|sn d' res Hcur Hs|rules1 binding d' res Hcur Hlc Hns Hb Hab]; try done.
  - apply send_spec in Hs as (_ & dec & _ & _ & _ & _ & _ & _ & ->); [done|done|done|done|by apply not_owned].
  - apply allocate_bound_cases in Hab as [(reason & sn & st & o & Hs)|(Hord & so & Hend)]; [| |done].
    + apply send_spec in Hs as (_ & dec & _ & _ & _ & _ & _ & _ & ->); [done|done|done|done|by apply not_owned].
    + exists lead, binding, so. rewrite <- Hk. split_and!; try done. by apply not_owned.
Qed.

(** What the strategies of a rule chose. *)
Lemma strategies_end_selected configs d lead binding run stores score_of sale hist mode start d' res :
  NoDup (ds_store_id <$> stores) -> str_in (run_mode run) SELF_OWNED_EXECUTION_MODES = true ->
  alloc_ok d -> clue_master_leads d !! ml_lead_key lead = Some lead -> unowned d lead ->
  strip (default "" (ml_order_id lead)) <> "" -> ar_status res = "assigned" ->
  strategies_end configs d lead binding run stores score_of sale hist mode start d' res ->
  exists pre c post cand s,
    configs = pre ++ c :: post /\ applies start c = true
    /\ (forall x, x ∈ pre -> applies start x = true ->
          selected_candidate (evaluated lead stores score_of sale hist mode x).1.1 = None)
    /\ chosen_store haversine_km round6 (sc_strategy_type c) lead sale stores score_of hist
         (strategy_distance repr_of to_float (sc_strategy_type c) (sc_params c)) mode cand s
    /\ assign_outcome hexdigest d d' lead cand run (sc_strategy_type c) (sc_execution_order c) res.
Proof.
  intros Hids Hm Hok Hl Hun Hord Hst [pre c post sel d1 cands reason summary ids -> Ha Hev Hsel Hpre Hlogs Hlog Has
                         |d1 sn ids _ Hlogs Hlog Hs];
    pose proof (logs_ok _ _ Hlogs Hlog Hok) as Hok1; destruct Hlogs as [new ->].
  - pose proof (strategy_selection _ _ _ _ _ _ _ _ _ _ _ _ _ Hids Hev) as Hch. rewrite Hsel in Hch.
    destruct Hch as [_ [s Hch]]. exists pre, c, post, sel, s. split_and!; [done..|].
    apply assign_selected_spec in Has as [? ? ? [more Hmore] ? ? ? ?]; [|done..]. split; try done.
    exists (new ++ more). rewrite Hmore. cbn. by rewrite app_assoc.
  - apply send_spec in Hs as (_ & dec & _ & _ & _ & _ & _ & _ & ->); done.
Qed.

(** C21: whom an allocation picks.  When a call newly assigns a lead, the lead was
    active with an open order and no owner; the store comes from the first enabled
    strategy of the rule version bound to the lead (for good), in execution order and after
    the one to start after, that selects anything; it is a store of the network,
    active and participating, that never owned the lead.  Which store: for the
    sale-store priority the resolved sale store, eligible and within the strategy's
    distance; for the nearby-city strategy in source-store mode the anchor store of
    the lead, without a test of eligibility or distance (no other strategy but the
    sale-store priority selects in that mode); for a city strategy otherwise the
    best ranked of the eligible stores of the lead's city within the distance.
    And it is the store of the current round of the lead when that round is new. *)
Theorem allocation_selects_best inputs rules d key mode cycle actor now start transition override terminal
    rules' d' res
    (Hok : alloc_ok d) (Hstores : NoDup (ds_store_id <$> in_stores inputs))
    (Hres : allocate inputs rules d key mode cycle actor now start transition override terminal
            = Ok (rules', d', res))
    (Hassigned : ar_status res = "assigned") (Hselected : ar_reason res = Some "selected") :
  exists lead binding start_order pre c post cand s,
    clue_master_leads d !! strip key = Some lead /\ ml_lifecycle_status lead = "active"
    /\ ml_normalized_order_status lead = "active" /\ unowned d lead
    /\ bind_lead_rule_version rules (strip key) (ml_anchor_store_id lead) (ml_anchor_city_code lead)
         = Ok (rules', binding)
    /\ (forall store city, bind_lead_rule_version rules' (strip key) store city = Ok (rules', binding))
    /\ strategy_configs (rb_rule_version_snapshot binding) = pre ++ c :: post
    /\ applies start_order c = true
    /\ (let hist := historical_self_owned_store_ids d (strip key) in
        let source_mode := source_store_mode_of (rb_rule_version_snapshot binding) in
        (forall x, x ∈ pre -> applies start_order x = true ->
           selected_candidate (evaluated lead (in_stores inputs) (scores_for inputs binding)
                                 (sale_store_for inputs lead) hist source_mode x).1.1 = None)
        /\ chosen_store haversine_km round6 (sc_strategy_type c) lead (sale_store_for inputs lead) (in_stores inputs)
             (scores_for inputs binding) hist
             (strategy_distance repr_of to_float (sc_strategy_type c) (sc_params c)) source_mode cand s)
    /\ ar_selected_store_id res = Some (ds_store_id s)
    /\ (exists r lead', ar_assignment_round_id res = Some (rn_assignment_round_id r)
         /\ clue_assignment_rounds d' !! rn_assignment_round_id r = Some r
         /\ clue_master_leads d' !! strip key = Some lead'
         /\ ml_current_assignment_round_id lead' = Some (rn_assignment_round_id r)
         /\ ml_pool_location lead' = Some "store_follow_up_pool"
         /\ (clue_assignment_rounds d !! rn_assignment_round_id r = None ->
               rn_lead_key r = Some (strip key) /\ rn_assigned_store_id r = Some (ds_store_id s)
               /\ rn_round_status r = "active_unfollowed")).
Proof.
  eapply allocate_selected in Hres as (lead & binding & so & Hl & Hk & Hm & Hlc & Hns & Hun & Hord & Hb & Hend); [|done..].
  apply strategies_end_selected in Hend
    as (pre & c & post & cand & s & Hcf & Ha & Hpre & Hch & [_ _ _ _ _ _ Hstore Hround]);
    [|done|done|done|by rewrite Hk|done|done|done].
  destruct Hround as (dec & r & lead' & _ & _ & Hr1 & _ & Hr2 & Hl' & Hcur & _ & _ & Hpool & _ & Hnew).
  rewrite Hk in *. exists lead, binding, so, pre, c, post, cand, s. split_and!; try done.
  - intros store city. by eapply bind_stable.
  - by rewrite Hstore, (ch_store _ _ _ _ _ _ _ _ _ _ _ _ Hch).
  - exists r, lead'. split_and!; try done. intros Hn. destruct (Hnew Hn) as [_ O2 _ O4 _ O6 _].
    by rewrite O2, Hk, O4, (ch_store _ _ _ _ _ _ _ _ _ _ _ _ Hch).
Qed.

(** A lead that has a current self-owned round. *)
Lemma allocate_current inputs rules d key mode cycle actor now start transition override terminal lead r :
  follow_ok d -> strip key <> "" -> str_in (strip mode) SELF_OWNED_EXECUTION_MODES = true ->
  clue_master_leads d !! strip key = Some lead ->
  (forall o, ml_order_id lead = Some o -> terminal_kind (match terminal with
     | Some t => Some t | None => terminal_evidence_of terminal_evidence d now o end) = None) ->
  ml_lifecycle_status lead = "active" -> ml_normalized_order_status lead = "active" ->
  ml_pool_location lead = Some "store_follow_up_pool" ->
  ml_current_assignment_round_id lead = Some (rn_assignment_round_id r) ->
  clue_assignment_rounds d !! rn_assignment_round_id r = Some r ->
  str_in (rn_execution_mode r) SELF_OWNED_EXECUTION_MODES = true ->
  allocate inputs rules d key mode cycle actor now start transition override terminal
  = Ok (rules, d, MkAllocation (ml_lead_key lead) "assigned" (Some "current_self_owned_round_exists")
                    (rn_assigned_store_id r) (Some (rn_assignment_round_id r))
                    (if has_text (rn_allocation_decision_id r) then [default "" (rn_allocation_decision_id r)] else [])).
Proof.
  intros Hf Hk Hm Hl Hopen Hlc Hns Hpool Hcur Hr Hmode. unfold AllocationProps.allocate, allocate_lead.
  assert (Hb : blank key = false) by (unfold blank, str_eqb; by rewrite bool_decide_false).
  assert (Hb' : blank mode = false).
  { unfold blank, str_eqb. rewrite bool_decide_false; [done|]. intros E. rewrite E in Hm. done. }
  rewrite Hb, Hb', Hm, Hl. cbn [negb]. cbv zeta.
  assert (Href : refresh_terminal_evidence_for_locked_lead hexdigest isoformat terminal_evidence d lead now terminal
                 = (d, lead, false)).
  { unfold refresh_terminal_evidence_for_locked_lead. destruct (ml_order_id lead) as [o|]; [|done].
    destruct (str_eqb o ""); [done|]. cbv zeta. by rewrite (Hopen o). }
  rewrite Href, Hlc, Hns, Hpool, !str_eqb_refl. cbn [negb orb].
  change (opt_is (Some "store_follow_up_pool") "headquarters_pool") with false. cbn [andb].
  destruct (fo_rounds d Hf _ _ Hr) as [_ Hne].
  unfold current_self_owned_round. rewrite Hcur, has_text_Some by (intros E; rewrite E in Hne; done).
  cbn [mbind option_bind]. unfold lock_clue_assignment_round_for_update, str_eqb at 1.
  by rewrite bool_decide_false, Hr, Hmode by done.
Qed.

(** Allocating again changes nothing.  After a call that opened a round, any
    later call for the lead, in either mode and with any arguments, returns that
    round and its store and leaves the database and the rules as they are, as long
    as no evidence closes the order. *)
Lemma allocation_idempotent inputs rules d key mode cycle actor now start transition override terminal
    rules' d' res round_id inputs2 rules2 key2 mode2 cycle2 actor2 now2 start2 transition2 override2 terminal2
    (Hok : alloc_ok d) (Hstores : NoDup (ds_store_id <$> in_stores inputs))
    (Hres : allocate inputs rules d key mode cycle actor now start transition override terminal
            = Ok (rules', d', res))
    (Hassigned : ar_status res = "assigned") (Hselected : ar_reason res = Some "selected")
    (Hround : ar_assignment_round_id res = Some round_id) (Hnew : clue_assignment_rounds d !! round_id = None)
    (Hkey : strip key2 = strip key) (Hmode : str_in (strip mode2) SELF_OWNED_EXECUTION_MODES = true)
    (Hopen : forall o, terminal_kind (match terminal2 with
               | Some t => Some t | None => terminal_evidence_of terminal_evidence d' now2 o end) = None) :
  exists ids,
    allocate inputs2 rules2 d' key2 mode2 cycle2 actor2 now2 start2 transition2 override2 terminal2
    = Ok (rules2, d', MkAllocation (strip key) "assigned" (Some "current_self_owned_round_exists")
                        (ar_selected_store_id res) (Some round_id) ids).
Proof.
  eapply allocate_selected in Hres as (lead & binding & so & Hl & Hk & Hm & Hlc & Hns & Hun & Hord & Hb & Hend); [|done..].
  apply strategies_end_selected in Hend
    as (pre & c & post & cand & s & _ & _ & _ & _ & [[Hf' _ Hg'] _ _ _ _ _ Hstore Hr]);
    [|done|done|done|by rewrite Hk|done|done|done].
  destruct Hr as (dec & r & lead' & Hdec & _ & Hr1 & _ & Hr2 & Hl' & Hcur & Hlc' & Hns' & Hpool & _ & Hopened).
  rewrite Hr1 in Hround. injection Hround as <-. destruct (Hopened Hnew) as [_ _ _ O4 O5 _ _].
  destruct (fo_leads d' Hf' _ _ Hl') as [Hkl Hne]. rewrite Hk in *.
  eexists. rewrite (allocate_current _ _ _ _ _ _ _ _ _ _ _ _ lead' r); try done.
  - by rewrite Hkl, O4, Hstore.
  - by rewrite Hkey, <- strip_idem.
  - by rewrite Hkey.
  - by rewrite Hlc', Hlc.
  - by rewrite Hns', Hns.
  - rewrite O5. by apply (lo_modes d' Hg').
Qed.

(** A headquarters projection, as seen from a call. *)
Record at_headquarters (d d' : cluedb) (key : string) (res : AllocationResult) : Prop := MkAtHq {
  ah_ok : alloc_ok d';
  ah_rounds : clue_assignment_rounds d' = clue_assignment_rounds d;
  ah_result : ar_selected_store_id res = None /\ ar_assignment_round_id res = None;
  ah_lead : exists lead, clue_master_leads d' !! key = Some lead /\ ml_allocation_state lead = "headquarters"
    /\ ml_pool_location lead = Some "headquarters_pool" /\ ml_current_assignment_round_id lead = None
    /\ unowned d' lead;
  ah_entry : exists e dec ids, get_active_headquarters_pool_entry d' key = Some e
    /\ hp_source_decision_id e = Some (de_decision_id dec) /\ dec ∈ clue_allocation_decisions d'
    /\ ar_reason res = de_reason dec /\ ar_decision_ids res = ids ++ [de_decision_id dec];
}.

Lemma sent_at_headquarters d d1 d' lead dec ids : alloc_ok d' -> logs d d1 -> unowned d lead ->
  dec ∈ clue_allocation_decisions d1 -> sent_to_headquarters d1 d' lead (de_decision_id dec) ->
  at_headquarters d d' (ml_lead_key lead)
    (MkAllocation (ml_lead_key lead) "headquarters" (de_reason dec) None None (ids ++ [de_decision_id dec])).
Proof.
  intros Hok [new ->] Hun Hin [S1 _ S3 (l & Hl & L1 & L2 & L3 & _) (e & He & Hsrc)].
  split; [done|done|done| |].
  - exists l. split_and!; try done. destruct (fo_leads d' (ao_follow d' Hok) _ _ Hl) as [Hk _].
    intros i r. rewrite S1, Hk. apply Hun.
  - exists e, dec, ids. split_and!; try done. by rewrite S3.
Qed.

Lemma send_at_headquarters d lead binding run reason snapshot st order ids d' res :
  str_in (run_mode run) SELF_OWNED_EXECUTION_MODES = true -> alloc_ok d ->
  clue_master_leads d !! ml_lead_key lead = Some lead -> unowned d lead ->
  send_to_headquarters hexdigest isoformat d lead binding run reason snapshot st order ids = Ok (d', res) ->
  at_headquarters d d' (ml_lead_key lead) res.
Proof.
  intros Hm Hok Hl Hun Hs. apply send_spec in Hs as (Hok' & dec & new & d1 & -> & Hin & _ & Hsent & ->); [|done..].
  by eapply sent_at_headquarters; [|by exists new| | |].
Qed.

Lemma at_headquarters_logs d d1 d' key res : logs d d1 -> at_headquarters d1 d' key res ->
  at_headquarters d d' key res.
Proof. intros [new ->] []. by split. Qed.

(** An allocation that finds no store parks the lead at headquarters.  The lead
    is in the headquarters pool with no current round and no owner; it has an active
    pool entry, which names the last decision of the result, and that decision, with
    the reason returned, is in the log; the rounds are untouched and the database
    stays consistent. *)
Lemma headquarters_outcome inputs rules d key mode cycle actor now start transition override terminal
    rules' d' res (Hok : alloc_ok d)
    (Hres : allocate inputs rules d key mode cycle actor now start transition override terminal
            = Ok (rules', d', res))
    (Hstatus : ar_status res = "headquarters") :
  at_headquarters d d' (strip key) res.
Proof.
  pose proof Hok as [Hf _ _]. apply allocate_outcome in Hres as (lead & Hl & <- & Hm & Hout); [|done].
  destruct Hout as [| |r _|dec d' Hcur Hin Hproj|sn d' res Hcur Hs|rules1 binding d' res Hcur Hlc Hns Hb Hab]; try done.
  - apply project_headquarters_spec in Hproj as [Hok' Hsent]; [|done|done|by apply not_owned].
    apply (sent_at_headquarters d d d' lead dec []); [done|reflexivity|by apply not_owned|done|done].
  - apply send_at_headquarters in Hs; [done|done|done|done|by apply not_owned].
  - apply allocate_bound_cases in Hab as [(reason & sn & st & o & Hs)|(Hord & so & Hend)]; [| |done].
    + apply send_at_headquarters in Hs; [done|done|done|done|by apply not_owned].
    + destruct Hend as [pre c post sel d1 cands reason summary ids _ _ _ _ _ Hlogs Hlog Has|d1 sn ids _ Hlogs Hlog Hs];
        pose proof (logs_ok _ _ Hlogs Hlog Hok) as Hok1;
        apply (at_headquarters_logs d d1); try done; destruct Hlogs as [new ->].
      * apply assign_selected_spec in Has as []; [congruence|done|done|done|exact (not_owned d lead Hf Hl Hcur)|done].
      * apply send_at_headquarters in Hs; [done|done|done|done|exact (not_owned d lead Hf Hl Hcur)].
Qed.
End Thms.
