(* ===== verification/RuleVersions.v ===== *)
(** * Allocation rules and their versions

    apps/worker/clue_rule_versions.py: store groups, logical rules by scope, the
    draft, published and retired versions of a rule with their three strategies,
    the resolution of the rule of a lead and its immutable binding.  A generated
    identifier is an argument.  A raised error leaves the tables to the rollback
    of the caller's transaction, so an operation that raises has no state. *)
From S2P Require Import Prelude PyValue Jobs Clues HqPool Candidates Allocation.
#[local] Open Scope Z_scope.

Definition SCOPE_TYPES : list string := ["anchor_store"; "city"; "global"; "store_group"].
Definition STRATEGY_TYPES : list string := ["sales_store_priority"; "nearby_city_optimization"; "city_fallback"].
Definition DISTANCE_STRATEGY_TYPES : list string := ["sales_store_priority"; "nearby_city_optimization"].
Definition MAX_SLA_HOURS : Z := 168.
Definition MAX_PROTECTION_DAYS : Z := 365.
Definition MAX_LOOKBACK_DAYS : Z := 365.
Definition MAX_MIN_SAMPLES : Z := 10000.
Definition MAX_DISTANCE_KM : Q := 1000.

Definition not_found (msg : string) : exn := NamedError "RuleNotFoundError" msg.
Definition invalid (msg : string) : exn := NamedError "RuleValidationError" msg.
Definition immutable (msg : string) : exn := NamedError "RuleImmutableError" msg.
Definition unresolved (msg : string) : exn := NamedError "RuleResolutionError" msg.
Definition integrity (table : string) : exn := NamedError "IntegrityError" table.

(** ** Tables *)

Record ClueStoreGroup := MkGroup {
  sg_store_group_id : string;
  sg_group_name : string;
  sg_created_by : option string;
  sg_updated_at : instant;
}.

Record ClueAllocationRule := MkRule {
  ru_rule_id : string;
  ru_rule_name : string;
  ru_scope_type : string;
  ru_scope_key : string;
  ru_scope_city_code : option string;
  ru_scope_store_group_id : option string;
  ru_scope_anchor_store_id : option string;
  ru_created_by : option string;
}.

Record ClueAllocationRuleVersion := MkVersion {
  rv_rule_version_id : string;
  rv_rule_id : string;
  rv_version_no : Z;
  rv_status : string;
  rv_auto_expiry_enabled : pyval;
  rv_first_follow_up_sla_hours : pyval;
  rv_protection_days : pyval;
  rv_conversion_weight : option pydec;
  rv_follow_24h_weight : option pydec;
  rv_lookback_days : pyval;
  rv_min_samples : pyval;
  rv_created_by : pyval;
  rv_updated_by : pyval;
  rv_published_by : option string;
  rv_retired_by : option string;
  rv_published_at : option instant;
  rv_retired_at : option instant;
  rv_updated_at : instant;
}.

Record ClueAllocationStrategyConfig := MkConfig {
  cf_strategy_config_id : string;
  cf_rule_version_id : string;
  cf_strategy_type : string;
  cf_enabled : pyval;
  cf_execution_order : pyval;
  cf_params_json : pydict;
}.

(** Members are pairs of a group and a store; [dim_store_ids] are the known stores. *)
Record ruledb := MkRuleDb {
  dim_store_ids : gset string;
  clue_store_groups : gmap string ClueStoreGroup;
  clue_store_group_members : list (string * string);
  clue_allocation_rules : gmap string ClueAllocationRule;
  clue_allocation_rule_versions : gmap string ClueAllocationRuleVersion;
  clue_allocation_strategy_configs : list ClueAllocationStrategyConfig;
  clue_lead_rule_version_bindings : gmap string ClueLeadRuleVersionBinding;
}.

#[export] Instance eta_ClueStoreGroup : Eta ClueStoreGroup := fun x =>
  MkGroup (sg_store_group_id x) (sg_group_name x) (sg_created_by x) (sg_updated_at x).
#[export] Instance eta_ClueAllocationRuleVersion : Eta ClueAllocationRuleVersion := fun x =>
  MkVersion (rv_rule_version_id x) (rv_rule_id x) (rv_version_no x) (rv_status x)
    (rv_auto_expiry_enabled x) (rv_first_follow_up_sla_hours x) (rv_protection_days x)
    (rv_conversion_weight x) (rv_follow_24h_weight x) (rv_lookback_days x) (rv_min_samples x)
    (rv_created_by x) (rv_updated_by x) (rv_published_by x) (rv_retired_by x) (rv_published_at x)
    (rv_retired_at x) (rv_updated_at x).
#[export] Instance eta_ruledb : Eta ruledb := fun x =>
  MkRuleDb (dim_store_ids x) (clue_store_groups x) (clue_store_group_members x)
    (clue_allocation_rules x) (clue_allocation_rule_versions x) (clue_allocation_strategy_configs x)
    (clue_lead_rule_version_bindings x).

Definition values {A} (m : gmap string A) : list A := (map_to_list m).*2.

(** ** Text *)

(** [_required_text] *)
Definition required_text (value : option string) (name : string) : result string :=
  match clean value with
  | Some s => Ok s
  | None => Raise (invalid (name +:+ " is required"))
  end.

(** [_canonical_city_code] *)
Definition canonical_city_code (value : option string) : option string :=
  match clean value with
  | None => None
  | Some city => Some (if endswith "市" city then text (take (length (chars city) - 3)%nat (chars city)) else city)
  end.

(** ** Store groups *)

(** [[_required_text(s) for s in ids]] *)
Fixpoint required_all (ids : list string) : result (list string) :=
  match ids with
  | [] => Ok []
  | s :: ids' =>
      let* t := required_text (Some s) "member_store_id" in
      let* ts := required_all ids' in
      Ok (t :: ts)
  end.

(** [_normalized_store_ids] *)
Definition normalized_store_ids (member_store_ids : list string) : result (list string) :=
  let* normalized := required_all member_store_ids in
  let* _ := raise_if (negb (bool_decide (NoDup normalized))) (invalid "store group members must be unique") in
  Ok (merge_sort String.le normalized).

(** [_validate_store_ids] *)
Definition validate_store_ids (d : ruledb) (store_ids : list string) : result unit :=
  let missing := List.filter (fun s => bool_decide (s ∉ dim_store_ids d)) store_ids in
  raise_if (negb (is_nil missing)) (invalid ("unknown store ids: " +:+ join ", " missing)).

(** [_validate_store_group_members_available] *)
Definition validate_store_group_members_available (d : ruledb) (store_ids : list string)
    (excluding_store_group_id : option string) : result unit :=
  let occupied := List.filter (fun m => str_in m.2 store_ids
      && match excluding_store_group_id with Some g => negb (str_eqb m.1 g) | None => true end)
    (clue_store_group_members d) in
  raise_if (negb (is_nil occupied))
    (invalid ("stores can belong to only one allocation store group: "
              +:+ join ", " (merge_sort String.le (remove_dups occupied.*2)))).

(** [create_store_group] *)
Definition create_store_group (d : ruledb) (new_id : string) (name : option string)
    (member_store_ids : list string) (created_by : option string) (now : instant)
  : result (ruledb * ClueStoreGroup) :=
  let* group_name := required_text name "name" in
  let* _ := raise_if (existsb (fun g => str_eqb (sg_group_name g) group_name) (values (clue_store_groups d)))
              (invalid "store group name already exists") in
  let* member_ids := normalized_store_ids member_store_ids in
  let* _ := validate_store_ids d member_ids in
  let* _ := validate_store_group_members_available d member_ids None in
  let id := ("store-group-" +:+ new_id)%string in
  let* _ := raise_if (bool_decide (is_Some (clue_store_groups d !! id))) (integrity "clue_store_groups") in
  let group := MkGroup id group_name created_by now in
  Ok (d <| clue_store_groups := <[id := group]> (clue_store_groups d) |>
        <| clue_store_group_members := clue_store_group_members d ++ (pair id <$> member_ids) |>, group).

(** [replace_store_group_members] *)
Definition replace_store_group_members (d : ruledb) (store_group_id : string)
    (member_store_ids : list string) (now : instant) : result (ruledb * ClueStoreGroup) :=
  match clue_store_groups d !! store_group_id with
  | None => Raise (not_found "clue store group was not found")
  | Some group =>
      let* member_ids := normalized_store_ids member_store_ids in
      let* _ := validate_store_ids d member_ids in
      let* _ := validate_store_group_members_available d member_ids (Some (sg_store_group_id group)) in
      let group1 := group <| sg_updated_at := now |> in
      Ok (d <| clue_store_groups := <[store_group_id := group1]> (clue_store_groups d) |>
            <| clue_store_group_members :=
                 List.filter (fun m => negb (str_eqb m.1 (sg_store_group_id group))) (clue_store_group_members d)
                 ++ (pair (sg_store_group_id group) <$> member_ids) |>, group1)
  end.

(** ** Rules *)

Record scope := MkScope {
  so_scope_type : string;
  so_scope_key : string;
  so_scope_city_code : option string;
  so_scope_store_group_id : option string;
  so_scope_anchor_store_id : option string;
}.

Definition empty_text (o : option string) : bool := negb (has_text o).

(** [_normalize_scope] *)
Definition normalize_scope (scope_type : string) (city_code store_group_id anchor_store_id : option string)
  : result scope :=
  if negb (str_in scope_type SCOPE_TYPES)
  then Raise (invalid ("scope_type must be one of: " +:+ join ", " SCOPE_TYPES))
  else
    let city := canonical_city_code city_code in
    let group := clean store_group_id in
    let anchor := clean anchor_store_id in
    let targets := [("city", city); ("store_group", group); ("anchor_store", anchor)] in
    if str_eqb scope_type "global" then
      if existsb (fun t => has_text t.2) targets
      then Raise (invalid "global scope cannot include a city, store group, or anchor store")
      else Ok (MkScope scope_type "global" None None None)
    else
      let target := match List.find (fun t => str_eqb t.1 scope_type) targets with
                    | Some t => t.2
                    | None => None
                    end in
      if empty_text target
      then Raise (invalid (scope_type +:+ " scope requires its target identifier"))
      else if existsb (fun t => has_text t.2 && negb (str_eqb t.1 scope_type)) targets
      then Raise (invalid "a logical rule scope can only declare one target")
      else
        let only name (v : option string) := if str_eqb scope_type name then v else None in
        Ok (MkScope scope_type (scope_type +:+ ":" +:+ default "" target)
              (only "city" city) (only "store_group" group) (only "anchor_store" anchor)).

(** [create_rule] *)
Definition create_rule (d : ruledb) (new_id : string) (name : option string) (scope_type : option string)
    (city_code store_group_id anchor_store_id created_by : option string)
  : result (ruledb * ClueAllocationRule) :=
  let* scope_type := required_text scope_type "scope_type" in
  let* s := normalize_scope scope_type city_code store_group_id anchor_store_id in
  let* _ := raise_if (existsb (fun r => str_eqb (ru_scope_key r) (so_scope_key s)) (values (clue_allocation_rules d)))
              (invalid "a logical rule already exists for this scope") in
  let* _ := raise_if (match so_scope_store_group_id s with
                      | Some g => has_text (Some g) && bool_decide (clue_store_groups d !! g = None)
                      | None => false
                      end) (not_found "clue store group was not found") in
  let* _ := raise_if (match so_scope_anchor_store_id s with
                      | Some a => has_text (Some a) && bool_decide (a ∉ dim_store_ids d)
                      | None => false
                      end) (invalid "anchor_store_id does not reference a known store") in
  let* rule_name := required_text name "name" in
  let id := ("rule-" +:+ new_id)%string in
  let* _ := raise_if (bool_decide (is_Some (clue_allocation_rules d !! id))) (integrity "clue_allocation_rules") in
  let rule := MkRule id rule_name (so_scope_type s) (so_scope_key s) (so_scope_city_code s)
                (so_scope_store_group_id s) (so_scope_anchor_store_id s) created_by in
  Ok (d <| clue_allocation_rules := <[id := rule]> (clue_allocation_rules d) |>, rule).

(** ** Versions *)

Section Versions.
Variable repr_of : pyval -> string.
(** [float(decimal)] *)
Variable float_of : pydec -> pyval.

(** [_as_decimal_or_none] *)
Definition as_decimal_or_none (value : pyval) (name : string) : result (option pydec) :=
  match value with
  | PNone => Ok None
  | PBool _ => Raise (invalid (name +:+ " must be numeric"))
  | PDec x => Ok (Some x)
  | _ => match decimal_of_text (strip (py_str repr_of value)) with
         | Some x => Ok (Some x)
         | None => Raise (invalid (name +:+ " must be numeric"))
         end
  end.

(** The row of one config; the column defaults and the not-null constraint apply
    when it is written. *)
Definition config_row (id rule_version_id : string) (config : pyval) : result ClueAllocationStrategyConfig :=
  match config with
  | PDict c =>
      match dict_get_default "params" (PDict []) c with
      | PDict params =>
          let strategy_type := dict_get "strategy_type" c in
          let row := MkConfig ("strategy-config-" +:+ id) rule_version_id
            (if truthy strategy_type then strip (py_str repr_of strategy_type) else "")
            (match dict_get "enabled" c with PNone => PBool true | v => v end)
            (dict_get "execution_order" c) params in
          match cf_execution_order row with
          | PNone => Raise (integrity "clue_allocation_strategy_configs")
          | _ => Ok row
          end
      | _ => Raise (invalid "strategy config params must be an object")
      end
  | _ => Raise (invalid "each strategy config must be an object")
  end.

Fixpoint config_rows (new_id : nat -> string) (i : nat) (rule_version_id : string) (configs : list pyval)
  : result (list ClueAllocationStrategyConfig) :=
  match configs with
  | [] => Ok []
  | c :: configs' =>
      let* row := config_row (new_id i) rule_version_id c in
      let* rows := config_rows new_id (S i) rule_version_id configs' in
      Ok (row :: rows)
  end.

(** [_replace_strategy_configs] *)
Definition replace_strategy_configs (d : ruledb) (new_id : nat -> string) (rule_version_id : string)
    (strategy_configs : pyval) : result ruledb :=
  match strategy_configs with
  | PList configs =>
      let kept := List.filter (fun c => negb (str_eqb (cf_rule_version_id c) rule_version_id))
                    (clue_allocation_strategy_configs d) in
      let* rows := config_rows new_id 0 rule_version_id configs in
      let all := kept ++ rows in
      let* _ := raise_if (negb (bool_decide (NoDup (cf_strategy_config_id <$> all))))
                  (integrity "clue_allocation_strategy_configs") in
      Ok (d <| clue_allocation_strategy_configs := all |>)
  | _ => Raise (invalid "strategy_configs must be a list")
  end.

Definition put_version (v : ClueAllocationRuleVersion) (d : ruledb) : ruledb :=
  d <| clue_allocation_rule_versions := <[rv_rule_version_id v := v]> (clue_allocation_rule_versions d) |>.

Definition versions_of (d : ruledb) (rule_id : string) : list ClueAllocationRuleVersion :=
  List.filter (fun v => str_eqb (rv_rule_id v) rule_id) (values (clue_allocation_rule_versions d)).

(** [int(current_max or 0) + 1] *)
Definition next_version_no (d : ruledb) (rule_id : string) : Z :=
  or0 (fold_right (fun v acc => match acc with
                                | Some m => Some (Z.max (rv_version_no v) m)
                                | None => Some (rv_version_no v)
                                end) None (versions_of d rule_id)) + 1.

(** [create_rule_version] *)
Definition create_rule_version (d : ruledb) (new_version_id : string) (new_id : nat -> string)
    (rule_id : string) (auto_expiry_enabled first_follow_up_sla_hours protection_days conversion_weight
     follow_24h_weight lookback_days min_samples strategy_configs created_by : pyval) (now : instant)
  : result (ruledb * ClueAllocationRuleVersion) :=
  match clue_allocation_rules d !! rule_id with
  | None => Raise (not_found "clue allocation rule was not found")
  | Some rule =>
      let* cw := as_decimal_or_none conversion_weight "conversion_weight" in
      let* fw := as_decimal_or_none follow_24h_weight "follow_24h_weight" in
      let version := MkVersion ("rule-version-" +:+ new_version_id) (ru_rule_id rule)
        (next_version_no d (ru_rule_id rule)) "draft" auto_expiry_enabled first_follow_up_sla_hours
        protection_days cw fw lookback_days min_samples created_by created_by None None None None now in
      let* _ := raise_if (bool_decide (is_Some (clue_allocation_rule_versions d !! rv_rule_version_id version)))
                  (integrity "clue_allocation_rule_versions") in
      let* d1 := replace_strategy_configs (put_version version d) new_id (rv_rule_version_id version)
                   strategy_configs in
      Ok (d1, version)
  end.

Definition mutable_fields : list string :=
  ["auto_expiry_enabled"; "first_follow_up_sla_hours"; "protection_days"; "conversion_weight";
   "follow_24h_weight"; "lookback_days"; "min_samples"; "updated_by"].

(** [require_draft] *)
Definition require_draft (v : ClueAllocationRuleVersion) : result unit :=
  raise_if (negb (str_eqb (rv_status v) "draft")) (immutable "only draft versions can be changed or deleted").

Definition changed (changes : pydict) (name : string) (old : pyval) : pyval := dict_get_default name old changes.

(** The weight of a change, converted, or the old one. *)
Definition changed_weight (changes : pydict) (name : string) (old : option pydec) : result (option pydec) :=
  match dict_lookup name changes with
  | Some v => as_decimal_or_none v name
  | None => Ok old
  end.

(** [update_rule_version] *)
Definition update_rule_version (d : ruledb) (new_id : nat -> string) (rule_version_id : string)
    (changes : pydict) (now : instant) : result (ruledb * ClueAllocationRuleVersion) :=
  match clue_allocation_rule_versions d !! rule_version_id with
  | None => Raise (not_found "clue allocation rule version was not found")
  | Some v =>
      let* _ := require_draft v in
      let unknown := List.filter (fun k => negb (str_in k ("strategy_configs" :: mutable_fields))) changes.*1 in
      let* _ := raise_if (negb (is_nil unknown))
                  (invalid ("unsupported rule version fields: "
                            +:+ join ", " (merge_sort String.le (remove_dups unknown)))) in
      let* cw := changed_weight changes "conversion_weight" (rv_conversion_weight v) in
      let* fw := changed_weight changes "follow_24h_weight" (rv_follow_24h_weight v) in
      let v1 := v <| rv_auto_expiry_enabled := changed changes "auto_expiry_enabled" (rv_auto_expiry_enabled v) |>
        <| rv_first_follow_up_sla_hours :=
             changed changes "first_follow_up_sla_hours" (rv_first_follow_up_sla_hours v) |>
        <| rv_protection_days := changed changes "protection_days" (rv_protection_days v) |>
        <| rv_conversion_weight := cw |> <| rv_follow_24h_weight := fw |>
        <| rv_lookback_days := changed changes "lookback_days" (rv_lookback_days v) |>
        <| rv_min_samples := changed changes "min_samples" (rv_min_samples v) |>
        <| rv_updated_by := changed changes "updated_by" (rv_updated_by v) |> <| rv_updated_at := now |> in
      let* d1 := match dict_lookup "strategy_configs" changes with
                 | Some configs => replace_strategy_configs d new_id (rv_rule_version_id v) configs
                 | None => Ok d
                 end in
      Ok (put_version v1 d1, v1)
  end.

(** [delete_rule_version]: its strategies go with it, and a binding restrains it
    (an allocation decision names the version of a binding). *)
Definition delete_rule_version (d : ruledb) (rule_version_id : string) : result ruledb :=
  match clue_allocation_rule_versions d !! rule_version_id with
  | None => Raise (not_found "clue allocation rule version was not found")
  | Some v =>
      let* _ := require_draft v in
      let* _ := raise_if (existsb (fun b => str_eqb (rb_rule_version_id b) rule_version_id)
                            (values (clue_lead_rule_version_bindings d)))
                  (integrity "clue_lead_rule_version_bindings") in
      Ok (d <| clue_allocation_rule_versions := delete rule_version_id (clue_allocation_rule_versions d) |>
            <| clue_allocation_strategy_configs :=
                 List.filter (fun c => negb (str_eqb (cf_rule_version_id c) rule_version_id))
                   (clue_allocation_strategy_configs d) |>)
  end.

(** ** Publishing *)

Definition decimal_error : exn := NamedError "InvalidOperation" "comparison involving NaN".

(** [value < low or value > high], or an error for a NaN *)
Definition outside (x : pydec) (low high : Q) : result bool :=
  match x with
  | DFin c e => Ok (negb (Qle_bool low (dec_Q c e)) || negb (Qle_bool (dec_Q c e) high))
  | DInf _ => Ok true
  | DNan => Raise decimal_error
  end.

(** [_validate_weight] *)
Definition validate_weight (value : option pydec) (name : string) : result pydec :=
  match value with
  | None => Raise (invalid (name +:+ " is required"))
  | Some x =>
      let* out := outside x 0 1 in
      let* _ := raise_if out (invalid (name +:+ " must be between 0 and 1")) in
      Ok x
  end.

Definition num_digits (c : Z) : Z := Z.of_nat (length (chars (str_of_Z (Z.abs c)))).

(** A coefficient rounded, half to even, to the 28 digits of the context. *)
Definition round28 (c e : Z) : Z * Z :=
  let k := num_digits c - 28 in
  if k <=? 0 then (c, e)
  else
    let q := Z.abs c / 10 ^ k in
    let r := Z.abs c mod 10 ^ k in
    let up := (10 ^ k <? 2 * r) || ((2 * r =? 10 ^ k) && Z.odd q) in
    (Z.sgn c * (if up then q + 1 else q), e + k).

(** [a + b == Decimal("1")] for finite decimals *)
Definition sums_to_one (a b : pydec) : bool :=
  match a, b with
  | DFin c1 e1, DFin c2 e2 =>
      let e := Z.min e1 e2 in
      let '(c, e') := round28 (c1 * 10 ^ (e1 - e) + c2 * 10 ^ (e2 - e)) e in
      Qeq_bool (dec_Q c e') 1
  | _, _ => false
  end.

(** [_validate_integer_range] *)
Definition validate_integer_range (value : pyval) (name : string) (minimum maximum : Z) : result unit :=
  raise_if (match value with PInt z => (z <? minimum) || (maximum <? z) | _ => true end)
    (invalid (name +:+ " must be between " +:+ str_of_Z minimum +:+ " and " +:+ str_of_Z maximum)).

(** [_validate_distance] *)
Definition validate_distance (params : pydict) (strategy_type : string) : result unit :=
  let value := dict_get "max_distance_km" params in
  let not_a_number := invalid (strategy_type +:+ ".max_distance_km must be a positive number") in
  let out_of_range := invalid (strategy_type +:+ ".max_distance_km must be between 0 and 1000") in
  match value with
  | PBool _ => Raise not_a_number
  | _ => match (match value with PDec x => Some x | _ => decimal_of_text (strip (py_str repr_of value)) end) with
         | None => Raise not_a_number
         | Some x =>
             let* out := outside x 0 MAX_DISTANCE_KM in
             raise_if (out || match x with DFin c _ => c =? 0 | _ => false end) out_of_range
         end
  end.

(** The order of [execution_order, strategy_config_id]; the column is an integer. *)
Definition order_key (v : pyval) : Z := order_of v 0.
Definition config_before (a b : ClueAllocationStrategyConfig) : Prop :=
  order_key (cf_execution_order a) < order_key (cf_execution_order b)
  \/ (order_key (cf_execution_order a) = order_key (cf_execution_order b)
      /\ String.le (cf_strategy_config_id a) (cf_strategy_config_id b)).

#[export] Instance config_before_dec : RelDecision config_before.
Proof. intros a b. unfold config_before. apply _. Defined.

Definition configs_of (d : ruledb) (rule_version_id : string) : list ClueAllocationStrategyConfig :=
  merge_sort config_before
    (List.filter (fun c => str_eqb (cf_rule_version_id c) rule_version_id) (clue_allocation_strategy_configs d)).

(** The checks of one config. *)
Definition validate_config (c : ClueAllocationStrategyConfig) : result unit :=
  let not_positive := invalid "strategy execution_order must be a positive integer" in
  let* _ := raise_if (match cf_enabled c with PBool _ => false | _ => true end)
              (invalid "strategy enabled must be a boolean") in
  let* _ := raise_if (match cf_execution_order c with PInt z => z <=? 0 | _ => true end) not_positive in
  if str_in (cf_strategy_type c) DISTANCE_STRATEGY_TYPES || dict_mem "max_distance_km" (cf_params_json c)
  then validate_distance (cf_params_json c) (cf_strategy_type c)
  else Ok tt.

Fixpoint validate_configs (l : list ClueAllocationStrategyConfig) : result unit :=
  match l with
  | [] => Ok tt
  | c :: l' => let* _ := validate_config c in validate_configs l'
  end.

(** [by_type[t]] *)
Definition config_of_type (l : list ClueAllocationStrategyConfig) (t : string)
  : option ClueAllocationStrategyConfig :=
  List.find (fun c => str_eqb (cf_strategy_type c) t) (rev l).

(** The selection mode of the rule and what it asks of the strategies. *)
Definition validate_selection_mode (configs : list ClueAllocationStrategyConfig) : result unit :=
  let nearby := config_of_type configs "nearby_city_optimization" in
  let fallback := config_of_type configs "city_fallback" in
  let enabled o := match o with Some c => truthy (cf_enabled c) | None => false end in
  let params := match nearby with Some c => cf_params_json c | None => [] end in
  match dict_get_default "selection_mode" (PStr "score") params with
  | PStr mode =>
      let* _ := raise_if (negb (str_in mode ["score"; "douyin_source_store"])) (invalid "unsupported selection_mode") in
      if str_eqb mode "douyin_source_store" then
        let* _ := raise_if (negb (enabled nearby) || enabled fallback)
          (invalid "source-store mode requires the source strategy and disables city fallback") in
        raise_if (negb (bool_decide ((cf_strategy_type <$> configs) = STRATEGY_TYPES)))
          (invalid "source-store mode requires sales priority before source store")
      else Ok tt
  | PList _ | PDict _ => Raise (TypeError "unhashable type")
  | _ => Raise (invalid "unsupported selection_mode")
  end.

Definition is_published (v : ClueAllocationRuleVersion) : bool := str_eqb (rv_status v) "published".

Definition rule_of (d : ruledb) (v : ClueAllocationRuleVersion) : option ClueAllocationRule :=
  clue_allocation_rules d !! rv_rule_id v.

Definition of_scope (scope_type : string) (d : ruledb) (v : ClueAllocationRuleVersion) : bool :=
  match rule_of d v with Some r => str_eqb (ru_scope_type r) scope_type | None => false end.

Definition has_global_default (d : ruledb) : bool :=
  existsb (fun v => is_published v && of_scope "global" d v) (values (clue_allocation_rule_versions d)).

(** [_validate_for_publish] *)
Definition validate_for_publish (d : ruledb) (rule : ClueAllocationRule) (v : ClueAllocationRuleVersion)
  : result unit :=
  let* _ := raise_if (negb (str_eqb (ru_scope_type rule) "global") && negb (has_global_default d))
    (invalid "a published global default rule is required before publishing this scope") in
  let* auto := match rv_auto_expiry_enabled v with
               | PNone => Raise (invalid "auto_expiry_enabled must be explicit")
               | PBool b => Ok b
               | _ => Raise (invalid "auto_expiry_enabled must be a boolean")
               end in
  let* _ := if auto || match rv_first_follow_up_sla_hours v with PNone => false | _ => true end
            then validate_integer_range (rv_first_follow_up_sla_hours v) "first_follow_up_sla_hours" 1 MAX_SLA_HOURS
            else Ok tt in
  let* _ := validate_integer_range (rv_protection_days v) "protection_days" 1 MAX_PROTECTION_DAYS in
  let* _ := validate_integer_range (rv_lookback_days v) "lookback_days" 1 MAX_LOOKBACK_DAYS in
  let* _ := validate_integer_range (rv_min_samples v) "min_samples" 1 MAX_MIN_SAMPLES in
  let* cw := validate_weight (rv_conversion_weight v) "conversion_weight" in
  let* fw := validate_weight (rv_follow_24h_weight v) "follow_24h_weight" in
  let* _ := raise_if (negb (sums_to_one cw fw)) (invalid "score weights must sum to 1") in
  let configs := configs_of d (rv_rule_version_id v) in
  let types := cf_strategy_type <$> configs in
  let* _ := raise_if (negb ((length configs =? length STRATEGY_TYPES)%nat
                            && forallb (fun t => str_in t STRATEGY_TYPES) types
                            && forallb (fun t => str_in t types) STRATEGY_TYPES))
    (invalid "all three fixed strategy types must be present exactly once") in
  let* _ := raise_if (negb (bool_decide (NoDup types)))
    (invalid "all three fixed strategy types must be present exactly once") in
  let* _ := validate_selection_mode configs in
  let* _ := validate_configs configs in
  raise_if (negb (bool_decide (NoDup ((order_key ∘ cf_execution_order) <$> configs))))
    (invalid "strategy execution_order values must be unique").

(** A published version of the rule becomes retired. *)
Definition retire (by_ : option string) (now : instant) (v : ClueAllocationRuleVersion) : ClueAllocationRuleVersion :=
  v <| rv_status := "retired" |> <| rv_retired_by := by_ |> <| rv_retired_at := Some now |>
    <| rv_updated_at := now |>.

(** [publish_rule_version] *)
Definition publish_rule_version (d : ruledb) (rule_version_id : string) (published_by : option string)
    (now : instant) : result (ruledb * ClueAllocationRuleVersion) :=
  match clue_allocation_rule_versions d !! rule_version_id with
  | None => Raise (not_found "clue allocation rule version was not found")
  | Some v =>
      let* _ := require_draft v in
      match clue_allocation_rules d !! rv_rule_id v with
      | None => Raise (not_found "clue allocation rule was not found")
      | Some rule =>
          let* _ := validate_for_publish d rule v in
          let retired := (fun x => if str_eqb (rv_rule_id x) (ru_rule_id rule) && is_published x
                                   then retire published_by now x else x)
                         <$> clue_allocation_rule_versions d in
          let v1 := v <| rv_status := "published" |> <| rv_published_by := published_by |>
            <| rv_published_at := Some now |> <| rv_updated_by := opt_json published_by |>
            <| rv_updated_at := now |> in
          Ok (put_version v1 (d <| clue_allocation_rule_versions := retired |>), v1)
      end
  end.

(** [retire_rule_version] *)
Definition retire_rule_version (d : ruledb) (rule_version_id : string) (retired_by : option string)
    (now : instant) : result (ruledb * ClueAllocationRuleVersion) :=
  match clue_allocation_rule_versions d !! rule_version_id with
  | None => Raise (not_found "clue allocation rule version was not found")
  | Some v =>
      let* _ := raise_if (negb (is_published v)) (immutable "only published versions can be retired") in
      match clue_allocation_rules d !! rv_rule_id v with
      | None => Raise (not_found "clue allocation rule was not found")
      | Some rule =>
          let* _ := raise_if (str_eqb (ru_scope_type rule) "global")
            (immutable "the current global default can only be replaced by publishing a new version") in
          Ok (put_version (retire retired_by now v) d, retire retired_by now v)
      end
  end.

(** ** Resolution *)

(** [ORDER BY published_at DESC, rule_id], nulls first *)
Definition match_before (a b : ClueAllocationRule * ClueAllocationRuleVersion) : Prop :=
  match rv_published_at a.2, rv_published_at b.2 with
  | None, Some _ => True
  | Some _, None => False
  | Some x, Some y => y < x \/ (x = y /\ String.le (ru_rule_id a.1) (ru_rule_id b.1))
  | None, None => String.le (ru_rule_id a.1) (ru_rule_id b.1)
  end.

#[export] Instance match_before_dec : RelDecision match_before.
Proof. intros a b. unfold match_before. repeat case_match; apply _. Defined.

(** The published versions joined with their rules. *)
Definition published_rows (d : ruledb) : list (ClueAllocationRule * ClueAllocationRuleVersion) :=
  omap (fun v => if is_published v then (fun r => (r, v)) <$> rule_of d v else None)
    (values (clue_allocation_rule_versions d)).

(** [_published_match] *)
Definition published_match (d : ruledb) (condition : ClueAllocationRule -> bool)
  : option (ClueAllocationRule * ClueAllocationRuleVersion) :=
  head (merge_sort match_before (List.filter (fun m => condition m.1) (published_rows d))).

Definition or_else {A} (x y : option A) : option A := match x with Some a => Some a | None => y end.

(** [resolve_published_rule_version] *)
Definition resolve_published_rule_version (d : ruledb) (anchor_store_id anchor_city_code : option string)
  : option (ClueAllocationRule * ClueAllocationRuleVersion) :=
  let scoped t r := str_eqb (ru_scope_type r) t in
  let by_store :=
    if has_text anchor_store_id then
      let store := default "" anchor_store_id in
      let group_ids := (List.filter (fun m => str_eqb m.2 store) (clue_store_group_members d)).*1 in
      or_else (published_match d (fun r => scoped "anchor_store" r && opt_is (ru_scope_anchor_store_id r) store))
        (if is_nil group_ids then None
         else published_match d (fun r => scoped "store_group" r
                && match ru_scope_store_group_id r with Some g => str_in g group_ids | None => false end))
    else None in
  let by_city :=
    if has_text anchor_city_code
    then published_match d (fun r => scoped "city" r && opt_is (ru_scope_city_code r) (default "" anchor_city_code))
    else None in
  or_else by_store (or_else by_city (published_match d (scoped "global"))).

(** ** Binding *)

Definition config_json (c : ClueAllocationStrategyConfig) : pyval :=
  PDict [("strategy_type", PStr (cf_strategy_type c)); ("enabled", cf_enabled c);
         ("execution_order", cf_execution_order c); ("params", PDict (cf_params_json c))].

Definition weight_json (w : option pydec) : pyval := match w with Some x => float_of x | None => PNone end.

(** [_rule_version_snapshot] *)
Definition rule_version_snapshot (d : ruledb) (v : ClueAllocationRuleVersion) : pydict :=
  [("rule_version_id", PStr (rv_rule_version_id v)); ("version_no", PInt (rv_version_no v));
   ("auto_expiry_enabled", rv_auto_expiry_enabled v);
   ("first_follow_up_sla_hours", rv_first_follow_up_sla_hours v);
   ("protection_days", rv_protection_days v);
   ("conversion_weight", weight_json (rv_conversion_weight v));
   ("follow_24h_weight", weight_json (rv_follow_24h_weight v));
   ("lookback_days", rv_lookback_days v); ("min_samples", rv_min_samples v);
   ("strategy_configs", PList (config_json <$> configs_of d (rv_rule_version_id v)))].

(** [bind_lead_rule_version] of the rules *)
Definition bind_lead (d : ruledb) (lead_key : string) (anchor_store_id anchor_city_code : option string)
  : result (ruledb * ClueLeadRuleVersionBinding) :=
  let* key := required_text (Some lead_key) "lead_key" in
  match clue_lead_rule_version_bindings d !! key with
  | Some existing => Ok (d, existing)
  | None =>
      match resolve_published_rule_version d anchor_store_id anchor_city_code with
      | None => Raise (unresolved "no published clue allocation rule matches this lead")
      | Some (rule, v) =>
          let binding := MkBinding key (rv_rule_version_id v) (ru_scope_type rule) (ru_scope_key rule)
            [("matched_scope", PStr (ru_scope_type rule)); ("scope_key", PStr (ru_scope_key rule));
             ("rule_id", PStr (ru_rule_id rule)); ("rule_version_id", PStr (rv_rule_version_id v));
             ("version_no", PInt (rv_version_no v)); ("scope_city_code", opt_json (ru_scope_city_code rule));
             ("scope_store_group_id", opt_json (ru_scope_store_group_id rule));
             ("scope_anchor_store_id", opt_json (ru_scope_anchor_store_id rule));
             ("anchor_store_id", opt_json anchor_store_id); ("anchor_city_code", opt_json anchor_city_code)]
            (rule_version_snapshot d v) in
          Ok (d <| clue_lead_rule_version_bindings :=
                     <[key := binding]> (clue_lead_rule_version_bindings d) |>, binding)
      end
  end.
End Versions.
