(* ===== verification/RuleInv.v ===== *)
(** * Properties of the allocation rules

    The invariant of the rule tables, the frozen part of a version that is no
    longer a draft, the resolution of a lead's rule, and the binder that the
    allocation engine uses. *)
From S2P Require Import Prelude PyValue Jobs Clues HqPool Candidates CandidateProps Allocation RuleVersions.
#[local] Open Scope Z_scope.

Lemma elem_of_values {A} (m : gmap string A) x : x ∈ values m <-> exists i, m !! i = Some x.
Proof.
  unfold values. rewrite list_elem_of_fmap. split.
  - intros ([i y] & -> & Hin%elem_of_map_to_list). eauto.
  - intros [i Hi]. exists (i, x). by rewrite elem_of_map_to_list.
Qed.

Lemma existsb_values {A} (P : A -> bool) (m : gmap string A) :
  existsb P (values m) = true <-> exists i x, m !! i = Some x /\ P x = true.
Proof.
  rewrite existsb_exists. split.
  - intros (x & Hx%list_elem_of_In%elem_of_values & HP). naive_solver.
  - intros (i & x & Hi & HP). exists x. split; [|done]. apply list_elem_of_In, elem_of_values. eauto.
Qed.

(** ** Resolution *)

Lemma elem_of_published d r v : (r, v) ∈ published_rows d <->
  (exists i, clue_allocation_rule_versions d !! i = Some v) /\ is_published v = true /\ rule_of d v = Some r.
Proof.
  unfold published_rows. rewrite list_elem_of_omap. split.
  - intros (x & Hx%elem_of_values & E). destruct (is_published x) eqn:Hp; [|done].
    destruct (rule_of d x) as [r0|] eqn:Hr; [|done]. cbn in E. injection E as -> ->. auto.
  - intros (Hv & Hp & Hr). exists v. split; [by apply elem_of_values|]. by rewrite Hp, Hr.
Qed.

Lemma published_match_some d P r v : published_match d P = Some (r, v) -> (r, v) ∈ published_rows d /\ P r = true.
Proof.
  unfold published_match. intros H%head_Some_elem_of. rewrite merge_sort_Permutation in H.
  apply list_elem_of_In, List.filter_In in H as [H HP]. split; [by apply list_elem_of_In|done].
Qed.

Lemma published_match_none d P r v : published_match d P = None -> (r, v) ∈ published_rows d -> P r = false.
Proof.
  unfold published_match. intros H Hin. destruct (P r) eqn:HP; [|done]. exfalso.
  assert (Hf : (r, v) ∈ List.filter (fun m => P m.1) (published_rows d)).
  { apply list_elem_of_In, List.filter_In. split; [by apply list_elem_of_In|done]. }
  destruct (merge_sort _ _) as [|x l] eqn:E; [|done].
  rewrite <- (merge_sort_Permutation match_before), E in Hf. by apply elem_of_nil in Hf.
Qed.

(** The scopes that cover a lead, from the most to the least specific. *)
Inductive covers (d : ruledb) (store city : option string) (r : ClueAllocationRule) : nat -> Prop :=
| covers_anchor s : store = Some s -> s <> "" -> ru_scope_type r = "anchor_store" ->
    ru_scope_anchor_store_id r = Some s -> covers d store city r 0
| covers_group s g : store = Some s -> s <> "" -> (g, s) ∈ clue_store_group_members d ->
    ru_scope_type r = "store_group" -> ru_scope_store_group_id r = Some g -> covers d store city r 1
| covers_city c : city = Some c -> c <> "" -> ru_scope_type r = "city" ->
    ru_scope_city_code r = Some c -> covers d store city r 2
| covers_global : ru_scope_type r = "global" -> covers d store city r 3.

(** The store's groups. *)
Lemma elem_of_groups d s g :
  g ∈ (List.filter (fun m => str_eqb m.2 s) (clue_store_group_members d)).*1 <-> (g, s) ∈ clue_store_group_members d.
Proof.
  rewrite list_elem_of_fmap. split.
  - intros ([g' s'] & -> & [Hin E]%list_elem_of_In%List.filter_In). cbn in *. tests. subst. by apply list_elem_of_In.
  - intros Hin. exists (g, s). split; [done|]. apply list_elem_of_In, List.filter_In.
    split; [by apply list_elem_of_In|]. cbn. apply str_eqb_refl.
Qed.

Lemma or_else_some {A} (x y : option A) a : or_else x y = Some a -> x = Some a \/ (x = None /\ y = Some a).
Proof. destruct x; cbn; auto. Qed.
Lemma or_else_none {A} (x y : option A) : or_else x y = None -> x = None /\ y = None.
Proof. by destruct x. Qed.

(** The four matches of [resolve_published_rule_version], by level. *)
Definition level_match (d : ruledb) (store city : option string) (n : nat)
  : option (ClueAllocationRule * ClueAllocationRuleVersion) :=
  let scoped t r := str_eqb (ru_scope_type r) t in
  let s := default "" store in
  let groups := (List.filter (fun m => str_eqb m.2 s) (clue_store_group_members d)).*1 in
  match n with
  | 0%nat => if has_text store then published_match d (fun r => scoped "anchor_store" r
                && opt_is (ru_scope_anchor_store_id r) s) else None
  | 1%nat => if has_text store then if is_nil groups then None
         else published_match d (fun r => scoped "store_group" r
                && match ru_scope_store_group_id r with Some g => str_in g groups | None => false end) else None
  | 2%nat => if has_text city then published_match d (fun r => scoped "city" r
                && opt_is (ru_scope_city_code r) (default "" city)) else None
  | _ => published_match d (scoped "global")
  end.

Lemma resolve_levels d store city :
  resolve_published_rule_version d store city
  = or_else (level_match d store city 0) (or_else (level_match d store city 1)
      (or_else (level_match d store city 2) (level_match d store city 3))).
Proof.
  unfold resolve_published_rule_version, level_match. cbv zeta.
  destruct (has_text store); [|done]. destruct (published_match d _); [done|]. done.
Qed.

Lemma has_text_inv o : has_text o = true -> exists s, o = Some s /\ s <> "".
Proof.
  destruct o as [s|]; [|done]. cbn. intros H. exists s. split; [done|]. intros ->. done.
Qed.

(** A level matches a published rule that covers the lead there, and misses none. *)
Lemma level_match_some d store city n r v : (n <= 3)%nat -> level_match d store city n = Some (r, v) ->
  (r, v) ∈ published_rows d /\ covers d store city r n.
Proof.
  intros Hn. unfold level_match. cbv zeta. destruct n as [|[|[|[|n]]]]; [| | | |lia].
  - destruct (has_text store) eqn:Ht; [|done]. apply has_text_inv in Ht as (s & -> & Hs).
    intros [Hin H]%published_match_some. tests. split; [done|]. by eapply covers_anchor.
  - destruct (has_text store) eqn:Ht; [|done]. apply has_text_inv in Ht as (s & -> & Hs).
    destruct (is_nil _); [done|]. intros [Hin H]%published_match_some. tests. split; [done|].
    destruct (ru_scope_store_group_id r) as [g|] eqn:Hg; [|done].
    unfold str_in in *. tests. eapply covers_group; [done|done|by apply elem_of_groups|done|done].
  - destruct (has_text city) eqn:Ht; [|done]. apply has_text_inv in Ht as (s & -> & Hs).
    intros [Hin H]%published_match_some. tests. split; [done|]. by eapply covers_city.
  - intros [Hin H]%published_match_some. tests. split; [done|]. by apply covers_global.
Qed.

Lemma level_match_none d store city n r v : level_match d store city n = None ->
  (r, v) ∈ published_rows d -> ~ covers d store city r n.
Proof.
  unfold level_match. cbv zeta. intros Hnone Hin Hc.
  destruct Hc as [s -> Hs Ht Ha|s g -> Hs Hg Ht Ha|c -> Hs Ht Ha|Ht]; cbn [default from_option id] in Hnone;
    rewrite ?has_text_Some in Hnone by done.
  - eapply published_match_none in Hnone; [|done]. cbn in Hnone. by rewrite Ht, Ha, str_eqb_refl, opt_is_refl in Hnone.
  - apply elem_of_groups in Hg. destruct (is_nil _) eqn:En.
    { apply is_nil_true in En. rewrite En in Hg. by apply elem_of_nil in Hg. }
    eapply published_match_none in Hnone; [|done]. cbn in Hnone. rewrite Ht, Ha, str_eqb_refl in Hnone.
    unfold str_in in Hnone. by rewrite bool_decide_true in Hnone.
  - eapply published_match_none in Hnone; [|done]. cbn in Hnone. by rewrite Ht, Ha, str_eqb_refl, opt_is_refl in Hnone.
  - eapply published_match_none in Hnone; [|done]. cbn in Hnone. by rewrite Ht, str_eqb_refl in Hnone.
Qed.

Lemma resolve_some d store city r v : resolve_published_rule_version d store city = Some (r, v) ->
  (r, v) ∈ published_rows d /\ exists n, covers d store city r n
    /\ forall r' v' m, (r', v') ∈ published_rows d -> covers d store city r' m -> (n <= m)%nat.
Proof.
  rewrite resolve_levels.
  intros [H|[N0 [H|[N1 [H|[N2 H]]%or_else_some]]%or_else_some]]%or_else_some;
    (apply level_match_some in H as [Hin Hc]; [|lia]); (split; [done|]); eexists; (split; [exact Hc|]);
    intros r' v' m Hin' Hm; destruct m as [|[|[|m]]]; try lia;
    exfalso; (eapply level_match_none; [|exact Hin'|exact Hm]); done.
Qed.

Lemma resolve_none d store city : resolve_published_rule_version d store city = None ->
  forall r v n, (r, v) ∈ published_rows d -> ~ covers d store city r n.
Proof.
  rewrite resolve_levels.
  intros [N0 [N1 [N2 N3]%or_else_none]%or_else_none]%or_else_none r v n Hin Hc.
  assert (n = 0 \/ n = 1 \/ n = 2 \/ n = 3)%nat as [->|[->|[->| ->]]] by (destruct Hc; auto);
    (eapply level_match_none; [|exact Hin|exact Hc]); done.
Qed.

(** * The invariant of the rule tables

    Scopes are unique, a store is in one group, a version that is no longer a
    draft is valid and frozen, a rule has at most one published version, and a
    binding holds the snapshot of a frozen version. *)

(** ** Scopes and members *)

(** A rule declares the one target of its scope, and its key names it. *)
Inductive scoped (r : ClueAllocationRule) : Prop :=
| scoped_global : ru_scope_type r = "global" -> ru_scope_key r = "global" -> scoped r
| scoped_city c : ru_scope_type r = "city" -> ru_scope_city_code r = Some c ->
    ru_scope_key r = ("city:" +:+ c)%string -> scoped r
| scoped_group g : ru_scope_type r = "store_group" -> ru_scope_store_group_id r = Some g ->
    ru_scope_key r = ("store_group:" +:+ g)%string -> scoped r
| scoped_anchor a : ru_scope_type r = "anchor_store" -> ru_scope_anchor_store_id r = Some a ->
    ru_scope_key r = ("anchor_store:" +:+ a)%string -> scoped r.

Record scopes_ok (d : ruledb) : Prop := MkScopesOk {
  so_ids : forall i r, clue_allocation_rules d !! i = Some r -> ru_rule_id r = i;
  so_scoped : forall i r, clue_allocation_rules d !! i = Some r -> scoped r;
  so_keys : forall i j r s, clue_allocation_rules d !! i = Some r -> clue_allocation_rules d !! j = Some s ->
    ru_scope_key r = ru_scope_key s -> i = j;
}.

Record members_ok (d : ruledb) : Prop := MkMembersOk {
  mo_groups : forall i g, clue_store_groups d !! i = Some g -> sg_store_group_id g = i;
  mo_stores : NoDup (clue_store_group_members d).*2;
}.

(** Two rules that cover a lead at one level are the same. *)
Lemma covers_unique d store city i j r s n : scopes_ok d -> members_ok d ->
  clue_allocation_rules d !! i = Some r -> clue_allocation_rules d !! j = Some s ->
  covers d store city r n -> covers d store city s n -> i = j.
Proof.
  intros Hs Hm Hr Hj Cr Cs. apply (so_keys d Hs i j r s Hr Hj).
  pose proof (so_scoped d Hs _ _ Hr) as Sr. pose proof (so_scoped d Hs _ _ Hj) as Ss.
  destruct Cr as [x -> _ Tr Kr|x g -> _ Ir Tr Kr|x -> _ Tr Kr|Tr]; inversion Cs; simplify_eq/=;
    destruct Sr, Ss; simplify_eq/=; try congruence.
  match goal with Ha : (?a, ?x) ∈ _, Hb : (?b, ?x) ∈ _ |- _ =>
    pose proof (fmap_NoDup_inj snd _ (a, x) (b, x) (mo_stores d Hm) Ha Hb eq_refl) end.
  congruence.
Qed.

(** ** Versions *)

Definition non_draft (v : ClueAllocationRuleVersion) : Prop :=
  rv_status v = "published" \/ rv_status v = "retired".

Definition in_range (v : pyval) (lo hi : Z) : Prop := exists z, v = PInt z /\ lo <= z <= hi.

(** What publication checks of a version and of its strategies. *)
Record valid_version (repr_of : pyval -> string) (v : ClueAllocationRuleVersion)
    (configs : list ClueAllocationStrategyConfig) : Prop := MkValid {
  va_auto : exists b, rv_auto_expiry_enabled v = PBool b;
  va_sla : rv_auto_expiry_enabled v = PBool true \/ rv_first_follow_up_sla_hours v <> PNone ->
    in_range (rv_first_follow_up_sla_hours v) 1 MAX_SLA_HOURS;
  va_protection : in_range (rv_protection_days v) 1 MAX_PROTECTION_DAYS;
  va_lookback : in_range (rv_lookback_days v) 1 MAX_LOOKBACK_DAYS;
  va_samples : in_range (rv_min_samples v) 1 MAX_MIN_SAMPLES;
  va_weights : exists a b, rv_conversion_weight v = Some a /\ rv_follow_24h_weight v = Some b
    /\ outside a 0 1 = Ok false /\ outside b 0 1 = Ok false /\ sums_to_one a b = true;
  va_types : (cf_strategy_type <$> configs) ≡ₚ STRATEGY_TYPES;
  va_configs : forall c, c ∈ configs -> exists b z, cf_enabled c = PBool b /\ cf_execution_order c = PInt z /\ 0 < z
    /\ (str_in (cf_strategy_type c) DISTANCE_STRATEGY_TYPES = true ->
          validate_distance repr_of (cf_params_json c) (cf_strategy_type c) = Ok tt);
  va_orders : NoDup ((order_key ∘ cf_execution_order) <$> configs);
  va_mode : validate_selection_mode configs = Ok tt;
}.

Lemma range_valid v name lo hi : validate_integer_range v name lo hi = Ok tt -> in_range v lo hi.
Proof.
  unfold validate_integer_range. intros H%raise_if_ok. destruct v; try done. exists z. split; [done|].
  bool_to_prop. lia.
Qed.

Lemma weight_valid w name x : validate_weight w name = Ok x -> w = Some x /\ outside x 0 1 = Ok false.
Proof.
  unfold validate_weight. destruct w as [y|]; [|done]. intros H.
  destruct (outside y 0 1) as [out|] eqn:Ho; [|done]. cbn [result_bind] in H.
  destruct out; [done|]. cbn in H. by injection H as ->.
Qed.

Lemma config_valid repr_of c : validate_config repr_of c = Ok tt ->
  exists b z, cf_enabled c = PBool b /\ cf_execution_order c = PInt z /\ 0 < z
    /\ (str_in (cf_strategy_type c) DISTANCE_STRATEGY_TYPES = true ->
          validate_distance repr_of (cf_params_json c) (cf_strategy_type c) = Ok tt).
Proof.
  unfold validate_config. cbv zeta. intros H. guards H.
  destruct (cf_enabled c) as [|b| | | | | |]; try done. destruct (cf_execution_order c) as [| |z| | | | |]; try done.
  bool_to_prop. exists b, z. split_and!; [done|done|done|]. intros Hd. by rewrite Hd in H.
Qed.

Lemma configs_valid repr_of l : validate_configs repr_of l = Ok tt ->
  forall c, c ∈ l -> validate_config repr_of c = Ok tt.
Proof.
  induction l as [|x l IH]; cbn [validate_configs]; [by intros _ c ?%elem_of_nil|].
  destruct (validate_config repr_of x) as [[]|] eqn:E; [|done]. cbn [result_bind].
  intros H c [->|Hc]%elem_of_cons; auto.
Qed.

(** The three types, each once. *)
Lemma three_types types : length types = 3%nat -> NoDup types ->
  forallb (fun t => str_in t STRATEGY_TYPES) types = true -> types ≡ₚ STRATEGY_TYPES.
Proof.
  intros Hl Hnd Hall. apply submseteq_length_Permutation; [|by rewrite Hl].
  apply NoDup_submseteq; [done|]. intros t Ht. rewrite forallb_forall in Hall.
  apply list_elem_of_In, Hall in Ht. unfold str_in in Ht. by apply bool_decide_eq_true in Ht.
Qed.

Lemma publish_valid repr_of d rule v : validate_for_publish repr_of d rule v = Ok tt ->
  valid_version repr_of v (configs_of d (rv_rule_version_id v))
  /\ (ru_scope_type rule = "global" \/ has_global_default d = true).
Proof.
  unfold validate_for_publish. cbv zeta. intros H. guards H.
  apply raise_if_ok in H. apply negb_false_iff in H, G7, G8, G9.
  repeat match goal with u : () |- _ => destruct u end.
  apply andb_true_iff in G8 as [G8 _]. apply andb_true_iff in G8 as [G8 G8'].
  apply Nat.eqb_eq in G8. apply bool_decide_eq_true in H, G9.
  apply weight_valid in G5 as [W1 W1'], G6 as [W2 W2']. split.
  - split; try (by eapply range_valid); try done.
    + destruct (rv_auto_expiry_enabled v); try done. by eexists.
    + intros Ha. apply (range_valid _ "first_follow_up_sla_hours").
      destruct (rv_auto_expiry_enabled v) as [|b| | | | | |]; try done. injection G0 as ->.
      destruct Ha as [[= ->]|Ha]; [done|]. destruct a; [done|]. destruct (rv_first_follow_up_sla_hours v); done.
    + by exists a4, a5.
    + apply three_types; [by rewrite length_fmap, G8|done|done].
    + intros c Hc. eapply config_valid, configs_valid; done.
  - apply andb_false_iff in G as [G|G]; apply negb_false_iff in G; [left; by tests|by right].
Qed.

(** ** The invariant *)

Section Invariant.
Context (repr_of : pyval -> string) (float_of : pydec -> pyval).

Record versions_ok (d : ruledb) : Prop := MkVersionsOk {
  vo_ids : forall i v, clue_allocation_rule_versions d !! i = Some v -> rv_rule_version_id v = i;
  vo_rules : forall i v, clue_allocation_rule_versions d !! i = Some v -> is_Some (rule_of d v);
  vo_status : forall i v, clue_allocation_rule_versions d !! i = Some v -> rv_status v = "draft" \/ non_draft v;
  vo_one : forall i j v w, clue_allocation_rule_versions d !! i = Some v ->
    clue_allocation_rule_versions d !! j = Some w -> is_published v = true -> is_published w = true ->
    rv_rule_id v = rv_rule_id w -> i = j;
  vo_default : forall i v, clue_allocation_rule_versions d !! i = Some v -> is_published v = true ->
    has_global_default d = true;
  vo_valid : forall i v, clue_allocation_rule_versions d !! i = Some v -> non_draft v ->
    valid_version repr_of v (configs_of d i);
}.

Definition bindings_ok (d : ruledb) : Prop :=
  forall k b, clue_lead_rule_version_bindings d !! k = Some b ->
    rb_lead_key b = k /\ exists v, clue_allocation_rule_versions d !! rb_rule_version_id b = Some v
      /\ non_draft v /\ rb_rule_version_snapshot b = rule_version_snapshot float_of d v.

Record rules_ok (d : ruledb) : Prop := MkRulesOk {
  ro_scopes : scopes_ok d;
  ro_members : members_ok d;
  ro_versions : versions_ok d;
  ro_bindings : bindings_ok d;
}.

(** What never changes again: the settings and strategies of a version that left
    the draft state, the retired state, and the bindings. *)
Record frozen (d d' : ruledb) : Prop := MkFrozen {
  fz_versions : forall i v, clue_allocation_rule_versions d !! i = Some v -> non_draft v ->
    exists v', clue_allocation_rule_versions d' !! i = Some v' /\ non_draft v'
      /\ rule_version_snapshot float_of d' v' = rule_version_snapshot float_of d v
      /\ rv_rule_id v' = rv_rule_id v
      /\ (rv_status v = "retired" -> rv_status v' = "retired");
  fz_bindings : forall k b, clue_lead_rule_version_bindings d !! k = Some b ->
    clue_lead_rule_version_bindings d' !! k = Some b;
}.

#[export] Instance frozen_refl : Reflexive frozen.
Proof. intros d. split; [|done]. intros i v Hv Hn. by exists v. Qed.
#[export] Instance frozen_trans : Transitive frozen.
Proof.
  intros a b c [H1 H2] [H3 H4]. split; [|eauto]. intros i v Hv Hn.
  destruct (H1 i v Hv Hn) as (v1 & Hv1 & Hn1 & E1 & R1 & S1).
  destruct (H3 i v1 Hv1 Hn1) as (v2 & Hv2 & Hn2 & E2 & R2 & S2).
  exists v2. split_and!; [done|done|congruence|congruence|auto].
Qed.

(** Bindings stay right when the frozen part stays. *)
Lemma bindings_frozen d d' : frozen d d' ->
  clue_lead_rule_version_bindings d' = clue_lead_rule_version_bindings d -> bindings_ok d -> bindings_ok d'.
Proof.
  intros [Hv _] E Hb k b. rewrite E. intros Hk. destruct (Hb k b Hk) as (Hkey & v & H1 & H2 & H3).
  split; [done|]. destruct (Hv _ _ H1 H2) as (v' & H4 & H5 & H6 & _). exists v'. split_and!; try done. congruence.
Qed.

Lemma has_global_iff d : has_global_default d = true <->
  exists i v r, clue_allocation_rule_versions d !! i = Some v /\ is_published v = true
    /\ rule_of d v = Some r /\ ru_scope_type r = "global".
Proof.
  unfold has_global_default. rewrite existsb_values. split.
  - intros (i & v & Hi & H). apply andb_true_iff in H as [Hp Hs]. unfold of_scope in Hs.
    destruct (rule_of d v) as [r|] eqn:Hr; [|done]. tests. exists i, v, r. done.
  - intros (i & v & r & Hi & Hp & Hr & Hs). exists i, v. split; [done|]. unfold of_scope.
    by rewrite Hp, Hr, Hs, str_eqb_refl.
Qed.

(** Tables that leave versions and configs alone, while rules may grow. *)
Lemma versions_ok_same d d' : clue_allocation_rule_versions d' = clue_allocation_rule_versions d ->
  clue_allocation_strategy_configs d' = clue_allocation_strategy_configs d ->
  clue_allocation_rules d ⊆ clue_allocation_rules d' -> versions_ok d -> versions_ok d'.
Proof.
  intros E1 E2 Hsub [H1 H2 H3 H4 H5 H6].
  assert (Hr : forall v r, rule_of d v = Some r -> rule_of d' v = Some r).
  { intros v r. unfold rule_of. intros Hr. by eapply lookup_weaken. }
  split; rewrite ?E1; try done.
  - intros i v Hi. destruct (H2 i v Hi) as [r ?]. exists r. auto.
  - intros i v Hi Hp. destruct (proj1 (has_global_iff d) (H5 i v Hi Hp)) as (j & w & r & ? & ? & ? & ?).
    apply has_global_iff. exists j, w, r. rewrite E1. auto.
  - intros i v Hi Hn. unfold configs_of. rewrite E2. by apply H6.
Qed.

Lemma frozen_same d d' : clue_allocation_rule_versions d' = clue_allocation_rule_versions d ->
  clue_allocation_strategy_configs d' = clue_allocation_strategy_configs d ->
  clue_lead_rule_version_bindings d ⊆ clue_lead_rule_version_bindings d' -> frozen d d'.
Proof.
  intros E1 E2 Hsub. split.
  - intros i v Hi Hn. exists v. rewrite E1. split_and!; try done.
    unfold rule_version_snapshot, configs_of. by rewrite E2.
  - intros k b Hk. by eapply lookup_weaken.
Qed.
End Invariant.
