(* ===== verification/RuleSteps.v ===== *)
(** * The rule operations keep the invariant *)
From S2P Require Import Prelude PyValue Jobs Clues HqPool Candidates CandidateProps Allocation RuleVersions RuleInv.
#[local] Open Scope Z_scope.

(** ** Members *)

Lemma required_text_ok v name t : required_text v name = Ok t -> clean v = Some t.
Proof. unfold required_text. destruct (clean v); [|done]. by intros [= ->]. Qed.

Lemma normalized_nodup ids l : normalized_store_ids ids = Ok l -> NoDup l.
Proof.
  unfold normalized_store_ids. intros H. guards H. injection H as <-.
  apply negb_false_iff, bool_decide_eq_true in G0. by rewrite merge_sort_Permutation.
Qed.

(** The members of other groups are disjoint from the new ones. *)
Lemma available_disjoint d ids ex : validate_store_group_members_available d ids ex = Ok tt ->
  forall g s, (g, s) ∈ clue_store_group_members d -> s ∈ ids -> ex = Some g.
Proof.
  unfold validate_store_group_members_available. intros H%raise_if_ok%negb_false_iff%is_nil_true g s Hin Hs.
  destruct (decide (ex = Some g)) as [?|Hne]; [done|exfalso].
  assert (Hf : (g, s) ∈ List.filter (fun m => str_in m.2 ids
    && match ex with Some x => negb (str_eqb m.1 x) | None => true end) (clue_store_group_members d)).
  { apply list_elem_of_In, List.filter_In. split; [by apply list_elem_of_In|]. cbn. unfold str_in.
    rewrite bool_decide_true by done. cbn. destruct ex as [x|]; [|done]. apply negb_true_iff.
    unfold str_eqb. apply bool_decide_eq_false. cbn. congruence. }
  rewrite H in Hf. by apply elem_of_nil in Hf.
Qed.

Lemma snd_pairs (g : string) (l : list string) : (pair g <$> l).*2 = l.
Proof. induction l; cbn; [done|]. by f_equal. Qed.

Lemma nodup_members (old : list (string * string)) (g : string) (ids : list string) :
  NoDup old.*2 -> NoDup ids -> (forall s, s ∈ old.*2 -> s ∉ ids) -> NoDup (old ++ (pair g <$> ids)).*2.
Proof. intros H1 H2 H3. rewrite fmap_app, snd_pairs. by apply NoDup_app. Qed.

Lemma filter_members_nodup (P : string * string -> bool) (l : list (string * string)) :
  NoDup l.*2 -> NoDup (List.filter P l).*2.
Proof. apply fmap_filter_sub. Qed.

(** ** Scopes *)

(** Decides the comparisons of literals. *)
Ltac literal_tests :=
  repeat match goal with
  | |- context [str_eqb ?a ?b] =>
      let r := eval vm_compute in (str_eqb a b) in
      lazymatch r with true => idtac | false => idtac end; change (str_eqb a b) with r
  end; cbn [negb andb orb].

(** An accepted scope names exactly one target, that of its type. *)
Lemma normalize_scope_scoped t city group anchor s id name by_ : normalize_scope t city group anchor = Ok s ->
  scoped (MkRule id name (so_scope_type s) (so_scope_key s) (so_scope_city_code s) (so_scope_store_group_id s)
            (so_scope_anchor_store_id s) by_).
Proof.
  unfold normalize_scope. destruct (str_in t SCOPE_TYPES) eqn:Ht; [|done]. cbn [negb]. cbv zeta.
  unfold str_in in Ht. apply bool_decide_eq_true in Ht. unfold SCOPE_TYPES in Ht.
  set (c := canonical_city_code city). set (g := clean group). set (a := clean anchor).
  apply elem_of_cons in Ht as [->|Ht]; [|apply elem_of_cons in Ht as [->|Ht];
    [|apply elem_of_cons in Ht as [->|Ht]; [|apply list_elem_of_singleton in Ht as ->]]];
    cbn [existsb List.find fst snd]; literal_tests; unfold empty_text; cbn [snd].
  - destruct a as [x|]; [|done]. destruct (negb (has_text (Some x))); [done|]. destruct (_ || _); [done|].
    intros [= <-]. by eapply scoped_anchor.
  - destruct c as [x|]; [|done]. destruct (negb (has_text (Some x))); [done|]. destruct (_ || _); [done|].
    intros [= <-]. by eapply scoped_city.
  - destruct (_ || _); [done|]. intros [= <-]. by apply scoped_global.
  - destruct g as [x|]; [|done]. destruct (negb (has_text (Some x))); [done|]. destruct (_ || _); [done|].
    intros [= <-]. by eapply scoped_group.
Qed.

Section Steps.
Context (repr_of : pyval -> string) (float_of : pydec -> pyval).

#[local] Notation rules_ok := (rules_ok repr_of float_of).
#[local] Notation frozen := (frozen float_of).
#[local] Notation versions_ok := (versions_ok repr_of).

(** An operation on the groups alone. *)
Lemma groups_effect d d' : rules_ok d -> members_ok d' ->
  clue_allocation_rules d' = clue_allocation_rules d ->
  clue_allocation_rule_versions d' = clue_allocation_rule_versions d ->
  clue_allocation_strategy_configs d' = clue_allocation_strategy_configs d ->
  clue_lead_rule_version_bindings d' = clue_lead_rule_version_bindings d -> rules_ok d' /\ frozen d d'.
Proof.
  intros [H1 H2 H3 H4] Hm E1 E2 E3 E4.
  assert (Hf : frozen d d') by (by apply frozen_same; rewrite ?E4).
  split; [|done]. split; [destruct H1; split; by rewrite E1|done| |by apply (bindings_frozen _ d)].
  by apply (versions_ok_same _ d); rewrite ?E1.
Qed.

Lemma create_group_effect d id name members by_ now d' g : rules_ok d ->
  create_store_group d id name members by_ now = Ok (d', g) -> rules_ok d' /\ frozen d d'.
Proof.
  intros Hok H. unfold create_store_group in H. cbv zeta in H. guards H. injection H as <- <-.
  apply groups_effect; try done. destruct (ro_members _ _ _ Hok) as [M1 M2].
  repeat match goal with u : () |- _ => destruct u end. split; cbn.
  - intros i x. destruct (decide (i = "store-group-" +:+ id)%string) as [->|Hne].
    + rewrite lookup_insert_eq. by intros [= <-].
    + rewrite lookup_insert_ne by done. apply M1.
  - apply nodup_members; [done|by eapply normalized_nodup|].
    intros s ([g' s'] & -> & Hin)%list_elem_of_fmap Hs.
    by apply (available_disjoint _ _ _ G3 _ _ Hin) in Hs.
Qed.

Lemma replace_group_effect d id members now d' g : rules_ok d ->
  replace_store_group_members d id members now = Ok (d', g) -> rules_ok d' /\ frozen d d'.
Proof.
  intros Hok H. unfold replace_store_group_members in H.
  destruct (clue_store_groups d !! id) as [g0|] eqn:Hg; [|done]. guards H. cbv zeta in H. injection H as <- <-.
  apply groups_effect; try done. destruct (ro_members _ _ _ Hok) as [M1 M2].
  repeat match goal with u : () |- _ => destruct u end. split; cbn.
  - intros i x. destruct (decide (i = id)) as [->|Hne].
    + rewrite lookup_insert_eq. intros [= <-]. cbn. by apply M1.
    + rewrite lookup_insert_ne by done. apply M1.
  - apply nodup_members; [by apply filter_members_nodup|by eapply normalized_nodup|].
    intros s ([g' s'] & -> & [Hin Hk]%list_elem_of_In%List.filter_In)%list_elem_of_fmap Hs.
    apply list_elem_of_In in Hin. apply (available_disjoint _ _ _ G1 _ _ Hin) in Hs as [= <-].
    cbn in Hk. by rewrite str_eqb_refl in Hk.
Qed.

Lemma create_rule_effect d id name t city group anchor by_ d' r1 : rules_ok d ->
  create_rule d id name t city group anchor by_ = Ok (d', r1) -> rules_ok d' /\ frozen d d'.
Proof.
  intros [[S1 S2 S3] H2 H3 H4] H. unfold create_rule in H. cbv zeta in H. guards H. injection H as <- _.
  apply bool_decide_eq_false, eq_None_not_Some in G5. cbn.
  match goal with |- context [<[?i := ?x]> (clue_allocation_rules d)] => set (rid := i) in *; set (r0 := x) end.
  assert (Hf : frozen d (d <| clue_allocation_rules := <[rid := r0]> (clue_allocation_rules d) |>)) by (by apply frozen_same).
  split; [|done]. split; [|by destruct H2; split| |by apply (bindings_frozen _ d)].
  - assert (Hnew : forall i r, clue_allocation_rules d !! i = Some r -> ru_scope_key r <> ru_scope_key r0).
    { intros i r Hr E. assert (existsb (fun r => str_eqb (ru_scope_key r) (so_scope_key a0)) (values (clue_allocation_rules d)) = true);
        [|congruence]. apply existsb_values. exists i, r. split; [done|]. rewrite E. apply str_eqb_refl. }
    split; cbn.
    + intros i r. destruct (decide (i = rid)) as [->|Hne]; rewrite ?lookup_insert_eq, ?lookup_insert_ne by done;
        [by intros [= <-]|apply S1].
    + intros i r. destruct (decide (i = rid)) as [->|Hne]; rewrite ?lookup_insert_eq, ?lookup_insert_ne by done; [|apply S2].
      intros [= <-]. by apply (normalize_scope_scoped a city group anchor).
    + intros i j r s. destruct (decide (i = rid)) as [->|Hi], (decide (j = rid)) as [->|Hj];
        rewrite ?lookup_insert_eq, ?lookup_insert_ne by done; try done.
      * intros [= <-] Hs E. by destruct (Hnew _ _ Hs).
      * intros Hs [= <-] E. by destruct (Hnew _ _ Hs).
      * apply S3.
  - apply (versions_ok_same _ d); try done. cbn. by apply insert_subseteq.
Qed.

(** ** Drafts *)

(** Replacing the strategies of a version leaves the others'. *)
Lemma config_rows_version new_id i id l rows : config_rows repr_of new_id i id l = Ok rows ->
  forall c, c ∈ rows -> cf_rule_version_id c = id.
Proof.
  revert i rows. induction l as [|x l IH]; intros i rows; cbn [config_rows].
  { intros [= <-]. by intros c ?%elem_of_nil. }
  intros H. guards H. injection H as <-. intros c [->|Hc]%elem_of_cons; [|by eapply IH].
  unfold config_row in G. destruct x; try done. destruct (dict_get_default _ _ _); try done. cbv zeta in G.
  destruct (cf_execution_order _); try done; by injection G as <-.
Qed.

Lemma configs_of_filter d d' j :
  List.filter (fun c => str_eqb (cf_rule_version_id c) j) (clue_allocation_strategy_configs d')
  = List.filter (fun c => str_eqb (cf_rule_version_id c) j) (clue_allocation_strategy_configs d) ->
  configs_of d' j = configs_of d j.
Proof. unfold configs_of. by intros ->. Qed.

(** Dropping the strategies of one version leaves those of another. *)
Lemma filter_other_version id j l : j <> id ->
  List.filter (fun c => str_eqb (cf_rule_version_id c) j)
    (List.filter (fun c => negb (str_eqb (cf_rule_version_id c) id)) l)
  = List.filter (fun c => str_eqb (cf_rule_version_id c) j) l.
Proof.
  intros Hne. induction l as [|c l IH]; cbn; [done|].
  destruct (str_eqb (cf_rule_version_id c) id) eqn:E; cbn; rewrite IH; [|done].
  tests. rewrite E. unfold str_eqb. by rewrite bool_decide_false.
Qed.

Lemma replace_configs_other d new_id id cfg d' : replace_strategy_configs repr_of d new_id id cfg = Ok d' ->
  (exists l, d' = d <| clue_allocation_strategy_configs := l |>)
  /\ forall j, j <> id -> configs_of d' j = configs_of d j.
Proof.
  unfold replace_strategy_configs. destruct cfg; try done. intros H. cbv zeta in H. guards H. injection H as <-.
  split; [by eexists|]. intros j Hne. apply configs_of_filter. cbn. rewrite List.filter_app, filter_other_version by done.
  rewrite (proj2 (lfilter_nil_iff _ a)); [apply app_nil_r|].
  intros c Hc. unfold str_eqb. rewrite (config_rows_version _ _ _ _ _ G _ Hc).
  by rewrite bool_decide_false.
Qed.

(** A change that touches only drafts. *)
Lemma drafts_effect d d' : rules_ok d ->
  (exists vs cs, d' = d <| clue_allocation_rule_versions := vs |> <| clue_allocation_strategy_configs := cs |>) ->
  (forall i v, clue_allocation_rule_versions d !! i = Some v -> non_draft v ->
     clue_allocation_rule_versions d' !! i = Some v /\ configs_of d' i = configs_of d i) ->
  (forall i v, clue_allocation_rule_versions d' !! i = Some v ->
     clue_allocation_rule_versions d !! i = Some v
     \/ (rv_status v = "draft" /\ rv_rule_version_id v = i /\ is_Some (rule_of d v))) ->
  rules_ok d' /\ frozen d d'.
Proof.
  intros [H1 H2 [V1 V2 V3 V4 V5 V6] H4] (vs & cs & Ed) Hkeep Hnew.
  assert (Hr : forall v, rule_of d' v = rule_of d v) by (by rewrite Ed).
  assert (Hpub : forall i v, clue_allocation_rule_versions d' !! i = Some v -> non_draft v ->
    clue_allocation_rule_versions d !! i = Some v).
  { intros i v Hi Hn. destruct (Hnew i v Hi) as [?|(E & _)]; [done|]. destruct Hn; congruence. }
  assert (Hp : forall v, is_published v = true -> non_draft v) by (intros v Hv; left; unfold is_published in Hv; by tests).
  assert (Hf : frozen d d').
  { split; [|by rewrite Ed]. intros i v Hi Hn. destruct (Hkeep i v Hi Hn) as [Hi' Hc]. exists v. split_and!; try done.
    unfold rule_version_snapshot. by rewrite (V1 i v Hi), Hc. }
  split; [|done]. split; [rewrite Ed; by destruct H1; split|rewrite Ed; by destruct H2; split| |].
  2:{ apply (bindings_frozen _ d); [done|by rewrite Ed|done]. }
  split.
  - intros i v Hi. destruct (Hnew i v Hi) as [?|(_ & ? & _)]; [by apply V1|done].
  - intros i v Hi. rewrite Hr. destruct (Hnew i v Hi) as [?|(_ & _ & ?)]; [by eapply V2|done].
  - intros i v Hi. destruct (Hnew i v Hi) as [?|(? & _)]; [by eapply V3|by left].
  - intros i j v w Hi Hj Pv Pw E. apply (V4 i j v w); auto.
  - intros i v Hi Hpv. destruct (proj1 (has_global_iff d) (V5 i v (Hpub i v Hi (Hp v Hpv)) Hpv)) as (j & w & r & J1 & J2 & J3 & J4).
    apply has_global_iff. exists j, w, r. rewrite Hr. split_and!; try done. by apply Hkeep; auto.
  - intros i v Hi Hn. apply Hpub in Hi; [|done]. destruct (Hkeep i v Hi Hn) as [_ ->]. by apply V6.
Qed.

Lemma require_draft_ok v : require_draft v = Ok tt -> rv_status v = "draft".
Proof. intros H%raise_if_ok%negb_false_iff. by tests. Qed.

Lemma draft_not_frozen v : rv_status v = "draft" -> non_draft v -> False.
Proof. intros E [H|H]; congruence. Qed.

Lemma create_version_effect d id new_id rule a b c cw fw l m cfg by_ now d' v : rules_ok d ->
  create_rule_version repr_of d id new_id rule a b c cw fw l m cfg by_ now = Ok (d', v) -> rules_ok d' /\ frozen d d'.
Proof.
  intros Hok H. unfold create_rule_version in H.
  destruct (clue_allocation_rules d !! rule) as [r|] eqn:Hr; [|done]. cbv zeta in H. guards H. injection H as <- <-.
  apply bool_decide_eq_false, eq_None_not_Some in G1. cbn [rv_rule_version_id] in G1.
  match type of G2 with replace_strategy_configs _ (put_version ?x _) _ _ _ = _ => set (v0 := x) in * end.
  apply replace_configs_other in G2 as [[cs ->] Hcf].
  apply drafts_effect; [done|by eexists _, _| |].
  - intros i v Hi Hn. assert (Hne : i <> rv_rule_version_id v0) by (cbn; congruence).
    split; [cbn; by rewrite lookup_insert_ne|]. by apply Hcf.
  - intros i v. cbn. destruct (decide (i = rv_rule_version_id v0)) as [->|Hne].
    + rewrite lookup_insert_eq. intros [= <-]. right. split_and!; [done|done|].
      unfold rule_of. cbn. rewrite (so_ids d (ro_scopes _ _ _ Hok) _ _ Hr). by eexists.
    + rewrite lookup_insert_ne by done. auto.
Qed.

Lemma update_version_effect d new_id id changes now d' v : rules_ok d ->
  update_rule_version repr_of d new_id id changes now = Ok (d', v) -> rules_ok d' /\ frozen d d'.
Proof.
  intros Hok H. unfold update_rule_version in H.
  destruct (clue_allocation_rule_versions d !! id) as [v0|] eqn:Hv; [|done]. cbv zeta in H. guards H.
  injection H as <- <-. destruct a. apply require_draft_ok in G.
  pose proof (vo_ids _ _ (ro_versions _ _ _ Hok) _ _ Hv) as Hid.
  destruct (vo_rules _ _ (ro_versions _ _ _ Hok) _ _ Hv) as [r Hr].
  assert (Hcf : (exists l, a2 = d <| clue_allocation_strategy_configs := l |>)
    /\ forall j, j <> id -> configs_of a2 j = configs_of d j).
  { destruct (dict_lookup "strategy_configs" changes) as [cfg|].
    - rewrite <- Hid. by eapply replace_configs_other.
    - injection G3 as <-. split; [|done]. exists (clue_allocation_strategy_configs d). by destruct d. }
  destruct Hcf as [[l ->] Hcf].
  match goal with |- context [put_version ?x _] => set (v1 := x) in * end.
  apply drafts_effect; [done|by eexists _, _| |].
  - intros i v Hi Hn. assert (Hne : i <> id) by (intros ->; rewrite Hv in Hi; injection Hi as <-; by eapply draft_not_frozen).
    split; [cbn; rewrite lookup_insert_ne by (by rewrite Hid); done|]. by apply Hcf.
  - intros i v. cbn. rewrite Hid. destruct (decide (i = id)) as [->|Hne].
    + rewrite lookup_insert_eq. intros [= <-]. right. split_and!; [done|done|by exists r].
    + rewrite lookup_insert_ne by done. auto.
Qed.

Lemma delete_version_effect d id d' : rules_ok d -> delete_rule_version d id = Ok d' -> rules_ok d' /\ frozen d d'.
Proof.
  intros Hok H. unfold delete_rule_version in H.
  destruct (clue_allocation_rule_versions d !! id) as [v0|] eqn:Hv; [|done]. guards H. injection H as <-.
  destruct a. apply require_draft_ok in G.
  apply drafts_effect; [done|by eexists _, _| |].
  - intros i v Hi Hn. assert (Hne : i <> id) by (intros ->; rewrite Hv in Hi; injection Hi as <-; by eapply draft_not_frozen).
    split; [cbn; by rewrite lookup_delete_ne|]. apply configs_of_filter. by apply filter_other_version.
  - intros i v Hi. cbn in Hi. apply lookup_delete_Some in Hi as [_ Hi]. auto.
Qed.

(** ** Changes of status *)

(** [v'] is [v] with another status: what a snapshot shows of it is the same. *)
Record same_settings (v v' : ClueAllocationRuleVersion) : Prop := MkSame {
  sm_id : rv_rule_version_id v' = rv_rule_version_id v;
  sm_rule : rv_rule_id v' = rv_rule_id v;
  sm_snapshot : forall d, rule_version_snapshot float_of d v' = rule_version_snapshot float_of d v;
  sm_valid : forall cs, valid_version repr_of v cs -> valid_version repr_of v' cs;
}.

#[export] Instance same_settings_refl : Reflexive same_settings.
Proof. by intros v. Qed.

Definition restatus (d : ruledb) (i : string) (v v' : ClueAllocationRuleVersion) : Prop :=
  same_settings v v' /\ (v' = v \/ (non_draft v' /\ valid_version repr_of v' (configs_of d i)
                                  /\ (rv_status v = "retired" -> rv_status v' = "retired"))).

Lemma restatus_effect d vs : rules_ok d ->
  (forall i, option_Forall2 (restatus d i) (clue_allocation_rule_versions d !! i) (vs !! i)) ->
  (forall i j v w, vs !! i = Some v -> vs !! j = Some w -> is_published v = true -> is_published w = true ->
     rv_rule_id v = rv_rule_id w -> i = j) ->
  (exists i v r, vs !! i = Some v /\ is_published v = true /\ rule_of d v = Some r /\ ru_scope_type r = "global") ->
  let d' := d <| clue_allocation_rule_versions := vs |> in rules_ok d' /\ frozen d d'.
Proof.
  intros [H1 H2 [V1 V2 V3 V4 V5 V6] H4] Hall Hone Hdef d'.
  assert (Hback : forall i v', vs !! i = Some v' ->
    exists v, clue_allocation_rule_versions d !! i = Some v /\ restatus d i v v').
  { intros i v' Hi. specialize (Hall i). rewrite Hi in Hall. inversion Hall as [v ? Hv Ev|]; subst. eauto. }
  assert (Hf : frozen d d').
  { split; [|done]. intros i v Hi Hn. specialize (Hall i). rewrite Hi in Hall.
    inversion Hall as [? v' [[S1 S2 S3 S4] Hc] Ev Ev'|]; subst. exists v'. split_and!; [done| |exact (S3 d)|done|].
    - destruct Hc as [->|(? & _)]; done.
    - destruct Hc as [->|(_ & _ & ?)]; done. }
  split; [|done]. split; [by destruct H1; split|by destruct H2; split| |by apply (bindings_frozen _ d)].
  split.
  - intros i v' Hi. destruct (Hback i v' Hi) as (v & Hv & [[S1 _ _ _] _]). rewrite S1. by apply V1.
  - intros i v' Hi. destruct (Hback i v' Hi) as (v & Hv & [[_ S2 _ _] _]). change (is_Some (rule_of d v')).
    unfold rule_of. rewrite S2. by apply (V2 i v).
  - intros i v' Hi. destruct (Hback i v' Hi) as (v & Hv & [_ [->|(? & _)]]); [by eapply V3|by right].
  - exact Hone.
  - intros _ _ _ _. apply has_global_iff. exact Hdef.
  - intros i v' Hi Hn. change (valid_version repr_of v' (configs_of d i)).
    destruct (Hback i v' Hi) as (v & Hv & [_ [->|(_ & ? & _)]]); [by apply (V6 i)|done].
Qed.

Lemma retire_same by_ now v : same_settings v (retire by_ now v).
Proof. split; try done. intros cs []. by split. Qed.

Lemma retire_restatus d i v by_ now : versions_ok d -> clue_allocation_rule_versions d !! i = Some v ->
  is_published v = true -> restatus d i v (retire by_ now v).
Proof.
  intros Hok Hv Hp. pose proof (retire_same by_ now v) as Hs. split; [done|right]. split_and!; [by right| |done].
  apply Hs. apply (vo_valid _ _ Hok); [done|]. left. unfold is_published in Hp. by tests.
Qed.

Lemma restatus_refl d i v : restatus d i v v.
Proof. split; [reflexivity|by left]. Qed.

Lemma published_not_retired by_ now v : is_published (retire by_ now v) = true -> False.
Proof. done. Qed.

Lemma retire_version_effect d id by_ now d' v : rules_ok d ->
  retire_rule_version d id by_ now = Ok (d', v) -> rules_ok d' /\ frozen d d'.
Proof.
  intros Hok H. unfold retire_rule_version in H. pose proof (ro_versions _ _ _ Hok) as Hvo.
  destruct (clue_allocation_rule_versions d !! id) as [v0|] eqn:Hv; [|done]. guards H.
  destruct (clue_allocation_rules d !! rv_rule_id v0) as [rule|] eqn:Hr; [|done]. guards H. injection H as <- <-.
  apply negb_false_iff in G. pose proof (vo_ids _ _ Hvo _ _ Hv) as Hid.
  unfold put_version. cbn [rv_rule_version_id]. change (rv_rule_version_id (retire by_ now v0)) with (rv_rule_version_id v0).
  rewrite Hid. apply restatus_effect; [done|..].
  - intros i. destruct (decide (i = id)) as [->|Hne].
    + rewrite Hv, lookup_insert_eq. constructor. by apply retire_restatus.
    + rewrite lookup_insert_ne by done. destruct (clue_allocation_rule_versions d !! i); constructor.
      apply restatus_refl.
  - intros i j v w. destruct (decide (i = id)) as [->|Hi]; [rewrite lookup_insert_eq; intros [= <-] _ []%published_not_retired|].
    destruct (decide (j = id)) as [->|Hj]; [rewrite lookup_insert_eq; intros _ [= <-] _ []%published_not_retired|].
    rewrite !lookup_insert_ne by done. apply (vo_one _ _ Hvo).
  - destruct (proj1 (has_global_iff d) (vo_default _ _ Hvo _ _ Hv G)) as (j & w & r & J1 & J2 & J3 & J4).
    exists j, w, r. split_and!; try done. rewrite lookup_insert_ne; [done|]. intros <-.
    rewrite Hv in J1. injection J1 as <-. unfold rule_of in J3. rewrite Hr in J3. injection J3 as <-.
    by rewrite J4 in G0.
Qed.

Lemma publish_version_effect d id by_ now d' v : rules_ok d ->
  publish_rule_version repr_of d id by_ now = Ok (d', v) -> rules_ok d' /\ frozen d d'.
Proof.
  intros Hok H. unfold publish_rule_version in H. pose proof (ro_versions _ _ _ Hok) as Hvo.
  destruct (clue_allocation_rule_versions d !! id) as [v0|] eqn:Hv; [|done]. guards H. destruct a.
  destruct (clue_allocation_rules d !! rv_rule_id v0) as [rule|] eqn:Hr; [|done]. guards H. destruct a.
  cbv zeta in H. injection H as <- <-. apply require_draft_ok in G. apply publish_valid in G0 as [Hval Hdef].
  pose proof (vo_ids _ _ Hvo _ _ Hv) as Hid. rewrite Hid in Hval.
  pose proof (so_ids d (ro_scopes _ _ _ Hok) _ _ Hr) as Hrid.
  unfold put_version. match goal with |- context [<[rv_rule_version_id ?x := _]> _] => set (v1 := x) end.
  change (rv_rule_version_id v1) with (rv_rule_version_id v0). rewrite Hid. cbn [clue_allocation_rule_versions].
  set (up := fun x => if str_eqb (rv_rule_id x) (ru_rule_id rule) && is_published x then retire by_ now x else x).
  assert (Hup : forall x, is_published (up x) = true -> up x = x /\ is_published x = true /\ rv_rule_id x <> rv_rule_id v0).
  { intros x. unfold up. destruct (str_eqb (rv_rule_id x) (ru_rule_id rule)) eqn:E; cbn [andb].
    - destruct (is_published x) eqn:Px; [done|congruence].
    - intros Px. split_and!; [done..|]. rewrite <- Hrid. intros E'. by rewrite E', str_eqb_refl in E. }
  assert (Hlook : forall i w, <[id:=v1]> (up <$> clue_allocation_rule_versions d) !! i = Some w -> is_published w = true ->
    (i = id /\ w = v1) \/ (i <> id /\ clue_allocation_rule_versions d !! i = Some w /\ rv_rule_id w <> rv_rule_id v0)).
  { intros i w Hw Pw. destruct (decide (i = id)) as [->|Hne].
    - rewrite lookup_insert_eq in Hw. injection Hw as <-. by left.
    - rewrite lookup_insert_ne, lookup_fmap in Hw by done. destruct (clue_allocation_rule_versions d !! i) as [x|] eqn:Hx; [|done].
      injection Hw as <-. destruct (Hup x Pw) as (-> & _ & ?). by right. }
  apply (restatus_effect d (<[id:=v1]> (up <$> clue_allocation_rule_versions d))); [done|..].
  - intros i. destruct (decide (i = id)) as [->|Hne].
    + rewrite Hv, lookup_insert_eq. constructor. split.
      { split; try done. intros cs []. by split. }
      right. split_and!; [by left|by destruct Hval; split|congruence].
    + rewrite lookup_insert_ne, lookup_fmap by done. destruct (clue_allocation_rule_versions d !! i) as [x|] eqn:Hx; constructor.
      unfold up. destruct (str_eqb _ _ && is_published x) eqn:E; [|apply restatus_refl].
      apply andb_true_iff in E as [_ E]. by apply retire_restatus.
  - intros i j x y Hx Hy Px Py E.
    destruct (Hlook i x Hx Px) as [[-> ->]|(_ & Hi & Ni)], (Hlook j y Hy Py) as [[-> ->]|(_ & Hj & Nj)]; try done.
    by apply (vo_one _ _ Hvo i j x y).
  - destruct Hdef as [Hg|(j & w & r & J1 & J2 & J3 & J4)%has_global_iff].
    + exists id, v1, rule. by rewrite lookup_insert_eq.
    + destruct (decide (ru_scope_type rule = "global")) as [Hg|Hg]; [exists id, v1, rule; by rewrite lookup_insert_eq|].
      exists j, w, r. split_and!; try done.
      assert (Hne : j <> id) by (intros ->; rewrite Hv in J1; injection J1 as <-; unfold is_published in J2; by rewrite G in J2).
      rewrite lookup_insert_ne, lookup_fmap, J1 by done. cbn. f_equal. unfold up.
      destruct (str_eqb (rv_rule_id w) (ru_rule_id rule)) eqn:E; [|done]. tests. exfalso. apply Hg.
      unfold rule_of in J3. rewrite E, Hrid, Hr in J3. by injection J3 as ->.
Qed.

(** ** Binding *)

Lemma published_non_draft v : is_published v = true -> non_draft v.
Proof. unfold is_published. intros H. left. by tests. Qed.

Lemma bind_effect d key store city d' b1 : rules_ok d ->
  bind_lead float_of d key store city = Ok (d', b1) -> rules_ok d' /\ frozen d d'.
Proof.
  intros Hok H. unfold bind_lead in H. destruct (required_text _ _) as [k|]; [|done]. cbn [result_bind] in H.
  destruct (clue_lead_rule_version_bindings d !! k) as [b0|] eqn:Hk; [injection H as <- _; by split|].
  destruct (resolve_published_rule_version d store city) as [[rule v]|] eqn:Hres; [|done].
  cbv zeta in H. injection H as <- _. apply resolve_some in Hres as [((i & Hi) & Hp & Hr)%elem_of_published _].
  match goal with |- context [<[k := ?x]> _] => set (b0 := x) in * end.
  destruct Hok as [H1 H2 H3 H4].
  split; [|apply frozen_same; try done; by apply insert_subseteq].
  split; [by destruct H1; split|by destruct H2; split|by apply (versions_ok_same _ d)|].
  intros k' b. cbn. destruct (decide (k' = k)) as [->|Hne].
  - rewrite lookup_insert_eq. intros [= <-]. split; [done|]. exists v.
    pose proof (vo_ids _ _ H3 _ _ Hi) as Hid. cbn. rewrite Hid. split_and!; [done|by apply published_non_draft|done].
  - rewrite lookup_insert_ne by done. apply H4.
Qed.
End Steps.
