(* ===== verification/RuleThms.v ===== *)
(** * What the allocation rules promise

    Histories of the rule operations, resolution and binding, publication, and
    the binder of the allocation engine. *)
From S2P Require Import Prelude PyValue Jobs Clues HqPool Candidates CandidateProps Allocation RuleVersions RuleInv RuleSteps.
#[local] Open Scope Z_scope.

Section Thms.
Context (repr_of : pyval -> string) (float_of : pydec -> pyval).

#[local] Notation rules_ok := (rules_ok repr_of float_of).
#[local] Notation frozen := (frozen float_of).
#[local] Notation bind_lead := (bind_lead float_of).

(** One operation that returns. *)
Inductive rule_step (d d' : ruledb) : Prop :=
| step_create_group id name members by_ now g :
    create_store_group d id name members by_ now = Ok (d', g) -> rule_step d d'
| step_replace_group id members now g :
    replace_store_group_members d id members now = Ok (d', g) -> rule_step d d'
| step_create_rule id name t city group anchor by_ r :
    create_rule d id name t city group anchor by_ = Ok (d', r) -> rule_step d d'
| step_create_version id new_id rule auto sla days cw fw lookback samples configs by_ now v :
    create_rule_version repr_of d id new_id rule auto sla days cw fw lookback samples configs by_ now = Ok (d', v) ->
    rule_step d d'
| step_update_version new_id id changes now v :
    update_rule_version repr_of d new_id id changes now = Ok (d', v) -> rule_step d d'
| step_delete_version id : delete_rule_version d id = Ok d' -> rule_step d d'
| step_publish id by_ now v : publish_rule_version repr_of d id by_ now = Ok (d', v) -> rule_step d d'
| step_retire id by_ now v : retire_rule_version d id by_ now = Ok (d', v) -> rule_step d d'
| step_bind key store city b : bind_lead d key store city = Ok (d', b) -> rule_step d d'.

Lemma rule_step_effect d d' : rule_step d d' -> rules_ok d -> rules_ok d' /\ frozen d d'.
Proof.
  intros [] Hok; [by eapply create_group_effect|by eapply replace_group_effect|by eapply create_rule_effect
    |by eapply create_version_effect|by eapply update_version_effect|by eapply delete_version_effect
    |by eapply publish_version_effect|by eapply retire_version_effect|by eapply bind_effect].
Qed.

Lemma rule_steps_effect d d' : rtc rule_step d d' -> rules_ok d -> rules_ok d' /\ frozen d d'.
Proof.
  induction 1 as [d|d d1 d' Hs _ IH]; intros Hok; [split; [done|reflexivity]|].
  destruct (rule_step_effect _ _ Hs Hok) as [H1 F1]. destruct (IH H1) as [H2 F2]. split; [done|by etransitivity].
Qed.

(** C30: published rules are immutable and bindings are final.  Through any sequence
    of rule operations from consistent tables the tables stay consistent; a version
    that left the draft state keeps its settings and strategies for ever, and a
    retired one stays retired; a rule has at most one published version; a bound
    lead keeps its binding; and every binding holds exactly the present content of
    its version, which is no draft. *)
Theorem rule_history d d' (Hok : rules_ok d) (Hsteps : rtc rule_step d d') :
  rules_ok d'
  /\ (forall i v, clue_allocation_rule_versions d !! i = Some v -> non_draft v ->
       exists v', clue_allocation_rule_versions d' !! i = Some v' /\ non_draft v'
         /\ rule_version_snapshot float_of d' v' = rule_version_snapshot float_of d v
         /\ (rv_status v = "retired" -> rv_status v' = "retired"))
  /\ (forall i j v w, clue_allocation_rule_versions d' !! i = Some v -> clue_allocation_rule_versions d' !! j = Some w ->
       is_published v = true -> is_published w = true -> rv_rule_id v = rv_rule_id w -> i = j)
  /\ (forall k b, clue_lead_rule_version_bindings d !! k = Some b ->
       clue_lead_rule_version_bindings d' !! k = Some b
       /\ exists v, clue_allocation_rule_versions d' !! rb_rule_version_id b = Some v /\ non_draft v
            /\ rb_rule_version_snapshot b = rule_version_snapshot float_of d' v).
Proof.
  destruct (rule_steps_effect _ _ Hsteps Hok) as [Hok' [F1 F2]]. split_and!; [done| | |].
  - intros i v Hi Hn. destruct (F1 i v Hi Hn) as (v' & ? & ? & ? & _ & ?). by exists v'.
  - apply Hok'.
  - intros k b Hk. split; [auto|]. by destruct (ro_bindings _ _ _ Hok' k b (F2 k b Hk)) as [_ ?].
Qed.

Lemma published_unique d r v r' v' : rules_ok d -> (r, v) ∈ published_rows d -> (r', v') ∈ published_rows d ->
  ru_rule_id r = ru_rule_id r' -> r = r' /\ v = v'.
Proof.
  intros [[S1 _ _] _ Hv _] ((i & Hi) & Pv & Rv)%elem_of_published ((j & Hj) & Pw & Rw)%elem_of_published E.
  unfold rule_of in Rv, Rw. rewrite (S1 _ _ Rv), (S1 _ _ Rw) in E. rewrite E in Rv.
  pose proof (vo_one _ _ Hv i j v v' Hi Hj Pv Pw E) as ->. split; congruence.
Qed.

(** The most specific published rule wins, and it is unique.  The resolved
    version is the published version of a rule that covers the lead, at the first
    level of anchor store, store group, city and global at which any published rule
    does; and no other published rule covers the lead at that level. *)
Lemma resolution_most_specific d store city r v
    (Hok : rules_ok d) (Hres : resolve_published_rule_version d store city = Some (r, v)) :
  is_published v = true /\ rule_of d v = Some r /\
  exists n, covers d store city r n /\
    forall r' v' m, (r', v') ∈ published_rows d -> covers d store city r' m ->
      (n < m)%nat \/ (n = m /\ r' = r /\ v' = v).
Proof.
  apply resolve_some in Hres as (Hin & n & Hc & Hmin). pose proof Hin as ((i & Hi) & Hp & Hr)%elem_of_published.
  split; [done|]. split; [done|]. exists n. split; [done|]. intros r' v' m Hin' Hc'.
  destruct (Nat.lt_trichotomy n m) as [?|[<-|?]]; [by left| |specialize (Hmin _ _ _ Hin' Hc'); lia].
  right. split; [done|]. pose proof Hin' as (_ & _ & Hr')%elem_of_published.
  pose proof Hok as [Hs Hm _ _]. apply (published_unique d r' v' r v Hok Hin' Hin).
  rewrite (so_ids d Hs _ _ Hr), (so_ids d Hs _ _ Hr'). by apply (covers_unique d store city _ _ r' r n).
Qed.

Lemma required_key key : strip key <> "" -> required_text (Some key) "lead_key" = Ok (strip key).
Proof.
  intros Hk. unfold required_text, clean, str_eqb. by rewrite bool_decide_false.
Qed.

(** When binding fails.  A blank key is refused; otherwise a lead that is not
    bound yet is refused exactly when no rule version is published at all, because
    the global default cannot be retired once anything is published; a bound lead
    is returned its binding and nothing changes. *)
Lemma binding_total d key store city (Hok : rules_ok d) :
  (strip key = "" -> bind_lead d key store city = Raise (invalid "lead_key is required"))
  /\ (strip key <> "" -> forall b, clue_lead_rule_version_bindings d !! strip key = Some b ->
       bind_lead d key store city = Ok (d, b))
  /\ (strip key <> "" -> clue_lead_rule_version_bindings d !! strip key = None ->
       ((forall i v, clue_allocation_rule_versions d !! i = Some v -> is_published v = false)
        /\ bind_lead d key store city = Raise (unresolved "no published clue allocation rule matches this lead"))
       \/ (exists d' b, bind_lead d key store city = Ok (d', b)
           /\ clue_lead_rule_version_bindings d' = <[strip key := b]> (clue_lead_rule_version_bindings d))).
Proof.
  unfold RuleVersions.bind_lead. split_and!.
  - intros Hk. unfold required_text, clean. by rewrite Hk.
  - intros Hk b Hb. rewrite required_key by done. cbn [result_bind]. by rewrite Hb.
  - intros Hk Hb. rewrite required_key by done. cbn [result_bind]. rewrite Hb.
    destruct (resolve_published_rule_version d store city) as [[r v]|] eqn:Hres; [right; by eexists _, _|left].
    split; [|done]. intros i v Hi. destruct (is_published v) eqn:Hp; [exfalso|done].
    pose proof (vo_default _ _ (ro_versions _ _ _ Hok) _ _ Hi Hp) as (j & w & r & Hj & Pw & Rw & Sw)%has_global_iff.
    apply (resolve_none _ _ _ Hres r w 3); [apply elem_of_published; eauto|by apply covers_global].
Qed.

(** Publishing supersedes.  A version is published only when it is valid; it is
    then the one published version of its rule, the former one is retired, and a
    global default is in place. *)
Lemma publish_supersedes d id by_ now d' v
    (Hok : rules_ok d) (Hpub : publish_rule_version repr_of d id by_ now = Ok (d', v)) :
  clue_allocation_rule_versions d' !! id = Some v /\ is_published v = true
  /\ valid_version repr_of v (configs_of d' id) /\ has_global_default d' = true
  /\ (forall j w, clue_allocation_rule_versions d !! j = Some w -> is_published w = true ->
       rv_rule_id w = rv_rule_id v ->
       exists w', clue_allocation_rule_versions d' !! j = Some w' /\ rv_status w' = "retired")
  /\ (forall j w, clue_allocation_rule_versions d' !! j = Some w -> is_published w = true ->
       rv_rule_id w = rv_rule_id v -> j = id).
Proof.
  destruct (publish_version_effect _ float_of _ _ _ _ _ _ Hok Hpub) as [Hok' Hf].
  pose proof (ro_versions _ _ _ Hok') as Hvo. pose proof (ro_versions _ _ _ Hok) as Hvo0.
  assert (Hv : clue_allocation_rule_versions d' !! id = Some v /\ is_published v = true).
  { unfold publish_rule_version in Hpub. destruct (clue_allocation_rule_versions d !! id) as [v0|] eqn:Hv0; [|done].
    guards Hpub. destruct (clue_allocation_rules d !! rv_rule_id v0); [|done]. guards Hpub. cbv zeta in Hpub.
    injection Hpub as <- <-. cbn. rewrite (vo_ids _ _ Hvo0 _ _ Hv0). by rewrite lookup_insert_eq. }
  destruct Hv as [Hv Hp]. split_and!; try done.
  - apply (vo_valid _ _ Hvo); [done|by apply published_non_draft].
  - by eapply (vo_default _ _ Hvo).
  - intros j w Hj Pw E. destruct (fz_versions _ _ _ Hf j w Hj (published_non_draft _ Pw)) as (w' & Hw' & Hn & _ & E' & _).
    exists w'. split; [done|]. destruct Hn as [Hn|?]; [exfalso|done].
    assert (Pw' : is_published w' = true) by (unfold is_published; rewrite Hn; done).
    assert (j = id) as -> by (apply (vo_one _ _ Hvo j id w' v); congruence).
    unfold publish_rule_version in Hpub. rewrite Hj in Hpub. guards Hpub. destruct a.
    apply require_draft_ok in G. unfold is_published in Pw. by rewrite G in Pw.
  - intros j w Hj Pw E. by apply (vo_one _ _ Hvo j id w v).
Qed.
End Thms.

(** ** Accepted scopes *)

(** The scope a request describes: its type, and its one target. *)
Inductive describes (city group anchor : option string) : string -> scope -> Prop :=
| desc_global : has_text city = false -> group = None -> anchor = None ->
    describes city group anchor "global" (MkScope "global" "global" None None None)
| desc_city c : city = Some c -> c <> "" -> group = None -> anchor = None ->
    describes city group anchor "city" (MkScope "city" ("city:" +:+ c) (Some c) None None)
| desc_group g : has_text city = false -> group = Some g -> anchor = None ->
    describes city group anchor "store_group" (MkScope "store_group" ("store_group:" +:+ g) None (Some g) None)
| desc_anchor a : has_text city = false -> group = None -> anchor = Some a ->
    describes city group anchor "anchor_store" (MkScope "anchor_store" ("anchor_store:" +:+ a) None None (Some a)).

Lemma clean_text o : has_text (clean o) = bool_decide (clean o <> None).
Proof.
  unfold clean. destruct o as [s|]; [|done]. cbv zeta. destruct (str_eqb (strip s) "") eqn:E; [done|].
  rewrite has_text_Some; [|intros E'; by rewrite E' in E]. by rewrite bool_decide_true.
Qed.

Lemma text_none o : has_text (clean o) = false <-> clean o = None.
Proof.
  rewrite clean_text. destruct (clean o); [rewrite bool_decide_true by done|rewrite bool_decide_false by tauto]; done.
Qed.

(** Which scopes a rule may have.  A scope is accepted exactly when its type is
    one of the four and the request names the target of that type and no other
    (none for the global scope), after trimming and dropping the city suffix; the
    key is then the type and the target.  Every other request is refused with a
    validation error. *)
Lemma scope_accepted_iff t city group anchor :
  (forall s, normalize_scope t city group anchor = Ok s
     <-> describes (canonical_city_code city) (clean group) (clean anchor) t s)
  /\ (forall e, normalize_scope t city group anchor = Raise e -> exists msg, e = invalid msg).
Proof.
  unfold normalize_scope. destruct (str_in t SCOPE_TYPES) eqn:Ht; cbn [negb].
  2:{ split; [|intros e [= <-]; eauto]. intros s. split; [done|]. intros Hd. exfalso. revert Ht.
      destruct Hd; vm_compute; discriminate. }
  unfold str_in in Ht. apply bool_decide_eq_true in Ht. unfold SCOPE_TYPES in Ht. cbv zeta.
  pose proof (text_none group) as Tg. pose proof (text_none anchor) as Ta.
  set (c := canonical_city_code city) in *. set (g := clean group) in *. set (a := clean anchor) in *. clearbody c g a.
  apply elem_of_cons in Ht as [->|Ht]; [|apply elem_of_cons in Ht as [->|Ht];
    [|apply elem_of_cons in Ht as [->|Ht]; [|apply list_elem_of_singleton in Ht as ->]]];
    cbn [existsb List.find fst snd]; literal_tests; unfold empty_text; cbn [snd];
    destruct (has_text c) eqn:Hc, (has_text g) eqn:Hg, (has_text a) eqn:Ha; cbn [negb andb orb];
    (split; [|intros e [= <-]; eauto]); intros s; split; try done;
    try (intros Hd; inversion Hd; subst; done).
  all: try (apply has_text_inv in Hc as (x & -> & ?)); try (apply has_text_inv in Hg as (y & -> & ?));
    try (apply has_text_inv in Ha as (z & -> & ?)).
  all: try (destruct Tg as [Tg _]; specialize (Tg eq_refl)); try (destruct Ta as [Ta _]; specialize (Ta eq_refl)).
  all: subst; try (intros [= <-]; by constructor).
  all: intros Hd; inversion Hd; subst; try done; by rewrite has_text_Some in * by done.
Qed.

(** * From the rule tables to the engine

    The engine reads the strategies of a rule back from the snapshot of a
    binding; the rules are the binder it uses. *)

(** The strategy a stored row describes. *)
Definition row_strategy (c : ClueAllocationStrategyConfig) : StrategyConfig :=
  MkStrategy (cf_strategy_type c) (truthy (cf_enabled c)) (order_key (cf_execution_order c)) (cf_params_json c).

(** The row of a type among rows with distinct types. *)
Lemma raw_config_fold (l : list ClueAllocationStrategyConfig) t found :
  NoDup (cf_strategy_type <$> l) ->
  fold_left (fun found v => match v with
                            | PDict c => if is_str (dict_get "strategy_type" c) t then c else found
                            | _ => found
                            end) (config_json <$> l) found
  = match List.find (fun c => str_eqb (cf_strategy_type c) t) l with
    | Some c => as_dict (config_json c)
    | None => found
    end.
Proof.
  revert found. induction l as [|c l IH]; intros found Hnd; [done|].
  rewrite fmap_cons in Hnd. apply NoDup_cons in Hnd as [Hc Hnd]. cbn [fmap list_fmap fold_left List.find].
  rewrite IH by done.
  assert (Hrow : match config_json c with
                 | PDict c0 => if is_str (dict_get "strategy_type" c0) t then c0 else found
                 | _ => found
                 end = if str_eqb (cf_strategy_type c) t then as_dict (config_json c) else found) by reflexivity.
  rewrite Hrow. destruct (str_eqb (cf_strategy_type c) t) eqn:E; [|done]. tests. subst t.
  destruct (List.find _ l) as [x|] eqn:Hf; [|done]. apply List.find_some in Hf as [Hin E]. tests. exfalso. apply Hc.
  rewrite <- E. apply list_elem_of_fmap. exists x. split; [done|by apply list_elem_of_In].
Qed.

Section Roundtrip.
Context (repr_of : pyval -> string) (float_of : pydec -> pyval).

(** The engine's strategy of a type is the stored row of that type. *)
Lemma strategy_of_snapshot d v i c : valid_version repr_of v (configs_of d (rv_rule_version_id v)) ->
  c ∈ configs_of d (rv_rule_version_id v) ->
  strategy_of (rule_version_snapshot float_of d v) i (cf_strategy_type c) = row_strategy c.
Proof.
  intros Hval Hc. set (l := configs_of d (rv_rule_version_id v)) in *.
  assert (Hnd : NoDup (cf_strategy_type <$> l)).
  { rewrite (va_types _ _ _ Hval). apply (bool_decide_eq_true_1 (NoDup STRATEGY_TYPES)). vm_compute. reflexivity. }
  assert (Hraw : raw_config (rule_version_snapshot float_of d v) (cf_strategy_type c) = as_dict (config_json c)).
  { unfold raw_config. change (dict_get_default "strategy_configs" _ _) with (PList (config_json <$> l)).
    cbv iota. rewrite raw_config_fold by done. destruct (List.find _ l) as [x|] eqn:Hf.
    - apply List.find_some in Hf as [Hin E]. tests. apply list_elem_of_In in Hin.
      by rewrite (fmap_NoDup_inj cf_strategy_type l x c Hnd Hin Hc E).
    - apply list_elem_of_In in Hc. pose proof (List.find_none _ _ Hf _ Hc) as E. cbn in E. by rewrite str_eqb_refl in E. }
  unfold strategy_of. cbv zeta. rewrite Hraw. destruct (va_configs _ _ _ Hval c Hc) as (b & z & Eb & Ez & _).
  unfold row_strategy. cbn. by rewrite Eb, Ez.
Qed.

(** Rows with distinct orders are in strictly increasing order, whatever is read
    off them. *)
Lemma rows_sorted {B} (f : ClueAllocationStrategyConfig -> B) (R : B -> B -> Prop) l :
  (forall a b, order_key (cf_execution_order a) < order_key (cf_execution_order b) -> R (f a) (f b)) ->
  StronglySorted config_before l -> NoDup ((order_key ∘ cf_execution_order) <$> l) ->
  StronglySorted R (f <$> l).
Proof.
  intros Hf. induction 1 as [|c l Hs IH Hall]; intros Hnd; cbn; [constructor|].
  rewrite fmap_cons in Hnd. apply NoDup_cons in Hnd as [Hc Hnd]. constructor; [by apply IH|].
  rewrite Forall_fmap, Forall_forall in *. intros x Hx. apply Hf.
  assert (order_key (cf_execution_order c) <> order_key (cf_execution_order x)).
  { intros E. apply Hc. apply list_elem_of_fmap. by exists x. }
  destruct (Hall x Hx) as [?|[? _]]; [done|congruence].
Qed.

#[export] Instance config_before_total : Total config_before.
Proof.
  intros a b. unfold config_before.
  destruct (Z.lt_trichotomy (order_key (cf_execution_order a)) (order_key (cf_execution_order b))) as [?|[?|?]];
    [by left; left| |by right; left].
  destruct (String.le_total (cf_strategy_config_id a) (cf_strategy_config_id b)); [left|right]; right; auto.
Qed.

#[export] Instance config_before_trans : Transitive config_before.
Proof.
  intros a b c [H1|[H1 H1']] [H2|[H2 H2']]; [left; lia..|]. right. split; [lia|]. by etransitivity.
Qed.

Lemma strategies_of_snapshot d v : valid_version repr_of v (configs_of d (rv_rule_version_id v)) ->
  strategy_configs (rule_version_snapshot float_of d v) = row_strategy <$> configs_of d (rv_rule_version_id v).
Proof.
  intros Hval. set (l := configs_of d (rv_rule_version_id v)) in *.
  assert (Hperm : imap (fun i t => strategy_of (rule_version_snapshot float_of d v) (Z.of_nat i + 1) t) FIXED_STRATEGY_TYPES
                  ≡ₚ row_strategy <$> l).
  { trans ((strategy_of (rule_version_snapshot float_of d v) 0) <$> FIXED_STRATEGY_TYPES).
    - apply reflexive_eq. assert (Hty : forall i t, t ∈ FIXED_STRATEGY_TYPES ->
        strategy_of (rule_version_snapshot float_of d v) i t = strategy_of (rule_version_snapshot float_of d v) 0 t).
      { intros i t Ht. change FIXED_STRATEGY_TYPES with STRATEGY_TYPES in Ht.
        rewrite <- (va_types _ _ _ Hval) in Ht. apply list_elem_of_fmap in Ht as (c & -> & Hc).
        by rewrite !strategy_of_snapshot. }
      rewrite <- imap_const. apply imap_ext. intros i t Ht%list_elem_of_lookup_2. by apply Hty.
    - change FIXED_STRATEGY_TYPES with STRATEGY_TYPES. rewrite <- (va_types _ _ _ Hval), <- list_fmap_compose.
      apply reflexive_eq. apply list_fmap_ext. intros i c Hc%list_elem_of_lookup_2. cbn. by apply strategy_of_snapshot. }
  unfold strategy_configs. apply (StronglySorted_unique_strong strategy_before).
  - intros a b Ha Hb [H1|[H1 _]] [H2|[H2 _]]; try lia.
    rewrite merge_sort_Permutation, Hperm in Ha.
    apply list_elem_of_fmap in Ha as (x & -> & Hx), Hb as (y & -> & Hy). cbn in H1.
    by rewrite (fmap_NoDup_inj (order_key ∘ cf_execution_order) l x y (va_orders _ _ _ Hval) Hx Hy H1).
  - apply StronglySorted_merge_sort; apply _.
  - apply rows_sorted; [by left|apply StronglySorted_merge_sort; apply _|apply Hval].
  - by rewrite merge_sort_Permutation.
Qed.

(** The engine sees what was published.  The strategies the engine reads from
    the snapshot of any binding are exactly the rows stored for the bound version,
    in their execution order: the three fixed types, with the switches, orders and
    parameters that were published. *)
Lemma binding_strategies_roundtrip d k b
    (Hok : rules_ok repr_of float_of d) (Hb : clue_lead_rule_version_bindings d !! k = Some b) :
  strategy_configs (rb_rule_version_snapshot b) = row_strategy <$> configs_of d (rb_rule_version_id b)
  /\ (sc_strategy_type <$> strategy_configs (rb_rule_version_snapshot b)) ≡ₚ STRATEGY_TYPES
  /\ StronglySorted Z.lt (sc_execution_order <$> strategy_configs (rb_rule_version_snapshot b)).
Proof.
  destruct (ro_bindings _ _ _ Hok k b Hb) as (_ & v & Hv & Hn & ->).
  pose proof (ro_versions _ _ _ Hok) as Hvo. pose proof (vo_valid _ _ Hvo _ _ Hv Hn) as Hval.
  rewrite <- (vo_ids _ _ Hvo _ _ Hv) in Hval |- *. rewrite strategies_of_snapshot by done.
  rewrite <- !list_fmap_compose. split_and!; [done|apply Hval|].
  apply rows_sorted; [done|apply StronglySorted_merge_sort; apply _|apply Hval].
Qed.

(** ** The binder *)

#[export] Instance rule_binder : RuleBinder ruledb.
Proof.
  refine (MkRuleBinder ruledb (bind_lead float_of) _).
  intros s key store city s' b H store' city'. unfold bind_lead in *.
  destruct (required_text (Some key) "lead_key") as [k|]; [|done]. cbn [result_bind] in *.
  destruct (clue_lead_rule_version_bindings s !! k) as [b0|] eqn:Hk; [injection H as <- <-; by rewrite Hk|].
  destruct (resolve_published_rule_version s store city) as [[r v]|]; [|done]. cbv zeta in H.
  injection H as <- <-. cbn. by rewrite lookup_insert_eq.
Defined.
End Roundtrip.
