(* ===== verification/AllocationWitness.v ===== *)
(** * Rules and allocation on concrete tables *)
From S2P Require Import Prelude PyValue Jobs Clues HqPool ClueStatus FollowUp FollowUpInv FollowUpProps FollowUpUndo Candidates CandidateProps Allocation AllocationProps ClueHistory AllocationThms RuleVersions RuleInv RuleSteps RuleThms.
#[local] Open Scope Z_scope.

(** ** Rules: a global default with one published version *)

Definition wfloat (x : pydec) : pyval := PDec x.
Definition state_of {A} (d : ruledb) (r : result (ruledb * A)) : ruledb :=
  match r with Ok (d', _) => d' | Raise _ => d end.

Definition rules0 : ruledb := MkRuleDb {["s1"; "s2"]} ∅ [] ∅ ∅ [] ∅.
Definition rules1 : ruledb :=
  state_of rules0 (create_rule rules0 "g" (Some "default") (Some "global") None None None None).

Definition wconfig (t : string) (order : Z) (km : pyval) : pyval :=
  PDict [("strategy_type", PStr t); ("enabled", PBool true); ("execution_order", PInt order);
         ("params", PDict [("max_distance_km", km)])].
Definition wconfigs : pyval :=
  PList [wconfig "sales_store_priority" 1 (PInt 10); wconfig "nearby_city_optimization" 2 (PInt 15);
         wconfig "city_fallback" 3 (PInt 500)].
Definition wids (i : nat) : string := str_of_Z (Z.of_nat i).

Definition rules2 : ruledb :=
  state_of rules1 (create_rule_version wrepr rules1 "v1" wids "rule-g" (PBool true) (PInt 24) (PInt 7)
    (PStr "0.6") (PStr "0.40") (PInt 30) (PInt 5) wconfigs PNone 5).
Definition rules3 : ruledb := state_of rules2 (publish_rule_version wrepr rules2 "rule-version-v1" None 6).
Definition rules4 : ruledb := state_of rules3 (bind_lead wfloat rules3 "lead-1" (Some "s1") (Some "c1")).

Lemma rules0_ok : rules_ok wrepr wfloat rules0.
Proof.
  split; [split; cbn; intros *; rewrite lookup_empty; done|split; cbn; [intros *; by rewrite lookup_empty|constructor]
    |split; cbn; intros *; rewrite lookup_empty; done|]. intros k b. cbn. by rewrite lookup_empty.
Qed.

Lemma rules_built : rtc (rule_step wrepr wfloat) rules0 rules4.
Proof.
  apply (rtc_l _ _ rules1).
  { eapply (step_create_rule _ _ _ _ "g" (Some "default") (Some "global") None None None None). vm_compute. reflexivity. }
  apply (rtc_l _ _ rules2).
  { eapply (step_create_version _ _ _ _ "v1" wids "rule-g" (PBool true) (PInt 24) (PInt 7)
      (PStr "0.6") (PStr "0.40") (PInt 30) (PInt 5) wconfigs PNone 5). vm_compute. reflexivity. }
  apply (rtc_l _ _ rules3).
  { eapply (step_publish _ _ _ _ "rule-version-v1" None 6). vm_compute. reflexivity. }
  apply rtc_once. eapply (step_bind _ _ _ _ "lead-1" (Some "s1") (Some "c1")). vm_compute. reflexivity.
Qed.

Lemma rules_steps_ok d : rtc (rule_step wrepr wfloat) rules0 d -> rules_ok wrepr wfloat d.
Proof. intros H. by destruct (rule_steps_effect _ _ _ _ H rules0_ok). Qed.

Lemma rules4_ok : rules_ok wrepr wfloat rules4.
Proof. apply rules_steps_ok, rules_built. Qed.

Lemma rules2_ok : rules_ok wrepr wfloat rules2.
Proof.
  apply rules_steps_ok. apply (rtc_l _ _ rules1).
  { eapply (step_create_rule _ _ _ _ "g" (Some "default") (Some "global") None None None None). vm_compute. reflexivity. }
  apply rtc_once. eapply (step_create_version _ _ _ _ "v1" wids "rule-g" (PBool true) (PInt 24) (PInt 7)
      (PStr "0.6") (PStr "0.40") (PInt 30) (PInt 5) wconfigs PNone 5). vm_compute. reflexivity.
Qed.

Lemma rule_history_witness :
  rules_ok wrepr wfloat rules4 /\ exists v, clue_allocation_rule_versions rules4 !! "rule-version-v1" = Some v.
Proof.
  split; [apply (rule_history wrepr wfloat rules0 rules4 rules0_ok rules_built)|].
  eexists. vm_compute. reflexivity.
Defined.

Definition wrule : ClueAllocationRule := MkRule "rule-g" "default" "global" "global" None None None None.

Lemma resolution_most_specific_witness :
  exists v n, resolve_published_rule_version rules4 (Some "s1") (Some "c1") = Some (wrule, v)
    /\ is_published v = true /\ covers rules4 (Some "s1") (Some "c1") wrule n.
Proof.
  destruct (resolve_published_rule_version rules4 (Some "s1") (Some "c1")) as [[r v]|] eqn:E; [|vm_compute in E; discriminate].
  pose proof E as E'. vm_compute in E'. injection E' as Er _. subst r.
  destruct (resolution_most_specific wrepr wfloat rules4 (Some "s1") (Some "c1") _ v rules4_ok E) as (Hp & _ & n & Hc & _).
  exists v, n. split; [reflexivity|]. split; [exact Hp|exact Hc].
Defined.

Lemma binding_total_witness :
  exists d' b, bind_lead wfloat rules4 " lead-2 " None None = Ok (d', b)
    /\ bind_lead wfloat rules4 "  " None None = Raise (invalid "lead_key is required").
Proof.
  destruct (binding_total wrepr wfloat rules4 " lead-2 " None None rules4_ok) as (_ & _ & H).
  destruct (binding_total wrepr wfloat rules4 "  " None None rules4_ok) as (H' & _ & _).
  destruct H as [[H _]|(d' & b & H & _)]; [vm_compute; discriminate|vm_compute; reflexivity| |].
  - exfalso. destruct (clue_allocation_rule_versions rules4 !! "rule-version-v1") as [v|] eqn:E; [|vm_compute in E; discriminate].
    pose proof (H _ _ E) as Hp. vm_compute in E. injection E as <-. vm_compute in Hp. discriminate.
  - exists d', b. split; [exact H|]. apply H'. vm_compute. reflexivity.
Defined.

Lemma publish_supersedes_witness :
  exists d' v, publish_rule_version wrepr rules2 "rule-version-v1" None 6 = Ok (d', v)
    /\ is_published v = true /\ has_global_default d' = true.
Proof.
  destruct (publish_rule_version wrepr rules2 "rule-version-v1" None 6) as [[d' v]|] eqn:E; [|vm_compute in E; discriminate].
  destruct (publish_supersedes wrepr wfloat rules2 _ _ _ d' v rules2_ok E) as (_ & H1 & _ & H2 & _).
  exists d', v. auto.
Defined.

Lemma binding_strategies_roundtrip_witness :
  exists b, clue_lead_rule_version_bindings rules4 !! "lead-1" = Some b
    /\ strategy_configs (rb_rule_version_snapshot b) = row_strategy <$> configs_of rules4 (rb_rule_version_id b).
Proof.
  destruct (clue_lead_rule_version_bindings rules4 !! "lead-1") as [b|] eqn:E; [|vm_compute in E; discriminate].
  exists b. split; [reflexivity|]. apply (binding_strategies_roundtrip wrepr wfloat rules4 "lead-1" b rules4_ok E).
Defined.

(** ** Allocation: a new lead and two stores of its city *)

Definition alead : ClueMasterLead :=
  MkLead "lead-1" 10 (Some "order-1") (Some "201") "active" "order" (Some 10) "active"
    (Some "complete_pool") "pending" None None false None None
    (Some "poi-1") (Some "s1") (Some "douyin_follow_poi") None (Some "p1") (Some "city") (Some "c1")
    (Some 113000000) (Some 23000000) true (Some 1) 10.

Definition wstore (id : string) (active : bool) : DimStore :=
  MkStore id id active (Some "p1") (Some "city") (Some "c1") (Some 113100000) (Some 23100000) true true "valid".

Definition winputs : allocation_inputs :=
  MkInputs [wstore "s1" true; wstore "s2" true] [] (fun _ => [Some "s2"]).
Definition closed_inputs : allocation_inputs :=
  MkInputs [wstore "s1" false; wstore "s2" false] [] (fun _ => []).

Definition adb : cluedb := MkClueDb {["lead-1" := alead]} ∅ ∅ [] [] [] [].

(** A digest that tells the attempts of one lead apart. *)
Definition whex (s : string) : string := text (rev (chars s)).

Definition wallocate (inputs : allocation_inputs) (rules : ruledb) (d : cluedb) (now : instant)
  : result (ruledb * cluedb * AllocationResult) :=
  @allocate wrepr whex (fun _ => "") open_evidence id (fun _ _ _ _ => inject_Z 3) id PInt (fun _ => PNone)
    ruledb (rule_binder wfloat) inputs rules d " lead-1 " "formal" None None now None None None None.

Lemma adb_ok : alloc_ok adb.
Proof.
  split.
  - split; cbn.
    + intros k l [<- <-]%lookup_singleton_Some. split; [done|]. vm_compute. discriminate.
    + intros i r. by rewrite lookup_empty.
    + intros o c. by rewrite lookup_empty.
    + intros i r. by rewrite lookup_empty.
  - split; cbn; [constructor|]. by intros k a b ?%elem_of_nil.
  - split; cbn; [constructor|constructor|by intros x i ?%elem_of_nil|by intros x ?%elem_of_nil].
Qed.

Lemma winputs_nodup : NoDup (ds_store_id <$> in_stores winputs).
Proof. apply (bool_decide_eq_true_1 (NoDup ["s1"; "s2"])). vm_compute. reflexivity. Qed.

Lemma allocation_selects_best_witness :
  exists rules' d' res, wallocate winputs rules3 adb 50 = Ok (rules', d', res)
    /\ exists s, ar_selected_store_id res = Some (ds_store_id s) /\ ds_is_active s = true.
Proof.
  destruct (wallocate winputs rules3 adb 50) as [[[rules' d'] res]|] eqn:E; [|vm_compute in E; discriminate].
  exists rules', d', res. split; [reflexivity|]. pose proof E as E'. vm_compute in E'. injection E' as _ _ Er.
  destruct (@allocation_selects_best wrepr whex (fun _ => "") open_evidence id (fun _ _ _ _ => inject_Z 3) id PInt
    (fun _ => PNone) ruledb (rule_binder wfloat) winputs rules3 adb " lead-1 " "formal" None None 50 None None None None
    rules' d' res adb_ok winputs_nodup E) as (? & ? & ? & ? & ? & ? & cand & s & _ & _ & _ & _ & _ & _ & _ & _ & [_ Hch] & Hs & _);
    [by rewrite <- Er|by rewrite <- Er|].
  exists s. split; [exact Hs|apply Hch].
Defined.

Lemma allocation_idempotent_witness :
  exists rules' d' res ids, wallocate winputs rules3 adb 50 = Ok (rules', d', res)
    /\ wallocate winputs rules' d' 60
       = Ok (rules', d', MkAllocation "lead-1" "assigned" (Some "current_self_owned_round_exists")
                           (ar_selected_store_id res) (ar_assignment_round_id res) ids).
Proof.
  destruct (wallocate winputs rules3 adb 50) as [[[rules' d'] res]|] eqn:E; [|vm_compute in E; discriminate].
  exists rules', d', res. pose proof E as E'. vm_compute in E'. injection E' as _ _ Er.
  destruct (ar_assignment_round_id res) as [rid|] eqn:Hrid; [|rewrite <- Er in Hrid; discriminate].
  destruct (@allocation_idempotent wrepr whex (fun _ => "") open_evidence id (fun _ _ _ _ => inject_Z 3) id PInt
    (fun _ => PNone) ruledb (rule_binder wfloat) winputs rules3 adb " lead-1 " "formal" None None 50 None None None None
    rules' d' res rid winputs rules' " lead-1 " "formal" None None 60 None None None None adb_ok winputs_nodup E)
    as [ids Hids]; [by rewrite <- Er|by rewrite <- Er|exact Hrid|exact (lookup_empty rid)|reflexivity|vm_compute; reflexivity| |].
  { intros o. unfold terminal_evidence_of. by destruct (str_eqb (strip o) ""). }
  exists ids. split; [reflexivity|]. exact Hids.
Defined.

Lemma headquarters_outcome_witness :
  exists rules' d' res, wallocate closed_inputs rules3 adb 50 = Ok (rules', d', res)
    /\ at_headquarters adb d' "lead-1" res.
Proof.
  destruct (wallocate closed_inputs rules3 adb 50) as [[[rules' d'] res]|] eqn:E; [|vm_compute in E; discriminate].
  exists rules', d', res. split; [reflexivity|]. pose proof E as E'. vm_compute in E'. injection E' as _ _ Er.
  apply (@headquarters_outcome wrepr whex (fun _ => "") open_evidence id (fun _ _ _ _ => inject_Z 3) id PInt
    (fun _ => PNone) ruledb (rule_binder wfloat) closed_inputs rules3 adb " lead-1 " "formal" None None 50 None None None None
    rules' d' res adb_ok E). by rewrite <- Er.
Defined.

Lemma clue_history_witness :
  exists rules' d', rtc (@clue_step wrepr whex (fun _ => "") open_evidence id (fun _ _ _ _ => inject_Z 3) id PInt
      (fun _ => PNone) ruledb (rule_binder wfloat)) (rules3, adb) (rules', d')
    /\ alloc_ok d' /\ length (clue_allocation_decisions d') = 1%nat.
Proof.
  destruct (wallocate winputs rules3 adb 50) as [[[rules' d'] res]|] eqn:E; [|vm_compute in E; discriminate].
  assert (Hs : rtc (@clue_step wrepr whex (fun _ => "") open_evidence id (fun _ _ _ _ => inject_Z 3) id PInt
      (fun _ => PNone) ruledb (rule_binder wfloat)) (rules3, adb) (rules', d')).
  { apply rtc_once. eapply step_allocate. exact E. }
  exists rules', d'. split; [exact Hs|]. split.
  - apply (clue_history wrepr whex (fun _ => "") open_evidence id (fun _ _ _ _ => inject_Z 3) id PInt (fun _ => PNone)
      rules3 adb rules' d' adb_ok Hs).
  - vm_compute in E. injection E as _ <- _. reflexivity.
Defined.
