(* ===== verification/Quota.v ===== *)
(** * Request quotas

    src/dy_data/douyin_rate_limits.py (endpoint limits, profiles and their
    overrides, the pacing governor and the governor with daily quotas),
    apps/worker/douyin_api_quota.py (the durable ledger of daily reservations) and
    apps/worker/priority_budget.py (the governor of the priority scheduler).

    A finite [float] is the rational number it denotes, and the arithmetic of the
    pacing is exact.  An instant is a number of microseconds in UTC; Shanghai is
    eight hours ahead.  [urlsplit] stands for the host and path of an absolute
    URL, and is none for its [ValueError]. *)
From Stdlib Require Export QArith.
From S2P Require Import Prelude PyValue Jobs Clues Candidates.
#[local] Open Scope Z_scope.

Definition ENDPOINT_ORDERS := "orders".
Definition ENDPOINT_VERIFY_RECORDS := "verify_records".
Definition ENDPOINT_CERTIFICATES := "certificates".
Definition ENDPOINT_REFUNDS := "refunds".
Definition ENDPOINT_SHOP_POIS := "shop_pois".
Definition ENDPOINT_CLUES := "clues".
Definition ENDPOINT_PRODUCT_LIST := "product_list".
Definition ENDPOINT_PRODUCT_DETAIL := "product_detail".
Definition ENDPOINT_PRODUCT_SKUS := "product_skus".
Definition PRODUCTION_APP_ID := "aws9nunf0av2egfw".

Definition quota_configuration (msg : string) : exn := NamedError "QuotaConfigurationError" msg.

(** ** Dictionaries that keep the order of their keys *)

Fixpoint aget {A} (k : string) (l : list (string * A)) : option A :=
  match l with
  | [] => None
  | (k', v) :: l' => if str_eqb k k' then Some v else aget k l'
  end.

Fixpoint aset {A} (k : string) (v : A) (l : list (string * A)) : list (string * A) :=
  match l with
  | [] => [(k, v)]
  | (k', v') :: l' => if str_eqb k k' then (k', v) :: l' else (k', v') :: aset k v l'
  end.

(** ** Limits *)

Record EndpointLimit := MkLimit {
  el_requests_per_window : Q;
  el_window_seconds : Q;
  el_soft_quota : option Q;
  el_daily_quota : option Z;
}.

Definition effective_quota (l : EndpointLimit) : Q := default (el_requests_per_window l) (el_soft_quota l).

Definition Qlt_bool (a b : Q) : bool := negb (Qle_bool b a).

(** [EndpointLimit.__post_init__] *)
Definition check_limit (l : EndpointLimit) : result EndpointLimit :=
  let* _ := raise_if (Qle_bool (el_requests_per_window l) 0)
              (quota_configuration "requests_per_window must be positive") in
  let* _ := raise_if (Qle_bool (el_window_seconds l) 0) (quota_configuration "window_seconds must be positive") in
  let* _ := raise_if (match el_soft_quota l with
                      | Some q => Qle_bool q 0 || Qlt_bool (el_requests_per_window l) q
                      | None => false
                      end) (quota_configuration "soft_quota must be between 0 and the platform quota") in
  let* _ := raise_if (match el_daily_quota l with
                      | Some n => (n <=? 0) || Qlt_bool (effective_quota l) (inject_Z n)
                      | None => false
                      end) (quota_configuration "daily_quota must be between 0 and the effective quota") in
  Ok l.

(** [EndpointLimit.interval_seconds] *)
Definition interval_seconds (l : EndpointLimit) : Q :=
  if bool_decide (is_Some (el_daily_quota l)) && Qle_bool (inject_Z 86400) (el_window_seconds l) then 0%Q
  else (el_window_seconds l / effective_quota l)%Q.

Definition PRODUCTION_ENDPOINT_LIMITS : list (string * EndpointLimit) :=
  [(ENDPOINT_ORDERS, MkLimit (inject_Z 20) 1 None None);
   (ENDPOINT_VERIFY_RECORDS, MkLimit (inject_Z 100) 1 None None);
   (ENDPOINT_CERTIFICATES, MkLimit (inject_Z 35) 1 None None);
   (ENDPOINT_REFUNDS, MkLimit (inject_Z 100) (inject_Z 86400) (Some (inject_Z 90)) (Some 90));
   (ENDPOINT_SHOP_POIS, MkLimit (inject_Z 400) 1 None None);
   (ENDPOINT_CLUES, MkLimit (inject_Z 100) (inject_Z 60) (Some (inject_Z 90)) None);
   (ENDPOINT_PRODUCT_LIST, MkLimit (inject_Z 20) 1 None None);
   (ENDPOINT_PRODUCT_DETAIL, MkLimit (inject_Z 20) 1 None None);
   (ENDPOINT_PRODUCT_SKUS, MkLimit (inject_Z 20) 1 None None)].

(** ** Endpoint keys *)

(** A character of [A-Za-z0-9._:/-]. *)
Definition endpoint_char (c : Ascii.ascii) : bool :=
  let n := Ascii.nat_of_ascii c in
  (((65 <=? n) && (n <=? 90)) || ((97 <=? n) && (n <=? 122)) || ((45 <=? n) && (n <=? 58)) || (n =? 95))%nat.

(** [re.sub(r"[^A-Za-z0-9._:/-]+", "_", s)]: each run of other characters is one underscore. *)
Fixpoint underscore_runs (in_run : bool) (s : list Ascii.ascii) : list Ascii.ascii :=
  match s with
  | [] => []
  | c :: s' =>
      if endpoint_char c then c :: underscore_runs false s'
      else if in_run then underscore_runs true s' else Ascii.ascii_of_nat 95 :: underscore_runs true s'
  end.

(** [s.split(c, 1)[0]] *)
Fixpoint before_char (n : nat) (s : list Ascii.ascii) : list Ascii.ascii :=
  match s with
  | [] => []
  | c :: s' => if char_is c n then [] else c :: before_char n s'
  end.

Definition without_query (s : list Ascii.ascii) : list Ascii.ascii := before_char 35 (before_char 63 s).

Definition key_of (limit : nat) (s : list Ascii.ascii) : string :=
  match take limit (underscore_runs false s) with
  | [] => "unknown"
  | l => text l
  end.

(** [sub in s] *)
Fixpoint has_sub (sub : string) (s : list Ascii.ascii) : bool :=
  startswith sub (text s) || match s with [] => false | _ :: s' => has_sub sub s' end.

(** [_safe_endpoint_key] of the ledger *)
Definition safe_endpoint_key (value : string) : string := key_of 128 (without_query (chars (strip value))).

(** ** Tables *)

(** [_next_allowed_at]: from when on the next request of an endpoint may go out. *)
Notation pacing := (gmap string Q).

(** Environment, application, account, endpoint and business date. *)
Notation quota_key := (string * string * string * string * Z)%type.

Record DouyinApiQuotaUsage := MkUsage {
  qu_request_count : Z;
  qu_effective_limit : Z;
  qu_reset_at : instant;
  qu_created_at : instant;
  qu_updated_at : instant;
}.

Notation ledger := (gmap quota_key DouyinApiQuotaUsage).

Section Quota.
Variable repr_of : pyval -> string.
(** Nearest [float] of a decimal. *)
Variable to_float : Q -> Q.
Variable urlsplit : string -> option (string * string).

(** [sanitize_endpoint] *)
Definition sanitize_endpoint (endpoint : string) : string :=
  let value := strip endpoint in
  let value :=
    match urlsplit value with
    | Some (host, path) =>
        if has_sub "://" (chars value) || startswith "//" value then chars (host +:+ path)
        else without_query (chars value)
    | None => without_query (chars value)
    end in
  key_of 240 value.

(** ** Profiles *)

Record DouyinEndpointProfile := MkProfile {
  ep_app_id : string;
  ep_endpoints : list (string * EndpointLimit);
  ep_default_interval_seconds : Q;
}.

(** [DouyinEndpointProfile.__post_init__] *)
Definition make_profile (app_id : string) (endpoints : list (string * EndpointLimit)) (interval : Q)
  : result DouyinEndpointProfile :=
  let* _ := raise_if (Qlt_bool interval 0) (quota_configuration "default request interval cannot be negative") in
  Ok (MkProfile app_id (foldl (fun m e => aset (sanitize_endpoint e.1) e.2 m) [] endpoints) interval).

(** [limit_for] *)
Definition limit_for (p : DouyinEndpointProfile) (endpoint_key : string) : option EndpointLimit :=
  aget (sanitize_endpoint endpoint_key) (ep_endpoints p).

(** [float(value)]: none when it raises, and then its finite value. *)
Definition float_value (v : pyval) : option (option Q) :=
  match v with
  | PInt z => Some (Some (to_float (inject_Z z)))
  | PBool b => Some (Some (inject_Z (Z.b2z b)))
  | PFloat (FFin m e) => Some (Some (if 0 <=? e then inject_Z (m * 2 ^ e) else Qmake m (Z.to_pos (2 ^ (- e)))))
  | PFloat _ => Some None
  | PStr s =>
      if existsb (fun p => startswith p (lower (strip s))) ["snan"; "+snan"; "-snan"] then None
      else match decimal_of_text (strip s) with
           | Some (DFin c e) => Some (Some (to_float (dec_Q c e)))
           | Some _ => Some None
           | None => None
           end
  | _ => None
  end.

(** [next((value[key] for key in keys if key in value), default)] *)
Definition first_of (value : pydict) (keys : list string) : option pyval :=
  match omap (fun k => dict_lookup k value) keys with v :: _ => Some v | [] => None end.

(** [_override_number] *)
Definition override_number (value : pydict) (keys : list string) (default_value : option Q) : result (option Q) :=
  let name := match keys with k :: _ => k | [] => "" end in
  match first_of value keys with
  | None => Ok default_value
  | Some PNone => Ok None
  | Some v =>
      match float_value v with
      | None => Raise (quota_configuration (name +:+ " must be a number"))
      | Some None => Raise (quota_configuration (name +:+ " must be a positive finite number"))
      | Some (Some q) =>
          if Qle_bool q 0 then Raise (quota_configuration (name +:+ " must be a positive finite number"))
          else Ok (Some q)
      end
  end.

(** [_optional_positive_int] *)
Definition optional_positive_int (value : pyval) (label : string) : result (option Z) :=
  let bad := quota_configuration (label +:+ " must be a positive integer") in
  match value with
  | PNone => Ok None
  | PFloat (FInf _) => Raise (NamedError "OverflowError" "cannot convert float infinity to integer")
  | _ =>
      match py_int value with
      | None => Raise bad
      | Some n =>
          let s := strip (py_str repr_of value) in
          if (n <=? 0) || negb (str_in s [str_of_Z n; (str_of_Z n +:+ ".0")%string]) then Raise bad else Ok (Some n)
      end
  end.

(** One override of [_merge_limit_overrides]. *)
Definition apply_override (merged : list (string * EndpointLimit)) (raw_key : string) (raw_value : pyval)
  : result (list (string * EndpointLimit)) :=
  let key := sanitize_endpoint raw_key in
  match raw_value with
  | PDict value =>
      match aget key merged with
      | None => Raise (quota_configuration ("cannot configure unverified endpoint " +:+ key +:+
                         "; add it to the reviewed app profile first"))
      | Some existing =>
          let* requests := override_number value ["requests_per_window"; "quota"; "max_requests"]
                             (Some (el_requests_per_window existing)) in
          let* window := override_number value ["window_seconds"; "window"] (Some (el_window_seconds existing)) in
          match requests, window with
          | Some requests, Some window =>
              let* soft := override_number value ["soft_quota"; "effective_quota"] (el_soft_quota existing) in
              let* daily := match dict_lookup "daily_quota" value with
                            | Some v => optional_positive_int v ("daily_quota for " +:+ key)
                            | None => Ok (el_daily_quota existing)
                            end in
              let* configured := check_limit (MkLimit requests window soft daily) in
              let* _ := raise_if (Qlt_bool (el_requests_per_window existing) requests)
                (quota_configuration ("quota override for " +:+ key +:+ " cannot raise requests_per_window")) in
              let* _ := raise_if (Qlt_bool window (el_window_seconds existing))
                (quota_configuration ("quota override for " +:+ key +:+ " cannot shorten window_seconds")) in
              let* _ := raise_if (Qlt_bool (effective_quota existing) (effective_quota configured))
                (quota_configuration ("quota override for " +:+ key +:+ " cannot raise effective quota")) in
              let* _ := raise_if (match el_daily_quota existing with
                                  | Some n => match daily with Some m => n <? m | None => true end
                                  | None => false
                                  end)
                (quota_configuration ("quota override for " +:+ key +:+ " cannot raise or remove daily_quota")) in
              Ok (aset key configured merged)
          | _, _ => Raise (quota_configuration ("quota configuration for " +:+ key +:+
                             " requires requests_per_window and window_seconds"))
          end
      end
  | _ => Raise (quota_configuration ("quota configuration for " +:+ key +:+ " must be an object"))
  end.

(** [_merge_limit_overrides] *)
Fixpoint merge_limit_overrides (merged : list (string * EndpointLimit)) (overrides : pydict)
  : result (list (string * EndpointLimit)) :=
  match overrides with
  | [] => Ok merged
  | (k, v) :: rest => let* m := apply_override merged k v in merge_limit_overrides m rest
  end.

(** [_parse_limits_json], on the decoded value *)
Definition parse_limits (raw : pyval) : result pydict :=
  match raw with
  | PNone => Ok []
  | PStr "" => Ok []
  | PDict d =>
      match dict_get_default "endpoints" (PDict d) d with
      | PDict endpoints => Ok endpoints
      | _ => Raise (quota_configuration "quota endpoints configuration must be an object")
      end
  | _ => Raise (quota_configuration "DOUYIN_API_LIMITS_JSON must be a JSON object")
  end.

(** [endpoint_profile_for_app]; the default interval is already resolved *)
Definition endpoint_profile_for_app (app_id : string) (default_interval : Q) (limits : pyval)
  : result DouyinEndpointProfile :=
  let app := strip app_id in
  let* overrides := parse_limits limits in
  let* merged := merge_limit_overrides (if str_eqb app PRODUCTION_APP_ID then PRODUCTION_ENDPOINT_LIMITS else [])
                   overrides in
  make_profile app merged default_interval.

(** ** Pacing *)

Definition Qmax (a b : Q) : Q := if Qle_bool a b then b else a.

Definition pacing_interval (p : DouyinEndpointProfile) (endpoint : string) : Q :=
  match limit_for p endpoint with
  | Some l => Qmax (ep_default_interval_seconds p) (interval_seconds l)
  | None => ep_default_interval_seconds p
  end.

(** [MonotonicRequestGovernor.acquire] at clock [now]: the new table and the wait. *)
Definition pace (p : DouyinEndpointProfile) (s : pacing) (endpoint_key : string) (now : Q) : pacing * Q :=
  let endpoint := sanitize_endpoint endpoint_key in
  let interval := pacing_interval p endpoint in
  if Qle_bool interval 0 then (s, 0%Q)
  else
    let next := default now (s !! endpoint) in
    (<[endpoint := (Qmax now next + interval)%Q]> s, Qmax 0 (next - now)).

(** ** The ledger *)

Definition SHANGHAI_OFFSET : Z := hours 8.

(** The calendar day of an instant in Shanghai, from 1970-01-01. *)
Definition shanghai_date (now : instant) : Z := (now + SHANGHAI_OFFSET) / days 1.

(** [_next_reset_at]: the midnight that ends a day *)
Definition next_reset_at (date : Z) : instant := days (date + 1) - SHANGHAI_OFFSET.

(** [ceil] of a duration in seconds *)
Definition ceil_seconds (duration : Z) : Z := - ((- duration) / seconds 1).

Record QuotaReservation := MkReservation {
  qr_endpoint_key : string;
  qr_business_date : Z;
  qr_request_count : Z;
  qr_effective_limit : Z;
  qr_reset_at : instant;
  qr_remaining : Z;
  qr_reserved : bool;
  qr_retry_after_seconds : option Z;
}.

(** [_required_text] of the ledger *)
Definition required_field (value name : string) : result string :=
  if str_eqb (strip value) "" then Raise (ValueError (name +:+ " is required")) else Ok (strip value).

(** [_effective_limit] for one given limit *)
Definition effective_limit_of (limit : Z) : result Z :=
  if limit <=? 0 then Raise (ValueError "effective_limit must be a positive integer") else Ok limit.

(** [_reservation_from_row] *)
Definition reservation_from_row (key : quota_key) (row : DouyinApiQuotaUsage) (reserved : bool) (observed_at : instant)
  : QuotaReservation :=
  MkReservation key.1.2 key.2 (qu_request_count row) (qu_effective_limit row) (qu_reset_at row)
    (Z.max (qu_effective_limit row - qu_request_count row) 0) reserved
    (if reserved then None else Some (Z.max 1 (ceil_seconds (qu_reset_at row - observed_at)))).

(** [_reserve_in_session]: one upsert, guarded by the limit of this request *)
Definition reserve_in_session (db : ledger) (key : quota_key) (limit : Z) (observed_at : instant)
  : ledger * QuotaReservation :=
  match db !! key with
  | None =>
      let row := MkUsage 1 limit (next_reset_at key.2) observed_at observed_at in
      (<[key := row]> db, reservation_from_row key row true observed_at)
  | Some row =>
      if qu_request_count row <? limit then
        let row1 := MkUsage (qu_request_count row + 1) limit (next_reset_at key.2) (qu_created_at row) observed_at in
        (<[key := row1]> db, reservation_from_row key row1 true observed_at)
      else (db, reservation_from_row key row false observed_at)
  end.

(** [_reservation_inputs]: the row and the limit of a request *)
Definition reservation_inputs (environment app_id account_id endpoint_key : string) (effective_limit : Z)
    (business_date : Z) : result (quota_key * Z) :=
  let* environment := required_field environment "environment" in
  let* app_id := required_field app_id "app_id" in
  let* account_id := required_field account_id "account_id" in
  let* endpoint_key := required_field endpoint_key "endpoint_key" in
  let* limit := effective_limit_of effective_limit in
  Ok ((environment, app_id, account_id, safe_endpoint_key endpoint_key, business_date), limit).

(** [reserve_daily_quota] without the exception for a denied reservation, as
    [try_reserve_daily_quota] calls it *)
Definition try_reserve_daily_quota (db : ledger) (environment app_id account_id endpoint_key : string)
    (effective_limit : Z) (business_date : Z) (now : instant) : result (ledger * QuotaReservation) :=
  let* (key, limit) := reservation_inputs environment app_id account_id endpoint_key effective_limit business_date in
  Ok (reserve_in_session db key limit now).

(** ** The governor *)

Record RequestGovernor := MkGovernor {
  rg_app_id : string;
  rg_account_id : string;
  rg_environment : string;
  rg_profile : DouyinEndpointProfile;
  rg_has_store : bool;
  rg_next_allowed_at : pacing;
}.

#[export] Instance eta_RequestGovernor : Eta RequestGovernor := fun x =>
  MkGovernor (rg_app_id x) (rg_account_id x) (rg_environment x) (rg_profile x) (rg_has_store x)
    (rg_next_allowed_at x).

(** [RequestGovernor(...)] *)
Definition make_governor (profile : DouyinEndpointProfile) (app_id account_id environment : string)
    (has_store : bool) : RequestGovernor :=
  MkGovernor (strip app_id) (strip account_id)
    (let e := strip (if str_eqb environment "" then "default" else environment) in
     if str_eqb e "" then "default" else e) profile has_store ∅.

(** [seconds_until_next_shanghai_day] *)
Definition seconds_until_next_shanghai_day (now : instant) : Z :=
  Z.max 1 (ceil_seconds (next_reset_at (shanghai_date now) - now)).

(** How an acquisition ends: the wait before the request, or a refusal. *)
Inductive acquired :=
| Granted (wait : Q)
| QuotaExceeded (endpoint : string) (retry_after_seconds : Z).

(** [RequestGovernor.acquire] at the monotonic clock [clock] and the wall clock [now] *)
Definition governor_acquire (db : ledger) (g : RequestGovernor) (endpoint_key : string) (clock : Q) (now : instant)
  : result (ledger * RequestGovernor * acquired) :=
  let endpoint := sanitize_endpoint endpoint_key in
  let paced db :=
    let '(s, wait) := pace (rg_profile g) (rg_next_allowed_at g) endpoint clock in
    Ok (db, g <| rg_next_allowed_at := s |>, Granted wait) in
  match limit_for (rg_profile g) endpoint ≫= el_daily_quota with
  | Some quota =>
      if rg_has_store g then
        match try_reserve_daily_quota db (rg_environment g) (rg_app_id g) (rg_account_id g) endpoint quota
                (shanghai_date now) now with
        | Raise _ => Raise (NamedError "QuotaStoreError" "durable Douyin quota reservation failed")
        | Ok (db1, r) =>
            if qr_reserved r then paced db1
            else Ok (db1, g, QuotaExceeded (sanitize_endpoint endpoint) (seconds_until_next_shanghai_day now))
        end
      else paced db
  | None => paced db
  end.

(** ** The priority budget *)

(** [next_daily_delay]: the seconds until 02:00 in Shanghai *)
Definition next_daily_delay (now : instant) : Z :=
  let due := days (shanghai_date now) + hours 2 - SHANGHAI_OFFSET in
  let due := if due <=? now then due + days 1 else due in
  Z.max 60 (ceil_seconds (due - now)).

Definition shanghai_hour (now : instant) : Z := (now + SHANGHAI_OFFSET) mod days 1 / hours 1.

(** [history_reserve], on the value of the environment variable *)
Definition history_reserve (value : string) : result Z :=
  match py_int (PStr value) with
  | None => Raise (ValueError "WORKER_HISTORY_DAILY_RESERVE must be an integer")
  | Some n => if (n <? 1) || (90 <? n)
              then Raise (ValueError "WORKER_HISTORY_DAILY_RESERVE must be between 1 and 90") else Ok n
  end.

Record PriorityRequestGovernor := MkPriority {
  pg_started_day : Z;
  pg_purpose : string;
  pg_blocked_endpoints : list string;
  pg_governor : RequestGovernor;
}.

(** The limits of the history purpose, and the endpoints it may not use. *)
Fixpoint history_limits (reserve : Z) (endpoints : list (string * EndpointLimit))
  : result (list (string * EndpointLimit) * list string) :=
  match endpoints with
  | [] => Ok ([], [])
  | (key, l) :: rest =>
      let* (limits, blocked) := history_limits reserve rest in
      match el_daily_quota l with
      | None => Ok ((key, l) :: limits, blocked)
      | Some quota =>
          if quota - reserve <=? 0 then Ok ((key, l) :: limits, key :: blocked)
          else
            let* l1 := check_limit (MkLimit (el_requests_per_window l) (el_window_seconds l) (el_soft_quota l)
                                      (Some (quota - reserve))) in
            Ok ((key, l1) :: limits, blocked)
      end
  end.

(** [PriorityRequestGovernor(...)] *)
Definition make_priority (g : RequestGovernor) (purpose : string) (reserve : Z) (now : instant)
  : result PriorityRequestGovernor :=
  if str_eqb purpose "history" then
    let* (limits, blocked) := history_limits reserve (ep_endpoints (rg_profile g)) in
    let* profile := make_profile (ep_app_id (rg_profile g)) limits (ep_default_interval_seconds (rg_profile g)) in
    Ok (MkPriority (shanghai_date now) purpose blocked (g <| rg_profile := profile |>))
  else Ok (MkPriority (shanghai_date now) purpose [] g).

(** [PriorityBudgetPauseError(...)] *)
Definition pause_seconds (retry_after_seconds : Z) : Z := Z.max 60 retry_after_seconds.

Inductive priority_acquired :=
| PriorityGranted (wait : Q)
| PriorityPause (retry_after_seconds : Z).

(** [PriorityRequestGovernor.acquire]: [now] is read for the guards, and [wall] by
    the governor it protects *)
Definition priority_acquire (db : ledger) (p : PriorityRequestGovernor) (endpoint_key : string) (clock : Q)
    (now wall : instant) : result (ledger * PriorityRequestGovernor * priority_acquired) :=
  let pause := PriorityPause (pause_seconds (next_daily_delay now)) in
  if negb (shanghai_date now =? pg_started_day p)
     || (str_eqb (pg_purpose p) "history" && (shanghai_hour now <? 2))
     || str_in endpoint_key (pg_blocked_endpoints p)
  then Ok (db, p, pause)
  else
    let* (db1, g1, res) := governor_acquire db (pg_governor p) endpoint_key clock wall in
    let p1 := MkPriority (pg_started_day p) (pg_purpose p) (pg_blocked_endpoints p) g1 in
    Ok (db1, p1, match res with
                 | Granted wait => PriorityGranted wait
                 | QuotaExceeded _ _ => pause
                 end).
End Quota.
