(* ===== verification/QuotaProps.v ===== *)
(** * Quotas are kept

    Pacing keeps the requests of a window under the quota, overrides only tighten
    the limits, the ledger never grants more than the limit, and the history
    purpose leaves its reserve. *)
From Stdlib Require Import Lqa.
From S2P Require Import Prelude PyValue Jobs Clues Candidates Quota.
#[local] Open Scope Z_scope.

(** ** Rational comparisons *)

Lemma Qle_bool_false a b : Qle_bool a b = false -> (b < a)%Q.
Proof. intros H. apply Qnot_le_lt. intros Hle%Qle_bool_iff. congruence. Qed.

Lemma Qlt_bool_false a b : Qlt_bool a b = false -> (b <= a)%Q.
Proof. unfold Qlt_bool. intros H%negb_false_iff. by apply Qle_bool_iff. Qed.

Lemma Qmax_ub_l a b : (a <= Qmax a b)%Q.
Proof. unfold Qmax. destruct (Qle_bool a b) eqn:E; [by apply Qle_bool_iff|lra]. Qed.
Lemma Qmax_ub_r a b : (b <= Qmax a b)%Q.
Proof. unfold Qmax. destruct (Qle_bool a b) eqn:E; [lra|]. apply Qle_bool_false in E. lra. Qed.
Lemma Qmax_cases a b : Qmax a b = a \/ Qmax a b = b.
Proof. unfold Qmax. destruct (Qle_bool a b); auto. Qed.

Lemma inject_S n : (inject_Z (Z.of_nat (S n)) == inject_Z (Z.of_nat n) + 1)%Q.
Proof. rewrite Nat2Z.inj_succ, <- Z.add_1_r, inject_Z_plus. reflexivity. Qed.

(** ** Spaced sequences *)

(** Each element is at least [i] after every earlier one. *)
Definition spaced (i : Q) (l : list Q) : Prop := StronglySorted (fun x y => (x + i <= y)%Q) l.

Lemma spaced_span i x l : (0 <= i)%Q -> spaced i (x :: l) ->
  exists y, y ∈ x :: l /\ (x + inject_Z (Z.of_nat (length l)) * i <= y)%Q.
Proof.
  intros Hi. revert x. induction l as [|y l IH]; intros x Hs.
  - exists x. split; [left|]. change (inject_Z (Z.of_nat (length []))) with 0%Q. lra.
  - apply StronglySorted_inv in Hs as [Hs Hx]. destruct (IH y Hs) as (z & Hz & Hle).
    exists z. split; [by right|]. rewrite Forall_forall in Hx. specialize (Hx y ltac:(left)).
    cbn [length]. rewrite inject_S. lra.
Qed.

Lemma spaced_filter i (P : Q -> bool) l : spaced i l -> spaced i (List.filter P l).
Proof.
  intros Hs. induction Hs as [|x l Hs IH Hx]; cbn; [constructor|]. destruct (P x); [|done]. constructor; [done|].
  rewrite Forall_forall in *. intros y [Hy _]%list_elem_of_In%List.filter_In. apply Hx. by apply list_elem_of_In.
Qed.

(** Fewer than [w / i + 1] elements of a spaced sequence lie in a window of length [w]. *)
Lemma spaced_window i w a l : (0 < i)%Q -> (0 < w)%Q -> spaced i l ->
  ((inject_Z (Z.of_nat (length (List.filter (fun x => Qle_bool a x && Qlt_bool x (a + w)) l))) - 1) * i < w)%Q.
Proof.
  intros Hi Hw Hs. assert (Hf := spaced_filter i (fun x => Qle_bool a x && Qlt_bool x (a + w)) l Hs).
  assert (Hin : forall x, x ∈ List.filter (fun x => Qle_bool a x && Qlt_bool x (a + w)) l -> (a <= x)%Q /\ (x < a + w)%Q).
  { intros x [_ H]%list_elem_of_In%List.filter_In. apply andb_true_iff in H as [H1 H2].
    split; [by apply Qle_bool_iff|]. unfold Qlt_bool in H2. apply negb_true_iff in H2. by apply Qle_bool_false. }
  revert Hf Hin. generalize (List.filter (fun x => Qle_bool a x && Qlt_bool x (a + w)) l). intros f Hf Hin.
  destruct f as [|x f]; [change (inject_Z (Z.of_nat (length []))) with 0%Q; lra|]. destruct (spaced_span i x f ltac:(lra) Hf) as (y & Hy & Hle).
  destruct (Hin x ltac:(left)) as [Hx _]. destruct (Hin y Hy) as [_ Hy']. cbn [length]. rewrite inject_S. lra.
Qed.

Section Props.
Context (repr_of : pyval -> string) (to_float : Q -> Q) (urlsplit : string -> option (string * string)).

#[local] Notation sanitize_endpoint := (sanitize_endpoint urlsplit).
#[local] Notation limit_for := (limit_for urlsplit).
#[local] Notation pace := (pace urlsplit).
#[local] Notation pacing_interval := (pacing_interval urlsplit).

(** ** Pacing *)

(** The endpoints and the instants at which the requests of a run go out. *)
Fixpoint pace_run (p : DouyinEndpointProfile) (s : pacing) (requests : list (string * Q)) : list (string * Q) :=
  match requests with
  | [] => []
  | (key, now) :: rest =>
      let '(s1, wait) := pace p s key now in
      (sanitize_endpoint key, (now + wait)%Q) :: pace_run p s1 rest
  end.

Definition slots (endpoint : string) (run : list (string * Q)) : list Q :=
  (List.filter (fun x => str_eqb x.1 endpoint) run).*2.

Lemma pace_slot p s key now (e := sanitize_endpoint key) : (0 < pacing_interval p e)%Q ->
  exists next, (pace p s key now).1 = <[e := next]> s /\ (now + (pace p s key now).2 + pacing_interval p e <= next)%Q
    /\ (forall n, s !! e = Some n -> (n <= now + (pace p s key now).2)%Q).
Proof.
  intros Hi. unfold Quota.pace. cbv zeta. fold e. destruct (Qle_bool (pacing_interval p e) 0) eqn:E.
  { apply Qle_bool_iff in E. lra. }
  cbn [fst snd]. eexists. split; [reflexivity|]. split.
  - destruct (s !! e) as [n|]; cbn [default from_option id].
    + destruct (Qmax_cases 0 (n - now)) as [->| ->];
        pose proof (Qmax_ub_l now n); pose proof (Qmax_ub_r now n); lra.
    + destruct (Qmax_cases 0 (now - now)) as [->| ->]; pose proof (Qmax_ub_l now now); lra.
  - intros n ->. cbn [default from_option id]. pose proof (Qmax_ub_r 0 (n - now)). lra.
Qed.

Lemma pace_other p s key now e : e <> sanitize_endpoint key -> (pace p s key now).1 !! e = s !! e.
Proof.
  intros Hne. unfold Quota.pace. cbv zeta. destruct (Qle_bool _ 0); [done|]. cbn [fst]. by rewrite lookup_insert_ne.
Qed.

Lemma pace_run_spaced p e reqs s : (0 < pacing_interval p e)%Q ->
  spaced (pacing_interval p e) (slots e (pace_run p s reqs))
  /\ forall n, s !! e = Some n -> forall x, x ∈ slots e (pace_run p s reqs) -> (n <= x)%Q.
Proof.
  intros Hi. revert s. induction reqs as [|[key now] reqs IH]; intros s; cbn [pace_run].
  { split; [constructor|]. by intros n _ x ?%elem_of_nil. }
  pose proof (pace_slot p s key now) as Hslot. pose proof (pace_other p s key now e) as Hother.
  destruct (pace p s key now) as [s1 wait]. cbn [fst snd] in *. destruct (IH s1) as [IH1 IH2].
  unfold slots in *. cbn [List.filter fst]. destruct (str_eqb (sanitize_endpoint key) e) eqn:E.
  - apply str_eqb_true in E. rewrite E in Hslot. destruct (Hslot Hi) as (next & -> & Hle & Hge).
    cbn [fmap list_fmap snd]. specialize (IH2 next (lookup_insert_eq _ _ _)). split.
    + constructor; [done|]. rewrite Forall_forall. intros x Hx. specialize (IH2 x Hx). lra.
    + intros n Hn x [->|Hx]%elem_of_cons; [by apply Hge|]. specialize (Hge n Hn). specialize (IH2 x Hx). lra.
  - assert (Hne : e <> sanitize_endpoint key) by (intros ->; by rewrite str_eqb_refl in E).
    rewrite (Hother Hne) in IH2. done.
Qed.

Lemma limit_positive l : check_limit l = Ok l ->
  (0 < el_window_seconds l)%Q /\ (0 < effective_quota l)%Q /\ (forall n, el_daily_quota l = Some n -> 0 < n).
Proof.
  unfold check_limit. intros H. guards H. apply Qle_bool_false in G, G0. split_and!; [done| |].
  - unfold effective_quota. destruct (el_soft_quota l) as [q|]; [|done]. cbn.
    apply orb_false_iff in G1 as [G1 _]. by apply Qle_bool_false in G1.
  - intros n Hn. rewrite Hn in G2. apply orb_false_iff in G2 as [G2 _]. lia.
Qed.

(** Pacing keeps every window under the quota.  Whatever requests are made, at
    whatever clock readings, the requests of a limited endpoint that go out in any
    window of the length of its limit number fewer than its effective quota plus
    one, that is at most the quota (rounded up); consecutive requests are at least
    the interval apart. *)
Lemma pacing_respects_quota p s requests endpoint l start
    (Hlimit : limit_for p endpoint = Some l) (Hvalid : check_limit l = Ok l)
    (Hpaced : el_daily_quota l = None) :
  spaced (pacing_interval p endpoint) (slots endpoint (pace_run p s requests))
  /\ (inject_Z (Z.of_nat (length (List.filter
        (fun x => Qle_bool start x && Qlt_bool x (start + el_window_seconds l))
        (slots endpoint (pace_run p s requests))))) < effective_quota l + 1)%Q.
Proof.
  destruct (limit_positive l Hvalid) as (Hw & Hq & _).
  assert (Hi : (el_window_seconds l / effective_quota l <= pacing_interval p endpoint)%Q).
  { unfold Quota.pacing_interval. rewrite Hlimit.
    replace (el_window_seconds l / effective_quota l)%Q with (interval_seconds l); [apply Qmax_ub_r|].
    unfold interval_seconds. by rewrite Hpaced. }
  assert (Hpos : (0 < el_window_seconds l / effective_quota l)%Q) by (by apply Qlt_shift_div_l; [|rewrite Qmult_0_l]).
  destruct (pace_run_spaced p endpoint requests s ltac:(lra)) as [Hs _]. split; [done|].
  pose proof (spaced_window _ _ start _ (Qlt_le_trans _ _ _ Hpos Hi) Hw Hs) as Hwin.
  set (n := length _) in *. apply Qnot_le_lt. intros Hge. apply (Qlt_not_le _ _ Hwin).
  assert (Ew : (el_window_seconds l == effective_quota l * (el_window_seconds l / effective_quota l))%Q)
    by (field; lra).
  rewrite Ew at 1.
  apply (Qle_trans _ ((inject_Z (Z.of_nat n) - 1) * (el_window_seconds l / effective_quota l))).
  - apply Qmult_le_compat_r; lra.
  - rewrite !(Qmult_comm (inject_Z (Z.of_nat n) - 1)). apply Qmult_le_compat_r; [done|]. lra.
Qed.

(** ** Overrides *)

#[local] Notation apply_override := (apply_override repr_of to_float urlsplit).
#[local] Notation merge_limit_overrides := (merge_limit_overrides repr_of to_float urlsplit).
#[local] Notation endpoint_profile_for_app := (endpoint_profile_for_app repr_of to_float urlsplit).

(** [l'] allows at most what [l] does. *)
Record tighter (l l' : EndpointLimit) : Prop := MkTighter {
  ti_requests : (el_requests_per_window l' <= el_requests_per_window l)%Q;
  ti_window : (el_window_seconds l <= el_window_seconds l')%Q;
  ti_effective : (effective_quota l' <= effective_quota l)%Q;
  ti_daily : forall n, el_daily_quota l = Some n -> exists m, el_daily_quota l' = Some m /\ m <= n;
}.

#[export] Instance tighter_refl : Reflexive tighter.
Proof. intros l. split; try lra. intros n ->. exists n. split; [done|lia]. Qed.
#[export] Instance tighter_trans : Transitive tighter.
Proof.
  intros a b c [H1 H2 H3 H4] [H5 H6 H7 H8]. split; try lra. intros n Hn. destruct (H4 n Hn) as (m & Hm & ?).
  destruct (H8 m Hm) as (k & Hk & ?). exists k. split; [done|lia].
Qed.

Lemma aget_aset {A} k (v : A) l k' : aget k' (aset k v l) = if str_eqb k' k then Some v else aget k' l.
Proof.
  induction l as [|[k0 v0] l IH]; cbn; [done|]. destruct (str_eqb k k0) eqn:E; cbn.
  - apply str_eqb_true in E as ->. by destruct (str_eqb k' k0).
  - destruct (str_eqb k' k0) eqn:E'; [|done]. apply str_eqb_true in E' as ->.
    destruct (str_eqb k0 k) eqn:E''; [|done]. apply str_eqb_true in E'' as ->. by rewrite str_eqb_refl in E.
Qed.

Lemma aset_keys {A} k (v : A) l : aget k l <> None -> (aset k v l).*1 = l.*1.
Proof.
  induction l as [|[k0 v0] l IH]; cbn; [done|]. destruct (str_eqb k k0); cbn; [done|]. intros H. by rewrite IH.
Qed.

Lemma aset_new {A} k (v : A) l : k ∉ l.*1 -> aset k v l = l ++ [(k, v)].
Proof.
  induction l as [|[k0 v0] l IH]; cbn; [done|]. intros Hne. destruct (str_eqb k k0) eqn:E.
  - apply str_eqb_true in E as ->. destruct Hne. left.
  - f_equal. apply IH. intros Hin. apply Hne. by right.
Qed.

Lemma apply_override_spec m k v m' : apply_override m k v = Ok m' ->
  exists l l', aget (sanitize_endpoint k) m = Some l /\ tighter l l' /\ check_limit l' = Ok l'
    /\ m' = aset (sanitize_endpoint k) l' m.
Proof.
  unfold Quota.apply_override. cbv zeta. destruct v as [| | | | | | |value]; try done.
  destruct (aget _ m) as [l|]; [|done]. intros H. guards H. destruct a as [r|]; [|done]. destruct a0 as [w|]; [|done].
  guards H. injection H as <-. exists l, a1. split; [done|].
  assert (a1 = MkLimit r w a a0) as ->. { unfold check_limit in G3. guards G3. by injection G3 as <-. }
  apply Qlt_bool_false in G4, G5, G6. split_and!; [|done|done]. split; cbn; try done.
  intros n Hn. rewrite Hn in G7. destruct a0 as [x|]; [|done]. exists x. split; [done|]. bool_to_prop. lia.
Qed.

Lemma merge_overrides_spec ov m m' : merge_limit_overrides m ov = Ok m' ->
  m'.*1 = m.*1 /\ (forall e l', aget e m' = Some l' -> exists l, aget e m = Some l /\ tighter l l')
  /\ ((forall e l, aget e m = Some l -> check_limit l = Ok l) -> forall e l, aget e m' = Some l -> check_limit l = Ok l).
Proof.
  revert m. induction ov as [|[k v] ov IH]; intros m; cbn [Quota.merge_limit_overrides].
  { intros [= <-]. split_and!; [done| |done]. intros e l Hl. exists l. split; [done|reflexivity]. }
  intros H. guards H. apply apply_override_spec in G as (l & l1 & Hl & Ht & Hc & ->).
  destruct (IH _ H) as (K & IH1 & IH2). split_and!.
  - rewrite K. apply aset_keys. congruence.
  - intros e l' He. destruct (IH1 e l' He) as (l0 & Hl0 & Ht0). rewrite aget_aset in Hl0.
    destruct (str_eqb e (sanitize_endpoint k)) eqn:E; [|eauto]. apply str_eqb_true in E as ->.
    injection Hl0 as <-. exists l. split; [done|by etransitivity].
  - intros Hall. apply IH2. intros e l0. rewrite aget_aset.
    destruct (str_eqb e (sanitize_endpoint k)); [by intros [= <-]|apply Hall].
Qed.

(** Keys of the reviewed profile are their own sanitized form. *)
Lemma production_key k : k ∈ PRODUCTION_ENDPOINT_LIMITS.*1 -> sanitize_endpoint k = k.
Proof.
  assert (H : forallb (fun k => str_eqb (strip k) k && negb (has_sub "://" (chars k)) && negb (startswith "//" k)
    && str_eqb (key_of 240 (without_query (chars k))) k) PRODUCTION_ENDPOINT_LIMITS.*1 = true) by (vm_compute; reflexivity).
  rewrite forallb_forall in H. intros Hk%list_elem_of_In%H. apply andb_true_iff in Hk as [Hk H4].
  apply andb_true_iff in Hk as [Hk H3]. apply andb_true_iff in Hk as [H1 H2]. apply negb_true_iff in H2, H3.
  apply str_eqb_true in H1, H4. unfold Quota.sanitize_endpoint. cbv zeta. rewrite H1.
  destruct (urlsplit k) as [[host path]|]; [|done]. by rewrite H2, H3.
Qed.

Lemma fold_aset_same (m acc : list (string * EndpointLimit)) :
  (forall k, k ∈ m.*1 -> sanitize_endpoint k = k) -> NoDup (acc ++ m).*1 ->
  foldl (fun m e => aset (sanitize_endpoint e.1) e.2 m) acc m = acc ++ m.
Proof.
  revert acc. induction m as [|[k l] m IH]; intros acc Hk Hnd; cbn [foldl]; [by rewrite app_nil_r|].
  cbn [fst snd]. rewrite (Hk k) by left. rewrite aset_new.
  - rewrite IH; [by rewrite <- app_assoc|intros x Hx; apply Hk; by right|by rewrite <- app_assoc].
  - rewrite fmap_app in Hnd. apply NoDup_app in Hnd as (_ & Hd & _). intros Hin. apply (Hd k Hin). left.
Qed.

Lemma aget_elem {A} k (l : list (string * A)) v : aget k l = Some v -> (k, v) ∈ l.
Proof.
  induction l as [|[k0 v0] l IH]; cbn; [done|]. destruct (str_eqb k k0) eqn:E; [|intros H; right; auto].
  apply str_eqb_true in E as ->. intros [= ->]. left.
Qed.

Lemma production_valid e l : aget e PRODUCTION_ENDPOINT_LIMITS = Some l -> check_limit l = Ok l.
Proof.
  intros H%aget_elem. assert (Hall : Forall (fun x => check_limit x.2 = Ok x.2) PRODUCTION_ENDPOINT_LIMITS)
    by (repeat constructor).
  rewrite Forall_forall in Hall. apply (Hall _ H).
Qed.

(** The profile of the production application, with its overrides. *)
Lemma production_profile interval limits p : endpoint_profile_for_app PRODUCTION_APP_ID interval limits = Ok p ->
  (ep_endpoints p).*1 = PRODUCTION_ENDPOINT_LIMITS.*1
  /\ forall e l', aget e (ep_endpoints p) = Some l' ->
       check_limit l' = Ok l' /\ exists l, aget e PRODUCTION_ENDPOINT_LIMITS = Some l /\ tighter l l'.
Proof.
  unfold Quota.endpoint_profile_for_app. change (str_eqb (strip PRODUCTION_APP_ID) PRODUCTION_APP_ID) with true.
  cbv zeta iota. intros H. guards H. apply merge_overrides_spec in G0 as (K & M1 & M2).
  unfold make_profile in H. guards H. injection H as <-. cbn [ep_endpoints].
  assert (Hkeys : forall k, k ∈ a0.*1 -> sanitize_endpoint k = k) by (intros k; rewrite K; apply production_key).
  rewrite (fold_aset_same a0 []); [|done|].
  2:{ cbn [app]. rewrite K. apply (bool_decide_eq_true_1 (NoDup PRODUCTION_ENDPOINT_LIMITS.*1)). vm_compute. reflexivity. }
  cbn [app]. split; [done|]. intros e l' He. split; [|eauto]. exact (M2 production_valid e l' He).
Qed.

(** Configuration can only tighten the quotas.  Whatever overrides are
    configured, every limit of the production profile belongs to a reviewed
    endpoint, is valid, and allows at most what the reviewed limit allows: no more
    requests, no shorter window, no higher effective or daily quota, and a daily
    quota is never removed. *)
Lemma overrides_only_tighten interval limits p e l'
    (Hp : endpoint_profile_for_app PRODUCTION_APP_ID interval limits = Ok p)
    (He : limit_for p e = Some l') :
  check_limit l' = Ok l'
  /\ exists l, aget (sanitize_endpoint e) PRODUCTION_ENDPOINT_LIMITS = Some l /\ tighter l l'.
Proof. destruct (production_profile _ _ _ Hp) as [_ H]. by apply H. Qed.

End Props.

(** ** The ledger *)

Section Ledger.
Context (urlsplit : string -> option (string * string)).

#[local] Notation sanitize_endpoint := (sanitize_endpoint urlsplit).
#[local] Notation limit_for := (limit_for urlsplit).
#[local] Notation pace := (pace urlsplit).
#[local] Notation governor_acquire := (governor_acquire urlsplit).
#[local] Notation priority_acquire := (priority_acquire urlsplit).
#[local] Notation make_priority := (make_priority urlsplit).

(** The row a governor counts a request in. *)
Definition ledger_key (g : RequestGovernor) (endpoint_key : string) (wall : instant) : quota_key :=
  (strip (rg_environment g), strip (rg_app_id g), strip (rg_account_id g),
   safe_endpoint_key (strip (sanitize_endpoint endpoint_key)), shanghai_date wall).

Definition daily_limit (g : RequestGovernor) (endpoint_key : string) : option Z :=
  limit_for (rg_profile g) (sanitize_endpoint endpoint_key) ≫= el_daily_quota.

Definition used (db : ledger) (k : quota_key) : Z :=
  match db !! k with Some r => qu_request_count r | None => 0 end.

Lemma reserve_spec db key limit now db' r : 0 < limit -> reserve_in_session db key limit now = (db', r) ->
  (forall k, k <> key -> used db' k = used db k)
  /\ if qr_reserved r then used db' key = used db key + 1 /\ used db' key <= Z.max limit 1 /\ used db' key <= limit
     else db' = db /\ limit <= used db key.
Proof.
  intros Hl. unfold reserve_in_session, used. destruct (db !! key) as [row|] eqn:Hk.
  - destruct (qu_request_count row <? limit) eqn:E; intros [= <- <-]; cbn.
    + split; [intros k Hne; by rewrite lookup_insert_ne|]. rewrite lookup_insert_eq. cbn. lia.
    + split; [done|]. split; [done|lia].
  - intros [= <- <-]. cbn. split; [intros k Hne; by rewrite lookup_insert_ne|]. rewrite lookup_insert_eq. cbn. lia.
Qed.

Lemma governor_spec db g e clock wall db' g' res : rg_has_store g = true ->
  governor_acquire db g e clock wall = Ok (db', g', res) ->
  match daily_limit g e with
  | None => db' = db
  | Some n =>
      (forall k, k <> ledger_key g e wall -> used db' k = used db k)
      /\ match res with
         | Granted _ => used db' (ledger_key g e wall) = used db (ledger_key g e wall) + 1
                        /\ used db' (ledger_key g e wall) <= n
         | QuotaExceeded _ d => db' = db /\ n <= used db (ledger_key g e wall) /\ 1 <= d
         end
  end.
Proof.
  intros Hst. unfold Quota.governor_acquire, daily_limit. cbv zeta.
  destruct (limit_for (rg_profile g) (sanitize_endpoint e) ≫= el_daily_quota) as [n|].
  2:{ destruct (pace _ _ _ _). by intros [= <- _ _]. }
  rewrite Hst. unfold try_reserve_daily_quota, reservation_inputs, required_field.
  destruct (str_eqb (strip (rg_environment g)) ""); [done|]. destruct (str_eqb (strip (rg_app_id g)) ""); [done|].
  destruct (str_eqb (strip (rg_account_id g)) ""); [done|].
  destruct (str_eqb (strip (sanitize_endpoint e)) ""); [done|]. cbn [result_bind]. unfold effective_limit_of.
  destruct (n <=? 0) eqn:Hn; [done|]. cbn [result_bind]. fold (ledger_key g e wall).
  destruct (reserve_in_session db (ledger_key g e wall) n wall) as [db1 r] eqn:Hr.
  apply reserve_spec in Hr as [Hother Hown]; [|lia]. destruct (qr_reserved r).
  - destruct (pace _ _ _ _). intros [= <- _ <-]. split; [done|]. tauto.
  - intros [= <- _ <-]. split; [done|]. unfold seconds_until_next_shanghai_day. split_and!; try tauto. lia.
Qed.

(** One request of any governor, as it was made. *)
Record request := MkRequest {
  rq_governor : PriorityRequestGovernor;
  rq_endpoint : string;
  rq_clock : Q;
  rq_now : instant;
  rq_wall : instant;
}.

Definition request_key (q : request) : quota_key := ledger_key (pg_governor (rq_governor q)) (rq_endpoint q) (rq_wall q).
Definition request_limit (q : request) : option Z := daily_limit (pg_governor (rq_governor q)) (rq_endpoint q).

(** Requests of any number of governors against one ledger, each with whether it
    was granted. *)
Inductive quota_run : ledger -> list (request * bool) -> ledger -> Prop :=
| run_nil db : quota_run db [] db
| run_granted db db1 db' q p wait rest :
    priority_acquire db (rq_governor q) (rq_endpoint q) (rq_clock q) (rq_now q) (rq_wall q)
      = Ok (db1, p, PriorityGranted wait) ->
    quota_run db1 rest db' -> quota_run db ((q, true) :: rest) db'
| run_paused db db1 db' q p d rest :
    priority_acquire db (rq_governor q) (rq_endpoint q) (rq_clock q) (rq_now q) (rq_wall q)
      = Ok (db1, p, PriorityPause d) ->
    quota_run db1 rest db' -> quota_run db ((q, false) :: rest) db'
| run_failed db db' q e rest :
    priority_acquire db (rq_governor q) (rq_endpoint q) (rq_clock q) (rq_now q) (rq_wall q) = Raise e ->
    quota_run db rest db' -> quota_run db ((q, false) :: rest) db'.

Definition granted (k : quota_key) (log : list (request * bool)) : Z :=
  Z.of_nat (length (List.filter (fun x => x.2 && bool_decide (request_key x.1 = k)) log)).

Lemma priority_spec db q db' p res : rg_has_store (pg_governor (rq_governor q)) = true ->
  priority_acquire db (rq_governor q) (rq_endpoint q) (rq_clock q) (rq_now q) (rq_wall q) = Ok (db', p, res) ->
  match res with
  | PriorityGranted _ =>
      match request_limit q with
      | None => db' = db
      | Some n => (forall k, k <> request_key q -> used db' k = used db k)
                  /\ used db' (request_key q) = used db (request_key q) + 1 /\ used db' (request_key q) <= n
      end
  | PriorityPause d => db' = db /\ d = pause_seconds (next_daily_delay (rq_now q))
  end.
Proof.
  intros Hst. unfold Quota.priority_acquire. cbv zeta. destruct (_ || _ || _); [by intros [= <- _ <-]|].
  destruct (governor_acquire _ _ _ _ _) as [[[db1 g1] r]|] eqn:Hg; [|done]. cbn [result_bind]. intros [= <- _ <-].
  apply governor_spec in Hg; [|done]. unfold request_limit, request_key.
  destruct (daily_limit _ _) as [n|]; [|by subst; destruct r].
  destruct Hg as [Ho Hr]. destruct r; [by destruct Hr|]. by destruct Hr as (-> & _).
Qed.

Lemma granted_cons k q b rest :
  granted k ((q, b) :: rest) = (if b && bool_decide (request_key q = k) then 1 else 0) + granted k rest.
Proof. unfold granted. cbn [List.filter fst snd]. destruct (b && _); cbn [length]; lia. Qed.

(** C22: the daily quota is never exceeded.  For any sequence of requests of any
    number of governors and purposes on one ledger, in any interleaving: the count
    of a row grows by exactly the number of granted requests of that row, and when
    every governor's limit for it is at most [limit], the row never passes [limit];
    so no more than [limit] requests are granted on that day. *)
Theorem quota_never_exceeded db log db' k limit
    (Hrun : quota_run db log db')
    (Hlimits : forall q b, (q, b) ∈ log -> rg_has_store (pg_governor (rq_governor q)) = true
       /\ (request_key q = k -> exists n, request_limit q = Some n /\ n <= limit))
    (Hstart : used db k <= limit) :
  used db' k = used db k + granted k log /\ used db' k <= limit.
Proof.
  induction Hrun as [db|db db1 db' q p wait rest Ha Hrun IH|db db1 db' q p d rest Ha Hrun IH|db db' q e rest Ha Hrun IH].
  { unfold granted. cbn. lia. }
  all: destruct (Hlimits q _ ltac:(left)) as [Hst Hq];
    assert (Hrest : forall x b, (x, b) ∈ rest -> rg_has_store (pg_governor (rq_governor x)) = true
       /\ (request_key x = k -> exists n, request_limit x = Some n /\ n <= limit)) by (intros x b Hx; apply (Hlimits x b); by right);
    rewrite granted_cons; cbn [andb].
  - apply priority_spec in Ha; [|done]. case_bool_decide as Hk.
    + destruct (Hq Hk) as (n & Hn & Hle). rewrite Hn, Hk in Ha. destruct Ha as (_ & Ha & Hb).
      destruct (IH Hrest ltac:(lia)) as [IH1 IH2]. lia.
    + assert (used db1 k = used db k) as E.
      { destruct (request_limit q); [|by subst]. destruct Ha as [Ha _]. apply Ha. congruence. }
      destruct (IH Hrest ltac:(lia)) as [IH1 IH2]. lia.
  - apply priority_spec in Ha as [-> _]; [|done]. destruct (IH Hrest Hstart) as [IH1 IH2]. lia.
  - destruct (IH Hrest Hstart) as [IH1 IH2]. lia.
Qed.
End Ledger.

(** * The priority budget, and the quotas on concrete requests *)

(** ** The delay until 02:00 *)

Lemma ceil_seconds_bounds x : seconds (ceil_seconds x - 1) < x <= seconds (ceil_seconds x).
Proof.
  unfold ceil_seconds, seconds. change (1 * 1000000) with 1000000. pose proof (Z.div_mod (- x) 1000000 ltac:(lia)).
  pose proof (Z.mod_pos_bound (- x) 1000000 ltac:(lia)). lia.
Qed.

(** Time of day in Shanghai, in microseconds. *)
Definition shanghai_time (t : instant) : Z := (t + SHANGHAI_OFFSET) mod days 1.

(** A paused job resumes within a minute after 02:00 of Shanghai. *)
Lemma pause_resumes now (d := pause_seconds (next_daily_delay now)) :
  60 <= d <= 86400 /\ hours 2 <= shanghai_time (now + seconds d) < hours 2 + seconds 60.
Proof.
  unfold d, pause_seconds, next_daily_delay, shanghai_time, shanghai_date. cbv zeta.
  set (x := now + SHANGHAI_OFFSET). set (q := x / days 1).
  assert (Hx : days q <= x < days q + days 1).
  { pose proof (Z.div_mod x (days 1) ltac:(done)). pose proof (Z.mod_pos_bound x (days 1) ltac:(done)).
    fold q in H. unfold days, hours, seconds in *. lia. }
  set (due := if _ <=? now then _ else _).
  assert (Hdue : exists k, due + SHANGHAI_OFFSET = days k + hours 2 /\ now < due <= now + days 1).
  { unfold due. destruct (_ <=? now) eqn:E; [exists (q + 1)|exists q];
      unfold x, days, hours, seconds, SHANGHAI_OFFSET in *; lia. }
  destruct Hdue as (k & Hk & Hd). pose proof (ceil_seconds_bounds (due - now)) as Hc.
  set (c := ceil_seconds (due - now)) in *.
  assert (Hb : 60 <= Z.max 60 (Z.max 60 c) <= 86400) by (unfold days, hours, seconds in *; lia).
  split; [done|]. set (e := Z.max 60 (Z.max 60 c)) in *.
  assert (He : 0 <= now + seconds e - due < seconds 60) by (unfold seconds in *; lia).
  replace (now + seconds e + SHANGHAI_OFFSET) with (hours 2 + (now + seconds e - due) + k * days 1)
    by (unfold days, hours, seconds, SHANGHAI_OFFSET in *; lia).
  rewrite Z_mod_plus_full, Z.mod_small by (unfold days, hours, seconds in *; lia). lia.
Qed.

Section Budget.
Context (repr_of : pyval -> string) (to_float : Q -> Q) (urlsplit : string -> option (string * string)).

#[local] Notation sanitize_endpoint := (sanitize_endpoint urlsplit).
#[local] Notation limit_for := (limit_for urlsplit).
#[local] Notation endpoint_profile_for_app := (endpoint_profile_for_app repr_of to_float urlsplit).

Lemma history_limits_spec reserve eps limits blocked : history_limits reserve eps = Ok (limits, blocked) ->
  limits.*1 = eps.*1 /\ forall k l n, aget k eps = Some l -> el_daily_quota l = Some n ->
    (n - reserve <= 0 -> k ∈ blocked)
    /\ (0 < n - reserve -> exists l', aget k limits = Some l' /\ el_daily_quota l' = Some (n - reserve)).
Proof.
  revert limits blocked. induction eps as [|[key l0] eps IH]; intros limits blocked; cbn [history_limits].
  { by intros [= <- <-]. }
  destruct (history_limits reserve eps) as [[ls bs]|]; [|done]. cbn [result_bind].
  destruct (IH ls bs eq_refl) as [K IH']. destruct (el_daily_quota l0) as [q|] eqn:Hq.
  - destruct (q - reserve <=? 0) eqn:Hle.
    + intros [= <- <-]. cbn. rewrite K. split; [done|]. intros k l n. destruct (str_eqb k key) eqn:E.
      * apply str_eqb_true in E as ->. intros [= <-]. rewrite Hq. intros [= ->]. split; [left|lia].
      * intros Hl Hn. destruct (IH' k l n Hl Hn) as [H1 H2]. split; [intros; right; auto|done].
    + intros H. guards H. injection H as <- <-. cbn. rewrite K. split; [done|]. intros k l n. destruct (str_eqb k key) eqn:E.
      * apply str_eqb_true in E as ->. intros [= <-]. rewrite Hq. intros [= ->]. split; [lia|]. intros _. exists a.
        split; [done|]. unfold check_limit in G. guards G. by injection G as <-.
      * apply IH'.
  - intros [= <- <-]. cbn. rewrite K. split; [done|]. intros k l n. destruct (str_eqb k key) eqn:E; [|apply IH'].
    apply str_eqb_true in E as ->. intros [= <-]. by rewrite Hq.
Qed.

(** C33: the history purpose keeps its reserve.  A governor of the production profile
    that is protected for history grants a request of an endpoint with daily quota
    [n] only on its own day, from 02:00 on, and only so far that the day's count
    stays at most [n] less the reserve, whatever the other purposes spent; otherwise
    it pauses, changes nothing, and the job resumes within a minute after 02:00. *)
Theorem history_keeps_reserve interval limits profile g reserve now0 p db e clock now wall l n db' p' res
    (Hp : endpoint_profile_for_app PRODUCTION_APP_ID interval limits = Ok profile)
    (Hg : rg_profile g = profile) (Hstore : rg_has_store g = true)
    (Hm : make_priority urlsplit g "history" reserve now0 = Ok p)
    (He : sanitize_endpoint e = e) (Hl : limit_for profile e = Some l) (Hn : el_daily_quota l = Some n)
    (Ha : priority_acquire urlsplit db p e clock now wall = Ok (db', p', res)) :
  match res with
  | PriorityGranted _ =>
      let k := ledger_key urlsplit g e wall in
      used db' k = used db k + 1 /\ used db' k <= n - reserve
      /\ shanghai_date now = shanghai_date now0 /\ 2 <= shanghai_hour now
  | PriorityPause d =>
      db' = db /\ 60 <= d <= 86400 /\ hours 2 <= shanghai_time (now + seconds d) < hours 2 + seconds 60
  end.
Proof.
  destruct (production_profile _ _ _ _ _ _ Hp) as [Hkeys _].
  unfold make_priority in Hm. change (str_eqb "history" "history") with true in Hm. cbv iota in Hm. rewrite Hg in Hm.
  destruct (history_limits _ _) as [[ls bs]|] eqn:Hh; [|done]. cbn [result_bind] in Hm.
  apply history_limits_spec in Hh as [K Hh]. unfold make_profile in Hm. guards Hm. injection Hm as <-.
  unfold make_profile in G. guards G. injection G as <-. rewrite (fold_aset_same urlsplit ls []) in Ha; cbn [app] in *.
  2:{ intros k. rewrite K, Hkeys. apply production_key. }
  2:{ rewrite K, Hkeys. apply (bool_decide_eq_true_1 (NoDup PRODUCTION_ENDPOINT_LIMITS.*1)). vm_compute. reflexivity. }
  match type of Ha with priority_acquire _ _ ?x _ _ _ _ = _ => set (p0 := x) in * end.
  pose proof (priority_spec urlsplit db (MkRequest p0 e clock now wall) db' p' res Hstore Ha) as Hs.
  destruct res as [w|d]; [|destruct Hs as [-> ->]; split; [done|apply pause_resumes]].
  unfold Quota.limit_for in Hl. rewrite He in Hl. destruct (Hh e l n Hl Hn) as [Hb Hok].
  unfold priority_acquire in Ha. cbv zeta in Ha.
  destruct (shanghai_date now =? pg_started_day p0) eqn:E1; [|done].
  destruct (str_eqb (pg_purpose p0) "history" && (shanghai_hour now <? 2)) eqn:E2; [done|].
  destruct (str_in e (pg_blocked_endpoints p0)) eqn:E3; [done|]. cbn [negb orb] in Ha.
  unfold str_in in E3. apply bool_decide_eq_false in E3. cbn [pg_blocked_endpoints p0] in E3.
  destruct (Hok ltac:(destruct (Z.le_gt_cases (n - reserve) 0) as [Hle|]; [by destruct (E3 (Hb Hle))|lia])) as (l' & Hl' & Hd).
  assert (Hlim : request_limit urlsplit (MkRequest p0 e clock now wall) = Some (n - reserve)).
  { unfold request_limit, daily_limit, Quota.limit_for. cbn. by rewrite !He, Hl'. }
  rewrite Hlim in Hs. destruct Hs as (_ & H1 & H2).
  change (str_eqb (pg_purpose p0) "history") with true in E2. cbn [andb] in E2. cbn in E1.
  change (request_key urlsplit (MkRequest p0 e clock now wall)) with (ledger_key urlsplit g e wall) in H1, H2. cbv zeta.
  split_and!; [done|done|lia|lia].
Qed.
End Budget.

(** ** Concrete requests *)

Definition no_url (s : string) : option (string * string) := None.
Definition qrepr (v : pyval) : string := "".

(** The production profile with the refund quota lowered to 50 a day. *)
Definition qlimits : pyval :=
  PDict [("endpoints", PDict [("refunds", PDict [("soft_quota", PInt 60); ("daily_quota", PInt 50)])])].
Definition qprofile : DouyinEndpointProfile :=
  match endpoint_profile_for_app qrepr id no_url PRODUCTION_APP_ID 0 qlimits with
  | Ok p => p
  | Raise _ => MkProfile "" [] 0
  end.
Definition qgovernor : RequestGovernor := make_governor qprofile PRODUCTION_APP_ID "account" "prod" true.
(** 2026-01-01 11:00 in Shanghai *)
Definition qnow : instant := hours 490899.
Definition qdaily : PriorityRequestGovernor := MkPriority (shanghai_date qnow) "daily_required" [] qgovernor.
Definition qhistory : PriorityRequestGovernor :=
  match make_priority no_url qgovernor "history" 10 qnow with Ok p => p | Raise _ => qdaily end.

Definition clues_limit : EndpointLimit := MkLimit (inject_Z 100) (inject_Z 60) (Some (inject_Z 90)) None.
Definition refund_limit : EndpointLimit :=
  MkLimit (inject_Z 100) (inject_Z 86400) (Some (inject_Z 60)) (Some 50).

Lemma pacing_respects_quota_witness :
  limit_for no_url qprofile "clues" = Some clues_limit
  /\ (inject_Z (Z.of_nat (length (List.filter (fun x => Qle_bool 0 x && Qlt_bool x (0 + 60))
        (slots "clues" (pace_run no_url qprofile ∅ [("clues", 0%Q); (" clues ", 0%Q); ("orders", 1%Q); ("clues", 2%Q)])))))
      < 90 + 1)%Q.
Proof.
  split; [vm_compute; reflexivity|].
  apply (pacing_respects_quota no_url qprofile ∅ [("clues", 0%Q); (" clues ", 0%Q); ("orders", 1%Q); ("clues", 2%Q)]
    "clues" clues_limit 0); vm_compute; reflexivity.
Defined.

Lemma overrides_only_tighten_witness :
  limit_for no_url qprofile "refunds" = Some refund_limit
  /\ exists l, aget "refunds" PRODUCTION_ENDPOINT_LIMITS = Some l /\ tighter l refund_limit.
Proof.
  split; [vm_compute; reflexivity|].
  apply (overrides_only_tighten qrepr id no_url 0 qlimits qprofile "refunds" refund_limit); vm_compute; reflexivity.
Defined.

Definition qrequest (p : PriorityRequestGovernor) : request := MkRequest p "refunds" 0 qnow qnow.
Definition ledger_of (r : result (ledger * PriorityRequestGovernor * priority_acquired)) : ledger :=
  match r with Ok (db, _, _) => db | Raise _ => ∅ end.
Definition qdb1 : ledger := ledger_of (priority_acquire no_url ∅ qdaily "refunds" 0 qnow qnow).
Definition qdb2 : ledger := ledger_of (priority_acquire no_url qdb1 qhistory "refunds" 0 qnow qnow).


Definition is_granted (r : result (ledger * PriorityRequestGovernor * priority_acquired)) : bool :=
  match r with Ok (_, _, PriorityGranted _) => true | _ => false end.
Lemma granted_result r : is_granted r = true -> exists p w, r = Ok (ledger_of r, p, PriorityGranted w).
Proof. destruct r as [[[db p] [w|d]]|]; try done. by exists p, w. Qed.

Lemma qrun : quota_run no_url ∅ [(qrequest qdaily, true); (qrequest qhistory, true)] qdb2.
Proof.
  destruct (granted_result (priority_acquire no_url ∅ qdaily "refunds" 0 qnow qnow)) as (p1 & w1 & E1); [vm_compute; reflexivity|].
  destruct (granted_result (priority_acquire no_url qdb1 qhistory "refunds" 0 qnow qnow)) as (p2 & w2 & E2); [vm_compute; reflexivity|].
  exact (run_granted no_url ∅ qdb1 qdb2 (qrequest qdaily) p1 w1 _ E1
    (run_granted no_url qdb1 qdb2 qdb2 (qrequest qhistory) p2 w2 _ E2 (run_nil no_url qdb2))).
Qed.

Lemma quota_never_exceeded_witness :
  used qdb2 (request_key no_url (qrequest qdaily)) = 2 /\ used qdb2 (request_key no_url (qrequest qdaily)) <= 50.
Proof.
  destruct (quota_never_exceeded no_url ∅ _ qdb2 (request_key no_url (qrequest qdaily)) 50 qrun) as [H1 H2].
  - intros q b [E|[E|?%elem_of_nil]%elem_of_cons]%elem_of_cons; [| |done]; injection E as -> ->;
      (split; [vm_compute; reflexivity|]); intros _; [exists 50|exists 40]; (split; [vm_compute; reflexivity|lia]).
  - vm_compute. discriminate.
  - split; [|exact H2]. rewrite H1. vm_compute. reflexivity.
Defined.

Lemma history_keeps_reserve_witness :
  exists db' p' w, priority_acquire no_url qdb1 qhistory "refunds" 0 qnow qnow = Ok (db', p', PriorityGranted w)
    /\ used db' (ledger_key no_url qgovernor "refunds" qnow) <= 50 - 10.
Proof.
  destruct (granted_result (priority_acquire no_url qdb1 qhistory "refunds" 0 qnow qnow)) as (p' & w & E); [vm_compute; reflexivity|].
  exists qdb2, p', w. split; [exact E|].
  apply (history_keeps_reserve qrepr id no_url 0 qlimits qprofile qgovernor 10 qnow qhistory qdb1 "refunds" 0 qnow qnow
    refund_limit 50 qdb2 p' (PriorityGranted w)); [vm_compute; reflexivity|reflexivity|reflexivity|vm_compute; reflexivity
    |vm_compute; reflexivity|vm_compute; reflexivity|reflexivity|exact E].
Defined.
