(* ===== verification/FeeTables.v ===== *)
(** * The fee ledger: tables

    The rows of apps/api/dy_api/models.py that apps/worker/settlement.py reads
    and writes for the promotion and management fees: raw orders, coupons,
    verifications and refund events, fee results with their current pointers,
    adjustments, carryforwards, statements and what freezes them.  A table is the
    list of its rows in insertion order.  Amounts are integers of cents, a fee
    rate (a [Numeric(8, 6)] column) is a number of millionths, an instant a number
    of microseconds in UTC and a date a day number. *)
From S2P Require Import Prelude PyValue Jobs.
#[local] Open Scope Z_scope.

(** ** Raw rows *)

Record RawDouyinOrder := MkFeeOrder {
  order_pk : Z;
  order_id : string;
  order_status : option string;
  order_status_normalized : option string;
  order_sku_id : option string;
  order_pay_time : option instant;
  order_sale_time : option instant;
  order_owner_account_id : option string;
  order_owner_account_name : option string;
  order_sale_channel : option string;
  order_sale_channel_normalized : option string;
  order_raw_payload : pyval;
  order_owner_douyin_uid : option string;
  order_payload_fingerprint : option string;
}.

Record RawDouyinOrderCoupon := MkFeeCoupon {
  coupon_id : string;
  coupon_order_id : string;
  coupon_raw_order_id : Z;
  coupon_order_item_id : option string;
  coupon_status : option string;
  coupon_status_normalized : option string;
  coupon_refunded_cent : option Z;
  coupon_refunded_amount_cent : Z;
  coupon_raw_payload : pyval;
  coupon_pk : Z;
  coupon_payload_fingerprint : option string;
}.

Record RawDouyinVerifyRecord := MkFeeVerify {
  verify_id : string;
  verify_coupon_id : option string;
  verify_status : option string;
  verify_time : option instant;
  verify_poi_id : option string;
  verify_cancel_time : option instant;
  verify_payload_fingerprint : option string;
}.

Record DouyinRefundEvent := MkFeeRefund {
  refund_event_id : string;
  refund_order_id : string;
  refund_coupon_id : option string;
  refund_type : Z;
  refund_status : Z;
  refund_amount_cent : Z;
  refund_occurred_at : instant;
  refund_successful_observed_at : option instant;
  refund_created_at : instant;
}.

(** ** The ledger *)

Record SettlementFeeResult := MkFeeResult {
  fee_result_id : string;
  result_coupon_id : string;
  result_order_id : string;
  result_fee_direction : Z;
  result_version : Z;
  result_original_business_month : string;
  result_rule_match_date : Z;
  result_sale_store_id : option string;
  result_verify_store_id : option string;
  result_sku_id : string;
  result_product_scope : string;
  result_product_type : string;
  result_sale_channel_normalized : string;
  result_source_amount_cent : Z;
  result_refunded_amount_cent : Z;
  result_fee_base_cent : Z;
  result_fee_rate : Z;
  result_fee_amount_cent : Z;
  result_rule_version : string;
  result_scope_rule_version : string;
  result_status : Z;
  result_calculation_run_id : string;
  result_input_fingerprint : option string;
  result_account_qualification_version_id : option string;
  result_sale_attribution_decision_id : option string;
  result_qualifying_verify_id : option string;
  result_qualifying_verify_time : option instant;
  result_qualifying_verify_store_id : option string;
  result_qualifying_verify_store_name : option string;
  result_reverification_anchor_id : option string;
  result_calculated_at : instant;
}.

#[export] Instance eta_SettlementFeeResult : Eta SettlementFeeResult := fun x =>
  MkFeeResult (fee_result_id x) (result_coupon_id x) (result_order_id x) (result_fee_direction x)
    (result_version x) (result_original_business_month x) (result_rule_match_date x) (result_sale_store_id x)
    (result_verify_store_id x) (result_sku_id x) (result_product_scope x) (result_product_type x)
    (result_sale_channel_normalized x) (result_source_amount_cent x) (result_refunded_amount_cent x)
    (result_fee_base_cent x) (result_fee_rate x) (result_fee_amount_cent x) (result_rule_version x)
    (result_scope_rule_version x) (result_status x) (result_calculation_run_id x) (result_input_fingerprint x)
    (result_account_qualification_version_id x) (result_sale_attribution_decision_id x)
    (result_qualifying_verify_id x) (result_qualifying_verify_time x) (result_qualifying_verify_store_id x)
    (result_qualifying_verify_store_name x) (result_reverification_anchor_id x) (result_calculated_at x).

Record SettlementFeeResultCurrent := MkCurrent {
  current_coupon_id : string;
  current_fee_direction : Z;
  current_fee_result_id : string;
}.

Record SettlementFeeAdjustment := MkAdjustment {
  adjustment_id : string;
  adj_original_fee_result_id : string;
  adj_refund_event_id : option string;
  adj_coupon_id : string;
  adj_order_id : string;
  adj_fee_direction : Z;
  adj_original_business_month : string;
  adjustment_posting_month : string;
  adjustment_type : Z;
  adjustment_base_cent : Z;
  adjustment_fee_cent : Z;
  adj_rule_version : string;
  adjustment_reason : string;
  adj_occurred_at : instant;
  adj_created_by : string;
}.

Record SettlementCarryforwardSource := MkSource {
  carryforward_source_id : string;
  source_event_type : Z;
  source_event_key : string;
  src_original_fee_result_id : string;
  src_refund_event_id : option string;
  src_verify_id : option string;
  src_coupon_id : string;
  src_order_id : string;
  src_store_id : string;
  src_fee_direction : Z;
  src_original_business_month : string;
  src_event_month : string;
  src_adjustment_type : Z;
  src_adjustment_base_cent : Z;
  src_adjustment_fee_cent : Z;
  src_rule_version : string;
  carryforward_reason : string;
  src_occurred_at : instant;
  src_created_by : string;
}.

Record SettlementCarryforwardApplication := MkApplication {
  carryforward_application_id : string;
  app_carryforward_source_id : string;
  target_statement_id : string;
  target_statement_version : Z;
  target_adjustment_id : string;
  target_posting_month : string;
  application_version : Z;
  app_is_current : bool;
  app_applied_by : string;
  app_applied_at : instant;
}.

(** ** Statements and what freezes them *)

Record SettlementStatement := MkStatement {
  statement_id : string;
  stmt_store_id : string;
  statement_month : string;
  stmt_version_no : Z;
  stmt_is_current : bool;
  statement_status : Z;
  stmt_promotion_original_fee_cent : Z;
  stmt_promotion_adjustment_fee_cent : Z;
  stmt_promotion_net_fee_cent : Z;
  stmt_management_original_fee_cent : Z;
  stmt_management_adjustment_fee_cent : Z;
  stmt_management_net_fee_cent : Z;
  stmt_confirmed_at : option instant;
  stmt_locked_by : option string;
  stmt_locked_at : option instant;
  stmt_lock_version : option string;
  stmt_supersedes_statement_id : option string;
}.

#[export] Instance eta_SettlementStatement : Eta SettlementStatement := fun x =>
  MkStatement (statement_id x) (stmt_store_id x) (statement_month x) (stmt_version_no x) (stmt_is_current x)
    (statement_status x) (stmt_promotion_original_fee_cent x) (stmt_promotion_adjustment_fee_cent x)
    (stmt_promotion_net_fee_cent x) (stmt_management_original_fee_cent x)
    (stmt_management_adjustment_fee_cent x) (stmt_management_net_fee_cent x) (stmt_confirmed_at x)
    (stmt_locked_by x) (stmt_locked_at x) (stmt_lock_version x) (stmt_supersedes_statement_id x).

Record SettlementStatementLine := MkLine {
  statement_line_id : string;
  line_statement_id : string;
  line_fee_direction : Z;
  line_product_scope : string;
  line_product_type : string;
  line_original_entry_count : Z;
  line_adjustment_entry_count : Z;
  line_original_base_cent : Z;
  line_adjustment_base_cent : Z;
  line_net_base_cent : Z;
  line_original_fee_cent : Z;
  line_adjustment_fee_cent : Z;
  line_net_fee_cent : Z;
}.

(** The snapshot columns of an entry are texts for the bill and left out. *)
Record SettlementStatementEntry := MkEntry {
  statement_entry_id : string;
  entry_statement_id : string;
  entry_statement_line_id : string;
  entry_source_type : Z;
  entry_source_record_id : string;
  entry_original_fee_result_id : string;
  entry_coupon_id : string;
  entry_order_id : string;
  entry_fee_direction : Z;
  entry_original_business_month : string;
  entry_statement_posting_month : string;
  entry_product_scope : string;
  entry_product_type : string;
  entry_base_amount_cent : Z;
  entry_fee_amount_cent : Z;
  entry_rule_version : string;
}.

(** A row of [promotion_invoice_allocation] or [invoice_record], and a row of
    [settlement_dispute]. *)
Record InvoiceFact := MkInvoice { inv_store_id : string; inv_statement_month : string; inv_is_current : bool }.
Record SettlementDispute := MkDispute {
  dispute_store_id : string;
  dispute_statement_month : string;
  dispute_status : Z;
  dispute_result_statement_id : option string;
}.

Record FinanceOperationAudit := MkAudit {
  audit_id : string;
  audit_operation_type : string;
  audit_target_type : string;
  audit_target_id : string;
  audit_after_snapshot : pyval;
  audit_result_status : Z;
  audit_request_id : string;
  audit_request_payload_sha256 : option string;
}.

(** An issue by its identity; the text and context of an issue are left out. *)
Record DataQualityIssue := MkIssue {
  issue_type : string;
  issue_order_id : option string;
  issue_coupon_id : option string;
  issue_source_run_id : string;
  issue_identity_suffix : option string;
  issue_severity : string;
}.

(** ** Dimensions *)

Record DimStore := MkFeeStore { store_id : string; store_name : string; store_is_active : bool }.
Record DimStorePoiMapping := MkPoiMapping { mapping_poi_id : string; mapping_store_id : string }.

Record DimSkuProductRule := MkSkuProduct {
  product_sku_id : string;
  product_scope : string;
  product_type : string;
  product_owner_account_id : option string;
  product_status_normalized : option string;
  product_is_active : bool;
  product_sync_status : option string;
}.

Record SettlementScopeRule := MkScopeRule {
  scope_pk : Z;
  scope_rule_version : string;
  scope_effective_month : string;
  scope_owner_account_id : string;
  scope_sale_channel_normalized : string;
  scope_is_active : bool;
}.

Record SkuFeeRule := MkFeeRule {
  fee_rule_pk : Z;
  fee_rule_version : string;
  fee_rule_sku_id : string;
  promotion_service_fee_rate : Z;
  management_service_fee_rate : Z;
  fee_rule_effective_date : Z;
  fee_rule_status : Z;
}.

Record DimNonCommissionOwnerAccount := MkNonCommission {
  non_commission_name : string;
  non_commission_is_active : bool;
}.

Record DimAwemeAccount := MkAwemeAccount {
  account_id : string;
  account_store_id : option string;
  account_binding_status : option string;
  account_valid_from : option Z;
  account_valid_to : option Z;
}.

Record RawAwemeBinding := MkAwemeBinding {
  binding_key : string;
  binding_douyin_id : option string;
  binding_douyin_nickname : option string;
  binding_account_id : option string;
  binding_poi_id : option string;
  binding_status : option string;
  binding_raw_payload : pyval;
}.

Record feedb := MkFeeDb {
  fee_orders : list RawDouyinOrder;
  fee_coupons : list RawDouyinOrderCoupon;
  fee_verify_records : list RawDouyinVerifyRecord;
  fee_refund_events : list DouyinRefundEvent;
  fee_results : list SettlementFeeResult;
  fee_results_current : list SettlementFeeResultCurrent;
  fee_adjustments : list SettlementFeeAdjustment;
  carryforward_sources : list SettlementCarryforwardSource;
  carryforward_applications : list SettlementCarryforwardApplication;
  statements : list SettlementStatement;
  statement_lines : list SettlementStatementLine;
  statement_entries : list SettlementStatementEntry;
  statement_confirmations : list string;
  promotion_invoices : list InvoiceFact;
  management_invoices : list InvoiceFact;
  disputes : list SettlementDispute;
  finance_audits : list FinanceOperationAudit;
  quality_issues : list DataQualityIssue;
  fee_stores : list DimStore;
  fee_poi_mappings : list DimStorePoiMapping;
  fee_sku_products : list DimSkuProductRule;
  fee_scope_rules : list SettlementScopeRule;
  fee_rules : list SkuFeeRule;
  fee_non_commission : list DimNonCommissionOwnerAccount;
  fee_accounts : list DimAwemeAccount;
  fee_bindings : list RawAwemeBinding;
}.

#[export] Instance eta_feedb : Eta feedb := fun x =>
  MkFeeDb (fee_orders x) (fee_coupons x) (fee_verify_records x) (fee_refund_events x) (fee_results x)
    (fee_results_current x) (fee_adjustments x) (carryforward_sources x) (carryforward_applications x)
    (statements x) (statement_lines x) (statement_entries x) (statement_confirmations x) (promotion_invoices x)
    (management_invoices x) (disputes x) (finance_audits x) (quality_issues x) (fee_stores x) (fee_poi_mappings x) (fee_sku_products x)
    (fee_scope_rules x) (fee_rules x) (fee_non_commission x) (fee_accounts x) (fee_bindings x).
