(* ===== verification/FeeLedger.v ===== *)
(** * The fee ledger: refunds, cancellations and carryforwards

    apps/worker/settlement.py: the economic basis of a coupon in one fee direction,
    what freezes it, and the adjustments that refunds and canceled verifications
    post to it, in the month of the event or, when that month is frozen, as a
    carryforward source.  An operation returns the new tables or raises; the
    advisory locks on (store, month) slots make one operation one step. *)
From S2P Require Import Prelude PyValue Jobs FeeTables.
#[local] Open Scope Z_scope.

Definition PROMOTION_FEE : Z := 1.
Definition MANAGEMENT_FEE : Z := 2.
Definition ACTIVE_FEE_RESULT : Z := 1.
Definition SUPERSEDED_FEE_RESULT : Z := 2.
Definition SUCCESSFUL_REFUND : Z := 2.
Definition VALID_VERIFY_STATUSES : list string := ["1"; "valid"; "verified"; "success"; "fulfilled"; "used"].

(** ** Values *)

(** [_normalized] *)
Definition normalized (value : option string) : string := lower (strip (default "" value)).

(** [_commission_cent]: the product with the rate, rounded half up (away from zero) *)
Definition commission_cent (amount rate : Z) : Z :=
  let p := amount * rate in
  Z.sgn p * ((Z.abs p + 500000) / 1000000).

(** [_business_date] of a known time: the day in Shanghai *)
Definition business_date (t : instant) : Z := (t + seconds (8 * 3600)) / seconds 86400.

(** The year and month of a day number (the proleptic Gregorian calendar, from
    1970-01-01). *)
Definition civil_month (d : Z) : Z * Z :=
  let z := d + 719468 in
  let era := z / 146097 in
  let doe := z mod 146097 in
  let yoe := (doe - doe / 1460 + doe / 36524 - doe / 146096) / 365 in
  let doy := doe - (365 * yoe + yoe / 4 - yoe / 100) in
  let mp := (5 * doy + 2) / 153 in
  let m := if mp <? 10 then mp + 3 else mp - 9 in
  (yoe + era * 400 + (if m <=? 2 then 1 else 0), m).

(** [f"{n:0{width}d}"] for a natural number *)
Definition zero_padded (width : nat) (n : Z) : string :=
  let s := str_of_Z n in
  (text (replicate (width - length (chars s)) (Ascii.ascii_of_nat 48)) +:+ s)%string.

Definition month_key (year month : Z) : string :=
  (zero_padded 4 year +:+ "-" +:+ zero_padded 2 month)%string.
Definition month_of_day (d : Z) : string := let '(y, m) := civil_month d in month_key y m.

(** [_business_month] *)
Definition business_month (t : instant) : string := month_of_day (business_date t).

Example business_month_ex1 : business_month 0 = "1970-01".
Proof. vm_compute. reflexivity. Qed.
Example business_month_ex2 : business_month (seconds 1785513600) = "2026-08".
Proof. vm_compute. reflexivity. Qed.
Example business_month_ex3 : business_month (seconds 1785513599) = "2026-07".
Proof. vm_compute. reflexivity. Qed.

(** ** What freezes a result *)

(** [_locked_statement] *)
Definition locked_statement (d : feedb) (store_id month : string) : option SettlementStatement :=
  List.find (fun s => str_eqb (stmt_store_id s) store_id && str_eqb (statement_month s) month
                      && (statement_status s =? 4) && stmt_is_current s) (statements d).

Definition invoice_of (store_id month : string) (i : InvoiceFact) : bool :=
  str_eqb (inv_store_id i) store_id && str_eqb (inv_statement_month i) month.

(** [_is_settlement_period_immutable] *)
Definition is_settlement_period_immutable (d : feedb) (store_id month : string) : bool :=
  bool_decide (is_Some (locked_statement d store_id month))
  || existsb (fun i => invoice_of store_id month i && inv_is_current i) (promotion_invoices d)
  || existsb (fun i => invoice_of store_id month i && inv_is_current i) (management_invoices d).

(** [protected_statement_condition] *)
Definition is_protected_statement (d : feedb) (s : SettlementStatement) : bool :=
  bool_decide (statement_status s ∈ [3; 4]) || bool_decide (is_Some (stmt_confirmed_at s))
  || bool_decide (is_Some (stmt_locked_at s)) || str_in (statement_id s) (statement_confirmations d)
  || existsb (fun x => str_eqb (dispute_store_id x) (stmt_store_id s)
                       && str_eqb (dispute_statement_month x) (statement_month s)
                       && (bool_decide (dispute_status x ∈ [1; 2; 3; 4])
                           || bool_decide (is_Some (dispute_result_statement_id x)))) (disputes d)
  || existsb (invoice_of (stmt_store_id s) (statement_month s)) (promotion_invoices d)
  || existsb (invoice_of (stmt_store_id s) (statement_month s)) (management_invoices d).

Definition correction_of (id : string) (a : FinanceOperationAudit) : bool :=
  str_eqb (audit_operation_type a) "HISTORICAL_ATTACHMENT_CORRECTION"
  && str_eqb (audit_target_type a) "SETTLEMENT_FEE_RESULT" && str_eqb (audit_target_id a) id
  && (audit_result_status a =? 1).

(** [_has_historical_fee_correction] *)
Definition has_historical_fee_correction (d : feedb) (id : string) : bool :=
  existsb (correction_of id) (finance_audits d).

(** [v == 0] *)
Definition is_zero (v : pyval) : bool :=
  match v with
  | PInt z => z =? 0
  | PBool b => negb b
  | PFloat (FFin m _) => m =? 0
  | PDec (DFin c _) => c =? 0
  | _ => false
  end.

(** The audit shows a changed amount, or does not show that it is unchanged. *)
Definition audit_overrides (a : FinanceOperationAudit) : bool :=
  match audit_after_snapshot a with
  | PDict s =>
      match dict_get "old_fee_cent" s, dict_get "target_fee_cent" s with
      | PInt old, PInt target => negb (old =? target) || negb (is_zero (dict_get "delta_cent" s))
      | _, _ => true
      end
  | _ => true
  end.

(** [_has_historical_fee_amount_override] *)
Definition has_historical_fee_amount_override (d : feedb) (id : string) : bool :=
  existsb (fun a => correction_of id a && audit_overrides a) (finance_audits d)
  || existsb (fun a => str_eqb (adj_original_fee_result_id a) id && (adjustment_type a =? 4)
                       && (negb (adjustment_fee_cent a =? 0) || negb (adjustment_base_cent a =? 0)))
       (fee_adjustments d)
  || existsb (fun s => str_eqb (src_original_fee_result_id s) id && (src_adjustment_type s =? 4)
                       && (negb (src_adjustment_fee_cent s =? 0) || negb (src_adjustment_base_cent s =? 0)))
       (carryforward_sources d).

(** [_is_fee_result_locked] *)
Definition is_fee_result_locked (d : feedb) (store_id month : string) (current_fee_result_id : option string)
  : bool :=
  match current_fee_result_id with
  | Some id => negb (str_eqb id "") && has_historical_fee_correction d id
  | None => false
  end
  || is_settlement_period_immutable d store_id month
  || existsb (fun s =>
       ((str_eqb (stmt_store_id s) store_id && str_eqb (statement_month s) month && stmt_is_current s)
        || match current_fee_result_id with
           | Some id => negb (str_eqb id "")
                        && existsb (fun e => (entry_source_type e =? 1) && str_eqb (entry_source_record_id e) id
                                             && str_eqb (entry_statement_id e) (statement_id s))
                             (statement_entries d)
           | None => false
           end)
       && is_protected_statement d s) (statements d).

(** ** Reading the ledger *)

(** The store that owes or earns the fee of a direction. *)
Definition responsible_store (direction : Z) (r : SettlementFeeResult) : option string :=
  if direction =? PROMOTION_FEE then result_sale_store_id r else result_verify_store_id r.

(** [ORDER BY result_version DESC LIMIT 1] *)
Fixpoint latest_version (l : list SettlementFeeResult) : option SettlementFeeResult :=
  match l with
  | [] => None
  | r :: l' =>
      match latest_version l' with
      | Some r' => Some (if result_version r <? result_version r' then r' else r)
      | None => Some r
      end
  end.

Definition current_pointer (d : feedb) (coupon : string) (direction : Z) : option SettlementFeeResultCurrent :=
  List.find (fun p => str_eqb (current_coupon_id p) coupon && (current_fee_direction p =? direction))
    (fee_results_current d).

(** [_current_fee_result] *)
Definition current_fee_result (d : feedb) (coupon : string) (direction : Z) : option SettlementFeeResult :=
  match current_pointer d coupon direction with
  | Some p =>
      latest_version (List.filter (fun r =>
        str_eqb (fee_result_id r) (current_fee_result_id p)
        || opt_is (result_reverification_anchor_id r) (current_fee_result_id p)) (fee_results d))
  | None => None
  end.

(** [_calculation_run_result], [_next_fee_result_version] *)
Definition calculation_run_result (d : feedb) (coupon : string) (direction : Z) (run : string)
  : option SettlementFeeResult :=
  List.find (fun r => str_eqb (result_coupon_id r) coupon && (result_fee_direction r =? direction)
                      && str_eqb (result_calculation_run_id r) run) (fee_results d).
Definition next_fee_result_version (d : feedb) (coupon : string) (direction : Z) : Z :=
  foldr Z.max 0 (result_version <$>
    List.filter (fun r => str_eqb (result_coupon_id r) coupon && (result_fee_direction r =? direction))
      (fee_results d)) + 1.

(** The newest verification first. *)
Definition verified_after (a b : RawDouyinVerifyRecord) : Prop :=
  match verify_time a, verify_time b with
  | Some ta, Some tb => tb < ta \/ (ta = tb /\ String.le (verify_id b) (verify_id a))
  | Some _, None => True
  | None, Some _ => False
  | None, None => String.le (verify_id b) (verify_id a)
  end.
#[export] Instance verified_after_dec a b : Decision (verified_after a b).
Proof. unfold verified_after. destruct (verify_time a), (verify_time b); apply _. Defined.

(** [_select_valid_verify_record] *)
Definition select_valid_verify_record (d : feedb) (coupon : string) : option RawDouyinVerifyRecord :=
  head (List.filter (fun v =>
          str_in (normalized (verify_status v)) VALID_VERIFY_STATUSES
          && bool_decide (verify_cancel_time v = None) && bool_decide (is_Some (verify_time v)))
    (merge_sort verified_after
      (List.filter (fun v => opt_is (verify_coupon_id v) coupon) (fee_verify_records d)))).

(** [_same_qualifying_verification] *)
Definition same_qualifying_verification (r : SettlementFeeResult) (v : RawDouyinVerifyRecord) : bool :=
  opt_is (result_qualifying_verify_id r) (verify_id v) && bool_decide (is_Some (verify_time v))
  && bool_decide (result_qualifying_verify_time r = verify_time v).

(** [_has_verify_cancellation] *)
Definition has_verify_cancellation (d : feedb) (original : SettlementFeeResult) : bool :=
  existsb (fun a => str_eqb (adj_original_fee_result_id a) (fee_result_id original) && (adjustment_type a =? 3))
    (fee_adjustments d)
  || existsb (fun s => str_eqb (src_original_fee_result_id s) (fee_result_id original)
                       && (source_event_type s =? 2) && (src_adjustment_type s =? 3)) (carryforward_sources d).

(** [ORDER BY cancel_time DESC LIMIT 1] of canceled verifications *)
Fixpoint latest_canceled (l : list RawDouyinVerifyRecord) : option RawDouyinVerifyRecord :=
  match l with
  | [] => None
  | v :: l' =>
      match latest_canceled l' with
      | Some v' => Some (if default 0 (verify_cancel_time v) <? default 0 (verify_cancel_time v') then v' else v)
      | None => Some v
      end
  end.

(** Truth of a nullable text. *)
Definition truthy_text (s : option string) : bool :=
  match s with Some t => negb (str_eqb t "") | None => false end.

(** [_matching_verify_cancellation] *)
Definition matching_verify_cancellation (d : feedb) (original : SettlementFeeResult)
  : option RawDouyinVerifyRecord :=
  let canceled := List.filter (fun v => opt_is (verify_coupon_id v) (result_coupon_id original)
                                        && bool_decide (is_Some (verify_cancel_time v))) (fee_verify_records d) in
  if truthy_text (result_qualifying_verify_id original) then
    latest_canceled (List.filter (fun v =>
      opt_is (result_qualifying_verify_id original) (verify_id v)
      && match result_qualifying_verify_time original with
         | Some t => opt_is (verify_time v) t
         | None => true
         end) canceled)
  else if bool_decide (is_Some (select_valid_verify_record d (result_coupon_id original))) then None
  else latest_canceled canceled.

(** ** Writing *)

(** [_record_issue]: one issue per identity, the last one written.  The identity
    includes the run. *)
Definition same_issue (a b : DataQualityIssue) : bool :=
  str_eqb (issue_type a) (issue_type b) && bool_decide (issue_order_id a = issue_order_id b)
  && bool_decide (issue_coupon_id a = issue_coupon_id b)
  && str_eqb (issue_source_run_id a) (issue_source_run_id b)
  && bool_decide (issue_identity_suffix a = issue_identity_suffix b).
Definition record_issue (i : DataQualityIssue) (d : feedb) : feedb :=
  d <| quality_issues := List.filter (fun j => negb (same_issue i j)) (quality_issues d) ++ [i] |>.

(** Inserting a row under the unique constraints of its table. *)
Definition insert_adjustment (a : SettlementFeeAdjustment) (d : feedb) : result feedb :=
  if existsb (fun b => str_eqb (adjustment_id b) (adjustment_id a)
       || (bool_decide (is_Some (adj_refund_event_id a))
           && bool_decide (adj_refund_event_id b = adj_refund_event_id a)
           && str_eqb (adj_original_fee_result_id b) (adj_original_fee_result_id a)
           && (adj_fee_direction b =? adj_fee_direction a))) (fee_adjustments d)
  then Raise (NamedError "IntegrityError" "settlement_fee_adjustment")
  else Ok (d <| fee_adjustments := fee_adjustments d ++ [a] |>).

Definition insert_source (s : SettlementCarryforwardSource) (d : feedb) : result feedb :=
  if existsb (fun x => str_eqb (carryforward_source_id x) (carryforward_source_id s)
       || (str_eqb (source_event_key x) (source_event_key s)
           && str_eqb (src_original_fee_result_id x) (src_original_fee_result_id s)
           && (src_fee_direction x =? src_fee_direction s))) (carryforward_sources d)
  then Raise (NamedError "IntegrityError" "settlement_carryforward_source")
  else Ok (d <| carryforward_sources := carryforward_sources d ++ [s] |>).

Definition sum_Z (l : list Z) : Z := foldr Z.add 0 l.

Section Ledger.
(** [sha256(...).hexdigest()] and [isoformat(timespec="microseconds")]. *)
Context (hexdigest : string -> string) (isoformat : instant -> string).

(** [_stable_business_id]; the parts are joined by the unit separator *)
Definition stable_business_id (prefix : string) (parts : list string) : string :=
  (prefix +:+ "-" +:+ text (take 40 (chars (hexdigest
     (join (text [Ascii.ascii_of_nat 31]) (prefix :: parts))))))%string.

(** [_carryforward_source] *)
Definition carryforward_source (d : feedb) (key original : string) (direction : Z)
  : option SettlementCarryforwardSource :=
  List.find (fun s => str_eqb (source_event_key s) key && str_eqb (src_original_fee_result_id s) original
                      && (src_fee_direction s =? direction)) (carryforward_sources d).

(** The sources of a result, the adjustments they became, and the rows
    [_effective_adjustment_totals] adds up. *)
Definition reverification_key (original : string) : string := ("reverification:" +:+ original)%string.
Definition sources_of (d : feedb) (original : string) : list SettlementCarryforwardSource :=
  List.filter (fun s => str_eqb (src_original_fee_result_id s) original) (carryforward_sources d).
Definition materialized_ids (d : feedb) (original : string) : list string :=
  target_adjustment_id <$>
    List.filter (fun a => str_in (app_carryforward_source_id a) (carryforward_source_id <$> sources_of d original))
      (carryforward_applications d).
Definition ordinary_adjustments (d : feedb) (original : string) : list SettlementFeeAdjustment :=
  List.filter (fun a => str_eqb (adj_original_fee_result_id a) original
                        && negb (str_in (adjustment_id a) (materialized_ids d original))
                        && negb (str_eqb (adjustment_id a) (stable_business_id "reverification" [original])))
    (fee_adjustments d).
Definition effective_sources (d : feedb) (original : string) : list SettlementCarryforwardSource :=
  List.filter (fun s => negb (str_eqb (source_event_key s) (reverification_key original))) (sources_of d original).

(** [_effective_adjustment_totals] *)
Definition effective_adjustment_totals (d : feedb) (original : string) : Z * Z :=
  (sum_Z (src_adjustment_base_cent <$> effective_sources d original)
   + sum_Z (adjustment_base_cent <$> ordinary_adjustments d original),
   sum_Z (src_adjustment_fee_cent <$> effective_sources d original)
   + sum_Z (adjustment_fee_cent <$> ordinary_adjustments d original)).

(** [_create_carryforward_source] *)
Definition create_carryforward_source (d : feedb) (event_type : Z) (key : string) (original : SettlementFeeResult)
    (refund_event verify : option string) (store month : string) (kind base fee : Z) (reason : string)
    (occurred_at : instant) (run : string) : result (feedb * SettlementCarryforwardSource) :=
  match carryforward_source d key (fee_result_id original) (result_fee_direction original) with
  | Some s => Ok (d, s)
  | None =>
      let s := MkSource
        (stable_business_id "carryforward-source"
           [key; fee_result_id original; str_of_Z (result_fee_direction original)])
        event_type key (fee_result_id original) refund_event verify (result_coupon_id original)
        (result_order_id original) store (result_fee_direction original)
        (result_original_business_month original) month kind base fee (result_rule_version original) reason
        occurred_at ("settlement:" +:+ run)%string in
      let* d := insert_source s d in
      Ok (d, s)
  end.

(** *** Refunds *)

Definition refund_before (a b : DouyinRefundEvent) : Prop :=
  refund_occurred_at a < refund_occurred_at b
  \/ (refund_occurred_at a = refund_occurred_at b /\ String.le (refund_event_id a) (refund_event_id b)).
#[export] Instance refund_before_dec a b : Decision (refund_before a b).
Proof. unfold refund_before. apply _. Defined.

(** [_resolved_refund_events]: the events of the coupon, and those of its order
    when the coupon is the only one *)
Definition direct_events (d : feedb) (c : RawDouyinOrderCoupon) : list DouyinRefundEvent :=
  List.filter (fun e => opt_is (refund_coupon_id e) (coupon_id c) && str_eqb (refund_order_id e) (coupon_order_id c)
                        && (refund_status e =? SUCCESSFUL_REFUND)) (fee_refund_events d).
Definition order_events (d : feedb) (c : RawDouyinOrderCoupon) : list DouyinRefundEvent :=
  List.filter (fun e => str_eqb (refund_order_id e) (coupon_order_id c) && bool_decide (refund_coupon_id e = None)
                        && (refund_status e =? SUCCESSFUL_REFUND)) (fee_refund_events d).
Definition sole_coupon (d : feedb) (c : RawDouyinOrderCoupon) : bool :=
  bool_decide (length (List.filter (fun x => coupon_raw_order_id x =? coupon_raw_order_id c) (fee_coupons d)) = 1%nat).
Definition resolved_refund_events (d : feedb) (c : RawDouyinOrderCoupon) : list DouyinRefundEvent :=
  merge_sort refund_before
    (direct_events d c ++ (if sole_coupon d c then order_events d c else [])).

(** The issues recorded for events that name no coupon of several. *)
Definition record_ambiguous_events (d : feedb) (c : RawDouyinOrderCoupon) (run : string) : feedb :=
  if sole_coupon d c || str_eqb run "" then d
  else foldl (fun d e => record_issue
    (MkIssue "dual_fee_ambiguous_order_level_refund" (Some (coupon_order_id c)) None run
       (Some (refund_event_id e)) "error") d) d (order_events d c).

(** [_refund_event_observed_at] *)
Definition refund_event_observed_at (e : DouyinRefundEvent) : instant :=
  default (refund_created_at e) (refund_successful_observed_at e).

(** [cumulative] after an event of a result with the given source amount *)
Definition refunded_after (source cumulative : Z) (e : DouyinRefundEvent) : Z :=
  if refund_type e =? 2 then source else Z.min source (cumulative + refund_amount_cent e).

(** The variables of the loop over the events of one direction. *)
Record refund_loop := MkLoop {
  lp_db : feedb;
  lp_cumulative : Z;
  lp_event_total : Z;
  lp_base : Z;
  lp_fee : Z;
  lp_reviews : Z;
}.

Definition refund_key (e : DouyinRefundEvent) : string := ("refund:" +:+ refund_event_id e)%string.
Definition refund_adjustment_id (e : DouyinRefundEvent) (original : SettlementFeeResult) (direction : Z) : string :=
  stable_business_id "refund-adjustment" [refund_event_id e; fee_result_id original; str_of_Z direction].

Definition refund_reason (e : DouyinRefundEvent) : string :=
  if refund_type e =? 2 then "全额退款，按原规则版本将费用净额调整为零。"
  else "部分退款，按退款后净额和原规则版本同比例调减费用。".

(** The state after an event whose posting exists already. *)
Definition count_posted (l : refund_loop) (total : Z) (source : Z) (e : DouyinRefundEvent) (base fee : Z) (d : feedb)
  : refund_loop :=
  MkLoop d (refunded_after source (lp_cumulative l) e) total (lp_base l + base) (lp_fee l + fee) (lp_reviews l).

(** The amounts an event posts: down to the fee of what remains, or to zero when a
    full refund meets a corrected basis. *)
Definition refund_amounts (d : feedb) (original : SettlementFeeResult) (manual_basis : bool)
    (e : DouyinRefundEvent) (cumulative base fee : Z) : Z * Z :=
  let target_base := Z.max (result_source_amount_cent original - cumulative) 0 in
  let target_fee := commission_cent target_base (result_fee_rate original) in
  if manual_basis && (refund_type e =? 2) then
    let '(effective_base, effective_fee) := effective_adjustment_totals d (fee_result_id original) in
    (- result_fee_base_cent original - effective_base, - result_fee_amount_cent original - effective_fee)
  else (target_base - result_fee_base_cent original - base, target_fee - result_fee_amount_cent original - fee).

(** Posting an event: an adjustment of its month, or a carryforward source when
    that month is frozen. *)
Definition post_refund (run : string) (direction : Z) (original : SettlementFeeResult) (store : string)
    (e : DouyinRefundEvent) (base fee : Z) (d : feedb) : result (feedb * Z * Z) :=
  let month := business_month (refund_occurred_at e) in
  if is_fee_result_locked d store month None then
    let* (d, s) := create_carryforward_source d 1 (refund_key e) original (Some (refund_event_id e)) None store
                     month (refund_type e) base fee (refund_reason e) (refund_occurred_at e) run in
    Ok (record_issue (MkIssue "dual_fee_locked_adjustment_posting_month" (Some (result_order_id original))
          (Some (result_coupon_id original)) run
          (Some (refund_event_id e +:+ ":" +:+ str_of_Z direction)%string) "warning") d,
        src_adjustment_base_cent s, src_adjustment_fee_cent s)
  else
    let* d := insert_adjustment (MkAdjustment (refund_adjustment_id e original direction) (fee_result_id original)
                (Some (refund_event_id e)) (result_coupon_id original) (result_order_id original) direction
                (result_original_business_month original) month (refund_type e) base fee
                (result_rule_version original) (refund_reason e) (refund_occurred_at e)
                ("settlement:" +:+ run)%string) d in
    Ok (d, base, fee).

(** One event of [_materialize_refund_adjustments] *)
Definition refund_step (run : string) (direction : Z) (original : SettlementFeeResult)
    (manual_basis manual_amount_override : bool) (events : list DouyinRefundEvent)
    (l : refund_loop) (e : DouyinRefundEvent) : result refund_loop :=
  let d := lp_db l in
  let source := result_source_amount_cent original in
  let total := refunded_after source (lp_event_total l) e in
  let unchanged := MkLoop d (lp_cumulative l) total (lp_base l) (lp_fee l) (lp_reviews l) in
  if (refund_event_observed_at e <=? result_calculated_at original)
     && (total <=? result_refunded_amount_cent original) then Ok unchanged
  else if manual_amount_override && negb (refund_type e =? 2) then
    let '(_, effective_fee) := effective_adjustment_totals d (fee_result_id original) in
    if (result_fee_amount_cent original + effective_fee =? 0)
       || existsb (fun later => (refund_type later =? 2) && (refund_occurred_at e <=? refund_occurred_at later)) events
    then Ok unchanged
    else Ok (MkLoop
      (record_issue (MkIssue "dual_fee_manual_correction_partial_refund_review" (Some (result_order_id original))
         (Some (result_coupon_id original)) run
         (Some (refund_event_id e +:+ ":" +:+ str_of_Z direction)%string) "error") d)
      (lp_cumulative l) total (lp_base l) (lp_fee l) (lp_reviews l + 1))
  else match carryforward_source d (refund_key e) (fee_result_id original) direction with
  | Some s =>
      Ok (count_posted l total source e (src_adjustment_base_cent s) (src_adjustment_fee_cent s)
        (record_issue (MkIssue "dual_fee_carryforward_source_idempotent" (Some (result_order_id original))
           (Some (result_coupon_id original)) run (Some (carryforward_source_id s)) "warning") d))
  | None =>
  match List.find (fun a => str_eqb (adjustment_id a) (refund_adjustment_id e original direction)) (fee_adjustments d) with
  | Some a => Ok (count_posted l total source e (adjustment_base_cent a) (adjustment_fee_cent a) d)
  | None =>
      match responsible_store direction original with
      | Some store =>
          if str_eqb store "" then Raise (ValueError "refund adjustment has no responsible store")
          else
            let cumulative := refunded_after source (lp_cumulative l) e in
            let '(base, fee) := refund_amounts d original manual_basis e cumulative (lp_base l) (lp_fee l) in
            let* (d, posted_base, posted_fee) := post_refund run direction original store e base fee d in
            Ok (MkLoop d cumulative total (lp_base l + posted_base) (lp_fee l + posted_fee) (lp_reviews l))
      | None => Raise (ValueError "refund adjustment has no responsible store")
      end
  end
  end.

(** A fold that stops at the first exception. *)
Fixpoint fold_result {A S} (f : S -> A -> result S) (s : S) (l : list A) : result S :=
  match l with
  | [] => Ok s
  | a :: l' => let* s := f s a in fold_result f s l'
  end.

(** One direction of [_materialize_refund_adjustments] *)
Definition refund_direction (run : string) (coupon : RawDouyinOrderCoupon) (events : list DouyinRefundEvent)
    (st : feedb * Z) (direction : Z) : result (feedb * Z) :=
  let '(d, reviews) := st in
  match current_fee_result d (coupon_id coupon) direction with
  | None => Ok (d, reviews)
  | Some original =>
      if has_verify_cancellation d original then Ok (d, reviews)
      else
        let manual_basis := has_historical_fee_correction d (fee_result_id original) in
        let override := manual_basis && has_historical_fee_amount_override d (fee_result_id original) in
        let* l := fold_result (refund_step run direction original manual_basis override events)
                    (MkLoop d (result_refunded_amount_cent original) 0 0 0 reviews) events in
        Ok (lp_db l, lp_reviews l)
  end.

(** [_materialize_refund_adjustments] *)
Definition materialize_refund_adjustments (d : feedb) (coupon : RawDouyinOrderCoupon) (run : string)
    (directions : list Z) : result (feedb * Z) :=
  let events := resolved_refund_events d coupon in
  let d := record_ambiguous_events d coupon run in
  match events with
  | [] => Ok (d, 0)
  | _ => fold_result (refund_direction run coupon events) (d, 0) directions
  end.

(** *** Canceled verifications *)

Definition cancellation_key (v : RawDouyinVerifyRecord) (t : instant) : string :=
  ("verify-cancellation:" +:+ verify_id v +:+ ":" +:+ isoformat t)%string.
Definition cancellation_id (v : RawDouyinVerifyRecord) (t : instant) (original : SettlementFeeResult) : string :=
  stable_business_id "verify-cancellation" [verify_id v; isoformat t; fee_result_id original].

(** [_materialize_direction_verify_cancellation] *)
Definition materialize_direction_verify_cancellation (d : feedb) (coupon : RawDouyinOrderCoupon) (run : string)
    (direction : Z) : result feedb :=
  match current_fee_result d (coupon_id coupon) direction with
  | None => Ok d
  | Some original =>
  match matching_verify_cancellation d original with
  | None => Ok d
  | Some v =>
  match verify_cancel_time v with
  | None => Ok d
  | Some t =>
  match responsible_store direction original with
  | None => Raise (ValueError "verification cancellation has no responsible store")
  | Some store =>
      if str_eqb store "" then Raise (ValueError "verification cancellation has no responsible store")
      else if existsb (fun a => str_eqb (adjustment_id a) (cancellation_id v t original)) (fee_adjustments d)
      then Ok d
      else match carryforward_source d (cancellation_key v t) (fee_result_id original) direction with
      | Some s =>
          Ok (record_issue (MkIssue "dual_fee_carryforward_source_idempotent" (Some (result_order_id original))
                (Some (result_coupon_id original)) run (Some (carryforward_source_id s)) "warning") d)
      | None =>
          let '(existing_base, existing_fee) := effective_adjustment_totals d (fee_result_id original) in
          let base := - result_fee_base_cent original - existing_base in
          let fee := - result_fee_amount_cent original - existing_fee in
          let reason := "取消核销，将本费用方向按原规则版本调整为零。" in
          let month := business_month t in
          if is_fee_result_locked d store month None then
            let* (d, s) := create_carryforward_source d 2 (cancellation_key v t) original None (Some (verify_id v))
                             store month 3 base fee reason t run in
            Ok (record_issue (MkIssue "dual_fee_locked_adjustment_posting_month" (Some (result_order_id original))
                  (Some (result_coupon_id original)) run
                  (Some (verify_id v +:+ ":" +:+ str_of_Z direction)%string) "warning") d)
          else
            insert_adjustment (MkAdjustment (cancellation_id v t original) (fee_result_id original) None
              (result_coupon_id original) (result_order_id original) direction
              (result_original_business_month original) month 3 base fee (result_rule_version original) reason t
              ("settlement:" +:+ run)%string) d
      end
  end
  end
  end
  end.

(** [_materialize_verify_cancellation_adjustment] *)
Definition materialize_verify_cancellation_adjustment (d : feedb) (coupon : RawDouyinOrderCoupon) (run : string)
  : result feedb :=
  fold_result (fun d direction => materialize_direction_verify_cancellation d coupon run direction) d
    [PROMOTION_FEE; MANAGEMENT_FEE].

(** [_post_reverification_restoration] *)
Definition post_reverification_restoration (d : feedb) (r : SettlementFeeResult) (run : string) : result feedb :=
  match responsible_store (result_fee_direction r) r, result_qualifying_verify_time r with
  | Some store, Some t =>
      let month := business_month t in
      let reason := "有效重核销恢复计费，保留锁定历史并追加新核销差额。" in
      if is_fee_result_locked d store month None then
        let* (d, _) := create_carryforward_source d 2 (reverification_key (fee_result_id r)) r None
                         (result_qualifying_verify_id r) store month 4 (result_fee_base_cent r)
                         (result_fee_amount_cent r) reason t run in
        Ok d
      else
        insert_adjustment (MkAdjustment (stable_business_id "reverification" [fee_result_id r]) (fee_result_id r) None
          (result_coupon_id r) (result_order_id r) (result_fee_direction r) (result_original_business_month r)
          month 4 (result_fee_base_cent r) (result_fee_amount_cent r) (result_rule_version r) reason t
          ("settlement:" +:+ run)%string) d
  | _, _ => Raise AssertionError
  end.
End Ledger.
