(* ===== verification/FeeProps.v ===== *)
(** * The fee ledger: totals

    What each write does to the effective adjustments of a fee result, and that a
    canceled verification brings the result to zero. *)
From S2P Require Import Prelude PyValue Jobs FeeTables FeeLedger.
#[local] Open Scope Z_scope.
#[local] Set Default Proof Using "Type".

(** Row ids are unique, and applications name rows that exist. *)
Record ledger_ok (d : feedb) : Prop := MkLedgerOk {
  lo_adjustments : NoDup (adjustment_id <$> fee_adjustments d);
  lo_sources : NoDup (carryforward_source_id <$> carryforward_sources d);
  lo_applied : forall a, a ∈ carryforward_applications d ->
    target_adjustment_id a ∈ adjustment_id <$> fee_adjustments d;
  lo_applies : forall a, a ∈ carryforward_applications d ->
    app_carryforward_source_id a ∈ carryforward_source_id <$> carryforward_sources d;
}.

Lemma sum_Z_app l k : sum_Z (l ++ k) = sum_Z l + sum_Z k.
Proof. unfold sum_Z. induction l as [|x l IH]; cbn in *; lia. Qed.

Lemma fold_result_app {A S} (f : S -> A -> result S) l k : forall s,
  fold_result f s (l ++ k) = let* s := fold_result f s l in fold_result f s k.
Proof. induction l as [|a l IH]; intros s; [done|]. cbn. destruct (f s a); [apply IH|done]. Qed.

Lemma fold_result_inv {A S} (P : S -> Prop) (f : S -> A -> result S) l :
  (forall s a s', P s -> f s a = Ok s' -> P s') -> forall s s', P s -> fold_result f s l = Ok s' -> P s'.
Proof.
  intros Hf. induction l as [|a l IH]; intros s s' Hs; cbn [fold_result]; [by intros [= <-]|].
  intros (s1 & H1 & H2)%result_bind_Ok. eapply IH; [|done]. by eapply Hf.
Qed.

Lemma str_eqb_false a b : a <> b -> str_eqb a b = false.
Proof. intros H. unfold str_eqb. by apply bool_decide_false. Qed.

Lemma str_in_false a l : a ∉ l -> str_in a l = false.
Proof. intros H. unfold str_in. by apply bool_decide_false. Qed.

Section Totals.
Context (hexdigest : string -> string).
#[local] Notation totals := (effective_adjustment_totals hexdigest).
#[local] Notation stable_business_id := (stable_business_id hexdigest).

Definition add_amounts (t : Z * Z) (base fee : Z) : Z * Z := (t.1 + base, t.2 + fee).

(** The tables the totals are read from. *)
Lemma totals_same d d' o :
  carryforward_sources d' = carryforward_sources d -> carryforward_applications d' = carryforward_applications d ->
  fee_adjustments d' = fee_adjustments d -> totals d' o = totals d o.
Proof.
  intros E1 E2 E3. unfold effective_adjustment_totals, effective_sources, ordinary_adjustments, materialized_ids,
    sources_of. by rewrite E1, E2, E3.
Qed.

Lemma materialized_known d o : ledger_ok d ->
  forall x, x ∈ materialized_ids d o -> x ∈ adjustment_id <$> fee_adjustments d.
Proof.
  intros Hok x (a & -> & Ha)%list_elem_of_fmap. apply list_elem_of_In, filter_In in Ha as [Ha _].
  apply (lo_applied d Hok). by apply list_elem_of_In.
Qed.

Definition add_adjustment (d : feedb) (a : SettlementFeeAdjustment) : feedb :=
  d <| fee_adjustments := fee_adjustments d ++ [a] |>.
Definition add_source (d : feedb) (s : SettlementCarryforwardSource) : feedb :=
  d <| carryforward_sources := carryforward_sources d ++ [s] |>.

(** A new adjustment of the result counts once; one of another result does not. *)
Lemma totals_add_adjustment d a o :
  ledger_ok d -> adjustment_id a ∉ adjustment_id <$> fee_adjustments d ->
  adjustment_id a <> stable_business_id "reverification" [o] ->
  totals (add_adjustment d a) o
  = if str_eqb (adj_original_fee_result_id a) o
    then add_amounts (totals d o) (adjustment_base_cent a) (adjustment_fee_cent a) else totals d o.
Proof.
  intros Hok Hf Hr. unfold effective_adjustment_totals, add_amounts.
  change (effective_sources (add_adjustment d a) o) with (effective_sources d o).
  assert (ordinary_adjustments hexdigest (add_adjustment d a) o = ordinary_adjustments hexdigest d o ++
    (if str_eqb (adj_original_fee_result_id a) o then [a] else [])) as ->.
  { unfold ordinary_adjustments, add_adjustment. cbn [field_set fee_adjustments]. rewrite lfilter_app. f_equal.
    cbn [List.filter]. change (materialized_ids _ o) with (materialized_ids d o).
    rewrite str_in_false by (intros H; by apply Hf, (materialized_known d o)).
    rewrite (str_eqb_false _ _ Hr). cbn [negb]. rewrite !andb_true_r. by destruct (str_eqb _ o). }
  destruct (str_eqb _ o); rewrite ?app_nil_r, ?fmap_app, ?sum_Z_app; cbn; f_equal; lia.
Qed.

(** A new source counts once. *)
Lemma totals_add_source d s o :
  ledger_ok d -> carryforward_source_id s ∉ carryforward_source_id <$> carryforward_sources d ->
  source_event_key s <> reverification_key o ->
  totals (add_source d s) o
  = if str_eqb (src_original_fee_result_id s) o
    then add_amounts (totals d o) (src_adjustment_base_cent s) (src_adjustment_fee_cent s) else totals d o.
Proof.
  intros Hok Hf Hr. unfold effective_adjustment_totals, add_amounts.
  assert (sources_of (add_source d s) o = sources_of d o ++
    (if str_eqb (src_original_fee_result_id s) o then [s] else [])) as Es.
  { unfold sources_of, add_source. cbn [field_set carryforward_sources]. rewrite lfilter_app. f_equal. }
  assert (materialized_ids (add_source d s) o = materialized_ids d o) as Em.
  { unfold materialized_ids. change (carryforward_applications _) with (carryforward_applications d). f_equal.
    rewrite Es. destruct (str_eqb _ o); [|by rewrite app_nil_r].
    apply filter_ext_elem. intros a Ha. rewrite fmap_app.
    change (carryforward_source_id <$> [s]) with [carryforward_source_id s]. unfold str_in. apply bool_decide_ext.
    rewrite elem_of_app, list_elem_of_singleton. split; [intros [?| E]; [done|]|by left].
    exfalso. apply Hf. rewrite <- E. by apply (lo_applies d Hok). }
  assert (ordinary_adjustments hexdigest (add_source d s) o = ordinary_adjustments hexdigest d o) as ->.
  { unfold ordinary_adjustments. by rewrite Em. }
  unfold effective_sources. rewrite Es, lfilter_app, !fmap_app, !sum_Z_app.
  destruct (str_eqb _ o); cbn [List.filter]; [|cbn; f_equal; lia].
  rewrite (str_eqb_false _ _ Hr). cbn. f_equal; lia.
Qed.

Lemma add_adjustment_ok d a :
  ledger_ok d -> adjustment_id a ∉ adjustment_id <$> fee_adjustments d -> ledger_ok (add_adjustment d a).
Proof.
  intros [H1 H2 H3 H4] Hf. split; try done; cbn [add_adjustment field_set fee_adjustments carryforward_applications].
  - rewrite fmap_app. apply NoDup_app. split_and!; [done| |apply NoDup_singleton].
    intros x Hx ->%list_elem_of_singleton. done.
  - intros x Hx. rewrite fmap_app, elem_of_app. left. by apply H3.
Qed.

Lemma add_source_ok d s :
  ledger_ok d -> carryforward_source_id s ∉ carryforward_source_id <$> carryforward_sources d ->
  ledger_ok (add_source d s).
Proof.
  intros [H1 H2 H3 H4] Hf. split; try done; cbn [add_source field_set carryforward_sources carryforward_applications].
  - rewrite fmap_app. apply NoDup_app. split_and!; [done| |apply NoDup_singleton].
    intros x Hx ->%list_elem_of_singleton. done.
  - intros x Hx. rewrite fmap_app, elem_of_app. left. by apply H4.
Qed.

Lemma record_issue_ok i d : ledger_ok d -> ledger_ok (record_issue i d).
Proof. by intros [H1 H2 H3 H4]. Qed.

Lemma totals_issue i d o : totals (record_issue i d) o = totals d o.
Proof. by apply totals_same. Qed.

(** The ids of the kinds of postings never meet. *)
Lemma cancellation_not_restoration parts o :
  stable_business_id "verify-cancellation" parts <> stable_business_id "reverification" [o].
Proof. unfold FeeLedger.stable_business_id. intros E. cbn in E. discriminate E. Qed.
Lemma refund_not_restoration parts o :
  stable_business_id "refund-adjustment" parts <> stable_business_id "reverification" [o].
Proof. unfold FeeLedger.stable_business_id. intros E. cbn in E. discriminate E. Qed.
Lemma carryforward_not_restoration parts o :
  stable_business_id "carryforward-adjustment" parts <> stable_business_id "reverification" [o].
Proof. unfold FeeLedger.stable_business_id. intros E. cbn in E. discriminate E. Qed.

(** ** Inserting *)

Lemma insert_source_new s d :
  carryforward_source_id s ∉ carryforward_source_id <$> carryforward_sources d ->
  carryforward_source d (source_event_key s) (src_original_fee_result_id s) (src_fee_direction s) = None ->
  insert_source s d = Ok (add_source d s).
Proof.
  intros Hf Hn. unfold insert_source. rewrite existsb_false; [done|]. intros x Hx.
  apply orb_false_iff. split.
  - apply str_eqb_false. intros E. apply Hf. rewrite <- E. by apply list_elem_of_fmap_2.
  - unfold carryforward_source in Hn. apply list_elem_of_In in Hx. by apply (List.find_none _ _ Hn).
Qed.

Lemma insert_adjustment_new a d :
  adjustment_id a ∉ adjustment_id <$> fee_adjustments d ->
  (forall e b, adj_refund_event_id a = Some e -> b ∈ fee_adjustments d -> adj_refund_event_id b = Some e ->
     adj_original_fee_result_id b = adj_original_fee_result_id a -> adj_fee_direction b <> adj_fee_direction a) ->
  insert_adjustment a d = Ok (add_adjustment d a).
Proof.
  intros Hf Hn. unfold insert_adjustment. rewrite existsb_false; [done|]. intros b Hb.
  apply orb_false_iff. split.
  - apply str_eqb_false. intros E. apply Hf. rewrite <- E. by apply list_elem_of_fmap_2.
  - apply not_true_iff_false. intros E. tests.
    match goal with H : is_Some _ |- _ => destruct H as [e He] end. apply (Hn e b He Hb); congruence.
Qed.
End Totals.

(** ** Canceled verifications *)
Section Cancellation.
Context (hexdigest : string -> string) (isoformat : instant -> string).
#[local] Notation totals := (effective_adjustment_totals hexdigest).

(** A canceled verification of the current basis that is not posted yet; the last
    field says that its hash is no other source's. *)
Record cancelable (d : feedb) (coupon : RawDouyinOrderCoupon) (direction : Z) (original : SettlementFeeResult)
    (v : RawDouyinVerifyRecord) (t : instant) (store : string) : Prop := MkCancelable {
  cn_current : current_fee_result d (coupon_id coupon) direction = Some original;
  cn_direction : result_fee_direction original = direction;
  cn_match : matching_verify_cancellation d original = Some v;
  cn_time : verify_cancel_time v = Some t;
  cn_store : responsible_store direction original = Some store;
  cn_named : store <> "";
  cn_adjustment : cancellation_id hexdigest isoformat v t original ∉ adjustment_id <$> fee_adjustments d;
  cn_source : carryforward_source d (cancellation_key isoformat v t) (fee_result_id original) direction = None;
  cn_fresh : stable_business_id hexdigest "carryforward-source"
      [cancellation_key isoformat v t; fee_result_id original; str_of_Z direction]
    ∉ carryforward_source_id <$> carryforward_sources d;
}.

(** What a posting leaves alone. *)
Definition same_results (d d' : feedb) : Prop :=
  fee_results d' = fee_results d /\ fee_results_current d' = fee_results_current d
  /\ finance_audits d' = finance_audits d /\ fee_verify_records d' = fee_verify_records d.

Lemma same_results_trans d1 d2 d3 : same_results d1 d2 -> same_results d2 d3 -> same_results d1 d3.
Proof. intros (A1 & A2 & A3 & A4) (B1 & B2 & B3 & B4). split_and!; congruence. Qed.

Lemma current_same d d' coupon direction :
  same_results d d' -> current_fee_result d' coupon direction = current_fee_result d coupon direction.
Proof. intros (E1 & E2 & _). unfold current_fee_result, current_pointer. by rewrite E1, E2. Qed.

(** The cancellation has a row of its own. *)
Definition cancellation_posted (d : feedb) (direction : Z) (original : SettlementFeeResult)
    (v : RawDouyinVerifyRecord) (t : instant) : Prop :=
  existsb (fun a => str_eqb (adjustment_id a) (cancellation_id hexdigest isoformat v t original)) (fee_adjustments d)
    = true
  \/ is_Some (carryforward_source d (cancellation_key isoformat v t) (fee_result_id original) direction).

Lemma cancellation_posts d coupon run direction original v t store :
  ledger_ok d -> cancelable d coupon direction original v t store ->
  exists d', materialize_direction_verify_cancellation hexdigest isoformat d coupon run direction = Ok d'
    /\ ledger_ok d' /\ same_results d d' /\ has_verify_cancellation d' original = true
    /\ totals d' (fee_result_id original)
       = (- result_fee_base_cent original, - result_fee_amount_cent original)
    /\ (forall o, o <> fee_result_id original -> totals d' o = totals d o)
    /\ cancellation_posted d' direction original v t.
Proof.
  intros Hok [Hcur Hdir Hm Ht Hs Hne Ha Hsrc Hfr].
  unfold materialize_direction_verify_cancellation. rewrite Hcur, Hm, Ht, Hs, (str_eqb_false _ _ Hne).
  rewrite existsb_false by (intros x Hx; apply str_eqb_false; intros E; apply Ha; rewrite <- E; by apply list_elem_of_fmap_2).
  rewrite Hsrc. destruct (totals d (fee_result_id original)) as [eb ef] eqn:Et.
  destruct (is_fee_result_locked _ _ _ _).
  - unfold create_carryforward_source. rewrite Hdir, Hsrc. cbn zeta.
    set (s := MkSource _ _ _ _ _ _ _ _ _ _ _ _ _ _ _ _ _ _ _).
    rewrite insert_source_new by done. cbn [result_bind]. eexists. split; [reflexivity|].
    split; [by apply record_issue_ok, add_source_ok|]. split; [done|]. split.
    { unfold has_verify_cancellation, record_issue, add_source. cbn [field_set fee_adjustments carryforward_sources].
      rewrite existsb_app. cbn. by rewrite str_eqb_refl, !orb_true_r. }
    assert (forall o, source_event_key s <> reverification_key o) as Hk by (intros o E; cbn in E; discriminate E).
    split.
    + rewrite totals_issue, totals_add_source by done. cbn. rewrite str_eqb_refl, Et.
      unfold add_amounts. cbn. f_equal; lia.
    + split; [intros o Ho; rewrite totals_issue, totals_add_source by done; cbn; by rewrite str_eqb_false|].
      right. unfold carryforward_source in *. cbn [record_issue add_source field_set carryforward_sources].
      rewrite find_app, Hsrc. cbn. by rewrite !str_eqb_refl, Z.eqb_refl.
  - set (a := MkAdjustment _ _ _ _ _ _ _ _ _ _ _ _ _ _ _).
    rewrite insert_adjustment_new by done. eexists. split; [reflexivity|].
    split; [by apply add_adjustment_ok|]. split; [done|]. split.
    { unfold has_verify_cancellation, add_adjustment. cbn [field_set fee_adjustments carryforward_sources].
      rewrite existsb_app. cbn. by rewrite str_eqb_refl, !orb_true_r. }
    split.
    + rewrite totals_add_adjustment by (done || apply cancellation_not_restoration). cbn.
      rewrite str_eqb_refl, Et. unfold add_amounts. cbn. f_equal; lia.
    + split.
      * intros o Ho. rewrite totals_add_adjustment by (done || apply cancellation_not_restoration). cbn.
        by rewrite str_eqb_false.
      * left. cbn [add_adjustment field_set fee_adjustments]. rewrite existsb_app. cbn.
        by rewrite str_eqb_refl, orb_true_r.
Qed.

(** A cancellation that is posted is not posted again. *)
Lemma cancellation_again d coupon run direction original v t store :
  current_fee_result d (coupon_id coupon) direction = Some original ->
  matching_verify_cancellation d original = Some v -> verify_cancel_time v = Some t ->
  responsible_store direction original = Some store -> store <> "" ->
  cancellation_posted d direction original v t ->
  exists d', materialize_direction_verify_cancellation hexdigest isoformat d coupon run direction = Ok d'
    /\ same_results d d' /\ forall o, totals d' o = totals d o.
Proof.
  intros Hcur Hm Ht Hs Hne Hp. unfold materialize_direction_verify_cancellation.
  rewrite Hcur, Hm, Ht, Hs, (str_eqb_false _ _ Hne). destruct (existsb _ _) eqn:E; [by exists d|].
  destruct Hp as [Hp|[s Hp]]; [congruence|]. rewrite Hp. eexists. split; [reflexivity|]. split; [done|].
  intros o. apply totals_issue.
Qed.

Lemma matching_same d d' original :
  same_results d d' -> matching_verify_cancellation d' original = matching_verify_cancellation d original.
Proof.
  intros (_ & _ & _ & E). unfold matching_verify_cancellation, select_valid_verify_record. by rewrite E.
Qed.
End Cancellation.
