(* ===== verification/FeeRefunds.v ===== *)
(** * Refunds settle to the fee of what remains

    Refund events that arrive in the order of their times bring a fee result to
    the fee of the amount that is not refunded, however they are spread over
    runs and over adjustments and carryforward sources. *)
From S2P Require Import Prelude PyValue Jobs FeeTables FeeLedger FeeProps.
#[local] Open Scope Z_scope.
#[local] Set Default Proof Using "Type".

(** ** The reference *)

Definition target_base (r : SettlementFeeResult) (cumulative : Z) : Z :=
  Z.max (result_source_amount_cent r - cumulative) 0.
Definition target_fee (r : SettlementFeeResult) (cumulative : Z) : Z :=
  commission_cent (target_base r cumulative) (result_fee_rate r).

(** The amount snapshot of the result includes the event. *)
Definition covered (r : SettlementFeeResult) (total : Z) (e : DouyinRefundEvent) : bool :=
  (refund_event_observed_at e <=? result_calculated_at r) && (total <=? result_refunded_amount_cent r).

(** What is refunded after the events, and the postings they need. *)
Fixpoint refunded_by (r : SettlementFeeResult) (cumulative total : Z) (es : list DouyinRefundEvent) : Z :=
  match es with
  | [] => cumulative
  | e :: es' =>
      let total := refunded_after (result_source_amount_cent r) total e in
      if covered r total e then refunded_by r cumulative total es'
      else refunded_by r (refunded_after (result_source_amount_cent r) cumulative e) total es'
  end.

Fixpoint expected (r : SettlementFeeResult) (cumulative total : Z) (es : list DouyinRefundEvent)
  : list (DouyinRefundEvent * (Z * Z)) :=
  match es with
  | [] => []
  | e :: es' =>
      let total := refunded_after (result_source_amount_cent r) total e in
      if covered r total e then expected r cumulative total es'
      else
        let cumulative' := refunded_after (result_source_amount_cent r) cumulative e in
        (e, (target_base r cumulative' - target_base r cumulative,
             target_fee r cumulative' - target_fee r cumulative)) :: expected r cumulative' total es'
  end.

Definition refunded_total (r : SettlementFeeResult) (total : Z) (es : list DouyinRefundEvent) : Z :=
  foldl (refunded_after (result_source_amount_cent r)) total es.

Definition base_sum (l : list (DouyinRefundEvent * (Z * Z))) : Z := sum_Z ((fun p => p.2.1) <$> l).
Definition fee_sum (l : list (DouyinRefundEvent * (Z * Z))) : Z := sum_Z ((fun p => p.2.2) <$> l).

Lemma expected_app r es k : forall c t,
  expected r c t (es ++ k) = expected r c t es ++ expected r (refunded_by r c t es) (refunded_total r t es) k.
Proof.
  induction es as [|e es IH]; intros c t; [done|]. cbn. destruct (covered r _ e); rewrite IH; done.
Qed.

(** The postings telescope. *)
Lemma expected_sums r es : forall c t,
  base_sum (expected r c t es) = target_base r (refunded_by r c t es) - target_base r c
  /\ fee_sum (expected r c t es) = target_fee r (refunded_by r c t es) - target_fee r c.
Proof.
  unfold base_sum, fee_sum. induction es as [|e es IH]; intros c t; cbn; [lia|].
  destruct (covered r _ e); [apply IH|]. cbn. destruct (IH (refunded_after (result_source_amount_cent r) c e)
    (refunded_after (result_source_amount_cent r) t e)) as [H1 H2]. unfold sum_Z in *. cbn. lia.
Qed.

Lemma refunded_by_app r es k : forall c t,
  refunded_by r c t (es ++ k) = refunded_by r (refunded_by r c t es) (refunded_total r t es) k.
Proof. induction es as [|e es IH]; intros c t; [done|]. cbn. by destruct (covered r _ e). Qed.

(** ** Postings of an event *)
Section Refunds.
Context (hexdigest : string -> string).
#[local] Notation totals := (effective_adjustment_totals hexdigest).
Context (run : string) (direction : Z) (r : SettlementFeeResult) (store : string).
#[local] Notation adjustment_of e := (refund_adjustment_id hexdigest e r direction).
#[local] Notation source_of e := (stable_business_id hexdigest "carryforward-source"
  [refund_key e; fee_result_id r; str_of_Z direction]).

(** The amounts posted for an event, wherever they are. *)
Definition posting (d : feedb) (e : DouyinRefundEvent) : option (Z * Z) :=
  match carryforward_source d (refund_key e) (fee_result_id r) direction with
  | Some s => Some (src_adjustment_base_cent s, src_adjustment_fee_cent s)
  | None =>
      (fun a => (adjustment_base_cent a, adjustment_fee_cent a)) <$>
        List.find (fun a => str_eqb (adjustment_id a) (adjustment_of e)) (fee_adjustments d)
  end.

(** Nothing is posted for the event, and its ids are no other row's. *)
Record unposted (d : feedb) (e : DouyinRefundEvent) : Prop := MkUnposted {
  un_source : carryforward_source d (refund_key e) (fee_result_id r) direction = None;
  un_id : adjustment_of e ∉ adjustment_id <$> fee_adjustments d;
  un_event : forall b, b ∈ fee_adjustments d -> adj_refund_event_id b = Some (refund_event_id e) ->
    adj_original_fee_result_id b = fee_result_id r -> adj_fee_direction b <> direction;
  un_fresh : source_of e ∉ carryforward_source_id <$> carryforward_sources d;
}.

(** The result as it was calculated: no correction, its own store and direction. *)
Record plain_basis : Prop := MkPlain {
  pb_base : result_fee_base_cent r = target_base r (result_refunded_amount_cent r);
  pb_fee : result_fee_amount_cent r = target_fee r (result_refunded_amount_cent r);
  pb_direction : result_fee_direction r = direction;
  pb_store : responsible_store direction r = Some store;
  pb_named : store <> "";
}.

(** The loop variables after some events have been counted. *)
Definition counted_to (l : refund_loop) (done : list DouyinRefundEvent) : Prop :=
  let refunded := result_refunded_amount_cent r in
  lp_cumulative l = refunded_by r refunded 0 done /\ lp_event_total l = refunded_total r 0 done
  /\ lp_base l = base_sum (expected r refunded 0 done) /\ lp_fee l = fee_sum (expected r refunded 0 done).

Lemma counted_step l done e d b f :
  counted_to l done ->
  let total := refunded_after (result_source_amount_cent r) (lp_event_total l) e in
  covered r total e = false ->
  b = target_base r (refunded_after (result_source_amount_cent r) (lp_cumulative l) e) - target_base r (lp_cumulative l) ->
  f = target_fee r (refunded_after (result_source_amount_cent r) (lp_cumulative l) e) - target_fee r (lp_cumulative l) ->
  counted_to (MkLoop d (refunded_after (result_source_amount_cent r) (lp_cumulative l) e) total
                (lp_base l + b) (lp_fee l + f) (lp_reviews l)) (done ++ [e]).
Proof.
  intros (E1 & E2 & E3 & E4) total Hc -> ->. unfold counted_to. cbn [lp_cumulative lp_event_total lp_base lp_fee].
  unfold total in *. rewrite refunded_by_app, expected_app. unfold refunded_total in *. rewrite foldl_app.
  cbn [foldl refunded_by expected]. rewrite <- E2, Hc, <- E1. split_and!; [done|done|..].
  - unfold base_sum in *. rewrite fmap_app, sum_Z_app, <- E3. cbn. lia.
  - unfold fee_sum in *. rewrite fmap_app, sum_Z_app, <- E4. cbn. lia.
Qed.

Lemma counted_covered l done e :
  counted_to l done ->
  let total := refunded_after (result_source_amount_cent r) (lp_event_total l) e in
  covered r total e = true ->
  counted_to (MkLoop (lp_db l) (lp_cumulative l) total (lp_base l) (lp_fee l) (lp_reviews l)) (done ++ [e])
  /\ expected r (result_refunded_amount_cent r) 0 (done ++ [e]) = expected r (result_refunded_amount_cent r) 0 done.
Proof.
  intros (E1 & E2 & E3 & E4) total Hc. unfold total in *.
  assert (expected r (result_refunded_amount_cent r) 0 (done ++ [e])
          = expected r (result_refunded_amount_cent r) 0 done) as Ee.
  { rewrite expected_app. cbn [expected]. rewrite <- E2, Hc. by rewrite app_nil_r. }
  split; [|done]. unfold counted_to. rewrite Ee. cbn [lp_cumulative lp_event_total lp_base lp_fee].
  rewrite refunded_by_app. unfold refunded_total in *. rewrite foldl_app. cbn [foldl refunded_by].
  rewrite <- E2, Hc. done.
Qed.

(** ** Runs over events *)

(** The events are posted as expected, and nothing else is posted. *)
Record settled (d : feedb) (es : list DouyinRefundEvent) : Prop := MkSettled {
  st_posted : forall p, p ∈ expected r (result_refunded_amount_cent r) 0 es -> posting d p.1 = Some p.2;
  st_totals : totals d (fee_result_id r)
    = (base_sum (expected r (result_refunded_amount_cent r) 0 es), fee_sum (expected r (result_refunded_amount_cent r) 0 es));
}.

(** The net amounts of a settled result are those of what is not refunded. *)
Lemma settled_net d es :
  plain_basis -> settled d es ->
  let remaining := refunded_by r (result_refunded_amount_cent r) 0 es in
  result_fee_base_cent r + (totals d (fee_result_id r)).1 = target_base r remaining
  /\ result_fee_amount_cent r + (totals d (fee_result_id r)).2 = target_fee r remaining.
Proof.
  intros Hb [_ ->]. cbn [fst snd].
  destruct (expected_sums r es (result_refunded_amount_cent r) 0) as [-> ->].
  rewrite (pb_base Hb), (pb_fee Hb). lia.
Qed.

#[local] Notation step events := (refund_step hexdigest run direction r false false events).

(** The tables the ledger of results is read from. *)
Record same_ledger (d d' : feedb) : Prop := MkSameLedger {
  sl_results : same_results d d';
  sl_adjustments : fee_adjustments d' = fee_adjustments d;
  sl_sources : carryforward_sources d' = carryforward_sources d;
  sl_applications : carryforward_applications d' = carryforward_applications d;
}.

Lemma same_ledger_refl d : same_ledger d d.
Proof. done. Qed.

Lemma posting_same d d' e : same_ledger d d' -> posting d' e = posting d e.
Proof. intros [_ Ea Es _]. unfold posting, carryforward_source. by rewrite Ea, Es. Qed.

Lemma settled_same d d' es : same_ledger d d' -> settled d es -> settled d' es.
Proof.
  intros Hs [H1 H2]. split.
  - intros p Hp. rewrite (posting_same d d') by done. by apply H1.
  - rewrite <- H2. destruct Hs. by apply totals_same.
Qed.

Lemma unposted_same d d' e : same_ledger d d' -> unposted d e -> unposted d' e.
Proof.
  intros [_ Ea Es _] [H1 H2 H3 H4]. split; [|rewrite Ea; done..|by rewrite Es].
  unfold carryforward_source. by rewrite Es.
Qed.

Lemma ledger_ok_same d d' : same_ledger d d' -> ledger_ok d -> ledger_ok d'.
Proof. intros [_ Ea Es Ep] [H1 H2 H3 H4]. split; rewrite ?Ep, ?Ea, ?Es; done. Qed.

Lemma expected_last done e l :
  counted_to l done ->
  let total := refunded_after (result_source_amount_cent r) (lp_event_total l) e in
  let cumulative := refunded_after (result_source_amount_cent r) (lp_cumulative l) e in
  covered r total e = false ->
  expected r (result_refunded_amount_cent r) 0 (done ++ [e])
  = expected r (result_refunded_amount_cent r) 0 done ++
    [(e, (target_base r cumulative - target_base r (lp_cumulative l),
          target_fee r cumulative - target_fee r (lp_cumulative l)))].
Proof.
  intros (E1 & E2 & _) total cumulative Hc. rewrite expected_app. cbn [expected].
  unfold total, cumulative in *. by rewrite <- E2, Hc, <- E1.
Qed.

(** An event that is posted is counted and changes no amount. *)
Lemma step_posted events l done e :
  counted_to l done ->
  (forall p, p ∈ expected r (result_refunded_amount_cent r) 0 (done ++ [e]) -> posting (lp_db l) p.1 = Some p.2) ->
  exists l', step events l e = Ok l' /\ counted_to l' (done ++ [e]) /\ same_ledger (lp_db l) (lp_db l')
    /\ lp_reviews l' = lp_reviews l.
Proof.
  intros Hl Hp. unfold refund_step. cbn zeta.
  destruct (covered r (refunded_after (result_source_amount_cent r) (lp_event_total l) e) e) eqn:Hc;
    pose proof Hc as Hc'; unfold covered in Hc'; rewrite Hc'.
  - destruct (counted_covered l done e Hl Hc) as [H _]. eexists. split; [reflexivity|]. split_and!; done.
  - cbn [andb]. rewrite (expected_last done e l Hl Hc) in Hp.
    specialize (Hp _ ltac:(apply elem_of_app; right; by apply list_elem_of_singleton)). cbn [fst snd] in Hp.
    unfold posting in Hp. destruct (carryforward_source _ _ _ _) as [s|].
    + eexists. split; [reflexivity|]. split_and!; try done. apply counted_step; [done|done|..]; congruence.
    + destruct (List.find _ _) as [a|]; [|done]. eexists. split; [reflexivity|]. cbn in Hp.
      split_and!; try done. apply counted_step; [done|done|..]; congruence.
Qed.

Lemma expected_mono es k p :
  p ∈ expected r (result_refunded_amount_cent r) 0 es -> p ∈ expected r (result_refunded_amount_cent r) 0 (es ++ k).
Proof. intros H. rewrite expected_app. apply elem_of_app. by left. Qed.

Lemma fold_posted events es : forall l done,
  counted_to l done ->
  (forall p, p ∈ expected r (result_refunded_amount_cent r) 0 (done ++ es) -> posting (lp_db l) p.1 = Some p.2) ->
  exists l', fold_result (step events) l es = Ok l' /\ counted_to l' (done ++ es) /\ same_ledger (lp_db l) (lp_db l')
    /\ lp_reviews l' = lp_reviews l.
Proof.
  induction es as [|e es IH]; intros l done Hl Hp.
  { exists l. rewrite app_nil_r. done. }
  destruct (step_posted events l done e Hl) as (l1 & E1 & H1 & S1 & R1).
  { intros p Hin. apply Hp. rewrite cons_middle, app_assoc. by apply expected_mono. }
  destruct (IH l1 (done ++ [e])) as (l2 & E2 & H2 & S2 & R2); [done|..].
  { intros p Hin. rewrite (posting_same (lp_db l)) by done. apply Hp. by rewrite cons_middle, app_assoc. }
  exists l2. cbn [fold_result]. rewrite E1. cbn [result_bind]. rewrite E2. split_and!; [done|..|congruence].
  - by rewrite cons_middle, app_assoc.
  - destruct S1, S2. split; [by eapply same_results_trans|congruence..].
Qed.

(** *** New events *)

Lemma refund_key_inj e e' : refund_key e = refund_key e' -> refund_event_id e = refund_event_id e'.
Proof. unfold refund_key. intros E. cbn in E. by injection E. Qed.

(** The ids of the postings of different events differ. *)
Definition apart (e e' : DouyinRefundEvent) : Prop :=
  refund_event_id e <> refund_event_id e' /\ adjustment_of e <> adjustment_of e' /\ source_of e <> source_of e'.

Definition refund_source (e : DouyinRefundEvent) (base fee : Z) : SettlementCarryforwardSource :=
  MkSource (source_of e) 1 (refund_key e) (fee_result_id r) (Some (refund_event_id e)) None (result_coupon_id r)
    (result_order_id r) store direction (result_original_business_month r) (business_month (refund_occurred_at e))
    (refund_type e) base fee (result_rule_version r) (refund_reason e) (refund_occurred_at e)
    ("settlement:" +:+ run)%string.
Definition refund_adjustment (e : DouyinRefundEvent) (base fee : Z) : SettlementFeeAdjustment :=
  MkAdjustment (adjustment_of e) (fee_result_id r) (Some (refund_event_id e)) (result_coupon_id r)
    (result_order_id r) direction (result_original_business_month r) (business_month (refund_occurred_at e))
    (refund_type e) base fee (result_rule_version r) (refund_reason e) (refund_occurred_at e)
    ("settlement:" +:+ run)%string.

(** The two forms of a posting. *)
Inductive posts (d : feedb) (e : DouyinRefundEvent) (base fee : Z) : feedb -> Prop :=
  | posts_adjustment : posts d e base fee (add_adjustment d (refund_adjustment e base fee))
  | posts_source i : posts d e base fee (record_issue i (add_source d (refund_source e base fee))).

Lemma post_refund_posts d e base fee :
  plain_basis -> unposted d e ->
  exists d', post_refund hexdigest run direction r store e base fee d = Ok (d', base, fee) /\ posts d e base fee d'.
Proof.
  intros Hb [H1 H2 H3 H4]. unfold post_refund. destruct (is_fee_result_locked _ _ _ _).
  - unfold create_carryforward_source. rewrite (pb_direction Hb), H1. cbn zeta.
    set (s := MkSource _ _ _ _ _ _ _ _ _ _ _ _ _ _ _ _ _ _ _).
    rewrite insert_source_new by done. eexists. split; [reflexivity|]. apply posts_source.
  - set (a := MkAdjustment _ _ _ _ _ _ _ _ _ _ _ _ _ _ _). rewrite insert_adjustment_new; [|done|].
    + eexists. split; [reflexivity|]. apply posts_adjustment.
    + intros x b [= <-] Hin Hx Ho. by apply H3.
Qed.

Lemma posts_results d e base fee d' : posts d e base fee d' -> same_results d d'.
Proof. by intros []. Qed.

Lemma posts_cancellation d e base fee d' :
  refund_type e <> 3 -> posts d e base fee d' -> has_verify_cancellation d' r = has_verify_cancellation d r.
Proof.
  intros Hn [|i]; unfold has_verify_cancellation; cbn [add_adjustment add_source record_issue field_set
    carryforward_sources fee_adjustments]; rewrite existsb_app; cbn.
  - apply Z.eqb_neq in Hn. by rewrite Hn, andb_false_r, orb_false_r.
  - by rewrite andb_false_r, !orb_false_r.
Qed.

Lemma posts_ok d e base fee d' : unposted d e -> posts d e base fee d' -> ledger_ok d -> ledger_ok d'.
Proof.
  intros [_ H2 _ H4] [|i] Hok; [by apply add_adjustment_ok|]. by apply record_issue_ok, add_source_ok.
Qed.

Lemma posts_totals d e base fee d' o :
  ledger_ok d -> unposted d e -> posts d e base fee d' ->
  totals d' o = if str_eqb (fee_result_id r) o then add_amounts (totals d o) base fee else totals d o.
Proof.
  intros Hok [_ H2 _ H4] [|i].
  - rewrite totals_add_adjustment by (done || apply refund_not_restoration). done.
  - rewrite totals_issue, totals_add_source; [done|done|done|]. intros E. cbn in E. discriminate E.
Qed.

(** The posting is found again. *)
Lemma posts_posting d e base fee d' : unposted d e -> posts d e base fee d' -> posting d' e = Some (base, fee).
Proof.
  intros [H1 H2 _ _] [|i]; unfold posting, carryforward_source in *; cbn [add_adjustment add_source record_issue
    field_set carryforward_sources fee_adjustments].
  - rewrite H1, find_app, (find_none_intro _ (fee_adjustments d)); cbn; [by rewrite str_eqb_refl|].
    intros a Ha. apply str_eqb_false. intros E. apply H2. rewrite <- E. by apply list_elem_of_fmap_2.
  - rewrite find_app, H1. cbn. by rewrite !str_eqb_refl, Z.eqb_refl.
Qed.

Lemma posts_posting_other d e base fee d' e' p :
  refund_event_id e <> refund_event_id e' -> posts d e base fee d' -> posting d e' = Some p -> posting d' e' = Some p.
Proof.
  intros Hne [|i]; unfold posting, carryforward_source; cbn [add_adjustment add_source record_issue field_set
    carryforward_sources fee_adjustments]; rewrite find_app.
  - destruct (List.find _ (carryforward_sources d)); [done|]. by destruct (List.find _ (fee_adjustments d)).
  - destruct (List.find _ (carryforward_sources d)); [done|]. cbn. rewrite str_eqb_false; [done|].
    intros E. by apply Hne, refund_key_inj.
Qed.

Lemma posts_unposted_other d e base fee d' e' :
  apart e e' -> posts d e base fee d' -> unposted d e' -> unposted d' e'.
Proof.
  intros (N1 & N2 & N3) [|i] [H1 H2 H3 H4]; split; cbn [add_adjustment add_source record_issue field_set
    carryforward_sources fee_adjustments]; try done.
  - rewrite fmap_app. intros [?| E%list_elem_of_singleton]%elem_of_app; [done|]. by apply N2.
  - intros b [Hb| ->%list_elem_of_singleton]%elem_of_app; [by apply H3|]. cbn. intros [= E]. done.
  - unfold carryforward_source in *. cbn [add_source record_issue field_set carryforward_sources].
    rewrite find_app, H1. cbn. rewrite str_eqb_false; [done|]. intros E. by apply N1, refund_key_inj.
  - rewrite fmap_app. intros [?| E%list_elem_of_singleton]%elem_of_app; [done|]. by apply N3.
Qed.

Lemma expected_in es p : forall c t, p ∈ expected r c t es -> p.1 ∈ es.
Proof.
  induction es as [|e es IH]; intros c t; cbn [expected]; [by intros ?%elem_of_nil|]. destruct (covered r _ e).
  - intros H. apply elem_of_cons. right. by eapply IH.
  - intros [-> | H]%elem_of_cons; apply elem_of_cons; [by left|right; by eapply IH].
Qed.

Lemma counted_amounts l done :
  plain_basis -> counted_to l done ->
  result_fee_base_cent r + lp_base l = target_base r (lp_cumulative l)
  /\ result_fee_amount_cent r + lp_fee l = target_fee r (lp_cumulative l).
Proof.
  intros Hb (-> & _ & -> & ->).
  destruct (expected_sums r done (result_refunded_amount_cent r) 0) as [-> ->].
  rewrite (pb_base Hb), (pb_fee Hb). lia.
Qed.

(** A posting of the expected amounts settles one more event. *)
Lemma posts_settled l done e d' :
  let cumulative := refunded_after (result_source_amount_cent r) (lp_cumulative l) e in
  counted_to l done -> ledger_ok (lp_db l) -> settled (lp_db l) done -> unposted (lp_db l) e ->
  (forall e', e' ∈ done -> refund_event_id e <> refund_event_id e') ->
  covered r (refunded_after (result_source_amount_cent r) (lp_event_total l) e) e = false ->
  posts (lp_db l) e (target_base r cumulative - target_base r (lp_cumulative l))
    (target_fee r cumulative - target_fee r (lp_cumulative l)) d' ->
  settled d' (done ++ [e]).
Proof.
  intros cumulative Hl Hok [H1 H2] Hu Hne Hc Hp. split; rewrite (expected_last done e l Hl Hc).
  - intros p [Hin| ->%list_elem_of_singleton]%elem_of_app.
    + eapply posts_posting_other; [|done|by apply H1]. apply Hne. by eapply expected_in.
    + by eapply posts_posting.
  - rewrite (posts_totals _ _ _ _ _ _ Hok Hu Hp), str_eqb_refl, H2. unfold add_amounts, base_sum, fee_sum.
    rewrite !fmap_app, !sum_Z_app. unfold cumulative. cbn [fst snd]. f_equal; f_equal; cbn -[target_base target_fee]; lia.
Qed.

(** A new event posts the difference to the fee of what then remains. *)
Lemma step_post events l done e :
  let cumulative := refunded_after (result_source_amount_cent r) (lp_cumulative l) e in
  let total := refunded_after (result_source_amount_cent r) (lp_event_total l) e in
  let b := target_base r cumulative - target_base r (lp_cumulative l) in
  let f := target_fee r cumulative - target_fee r (lp_cumulative l) in
  plain_basis -> counted_to l done -> unposted (lp_db l) e -> covered r total e = false ->
  exists d', step events l e = Ok (MkLoop d' cumulative total (lp_base l + b) (lp_fee l + f) (lp_reviews l))
    /\ posts (lp_db l) e b f d'.
Proof.
  intros cumulative total b f Hb Hl Hu Hc. unfold refund_step. cbn zeta.
  unfold covered, total in Hc. rewrite Hc.
  cbn [andb]. rewrite (un_source _ _ Hu), find_none_intro by (intros a Ha; apply str_eqb_false; intros E;
    apply (un_id _ _ Hu); rewrite <- E; by apply list_elem_of_fmap_2).
  rewrite (pb_store Hb), (str_eqb_false _ _ (pb_named Hb)). cbn [refund_amounts andb].
  fold (target_base r (refunded_after (result_source_amount_cent r) (lp_cumulative l) e)).
  fold (target_fee r (refunded_after (result_source_amount_cent r) (lp_cumulative l) e)). fold cumulative.
  destruct (counted_amounts l done Hb Hl) as [Eb Ef].
  destruct (post_refund_posts (lp_db l) e b f Hb Hu) as (d' & Ep & Hp). exists d'.
  unfold b, f in *. rewrite <- Eb, <- Ef in *. rewrite !Z.sub_add_distr in *. rewrite Ep. done.
Qed.

(** A new event brings the result to the fee of what then remains. *)
Lemma step_new events l done e :
  plain_basis -> counted_to l done -> ledger_ok (lp_db l) -> settled (lp_db l) done -> unposted (lp_db l) e ->
  (forall e', e' ∈ done -> refund_event_id e <> refund_event_id e') ->
  exists l', step events l e = Ok l' /\ counted_to l' (done ++ [e]) /\ settled (lp_db l') (done ++ [e])
    /\ ledger_ok (lp_db l') /\ lp_reviews l' = lp_reviews l
    /\ (lp_db l' = lp_db l \/ exists b f, posts (lp_db l) e b f (lp_db l')).
Proof.
  intros Hb Hl Hok Hs Hu Hne.
  destruct (covered r (refunded_after (result_source_amount_cent r) (lp_event_total l) e) e) eqn:Hc.
  - destruct (counted_covered l done e Hl Hc) as [H E]. unfold refund_step. cbn zeta.
    unfold covered in Hc. rewrite Hc. eexists. split; [reflexivity|].
    split_and!; try done; [|by left]. cbn. destruct Hs as [H1 H2]. split; rewrite E; done.
  - destruct (step_post events l done e Hb Hl Hu Hc) as (d' & Es & Hp). eexists. split; [exact Es|].
    split_and!; cbn [lp_db]; [by apply counted_step|by eapply posts_settled|by eapply posts_ok|done|eauto].
Qed.

Lemma fold_new events es : forall l done,
  plain_basis -> counted_to l done -> ledger_ok (lp_db l) -> settled (lp_db l) done ->
  (forall e, e ∈ es -> unposted (lp_db l) e) -> ForallOrdPairs apart es ->
  (forall e e', e ∈ es -> e' ∈ done -> refund_event_id e <> refund_event_id e') ->
  exists l', fold_result (step events) l es = Ok l' /\ settled (lp_db l') (done ++ es) /\ ledger_ok (lp_db l')
    /\ lp_reviews l' = lp_reviews l /\ same_results (lp_db l) (lp_db l')
    /\ (forall o, o <> fee_result_id r -> totals (lp_db l') o = totals (lp_db l) o)
    /\ ((forall e, e ∈ es -> refund_type e <> 3) ->
        has_verify_cancellation (lp_db l') r = has_verify_cancellation (lp_db l) r).
Proof.
  induction es as [|e es IH]; intros l done Hb Hl Hok Hs Hu Ha Hne.
  { exists l. rewrite app_nil_r. done. }
  inversion Ha as [|? ? Hae Ha']; subst. rewrite List.Forall_forall in Hae.
  destruct (step_new events l done e) as (l1 & E1 & H1 & S1 & O1 & R1 & D1); [done..|set_solver|set_solver|].
  destruct (IH l1 (done ++ [e])) as (l2 & E2 & S2 & O2 & R2 & D2 & T2 & C2); [done..| |done| |].
  - intros e' He'. destruct D1 as [-> | (b & f & Hp)]; [set_solver|].
    eapply posts_unposted_other; [|done|set_solver]. apply Hae. by apply list_elem_of_In.
  - intros e1 e2 H2 [H3| ->%list_elem_of_singleton]%elem_of_app; [set_solver|].
    apply not_eq_sym. apply Hae. by apply list_elem_of_In.
  - exists l2. cbn [fold_result]. rewrite E1. cbn [result_bind]. rewrite E2, R2, R1.
    rewrite (cons_middle e done es), app_assoc. split_and!; try done.
    + destruct D1 as [<- | (b & f & Hp)]; [done|]. apply posts_results in Hp. by eapply same_results_trans.
    + intros o Ho. rewrite T2 by done. destruct D1 as [-> | (b & f & Hp)]; [done|].
      rewrite (posts_totals (lp_db l) e b f _ o Hok ltac:(set_solver) Hp). by rewrite str_eqb_false.
    + intros Ht. rewrite C2 by set_solver. destruct D1 as [-> | (b & f & Hp)]; [done|].
      eapply posts_cancellation; [|done]. set_solver.
Qed.

(** *** A run over one direction *)

(** The result is the plain current basis of its coupon. *)
Record refundable (d : feedb) (coupon : RawDouyinOrderCoupon) : Prop := MkRefundable {
  rf_current : current_fee_result d (coupon_id coupon) direction = Some r;
  rf_open : has_verify_cancellation d r = false;
  rf_plain : has_historical_fee_correction d (fee_result_id r) = false;
  rf_basis : plain_basis;
}.

Lemma counted_start d reviews : counted_to (MkLoop d (result_refunded_amount_cent r) 0 0 0 reviews) [].
Proof. done. Qed.

(** A run over old and new events settles them all and returns no review. *)
Lemma refund_run d coupon reviews old new :
  ledger_ok d -> refundable d coupon -> settled d old ->
  (forall e, e ∈ new -> unposted d e) -> ForallOrdPairs apart new ->
  (forall e e', e ∈ new -> e' ∈ old -> refund_event_id e <> refund_event_id e') ->
  exists d', refund_direction hexdigest run coupon (old ++ new) (d, reviews) direction = Ok (d', reviews)
    /\ ledger_ok d' /\ settled d' (old ++ new) /\ same_results d d'
    /\ (forall o, o <> fee_result_id r -> totals d' o = totals d o)
    /\ ((forall e, e ∈ new -> refund_type e <> 3) -> refundable d' coupon).
Proof.
  intros Hok [Hcur Hc Hm Hb] Hs Hu Ha Hne. unfold refund_direction. rewrite Hcur, Hc, Hm. cbn [andb]. cbn zeta.
  destruct (fold_posted (old ++ new) old _ [] (counted_start d reviews)) as (l1 & E1 & H1 & S1 & R1);
    [apply Hs|]. cbn [app lp_db] in *.
  destruct (fold_new (old ++ new) new l1 old Hb H1) as (l2 & E2 & S2 & O2 & R2 & D2 & T2 & C2).
  - by apply (ledger_ok_same d).
  - by apply (settled_same d).
  - intros e He. apply (unposted_same d); [done|]. by apply Hu.
  - done.
  - done.
  - rewrite fold_result_app, E1. cbn [result_bind]. rewrite E2. cbn [result_bind].
    exists (lp_db l2). rewrite R2, R1. split; [done|]. split_and!; try done.
    + eapply same_results_trans; [apply S1|done].
    + intros o Ho. rewrite T2 by done. destruct S1. by apply totals_same.
    + intros Ht. specialize (C2 Ht). assert (same_results d (lp_db l2)) as Hr
        by (eapply same_results_trans; [apply S1|done]). split; [by rewrite (current_same d)| | |done].
      * rewrite C2, <- Hc. destruct S1. unfold has_verify_cancellation. congruence.
      * destruct Hr as (_ & _ & E & _). unfold has_historical_fee_correction. by rewrite E.
Qed.

(** A run over settled events posts nothing. *)
Lemma refund_rerun d coupon reviews es :
  refundable d coupon -> settled d es ->
  exists d', refund_direction hexdigest run coupon es (d, reviews) direction = Ok (d', reviews) /\ same_ledger d d'.
Proof.
  intros [Hcur Hc Hm Hb] Hs. unfold refund_direction. rewrite Hcur, Hc, Hm. cbn [andb]. cbn zeta.
  destruct (fold_posted es es _ [] (counted_start d reviews)) as (l1 & E1 & H1 & S1 & R1); [apply Hs|].
  rewrite E1. cbn [result_bind]. exists (lp_db l1). by rewrite R1.
Qed.

(** *** An event that is seen late *)

(** An event that was not known when the result was calculated. *)
Definition unknown (e : DouyinRefundEvent) : Prop := result_calculated_at r < refund_event_observed_at e.

Lemma unknown_uncovered total e : unknown e -> covered r total e = false.
Proof. unfold unknown, covered. intros H. apply andb_false_iff. left. lia. Qed.

Lemma expected_unknown es : forall c t,
  (forall e, e ∈ es -> unknown e) -> forall e, e ∈ es -> exists p, (e, p) ∈ expected r c t es.
Proof.
  induction es as [|x es IH]; intros c t Hx e He; [by apply elem_of_nil in He|]. cbn [expected].
  rewrite unknown_uncovered by (apply Hx; by left). apply elem_of_cons in He as [->|He].
  - eexists. by left.
  - destruct (IH (refunded_after (result_source_amount_cent r) c x)
      (refunded_after (result_source_amount_cent r) t x) ltac:(intros; apply Hx; by right) e He) as [p Hp].
    exists p. by right.
Qed.

(** Events with a posting are counted as they were posted, whatever is due. *)
Lemma fold_counted events es : forall l,
  (forall e, e ∈ es -> is_Some (posting (lp_db l) e)) ->
  exists l', fold_result (step events) l es = Ok l' /\ same_ledger (lp_db l) (lp_db l')
    /\ lp_reviews l' = lp_reviews l.
Proof.
  induction es as [|e es IH]; intros l Hp; [by exists l|].
  assert (exists l1, step events l e = Ok l1 /\ same_ledger (lp_db l) (lp_db l1) /\ lp_reviews l1 = lp_reviews l)
    as (l1 & E1 & S1 & R1).
  { destruct (Hp e ltac:(by left)) as [p Hpe]. unfold posting in Hpe. unfold refund_step. cbn zeta.
    destruct (_ && _); [by eexists|]. cbn [andb]. destruct (carryforward_source _ _ _ _); [by eexists|].
    destruct (List.find _ _); [by eexists|done]. }
  destruct (IH l1) as (l2 & E2 & S2 & R2).
  { intros x Hx. rewrite (posting_same (lp_db l)) by done. apply Hp. by right. }
  exists l2. cbn [fold_result]. rewrite E1. cbn [result_bind]. rewrite E2. split_and!; [done| |congruence].
  destruct S1, S2. split; [by eapply same_results_trans|congruence..].
Qed.

(** The late event is posted against what precedes it; what was posted for the
    events behind it stays. *)
Lemma late_run d coupon reviews before late after :
  let c := refunded_by r (result_refunded_amount_cent r) 0 before in
  let c' := refunded_after (result_source_amount_cent r) c late in
  ledger_ok d -> refundable d coupon -> settled d (before ++ after) -> unposted d late ->
  (forall e, e ∈ late :: after -> unknown e) ->
  (forall e, e ∈ before ++ after -> refund_event_id late <> refund_event_id e) ->
  exists d', refund_direction hexdigest run coupon (before ++ late :: after) (d, reviews) direction = Ok (d', reviews)
    /\ totals d' (fee_result_id r) = add_amounts (totals d (fee_result_id r))
         (target_base r c' - target_base r c) (target_fee r c' - target_fee r c)
    /\ (refund_type late <> 3 -> refundable d' coupon)
    /\ (forall p, p ∈ expected r (result_refunded_amount_cent r) 0 before -> posting d' p.1 = Some p.2)
    /\ (forall e, e ∈ late :: after -> is_Some (posting d' e)).
Proof.
  intros c c' Hok [Hcur Hcan Hm Hb] Hs Hu Hk Hne. unfold refund_direction. rewrite Hcur, Hcan, Hm.
  cbn [andb]. cbn zeta.
  assert (Hpb : forall p, p ∈ expected r (result_refunded_amount_cent r) 0 before -> posting d p.1 = Some p.2)
    by (intros p Hp; apply Hs; by apply expected_mono).
  assert (Hpa : forall e, e ∈ after -> is_Some (posting d e)).
  { intros e He. destruct (expected_unknown after c (refunded_total r 0 before)) with (e := e) as [p Hp];
      [intros; apply Hk; by right|done|]. exists p. apply (st_posted _ _ Hs (e, p)). rewrite expected_app.
    apply elem_of_app. by right. }
  destruct (fold_posted (before ++ late :: after) before _ [] (counted_start d reviews))
    as (l1 & E1 & H1 & S1 & R1); [done|]. cbn [app lp_db] in *.
  destruct (step_post (before ++ late :: after) l1 before late Hb H1 (unposted_same _ _ _ S1 Hu))
    as (d2 & E2 & P2); [apply unknown_uncovered, Hk; by left|].
  pose proof (proj1 H1) as Ec. rewrite Ec in E2, P2. fold c c' in E2, P2.
  assert (Hpo : forall e p, e ∈ before ++ after -> posting d e = Some p -> posting d2 e = Some p).
  { intros e p He Hp. eapply posts_posting_other; [by apply Hne|done|]. by rewrite (posting_same d). }
  assert (Hp2 : forall e, e ∈ late :: after -> is_Some (posting d2 e)).
  { intros e [->|He]%elem_of_cons; [eexists; eapply posts_posting; [by apply (unposted_same d)|done]|].
    destruct (Hpa e He) as [p Hp]. exists p. apply Hpo; [set_solver|done]. }
  destruct (fold_counted (before ++ late :: after) after
    (MkLoop d2 c' (refunded_after (result_source_amount_cent r) (lp_event_total l1) late)
       (lp_base l1 + (target_base r c' - target_base r c)) (lp_fee l1 + (target_fee r c' - target_fee r c))
       (lp_reviews l1))) as (l3 & E3 & S3 & R3); [intros; apply Hp2; by right|]. cbn [lp_db lp_reviews] in *.
  exists (lp_db l3). rewrite fold_result_app, E1. cbn [result_bind fold_result]. rewrite E2. cbn [result_bind].
  rewrite E3. cbn [result_bind]. rewrite R3, R1. split_and!; [done|..].
  - destruct S3 as [_ Ea Eb Ed]. rewrite (totals_same _ d2 (lp_db l3)) by done.
    rewrite (posts_totals _ _ _ _ _ _ (ledger_ok_same _ _ S1 Hok) (unposted_same _ _ _ S1 Hu) P2), str_eqb_refl.
    destruct S1 as [_ Ea1 Eb1 Ed1]. by rewrite (totals_same _ d (lp_db l1)).
  - intros Ht. apply posts_results in P2 as D2. assert (same_results d (lp_db l3)) as Hr.
    { eapply same_results_trans; [apply S1|]. eapply same_results_trans; [apply D2|apply S3]. }
    split; [by rewrite (current_same d)| | |done].
    + rewrite <- Hcan. destruct S3 as [_ Ea Eb Ed], S1 as [_ Ea1 Eb1 Ed1].
      transitivity (has_verify_cancellation d2 r); [unfold has_verify_cancellation; congruence|].
      rewrite (posts_cancellation _ _ _ _ _ Ht P2). unfold has_verify_cancellation. congruence.
    + destruct Hr as (_ & _ & E & _). unfold has_historical_fee_correction. by rewrite E.
  - intros p Hp. rewrite (posting_same d2) by done. apply Hpo; [|by apply Hpb].
    apply elem_of_app. left. by eapply expected_in.
  - intros e He. rewrite (posting_same d2) by done. by apply Hp2.
Qed.

(** Once they are all posted, another run changes nothing. *)
Lemma late_rerun d coupon reviews before es :
  refundable d coupon ->
  (forall p, p ∈ expected r (result_refunded_amount_cent r) 0 before -> posting d p.1 = Some p.2) ->
  (forall e, e ∈ es -> is_Some (posting d e)) ->
  exists d', refund_direction hexdigest run coupon (before ++ es) (d, reviews) direction = Ok (d', reviews)
    /\ same_ledger d d'.
Proof.
  intros [Hcur Hcan Hm Hb] Hpb Hp. unfold refund_direction. rewrite Hcur, Hcan, Hm. cbn [andb]. cbn zeta.
  destruct (fold_posted (before ++ es) before _ [] (counted_start d reviews)) as (l1 & E1 & _ & S1 & R1);
    [done|]. cbn [app lp_db] in *.
  destruct (fold_counted (before ++ es) es l1) as (l2 & E2 & S2 & R2).
  { intros e He. rewrite (posting_same d) by done. by apply Hp. }
  exists (lp_db l2). rewrite fold_result_app, E1. cbn [result_bind]. rewrite E2. cbn [result_bind].
  rewrite R2, R1. split; [done|]. destruct S1, S2. split; [by eapply same_results_trans|congruence..].
Qed.
End Refunds.
