(* ===== verification/FeeThms.v ===== *)
(** * The fee ledger: what refunds and cancellations guarantee

    Refunds settle a fee result at the fee of what is not refunded, a canceled
    verification brings it to zero once and for good, and a refund that is seen
    after a later one has been posted can leave a residue. *)
From S2P Require Import Prelude PyValue Jobs FeeTables FeeLedger FeeProps FeeRefunds.
#[local] Open Scope Z_scope.
#[local] Set Default Proof Using "Type".

(** ** Commissions *)

Lemma commission_cent_nonneg a r : 0 <= a -> 0 <= r -> 0 <= commission_cent a r.
Proof.
  intros Ha Hr. unfold commission_cent. apply Z.mul_nonneg_nonneg; [|apply Z.div_pos; lia].
  apply Z.sgn_nonneg. by apply Z.mul_nonneg_nonneg.
Qed.

Lemma commission_cent_mono a b r : 0 <= a <= b -> 0 <= r -> commission_cent a r <= commission_cent b r.
Proof.
  intros Ha Hr. unfold commission_cent. assert (a * r <= b * r) by nia. assert (0 <= a * r) by nia.
  rewrite !Z.abs_eq by lia. destruct (decide (a * r = 0)) as [-> |].
  - cbn. apply Z.mul_nonneg_nonneg; [apply Z.sgn_nonneg; lia|apply Z.div_pos; lia].
  - rewrite !Z.sgn_pos by lia. assert ((a * r + 500000) / 1000000 <= (b * r + 500000) / 1000000); [|lia].
    apply Z.div_le_mono; lia.
Qed.

(** ** What is refunded *)

Lemma target_base_after r c e :
  0 <= refund_amount_cent e -> target_base r (refunded_after (result_source_amount_cent r) c e) <= target_base r c.
Proof. intros H. unfold target_base, refunded_after. destruct (refund_type e =? 2); lia. Qed.

Lemma target_base_by r es : forall c t,
  (forall e, e ∈ es -> 0 <= refund_amount_cent e) -> target_base r (refunded_by r c t es) <= target_base r c.
Proof.
  induction es as [|e es IH]; intros c t He; cbn [refunded_by]; [done|].
  destruct (covered r _ e); [apply IH; set_solver|]. etrans; [apply IH; set_solver|].
  apply target_base_after. apply He. set_solver.
Qed.

Lemma target_fee_by r es c t :
  0 <= result_fee_rate r -> (forall e, e ∈ es -> 0 <= refund_amount_cent e) ->
  0 <= target_fee r (refunded_by r c t es) <= target_fee r c.
Proof.
  intros Hr He. assert (forall x, 0 <= target_base r x) as H0 by (intros x; unfold target_base; lia). split.
  - by apply commission_cent_nonneg.
  - apply commission_cent_mono; [|done]. split; [done|]. by apply target_base_by.
Qed.

(** The refunds of a result, added up: all of it after a full refund. *)
Definition refund_sum (r : SettlementFeeResult) (es : list DouyinRefundEvent) : Z :=
  if existsb (fun e => refund_type e =? 2) es then result_source_amount_cent r
  else Z.min (result_source_amount_cent r) (sum_Z (refund_amount_cent <$> es)).

Lemma refunded_by_sum r es : forall c,
  result_refunded_amount_cent r = 0 -> 0 <= c <= result_source_amount_cent r ->
  (forall e, e ∈ es -> 0 <= refund_amount_cent e) ->
  refunded_by r c c es
  = if existsb (fun e => refund_type e =? 2) es then result_source_amount_cent r
    else Z.min (result_source_amount_cent r) (c + sum_Z (refund_amount_cent <$> es)).
Proof.
  induction es as [|e es IH]; intros c H0 Hc He; cbn [refunded_by]; [cbn; lia|].
  assert (0 <= refund_amount_cent e) as Hp by (apply He; set_solver).
  assert (forall x, 0 <= sum_Z (refund_amount_cent <$> x) \/ exists e, e ∈ x /\ refund_amount_cent e < 0) as Hn.
  { induction x as [|y x IHx]; cbn; [lia|]. unfold sum_Z in *. destruct IHx as [?|(z & ? & ?)].
    - destruct (decide (0 <= refund_amount_cent y)); [lia|]. right. exists y. split; [set_solver|lia].
    - right. exists z. set_solver. }
  assert (0 <= sum_Z (refund_amount_cent <$> es)) as Hs.
  { destruct (Hn es) as [?|(z & Hz & ?)]; [done|]. specialize (He z ltac:(set_solver)). lia. }
  assert (0 <= refunded_after (result_source_amount_cent r) c e <= result_source_amount_cent r) as Hb
    by (unfold refunded_after; destruct (refund_type e =? 2); lia).
  assert ((if covered r (refunded_after (result_source_amount_cent r) c e) e
           then refunded_by r c (refunded_after (result_source_amount_cent r) c e) es
           else refunded_by r (refunded_after (result_source_amount_cent r) c e)
                  (refunded_after (result_source_amount_cent r) c e) es)
          = refunded_by r (refunded_after (result_source_amount_cent r) c e)
              (refunded_after (result_source_amount_cent r) c e) es) as ->.
  { destruct (covered r _ e) eqn:Hcov; [|done]. f_equal. unfold covered in Hcov. rewrite H0 in Hcov. tests.
    unfold refunded_after in *. destruct (refund_type e =? 2); lia. }
  rewrite IH by (done || set_solver). unfold refunded_after. cbn. unfold sum_Z in *. cbn.
  destruct (refund_type e =? 2); cbn; destruct (existsb _ es); lia.
Qed.

(** After a full refund nothing remains. *)
Lemma refunded_by_full r es : forall c t,
  (forall e, e ∈ es -> unknown r e /\ 0 <= refund_amount_cent e) ->
  c = result_source_amount_cent r \/ (exists e, e ∈ es /\ refund_type e = 2) ->
  refunded_by r c t es = result_source_amount_cent r.
Proof.
  induction es as [|e es IH]; intros c t He Hf; cbn [refunded_by].
  { destruct Hf as [?|(e & H%elem_of_nil & _)]; done. }
  destruct (He e ltac:(by left)) as [Hu Ha]. rewrite unknown_uncovered by done.
  apply IH; [intros; apply He; by right|]. unfold refunded_after.
  destruct (refund_type e =? 2) eqn:E; [by left|]. destruct Hf as [->|(x & [->|Hx]%elem_of_cons & H2)]; [left; lia|lia|].
  right. eauto.
Qed.

Lemma target_spent r : target_base r (result_source_amount_cent r) = 0 /\ target_fee r (result_source_amount_cent r) = 0.
Proof. unfold target_fee, target_base. rewrite Z.sub_diag. done. Qed.

Section Refunds.
Context (hexdigest : string -> string).
#[local] Notation totals := (effective_adjustment_totals hexdigest).

(** C19: A run of the refund materialisation over one direction, on a plain current
    fee result (its verification not canceled, no historical correction) whose
    earlier refunds are settled and precede the new ones, which have no posting
    and ids of their own, with amounts that are not negative and types other than
    a canceled verification, posts every new refund and
    returns: the net base and the net fee of the result are then those of the
    amount that is not refunded, which is the sum of the refunds (all of it after
    a full refund) when none was known at calculation; the net fee is neither
    negative nor above the calculated one, the results, the current pointers, the
    audits and the verifications stay as they are, so do the adjustment totals of
    every other result, and a second run posts nothing. *)
Theorem refunds_settle run direction r store d coupon reviews old new :
  ledger_ok d -> refundable direction r store d coupon ->
  settled hexdigest direction r d old ->
  (forall e, e ∈ new -> unposted hexdigest direction r d e) ->
  ForallOrdPairs (apart hexdigest direction r) new ->
  (forall e e', e ∈ new -> e' ∈ old -> refund_event_id e <> refund_event_id e') ->
  0 <= result_fee_rate r -> 0 <= result_source_amount_cent r ->
  (forall e, e ∈ old ++ new -> 0 <= refund_amount_cent e /\ refund_type e <> 3) ->
  let refunded := refunded_by r (result_refunded_amount_cent r) 0 (old ++ new) in
  exists d', refund_direction hexdigest run coupon (old ++ new) (d, reviews) direction = Ok (d', reviews)
    /\ result_fee_base_cent r + (totals d' (fee_result_id r)).1 = target_base r refunded
    /\ result_fee_amount_cent r + (totals d' (fee_result_id r)).2 = target_fee r refunded
    /\ (result_refunded_amount_cent r = 0 -> refunded = refund_sum r (old ++ new))
    /\ 0 <= target_fee r refunded <= result_fee_amount_cent r
    /\ same_results d d' /\ (forall o, o <> fee_result_id r -> totals d' o = totals d o)
    /\ settled hexdigest direction r d' (old ++ new)
    /\ (exists d'', refund_direction hexdigest run coupon (old ++ new) (d', reviews) direction = Ok (d'', reviews)
         /\ same_ledger d' d'').
Proof.
  intros Hok Hr Hs Hu Ha Hne Hrate Hsrc He refunded.
  destruct (refund_run hexdigest run direction r store d coupon reviews old new Hok Hr Hs Hu Ha Hne)
    as (d' & E & Hok' & Hs' & Hd & Hf & Hr').
  destruct (settled_net hexdigest direction r store d' (old ++ new) (rf_basis _ _ _ _ _ Hr) Hs') as [Eb Ef].
  exists d'. split_and!; [done..| |apply target_fee_by; [done|intros e ?; by apply He]| |done|done|done|].
  - intros H0. unfold refunded, refund_sum. rewrite H0. apply refunded_by_sum; [done|lia|]. intros e ?. by apply He.
  - rewrite (pb_fee _ _ _ (rf_basis _ _ _ _ _ Hr)). apply target_fee_by; [done|]. intros e ?. by apply He.
  - apply (refund_rerun hexdigest run direction r store); [|done]. apply Hr'. intros e ?. apply He. set_solver.
Qed.

(** C34: A refund that is seen after refunds behind it were posted is not settled.
    On a plain current result, with [before] and [after] settled, a new refund
    between them ([late] and [after] unknown at calculation) is posted for the
    difference it makes to what [before] leaves, while the postings of [after]
    stay: the net base and fee are those after [before] and [after] plus that
    difference.  With a full refund in [after] they are the difference alone,
    which is at most zero, and the net base is negative when the late refund
    returns anything of what [before] left.  Later runs over the same events
    change nothing, so the residue stays. *)
Theorem late_refund_not_settled run direction r store d coupon reviews before late after :
  ledger_ok d -> refundable direction r store d coupon ->
  settled hexdigest direction r d (before ++ after) -> unposted hexdigest direction r d late ->
  (forall e, e ∈ late :: after -> unknown r e /\ 0 <= refund_amount_cent e) ->
  (forall e, e ∈ before ++ after -> refund_event_id late <> refund_event_id e) ->
  refund_type late <> 3 -> 0 <= result_fee_rate r ->
  let refunded := refunded_by r (result_refunded_amount_cent r) 0 in
  let c := refunded before in
  let c' := refunded_after (result_source_amount_cent r) c late in
  exists d', refund_direction hexdigest run coupon (before ++ late :: after) (d, reviews) direction = Ok (d', reviews)
    /\ result_fee_base_cent r + (totals d' (fee_result_id r)).1
       = target_base r (refunded (before ++ after)) + (target_base r c' - target_base r c)
    /\ result_fee_amount_cent r + (totals d' (fee_result_id r)).2
       = target_fee r (refunded (before ++ after)) + (target_fee r c' - target_fee r c)
    /\ ((exists e, e ∈ after /\ refund_type e = 2) ->
        result_fee_base_cent r + (totals d' (fee_result_id r)).1 = target_base r c' - target_base r c
        /\ result_fee_amount_cent r + (totals d' (fee_result_id r)).2 = target_fee r c' - target_fee r c
        /\ target_fee r c' - target_fee r c <= 0
        /\ (0 < refund_amount_cent late -> c < result_source_amount_cent r ->
             result_fee_base_cent r + (totals d' (fee_result_id r)).1 < 0))
    /\ (exists d'', refund_direction hexdigest run coupon (before ++ late :: after) (d', reviews) direction
                     = Ok (d'', reviews) /\ same_ledger d' d'').
Proof.
  intros Hok Hr Hs Hu Hk Hne Ht Hrate refunded c c'.
  destruct (late_run hexdigest run direction r store d coupon reviews before late after Hok Hr Hs Hu
              ltac:(intros e ?; by apply Hk) Hne) as (d' & E & Etot & Hr' & Hpb & Hpa).
  destruct (settled_net hexdigest direction r store d (before ++ after) (rf_basis _ _ _ _ _ Hr) Hs) as [Eb Ef].
  fold refunded in Eb, Ef, Etot. fold c c' in Etot.
  assert (Hb' : target_base r c' <= target_base r c) by (apply target_base_after, Hk; by left).
  assert (Hf' : target_fee r c' <= target_fee r c).
  { apply commission_cent_mono; [|done]. split; [unfold target_base; lia|done]. }
  exists d'. rewrite Etot. unfold add_amounts. cbn [fst snd]. split_and!; [done|lia|lia| |].
  - intros Hfull. assert (refunded (before ++ after) = result_source_amount_cent r) as Es.
    { unfold refunded. rewrite refunded_by_app. apply refunded_by_full; [intros; apply Hk; by right|by right]. }
    rewrite Es in Eb, Ef. destruct (target_spent r) as [E1 E2]. rewrite E1 in Eb. rewrite E2 in Ef.
    split_and!; [lia|lia|lia|]. intros Hp Hlt. enough (target_base r c' < target_base r c) by lia.
    unfold target_base, c', refunded_after. destruct (refund_type late =? 2); lia.
  - by apply (late_rerun hexdigest run direction r store); [apply Hr'|..].
Qed.
End Refunds.

Section Cancellation.
Context (hexdigest : string -> string) (isoformat : instant -> string).
#[local] Notation totals := (effective_adjustment_totals hexdigest).

(** C26: The cancellation of the verification that qualified a fee result is posted
    once: the net base and the net fee of the result become zero, whatever was
    refunded, adjusted or carried forward before; no other result changes; a
    second run posts nothing, and refunds that arrive later post nothing. *)
Theorem cancellation_zeroes d coupon run direction original v t store events reviews :
  ledger_ok d -> cancelable hexdigest isoformat d coupon direction original v t store ->
  exists d', materialize_direction_verify_cancellation hexdigest isoformat d coupon run direction = Ok d'
    /\ result_fee_base_cent original + (totals d' (fee_result_id original)).1 = 0
    /\ result_fee_amount_cent original + (totals d' (fee_result_id original)).2 = 0
    /\ (forall o, o <> fee_result_id original -> totals d' o = totals d o)
    /\ current_fee_result d' (coupon_id coupon) direction = Some original
    /\ (exists d'', materialize_direction_verify_cancellation hexdigest isoformat d' coupon run direction = Ok d''
         /\ forall o, totals d'' o = totals d' o)
    /\ refund_direction hexdigest run coupon events (d', reviews) direction = Ok (d', reviews).
Proof.
  intros Hok Hc. destruct (cancellation_posts hexdigest isoformat d coupon run direction original v t store Hok Hc)
    as (d' & E & Hok' & Hr & Hv & Ht & Hf & Hp).
  assert (current_fee_result d' (coupon_id coupon) direction = Some original) as Hcur
    by (rewrite (current_same d d') by done; apply Hc).
  exists d'. rewrite Ht. cbn [fst snd]. split_and!; [done|lia|lia|done|done| |].
  - destruct (cancellation_again hexdigest isoformat d' coupon run direction original v t store)
      as (d'' & E' & _ & Hs); [done|rewrite (matching_same d d') by done; apply Hc|apply Hc..|done|].
    by exists d''.
  - unfold refund_direction. by rewrite Hcur, Hv.
Qed.
End Cancellation.

(** * The fee ledger: concrete runs

    A small ledger on which the theorems about refunds and cancellations apply, and
    the run in which a refund is seen late. *)

(** A digest that keeps short texts apart, and one form of an instant. *)
Definition plain_digest (s : string) : string := s.
Definition plain_time (t : instant) : string := str_of_Z t.

Definition sample_order : RawDouyinOrder :=
  MkFeeOrder 1 "O1" (Some "PAID") (Some "paid") (Some "SKU") (Some 0) (Some 0) (Some "A1") (Some "name") (Some "ch")
    (Some "ch") PNone None None.
Definition sample_coupon : RawDouyinOrderCoupon :=
  MkFeeCoupon "C1" "O1" 1 None (Some "used") (Some "used") None 0 PNone 1 None.

(** A result of [source] cents at one half. *)
Definition sample_result (source : Z) : SettlementFeeResult :=
  MkFeeResult "R1" "C1" "O1" PROMOTION_FEE 1 "2026-08" 20670 (Some "S1") (Some "S2") "SKU" "scope" "type" "ch"
    source 0 source 500000 (commission_cent source 500000) "v1" "sv1" ACTIVE_FEE_RESULT "run0" None None None
    (Some "V1") (Some 5) (Some "S2") None None 10.
Definition sample_verify : RawDouyinVerifyRecord :=
  MkFeeVerify "V1" (Some "C1") (Some "1") (Some 5) None (Some (seconds 1785600000)) None.

(** A partial refund, and a refund a day later, in August 2026. *)
Definition refund_at (id : string) (kind amount day : Z) : DouyinRefundEvent :=
  MkFeeRefund id "O1" (Some "C1") kind SUCCESSFUL_REFUND amount (seconds (1785600000 + 86400 * day)) None
    (seconds 1785600000).
Definition partial_first (amount : Z) : DouyinRefundEvent := refund_at "EA" 1 amount 0.
Definition partial_second (amount : Z) : DouyinRefundEvent := refund_at "EB" 1 amount 1.
Definition full_second : DouyinRefundEvent := refund_at "EB" 2 100 1.

Definition sample_db (source : Z) (verify : list RawDouyinVerifyRecord) (events : list DouyinRefundEvent) : feedb :=
  MkFeeDb [sample_order] [sample_coupon] verify events [sample_result source] [MkCurrent "C1" PROMOTION_FEE "R1"]
    [] [] [] [] [] [] [] [] [] [] [] [] [MkFeeStore "S1" "one" true; MkFeeStore "S2" "two" true]
    [] [] [] [] [] [] [].

(** Net amounts of the sample result. *)
Definition sample_net (source : Z) (d : feedb) : Z * Z :=
  (result_fee_base_cent (sample_result source) + (effective_adjustment_totals plain_digest d "R1").1,
   result_fee_amount_cent (sample_result source) + (effective_adjustment_totals plain_digest d "R1").2).

Definition refund_run_of (d : feedb) : result feedb :=
  let* (d, _) := materialize_refund_adjustments plain_digest d sample_coupon "run1" [PROMOTION_FEE] in Ok d.

(** Both refunds are seen in one run; or the earlier one is recorded after the
    later one has been posted. *)
Definition net_in_order (source : Z) (a b : DouyinRefundEvent) : option (Z * Z) :=
  match refund_run_of (sample_db source [] [a; b]) with Ok d => Some (sample_net source d) | Raise _ => None end.
Definition net_when_late (source : Z) (a b : DouyinRefundEvent) : option (Z * Z) :=
  match
    let* d := refund_run_of (sample_db source [] [b]) in
    refund_run_of (d <| fee_refund_events := [a; b] |>)
  with Ok d => Some (sample_net source d) | Raise _ => None end.

(** Refunds that together return the whole amount bring the net base and the
    net fee to zero when they are seen in the order of their times.  When the
    earlier one is seen after the later one has been posted it is posted against
    the amounts before it, without what is posted already: a partial refund of 100
    of 200 cents before a full refund leaves a net base of -100 cents and a net
    fee of -50, and two refunds of one cent leave a net fee of one cent. *)
Lemma late_refund_runs :
  net_in_order 200 (partial_first 100) full_second = Some (0, 0)
  /\ net_when_late 200 (partial_first 100) full_second = Some (-100, -50)
  /\ net_in_order 2 (partial_first 1) (partial_second 1) = Some (0, 0)
  /\ net_when_late 2 (partial_first 1) (partial_second 1) = Some (0, 1).
Proof. vm_compute. done. Qed.

(** ** Witnesses *)

Lemma sample_ledger_ok source verify events : ledger_ok (sample_db source verify events).
Proof. split; [constructor|constructor|..]; intros a Ha; inversion Ha. Qed.

Lemma sample_unposted source verify events e : unposted plain_digest PROMOTION_FEE (sample_result source)
  (sample_db source verify events) e.
Proof. split; [done|intros H; inversion H|intros b H; inversion H|intros H; inversion H]. Qed.

(** [refunds_settle] on a partial and a full refund seen in one run. *)
Lemma refunds_settle_witness :
  exists d', refund_direction plain_digest "run1" sample_coupon [partial_first 100; full_second]
      (sample_db 200 [] [], 0) PROMOTION_FEE = Ok (d', 0)
    /\ result_fee_amount_cent (sample_result 200) + (effective_adjustment_totals plain_digest d' "R1").2 = 0.
Proof.
  destruct (refunds_settle plain_digest "run1" PROMOTION_FEE (sample_result 200) "S1" (sample_db 200 [] [])
    sample_coupon 0 [] [partial_first 100; full_second]) as (d' & E & _ & Hf & _).
  - apply sample_ledger_ok.
  - split; [vm_compute; reflexivity|reflexivity|reflexivity|]. split; try (vm_compute; reflexivity). discriminate.
  - split; [intros p Hp; inversion Hp|vm_compute; reflexivity].
  - intros e _. apply sample_unposted.
  - constructor; [|constructor; constructor]. constructor; [|constructor].
    unfold apart. split_and!; vm_compute; discriminate.
  - intros e e' _ H. inversion H.
  - discriminate.
  - discriminate.
  - intros e H. apply list_elem_of_In in H. destruct H as [<- |[<- |[]]]; split; discriminate.
  - exists d'. split; [exact E|]. refine (eq_trans Hf _). vm_compute. reflexivity.
Defined.

(** The ledger after the full refund was posted, before the partial one is seen. *)
Definition full_posted : feedb :=
  match refund_direction plain_digest "run1" sample_coupon [full_second] (sample_db 200 [] [], 0) PROMOTION_FEE with
  | Ok (d, _) => d
  | Raise _ => sample_db 200 [] []
  end.

(** [late_refund_not_settled] on a partial refund seen after the full one. *)
Lemma late_refund_not_settled_witness :
  exists d', refund_direction plain_digest "run2" sample_coupon [partial_first 100; full_second]
      (full_posted, 0) PROMOTION_FEE = Ok (d', 0)
    /\ result_fee_base_cent (sample_result 200) + (effective_adjustment_totals plain_digest d' "R1").1 < 0.
Proof.
  destruct (late_refund_not_settled plain_digest "run2" PROMOTION_FEE (sample_result 200) "S1" full_posted
    sample_coupon 0 [] (partial_first 100) [full_second]) as (d' & E & _ & _ & Hneg & _).
  - split.
    + vm_compute. constructor; [intros H; inversion H|constructor].
    + vm_compute. constructor.
    + intros a Ha. vm_compute in Ha. inversion Ha.
    + intros a Ha. vm_compute in Ha. inversion Ha.
  - split; [vm_compute; reflexivity|reflexivity|reflexivity|]. split; try (vm_compute; reflexivity). discriminate.
  - split; [|vm_compute; reflexivity]. intros p Hp. vm_compute in Hp. apply elem_of_cons in Hp as [->|Hp];
      [vm_compute; reflexivity|by apply elem_of_nil in Hp].
  - split.
    + vm_compute. reflexivity.
    + vm_compute. intros H. apply elem_of_cons in H as [H|H]; [discriminate H|by apply elem_of_nil in H].
    + intros b Hb. vm_compute in Hb. apply elem_of_cons in Hb as [->|H]; [discriminate|by apply elem_of_nil in H].
    + vm_compute. intros H. by apply elem_of_nil in H.
  - intros e He. apply list_elem_of_In in He. destruct He as [<- |[<- |[]]]; split; vm_compute; done.
  - intros e He. apply list_elem_of_In in He. destruct He as [<- |[]]. vm_compute. discriminate.
  - discriminate.
  - discriminate.
  - exists d'. split; [exact E|]. apply Hneg; [|reflexivity|reflexivity].
    exists full_second. split; [by left|reflexivity].
Defined.

(** [cancellation_zeroes] on a result that has not been refunded. *)
Lemma cancellation_zeroes_witness :
  exists d', materialize_direction_verify_cancellation plain_digest plain_time (sample_db 200 [sample_verify] [])
      sample_coupon "run1" PROMOTION_FEE = Ok d'
    /\ result_fee_amount_cent (sample_result 200) + (effective_adjustment_totals plain_digest d' "R1").2 = 0.
Proof.
  destruct (cancellation_zeroes plain_digest plain_time (sample_db 200 [sample_verify] []) sample_coupon "run1"
    PROMOTION_FEE (sample_result 200) sample_verify (seconds 1785600000) "S1" [] 0) as (d' & E & _ & Hf & _).
  - apply sample_ledger_ok.
  - split; try (vm_compute; reflexivity); try discriminate; intros H; inversion H.
  - exists d'. split; [exact E|exact Hf].
Defined.
