(* ===== verification/Statements.v ===== *)
(** * Statements

    apps/worker/settlement.py: the application of carryforward sources to the next
    open month, the sources of a store's statement for a month, and the locking of
    the statement with its lines, entries and totals. *)
From S2P Require Import Prelude PyValue Jobs FeeTables FeeLedger.
#[local] Open Scope Z_scope.

(** [_next_month_key] *)
Definition next_month_key (month : string) : result string :=
  let fix split (pre l : list Ascii.ascii) : option (string * string) :=
    match l with
    | [] => None
    | c :: l' => if char_is c 45 then Some (text (rev pre), text l') else split (c :: pre) l'
    end in
  match split [] (chars month) with
  | Some (y, m) =>
      match py_int (PStr y), py_int (PStr m) with
      | Some year, Some number =>
          Ok (if number =? 12 then month_key (year + 1) 1 else month_key year (number + 1))
      | _, _ => Raise (ValueError "invalid literal for int()")
      end
  | None => Raise (ValueError "not enough values to unpack")
  end.

Example next_month_ex1 : next_month_key "2026-12" = Ok "2027-01".
Proof. vm_compute. reflexivity. Qed.
Example next_month_ex2 : next_month_key "2026-08" = Ok "2026-09".
Proof. vm_compute. reflexivity. Qed.

(** [_first_unlocked_month_between], with a bound on the turns of its loop *)
Fixpoint first_unlocked_from (fuel : nat) (d : feedb) (store_id month target_month : string)
  : result (option string) :=
  match fuel with
  | O => Ok None
  | S fuel' =>
      if String.ltb month target_month then
        if negb (is_settlement_period_immutable d store_id month) then Ok (Some month)
        else let* month := next_month_key month in first_unlocked_from fuel' d store_id month target_month
      else Ok None
  end.

(** The months of the calendar. *)
Definition month_turns : nat := Z.to_nat 120000.
Definition first_unlocked_month_between (d : feedb) (store_id event_month target_month : string)
  : result (option string) :=
  let* month := next_month_key event_month in
  first_unlocked_from month_turns d store_id month target_month.

(** ** Carryforwards *)

Definition source_before (a b : SettlementCarryforwardSource) : Prop :=
  src_occurred_at a < src_occurred_at b
  \/ (src_occurred_at a = src_occurred_at b
      /\ String.le (carryforward_source_id a) (carryforward_source_id b)).
#[export] Instance source_before_dec a b : Decision (source_before a b).
Proof. unfold source_before. apply _. Defined.

Definition insert_application (a : SettlementCarryforwardApplication) (d : feedb) : result feedb :=
  if existsb (fun b => str_eqb (carryforward_application_id b) (carryforward_application_id a)
       || (str_eqb (app_carryforward_source_id b) (app_carryforward_source_id a)
           && (application_version b =? application_version a))
       || str_eqb (target_adjustment_id b) (target_adjustment_id a)
       || (str_eqb (app_carryforward_source_id b) (app_carryforward_source_id a)
           && app_is_current b && app_is_current a)) (carryforward_applications d)
  then Raise (NamedError "IntegrityError" "settlement_carryforward_application")
  else Ok (d <| carryforward_applications := carryforward_applications d ++ [a] |>).

Section Statements.
(** SHA-256 and the JSON form of a text. *)
Context (hexdigest : string -> string) (json_text : string -> string).
#[local] Notation stable_business_id := (stable_business_id hexdigest).

Definition carryforward_issue (kind : string) (s : SettlementCarryforwardSource) (run severity : string) (d : feedb)
  : feedb :=
  record_issue (MkIssue kind (Some (src_order_id s)) (Some (src_coupon_id s)) run
                  (Some (carryforward_source_id s)) severity) d.

(** The application of one source to the statement. *)
Definition apply_source (stmt : SettlementStatement) (run : string) (now : instant)
    (s : SettlementCarryforwardSource) (d : feedb) : result feedb :=
  let version := foldr Z.max 0 (application_version <$>
    List.filter (fun a => str_eqb (app_carryforward_source_id a) (carryforward_source_id s))
      (carryforward_applications d)) + 1 in
  let target := stable_business_id "carryforward-adjustment" [carryforward_source_id s; str_of_Z version] in
  let* d := insert_adjustment (MkAdjustment target (src_original_fee_result_id s) (src_refund_event_id s)
              (src_coupon_id s) (src_order_id s) (src_fee_direction s) (src_original_business_month s)
              (statement_month stmt) (src_adjustment_type s) (src_adjustment_base_cent s)
              (src_adjustment_fee_cent s) (src_rule_version s) (carryforward_reason s) (src_occurred_at s)
              ("settlement:" +:+ run)%string) d in
  let* d := insert_application (MkApplication
              (stable_business_id "carryforward-application" [carryforward_source_id s; str_of_Z version])
              (carryforward_source_id s) (statement_id stmt) (stmt_version_no stmt) target (statement_month stmt)
              version true ("settlement:" +:+ run)%string now) d in
  Ok (carryforward_issue "dual_fee_carryforward_applied" s run "warning" d).

(** One candidate of [_apply_carryforward_sources] *)
Definition apply_step (stmt : SettlementStatement) (run : string) (now : instant) (d : feedb)
    (s : SettlementCarryforwardSource) : result feedb :=
  if existsb (fun a => str_eqb (app_carryforward_source_id a) (carryforward_source_id s) && app_is_current a)
       (carryforward_applications d)
  then Ok (carryforward_issue "dual_fee_carryforward_application_idempotent" s run "warning" d)
  else
    let* earlier := first_unlocked_month_between d (src_store_id s) (src_event_month s) (statement_month stmt) in
    match earlier with
    | Some _ => Ok (carryforward_issue "dual_fee_carryforward_waiting" s run "warning" d)
    | None =>
        match List.find (fun r => str_eqb (fee_result_id r) (src_original_fee_result_id s)) (fee_results d) with
        | None => Raise (ValueError "carryforward source has no original fee result")
        | Some _ => apply_source stmt run now s d
        end
    end.

(** [_apply_carryforward_sources] over the sources of earlier months of the store *)
Definition carryforward_candidates (d : feedb) (stmt : SettlementStatement) : list SettlementCarryforwardSource :=
  merge_sort source_before
    (List.filter (fun s => str_eqb (src_store_id s) (stmt_store_id stmt)
                           && String.ltb (src_event_month s) (statement_month stmt)) (carryforward_sources d)).
Definition apply_carryforward_sources (d : feedb) (stmt : SettlementStatement) (run : string) (now : instant)
  : result feedb :=
  fold_result (apply_step stmt run now) d (carryforward_candidates d stmt).

(** ** The sources of a statement *)

Record StatementSource := MkStatementSource {
  ss_source_type : Z;
  ss_source_record_id : string;
  ss_original_fee_result_id : string;
  ss_coupon_id : string;
  ss_order_id : string;
  ss_fee_direction : Z;
  ss_original_business_month : string;
  ss_posting_month : string;
  ss_store_id : string;
  ss_product_scope : string;
  ss_product_type : string;
  ss_base_amount_cent : Z;
  ss_fee_amount_cent : Z;
  ss_source_amount_cent : Z;
  ss_rule_version : string;
}.

(** [_result_statement_source], [_adjustment_statement_source] *)
Definition result_statement_source (store : string) (r : SettlementFeeResult) : StatementSource :=
  MkStatementSource 1 (fee_result_id r) (fee_result_id r) (result_coupon_id r) (result_order_id r)
    (result_fee_direction r) (result_original_business_month r) (result_original_business_month r) store
    (result_product_scope r) (result_product_type r) (result_fee_base_cent r) (result_fee_amount_cent r)
    (result_source_amount_cent r) (result_rule_version r).
Definition adjustment_statement_source (store : string) (a : SettlementFeeAdjustment) (original : SettlementFeeResult)
  : StatementSource :=
  MkStatementSource 2 (adjustment_id a) (adj_original_fee_result_id a) (adj_coupon_id a) (adj_order_id a)
    (adj_fee_direction a) (adj_original_business_month a) (adjustment_posting_month a) store
    (result_product_scope original) (result_product_type original) (adjustment_base_cent a)
    (adjustment_fee_cent a) 0 (adj_rule_version a).

(** [_active_fee_adjustments] of a posting month *)
Definition active_fee_adjustments (d : feedb) (month : string) : list SettlementFeeAdjustment :=
  List.filter (fun a =>
    str_eqb (adjustment_posting_month a) month
    && (negb (str_in (adjustment_id a) (target_adjustment_id <$> carryforward_applications d))
        || str_in (adjustment_id a)
             (target_adjustment_id <$> List.filter app_is_current (carryforward_applications d)))) (fee_adjustments d).

(** The results of the month that are current and belong to the store. *)
Definition result_sources (d : feedb) (store month : string) : list StatementSource :=
  mjoin ((fun r =>
    if str_eqb (result_original_business_month r) month
       && opt_is (responsible_store (result_fee_direction r) r) store
    then (fun _ => result_statement_source store r)
         <$> List.filter (fun p => str_eqb (current_fee_result_id p) (fee_result_id r)) (fee_results_current d)
    else []) <$> fee_results d).

Definition adjustment_source (d : feedb) (store : string) (a : SettlementFeeAdjustment)
  : result (list StatementSource) :=
  match List.find (fun r => str_eqb (fee_result_id r) (adj_original_fee_result_id a)) (fee_results d) with
  | None => Raise (ValueError "adjustment has no original result")
  | Some original =>
      Ok (if opt_is (responsible_store (adj_fee_direction a) original) store
          then [adjustment_statement_source store a original] else [])
  end.

Definition source_order (a b : StatementSource) : Prop :=
  ss_source_type a < ss_source_type b
  \/ (ss_source_type a = ss_source_type b /\ String.le (ss_source_record_id a) (ss_source_record_id b)).
#[export] Instance source_order_dec a b : Decision (source_order a b).
Proof. unfold source_order. apply _. Defined.

(** [_statement_sources]; a store is never blank *)
Definition statement_sources (d : feedb) (store month : string) : result (list StatementSource) :=
  let* adjustments := fold_result (fun l a => let* x := adjustment_source d store a in Ok (l ++ x)) []
                        (active_fee_adjustments d month) in
  Ok (merge_sort source_order (result_sources d store month ++ adjustments)).

(** [_assert_sources_unassigned] *)
Definition assert_sources_unassigned (d : feedb) (statement : string) (sources : list StatementSource)
  : result unit :=
  raise_if (existsb (fun x =>
      match List.find (fun e => (entry_source_type e =? ss_source_type x)
                                && str_eqb (entry_source_record_id e) (ss_source_record_id x)) (statement_entries d) with
      | Some e => negb (str_eqb (entry_statement_id e) statement)
      | None => false
      end) sources)
    (ValueError "settlement source already belongs to another statement").

(** ** Lines, entries and totals *)

Definition line_key (x : StatementSource) : Z * string * string :=
  (ss_fee_direction x, ss_product_scope x, ss_product_type x).
Definition key_order (a b : Z * string * string) : Prop :=
  a.1.1 < b.1.1 \/ (a.1.1 = b.1.1
    /\ (String.ltb a.1.2 b.1.2 = true \/ (a.1.2 = b.1.2 /\ String.le a.2 b.2))).
#[export] Instance key_order_dec a b : Decision (key_order a b).
Proof. unfold key_order. apply _. Defined.

(** [sorted(grouped.items())] *)
Definition line_groups (sources : list StatementSource) : list (Z * string * string * list StatementSource) :=
  (fun k => (k, List.filter (fun x => bool_decide (line_key x = k)) sources))
    <$> merge_sort key_order (remove_dups (line_key <$> sources)).

Definition of_type (kind : Z) (l : list StatementSource) : list StatementSource :=
  List.filter (fun x => ss_source_type x =? kind) l.
Definition base_total (l : list StatementSource) : Z := sum_Z (ss_base_amount_cent <$> l).
Definition fee_total (l : list StatementSource) : Z := sum_Z (ss_fee_amount_cent <$> l).

Definition statement_line_key (statement : string) (k : Z * string * string) : string :=
  stable_business_id "statement-line" [statement; str_of_Z k.1.1; k.1.2; k.2].

Definition statement_line (statement : string) (k : Z * string * string) (l : list StatementSource)
  : SettlementStatementLine :=
  let original := of_type 1 l in
  let adjustment := of_type 2 l in
  MkLine (statement_line_key statement k) statement k.1.1 k.1.2 k.2
    (Z.of_nat (length original)) (Z.of_nat (length adjustment)) (base_total original) (base_total adjustment)
    (base_total original + base_total adjustment) (fee_total original) (fee_total adjustment)
    (fee_total original + fee_total adjustment).

Definition statement_entry_key (kind : Z) (record : string) : string :=
  stable_business_id "statement-entry" [str_of_Z kind; record].
Definition statement_entry (statement line : string) (x : StatementSource) : SettlementStatementEntry :=
  MkEntry (statement_entry_key (ss_source_type x) (ss_source_record_id x))
    statement line (ss_source_type x) (ss_source_record_id x) (ss_original_fee_result_id x) (ss_coupon_id x)
    (ss_order_id x) (ss_fee_direction x) (ss_original_business_month x) (ss_posting_month x)
    (ss_product_scope x) (ss_product_type x) (ss_base_amount_cent x) (ss_fee_amount_cent x) (ss_rule_version x).

Definition insert_line (l : SettlementStatementLine) (d : feedb) : result feedb :=
  if existsb (fun x => str_eqb (statement_line_id x) (statement_line_id l)
       || (str_eqb (line_statement_id x) (line_statement_id l) && (line_fee_direction x =? line_fee_direction l)
           && str_eqb (line_product_scope x) (line_product_scope l)
           && str_eqb (line_product_type x) (line_product_type l))) (statement_lines d)
  then Raise (NamedError "IntegrityError" "settlement_statement_line")
  else Ok (d <| statement_lines := statement_lines d ++ [l] |>).

Definition insert_entry (e : SettlementStatementEntry) (d : feedb) : result feedb :=
  if existsb (fun x => str_eqb (statement_entry_id x) (statement_entry_id e)
       || (str_eqb (entry_statement_id x) (entry_statement_id e) && (entry_source_type x =? entry_source_type e)
           && str_eqb (entry_source_record_id x) (entry_source_record_id e))) (statement_entries d)
  then Raise (NamedError "IntegrityError" "settlement_statement_entry")
  else Ok (d <| statement_entries := statement_entries d ++ [e] |>).

Definition write_group (statement : string) (d : feedb) (g : Z * string * string * list StatementSource)
  : result feedb :=
  let '(k, l) := g in
  let line := statement_line statement k l in
  let* d := insert_line line d in
  fold_result (fun d x => insert_entry (statement_entry statement (statement_line_id line) x) d) d l.

(** Updating the statement with an id. *)
Definition update_statement (id : string) (f : SettlementStatement -> SettlementStatement) (d : feedb) : feedb :=
  d <| statements := (fun s => if str_eqb (statement_id s) id then f s else s) <$> statements d |>.

Definition entry_counts (l : list SettlementStatementEntry) (kind : Z) : Z * Z * Z :=
  let k := List.filter (fun e => entry_source_type e =? kind) l in
  (Z.of_nat (length k), sum_Z (entry_base_amount_cent <$> k), sum_Z (entry_fee_amount_cent <$> k)).

Definition line_mismatch (entries : list SettlementStatementEntry) (line : SettlementStatementLine) : bool :=
  let own := List.filter (fun e => str_eqb (entry_statement_line_id e) (statement_line_id line)) entries in
  negb (bool_decide (
    (line_original_entry_count line, line_original_base_cent line, line_original_fee_cent line) = entry_counts own 1
    /\ (line_adjustment_entry_count line, line_adjustment_base_cent line, line_adjustment_fee_cent line)
       = entry_counts own 2
    /\ line_net_base_cent line = line_original_base_cent line + line_adjustment_base_cent line
    /\ line_net_fee_cent line = line_original_fee_cent line + line_adjustment_fee_cent line)).

(** [_apply_and_validate_statement_totals] *)
Definition apply_and_validate_statement_totals (d : feedb) (id : string) : result feedb :=
  let lines := List.filter (fun l => str_eqb (line_statement_id l) id) (statement_lines d) in
  let entries := List.filter (fun e => str_eqb (entry_statement_id e) id) (statement_entries d) in
  let* _ := raise_if (existsb (line_mismatch entries) lines) (ValueError "statement line source totals mismatch") in
  let* _ := raise_if (existsb (fun e => negb (str_in (entry_statement_line_id e) (statement_line_id <$> lines)))
                        entries) (ValueError "statement entry has no matching line") in
  let promotion := List.filter (fun l => line_fee_direction l =? PROMOTION_FEE) lines in
  let management := List.filter (fun l => line_fee_direction l =? MANAGEMENT_FEE) lines in
  let total f (l : list SettlementStatementLine) := sum_Z (f <$> l) in
  let* _ := raise_if
    (negb (total line_net_fee_cent promotion
           =? total line_original_fee_cent promotion + total line_adjustment_fee_cent promotion)
     || negb (total line_net_fee_cent management
              =? total line_original_fee_cent management + total line_adjustment_fee_cent management))
    (ValueError "statement head fee equation mismatch") in
  Ok (update_statement id (fun s =>
        s <| stmt_promotion_original_fee_cent := total line_original_fee_cent promotion |>
          <| stmt_promotion_adjustment_fee_cent := total line_adjustment_fee_cent promotion |>
          <| stmt_promotion_net_fee_cent := total line_net_fee_cent promotion |>
          <| stmt_management_original_fee_cent := total line_original_fee_cent management |>
          <| stmt_management_adjustment_fee_cent := total line_adjustment_fee_cent management |>
          <| stmt_management_net_fee_cent := total line_net_fee_cent management |>) d).

(** The text whose hash is the lock version. *)
Definition source_fingerprint (statement : string) (sources : list StatementSource) : string :=
  ("[" +:+ json_text statement +:+ ",[" +:+
   join "," ((fun x => "[" +:+ str_of_Z (ss_source_type x) +:+ "," +:+ json_text (ss_source_record_id x) +:+ ","
                       +:+ str_of_Z (ss_base_amount_cent x) +:+ "," +:+ str_of_Z (ss_fee_amount_cent x) +:+ "]")
             <$> sources) +:+ "]]")%string.

Definition insert_statement (s : SettlementStatement) (d : feedb) : result feedb :=
  if existsb (fun x => str_eqb (statement_id x) (statement_id s)
       || (str_eqb (stmt_store_id x) (stmt_store_id s) && str_eqb (statement_month x) (statement_month s)
           && (stmt_version_no x =? stmt_version_no s))) (statements d)
  then Raise (NamedError "IntegrityError" "settlement_statement")
  else Ok (d <| statements := statements d ++ [s] |>).

(** A reopened statement loses its lines and entries. *)
Definition reopen_statement (id : string) (d : feedb) : feedb :=
  update_statement id (fun s => s <| statement_status := 1 |> <| stmt_locked_by := None |>
                                  <| stmt_locked_at := None |> <| stmt_lock_version := None |>) d
    <| statement_entries := List.filter (fun e => negb (str_eqb (entry_statement_id e) id)) (statement_entries d) |>
    <| statement_lines := List.filter (fun l => negb (str_eqb (line_statement_id l) id)) (statement_lines d) |>.

(** The statement of the slot, created or reopened. *)
Definition open_statement (d : feedb) (store month : string) (existing : option SettlementStatement)
  : result (feedb * SettlementStatement) :=
  match existing with
  | Some s =>
      Ok (reopen_statement (statement_id s) d,
          s <| statement_status := 1 |> <| stmt_locked_by := None |> <| stmt_locked_at := None |>
            <| stmt_lock_version := None |>)
  | None =>
      let s := MkStatement (stable_business_id "statement" [store; month]) store month 1 true 1 0 0 0 0 0 0
                 None None None None None in
      let* d := insert_statement s d in
      Ok (d, s)
  end.

(** The statement is filled from its sources and locked. *)
Definition lock_open (d : feedb) (store month run : string) (now : instant)
    (existing : option SettlementStatement) : result (feedb * string) :=
  let* (d, s) := open_statement d store month existing in
  let* d := apply_carryforward_sources d s run now in
  let* sources := statement_sources d store month in
  let* _ := assert_sources_unassigned d (statement_id s) sources in
  let* d := fold_result (write_group (statement_id s)) d (line_groups sources) in
  let* d := apply_and_validate_statement_totals d (statement_id s) in
  let version := ("lock-" +:+ text (take 40 (chars (hexdigest (source_fingerprint (statement_id s) sources)))))%string in
  let* _ := raise_if (existsb (fun x => opt_is (stmt_lock_version x) version
                                        && negb (str_eqb (statement_id x) (statement_id s))) (statements d))
              (NamedError "IntegrityError" "settlement_statement") in
  Ok (update_statement (statement_id s) (fun x =>
        x <| statement_status := 4 |> <| stmt_locked_by := Some run |> <| stmt_locked_at := Some now |>
          <| stmt_lock_version := Some version |>) d, statement_id s).

(** [lock_settlement_statement]; a failed lock is rolled back and leaves an issue *)
Definition lock_settlement_statement (d : feedb) (store month run : string) (now : instant)
  : result (feedb * string) :=
  let* _ := raise_if (String.ltb month "2026-08") (ValueError "formal settlement statements start at 2026-08") in
  let* _ := raise_if (negb (existsb (fun s => str_eqb (store_id s) store) (fee_stores d)))
              (ValueError "unknown settlement store") in
  let existing := List.find (fun s => str_eqb (stmt_store_id s) store && str_eqb (statement_month s) month
                                      && stmt_is_current s) (statements d) in
  match existing with
  | Some s => if statement_status s =? 4 then Ok (d, statement_id s) else
      lock_open d store month run now existing
  | None => lock_open d store month run now existing
  end.
End Statements.
