(* ===== verification/StatementProps.v ===== *)
(** * Statements: carryforwards

    Applying a carryforward source moves its amounts into an adjustment of an open
    month and changes no total of any fee result. *)
From S2P Require Import Prelude PyValue Jobs FeeTables FeeLedger FeeProps Statements.
#[local] Open Scope Z_scope.
#[local] Set Default Proof Using "Type".

Section Conserve.
Context (hexdigest : string -> string).
#[local] Notation totals := (effective_adjustment_totals hexdigest).

(** *** What an insertion that succeeds shows *)

Lemma insert_adjustment_ok a d d' :
  insert_adjustment a d = Ok d' -> d' = add_adjustment d a /\ adjustment_id a ∉ adjustment_id <$> fee_adjustments d.
Proof.
  unfold insert_adjustment. destruct (existsb _ _) eqn:E; [done|]. intros [= <-]. split; [done|].
  intros (b & Eb & Hb)%list_elem_of_fmap. pose proof (existsb_false_in _ _ b E Hb) as H. cbn in H.
  by rewrite Eb, str_eqb_refl in H.
Qed.

Definition add_application (d : feedb) (a : SettlementCarryforwardApplication) : feedb :=
  d <| carryforward_applications := carryforward_applications d ++ [a] |>.

Lemma insert_application_ok a d d' : insert_application a d = Ok d' -> d' = add_application d a.
Proof. unfold insert_application. destruct (existsb _ _); [done|]. by intros [= <-]. Qed.

(** *** The target of an application is counted through its source *)

Lemma totals_apply d s a ap o :
  ledger_ok d -> s ∈ carryforward_sources d ->
  adjustment_id a ∉ adjustment_id <$> fee_adjustments d ->
  adj_original_fee_result_id a = src_original_fee_result_id s ->
  app_carryforward_source_id ap = carryforward_source_id s -> target_adjustment_id ap = adjustment_id a ->
  totals (add_application (add_adjustment d a) ap) o = totals d o.
Proof.
  intros Hok Hs Hf Ho Ea Et. unfold effective_adjustment_totals.
  set (d' := add_application (add_adjustment d a) ap).
  change (effective_sources d' o) with (effective_sources d o).
  assert (materialized_ids d' o = materialized_ids d o ++
    (if str_eqb (src_original_fee_result_id s) o then [adjustment_id a] else [])) as Em.
  { unfold materialized_ids, d'. cbn [add_application field_set carryforward_applications].
    change (sources_of _ o) with (sources_of d o). rewrite lfilter_app, fmap_app. f_equal. cbn [List.filter].
    assert (str_in (app_carryforward_source_id ap) (carryforward_source_id <$> sources_of d o)
            = str_eqb (src_original_fee_result_id s) o) as ->; [|by destruct (str_eqb _ o); cbn; rewrite ?Et].
    rewrite Ea. unfold str_in, str_eqb. apply bool_decide_ext. split.
    - intros (x & Ex & Hx)%list_elem_of_fmap. apply list_elem_of_In, filter_In in Hx as [Hx Hxo].
      apply list_elem_of_In in Hx. tests. subst o. f_equal. symmetry.
      by apply (fmap_NoDup_inj carryforward_source_id (carryforward_sources d)); [apply Hok|..].
    - intros <-. apply list_elem_of_fmap_2. apply list_elem_of_In, filter_In. split; [by apply list_elem_of_In|].
      apply str_eqb_refl. }
  assert (ordinary_adjustments hexdigest d' o = ordinary_adjustments hexdigest d o) as ->; [|done].
  unfold ordinary_adjustments. rewrite Em. unfold d'. cbn [add_application add_adjustment field_set fee_adjustments].
  rewrite lfilter_app. cbn [List.filter].
  assert (str_eqb (adj_original_fee_result_id a) o && negb (str_in (adjustment_id a) (materialized_ids d o ++
    (if str_eqb (src_original_fee_result_id s) o then [adjustment_id a] else []))) = false) as ->.
  { rewrite Ho. destruct (str_eqb _ o); [|done]. cbn. apply negb_false_iff. unfold str_in. apply bool_decide_true.
    apply elem_of_app. right. by apply list_elem_of_singleton. }
  cbn. rewrite app_nil_r. apply filter_ext_elem. intros b Hb.
  assert (str_in (adjustment_id b) (materialized_ids d o ++
    (if str_eqb (src_original_fee_result_id s) o then [adjustment_id a] else [])) =
    str_in (adjustment_id b) (materialized_ids d o)) as ->; [|done].
  unfold str_in. apply bool_decide_ext. rewrite elem_of_app. split; [|by left]. intros [?|H]; [done|].
  destruct (str_eqb _ o); [|by apply elem_of_nil in H]. apply list_elem_of_singleton in H. exfalso. apply Hf.
  rewrite <- H. by apply list_elem_of_fmap_2.
Qed.

(** ** One source *)

(** The row and the application that a source becomes. *)
Definition next_version (d : feedb) (s : SettlementCarryforwardSource) : Z :=
  foldr Z.max 0 (application_version <$>
    List.filter (fun a => str_eqb (app_carryforward_source_id a) (carryforward_source_id s))
      (carryforward_applications d)) + 1.
Definition target_of (d : feedb) (s : SettlementCarryforwardSource) : string :=
  stable_business_id hexdigest "carryforward-adjustment" [carryforward_source_id s; str_of_Z (next_version d s)].
Definition application_of (d : feedb) (s : SettlementCarryforwardSource) : string :=
  stable_business_id hexdigest "carryforward-application" [carryforward_source_id s; str_of_Z (next_version d s)].
Definition carried_adjustment (d : feedb) (stmt : SettlementStatement) (run : string)
    (s : SettlementCarryforwardSource) : SettlementFeeAdjustment :=
  MkAdjustment (target_of d s) (src_original_fee_result_id s) (src_refund_event_id s)
    (src_coupon_id s) (src_order_id s) (src_fee_direction s) (src_original_business_month s)
    (statement_month stmt) (src_adjustment_type s) (src_adjustment_base_cent s)
    (src_adjustment_fee_cent s) (src_rule_version s) (carryforward_reason s) (src_occurred_at s)
    ("settlement:" +:+ run)%string.
Definition carried_application (d : feedb) (stmt : SettlementStatement) (run : string) (now : instant)
    (s : SettlementCarryforwardSource) : SettlementCarryforwardApplication :=
  MkApplication (application_of d s) (carryforward_source_id s) (statement_id stmt) (stmt_version_no stmt)
    (target_of d s) (statement_month stmt) (next_version d s) true ("settlement:" +:+ run)%string now.
Definition carried (d : feedb) (stmt : SettlementStatement) (run : string) (now : instant)
    (s : SettlementCarryforwardSource) : feedb :=
  carryforward_issue "dual_fee_carryforward_applied" s run "warning"
    (add_application (add_adjustment d (carried_adjustment d stmt run s)) (carried_application d stmt run now s)).

Definition applied (d : feedb) (s : SettlementCarryforwardSource) : bool :=
  existsb (fun a => str_eqb (app_carryforward_source_id a) (carryforward_source_id s) && app_is_current a)
    (carryforward_applications d).

(** The source can be applied: its ids and its refund are no other row's. *)
Record appliable (d : feedb) (s : SettlementCarryforwardSource) : Prop := MkAppliable {
  ap_target : target_of d s ∉ adjustment_id <$> fee_adjustments d;
  ap_refund : forall e b, src_refund_event_id s = Some e -> b ∈ fee_adjustments d -> adj_refund_event_id b = Some e ->
    adj_original_fee_result_id b = src_original_fee_result_id s -> adj_fee_direction b <> src_fee_direction s;
  ap_application : application_of d s ∉ carryforward_application_id <$> carryforward_applications d;
  ap_adjustment : target_of d s ∉ target_adjustment_id <$> carryforward_applications d;
}.

Lemma next_version_new d s a :
  a ∈ carryforward_applications d -> app_carryforward_source_id a = carryforward_source_id s ->
  application_version a < next_version d s.
Proof.
  intros Ha E. unfold next_version.
  assert (forall l, a ∈ l -> application_version a <= foldr Z.max 0 (application_version <$> l)) as H.
  { induction l as [|x l IH]; [by intros ?%elem_of_nil|]. intros [<- | Hx]%elem_of_cons; cbn; [lia|].
    specialize (IH Hx). cbn in IH. lia. }
  enough (application_version a <= foldr Z.max 0 (application_version <$>
    List.filter (fun a => str_eqb (app_carryforward_source_id a) (carryforward_source_id s))
      (carryforward_applications d))) by lia.
  apply H, list_elem_of_In, filter_In. split; [by apply list_elem_of_In|]. rewrite E. apply str_eqb_refl.
Qed.

Lemma apply_source_carries d stmt run now s :
  applied d s = false -> appliable d s -> apply_source hexdigest stmt run now s d = Ok (carried d stmt run now s).
Proof.
  intros Hn [H1 H2 H3 H4]. unfold apply_source. cbn zeta. fold (next_version d s) (target_of d s) (application_of d s).
  set (a := MkAdjustment _ _ _ _ _ _ _ _ _ _ _ _ _ _ _). rewrite insert_adjustment_new; [|done|done].
  cbn [result_bind]. unfold insert_application. rewrite existsb_false; [done|].
  intros b Hb. change (carryforward_applications _) with (carryforward_applications d) in Hb. cbn.
  rewrite (str_eqb_false (carryforward_application_id b)), (str_eqb_false (target_adjustment_id b)).
  - cbn. rewrite orb_false_r, andb_true_r. apply orb_false_iff. split.
    + apply not_true_iff_false. intros E. tests.
      match goal with H : app_carryforward_source_id b = _ |- _ => pose proof (next_version_new d s b Hb H) end. lia.
    + exact (existsb_false_in _ _ b Hn Hb).
  - intros E. apply H4. rewrite <- E. by apply list_elem_of_fmap_2.
  - intros E. apply H3. rewrite <- E. by apply list_elem_of_fmap_2.
Qed.

(** What carrying leaves alone. *)
Definition same_period (d d' : feedb) : Prop :=
  same_results d d' /\ carryforward_sources d' = carryforward_sources d /\ statements d' = statements d
  /\ promotion_invoices d' = promotion_invoices d /\ management_invoices d' = management_invoices d
  /\ statement_lines d' = statement_lines d /\ statement_entries d' = statement_entries d
  /\ fee_stores d' = fee_stores d.

Lemma same_period_trans d1 d2 d3 : same_period d1 d2 -> same_period d2 d3 -> same_period d1 d3.
Proof.
  intros (A1 & A2 & A3 & A4 & A5 & A6 & A7 & A8) (B1 & B2 & B3 & B4 & B5 & B6 & B7 & B8).
  split_and!; [by eapply same_results_trans|congruence..].
Qed.

Lemma carried_ok d stmt run now s :
  ledger_ok d -> s ∈ carryforward_sources d -> appliable d s -> ledger_ok (carried d stmt run now s).
Proof.
  intros Hok Hs Ha. apply record_issue_ok.
  destruct (add_adjustment_ok d (carried_adjustment d stmt run s) Hok (ap_target _ _ Ha)) as [H1 H2 H3 H4].
  split; [done|done|..]; cbn [add_application field_set carryforward_applications];
    intros x [Hx| ->%list_elem_of_singleton]%elem_of_app; [by apply H3| |by apply H4|].
  - cbn. rewrite fmap_app. apply elem_of_app. right. by apply list_elem_of_singleton.
  - exact (list_elem_of_fmap_2 carryforward_source_id _ _ Hs).
Qed.

Lemma carried_totals d stmt run now s o :
  ledger_ok d -> s ∈ carryforward_sources d -> appliable d s -> totals (carried d stmt run now s) o = totals d o.
Proof.
  intros Hok Hs Ha. unfold carried, carryforward_issue. rewrite totals_issue.
  apply (totals_apply d s); try done. apply Ha.
Qed.

(** ** All sources of a statement *)

(** The first open month between the event and the statement. *)
Definition earlier_open (d : feedb) (stmt : SettlementStatement) (s : SettlementCarryforwardSource)
  : result (option string) :=
  first_unlocked_month_between d (src_store_id s) (src_event_month s) (statement_month stmt).

Lemma first_unlocked_same d d' store month target fuel :
  same_period d d' ->
  first_unlocked_from fuel d' store month target = first_unlocked_from fuel d store month target.
Proof.
  intros (_ & _ & E1 & E2 & E3 & _). revert month. induction fuel as [|fuel IH]; intros month; [done|]. cbn.
  unfold is_settlement_period_immutable, locked_statement. rewrite E1, E2, E3.
  destruct (String.ltb _ _); [|done]. destruct (negb _); [done|]. destruct (next_month_key month); [|done]. apply IH.
Qed.

Lemma earlier_open_same d d' stmt s : same_period d d' -> earlier_open d' stmt s = earlier_open d stmt s.
Proof.
  intros H. unfold earlier_open, first_unlocked_month_between. destruct (next_month_key _); cbn [result_bind]; [|reflexivity].
  by apply first_unlocked_same.
Qed.

(** A candidate is ready: its months can be read, its result exists, and it can be
    applied. *)
Record ready (d : feedb) (stmt : SettlementStatement) (s : SettlementCarryforwardSource) : Prop := MkReady {
  rd_months : exists m, earlier_open d stmt s = Ok m;
  rd_result : src_original_fee_result_id s ∈ fee_result_id <$> fee_results d;
  rd_appliable : appliable d s;
}.

(** The rows two sources become differ. *)
Definition rows_apart (d : feedb) (s s' : SettlementCarryforwardSource) : Prop :=
  carryforward_source_id s <> carryforward_source_id s' /\ target_of d s <> target_of d s'
  /\ application_of d s <> application_of d s'
  /\ (forall e, src_refund_event_id s = Some e -> src_refund_event_id s' = Some e ->
      src_original_fee_result_id s = src_original_fee_result_id s' -> src_fee_direction s <> src_fee_direction s').

(** One candidate: applied, waiting for an earlier open month, or applied before. *)
Inductive step_effect (d : feedb) (stmt : SettlementStatement) (run : string) (now : instant)
    (s : SettlementCarryforwardSource) : feedb -> Prop :=
  | effect_issue kind : applied d s = true \/ (exists m, earlier_open d stmt s = Ok (Some m)) ->
      step_effect d stmt run now s (carryforward_issue kind s run "warning" d)
  | effect_carried : applied d s = false -> earlier_open d stmt s = Ok None -> appliable d s ->
      step_effect d stmt run now s (carried d stmt run now s).

Lemma apply_step_effect d stmt run now s :
  ready d stmt s ->
  exists d', apply_step hexdigest stmt run now d s = Ok d' /\ step_effect d stmt run now s d'.
Proof.
  intros [[m Hm] Hr Ha]. unfold apply_step. fold (applied d s). destruct (applied d s) eqn:Hap.
  { eexists. split; [reflexivity|]. constructor. by left. }
  fold (earlier_open d stmt s). rewrite Hm. cbn [result_bind]. destruct m as [m|].
  { eexists. split; [reflexivity|]. constructor. right. by exists m. }
  destruct (List.find _ _) eqn:Hf.
  - rewrite apply_source_carries by done. eexists. split; [reflexivity|]. by constructor.
  - apply list_elem_of_fmap in Hr as (x & Ex & Hx). apply list_elem_of_In in Hx.
    pose proof (List.find_none _ _ Hf x Hx) as H. cbn in H. by rewrite Ex, str_eqb_refl in H.
Qed.

Lemma step_effect_period d stmt run now s d' : step_effect d stmt run now s d' -> same_period d d'.
Proof. by intros []. Qed.

Lemma step_effect_keeps d stmt run now s d' :
  ledger_ok d -> s ∈ carryforward_sources d -> step_effect d stmt run now s d' ->
  ledger_ok d' /\ forall o, totals d' o = totals d o.
Proof.
  intros Hok Hs [kind H|H1 H2 H3].
  - split; [by apply record_issue_ok|]. intros o. apply totals_issue.
  - split; [by apply carried_ok|]. intros o. by apply carried_totals.
Qed.

Lemma carried_applications d stmt run now s :
  carryforward_applications (carried d stmt run now s)
  = carryforward_applications d ++ [carried_application d stmt run now s].
Proof. reflexivity. Qed.
Lemma carried_adjustments d stmt run now s :
  fee_adjustments (carried d stmt run now s) = fee_adjustments d ++ [carried_adjustment d stmt run s].
Proof. reflexivity. Qed.

Lemma step_effect_applied d stmt run now s d' x :
  step_effect d stmt run now s d' -> applied d x = true -> applied d' x = true.
Proof.
  intros [kind H|H1 H2 H3] Hx; [done|]. unfold applied in *. by rewrite carried_applications, existsb_app, Hx.
Qed.

Lemma step_effect_done d stmt run now s d' :
  step_effect d stmt run now s d' -> applied d' s = true \/ exists m, earlier_open d stmt s = Ok (Some m).
Proof.
  intros [kind H|H1 H2 H3]; [done|]. left. unfold applied.
  rewrite carried_applications, existsb_app. cbn. by rewrite str_eqb_refl, orb_true_r.
Qed.

(** *** The other candidates *)

Lemma next_version_other d stmt run now s d' s' :
  carryforward_source_id s <> carryforward_source_id s' -> step_effect d stmt run now s d' ->
  next_version d' s' = next_version d s'.
Proof.
  intros Hne [kind H|H1 H2 H3]; [done|]. unfold next_version. rewrite carried_applications, lfilter_app. cbn.
  by rewrite (str_eqb_false _ _ Hne), app_nil_r.
Qed.

Lemma ready_other d stmt run now s d' s' :
  step_effect d stmt run now s d' -> rows_apart d s s' -> ready d stmt s' -> ready d' stmt s'.
Proof.
  intros He (N1 & N2 & N3 & N4) [H1 H2 H3]. pose proof (step_effect_period _ _ _ _ _ _ He) as Hp. split.
  - by rewrite (earlier_open_same d d').
  - destruct Hp as ((-> & _) & _). done.
  - pose proof (next_version_other _ _ _ _ _ _ _ N1 He) as Ev. destruct H3 as [A1 A2 A3 A4].
    split; unfold target_of, application_of in *; rewrite ?Ev; destruct He as [kind H|B1 B2 B3]; try done;
      rewrite ?carried_applications, ?carried_adjustments, ?fmap_app.
    + intros [?|E%list_elem_of_singleton]%elem_of_app; [done|]. by apply N2.
    + intros e b E [Hb| ->%list_elem_of_singleton]%elem_of_app; [by apply A2|]. cbn. intros E1 E2.
      by apply (N4 e).
    + intros [?|E%list_elem_of_singleton]%elem_of_app; [done|]. by apply N3.
    + intros [?|E%list_elem_of_singleton]%elem_of_app; [done|]. by apply N2.
Qed.

Lemma rows_apart_other d stmt run now s d' s1 s2 :
  carryforward_source_id s <> carryforward_source_id s1 -> carryforward_source_id s <> carryforward_source_id s2 ->
  step_effect d stmt run now s d' -> rows_apart d s1 s2 -> rows_apart d' s1 s2.
Proof.
  intros N1 N2 He (A1 & A2 & A3 & A4). unfold rows_apart, target_of, application_of in *.
  by rewrite (next_version_other _ _ _ _ _ _ s1 N1 He), (next_version_other _ _ _ _ _ _ s2 N2 He).
Qed.

Lemma apart_other d stmt run now s d' l :
  (forall x, x ∈ l -> carryforward_source_id s <> carryforward_source_id x) ->
  step_effect d stmt run now s d' -> ForallOrdPairs (rows_apart d) l -> ForallOrdPairs (rows_apart d') l.
Proof.
  intros Hl He Ha. induction Ha as [|x l Hx Ha IH]; [constructor|]. constructor.
  - apply List.Forall_forall. intros y Hy. rewrite List.Forall_forall in Hx.
    apply (rows_apart_other d stmt run now s); [apply Hl; set_solver|apply Hl|done|by apply Hx].
    apply list_elem_of_In in Hy. set_solver.
  - apply IH. set_solver.
Qed.

(** Every candidate is applied or waits; no total changes. *)
Lemma apply_fold stmt run now l : forall d,
  ledger_ok d -> (forall s, s ∈ l -> s ∈ carryforward_sources d) -> (forall s, s ∈ l -> ready d stmt s) ->
  ForallOrdPairs (rows_apart d) l ->
  exists d', fold_result (apply_step hexdigest stmt run now) d l = Ok d'
    /\ ledger_ok d' /\ same_period d d' /\ (forall o, totals d' o = totals d o)
    /\ (forall x, applied d x = true -> applied d' x = true)
    /\ (forall s, s ∈ l -> applied d' s = true \/ exists m, earlier_open d stmt s = Ok (Some m)).
Proof.
  induction l as [|s l IH]; intros d Hok Hin Hr Ha.
  { exists d. split_and!; try done. intros s H. by apply elem_of_nil in H. }
  inversion Ha as [|? ? Hs Ha']; subst. rewrite List.Forall_forall in Hs.
  assert (forall x, x ∈ l -> rows_apart d s x) as Hx by (intros x ?; by apply Hs, list_elem_of_In).
  destruct (apply_step_effect d stmt run now s) as (d1 & E1 & He); [apply Hr; set_solver|].
  pose proof (step_effect_period _ _ _ _ _ _ He) as Hp.
  destruct (step_effect_keeps d stmt run now s d1 Hok) as [Hok1 Ht1]; [apply Hin; set_solver|done|].
  destruct (IH d1) as (d2 & E2 & Hok2 & Hp2 & Ht2 & Hm2 & Hd2); [done| | | |].
  - intros x ?. destruct Hp as (_ & -> & _). apply Hin. set_solver.
  - intros x ?. apply (ready_other d stmt run now s); [done|by apply Hx|]. apply Hr. set_solver.
  - apply (apart_other d stmt run now s); [|done|done]. intros x ?. by apply Hx.
  - exists d2. cbn [fold_result]. rewrite E1. cbn [result_bind]. rewrite E2. split_and!; try done.
    + by eapply same_period_trans.
    + intros o. by rewrite Ht2, Ht1.
    + intros x ?. apply Hm2. by eapply step_effect_applied.
    + intros x [-> | ?]%elem_of_cons.
      * apply step_effect_done in He as [?|?]; [left; by apply Hm2|by right].
      * rewrite <- (earlier_open_same d d1) by done. by apply Hd2.
Qed.
End Conserve.

(** * Statements: the months a carryforward looks at

    Month texts of the years 2000 to 2099 are ordered like the months, so the loop
    of [_first_unlocked_month_between] visits the months after the event one by
    one, ends, and returns the first one that is not frozen. *)

(** The text of month [n] after January 2000. *)
Definition month_at (n : nat) : string := month_key (2000 + Z.of_nat n / 12) (Z.of_nat n mod 12 + 1).
Definition calendar_months : nat := 1200.

Definition follows (n : nat) : bool :=
  match next_month_key (month_at n) with
  | Ok m => str_eqb m (month_at (S n)) && String.ltb (month_at n) m
  | Raise _ => false
  end.

Lemma calendar_follows : forallb follows (seq 0 calendar_months) = true.
Proof. vm_compute. reflexivity. Qed.

Lemma ltb_spec a b : String.ltb a b = true <-> String.le a b /\ a <> b.
Proof.
  assert (String.ltb a b = negb (String.leb b a)) as ->.
  { unfold String.ltb, String.leb. rewrite (String.compare_antisym b a). by destruct (String.compare a b). }
  rewrite negb_true_iff. unfold String.le. split.
  - intros H. split; [destruct (String.leb_total a b) as [E|E]; by rewrite E in *|]. intros ->.
    destruct (String.leb_total b b); congruence.
  - intros [H1 H2]. apply not_true_iff_false. intros H3. apply H2, String.leb_antisym; [|done].
    by destruct (String.leb a b).
Qed.

Lemma ltb_trans a b c : String.ltb a b = true -> String.ltb b c = true -> String.ltb a c = true.
Proof.
  rewrite !ltb_spec. intros [H1 H2] [H3 H4]. split; [by etrans|]. intros ->. by apply H2, (anti_symm String.le).
Qed.

Lemma month_follows n : (n < calendar_months)%nat ->
  next_month_key (month_at n) = Ok (month_at (S n)) /\ String.ltb (month_at n) (month_at (S n)) = true.
Proof.
  intros Hn. pose proof calendar_follows as H. rewrite forallb_forall in H.
  specialize (H n ltac:(apply in_seq; lia)). unfold follows in H.
  destruct (next_month_key (month_at n)) as [m|]; [|done]. apply andb_true_iff in H as [H1 H2].
  apply str_eqb_true in H1 as ->. done.
Qed.

Lemma month_lt n m : (n < m <= calendar_months)%nat -> String.ltb (month_at n) (month_at m) = true.
Proof.
  intros [Hlt Hm]. induction Hlt as [|m Hlt IH]; [apply month_follows; lia|].
  eapply ltb_trans; [apply IH; lia|]. apply month_follows. lia.
Qed.

Lemma month_ge n m : (m <= n <= calendar_months)%nat -> String.ltb (month_at n) (month_at m) = false.
Proof.
  intros [Hle Hm]. apply not_true_iff_false. intros H.
  destruct (decide (m = n)) as [-> |]; [by apply ltb_spec in H as [_ []]|].
  pose proof (month_lt m n ltac:(lia)) as H'. pose proof (ltb_trans _ _ _ H H') as H2. by apply ltb_spec in H2 as [_ []].
Qed.

(** The months after month [i] and before month [j]. *)
Definition months_between (i j : nat) : list string := month_at <$> seq (S i) (j - S i).

Lemma first_unlocked_from_spec d store j fuel : forall i,
  (j <= calendar_months)%nat -> (i <= calendar_months)%nat -> (j - i < fuel)%nat ->
  first_unlocked_from fuel d store (month_at i) (month_at j)
  = Ok (List.find (fun m => negb (is_settlement_period_immutable d store m)) (month_at <$> seq i (j - i))).
Proof.
  induction fuel as [|fuel IH]; intros i Hj Hi Hf; [lia|]. cbn [first_unlocked_from].
  destruct (decide (i < j)%nat) as [Hlt|Hge].
  - rewrite month_lt by lia. destruct (j - i)%nat as [|k] eqn:Ek; [lia|]. cbn [seq fmap list_fmap List.find].
    destruct (negb _); [done|]. destruct (month_follows i ltac:(lia)) as [-> _]. cbn [result_bind].
    rewrite IH by lia. by replace (j - S i)%nat with k by lia.
  - rewrite month_ge by lia. by replace (j - i)%nat with O by lia.
Qed.

(** The search ends and finds the first month in between that is not frozen. *)
Lemma first_unlocked_is_first d store i j :
  (i < calendar_months)%nat -> (j <= calendar_months)%nat ->
  first_unlocked_month_between d store (month_at i) (month_at j)
  = Ok (List.find (fun m => negb (is_settlement_period_immutable d store m)) (months_between i j)).
Proof.
  intros Hi Hj. unfold first_unlocked_month_between. destruct (month_follows i Hi) as [-> _]. cbn [result_bind].
  apply first_unlocked_from_spec; [done|lia|]. unfold month_turns, calendar_months in *. lia.
Qed.

(** * Statements: frozen months

    Refunds, canceled verifications and restorations post only to months that are
    not frozen, so the sources of a locked statement stay what they were. *)

(** A new adjustment of an open month of the store that is responsible for it. *)
Definition open_posting (d : feedb) (a : SettlementFeeAdjustment) : Prop :=
  exists r store, List.find (fun x => str_eqb (fee_result_id x) (adj_original_fee_result_id a)) (fee_results d) = Some r
    /\ responsible_store (adj_fee_direction a) r = Some store
    /\ is_fee_result_locked d store (adjustment_posting_month a) None = false.

(** The tables that results, statements and their freezing are read from. *)
Definition same_books (d d' : feedb) : Prop :=
  fee_results d' = fee_results d /\ fee_results_current d' = fee_results_current d
  /\ carryforward_applications d' = carryforward_applications d
  /\ statements d' = statements d /\ statement_confirmations d' = statement_confirmations d
  /\ promotion_invoices d' = promotion_invoices d /\ management_invoices d' = management_invoices d
  /\ disputes d' = disputes d.

(** Only open months get new adjustments. *)
Definition posts_open (d d' : feedb) : Prop :=
  same_books d d' /\ exists l, fee_adjustments d' = fee_adjustments d ++ l /\ Forall (open_posting d) l.

Lemma same_books_trans d1 d2 d3 : same_books d1 d2 -> same_books d2 d3 -> same_books d1 d3.
Proof. intros H1 H2. unfold same_books in *. destruct_and!. split_and!; congruence. Qed.

Lemma locked_same d d' store month :
  same_books d d' -> is_fee_result_locked d' store month None = is_fee_result_locked d store month None.
Proof.
  unfold same_books. intros H. destruct_and!.
  unfold is_fee_result_locked, is_settlement_period_immutable, locked_statement, is_protected_statement.
  by repeat match goal with H : _ = _ |- _ => rewrite H; clear H end.
Qed.

Lemma posts_open_trans d1 d2 d3 : posts_open d1 d2 -> posts_open d2 d3 -> posts_open d1 d3.
Proof.
  intros [H1 (l1 & E1 & F1)] [H2 (l2 & E2 & F2)]. split; [by eapply same_books_trans|].
  exists (l1 ++ l2). rewrite E2, E1, app_assoc. split; [done|]. apply Forall_app. split; [done|].
  eapply Forall_impl; [exact F2|]. intros a (r & store & Hf & Hs & Hl). exists r, store.
  rewrite (locked_same d1 d2) in Hl by done. destruct H1 as (E & _). rewrite E in Hf. done.
Qed.

Lemma posts_open_refl d : posts_open d d.
Proof. split; [done|]. exists []. by rewrite app_nil_r. Qed.

Lemma posts_open_issue i d : posts_open d (record_issue i d).
Proof. split; [done|]. exists []. by rewrite app_nil_r. Qed.

Lemma posts_open_fold {A} (f : feedb -> A -> result feedb) l :
  (forall d a d', f d a = Ok d' -> posts_open d d') ->
  forall d d', fold_result f d l = Ok d' -> posts_open d d'.
Proof.
  intros Hf. induction l as [|a l IH]; intros d d'; cbn [fold_result].
  - intros [= <-]. apply posts_open_refl.
  - intros (d1 & H1 & H2)%result_bind_Ok. eapply posts_open_trans; [by eapply Hf|]. by apply IH.
Qed.

(** ** The sources of a frozen month *)

Lemma adjustment_source_same d d' store a : same_books d d' -> adjustment_source d' store a = adjustment_source d store a.
Proof. intros (E & _). unfold adjustment_source. by rewrite E. Qed.

Lemma sources_fold_app (f : SettlementFeeAdjustment -> result (list StatementSource)) k : forall l,
  (forall a, a ∈ k -> f a = Ok []) ->
  fold_result (fun l a => let* x := f a in Ok (l ++ x)) l k = Ok l.
Proof.
  induction k as [|a k IH]; intros l Hk; [done|]. cbn [fold_result]. rewrite (Hk a) by set_solver. cbn [result_bind].
  rewrite app_nil_r. apply IH. set_solver.
Qed.

Lemma fold_result_ext {A S} (f g : S -> A -> result S) l : forall s,
  (forall s a, f s a = g s a) -> fold_result f s l = fold_result g s l.
Proof. intros s H. revert s. induction l as [|a l IH]; intros s; [done|]. cbn. rewrite H. destruct (g s a); [apply IH|done]. Qed.

Lemma frozen_sources d d' store month :
  posts_open d d' -> is_fee_result_locked d store month None = true ->
  statement_sources d' store month = statement_sources d store month.
Proof.
  intros [Hb (l & El & Hl)] Hlock. unfold statement_sources.
  assert (result_sources d' store month = result_sources d store month) as ->.
  { destruct Hb as (E1 & E2 & _). unfold result_sources. by rewrite E1, E2. }
  assert (exists k, active_fee_adjustments d' month = active_fee_adjustments d month ++ k
    /\ (forall a, a ∈ k -> a ∈ l /\ adjustment_posting_month a = month)) as (k & -> & Hk).
  { unfold active_fee_adjustments. destruct Hb as (_ & _ & -> & _). rewrite El, lfilter_app. eexists. split; [reflexivity|].
    intros a Ha. apply list_elem_of_In, filter_In in Ha as [Ha E]. split; [by apply list_elem_of_In|]. by tests. }
  rewrite (fold_result_ext _ (fun l a => let* x := adjustment_source d store a in Ok (l ++ x)))
    by (intros; by rewrite (adjustment_source_same d d')).
  rewrite fold_result_app. destruct (fold_result _ [] (active_fee_adjustments d month)) as [acc|]; [|done]. cbn [result_bind].
  rewrite (sources_fold_app (adjustment_source d store)); [done|].
  intros a Ha. apply Hk in Ha as [Ha Em]. rewrite List.Forall_forall in Hl. apply list_elem_of_In in Ha.
  destruct (Hl a Ha) as (r & st & Hf & Hs & Hn). unfold adjustment_source. rewrite Hf, Hs.
  destruct (opt_is (Some st) store) eqn:E; [|done]. apply opt_is_true in E. injection E as ->. congruence.
Qed.

(** ** The operations *)
Section Operations.
Context (hexdigest : string -> string) (isoformat : instant -> string).

(** Fee results have unique ids. *)
Definition results_unique (d : feedb) : Prop := NoDup (fee_result_id <$> fee_results d).

Lemma latest_in l r : latest_version l = Some r -> r ∈ l.
Proof.
  revert r. induction l as [|x l IH]; intros r; cbn; [done|].
  destruct (latest_version l) as [y|]; [|intros [= ->]; set_solver].
  intros [= <-]. specialize (IH y eq_refl). destruct (_ <? _); set_solver.
Qed.

Lemma current_in d coupon direction r : current_fee_result d coupon direction = Some r -> r ∈ fee_results d.
Proof.
  unfold current_fee_result. destruct (current_pointer _ _ _); [|done]. intros H%latest_in.
  apply list_elem_of_In, filter_In in H as [H _]. by apply list_elem_of_In.
Qed.

Lemma find_result d r :
  results_unique d -> r ∈ fee_results d ->
  List.find (fun x => str_eqb (fee_result_id x) (fee_result_id r)) (fee_results d) = Some r.
Proof.
  intros Hu Hr. destruct (List.find _ _) as [x|] eqn:E.
  - apply find_some_in in E as [Hx E]. tests. f_equal. by apply (fmap_NoDup_inj fee_result_id (fee_results d)).
  - apply list_elem_of_In in Hr. pose proof (List.find_none _ _ E r Hr) as H. cbn in H. by rewrite str_eqb_refl in H.
Qed.

Lemma posts_open_source s d d' : insert_source s d = Ok d' -> posts_open d d'.
Proof.
  unfold insert_source. destruct (existsb _ _); [done|]. intros [= <-]. split; [done|]. exists []. by rewrite app_nil_r.
Qed.

Lemma posts_open_create d t k o re ve st m ki b f reason at_ run d' s :
  create_carryforward_source hexdigest d t k o re ve st m ki b f reason at_ run = Ok (d', s) -> posts_open d d'.
Proof.
  unfold create_carryforward_source. destruct (carryforward_source _ _ _ _).
  - intros [= <- _]. apply posts_open_refl.
  - intros (d1 & H1 & H)%result_bind_Ok. injection H as <- _. by eapply posts_open_source.
Qed.

Lemma posts_open_insert d r store direction a d' :
  insert_adjustment a d = Ok d' -> results_unique d -> r ∈ fee_results d ->
  adj_original_fee_result_id a = fee_result_id r -> adj_fee_direction a = direction ->
  responsible_store direction r = Some store ->
  is_fee_result_locked d store (adjustment_posting_month a) None = false -> posts_open d d'.
Proof.
  intros [-> _]%insert_adjustment_ok Hu Hr Eo Ed Hs Hl. split; [done|]. exists [a]. split; [done|].
  apply Forall_singleton. exists r, store. by rewrite Eo, Ed, find_result.
Qed.

Lemma post_refund_open run direction r store e base fee d d' b f :
  results_unique d -> r ∈ fee_results d -> responsible_store direction r = Some store ->
  post_refund hexdigest run direction r store e base fee d = Ok (d', b, f) -> posts_open d d'.
Proof.
  intros Hu Hr Hs. unfold post_refund. destruct (is_fee_result_locked _ _ _ _) eqn:Hl.
  - intros ([d1 s] & H1 & H)%result_bind_Ok. injection H as <- _ _. apply posts_open_create in H1.
    eapply posts_open_trans; [done|apply posts_open_issue].
  - intros (d1 & H1 & H)%result_bind_Ok. injection H as <- _ _. by apply (posts_open_insert d r store direction _ _ H1).
Qed.

Lemma refund_step_open run direction r mb mo events l e l' :
  results_unique (lp_db l) -> r ∈ fee_results (lp_db l) ->
  refund_step hexdigest run direction r mb mo events l e = Ok l' -> posts_open (lp_db l) (lp_db l').
Proof.
  intros Hu Hr. unfold refund_step. cbn zeta. destruct (_ && _); [intros [= <-]; apply posts_open_refl|].
  destruct (mo && _).
  { destruct (effective_adjustment_totals _ _ _). destruct (_ || _); intros [= <-];
      [apply posts_open_refl|apply posts_open_issue]. }
  destruct (carryforward_source _ _ _ _); [intros [= <-]; apply posts_open_issue|].
  destruct (List.find _ _); [intros [= <-]; apply posts_open_refl|].
  destruct (responsible_store direction r) as [store|] eqn:Hs; [|done]. destruct (str_eqb store ""); [done|].
  destruct (refund_amounts _ _ _ _ _ _ _ _) as [b f].
  intros ([[d1 b1] f1] & H1 & H)%result_bind_Ok. injection H as <-. by eapply post_refund_open.
Qed.

Lemma posts_open_results d d' : posts_open d d' -> fee_results d' = fee_results d.
Proof. by intros [(E & _) _]. Qed.

Lemma refund_fold_open run direction r mb mo events es : forall l l',
  results_unique (lp_db l) -> r ∈ fee_results (lp_db l) ->
  fold_result (refund_step hexdigest run direction r mb mo events) l es = Ok l' -> posts_open (lp_db l) (lp_db l').
Proof.
  induction es as [|e es IH]; intros l l' Hu Hr; cbn [fold_result]; [intros [= <-]; apply posts_open_refl|].
  intros (l1 & H1 & H2)%result_bind_Ok. apply refund_step_open in H1; [|done..].
  eapply posts_open_trans; [done|]. apply posts_open_results in H1.
  apply IH; [|by rewrite H1|done]. unfold results_unique. by rewrite H1.
Qed.

Lemma refund_direction_open run coupon events d n direction d' n' :
  results_unique d -> refund_direction hexdigest run coupon events (d, n) direction = Ok (d', n') -> posts_open d d'.
Proof.
  intros Hu. unfold refund_direction. destruct (current_fee_result _ _ _) as [r|] eqn:Hc;
    [|intros [= <- _]; apply posts_open_refl].
  destruct (has_verify_cancellation _ _); [intros [= <- _]; apply posts_open_refl|]. cbn zeta.
  intros (l & H1 & H)%result_bind_Ok. injection H as <- _.
  apply refund_fold_open in H1; [done|done|]. cbn. by eapply current_in.
Qed.

Lemma refunds_open d coupon run directions d' n :
  results_unique d -> materialize_refund_adjustments hexdigest d coupon run directions = Ok (d', n) -> posts_open d d'.
Proof.
  intros Hu. unfold materialize_refund_adjustments. assert (posts_open d (record_ambiguous_events d coupon run)) as H0.
  { unfold record_ambiguous_events. destruct (_ || _); [apply posts_open_refl|].
    generalize (order_events d coupon). intros l. revert d Hu. induction l as [|e l IH]; intros d Hu; cbn [foldl];
      [apply posts_open_refl|]. eapply posts_open_trans; [apply posts_open_issue|by apply IH]. }
  destruct (resolved_refund_events d coupon); [by intros [= <- _]|]. intros H. eapply posts_open_trans; [done|].
  revert H. generalize 0 as m. assert (results_unique (record_ambiguous_events d coupon run)) as Hu'.
  { unfold results_unique. by rewrite (posts_open_results _ _ H0). }
  revert Hu'. generalize (record_ambiguous_events d coupon run). clear. induction directions as [|x ds IH];
    intros d Hu m; cbn [fold_result]; [intros [= <- _]; apply posts_open_refl|].
  intros ([d1 n1] & H1 & H2)%result_bind_Ok. apply refund_direction_open in H1; [|done].
  eapply posts_open_trans; [done|]. eapply IH; [|done]. unfold results_unique. by rewrite (posts_open_results _ _ H1).
Qed.

Lemma cancellation_open d coupon run direction d' :
  results_unique d ->
  materialize_direction_verify_cancellation hexdigest isoformat d coupon run direction = Ok d' -> posts_open d d'.
Proof.
  intros Hu. unfold materialize_direction_verify_cancellation.
  destruct (current_fee_result _ _ _) as [r|] eqn:Hc; [|intros [= <-]; apply posts_open_refl].
  destruct (matching_verify_cancellation _ _) as [v|]; [|intros [= <-]; apply posts_open_refl].
  destruct (verify_cancel_time v) as [t|]; [|intros [= <-]; apply posts_open_refl].
  destruct (responsible_store direction r) as [store|] eqn:Hs; [|done].
  destruct (str_eqb store ""); [done|]. destruct (existsb _ _); [intros [= <-]; apply posts_open_refl|].
  destruct (carryforward_source _ _ _ _); [intros [= <-]; apply posts_open_issue|].
  destruct (effective_adjustment_totals _ _ _) as [b f]. cbn zeta. destruct (is_fee_result_locked _ _ _ _) eqn:Hl.
  - intros ([d1 s] & H1 & H)%result_bind_Ok. injection H as <-. apply posts_open_create in H1.
    eapply posts_open_trans; [done|apply posts_open_issue].
  - intros H1. apply (posts_open_insert d r store direction _ _ H1); try done. by eapply current_in.
Qed.

Lemma cancellations_open d coupon run d' :
  results_unique d -> materialize_verify_cancellation_adjustment hexdigest isoformat d coupon run = Ok d' ->
  posts_open d d'.
Proof.
  intros Hu. unfold materialize_verify_cancellation_adjustment. cbn [fold_result].
  intros (d1 & H1 & H)%result_bind_Ok. apply result_bind_Ok in H as (d2 & H2 & H). injection H as <-.
  apply cancellation_open in H1; [|done]. eapply posts_open_trans; [done|]. eapply cancellation_open; [|done].
  unfold results_unique. by rewrite (posts_open_results _ _ H1).
Qed.

Lemma restoration_open d r run d' :
  results_unique d -> r ∈ fee_results d ->
  post_reverification_restoration hexdigest d r run = Ok d' -> posts_open d d'.
Proof.
  intros Hu Hr. unfold post_reverification_restoration.
  destruct (responsible_store _ r) as [store|] eqn:Hs; [|done].
  destruct (result_qualifying_verify_time r) as [t|]; [|done]. cbn zeta.
  destruct (is_fee_result_locked _ _ _ _) eqn:Hl.
  - intros ([d1 s] & H1 & H)%result_bind_Ok. injection H as <-. by apply posts_open_create in H1.
  - intros H1. by apply (posts_open_insert d r store (result_fee_direction r) _ _ H1).
Qed.

(** ** Runs *)

(** The postings of one coupon. *)
Inductive fee_op :=
  | OpRefunds (coupon : RawDouyinOrderCoupon) (directions : list Z)
  | OpCancellation (coupon : RawDouyinOrderCoupon)
  | OpRestoration (id : string).

Definition fee_run (run : string) (d : feedb) (op : fee_op) : result feedb :=
  match op with
  | OpRefunds coupon directions =>
      let* (d, _) := materialize_refund_adjustments hexdigest d coupon run directions in Ok d
  | OpCancellation coupon => materialize_verify_cancellation_adjustment hexdigest isoformat d coupon run
  | OpRestoration id =>
      match List.find (fun r => str_eqb (fee_result_id r) id) (fee_results d) with
      | Some r => post_reverification_restoration hexdigest d r run
      | None => Ok d
      end
  end.

Lemma fee_run_open run d op d' : results_unique d -> fee_run run d op = Ok d' -> posts_open d d'.
Proof.
  intros Hu. destruct op as [coupon directions|coupon|id]; cbn [fee_run].
  - intros ([d1 n] & H1 & H)%result_bind_Ok. injection H as <-. by apply refunds_open in H1.
  - by apply cancellations_open.
  - destruct (List.find _ _) as [r|] eqn:E; [|intros [= <-]; apply posts_open_refl].
    apply find_some_in in E as [Hr _]. by apply restoration_open.
Qed.

Lemma fee_runs_open run ops : forall d d',
  results_unique d -> fold_result (fee_run run) d ops = Ok d' -> posts_open d d'.
Proof.
  induction ops as [|op ops IH]; intros d d' Hu; cbn [fold_result]; [intros [= <-]; apply posts_open_refl|].
  intros (d1 & H1 & H2)%result_bind_Ok. apply fee_run_open in H1; [|done]. eapply posts_open_trans; [done|].
  apply IH; [|done]. unfold results_unique. by rewrite (posts_open_results _ _ H1).
Qed.

(** Whatever refunds, canceled verifications and restorations are posted after
    a store's month is frozen (a locked, confirmed or disputed statement, an
    invoice), the sources of the statement of that store and month, with their
    amounts, stay exactly what they were. *)
Lemma frozen_statement_sources run ops d d' store month :
  results_unique d -> is_fee_result_locked d store month None = true ->
  fold_result (fee_run run) d ops = Ok d' ->
  statement_sources d' store month = statement_sources d store month
  /\ is_fee_result_locked d' store month None = true.
Proof.
  intros Hu Hl H. pose proof (fee_runs_open run ops d d' Hu H) as Hp. split; [by apply frozen_sources|].
  rewrite (locked_same d d'); [done|apply Hp].
Qed.
End Operations.
