(* ===== verification/StatementLines.v ===== *)
(** * Statements: lines and totals

    The lines of a statement partition its sources, so the checks of
    [_apply_and_validate_statement_totals] pass and the head carries the sums of
    the sources. *)
From S2P Require Import Prelude PyValue Jobs FeeTables FeeLedger FeeProps Statements StatementProps.
#[local] Open Scope Z_scope.
#[local] Set Default Proof Using "Type".

(** ** Partitions *)

Section Partition.
Context {A K : Type} `{EqDecision K} (key : A -> K) (f : A -> Z).

Definition with_key (l : list A) (k : K) : list A := List.filter (fun x => bool_decide (key x = k)) l.

Lemma sum_none ks x : key x ∉ ks -> sum_Z ((fun k => sum_Z (f <$> with_key [x] k)) <$> ks) = 0.
Proof.
  induction ks as [|k ks IH]; intros Hx; [done|]. cbn. rewrite bool_decide_false by set_solver. cbn.
  unfold sum_Z in *. cbn in *. rewrite IH by set_solver. lia.
Qed.

Lemma sum_one ks x : NoDup ks -> key x ∈ ks -> sum_Z ((fun k => sum_Z (f <$> with_key [x] k)) <$> ks) = f x.
Proof.
  induction ks as [|k ks IH]; intros Hn Hx; [by apply elem_of_nil in Hx|].
  apply NoDup_cons in Hn as [Hk Hn]. rewrite fmap_cons.
  change (sum_Z (?a :: ?l)) with (a + sum_Z l).
  destruct (decide (key x = k)) as [<- |Hne].
  - rewrite sum_none by done. cbn. rewrite bool_decide_true by done. cbn. lia.
  - rewrite IH by (done || set_solver). cbn. rewrite bool_decide_false by done. cbn. lia.
Qed.

Lemma sum_fmap_add {B} (g h : B -> Z) l : sum_Z ((fun x => g x + h x) <$> l) = sum_Z (g <$> l) + sum_Z (h <$> l).
Proof. unfold sum_Z. induction l as [|x l IH]; cbn in *; [done|]. rewrite IH. lia. Qed.

(** Adding up group by group is adding up. *)
Lemma sum_partition ks l :
  NoDup ks -> (forall x, x ∈ l -> key x ∈ ks) ->
  sum_Z ((fun k => sum_Z (f <$> with_key l k)) <$> ks) = sum_Z (f <$> l).
Proof.
  intros Hn. induction l as [|x l IH]; intros Hl.
  - clear. unfold sum_Z. induction ks as [|k ks IH]; cbn in *; [done|]. by rewrite IH.
  - change (x :: l) with ([x] ++ l). transitivity (sum_Z ((fun k => sum_Z (f <$> with_key [x] k)
      + sum_Z (f <$> with_key l k)) <$> ks)).
    + f_equal. apply list_fmap_ext. intros i k _. unfold with_key. by rewrite lfilter_app, fmap_app, sum_Z_app.
    + rewrite sum_fmap_add, sum_one, IH by (done || set_solver). by rewrite fmap_app, sum_Z_app; cbn; lia.
Qed.
End Partition.

(** ** Writing lines and entries *)
Section Lines.
Context (hexdigest : string -> string).
#[local] Notation line_id := (statement_line_key hexdigest).
#[local] Notation entry_id x := (statement_entry_key hexdigest (ss_source_type x) (ss_source_record_id x)).
#[local] Notation group := (Z * string * string * list StatementSource)%type.

Definition new_lines (id : string) (gs : list group) : list SettlementStatementLine :=
  (fun g => statement_line hexdigest id g.1 g.2) <$> gs.
Definition new_entries (id : string) (gs : list group) : list SettlementStatementEntry :=
  mjoin ((fun g => statement_entry hexdigest id (line_id id g.1) <$> g.2) <$> gs).
Definition grouped (gs : list group) : list StatementSource := mjoin (snd <$> gs).

Definition add_rows (d : feedb) (ls : list SettlementStatementLine) (es : list SettlementStatementEntry) : feedb :=
  d <| statement_lines := statement_lines d ++ ls |> <| statement_entries := statement_entries d ++ es |>.

(** The rows of a statement carry the ids of what they stand for. *)
Record rows_named (d : feedb) (id : string) : Prop := MkNamed {
  nm_lines : forall l, l ∈ statement_lines d -> line_statement_id l = id ->
    statement_line_id l = line_id id (line_fee_direction l, line_product_scope l, line_product_type l);
  nm_entries : forall e, e ∈ statement_entries d -> entry_statement_id e = id ->
    statement_entry_id e = statement_entry_key hexdigest (entry_source_type e) (entry_source_record_id e);
}.

(** The ids of the new rows are new. *)
Record writable (d : feedb) (id : string) (gs : list group) : Prop := MkWritable {
  wr_named : rows_named d id;
  wr_lines : forall l, l ∈ statement_lines d -> statement_line_id l ∉ (fun g => line_id id g.1) <$> gs;
  wr_keys : NoDup ((fun g => line_id id g.1) <$> gs);
  wr_entries : forall e, e ∈ statement_entries d -> statement_entry_id e ∉ (fun x => entry_id x) <$> grouped gs;
  wr_ids : NoDup ((fun x => entry_id x) <$> grouped gs);
}.

Lemma insert_entry_new id line x d :
  rows_named d id -> (forall e, e ∈ statement_entries d -> statement_entry_id e <> entry_id x) ->
  insert_entry (statement_entry hexdigest id line x) d = Ok (add_rows d [] [statement_entry hexdigest id line x]).
Proof.
  intros Hn Hf. unfold insert_entry. rewrite existsb_false.
  - unfold add_rows. by rewrite app_nil_r; destruct d.
  - intros e He. cbn. apply orb_false_iff. split; [by apply str_eqb_false, Hf|]. apply not_true_iff_false.
    intros E. tests. apply (Hf e He). rewrite (nm_entries _ _ Hn e He) by done. congruence.
Qed.

Lemma rows_named_entries d id line l :
  rows_named d id -> rows_named (add_rows d [] (statement_entry hexdigest id line <$> l)) id.
Proof.
  intros [H1 H2]. split; cbn [add_rows field_set statement_lines statement_entries].
  - intros x. rewrite app_nil_r. apply H1.
  - intros e [He|(x & -> & _)%list_elem_of_fmap]%elem_of_app; [by apply H2|done].
Qed.

Lemma insert_entries_new id line l : forall d,
  rows_named d id -> NoDup ((fun x => entry_id x) <$> l) ->
  (forall e, e ∈ statement_entries d -> statement_entry_id e ∉ (fun x => entry_id x) <$> l) ->
  fold_result (fun d x => insert_entry (statement_entry hexdigest id line x) d) d l
  = Ok (add_rows d [] (statement_entry hexdigest id line <$> l)).
Proof.
  induction l as [|x l IH]; intros d Hn Hd Hf.
  { cbn. unfold add_rows. by rewrite !app_nil_r; destruct d. }
  rewrite fmap_cons in Hd. apply NoDup_cons in Hd as [Hx Hd]. cbn [fold_result].
  rewrite insert_entry_new; [|done|]. 2: { intros e He E. apply (Hf e He). rewrite E. set_solver. }
  cbn [result_bind]. rewrite IH; [|by apply (rows_named_entries d id line [x])|done|].
  - unfold add_rows. cbn. by rewrite !app_nil_r, <- app_assoc.
  - cbn [add_rows field_set statement_entries]. intros e [He| ->%list_elem_of_singleton]%elem_of_app; [|done].
    specialize (Hf e He). rewrite fmap_cons in Hf. set_solver.
Qed.

Lemma insert_line_new id k l d :
  rows_named d id -> (forall x, x ∈ statement_lines d -> statement_line_id x <> line_id id k) ->
  insert_line (statement_line hexdigest id k l) d = Ok (add_rows d [statement_line hexdigest id k l] []).
Proof.
  intros Hn Hf. unfold insert_line. rewrite existsb_false.
  - unfold add_rows. by rewrite app_nil_r; destruct d.
  - intros x Hx. cbn. apply orb_false_iff. split; [by apply str_eqb_false, Hf|]. apply not_true_iff_false.
    intros E. tests. apply (Hf x Hx). rewrite (nm_lines _ _ Hn x Hx) by done. f_equal.
    destruct k as [[k1 k2] k3]. cbn in *. congruence.
Qed.

Lemma rows_named_line d id k l : rows_named d id -> rows_named (add_rows d [statement_line hexdigest id k l] []) id.
Proof.
  intros [H1 H2]. split; cbn [add_rows field_set statement_lines statement_entries].
  - intros x [Hx| ->%list_elem_of_singleton]%elem_of_app; [by apply H1|]. intros _. by destruct k as [[? ?] ?].
  - intros e. rewrite app_nil_r. apply H2.
Qed.

Lemma write_group_new id k l d :
  rows_named d id -> (forall x, x ∈ statement_lines d -> statement_line_id x <> line_id id k) ->
  NoDup ((fun x => entry_id x) <$> l) ->
  (forall e, e ∈ statement_entries d -> statement_entry_id e ∉ (fun x => entry_id x) <$> l) ->
  write_group hexdigest id d (k, l) = Ok (add_rows d (new_lines id [(k, l)]) (new_entries id [(k, l)])).
Proof.
  intros Hn Hl Hd He. unfold write_group. rewrite insert_line_new by done. cbn [result_bind].
  change (statement_line_id _) with (line_id id k). rewrite insert_entries_new; [|by apply rows_named_line|done|].
  - unfold add_rows, new_lines, new_entries. cbn. by rewrite !app_nil_r.
  - cbn [add_rows field_set statement_entries]. rewrite app_nil_r. done.
Qed.

Lemma add_rows_add d ls es ls' es' : add_rows (add_rows d ls es) ls' es' = add_rows d (ls ++ ls') (es ++ es').
Proof. unfold add_rows. cbn. by rewrite !app_assoc. Qed.

(** Writing a group leaves the other groups writable. *)
Lemma writable_tail d id g gs :
  writable d id (g :: gs) -> writable (add_rows d (new_lines id [g]) (new_entries id [g])) id gs.
Proof.
  intros [[N1 N2] H1 H2 H3 H4]. destruct g as [k l]. unfold grouped in *. rewrite fmap_cons in *. cbn in H2, H3, H4.
  apply NoDup_cons in H2 as [Hk H2]. rewrite fmap_app in *. apply NoDup_app in H4 as (H4 & H5 & H6).
  assert (new_entries id [(k, l)] = statement_entry hexdigest id (line_id id k) <$> l) as Ee
    by (unfold new_entries; cbn; by rewrite app_nil_r).
  rewrite Ee. split; [split|..]; cbn [add_rows field_set statement_lines statement_entries].
  - intros x [Hx| ->%list_elem_of_singleton]%elem_of_app; [by apply N1|]. intros _. by destruct k as [[? ?] ?].
  - intros e [He|(x & -> & _)%list_elem_of_fmap]%elem_of_app; [by apply N2|done].
  - intros x [Hx| ->%list_elem_of_singleton]%elem_of_app; [|done]. specialize (H1 x Hx).
    rewrite fmap_cons, elem_of_cons in H1. tauto.
  - done.
  - intros e [He|(x & -> & Hx)%list_elem_of_fmap]%elem_of_app.
    + specialize (H3 e He). rewrite elem_of_app in H3. tauto.
    + apply H5. by apply (list_elem_of_fmap_2 (fun x => entry_id x)).
  - done.
Qed.

(** All rows are written. *)
Lemma write_groups_new id gs : forall d,
  writable d id gs ->
  fold_result (write_group hexdigest id) d gs = Ok (add_rows d (new_lines id gs) (new_entries id gs)).
Proof.
  induction gs as [|[k l] gs IH]; intros d Hw.
  { cbn. unfold add_rows, new_entries. cbn. by rewrite !app_nil_r; destruct d. }
  pose proof (writable_tail _ _ _ _ Hw) as Hw'. destruct Hw as [Hn H1 H2 H3 H4]. unfold grouped in *.
  rewrite fmap_cons in *. cbn in H2, H3, H4. rewrite fmap_app in *. apply NoDup_app in H4 as (H4 & _ & _).
  cbn [fold_result]. rewrite write_group_new; [|done| |done|].
  - cbn [result_bind]. rewrite IH by done. rewrite add_rows_add. f_equal. f_equal.
    unfold new_entries. cbn. by rewrite app_nil_r.
  - intros x Hx E. apply (H1 x Hx). rewrite fmap_cons, E. apply elem_of_cons. by left.
  - intros e He. specialize (H3 e He). rewrite elem_of_app in H3. tauto.
Qed.

(** ** The checks and the totals *)

(** No row of the statement exists yet. *)
Definition no_rows (d : feedb) (id : string) : Prop :=
  (forall l, l ∈ statement_lines d -> line_statement_id l <> id)
  /\ (forall e, e ∈ statement_entries d -> entry_statement_id e <> id).

Lemma own_lines d id gs es :
  no_rows d id ->
  List.filter (fun l => str_eqb (line_statement_id l) id) (statement_lines (add_rows d (new_lines id gs) es))
  = new_lines id gs.
Proof.
  intros [Hl _]. cbn [add_rows field_set statement_lines]. rewrite lfilter_app.
  rewrite (proj2 (lfilter_nil_iff _ _)), filter_all; [done| |intros x Hx; by apply str_eqb_false, Hl].
  apply forallb_forall. intros x Hx. apply list_elem_of_In, list_elem_of_fmap in Hx as (g & -> & _). apply str_eqb_refl.
Qed.

Lemma new_entries_in id gs e : e ∈ new_entries id gs <->
  exists g x, g ∈ gs /\ x ∈ g.2 /\ e = statement_entry hexdigest id (line_id id g.1) x.
Proof.
  unfold new_entries. rewrite list_elem_of_join. setoid_rewrite list_elem_of_fmap. split.
  - intros (l & He & g & -> & Hg). apply list_elem_of_fmap in He as (x & -> & Hx). eauto 10.
  - intros (g & x & Hg & Hx & ->). eexists. split; [|eauto]. by apply list_elem_of_fmap_2.
Qed.

Lemma new_entries_cons id g gs :
  new_entries id (g :: gs) = (statement_entry hexdigest id (line_id id g.1) <$> g.2) ++ new_entries id gs.
Proof. reflexivity. Qed.

Lemma own_entries d id gs ls :
  no_rows d id ->
  List.filter (fun e => str_eqb (entry_statement_id e) id) (statement_entries (add_rows d ls (new_entries id gs)))
  = new_entries id gs.
Proof.
  intros [_ He]. cbn [add_rows field_set statement_entries]. rewrite lfilter_app.
  rewrite (proj2 (lfilter_nil_iff _ _)), filter_all; [done| |intros x Hx; by apply str_eqb_false, He].
  apply forallb_forall. intros x Hx. apply list_elem_of_In, new_entries_in in Hx as (g & y & _ & _ & ->).
  apply str_eqb_refl.
Qed.

Lemma entry_counts_sources id line l kind :
  entry_counts (statement_entry hexdigest id line <$> l) kind
  = (Z.of_nat (length (of_type kind l)), base_total (of_type kind l), fee_total (of_type kind l)).
Proof.
  unfold entry_counts, base_total, fee_total, of_type. rewrite lfilter_fmap, length_fmap, <- !list_fmap_compose. done.
Qed.

(** The entries of a line are those of its group. *)
Lemma line_entries id gs k l :
  NoDup ((fun g => line_id id g.1) <$> gs) -> (k, l) ∈ gs ->
  List.filter (fun e => str_eqb (entry_statement_line_id e) (line_id id k)) (new_entries id gs)
  = statement_entry hexdigest id (line_id id k) <$> l.
Proof.
  assert (forall g, List.filter (fun e => str_eqb (entry_statement_line_id e) (line_id id k))
      (statement_entry hexdigest id (line_id id g.1) <$> g.2)
    = if str_eqb (line_id id g.1) (line_id id k) then statement_entry hexdigest id (line_id id g.1) <$> g.2 else []) as Hg.
  { intros g. rewrite lfilter_fmap. cbn. destruct (str_eqb _ _); [rewrite filter_all; [done|]; by apply forallb_forall|].
    rewrite (proj2 (lfilter_nil_iff _ _)); done. }
  induction gs as [|g gs IH]; intros Hn Hin; [by apply elem_of_nil in Hin|].
  rewrite fmap_cons in Hn. apply NoDup_cons in Hn as [Hx Hn]. rewrite new_entries_cons, lfilter_app, Hg.
  apply elem_of_cons in Hin as [<- | Hin].
  - cbn [fst snd]. rewrite str_eqb_refl. rewrite (proj2 (lfilter_nil_iff _ _)); [by rewrite app_nil_r|].
    intros e He. apply new_entries_in in He as (g & y & Hg' & _ & ->). cbn. apply str_eqb_false. intros E. apply Hx.
    cbn. rewrite <- E. by apply (list_elem_of_fmap_2 (fun g : group => line_id id g.1)).
  - rewrite IH by done. rewrite str_eqb_false; [done|]. intros E. apply Hx. rewrite E.
    by apply (list_elem_of_fmap_2 (fun g : group => line_id id g.1) _ (k, l)).
Qed.

Lemma lines_match id gs :
  NoDup ((fun g => line_id id g.1) <$> gs) ->
  existsb (line_mismatch (new_entries id gs)) (new_lines id gs) = false.
Proof.
  intros Hn. apply existsb_false. intros x (g & -> & Hg)%list_elem_of_fmap. destruct g as [k l].
  unfold line_mismatch. change (statement_line_id _) with (line_id id k).
  rewrite (line_entries id gs k l) by done. rewrite !entry_counts_sources. apply negb_false_iff, bool_decide_true. done.
Qed.

Lemma lines_known id gs :
  existsb (fun e => negb (str_in (entry_statement_line_id e) (statement_line_id <$> new_lines id gs)))
    (new_entries id gs) = false.
Proof.
  apply existsb_false. intros e (g & x & Hg & Hx & ->)%new_entries_in. apply negb_false_iff.
  unfold str_in. apply bool_decide_true. unfold new_lines. rewrite <- list_fmap_compose.
  by apply (list_elem_of_fmap_2 (statement_line_id ∘ (fun g : group => statement_line hexdigest id g.1 g.2))).
Qed.

(** *** The head *)

Definition source_fee (sources : list StatementSource) (direction kind : Z) : Z :=
  fee_total (of_type kind (List.filter (fun x => ss_fee_direction x =? direction) sources)).

Definition group_keys (sources : list StatementSource) : list (Z * string * string) :=
  merge_sort key_order (remove_dups (line_key <$> sources)).

Lemma group_keys_spec sources :
  NoDup (group_keys sources) /\ forall k, k ∈ group_keys sources <-> k ∈ line_key <$> sources.
Proof.
  unfold group_keys. split.
  - rewrite merge_sort_Permutation. apply NoDup_remove_dups.
  - intros k. rewrite merge_sort_Permutation. apply elem_of_remove_dups.
Qed.

Lemma line_groups_keys sources :
  line_groups sources = (fun k => (k, with_key line_key sources k)) <$> group_keys sources.
Proof. reflexivity. Qed.

(** The sum of a column of the lines of a direction, from the sources. *)
Lemma lines_sum_of (line : Z * string * string -> list StatementSource -> SettlementStatementLine) sources direction kind
    (column : SettlementStatementLine -> Z) :
  (forall k l, line_fee_direction (line k l) = k.1.1) -> (forall k l, column (line k l) = fee_total (of_type kind l)) ->
  sum_Z (column <$> List.filter (fun l => line_fee_direction l =? direction) ((fun g => line g.1 g.2) <$> line_groups sources))
  = source_fee sources direction kind.
Proof.
  intros Hdir Hc. destruct (group_keys_spec sources) as [Hn Hk].
  rewrite line_groups_keys, <- list_fmap_compose, lfilter_fmap, <- list_fmap_compose. unfold source_fee, fee_total.
  rewrite <- (sum_partition line_key ss_fee_amount_cent
    (List.filter (fun k => k.1.1 =? direction) (group_keys sources))).
  - rewrite (filter_ext_in _ (fun k => k.1.1 =? direction)) by (intros k; cbn; by rewrite Hdir).
    f_equal. apply list_fmap_ext. intros i k Hi. apply list_elem_of_lookup_2, list_elem_of_In, filter_In in Hi as [_ Hd].
    cbn. rewrite Hc. cbn. unfold fee_total. f_equal. f_equal. unfold of_type, with_key.
    rewrite !filter_filter. apply filter_ext_in. intros x.
    destruct (decide (line_key x = k)) as [<- |]; [|by rewrite bool_decide_false, ?andb_false_r by done].
    rewrite bool_decide_true by done. cbn in Hd. rewrite Hd. by destruct (ss_source_type x =? kind).
  - by apply NoDup_ListNoDup, List.NoDup_filter, NoDup_ListNoDup.
  - intros x Hx. apply list_elem_of_In, filter_In in Hx as [Hx _]. apply filter_In in Hx as [Hx Hd].
    apply list_elem_of_In, filter_In. split; [|done]. apply list_elem_of_In, Hk, list_elem_of_fmap_2.
    by apply list_elem_of_In.
Qed.

Lemma lines_sum id sources direction kind (column : SettlementStatementLine -> Z) :
  (forall k l, column (statement_line hexdigest id k l) = fee_total (of_type kind l)) ->
  sum_Z (column <$> List.filter (fun l => line_fee_direction l =? direction) (new_lines id (line_groups sources)))
  = source_fee sources direction kind.
Proof. intros Hc. by apply (lines_sum_of (statement_line hexdigest id)). Qed.

Lemma lines_net_sum id gs direction :
  let lines := List.filter (fun l => line_fee_direction l =? direction) (new_lines id gs) in
  sum_Z (line_net_fee_cent <$> lines)
  = sum_Z (line_original_fee_cent <$> lines) + sum_Z (line_adjustment_fee_cent <$> lines).
Proof.
  cbn zeta. rewrite <- sum_fmap_add. unfold new_lines. rewrite lfilter_fmap, <- !list_fmap_compose. done.
Qed.

(** The head of a statement with the given sources. *)
Definition with_totals (sources : list StatementSource) (s : SettlementStatement) : SettlementStatement :=
  let fee := source_fee sources in
  s <| stmt_promotion_original_fee_cent := fee PROMOTION_FEE 1 |>
    <| stmt_promotion_adjustment_fee_cent := fee PROMOTION_FEE 2 |>
    <| stmt_promotion_net_fee_cent := fee PROMOTION_FEE 1 + fee PROMOTION_FEE 2 |>
    <| stmt_management_original_fee_cent := fee MANAGEMENT_FEE 1 |>
    <| stmt_management_adjustment_fee_cent := fee MANAGEMENT_FEE 2 |>
    <| stmt_management_net_fee_cent := fee MANAGEMENT_FEE 1 + fee MANAGEMENT_FEE 2 |>.

(** The checks pass on the lines and entries of the sources. *)
Lemma validate_new d id sources :
  no_rows d id -> NoDup ((fun g => line_id id g.1) <$> line_groups sources) ->
  let gs := line_groups sources in
  let d' := add_rows d (new_lines id gs) (new_entries id gs) in
  apply_and_validate_statement_totals d' id = Ok (update_statement id (with_totals sources) d').
Proof.
  intros Hn Hk gs d'. unfold apply_and_validate_statement_totals. cbn zeta.
  pose proof (own_lines d id gs (new_entries id gs) Hn) as El. pose proof (own_entries d id gs (new_lines id gs) Hn) as Ee.
  fold d' in El, Ee. rewrite El, Ee. rewrite (lines_match id gs Hk), lines_known.
  cbn [raise_if result_bind]. cbn zeta. rewrite !lines_net_sum. rewrite !Z.eqb_refl. cbn [negb orb raise_if result_bind].
  unfold gs. rewrite !(lines_sum id sources _ 1 line_original_fee_cent) by done.
  rewrite !(lines_sum id sources _ 2 line_adjustment_fee_cent) by done. done.
Qed.
End Lines.

(** * Statements: locking

    Locking a statement writes every source of its month once, puts their sums on
    the head and freezes it. *)

(** ** Lists *)

Lemma join_cons {A} (x : list A) (l : list (list A)) : mjoin (x :: l) = x ++ mjoin l.
Proof. reflexivity. Qed.

Section Groups.
Context {A K : Type} `{EqDecision K} (key : A -> K).

Lemma groups_cons ks x l : NoDup ks -> key x ∈ ks ->
  mjoin (with_key key (x :: l) <$> ks) ≡ₚ x :: mjoin (with_key key l <$> ks).
Proof.
  assert (forall ks : list K, key x ∉ ks -> with_key key (x :: l) <$> ks = with_key key l <$> ks) as Hno.
  { intros k Hk. apply list_fmap_ext. intros i y Hy. unfold with_key. cbn. rewrite bool_decide_false; [done|].
    intros <-. apply Hk. by eapply list_elem_of_lookup_2. }
  induction ks as [|k ks IH]; intros Hn Hx; [by apply elem_of_nil in Hx|]. apply NoDup_cons in Hn as [Hk Hn].
  rewrite !fmap_cons, !join_cons. destruct (decide (key x = k)) as [<- |Hne].
  - rewrite Hno by done. unfold with_key at 1. cbn [List.filter]. by rewrite bool_decide_true.
  - rewrite IH by (done || set_solver). unfold with_key at 1. cbn [List.filter]. rewrite bool_decide_false by done.
    by rewrite Permutation_middle.
Qed.

(** The groups hold every element once. *)
Lemma groups_perm ks l : NoDup ks -> (forall x, x ∈ l -> key x ∈ ks) -> mjoin (with_key key l <$> ks) ≡ₚ l.
Proof.
  intros Hn. induction l as [|x l IH]; intros Hl.
  - assert (mjoin (with_key key [] <$> ks) = []) as ->; [|done]. clear. induction ks as [|k ks IH]; [done|].
    rewrite fmap_cons, join_cons. by rewrite IH.
  - rewrite groups_cons by (done || set_solver). by rewrite IH by set_solver.
Qed.
End Groups.

Lemma find_fmap {A} (P : A -> bool) (g : A -> A) l :
  (forall x, P (g x) = P x) -> List.find P (g <$> l) = g <$> List.find P l.
Proof. intros H. induction l as [|x l IH]; [done|]. cbn. rewrite H. by destruct (P x). Qed.

(** ** What carrying forward leaves alone, when it returns *)

Section Carry.
Context (hexdigest : string -> string).

Lemma apply_step_period stmt run now d s d' : apply_step hexdigest stmt run now d s = Ok d' -> same_period d d'.
Proof.
  unfold apply_step. destruct (existsb _ _); [by intros [= <-]|].
  intros (m & _ & H)%result_bind_Ok. destruct m; [by injection H as <-|]. destruct (List.find _ _); [|done].
  unfold apply_source in H. apply result_bind_Ok in H as (d1 & H1 & H). apply result_bind_Ok in H as (d2 & H2 & H).
  injection H as <-. apply insert_adjustment_ok in H1 as [-> _]. apply insert_application_ok in H2 as ->. done.
Qed.

Lemma carry_period stmt run now d d' : apply_carryforward_sources hexdigest d stmt run now = Ok d' -> same_period d d'.
Proof.
  unfold apply_carryforward_sources. generalize (carryforward_candidates d stmt). intros l. revert d.
  induction l as [|s l IH]; intros d; cbn [fold_result]; [by intros [= <-]|].
  intros (d1 & H1 & H)%result_bind_Ok. eapply same_period_trans; [by eapply apply_step_period|]. by apply IH.
Qed.
End Carry.

(** ** Opening *)
Section Open.
Context (hexdigest : string -> string).

(** Lines and entries belong to statements that exist. *)
Definition rows_owned (d : feedb) : Prop :=
  (forall l, l ∈ statement_lines d -> line_statement_id l ∈ statement_id <$> statements d)
  /\ (forall e, e ∈ statement_entries d -> entry_statement_id e ∈ statement_id <$> statements d).

Definition slot (store month : string) (s : SettlementStatement) : bool :=
  str_eqb (stmt_store_id s) store && str_eqb (statement_month s) month && stmt_is_current s.

(** The opened statement is the one of its slot and has no rows. *)
Lemma open_statement_fresh d store month d0 s :
  rows_owned d ->
  open_statement hexdigest d store month (List.find (slot store month) (statements d)) = Ok (d0, s) ->
  no_rows d0 (statement_id s) /\ List.find (slot store month) (statements d0) = Some s
  /\ fee_stores d0 = fee_stores d.
Proof.
  intros [Hl He]. unfold open_statement. destruct (List.find _ _) as [x|] eqn:Hf.
  - intros [= <- <-]. apply find_some_in in Hf as Hx. destruct Hx as [Hx Hp]. unfold slot in Hp. tests. split; [|split].
    + split; cbn [reopen_statement update_statement field_set statement_lines statement_entries].
      * intros l Hin. apply list_elem_of_In, filter_In in Hin as [_ Hn]. cbn. intros E. by rewrite E, str_eqb_refl in Hn.
      * intros e Hin. apply list_elem_of_In, filter_In in Hin as [_ Hn]. cbn. intros E. by rewrite E, str_eqb_refl in Hn.
    + cbn [reopen_statement update_statement field_set statements]. rewrite find_fmap.
      * unfold slot in *. rewrite Hf. cbn. by rewrite str_eqb_refl.
      * intros y. by destruct (str_eqb _ _).
    + done.
  - intros (d1 & H1 & H)%result_bind_Ok. injection H as <- <-. unfold insert_statement in H1.
    destruct (existsb _ _) eqn:Hex; [done|]. injection H1 as <-.
    assert (stable_business_id hexdigest "statement" [store; month] ∉ statement_id <$> statements d) as Hfr.
    { intros (y & Ey & Hy)%list_elem_of_fmap. pose proof (existsb_false_in _ _ y Hex Hy) as E. cbn in E.
      by rewrite <- Ey, str_eqb_refl in E. }
    split; [|split; [|done]].
    + split; [intros l Hin E; specialize (Hl l Hin)|intros e Hin E; specialize (He e Hin)]; cbn in E; congruence.
    + cbn [field_set statements]. rewrite find_app, Hf. cbn. unfold slot. cbn. by rewrite !str_eqb_refl.
Qed.
End Open.

Section Lock.
Context (hexdigest json_text : string -> string).
#[local] Notation line_id := (statement_line_key hexdigest).

(** A slot that can be locked: its statement opens, the carryforwards apply, the
    sources can be read, and the ids of the rows to write are no other row's. *)
Record lockable (d : feedb) (store month run : string) (now : instant) (d0 d1 : feedb) (s : SettlementStatement)
    (sources : list StatementSource) : Prop := MkLockable {
  lk_formal : String.ltb month "2026-08" = false;
  lk_store : store ∈ store_id <$> fee_stores d;
  lk_open : forall x, List.find (slot store month) (statements d) = Some x -> statement_status x <> 4;
  lk_owned : rows_owned d;
  lk_opens : open_statement hexdigest d store month (List.find (slot store month) (statements d)) = Ok (d0, s);
  lk_carries : apply_carryforward_sources hexdigest d0 s run now = Ok d1;
  lk_sources : statement_sources d1 store month = Ok sources;
  lk_rows : writable hexdigest d1 (statement_id s) (line_groups sources);
  lk_named : forall e, e ∈ statement_entries d1 ->
    statement_entry_id e = statement_entry_key hexdigest (entry_source_type e) (entry_source_record_id e);
  lk_version : forall x, x ∈ statements d1 -> statement_id x <> statement_id s ->
    stmt_lock_version x <> Some ("lock-" +:+ text (take 40 (chars (hexdigest
      (source_fingerprint json_text (statement_id s) sources)))))%string;
}.

(** What a source puts on the statement. *)
Definition source_row (x : StatementSource) : Z * string * string * Z * Z :=
  (ss_source_type x, ss_source_record_id x, ss_original_fee_result_id x, ss_base_amount_cent x, ss_fee_amount_cent x).
Definition entry_row (e : SettlementStatementEntry) : Z * string * string * Z * Z :=
  (entry_source_type e, entry_source_record_id e, entry_original_fee_result_id e, entry_base_amount_cent e,
   entry_fee_amount_cent e).

Lemma grouped_sources sources : grouped (line_groups sources) ≡ₚ sources.
Proof.
  unfold grouped. rewrite line_groups_keys, <- list_fmap_compose. destruct (group_keys_spec sources) as [Hn Hk].
  apply groups_perm; [done|]. intros x Hx. by apply Hk, list_elem_of_fmap_2.
Qed.

Lemma entries_rows id gs : entry_row <$> new_entries hexdigest id gs = source_row <$> grouped gs.
Proof.
  induction gs as [|g gs IH]; [done|]. rewrite new_entries_cons. unfold grouped in *. rewrite fmap_cons, join_cons.
  rewrite !fmap_app, IH, <- list_fmap_compose. done.
Qed.

Lemma unassigned d id sources :
  (forall e, e ∈ statement_entries d ->
    statement_entry_id e = statement_entry_key hexdigest (entry_source_type e) (entry_source_record_id e)) ->
  writable hexdigest d id (line_groups sources) -> assert_sources_unassigned d id sources = Ok tt.
Proof.
  intros Hnm Hw. unfold assert_sources_unassigned. rewrite existsb_false; [done|]. intros x Hx.
  destruct (List.find _ _) as [e|] eqn:Hf; [|done]. apply find_some_in in Hf as [He E]. exfalso. tests.
  apply (wr_entries _ _ _ _ Hw e He). rewrite (Hnm e He).
  match goal with H1 : entry_source_type e = _, H2 : entry_source_record_id e = _ |- _ => rewrite H1, H2 end.
  apply (list_elem_of_fmap_2 (fun x => statement_entry_key hexdigest (ss_source_type x) (ss_source_record_id x))).
  by rewrite grouped_sources.
Qed.

Definition lock_version_of (id : string) (sources : list StatementSource) : string :=
  ("lock-" +:+ text (take 40 (chars (hexdigest (source_fingerprint json_text id sources)))))%string.
Definition locked_row (run : string) (now : instant) (version : string) (x : SettlementStatement) : SettlementStatement :=
  x <| statement_status := 4 |> <| stmt_locked_by := Some run |> <| stmt_locked_at := Some now |>
    <| stmt_lock_version := Some version |>.

(** The tables after the lock. *)
Definition lock_result (d1 : feedb) (id run : string) (now : instant) (sources : list StatementSource) : feedb :=
  let gs := line_groups sources in
  update_statement id (locked_row run now (lock_version_of id sources))
    (update_statement id (with_totals sources)
      (add_rows d1 (new_lines hexdigest id gs) (new_entries hexdigest id gs))).

Lemma no_rows_same d d' id :
  statement_lines d' = statement_lines d -> statement_entries d' = statement_entries d -> no_rows d id -> no_rows d' id.
Proof. unfold no_rows. by intros -> ->. Qed.

Lemma lock_open_result d store month run now d0 d1 s sources :
  lockable d store month run now d0 d1 s sources ->
  lock_open hexdigest json_text d store month run now (List.find (slot store month) (statements d))
  = Ok (lock_result d1 (statement_id s) run now sources, statement_id s).
Proof.
  intros [_ _ _ Hown Hop Hc Hs Hw Hnm Hv]. unfold lock_open. rewrite Hop. cbn [result_bind]. rewrite Hc. cbn [result_bind].
  rewrite Hs. cbn [result_bind]. rewrite (unassigned d1) by done. cbn [result_bind].
  rewrite write_groups_new by done. cbn [result_bind].
  destruct (open_statement_fresh hexdigest d store month d0 s Hown Hop) as [Hn _].
  pose proof (carry_period hexdigest s run now d0 d1 Hc) as (_ & _ & Est & _ & _ & El & Ee & _).
  rewrite validate_new; [|by apply (no_rows_same d0)|apply Hw]. cbn [result_bind]. rewrite existsb_false; [done|].
  intros x (y & -> & Hy)%list_elem_of_fmap. cbn [add_rows field_set statements] in Hy.
  destruct (decide (statement_id y = statement_id s)) as [E|E].
  - rewrite E, str_eqb_refl. cbn. by rewrite E, str_eqb_refl, andb_false_r.
  - rewrite (str_eqb_false _ _ E). apply not_true_iff_false. intros Hx. tests. by apply (Hv y).
Qed.

Lemma store_known store (l : list DimStore) :
  store ∈ store_id <$> l -> existsb (fun x => str_eqb (store_id x) store) l = true.
Proof.
  intros (x & -> & Hx)%list_elem_of_fmap. apply existsb_exists. exists x. split; [by apply list_elem_of_In|].
  apply str_eqb_refl.
Qed.

Lemma lock_lockable d store month run now d0 d1 s sources :
  lockable d store month run now d0 d1 s sources ->
  lock_settlement_statement hexdigest json_text d store month run now
  = Ok (lock_result d1 (statement_id s) run now sources, statement_id s).
Proof.
  intros Hk. rewrite <- (lock_open_result d store month run now d0 d1 s sources Hk).
  destruct Hk as [Hf Hst Hop _ _ _ _ _ _ _]. unfold lock_settlement_statement. rewrite Hf. cbn [raise_if result_bind].
  rewrite store_known by done. cbn [negb raise_if result_bind]. unfold slot in *.
  destruct (List.find _ _) as [x|]; [|done]. specialize (Hop x eq_refl). by apply Z.eqb_neq in Hop as ->.
Qed.

(** The locked statement of the slot. *)
Lemma lock_result_row d store month run now d0 d1 s sources :
  lockable d store month run now d0 d1 s sources ->
  List.find (slot store month) (statements (lock_result d1 (statement_id s) run now sources))
  = Some (locked_row run now (lock_version_of (statement_id s) sources) (with_totals sources s)).
Proof.
  intros Hk. destruct (open_statement_fresh hexdigest d store month d0 s (lk_owned _ _ _ _ _ _ _ _ _ Hk)
    (lk_opens _ _ _ _ _ _ _ _ _ Hk)) as (_ & Hf & _).
  pose proof (carry_period hexdigest s run now d0 d1 (lk_carries _ _ _ _ _ _ _ _ _ Hk)) as (_ & _ & Est & _).
  unfold lock_result. cbn [update_statement add_rows field_set statements]. rewrite Est.
  rewrite !find_fmap by (intros x; by destruct (str_eqb _ _)). rewrite Hf. cbn. rewrite str_eqb_refl. cbn.
  by rewrite str_eqb_refl.
Qed.

Lemma lock_result_entries d store month run now d0 d1 s sources :
  lockable d store month run now d0 d1 s sources ->
  List.filter (fun e => str_eqb (entry_statement_id e) (statement_id s))
    (statement_entries (lock_result d1 (statement_id s) run now sources))
  = new_entries hexdigest (statement_id s) (line_groups sources).
Proof.
  intros Hk. destruct (open_statement_fresh hexdigest d store month d0 s (lk_owned _ _ _ _ _ _ _ _ _ Hk)
    (lk_opens _ _ _ _ _ _ _ _ _ Hk)) as (Hn & _).
  pose proof (carry_period hexdigest s run now d0 d1 (lk_carries _ _ _ _ _ _ _ _ _ Hk)) as (_ & _ & _ & _ & _ & El & Ee & _).
  apply (own_entries hexdigest d1 (statement_id s) (line_groups sources)). by apply (no_rows_same d0).
Qed.

(** The slot is locked and stays so. *)
Lemma lock_again d store month run now d0 d1 s sources :
  lockable d store month run now d0 d1 s sources ->
  let d' := lock_result d1 (statement_id s) run now sources in
  lock_settlement_statement hexdigest json_text d' store month run now = Ok (d', statement_id s).
Proof.
  intros Hk d'. pose proof (lock_result_row _ _ _ _ _ _ _ _ _ Hk) as Hf. fold d' in Hf.
  destruct Hk as [Hfm Hst _ Hown Hop Hca _ _ _ _].
  destruct (open_statement_fresh hexdigest d store month d0 s Hown Hop) as (_ & _ & E0).
  pose proof (carry_period hexdigest s run now d0 d1 Hca) as (_ & _ & _ & _ & _ & _ & _ & E1).
  unfold lock_settlement_statement. rewrite Hfm. cbn [raise_if result_bind].
  change (fee_stores d') with (fee_stores d1). rewrite E1, E0, store_known by done. cbn [negb raise_if result_bind].
  unfold slot in Hf. rewrite Hf. done.
Qed.
End Lock.
