(* ===== verification/StatementThms.v ===== *)
(** * Statements: what locking guarantees

    Carryforwards move amounts without changing them, a locked statement carries
    every source of its month once with its sums on the head, and no source is
    billed twice. *)
From S2P Require Import Prelude PyValue Jobs FeeTables FeeLedger FeeProps Statements StatementProps StatementLines.
#[local] Open Scope Z_scope.
#[local] Set Default Proof Using "Type".

Section Theorems.
Context (hexdigest json_text : string -> string).
#[local] Notation totals := (effective_adjustment_totals hexdigest).

(** C25: Applying the carryforward sources of a store to the statement of a month
    returns and changes no net amount of any fee result: what was pending becomes
    an adjustment of that month and is counted once.  Afterwards every source of
    an earlier month is applied, or waits because a month between its event and
    the statement is still open, and then it is the first such month. *)
Theorem carryforward_conserves d stmt run now j :
  ledger_ok d -> (j <= calendar_months)%nat -> statement_month stmt = month_at j ->
  (forall s, s ∈ carryforward_candidates d stmt ->
     (exists i, (i < calendar_months)%nat /\ src_event_month s = month_at i)
     /\ src_original_fee_result_id s ∈ fee_result_id <$> fee_results d /\ appliable hexdigest d s) ->
  ForallOrdPairs (rows_apart hexdigest d) (carryforward_candidates d stmt) ->
  exists d', apply_carryforward_sources hexdigest d stmt run now = Ok d'
    /\ (forall o, totals d' o = totals d o)
    /\ forall s i, s ∈ carryforward_candidates d stmt -> (i < calendar_months)%nat -> src_event_month s = month_at i ->
       applied d' s = true
       \/ exists m, List.find (fun m => negb (is_settlement_period_immutable d (src_store_id s) m)) (months_between i j)
                    = Some m.
Proof.
  intros Hok Hj Hm Hs Ha. unfold apply_carryforward_sources.
  assert (forall s i, (i < calendar_months)%nat -> src_event_month s = month_at i ->
    earlier_open d stmt s = Ok (List.find (fun m => negb (is_settlement_period_immutable d (src_store_id s) m))
                                  (months_between i j))) as He.
  { intros s i Hi Ei. unfold earlier_open. rewrite Hm, Ei. by apply first_unlocked_is_first. }
  destruct (apply_fold hexdigest stmt run now (carryforward_candidates d stmt) d)
    as (d' & E & _ & _ & Ht & _ & Hd); [done| | |done|].
  - intros s H. unfold carryforward_candidates in H. rewrite merge_sort_Permutation in H.
    apply list_elem_of_In, filter_In in H as [H _]. by apply list_elem_of_In.
  - intros s H. destruct (Hs s H) as ((i & Hi & Ei) & Hr & Hp). split; [|done|done]. eexists. by apply (He s i).
  - exists d'. split_and!; [done|done|]. intros s i H Hi Ei. destruct (Hd s H) as [?|[m E']]; [by left|right].
    exists m. rewrite (He s i Hi Ei) in E'. by injection E'.
Qed.

(** C20: Locking the statement of a store and month returns the statement of that
    slot, locked: its head holds the sums of the fees of the month's sources by
    direction, original and adjustment, with the net as their sum; its entries are
    exactly those sources, each once with its amounts; and locking the slot again
    changes nothing. *)
Theorem locked_statement_totals d store month run now d0 d1 s sources :
  lockable hexdigest json_text d store month run now d0 d1 s sources ->
  exists d' row, lock_settlement_statement hexdigest json_text d store month run now = Ok (d', statement_id s)
    /\ List.find (slot store month) (statements d') = Some row
    /\ statement_id row = statement_id s /\ statement_status row = 4
    /\ stmt_promotion_original_fee_cent row = source_fee sources PROMOTION_FEE 1
    /\ stmt_promotion_adjustment_fee_cent row = source_fee sources PROMOTION_FEE 2
    /\ stmt_promotion_net_fee_cent row = source_fee sources PROMOTION_FEE 1 + source_fee sources PROMOTION_FEE 2
    /\ stmt_management_original_fee_cent row = source_fee sources MANAGEMENT_FEE 1
    /\ stmt_management_adjustment_fee_cent row = source_fee sources MANAGEMENT_FEE 2
    /\ stmt_management_net_fee_cent row = source_fee sources MANAGEMENT_FEE 1 + source_fee sources MANAGEMENT_FEE 2
    /\ entry_row <$> List.filter (fun e => str_eqb (entry_statement_id e) (statement_id s)) (statement_entries d')
       ≡ₚ source_row <$> sources
    /\ lock_settlement_statement hexdigest json_text d' store month run now = Ok (d', statement_id s).
Proof.
  intros Hk. pose proof (lock_result_row _ _ _ _ _ _ _ _ _ _ _ Hk) as Hf.
  set (d' := lock_result _ _ _ _ _ _ _) in *. set (row := locked_row _ _ _ _) in *. exists d', row.
  split; [by apply lock_lockable with (d0 := d0)|]. split_and!; try done.
  - unfold d'. rewrite (lock_result_entries _ _ _ _ _ _ _ _ _ _ _ Hk), entries_rows. by rewrite grouped_sources.
  - by apply (lock_again hexdigest json_text d store month run now d0 d1 s sources).
Qed.

(** *** No source is billed twice *)

(** Every entry has the id of its source, and ids are unique. *)
Record billed_once (d : feedb) : Prop := MkBilledOnce {
  bo_named : forall e, e ∈ statement_entries d ->
    statement_entry_id e = statement_entry_key hexdigest (entry_source_type e) (entry_source_record_id e);
  bo_unique : NoDup (statement_entry_id <$> statement_entries d);
}.

Lemma billed_once_same d d' : statement_entries d' = statement_entries d -> billed_once d -> billed_once d'.
Proof. intros E [H1 H2]. split; by rewrite E. Qed.

Lemma insert_entry_once id line x d d' :
  billed_once d -> insert_entry (statement_entry hexdigest id line x) d = Ok d' -> billed_once d'.
Proof.
  intros [H1 H2]. unfold insert_entry. destruct (existsb _ _) eqn:E; [done|]. intros [= <-].
  split; cbn [field_set statement_entries].
  - intros e [He| ->%list_elem_of_singleton]%elem_of_app; [by apply H1|done].
  - rewrite fmap_app. apply NoDup_app. split_and!; [done| |apply NoDup_singleton].
    intros y (e & -> & He)%list_elem_of_fmap Hy%list_elem_of_singleton.
    pose proof (existsb_false_in _ _ e E He) as Hx. cbn in Hx. cbn in Hy. by rewrite Hy, str_eqb_refl in Hx.
Qed.

Lemma write_group_once id g d d' : billed_once d -> write_group hexdigest id d g = Ok d' -> billed_once d'.
Proof.
  destruct g as [k l]. intros Hb. unfold write_group. intros (d1 & H1 & H)%result_bind_Ok.
  assert (billed_once d1) as Hb1.
  { unfold insert_line in H1. destruct (existsb _ _); [done|]. injection H1 as <-. by apply (billed_once_same d). }
  revert H. apply (fold_result_inv billed_once); [|done]. intros. by eapply insert_entry_once.
Qed.

Lemma open_once d store month existing d0 s :
  billed_once d -> open_statement hexdigest d store month existing = Ok (d0, s) -> billed_once d0.
Proof.
  intros Hb. unfold open_statement. destruct existing as [x|].
  - intros [= <- _]. destruct Hb as [H1 H2]. split; cbn [reopen_statement update_statement field_set statement_entries].
    + intros e He. apply list_elem_of_In, filter_In in He as [He _]. by apply H1, list_elem_of_In.
    + by apply fmap_filter_sub.
  - intros (d1 & H1 & H)%result_bind_Ok. injection H as <- _. unfold insert_statement in H1.
    destruct (existsb _ _); [done|]. injection H1 as <-. by apply (billed_once_same d).
Qed.

Lemma lock_once d store month run now d' id :
  billed_once d -> lock_settlement_statement hexdigest json_text d store month run now = Ok (d', id) -> billed_once d'.
Proof.
  intros Hb. unfold lock_settlement_statement. intros (? & _ & H)%result_bind_Ok.
  apply result_bind_Ok in H as (? & _ & H).
  assert (forall ex, lock_open hexdigest json_text d store month run now ex = Ok (d', id) -> billed_once d') as Hl.
  { intros ex. unfold lock_open. intros ([d0 s] & H0 & H1)%result_bind_Ok. apply open_once in H0; [|done].
    apply result_bind_Ok in H1 as (d1 & H1 & H2). apply carry_period in H1 as (_ & _ & _ & _ & _ & _ & Ee & _).
    apply result_bind_Ok in H2 as (sources & _ & H2). apply result_bind_Ok in H2 as (? & _ & H2).
    apply result_bind_Ok in H2 as (d2 & Hw & H2).
    assert (billed_once d2) as Hb2.
    { revert Hw. apply (fold_result_inv billed_once); [|by apply (billed_once_same d0)].
      intros. by eapply write_group_once. }
    apply result_bind_Ok in H2 as (d3 & Hv & H2).
    assert (statement_entries d3 = statement_entries d2) as E3.
    { unfold apply_and_validate_statement_totals in Hv. do 3 apply result_bind_Ok in Hv as (? & _ & Hv).
      by injection Hv as <-. }
    apply result_bind_Ok in H2 as (? & _ & H2). injection H2 as <- _. by apply (billed_once_same d2). }
  destruct (List.find _ _) as [y|]; [|by eapply Hl]. destruct (_ =? 4); [by injection H as <- _|by eapply Hl].
Qed.

Definition lock_slot (run : string) (now : instant) (d : feedb) (slot : string * string) : result feedb :=
  let* (d, _) := lock_settlement_statement hexdigest json_text d slot.1 slot.2 run now in Ok d.

(** C24: Through any sequence of locks of stores and months, also of statements that
    are reopened, no result and no adjustment is an entry of more than one
    statement, and none appears twice on one. *)
Theorem sources_billed_once run now slots d d' e1 e2 :
  billed_once d -> fold_result (lock_slot run now) d slots = Ok d' ->
  e1 ∈ statement_entries d' -> e2 ∈ statement_entries d' ->
  entry_source_type e1 = entry_source_type e2 -> entry_source_record_id e1 = entry_source_record_id e2 -> e1 = e2.
Proof.
  intros Hb H. assert (billed_once d') as [Hn Hu].
  { revert H. apply (fold_result_inv billed_once); [|done]. intros x sl x' Hx (p & Hp & H)%result_bind_Ok.
    destruct p as [y n]. injection H as <-. by eapply lock_once. }
  intros H1 H2 E1 E2. apply (fmap_NoDup_inj statement_entry_id (statement_entries d')); [done..|].
  rewrite (Hn e1 H1), (Hn e2 H2). congruence.
Qed.
End Theorems.
