(* ===== verification/StatementWitness.v ===== *)
(** * Statements: concrete runs

    A store with a locked month, a pending carryforward and an adjustment of the
    next month, on which the theorems about statements apply. *)
From S2P Require Import Prelude PyValue Jobs FeeTables FeeLedger FeeProps FeeThms Statements StatementProps StatementLines StatementThms.
#[local] Open Scope Z_scope.

(** A text in quotes. *)
Definition quoted (s : string) : string := text (Ascii.ascii_of_nat 34 :: chars s ++ [Ascii.ascii_of_nat 34]).

Definition sample_adjustment : SettlementFeeAdjustment :=
  MkAdjustment "A1" "R1" None "C1" "O1" PROMOTION_FEE "2026-08" "2026-09" 4 (-40) (-20) "v1" "manual" 20 "run".
Definition sample_source : SettlementCarryforwardSource :=
  MkSource "X1" 1 "refund:E1" "R1" (Some "E1") None "C1" "O1" "S1" PROMOTION_FEE "2026-08" "2026-08" 1 (-60) (-30) "v1"
    "refund" 20 "run".
Definition locked_august : SettlementStatement :=
  MkStatement "ST8" "S1" "2026-08" 1 true 4 100 0 100 0 0 0 None (Some "run") (Some 30) (Some "lock-1") None.

(** August is locked with its result; the refund waits for September. *)
Definition books : feedb :=
  (sample_db 200 [] [])
    <| fee_adjustments := [sample_adjustment] |> <| carryforward_sources := [sample_source] |>
    <| statements := [locked_august] |>
    <| statement_lines := [MkLine "L8" "ST8" 1 "scope" "type" 1 0 200 0 200 100 0 100] |>
    <| statement_entries := [statement_entry plain_digest "ST8" "L8" (result_statement_source "S1" (sample_result 200))] |>.

Lemma books_ok : ledger_ok books.
Proof.
  split; [apply NoDup_singleton|apply NoDup_singleton|..]; intros a Ha; inversion Ha.
Qed.

(** The stages of the lock of September. *)
Definition opened : result (feedb * SettlementStatement) :=
  open_statement plain_digest books "S1" "2026-09" (List.find (slot "S1" "2026-09") (statements books)).
Definition september : SettlementStatement := match opened with Ok (_, s) => s | Raise _ => locked_august end.
Definition opened_db : feedb := match opened with Ok (d, _) => d | Raise _ => books end.
Definition carried_db : feedb :=
  match apply_carryforward_sources plain_digest opened_db september "run2" 40 with Ok d => d | Raise _ => books end.
Definition september_sources : list StatementSource :=
  match statement_sources carried_db "S1" "2026-09" with Ok l => l | Raise _ => [] end.

Lemma carried_lines : statement_lines carried_db = statement_lines books.
Proof. vm_compute. reflexivity. Qed.
Lemma carried_entries : statement_entries carried_db = statement_entries books.
Proof. vm_compute. reflexivity. Qed.

Lemma september_lockable :
  lockable plain_digest quoted books "S1" "2026-09" "run2" 40 opened_db carried_db september september_sources.
Proof.
  split.
  - reflexivity.
  - apply (bool_decide_unpack _). vm_compute. reflexivity.
  - intros x H. vm_compute in H. discriminate H.
  - split; intros x Hx; apply list_elem_of_In in Hx; destruct Hx as [<- |[]]; apply list_elem_of_singleton; reflexivity.
  - vm_compute. reflexivity.
  - vm_compute. reflexivity.
  - vm_compute. reflexivity.
  - split; [split|..]; rewrite ?carried_lines, ?carried_entries.
    + intros l Hl E. apply list_elem_of_singleton in Hl as ->. vm_compute in E. discriminate E.
    + intros e He E. apply list_elem_of_singleton in He as ->. vm_compute in E. discriminate E.
    + intros l Hl. apply list_elem_of_singleton in Hl as ->. apply (bool_decide_unpack _). vm_compute. reflexivity.
    + apply (bool_decide_unpack _). vm_compute. reflexivity.
    + intros e He. apply list_elem_of_singleton in He as ->. apply (bool_decide_unpack _). vm_compute. reflexivity.
    + apply (bool_decide_unpack _). vm_compute. reflexivity.
  - rewrite carried_entries. intros e He. apply list_elem_of_singleton in He as ->. vm_compute. reflexivity.
  - intros x Hx Hne E. assert (statements carried_db = [locked_august; september]) as Es by (vm_compute; reflexivity).
    rewrite Es in Hx. apply list_elem_of_In in Hx. destruct Hx as [<- |[<- |[]]]; [vm_compute in E; discriminate E|done].
Qed.

(** [locked_statement_totals] on September. *)
Lemma locked_statement_totals_witness :
  exists d' row, lock_settlement_statement plain_digest quoted books "S1" "2026-09" "run2" 40
      = Ok (d', statement_id september)
    /\ List.find (slot "S1" "2026-09") (statements d') = Some row /\ stmt_promotion_net_fee_cent row = -50.
Proof.
  destruct (locked_statement_totals plain_digest quoted books "S1" "2026-09" "run2" 40 opened_db carried_db september
    september_sources september_lockable) as (d' & row & E & Hf & _ & _ & _ & _ & Hn & _).
  exists d', row. split; [exact E|]. split; [exact Hf|]. refine (eq_trans Hn _). vm_compute. reflexivity.
Defined.

(** [carryforward_conserves] on September. *)
Lemma carryforward_conserves_witness :
  exists d', apply_carryforward_sources plain_digest opened_db september "run2" 40 = Ok d'
    /\ effective_adjustment_totals plain_digest d' "R1" = (-100, -50) /\ applied d' sample_source = true.
Proof.
  assert (carryforward_candidates opened_db september = [sample_source]) as Ec by (vm_compute; reflexivity).
  destruct (carryforward_conserves plain_digest opened_db september "run2" 40 320) as (d' & E & Ht & Hd).
  - split; try apply NoDup_singleton; intros a Ha; inversion Ha.
  - unfold calendar_months. lia.
  - vm_compute. reflexivity.
  - rewrite Ec. intros s Hs. apply list_elem_of_singleton in Hs as ->. split_and!.
    + exists 319%nat. split; [unfold calendar_months; lia|vm_compute; reflexivity].
    + apply (bool_decide_unpack _). vm_compute. reflexivity.
    + split; try (apply (bool_decide_unpack _); vm_compute; reflexivity).
      intros e b _ Hb. apply list_elem_of_singleton in Hb as ->. discriminate.
  - rewrite Ec. constructor; constructor.
  - exists d'. split; [exact E|]. split; [rewrite Ht; vm_compute; reflexivity|].
    destruct (Hd sample_source 319%nat) as [H|[m H]]; [rewrite Ec; apply list_elem_of_singleton; reflexivity
      |unfold calendar_months; lia|vm_compute; reflexivity|exact H|]. vm_compute in H. discriminate H.
Defined.

(** [sources_billed_once] on September, and then August, which is locked. *)
Lemma sources_billed_once_witness :
  exists d', fold_result (lock_slot plain_digest quoted "run2" 40) books [("S1", "2026-09"); ("S1", "2026-08")] = Ok d'
    /\ forall e1 e2, e1 ∈ statement_entries d' -> e2 ∈ statement_entries d' ->
       entry_source_type e1 = entry_source_type e2 -> entry_source_record_id e1 = entry_source_record_id e2 -> e1 = e2.
Proof.
  eexists. split; [vm_compute; reflexivity|]. intros e1 e2 H1 H2 E1 E2.
  refine (sources_billed_once plain_digest quoted "run2" 40 [("S1", "2026-09"); ("S1", "2026-08")] books _ e1 e2 _ _
    H1 H2 E1 E2); [|vm_compute; reflexivity].
  split; [|apply NoDup_singleton]. intros e He. apply list_elem_of_singleton in He as ->. vm_compute. reflexivity.
Defined.

Definition books_refunded : feedb := books <| fee_refund_events := [partial_first 100] |>.

(** [frozen_statement_sources]: a refund of August arrives after August is locked. *)
Lemma frozen_statement_sources_witness :
  exists d', fold_result (fee_run plain_digest plain_time "run2")
      books_refunded [OpRefunds sample_coupon [PROMOTION_FEE]] = Ok d'
    /\ statement_sources d' "S1" "2026-08" = statement_sources books_refunded "S1" "2026-08"
    /\ (length (carryforward_sources d') = 2)%nat.
Proof.
  eexists. split; [vm_compute; reflexivity|]. split; [|vm_compute; reflexivity].
  refine (proj1 (frozen_statement_sources plain_digest plain_time "run2" [OpRefunds sample_coupon [PROMOTION_FEE]]
    books_refunded _ "S1" "2026-08" _ _ _)).
  - apply NoDup_singleton.
  - vm_compute. reflexivity.
  - vm_compute. reflexivity.
Defined.
