(* ===== verification/SaleAccounts.v ===== *)
(** * The sale account of an order

    apps/worker/settlement.py: the account and store a sale is attributed to
    ([_diagnose_dual_fee_sale_account]), from the account table, the bindings with
    the order's owner nickname and, when these name no store, the binding interval
    of the exact account.  The evidence the diagnostic also collects is left out;
    its reason and failing node are kept. *)
From S2P Require Import Prelude PyValue Jobs Clues FeeTables FeeLedger.
#[local] Open Scope Z_scope.

Definition INACTIVE_BINDING_STATUSES : list string :=
  ["inactive"; "unbound"; "unbind"; "failed"; "rejected"; "已解绑"; "绑定失效"; "审核失败"; "绑定已拒绝"].

Record OwnerAccountMatch := MkMatch {
  match_account_id : string;
  match_store_id : option string;
  match_binding_status : option string;
  match_source : string;
}.

Record DualFeeSaleAccountDiagnostic := MkDiagnostic {
  diag_match : option OwnerAccountMatch;
  diag_reason_code : string;
  diag_failure_node : option string;
}.

(** [_is_active_binding_status], [_is_active_dual_fee_binding_status] *)
Definition is_active_binding_status (status : option string) : bool :=
  negb (str_in (normalized status) INACTIVE_BINDING_STATUSES).
Definition is_active_dual_fee_binding_status (status : option string) : bool :=
  is_active_binding_status status && negb (str_in (normalized status) ["pending"; "reviewing"]).

(** [_first_text] *)
Fixpoint first_text (values : list (option string)) : option string :=
  match values with
  | [] => None
  | v :: l => match clean v with Some t => Some t | None => first_text l end
  end.

(** [_first_datetime(order.sale_time, order.pay_time)] *)
Definition order_sale_time_of (o : RawDouyinOrder) : option instant :=
  match order_sale_time o with Some t => Some t | None => order_pay_time o end.

(** [session.get] of an account and of a store *)
Definition get_account (d : feedb) (id : string) : option DimAwemeAccount :=
  List.find (fun a => str_eqb (account_id a) id) (fee_accounts d).
Definition get_store (d : feedb) (id : string) : option DimStore :=
  List.find (fun s => str_eqb (store_id s) id) (fee_stores d).
Definition active_store (d : feedb) (id : string) : bool :=
  match get_store d id with Some s => store_is_active s | None => false end.

(** [account_failure]: why an account cannot carry a sale of the day *)
Definition account_failure (sale_date : option Z) (a : DimAwemeAccount) : option string :=
  if negb (is_active_dual_fee_binding_status (account_binding_status a)) then Some "binding_inactive"
  else
    let from_failure :=
      match account_valid_from a with
      | Some f => match sale_date with
                  | None => Some "sale_date_missing"
                  | Some s => if s <? f then Some "binding_before_valid_from" else None
                  end
      | None => None
      end in
    match from_failure with
    | Some e => Some e
    | None =>
        match account_valid_to a with
        | Some t => match sale_date with
                    | None => Some "sale_date_missing"
                    | Some s => if t <? s then Some "binding_after_valid_to" else None
                    end
        | None => None
        end
    end.

(** [_nickname_matches]: one match per account of the active bindings, in the order
    of the first binding of the account, with the status of its last one *)
Definition set_match (m : OwnerAccountMatch) (l : list OwnerAccountMatch) : list OwnerAccountMatch :=
  if existsb (fun x => str_eqb (match_account_id x) (match_account_id m)) l
  then (fun x => if str_eqb (match_account_id x) (match_account_id m) then m else x) <$> l
  else l ++ [m].
Definition nickname_matches (nickname : option string) (bindings : list RawAwemeBinding) : list OwnerAccountMatch :=
  if negb (truthy_text nickname) then []
  else foldl (fun l b =>
    match binding_account_id b with
    | Some a => if str_eqb a "" || negb (is_active_binding_status (binding_status b)) then l
                else set_match (MkMatch a (Some a) (binding_status b) "raw_aweme_bindings") l
    | None => l
    end) [] bindings.

Section Diagnose.
(** [str()] of a number. *)
Context (repr_of : pyval -> string).

(** *** Identities of the bindings *)

(** account, Douyin id, POI and account type *)
Definition identity : Type := string * option string * option string * option string.
#[global] Instance identity_eq_dec : EqDecision identity.
Proof. unfold identity. solve_decision. Defined.

Definition account_type_of (payload : pydict) : option string :=
  first_text ((fun k => match dict_get k payload with PNone => None | v => Some (py_str repr_of v) end)
                <$> ["账号类型"; "account_type"]).

(** The active values seen for each identity, in the order of first sight. *)
Definition add_status (k : identity) (active : bool) (l : list (identity * list bool)) : list (identity * list bool) :=
  if existsb (fun p => bool_decide (p.1 = k)) l
  then (fun p => if bool_decide (p.1 = k) then (p.1, p.2 ++ [active]) else p) <$> l
  else l ++ [(k, [active])].
Definition binding_statuses (bindings : list RawAwemeBinding) : list (identity * list bool) :=
  foldl (fun l b =>
    match binding_account_id b with
    | Some a =>
        if str_eqb a "" then l
        else add_status (a, binding_douyin_id b, binding_poi_id b, account_type_of (as_dict (binding_raw_payload b)))
               (is_active_dual_fee_binding_status (binding_status b)) l
    | None => l
    end) [] bindings.

(** The first identity that contradicts itself or the direct account. *)
Fixpoint identity_conflict (d : feedb) (direct : option DimAwemeAccount) (l : list (identity * list bool))
  : option string :=
  match l with
  | [] => None
  | (k, values) :: l' =>
      let account := k.1.1.1 in
      if match direct with Some a => str_eqb account (account_id a) && existsb negb values | None => false end
      then Some "direct_identity_has_inactive_binding"
      else if existsb negb values && existsb (fun v => v) values && active_store d account
      then Some "binding_identity_status_conflict"
      else identity_conflict d direct l'
  end.

(** Every binding of the store of the direct account is inactive. *)
Definition direct_store_inactive (direct : option DimAwemeAccount) (l : list (identity * list bool)) : bool :=
  match direct with
  | Some a =>
      let values := mjoin (snd <$> List.filter (fun p => opt_is (account_store_id a) p.1.1.1.1) l) in
      existsb negb values && negb (existsb (fun v => v) values)
  | None => false
  end.

(** *** Candidates *)

(** The candidates with an existing, active store and a usable account; the first
    unusable account stops. *)
Fixpoint valid_candidates (d : feedb) (sale_date : option Z) (candidates : list OwnerAccountMatch)
    (valid : list (string * OwnerAccountMatch)) : list (string * OwnerAccountMatch) + (string * string) :=
  match candidates with
  | [] => inl valid
  | c :: l =>
      match match_store_id c with
      | None => valid_candidates d sale_date l valid
      | Some store =>
          if str_eqb store "" || negb (active_store d store) then valid_candidates d sale_date l valid
          else
            let put := if existsb (fun p => str_eqb p.1 store) valid
                       then (fun p => if str_eqb p.1 store then (store, c) else p) <$> valid
                       else valid ++ [(store, c)] in
            match get_account d (match_account_id c) with
            | None => valid_candidates d sale_date l put
            | Some a =>
                match account_failure sale_date a with
                | Some e => inr (("candidate_" +:+ e)%string, "candidate_account_validity")
                | None =>
                    if truthy_text (account_store_id a) && negb (opt_is (account_store_id a) store)
                    then inr ("candidate_store_conflict", "candidate_store_consistency")
                    else valid_candidates d sale_date l put
                end
            end
      end
  end.

(** *** The binding interval of the exact account *)

(** [_openapi_source_identifier] *)
Definition openapi_source_identifier (value : pyval) : option string :=
  match value with
  | PStr s => clean (Some s)
  | PInt z => clean (Some (str_of_Z z))
  | _ => None
  end.

(** The digits of an ASCII number of at most twenty characters. *)
Definition epoch_digits (s : string) : option Z :=
  if (length (chars s) <=? 20)%nat then
    match read_digits 0 0 (chars s) with
    | (n, count, []) => if count =? 0 then None else Some n
    | _ => None
    end
  else None.

(** [_openapi_binding_epoch]: seconds or milliseconds, up to the year 9999 *)
Definition openapi_binding_epoch (value : pyval) : option instant :=
  match match value with PInt z => Some z | PStr s => epoch_digits s | _ => None end with
  | None => None
  | Some raw =>
      if raw <=? 0 then None
      else
        let '(whole, milliseconds) := if 100000000000 <=? raw then (raw / 1000, raw mod 1000) else (raw, 0) in
        if 253402300799 <? whole then None else Some (seconds whole + 1000 * milliseconds)
  end.

Definition empty_value (v : pyval) : bool :=
  match v with PNone => true | PStr s => str_eqb s "" | _ => false end.

(** The canonical fact of a binding: account, POI, status, interval and store. *)
Definition binding_fact : Type := string * string * string * instant * instant * string.
#[global] Instance binding_fact_eq_dec : EqDecision binding_fact.
Proof. unfold binding_fact. solve_decision. Defined.

(** One binding of the account: its fact, or the reason it is rejected. *)
Definition openapi_fact (d : feedb) (owner_id : string) (at_ : option instant) (b : RawAwemeBinding)
  : binding_fact + string :=
  let payload := as_dict (binding_raw_payload b) in
  let status := openapi_source_identifier (dict_get "bind_status" payload) in
  let source_poi := openapi_source_identifier (dict_get "poi_id" payload) in
  let source_uid := openapi_source_identifier (dict_get "craftsman_uid" payload) in
  let part o := match o with Some s => if str_eqb s "" then "-" else s | None => "-" end in
  let expected_key := join ":" (part <$> [binding_account_id b; binding_douyin_id b; binding_poi_id b]) in
  if negb (str_eqb (binding_key b) expected_key) || negb (dict_mem "bind_status" payload)
  then inr "openapi_source_unverified"
  else
    let settlement_id := openapi_source_identifier (dict_get "account_id_for_settlement" payload) in
    match source_poi with
    | None => inr "openapi_source_identity_mismatch"
    | Some poi =>
        if negb (opt_is source_uid owner_id) || negb (opt_is (binding_account_id b) owner_id)
           || str_in poi ["0"; "-1"] || negb (opt_is (binding_poi_id b) poi)
           || match settlement_id with Some x => negb (str_eqb x owner_id) | None => false end
        then inr "openapi_source_identity_mismatch"
        else if negb (bool_decide (status = match binding_status b with
                                            | Some s => openapi_source_identifier (PStr s) | None => None end))
        then inr "openapi_source_status_mismatch"
        else match status with
        | None => inr "openapi_binding_status_ineligible"
        | Some st =>
            if negb (str_in st ["2"; "105"; "5"]) then inr "openapi_binding_status_ineligible"
            else match at_ with
            | None => inr "openapi_sale_time_missing"
            | Some t =>
                let raw_start := dict_get "bind_start_time" payload in
                let raw_end := dict_get "bind_end_time" payload in
                if empty_value raw_start || empty_value raw_end then inr "openapi_interval_missing"
                else match openapi_binding_epoch raw_start, openapi_binding_epoch raw_end with
                | Some start, Some end_ =>
                    if end_ <? start then inr "openapi_interval_invalid"
                    else if negb ((start <=? t) && (t <=? end_)) then inr "openapi_sale_outside_interval"
                    else match remove_dups (mapping_store_id <$>
                                 List.filter (fun m => str_eqb (mapping_poi_id m) poi) (fee_poi_mappings d)) with
                    | [] => inr "openapi_poi_mapping_missing"
                    | [store] => if active_store d store then inl (owner_id, poi, st, start, end_, store)
                                 else inr "openapi_store_inactive"
                    | _ => inr "openapi_poi_mapping_ambiguous"
                    end
                | _, _ => inr "openapi_interval_invalid"
                end
            end
        end
    end.

Definition facts_of (l : list (binding_fact + string)) : list binding_fact :=
  omap (fun x => match x with inl f => Some f | inr _ => None end) l.
Definition first_reject (l : list (binding_fact + string)) : option string :=
  head (omap (fun x => match x with inr e => Some e | inl _ => None end) l).

(** [_diagnose_openapi_interval_sale_account] with the legacy outcome *)
Definition diagnose_openapi_interval_sale_account (d : feedb) (o : RawDouyinOrder)
    (legacy : DualFeeSaleAccountDiagnostic) : DualFeeSaleAccountDiagnostic :=
  match first_text [order_owner_account_id o] with
  | None => legacy
  | Some owner_id =>
      let bindings := List.filter (fun b => opt_is (binding_account_id b) owner_id
        && is_dict (binding_raw_payload b) && dict_mem "craftsman_uid" (as_dict (binding_raw_payload b)))
        (fee_bindings d) in
      match bindings with
      | [] => legacy
      | _ =>
          let rows := (fun b => (b, openapi_fact d owner_id (order_sale_time_of o) b)) <$> bindings in
          let node := Some "openapi_exact_uid_interval" in
          let facts := facts_of (snd <$> rows) in
          match first_reject (snd <$> rows) with
          | Some reason => MkDiagnostic (diag_match legacy) reason node
          | None =>
              if (1 <? length (remove_dups (snd <$> facts)))%nat
              then MkDiagnostic (diag_match legacy) "openapi_multiple_stores" node
              else match rows, facts with
              | (b, _) :: _, f :: _ =>
                  if (1 <? length (remove_dups facts))%nat
                  then MkDiagnostic (diag_match legacy) "openapi_multiple_bindings" node
                  else MkDiagnostic
                         (Some (MkMatch owner_id (Some f.2) (binding_status b) "openapi_binding_interval"))
                         "resolved_openapi_binding_interval" None
              | _, _ => MkDiagnostic (diag_match legacy) "openapi_multiple_bindings" node
              end
          end
      end
  end.

(** *** The diagnostic *)

(** A personal alias of another account. *)
Definition personal_alias (owner_id : option string) (b : RawAwemeBinding) : bool :=
  let payload := as_dict (binding_raw_payload b) in
  negb (bool_decide (binding_account_id b = owner_id))
  && str_in (strip (py_str repr_of (py_or (py_or (dict_get "账号类型" payload) (dict_get "account_type" payload))
                                      (PStr "")))) ["个人号"; "个人账号"].

Definition no_valid_store : DualFeeSaleAccountDiagnostic :=
  MkDiagnostic None "no_valid_store" (Some "unique_valid_store").

Definition failed (reason node : string) : DualFeeSaleAccountDiagnostic := MkDiagnostic None reason (Some node).

(** The direct account is unusable, or its store is. *)
Definition direct_failure (d : feedb) (sale_date : option Z) (direct : option DimAwemeAccount)
  : option DualFeeSaleAccountDiagnostic :=
  match direct with
  | None => None
  | Some a =>
      match account_failure sale_date a with
      | Some e => Some (failed ("direct_" +:+ e)%string "direct_account_validity")
      | None =>
          match account_store_id a with
          | Some store =>
              if str_eqb store "" then None
              else match get_store d store with
                   | None => Some (failed "direct_store_missing" "direct_store")
                   | Some s => if store_is_active s then None else Some (failed "direct_store_inactive" "direct_store")
                   end
          | None => None
          end
      end
  end.

(** The bindings with the owner's nickname. *)
Definition named_bindings (d : feedb) (o : RawDouyinOrder) : list RawAwemeBinding :=
  if truthy_text (order_owner_account_name o)
  then List.filter (fun b => bool_decide (binding_douyin_nickname b = order_owner_account_name o)) (fee_bindings d)
  else [].

Definition sale_candidates (o : RawDouyinOrder) (bindings : list RawAwemeBinding) (exact : option OwnerAccountMatch)
    (direct : option DimAwemeAccount) : list OwnerAccountMatch :=
  nickname_matches (order_owner_account_name o)
    (List.filter (fun b => is_active_dual_fee_binding_status (binding_status b)) bindings)
  ++ match exact with Some m => [m] | None => [] end
  ++ match direct with
     | Some a => if truthy_text (account_store_id a)
                 then [MkMatch (account_id a) (account_store_id a) (account_binding_status a) "dim_aweme_accounts"]
                 else []
     | None => []
     end.

(** [_diagnose_dual_fee_sale_account] *)
Definition diagnose_dual_fee_sale_account (d : feedb) (o : RawDouyinOrder) (ignore_proven_personal_aliases : bool)
  : DualFeeSaleAccountDiagnostic :=
  let sale_date := business_date <$> order_sale_time_of o in
  let owner_id := first_text [order_owner_account_id o] in
  let direct := match owner_id with Some id => get_account d id | None => None end in
  match direct_failure d sale_date direct with
  | Some f => f
  | None =>
      let exact := if ignore_proven_personal_aliases
                   then diag_match (diagnose_openapi_interval_sale_account d o no_valid_store) else None in
      let bindings := match exact with
                      | Some _ => List.filter (fun b => negb (personal_alias owner_id b)) (named_bindings d o)
                      | None => named_bindings d o
                      end in
      let statuses := binding_statuses bindings in
      match identity_conflict d direct statuses with
      | Some reason => failed reason "binding_identity_statuses"
      | None =>
          if direct_store_inactive direct statuses
          then failed "direct_store_bindings_inactive" "direct_store_binding_statuses"
          else
            match valid_candidates d sale_date (sale_candidates o bindings exact direct) [] with
            | inr (reason, node) => failed reason node
            | inl [(_, m)] => MkDiagnostic (Some m) "resolved" None
            | inl [] => diagnose_openapi_interval_sale_account d o no_valid_store
            | inl _ => failed "multiple_valid_stores" "unique_valid_store"
            end
      end
  end.
End Diagnose.
