(* ===== verification/SaleProps.v ===== *)
(** * The sale account: what a match shows

    A match names one existing, active store that no other evidence contradicts,
    and a known account that is invalid is never bypassed. *)
From S2P Require Import Prelude PyValue Jobs Clues FeeTables FeeLedger FeeProps SaleAccounts.
#[local] Open Scope Z_scope.
#[local] Set Default Proof Using "Type".

(** The account with an id, if there is one, carries the sale and agrees on the store. *)
Definition account_agrees (d : feedb) (sale_date : option Z) (id store : string) : Prop :=
  forall a, get_account d id = Some a ->
    account_failure sale_date a = None /\ (truthy_text (account_store_id a) = true -> account_store_id a = Some store).

(** A match for a store that exists and is active. *)
Definition good_match (d : feedb) (sale_date : option Z) (p : string * OwnerAccountMatch) : Prop :=
  match_store_id p.2 = Some p.1 /\ p.1 <> "" /\ active_store d p.1 = true
  /\ account_agrees d sale_date (match_account_id p.2) p.1.

(** ** Candidates *)

Definition put_match (store : string) (c : OwnerAccountMatch) (valid : list (string * OwnerAccountMatch)) :=
  if existsb (fun p => str_eqb p.1 store) valid
  then (fun p => if str_eqb p.1 store then (store, c) else p) <$> valid else valid ++ [(store, c)].

Lemma put_match_good d sd store c valid :
  good_match d sd (store, c) -> Forall (good_match d sd) valid -> Forall (good_match d sd) (put_match store c valid).
Proof.
  intros Hc Hv. unfold put_match. destruct (existsb _ _).
  - apply Forall_fmap. eapply Forall_impl; [exact Hv|]. intros p Hp. cbn. by destruct (str_eqb _ _).
  - apply Forall_app. split; [done|]. by apply Forall_singleton.
Qed.

Lemma put_match_keys store c valid x : x ∈ fst <$> put_match store c valid <-> x ∈ fst <$> valid \/ x = store.
Proof.
  unfold put_match. destruct (existsb _ _) eqn:E.
  - rewrite <- list_fmap_compose. apply existsb_exists in E as ([k m] & Hin%list_elem_of_In & Hk). cbn in Hk. tests. subst k.
    rewrite !list_elem_of_fmap. split.
    + intros (p & -> & Hp). cbn. destruct (str_eqb p.1 store) eqn:E; [right|left; by exists p]. done.
    + intros [(p & -> & Hp)| ->]; [|exists (store, m)].
      * exists p. split; [|done]. cbn. destruct (str_eqb p.1 store) eqn:E; [by tests|done].
      * split; [|done]. cbn. by rewrite str_eqb_refl.
  - rewrite fmap_app, elem_of_app. cbn. rewrite list_elem_of_singleton. done.
Qed.

Lemma valid_candidates_spec d sd cs : forall valid v,
  valid_candidates d sd cs valid = inl v -> Forall (good_match d sd) valid ->
  Forall (good_match d sd) v /\ (forall x, x ∈ fst <$> valid -> x ∈ fst <$> v)
  /\ (forall c s, c ∈ cs -> match_store_id c = Some s -> s <> "" -> active_store d s = true -> s ∈ fst <$> v).
Proof.
  induction cs as [|c cs IH]; intros valid v; cbn [valid_candidates].
  { intros [= <-] Hv. split_and!; [done|done|]. intros c s Hc. by apply elem_of_nil in Hc. }
  assert (forall l, valid_candidates d sd cs l = inl v -> Forall (good_match d sd) l ->
    (forall x, x ∈ fst <$> valid -> x ∈ fst <$> l) ->
    (forall s, match_store_id c = Some s -> s <> "" -> active_store d s = true -> s ∈ fst <$> l) ->
    Forall (good_match d sd) v /\ (forall x, x ∈ fst <$> valid -> x ∈ fst <$> v)
    /\ (forall c' s, c' ∈ c :: cs -> match_store_id c' = Some s -> s <> "" -> active_store d s = true ->
        s ∈ fst <$> v)) as Hnext.
  { intros l E Hl Hk Hc. destruct (IH l v E Hl) as (H1 & H2 & H3). split_and!; [done|auto|].
    intros c' s [-> | Hin]%elem_of_cons; [auto|by apply H3]. }
  destruct (match_store_id c) as [store|] eqn:Hs; [|intros E Hv; by apply (Hnext valid)].
  destruct (str_eqb store "" || negb (active_store d store)) eqn:Hn.
  { intros E Hv. apply (Hnext valid); [done..|]. intros s [= <-] H1 H2. rewrite H2, (str_eqb_false _ _ H1) in Hn. done. }
  apply orb_false_iff in Hn as [Hn Ha]. apply negb_false_iff in Ha.
  assert (store <> "") as Hne by (intros ->; by rewrite str_eqb_refl in Hn).
  fold (put_match store c valid). cbn zeta.
  assert (account_agrees d sd (match_account_id c) store -> valid_candidates d sd cs (put_match store c valid) = inl v ->
    Forall (good_match d sd) valid -> Forall (good_match d sd) v /\ (forall x, x ∈ fst <$> valid -> x ∈ fst <$> v)
    /\ (forall c' s, c' ∈ c :: cs -> match_store_id c' = Some s -> s <> "" -> active_store d s = true ->
        s ∈ fst <$> v)) as Hput.
  { intros Hag E Hv. apply (Hnext (put_match store c valid)); [done|by apply put_match_good|..].
    - intros x Hx. apply put_match_keys. by left.
    - intros s [= <-] _ _. apply put_match_keys. by right. }
  unfold account_agrees in Hput. destruct (get_account d _) as [a|]; [|intros E Hv; by apply Hput].
  destruct (account_failure sd a) eqn:Hf; [done|].
  destruct (truthy_text (account_store_id a)) eqn:Ht; cbn [andb];
    [|intros E Hv; apply Hput; [|done|done]; intros a' [= <-]; split; [done|congruence]].
  destruct (opt_is (account_store_id a) store) eqn:Ho; cbn [negb]; [|done]. apply opt_is_true in Ho.
  intros E Hv. apply Hput; [|done|done]. intros a' [= <-]. done.
Qed.

(** Every active binding of the nickname is a candidate. *)
Lemma set_match_stores m l x : match_store_id m = Some (match_account_id m) ->
  (forall y, y ∈ l -> match_store_id y = Some (match_account_id y)) ->
  x ∈ match_store_id <$> l \/ x = match_store_id m -> x ∈ match_store_id <$> set_match m l.
Proof.
  intros Hm Hl H. unfold set_match. destruct (existsb _ _) eqn:E.
  - apply existsb_exists in E as (z & Hz%list_elem_of_In & Ez). tests.
    destruct H as [(y & -> & Hy)%list_elem_of_fmap| ->].
    + apply list_elem_of_fmap. exists (if str_eqb (match_account_id y) (match_account_id m) then m else y). split.
      * destruct (str_eqb _ _) eqn:E; [|done]. tests. rewrite (Hl y Hy), Hm. congruence.
      * by apply (list_elem_of_fmap_2 (fun x => if str_eqb (match_account_id x) (match_account_id m) then m else x)).
    + apply list_elem_of_fmap. exists m. split; [done|]. apply list_elem_of_fmap. exists z. split; [|done].
      replace (match_account_id z) with (match_account_id m) by done. by rewrite str_eqb_refl.
  - rewrite fmap_app, elem_of_app. destruct H as [?| ->]; [by left|right]. by apply list_elem_of_singleton.
Qed.

Lemma set_match_self m l : match_store_id m = Some (match_account_id m) ->
  (forall y, y ∈ l -> match_store_id y = Some (match_account_id y)) ->
  forall y, y ∈ set_match m l -> match_store_id y = Some (match_account_id y).
Proof.
  intros Hm Hl y. unfold set_match. destruct (existsb _ _).
  - intros (x & -> & Hx)%list_elem_of_fmap. destruct (str_eqb _ _); [done|by apply Hl].
  - intros [?| ->%list_elem_of_singleton]%elem_of_app; [by apply Hl|done].
Qed.

Definition nickname_step (l : list OwnerAccountMatch) (b : RawAwemeBinding) : list OwnerAccountMatch :=
  match binding_account_id b with
  | Some a => if str_eqb a "" || negb (is_active_binding_status (binding_status b)) then l
              else set_match (MkMatch a (Some a) (binding_status b) "raw_aweme_bindings") l
  | None => l
  end.

Lemma nickname_stores bs : forall l,
  (forall y, y ∈ l -> match_store_id y = Some (match_account_id y)) ->
  (forall x, x ∈ match_store_id <$> l -> x ∈ match_store_id <$> foldl nickname_step l bs)
  /\ (forall b a, b ∈ bs -> binding_account_id b = Some a -> a <> "" ->
      is_active_binding_status (binding_status b) = true -> Some a ∈ match_store_id <$> foldl nickname_step l bs).
Proof.
  induction bs as [|b bs IH]; intros l Hl; cbn [foldl]; [split; [done|intros b a Hb; by apply elem_of_nil in Hb]|].
  assert (forall y, y ∈ nickname_step l b -> match_store_id y = Some (match_account_id y)) as Hl'.
  { unfold nickname_step. destruct (binding_account_id b); [|done]. destruct (_ || _); [done|]. by apply set_match_self. }
  assert (forall x, x ∈ match_store_id <$> l -> x ∈ match_store_id <$> nickname_step l b) as Hk.
  { intros x Hx. unfold nickname_step. destruct (binding_account_id b); [|done]. destruct (_ || _); [done|].
    apply set_match_stores; [done|done|by left]. }
  destruct (IH (nickname_step l b) Hl') as [H1 H2]. split; [auto|].
  intros b' a [-> | Hin]%elem_of_cons Ha Hne Hact; [|by eapply H2]. apply H1. unfold nickname_step.
  rewrite Ha, Hact, (str_eqb_false _ _ Hne). cbn. apply set_match_stores; [done|done|by right].
Qed.

Section Sound.
Context (repr_of : pyval -> string).

(** ** The interval of the exact account *)

Lemma first_reject_facts l f : first_reject l = None -> f ∈ l -> exists x, f = inl x /\ x ∈ facts_of l.
Proof.
  intros Hr Hf. destruct f as [x|e].
  - exists x. split; [done|]. apply list_elem_of_omap. by exists (inl x).
  - exfalso. unfold first_reject in Hr. destruct (omap _ l) as [|y k] eqn:E; [|done].
    assert (e ∈ omap (fun x : binding_fact + string => match x with inr e => Some e | inl _ => None end) l) as H
      by (apply list_elem_of_omap; by exists (inr e)). rewrite E in H. by apply elem_of_nil in H.
Qed.

Lemma openapi_fact_store d owner at_ b f : openapi_fact d owner at_ b = inl f -> active_store d f.2 = true /\ f.1.1.1.1.1 = owner.
Proof.
  unfold openapi_fact. cbn zeta. intros H. repeat case_match; try discriminate; injection H as <-; done.
Qed.

Lemma openapi_match d o m :
  diag_match (diagnose_openapi_interval_sale_account d o no_valid_store) = Some m ->
  exists owner store, first_text [order_owner_account_id o] = Some owner /\ match_account_id m = owner
    /\ match_store_id m = Some store /\ active_store d store = true.
Proof.
  unfold diagnose_openapi_interval_sale_account. destruct (first_text _) as [owner|]; [|done].
  destruct (List.filter _ _) as [|b bs]; [done|]. cbn zeta. set (rows := _ <$> (b :: bs)).
  destruct (first_reject _) eqn:Hr; [done|]. destruct (_ <? _)%nat; [done|].
  assert (rows = (b, openapi_fact d owner (order_sale_time_of o) b) ::
    ((fun b => (b, openapi_fact d owner (order_sale_time_of o) b)) <$> bs)) as Er by done.
  destruct rows as [|[b0 r0] rows'] eqn:Erows; [done|]. injection Er as -> -> _.
  destruct (first_reject_facts _ (openapi_fact d owner (order_sale_time_of o) b) Hr) as (x & Ex & Hx); [left|].
  destruct (facts_of _) as [|f fs] eqn:Ef; [done|]. destruct (_ <? _)%nat; [done|]. intros [= <-].
  assert (f = x) as ->.
  { unfold facts_of in Ef. cbn in Ef. rewrite Ex in Ef. cbn in Ef. by injection Ef. }
  exists owner, x.2. apply openapi_fact_store in Ex as [Ha _]. done.
Qed.

(** ** The direct account *)

Lemma direct_failure_none d sd direct a :
  direct_failure d sd direct = None -> direct = Some a ->
  account_failure sd a = None
  /\ (truthy_text (account_store_id a) = true -> exists s, account_store_id a = Some s /\ s <> "" /\ active_store d s = true).
Proof.
  intros H ->. cbn in H. destruct (account_failure sd a); [done|]. split; [done|]. unfold truthy_text, active_store.
  destruct (account_store_id a) as [s|]; [|done]. destruct (str_eqb s "") eqn:E; [done|]. intros _. exists s.
  split_and!; [done|by intros ->|]. destruct (get_store d s) as [x|]; [|done]. by destruct (store_is_active x).
Qed.

Lemma direct_failure_match d sd direct f : direct_failure d sd direct = Some f -> diag_match f = None.
Proof. unfold direct_failure. intros H. repeat case_match; try discriminate; by injection H as <-. Qed.

Lemma get_account_id d id a : get_account d id = Some a -> account_id a = id.
Proof. intros [_ H]%find_some_in. by tests. Qed.

Lemma sale_candidates_named o bindings exact direct b a :
  b ∈ bindings -> is_active_dual_fee_binding_status (binding_status b) = true -> binding_account_id b = Some a -> a <> "" ->
  truthy_text (order_owner_account_name o) = true ->
  Some a ∈ match_store_id <$> sale_candidates o bindings exact direct.
Proof.
  intros Hb Hact Ha Hne Hn. unfold sale_candidates, nickname_matches. rewrite Hn. cbn [negb]. rewrite fmap_app, elem_of_app. left.
  apply (proj2 (nickname_stores _ [] ltac:(intros y Hy; by apply elem_of_nil in Hy)) b a); [|done|done|].
  - apply list_elem_of_In, filter_In. split; [by apply list_elem_of_In|done].
  - unfold is_active_dual_fee_binding_status in Hact. by apply andb_true_iff in Hact as [? _].
Qed.

Lemma sale_candidates_direct o bindings exact a s :
  account_store_id a = Some s -> s <> "" -> Some s ∈ match_store_id <$> sale_candidates o bindings exact (Some a).
Proof.
  intros Hs Hne. unfold sale_candidates. rewrite Hs. cbn [truthy_text]. rewrite (str_eqb_false _ _ Hne). cbn [negb].
  rewrite !fmap_app, !elem_of_app. right. right. by apply list_elem_of_singleton.
Qed.

(** Stores of candidates that are active are keys of the valid ones. *)
Lemma candidate_key d sd cs v s :
  valid_candidates d sd cs [] = inl v -> Some s ∈ match_store_id <$> cs -> s <> "" -> active_store d s = true ->
  s ∈ fst <$> v.
Proof.
  intros Hv (c & Hc & Hin)%list_elem_of_fmap Hne Ha.
  destruct (valid_candidates_spec d sd cs [] v Hv) as (_ & _ & H); [constructor|]. by eapply H.
Qed.

(** A sale is attributed only on evidence that agrees.  When the diagnostic
    resolves, the store exists and is active; the order's own account and the
    matched account, where they are known, are active, cover the day of the sale
    and name no other store; and every active binding of the owner's nickname to
    an active store names this store. *)
Lemma sale_match_sound d o m :
  diag_match (diagnose_dual_fee_sale_account repr_of d o false) = Some m ->
  let sale_date := business_date <$> order_sale_time_of o in
  exists store, match_store_id m = Some store /\ active_store d store = true
    /\ account_agrees d sale_date (match_account_id m) store
    /\ (forall owner, first_text [order_owner_account_id o] = Some owner -> account_agrees d sale_date owner store)
    /\ (forall b a, b ∈ named_bindings d o -> is_active_dual_fee_binding_status (binding_status b) = true ->
         binding_account_id b = Some a -> a <> "" -> active_store d a = true -> a = store).
Proof.
  unfold diagnose_dual_fee_sale_account. cbn zeta. set (sd := business_date <$> order_sale_time_of o).
  set (direct := match first_text _ with Some id => get_account d id | None => None end).
  destruct (direct_failure d sd direct) eqn:Hd; [intros H; by rewrite (direct_failure_match _ _ _ _ Hd) in H|].
  destruct (identity_conflict _ _ _); [done|]. destruct (direct_store_inactive _ _); [done|].
  destruct (valid_candidates _ _ _ _) as [v|[? ?]] eqn:Hv; [|done].
  assert (forall b a, b ∈ named_bindings d o -> is_active_dual_fee_binding_status (binding_status b) = true ->
         binding_account_id b = Some a -> a <> "" -> active_store d a = true -> a ∈ fst <$> v) as Hnamed.
  { intros b a Hb H1 H2 H3 H4. eapply candidate_key; [done| |done|done]. eapply sale_candidates_named; [done..|].
    unfold named_bindings in Hb. destruct (truthy_text _); [done|by apply elem_of_nil in Hb]. }
  assert (forall owner a, first_text [order_owner_account_id o] = Some owner -> get_account d owner = Some a ->
    account_failure sd a = None /\ (truthy_text (account_store_id a) = true ->
      exists s, account_store_id a = Some s /\ s ∈ fst <$> v)) as Hdirect.
  { intros owner a Ho Ha. assert (direct = Some a) as Ed by (unfold direct; by rewrite Ho).
    destruct (direct_failure_none d sd direct a Hd Ed) as [H1 H2]. split; [done|]. intros Ht.
    destruct (H2 Ht) as (s & Es & Hne & Hact). exists s. split; [done|]. eapply candidate_key; [exact Hv| |done|done].
    rewrite Ed. by apply sale_candidates_direct. }
  destruct (valid_candidates_spec d sd _ [] v Hv) as (Hg & _ & _); [constructor|].
  destruct v as [|[k m'] [|]]; [| |done].
  - intros H. destruct (openapi_match d o m H) as (owner & store & Ho & -> & Hs & Ha). exists store.
    assert (account_agrees d sd owner store) as Hag.
    { intros a Hga. destruct (Hdirect owner a Ho Hga) as [H1 H2]. split; [done|]. intros Ht.
      destruct (H2 Ht) as (s & _ & Hin). by apply elem_of_nil in Hin. }
    split_and!; [done|done|done| |].
    + intros owner' Ho'. rewrite Ho in Ho'. by injection Ho' as <-.
    + intros b a Hb H1 H2 H3 H4. specialize (Hnamed b a Hb H1 H2 H3 H4). by apply elem_of_nil in Hnamed.
  - intros [= <-]. apply Forall_singleton in Hg as (H1 & H2 & H3 & H4). exists k. split_and!; [done|done|done| |].
    + intros owner Ho a Hga. destruct (Hdirect owner a Ho Hga) as [E1 E2]. split; [done|]. intros Ht.
      destruct (E2 Ht) as (s & -> & Hin). apply list_elem_of_singleton in Hin. by cbn in Hin; subst.
    + intros b a Hb E1 E2 E3 E4. specialize (Hnamed b a Hb E1 E2 E3 E4). by apply list_elem_of_singleton in Hnamed.
Qed.
End Sound.
