(* ===== verification/FeeResults.v ===== *)
(** * Fee results

    apps/worker/settlement.py: the calculation of a coupon's promotion and
    management fee, the versions of its results with one current pointer per
    direction, and the run over coupons that also posts refunds and cancellations
    ([rebuild_dual_fee_results]).

    A direction is calculated in two stages, as the code does it: the inputs are
    read and checked without writing ([fee_basis]), then the outcome is written.
    The progress callback and the quote of a missing fee are left out. *)
From S2P Require Import Prelude PyValue Jobs Clues Receipts FeeTables FeeLedger SaleAccounts.
#[local] Open Scope Z_scope.
#[local] Notation RawDouyinOrder := FeeTables.RawDouyinOrder.
#[local] Notation RawDouyinOrderCoupon := FeeTables.RawDouyinOrderCoupon.

Definition ACTIVE_FEE_RULE : Z := 1.
(** 2026-08-01 as a day number. *)
Definition FORMAL_SETTLEMENT_START : Z := 20666.
Example formal_start : month_of_day FORMAL_SETTLEMENT_START = "2026-08" /\ month_of_day (FORMAL_SETTLEMENT_START - 1) = "2026-07".
Proof. vm_compute. done. Qed.

(** ** Reading the inputs *)

(** [_dual_order_status] *)
Definition or_text (a b : option string) : option string := if truthy_text a then a else b.
Definition dual_order_status (o : RawDouyinOrder) : string :=
  let status := normalized (or_text (order_status_normalized o) (order_status o)) in
  if str_in status ["closed"; "cancelled"; "canceled"; "unpaid_closed"] then "closed"
  else if str_in status ["paid"; "success"; "completed"; "fulfilled"] then "paid"
  else if str_in status ["refunded"; "refund"; "fully_refunded"] then "refunded"
  else "unknown".

(** [_dual_sale_channel] *)
Definition underscored (s : string) : string :=
  text ((fun c => if char_is c 45 then Ascii.ascii_of_nat 95 else c) <$> chars s).
Definition dual_sale_channel (o : RawDouyinOrder) : string :=
  let channel := underscored (normalized (or_text (order_sale_channel_normalized o) (order_sale_channel o))) in
  if str_in channel ["live"; "live_stream"; "livestream"; "直播"] then "live"
  else if str_in channel ["short_video"; "shortvideo"; "video"; "短视频"] then "short_video"
  else if str_eqb channel "" then "unknown" else channel.

(** [_raw_order_for_coupon] *)
Definition raw_order_for_coupon (d : feedb) (c : RawDouyinOrderCoupon) : option RawDouyinOrder :=
  match List.find (fun o => order_pk o =? coupon_raw_order_id c) (fee_orders d) with
  | Some o => if str_eqb (order_id o) (coupon_order_id c) then Some o else None
  | None => None
  end.

Definition get_product (d : feedb) (sku : option string) : option DimSkuProductRule :=
  if truthy_text sku then List.find (fun p => opt_is sku (product_sku_id p)) (fee_sku_products d) else None.
(** A product on sale, or one that the platform reports as delisted. *)
Definition usable_product (p : DimSkuProductRule) : bool :=
  product_is_active p
  || (opt_is (product_status_normalized p) "INACTIVE" && opt_is (product_sync_status p) "SUCCESS").

(** [_find_poi_mapping] *)
Definition find_poi_mapping (d : feedb) (poi : option string) : option DimStorePoiMapping :=
  if truthy_text poi then List.find (fun m => opt_is poi (mapping_poi_id m)) (fee_poi_mappings d) else None.

(** The best row of a list for an order. *)
Fixpoint best_row {A} (before : A -> A -> bool) (l : list A) : option A :=
  match l with
  | [] => None
  | x :: l' => match best_row before l' with
               | Some y => Some (if before x y then x else y)
               | None => Some x
               end
  end.

(** [resolve_settlement_scope_rule]: the latest rule up to the month, active or not *)
Definition scope_before (a b : SettlementScopeRule) : bool :=
  String.ltb (scope_effective_month b) (scope_effective_month a)
  || (str_eqb (scope_effective_month a) (scope_effective_month b) && (scope_pk b <? scope_pk a)).
Definition resolve_settlement_scope_rule (d : feedb) (month owner channel : string) : option SettlementScopeRule :=
  best_row scope_before (List.filter (fun r =>
    String.leb (scope_effective_month r) month && str_eqb (scope_owner_account_id r) owner
    && str_eqb (scope_sale_channel_normalized r) channel) (fee_scope_rules d)).

(** [_match_fee_rule] *)
Definition fee_rule_before (a b : SkuFeeRule) : bool :=
  (fee_rule_effective_date b <? fee_rule_effective_date a)
  || ((fee_rule_effective_date a =? fee_rule_effective_date b) && (fee_rule_pk b <? fee_rule_pk a)).
Definition match_fee_rule (d : feedb) (sku : string) (day : Z) : option SkuFeeRule :=
  match best_row fee_rule_before (List.filter (fun r =>
          str_eqb (fee_rule_sku_id r) sku && (fee_rule_effective_date r <=? day)) (fee_rules d)) with
  | Some r => if fee_rule_status r =? ACTIVE_FEE_RULE then Some r else None
  | None => None
  end.

(** [_coupon_refunded_amount] *)
Definition coupon_refunded_amount (c : RawDouyinOrderCoupon) : Z :=
  let amount := coupon_refunded_amount_cent c in
  let amount := if amount =? 0 then default amount (coupon_refunded_cent c) else amount in
  Z.max amount 0.

(** The refunds known at calculation: the events up to the first full refund. *)
Fixpoint event_refunded_amount (source refunded : Z) (events : list DouyinRefundEvent) : Z :=
  match events with
  | [] => refunded
  | e :: l => if refund_type e =? 2 then source
              else event_refunded_amount source (Z.min source (refunded + refund_amount_cent e)) l
  end.

(** A decision of the historical attribution ledger. *)
Record AttributionDecision := MkDecision {
  decision_id : string;
  decision_store_id : string;
  decision_evidence_sha256 : string;
}.

(** What the attribution ledger and the month-end qualification answer: a decision
    or none ([None] when the sources of a decision have changed), and the version
    that qualifies the order in a month, given the pinned one ([None] when it does
    not qualify). *)
Class SaleEvidence := MkEvidence {
  historical_decision : feedb -> RawDouyinOrder -> RawDouyinOrderCoupon -> option RawDouyinVerifyRecord ->
    option SettlementFeeResult -> option (option AttributionDecision);
  qualified_version : string -> RawDouyinOrder -> option string -> option string;
}.

(** ** The basis of a fee *)

Record FeeBasis := MkBasis {
  fb_month : string;
  fb_day : Z;
  fb_sale_store : option string;
  fb_verify_store : option string;
  fb_responsible : option string;
  fb_product : DimSkuProductRule;
  fb_channel : string;
  fb_source : Z;
  fb_refunded : Z;
  fb_base : Z;
  fb_rate : Z;
  fb_fee : Z;
  fb_rule : SkuFeeRule;
  fb_scope : SettlementScopeRule;
  fb_verify : RawDouyinVerifyRecord;
  fb_verify_time : instant;
  fb_decision : option AttributionDecision;
  fb_qualification : option string;
}.

(** How reading the inputs ends: blocked for a reason, outside the formal window,
    without a valid verification, verified before the window, or ready. *)
Inductive basis_outcome :=
  | BasisBlocked (kind : string)
  | BasisSaleOutside
  | BasisUnverified
  | BasisVerifyOutside
  | BasisReady (b : FeeBasis).

Section Results.
Context (hexdigest : string -> string) (isoformat : instant -> string) (repr_of : pyval -> string).
(** [normalize_owner_account_name] (Unicode normalisation) and the fingerprint of a
    basis: SHA-256 of its canonical JSON. *)
Context (normalize_owner_account_name : option string -> string).
Context (json_object : list (string * pyval) -> string) (date_text : Z -> string) (rate_text : Z -> string).
Context `{SaleEvidence}.
#[local] Notation stable_business_id := (stable_business_id hexdigest).

(** [_is_non_commission_owner_account] *)
Definition is_non_commission_owner_account (d : feedb) (name : option string) : bool :=
  let n := normalize_owner_account_name name in
  if str_eqb n "" then false
  else match List.find (fun r => str_eqb (non_commission_name r) n) (fee_non_commission d) with
       | Some r => non_commission_is_active r
       | None => false
       end.

(** [_direction_source_amount]: the receipt proven for the coupon *)
Definition direction_source_amount (d : feedb) (o : RawDouyinOrder) (c : RawDouyinOrderCoupon) : option Z :=
  resolve_coupon_receipt_cent repr_of
    ((fun x => MkCoupon (coupon_raw_order_id x) (coupon_order_item_id x) (coupon_raw_payload x)) <$> fee_coupons d)
    (MkOrder (order_pk o) (order_raw_payload o))
    (MkCoupon (coupon_raw_order_id c) (coupon_order_item_id c) (coupon_raw_payload c)) None.

(** The amount refunded in the snapshot of a new or a recalculated result. *)
Definition snapshot_refunded (d : feedb) (o : RawDouyinOrder) (c : RawDouyinOrderCoupon)
    (current : option SettlementFeeResult) (source : Z) : Z :=
  match current with
  | None =>
      if str_eqb (dual_order_status o) "refunded"
         || str_eqb (normalized (or_text (coupon_status_normalized c) (coupon_status c))) "refunded"
      then source
      else Z.min source (Z.max (coupon_refunded_amount c)
                           (event_refunded_amount source 0 (resolved_refund_events d c)))
  | Some r => Z.min source (result_refunded_amount_cent r)
  end.

(** The store a sale is attributed to: a decision, the store of the result that the
    same qualification and verification gave, or the diagnostic; [None] blocks. *)
Definition sale_store (d : feedb) (o : RawDouyinOrder) (current : option SettlementFeeResult)
    (verify : option RawDouyinVerifyRecord) (month qualification : option string)
    (decision : option AttributionDecision) : option (option string) :=
  match decision with
  | Some x => Some (Some (decision_store_id x))
  | None =>
      let prior := match current, qualification, verify with
                   | Some r, Some q, Some v =>
                       if opt_is (result_account_qualification_version_id r) q
                          && bool_decide (Some (result_original_business_month r) = month)
                          && same_qualifying_verification r v
                       then Some (result_sale_store_id r) else None
                   | _, _, _ => None
                   end in
      match prior with
      | Some s => Some s
      | None => match_store_id <$>
                  diag_match (diagnose_dual_fee_sale_account repr_of d o (bool_decide (is_Some qualification)))
      end
  end.

(** The first stage of [_materialize_dual_fee_direction] *)
Definition fee_basis (d : feedb) (o : RawDouyinOrder) (c : RawDouyinOrderCoupon) (direction : Z)
    (current : option SettlementFeeResult) : basis_outcome :=
  match get_product d (order_sku_id o) with
  | None => BasisBlocked "dual_fee_inactive_or_unknown_sku"
  | Some product =>
  if negb (usable_product product) then BasisBlocked "dual_fee_inactive_or_unknown_sku" else
  match first_text [product_owner_account_id product] with
  | None => BasisBlocked "dual_fee_unstable_owner_account"
  | Some owner =>
  if is_non_commission_owner_account d (order_owner_account_name o)
  then BasisBlocked "dual_fee_non_commission_owner" else
  let verify := select_valid_verify_record d (coupon_id c) in
  match historical_decision d o c verify current with
  | None => BasisBlocked "historical_sale_attribution_source_drift"
  | Some decision =>
  let month := match verify with Some v => business_month <$> verify_time v | None => None end in
  let qualification :=
    match month with
    | Some m => if String.leb "2026-10" m
                then Some (qualified_version m o
                             match current with
                             | Some r => if str_eqb (result_original_business_month r) m
                                         then result_account_qualification_version_id r else None
                             | None => None
                             end)
                else None
    | None => None
    end in
  match qualification with
  | Some None => BasisBlocked "dual_fee_monthend_account_qualification"
  | _ =>
  let qualification := match qualification with Some q => q | None => None end in
  match sale_store d o current verify month qualification decision with
  | None => BasisBlocked "dual_fee_missing_sale_store"
  | Some store =>
  let channel := dual_sale_channel o in
  if negb (str_in channel ["live"; "short_video"]) then BasisBlocked "dual_fee_unknown_or_out_of_scope_channel" else
  match business_date <$> order_sale_time_of o with
  | None => BasisBlocked "dual_fee_missing_business_time"
  | Some sale_day =>
  if sale_day <? FORMAL_SETTLEMENT_START then BasisSaleOutside else
  match verify with
  | None => BasisUnverified
  | Some v =>
  match verify_time v with
  | None => BasisUnverified
  | Some t =>
  let poi_store := match find_poi_mapping d (verify_poi_id v) with
                   | Some m => if bool_decide (is_Some (get_store d (mapping_store_id m)))
                               then Some (mapping_store_id m) else None
                   | None => None
                   end in
  if negb (direction =? PROMOTION_FEE) && bool_decide (poi_store = None)
  then BasisBlocked "dual_fee_missing_verify_store" else
  let verify_store := if direction =? PROMOTION_FEE then None else poi_store in
  let day := business_date t in
  if day <? FORMAL_SETTLEMENT_START then BasisVerifyOutside else
  let month := month_of_day day in
  match resolve_settlement_scope_rule d month owner channel with
  | None => BasisBlocked "dual_fee_missing_scope_rule"
  | Some scope =>
  if negb (scope_is_active scope) then BasisBlocked "dual_fee_missing_scope_rule" else
  match match_fee_rule d (product_sku_id product) day with
  | None => BasisBlocked "dual_fee_missing_fee_rule"
  | Some rule =>
  match direction_source_amount d o c with
  | None => BasisBlocked "dual_fee_missing_coupon_amount"
  | Some source =>
  let refunded := snapshot_refunded d o c current source in
  let base := Z.max (source - refunded) 0 in
  let rate := if direction =? PROMOTION_FEE then promotion_service_fee_rate rule else management_service_fee_rate rule in
  BasisReady (MkBasis month day store verify_store (if direction =? PROMOTION_FEE then store else verify_store)
    product channel source refunded base rate (commission_cent base rate) rule scope v t decision qualification)
  end end end end end end end end end end end.

(** [_fee_result_input_fingerprint] *)
Definition opt_text (o : option string) : pyval := match o with Some s => PStr s | None => PNone end.
Definition fee_result_input_fingerprint (o : RawDouyinOrder) (c : RawDouyinOrderCoupon) (direction : Z) (b : FeeBasis)
  : string :=
  hexdigest (json_object (
    [("coupon_id", PStr (coupon_id c)); ("order_id", PStr (order_id o)); ("fee_direction", PInt direction);
     ("original_business_month", PStr (fb_month b)); ("rule_match_date", PStr (date_text (fb_day b)));
     ("sale_store_id", opt_text (fb_sale_store b)); ("verify_store_id", opt_text (fb_verify_store b));
     ("sku_id", PStr (product_sku_id (fb_product b))); ("product_scope", PStr (product_scope (fb_product b)));
     ("product_type", PStr (product_type (fb_product b))); ("sale_channel_normalized", PStr (fb_channel b));
     ("source_amount_cent", PInt (fb_source b)); ("refunded_amount_cent", PInt (fb_refunded b));
     ("fee_base_cent", PInt (fb_base b)); ("fee_rate", PStr (rate_text (fb_rate b)));
     ("fee_amount_cent", PInt (fb_fee b)); ("rule_version", PStr (fee_rule_version (fb_rule b)));
     ("scope_rule_version", PStr (scope_rule_version (fb_scope b))); ("result_status", PInt ACTIVE_FEE_RESULT);
     ("qualifying_verify_id", PStr (verify_id (fb_verify b)));
     ("qualifying_verify_time", PStr (isoformat (fb_verify_time b)))]
    ++ match fb_decision b with
       | Some x => [("sale_attribution_decision_id", PStr (decision_id x));
                    ("sale_attribution_evidence_sha256", PStr (decision_evidence_sha256 x))]
       | None => []
       end
    ++ match fb_qualification b with
       | Some q => [("account_qualification_version_id", PStr q)]
       | None => []
       end)).

(** ** Writing *)

Definition update_result (id : string) (f : SettlementFeeResult -> SettlementFeeResult) (d : feedb) : feedb :=
  d <| fee_results := (fun r => if str_eqb (fee_result_id r) id then f r else r) <$> fee_results d |>.
Definition superseded (r : SettlementFeeResult) : SettlementFeeResult :=
  r <| result_status := SUPERSEDED_FEE_RESULT |>.

(** [_retire_unqualified_fee_result] *)
Definition retire_unqualified_fee_result (d : feedb) (current : SettlementFeeResult) : feedb :=
  match result_reverification_anchor_id current, responsible_store (result_fee_direction current) current with
  | None, Some store =>
      if str_eqb store "" then d
      else if is_fee_result_locked d store (result_original_business_month current) (Some (fee_result_id current))
      then d
      else update_result (fee_result_id current) superseded
             (d <| fee_results_current := List.filter (fun p =>
                     negb (str_eqb (current_fee_result_id p) (fee_result_id current))) (fee_results_current d) |>)
  | _, _ => d
  end.

(** The issues whose cause removes the current result. *)
Definition retiring_issues : list string :=
  ["raw_order_internal_reference_mismatch"; "dual_fee_unknown_order_status"; "dual_fee_inactive_or_unknown_sku";
   "dual_fee_unstable_owner_account"; "dual_fee_non_commission_owner"; "dual_fee_missing_sale_store";
   "dual_fee_unknown_or_out_of_scope_channel"; "dual_fee_missing_business_time"; "dual_fee_missing_verify_store";
   "dual_fee_missing_scope_rule"; "dual_fee_missing_fee_rule"; "dual_fee_missing_coupon_amount"].

(** [_block_dual_fee] for one direction; the order of the issue is the coupon's *)
Definition block_direction (run kind : string) (c : RawDouyinOrderCoupon) (d : feedb) (direction : Z) : feedb :=
  let d := if str_in kind retiring_issues
           then match current_fee_result d (coupon_id c) direction with
                | Some r => retire_unqualified_fee_result d r
                | None => d
                end
           else d in
  record_issue (MkIssue kind (Some (coupon_order_id c)) (Some (coupon_id c)) run
    (Some ("fee_direction:" +:+ str_of_Z direction)%string) "error") d.
Definition block_dual_fee (run kind : string) (c : RawDouyinOrderCoupon) (directions : list Z) (d : feedb) : feedb :=
  foldl (block_direction run kind c) d directions.

(** Inserting a result and a pointer under the constraints of their tables. *)
Definition insert_result (r : SettlementFeeResult) (d : feedb) : result feedb :=
  if existsb (fun x => str_eqb (fee_result_id x) (fee_result_id r)
       || (str_eqb (result_coupon_id x) (result_coupon_id r) && (result_fee_direction x =? result_fee_direction r)
           && ((result_version x =? result_version r)
               || str_eqb (result_calculation_run_id x) (result_calculation_run_id r)))) (fee_results d)
     || (result_source_amount_cent r <? 0) || (result_refunded_amount_cent r <? 0) || (result_fee_base_cent r <? 0)
     || (result_fee_amount_cent r <? 0) || (result_fee_rate r <? 0) || (1000000 <? result_fee_rate r)
  then Raise (NamedError "IntegrityError" "settlement_fee_result")
  else Ok (d <| fee_results := fee_results d ++ [r] |>).
Definition insert_pointer (p : SettlementFeeResultCurrent) (d : feedb) : result feedb :=
  if existsb (fun x => (str_eqb (current_coupon_id x) (current_coupon_id p)
                        && (current_fee_direction x =? current_fee_direction p))
                       || str_eqb (current_fee_result_id x) (current_fee_result_id p)) (fee_results_current d)
  then Raise (NamedError "IntegrityError" "settlement_fee_result_current")
  else Ok (d <| fee_results_current := fee_results_current d ++ [p] |>).

(** [_reattach_active_calculation_result] *)
Definition reattach_active_calculation_result (d : feedb) (r : SettlementFeeResult) : result feedb :=
  match current_pointer d (result_coupon_id r) (result_fee_direction r) with
  | Some _ => Ok d
  | None => insert_pointer (MkCurrent (result_coupon_id r) (result_fee_direction r) (fee_result_id r)) d
  end.

(** A slot without a store is frozen only through the current result. *)
Definition slot_locked (d : feedb) (store : option string) (month : string) (id : option string) : bool :=
  match store with
  | Some s => is_fee_result_locked d s month id
  | None =>
      match id with
      | Some i =>
          negb (str_eqb i "")
          && (has_historical_fee_correction d i
              || existsb (fun s => existsb (fun e => (entry_source_type e =? 1) && str_eqb (entry_source_record_id e) i
                                                     && str_eqb (entry_statement_id e) (statement_id s))
                                     (statement_entries d) && is_protected_statement d s) (statements d))
      | None => false
      end
  end.

(** The slot of the current result, when it has a store. *)
Definition prior_slot (direction : Z) (current : option SettlementFeeResult) : option (string * string) :=
  match current with
  | Some r => match responsible_store direction r with
              | Some s => if str_eqb s "" then None else Some (s, result_original_business_month r)
              | None => None
              end
  | None => None
  end.

(** The result may not move: the slot it is in, its restored basis or the slot it
    goes to is frozen. *)
Definition basis_frozen (d : feedb) (direction : Z) (current : option SettlementFeeResult) (b : FeeBasis) : bool :=
  let id := fee_result_id <$> current in
  match prior_slot direction current with
  | Some (s, m) => negb (bool_decide (Some s = fb_responsible b) && str_eqb m (fb_month b))
                   && is_fee_result_locked d s m id
  | None => false
  end
  || match current with Some r => bool_decide (is_Some (result_reverification_anchor_id r)) | None => false end
  || slot_locked d (fb_responsible b) (fb_month b) id.

(** The new version of the result. *)
Definition new_result (d : feedb) (o : RawDouyinOrder) (c : RawDouyinOrderCoupon) (direction : Z) (run : string)
    (now : instant) (b : FeeBasis) (anchor : option string) : SettlementFeeResult :=
  let version := next_fee_result_version d (coupon_id c) direction in
  let store := match find_poi_mapping d (verify_poi_id (fb_verify b)) with
               | Some m => get_store d (mapping_store_id m) | None => None end in
  MkFeeResult (stable_business_id "fee-result" [coupon_id c; str_of_Z direction; str_of_Z version])
    (coupon_id c) (order_id o) direction version (fb_month b) (fb_day b) (fb_sale_store b) (fb_verify_store b)
    (product_sku_id (fb_product b)) (product_scope (fb_product b)) (product_type (fb_product b)) (fb_channel b)
    (fb_source b) (fb_refunded b) (fb_base b) (fb_rate b) (fb_fee b) (fee_rule_version (fb_rule b))
    (scope_rule_version (fb_scope b))
    (match anchor with Some _ => SUPERSEDED_FEE_RESULT | None => ACTIVE_FEE_RESULT end) run
    (Some (fee_result_input_fingerprint o c direction b)) (fb_qualification b) (decision_id <$> fb_decision b)
    (Some (verify_id (fb_verify b))) (Some (fb_verify_time b)) (store_id <$> store) (store_name <$> store) anchor now.

(** Replacing the current result, or the first one. *)
Definition switch_current (d : feedb) (o : RawDouyinOrder) (c : RawDouyinOrderCoupon) (direction : Z) (run : string)
    (now : instant) (current : option SettlementFeeResult) (b : FeeBasis) : result feedb :=
  let r := new_result d o c direction run now b None in
  match current with
  | None =>
      let d := d <| fee_results := (fun x =>
                 if str_eqb (result_coupon_id x) (coupon_id c) && (result_fee_direction x =? direction)
                    && (result_status x =? ACTIVE_FEE_RESULT) then superseded x else x) <$> fee_results d |> in
      let* d := insert_result r d in
      insert_pointer (MkCurrent (coupon_id c) direction (fee_result_id r)) d
  | Some cur =>
      let* d := insert_result r d in
      let d := update_result (fee_result_id cur) superseded d in
      match current_pointer d (coupon_id c) direction with
      | None => Raise AssertionError
      | Some _ =>
          let* _ := raise_if (existsb (fun p => str_eqb (current_fee_result_id p) (fee_result_id r))
                                (fee_results_current d))
                      (NamedError "IntegrityError" "settlement_fee_result_current") in
          Ok (d <| fee_results_current := (fun p =>
                if str_eqb (current_coupon_id p) (coupon_id c) && (current_fee_direction p =? direction)
                then MkCurrent (coupon_id c) direction (fee_result_id r) else p) <$> fee_results_current d |>)
      end
  end.

(** A new verification of a frozen result: its own basis, posted as an adjustment. *)
Definition restore_basis (d : feedb) (o : RawDouyinOrder) (c : RawDouyinOrderCoupon) (direction : Z) (run : string)
    (now : instant) (cur : SettlementFeeResult) (b : FeeBasis) : result feedb :=
  let r := new_result d o c direction run now b
             (Some (if truthy_text (result_reverification_anchor_id cur)
                    then default "" (result_reverification_anchor_id cur) else fee_result_id cur)) in
  let* d := insert_result r d in
  post_reverification_restoration hexdigest d r run.

(** Writing a basis for a frozen result. *)
Definition write_frozen (d : feedb) (o : RawDouyinOrder) (c : RawDouyinOrderCoupon) (direction : Z) (run : string)
    (now : instant) (current : option SettlementFeeResult) (b : FeeBasis) : result (feedb * bool) :=
  let kind := match current with
              | Some r => if has_historical_fee_correction d (fee_result_id r)
                          then "dual_fee_historical_correction_basis_pinned" else "dual_fee_locked_recalculation"
              | None => "dual_fee_locked_slot_materialization"
              end in
  let blocked d := Ok (block_dual_fee run kind c [direction] d, false) in
  match current with
  | None => blocked d
  | Some cur =>
      if same_qualifying_verification cur (fb_verify b) then
        if bool_decide (is_Some (result_reverification_anchor_id cur)) then Ok (d, true) else blocked d
      else match result_qualifying_verify_id cur with
      | None => blocked d
      | Some _ =>
          let* d := materialize_direction_verify_cancellation hexdigest isoformat d c run direction in
          if has_verify_cancellation d cur
             && (result_fee_amount_cent cur + (effective_adjustment_totals hexdigest d (fee_result_id cur)).2 =? 0)
          then let* d := restore_basis d o c direction run now cur b in Ok (d, true)
          else blocked d
      end
  end.

(** [_materialize_dual_fee_direction] *)
Definition materialize_dual_fee_direction (d : feedb) (o : RawDouyinOrder) (c : RawDouyinOrderCoupon) (direction : Z)
    (run : string) (now : instant) (current : option SettlementFeeResult) (force_recalculate : bool)
  : result (feedb * bool) :=
  match fee_basis d o c direction current with
  | BasisBlocked kind => Ok (block_dual_fee run kind c [direction] d, false)
  | BasisSaleOutside =>
      Ok (match current with Some r => retire_unqualified_fee_result d r | None => d end, true)
  | BasisUnverified =>
      let d := match current with
               | Some r => match matching_verify_cancellation d r with
                           | None => retire_unqualified_fee_result d r
                           | Some _ => d
                           end
               | None => d
               end in
      Ok (block_dual_fee run "dual_fee_missing_valid_verify" c [direction] d, false)
  | BasisVerifyOutside => Ok (d, true)
  | BasisReady b =>
      if match current with
         | Some r => opt_is (result_input_fingerprint r) (fee_result_input_fingerprint o c direction b)
                     && negb force_recalculate
         | None => false
         end
      then Ok (d, true)
      else if basis_frozen d direction current b then write_frozen d o c direction run now current b
      else let* d := switch_current d o c direction run now current b in Ok (d, true)
  end.

(** ** The run *)

(** A direction that has no result of this run yet. *)
Definition run_direction (o : RawDouyinOrder) (c : RawDouyinOrderCoupon) (run : string) (now : instant)
    (force_recalculate : bool) (st : feedb * Z) (direction : Z) : result (feedb * Z) :=
  let '(d, blocked) := st in
  let current := current_fee_result d (coupon_id c) direction in
  match calculation_run_result d (coupon_id c) direction run with
  | Some r =>
      match current with
      | None => if result_status r =? ACTIVE_FEE_RESULT
                then let* d := reattach_active_calculation_result d r in Ok (d, blocked) else Ok (d, blocked)
      | Some _ => Ok (d, blocked)
      end
  | None =>
      let* (d, done) := materialize_dual_fee_direction d o c direction run now current force_recalculate in
      Ok (d, if done then blocked else blocked + 1)
  end.

(** A closed order: its results are retired; one that was corrected by hand keeps
    its basis and gets the reversals of refunds and cancellations. *)
Definition close_direction (c : RawDouyinOrderCoupon) (st : feedb * list Z) (direction : Z) : feedb * list Z :=
  let '(d, manual) := st in
  match current_fee_result d (coupon_id c) direction with
  | None => st
  | Some r =>
      let corrected := has_historical_fee_correction d (fee_result_id r)
        || match result_reverification_anchor_id r with
           | Some a => has_historical_fee_correction d a
           | None => false
           end in
      (retire_unqualified_fee_result d r, if corrected then manual ++ [direction] else manual)
  end.

Definition run_closed (c : RawDouyinOrderCoupon) (run : string) (st : feedb * Z) : result (feedb * Z) :=
  let '(d, blocked) := st in
  let '(d, manual) := foldl (close_direction c) (d, []) [PROMOTION_FEE; MANAGEMENT_FEE] in
  match manual with
  | [] => Ok (d, blocked)
  | _ =>
      let* (d, n) := materialize_refund_adjustments hexdigest d c run manual in
      let* d := fold_result (fun d direction =>
                  materialize_direction_verify_cancellation hexdigest isoformat d c run direction) d manual in
      Ok (d, blocked + n)
  end.

(** One coupon of [rebuild_dual_fee_results] *)
Definition run_coupon (run : string) (now : instant) (force_recalculate : bool) (st : feedb * Z)
    (c : RawDouyinOrderCoupon) : result (feedb * Z) :=
  let '(d, blocked) := st in
  let both := [PROMOTION_FEE; MANAGEMENT_FEE] in
  match raw_order_for_coupon d c with
  | None => Ok (block_dual_fee run "raw_order_internal_reference_mismatch" c both d, blocked + 2)
  | Some o =>
      let status := dual_order_status o in
      if str_eqb status "closed" then run_closed c run (d, blocked)
      else if str_eqb status "unknown"
      then Ok (block_dual_fee run "dual_fee_unknown_order_status" c both d, blocked + 2)
      else
        let* (d, blocked) := fold_result (run_direction o c run now force_recalculate) (d, blocked) both in
        let* (d, n) := materialize_refund_adjustments hexdigest d c run both in
        let* d := materialize_verify_cancellation_adjustment hexdigest isoformat d c run in
        Ok (d, blocked + n)
  end.

Definition coupon_before (a b : RawDouyinOrderCoupon) : Prop := String.le (coupon_id a) (coupon_id b).
#[export] Instance coupon_before_dec a b : Decision (coupon_before a b).
Proof. unfold coupon_before. apply _. Defined.

Record DualFeeStats := MkStats { result_count : Z; adjustment_count : Z; blocked_count : Z }.

(** The rows of the coupons in scope; all rows without a scope. *)
Definition in_scope (scope : option (list string)) (id : string) : bool :=
  match scope with Some l => str_in id l | None => true end.
Definition scoped_count {A} (scope : option (list string)) (coupon_of : A -> string) (l : list A) : Z :=
  Z.of_nat (length (List.filter (fun x => in_scope scope (coupon_of x)) l)).

(** [rebuild_dual_fee_results] *)
Definition rebuild_dual_fee_results (d : feedb) (run : string) (now : instant) (force_recalculate : bool)
    (coupon_ids : option (list string)) : result (feedb * DualFeeStats) :=
  match coupon_ids with
  | Some [] => Ok (d, MkStats 0 0 0)
  | _ =>
      let coupons := merge_sort coupon_before
        (List.filter (fun c => in_scope coupon_ids (coupon_id c)) (fee_coupons d)) in
      let* (d', blocked) := fold_result (run_coupon run now force_recalculate) (d, 0) coupons in
      Ok (d', MkStats
        (scoped_count coupon_ids result_coupon_id (fee_results d')
         - scoped_count coupon_ids result_coupon_id (fee_results d))
        (scoped_count coupon_ids adj_coupon_id (fee_adjustments d')
         - scoped_count coupon_ids adj_coupon_id (fee_adjustments d)) blocked)
  end.
End Results.
