(* ===== verification/FeeResultProps.v ===== *)
(** * Fee results: steps

    Every write of a run is one of a few steps on the ledger; the steps keep one
    active result per coupon and direction, the current one, and leave the sources
    of frozen statements alone. *)
From S2P Require Import Prelude PyValue Jobs FeeTables FeeLedger FeeProps Statements StatementProps SaleAccounts FeeResults.
#[local] Open Scope Z_scope.
#[local] Set Default Proof Using "Type".

Definition slot_of (r : SettlementFeeResult) : string * Z := (result_coupon_id r, result_fee_direction r).
Definition pointer_slot (p : SettlementFeeResultCurrent) : string * Z := (current_coupon_id p, current_fee_direction p).

(** Pointers and active results correspond. *)
Record results_ok (d : feedb) : Prop := MkResultsOk {
  ro_ids : results_unique d;
  ro_slots : NoDup (pointer_slot <$> fee_results_current d);
  ro_pointer : forall p, p ∈ fee_results_current d -> exists r, r ∈ fee_results d
    /\ fee_result_id r = current_fee_result_id p /\ slot_of r = pointer_slot p
    /\ result_status r = ACTIVE_FEE_RESULT /\ result_reverification_anchor_id r = None;
  ro_active : forall r, r ∈ fee_results d -> result_status r = ACTIVE_FEE_RESULT ->
    exists p, p ∈ fee_results_current d /\ current_fee_result_id p = fee_result_id r;
  ro_adjustments : forall a, a ∈ fee_adjustments d -> adj_original_fee_result_id a ∈ fee_result_id <$> fee_results d;
  ro_anchors : forall r, r ∈ fee_results d -> forall a, result_reverification_anchor_id r = Some a ->
    a ∈ fee_result_id <$> fee_results d;
}.

(** The slot of a result on a statement of a store is open. *)
Definition open_slot (d : feedb) (r : SettlementFeeResult) : Prop :=
  forall store, store <> "" -> responsible_store (result_fee_direction r) r = Some store ->
    is_fee_result_locked d store (result_original_business_month r) None = false.

Definition add_result (r : SettlementFeeResult) (d : feedb) : feedb :=
  d <| fee_results := fee_results d ++ [r] |>.
Definition drop_pointer (id : string) (d : feedb) : feedb :=
  d <| fee_results_current := List.filter (fun p => negb (str_eqb (current_fee_result_id p) id)) (fee_results_current d) |>.
Definition supersede_slot (coupon : string) (direction : Z) (d : feedb) : feedb :=
  d <| fee_results := (fun x =>
         if str_eqb (result_coupon_id x) coupon && (result_fee_direction x =? direction)
            && (result_status x =? ACTIVE_FEE_RESULT) then superseded x else x) <$> fee_results d |>.
Definition add_pointer (p : SettlementFeeResultCurrent) (d : feedb) : feedb :=
  d <| fee_results_current := fee_results_current d ++ [p] |>.
Definition moved (coupon : string) (direction : Z) (id : string) (p : SettlementFeeResultCurrent)
  : SettlementFeeResultCurrent :=
  if str_eqb (current_coupon_id p) coupon && (current_fee_direction p =? direction)
  then MkCurrent coupon direction id else p.

Definition move_pointer (coupon : string) (direction : Z) (id : string) (d : feedb) : feedb :=
  d <| fee_results_current := moved coupon direction id <$> fee_results_current d |>.

Inductive ledger_step (d : feedb) : feedb -> Prop :=
  | step_post d' : posts_open d d' -> ledger_step d d'
  | step_retire cur : cur ∈ fee_results d -> open_slot d cur ->
      ledger_step d (update_result (fee_result_id cur) superseded (drop_pointer (fee_result_id cur) d))
  | step_first r :
      current_pointer d (result_coupon_id r) (result_fee_direction r) = None ->
      fee_result_id r ∉ fee_result_id <$> fee_results d -> result_status r = ACTIVE_FEE_RESULT ->
      result_reverification_anchor_id r = None -> open_slot d r ->
      ledger_step d (add_pointer (MkCurrent (result_coupon_id r) (result_fee_direction r) (fee_result_id r))
                       (add_result r (supersede_slot (result_coupon_id r) (result_fee_direction r) d)))
  | step_switch cur p r :
      cur ∈ fee_results d -> current_pointer d (result_coupon_id r) (result_fee_direction r) = Some p ->
      current_fee_result_id p = fee_result_id cur -> open_slot d cur ->
      fee_result_id r ∉ fee_result_id <$> fee_results d -> result_status r = ACTIVE_FEE_RESULT ->
      result_reverification_anchor_id r = None -> open_slot d r ->
      ledger_step d (move_pointer (result_coupon_id r) (result_fee_direction r) (fee_result_id r)
                       (update_result (fee_result_id cur) superseded (add_result r d)))
  | step_restore r :
      fee_result_id r ∉ fee_result_id <$> fee_results d -> result_status r = SUPERSEDED_FEE_RESULT ->
      (forall a, result_reverification_anchor_id r = Some a -> a ∈ fee_result_id <$> fee_results d) ->
      ledger_step d (add_result r d).

(** ** Pointers *)

Lemma current_pointer_some d coupon direction p :
  current_pointer d coupon direction = Some p -> p ∈ fee_results_current d /\ pointer_slot p = (coupon, direction).
Proof. intros [Hp H]%find_some_in. split; [done|]. unfold pointer_slot. tests. congruence. Qed.

Lemma current_pointer_none d coupon direction p :
  current_pointer d coupon direction = None -> p ∈ fee_results_current d -> pointer_slot p <> (coupon, direction).
Proof.
  intros H Hp%list_elem_of_In [= E1 E2]. pose proof (List.find_none _ _ H p Hp) as E. cbn in E.
  by rewrite E1, E2, str_eqb_refl, Z.eqb_refl in E.
Qed.

Lemma pointer_unique d p q :
  results_ok d -> p ∈ fee_results_current d -> q ∈ fee_results_current d -> pointer_slot p = pointer_slot q -> p = q.
Proof. intros Hok. apply fmap_NoDup_inj, Hok. Qed.

Lemma result_unique d r r' :
  results_unique d -> r ∈ fee_results d -> r' ∈ fee_results d -> fee_result_id r = fee_result_id r' -> r = r'.
Proof. intros Hu. by apply (fmap_NoDup_inj fee_result_id (fee_results d)). Qed.

(** The result a pointer names is in its slot. *)
Lemma pointer_result d p r :
  results_ok d -> p ∈ fee_results_current d -> r ∈ fee_results d -> fee_result_id r = current_fee_result_id p ->
  slot_of r = pointer_slot p /\ result_status r = ACTIVE_FEE_RESULT /\ result_reverification_anchor_id r = None.
Proof.
  intros Hok Hp Hr E. destruct (ro_pointer d Hok p Hp) as (r' & Hr' & E1 & E2 & E3 & E4).
  assert (r = r') as -> by (apply (result_unique d); [apply Hok|done|done|congruence]). done.
Qed.

(** At most one result of a slot is active. *)
Lemma active_unique d r r' :
  results_ok d -> r ∈ fee_results d -> r' ∈ fee_results d -> slot_of r = slot_of r' ->
  result_status r = ACTIVE_FEE_RESULT -> result_status r' = ACTIVE_FEE_RESULT -> r = r'.
Proof.
  intros Hok Hr Hr' Es Ha Ha'. destruct (ro_active d Hok r Hr Ha) as (p & Hp & E).
  destruct (ro_active d Hok r' Hr' Ha') as (p' & Hp' & E').
  destruct (pointer_result d p r Hok Hp Hr) as [S1 _]; [done|].
  destruct (pointer_result d p' r' Hok Hp' Hr') as [S2 _]; [done|].
  assert (p = p') as -> by (apply (pointer_unique d); [done..|congruence]).
  apply (result_unique d); [apply Hok|done|done|congruence].
Qed.

(** ** Keeping the invariant *)

(** A map that only supersedes. *)
Definition supersedes (g : SettlementFeeResult -> SettlementFeeResult) : Prop := forall x, g x = x \/ g x = superseded x.

Lemma supersedes_same g x : supersedes g ->
  fee_result_id (g x) = fee_result_id x /\ slot_of (g x) = slot_of x
  /\ result_reverification_anchor_id (g x) = result_reverification_anchor_id x
  /\ (result_status (g x) = ACTIVE_FEE_RESULT -> g x = x).
Proof. intros Hg. destruct (Hg x) as [-> | ->]; done. Qed.

Lemma supersedes_ids g (l : list SettlementFeeResult) : supersedes g -> fee_result_id <$> (g <$> l) = fee_result_id <$> l.
Proof.
  intros Hg. rewrite <- list_fmap_compose. apply list_fmap_ext. intros i x _. cbn. by apply supersedes_same.
Qed.

Lemma supersede_one id : supersedes (fun r => if str_eqb (fee_result_id r) id then superseded r else r).
Proof. intros x. destruct (str_eqb _ _); auto. Qed.
Lemma supersede_all coupon direction : supersedes (fun x =>
  if str_eqb (result_coupon_id x) coupon && (result_fee_direction x =? direction) && (result_status x =? ACTIVE_FEE_RESULT)
  then superseded x else x).
Proof. intros x. destruct (_ && _); auto. Qed.
#[local] Hint Resolve supersede_one supersede_all : core.

(** Anchors keep naming results. *)
Definition anchored_in (ids : list string) (r : SettlementFeeResult) : Prop :=
  forall a, result_reverification_anchor_id r = Some a -> a ∈ ids.
Lemma anchors_kept g (l extra : list SettlementFeeResult) :
  supersedes g -> (forall r, r ∈ l ++ extra -> anchored_in (fee_result_id <$> l) r) ->
  forall r, r ∈ g <$> (l ++ extra) -> anchored_in (fee_result_id <$> (g <$> (l ++ extra))) r.
Proof.
  intros Hg Ha r (x & -> & Hx)%list_elem_of_fmap a E. rewrite supersedes_ids, fmap_app by done.
  apply elem_of_app. left. apply (Ha x Hx). by destruct (supersedes_same g x Hg) as (_ & _ & <- & _).
Qed.
Lemma anchored_app (l : list SettlementFeeResult) r :
  (forall x, x ∈ l -> anchored_in (fee_result_id <$> l) x) -> anchored_in (fee_result_id <$> l) r ->
  forall x, x ∈ l ++ [r] -> anchored_in (fee_result_id <$> l) x.
Proof. intros Hl Hr x [Hx| ->%list_elem_of_singleton]%elem_of_app; auto. Qed.
Lemma unanchored ids r : result_reverification_anchor_id r = None -> anchored_in ids r.
Proof. intros E a. by rewrite E. Qed.

Lemma step_post_ok d d' : results_ok d -> posts_open d d' -> results_ok d'.
Proof.
  intros [H1 H2 H3 H4 H5 H6] [(E1 & E2 & _) (l & El & Hl)]. split; unfold results_unique; rewrite ?E1, ?E2; try done.
  rewrite El. intros a [Ha|Ha]%elem_of_app; [by apply H5|]. rewrite List.Forall_forall in Hl. apply list_elem_of_In in Ha.
  destruct (Hl a Ha) as (r & st & Hf & _). apply find_some_in in Hf as [Hr E]. tests.
  match goal with H : fee_result_id r = _ |- _ => rewrite <- H end. by apply list_elem_of_fmap_2.
Qed.

Lemma step_retire_ok d cur :
  results_ok d -> results_ok (update_result (fee_result_id cur) superseded (drop_pointer (fee_result_id cur) d)).
Proof.
  intros [H1 H2 H3 H4 H5 H6]. split; cbn [update_result drop_pointer field_set fee_results fee_results_current fee_adjustments].
  - unfold results_unique. cbn [update_result drop_pointer field_set fee_results]. by rewrite supersedes_ids.
  - by apply fmap_filter_sub.
  - intros p Hp. apply list_elem_of_In, filter_In in Hp as [Hp Hn]. apply list_elem_of_In in Hp.
    destruct (H3 p Hp) as (r & Hr & E1 & E2 & E3 & E4). exists r. split_and!; try done.
    apply list_elem_of_fmap. exists r. split; [|done]. rewrite E1. apply negb_true_iff in Hn. by rewrite Hn.
  - intros r' (r & -> & Hr)%list_elem_of_fmap Ha.
    destruct (str_eqb (fee_result_id r) (fee_result_id cur)) eqn:E; [done|].
    destruct (H4 r Hr Ha) as (p & Hp & Ep). exists p. split; [|done]. apply list_elem_of_In, filter_In.
    split; [by apply list_elem_of_In|]. by rewrite Ep, E.
  - intros a Ha. rewrite supersedes_ids by done. by apply H5.
  - rewrite <- (app_nil_r (fee_results d)). apply anchors_kept; [done|]. by rewrite app_nil_r.
Qed.

Lemma add_result_unique d r : results_unique d -> fee_result_id r ∉ fee_result_id <$> fee_results d -> results_unique (add_result r d).
Proof.
  intros H Hf. unfold results_unique. cbn [add_result field_set fee_results]. rewrite fmap_app. apply NoDup_app.
  split_and!; [done| |apply NoDup_singleton]. intros x Hx E%list_elem_of_singleton. cbn in E. by subst.
Qed.

Lemma step_first_ok d r :
  results_ok d -> current_pointer d (result_coupon_id r) (result_fee_direction r) = None ->
  fee_result_id r ∉ fee_result_id <$> fee_results d -> result_status r = ACTIVE_FEE_RESULT ->
  result_reverification_anchor_id r = None ->
  results_ok (add_pointer (MkCurrent (result_coupon_id r) (result_fee_direction r) (fee_result_id r))
                (add_result r (supersede_slot (result_coupon_id r) (result_fee_direction r) d))).
Proof.
  intros [H1 H2 H3 H4 H5 H6] Hp Hf Ha Hn.
  set (g := fun x : SettlementFeeResult => if str_eqb (result_coupon_id x) (result_coupon_id r)
    && (result_fee_direction x =? result_fee_direction r) && (result_status x =? ACTIVE_FEE_RESULT) then superseded x else x).
  assert (supersedes g) as Hg by apply supersede_all.
  split; cbn [add_pointer add_result supersede_slot field_set fee_results fee_results_current fee_adjustments].
  - apply (add_result_unique (supersede_slot (result_coupon_id r) (result_fee_direction r) d) r); unfold results_unique;
      cbn [supersede_slot field_set fee_results]; by rewrite supersedes_ids.
  - rewrite fmap_app. apply NoDup_app. split_and!; [done| |apply NoDup_singleton].
    intros x (p & -> & Hin)%list_elem_of_fmap E%list_elem_of_singleton. by apply (current_pointer_none d _ _ p Hp).
  - intros p [Hin| ->%list_elem_of_singleton]%elem_of_app.
    + destruct (H3 p Hin) as (x & Hx & E1 & E2 & E3 & E4). exists x. split_and!; try done. apply elem_of_app. left.
      apply list_elem_of_fmap. exists x. split; [|done].
      pose proof (current_pointer_none d _ _ p Hp Hin) as Hne. rewrite <- E2 in Hne. unfold slot_of in Hne.
      destruct (str_eqb _ _ && _) eqn:E; [|done]. exfalso. tests. apply Hne. congruence.
    + exists r. split_and!; try done. apply elem_of_app. right. by apply list_elem_of_singleton.
  - intros x [Hx| ->%list_elem_of_singleton]%elem_of_app Hax.
    + apply list_elem_of_fmap in Hx as (y & Ey & Hy). assert (x = y) as ->.
      { rewrite Ey. apply (supersedes_same g y Hg). unfold g. by rewrite <- Ey. }
      destruct (H4 y Hy Hax) as (p & Hin & Ep). exists p. split; [|done]. apply elem_of_app. by left.
    + eexists. split; [apply elem_of_app; right; by apply list_elem_of_singleton|done].
  - intros a Hin. rewrite fmap_app, supersedes_ids by done. apply elem_of_app. left. by apply H5.
  - intros x Hx. rewrite fmap_app, supersedes_ids by done. apply elem_of_app in Hx as [Hx| ->%list_elem_of_singleton].
    + apply list_elem_of_fmap in Hx as (y & -> & Hy). intros a E. apply elem_of_app. left. apply (H6 y Hy).
      by destruct (supersedes_same g y Hg) as (_ & _ & <- & _).
    + by apply unanchored.
Qed.

Lemma moved_slot coupon direction id p : pointer_slot (moved coupon direction id p) = pointer_slot p.
Proof. unfold moved, pointer_slot. destruct (_ && _) eqn:E; [|done]. cbn. tests. congruence. Qed.

(** Only the pointer of the slot moves. *)
Lemma moved_other d coupon direction id p q :
  results_ok d -> current_pointer d coupon direction = Some p -> q ∈ fee_results_current d ->
  (q = p /\ moved coupon direction id q = MkCurrent coupon direction id) \/ (q <> p /\ moved coupon direction id q = q).
Proof.
  intros Hok Hp Hq. apply current_pointer_some in Hp as [Hin Hs]. unfold moved.
  destruct (str_eqb _ _ && _) eqn:E; [left|right].
  - split; [|done]. apply (pointer_unique d); [done..|]. rewrite Hs. unfold pointer_slot. tests. congruence.
  - split; [|done]. intros ->. unfold pointer_slot in Hs. injection Hs as E1 E2.
    by rewrite E1, E2, str_eqb_refl, Z.eqb_refl in E.
Qed.

Lemma step_switch_ok d cur p r :
  results_ok d -> cur ∈ fee_results d -> current_pointer d (result_coupon_id r) (result_fee_direction r) = Some p ->
  current_fee_result_id p = fee_result_id cur -> fee_result_id r ∉ fee_result_id <$> fee_results d ->
  result_status r = ACTIVE_FEE_RESULT -> result_reverification_anchor_id r = None ->
  results_ok (move_pointer (result_coupon_id r) (result_fee_direction r) (fee_result_id r)
                (update_result (fee_result_id cur) superseded (add_result r d))).
Proof.
  intros Hok Hcur Hp Ep Hf Ha Hn. pose proof Hok as [H1 H2 H3 H4 H5 H6].
  pose proof (current_pointer_some d _ _ p Hp) as [Hpin Hps].
  assert (fee_result_id r <> fee_result_id cur) as Hne.
  { intros E. apply Hf. rewrite E. by apply list_elem_of_fmap_2. }
  set (g := fun x : SettlementFeeResult => if str_eqb (fee_result_id x) (fee_result_id cur) then superseded x else x).
  assert (supersedes g) as Hg by apply supersede_one.
  split; cbn [move_pointer update_result add_result field_set fee_results fee_results_current fee_adjustments].
  - unfold results_unique. cbn [move_pointer update_result add_result field_set fee_results].
    rewrite supersedes_ids by done. by apply (add_result_unique d r).
  - rewrite <- list_fmap_compose. erewrite list_fmap_ext; [exact H2|]. intros i q _. apply moved_slot.
  - intros q' (q & -> & Hq)%list_elem_of_fmap. setoid_rewrite fmap_app.
    destruct (moved_other d _ _ (fee_result_id r) p q Hok Hp Hq) as [[-> E]|[Hqp E]].
    + rewrite E. exists r. split_and!; try done. apply elem_of_app. right. apply list_elem_of_singleton.
      by rewrite str_eqb_false.
    + rewrite E. destruct (H3 q Hq) as (x & Hx & E1 & E2 & E3 & E4). exists x. split_and!; try done.
      apply elem_of_app. left. apply list_elem_of_fmap. exists x. split; [|done]. rewrite str_eqb_false; [done|].
      intros Ex. apply Hqp. apply (pointer_unique d); [done..|].
      destruct (pointer_result d p x Hok Hpin Hx) as [S1 _]; [congruence|]. congruence.
  - intros x' (x & -> & [Hx| ->%list_elem_of_singleton]%elem_of_app)%list_elem_of_fmap Hax.
    + destruct (str_eqb (fee_result_id x) (fee_result_id cur)) eqn:E; [done|].
      destruct (H4 x Hx Hax) as (q & Hq & Eq). exists q. split; [|done]. apply list_elem_of_fmap. exists q. split; [|done].
      destruct (moved_other d _ _ (fee_result_id r) p q Hok Hp Hq) as [[-> _]|[_ E']]; [|symmetry; exact E'].
      exfalso. rewrite <- Eq, Ep, str_eqb_refl in E. done.
    + rewrite str_eqb_false by done. exists (moved (result_coupon_id r) (result_fee_direction r) (fee_result_id r) p).
      split; [by apply (list_elem_of_fmap_2 (moved _ _ _))|].
      destruct (moved_other d _ _ (fee_result_id r) p p Hok Hp Hpin) as [[_ ->]|[? _]]; done.
  - intros a Hin. rewrite supersedes_ids by done. rewrite fmap_app. apply elem_of_app. left. by apply H5.
  - apply (anchors_kept g); [done|]. apply anchored_app; [done|]. by apply unanchored.
Qed.

Lemma step_restore_ok d r :
  results_ok d -> fee_result_id r ∉ fee_result_id <$> fee_results d -> result_status r = SUPERSEDED_FEE_RESULT ->
  anchored_in (fee_result_id <$> fee_results d) r -> results_ok (add_result r d).
Proof.
  intros [H1 H2 H3 H4 H5 H6] Hf Hs Ha. split; cbn [add_result field_set fee_results fee_results_current fee_adjustments].
  - by apply add_result_unique.
  - done.
  - intros p Hp. destruct (H3 p Hp) as (x & Hx & E). exists x. split; [|done]. apply elem_of_app. by left.
  - intros x [Hx| ->%list_elem_of_singleton]%elem_of_app Hax; [by apply H4|]. rewrite Hs in Hax. done.
  - intros a Hin. rewrite fmap_app. apply elem_of_app. left. by apply H5.
  - intros x Hx a E. rewrite fmap_app. apply elem_of_app. left. by apply (anchored_app (fee_results d) r H6 Ha x Hx).
Qed.

Lemma ledger_step_ok d d' : results_ok d -> ledger_step d d' -> results_ok d'.
Proof.
  intros Hok [d1 H|cur Hc Ho|r Hp Hf Ha Hn Ho|cur p r Hc Hp Ep Ho Hf Ha Hn Ho'|r Hf Hs Han].
  - by eapply step_post_ok.
  - by apply step_retire_ok.
  - by apply step_first_ok.
  - by eapply step_switch_ok.
  - by apply step_restore_ok.
Qed.

(** * Fee results: frozen statements

    The steps of a run leave the sources of every frozen statement alone, whatever
    results they retire, replace or add. *)

(** The tables that freeze a month are unchanged and so are the sources of every
    frozen statement. *)
Definition same_freezing (d d' : feedb) : Prop :=
  statements d' = statements d /\ statement_confirmations d' = statement_confirmations d
  /\ promotion_invoices d' = promotion_invoices d /\ management_invoices d' = management_invoices d
  /\ disputes d' = disputes d.
Record keeps_frozen (d d' : feedb) : Prop := MkKeeps {
  kf_tables : same_freezing d d';
  kf_sources : forall store month, store <> "" -> is_fee_result_locked d store month None = true ->
    statement_sources d' store month = statement_sources d store month;
}.

Lemma freezing_locked d d' store month :
  same_freezing d d' -> is_fee_result_locked d' store month None = is_fee_result_locked d store month None.
Proof.
  unfold same_freezing. intros H. destruct_and!.
  unfold is_fee_result_locked, is_settlement_period_immutable, locked_statement, is_protected_statement.
  by repeat match goal with H : _ = _ |- _ => rewrite H; clear H end.
Qed.

#[export] Instance keeps_frozen_preorder : PreOrder keeps_frozen.
Proof.
  split; [done|]. intros d1 d2 d3 [T1 S1] [T2 S2]. split.
  - unfold same_freezing in *. destruct_and!. split_and!; congruence.
  - intros store month Hs Hl. rewrite S2, S1; [done..|]. by rewrite (freezing_locked d1 d2).
Qed.

(** ** Sources of one result *)

Definition contribution (ptrs : list SettlementFeeResultCurrent) (store month : string) (r : SettlementFeeResult)
  : list StatementSource :=
  if str_eqb (result_original_business_month r) month && opt_is (responsible_store (result_fee_direction r) r) store
  then (fun _ => result_statement_source store r)
       <$> List.filter (fun p => str_eqb (current_fee_result_id p) (fee_result_id r)) ptrs
  else [].

Lemma result_sources_contributions d store month :
  result_sources d store month = mjoin (contribution (fee_results_current d) store month <$> fee_results d).
Proof. reflexivity. Qed.

(** The result is billed to the store in the month. *)
Definition in_slot (store month : string) (r : SettlementFeeResult) : Prop :=
  result_original_business_month r = month /\ responsible_store (result_fee_direction r) r = Some store.

Lemma contribution_outside ptrs store month r : ~ in_slot store month r -> contribution ptrs store month r = [].
Proof.
  intros H. unfold contribution. destruct (_ && _) eqn:E; [|done]. exfalso. apply H. tests. done.
Qed.

Lemma contribution_same ptrs ptrs' store month g r :
  supersedes g ->
  (in_slot store month r -> List.filter (fun p => str_eqb (current_fee_result_id p) (fee_result_id r)) ptrs'
                            = List.filter (fun p => str_eqb (current_fee_result_id p) (fee_result_id r)) ptrs) ->
  contribution ptrs' store month (g r) = contribution ptrs store month r.
Proof.
  intros Hg H. assert (contribution ptrs' store month (g r) = contribution ptrs' store month r) as ->
    by (destruct (Hg r) as [-> | ->]; done).
  unfold contribution. destruct (_ && _) eqn:E; [|done]. rewrite H; [done|]. tests. done.
Qed.

Lemma mjoin_nil {A} (l : list (list A)) : Forall (.= []) l -> mjoin l = [].
Proof. induction 1 as [|x l -> _ IH]; [done|]. cbn. exact IH. Qed.

(** Results that are only superseded, and added outside the slot. *)
Lemma result_sources_same d d' g extra store month :
  supersedes g -> fee_results d' = (g <$> fee_results d) ++ extra ->
  (forall r, r ∈ fee_results d -> in_slot store month r ->
     List.filter (fun p => str_eqb (current_fee_result_id p) (fee_result_id r)) (fee_results_current d')
     = List.filter (fun p => str_eqb (current_fee_result_id p) (fee_result_id r)) (fee_results_current d)) ->
  (forall r, r ∈ extra -> contribution (fee_results_current d') store month r = []) ->
  result_sources d' store month = result_sources d store month.
Proof.
  intros Hg E Hp Hx. rewrite !result_sources_contributions, E, fmap_app, join_app.
  rewrite (mjoin_nil (contribution _ _ _ <$> extra)).
  - rewrite app_nil_r, <- list_fmap_compose. f_equal. apply list_fmap_ext. intros i r Hi. cbn.
    apply contribution_same; [done|]. apply Hp. by eapply list_elem_of_lookup_2.
  - apply Forall_fmap, List.Forall_forall. intros r Hr. apply Hx. by apply list_elem_of_In.
Qed.

(** Adjustments keep their originals. *)
Lemma adjustment_source_kept d d' g extra store a :
  supersedes g -> fee_results d' = (g <$> fee_results d) ++ extra ->
  adj_original_fee_result_id a ∈ fee_result_id <$> fee_results d ->
  adjustment_source d' store a = adjustment_source d store a.
Proof.
  intros Hg E Ha. unfold adjustment_source. rewrite E, find_app.
  assert (forall l, List.find (fun r => str_eqb (fee_result_id r) (adj_original_fee_result_id a)) (g <$> l)
    = g <$> List.find (fun r => str_eqb (fee_result_id r) (adj_original_fee_result_id a)) l) as ->.
  { induction l as [|x l IH]; [done|]. cbn. destruct (supersedes_same g x Hg) as (-> & _). by destruct (str_eqb _ _). }
  destruct (List.find _ (fee_results d)) as [x|] eqn:Hf.
  - cbn. destruct (Hg x) as [-> | ->]; done.
  - exfalso. apply list_elem_of_fmap in Ha as (x & Ex & Hx%list_elem_of_In).
    pose proof (List.find_none _ _ Hf x Hx) as H. cbn in H. by rewrite Ex, str_eqb_refl in H.
Qed.

Lemma statement_sources_same d d' g extra store month :
  results_ok d -> supersedes g -> fee_results d' = (g <$> fee_results d) ++ extra ->
  fee_adjustments d' = fee_adjustments d -> carryforward_applications d' = carryforward_applications d ->
  result_sources d' store month = result_sources d store month ->
  statement_sources d' store month = statement_sources d store month.
Proof.
  intros Hok Hg E Ea Ep Hr. unfold statement_sources. rewrite Hr.
  assert (active_fee_adjustments d' month = active_fee_adjustments d month) as ->
    by (unfold active_fee_adjustments; by rewrite Ea, Ep).
  f_equal. assert (forall a, a ∈ active_fee_adjustments d month -> adjustment_source d' store a = adjustment_source d store a) as H.
  { intros a Ha. apply list_elem_of_In, filter_In in Ha as [Ha _]. apply (adjustment_source_kept d d' g extra); [done..|].
    by apply (ro_adjustments d Hok), list_elem_of_In. }
  revert H. generalize (active_fee_adjustments d month). intros l. generalize (@nil StatementSource).
  induction l as [|a l IH]; intros acc H; [done|]. cbn [fold_result]. rewrite (H a) by set_solver.
  destruct (adjustment_source d store a); [|done]. cbn [result_bind]. apply IH. set_solver.
Qed.

(** ** The steps *)

Lemma open_not_in_slot d r store month :
  open_slot d r -> store <> "" -> is_fee_result_locked d store month None = true -> ~ in_slot store month r.
Proof. intros Ho Hs Hl [<- E]. rewrite (Ho store Hs E) in Hl. done. Qed.

Lemma supersedes_id : supersedes (fun x => x).
Proof. intros x. by left. Qed.

Lemma retire_keeps d cur :
  results_ok d -> cur ∈ fee_results d -> open_slot d cur ->
  keeps_frozen d (update_result (fee_result_id cur) superseded (drop_pointer (fee_result_id cur) d)).
Proof.
  intros Hok Hc Ho. split; [done|]. intros store month Hs Hl.
  assert (supersedes (fun r => if str_eqb (fee_result_id r) (fee_result_id cur) then superseded r else r)) as Hg
    by apply supersede_one.
  eapply (statement_sources_same d _ _ []); [done|exact Hg|by rewrite app_nil_r|done|done|].
  eapply (result_sources_same d _ _ []); [exact Hg|by rewrite app_nil_r| |intros r Hr; by apply elem_of_nil in Hr].
  intros r Hr Hin. cbn [update_result drop_pointer field_set fee_results_current]. rewrite filter_filter.
  apply filter_ext_in. intros p. destruct (str_eqb (current_fee_result_id p) (fee_result_id r)) eqn:E;
    [|by rewrite andb_false_r].
  rewrite andb_true_r. tests. apply negb_true_iff, str_eqb_false. intros E'.
  apply (open_not_in_slot d cur store month Ho Hs Hl). replace cur with r; [done|].
  apply (result_unique d); [apply Hok|done|done|congruence].
Qed.

Lemma first_keeps d r :
  results_ok d -> fee_result_id r ∉ fee_result_id <$> fee_results d -> open_slot d r ->
  keeps_frozen d (add_pointer (MkCurrent (result_coupon_id r) (result_fee_direction r) (fee_result_id r))
                (add_result r (supersede_slot (result_coupon_id r) (result_fee_direction r) d))).
Proof.
  intros Hok Hf Ho. split; [done|]. intros store month Hs Hl.
  pose proof (supersede_all (result_coupon_id r) (result_fee_direction r)) as Hg.
  eapply (statement_sources_same d _ _ [r]); [done|exact Hg|done|done|done|].
  eapply (result_sources_same d _ _ [r]); [exact Hg|done| |].
  - intros x Hx Hin. cbn [add_pointer add_result supersede_slot field_set fee_results_current]. rewrite lfilter_app. cbn.
    rewrite str_eqb_false; [by rewrite app_nil_r|]. intros E. apply Hf. rewrite E. by apply list_elem_of_fmap_2.
  - intros x ->%list_elem_of_singleton. apply contribution_outside. by apply (open_not_in_slot d).
Qed.

Lemma switch_keeps d cur p r :
  results_ok d -> cur ∈ fee_results d -> current_pointer d (result_coupon_id r) (result_fee_direction r) = Some p ->
  current_fee_result_id p = fee_result_id cur -> open_slot d cur ->
  fee_result_id r ∉ fee_result_id <$> fee_results d -> open_slot d r ->
  keeps_frozen d (move_pointer (result_coupon_id r) (result_fee_direction r) (fee_result_id r)
                       (update_result (fee_result_id cur) superseded (add_result r d))).
Proof.
  intros Hok Hc Hp Ep Ho Hf Ho'. split; [done|]. intros store month Hs Hl.
  assert (fee_result_id r <> fee_result_id cur) as Hne.
  { intros E. apply Hf. rewrite E. by apply list_elem_of_fmap_2. }
  pose proof (supersede_one (fee_result_id cur)) as Hg.
  assert (fee_results (move_pointer (result_coupon_id r) (result_fee_direction r) (fee_result_id r)
     (update_result (fee_result_id cur) superseded (add_result r d)))
    = ((fun x => if str_eqb (fee_result_id x) (fee_result_id cur) then superseded x else x) <$> fee_results d) ++ [r]) as Er.
  { cbn [move_pointer update_result add_result field_set fee_results]. rewrite fmap_app. cbn. by rewrite str_eqb_false. }
  eapply (statement_sources_same d _ _ [r]); [done|exact Hg|exact Er|done|done|].
  eapply (result_sources_same d _ _ [r]); [exact Hg|exact Er| |].
  - intros x Hx Hin. cbn [move_pointer update_result add_result field_set fee_results_current].
    assert (fee_result_id x <> fee_result_id cur) as Hxc.
    { intros E. apply (open_not_in_slot d cur store month Ho Hs Hl). replace cur with x; [done|].
      by apply (result_unique d); [apply Hok|..]. }
    assert (fee_result_id x <> fee_result_id r) as Hxr by (intros E; apply Hf; rewrite <- E; by apply list_elem_of_fmap_2).
    rewrite lfilter_fmap.
    assert (List.filter (fun q => str_eqb (current_fee_result_id (moved (result_coupon_id r) (result_fee_direction r)
        (fee_result_id r) q)) (fee_result_id x)) (fee_results_current d)
      = List.filter (fun q => str_eqb (current_fee_result_id q) (fee_result_id x)) (fee_results_current d)) as ->.
    { apply filter_ext_elem. intros q Hq. destruct (moved_other d _ _ (fee_result_id r) p q Hok Hp Hq) as [[-> ->]|[_ ->]]; [|done].
      cbn. rewrite !str_eqb_false; [done|congruence|congruence]. }
    rewrite <- (list_fmap_id (List.filter _ (fee_results_current d))) at 2. apply list_fmap_ext. intros i q Hi.
    apply list_elem_of_lookup_2, list_elem_of_In, filter_In in Hi as [Hq E]. apply list_elem_of_In in Hq.
    destruct (moved_other d _ _ (fee_result_id r) p q Hok Hp Hq) as [[-> _]|[_ E']]; [|exact E'].
    exfalso. tests. congruence.
  - intros x ->%list_elem_of_singleton. apply contribution_outside. by apply (open_not_in_slot d).
Qed.

Lemma restore_keeps d r :
  results_ok d -> fee_result_id r ∉ fee_result_id <$> fee_results d -> keeps_frozen d (add_result r d).
Proof.
  intros Hok Hf. split; [done|]. intros store month Hs Hl.
  eapply (statement_sources_same d _ (fun x => x) [r]); [done|apply supersedes_id|by rewrite list_fmap_id|done|done|].
  eapply (result_sources_same d _ (fun x => x) [r]); [apply supersedes_id|by rewrite list_fmap_id|done|].
  intros x ->%list_elem_of_singleton. unfold contribution. destruct (_ && _); [|done].
  cbn [add_result field_set fee_results_current]. rewrite (proj2 (lfilter_nil_iff _ _)); [done|].
  intros p Hp. apply str_eqb_false. intros E. apply Hf. destruct (ro_pointer d Hok p Hp) as (y & Hy & Ey & _).
  rewrite <- E, <- Ey. by apply list_elem_of_fmap_2.
Qed.

Lemma post_keeps d d' : posts_open d d' -> keeps_frozen d d'.
Proof.
  intros Hp. split; [|intros store month _ Hl; by apply frozen_sources].
  destruct Hp as [(_ & _ & _ & E1 & E2 & E3 & E4 & E5) _]. done.
Qed.

Lemma ledger_step_keeps d d' : results_ok d -> ledger_step d d' -> keeps_frozen d d'.
Proof.
  intros Hok [d1 H|cur Hc Ho|r Hp Hf Ha Hn Ho|cur p r Hc Hp Ep Ho Hf Ha Hn Ho'|r Hf Hs Han].
  - by apply post_keeps.
  - by apply retire_keeps.
  - by apply first_keeps.
  - by eapply switch_keeps.
  - by apply restore_keeps.
Qed.

(** Any number of steps. *)
Lemma ledger_steps_keep d d' : results_ok d -> rtc ledger_step d d' -> results_ok d' /\ keeps_frozen d d'.
Proof.
  intros Hok H. induction H as [d|d1 d2 d3 Hs _ IH]; [done|].
  destruct IH as [H1 H2]; [by eapply ledger_step_ok|]. split; [done|]. etrans; [by eapply ledger_step_keeps|done].
Qed.
