(* ===== verification/ResultRuns.v ===== *)
(** * Fee results: runs

    Whatever a run of [rebuild_dual_fee_results] writes is a sequence of ledger
    steps, so a run keeps the invariant of the results and the sources of frozen
    statements. *)
From S2P Require Import Prelude PyValue Jobs FeeTables FeeLedger FeeProps Statements StatementProps SaleAccounts FeeResults FeeResultProps.
#[local] Open Scope Z_scope.
#[local] Set Default Proof Using "Type".

Lemma locked_any d store month id :
  is_fee_result_locked d store month id = false -> is_fee_result_locked d store month None = false.
Proof.
  destruct id as [i|]; [|done]. unfold is_fee_result_locked. cbn [orb]. rewrite !orb_false_iff.
  intros [[_ H1] H2]. split; [done|]. revert H2. generalize (statements d) as l. induction l as [|s l IH]; [done|].
  cbn [existsb]. rewrite !orb_false_iff. intros [H3 H4]. split; [|by apply IH]. rewrite orb_false_r.
  destruct (_ && _ && _); [|done]. cbn in H3. done.
Qed.

(** ** The current result *)

Lemma latest_some l : latest_version l = None -> l = [].
Proof. destruct l as [|r l]; [done|]. cbn. by destruct (latest_version l). Qed.

Lemma current_none_pointer d coupon direction :
  results_ok d -> current_fee_result d coupon direction = None -> current_pointer d coupon direction = None.
Proof.
  intros Hok. unfold current_fee_result. destruct (current_pointer d coupon direction) as [p|] eqn:Hp; [|done].
  intros H%latest_some. exfalso. apply current_pointer_some in Hp as [Hp _].
  destruct (ro_pointer d Hok p Hp) as (r & Hr & E & _). rewrite lfilter_nil_iff in H.
  specialize (H r Hr). by rewrite E, str_eqb_refl in H.
Qed.

(** A current result that is not a restored basis is the one the pointer names. *)
Lemma current_pointed d coupon direction r :
  results_ok d -> current_fee_result d coupon direction = Some r -> result_reverification_anchor_id r = None ->
  exists p, current_pointer d coupon direction = Some p /\ current_fee_result_id p = fee_result_id r
    /\ r ∈ fee_results d /\ slot_of r = (coupon, direction).
Proof.
  intros Hok Hc Ha. pose proof (current_in _ _ _ _ Hc) as Hr. revert Hc. unfold current_fee_result.
  destruct (current_pointer d coupon direction) as [p|] eqn:Hp; [|done].
  intros H%latest_in. apply list_elem_of_In, filter_In in H as [_ H]. rewrite Ha in H. cbn in H. rewrite orb_false_r in H.
  apply current_pointer_some in Hp as [Hin Hs]. exists p. tests. split_and!; try done.
  rewrite <- Hs. by apply (pointer_result d p r).
Qed.

(** ** Retiring and blocking *)

#[local] Notation steps := (rtc ledger_step).

Lemma post_steps d d' : posts_open d d' -> steps d d'.
Proof. intros H. apply rtc_once. by constructor. Qed.

Lemma retire_steps d cur : cur ∈ fee_results d -> steps d (retire_unqualified_fee_result d cur).
Proof.
  intros Hc. unfold retire_unqualified_fee_result.
  destruct (result_reverification_anchor_id cur); [done|].
  destruct (responsible_store _ cur) as [store|] eqn:Hs; [|done].
  destruct (str_eqb store ""); [done|]. destruct (is_fee_result_locked _ _ _ _) eqn:Hl; [done|].
  apply rtc_once. apply (step_retire d cur Hc). intros s _ E. rewrite Hs in E. injection E as <-.
  by eapply locked_any.
Qed.

Lemma block_direction_steps run kind c d direction : steps d (block_direction run kind c d direction).
Proof.
  unfold block_direction. cbn zeta. etrans; [|apply post_steps, posts_open_issue].
  destruct (str_in _ _); [|done]. destruct (current_fee_result _ _ _) eqn:Hc; [|done].
  eapply retire_steps, current_in, Hc.
Qed.

Lemma block_steps run kind c directions : forall d, steps d (block_dual_fee run kind c directions d).
Proof.
  unfold block_dual_fee. induction directions as [|x l IH]; intros d; [done|]. cbn [foldl].
  etrans; [apply block_direction_steps|apply IH].
Qed.

(** ** Writing a basis *)

Lemma insert_result_ok r d d' :
  insert_result r d = Ok d' -> d' = add_result r d /\ fee_result_id r ∉ fee_result_id <$> fee_results d.
Proof.
  unfold insert_result. destruct (_ || _) eqn:E; [done|]. intros [= <-]. split; [done|].
  intros (x & Ex & Hx)%list_elem_of_fmap. rewrite !orb_false_iff in E. destruct E as ((((((E & _) & _) & _) & _) & _) & _).
  apply not_true_iff_false in E. apply E. apply existsb_exists. exists x. split; [by apply list_elem_of_In|].
  by rewrite Ex, str_eqb_refl.
Qed.

Lemma insert_pointer_ok p d d' : insert_pointer p d = Ok d' -> d' = add_pointer p d.
Proof. unfold insert_pointer. destruct (existsb _ _); [done|]. by intros [= <-]. Qed.

Section Runs.
Context (hexdigest : string -> string) (isoformat : instant -> string) (repr_of : pyval -> string).
Context (normalize_owner_account_name : option string -> string).
Context (json_object : list (string * pyval) -> string) (date_text : Z -> string) (rate_text : Z -> string).
Context `{SaleEvidence}.
#[local] Notation fee_basis := (fee_basis repr_of normalize_owner_account_name).
#[local] Notation new_result := (new_result hexdigest isoformat json_object date_text rate_text).
#[local] Notation switch_current := (switch_current hexdigest isoformat json_object date_text rate_text).
#[local] Notation restore_basis := (restore_basis hexdigest isoformat json_object date_text rate_text).
#[local] Notation write_frozen := (write_frozen hexdigest isoformat json_object date_text rate_text).

(** The qualification that an earlier result of the month is pinned to. *)
Definition pinned_version (current : option SettlementFeeResult) (month : string) : option string :=
  match current with
  | Some r => if str_eqb (result_original_business_month r) month then result_account_qualification_version_id r else None
  | None => None
  end.

(** What a basis that is ready is made of. *)
Record basis_inputs (d : feedb) (o : RawDouyinOrder) (c : RawDouyinOrderCoupon) (direction : Z)
    (current : option SettlementFeeResult) (b : FeeBasis) : Prop := MkInputs {
  bi_product : get_product d (order_sku_id o) = Some (fb_product b) /\ usable_product (fb_product b) = true;
  bi_owner : is_non_commission_owner_account normalize_owner_account_name d (order_owner_account_name o) = false;
  bi_verify : select_valid_verify_record d (coupon_id c) = Some (fb_verify b)
    /\ verify_time (fb_verify b) = Some (fb_verify_time b);
  bi_decision : historical_decision d o c (Some (fb_verify b)) current = Some (fb_decision b);
  bi_month : fb_day b = business_date (fb_verify_time b) /\ fb_month b = month_of_day (fb_day b);
  bi_window : FORMAL_SETTLEMENT_START <= fb_day b
    /\ exists t, order_sale_time_of o = Some t /\ FORMAL_SETTLEMENT_START <= business_date t;
  bi_qualified :
    if String.leb "2026-10" (fb_month b)
    then is_Some (fb_qualification b)
         /\ fb_qualification b = qualified_version (fb_month b) o (pinned_version current (fb_month b))
    else fb_qualification b = None;
  bi_sale_store : sale_store repr_of d o current (Some (fb_verify b)) (Some (fb_month b)) (fb_qualification b)
    (fb_decision b) = Some (fb_sale_store b);
  bi_channel : fb_channel b = dual_sale_channel o /\ str_in (fb_channel b) ["live"; "short_video"] = true;
  bi_verify_store : if direction =? PROMOTION_FEE then fb_verify_store b = None
    else exists m, find_poi_mapping d (verify_poi_id (fb_verify b)) = Some m
                   /\ is_Some (get_store d (mapping_store_id m)) /\ fb_verify_store b = Some (mapping_store_id m);
  bi_responsible : fb_responsible b = if direction =? PROMOTION_FEE then fb_sale_store b else fb_verify_store b;
  bi_scope : scope_is_active (fb_scope b) = true
    /\ exists owner, first_text [product_owner_account_id (fb_product b)] = Some owner
       /\ resolve_settlement_scope_rule d (fb_month b) owner (fb_channel b) = Some (fb_scope b);
  bi_rule : match_fee_rule d (product_sku_id (fb_product b)) (fb_day b) = Some (fb_rule b)
    /\ fb_rate b = if direction =? PROMOTION_FEE then promotion_service_fee_rate (fb_rule b)
                   else management_service_fee_rate (fb_rule b);
  bi_source : direction_source_amount repr_of d o c = Some (fb_source b);
  bi_amounts : fb_refunded b = snapshot_refunded d o c current (fb_source b)
    /\ fb_base b = Z.max (fb_source b - fb_refunded b) 0 /\ fb_fee b = commission_cent (fb_base b) (fb_rate b);
}.

Lemma basis_ready_inputs d o c direction current b :
  fee_basis d o c direction current = BasisReady b -> basis_inputs d o c direction current b.
Proof.
  unfold FeeResults.fee_basis. destruct (get_product _ _) as [product|] eqn:Ep; [|done].
  destruct (usable_product product) eqn:Eu; [|done]. cbn [negb].
  destruct (first_text _) as [owner|] eqn:Eo; [|done].
  destruct (is_non_commission_owner_account _ _ _) eqn:En; [done|]. cbn zeta.
  destruct (historical_decision _ _ _ _ _) as [decision|] eqn:Ed; [|done].
  destruct (select_valid_verify_record _ _) as [v|] eqn:Ev.
  2: { cbn [negb]. repeat (case_match; try done). }
  destruct (verify_time v) as [t|] eqn:Et.
  2: { repeat (case_match; try done). }
  cbn [fmap option_fmap option_map]. change (business_month t) with (month_of_day (business_date t)).
  remember (business_date t) as day eqn:Eday. remember (month_of_day day) as m eqn:Em.
  change (match current with Some r => if str_eqb (result_original_business_month r) m
    then result_account_qualification_version_id r else None | None => None end) with (pinned_version current m).
  set (q := if ("2026-10" <=? m)%string then Some (qualified_version m o (pinned_version current m)) else None).
  assert (forall q', q = q' -> q' <> Some None ->
    if String.leb "2026-10" m then is_Some (default None q') /\ default None q' = qualified_version m o (pinned_version current m)
    else default None q' = None) as Hq.
  { intros q' <-. unfold q. destruct (String.leb _ _); [|done]. by destruct (qualified_version _ _ _). }
  specialize (Hq q eq_refl). revert Hq. generalize q. clear q. intros q Hq. destruct (decide (q = Some None)) as [->|Hn]; [done|].
  specialize (Hq Hn). destruct q as [[q|]|]; [|done|]; cbn [default from_option] in Hq.
  all: destruct (sale_store _ _ _ _ _ _ _ _) as [store|] eqn:Es; [|done].
  all: destruct (str_in (dual_sale_channel o) _) eqn:Ec; [|done]; cbn [negb].
  all: destruct (order_sale_time_of o) as [ts|] eqn:Est; [|done]; cbn [fmap option_fmap option_map].
  all: destruct (business_date ts <? _) eqn:Ew; [done|].
  all: set (ps := match find_poi_mapping d (verify_poi_id v) with Some _ => _ | None => None end).
  all: destruct (negb _ && _) eqn:Epoi; [done|].
  all: destruct (day <? _) eqn:Ew'; [done|].
  all: destruct (resolve_settlement_scope_rule _ _ _ _) as [scope|] eqn:Esc; [|done].
  all: destruct (scope_is_active scope) eqn:Esa; [|done]; cbn [negb].
  all: destruct (match_fee_rule _ _ _) as [rule|] eqn:Er; [|done].
  all: destruct (direction_source_amount _ _ _ _) as [source|] eqn:Esrc; [|done].
  all: intros [= <-]; split; cbn [fb_month fb_day fb_sale_store fb_verify_store fb_responsible fb_product fb_channel fb_source fb_refunded fb_base fb_rate fb_fee fb_rule fb_scope fb_verify fb_verify_time fb_decision fb_qualification].
  all: try by split_and!.
  all: try (split; [lia|]; exists ts; split; [done|lia]).
  all: try (by eauto).
  all: destruct (direction =? PROMOTION_FEE); [done|]; cbn [negb andb] in Epoi; apply bool_decide_eq_false in Epoi; unfold ps in *.
  all: destruct (find_poi_mapping _ _) as [m0|]; [|done]; destruct (bool_decide _) eqn:Eb; [|done].
  all: exists m0; split_and!; [done|by apply bool_decide_eq_true in Eb|done].
Qed.

Lemma new_result_open d o c direction run now b anchor id :
  fb_responsible b = (if direction =? PROMOTION_FEE then fb_sale_store b else fb_verify_store b) ->
  slot_locked d (fb_responsible b) (fb_month b) id = false ->
  open_slot d (new_result d o c direction run now b anchor).
Proof.
  intros Eb Hl store Hs. unfold responsible_store. cbn. rewrite <- Eb. intros E. rewrite E in Hl.
  by eapply locked_any.
Qed.

(** An unfrozen basis leaves the slot of the current result open too. *)
Lemma unfrozen_current d direction cur b :
  result_fee_direction cur = direction -> basis_frozen d direction (Some cur) b = false -> open_slot d cur.
Proof.
  intros Ed. unfold basis_frozen. rewrite !orb_false_iff. intros [[H1 _] H2] store Hs E. rewrite Ed in E.
  unfold prior_slot in H1. rewrite E, str_eqb_false in H1 by done.
  apply andb_false_iff in H1 as [H1|H1]; [|by eapply locked_any].
  apply negb_false_iff in H1. tests. subst.
  match goal with H : Some store = fb_responsible b |- _ => rewrite <- H in H2 end.
  match goal with H : _ = fb_month b |- _ => rewrite H end. by eapply locked_any.
Qed.

Lemma switch_steps d o c direction run now current b d' :
  results_ok d -> current_fee_result d (coupon_id c) direction = current ->
  fb_responsible b = (if direction =? PROMOTION_FEE then fb_sale_store b else fb_verify_store b) ->
  basis_frozen d direction current b = false ->
  switch_current d o c direction run now current b = Ok d' -> steps d d'.
Proof.
  intros Hok Hc Eb Hf. pose proof Hf as Hf'. unfold basis_frozen in Hf'. rewrite !orb_false_iff in Hf'.
  destruct Hf' as [[_ Ha] Hl]. unfold FeeResults.switch_current. cbn zeta.
  pose proof (new_result_open d o c direction run now b None _ Eb Hl) as Ho.
  set (r := new_result d o c direction run now b None) in *. destruct current as [cur|].
  - apply bool_decide_eq_false, eq_None_not_Some in Ha.
    destruct (current_pointed d _ _ cur Hok Hc Ha) as (p & Hp & Ep & Hin & Hs).
    intros (d1 & [-> Hn]%insert_result_ok & H1)%result_bind_Ok.
    change (current_pointer _ (coupon_id c) direction) with (current_pointer d (coupon_id c) direction) in H1. rewrite Hp in H1.
    apply result_bind_Ok in H1 as (? & _ & H1). injection H1 as <-. apply rtc_once.
    apply (step_switch d cur p r); try done. apply (unfrozen_current d direction cur b); [by injection Hs|done].
  - intros (d1 & [-> Hn]%insert_result_ok & ->%insert_pointer_ok)%result_bind_Ok. apply rtc_once.
    apply (step_first d r); try done; [by apply current_none_pointer|].
    revert Hn. cbn [field_set fee_results]. by rewrite supersedes_ids by apply supersede_all.
Qed.

Lemma steps_ok d d' : results_ok d -> steps d d' -> results_ok d'.
Proof. intros Hok Hs. by apply (ledger_steps_keep d d'). Qed.

Lemma cancellation_steps d c run direction d' :
  results_ok d -> materialize_direction_verify_cancellation hexdigest isoformat d c run direction = Ok d' -> steps d d'.
Proof. intros Hok Hm. eapply post_steps, cancellation_open; [apply Hok|done]. Qed.

Lemma restore_steps d o c direction run now cur b d' :
  results_ok d -> cur ∈ fee_results d -> restore_basis d o c direction run now cur b = Ok d' -> steps d d'.
Proof.
  intros Hok Hc. unfold FeeResults.restore_basis. cbn zeta. set (r := new_result _ _ _ _ _ _ _ _).
  assert (anchored_in (fee_result_id <$> fee_results d) r) as Ha.
  { intros a [= <-]. destruct (result_reverification_anchor_id cur) as [x|] eqn:Ex; cbn;
      [destruct (str_eqb x ""); cbn; [|by apply (ro_anchors d Hok cur)]|]; by apply list_elem_of_fmap_2. }
  intros (d1 & [-> Hn]%insert_result_ok & H1)%result_bind_Ok.
  assert (ledger_step d (add_result r d)) as Hs by by apply step_restore.
  eapply rtc_l; [done|]. eapply post_steps, restoration_open; [by apply (ledger_step_ok d), ro_ids in Hs| |done].
  cbn. apply elem_of_app. right. by apply list_elem_of_singleton.
Qed.

Lemma write_frozen_steps d o c direction run now current b d' ok :
  results_ok d -> current_fee_result d (coupon_id c) direction = current -> write_frozen d o c direction run now current b = Ok (d', ok) -> steps d d'.
Proof.
  intros Hok Hc. unfold FeeResults.write_frozen. cbn zeta.
  destruct current as [cur|]; [|intros [= <- _]; apply (block_steps _ _ _ [direction])].
  destruct (same_qualifying_verification _ _).
  { destruct (bool_decide _); intros [= <- _]; [done|apply (block_steps _ _ _ [direction])]. }
  destruct (result_qualifying_verify_id _); [|intros [= <- _]; apply (block_steps _ _ _ [direction])].
  intros (d1 & H1 & H2)%result_bind_Ok.
  pose proof (posts_open_results _ _ (cancellation_open _ _ _ _ _ _ _ (ro_ids d Hok) H1)) as Er.
  apply cancellation_steps in H1; [|done]. etrans; [done|]. destruct (_ && _); [|injection H2 as <- _; apply (block_steps _ _ _ [direction])].
  apply result_bind_Ok in H2 as (d2 & H2 & E). injection E as <- _.
  eapply restore_steps; [by eapply steps_ok| |done]. rewrite Er. by eapply current_in.
Qed.

#[local] Notation materialize := (materialize_dual_fee_direction hexdigest isoformat repr_of normalize_owner_account_name
  json_object date_text rate_text).
#[local] Notation run_direction := (run_direction hexdigest isoformat repr_of normalize_owner_account_name
  json_object date_text rate_text).
#[local] Notation run_coupon := (run_coupon hexdigest isoformat repr_of normalize_owner_account_name
  json_object date_text rate_text).
#[local] Notation rebuild := (rebuild_dual_fee_results hexdigest isoformat repr_of normalize_owner_account_name
  json_object date_text rate_text).

Lemma materialize_steps d o c direction run now force d' ok :
  results_ok d ->
  materialize d o c direction run now (current_fee_result d (coupon_id c) direction) force = Ok (d', ok) -> steps d d'.
Proof.
  intros Hok. destruct (current_fee_result d (coupon_id c) direction) as [cur|] eqn:Hc.
  all: unfold materialize_dual_fee_direction; destruct (fee_basis _ _ _ _ _) as [kind| | | |b] eqn:Eb.
  1, 6: intros [= <- _]; apply (block_steps _ _ _ [direction]).
  1: intros [= <- _]; eapply retire_steps, current_in, Hc.
  2, 4: by intros [= <- _].
  1: { intros [= <- _]. etrans; [|apply (block_steps _ _ _ [direction])]. destruct (matching_verify_cancellation _ _); [done|].
       eapply retire_steps, current_in, Hc. }
  2: intros [= <- _]; apply (block_steps _ _ _ [direction]).
  2: by intros [= <- _].
  all: apply basis_ready_inputs, bi_responsible in Eb.
  1: destruct (_ && _); [by intros [= <- _]|].
  all: destruct (basis_frozen _ _ _ _) eqn:Ef; [by apply write_frozen_steps|].
  all: intros (d1 & H1 & E)%result_bind_Ok; injection E as <- _; by eapply switch_steps.
Qed.

(** A result of this run that is active is current, so none is ever reattached. *)
Lemma run_direction_steps o c run now force d n direction d' n' :
  results_ok d -> run_direction o c run now force (d, n) direction = Ok (d', n') -> steps d d'.
Proof.
  intros Hok. unfold FeeResults.run_direction. destruct (calculation_run_result _ _ _ _) as [r|] eqn:Er.
  - destruct (current_fee_result _ _ _) eqn:Hc; [by intros [= <- _]|].
    destruct (result_status r =? _) eqn:Ea; [|by intros [= <- _]]. exfalso.
    apply find_some_in in Er as [Hr E]. apply current_none_pointer in Hc; [|done].
    destruct (ro_active d Hok r Hr) as (p & Hp & Ep); [lia|].
    destruct (pointer_result d p r Hok Hp Hr) as [Es _]; [done|].
    apply (current_pointer_none d _ _ p Hc Hp). rewrite <- Es. unfold slot_of. tests. congruence.
  - intros ([d1 ok] & H1 & E)%result_bind_Ok. injection E as <- _. by eapply materialize_steps.
Qed.

Lemma close_direction_steps c d l direction : steps d (close_direction c (d, l) direction).1.
Proof.
  unfold close_direction. destruct (current_fee_result _ _ _) eqn:Hc; [|done]. eapply retire_steps, current_in, Hc.
Qed.

(** Folding steps. *)
Lemma fold_steps {A S} (db : S -> feedb) (f : S -> A -> result S) l :
  (forall s a s', results_ok (db s) -> f s a = Ok s' -> steps (db s) (db s')) ->
  forall s s', results_ok (db s) -> fold_result f s l = Ok s' -> steps (db s) (db s').
Proof.
  intros Hf. induction l as [|a l IH]; intros s s' Hok; cbn [fold_result]; [by intros [= <-]|].
  intros (s1 & H1 & H2)%result_bind_Ok. apply Hf in H1; [|done]. etrans; [done|]. apply IH; [by eapply steps_ok|done].
Qed.

Lemma refunds_steps d c run directions d' n :
  results_ok d -> materialize_refund_adjustments hexdigest d c run directions = Ok (d', n) -> steps d d'.
Proof. intros Hok Hm. eapply post_steps, refunds_open; [apply Hok|done]. Qed.

Lemma run_closed_steps c run d n d' n' :
  results_ok d -> run_closed hexdigest isoformat c run (d, n) = Ok (d', n') -> steps d d'.
Proof.
  intros Hok. unfold run_closed. destruct (foldl _ _ _) as [d1 manual] eqn:Ef.
  assert (steps d d1) as H1.
  { change d1 with (d1, manual).1. rewrite <- Ef. cbn [foldl].
    destruct (close_direction c (d, []) PROMOTION_FEE) as [d2 l2] eqn:E2. etrans; [|apply close_direction_steps].
    change d2 with (d2, l2).1. rewrite <- E2. apply close_direction_steps. }
  destruct manual as [|x l] eqn:Em; [by intros [= <- _]|].
  intros ([d2 m] & H2 & E)%result_bind_Ok. apply result_bind_Ok in E as (d3 & H3 & E). injection E as <- _.
  assert (results_ok d1) as Hok1 by by eapply steps_ok.
  apply refunds_steps in H2; [|done]. assert (results_ok d2) as Hok2 by by eapply steps_ok.
  etrans; [done|]. etrans; [done|]. apply (fold_steps id) in H3; [done| |done].
  intros s a s' Hs Ha. by eapply cancellation_steps.
Qed.

Lemma run_coupon_steps run now force d n c d' n' :
  results_ok d -> run_coupon run now force (d, n) c = Ok (d', n') -> steps d d'.
Proof.
  intros Hok. unfold FeeResults.run_coupon. cbn zeta. destruct (raw_order_for_coupon d c) as [o|];
    [|intros [= <- _]; apply (block_steps _ _ _ [PROMOTION_FEE; MANAGEMENT_FEE])].
  destruct (str_eqb _ "closed"); [by apply run_closed_steps|].
  destruct (str_eqb _ "unknown"); [intros [= <- _]; apply (block_steps _ _ _ [PROMOTION_FEE; MANAGEMENT_FEE])|].
  intros ([d1 m1] & H1 & E)%result_bind_Ok. apply result_bind_Ok in E as ([d2 m2] & H2 & E).
  apply result_bind_Ok in E as (d3 & H3 & E). injection E as <- _.
  apply (fold_steps fst) in H1; [|intros [] a []; apply run_direction_steps|done]. cbn [fst] in H1.
  assert (results_ok d1) as Hok1 by by eapply steps_ok.
  apply refunds_steps in H2; [|done]. assert (results_ok d2) as Hok2 by by eapply steps_ok.
  etrans; [done|]. etrans; [done|]. eapply post_steps, cancellations_open; [apply Hok2|done].
Qed.

Lemma rebuild_steps d run now force scope d' stats :
  results_ok d -> rebuild d run now force scope = Ok (d', stats) -> steps d d'.
Proof.
  intros Hok. unfold rebuild_dual_fee_results. assert (forall s, (let* (d', blocked) := fold_result
    (run_coupon run now force) (d, 0) (merge_sort coupon_before (List.filter (fun c => in_scope s (coupon_id c)) (fee_coupons d)))
    in Ok (d', MkStats (scoped_count s result_coupon_id (fee_results d') - scoped_count s result_coupon_id (fee_results d))
                 (scoped_count s adj_coupon_id (fee_adjustments d') - scoped_count s adj_coupon_id (fee_adjustments d)) blocked))
    = Ok (d', stats) -> steps d d') as Hr.
  { intros s ([d1 m] & H1 & E)%result_bind_Ok. injection E as <- _.
    apply (fold_steps fst) in H1; [done| |done]. intros [] a []. apply run_coupon_steps. }
  destruct scope as [[|x l]|]; [by intros [= <- _]|apply (Hr (Some (x :: l)))|apply (Hr None)].
Qed.
End Runs.
