(* ===== verification/ResultBasis.v ===== *)
(** * Fee results: one calculation

    A ready basis that is not frozen is always written, becomes the current result,
    and the next calculation of unchanged inputs writes nothing. *)
From S2P Require Import Prelude PyValue Jobs Clues Receipts FeeTables FeeLedger FeeProps FeeThms Statements StatementProps SaleAccounts FeeResults FeeResultProps ResultRuns.
#[local] Open Scope Z_scope.
#[local] Set Default Proof Using "Type".
#[local] Notation RawDouyinOrder := FeeTables.RawDouyinOrder.
#[local] Notation RawDouyinOrderCoupon := FeeTables.RawDouyinOrderCoupon.

(** ** Receipts are not negative *)

Definition scan_nonneg (s : scan) : Prop :=
  0 <= sc_total s /\ forall i l, sc_observed s !! i = Some l -> Forall (fun p => 0 <= default 0 p) l.

Lemma scan_entries_nonneg repr_of entries : forall s s',
  scan_nonneg s -> scan_entries repr_of entries s = Some s' -> scan_nonneg s'.
Proof.
  induction entries as [|e entries IH]; intros s s' Hs; cbn [scan_entries]; [by intros [= <-]|].
  destruct (entry_facts repr_of e) as [| |item parsed] eqn:E; [|done|]; [by apply IH|].
  assert (0 <= default 0 parsed) as Hp by (destruct parsed; [by eapply line_parsed_nonneg|done]).
  cbn zeta. apply IH. destruct Hs as [Ht Ho].
  assert (scan_nonneg (match parsed with None => MkScan (sc_observed s) (sc_total s) false
    | Some p => MkScan (sc_observed s) (sc_total s + p) (sc_complete s) end)) as [Ht1 Ho1]
    by (destruct parsed as [p|]; split; cbn in *; try done; lia).
  destruct item as [i|]; [|done]. split; [done|]. cbn. intros j l. unfold observe.
  destruct (decide (i = j)) as [->|Hne]; [|rewrite lookup_insert_ne by done; apply Ho1].
  rewrite lookup_insert_eq. intros [= <-]. apply Forall_app. split; [|by apply Forall_singleton].
  destruct (_ !! j) as [l|] eqn:El; [by apply (Ho1 j)|done].
Qed.

Lemma from_payload_nonneg repr_of payload :
  (forall i a, so_unique (from_payload repr_of payload) !! i = Some a -> 0 <= a)
  /\ (forall a, so_complete_total (from_payload repr_of payload) = Some a -> 0 <= a).
Proof.
  assert (forall i a, (∅ : gmap string Z) !! i = Some a -> 0 <= a) as He by (intros i a; by rewrite lookup_empty).
  unfold from_payload. destruct payload as [| | | | | | |d]; try done.
  destruct (dict_lookup _ d) as [[| | | | | |[|e l]|]|]; try done.
  destruct (scan_entries _ _ _) as [s|] eqn:Es; [|done].
  apply scan_entries_nonneg in Es as [Ht Ho]; [|split; [done|]; cbn; intros i x; by rewrite lookup_empty].
  cbn. split.
  - intros i a. rewrite lookup_omap. destruct (sc_observed s !! i) as [[|[p|] [|]]|] eqn:Ei; try done.
    intros [= <-]. specialize (Ho i _ Ei). by apply Forall_inv in Ho.
  - intros a. by destruct (_ && _); [intros [= <-]|].
Qed.

Lemma receipt_nonneg repr_of coupons order coupon a amount :
  resolve_coupon_receipt_cent repr_of coupons order coupon a = Some amount -> 0 <= amount.
Proof.
  unfold resolve_coupon_receipt_cent. destruct (dict_lookup _ _); [apply parse_nonneg|]. cbn zeta.
  destruct (from_payload_nonneg repr_of (PDict (as_dict (or_raw_payload order)))) as [Hu Ht].
  destruct (so_corrupt _); [done|]. destruct (negb _).
  - destruct (cp_order_item_id coupon) as [i|]; [|done]. destruct (str_eqb i ""); [done|].
    destruct (bool_decide _); [done|]. destruct (_ !! i) eqn:Ei; [|done]. destruct (negb _); [done|].
    intros [= <-]. by eapply Hu.
  - destruct (interface_count_blocks_order_basis _); [done|]. destruct (so_entries_present _); [apply Ht|].
    destruct (dict_lookup _ _); [apply parse_nonneg|done].
Qed.

(** ** What the calculation relies on *)

(** The rows an attribution decision is checked against. *)
Definition same_sources (d d' : feedb) : Prop :=
  fee_stores d' = fee_stores d /\ fee_verify_records d' = fee_verify_records d.

(** A decision for a verified coupon does not depend on the results, and a month's
    qualification does not change once a result is pinned to it. *)
Class SaleEvidenceLaws {E : SaleEvidence} : Prop := {
  decision_stable : forall d d' o c v current current', same_sources d d' ->
    historical_decision d' o c (Some v) current' = historical_decision d o c (Some v) current;
  version_pinned : forall month o pinned q,
    qualified_version month o pinned = Some q -> qualified_version month o (Some q) = Some q;
}.

(** Rows obey the constraints of their tables. *)
Definition rates_ok (d : feedb) : Prop :=
  forall r, r ∈ fee_rules d -> 0 <= promotion_service_fee_rate r <= 1000000 /\ 0 <= management_service_fee_rate r <= 1000000.
Definition refunds_ok (d : feedb) : Prop := forall r, r ∈ fee_results d -> 0 <= result_refunded_amount_cent r.

Lemma best_row_in {A} (before : A -> A -> bool) l x : best_row before l = Some x -> x ∈ l.
Proof.
  revert x. induction l as [|y l IH]; intros x; cbn; [done|]. destruct (best_row before l) as [z|].
  - intros [= <-]. specialize (IH z eq_refl). destruct (before y z); set_solver.
  - intros [= ->]. set_solver.
Qed.

Lemma matched_rule_in d sku day r :
  match_fee_rule d sku day = Some r -> r ∈ fee_rules d /\ fee_rule_sku_id r = sku /\ fee_rule_effective_date r <= day
    /\ fee_rule_status r = ACTIVE_FEE_RULE.
Proof.
  unfold match_fee_rule. destruct (best_row _ _) as [x|] eqn:E; [|done]. destruct (_ =? _) eqn:Es; [|done]. intros [= <-].
  apply best_row_in, list_elem_of_In, filter_In in E as [E H]. apply list_elem_of_In in E. tests. split_and!; try done; lia.
Qed.

Lemma snapshot_bounds d o c current source :
  0 <= source -> (forall r, current = Some r -> 0 <= result_refunded_amount_cent r) ->
  0 <= snapshot_refunded d o c current source <= source.
Proof.
  intros Hs Hr. unfold snapshot_refunded. destruct current as [r|].
  - specialize (Hr r eq_refl). lia.
  - destruct (_ || _); [lia|]. assert (0 <= coupon_refunded_amount c) by (unfold coupon_refunded_amount; lia). lia.
Qed.

Lemma version_next d r :
  r ∈ fee_results d -> result_version r < next_fee_result_version d (result_coupon_id r) (result_fee_direction r).
Proof.
  intros Hr. unfold next_fee_result_version.
  assert (forall l : list Z, forall x, x ∈ l -> x <= foldr Z.max 0 l) as Hm.
  { induction l as [|y l IH]; intros x Hx; [by apply elem_of_nil in Hx|]. cbn.
    apply elem_of_cons in Hx as [->|Hx]; [|specialize (IH x Hx)]; lia. }
  specialize (Hm (result_version <$> List.filter (fun x => str_eqb (result_coupon_id x) (result_coupon_id r)
    && (result_fee_direction x =? result_fee_direction r)) (fee_results d)) (result_version r)).
  enough (result_version r ∈ result_version <$> List.filter (fun x => str_eqb (result_coupon_id x) (result_coupon_id r)
    && (result_fee_direction x =? result_fee_direction r)) (fee_results d)) as Hin by (specialize (Hm Hin); lia).
  apply list_elem_of_fmap_2, list_elem_of_In, filter_In.
  split; [by apply list_elem_of_In|]. by rewrite str_eqb_refl, Z.eqb_refl.
Qed.

(** The diagnostic of a sale reads no results. *)
Lemma diagnose_frame repr_of d rs ps o x :
  diagnose_dual_fee_sale_account repr_of (d <| fee_results := rs |> <| fee_results_current := ps |>) o x
  = diagnose_dual_fee_sale_account repr_of d o x.
Proof.
  set (d1 := d <| fee_results := rs |> <| fee_results_current := ps |>).
  assert (forall direct l, identity_conflict d1 direct l = identity_conflict d direct l) as H1.
  { intros direct l. induction l as [|[k v] l IH]; [done|]. cbn [identity_conflict]. rewrite IH. reflexivity. }
  assert (forall day l valid, valid_candidates d1 day l valid = valid_candidates d day l valid) as H2.
  { intros day l. induction l as [|m l IH]; intros valid; [done|]. cbn [valid_candidates].
    destruct (match_store_id m); [|done]. change (active_store d1) with (active_store d).
    change (get_account d1) with (get_account d). rewrite !IH.
    destruct (_ || _); [done|]. destruct (get_account _ _); [|done]. by destruct (account_failure _ _). }
  unfold diagnose_dual_fee_sale_account. cbn zeta. rewrite H1, H2. reflexivity.
Qed.

Section Basis.
Context (hexdigest : string -> string) (isoformat : instant -> string) (repr_of : pyval -> string).
Context (normalize_owner_account_name : option string -> string).
Context (json_object : list (string * pyval) -> string) (date_text : Z -> string) (rate_text : Z -> string).
Context `{SaleEvidence}.
#[local] Notation fee_basis := (fee_basis repr_of normalize_owner_account_name).
#[local] Notation basis_inputs := (basis_inputs repr_of normalize_owner_account_name).
#[local] Notation new_result := (new_result hexdigest isoformat json_object date_text rate_text).
#[local] Notation switch_current := (switch_current hexdigest isoformat json_object date_text rate_text).
#[local] Notation materialize := (materialize_dual_fee_direction hexdigest isoformat repr_of normalize_owner_account_name
  json_object date_text rate_text).

(** The amounts of a basis. *)
Lemma basis_amounts d o c direction current b :
  basis_inputs d o c direction current b -> rates_ok d -> refunds_ok d ->
  (forall r, current = Some r -> r ∈ fee_results d) ->
  0 <= fb_source b /\ 0 <= fb_refunded b <= fb_source b /\ fb_base b = fb_source b - fb_refunded b
  /\ 0 <= fb_rate b <= 1000000 /\ 0 <= fb_fee b.
Proof.
  intros Hb Hr Hf Hc. pose proof (receipt_nonneg _ _ _ _ _ _ (bi_source _ _ _ _ _ _ _ _ Hb)) as Hs.
  destruct (bi_amounts _ _ _ _ _ _ _ _ Hb) as (E1 & E2 & E3).
  destruct (snapshot_bounds d o c current (fb_source b) Hs) as [H1 H2]; [intros r E; apply Hf; by apply Hc|].
  destruct (bi_rule _ _ _ _ _ _ _ _ Hb) as [Em Er]. apply matched_rule_in in Em as [Hin _]. specialize (Hr _ Hin).
  rewrite <- E1 in H1, H2. assert (fb_base b = fb_source b - fb_refunded b) by lia.
  assert (0 <= fb_rate b <= 1000000) by (rewrite Er; destruct (_ =? _); lia).
  split_and!; try lia. rewrite E3. apply commission_cent_nonneg; lia.
Qed.

Lemma insert_result_fresh d r :
  fee_result_id r ∉ fee_result_id <$> fee_results d ->
  result_version r = next_fee_result_version d (result_coupon_id r) (result_fee_direction r) ->
  calculation_run_result d (result_coupon_id r) (result_fee_direction r) (result_calculation_run_id r) = None ->
  0 <= result_source_amount_cent r -> 0 <= result_refunded_amount_cent r -> 0 <= result_fee_base_cent r ->
  0 <= result_fee_amount_cent r -> 0 <= result_fee_rate r <= 1000000 ->
  insert_result r d = Ok (add_result r d).
Proof.
  intros Hf Hv Hrun H1 H2 H3 H4 H5. unfold insert_result.
  assert (existsb (fun x => str_eqb (fee_result_id x) (fee_result_id r)
       || (str_eqb (result_coupon_id x) (result_coupon_id r) && (result_fee_direction x =? result_fee_direction r)
           && ((result_version x =? result_version r)
               || str_eqb (result_calculation_run_id x) (result_calculation_run_id r)))) (fee_results d) = false) as ->.
  { apply not_true_iff_false. intros (x & Hx & E)%existsb_exists. apply orb_true_iff in E as [E|E].
    - apply Hf. tests. rewrite <- E. by apply list_elem_of_fmap_2, list_elem_of_In.
    - apply andb_true_iff in E as [E1 E2]. apply orb_true_iff in E2 as [E2|E2].
      + apply list_elem_of_In, version_next in Hx. tests. rewrite Hv in *.
        repeat match goal with H : _ = _ |- _ => rewrite H in Hx end. lia.
      + pose proof (List.find_none _ _ Hrun x Hx) as Hn. cbn in Hn. by rewrite E1, E2 in Hn. }
  rewrite !(proj2 (Z.ltb_ge _ _)) by lia. done.
Qed.

Lemma insert_superseded d r g d' :
  supersedes g -> insert_result r d = Ok d' ->
  insert_result r (d <| fee_results := g <$> fee_results d |>) = Ok (d <| fee_results := (g <$> fee_results d) ++ [r] |>).
Proof.
  intros Hg. unfold insert_result. cbn [field_set fee_results].
  assert (forall f : SettlementFeeResult -> bool, (forall x, f (g x) = f x) -> forall l, existsb f (g <$> l) = existsb f l) as He.
  { intros f Hf l. induction l as [|x l IH]; [done|]. rewrite fmap_cons. cbn [existsb]. by rewrite Hf, IH. }
  rewrite He by (intros x; destruct (Hg x) as [-> | ->]; done). by destruct (_ || _).
Qed.

Lemma pointer_fresh d id :
  results_ok d -> id ∉ fee_result_id <$> fee_results d ->
  existsb (fun p => str_eqb (current_fee_result_id p) id) (fee_results_current d) = false.
Proof.
  intros Hok Hid. apply not_true_iff_false. intros (p & Hp%list_elem_of_In & E)%existsb_exists. tests. apply Hid.
  destruct (ro_pointer d Hok p Hp) as (r & Hr & E' & _). rewrite <- E, <- E'. by apply list_elem_of_fmap_2.
Qed.

Definition slot_pointer (coupon : string) (direction : Z) (ps : list SettlementFeeResultCurrent) :=
  List.find (fun p => str_eqb (current_coupon_id p) coupon && (current_fee_direction p =? direction)) ps.

Lemma moved_found coupon direction id ps p :
  slot_pointer coupon direction ps = Some p ->
  slot_pointer coupon direction (moved coupon direction id <$> ps) = Some (MkCurrent coupon direction id).
Proof.
  unfold slot_pointer. induction ps as [|q ps IH]; [done|]. rewrite fmap_cons. cbn [List.find].
  unfold moved at 1 2 3. destruct (str_eqb (current_coupon_id q) coupon && _) eqn:E; [|by rewrite E].
  cbn [current_coupon_id current_fee_direction]. by rewrite str_eqb_refl, Z.eqb_refl.
Qed.

(** The first result of a slot, or the next version of it. *)
Lemma switch_ok d o c direction run now current b :
  results_ok d -> current_fee_result d (coupon_id c) direction = current ->
  basis_inputs d o c direction current b -> basis_frozen d direction current b = false ->
  rates_ok d -> refunds_ok d -> calculation_run_result d (coupon_id c) direction run = None ->
  fee_result_id (new_result d o c direction run now b None) ∉ fee_result_id <$> fee_results d ->
  exists g ps, supersedes g
    /\ switch_current d o c direction run now current b
       = Ok (d <| fee_results := (g <$> fee_results d) ++ [new_result d o c direction run now b None] |>
               <| fee_results_current := ps |>)
    /\ slot_pointer (coupon_id c) direction ps
       = Some (MkCurrent (coupon_id c) direction (fee_result_id (new_result d o c direction run now b None))).
Proof.
  intros Hok Hc Hb Hf Hr Hrf Hrun Hid. destruct (basis_amounts d o c direction current b Hb Hr Hrf) as (A1 & A2 & A3 & A4 & A5).
  { intros r ->. by eapply current_in. }
  unfold FeeResults.switch_current. cbn zeta. set (r := new_result d o c direction run now b None) in *.
  destruct current as [cur|].
  - apply orb_false_iff in Hf as [Hf _]. apply orb_false_iff in Hf as [_ Ha]. apply bool_decide_eq_false, eq_None_not_Some in Ha.
    destruct (current_pointed d _ _ cur Hok Hc Ha) as (p & Hp & Ep & Hin & Hs).
    rewrite (insert_result_fresh d r) by (try done; cbn; lia). cbn [result_bind].
    change (current_pointer (update_result _ _ _) (coupon_id c) direction) with (current_pointer d (coupon_id c) direction).
    rewrite Hp. change (fee_results_current (update_result _ _ _)) with (fee_results_current d).
    rewrite pointer_fresh by done. cbn [raise_if result_bind]. do 2 eexists. split; [apply (supersede_one (fee_result_id cur))|].
    split; [|by eapply moved_found]. f_equal. unfold update_result. cbn [add_result field_set fee_results].
    rewrite fmap_app. cbn [fmap list_fmap]. rewrite (str_eqb_false (fee_result_id r)); [done|].
    intros E. apply Hid. rewrite E. by apply list_elem_of_fmap_2.
  - pose proof (current_none_pointer d _ _ Hok Hc) as Hp.
    pose proof (supersede_all (coupon_id c) direction) as Hg.
    set (g := fun x => if str_eqb (result_coupon_id x) _ && _ && _ then superseded x else x) in *.
    rewrite (insert_superseded d r g (add_result r d)) by first [done | apply insert_result_fresh; try done; cbn; lia].
    cbn [result_bind]. unfold insert_pointer. cbn [field_set fee_results_current current_coupon_id current_fee_direction
      current_fee_result_id].
    assert (existsb (fun x => (str_eqb (current_coupon_id x) (coupon_id c) && (current_fee_direction x =? direction))
      || str_eqb (current_fee_result_id x) (fee_result_id r)) (fee_results_current d) = false) as ->.
    { apply not_true_iff_false. intros (q & Hq & E)%existsb_exists. apply orb_true_iff in E as [E|E].
      - pose proof (List.find_none _ _ Hp q Hq) as Hn. cbn in Hn. by rewrite E in Hn.
      - pose proof (pointer_fresh d _ Hok Hid) as Hn. apply not_true_iff_false in Hn. apply Hn, existsb_exists. by exists q. }
    do 2 eexists. split; [exact Hg|]. split; [done|]. unfold slot_pointer. rewrite find_app.
    change (List.find _ (fee_results_current d)) with (current_pointer d (coupon_id c) direction). rewrite Hp.
    cbn [List.find current_coupon_id current_fee_direction]. by rewrite str_eqb_refl, Z.eqb_refl.
Qed.

(** The new version is the current one. *)
Lemma switched_current d r g ps coupon direction :
  results_ok d -> supersedes g -> fee_result_id r ∉ fee_result_id <$> fee_results d ->
  result_reverification_anchor_id r = None ->
  slot_pointer coupon direction ps = Some (MkCurrent coupon direction (fee_result_id r)) ->
  current_fee_result (d <| fee_results := (g <$> fee_results d) ++ [r] |> <| fee_results_current := ps |>) coupon direction
  = Some r.
Proof.
  intros Hok Hg Hid Ha Hp. unfold current_fee_result, current_pointer. cbn [field_set fee_results fee_results_current].
  change (List.find _ ps) with (slot_pointer coupon direction ps). rewrite Hp. cbn [current_fee_result_id].
  rewrite lfilter_app. rewrite (proj2 (lfilter_nil_iff _ _)).
  - cbn [app List.filter]. by rewrite str_eqb_refl.
  - intros x' (x & -> & Hx)%list_elem_of_fmap. destruct (supersedes_same g x Hg) as (-> & _ & -> & _).
    rewrite str_eqb_false by (intros E; apply Hid; rewrite <- E; by apply list_elem_of_fmap_2). cbn [orb].
    destruct (opt_is _ _) eqn:E; [|done]. apply opt_is_true in E. exfalso. by apply Hid, (ro_anchors d Hok x).
Qed.

(** The same inputs give the same basis, now that it is pinned by its result. *)
Lemma basis_again `{!SaleEvidenceLaws} d o c direction current b run now d0 rs ps :
  basis_inputs d o c direction current b -> 0 <= fb_refunded b <= fb_source b ->
  fee_basis (d <| fee_results := rs |> <| fee_results_current := ps |>) o c direction
    (Some (new_result d0 o c direction run now b None)) = BasisReady b.
Proof.
  intros Hb Ha. destruct Hb as [[Ep Eu] En [Ev Et] Ed [Eday Em] [Hw (ts & Ets & Hws)] Eq Es [Ec Eci] Epoi Er [Esa (owner & Eo & Esc)] [Erl Ert] Esrc (A1 & A2 & A3)].
  set (d1 := d <| fee_results := rs |> <| fee_results_current := ps |>). set (r := new_result d0 o c direction run now b None).
  unfold FeeResults.fee_basis. cbn zeta.
  change (get_product d1 (order_sku_id o)) with (get_product d (order_sku_id o)). rewrite Ep, Eu. cbn [negb]. rewrite Eo.
  change (is_non_commission_owner_account normalize_owner_account_name d1) with (is_non_commission_owner_account normalize_owner_account_name d).
  rewrite En. change (select_valid_verify_record d1 (coupon_id c)) with (select_valid_verify_record d (coupon_id c)). rewrite Ev.
  rewrite (decision_stable d d1 o c (fb_verify b) current (Some r)) by done. rewrite Ed, Et.
  cbn [fmap option_fmap option_map]. change (business_month (fb_verify_time b)) with (month_of_day (business_date (fb_verify_time b))).
  rewrite <- Eday, <- Em. change (result_original_business_month r) with (fb_month b). rewrite str_eqb_refl.
  change (result_account_qualification_version_id r) with (fb_qualification b).
  assert (sale_store repr_of d1 o (Some r) (Some (fb_verify b)) (Some (fb_month b)) (fb_qualification b) (fb_decision b)
    = Some (fb_sale_store b)) as Es1.
  { revert Es. unfold sale_store. destruct (fb_decision b); [done|].
    change (result_original_business_month r) with (fb_month b).
    change (result_account_qualification_version_id r) with (fb_qualification b).
    change (result_sale_store_id r) with (fb_sale_store b).
    unfold d1. rewrite diagnose_frame. fold d1.
    destruct (fb_qualification b) as [q|]; [|by destruct current].
    rewrite (proj2 (opt_is_true _ _)) by done. rewrite bool_decide_true by done.
    unfold same_qualifying_verification. change (result_qualifying_verify_id r) with (Some (verify_id (fb_verify b))).
    change (result_qualifying_verify_time r) with (Some (fb_verify_time b)). rewrite Et, (proj2 (opt_is_true _ _)) by done.
    by rewrite !bool_decide_true. }
  assert (exists q, (if String.leb "2026-10" (fb_month b)
      then Some (qualified_version (fb_month b) o (fb_qualification b)) else None) = q
    /\ q <> Some None /\ default None q = fb_qualification b) as (q & -> & Hq & Eqq).
  { eexists. split; [reflexivity|]. destruct (String.leb _ _); [|done].
    destruct Eq as [[q Hq] Ev']. rewrite Hq in Ev' |- *. symmetry in Ev'. apply version_pinned in Ev'. by rewrite Ev'. }
  assert (match q with Some q => q | None => None end = fb_qualification b) as -> by by destruct q.
  rewrite Es1, <- Ec, Eci, Ets. cbn [negb fmap option_fmap option_map].
  rewrite !(proj2 (Z.ltb_ge _ _)) by lia.
  change (find_poi_mapping d1 (verify_poi_id (fb_verify b))) with (find_poi_mapping d (verify_poi_id (fb_verify b))).
  change (get_store d1) with (get_store d).
  set (ps1 := match find_poi_mapping d (verify_poi_id (fb_verify b)) with Some _ => _ | None => None end).
  assert (negb (direction =? PROMOTION_FEE) && bool_decide (ps1 = None) = false
    /\ (if direction =? PROMOTION_FEE then None else ps1) = fb_verify_store b) as [-> ->].
  { destruct (direction =? PROMOTION_FEE); [done|]. destruct Epoi as (m & Hm & Hs & Ev'). unfold ps1. rewrite Hm, Ev'.
    by rewrite (bool_decide_true (is_Some _)), bool_decide_false. }
  change (resolve_settlement_scope_rule d1 (fb_month b)) with (resolve_settlement_scope_rule d (fb_month b)).
  rewrite Esc, Esa. cbn [negb]. change (match_fee_rule d1 (product_sku_id (fb_product b))) with (match_fee_rule d (product_sku_id (fb_product b))).
  rewrite Erl. change (direction_source_amount repr_of d1 o c) with (direction_source_amount repr_of d o c). rewrite Esrc.
  rewrite <- Er, <- Ert.
  change (snapshot_refunded d1 o c (Some r) (fb_source b)) with (Z.min (fb_source b) (fb_refunded b)).
  rewrite Z.min_r, <- A2, <- A3 by lia.
  destruct q as [[q|]|]; [|done|]; (destruct b; reflexivity).
Qed.

End Basis.
