(* ===== verification/ResultThms.v ===== *)
(** * Fee results: theorems

    What the runs of the fee calculation guarantee. *)
From S2P Require Import Prelude PyValue Jobs Clues Receipts FeeTables FeeLedger FeeProps FeeThms Statements StatementProps SaleAccounts FeeResults FeeResultProps ResultRuns ResultBasis.
#[local] Open Scope Z_scope.
#[local] Set Default Proof Using "Type".
#[local] Notation RawDouyinOrder := FeeTables.RawDouyinOrder.
#[local] Notation RawDouyinOrderCoupon := FeeTables.RawDouyinOrderCoupon.

(** ** The best row *)

Lemma best_row_max {A} (before : A -> A -> bool) l x :
  (forall a, before a a = false) -> (forall a b c, before a b = true -> before b c = true -> before a c = true) ->
  best_row before l = Some x -> forall y, y ∈ l -> before y x = false.
Proof.
  intros Hi Ht. revert x. induction l as [|z l IH]; intros x; cbn; [done|].
  destruct (best_row before l) as [w|] eqn:Ew.
  - intros [= <-] y [-> |Hy]%elem_of_cons; [by destruct (before z w) eqn:E|].
    specialize (IH w eq_refl y Hy). destruct (before z w) eqn:E; [|done]. destruct (before y z) eqn:E'; [|done].
    by rewrite (Ht _ _ _ E' E) in IH.
  - intros [= <-] y [-> |Hy]%elem_of_cons; [done|]. destruct l; [by apply elem_of_nil in Hy|].
    cbn in Ew. by destruct (best_row before l).
Qed.

Lemma fee_rule_before_irrefl a : fee_rule_before a a = false.
Proof. unfold fee_rule_before. by rewrite !Z.ltb_irrefl, andb_false_r. Qed.
Lemma fee_rule_before_trans a b c : fee_rule_before a b = true -> fee_rule_before b c = true -> fee_rule_before a c = true.
Proof. unfold fee_rule_before. rewrite !orb_true_iff, !andb_true_iff, !Z.ltb_lt, !Z.eqb_eq. lia. Qed.

Lemma commission_cent_le base rate : 0 <= base -> 0 <= rate <= 1000000 -> commission_cent base rate <= base.
Proof.
  intros Hb Hr. unfold commission_cent. assert (0 <= base * rate <= base * 1000000) by nia.
  assert ((Z.abs (base * rate) + 500000) / 1000000 < base + 1) by (apply Z.div_lt_upper_bound; lia).
  assert (0 <= (Z.abs (base * rate) + 500000) / 1000000) by (apply Z.div_pos; lia).
  assert (Z.sgn (base * rate) = 0 \/ Z.sgn (base * rate) = 1) as [-> | ->]; lia.
Qed.

Lemma matched_rule_latest d sku day r x :
  match_fee_rule d sku day = Some r -> x ∈ fee_rules d -> fee_rule_sku_id x = sku -> fee_rule_effective_date x <= day ->
  fee_rule_effective_date x < fee_rule_effective_date r
  \/ (fee_rule_effective_date x = fee_rule_effective_date r /\ fee_rule_pk x <= fee_rule_pk r).
Proof.
  unfold match_fee_rule. destruct (best_row _ _) as [y|] eqn:E; [|done]. destruct (_ =? _); [|done]. intros [= <-] Hx Hs Hd.
  assert (fee_rule_before x y = false) as Hb.
  { eapply (best_row_max fee_rule_before); [apply fee_rule_before_irrefl|apply fee_rule_before_trans|exact E|].
    apply list_elem_of_In, filter_In. split; [by apply list_elem_of_In|]. rewrite Hs, str_eqb_refl. cbn. lia. }
  unfold fee_rule_before in Hb. apply orb_false_iff in Hb as [H1 H2]. apply andb_false_iff in H2. lia.
Qed.

Lemma selected_verification d coupon v :
  select_valid_verify_record d coupon = Some v ->
  v ∈ fee_verify_records d /\ verify_coupon_id v = Some coupon /\ verify_cancel_time v = None
  /\ normalized (verify_status v) ∈ VALID_VERIFY_STATUSES.
Proof.
  unfold select_valid_verify_record. intros Hv%head_Some_elem_of.
  apply list_elem_of_In, filter_In in Hv as [Hv H]. apply list_elem_of_In in Hv. rewrite merge_sort_Permutation in Hv.
  apply list_elem_of_In, filter_In in Hv as [Hv Hc]. apply list_elem_of_In in Hv.
  apply andb_true_iff in H as [H _]. apply andb_true_iff in H as [Hs Hn].
  apply bool_decide_eq_true in Hn. apply opt_is_true in Hc. unfold str_in in Hs. by apply bool_decide_eq_true in Hs.
Qed.

(** Carryforwards add adjustments of results that exist. *)
Lemma apply_step_results_ok hexdigest stmt run now d s d' :
  results_ok d -> apply_step hexdigest stmt run now d s = Ok d' -> results_ok d'.
Proof.
  intros Hok. unfold apply_step. destruct (existsb _ _); [by intros [= <-]; destruct Hok|].
  intros (m & _ & H)%result_bind_Ok. destruct m; [injection H as <-; by destruct Hok|].
  destruct (List.find _ _) as [r|] eqn:Hf; [|done]. apply find_some_in in Hf as [Hin Hid]. tests.
  unfold apply_source in H. apply result_bind_Ok in H as (d1 & H1 & H). apply result_bind_Ok in H as (d2 & H2 & H).
  injection H as <-. apply insert_adjustment_ok in H1 as [-> _]. apply insert_application_ok in H2 as ->.
  destruct Hok as [O1 O2 O3 O4 O5 O6]. split; try done.
  intros a [Ha| ->%list_elem_of_singleton]%elem_of_app; [by apply O5|].
  cbn [adj_original_fee_result_id]. apply list_elem_of_fmap. by exists r.
Qed.

Lemma carry_results_ok hexdigest stmt run now d d' :
  results_ok d -> apply_carryforward_sources hexdigest d stmt run now = Ok d' -> results_ok d'.
Proof.
  unfold apply_carryforward_sources. generalize (carryforward_candidates d stmt). intros l. revert d.
  induction l as [|s l IH]; intros d Hok; cbn [fold_result]; [by intros [= <-]|].
  intros (d1 & H1 & H)%result_bind_Ok. eapply IH; [|exact H]. by eapply apply_step_results_ok.
Qed.

Section Theorems.
Context (hexdigest : string -> string) (isoformat : instant -> string) (repr_of : pyval -> string).
Context (normalize_owner_account_name : option string -> string).
Context (json_object : list (string * pyval) -> string) (date_text : Z -> string) (rate_text : Z -> string).
Context `{SaleEvidence}.
#[local] Notation fee_basis := (fee_basis repr_of normalize_owner_account_name).
#[local] Notation new_result := (new_result hexdigest isoformat json_object date_text rate_text).
#[local] Notation fingerprint := (fee_result_input_fingerprint hexdigest isoformat json_object date_text rate_text).
#[local] Notation materialize := (materialize_dual_fee_direction hexdigest isoformat repr_of normalize_owner_account_name
  json_object date_text rate_text).
#[local] Notation rebuild := (rebuild_dual_fee_results hexdigest isoformat repr_of normalize_owner_account_name
  json_object date_text rate_text).

(** The ledgers that runs, and the application of carryforwards to statements,
    produce from an empty one, while the raw and the finance tables change in
    between in any way. *)
Inductive ledger_reachable : feedb -> Prop :=
  | reach_empty d : fee_results d = [] -> fee_results_current d = [] -> fee_adjustments d = [] -> ledger_reachable d
  | reach_tables d d' : ledger_reachable d -> fee_results d' = fee_results d ->
      fee_results_current d' = fee_results_current d -> fee_adjustments d' = fee_adjustments d -> ledger_reachable d'
  | reach_run d run now force scope d' stats : ledger_reachable d ->
      rebuild d run now force scope = Ok (d', stats) -> ledger_reachable d'
  | reach_carry d stmt run now d' : ledger_reachable d ->
      apply_carryforward_sources hexdigest d stmt run now = Ok d' -> ledger_reachable d'.

Lemma reachable_ok d : ledger_reachable d -> results_ok d.
Proof.
  induction 1 as [d E1 E2 E3|d d' _ IH E1 E2 E3|d run now force scope d' stats _ IH Hr|d stmt run now d' _ IH Hc].
  - split; unfold results_unique; rewrite ?E1, ?E2, ?E3; try apply NoDup_nil_2; intros x Hx; by apply elem_of_nil in Hx.
  - destruct IH. split; unfold results_unique; rewrite ?E1, ?E2, ?E3; done.
  - eapply steps_ok; [done|]. by eapply rebuild_steps.
  - by eapply carry_results_ok.
Qed.

(** C2: In every ledger that runs of the calculation and carryforwards produce, each coupon and fee
    direction has at most one active result; the current pointer of the slot exists
    exactly when it does, and names it; no id is used twice, and no adjustment or
    restored basis refers to a result that does not exist. *)
Theorem one_active_result d coupon direction :
  ledger_reachable d ->
  (forall r, (r ∈ fee_results d /\ slot_of r = (coupon, direction) /\ result_status r = ACTIVE_FEE_RESULT)
     <-> r ∈ fee_results d /\ fee_result_id r ∈ option_list (current_fee_result_id <$> current_pointer d coupon direction))
  /\ (current_pointer d coupon direction <> None -> exists r, r ∈ fee_results d
        /\ slot_of r = (coupon, direction) /\ result_status r = ACTIVE_FEE_RESULT)
  /\ (forall r r', r ∈ fee_results d -> r' ∈ fee_results d -> fee_result_id r = fee_result_id r' -> r = r')
  /\ (forall a, a ∈ fee_adjustments d -> adj_original_fee_result_id a ∈ fee_result_id <$> fee_results d).
Proof.
  intros Hok%reachable_ok. split; [|split; [|split; [|apply Hok]]].
  - intros r. split.
    + intros (Hr & Hs & Ha). split; [done|]. destruct (ro_active d Hok r Hr Ha) as (p & Hp & Ep).
      destruct (pointer_result d p r Hok Hp Hr (eq_sym Ep)) as [Es _].
      destruct (current_pointer d coupon direction) as [q|] eqn:Hq.
      * apply current_pointer_some in Hq as [Hq Hqs]. cbn. apply list_elem_of_singleton. rewrite <- Ep. f_equal.
        apply (pointer_unique d); [done..|congruence].
      * exfalso. apply (current_pointer_none d _ _ p Hq Hp). congruence.
    + intros [Hr Hp]. split; [done|]. destruct (current_pointer d coupon direction) as [q|] eqn:Hq; [|by apply elem_of_nil in Hp].
      apply current_pointer_some in Hq as [Hq Hqs]. cbn in Hp. apply list_elem_of_singleton in Hp.
      rewrite <- Hqs. destruct (pointer_result d q r Hok Hq Hr Hp) as (? & ? & _). done.
  - destruct (current_pointer d coupon direction) as [q|] eqn:Hq; [intros _|done].
    apply current_pointer_some in Hq as [Hq Hqs]. destruct (ro_pointer d Hok q Hq) as (r & Hr & _ & Es & Ha & _).
    exists r. split_and!; [done|congruence|done].
  - intros r r'. apply result_unique, Hok.
Qed.

(** C1: A run of the calculation, whatever its scope and whether forced or not, may
    retire, replace, restore or adjust results, but the sources of every statement
    that is frozen for a store and month (a locked, confirmed or disputed statement,
    an invoice) stay exactly what they were, and the month stays frozen. *)
Theorem runs_keep_frozen_statements d run now force scope d' stats store month :
  ledger_reachable d -> rebuild d run now force scope = Ok (d', stats) ->
  store <> "" -> is_fee_result_locked d store month None = true ->
  statement_sources d' store month = statement_sources d store month
  /\ is_fee_result_locked d' store month None = true.
Proof.
  intros Hok%reachable_ok Hr Hs Hl. apply rebuild_steps in Hr; [|done].
  destruct (ledger_steps_keep d d' Hok Hr) as [_ [Ht Hk]]. split; [by apply Hk|]. by rewrite (freezing_locked d d').
Qed.

(** C15: Calculating a direction whose inputs are complete and whose slots are open
    always succeeds: a new version is written and becomes the current result of the
    coupon, whatever was current before. Calculating it again on unchanged inputs,
    in a later run, writes nothing. *)
Theorem open_basis_written_once `{!SaleEvidenceLaws} d o c direction run now force b run' now' :
  results_ok d -> rates_ok d -> refunds_ok d ->
  fee_basis d o c direction (current_fee_result d (coupon_id c) direction) = BasisReady b ->
  basis_frozen d direction (current_fee_result d (coupon_id c) direction) b = false ->
  (force = true \/ forall r, current_fee_result d (coupon_id c) direction = Some r ->
     result_input_fingerprint r <> Some (fingerprint o c direction b)) ->
  calculation_run_result d (coupon_id c) direction run = None ->
  fee_result_id (new_result d o c direction run now b None) ∉ fee_result_id <$> fee_results d ->
  exists d', materialize d o c direction run now (current_fee_result d (coupon_id c) direction) force = Ok (d', true)
    /\ current_fee_result d' (coupon_id c) direction = Some (new_result d o c direction run now b None)
    /\ materialize d' o c direction run' now' (current_fee_result d' (coupon_id c) direction) false = Ok (d', true).
Proof.
  intros Hok Hr Hrf Hb Hf Hfp Hrun Hid. pose proof (basis_ready_inputs _ _ _ _ _ _ _ _ Hb) as Hin.
  destruct (basis_amounts _ _ d o c direction _ b Hin Hr Hrf) as (_ & Ha & _); [intros r E; by eapply current_in|].
  destruct (switch_ok hexdigest isoformat repr_of normalize_owner_account_name json_object date_text rate_text
    d o c direction run now _ b Hok eq_refl Hin Hf Hr Hrf Hrun Hid) as (g & ps & Hg & Hw & Hp).
  eexists. split_and!.
  - unfold materialize_dual_fee_direction. rewrite Hb, Hf, Hw. cbn [result_bind].
    destruct (current_fee_result d (coupon_id c) direction) as [r|]; [|done].
    destruct (opt_is _ _ && negb force) eqn:E; [|done]. apply andb_true_iff in E as [E1%opt_is_true E2].
    destruct Hfp as [-> |Hfp]; [done|]. by destruct (Hfp r eq_refl).
  - by apply switched_current.
  - rewrite switched_current by done. unfold materialize_dual_fee_direction.
    rewrite (basis_again hexdigest isoformat repr_of normalize_owner_account_name json_object date_text rate_text d o c direction
      (current_fee_result d (coupon_id c) direction) b run now d) by done.
    cbn [result_input_fingerprint FeeResults.new_result]. by rewrite (proj2 (opt_is_true _ _)).
Qed.

(** C27: A fee is calculated only on evidence: a verification of this coupon that is
    valid, not canceled and in the formal window, the latest fee rule of the SKU
    effective that day, which must be active, an active scope rule, and, for the
    management fee, a known store of the verification. The base is the proven
    receipt less what is known to be refunded, and the fee is the rate's share of it,
    never negative and never more than the base. *)
Theorem fee_needs_evidence d o c direction current b :
  rates_ok d -> refunds_ok d -> (forall r, current = Some r -> r ∈ fee_results d) ->
  fee_basis d o c direction current = BasisReady b ->
  (fb_verify b ∈ fee_verify_records d /\ verify_coupon_id (fb_verify b) = Some (coupon_id c)
   /\ verify_cancel_time (fb_verify b) = None /\ normalized (verify_status (fb_verify b)) ∈ VALID_VERIFY_STATUSES
   /\ exists t, verify_time (fb_verify b) = Some t /\ FORMAL_SETTLEMENT_START <= business_date t
       /\ fb_month b = business_month t)
  /\ (fb_rule b ∈ fee_rules d /\ fee_rule_status (fb_rule b) = ACTIVE_FEE_RULE
      /\ Some (fee_rule_sku_id (fb_rule b)) = order_sku_id o /\ fee_rule_effective_date (fb_rule b) <= fb_day b
      /\ forall x, x ∈ fee_rules d -> fee_rule_sku_id x = fee_rule_sku_id (fb_rule b) -> fee_rule_effective_date x <= fb_day b ->
           fee_rule_effective_date x < fee_rule_effective_date (fb_rule b)
           \/ (fee_rule_effective_date x = fee_rule_effective_date (fb_rule b) /\ fee_rule_pk x <= fee_rule_pk (fb_rule b)))
  /\ scope_is_active (fb_scope b) = true
  /\ (direction <> PROMOTION_FEE -> exists s, s ∈ fee_stores d /\ fb_responsible b = Some (store_id s))
  /\ direction_source_amount repr_of d o c = Some (fb_source b)
  /\ 0 <= fb_refunded b <= fb_source b
  /\ fb_fee b = commission_cent (fb_source b - fb_refunded b) (fb_rate b)
  /\ 0 <= fb_fee b <= fb_source b - fb_refunded b.
Proof.
  intros Hr Hrf Hc Hb%basis_ready_inputs.
  destruct (basis_amounts _ _ d o c direction _ b Hb Hr Hrf Hc) as (A1 & A2 & A3 & A4 & A5).
  destruct Hb as [[Ep _] _ [Ev Et] _ [Eday Em] [Hw _] _ _ _ Epoi Er [Esa _] [Erl _] Esrc (_ & _ & Ef)].
  split_and!; try done; try lia.
  1-4: by apply selected_verification in Ev as (? & ? & ? & ?).
  - exists (fb_verify_time b). split; [done|]. unfold business_month. rewrite <- Eday. by split.
  - by apply matched_rule_in in Erl as (? & ? & ? & ?).
  - by apply matched_rule_in in Erl as (? & ? & ? & ?).
  - apply matched_rule_in in Erl as (_ & -> & _). revert Ep. unfold get_product. destruct (truthy_text _); [|done].
    intros [_ E]%find_some_in. by apply opt_is_true in E.
  - by apply matched_rule_in in Erl as (? & ? & ? & ?).
  - intros x Hx Es Hd. apply (matched_rule_latest d _ _ _ x Erl); [done| |done].
    rewrite Es. by apply matched_rule_in in Erl as (? & ? & ? & ?).
  - intros Hne. rewrite Er. rewrite (proj2 (Z.eqb_neq _ _) Hne) in *. destruct Epoi as (m & _ & [s Hs] & ->).
    exists s. apply find_some_in in Hs as [Hs E]. split; [done|]. tests. congruence.
  - by rewrite Ef, A3.
  - rewrite Ef, A3. apply commission_cent_le; [lia|done].
Qed.
End Theorems.
