(* ===== verification/Attribution.v ===== *)
(** * Historical sale attribution

    apps/worker/historical_sale_attribution.py: the ledger of approved decisions that
    attribute the sale of one coupon to a store, how a decision is checked against
    the live rows before it is used ([resolve_historical_sale_attribution]), and the
    import of a reviewed manifest ([import_decisions]).

    A time of the code, UTC text of microseconds, is an instant. *)
From S2P Require Import Prelude PyValue Phones Jobs FeeTables FeeLedger SaleAccounts FeeResults.
#[local] Open Scope Z_scope.
#[local] Set Default Proof Using "Type".

Definition HistoricalAttributionError (message : string) : exn := NamedError "HistoricalAttributionError" message.

(** What identifies a reviewed redemption. *)
Record source_identity := MkIdentity {
  ident_raw_order_id : Z;
  ident_order_id : string;
  ident_raw_coupon_id : Z;
  ident_coupon_id : string;
  ident_source_account_id : option string;
  ident_store_id : string;
  ident_verify_id : string;
  ident_verify_time : instant;
  ident_business_month : string;
  ident_sale_time : option instant;
  ident_pay_time : option instant;
  ident_order_payload_fingerprint : option string;
  ident_coupon_payload_fingerprint : option string;
  ident_verify_payload_fingerprint : option string;
}.

#[export] Instance source_identity_eq_dec : EqDecision source_identity.
Proof. solve_decision. Defined.

Record HistoricalSaleAttributionDecision := MkSaleDecision {
  sd_decision_id : string;
  sd_batch_id : string;
  sd_raw_order_id : Z;
  sd_order_id : string;
  sd_raw_coupon_id : Z;
  sd_coupon_id : string;
  sd_verify_id : string;
  sd_verify_time : instant;
  sd_business_month : string;
  sd_source_account_id : option string;
  sd_store_id : string;
  sd_source_identity_sha256 : string;
  sd_source_identity_json : source_identity;
  sd_evidence_sha256 : string;
  sd_approval_evidence_json : pyval;
  sd_actor : string;
}.

(** The tables the import reads and writes. *)
Record attributiondb := MkAttributionDb {
  at_fee : feedb;
  at_decisions : list HistoricalSaleAttributionDecision;
  at_jobs : gmap string JobRun;
  at_events : list JobEvent;
}.

(** ** Patterns *)

(** [_MONTH]: [20\d{2}-(?:0[1-9]|1[0-2])] *)
Definition month_matches (s : string) : bool :=
  match codepoints (chars s) with
  | [a; b; c; d; e; f; g] =>
      (a =? 50) && (b =? 48) && unicode_digit c && unicode_digit d && (e =? 45)
      && (((f =? 48) && in_range 49 57 g) || ((f =? 49) && in_range 48 50 g))
  | _ => false
  end.

(** [_SHA]: [[0-9a-f]{64}] *)
Definition sha_matches (s : string) : bool :=
  (length (chars s) =? 64)%nat && forallb (fun c => in_range 48 57 (code c) || in_range 97 102 (code c)) (chars s).

(** ** A row of the manifest *)

Definition bad {A} (message : string) : result A := Raise (HistoricalAttributionError message).

(** [_text], [_positive_id] *)
Definition text_field (value : pyval) (field : string) : result string :=
  match value with
  | PStr s => if blank s || negb (str_eqb s (strip s)) then bad ("invalid " +:+ field)%string else Ok s
  | _ => bad ("invalid " +:+ field)%string
  end.
Definition positive_id (value : pyval) (field : string) : result Z :=
  match value with
  | PInt z => if z <=? 0 then bad ("invalid " +:+ field)%string else Ok z
  | _ => bad ("invalid " +:+ field)%string
  end.

(** [value.replace("Z", "+00:00")] *)
Definition utc_suffix (s : string) : string :=
  text (mjoin ((fun c => if char_is c 90 then chars "+00:00" else [c]) <$> chars s)).

Definition fingerprint_field (value : pyval) (field : string) : result (option string) :=
  match value with
  | PNone => Ok None
  | PStr s => if sha_matches s then Ok (Some s) else bad ("invalid " +:+ field)%string
  | _ => bad ("invalid " +:+ field)%string
  end.

(** The months a row is approved for: matching texts, with this one among them. *)
Definition months_approved (value : pyval) (month : string) : bool :=
  match value with
  | PList (x :: l) =>
      forallb (fun v => match v with PStr s => month_matches s | _ => false end) (x :: l)
      && existsb (fun v => is_str v month) (x :: l)
  | _ => false
  end.

Section Attribution.
(** [datetime.fromisoformat]: the instant and whether it carries an offset; the
    digest of a value's canonical JSON and the length of [json.dumps]. *)
Context (fromisoformat : string -> option (bool * instant)) (isoformat : instant -> string).
Context (digest : pyval -> string) (dumps_length : pyval -> Z).

(** [_instant] of a manifest's value *)
Definition instant_field (value : pyval) : result (option instant) :=
  match value with
  | PNone => Ok None
  | PStr s => match fromisoformat (utc_suffix s) with
              | None => bad "invalid source timestamp"
              | Some (true, t) => Ok (Some t)
              | Some (false, _) => bad "source timestamp must carry a timezone"
              end
  | _ => bad "source timestamp must carry a timezone"
  end.

(** [_manifest_identity] *)
Definition manifest_identity (row : pydict) : result source_identity :=
  let get f := dict_get f row in
  let* order := text_field (get "order_id") "order_id" in
  let* coupon := text_field (get "coupon_id") "coupon_id" in
  let* account := text_field (get "source_account_id") "source_account_id" in
  let* store := text_field (get "store_id") "store_id" in
  let* verify := text_field (get "verify_id") "verify_id" in
  let* month := text_field (get "business_month") "business_month" in
  let* raw_order := positive_id (get "raw_order_id") "raw_order_id" in
  let* raw_coupon := positive_id (get "raw_coupon_id") "raw_coupon_id" in
  let* _ := raise_if (negb (month_matches month) || String.ltb month "2026-08")
              (HistoricalAttributionError "business month is outside the formal scope") in
  let* _ := raise_if (negb (months_approved (get "approved_business_months") month))
              (HistoricalAttributionError "business month is not explicitly approved") in
  let* sale_time := instant_field (get "sale_time") in
  let* pay_time := instant_field (get "pay_time") in
  let* verify_time := instant_field (get "verify_time") in
  match verify_time with
  | None => bad "verify_time is required"
  | Some t =>
      let* _ := raise_if (negb (str_eqb (business_month t) month))
                  (HistoricalAttributionError "verification month does not match the approved scope") in
      let* f1 := fingerprint_field (get "order_payload_fingerprint") "order_payload_fingerprint" in
      let* f2 := fingerprint_field (get "coupon_payload_fingerprint") "coupon_payload_fingerprint" in
      let* f3 := fingerprint_field (get "verify_payload_fingerprint") "verify_payload_fingerprint" in
      Ok (MkIdentity raw_order order raw_coupon coupon (Some account) store verify t month sale_time pay_time f1 f2 f3)
  end.

(** ** The live rows *)

(** [_live_identity] *)
Definition live_identity (o : RawDouyinOrder) (c : RawDouyinOrderCoupon) (verify : option RawDouyinVerifyRecord)
    (store : string) : option source_identity :=
  match verify with
  | None => None
  | Some v =>
      match verify_time v with
      | None => None
      | Some t =>
          if negb (opt_is (verify_coupon_id v) (coupon_id c)) || negb (coupon_raw_order_id c =? order_pk o)
             || negb (str_eqb (coupon_order_id c) (order_id o))
          then None
          else Some (MkIdentity (order_pk o) (order_id o) (coupon_pk c) (coupon_id c) (order_owner_account_id o) store
                       (verify_id v) t (business_month t) (order_sale_time o) (order_pay_time o)
                       (order_payload_fingerprint o) (coupon_payload_fingerprint c) (verify_payload_fingerprint v))
      end
  end.

(** The identity without the digests of the payloads. *)
Definition stable (i : source_identity) : source_identity :=
  MkIdentity (ident_raw_order_id i) (ident_order_id i) (ident_raw_coupon_id i) (ident_coupon_id i)
    (ident_source_account_id i) (ident_store_id i) (ident_verify_id i) (ident_verify_time i) (ident_business_month i)
    (ident_sale_time i) (ident_pay_time i) None None None.

(** The dictionary that is stored and digested. *)
Definition opt_pytext (o : option string) : pyval := match o with Some s => PStr s | None => PNone end.
Definition opt_pytime (o : option instant) : pyval := match o with Some t => PStr (isoformat t) | None => PNone end.
Definition identity_json (i : source_identity) : pyval :=
  PDict [("raw_order_id", PInt (ident_raw_order_id i)); ("order_id", PStr (ident_order_id i));
    ("raw_coupon_id", PInt (ident_raw_coupon_id i)); ("coupon_id", PStr (ident_coupon_id i));
    ("source_account_id", opt_pytext (ident_source_account_id i)); ("store_id", PStr (ident_store_id i));
    ("verify_id", PStr (ident_verify_id i)); ("verify_time", PStr (isoformat (ident_verify_time i)));
    ("business_month", PStr (ident_business_month i)); ("sale_time", opt_pytime (ident_sale_time i));
    ("pay_time", opt_pytime (ident_pay_time i));
    ("order_payload_fingerprint", opt_pytext (ident_order_payload_fingerprint i));
    ("coupon_payload_fingerprint", opt_pytext (ident_coupon_payload_fingerprint i));
    ("verify_payload_fingerprint", opt_pytext (ident_verify_payload_fingerprint i))].

(** The columns of a decision agree with an identity. *)
Definition columns_agree (x : HistoricalSaleAttributionDecision) (i : source_identity) : bool :=
  (sd_raw_order_id x =? ident_raw_order_id i) && str_eqb (sd_order_id x) (ident_order_id i)
  && (sd_raw_coupon_id x =? ident_raw_coupon_id i) && str_eqb (sd_coupon_id x) (ident_coupon_id i)
  && bool_decide (sd_source_account_id x = ident_source_account_id i) && str_eqb (sd_store_id x) (ident_store_id i)
  && str_eqb (sd_verify_id x) (ident_verify_id i) && str_eqb (sd_business_month x) (ident_business_month i)
  && (sd_verify_time x =? ident_verify_time i).

(** The result was calculated on the decision. *)
Definition result_of_decision (r : SettlementFeeResult) (x : HistoricalSaleAttributionDecision) : bool :=
  opt_is (result_sale_attribution_decision_id r) (sd_decision_id x)
  && str_eqb (result_coupon_id r) (sd_coupon_id x) && str_eqb (result_order_id r) (sd_order_id x)
  && opt_is (result_sale_store_id r) (sd_store_id x)
  && str_eqb (result_original_business_month r) (sd_business_month x)
  && opt_is (result_qualifying_verify_id r) (sd_verify_id x)
  && bool_decide (result_qualifying_verify_time r = Some (sd_verify_time x)).

Definition get_verify (d : feedb) (id : string) : option RawDouyinVerifyRecord :=
  List.find (fun v => str_eqb (verify_id v) id) (fee_verify_records d).

(** [resolve_historical_sale_attribution] *)
Definition resolve_historical_sale_attribution (decisions : list HistoricalSaleAttributionDecision) (d : feedb)
    (o : RawDouyinOrder) (c : RawDouyinOrderCoupon) (verify : option RawDouyinVerifyRecord)
    (current_result : option SettlementFeeResult) : result (option HistoricalSaleAttributionDecision) :=
  match List.filter (fun x => str_eqb (sd_coupon_id x) (coupon_id c)) decisions with
  | [] => Ok None
  | [x] =>
      let basis := match verify, current_result with
                   | None, Some r =>
                       if result_of_decision r x
                       then match get_verify d (sd_verify_id x) with
                            | Some v => if bool_decide (is_Some (verify_cancel_time v)) then Some v else None
                            | None => None
                            end
                       else None
                   | _, _ => verify
                   end in
      match live_identity o c basis (sd_store_id x) with
      | None => bad "historical attribution source identity changed"
      | Some live =>
          if negb (str_eqb (digest (identity_json (sd_source_identity_json x))) (sd_source_identity_sha256 x))
             || negb (bool_decide (stable live = stable (sd_source_identity_json x))) || negb (columns_agree x live)
          then bad "historical attribution source identity changed"
          else if active_store d (sd_store_id x) then Ok (Some x)
          else bad "historical attribution target store is not active"
      end
  | _ => bad "ambiguous historical attribution decisions"
  end.

(** ** Importing a manifest *)

(** A job that may write the source rows. *)
Definition source_writer (j : JobRun) : bool :=
  match status j with Running | RetryWait => true | _ => false end
  && (opt_is (execution_slot j) "heavy_sync"
      || str_in (job_name j) ["collect_and_settle"; "settlement_rebuild"; "manual_backend_aweme_export"; "manual_sync";
           "collect_once"; "settlement_compaction"; "refund_evidence_replay"]
      || match job_kind j with Some (DateSync | ParentSync | Finalize | ProductSync) => true | _ => false end).

(** [_import_lock]: whether the locks of the database are free, and no writer runs *)
Definition import_lock (locks_free : bool) (jobs : gmap string JobRun) : result unit :=
  let* _ := raise_if (negb locks_free) (HistoricalAttributionError "source writer claim lock is busy") in
  raise_if (existsb (fun kj => source_writer kj.2) (map_to_list jobs))
    (HistoricalAttributionError "a source writer is running").

Fixpoint map_result {A B} (f : A -> result B) (l : list A) : result (list B) :=
  match l with
  | [] => Ok []
  | a :: l' => let* b := f a in let* bs := map_result f l' in Ok (b :: bs)
  end.

Definition ident_before (a b : source_identity) : Prop := String.le (ident_coupon_id a) (ident_coupon_id b).
#[export] Instance ident_before_dec a b : Decision (ident_before a b).
Proof. unfold ident_before. apply _. Defined.

(** The number of characters of a text. *)
Definition text_length (s : string) : Z := Z.of_nat (length (codepoints (chars s))).

(** A manifest that has been read. *)
Record manifest := MkManifest {
  mf_batch_id : string;
  mf_actor : string;
  mf_evidence : string;
  mf_approval : pyval;
  mf_identities : list source_identity;
}.

Definition read_manifest (value : pyval) : result manifest :=
  match value with
  | PDict m =>
      let* batch := text_field (dict_get "batch_id" m) "batch_id" in
      let* actor := text_field (dict_get "actor" m) "actor" in
      let* _ := raise_if ((128 <? text_length batch) || (128 <? text_length actor))
                  (HistoricalAttributionError "batch_id or actor is too long") in
      let* evidence := match dict_get "evidence_sha256" m with
                       | PStr s => if sha_matches s then Ok s else bad "evidence_sha256 must be a SHA-256 digest"
                       | _ => bad "evidence_sha256 must be a SHA-256 digest"
                       end in
      let approval := dict_get "approval_evidence" m in
      let* _ := raise_if (negb (match approval with PDict (_ :: _) => true | _ => false end)
                          || (16384 <? dumps_length approval))
                  (HistoricalAttributionError "explicit approval evidence is required") in
      match dict_get "rows" m with
      | PList rows =>
          let* _ := raise_if (negb ((1 <=? length rows)%nat && (length rows <=? 5000)%nat && forallb is_dict rows))
                      (HistoricalAttributionError "manifest must contain 1 to 5000 exact rows") in
          let* identities := map_result (fun r => manifest_identity (as_dict r)) rows in
          let identities := merge_sort ident_before identities in
          let* _ := raise_if (negb (length (remove_dups (ident_coupon_id <$> identities)) =? length identities)%nat)
                      (HistoricalAttributionError "duplicate or ambiguous coupon scope in manifest") in
          Ok (MkManifest batch actor evidence approval identities)
      | _ => bad "manifest must contain 1 to 5000 exact rows"
      end
  | _ => bad "manifest must be an object"
  end.

Definition payload_digest (m : manifest) : string :=
  digest (PDict [("batch_id", PStr (mf_batch_id m)); ("actor", PStr (mf_actor m)); ("evidence", PStr (mf_evidence m));
    ("approval", mf_approval m); ("identities", PList (identity_json <$> mf_identities m))]).
Definition prefix_of (n : nat) (s : string) : string := text (take n (chars s)).
Definition import_job_id (batch : string) : string :=
  ("historical-attribution-import-" +:+ prefix_of 32 (digest (PStr batch)))%string.

(** The decision a row of the manifest asks for. *)
Definition decision_of (m : manifest) (i : source_identity) : HistoricalSaleAttributionDecision :=
  let source := digest (identity_json i) in
  MkSaleDecision
    ("historical-sale-" +:+ prefix_of 48 (digest (PDict [("batch", PStr (mf_batch_id m)); ("source", PStr source);
                                                         ("evidence", PStr (mf_evidence m))])))%string
    (mf_batch_id m) (ident_raw_order_id i) (ident_order_id i) (ident_raw_coupon_id i) (ident_coupon_id i)
    (ident_verify_id i) (ident_verify_time i) (ident_business_month i) (ident_source_account_id i) (ident_store_id i)
    source i (mf_evidence m) (mf_approval m) (mf_actor m).

(** One row: the live rows must be exactly the reviewed ones; a decision of the
    coupon that is there already must be the same one. *)
Definition import_row (d : attributiondb) (m : manifest) (st : list HistoricalSaleAttributionDecision * Z)
    (i : source_identity) : result (list HistoricalSaleAttributionDecision * Z) :=
  let '(pending, existing) := st in
  let fee := at_fee d in
  match List.find (fun c => coupon_pk c =? ident_raw_coupon_id i) (fee_coupons fee),
        List.find (fun o => order_pk o =? ident_raw_order_id i) (fee_orders fee) with
  | Some c, Some o =>
      match live_identity o c (select_valid_verify_record fee (coupon_id c)) (ident_store_id i) with
      | None => bad "historical attribution source identity changed"
      | Some live =>
          let* _ := raise_if (negb (bool_decide (live = i)) || negb (active_store fee (ident_store_id i)))
                      (HistoricalAttributionError "reviewed source or target-store identity changed") in
          let x := decision_of m i in
          match List.find (fun y => str_eqb (sd_coupon_id y) (ident_coupon_id i)) (at_decisions d) with
          | Some y =>
              let* _ := raise_if (negb (str_eqb (sd_decision_id y) (sd_decision_id x)
                                   && str_eqb (sd_source_identity_sha256 y) (sd_source_identity_sha256 x)
                                   && str_eqb (sd_evidence_sha256 y) (mf_evidence m)
                                   && bool_decide (sd_source_identity_json y = i)))
                          (HistoricalAttributionError "coupon already has a different historical decision") in
              Ok (pending, existing + 1)
          | None => Ok (pending ++ [x], existing)
          end
      end
  | _, _ => bad "reviewed raw order or coupon no longer exists"
  end.

(** The job and the event that record an import. *)
Definition import_job (m : manifest) (now : instant) : JobRun :=
  MkJobRun (import_job_id (mf_batch_id m)) "historical_sale_attribution_import" Success (Some now) 0 0 None
    (PDict [("batch_id", PStr (mf_batch_id m)); ("manifest_sha256", PStr (payload_digest m));
       ("evidence_sha256", PStr (mf_evidence m)); ("decision_count", PInt (Z.of_nat (length (mf_identities m))))])
    None None None None None None None None None None None None None None None None None None None None None.
Definition import_event (m : manifest) (now : instant) : JobEvent :=
  MkJobEvent (import_job_id (mf_batch_id m)) None "historical_sale_attribution_imported" None None "ops_agent"
    (Some (mf_actor m)) None (Some (payload_digest m))
    [("manifest_sha256", PStr (payload_digest m)); ("decision_count", PInt (Z.of_nat (length (mf_identities m))))] now.

Record ImportSummary := MkSummary {
  sum_applied : bool;
  sum_row_count : Z;
  sum_new_count : Z;
  sum_existing_count : Z;
  sum_manifest_sha256 : string;
  sum_batch_id : string;
  sum_months : list string;
}.

(** An earlier import of the batch: of another job, or of another manifest. *)
Definition batch_conflict (j : JobRun) (digest_text : string) : bool :=
  negb (str_eqb (job_name j) "historical_sale_attribution_import")
  || negb (is_str (dict_get "manifest_sha256" (as_dict (metadata_json j))) digest_text).

(** [import_decisions] *)
Definition import_decisions (d : attributiondb) (value : pyval) (apply locks_free : bool) (now : instant)
  : result (attributiondb * ImportSummary) :=
  let* m := read_manifest value in
  let* _ := if apply then import_lock locks_free (at_jobs d) else Ok tt in
  let previous := at_jobs d !! import_job_id (mf_batch_id m) in
  let* _ := raise_if (match previous with Some j => batch_conflict j (payload_digest m) | None => false end)
              (HistoricalAttributionError "batch key is already bound to a different manifest") in
  let* (pending, existing) := fold_result (import_row d m) ([], 0) (mf_identities m) in
  let* _ := raise_if (bool_decide (is_Some previous) && negb (match pending with [] => true | _ => false end))
              (HistoricalAttributionError "previous import audit exists but its decisions are missing") in
  let summary := MkSummary apply (Z.of_nat (length (mf_identities m))) (Z.of_nat (length pending)) existing
                   (payload_digest m) (mf_batch_id m)
                   (merge_sort String.le (remove_dups (ident_business_month <$> mf_identities m))) in
  if apply && bool_decide (previous = None)
  then
    let* _ := raise_if (negb (bool_decide (NoDup (sd_decision_id <$> at_decisions d ++ pending))))
                (NamedError "IntegrityError" "historical_sale_attribution_decisions") in
    Ok (MkAttributionDb (at_fee d) (at_decisions d ++ pending)
             (<[import_job_id (mf_batch_id m) := import_job m now]> (at_jobs d)) (at_events d ++ [import_event m now]),
           summary)
  else Ok (d, summary).
End Attribution.
