(* ===== verification/AttributionProps.v ===== *)
(** * Historical sale attribution: theorems

    An import adds exactly the reviewed decisions, at most one per coupon; replaying
    it changes nothing; and what it imported is what the calculation resolves. *)
From S2P Require Import Prelude PyValue Phones Jobs FeeTables FeeLedger FeeProps SaleAccounts FeeResults Attribution.
#[local] Open Scope Z_scope.
#[local] Set Default Proof Using "Type".

Lemma remove_dups_le {A} `{EqDecision A} (l : list A) : (length (remove_dups l) <= length l)%nat.
Proof. induction l as [|x l IH]; cbn; [lia|]. destruct (decide_rel _ _ _); cbn; lia. Qed.
Lemma remove_dups_length {A} `{EqDecision A} (l : list A) : length (remove_dups l) = length l -> NoDup l.
Proof.
  induction l as [|x l IH]; cbn; [constructor|]. pose proof (remove_dups_le l).
  destruct (decide_rel _ _ _) as [Hx|Hx]; cbn; intros E; [lia|]. constructor; [done|]. apply IH. lia.
Qed.

Section Imports.
Context (fromisoformat : string -> option (bool * instant)) (isoformat : instant -> string).
Context (digest : pyval -> string) (dumps_length : pyval -> Z).
#[local] Notation decision_of := (decision_of isoformat digest).
#[local] Notation import_row := (import_row isoformat digest).
#[local] Notation import := (import_decisions fromisoformat isoformat digest dumps_length).
#[local] Notation resolve := (resolve_historical_sale_attribution isoformat digest).

Definition coupon_decision (l : list HistoricalSaleAttributionDecision) (coupon : string) :=
  List.find (fun y => str_eqb (sd_coupon_id y) coupon) l.

(** The live rows are exactly the reviewed ones. *)
Definition reviewed (d : feedb) (i : source_identity) : Prop :=
  exists c o, List.find (fun c => coupon_pk c =? ident_raw_coupon_id i) (fee_coupons d) = Some c
    /\ List.find (fun o => order_pk o =? ident_raw_order_id i) (fee_orders d) = Some o
    /\ live_identity o c (select_valid_verify_record d (coupon_id c)) (ident_store_id i) = Some i
    /\ active_store d (ident_store_id i) = true.

(** The decision that is there is the one asked for. *)
Definition same_decision (m : manifest) (i : source_identity) (y : HistoricalSaleAttributionDecision) : Prop :=
  sd_decision_id y = sd_decision_id (decision_of m i)
  /\ sd_source_identity_sha256 y = sd_source_identity_sha256 (decision_of m i)
  /\ sd_evidence_sha256 y = mf_evidence m /\ sd_source_identity_json y = i.

Lemma import_row_ok d m p n i p' n' :
  import_row d m (p, n) i = Ok (p', n') <->
  reviewed (at_fee d) i
  /\ match coupon_decision (at_decisions d) (ident_coupon_id i) with
     | Some y => same_decision m i y /\ p' = p /\ n' = n + 1
     | None => p' = p ++ [decision_of m i] /\ n' = n
     end.
Proof.
  unfold Attribution.import_row, reviewed, coupon_decision, same_decision. cbn zeta.
  destruct (List.find _ (fee_coupons _)) as [c|]; [|split; [done|intros [(c & o & ? & _) _]; done]].
  destruct (List.find _ (fee_orders _)) as [o|]; [|split; [done|intros [(c' & o & _ & ? & _) _]; done]].
  destruct (live_identity _ _ _ _) as [live|] eqn:El.
  2: { split; [done|]. intros [(c' & o' & [= <-] & [= <-] & E & _) _]. congruence. }
  destruct (negb _ || negb _) eqn:Eg; cbn [raise_if result_bind].
  { split; [done|]. intros [(c' & o' & [= <-] & [= <-] & E & Ea) _]. rewrite El in E. injection E as ->.
    by rewrite bool_decide_true, Ea in Eg. }
  apply orb_false_iff in Eg as [E1 E2]. apply negb_false_iff, bool_decide_eq_true in E1 as ->. apply negb_false_iff in E2.
  assert (exists c' o', Some c = Some c' /\ Some o = Some o' /\ live_identity o' c' (select_valid_verify_record (at_fee d) (coupon_id c'))
     (ident_store_id i) = Some i /\ active_store (at_fee d) (ident_store_id i) = true) as Hr by (exists c, o; done).
  destruct (List.find _ (at_decisions d)) as [y|] eqn:Ey.
  - destruct (negb _) eqn:Es; cbn [raise_if result_bind].
    + split; [done|]. intros [_ ((E3 & E4 & E5 & E6) & _)].
      by rewrite E3, E4, E5, E6, !str_eqb_refl, bool_decide_true in Es.
    + apply negb_false_iff in Es. repeat (apply andb_true_iff in Es as [Es ?]). tests.
      split; [intros [= <- <-]|intros [_ (_ & -> & ->)]; done]. split; [done|].
      repeat match goal with H : bool_decide _ = true |- _ => apply bool_decide_eq_true in H end. done.
  - split; [intros [= <- <-]; done|intros [_ [-> ->]]; done].
Qed.

(** The rows that have no decision yet. *)
Definition undecided (d : attributiondb) (ids : list source_identity) : list source_identity :=
  List.filter (fun i => bool_decide (coupon_decision (at_decisions d) (ident_coupon_id i) = None)) ids.

Definition row_ok (d : attributiondb) (m : manifest) (i : source_identity) : Prop :=
  reviewed (at_fee d) i
  /\ forall y, coupon_decision (at_decisions d) (ident_coupon_id i) = Some y -> same_decision m i y.

Lemma import_rows_ok d m ids : forall p n p' n',
  fold_result (import_row d m) (p, n) ids = Ok (p', n') <->
  Forall (row_ok d m) ids /\ p' = p ++ (decision_of m <$> undecided d ids)
  /\ n' = n + (Z.of_nat (length ids) - Z.of_nat (length (undecided d ids))).
Proof.
  induction ids as [|i ids IH]; intros p n p' n'; cbn [fold_result].
  { cbn. rewrite app_nil_r, Z.add_0_r. split; [intros [= <- <-]; by split|intros (_ & -> & ->); done]. }
  split.
  - intros ([p1 n1] & H1 & H2)%result_bind_Ok. apply import_row_ok in H1 as [Hr H1]. apply IH in H2 as (Hf & -> & ->).
    unfold undecided. cbn [List.filter]. destruct (coupon_decision _ _) as [y|] eqn:Ey.
    + destruct H1 as (Hs & -> & ->). split_and!; [|done|cbn [length]; rewrite bool_decide_false by done; lia].
      constructor; [|done]. split; [done|]. intros y' E. rewrite Ey in E. by injection E as <-.
    + destruct H1 as [-> ->]. rewrite bool_decide_true by done. rewrite fmap_cons, <- app_assoc. split_and!; [|done|cbn [length]; lia].
      constructor; [|done]. split; [done|]. intros y' E. by rewrite Ey in E.
  - intros (Hf & -> & ->). apply Forall_cons in Hf as [[Hr Hy] Hf].
    unfold undecided. cbn [List.filter]. destruct (coupon_decision _ _) as [y|] eqn:Ey.
    + rewrite (proj2 (import_row_ok d m p n i p (n + 1))) by (rewrite Ey; by auto). cbn [result_bind]. apply IH.
      rewrite bool_decide_false by done. split_and!; [done|done|]. cbn [length]. unfold undecided. lia.
    + rewrite (proj2 (import_row_ok d m p n i (p ++ [decision_of m i]) n)) by (by rewrite Ey). cbn [result_bind]. apply IH.
      rewrite bool_decide_true by done. rewrite fmap_cons, <- app_assoc. split_and!; [done|done|]. cbn [length]. unfold undecided. lia.
Qed.

(** ** The ledger of decisions *)

(** One decision per coupon, and its columns are its reviewed identity. *)
Record decisions_ok (d : attributiondb) : Prop := MkDecisionsOk {
  do_unique : NoDup (sd_coupon_id <$> at_decisions d);
  do_columns : forall y, y ∈ at_decisions d -> columns_agree y (sd_source_identity_json y) = true;
  do_digest : forall y, y ∈ at_decisions d ->
    sd_source_identity_sha256 y = digest (identity_json isoformat (sd_source_identity_json y));
}.

Lemma decision_columns m i : columns_agree (decision_of m i) i = true.
Proof. unfold columns_agree. cbn. by rewrite !Z.eqb_refl, !str_eqb_refl, bool_decide_true. Qed.

Lemma map_result_length {A B} (f : A -> result B) l : forall k, map_result f l = Ok k -> length k = length l.
Proof.
  induction l as [|a l IH]; intros k; cbn; [by intros [= <-]|].
  intros (b & _ & H1)%result_bind_Ok. apply result_bind_Ok in H1 as (bs & H2 & E). injection E as <-. cbn. by rewrite (IH bs).
Qed.

Lemma manifest_coupons value m :
  read_manifest fromisoformat dumps_length value = Ok m -> NoDup (ident_coupon_id <$> mf_identities m).
Proof.
  unfold read_manifest. destruct value; try done. intros Hm. guards Hm. cbn zeta in Hm. guards Hm.
  destruct (dict_get "rows" _); try done. guards Hm. injection Hm as <-. cbn [mf_identities].
  match goal with H : negb (_ =? _)%nat = false |- _ => apply negb_false_iff, Nat.eqb_eq in H; rename H into E end.
  apply remove_dups_length. by rewrite E, length_fmap.
Qed.

Lemma coupon_decision_app l k coupon :
  coupon_decision (l ++ k) coupon
  = match coupon_decision l coupon with Some y => Some y | None => coupon_decision k coupon end.
Proof. unfold coupon_decision. by rewrite find_app. Qed.

(** The decision of a new row is found again. *)
Lemma new_decision_found m (l : list source_identity) i :
  NoDup (ident_coupon_id <$> l) -> i ∈ l -> coupon_decision (decision_of m <$> l) (ident_coupon_id i) = Some (decision_of m i).
Proof.
  intros Hn Hi. unfold coupon_decision. induction l as [|x l IH]; [by apply elem_of_nil in Hi|].
  rewrite fmap_cons. cbn [List.find]. apply NoDup_cons in Hn as [Hx Hn]. change (sd_coupon_id (decision_of m x)) with (ident_coupon_id x).
  destruct (str_eqb (ident_coupon_id x) (ident_coupon_id i)) eqn:E.
  - tests. apply elem_of_cons in Hi as [->|Hi]; [done|]. exfalso. apply Hx. rewrite E. by apply list_elem_of_fmap_2.
  - apply elem_of_cons in Hi as [->|Hi]; [by rewrite str_eqb_refl in E|]. by apply IH.
Qed.

Lemma undecided_coupons d ids : NoDup (ident_coupon_id <$> ids) -> NoDup (ident_coupon_id <$> undecided d ids).
Proof. intros H. by apply fmap_filter_sub. Qed.

(** What an import leaves behind: every row of the manifest has its decision. *)
Record imported (d d' : attributiondb) (m : manifest) : Prop := MkImported {
  im_fee : at_fee d' = at_fee d;
  im_rows : Forall (row_ok d m) (mf_identities m);
  im_decisions : at_decisions d' = at_decisions d ++ (decision_of m <$> undecided d (mf_identities m));
  im_job : exists j, at_jobs d' !! import_job_id digest (mf_batch_id m) = Some j
    /\ batch_conflict j (payload_digest isoformat digest m) = false;
}.

Lemma import_applied d value locks now d' s :
  import d value true locks now = Ok (d', s) ->
  exists m, read_manifest fromisoformat dumps_length value = Ok m /\ imported d d' m
    /\ s = MkSummary true (Z.of_nat (length (mf_identities m))) (Z.of_nat (length (undecided d (mf_identities m))))
             (Z.of_nat (length (mf_identities m)) - Z.of_nat (length (undecided d (mf_identities m))))
             (payload_digest isoformat digest m) (mf_batch_id m)
             (merge_sort String.le (remove_dups (ident_business_month <$> mf_identities m))).
Proof.
  unfold import_decisions. cbn zeta. intros H. guards H. rename H into Hr.
  match type of Hr with context [at_jobs d !! import_job_id digest (mf_batch_id ?m)] => exists m; set (ids := mf_identities m) in * end.
  match goal with H : fold_result _ _ _ = Ok ?p |- _ => destruct p as [pending existing]; apply import_rows_ok in H as (Hrows & -> & ->) end.
  cbn [app] in Hr. guards Hr. split; [done|]. cbn [andb] in Hr.
  destruct (at_jobs d !! _) as [j|] eqn:Hj.
  - match goal with H : bool_decide (is_Some (Some j)) && _ = false |- _ => rewrite bool_decide_true in H by done; rename H into Hp end.
    destruct (decision_of a <$> undecided d ids) eqn:Eu; [|done].
    injection Hr as <- <-. apply fmap_nil_inv in Eu. rewrite Eu. split; [|done]. split; [done|done| |by exists j].
    unfold ids in Eu. by rewrite Eu, fmap_nil, app_nil_r.
  - rewrite bool_decide_true in Hr by done. guards Hr. injection Hr as <- <-. rewrite length_fmap. split; [|done].
    split; [done|done|done|]. eexists. split; [apply lookup_insert_eq|]. unfold batch_conflict.
    cbn [import_job job_name metadata_json as_dict].
    change (dict_get "manifest_sha256" _) with (PStr (payload_digest isoformat digest a)). cbn [is_str]. by rewrite !str_eqb_refl.
Qed.

Lemma undecided_after d d' m :
  imported d d' m -> NoDup (ident_coupon_id <$> mf_identities m) ->
  Forall (row_ok d' m) (mf_identities m) /\ undecided d' (mf_identities m) = [].
Proof.
  intros [Hf Hr Hd _] Hn.
  assert (forall i, i ∈ mf_identities m -> exists y, coupon_decision (at_decisions d') (ident_coupon_id i) = Some y
    /\ same_decision m i y) as H.
  { intros i Hi. rewrite Hd, coupon_decision_app. destruct (coupon_decision (at_decisions d) _) as [y|] eqn:Ey.
    - exists y. split; [done|]. rewrite List.Forall_forall in Hr. by apply list_elem_of_In, Hr in Hi as [_ Hi]; apply Hi.
    - exists (decision_of m i). split; [|done]. apply new_decision_found; [by apply undecided_coupons|].
      apply list_elem_of_In, filter_In. split; [by apply list_elem_of_In|]. by rewrite Ey, bool_decide_true. }
  split.
  - apply List.Forall_forall. intros i Hi. rewrite List.Forall_forall in Hr. destruct (Hr i Hi) as [Hv _].
    apply list_elem_of_In in Hi. destruct (H i Hi) as (y & Hy & Hs). split; [by rewrite Hf|].
    intros y' E. rewrite Hy in E. by injection E as <-.
  - apply lfilter_nil_iff. intros i Hi. destruct (H i Hi) as (y & Hy & _). by rewrite Hy, bool_decide_false.
Qed.

Lemma imported_ok d d' m :
  decisions_ok d -> imported d d' m -> NoDup (ident_coupon_id <$> mf_identities m) -> decisions_ok d'.
Proof.
  intros [H1 H2 H3] [_ _ Hd _] Hn. split; rewrite Hd.
  - rewrite fmap_app. apply NoDup_app. split_and!; [done| |].
    + intros x (y & -> & Hy)%list_elem_of_fmap (z & E & Hz)%list_elem_of_fmap.
      apply list_elem_of_fmap in Hz as (i & -> & Hi). apply list_elem_of_In, filter_In in Hi as [_ Hi].
      apply bool_decide_eq_true in Hi. apply list_elem_of_In in Hy.
      pose proof (List.find_none _ _ Hi y Hy) as Hf. cbn in Hf, E. by rewrite E, str_eqb_refl in Hf.
    + rewrite <- list_fmap_compose. by apply (undecided_coupons d) in Hn.
  - intros y [Hy|(i & -> & _)%list_elem_of_fmap]%elem_of_app; [by apply H2|]. apply decision_columns.
  - intros y [Hy|(i & -> & _)%list_elem_of_fmap]%elem_of_app; [by apply H3|done].
Qed.

(** A coupon's decision is the only one. *)
Lemma coupon_decision_sole (l : list HistoricalSaleAttributionDecision) y :
  NoDup (sd_coupon_id <$> l) -> y ∈ l -> List.filter (fun x => str_eqb (sd_coupon_id x) (sd_coupon_id y)) l = [y].
Proof.
  intros Hn Hy. induction l as [|x l IH]; [by apply elem_of_nil in Hy|]. apply NoDup_cons in Hn as [Hx Hn]. cbn.
  apply elem_of_cons in Hy as [->|Hy].
  - rewrite str_eqb_refl. f_equal. apply lfilter_nil_iff. intros z Hz. apply str_eqb_false. intros E. apply Hx.
    rewrite <- E. by apply list_elem_of_fmap_2.
  - rewrite str_eqb_false; [by apply IH|]. intros E. apply Hx. rewrite E. by apply list_elem_of_fmap_2.
Qed.

Lemma live_identity_fields o c v store i :
  live_identity o c v store = Some i -> ident_coupon_id i = coupon_id c /\ ident_store_id i = store.
Proof.
  unfold live_identity. destruct v as [v|]; [|done]. destruct (verify_time v); [|done]. destruct (_ || _); [done|].
  by intros [= <-].
Qed.

(** C28: What is imported is what the calculation uses.  After an import has been
    applied, every reviewed redemption of the manifest resolves, for its live order,
    coupon and verification and whatever result is current, to a decision for the
    reviewed store; the ledger still has one decision per coupon, the decisions it
    had are unchanged, and no other table of the settlement is touched. *)
Theorem imported_decision_resolves d value locks now d' s m i c o current :
  decisions_ok d -> import d value true locks now = Ok (d', s) ->
  read_manifest fromisoformat dumps_length value = Ok m -> i ∈ mf_identities m ->
  List.find (fun c => coupon_pk c =? ident_raw_coupon_id i) (fee_coupons (at_fee d)) = Some c ->
  List.find (fun o => order_pk o =? ident_raw_order_id i) (fee_orders (at_fee d)) = Some o ->
  (exists x, resolve (at_decisions d') (at_fee d') o c (select_valid_verify_record (at_fee d') (coupon_id c)) current
             = Ok (Some x)
     /\ sd_store_id x = ident_store_id i /\ sd_evidence_sha256 x = mf_evidence m /\ sd_source_identity_json x = i)
  /\ decisions_ok d' /\ at_fee d' = at_fee d /\ exists new, at_decisions d' = at_decisions d ++ new.
Proof.
  intros Hok Hi Hm Hin Hc Ho. apply import_applied in Hi as (m' & Hm' & Him & _). rewrite Hm in Hm'. injection Hm' as <-.
  pose proof (manifest_coupons value m Hm) as Hn. pose proof (imported_ok d d' m Hok Him Hn) as Hok'.
  split; [|split; [done|split; [by apply Him|eexists; by apply Him]]].
  destruct (undecided_after d d' m Him Hn) as [Hr Hu]. rewrite List.Forall_forall in Hr.
  pose proof Hin as Hin'. apply list_elem_of_In in Hin'. destruct (Hr i Hin') as [(c' & o' & Ec & Eo & El & Ea) Hy].
  rewrite (im_fee _ _ _ Him) in *. rewrite Hc in Ec. injection Ec as <-. rewrite Ho in Eo. injection Eo as <-.
  destruct (coupon_decision (at_decisions d') (ident_coupon_id i)) as [y|] eqn:Ey.
  2: { exfalso. assert (i ∈ undecided d' (mf_identities m)) as Hx; [|rewrite Hu in Hx; by apply elem_of_nil in Hx].
       apply list_elem_of_In, filter_In. by rewrite Ey, bool_decide_true. }
  destruct (Hy y eq_refl) as (S1 & S2 & S3 & S4). exists y. apply find_some_in in Ey as [Hyin Ec]. tests.
  destruct (live_identity_fields _ _ _ _ _ El) as [Eci Esi].
  pose proof (do_columns d' Hok' y Hyin) as Hcol. rewrite S4 in Hcol.
  assert (sd_store_id y = ident_store_id i) as Es.
  { unfold columns_agree in Hcol. repeat (apply andb_true_iff in Hcol as [Hcol ?]). by tests. }
  split; [|done]. unfold resolve_historical_sale_attribution.
  rewrite <- Eci, <- Ec, (coupon_decision_sole (at_decisions d') y (do_unique d' Hok') Hyin).
  rewrite Ec, Eci. destruct (select_valid_verify_record (at_fee d) (coupon_id c)) as [v|] eqn:Ev; [|done].
  rewrite Es, El, S4. rewrite (do_digest d' Hok' y Hyin), S4, str_eqb_refl, Hcol, bool_decide_true, Ea by done. done.
Qed.

(** Importing a reviewed manifest is repeatable: once it has been applied,
    importing it again, to check it or to apply it, succeeds, reports every row as
    existing and none as new with the same digest, and changes nothing. *)
Lemma import_replay d value locks now d' s apply locks' now' :
  import d value true locks now = Ok (d', s) ->
  (apply = true -> import_lock locks' (at_jobs d') = Ok tt) ->
  exists s', import d' value apply locks' now' = Ok (d', s')
    /\ sum_new_count s' = 0 /\ sum_existing_count s' = sum_row_count s
    /\ sum_manifest_sha256 s' = sum_manifest_sha256 s.
Proof.
  intros (m & Hm & Hi & ->)%import_applied Hl. pose proof (manifest_coupons value m Hm) as Hn.
  destruct (undecided_after d d' m Hi Hn) as [Hr Hu]. destruct Hi as [_ _ _ (j & Hj & Hc)].
  eexists. unfold import_decisions. rewrite Hm. cbn [result_bind]. split.
  { assert ((if apply then import_lock locks' (at_jobs d') else Ok tt) = Ok tt) as -> by (destruct apply; auto).
    cbn [result_bind]. cbn zeta. rewrite Hj, Hc. cbn [raise_if result_bind].
    rewrite (proj2 (import_rows_ok d' m (mf_identities m) [] 0 [] (Z.of_nat (length (mf_identities m))))).
    - cbn [result_bind]. rewrite andb_false_r. cbn [raise_if result_bind]. rewrite bool_decide_false by done.
      rewrite andb_false_r. reflexivity.
    - rewrite Hu. split_and!; [done|done|]. cbn. lia. }
  done.
Qed.
End Imports.
