(* ===== verification/Qualification.v ===== *)
(** * Account qualification

    apps/worker/account_qualification.py: the attempts to collect the bindings of
    accounts at the end of a month, the content-addressed snapshots they leave, the
    version of a month that is frozen from the last attempt, and the check that the
    account of an order is qualified in it.

    The cache of a session only saves work and is left out: snapshots never change. *)
From S2P Require Import Prelude PyValue Phones Jobs Clues FeeTables FeeLedger FeeResults.
#[local] Open Scope Z_scope.
#[local] Set Default Proof Using "Type".
#[local] Notation RawDouyinOrder := FeeTables.RawDouyinOrder.

Definition POLICY_VERSION : string := "settlement-monthend-cn-v2".
Definition FIRST_MONTH : string := "2026-10".
Definition MAX_AGE : Z := hours 2.
Definition MAX_AUTOMATIC_MONTH_ATTEMPTS : Z := 8.
Definition MAX_SNAPSHOT_BYTES : Z := 8 * 1024 * 1024.
Definition ELIGIBLE_TYPES : list string := ["子机构门店号"; "子机构区域号"].
Definition CERTIFIED : string := "认证成功".

Definition AccountQualificationError (code : string) : exn := NamedError "AccountQualificationError" code.
Definition unqualified {A} (code : string) : result A := Raise (AccountQualificationError code).

(** ** Tables *)

(** A row of a snapshot. *)
Record qualification_row := MkRow {
  row_account_id : option string;
  row_douyin_id : option string;
  row_douyin_uid : option string;
  row_poi_id : option string;
  row_account_type : string;
  row_binding_status : string;
  row_raw_payload : pydict;
  row_qualification_status : string;
  row_reason_codes : list string;
}.

Record AccountQualificationSnapshot := MkSnapshot {
  snap_content_sha256 : string;
  snap_records : list qualification_row;
  snap_record_count : Z;
  snap_policy_version : string;
}.

Inductive observation_state := ObsRunning | ObsSuccess | ObsFailed.
#[export] Instance observation_state_eq_dec : EqDecision observation_state.
Proof. solve_decision. Defined.

Record AccountQualificationObservation := MkObservation {
  observation_id : string;
  obs_source_run_id : string;
  obs_source_type : string;
  obs_started_at : instant;
  obs_ended_at : option instant;
  obs_state : observation_state;
  obs_complete : bool;
  obs_content_sha256 : option string;
  obs_proof : pydict;
  obs_error_code : option string;
}.

Record AccountQualificationVersion := MkVersion {
  version_id : string;
  version_month : string;
  version_cutoff_at : instant;
  version_observation_id : string;
  version_content_sha256 : string;
  version_policy_version : string;
  version_frozen_at : instant;
}.

Record qualificationdb := MkQualificationDb {
  qualification_observations : list AccountQualificationObservation;
  qualification_snapshots : list AccountQualificationSnapshot;
  qualification_versions : list AccountQualificationVersion;
}.

#[export] Instance eta_qualificationdb : Eta qualificationdb := fun x =>
  MkQualificationDb (qualification_observations x) (qualification_snapshots x) (qualification_versions x).

(** What a collector returns. *)
Record BindingRecord := MkBinding {
  br_account_id : option string;
  br_douyin_id : option string;
  br_poi_id : option string;
  br_raw_payload : pydict;
}.
Record BindingRecords := MkBindings {
  bindings_values : list BindingRecord;
  bindings_proof : pydict;
  bindings_source_type : string;
}.

Definition get_observation (q : qualificationdb) (id : string) : option AccountQualificationObservation :=
  List.find (fun x => str_eqb (observation_id x) id) (qualification_observations q).
Definition get_snapshot (q : qualificationdb) (content : string) : option AccountQualificationSnapshot :=
  List.find (fun x => str_eqb (snap_content_sha256 x) content) (qualification_snapshots q).
Definition month_version (q : qualificationdb) (month : string) : option AccountQualificationVersion :=
  List.find (fun x => str_eqb (version_month x) month) (qualification_versions q).
Definition put_observation (x : AccountQualificationObservation) (q : qualificationdb) : qualificationdb :=
  q <| qualification_observations :=
    (fun y => if str_eqb (observation_id y) (observation_id x) then x else y) <$> qualification_observations q |>.

(** ** Months *)

(** The day number of the first of a month. *)
Definition first_day (year month : Z) : Z :=
  let y := if month <=? 2 then year - 1 else year in
  let era := y / 400 in
  let yoe := y mod 400 in
  let doy := (153 * (if month <=? 2 then month + 9 else month - 3) + 2) / 5 in
  era * 146097 + (yoe * 365 + yoe / 4 - yoe / 100 + doy) - 719468.
Example first_day_ex : first_day 1970 1 = 0 /\ first_day 2026 8 = FORMAL_SETTLEMENT_START /\ first_day 2028 3 - first_day 2028 2 = 29.
Proof. vm_compute. done. Qed.

(** [date.fromisoformat(month + "-01")] *)
Definition digit (c : Ascii.ascii) : option Z := if is_digit c then Some (code c - 48) else None.
Definition parse_month (s : string) : option (Z * Z) :=
  match digit <$> chars s, chars s with
  | [Some a; Some b; Some c; Some d; None; Some e; Some f], [_; _; _; _; dash; _; _] =>
      let year := ((a * 10 + b) * 10 + c) * 10 + d in
      let month := e * 10 + f in
      if (code dash =? 45) && (1 <=? year) && (1 <=? month) && (month <=? 12) then Some (year, month) else None
  | _, _ => None
  end.

(** [month_bounds]: the last day of the month and its end, in Shanghai *)
Definition month_bounds (month : string) : result (instant * instant) :=
  match parse_month month with
  | None => Raise (ValueError "Invalid isoformat string")
  | Some (y, m) =>
      if (y =? 9999) && (m =? 12) then Raise (NamedError "OverflowError" "date value out of range")
      else let cutoff := days (if m =? 12 then first_day (y + 1) 1 else first_day y (m + 1)) - hours 8 in
           Ok (cutoff - days 1, cutoff)
  end.

(** ** Attempts *)

(** [start_observation]; the identity is "account-observation-" and a fresh uuid *)
Definition start_observation (q : qualificationdb) (uuid source_run_id : string) (started_at : instant) (proof : pydict)
  : result (qualificationdb * string) :=
  let id := ("account-observation-" +:+ uuid)%string in
  match get_observation q id with
  | Some _ => Raise (NamedError "IntegrityError" "account_qualification_observation")
  | None => Ok (q <| qualification_observations := qualification_observations q
                     ++ [MkObservation id source_run_id "backend_export" started_at None ObsRunning false None proof None] |>, id)
  end.

(** [in_automatic_capture_window] *)
Definition in_automatic_capture_window (at_ : instant) : result bool :=
  let month := business_month at_ in
  if String.ltb month FIRST_MONTH then Ok false
  else let* (_, cutoff) := month_bounds month in Ok ((cutoff - MAX_AGE <=? at_) && (at_ <? cutoff)).

Record CaptureAdmission := MkAdmission {
  admitted_observation_id : option string;
  admission_blocked_reason : option string;
}.

Definition budget_marker (month : string) : string := ("account-observation-budget-" +:+ month)%string.

(** An automatic attempt that started in the window. *)
Definition automatic_attempt (cutoff : instant) (x : AccountQualificationObservation) : bool :=
  (cutoff - MAX_AGE <=? obs_started_at x) && (obs_started_at x <? cutoff)
  && is_str (dict_get "capture_mode" (obs_proof x)) "automatic".

(** [begin_automatic_observation] *)
Definition begin_automatic_observation (q : qualificationdb) (uuid source_run_id : string) (started_at : instant)
  : result (qualificationdb * CaptureAdmission) :=
  let* window := in_automatic_capture_window started_at in
  if negb window then Ok (q, MkAdmission None None)
  else
    let month := business_month started_at in
    let* (_, cutoff) := month_bounds month in
    let exhausted := get_observation q (budget_marker month) in
    let count := Z.of_nat (length (List.filter (automatic_attempt cutoff) (qualification_observations q))) in
    if bool_decide (is_Some exhausted) || (MAX_AUTOMATIC_MONTH_ATTEMPTS <=? count)
    then
      let q := match exhausted with
               | Some _ => q
               | None => q <| qualification_observations := qualification_observations q
                   ++ [MkObservation (budget_marker month) source_run_id "backend_export" started_at (Some started_at)
                         ObsFailed false None
                         [("capture_mode", PStr "automatic_budget"); ("business_month", PStr month);
                          ("maximum_attempts", PInt MAX_AUTOMATIC_MONTH_ATTEMPTS)]
                         (Some "monthend_capture_budget_exhausted")] |>
               end in
      Ok (q, MkAdmission None (Some "monthend_capture_budget_exhausted"))
    else
      let* (q, id) := start_observation q uuid source_run_id started_at
                        [("capture_mode", PStr "automatic"); ("business_month", PStr month)] in
      Ok (q, MkAdmission (Some id) None).

(** ** Canonical records *)

(** [re.fullmatch(r"[+-]?\d+(?:\.\d+)?", s)] *)
Fixpoint drop_digits (l : list Z) : nat * list Z :=
  match l with
  | c :: l' => if unicode_digit c then let '(n, rest) := drop_digits l' in (S n, rest) else (O, l)
  | [] => (O, [])
  end.
Definition numeric_text (s : string) : bool :=
  let l := codepoints (chars s) in
  let l := match l with c :: l' => if (c =? 43) || (c =? 45) then l' else l | [] => [] end in
  match drop_digits l with
  | (S _, []) => true
  | (S _, c :: rest) => (c =? 46) && match drop_digits rest with (S _, []) => true | _ => false end
  | _ => false
  end.

Section Records.
Context (repr_of : pyval -> string).
(** SHA-256 of the canonical JSON of a value, and the length of that JSON in bytes. *)
Context (digest : pyval -> string) (encoded_length : pyval -> Z).

(** [value not in (None, "")] *)
Definition present (v : pyval) : bool := match v with PNone => false | PStr s => negb (str_eqb s "") | _ => true end.

(** [field]: the one value the columns agree on *)
Definition record_field (payload : pydict) (keys : list string) : result (option string) :=
  match remove_dups ((fun k => strip (py_str repr_of (dict_get k payload)))
                       <$> List.filter (fun k => present (dict_get k payload)) keys) with
  | [] => Ok None
  | [v] => Ok (Some v)
  | _ => unqualified "conflicting_source_fields"
  end.

(** The columns of the Chinese export are present. *)
Definition chinese_columns (payload : pydict) : bool :=
  existsb (fun k => dict_mem k payload) ["账号类型"; "账户类型"]
  && existsb (fun k => dict_mem k payload) ["抖音号绑定状态"; "绑定状态"].

Definition row_reasons (kind status_ : string) : list string :=
  (if str_in kind ELIGIBLE_TYPES then [] else ["account_type_not_eligible"])
  ++ (if str_eqb status_ CERTIFIED then [] else ["certification_not_successful"]).

(** One record of [canonical_records] *)
Definition canonical_record (r : BindingRecord) : result qualification_row :=
  let payload := br_raw_payload r in
  let* kind := record_field payload ["账号类型"; "账户类型"; "account_type"] in
  let* status_ := record_field payload ["抖音号绑定状态"; "绑定状态"; "binding_status"] in
  match kind, status_ with
  | Some kind, Some status_ =>
      let* _ := raise_if (numeric_text kind || numeric_text status_
                          || (negb (chinese_columns payload)
                              && (negb (str_in kind ELIGIBLE_TYPES) || negb (str_eqb status_ CERTIFIED))))
                  (AccountQualificationError "unknown_type_or_certification_contract") in
      let reasons := row_reasons kind status_ in
      let* account := record_field payload ["账户所属id"; "账户所属ID"; "所属账户id"; "所属账户ID"; "account_id"] in
      let* _ := raise_if (negb (bool_decide (account = clean (br_account_id r)))
                          || (negb (truthy_text account) && bool_decide (reasons = [])))
                  (AccountQualificationError "source_account_identity_missing_or_conflicting") in
      let reasons := if bool_decide (account = None) then reasons ++ ["nonqualifying_record_without_account_id"] else reasons in
      let* uid := record_field payload ["douyin_uid"] in
      Ok (MkRow account (br_douyin_id r) uid (br_poi_id r) kind status_ payload
            (match reasons with [] => "eligible" | _ => "ineligible" end) reasons)
  | _, _ => unqualified "unknown_type_or_certification_contract"
  end.

Definition row_identity (x : qualification_row) : option string * option string * option string * string :=
  (row_account_id x, row_douyin_id x, row_poi_id x, row_account_type x).
Definition identifiable (x : qualification_row) : bool :=
  truthy_text (row_account_id x) || truthy_text (row_douyin_id x) || truthy_text (row_poi_id x).

Fixpoint canonical_rows (records : list BindingRecord) (seen : list (option string * option string * option string * string))
  : result (list qualification_row) :=
  match records with
  | [] => Ok []
  | r :: l =>
      let* x := canonical_record r in
      let* _ := raise_if (identifiable x && bool_decide (row_identity x ∈ seen))
                  (AccountQualificationError "duplicate_or_conflicting_binding_identity") in
      let* rest := canonical_rows l (if identifiable x then row_identity x :: seen else seen) in
      Ok (x :: rest)
  end.

Definition opt_pytext (o : option string) : pyval := match o with Some s => PStr s | None => PNone end.
Definition row_json (x : qualification_row) : pyval :=
  PDict [("account_id", opt_pytext (row_account_id x)); ("douyin_id", opt_pytext (row_douyin_id x));
    ("douyin_uid", opt_pytext (row_douyin_uid x)); ("poi_id", opt_pytext (row_poi_id x));
    ("account_type", PStr (row_account_type x)); ("binding_status", PStr (row_binding_status x));
    ("raw_payload", PDict (row_raw_payload x)); ("qualification_status", PStr (row_qualification_status x));
    ("reason_codes", PList (PStr <$> row_reason_codes x))].

Definition row_before (a b : qualification_row) : Prop := String.le (digest (row_json a)) (digest (row_json b)).
#[export] Instance row_before_dec a b : Decision (row_before a b).
Proof. unfold row_before. apply _. Defined.

(** [canonical_records] *)
Definition canonical_records (records : list BindingRecord) : result (list qualification_row) :=
  let* rows := canonical_rows records [] in Ok (merge_sort row_before rows).

(** ** Ending an attempt *)

(** [{**a, **b}] *)
Definition dict_merge (a b : pydict) : pydict :=
  ((fun kv => (kv.1, dict_get_default kv.1 kv.2 b)) <$> a) ++ List.filter (fun kv => negb (dict_mem kv.1 a)) b.

(** [v == n] for an integer *)
Definition equals_int (v : pyval) (n : Z) : bool :=
  match v with
  | PInt z => z =? n
  | PBool b => Z.b2z b =? n
  | PFloat (FFin m e) => match float_int m e with Some z => z =? n | None => false end
  | PDec (DFin c e) => match dec_int c e with Some z => z =? n | None => false end
  | _ => false
  end.

(** What is digested and stored of a snapshot. *)
Definition snapshot_json (policy : string) (rows : list qualification_row) : pyval :=
  PDict [("policy", PStr policy); ("records", PList (row_json <$> rows))].

Definition insert_snapshot (s : AccountQualificationSnapshot) (q : qualificationdb) : qualificationdb :=
  match get_snapshot q (snap_content_sha256 s) with
  | Some _ => q
  | None => q <| qualification_snapshots := qualification_snapshots q ++ [s] |>
  end.

(** [complete_observation] *)
Definition complete_observation (q : qualificationdb) (id : string) (records : BindingRecords) (ended_at : instant)
  : result qualificationdb :=
  match get_observation q id with
  | None => unqualified "observation_not_running"
  | Some x =>
      let* _ := raise_if (negb (bool_decide (obs_state x = ObsRunning))) (AccountQualificationError "observation_not_running") in
      let proof := dict_merge (bindings_proof records) (obs_proof x) in
      let ended state complete content proof code :=
        MkObservation (observation_id x) (obs_source_run_id x) (bindings_source_type records) (obs_started_at x)
          (Some ended_at) state complete content proof code in
      let failed proof code := put_observation (ended ObsFailed false (obs_content_sha256 x) proof (Some code)) q in
      match
        let* _ := raise_if ((ended_at <? obs_started_at x) || negb (truthy (dict_get "complete" proof))
                            || negb (equals_int (dict_get "record_count" proof) (Z.of_nat (length (bindings_values records)))))
                    (AccountQualificationError "incomplete_collection") in
        canonical_records (bindings_values records)
      with
      | Raise (NamedError _ code) => Ok (failed proof code)
      | Raise e => Raise e
      | Ok rows =>
          let json := snapshot_json POLICY_VERSION rows in
          if MAX_SNAPSHOT_BYTES <? encoded_length json
          then Ok (failed (dict_merge proof [("snapshot_bytes", PInt (encoded_length json));
                                             ("maximum_snapshot_bytes", PInt MAX_SNAPSHOT_BYTES)])
                     "qualification_snapshot_size_limit")
          else
            let content := digest json in
            Ok (put_observation (ended ObsSuccess true (Some content) proof (obs_error_code x))
                  (insert_snapshot (MkSnapshot content rows (Z.of_nat (length rows)) POLICY_VERSION) q))
      end
  end.

(** [s[:n]]: the first characters; bytes 128 to 191 continue one *)
Fixpoint take_chars (n : nat) (l : list Ascii.ascii) : list Ascii.ascii :=
  match l with
  | [] => []
  | c :: l' =>
      if in_range 128 191 (code c) then c :: take_chars n l'
      else match n with O => [] | S n' => c :: take_chars n' l' end
  end.

(** [fail_observation] *)
Definition fail_observation (q : qualificationdb) (id code : string) (ended_at : instant) : qualificationdb :=
  match get_observation q id with
  | Some x =>
      if bool_decide (obs_state x = ObsRunning)
      then put_observation (MkObservation (observation_id x) (obs_source_run_id x) (obs_source_type x) (obs_started_at x)
             (Some ended_at) ObsFailed false (obs_content_sha256 x) (obs_proof x)
             (Some (text (take_chars 128 (chars code))))) q
      else q
  | None => q
  end.

(** ** Freezing a month *)

Definition text_gt (a b : string) : bool := String.ltb b a.
(** Later start, then larger id. *)
Definition started_later (a b : AccountQualificationObservation) : bool :=
  (obs_started_at b <? obs_started_at a)
  || ((obs_started_at a =? obs_started_at b) && text_gt (observation_id a) (observation_id b)).
(** Later end (the cutoff while there is none), then later start, then larger id. *)
Definition ended_or (cutoff : instant) (x : AccountQualificationObservation) : instant := default cutoff (obs_ended_at x).
Definition ended_later (cutoff : instant) (a b : AccountQualificationObservation) : bool :=
  (ended_or cutoff b <? ended_or cutoff a)
  || ((ended_or cutoff a =? ended_or cutoff b) && started_later a b).

(** The attempts that started on the last day of the month. *)
Definition monthend_observations (q : qualificationdb) (day_start cutoff : instant) : list AccountQualificationObservation :=
  List.filter (fun x => (day_start <=? obs_started_at x) && (obs_started_at x <? cutoff)) (qualification_observations q).

Definition version_text (month observation content policy : string) : string :=
  ("account-month-" +:+ digest (PDict [("month", PStr month); ("observation", PStr observation); ("hash", PStr content);
                                       ("policy", PStr policy)]))%string.

(** [freeze_month] *)
Definition freeze_month (q : qualificationdb) (month : string) (now : instant)
  : result (qualificationdb * AccountQualificationVersion) :=
  let* _ := raise_if (String.ltb month FIRST_MONTH) (AccountQualificationError "legacy_month_has_no_qualification_version") in
  let* (day_start, cutoff) := month_bounds month in
  let* _ := raise_if (now <? cutoff) (AccountQualificationError "month_not_finished") in
  match month_version q month with
  | Some v => Ok (q, v)
  | None =>
      let observations := monthend_observations q day_start cutoff in
      match best_row started_later observations, best_row (ended_later cutoff) observations with
      | Some latest_started, Some last =>
          match obs_content_sha256 last, obs_ended_at last with
          | Some content, Some ended =>
              let* _ := raise_if (negb (bool_decide (obs_state latest_started = ObsSuccess))
                          || negb (bool_decide (obs_state last = ObsSuccess)) || negb (obs_complete last)
                          || (cutoff <=? ended) || (obs_started_at last <? cutoff - MAX_AGE) || (ended <? cutoff - MAX_AGE)
                          || existsb (fun x => bool_decide (obs_state x = ObsRunning)) observations)
                          (AccountQualificationError "monthend_latest_attempt_not_complete_or_fresh") in
              match get_snapshot q content with
              | None => unqualified "qualification_snapshot_missing"
              | Some s =>
                  let policy := snap_policy_version s in
                  let v := MkVersion (version_text month (observation_id last) content policy) month cutoff
                             (observation_id last) content policy now in
                  let* _ := raise_if (existsb (fun x => str_eqb (version_id x) (version_id v)) (qualification_versions q))
                              (NamedError "IntegrityError" "account_qualification_version") in
                  Ok (q <| qualification_versions := qualification_versions q ++ [v] |>, v)
              end
          | _, _ => unqualified "monthend_latest_attempt_not_complete_or_fresh"
          end
      | _, _ => unqualified "monthend_observation_missing"
      end
  end.

(** [frozen_version] *)
Definition frozen_version (q : qualificationdb) (month : string) : result AccountQualificationVersion :=
  match month_version q month with
  | Some v => Ok v
  | None => unqualified "monthend_version_missing"
  end.

(** ** Qualifying an order *)

(** [get_path] of the normalizers *)
Fixpoint get_path (current : pyval) (parts : list string) : pyval :=
  match parts with
  | [] => current
  | k :: l => match current with PDict d => get_path (dict_get k d) l | _ => PNone end
  end.

(** [text] of the normalizers *)
Definition drop_suffix (suffix s : string) : option string :=
  match drop_token (rev (chars suffix)) (rev (chars s)) with Some r => Some (text (rev r)) | None => None end.
Definition source_text (v : pyval) : option string :=
  if negb (present v) then None
  else
    let t := strip (py_str repr_of v) in
    let t := match drop_suffix ".0" t with Some t' => t' | None => t end in
    if str_eqb t "" then None else Some t.

(** [selected_origin]: the first path that has a value *)
Fixpoint selected_origin (payload : pyval) (paths : list (string * list string)) : option (string * option string) :=
  match paths with
  | [] => None
  | (name, parts) :: l =>
      let v := match payload with PDict _ => get_path payload parts | _ => PNone end in
      if present v then Some (name, source_text v) else selected_origin payload l
  end.

Definition account_paths : list (string * list string) :=
  [("owner_account_id", ["owner_account_id"]); ("sale_info.transfer_uid", ["sale_info"; "transfer_uid"]);
   ("sale_info.account_id", ["sale_info"; "account_id"]); ("order_sale_info.transfer_uid", ["order_sale_info"; "transfer_uid"])].
Definition uid_paths : list (string * list string) :=
  [("owner_douyin_uid", ["owner_douyin_uid"]); ("sale_info.transfer_douyin_uid", ["sale_info"; "transfer_douyin_uid"]);
   ("order_sale_info.transfer_douyin_uid", ["order_sale_info"; "transfer_douyin_uid"])].

Definition origin_in (origin : option (string * option string)) (names : list string) : bool :=
  match origin with Some (name, _) => str_in name names | None => false end.
Definition origin_conflicts (origin : option (string * option string)) (value : string) : bool :=
  match origin with Some (_, t) => negb (str_eqb (default "" t) value) | None => false end.

Definition eligible_row (x : qualification_row) : bool :=
  str_in (row_account_type x) ELIGIBLE_TYPES && str_eqb (row_binding_status x) CERTIFIED.

(** The rows that may be the order's account: by account, by uid or short id, or
    those of the second that agree with the first. *)
Definition account_candidates (rows : list qualification_row) (o : RawDouyinOrder) : list qualification_row :=
  if origin_in (selected_origin (order_raw_payload o) account_paths) ["sale_info.transfer_uid"; "order_sale_info.transfer_uid"]
  then [] else List.filter (fun x => opt_is (row_account_id x) (strip (default "" (order_owner_account_id o)))) rows.
Definition secondary_candidates (rows : list qualification_row) (o : RawDouyinOrder) : list qualification_row :=
  let uid := strip (default "" (order_owner_douyin_uid o)) in
  let column := if origin_in (selected_origin (order_raw_payload o) uid_paths)
                     ["sale_info.transfer_douyin_uid"; "order_sale_info.transfer_douyin_uid"]
                then row_douyin_id else row_douyin_uid in
  List.filter (fun x => truthy_text (column x) && opt_is (column x) uid) rows.
Definition row_candidates (rows : list qualification_row) (o : RawDouyinOrder) : result (list qualification_row) :=
  match account_candidates rows o, secondary_candidates rows o with
  | (_ :: _) as first, (_ :: _) as second =>
      let shared := List.filter (fun a => bool_decide (a ∈ row_account_id <$> second)) (row_account_id <$> first) in
      let* _ := raise_if (bool_decide (shared = [])) (AccountQualificationError "qualification_identity_ambiguous") in
      Ok (List.filter (fun x => bool_decide (row_account_id x ∈ shared)) second)
  | first, second => Ok (first ++ second)
  end.

(** [qualified_records] *)
Definition qualified_records (q : qualificationdb) (v : AccountQualificationVersion) (o : RawDouyinOrder)
  : result (list qualification_row) :=
  match get_snapshot q (version_content_sha256 v) with
  | None => unqualified "qualification_source_digest_mismatch"
  | Some s =>
      let* _ := raise_if (negb (str_eqb (digest (snapshot_json (version_policy_version v) (snap_records s)))
                                  (version_content_sha256 v)))
                  (AccountQualificationError "qualification_source_digest_mismatch") in
      let payload := order_raw_payload o in
      let* _ := raise_if (origin_conflicts (selected_origin payload account_paths) (strip (default "" (order_owner_account_id o)))
                          || origin_conflicts (selected_origin payload uid_paths) (strip (default "" (order_owner_douyin_uid o))))
                  (AccountQualificationError "qualification_identity_source_conflict") in
      let* candidates := row_candidates (snap_records s) o in
      let* _ := raise_if (bool_decide (row_account_id <$> candidates = []))
                  (AccountQualificationError "qualification_identity_unresolved") in
      let eligible := List.filter eligible_row candidates in
      match remove_dups (row_account_id <$> eligible) with
      | [] => unqualified "account_not_qualified_in_frozen_month"
      | [_] => Ok eligible
      | _ => unqualified "qualification_identity_ambiguous"
      end
  end.

(** [qualified_version] *)
Definition qualified_version (q : qualificationdb) (month : string) (now : instant) (o : RawDouyinOrder)
    (pinned_version_id : option string) : result (qualificationdb * AccountQualificationVersion) :=
  let* (q, v) := match frozen_version q month with
                 | Ok v => Ok (q, v)
                 | Raise _ => freeze_month q month now
                 end in
  let* _ := raise_if (match pinned_version_id with Some p => negb (str_eqb (version_id v) p) | None => false end)
              (AccountQualificationError "qualification_version_conflict") in
  let* _ := qualified_records q v o in
  Ok (q, v).
End Records.
