(* ===== verification/QualificationProps.v ===== *)
(** * Account qualification: theorems

    The attempts of a month are bounded, a month is frozen from its last attempt
    only, and what is frozen never changes. *)
From S2P Require Import Prelude PyValue Phones Jobs Clues FeeTables FeeLedger FeeProps StatementProps FeeResults ResultBasis ResultThms Qualification.
#[local] Open Scope Z_scope.
#[local] Set Default Proof Using "Type".

Section Steps.
Context (repr_of : pyval -> string) (digest : pyval -> string) (encoded_length : pyval -> Z).
#[local] Notation freeze := (freeze_month digest).
#[local] Notation complete := (complete_observation repr_of digest encoded_length).
#[local] Notation snapshot_digest s := (digest (snapshot_json (snap_policy_version s) (snap_records s))).

(** The calls of a collector, of the month's close and of the calculation. *)
Inductive qualification_step (q : qualificationdb) : qualificationdb -> Prop :=
  | qs_begin uuid run at_ q' a : begin_automatic_observation q uuid run at_ = Ok (q', a) -> qualification_step q q'
  | qs_complete id records at_ q' : complete q id records at_ = Ok q' -> qualification_step q q'
  | qs_fail id code at_ : qualification_step q (fail_observation q id code at_)
  | qs_freeze month now q' v : freeze q month now = Ok (q', v) -> qualification_step q q'.

(** ** What a step may change *)

(** An attempt keeps its identity and start; one that has ended is kept as it is. *)
Definition observation_kept (x y : AccountQualificationObservation) : Prop :=
  observation_id y = observation_id x /\ obs_started_at y = obs_started_at x
  /\ (obs_state x <> ObsRunning -> y = x).

(** Attempts are only ended or added, snapshots and versions only added. *)
Record extends (q q' : qualificationdb) : Prop := MkExtends {
  ex_observations : exists g new, (forall x, x ∈ qualification_observations q -> observation_kept x (g x))
    /\ qualification_observations q' = (g <$> qualification_observations q) ++ new;
  ex_snapshots : exists new, qualification_snapshots q' = qualification_snapshots q ++ new;
  ex_versions : exists new, qualification_versions q' = qualification_versions q ++ new;
}.

Lemma extends_same q q' :
  qualification_observations q' = qualification_observations q -> qualification_snapshots q' = qualification_snapshots q ->
  qualification_versions q' = qualification_versions q -> extends q q'.
Proof. intros E1 E2 E3. split; [exists id, []|exists []|exists []]; by rewrite ?list_fmap_id, ?app_nil_r. Qed.

#[export] Instance extends_preorder : PreOrder extends.
Proof.
  split; [intros q; by apply extends_same|]. intros q1 q2 q3 [(g & n1 & G1 & E1) (s1 & F1) (v1 & V1)] [(h & n2 & G2 & E2) (s2 & F2) (v2 & V2)].
  split; [|exists (s1 ++ s2); by rewrite F2, F1, app_assoc|exists (v1 ++ v2); by rewrite V2, V1, app_assoc].
  exists (h ∘ g), ((h <$> n1) ++ n2). split.
  - intros x Hx. assert (g x ∈ qualification_observations q2) as Hg.
    { rewrite E1. apply elem_of_app. left. by apply list_elem_of_fmap_2. }
    destruct (G1 x Hx) as (I1 & S1 & K1), (G2 (g x) Hg) as (I2 & S2 & K2). cbn. split_and!; [congruence|congruence|].
    intros Hr. specialize (K1 Hr). rewrite K1 in *. by apply K2.
  - by rewrite E2, E1, fmap_app, list_fmap_compose, app_assoc.
Qed.

Definition observations_unique (q : qualificationdb) : Prop := NoDup (observation_id <$> qualification_observations q).

Lemma extends_put q x y :
  observations_unique q -> x ∈ qualification_observations q -> obs_state x = ObsRunning -> observation_kept x y ->
  extends q (put_observation y q).
Proof.
  intros Hu Hx Hr (Hid & Hs & _). split; [|exists []; by rewrite app_nil_r|exists []; by rewrite app_nil_r].
  exists (fun z => if str_eqb (observation_id z) (observation_id y) then y else z), []. split; [|by rewrite app_nil_r].
  intros z Hz. destruct (str_eqb _ _) eqn:E; [|done]. tests.
  assert (z = x) as -> by (apply (fmap_NoDup_inj observation_id (qualification_observations q)); [done..|congruence]).
  split_and!; [done|done|]. intros Hn. by destruct Hn.
Qed.

Lemma extends_add q x : extends q (q <| qualification_observations := qualification_observations q ++ [x] |>).
Proof. split; [exists id, [x]|exists []|exists []]; cbn; by rewrite ?list_fmap_id, ?app_nil_r. Qed.

Lemma get_observation_in q id x : get_observation q id = Some x -> x ∈ qualification_observations q /\ observation_id x = id.
Proof. intros [Hx E]%find_some_in. by tests. Qed.

Lemma get_observation_none q id : get_observation q id = None -> id ∉ observation_id <$> qualification_observations q.
Proof.
  intros H (x & -> & Hx)%list_elem_of_fmap. apply list_elem_of_In in Hx.
  pose proof (List.find_none _ _ H x Hx) as Hn. cbn in Hn. by rewrite str_eqb_refl in Hn.
Qed.

Lemma insert_snapshot_extends s q : extends q (insert_snapshot s q).
Proof.
  unfold insert_snapshot. destruct (get_snapshot q _); [done|].
  split; [exists id, []|by exists [s]|exists []]; cbn; by rewrite ?list_fmap_id, ?app_nil_r.
Qed.

Lemma begin_cases q uuid run at_ q' a :
  begin_automatic_observation q uuid run at_ = Ok (q', a) ->
  q' = q \/ exists x, q' = q <| qualification_observations := qualification_observations q ++ [x] |>
    /\ get_observation q (observation_id x) = None /\ obs_state x <> ObsSuccess /\ obs_started_at x = at_
    /\ dict_mem "capture_mode" (obs_proof x) = true
    /\ (is_str (dict_get "capture_mode" (obs_proof x)) "automatic" = true ->
         exists ds cutoff, month_bounds (business_month at_) = Ok (ds, cutoff) /\ cutoff - MAX_AGE <= at_ < cutoff
           /\ Z.of_nat (length (List.filter (automatic_attempt cutoff) (qualification_observations q)))
              < MAX_AUTOMATIC_MONTH_ATTEMPTS).
Proof.
  unfold begin_automatic_observation. intros (w & Hw & H)%result_bind_Ok. destruct w; cbn [negb] in H; [|injection H as <- _; by left].
  apply result_bind_Ok in H as ([ds cutoff] & Hb & H). cbn zeta in H. destruct (_ || _) eqn:Eb.
  - destruct (get_observation q (budget_marker _)) eqn:Em; injection H as <- _; [by left|right].
    eexists. split; [reflexivity|]. split_and!; done.
  - apply result_bind_Ok in H as ([q1 id] & Hs & H). injection H as <- _. unfold start_observation in Hs. cbn zeta in Hs.
    destruct (get_observation q _) eqn:Eg in Hs; [done|]. injection Hs as <- _. right. eexists. split; [reflexivity|].
    split_and!; try done. intros _. exists ds, cutoff. split; [done|]. apply orb_false_iff in Eb as [_ Ec]. split; [|lia].
    unfold in_automatic_capture_window in Hw. cbn zeta in Hw. destruct (String.ltb _ _); [done|].
    rewrite Hb in Hw. cbn [result_bind] in Hw. injection Hw as Hw. lia.
Qed.

(** The mode of an attempt survives the merge of its proof. *)
Definition mode_kept (x y : AccountQualificationObservation) : Prop :=
  dict_mem "capture_mode" (obs_proof x) = true ->
  dict_mem "capture_mode" (obs_proof y) = true
  /\ dict_get "capture_mode" (obs_proof y) = dict_get "capture_mode" (obs_proof x).

Lemma dict_lookup_app k a b :
  dict_lookup k (a ++ b) = match dict_lookup k a with Some v => Some v | None => dict_lookup k b end.
Proof. induction a as [|[k' v] a IH]; [done|]. cbn. by destruct (decide _). Qed.

Lemma dict_lookup_merge k a b :
  dict_lookup k (dict_merge a b) = match dict_lookup k b with Some v => Some v | None => dict_lookup k a end.
Proof.
  unfold dict_merge. rewrite dict_lookup_app.
  assert (forall l, dict_lookup k ((fun kv => (kv.1, dict_get_default kv.1 kv.2 b)) <$> l)
    = (fun v => dict_get_default k v b) <$> dict_lookup k l) as ->.
  { induction l as [|[k' v] l IH]; [done|]. cbn. by destruct (decide (k = k')) as [->|]. }
  destruct (dict_lookup k a) as [v|] eqn:Ea; cbn.
  - unfold dict_get_default. by destruct (dict_lookup k b).
  - assert (forall l, dict_lookup k (List.filter (fun kv => negb (dict_mem kv.1 a)) l) = dict_lookup k l) as ->.
    { induction l as [|[k' v] l IH]; [done|]. cbn. destruct (dict_mem k' a) eqn:Em; cbn.
      - rewrite IH. rewrite decide_False; [done|]. intros ->. unfold dict_mem in Em. by rewrite Ea in Em.
      - by destruct (decide _). }
    by destruct (dict_lookup k b).
Qed.

Lemma merge_mode a b k : dict_mem k b = true -> dict_mem k (dict_merge a b) = true /\ dict_get k (dict_merge a b) = dict_get k b.
Proof. unfold dict_mem, dict_get, dict_get_default. rewrite dict_lookup_merge. by destruct (dict_lookup k b). Qed.

Lemma complete_cases q id records at_ q' :
  complete q id records at_ = Ok q' ->
  exists x y, x ∈ qualification_observations q /\ obs_state x = ObsRunning /\ observation_kept x y /\ mode_kept x y
    /\ ((q' = put_observation y q /\ obs_state y = ObsFailed)
        \/ exists s, q' = put_observation y (insert_snapshot s q) /\ snap_content_sha256 s = snapshot_digest s
             /\ obs_state y = ObsSuccess).
Proof.
  unfold complete_observation. destruct (get_observation q id) as [x|] eqn:Ex; [|done].
  apply get_observation_in in Ex as [Hx <-]. intros H. guards H. cbn zeta in H.
  match goal with G : negb (bool_decide _) = false |- _ => apply negb_false_iff, bool_decide_eq_true in G; rename G into Hr end.
  assert (forall y, observation_id y = observation_id x -> obs_started_at y = obs_started_at x -> observation_kept x y) as Hk.
  { intros y E1 E2. split_and!; [done|done|]. intros Hn. by destruct Hn. }
  exists x. destruct (let* _ := raise_if _ _ in canonical_records _ _ _) as [rows|e].
  - destruct (_ <? _) in H; injection H as <-;
      match goal with |- context [put_observation ?y _ = _] => exists y end; (split; [done|]); (split; [done|]); (split; [by apply Hk|]).
    + split; [|by left]. intros Hm. cbn [obs_proof].
      match goal with |- context [dict_merge (dict_merge ?a ?b) ?c] => destruct (merge_mode a b "capture_mode" Hm) as [M1 M2] end.
      unfold dict_mem, dict_get, dict_get_default in *. rewrite dict_lookup_merge. cbn [dict_lookup].
      rewrite !decide_False by done. done.
    + split; [intros Hm; by apply merge_mode|]. right. eexists. split; [reflexivity|]. done.
  - destruct e; try done. injection H as <-. match goal with |- context [put_observation ?y _ = _] => exists y end.
    split; [done|]. split; [done|]. split; [by apply Hk|].
    split; [intros Hm; by apply merge_mode|]. by left.
Qed.

Lemma fail_cases q id code at_ :
  fail_observation q id code at_ = q \/ exists x y, x ∈ qualification_observations q /\ obs_state x = ObsRunning
    /\ observation_kept x y /\ mode_kept x y /\ fail_observation q id code at_ = put_observation y q /\ obs_state y = ObsFailed.
Proof.
  unfold fail_observation. destruct (get_observation q id) as [x|] eqn:Ex; [|by left].
  apply get_observation_in in Ex as [Hx <-]. destruct (bool_decide _) eqn:Er; [|by left]. apply bool_decide_eq_true in Er.
  right. exists x. match goal with |- context [put_observation ?y _ = _] => exists y end.
  split; [done|]. split; [done|]. by split_and!.
Qed.

(** ** Freezing *)

Lemma text_gt_trans a b c : text_gt a b = true -> text_gt b c = true -> text_gt a c = true.
Proof. unfold text_gt. intros H1 H2. by eapply ltb_trans. Qed.
Lemma text_gt_irrefl a : text_gt a a = false.
Proof. unfold text_gt. apply not_true_iff_false. by intros [_ H]%ltb_spec. Qed.

Lemma started_later_trans a b c : started_later a b = true -> started_later b c = true -> started_later a c = true.
Proof.
  unfold started_later. rewrite !orb_true_iff, !andb_true_iff, !Z.ltb_lt, !Z.eqb_eq. intros [H1|[H1 T1]] [H2|[H2 T2]];
    [left; lia..|right]. split; [lia|by eapply text_gt_trans].
Qed.
Lemma ended_later_trans cutoff a b c :
  ended_later cutoff a b = true -> ended_later cutoff b c = true -> ended_later cutoff a c = true.
Proof.
  unfold ended_later. rewrite !orb_true_iff, !andb_true_iff, !Z.ltb_lt, !Z.eqb_eq. intros [H1|[H1 T1]] [H2|[H2 T2]];
    [left; lia..|right]. split; [lia|by eapply started_later_trans].
Qed.
Lemma ended_later_irrefl cutoff a : ended_later cutoff a a = false.
Proof. unfold ended_later, started_later. by rewrite !Z.ltb_irrefl, text_gt_irrefl, !andb_false_r. Qed.

(** What a version is frozen from. *)
Record frozen_from (q : qualificationdb) (v : AccountQualificationVersion) (x : AccountQualificationObservation)
    (s : AccountQualificationSnapshot) (ds cutoff ended : instant) : Prop := MkFrozenFrom {
  ff_bounds : month_bounds (version_month v) = Ok (ds, cutoff);
  ff_last : x ∈ monthend_observations q ds cutoff /\ observation_id x = version_observation_id v;
  ff_success : obs_state x = ObsSuccess /\ obs_complete x = true /\ obs_content_sha256 x = Some (version_content_sha256 v);
  ff_times : obs_ended_at x = Some ended /\ cutoff - MAX_AGE <= obs_started_at x /\ cutoff - MAX_AGE <= ended < cutoff;
  ff_none_later : forall y, y ∈ monthend_observations q ds cutoff -> obs_state y <> ObsRunning /\ ended_or cutoff y <= ended;
  ff_snapshot : get_snapshot q (version_content_sha256 v) = Some s /\ snap_policy_version s = version_policy_version v;
}.

Lemma freeze_cases q month now q' v :
  freeze q month now = Ok (q', v) ->
  version_month v = month /\
  ((month_version q month = Some v /\ q' = q)
   \/ (month_version q month = None /\ q' = q <| qualification_versions := qualification_versions q ++ [v] |>
       /\ version_frozen_at v = now /\ exists x s ds cutoff ended, frozen_from q v x s ds cutoff ended /\ cutoff <= now)).
Proof.
  unfold freeze_month. intros ([] & _ & H)%result_bind_Ok. apply result_bind_Ok in H as ([ds cutoff] & Hb & H).
  apply result_bind_Ok in H as ([] & Hn%raise_if_ok & H).
  destruct (month_version q month) as [w|] eqn:Ev.
  { injection H as <- <-. apply find_some_in in Ev as [_ E]. tests. split; [done|by left]. }
  cbn zeta in H. destruct (best_row started_later _) as [first|] eqn:Ef; [|done].
  destruct (best_row (ended_later cutoff) _) as [x|] eqn:El; [|done].
  destruct (obs_content_sha256 x) as [content|] eqn:Ec; [|done]. destruct (obs_ended_at x) as [ended|] eqn:Ee; [|done].
  apply result_bind_Ok in H as ([] & Hg%raise_if_ok & H). destruct (get_snapshot q content) as [s|] eqn:Es; [|done].
  apply result_bind_Ok in H as (_ & _ & H). injection H as <- <-. rewrite !orb_false_iff in Hg. destruct_and!.
  split; [done|right]. split; [done|]. split; [done|]. split; [done|]. exists x, s, ds, cutoff, ended. split; [|lia].
  assert (forall y, y ∈ monthend_observations q ds cutoff -> ended_later cutoff y x = false) as Hmax.
  { apply best_row_max; [apply ended_later_irrefl|apply ended_later_trans|done]. }
  split; cbn; try done.
  - split; [by eapply best_row_in|done].
  - repeat match goal with H : negb (bool_decide _) = false |- _ => apply negb_false_iff, bool_decide_eq_true in H end.
    by match goal with H : negb _ = false |- _ => apply negb_false_iff in H end.
  - split; [done|]. lia.
  - intros y Hy. split.
    + intros E. match goal with H : existsb _ _ = false |- _ => apply not_true_iff_false in H; apply H end.
      apply existsb_exists. exists y. split; [by apply list_elem_of_In|]. by rewrite bool_decide_true.
    + specialize (Hmax y Hy). unfold ended_later in Hmax. apply orb_false_iff in Hmax as [Hmax _].
      unfold ended_or in *. rewrite Ee in Hmax. cbn in Hmax. lia.
Qed.

(** ** The invariant *)

Record qualification_ok (q : qualificationdb) : Prop := MkQualificationOk {
  qo_ids : observations_unique q;
  qo_mode : forall x, x ∈ qualification_observations q -> dict_mem "capture_mode" (obs_proof x) = true;
  qo_digests : forall s, s ∈ qualification_snapshots q -> snap_content_sha256 s = snapshot_digest s;
  qo_versions : forall v, v ∈ qualification_versions q -> exists s,
    get_snapshot q (version_content_sha256 v) = Some s /\ snap_policy_version s = version_policy_version v;
  qo_months : NoDup (version_month <$> qualification_versions q);
  qo_budget : forall month ds cutoff, month_bounds month = Ok (ds, cutoff) ->
    Z.of_nat (length (List.filter (automatic_attempt cutoff) (qualification_observations q))) <= MAX_AUTOMATIC_MONTH_ATTEMPTS;
}.

Lemma kept_ids q g new q' :
  (forall x, x ∈ qualification_observations q -> observation_kept x (g x)) ->
  qualification_observations q' = (g <$> qualification_observations q) ++ new ->
  observation_id <$> qualification_observations q' = (observation_id <$> qualification_observations q) ++ (observation_id <$> new).
Proof.
  intros Hg ->. rewrite fmap_app, <- list_fmap_compose. f_equal. apply list_fmap_ext. intros i x Hi.
  apply list_elem_of_lookup_2, Hg in Hi. apply Hi.
Qed.

Lemma get_snapshot_extends q q' content s : extends q q' -> get_snapshot q content = Some s -> get_snapshot q' content = Some s.
Proof. intros [_ (new & E) _]. unfold get_snapshot. rewrite E, find_app. by intros ->. Qed.

(** Ending an attempt does not change what it counts for. *)
Lemma put_attempts q x y cutoff :
  observations_unique q -> x ∈ qualification_observations q -> observation_kept x y ->
  dict_mem "capture_mode" (obs_proof x) = true -> mode_kept x y ->
  length (List.filter (automatic_attempt cutoff) (qualification_observations (put_observation y q)))
  = length (List.filter (automatic_attempt cutoff) (qualification_observations q)).
Proof.
  intros Hu Hx (Ei & Es & _) Hm Hk. destruct (Hk Hm) as [_ Em]. cbn [put_observation field_set qualification_observations].
  rewrite lfilter_fmap, length_fmap. f_equal. apply filter_ext_elem. intros z Hz.
  destruct (str_eqb _ _) eqn:E; [|done]. tests.
  assert (z = x) as -> by (apply (fmap_NoDup_inj observation_id (qualification_observations q)); [done..|congruence]).
  unfold automatic_attempt. by rewrite Es, Em.
Qed.

Lemma put_ok q x y :
  qualification_ok q -> x ∈ qualification_observations q -> obs_state x = ObsRunning -> observation_kept x y -> mode_kept x y ->
  qualification_ok (put_observation y q).
Proof.
  intros [H1 H2 H3 H4 H5 H6] Hx Hr Hk Hm. pose proof (extends_put q x y H1 Hx Hr Hk) as Hex.
  split; cbn [put_observation field_set qualification_snapshots qualification_versions]; try done.
  - destruct Hk as (Ei & _ & _). unfold observations_unique. cbn [put_observation field_set qualification_observations].
    rewrite <- list_fmap_compose. erewrite list_fmap_ext; [exact H1|]. intros i z _. cbn.
    destruct (str_eqb _ _) eqn:E; [|done]. by tests.
  - intros z (w & -> & Hw)%list_elem_of_fmap. destruct (str_eqb _ _); [|by apply H2]. apply Hm. by apply H2.
  - intros month ds cutoff Hb. rewrite (put_attempts q x y) by auto. by eapply H6.
Qed.

Lemma snapshot_ok q s : qualification_ok q -> snap_content_sha256 s = snapshot_digest s -> qualification_ok (insert_snapshot s q).
Proof.
  intros Hok Hs. pose proof (insert_snapshot_extends s q) as Hex. destruct Hok as [H1 H2 H3 H4 H5 H6].
  assert (qualification_observations (insert_snapshot s q) = qualification_observations q
    /\ qualification_versions (insert_snapshot s q) = qualification_versions q) as [E1 E2]
    by (unfold insert_snapshot; by destruct (get_snapshot q _)).
  split; unfold observations_unique; rewrite ?E1, ?E2; try done.
  - unfold insert_snapshot. destruct (get_snapshot q _); [done|]. cbn.
    intros x [Hx| ->%list_elem_of_singleton]%elem_of_app; [by apply H3|done].
  - intros v Hv. destruct (H4 v Hv) as (w & Hw & Ep). exists w. split; [|done]. by eapply get_snapshot_extends.
Qed.

Lemma cutoff_day month ds cutoff : month_bounds month = Ok (ds, cutoff) -> exists k, cutoff = days k - hours 8.
Proof.
  unfold month_bounds. destruct (parse_month month) as [[y m]|]; [|done]. destruct (_ && _); [done|]. intros [= _ <-]. by eexists.
Qed.

(** Windows of two months do not overlap. *)
Lemma window_unique month ds cutoff month' ds' cutoff' t :
  month_bounds month = Ok (ds, cutoff) -> month_bounds month' = Ok (ds', cutoff') ->
  cutoff - MAX_AGE <= t < cutoff -> cutoff' - MAX_AGE <= t < cutoff' -> cutoff = cutoff'.
Proof.
  intros [k ->]%cutoff_day [k' ->]%cutoff_day. unfold MAX_AGE, days, hours, seconds. intros H1 H2.
  assert (k = k') as -> by lia. done.
Qed.

Lemma begin_ok q uuid run at_ q' a :
  qualification_ok q -> begin_automatic_observation q uuid run at_ = Ok (q', a) -> qualification_ok q' /\ extends q q'.
Proof.
  intros Hok [->|(x & -> & Hn & _ & Hat & Hm & Ha)]%begin_cases; [done|]. split; [|apply extends_add].
  destruct Hok as [H1 H2 H3 H4 H5 H6]. split; cbn [field_set qualification_observations qualification_snapshots qualification_versions]; try done.
  - unfold observations_unique. cbn [field_set qualification_observations]. rewrite fmap_app. apply NoDup_app. split_and!; [done| |apply NoDup_singleton].
    intros i Hi E%list_elem_of_singleton. cbn in E. subst. by apply get_observation_none in Hn.
  - intros y [Hy| ->%list_elem_of_singleton]%elem_of_app; [by apply H2|done].
  - intros month ds cutoff Hb. rewrite lfilter_app, length_app. specialize (H6 month ds cutoff Hb). cbn [List.filter].
    destruct (automatic_attempt cutoff x) eqn:E; [|cbn; lia]. unfold automatic_attempt in E. rewrite !andb_true_iff in E.
    destruct E as [[E1 E2] E3]. destruct (Ha E3) as (ds' & cutoff' & Hb' & Hw & Hc).
    assert (cutoff = cutoff') as -> by (eapply (window_unique month ds cutoff _ ds' cutoff' at_); [done|done| |done]; rewrite <- Hat; lia).
    cbn [length]. lia.
Qed.

Lemma freeze_ok q month now q' v :
  qualification_ok q -> freeze q month now = Ok (q', v) -> qualification_ok q' /\ extends q q'.
Proof.
  intros Hok (Em & [(_ & ->)|(Hn & -> & _ & x & s & ds & cutoff & ended & Hf & _)])%freeze_cases; [done|].
  split; [|split; [exists id, []|exists []|by exists [v]]; cbn; by rewrite ?list_fmap_id, ?app_nil_r].
  destruct Hok as [H1 H2 H3 H4 H5 H6]. split; try done; cbn [field_set qualification_versions].
  - intros w [Hw| ->%list_elem_of_singleton]%elem_of_app; [by apply H4|]. exists s. apply Hf.
  - rewrite fmap_app. apply NoDup_app. split_and!; [done| |apply NoDup_singleton].
    intros m (w & -> & Hw)%list_elem_of_fmap E%list_elem_of_singleton. apply list_elem_of_In in Hw.
    pose proof (List.find_none _ _ Hn w Hw) as Hf'. cbn in Hf'. cbn in E. by rewrite E, Em, str_eqb_refl in Hf'.
Qed.

Lemma qualification_step_ok q q' : qualification_ok q -> qualification_step q q' -> qualification_ok q' /\ extends q q'.
Proof.
  intros Hok [uuid run at_ q1 a H|id records at_ q1 H|id code at_|month now q1 v H].
  - by eapply begin_ok.
  - apply complete_cases in H as (x & y & Hx & Hr & Hk & Hm & [(-> & _)|(s & -> & Hs & _)]).
    + split; [by eapply put_ok|]. eapply extends_put; [apply Hok|done..].
    + pose proof (insert_snapshot_extends s q) as Hex.
      assert (qualification_observations (insert_snapshot s q) = qualification_observations q) as E
        by (unfold insert_snapshot; by destruct (get_snapshot q _)).
      assert (x ∈ qualification_observations (insert_snapshot s q)) as Hx' by by rewrite E.
      pose proof (snapshot_ok q s Hok Hs) as Hok'. split; [by eapply put_ok|].
      etrans; [done|]. eapply extends_put; [apply Hok'|done..].
  - destruct (fail_cases q id code at_) as [->|(x & y & Hx & Hr & Hk & Hm & -> & _)]; [done|].
    split; [by eapply put_ok|]. eapply extends_put; [apply Hok|done..].
  - by eapply freeze_ok.
Qed.

(** The states that calls produce from empty tables. *)
Definition no_qualifications : qualificationdb := MkQualificationDb [] [] [].
Definition qualification_reachable (q : qualificationdb) : Prop := rtc qualification_step no_qualifications q.

Lemma steps_extend q q' : qualification_ok q -> rtc qualification_step q q' -> qualification_ok q' /\ extends q q'.
Proof.
  intros Hok H. induction H as [q|q1 q2 q3 Hs _ IH]; [done|]. destruct (qualification_step_ok q1 q2 Hok Hs) as [Hok2 Hex].
  destruct (IH Hok2) as [Hok3 Hex']. split; [done|]. by etrans.
Qed.

Lemma qualification_reachable_ok q : qualification_reachable q -> qualification_ok q.
Proof.
  intros H. apply (steps_extend no_qualifications q); [|done].
  split; try (intros ? Hx; by apply elem_of_nil in Hx); [apply NoDup_nil_2|apply NoDup_nil_2|]. intros month ds cutoff _. done.
Qed.

(** At most eight automatic attempts of a month's capture window are ever
    recorded, however often the collector is started and however its attempts end. *)
Lemma capture_budget q month ds cutoff :
  qualification_reachable q -> month_bounds month = Ok (ds, cutoff) ->
  Z.of_nat (length (List.filter (automatic_attempt cutoff) (qualification_observations q))) <= 8.
Proof. intros Hq%qualification_reachable_ok Hb. by apply (qo_budget q Hq month ds). Qed.

(** A month is frozen only after it has ended and only from its last attempt:
    one that succeeded and is complete, started and ended within the last two hours
    before the cutoff, while no attempt of that day is still running and none ended
    later; the version names its snapshot, which is there with the digest it names. *)
Lemma freeze_takes_last_attempt q month now q' v :
  qualification_reachable q -> freeze q month now = Ok (q', v) -> month_version q month = None ->
  exists x s ds cutoff ended, month_bounds month = Ok (ds, cutoff) /\ cutoff <= now
    /\ x ∈ qualification_observations q /\ obs_state x = ObsSuccess /\ obs_complete x = true
    /\ obs_ended_at x = Some ended /\ cutoff - hours 2 <= obs_started_at x /\ cutoff - hours 2 <= ended < cutoff
    /\ (forall y, y ∈ qualification_observations q -> ds <= obs_started_at y < cutoff ->
         obs_state y <> ObsRunning /\ default cutoff (obs_ended_at y) <= ended)
    /\ get_snapshot q' (version_content_sha256 v) = Some s
    /\ version_content_sha256 v = digest (snapshot_json (version_policy_version v) (snap_records s))
    /\ version_observation_id v = observation_id x /\ month_version q' month = Some v.
Proof.
  intros Hq%qualification_reachable_ok Hf Hnone. pose proof (freeze_ok _ _ _ _ _ Hq Hf) as [_ Hex].
  apply freeze_cases in Hf as (Em & [(E & _)|(_ & -> & _ & x & s & ds & cutoff & ended & [B [L Li] [S1 [S2 S3]] [T1 [T2 T3]] N [G P]] & Hc)]);
    [by rewrite E in Hnone|].
  rewrite Em in B. apply list_elem_of_In, filter_In in L as [Lx _]. apply list_elem_of_In in Lx.
  change MAX_AGE with (hours 2) in *. exists x, s, ds, cutoff, ended. split_and!; try done; try lia.
  - intros y Hy Hd. apply N. apply list_elem_of_In, filter_In. split; [by apply list_elem_of_In|]. lia.
  - pose proof (find_some_in _ _ _ G) as [Hs Ec]. tests. rewrite <- Ec, <- P. by apply (qo_digests q Hq).
  - unfold month_version. cbn. rewrite find_app.
    change (List.find _ (qualification_versions q)) with (month_version q month). rewrite Hnone. cbn. by rewrite Em, str_eqb_refl.
Qed.

(** C29: What is frozen is final: once a month has a version, no later attempt,
    completion, failure or freezing changes that version or which orders qualify
    under it, and its snapshot always passes the check of its digest. *)
Theorem frozen_month_final q q' month v o :
  qualification_reachable q -> month_version q month = Some v -> rtc qualification_step q q' ->
  month_version q' month = Some v
  /\ qualified_records repr_of digest q' v o = qualified_records repr_of digest q v o
  /\ qualified_records repr_of digest q v o <> Raise (AccountQualificationError "qualification_source_digest_mismatch").
Proof.
  intros Hq%qualification_reachable_ok Hv Hs. destruct (steps_extend q q' Hq Hs) as [_ Hex].
  pose proof (find_some_in _ _ _ Hv) as [Hin _]. destruct (qo_versions q Hq v Hin) as (s & Gs & Ep).
  split_and!.
  - destruct Hex as [_ _ (new & E)]. unfold month_version in *. by rewrite E, find_app, Hv.
  - unfold qualified_records. by rewrite (get_snapshot_extends q q' _ s Hex Gs), Gs.
  - unfold qualified_records. rewrite Gs. pose proof (find_some_in _ _ _ Gs) as [Hs' Ec]. tests.
    pose proof (qo_digests q Hq s Hs') as Ed. rewrite <- Ep, <- Ed, Ec, str_eqb_refl. cbn [negb raise_if result_bind]. cbn zeta.
    destruct (_ || _) in |- *; cbn [raise_if result_bind]; [done|].
    destruct (row_candidates _ _ _) as [l|e] eqn:E2; cbn [result_bind].
    2: { unfold row_candidates in E2. destruct (account_candidates _ _ _), (secondary_candidates _ _ _); try done.
         destruct (bool_decide _) in E2; cbn in E2; [|done]. by injection E2 as <-. }
    destruct (bool_decide (row_account_id <$> l = [])); cbn [raise_if result_bind]; [done|].
    by destruct (remove_dups _) as [|? [|]].
Qed.
End Steps.
