(* ===== verification/RecordedEvidence.v ===== *)
(** * The evidence of a sale

    The attribution ledger and the frozen qualifications are what the fee
    calculation asks ([SaleEvidence]), and they keep its laws. *)
From S2P Require Import Prelude PyValue Phones Jobs Clues FeeTables FeeLedger FeeProps SaleAccounts FeeResults ResultBasis Attribution Qualification QualificationProps.
#[local] Open Scope Z_scope.
#[local] Set Default Proof Using "Type".
#[local] Notation RawDouyinOrder := FeeTables.RawDouyinOrder.

Section Evidence.
Context (repr_of : pyval -> string) (isoformat : instant -> string) (digest : pyval -> string).

(** A freeze during a run is final: the same month answers every order of the run
    from the same version, whether it is frozen already or frozen by the first one. *)
Lemma qualified_once q month now o pinned q1 v now' o' pinned' :
  Qualification.qualified_version repr_of digest q month now o pinned = Ok (q1, v) ->
  Qualification.qualified_version repr_of digest q1 month now' o' pinned'
  = Qualification.qualified_version repr_of digest q month now o' pinned'.
Proof.
  unfold Qualification.qualified_version. intros ([q2 w] & Hf & H)%result_bind_Ok.
  apply result_bind_Ok in H as ([] & _ & H). apply result_bind_Ok in H as (? & _ & H). injection H as -> ->.
  rewrite Hf. cbn [result_bind]. unfold frozen_version in *. destruct (month_version q month) as [y|] eqn:Ev.
  - injection Hf as -> ->. by rewrite Ev.
  - apply freeze_cases in Hf as (Em & [(E & _)|(_ & -> & _)]); [by rewrite E in Ev|].
    assert (month_version (q <| qualification_versions := qualification_versions q ++ [v] |>) month = Some v) as ->; [|done].
    unfold month_version. cbn. rewrite find_app. change (List.find _ (qualification_versions q)) with (month_version q month).
    rewrite Ev. cbn. by rewrite Em, str_eqb_refl.
Qed.

(** What the ledgers answer during a run. *)
Definition recorded_evidence (decisions : list HistoricalSaleAttributionDecision) (q : qualificationdb) (now : instant)
  : SaleEvidence := {|
  historical_decision d o c verify current :=
    match resolve_historical_sale_attribution isoformat digest decisions d o c verify current with
    | Ok (Some x) => Some (Some (MkDecision (sd_decision_id x) (sd_store_id x) (sd_evidence_sha256 x)))
    | Ok None => Some None
    | Raise _ => None
    end;
  FeeResults.qualified_version month o pinned :=
    match Qualification.qualified_version repr_of digest q month now o pinned with
    | Ok (_, v) => Some (version_id v)
    | Raise _ => None
    end;
|}.

#[export] Instance recorded_evidence_laws decisions q now : SaleEvidenceLaws (E := recorded_evidence decisions q now).
Proof.
  split.
  - intros d d' o c v current current' [Es Ev]. cbn. unfold resolve_historical_sale_attribution, active_store, get_store.
    by rewrite Es.
  - intros month o pinned p. cbn. destruct (Qualification.qualified_version _ _ _ _ _ _ pinned) as [[q1 w]|] eqn:E; [|done].
    intros [= <-]. revert E. unfold Qualification.qualified_version. intros ([q2 x] & -> & H)%result_bind_Ok. cbn [result_bind].
    apply result_bind_Ok in H as ([] & _ & H). apply result_bind_Ok in H as (rows & Hr & H). injection H as -> ->.
    by rewrite str_eqb_refl, Hr.
Qed.
End Evidence.
