(* ===== verification/ResultWitness.v ===== *)
(** * Fee results: concrete runs

    A coupon whose fees are calculated, the month then locked, and a later run. *)
From S2P Require Import Prelude PyValue Jobs Phones Receipts Clues FeeTables FeeLedger FeeProps FeeThms Statements SaleAccounts SaleProps FeeResults FeeResultProps ResultRuns ResultBasis ResultThms Attribution AttributionProps Qualification QualificationProps RecordedEvidence.
#[local] Open Scope Z_scope.
#[local] Notation RawDouyinOrder := FeeTables.RawDouyinOrder.
#[local] Notation RawDouyinOrderCoupon := FeeTables.RawDouyinOrderCoupon.

Definition august : instant := seconds 1785600000.
Definition paid_order : RawDouyinOrder :=
  MkFeeOrder 1 "O1" (Some "PAID") (Some "paid") (Some "SKU") (Some august) (Some august) (Some "A1") (Some "name")
    (Some "live") (Some "live") PNone None None.
Definition receipt_coupon (cents : Z) : RawDouyinOrderCoupon :=
  MkFeeCoupon "C1" "O1" 1 None (Some "used") (Some "used") None 0 (PDict [(RECEIPT_AMOUNT_FIELD, PInt cents)]) 1 None.
Definition redeemed : RawDouyinVerifyRecord :=
  MkFeeVerify "V1" (Some "C1") (Some "1") (Some august) (Some "P1") None None.

(** No result yet; everything a fee needs is there. *)
Definition fresh_ledger (cents : Z) (locked : list SettlementStatement) : feedb :=
  MkFeeDb [paid_order] [receipt_coupon cents] [redeemed] [] [] [] [] [] [] locked [] [] [] [] [] [] [] []
    [MkFeeStore "S1" "one" true; MkFeeStore "S2" "two" true] [MkPoiMapping "P1" "S2"]
    [MkSkuProduct "SKU" "scope" "type" (Some "OWN") (Some "ACTIVE") true None]
    [MkScopeRule 1 "sv1" "2026-08" "OWN" "live" true] [MkFeeRule 1 "v1" "SKU" 50000 20000 20666 1] []
    [MkAwemeAccount "A1" (Some "S1") (Some "active") None None] [].

Definition plain_json (l : list (string * pyval)) : string :=
  join ";" ((fun kv => (kv.1 +:+ "=" +:+ py_str (fun _ => "?") kv.2)%string) <$> l).
Definition plain_value (v : pyval) : string := py_str (fun _ => "?") v.
Definition no_evidence : SaleEvidence :=
  recorded_evidence plain_value plain_time plain_value [] (MkQualificationDb [] [] []) august.
#[local] Existing Instance no_evidence.

#[local] Notation rebuild := (rebuild_dual_fee_results plain_digest plain_time plain_value (default "") plain_json str_of_Z str_of_Z).
Definition ledger_after (d : feedb) (run : string) (force : bool) : feedb :=
  match rebuild d run august force None with Ok (d', _) => d' | Raise _ => d end.
Definition run_stats (d : feedb) (run : string) (force : bool) : option DualFeeStats :=
  match rebuild d run august force None with Ok (_, s) => Some s | Raise _ => None end.

(** Both fees are calculated in the first run. *)
Example first_run : run_stats (fresh_ledger 10000 []) "run1" false = Some (MkStats 2 0 0).
Proof. vm_compute. reflexivity. Qed.

Definition first_ledger : feedb := ledger_after (fresh_ledger 10000 []) "run1" false.
Lemma first_reachable : ledger_reachable plain_digest plain_time plain_value (default "") plain_json str_of_Z str_of_Z first_ledger.
Proof.
  eapply (reach_run _ _ _ _ _ _ _ (fresh_ledger 10000 []) "run1" august false None first_ledger (MkStats 2 0 0));
    [by apply reach_empty|]. vm_compute. reflexivity.
Defined.

(** [one_active_result] after the first run. *)
Lemma one_active_result_witness :
  exists r, r ∈ fee_results first_ledger /\ slot_of r = ("C1", MANAGEMENT_FEE) /\ result_status r = ACTIVE_FEE_RESULT.
Proof.
  apply (one_active_result plain_digest plain_time plain_value (default "") plain_json str_of_Z str_of_Z first_ledger "C1" MANAGEMENT_FEE).
  - exact first_reachable.
  - vm_compute. discriminate.
Defined.

(** The month of one store is locked, and the receipt is corrected. *)
Definition august_lock : SettlementStatement :=
  MkStatement "ST8" "S1" "2026-08" 1 true 4 500 0 500 0 0 0 None (Some "run") (Some 30) (Some "lock-1") None.
Definition locked_ledger : feedb :=
  first_ledger <| statements := [august_lock] |> <| fee_coupons := [receipt_coupon 20000] |>.

(** The forced run replaces the management result of the open store only. *)
Example second_run :
  run_stats locked_ledger "run2" true = Some (MkStats 1 0 1)
  /\ (result_fee_amount_cent <$> current_fee_result (ledger_after locked_ledger "run2" true) "C1" MANAGEMENT_FEE) = Some 400
  /\ (result_fee_amount_cent <$> current_fee_result (ledger_after locked_ledger "run2" true) "C1" PROMOTION_FEE) = Some 500.
Proof. vm_compute. done. Qed.

(** [runs_keep_frozen_statements] on it. *)
Lemma runs_keep_frozen_statements_witness :
  statement_sources (ledger_after locked_ledger "run2" true) "S1" "2026-08" = statement_sources locked_ledger "S1" "2026-08"
  /\ is_fee_result_locked (ledger_after locked_ledger "run2" true) "S1" "2026-08" None = true.
Proof.
  apply (runs_keep_frozen_statements plain_digest plain_time plain_value (default "") plain_json str_of_Z str_of_Z
    locked_ledger "run2" august true None (ledger_after locked_ledger "run2" true) (MkStats 1 0 1) "S1" "2026-08").
  - apply (reach_tables _ _ _ _ _ _ _ first_ledger); [exact first_reachable|reflexivity..].
  - vm_compute. reflexivity.
  - discriminate.
  - vm_compute. reflexivity.
Defined.

(** [open_basis_written_once] on the first calculation of the promotion fee. *)
Definition first_basis : option FeeBasis :=
  match fee_basis plain_value (default "") (fresh_ledger 10000 []) paid_order (receipt_coupon 10000) PROMOTION_FEE None with
  | BasisReady b => Some b
  | _ => None
  end.

Lemma open_basis_written_once_witness : exists b d', first_basis = Some b
  /\ materialize_dual_fee_direction plain_digest plain_time plain_value (default "") plain_json str_of_Z str_of_Z
       (fresh_ledger 10000 []) paid_order (receipt_coupon 10000) PROMOTION_FEE "run1" august
       (current_fee_result (fresh_ledger 10000 []) (coupon_id (receipt_coupon 10000)) PROMOTION_FEE) false = Ok (d', true)
  /\ current_fee_result d' (coupon_id (receipt_coupon 10000)) PROMOTION_FEE
     = Some (new_result plain_digest plain_time plain_json str_of_Z str_of_Z (fresh_ledger 10000 []) paid_order
               (receipt_coupon 10000) PROMOTION_FEE "run1" august b None).
Proof.
  destruct first_basis as [b|] eqn:Eb; [|by vm_compute in Eb]. exists b.
  assert (fee_basis plain_value (default "") (fresh_ledger 10000 []) paid_order (receipt_coupon 10000) PROMOTION_FEE
    (current_fee_result (fresh_ledger 10000 []) (coupon_id (receipt_coupon 10000)) PROMOTION_FEE) = BasisReady b) as Hb.
  { revert Eb. unfold first_basis. change (current_fee_result _ _ _) with (@None SettlementFeeResult).
    destruct (fee_basis _ _ _ _ _ _ _); try done. by intros [= ->]. }
  destruct (open_basis_written_once plain_digest plain_time plain_value (default "") plain_json str_of_Z str_of_Z
    (fresh_ledger 10000 []) paid_order (receipt_coupon 10000) PROMOTION_FEE "run1" august false b "run2" august) as (d' & H1 & H2 & _).
  - apply (reachable_ok plain_digest plain_time plain_value (default "") plain_json str_of_Z str_of_Z). by apply reach_empty.
  - intros r ->%list_elem_of_singleton. cbn. lia.
  - intros r Hr. inversion Hr.
  - exact Hb.
  - vm_compute in Eb. injection Eb as <-. vm_compute. reflexivity.
  - right. intros r Hr. by vm_compute in Hr.
  - vm_compute. reflexivity.
  - cbn. apply not_elem_of_nil.
  - exists d'. split; [done|]. split; [exact H1|exact H2].
Defined.

(** [fee_needs_evidence] on the same basis: 5 percent of 100 yuan. *)
Lemma fee_needs_evidence_witness : exists b, first_basis = Some b /\ 0 <= fb_fee b <= fb_source b - fb_refunded b.
Proof.
  destruct first_basis as [b|] eqn:Eb; [|by vm_compute in Eb]. exists b. split; [done|].
  apply (fee_needs_evidence plain_value (default "") (fresh_ledger 10000 []) paid_order (receipt_coupon 10000) PROMOTION_FEE None b).
  - intros r ->%list_elem_of_singleton. cbn. lia.
  - intros r Hr. inversion Hr.
  - done.
  - revert Eb. unfold first_basis. destruct (fee_basis _ _ _ _ _ _ _); try done. by intros [= ->].
Defined.

(** [sale_match_sound] on the order's own account. *)
Lemma sale_match_sound_witness : exists store, active_store (fresh_ledger 10000 []) store = true.
Proof.
  destruct (sale_match_sound plain_value (fresh_ledger 10000 []) paid_order (MkMatch "A1" (Some "S1") (Some "active") "dim_aweme_accounts")) as (store & _ & H & _).
  - vm_compute. reflexivity.
  - by exists store.
Defined.

(** * The evidence of a sale: concrete runs

    A manifest of one redemption, and the capture and freezing of October 2026. *)

(** ** Attribution *)

Definition sample_row : pyval :=
  PDict [("order_id", PStr "O1"); ("coupon_id", PStr "C1"); ("source_account_id", PStr "A1"); ("store_id", PStr "S2");
    ("verify_id", PStr "V1"); ("business_month", PStr "2026-08"); ("raw_order_id", PInt 1); ("raw_coupon_id", PInt 1);
    ("approved_business_months", PList [PStr "2026-08"]); ("sale_time", PStr "T"); ("pay_time", PStr "T");
    ("verify_time", PStr "T")].
Definition sample_manifest : pyval :=
  PDict [("batch_id", PStr "B1"); ("actor", PStr "ops"); ("evidence_sha256", PStr (text (replicate 64 (Ascii.ascii_of_nat 97))));
    ("approval_evidence", PDict [("ticket", PStr "T1")]); ("rows", PList [sample_row])].
Definition sample_time (s : string) : option (bool * instant) := if str_eqb s "T" then Some (true, august) else None.
Definition no_length (v : pyval) : Z := 0.
Definition empty_attribution : attributiondb := MkAttributionDb (fresh_ledger 10000 []) [] ∅ [].

#[local] Notation import := (import_decisions sample_time plain_time plain_value no_length).
Definition attribution_after : attributiondb :=
  match import empty_attribution sample_manifest true true august with Ok (d, _) => d | Raise _ => empty_attribution end.
Definition import_summary (d : attributiondb) : option ImportSummary :=
  match import d sample_manifest true true august with Ok (_, s) => Some s | Raise _ => None end.

Example import_counts :
  (sum_new_count <$> import_summary empty_attribution) = Some 1
  /\ (sum_new_count <$> import_summary attribution_after) = Some 0
  /\ (sum_existing_count <$> import_summary attribution_after) = Some 1.
Proof. vm_compute. done. Qed.

Lemma import_succeeds : exists s, import empty_attribution sample_manifest true true august = Ok (attribution_after, s).
Proof. eexists. vm_compute. reflexivity. Qed.

(** [import_replay]: applied twice. *)
Lemma import_replay_witness :
  exists s, import attribution_after sample_manifest true true august = Ok (attribution_after, s) /\ sum_new_count s = 0.
Proof.
  destruct import_succeeds as [s Hs].
  destruct (import_replay sample_time plain_time plain_value no_length empty_attribution sample_manifest true august
    attribution_after s true true august Hs) as (s' & H1 & H2 & _).
  - intros _. vm_compute. reflexivity.
  - exists s'. split; [exact H1|exact H2].
Defined.

(** [imported_decision_resolves]: the coupon's sale is now the second store's. *)
Lemma imported_decision_resolves_witness :
  exists x, resolve_historical_sale_attribution plain_time plain_value (at_decisions attribution_after) (at_fee attribution_after)
              paid_order (receipt_coupon 10000) (select_valid_verify_record (at_fee attribution_after) "C1") None = Ok (Some x)
    /\ sd_store_id x = "S2".
Proof.
  destruct import_succeeds as [s Hs].
  destruct (read_manifest sample_time no_length sample_manifest) as [m|] eqn:Em; [|by vm_compute in Em].
  destruct (mf_identities m) as [|i l] eqn:Ei; [vm_compute in Em; by injection Em as <-|].
  destruct (imported_decision_resolves sample_time plain_time plain_value no_length empty_attribution sample_manifest true august
    attribution_after s m i (receipt_coupon 10000) paid_order None) as [(x & H1 & H2 & _) _].
  - split; [apply NoDup_nil_2|intros y Hy; inversion Hy|intros y Hy; inversion Hy].
  - exact Hs.
  - exact Em.
  - rewrite Ei. by left.
  - vm_compute in Em. injection Em as <-. cbn in Ei. injection Ei as <- _. reflexivity.
  - vm_compute in Em. injection Em as <-. cbn in Ei. injection Ei as <- _. reflexivity.
  - exists x. split; [exact H1|]. rewrite H2. vm_compute in Em. injection Em as <-. cbn in Ei. injection Ei as <- _. reflexivity.
Defined.

(** ** Qualification *)

Definition october_end : instant := days (first_day 2026 11) - hours 8.
Definition store_binding : BindingRecord :=
  MkBinding (Some "A1") (Some "D1") (Some "P1")
    [("账号类型", PStr "子机构门店号"); ("绑定状态", PStr "认证成功"); ("account_id", PStr "A1")].
Definition collected : BindingRecords :=
  MkBindings [store_binding] [("complete", PBool true); ("record_count", PInt 1)] "backend_bind_list_api".

Definition ok_or {A} (x : result A) (d : A) : A := match x with Ok a => a | Raise _ => d end.
Definition q_started : qualificationdb :=
  (ok_or (begin_automatic_observation no_qualifications "u1" "run1" (october_end - hours 1))
     (no_qualifications, MkAdmission None None)).1.
Definition q_collected : qualificationdb :=
  ok_or (complete_observation plain_value plain_value no_length q_started "account-observation-u1" collected
           (october_end - seconds 1800)) q_started.
Definition october : qualificationdb * option AccountQualificationVersion :=
  match freeze_month plain_value q_collected "2026-10" october_end with Ok (q, v) => (q, Some v) | Raise _ => (q_collected, None) end.

Example october_frozen :
  (version_content_sha256 <$> october.2) = Some "?" /\ length (snap_records <$> qualification_snapshots october.1) = 1%nat
  /\ (row_account_id <$> mjoin (snap_records <$> qualification_snapshots october.1)) = [Some "A1"].
Proof. vm_compute. done. Qed.

Lemma collected_reachable : qualification_reachable plain_value plain_value no_length q_collected.
Proof.
  eapply rtc_l; [eapply (qs_begin _ _ _ _ "u1" "run1" (october_end - hours 1) q_started); vm_compute; reflexivity|].
  eapply rtc_once, (qs_complete _ _ _ _ "account-observation-u1" collected (october_end - seconds 1800)). vm_compute. reflexivity.
Qed.

(** [capture_budget] after one attempt. *)
Lemma capture_budget_witness :
  Z.of_nat (length (List.filter (automatic_attempt october_end) (qualification_observations q_collected))) <= 8.
Proof.
  eapply (capture_budget plain_value plain_value no_length q_collected "2026-10" (october_end - days 1)).
  - exact collected_reachable.
  - vm_compute. reflexivity.
Defined.

(** [freeze_takes_last_attempt] and [frozen_month_final] on October. *)
Lemma freeze_takes_last_attempt_witness :
  exists v x, october.2 = Some v /\ x ∈ qualification_observations q_collected /\ version_observation_id v = observation_id x.
Proof.
  destruct (freeze_month plain_value q_collected "2026-10" october_end) as [[q v]|] eqn:E; [|by vm_compute in E].
  exists v. destruct (freeze_takes_last_attempt plain_value plain_value no_length q_collected "2026-10" october_end q v)
    as (x & s & ds & cutoff & ended & _ & _ & Hx & _ & _ & _ & _ & _ & _ & _ & _ & Ho & _).
  - exact collected_reachable.
  - exact E.
  - vm_compute. reflexivity.
  - exists x. split; [unfold october; rewrite E; reflexivity|]. split; [exact Hx|exact Ho].
Defined.

Lemma frozen_month_final_witness :
  exists q v, freeze_month plain_value q_collected "2026-10" october_end = Ok (q, v)
    /\ month_version (fail_observation q "account-observation-u1" "late" october_end) "2026-10" = Some v.
Proof.
  destruct (freeze_month plain_value q_collected "2026-10" october_end) as [[q v]|] eqn:E; [|by vm_compute in E].
  exists q, v. split; [reflexivity|].
  apply (frozen_month_final plain_value plain_value no_length q (fail_observation q "account-observation-u1" "late" october_end)
    "2026-10" v paid_order).
  - eapply rtc_r; [exact collected_reachable|]. eapply qs_freeze. exact E.
  - vm_compute in E. injection E as <- <-. vm_compute. reflexivity.
  - apply rtc_once. constructor.
Defined.
