(* ===== verification/Lineage.v ===== *)
(** * Projection lineage

    apps/worker/projection_lineage.py: from a published generation of the settlement
    projection and a list of partition keys, the one generation whose rows hold each
    partition.  An ordinary generation inherits from its base chain; a compact one
    points to the generations it was built from and must prove each pointer.

    Rows are read with one statement per few hundred keys to bound its size, and the
    verifier remembers the manifests and row counts it read; neither changes what is
    read.  Reads do not fail. *)
From S2P Require Import Prelude PyValue FeeLedger.
#[local] Open Scope Z_scope.
#[local] Set Default Proof Using "Type".

Definition MAX_LINEAGE_DEPTH : Z := 64.
Definition MAX_COMPACT_PROVENANCE_SOURCES : Z := 1024.
Definition MAX_PARTITION_KEYS : Z := 1000.
Definition ARTIFACTS : list string := ["monthly"; "ranking"; "score"].

Definition LineageError (msg : string) : exn := NamedError "LineageError" msg.
Definition lineage_error {A} (msg : string) : result A := Raise (LineageError msg).
Definition fail_if (b : bool) (msg : string) : result unit := raise_if b (LineageError msg).

(** ** Tables *)

Record SettlementProjectionGeneration := MkGeneration {
  gen_id : string;
  gen_base : option string;
  gen_kind : string;
  gen_compaction_base : option string;
  gen_projection_name : string;
  gen_state : string;
  gen_lineage_depth : Z;
  gen_manifest_checksum : option string;
  gen_source_job_id : option string;
  gen_input_fingerprint : string;
  gen_checkpoint_json : pydict;
  gen_published_at : option Z;
}.
#[export] Instance eta_SettlementProjectionGeneration : Eta SettlementProjectionGeneration := fun r =>
  MkGeneration (gen_id r) (gen_base r) (gen_kind r) (gen_compaction_base r) (gen_projection_name r) (gen_state r)
    (gen_lineage_depth r) (gen_manifest_checksum r) (gen_source_job_id r) (gen_input_fingerprint r) (gen_checkpoint_json r)
    (gen_published_at r).

Record SettlementProjectionCompactionClosure := MkClosureRow {
  clo_compact : string;
  clo_source : string;
  clo_digest : string;
}.

Record SettlementProjectionActive := MkActive {
  act_projection_name : string;
  act_generation_id : option string;
}.
#[export] Instance eta_SettlementProjectionActive : Eta SettlementProjectionActive := fun r =>
  MkActive (act_projection_name r) (act_generation_id r).

(** The counts are what the driver returns for them. *)
Record SettlementProjectionPartitionManifest := MkManifest {
  man_generation_id : string;
  man_artifact : string;
  man_partition_key : string;
  man_owner_state : string;
  man_source_kind : string;
  man_data_generation_id : option string;
  man_base_generation_id : option string;
  man_reference_head : option string;
  man_row_count : pyval;
  man_amount_total_cent : pyval;
  man_status_counts : pyval;
  man_checksum : option string;
}.
#[local] Notation manifest := SettlementProjectionPartitionManifest.

Record SettlementMonthlyOverlay := MkMonthly {
  mon_generation_id : string;
  mon_month : string;
  mon_store_id : string;
  mon_product_scope : string;
  mon_product_type : string;
  mon_partition_key : string;
  mon_promotion_base_cent : Z;
  mon_promotion_original_fee_cent : Z;
  mon_promotion_adjustment_fee_cent : Z;
  mon_management_base_cent : Z;
  mon_management_original_fee_cent : Z;
  mon_management_adjustment_fee_cent : Z;
  mon_tombstone : bool;
}.

(** A row of [settlement_ranking_overlay] or [store_score_snapshot_generation]. *)
Record PartitionRow := MkPartitionRow {
  par_generation_id : string;
  par_partition_key : string;
  par_tombstone : bool;
}.

Record projectiondb := MkProjectionDb {
  projection_generations : list SettlementProjectionGeneration;
  projection_closures : list SettlementProjectionCompactionClosure;
  projection_active : list SettlementProjectionActive;
  projection_manifests : list manifest;
  monthly_overlays : list SettlementMonthlyOverlay;
  ranking_overlays : list PartitionRow;
  score_generations : list PartitionRow;
}.
#[export] Instance eta_projectiondb : Eta projectiondb := fun r =>
  MkProjectionDb (projection_generations r) (projection_closures r) (projection_active r) (projection_manifests r)
    (monthly_overlays r) (ranking_overlays r) (score_generations r).

Definition get_generation (p : projectiondb) (id : string) : option SettlementProjectionGeneration :=
  List.find (fun g => str_eqb (gen_id g) id) (projection_generations p).

(** The rows of an artifact that a generation holds for a partition. *)
Definition present_rows (p : projectiondb) (artifact generation key : string) : Z :=
  if str_eqb artifact "monthly" then
    Z.of_nat (length (List.filter (fun x => str_eqb (mon_generation_id x) generation
      && str_eqb (mon_partition_key x) key && negb (mon_tombstone x)) (monthly_overlays p)))
  else if str_eqb artifact "ranking" then
    Z.of_nat (length (List.filter (fun x => str_eqb (par_generation_id x) generation
      && str_eqb (par_partition_key x) key && negb (par_tombstone x)) (ranking_overlays p)))
  else
    Z.of_nat (length (List.filter (fun x => str_eqb (par_generation_id x) generation
      && str_eqb (par_partition_key x) key) (score_generations p))).

(** ** Values *)

(** [_as_text] of a text column *)
Definition as_text (v : option string) : option string :=
  match v with
  | Some s => if blank s then None else Some (strip s)
  | None => None
  end.

(** [_bounded_partition_keys] *)
Fixpoint bounded_keys (consumed : Z) (seen values : list string) : result (list string) :=
  match values with
  | [] => Ok seen
  | v :: rest =>
      if MAX_PARTITION_KEYS <? consumed + 1 then lineage_error "partition key input exceeds maximum"
      else
        match as_text (Some v) with
        | None => lineage_error "partition keys must be non-empty strings"
        | Some key =>
            if str_in key seen then bounded_keys (consumed + 1) seen rest
            else if MAX_PARTITION_KEYS <? Z.of_nat (length (seen ++ [key]))
            then lineage_error "partition key input exceeds maximum"
            else bounded_keys (consumed + 1) (seen ++ [key]) rest
        end
  end.
Definition bounded_partition_keys (values : list string) : result (list string) := bounded_keys 0 [] values.

(** [_manifest_signed_integer]: booleans and fractions are refused *)
Definition integer_text (s : string) : option Z :=
  match read_sign (chars s) with
  | (neg, body) =>
      match read_digits 0 0 body with
      | (z, n, []) => if n =? 0 then None else Some (signed neg z)
      | _ => None
      end
  end.
Definition manifest_signed_integer (v : pyval) (field : string) : result Z :=
  let invalid : result Z := lineage_error ("manifest " +:+ field +:+ " is invalid")%string in
  let found (o : option Z) : result Z := match o with Some z => Ok z | None => invalid end in
  match v with
  | PNone => Ok 0
  | PInt z => Ok z
  | PFloat (FFin m e) => found (float_int m e)
  | PDec (DFin c e) => found (dec_int c e)
  | PStr s => found (integer_text s)
  | _ => invalid
  end.
Definition manifest_integer (v : pyval) (field : string) : result Z :=
  let* n := manifest_signed_integer v field in
  let* _ := fail_if (n <? 0) ("manifest " +:+ field +:+ " is invalid")%string in
  Ok n.
Definition row_count (m : manifest) : result Z := manifest_integer (man_row_count m) "row_count".
Definition amount_total (m : manifest) : result Z :=
  manifest_signed_integer (man_amount_total_cent m) "amount_total_cent".

(** [_valid_digest]: 64 lower-case hexadecimal digits *)
Definition lower_hex (c : Ascii.ascii) : bool :=
  let n := Z.of_nat (Ascii.nat_of_ascii c) in
  ((48 <=? n) && (n <=? 57)) || ((97 <=? n) && (n <=? 102)).
Definition valid_digest (v : option string) : option string :=
  match v with
  | Some s => if str_eqb (strip s) s && (length (chars s) =? 64)%nat && forallb lower_hex (chars s) then Some s else None
  | None => None
  end.

(** ** The active pointer *)

(** [active_generation_id] *)
Definition active_generation_id (p : projectiondb) : result (option string) :=
  match List.find (fun a => str_eqb (act_projection_name a) "settlement") (projection_active p) with
  | None => Ok None
  | Some a =>
      match act_generation_id a with
      | None => Ok None
      | Some id =>
          match as_text (Some id), get_generation p id with
          | Some generation, Some g =>
              if opt_is (as_text (Some (gen_id g))) generation
                 && opt_is (as_text (Some (gen_projection_name g))) "settlement"
                 && opt_is (as_text (Some (gen_state g))) "published"
              then Ok (Some generation)
              else lineage_error "settlement active pointer is dangling or not published"
          | _, _ => lineage_error "settlement active pointer is dangling or not published"
          end
      end
  end.

(** ** Manifests *)

(** [_validate_manifest] *)
Definition opt_in (v : option string) (l : list string) : bool :=
  match v with Some s => str_in s l | None => false end.
Definition base_of (bases : list (string * option string)) (id : string) : option string :=
  match List.find (fun b => str_eqb b.1 id) bases with Some b => b.2 | None => None end.

Definition validate_manifest (m : manifest) (ids : list string) (bases : list (string * option string)) : result unit :=
  let owner_state := as_text (Some (man_owner_state m)) in
  let source_kind := as_text (Some (man_source_kind m)) in
  let data := as_text (man_data_generation_id m) in
  let base := as_text (man_base_generation_id m) in
  let* _ := fail_if (bool_decide (is_Some (man_data_generation_id m)) && bool_decide (data = None))
              "manifest data generation id is blank" in
  let* _ := fail_if (bool_decide (is_Some (man_base_generation_id m)) && bool_decide (base = None))
              "manifest base generation id is blank" in
  let* count := row_count m in
  let* _ :=
    if opt_is owner_state "owned" && opt_is source_kind "overlay" then
      fail_if (negb (opt_in data ids)) "overlay manifest has an invalid data generation"
    else if opt_is owner_state "owned" && opt_is source_kind "legacy_root" then
      fail_if (bool_decide (is_Some data)) "legacy-root manifest must not name data generation"
    else if opt_is owner_state "tombstone" && opt_is source_kind "tombstone" then
      fail_if (bool_decide (is_Some data) || negb (count =? 0)) "tombstone manifest must have no data and zero rows"
    else lineage_error "manifest owner/source metadata is inconsistent" in
  let* _ := fail_if (bool_decide (is_Some (as_text (man_reference_head m))))
              "ordinary manifest must not reference a compact head" in
  match as_text (Some (man_generation_id m)) with
  | None => lineage_error "manifest owner generation is missing"
  | Some owner =>
      let* _ := fail_if (negb (bool_decide (base = base_of bases owner)))
                  "manifest base generation metadata is inconsistent" in
      fail_if (bool_decide (is_Some base) && negb (opt_in base ids)) "manifest base generation is outside pinned lineage"
  end.

(** ** Compact closures *)

(** What a verified closure records of a source: its row and its kind. *)
Record closure := MkClosure {
  cl_compact : string;
  cl_base : string;
  cl_sources : list (string * SettlementProjectionGeneration);
  cl_compact_sources : list string;
  cl_ordinary_sources : list string;
}.
#[export] Instance eta_closure : Eta closure := fun x =>
  MkClosure (cl_compact x) (cl_base x) (cl_sources x) (cl_compact_sources x) (cl_ordinary_sources x).

Definition LIVE_STATES : list string := ["published"; "superseded"].

Definition closure_before (a b : SettlementProjectionCompactionClosure) : Prop :=
  String.le (clo_source a) (clo_source b).
#[export] Instance closure_before_dec a b : Decision (closure_before a b).
Proof. unfold closure_before. apply _. Defined.

(** The rows of the closure, in order and with one more than the bound at most. *)
Definition closure_rows (p : projectiondb) (compact : string) : list SettlementProjectionCompactionClosure :=
  take (Z.to_nat (MAX_COMPACT_PROVENANCE_SOURCES + 1))
    (merge_sort closure_before (List.filter (fun x => str_eqb (clo_compact x) compact) (projection_closures p))).

(** The shape of a source by its kind. *)
Definition source_shape (g : SettlementProjectionGeneration) : bool :=
  if opt_is (as_text (Some (gen_kind g))) "compact" then
    bool_decide (is_Some (gen_compaction_base g)) && bool_decide (gen_base g = None)
  else
    opt_in (as_text (Some (gen_kind g))) ["lineage"; "legacy_root"] && bool_decide (gen_compaction_base g = None).

(** One row of the closure. *)
Definition capture_source (p : projectiondb) (compact : string) (c : closure) (x : SettlementProjectionCompactionClosure)
  : result closure :=
  let invalid : result closure := lineage_error "compact provenance source metadata is invalid" in
  match as_text (Some (clo_source x)) with
  | None => lineage_error "compact provenance source identity is invalid"
  | Some source =>
      let* _ := fail_if (str_eqb source compact || str_in source ((cl_sources c).*1))
                  "compact provenance source identity is invalid" in
      match get_generation p (clo_source x) with
      | None => invalid
      | Some g =>
          match valid_digest (Some (clo_digest x)), valid_digest (gen_manifest_checksum g) with
          | Some digest, Some checksum =>
              if str_eqb digest checksum && opt_is (as_text (Some (gen_projection_name g))) "settlement"
                 && opt_in (as_text (Some (gen_state g))) LIVE_STATES && source_shape g
              then
                let kind := as_text (Some (gen_kind g)) in
                let depth := gen_lineage_depth g in
                let* _ := fail_if ((depth <? 0) || (MAX_LINEAGE_DEPTH <? depth))
                            "compact provenance source depth is invalid" in
                let* _ := fail_if (opt_is kind "legacy_root"
                                   && (bool_decide (is_Some (gen_base g)) || negb (depth =? 0)))
                            "compact legacy-root source metadata is invalid" in
                if opt_is kind "compact" then
                  let* _ := fail_if (negb (depth =? 0)) "compact provenance source depth is invalid" in
                  Ok (c <| cl_sources := cl_sources c ++ [(source, g)] |>
                        <| cl_compact_sources := cl_compact_sources c ++ [source] |>)
                else
                  Ok (c <| cl_sources := cl_sources c ++ [(source, g)] |>
                        <| cl_ordinary_sources := cl_ordinary_sources c ++ [source] |>)
              else invalid
          | _, _ => invalid
          end
      end
  end.

(** [_verify_compact_closure] *)
Definition verify_compact_closure (p : projectiondb) (compact : string) (allowed : list string) : result closure :=
  match get_generation p compact with
  | None => lineage_error "compact head metadata is missing"
  | Some head =>
      match as_text (gen_compaction_base head) with
      | None => lineage_error "compact head metadata is invalid"
      | Some base =>
          let* _ := fail_if
            (negb (opt_is (as_text (Some (gen_id head))) compact)
             || negb (opt_is (as_text (Some (gen_projection_name head))) "settlement")
             || negb (opt_in (as_text (Some (gen_state head))) allowed)
             || negb (opt_is (as_text (Some (gen_kind head))) "compact")
             || bool_decide (is_Some (gen_base head)) || str_eqb base compact
             || negb (gen_lineage_depth head =? 0)) "compact head metadata is invalid" in
          let base_row := match gen_compaction_base head with Some b => get_generation p b | None => None end in
          let* _ := match base_row with
            | None => lineage_error "compact provenance base is invalid"
            | Some b => fail_if
                (negb (opt_is (as_text (Some (gen_id b))) base)
                 || negb (opt_is (as_text (Some (gen_projection_name b))) "settlement")
                 || negb (opt_in (as_text (Some (gen_state b))) LIVE_STATES)) "compact provenance base is invalid"
            end in
          let rows := closure_rows p compact in
          let* _ := fail_if (bool_decide (rows = [])) "compact provenance closure is missing" in
          let* c := fold_result (capture_source p compact) (MkClosure compact base [] [] []) rows in
          let* _ := fail_if (MAX_COMPACT_PROVENANCE_SOURCES <? Z.of_nat (length (cl_sources c)))
                      "compact provenance exceeds maximum source count" in
          Ok c
      end
  end.

(** ** The provenance context *)

Record provenance := MkProvenance {
  ctx_closures : list (string * closure);
  ctx_verified : list (string * string * string);
  ctx_opened : list string;
  ctx_verifying : list string;
}.
#[export] Instance eta_provenance : Eta provenance := fun x =>
  MkProvenance (ctx_closures x) (ctx_verified x) (ctx_opened x) (ctx_verifying x).
Definition no_provenance : provenance := MkProvenance [] [] [] [].

Definition set_add {A} `{EqDecision A} (a : A) (l : list A) : list A :=
  if bool_decide (a ∈ l) then l else l ++ [a].

Definition find_closure (x : provenance) (compact : string) : option closure :=
  match List.find (fun c => str_eqb c.1 compact) (ctx_closures x) with Some c => Some c.2 | None => None end.

(** The verifier ran more turns than it has; [LineageThms] shows that it never does. *)
Definition out_of_turns : exn := RuntimeError "provenance turns".

(** [_CompactProvenanceContext.verified_closure] *)
Fixpoint verified_closure (turns : nat) (p : projectiondb) (compact : string) (allowed : list string)
    (x : provenance) : result (closure * provenance) :=
  match turns with
  | O => Raise out_of_turns
  | S turns' =>
      if str_in compact (ctx_verifying x) then lineage_error "compact provenance path contains a cycle"
      else
        match find_closure x compact with
        | Some c => Ok (c, x)
        | None =>
            let x := x <| ctx_opened := set_add compact (ctx_opened x) |> in
            let* _ := fail_if (MAX_LINEAGE_DEPTH <? Z.of_nat (length (ctx_opened x)))
                        "compact provenance exceeds maximum compact node count" in
            let x := x <| ctx_verifying := set_add compact (ctx_verifying x) |> in
            let* c := verify_compact_closure p compact allowed in
            let* x := fold_result (fun x source =>
                        let* (_, x) := verified_closure turns' p source LIVE_STATES x in Ok x)
                        x (cl_compact_sources c) in
            Ok (c, x <| ctx_verifying := List.filter (fun y => negb (str_eqb y compact)) (ctx_verifying x) |>
                     <| ctx_closures := ctx_closures x ++ [(compact, c)] |>)
        end
  end.

(** One turn for each compact generation that may be opened, and one more. *)
Definition provenance_turns : nat := S (Z.to_nat MAX_LINEAGE_DEPTH).

(** ** Claims of a compact generation *)

(** A compact generation on the path names the manifest row of a partition. *)
Record claim := MkClaim {
  claim_path : list string;
  claim_compact : string;
  claim_key : string;
  claim_row : manifest;
}.

Record active_claim := MkActiveClaim {
  active_of : claim;
  active_data : string;
  active_closure : closure;
}.

Definition manifests_at (p : projectiondb) (artifact generation key : string) : list manifest :=
  List.filter (fun m => str_eqb (man_artifact m) artifact && str_eqb (man_generation_id m) generation
                        && str_eqb (man_partition_key m) key) (projection_manifests p).

(** [_manifest_rows], as the rows of its pairs; a key holds one row at most *)
Definition read_manifests (p : projectiondb) (artifact : string) (pairs : list (string * string)) : result unit :=
  fail_if (existsb (fun q => bool_decide (1 < length (manifests_at p artifact q.1 q.2))%nat) pairs)
    "compact provenance manifest identity is invalid".
Definition manifest_at (p : projectiondb) (artifact generation key : string) : option manifest :=
  head (manifests_at p artifact generation key).

(** [_require_presence] *)
Definition requirements := list (string * string * Z).
Definition required (r : requirements) (generation key : string) : option Z :=
  match List.find (fun q => str_eqb q.1.1 generation && str_eqb q.1.2 key) r with Some q => Some q.2 | None => None end.
Definition require_presence (r : requirements) (generation key : string) (count : Z) : result requirements :=
  match required r generation key with
  | Some n => let* _ := fail_if (negb (n =? count)) "compact provenance evidence conflicts on one partition" in Ok r
  | None => Ok (r ++ [(generation, key, count)])
  end.

(** [_verify_presence] *)
Definition verify_presence (p : projectiondb) (artifact : string) (r : requirements) : result unit :=
  fail_if (existsb (fun q => negb (present_rows p artifact q.1.1 q.1.2 =? q.2)) r)
    "compact source row count does not match manifest".

(** The checks of a pending claim; a claim that was verified before is dropped. *)
Definition open_claim (p : projectiondb) (artifact : string) (s : list active_claim * provenance) (c : claim)
  : result (list active_claim * provenance) :=
  let '(active, x) := s in
  let row := claim_row c in
  let* (clo, x) := verified_closure provenance_turns p (claim_compact c) LIVE_STATES x in
  let* _ := fail_if (bool_decide (is_Some (as_text (man_base_generation_id row))))
              "compact manifest base generation must be null" in
  let* _ := fail_if (negb (opt_is (as_text (Some (man_owner_state row))) "owned")
                     || negb (opt_is (as_text (Some (man_source_kind row))) "overlay"))
              "compact manifest owner/source metadata is invalid" in
  match as_text (man_data_generation_id row) with
  | None => lineage_error "compact manifest provenance reference is invalid"
  | Some data =>
      let* _ := fail_if (negb (opt_is (as_text (man_reference_head row)) (claim_compact c))
                         || bool_decide (valid_digest (man_checksum row) = None))
                  "compact manifest provenance reference is invalid" in
      Ok (if bool_decide ((claim_compact c, artifact, claim_key c) ∈ ctx_verified x) then active
          else active ++ [MkActiveClaim c data clo], x)
  end.

Section Counts.
(** [json.loads] *)
Context (json_loads : string -> option pyval).

Definition count_before (a b : string * Z) : Prop :=
  String.ltb a.1 b.1 = true \/ (a.1 = b.1 /\ a.2 <= b.2).
#[export] Instance count_before_dec a b : Decision (count_before a b).
Proof. unfold count_before. apply _. Defined.

(** [_canonical_status_counts] *)
Definition count_of (acc : list (string * Z)) (q : string * pyval) : result (list (string * Z)) :=
  match q.2 with
  | PInt n => if str_eqb q.1 "" || (n <? 0) then lineage_error "manifest status counts are invalid"
              else Ok (acc ++ [(q.1, n)])
  | _ => lineage_error "manifest status counts are invalid"
  end.
Definition canonical_status_counts (v : pyval) : result (list (string * Z)) :=
  let value := match v with PStr s => json_loads s | _ => Some v end in
  match value with
  | Some (PDict d) => let* l := fold_result count_of [] d in Ok (merge_sort count_before l)
  | _ => lineage_error "manifest status counts are invalid"
  end.

(** The totals of two manifests agree. *)
Definition same_totals (a b : manifest) (msg : string) : result unit :=
  let* n := row_count a in
  let* m := row_count b in
  let* _ := fail_if (negb (n =? m)) msg in
  let* n := amount_total a in
  let* m := amount_total b in
  let* _ := fail_if (negb (n =? m)) msg in
  let* k := canonical_status_counts (man_status_counts a) in
  let* l := canonical_status_counts (man_status_counts b) in
  fail_if (negb (bool_decide (k = l))) msg.

Definition captured_row (c : closure) (id : string) : option SettlementProjectionGeneration :=
  match List.find (fun q => str_eqb q.1 id) (cl_sources c) with Some q => Some q.2 | None => None end.
Definition source_base (c : closure) (id : string) : option string :=
  match captured_row c id with Some g => as_text (gen_base g) | None => None end.

Definition evidence_differs : string := "compact source manifest evidence does not match".

(** The evidence of a leaf that the closure captured itself. *)
Definition check_leaf (p : projectiondb) (artifact : string) (a : active_claim) : result unit :=
  let row := claim_row (active_of a) in
  match manifest_at p artifact (active_data a) (claim_key (active_of a)) with
  | None => lineage_error "compact source manifest is missing"
  | Some m =>
      let* _ := fail_if
        (negb (opt_is (as_text (Some (man_owner_state m))) "owned")
         || negb (opt_is (as_text (Some (man_source_kind m))) "overlay")
         || negb (opt_is (as_text (man_data_generation_id m)) (active_data a))
         || bool_decide (is_Some (man_reference_head m))
         || negb (bool_decide (as_text (man_base_generation_id m) = source_base (active_closure a) (active_data a)))
         || negb (bool_decide (valid_digest (man_checksum m) = valid_digest (man_checksum row)))) evidence_differs in
      same_totals m row evidence_differs
  end.

(** The captured compact generations that name the same data. *)
Definition anchor_matches (p : projectiondb) (artifact : string) (a : active_claim) : list (string * manifest) :=
  omap (fun anchor =>
    match manifest_at p artifact anchor (claim_key (active_of a)) with
    | Some m => if opt_is (as_text (man_data_generation_id m)) (active_data a) then Some (anchor, m) else None
    | None => None
    end) (cl_compact_sources (active_closure a)).

(** The evidence of a leaf that the closure inherited from a captured compact. *)
Definition check_anchor (a : active_claim) (anchor : string) (m : manifest) : result unit :=
  let row := claim_row (active_of a) in
  let same (f : manifest -> option string) := bool_decide (as_text (f m) = as_text (f row)) in
  let* _ := fail_if
    (negb (same (fun m => Some (man_owner_state m))) || negb (same (fun m => Some (man_source_kind m)))
     || negb (same man_data_generation_id) || negb (same man_base_generation_id)
     || negb (bool_decide (as_text (man_base_generation_id m) = source_base (active_closure a) anchor))) evidence_differs in
  let* _ := same_totals m row evidence_differs in
  fail_if (negb (same man_checksum)) evidence_differs.

Definition claim_step (p : projectiondb) (artifact : string) (s : list claim * requirements * provenance)
    (a : active_claim) : result (list claim * requirements * provenance) :=
  let '(next, r, x) := s in
  let c := active_of a in
  let done r next :=
    Ok (next, r, x <| ctx_verified := set_add (claim_compact c, artifact, claim_key c) (ctx_verified x) |>) in
  if str_in (active_data a) (cl_ordinary_sources (active_closure a)) then
    let* _ := check_leaf p artifact a in
    let* n := row_count (claim_row c) in
    let* r := require_presence r (active_data a) (claim_key c) n in
    done r next
  else
    match anchor_matches p artifact a with
    | [] => lineage_error "compact manifest provenance reference is invalid"
    | [(anchor, m)] =>
        let* _ := fail_if (str_in anchor (claim_path c)) "compact provenance path contains a cycle" in
        let* _ := check_anchor a anchor m in
        let* n := row_count (claim_row c) in
        let* r := require_presence r (active_data a) (claim_key c) n in
        done r (next ++ [MkClaim (claim_path c ++ [anchor]) anchor (claim_key c) m])
    | _ => lineage_error "compact anchor manifest identity is invalid"
    end.

Definition is_leaf (a : active_claim) : bool := str_in (active_data a) (cl_ordinary_sources (active_closure a)).

(** One turn of the loop over the pending claims; [None] when it ends. *)
Definition claims_turn (p : projectiondb) (artifact : string) (pending : list claim) (r : requirements)
    (x : provenance) : result (list claim * requirements * provenance) :=
  let* (active, x) := fold_result (open_claim p artifact) ([], x) pending in
  let inherited := List.filter (fun a => negb (is_leaf a)) active in
  let* _ := fail_if (existsb (fun a => bool_decide (cl_compact_sources (active_closure a) = [])) inherited)
              "compact manifest provenance reference is invalid" in
  let* _ := read_manifests p artifact
              ((fun a => (active_data a, claim_key (active_of a))) <$> List.filter is_leaf active) in
  let* _ := read_manifests p artifact
              (mjoin ((fun a => (fun anchor => (anchor, claim_key (active_of a)))
                                <$> cl_compact_sources (active_closure a)) <$> inherited)) in
  fold_result (claim_step p artifact) ([], r, x) active.

(** [_CompactProvenanceContext.verify_compact_partition_claims] *)
Fixpoint claims_loop (turns : nat) (p : projectiondb) (artifact : string) (pending : list claim)
    (r : requirements) (x : provenance) : result (requirements * provenance) :=
  match pending with
  | [] => Ok (r, x)
  | _ =>
      match turns with
      | O => Raise out_of_turns
      | S turns' =>
          let* (next, r, x) := claims_turn p artifact pending r x in
          claims_loop turns' p artifact next r x
      end
  end.
Definition verify_compact_partition_claims (p : projectiondb) (artifact : string) (claims : list (string * string * manifest))
    (x : provenance) : result provenance :=
  let* (r, x) := claims_loop provenance_turns p artifact
                   ((fun q => MkClaim [q.1.1] q.1.1 q.1.2 q.2) <$> claims) [] x in
  let* _ := verify_presence p artifact r in
  Ok x.

(** ** Resolutions *)

Record PartitionResolution := MkResolution {
  res_artifact : string;
  res_partition_key : string;
  res_owner : option string;
  res_data : option string;
  res_source_kind : string;
  res_owner_state : string;
  res_lineage_depth : Z;
  res_lineage_ids : list string;
  res_source_ids : list string;
}.
#[local] Notation resolutions := (list (string * PartitionResolution)).

Definition legacy_resolution (artifact key : string) (ids : list string) : PartitionResolution :=
  MkResolution artifact key None None "legacy_root" "legacy_root" 0 ids [].

(** One manifest row of a compact head. *)
Definition compact_resolution (artifact pinned key : string) (m : manifest)
  : result (PartitionResolution * list (string * string * manifest)) :=
  let owner_state := as_text (Some (man_owner_state m)) in
  let source_kind := as_text (Some (man_source_kind m)) in
  let data := as_text (man_data_generation_id m) in
  let reference := as_text (man_reference_head m) in
  let* _ := fail_if (bool_decide (is_Some (man_base_generation_id m))) "compact manifest base generation must be null" in
  if opt_is owner_state "tombstone" && opt_is source_kind "tombstone" then
    let* _ := fail_if (bool_decide (is_Some data) || bool_decide (is_Some reference)) "compact tombstone manifest is invalid" in
    let* n := row_count m in
    let* _ := fail_if (negb (n =? 0)) "compact tombstone manifest is invalid" in
    Ok (MkResolution artifact key (Some pinned) None "tombstone" "tombstone" 0 [pinned] [], [])
  else
    let* _ := fail_if (negb (opt_is owner_state "owned") || negb (opt_is source_kind "overlay"))
                "compact manifest owner/source metadata is invalid" in
    match data with
    | None => lineage_error "compact manifest provenance reference is invalid"
    | Some d =>
        let* _ := fail_if (negb (opt_is reference pinned) || bool_decide (valid_digest (man_checksum m) = None))
                    "compact manifest provenance reference is invalid" in
        Ok (MkResolution artifact key (Some pinned) (Some d) "overlay" "owned" 0 [pinned] [d], [(pinned, key, m)])
    end.

(** The rows of a generation for some keys. *)
Definition manifests_of (p : projectiondb) (artifact : string) (generations keys : list string) : list manifest :=
  List.filter (fun m => str_eqb (man_artifact m) artifact && str_in (man_generation_id m) generations
                        && str_in (man_partition_key m) keys) (projection_manifests p).

(** A dictionary of manifests by an identity. *)
Definition find_manifest (d : list (string * string * manifest)) (generation key : string) : option manifest :=
  match List.find (fun q => str_eqb q.1.1 generation && str_eqb q.1.2 key) d with Some q => Some q.2 | None => None end.

Definition index_head (pinned : string) (d : list (string * string * manifest)) (m : manifest)
  : result (list (string * string * manifest)) :=
  match as_text (Some (man_partition_key m)) with
  | Some key =>
      match find_manifest d pinned key with
      | Some _ => lineage_error "compact manifest identity is invalid"
      | None => Ok (d ++ [(pinned, key, m)])
      end
  | None => lineage_error "compact manifest identity is invalid"
  end.

Definition compact_key (artifact pinned : string) (d : list (string * string * manifest))
    (s : resolutions * list (string * string * manifest)) (key : string)
  : result (resolutions * list (string * string * manifest)) :=
  match find_manifest d pinned key with
  | None => Ok (s.1 ++ [(key, legacy_resolution artifact key [pinned])], s.2)
  | Some m =>
      let* (r, claims) := compact_resolution artifact pinned key m in
      Ok (s.1 ++ [(key, r)], s.2 ++ claims)
  end.

(** [_resolve_compact_partitions] *)
Definition resolve_compact_partitions (p : projectiondb) (artifact : string) (keys : list string) (pinned : string)
    (head : SettlementProjectionGeneration) (x : provenance) : result (resolutions * provenance) :=
  let* _ := fail_if
    (negb (opt_is (as_text (Some (gen_id head))) pinned)
     || negb (opt_is (as_text (Some (gen_projection_name head))) "settlement")
     || negb (opt_is (as_text (Some (gen_state head))) "published")
     || negb (opt_is (as_text (Some (gen_kind head))) "compact")
     || bool_decide (is_Some (gen_base head)) || negb (gen_lineage_depth head =? 0)) "compact head metadata is invalid" in
  match as_text (gen_compaction_base head) with
  | None => lineage_error "compact head base metadata is invalid"
  | Some base =>
      let* _ := fail_if (str_eqb base pinned) "compact head base metadata is invalid" in
      let* (c, x) := verified_closure provenance_turns p pinned ["published"] x in
      let* _ := fail_if (negb (str_eqb (cl_base c) base)) "compact provenance base is invalid" in
      let* d := fold_result (index_head pinned) [] (manifests_of p artifact [pinned] keys) in
      let* (resolved, claims) := fold_result (compact_key artifact pinned d) ([], []) keys in
      let* x := match claims with [] => Ok x | _ => verify_compact_partition_claims p artifact claims x end in
      Ok (resolved, x)
  end.

(** The recursive query: the pinned row and its bases, up to the bound. *)
Fixpoint base_chain (hops : nat) (p : projectiondb) (id : string) : list SettlementProjectionGeneration :=
  match get_generation p id with
  | None => []
  | Some g =>
      g :: match hops, gen_base g with
           | S hops', Some b => base_chain hops' p b
           | _, _ => []
           end
  end.

(** The checks of one row of the lineage; [last] when no row follows. *)
Definition check_generation (pinned : string) (depth hop : Z) (last : bool)
    (previous : option SettlementProjectionGeneration) (ids : list string) (g : SettlementProjectionGeneration)
  : result string :=
  match as_text (Some (gen_id g)) with
  | None => lineage_error "projection lineage contains an empty generation id"
  | Some id =>
      let* _ := fail_if (str_in id ids) "projection lineage contains a cycle" in
      let* _ := fail_if (bool_decide (is_Some (gen_base g)) && bool_decide (as_text (gen_base g) = None))
                  "projection lineage contains an empty base generation id" in
      let* _ := fail_if (negb (opt_is (as_text (Some (gen_projection_name g))) "settlement"))
                  "projection lineage contains another projection" in
      let kind := as_text (Some (gen_kind g)) in
      let* _ :=
        if opt_is kind "compact" then
          let* _ := fail_if (negb last) "ordinary lineage contains an invalid generation kind" in
          let* _ := fail_if (bool_decide (is_Some (gen_base g))) "compact ancestor base metadata is invalid" in
          fail_if (bool_decide (gen_compaction_base g = None)) "compact ancestor provenance is invalid"
        else
          let* _ := fail_if (negb (opt_in kind ["lineage"; "legacy_root"]))
                      "ordinary lineage contains an invalid generation kind" in
          fail_if (bool_decide (is_Some (gen_compaction_base g))) "ordinary lineage contains compact provenance metadata" in
      let state := as_text (Some (gen_state g)) in
      let* _ := if hop =? 0 then
                  fail_if (negb (str_eqb id pinned) || negb (opt_is state "published")) "pinned generation is not published"
                else fail_if (negb (opt_in state LIVE_STATES)) "projection lineage contains a non-published base" in
      let metadata := gen_lineage_depth g in
      let* _ := fail_if ((MAX_LINEAGE_DEPTH <? hop) || (metadata <? 0) || (MAX_LINEAGE_DEPTH <? metadata)
                         || negb (metadata =? depth - hop)) "projection lineage depth is invalid" in
      let* _ := match previous with
                | Some q => fail_if (negb (opt_is (as_text (gen_base q)) id)) "projection lineage has inconsistent base metadata"
                | None => Ok tt
                end in
      Ok id
  end.
Fixpoint check_lineage (pinned : string) (depth hop : Z) (previous : option SettlementProjectionGeneration)
    (ids : list string) (rows : list SettlementProjectionGeneration) : result (list string) :=
  match rows with
  | [] => Ok ids
  | g :: rest =>
      let* id := check_generation pinned depth hop (bool_decide (rest = [])) previous ids g in
      check_lineage pinned depth (hop + 1) (Some g) (ids ++ [id]) rest
  end.

(** One manifest row of the lineage: the index and the claims of the compact ancestor. *)
Definition index_manifest (ids : list string) (bases : list (string * option string)) (compact : option string)
    (s : list (string * string * manifest) * list (string * string * manifest)) (m : manifest)
  : result (list (string * string * manifest) * list (string * string * manifest)) :=
  let '(d, claims) := s in
  match as_text (Some (man_generation_id m)), as_text (Some (man_partition_key m)) with
  | Some generation, Some key =>
      let* _ := fail_if (negb (str_in generation ids)) "manifest owner is outside pinned lineage" in
      let owner_state := as_text (Some (man_owner_state m)) in
      let source_kind := as_text (Some (man_source_kind m)) in
      let* claims :=
        if opt_is compact generation then
          if opt_is owner_state "owned" && opt_is source_kind "overlay" then Ok (claims ++ [(generation, key, m)])
          else if opt_is owner_state "tombstone" && opt_is source_kind "tombstone" then
            let* _ := validate_manifest m ids bases in Ok claims
          else lineage_error "compact manifest owner/source metadata is invalid"
        else let* _ := validate_manifest m ids bases in Ok claims in
      match find_manifest d generation key with
      | Some _ => lineage_error "duplicate partition manifest row"
      | None => Ok (d ++ [(generation, key, m)], claims)
      end
  | _, _ => lineage_error "manifest contains an empty identity"
  end.

(** The nearest row of the lineage that has a manifest for the key. *)
Fixpoint select_manifest (d : list (string * string * manifest)) (key : string) (hop : Z)
    (rows : list SettlementProjectionGeneration) : option (string * Z * manifest) :=
  match rows with
  | [] => None
  | g :: rest =>
      match as_text (Some (gen_id g)) with
      | None => select_manifest d key (hop + 1) rest
      | Some id =>
          match find_manifest d id key with
          | Some m => Some (id, hop, m)
          | None => select_manifest d key (hop + 1) rest
          end
      end
  end.

Definition resolve_key (artifact : string) (ids : list string) (rows : list SettlementProjectionGeneration)
    (d : list (string * string * manifest)) (key : string) : result PartitionResolution :=
  match select_manifest d key 0 rows with
  | None => Ok (legacy_resolution artifact key ids)
  | Some (owner, hop, m) =>
      match as_text (Some (man_source_kind m)), as_text (Some (man_owner_state m)) with
      | Some kind, owner_state =>
          let* _ := fail_if (negb (str_in kind ["overlay"; "legacy_root"; "tombstone"])) "manifest source kind is invalid" in
          match owner_state with
          | None => lineage_error "manifest owner state is invalid"
          | Some st => Ok (MkResolution artifact key (Some owner) (as_text (man_data_generation_id m)) kind st hop ids [])
          end
      | None, _ => lineage_error "manifest source kind is invalid"
      end
  end.

(** The rows that the overlay of a resolution must have; a compact owner proved its own. *)
Definition overlay_requirement (compact : option string) (d : list (string * string * manifest))
    (acc : requirements) (r : PartitionResolution) : result requirements :=
  match str_eqb (res_source_kind r) "overlay", res_data r with
  | true, Some data =>
      match res_owner r with
      | None => lineage_error "overlay partition has no manifest owner"
      | Some owner =>
          if opt_is compact owner then Ok acc
          else
            match find_manifest d owner (res_partition_key r) with
            | None => lineage_error "overlay partition manifest disappeared"
            | Some m => let* n := row_count m in
                        Ok (if 0 <? n then acc ++ [(data, res_partition_key r, n)] else acc)
            end
      end
  | _, _ => Ok acc
  end.

Definition bases_of (rows : list SettlementProjectionGeneration) : list (string * option string) :=
  omap (fun g => match as_text (Some (gen_id g)) with Some id => Some (id, as_text (gen_base g)) | None => None end) rows.

(** The ordinary lineage, with the compact ancestor it may end in. *)
Definition resolve_ordinary (p : projectiondb) (artifact : string) (keys : list string) (pinned : string)
    (rows : list SettlementProjectionGeneration) (first final : SettlementProjectionGeneration) (x : provenance)
  : result (resolutions * provenance) :=
  let depth := gen_lineage_depth first in
  let* _ := fail_if ((depth <? 0) || (MAX_LINEAGE_DEPTH <? depth)) "projection lineage depth is invalid" in
  let* _ := fail_if (negb (depth =? Z.of_nat (length rows) - 1)) "projection lineage depth does not match complete chain" in
  let* ids := check_lineage pinned depth 0 None [] rows in
  let* _ := match as_text (gen_base final) with
            | Some b => if str_in b ids then lineage_error "projection lineage contains a cycle"
                        else lineage_error "projection lineage references a missing base generation"
            | None => Ok tt
            end in
  let compact := if opt_is (as_text (Some (gen_kind final))) "compact" then as_text (Some (gen_id final)) else None in
  let* x := match compact with
            | Some c => let* (_, x) := verified_closure provenance_turns p c LIVE_STATES x in Ok x
            | None => Ok x
            end in
  let* (d, claims) := fold_result (index_manifest ids (bases_of rows) compact) ([], []) (manifests_of p artifact ids keys) in
  let* x := match compact with Some _ => verify_compact_partition_claims p artifact claims x | None => Ok x end in
  let* resolved := fold_result (fun acc key => let* r := resolve_key artifact ids rows d key in Ok (acc ++ [(key, r)])) [] keys in
  let* needed := fold_result (overlay_requirement compact d) [] (resolved.*2) in
  let* _ := fail_if (existsb (fun q => present_rows p artifact q.1.1 q.1.2 <? q.2) needed)
              "overlay ownership requires missing data rows" in
  Ok (resolved, x).

(** [resolve_projection_partitions] *)
Definition resolve_projection_partitions (p : projectiondb) (artifact : string) (partition_keys : list string)
    (pinned_generation_id : option string) (x : provenance) : result (resolutions * provenance) :=
  match as_text (Some artifact) with
  | None => lineage_error "unsupported projection artifact"
  | Some artifact =>
      let* _ := fail_if (negb (str_in artifact ARTIFACTS)) "unsupported projection artifact" in
      let* keys := bounded_partition_keys partition_keys in
      match keys, pinned_generation_id with
      | [], _ => Ok ([], x)
      | _, None => Ok ((fun key => (key, legacy_resolution artifact key [])) <$> keys, x)
      | _, Some id =>
          match as_text (Some id) with
          | None => lineage_error "pinned generation id must be a non-empty string"
          | Some pinned =>
              let rows := base_chain (Z.to_nat MAX_LINEAGE_DEPTH) p pinned in
              match rows, last rows with
              | first :: _, Some final =>
                  let* _ := fail_if (MAX_LINEAGE_DEPTH + 1 <? Z.of_nat (length rows))
                              "projection lineage exceeds maximum depth" in
                  if opt_is (as_text (Some (gen_kind first))) "compact" then
                    let* _ := fail_if (negb (bool_decide (length rows = 1%nat)))
                                "compact head must not have an ordinary base chain" in
                    resolve_compact_partitions p artifact keys pinned first x
                  else resolve_ordinary p artifact keys pinned rows first final x
              | _, _ => lineage_error "pinned generation does not exist"
              end
          end
      end
  end.
End Counts.
