(* ===== verification/LineageProps.v ===== *)
(** * Projection lineage: the provenance verifier

    A calculus of the verifier's outcomes ([returns]), the invariant of its context,
    and what verified claims prove: the closures of compact generations are acyclic,
    so that every claim ends in the rows of an ordinary generation. *)
From S2P Require Import Prelude PyValue FeeLedger FeeProps Lineage.
#[local] Open Scope Z_scope.
#[local] Notation manifest := SettlementProjectionPartitionManifest.

(** ** Outcomes *)

Definition is_lineage_error (e : exn) : Prop := exists msg, e = LineageError msg.

(** The computation returns a value that satisfies [Q] or fails with a lineage error;
    in particular it has turns enough. *)
Definition returns {A} (r : result A) (Q : A -> Prop) : Prop :=
  match r with
  | Ok a => Q a
  | Raise e => is_lineage_error e
  end.

Lemma returns_mono {A} (r : result A) (P Q : A -> Prop) : returns r P -> (forall a, P a -> Q a) -> returns r Q.
Proof. destruct r; cbn; auto. Qed.
Lemma returns_bind {A B} (r : result A) (k : A -> result B) P Q :
  returns r P -> (forall a, P a -> returns (k a) Q) -> returns (result_bind r k) Q.
Proof. destruct r; cbn; auto. Qed.
Lemma returns_error {A} msg (Q : A -> Prop) : returns (lineage_error msg) Q.
Proof. by exists msg. Qed.
Lemma returns_fail_if b msg : returns (fail_if b msg) (fun _ => b = false).
Proof. destruct b; [by exists msg|done]. Qed.
Lemma returns_fold {A S} (f : S -> A -> result S) (I : S -> Prop) l :
  (forall s a, a ∈ l -> I s -> returns (f s a) I) -> forall s, I s -> returns (fold_result f s l) I.
Proof.
  induction l as [|a l IH]; intros Hf s Hs; [done|]. cbn [fold_result]. eapply returns_bind.
  - apply Hf; [by left|done].
  - intros s' Hs'. apply IH; [|done]. intros s1 b Hb. apply Hf. by right.
Qed.
(** Each element leaves its mark on the state, and marks stay. *)
Lemma returns_fold_all {A S} (f : S -> A -> result S) (I : S -> Prop) (R : A -> S -> Prop) l :
  (forall s a, a ∈ l -> I s -> returns (f s a) (fun s' => I s' /\ R a s' /\ (forall b, R b s -> R b s'))) ->
  forall s, I s -> returns (fold_result f s l) (fun s' => I s' /\ (forall a, a ∈ l -> R a s') /\ (forall b, R b s -> R b s')).
Proof.
  induction l as [|a l IH]; intros Hf s Hs; cbn [fold_result returns].
  { split; [done|]. split; [by intros b Hb%elem_of_nil|done]. }
  eapply returns_bind; [apply Hf; [by left|done]|]. intros s1 (H1 & Ha & Hm).
  eapply returns_mono; [apply IH; [|done]; intros s2 b Hb; apply Hf; by right|].
  intros s2 (H2 & Hl & Hm2). split; [done|]. split; [|auto].
  intros b [->|Hb]%elem_of_cons; [by apply Hm2|by apply Hl].
Qed.
Lemma returns_Ok {A} (r : result A) Q a : returns r Q -> r = Ok a -> Q a.
Proof. intros H ->. done. Qed.
(** A computation that only fails with a lineage error. *)
Definition fails_named {A} (r : result A) : Prop := forall e, r = Raise e -> is_lineage_error e.
Lemma returns_eq {A} (r : result A) : fails_named r -> returns r (fun a => r = Ok a).
Proof. intros H. destruct r as [a|e]; cbn; [done|by apply H]. Qed.

Lemma fails_bind {A B} (r : result A) (k : A -> result B) :
  fails_named r -> (forall a, fails_named (k a)) -> fails_named (result_bind r k).
Proof. intros H1 H2 e. destruct r as [a|e']; cbn; [apply H2|]. intros [= <-]. by apply (H1 e'). Qed.
Lemma fails_fold {A S} (f : S -> A -> result S) l : (forall s a, fails_named (f s a)) -> forall s, fails_named (fold_result f s l).
Proof. intros Hf. induction l as [|a l IH]; intros s; [done|]. cbn [fold_result]. by apply fails_bind. Qed.
Lemma fails_error {A} msg : @fails_named A (lineage_error msg).
Proof. intros e [= <-]. by exists msg. Qed.
Lemma fails_fail_if b msg : fails_named (fail_if b msg).
Proof. intros e. destruct b; intros [= <-]. by exists msg. Qed.
Lemma fails_Ok {A} (a : A) : fails_named (Ok a).
Proof. done. Qed.

(** Walks through a computation without a loop of its own. *)
Ltac named :=
  repeat match goal with
  | |- fails_named (let _ := _ in _) => cbv zeta
  | |- fails_named (result_bind _ _) => apply fails_bind; [|intros]
  | |- fails_named (fail_if _ _) => apply fails_fail_if
  | |- fails_named (lineage_error _) => apply fails_error
  | |- fails_named (Ok _) => apply fails_Ok
  | |- fails_named (fold_result _ _ _) => apply fails_fold; intros
  | |- fails_named (match ?x with _ => _ end) => destruct x
  | |- fails_named (if ?x then _ else _) => destruct x
  end.

Lemma signed_named v field : fails_named (manifest_signed_integer v field).
Proof. unfold manifest_signed_integer. destruct v as [| | |f|f| | |]; named. Qed.
Lemma row_count_named m : fails_named (row_count m).
Proof. unfold row_count, manifest_integer. named. apply signed_named. Qed.
Lemma amount_total_named m : fails_named (amount_total m).
Proof. apply signed_named. Qed.
Lemma capture_source_named p compact c x : fails_named (capture_source p compact c x).
Proof. unfold capture_source. named. Qed.
Lemma verify_closure_named p compact allowed : fails_named (verify_compact_closure p compact allowed).
Proof. unfold verify_compact_closure. named. apply capture_source_named. Qed.

(** ** The closure of a generation *)

Lemma verify_closure_unique p c a a' cl cl' :
  verify_compact_closure p c a = Ok cl -> verify_compact_closure p c a' = Ok cl' -> cl = cl'.
Proof.
  unfold verify_compact_closure. destruct (get_generation p c) as [g|]; [|discriminate].
  destruct (as_text (gen_compaction_base g)); [|discriminate].
  intros (u1 & _ & H1)%result_bind_Ok (u2 & _ & H2)%result_bind_Ok.
  destruct (gen_compaction_base g) as [b|]; [|discriminate]. destruct (get_generation p b); [|discriminate].
  revert H1 H2. intros (? & _ & H1)%result_bind_Ok (? & _ & H2)%result_bind_Ok.
  revert H1 H2. intros (? & _ & H1)%result_bind_Ok (? & _ & H2)%result_bind_Ok.
  revert H1 H2. intros (c1 & E1 & H1)%result_bind_Ok (c2 & E2 & H2)%result_bind_Ok.
  revert H1 H2. intros (? & _ & [= <-])%result_bind_Ok (? & _ & [= <-])%result_bind_Ok. congruence.
Qed.

(** Closures in the order in which they were verified: their compact sources come first. *)
Inductive closures_ok (p : projectiondb) : list (string * closure) -> Prop :=
| closures_nil : closures_ok p []
| closures_snoc l c cl allowed :
    closures_ok p l -> verify_compact_closure p c allowed = Ok cl ->
    (forall s, s ∈ cl_compact_sources cl -> s ∈ l.*1) -> closures_ok p (l ++ [(c, cl)]).

Record ctx_inv (p : projectiondb) (x : provenance) : Prop := {
  ci_nodup : NoDup (ctx_verifying x);
  ci_verifying : forall c, c ∈ ctx_verifying x -> c ∈ ctx_opened x;
  ci_bound : Z.of_nat (length (ctx_opened x)) <= MAX_LINEAGE_DEPTH;
  ci_known : forall c, c ∈ (ctx_closures x).*1 -> c ∈ ctx_opened x;
  ci_closures : closures_ok p (ctx_closures x);
}.

Lemma closures_ok_in p l c cl : closures_ok p l -> (c, cl) ∈ l -> exists allowed, verify_compact_closure p c allowed = Ok cl.
Proof.
  induction 1 as [|l c' cl' allowed _ IH Hv _]; intros Hin; [by apply elem_of_nil in Hin|].
  apply elem_of_app in Hin as [?|[= -> ->]%list_elem_of_singleton]; eauto.
Qed.

Lemma find_closure_in x c cl : find_closure x c = Some cl -> (c, cl) ∈ ctx_closures x.
Proof.
  unfold find_closure. destruct (List.find _ _) as [[c' cl']|] eqn:E; [|done]. intros [= <-].
  apply find_some_in in E as [Hin E]. tests. cbn in E. by subst.
Qed.

Lemma elem_of_set_add {A} `{EqDecision A} (a b : A) l : b ∈ set_add a l <-> b = a \/ b ∈ l.
Proof. unfold set_add. destruct (decide (a ∈ l)); [rewrite bool_decide_true by done|rewrite bool_decide_false by done]; set_solver. Qed.
Lemma set_add_new {A} `{EqDecision A} (a : A) l : a ∉ l -> set_add a l = l ++ [a].
Proof. intros H. unfold set_add. by rewrite bool_decide_false. Qed.

(** What a verification leaves: a larger context with the closure in it. *)
Record ctx_step (p : projectiondb) (x x' : provenance) : Prop := {
  cs_inv : ctx_inv p x';
  cs_verifying : ctx_verifying x' = ctx_verifying x;
  cs_verified : ctx_verified x' = ctx_verified x;
  cs_closures : forall c, c ∈ (ctx_closures x).*1 -> c ∈ (ctx_closures x').*1;
  cs_opened : forall c, c ∈ ctx_opened x -> c ∈ ctx_opened x';
}.
Lemma ctx_step_refl p x : ctx_inv p x -> ctx_step p x x.
Proof. by split. Qed.
Lemma ctx_step_trans p x y z : ctx_step p x y -> ctx_step p y z -> ctx_step p x z.
Proof. intros [] []. split; [done|congruence|congruence|auto|auto]. Qed.

Lemma verifying_bound p x : ctx_inv p x -> (length (ctx_verifying x) <= Z.to_nat MAX_LINEAGE_DEPTH)%nat.
Proof.
  intros [Hnd Hv Hb _ _]. transitivity (length (ctx_opened x)); [|unfold MAX_LINEAGE_DEPTH in *; lia].
  apply submseteq_length, NoDup_submseteq; [done|]. intros c. apply Hv.
Qed.

Lemma verified_closure_returns p turns : forall c allowed x,
  ctx_inv p x -> (Z.to_nat MAX_LINEAGE_DEPTH < length (ctx_verifying x) + turns)%nat ->
  returns (verified_closure turns p c allowed x) (fun r =>
    ctx_step p x r.2 /\ c ∈ (ctx_closures r.2).*1 /\ exists a, verify_compact_closure p c a = Ok r.1).
Proof.
  induction turns as [|turns IH]; intros c allowed x Hx Ht; pose proof (verifying_bound p x Hx) as Hb; [lia|].
  cbn [verified_closure]. destruct (str_in c (ctx_verifying x)) eqn:Ec; [apply returns_error|].
  apply bool_decide_eq_false in Ec. destruct (find_closure x c) as [cl|] eqn:Ef.
  { apply find_closure_in in Ef. split; [by apply ctx_step_refl|]. split; [by apply (list_elem_of_fmap_2 fst) in Ef|].
    by eapply closures_ok_in; [apply Hx|]. }
  set (x1 := x <| ctx_opened := set_add c (ctx_opened x) |>).
  eapply returns_bind; [apply returns_fail_if|]. intros _ Hlen%Z.ltb_ge.
  set (x2 := x1 <| ctx_verifying := set_add c (ctx_verifying x1) |>).
  assert (ctx_inv p x2) as Hx2.
  { destruct Hx as [Hnd Hv _ Hk Hcl]. subst x2 x1. split; cbn in *; [| | done | |done].
    - rewrite set_add_new by done. apply NoDup_app. split; [done|]. split; [set_solver|apply NoDup_singleton].
    - intros y. rewrite !elem_of_set_add. naive_solver.
    - intros y Hy. apply elem_of_set_add. right. by apply Hk. }
  assert (length (ctx_verifying x2) = S (length (ctx_verifying x))) as El.
  { subst x2 x1. cbn. rewrite set_add_new by done. rewrite length_app. cbn. lia. }
  eapply returns_bind; [apply returns_eq, verify_closure_named|]. intros cl Ecl.
  eapply returns_bind.
  - apply (returns_fold_all _ (ctx_step p x2) (fun s y => s ∈ (ctx_closures y).*1)); [|by apply ctx_step_refl].
    intros y s _ Hy. eapply returns_bind.
    + apply (IH s LIVE_STATES y); [apply Hy|]. destruct Hy as [_ -> _ _ _]. lia.
    + intros [cl' y'] (Hs & Hin & _). cbn. split; [by eapply ctx_step_trans|]. split; [done|]. apply Hs.
  - intros y (Hy & Hall & _). cbn [returns fst snd]. split; [|split; [|exists allowed; exact Ecl]].
    + destruct Hx as [Hnd Hv Hbd Hk Hcl]. destruct Hy as [[Hnd' Hv' Hbd' Hk' Hcl'] Ey Ev Hc Ho].
      split; [split| | | |]; cbn in *.
      * rewrite Ey, set_add_new, lfilter_app by done. cbn. rewrite str_eqb_refl. cbn. rewrite app_nil_r.
        rewrite <- (list_fmap_id (List.filter _ _)). apply fmap_filter_sub. by rewrite list_fmap_id.
      * intros z Hz. apply Hv'. apply list_elem_of_In, filter_In in Hz as [Hz _]. by apply list_elem_of_In.
      * done.
      * intros z. rewrite fmap_app. cbn. rewrite elem_of_app, list_elem_of_singleton. intros [?| ->]; [by apply Hk'|].
        apply Ho, elem_of_set_add. by left.
      * by eapply closures_snoc.
      * rewrite Ey, set_add_new, lfilter_app by done. cbn. rewrite str_eqb_refl. cbn. rewrite app_nil_r.
        apply filter_all, forallb_forall. intros z Hz%list_elem_of_In. apply negb_true_iff, str_eqb_false. by intros ->.
      * done.
      * intros z Hz. rewrite fmap_app. apply elem_of_app. left. by apply Hc.
      * intros z Hz. apply Ho, elem_of_set_add. by right.
    + cbn. rewrite fmap_app. cbn. set_solver.
Qed.

(** ** Claims *)

Lemma returns_fold_rest {A S} (f : S -> A -> result S) (I : list A -> S -> Prop) l :
  (forall a l s, I (a :: l) s -> returns (f s a) (I l)) -> forall s, I l s -> returns (fold_result f s l) (I []).
Proof.
  intros Hf. induction l as [|a l IH]; intros s Hs; [done|]. cbn [fold_result].
  eapply returns_bind; [by apply Hf|]. intros s' Hs'. by apply IH.
Qed.

Lemma find_snoc {A} (P : A -> bool) l q : List.find P l = None -> P q = true -> List.find P (l ++ [q]) = Some q.
Proof. induction l as [|y l IH]; cbn; [by intros _ ->|]. by destruct (P y). Qed.
Lemma find_app_some {A} (P : A -> bool) l l' q : List.find P l = Some q -> List.find P (l ++ l') = Some q.
Proof. induction l as [|y l IH]; cbn; [done|]. by destruct (P y). Qed.

Section Claims.
Context (json_loads : string -> option pyval) (p : projectiondb) (artifact : string).

(** Two manifests of a partition agree on the data, its checksum and its totals. *)
Record same_evidence (m row : manifest) : Prop := {
  ev_data : as_text (man_data_generation_id m) = as_text (man_data_generation_id row);
  ev_checksum : as_text (man_checksum m) = as_text (man_checksum row);
  ev_count : exists n, row_count m = Ok n /\ row_count row = Ok n;
  ev_amount : exists n, amount_total m = Ok n /\ amount_total row = Ok n;
  ev_statuses : exists l, canonical_status_counts json_loads (man_status_counts m) = Ok l
    /\ canonical_status_counts json_loads (man_status_counts row) = Ok l;
}.

(** The manifest row of a compact generation is backed by rows of an ordinary one:
    captured by its closure, or by the closure of a compact generation it captured. *)
Inductive proven (key : string) : string -> manifest -> Prop :=
| proven_leaf compact allowed c row data m n :
    verify_compact_closure p compact allowed = Ok c -> as_text (man_data_generation_id row) = Some data ->
    data ∈ cl_ordinary_sources c -> manifest_at p artifact data key = Some m -> same_evidence m row ->
    row_count row = Ok n -> present_rows p artifact data key = n -> proven key compact row
| proven_anchor compact allowed c row anchor m :
    verify_compact_closure p compact allowed = Ok c -> anchor ∈ cl_compact_sources c ->
    manifest_at p artifact anchor key = Some m -> same_evidence m row -> proven key anchor m ->
    proven key compact row.

(** An entry of the verified set: its evidence, with the anchors still [waiting]. *)
Definition needed (r : requirements) (data key : string) (n : Z) : Prop :=
  present_rows p artifact data key = n \/ required r data key = Some n.
Definition evidence (x : provenance) (waiting : list (string * string)) (key : string) (c : closure) (row : manifest)
    (data : string) : Prop :=
  (data ∈ cl_ordinary_sources c /\ exists m, manifest_at p artifact data key = Some m /\ same_evidence m row)
  \/ (exists anchor m, anchor ∈ cl_compact_sources c /\ manifest_at p artifact anchor key = Some m
        /\ same_evidence m row
        /\ ((anchor, artifact, key) ∈ ctx_verified x \/ (anchor, key) ∈ waiting)).
Definition entry (x : provenance) (r : requirements) (waiting : list (string * string)) (compact key : string) : Prop :=
  exists allowed c row data n,
    verify_compact_closure p compact allowed = Ok c /\ compact ∈ (ctx_closures x).*1
    /\ manifest_at p artifact compact key = Some row /\ as_text (man_data_generation_id row) = Some data
    /\ row_count row = Ok n /\ needed r data key n /\ evidence x waiting key c row data.
Definition justified (x : provenance) (r : requirements) (waiting : list (string * string)) : Prop :=
  forall compact key, (compact, artifact, key) ∈ ctx_verified x -> entry x r waiting compact key.
Definition covers (targets : list (string * string)) (x : provenance) (waiting : list (string * string)) : Prop :=
  forall q, q ∈ targets -> (q.1, artifact, q.2) ∈ ctx_verified x \/ q ∈ waiting.

(** The larger state of a later moment. *)
Record grows (x : provenance) (r : requirements) (x' : provenance) (r' : requirements) : Prop := {
  gr_verified : forall e, e ∈ ctx_verified x -> e ∈ ctx_verified x';
  gr_closures : forall c, c ∈ (ctx_closures x).*1 -> c ∈ (ctx_closures x').*1;
  gr_required : forall data key n, required r data key = Some n -> required r' data key = Some n;
}.

Lemma entry_mono x r w x' r' w' compact key :
  grows x r x' r' -> covers w x' w' -> entry x r w compact key -> entry x' r' w' compact key.
Proof.
  intros [Hv Hc Hr] Hw (al & c & row & data & n & H1 & H2 & H3 & H4 & H5 & H6 & H7).
  exists al, c, row, data, n. split; [done|]. split; [by apply Hc|]. do 3 (split; [done|]). split.
  - destruct H6 as [?|?]; [by left|right; by apply Hr].
  - destruct H7 as [?|(anchor & m & Ha & Hm & He & Hd)]; [by left|right].
    exists anchor, m. do 3 (split; [done|]). destruct Hd as [?|Hd]; [left; by apply Hv|]. by apply (Hw (anchor, key)).
Qed.

(** ** Pending claims *)

Record claim_ok (x : provenance) (k : nat) (c : claim) : Prop := {
  co_path : exists pre, claim_path c = pre ++ [claim_compact c] /\ (forall y, y ∈ pre -> y ∈ ctx_opened x);
  co_nodup : NoDup (claim_path c);
  co_length : length (claim_path c) = k;
  co_row : manifest_at p artifact (claim_compact c) (claim_key c) = Some (claim_row c);
}.
Record active_ok (x : provenance) (k : nat) (a : active_claim) : Prop := {
  ao_claim : claim_ok x k (active_of a);
  ao_closure : exists allowed, verify_compact_closure p (claim_compact (active_of a)) allowed = Ok (active_closure a);
  ao_known : claim_compact (active_of a) ∈ (ctx_closures x).*1;
  ao_data : as_text (man_data_generation_id (claim_row (active_of a))) = Some (active_data a);
  ao_checksum : valid_digest (man_checksum (claim_row (active_of a))) <> None;
}.

Definition claim_id (c : claim) : string * string := (claim_compact c, claim_key c).
Definition active_id (a : active_claim) : string * string := claim_id (active_of a).

Lemma claim_ok_mono x x' k c : (forall y, y ∈ ctx_opened x -> y ∈ ctx_opened x') -> claim_ok x k c -> claim_ok x' k c.
Proof. intros Ho [(pre & E & Hp) ? ? ?]. split; [|done|done|done]. exists pre. split; [done|]. auto. Qed.
Lemma active_ok_mono x x' k a :
  (forall y, y ∈ ctx_opened x -> y ∈ ctx_opened x') -> (forall c, c ∈ (ctx_closures x).*1 -> c ∈ (ctx_closures x').*1) ->
  active_ok x k a -> active_ok x' k a.
Proof. intros Ho Hc [? ? ? ? ?]. split; [by eapply claim_ok_mono|done|by apply Hc|done|done]. Qed.

Lemma claim_path_bound x k c : ctx_inv p x -> claim_ok x k c -> (k <= S (Z.to_nat MAX_LINEAGE_DEPTH))%nat.
Proof.
  intros Hx [(pre & E & Hp) Hnd <- _]. rewrite E in *. rewrite length_app. cbn.
  assert (length pre <= length (ctx_opened x))%nat.
  { apply submseteq_length, NoDup_submseteq; [by apply NoDup_app in Hnd as (? & _ & _)|done]. }
  pose proof (ci_bound p x Hx). unfold MAX_LINEAGE_DEPTH in *. lia.
Qed.

(** The state within a turn: claims to open, open claims, and the claims of the next turn. *)
Definition waiting (rest : list claim) (active : list active_claim) (next : list claim) : list (string * string) :=
  (claim_id <$> rest) ++ (active_id <$> active) ++ (claim_id <$> next).
Record turn_inv (k : nat) (targets : list (string * string)) (rest : list claim) (active : list active_claim)
    (next : list claim) (r : requirements) (x : provenance) : Prop := {
  ti_ctx : ctx_inv p x;
  ti_verifying : ctx_verifying x = [];
  ti_rest : forall c, c ∈ rest -> claim_ok x k c;
  ti_active : forall a, a ∈ active -> active_ok x k a;
  ti_next : forall c, c ∈ next -> claim_ok x (S k) c;
  ti_justified : justified x r (waiting rest active next);
  ti_covers : covers targets x (waiting rest active next);
}.

Lemma closure_turns : (Z.to_nat MAX_LINEAGE_DEPTH < 0 + provenance_turns)%nat.
Proof. unfold provenance_turns. lia. Qed.

(** A later state with fewer waiting claims, each of them verified. *)
Lemma turn_inv_step k targets rest active next r x rest' active' next' r' x' :
  turn_inv k targets rest active next r x -> ctx_inv p x' -> ctx_verifying x' = [] -> grows x r x' r' ->
  (forall y, y ∈ ctx_opened x -> y ∈ ctx_opened x') ->
  (forall c, c ∈ rest' -> c ∈ rest) -> (forall a, a ∈ active' -> a ∈ active \/ active_ok x' k a) ->
  (forall c, c ∈ next' -> c ∈ next \/ claim_ok x' (S k) c) ->
  covers (waiting rest active next) x' (waiting rest' active' next') ->
  (forall c key, (c, artifact, key) ∈ ctx_verified x' -> (c, artifact, key) ∈ ctx_verified x
     \/ entry x' r' (waiting rest' active' next') c key) ->
  turn_inv k targets rest' active' next' r' x'.
Proof.
  intros [_ _ Hr Ha Hn Hj Hc] Hx Hv Hg Ho Hr' Ha' Hn' Hw He. split; try done.
  - intros c Hin. by eapply claim_ok_mono; [|apply Hr, Hr'].
  - intros a Hin. destruct (Ha' a Hin); [|done]. eapply active_ok_mono; [done|apply Hg|by apply Ha].
  - intros c Hin. destruct (Hn' c Hin); [|done]. by eapply claim_ok_mono; [|apply Hn].
  - intros c key [Hin|Hin]%He; [|done]. eapply entry_mono; [done|exact Hw|]. by apply Hj.
  - intros q Hq. destruct (Hc q Hq) as [Hin|Hin]; [left; by apply Hg|by apply Hw].
Qed.

Lemma open_claim_returns k targets c rest active r x :
  turn_inv k targets (c :: rest) active [] r x ->
  returns (open_claim p artifact (active, x) c) (fun s => turn_inv k targets rest s.1 [] r s.2).
Proof.
  intros H. pose proof H as [Hx Hv Hr _ _ _ _]. unfold open_claim. cbv zeta.
  eapply returns_bind; [apply verified_closure_returns; [done|rewrite Hv; apply closure_turns]|].
  intros [cl x'] ([Hx' Ev Evd Hcl Ho] & Hin & al & Ecl). cbn [fst snd] in *.
  eapply returns_bind; [apply returns_fail_if|]. intros _ _.
  eapply returns_bind; [apply returns_fail_if|]. intros _ _.
  destruct (as_text (man_data_generation_id (claim_row c))) as [data|] eqn:Ed; [|apply returns_error].
  eapply returns_bind; [apply returns_fail_if|]. intros _ [_ Hck]%orb_false_iff. apply bool_decide_eq_false in Hck.
  cbn [returns fst snd].
  assert (grows x r x' r) as Hg by (split; [intros e; by rewrite Evd|done|done]).
  assert (claim_ok x' k c) as Hc by (eapply claim_ok_mono; [done|]; apply Hr; by left).
  case_bool_decide as Hver.
  - eapply turn_inv_step; [exact H|done|congruence|done|done|set_solver|by left|by left| |intros; left; by rewrite <- Evd].
    intros q. unfold waiting. rewrite fmap_cons. intros [->|Hq]%elem_of_cons; [by left|by right].
  - eapply turn_inv_step; [exact H|done|congruence|done|done|set_solver| |by left| |intros; left; by rewrite <- Evd].
    + intros a [?|Ha%list_elem_of_singleton]%elem_of_app; [by left|right; subst a]. by split; [|exists al| | |].
    + intros q. unfold waiting. rewrite fmap_cons, fmap_app. cbn. intros Hq. right. set_solver.
Qed.

Lemma open_claims_returns k targets pending r x :
  turn_inv k targets pending [] [] r x ->
  returns (fold_result (open_claim p artifact) ([], x) pending) (fun s => turn_inv k targets [] s.1 [] r s.2).
Proof.
  intros H. apply (returns_fold_rest _ (fun rest s => turn_inv k targets rest s.1 [] r s.2)); [|done].
  intros c rest [active y]. apply open_claim_returns.
Qed.

(** ** Evidence *)

Lemma counts_named v : fails_named (canonical_status_counts json_loads v).
Proof. unfold canonical_status_counts, count_of. named. Qed.
Lemma same_totals_named a b msg : fails_named (same_totals json_loads a b msg).
Proof. unfold same_totals. named; auto using row_count_named, amount_total_named, counts_named. Qed.
Lemma check_leaf_named a : fails_named (check_leaf json_loads p artifact a).
Proof. unfold check_leaf. named. apply same_totals_named. Qed.
Lemma check_anchor_named a anchor m : fails_named (check_anchor json_loads a anchor m).
Proof. unfold check_anchor. named. apply same_totals_named. Qed.

Lemma fail_if_ok b msg u : fail_if b msg = Ok u -> b = false.
Proof. by destruct b. Qed.

Lemma same_totals_spec a b msg u : same_totals json_loads a b msg = Ok u ->
  (exists n, row_count a = Ok n /\ row_count b = Ok n) /\ (exists n, amount_total a = Ok n /\ amount_total b = Ok n)
  /\ (exists l, canonical_status_counts json_loads (man_status_counts a) = Ok l
        /\ canonical_status_counts json_loads (man_status_counts b) = Ok l).
Proof.
  unfold same_totals. intros (n1 & ? & H)%result_bind_Ok. revert H. intros (n2 & ? & H)%result_bind_Ok.
  revert H. intros (? & E1%fail_if_ok & H)%result_bind_Ok. revert H. intros (n3 & ? & H)%result_bind_Ok.
  revert H. intros (n4 & ? & H)%result_bind_Ok. revert H. intros (? & E2%fail_if_ok & H)%result_bind_Ok.
  revert H. intros (n5 & ? & H)%result_bind_Ok. revert H. intros (n6 & ? & E3%fail_if_ok)%result_bind_Ok.
  bool_to_prop. subst. split; [|split]; eexists; by split.
Qed.

Lemma valid_digest_some v s : valid_digest v = Some s -> v = Some s.
Proof. destruct v as [t|]; cbn; [|done]. destruct (_ && _); [|done]. by intros [= ->]. Qed.

Lemma check_leaf_spec a u :
  valid_digest (man_checksum (claim_row (active_of a))) <> None ->
  as_text (man_data_generation_id (claim_row (active_of a))) = Some (active_data a) ->
  check_leaf json_loads p artifact a = Ok u ->
  exists m, manifest_at p artifact (active_data a) (claim_key (active_of a)) = Some m
    /\ same_evidence m (claim_row (active_of a)).
Proof.
  intros Hck Hd. unfold check_leaf. destruct (manifest_at _ _ _ _) as [m|]; [|discriminate].
  intros (? & E%fail_if_ok & (? & ? & ?)%same_totals_spec)%result_bind_Ok. exists m. split; [done|].
  tests. split; [congruence| |done..].
  destruct (valid_digest (man_checksum (claim_row (active_of a)))) as [s|] eqn:Es; [|done].
  apply valid_digest_some in Es. match goal with H : valid_digest _ = Some s |- _ => apply valid_digest_some in H end.
  congruence.
Qed.

Lemma check_anchor_spec a anchor m u :
  check_anchor json_loads a anchor m = Ok u -> same_evidence m (claim_row (active_of a)).
Proof.
  unfold check_anchor. cbv zeta. intros (? & E%fail_if_ok & H)%result_bind_Ok.
  revert H. intros (? & (? & ? & ?)%same_totals_spec & E2%fail_if_ok)%result_bind_Ok. tests. by split.
Qed.

Lemma anchor_match a anchor m l : anchor_matches p artifact a = (anchor, m) :: l ->
  anchor ∈ cl_compact_sources (active_closure a) /\ manifest_at p artifact anchor (claim_key (active_of a)) = Some m.
Proof.
  intros E. assert ((anchor, m) ∈ anchor_matches p artifact a) as Hin by (rewrite E; by left).
  apply list_elem_of_omap in Hin as (y & Hy & H). split_tests_in H.
Qed.

Lemma require_presence_returns r data key n :
  returns (require_presence r data key n) (fun r' =>
    required r' data key = Some n /\ forall d k m, required r d k = Some m -> required r' d k = Some m).
Proof.
  unfold require_presence. destruct (required r data key) as [m|] eqn:E.
  - eapply returns_bind; [apply returns_fail_if|]. intros u H; cbn in H. bool_to_prop. subst m. by split.
  - cbn. revert E. unfold required. destruct (List.find _ r) eqn:Ef; [done|]. intros _. split.
    + rewrite (find_snoc _ _ _ Ef); [done|]. cbn. by rewrite !str_eqb_refl.
    + intros d k m. destruct (List.find _ r) eqn:Ef' at 1; [|done]. by rewrite (find_app_some _ _ _ _ Ef').
Qed.

Lemma claim_step_returns k targets a rest next r x :
  turn_inv k targets [] (a :: rest) next r x ->
  returns (claim_step json_loads p artifact (next, r, x) a) (fun s => turn_inv k targets [] rest s.1.1 s.1.2 s.2).
Proof.
  intros H. pose proof H as [Hx Hv _ Ha _ _ _]. destruct (Ha a ltac:(by left)) as [Hc [al Hcl] Hin Hd Hck].
  assert (forall r' next', (forall d k m, required r d k = Some m -> required r' d k = Some m) ->
    (forall c, c ∈ next' -> c ∈ next \/ claim_ok x (S k) c) -> (forall c, c ∈ next -> c ∈ next') ->
    (exists n, row_count (claim_row (active_of a)) = Ok n /\ required r' (active_data a) (claim_key (active_of a)) = Some n) ->
    evidence x (claim_id <$> next') (claim_key (active_of a)) (active_closure a) (claim_row (active_of a)) (active_data a) ->
    turn_inv k targets [] rest next' r' (x <| ctx_verified :=
      set_add (claim_compact (active_of a), artifact, claim_key (active_of a)) (ctx_verified x) |>)) as Hdone.
  { intros r' next' Hr Hn Hn' (n & Hn1 & Hn2) He.
    set (x' := x <| ctx_verified := _ |>).
    assert (forall e, e ∈ ctx_verified x -> e ∈ ctx_verified x') as Hm by (intros e He'; apply elem_of_set_add; by right).
    eapply turn_inv_step; [exact H| |done|by split|done|done|intros; left; by right| | |].
    - by destruct Hx as [? ? ? ? ?].
    - intros c [?|?]%Hn; [by left|right]. by apply (claim_ok_mono x).
    - intros q. unfold waiting. rewrite fmap_cons. cbn. rewrite elem_of_cons, !elem_of_app.
      intros [->|[Hq|Hq]]; [left; apply elem_of_set_add; by left|right; by left|right; right].
      apply list_elem_of_fmap in Hq as (c & -> & Hq). apply list_elem_of_fmap. exists c. auto.
    - intros c key [E|?]%elem_of_set_add; [right|by left]. injection E as -> ->.
      exists al, (active_closure a), (claim_row (active_of a)), (active_data a), n.
      split; [done|]. split; [done|]. split; [apply Hc|]. split; [done|]. split; [done|]. split; [by right|].
      destruct He as [?|(anchor & m & ? & ? & ? & Hw)]; [by left|right]. exists anchor, m. do 3 (split; [done|]).
      destruct Hw as [Hw|Hw]; [left; by apply Hm|right]. unfold waiting. set_solver. }
  unfold claim_step. cbv zeta. destruct (str_in _ _) eqn:El.
  - apply bool_decide_eq_true in El. eapply returns_bind; [apply returns_eq, check_leaf_named|].
    intros u (m & Hm & He)%check_leaf_spec; [|done|done].
    eapply returns_bind; [apply returns_eq, row_count_named|]. intros n Hn.
    eapply returns_bind; [apply require_presence_returns|]. intros r' [Hr1 Hr2]. cbn [returns fst snd].
    apply Hdone; [done|by left|done|by exists n|left]. eauto.
  - destruct (anchor_matches p artifact a) as [|[anchor m] [|? ?]] eqn:Em; [apply returns_error| |apply returns_error].
    apply anchor_match in Em as [Hs Hm].
    eapply returns_bind; [apply returns_fail_if|]. intros u Hpath. cbn in Hpath. apply bool_decide_eq_false in Hpath.
    eapply returns_bind; [apply returns_eq, check_anchor_named|]. intros u' He%check_anchor_spec.
    eapply returns_bind; [apply returns_eq, row_count_named|]. intros n Hn.
    eapply returns_bind; [apply require_presence_returns|]. intros r' [Hr1 Hr2]. cbn [returns fst snd].
    apply Hdone; [done| |set_solver|by exists n|right].
    + intros c [?|Ec%list_elem_of_singleton]%elem_of_app; [by left|right; subst c].
      destruct Hc as [(pre & Ep & Hp) Hnd Hl _]. split; cbn; [| | |done].
      * eexists. split; [reflexivity|]. rewrite Ep. intros y [?|Hy%list_elem_of_singleton]%elem_of_app; [by apply Hp|].
        subst y. by apply (ci_known p x Hx).
      * apply NoDup_app. split; [done|]. split; [set_solver|apply NoDup_singleton].
      * rewrite length_app, Hl. cbn. lia.
    + exists anchor, m. do 3 (split; [done|]). right. rewrite fmap_app. cbn. set_solver.
Qed.

Lemma claims_turn_returns k targets pending r x :
  turn_inv k targets pending [] [] r x ->
  returns (claims_turn json_loads p artifact pending r x) (fun s => turn_inv k targets [] [] s.1.1 s.1.2 s.2).
Proof.
  intros H. unfold claims_turn. eapply returns_bind; [by apply open_claims_returns|]. intros [active x'] Hx'.
  cbn [fst snd] in *. do 3 (eapply returns_bind; [apply returns_fail_if|]; intros ? _).
  apply (returns_fold_rest _ (fun rest s => turn_inv k targets [] rest s.1.1 s.1.2 s.2)); [|done].
  intros b rest [[next r'] y]. apply claim_step_returns.
Qed.

Lemma turn_inv_next k targets next r x :
  turn_inv k targets [] [] next r x -> turn_inv (S k) targets next [] [] r x.
Proof.
  intros [? ? _ _ ? Hj Hc]. unfold waiting in *. cbn in *.
  split; try done; [set_solver|set_solver| |]; unfold waiting; cbn; by rewrite app_nil_r.
Qed.

Lemma claims_loop_returns targets turns : forall k pending r x,
  turn_inv k targets pending [] [] r x -> (S (Z.to_nat MAX_LINEAGE_DEPTH) < k + turns)%nat ->
  returns (claims_loop json_loads turns p artifact pending r x) (fun s => exists k', turn_inv k' targets [] [] [] s.1 s.2).
Proof.
  induction turns as [|turns IH]; intros k pending r x H Hk; destruct pending as [|c pending]; cbn [claims_loop returns];
    [by exists k| |by exists k|].
  - pose proof (claim_path_bound x k c (ti_ctx _ _ _ _ _ _ _ H) (ti_rest _ _ _ _ _ _ _ H c ltac:(by left))). lia.
  - eapply returns_bind; [by apply claims_turn_returns|]. intros [[next r'] x'] Hx'%turn_inv_next. cbn [fst snd] in *.
    apply (IH (S k)); [done|lia].
Qed.

(** ** Verified claims *)

(** Every verified entry has its evidence, its anchors and its rows. *)
Definition settled (x : provenance) : Prop := justified x [] [].

Record context_ok (x : provenance) : Prop := {
  ctx_ok_inv : ctx_inv p x;
  ctx_ok_idle : ctx_verifying x = [];
  ctx_ok_settled : settled x;
}.

Lemma no_provenance_ok : context_ok no_provenance.
Proof.
  split; [|done|by intros ? ? ?%elem_of_nil]. split; cbn; [constructor|by intros ? ?%elem_of_nil|unfold MAX_LINEAGE_DEPTH; lia|by intros ? ?%elem_of_nil|constructor].
Qed.

Lemma verified_proven x : context_ok x ->
  forall compact key row, (compact, artifact, key) ∈ ctx_verified x -> manifest_at p artifact compact key = Some row ->
    proven key compact row.
Proof.
  intros [Hx _ Hs].
  assert (forall l, closures_ok p l -> forall compact key row, compact ∈ l.*1 ->
    (compact, artifact, key) ∈ ctx_verified x -> manifest_at p artifact compact key = Some row -> proven key compact row) as Hl.
  { induction 1 as [|l c cl allowed _ IH Hv Hsrc]; intros compact key row Hin Hver Hrow; [by apply elem_of_nil in Hin|].
    rewrite fmap_app in Hin. apply elem_of_app in Hin as [Hin|Hin%list_elem_of_singleton]; [by apply IH|]. cbn in Hin. subst c.
    destruct (Hs _ _ Hver) as (al & cl' & row' & data & n & Hv' & _ & Hrow' & Hd & Hn & Hneed & He).
    rewrite Hrow in Hrow'. injection Hrow' as <-. rewrite (verify_closure_unique p compact al allowed cl' cl Hv' Hv) in He.
    destruct He as [[Ho (m & Hm & Hev)]|(anchor & m & Ha & Hm & Hev & [Hw|Hw%elem_of_nil])]; [| |done].
    - destruct Hneed as [Hp|Hp]; [|by cbn in Hp]. eapply proven_leaf; [exact Hv|exact Hd|exact Ho|exact Hm|exact Hev|exact Hn|exact Hp].
    - eapply proven_anchor; [exact Hv|exact Ha|exact Hm|exact Hev|]. apply IH; [by apply Hsrc|done|done]. }
  intros compact key row Hver Hrow. eapply Hl; [apply Hx| |done|done].
  by destruct (Hs _ _ Hver) as (? & ? & ? & ? & ? & _ & ? & _).
Qed.

Lemma verify_presence_spec r : returns (verify_presence p artifact r) (fun _ =>
  forall data key n, required r data key = Some n -> present_rows p artifact data key = n).
Proof.
  eapply returns_mono; [apply returns_fail_if|]. intros u H data key n. cbn in H. unfold required.
  destruct (List.find _ r) as [q|] eqn:E; [|done]. intros [= <-]. apply find_some_in in E as [Hin Eq].
  pose proof (existsb_false_in _ _ _ H Hin) as Hq. cbn in Hq. tests. by subst.
Qed.

Lemma verify_claims_returns claims x :
  context_ok x -> (forall q, q ∈ claims -> manifest_at p artifact q.1.1 q.1.2 = Some q.2) ->
  returns (verify_compact_partition_claims json_loads p artifact claims x) (fun x' =>
    context_ok x' /\ forall q, q ∈ claims -> proven q.1.2 q.1.1 q.2).
Proof.
  intros [Hx Hidle Hs] Hrow. unfold verify_compact_partition_claims.
  eapply returns_bind; [apply (claims_loop_returns (claim_id <$> ((fun q => MkClaim [q.1.1] q.1.1 q.1.2 q.2) <$> claims)) _ 1)|].
  - split; [done|done| |by intros ? ?%elem_of_nil|by intros ? ?%elem_of_nil| |].
    + intros c (q & -> & Hq)%list_elem_of_fmap. split; cbn; [exists []; split; [done|by intros ? ?%elem_of_nil]|apply NoDup_singleton|done|by apply Hrow].
    + intros c key Hin. eapply entry_mono; [by split| |by apply Hs]. by intros ? ?%elem_of_nil.
    + intros q Hq. right. unfold waiting. cbn. by rewrite app_nil_r.
  - unfold provenance_turns. lia.
  - intros [r x'] (k & [Hx' Hidle' _ _ _ Hj Hc]). cbn [fst snd] in *.
    eapply returns_bind; [apply verify_presence_spec|]. intros u Hpr. cbn in Hpr.
    assert (context_ok x') as Hok.
    { split; [done|done|]. intros c key Hin.
      destruct (Hj c key Hin) as (al & cl & row & data & n & H1 & H2 & H3 & H4 & H5 & H6 & H7).
      exists al, cl, row, data, n. do 5 (split; [done|]). split; [|done]. destruct H6 as [?|?]; left; auto. }
    cbn [returns]. split; [done|]. intros q Hq. eapply verified_proven; [done| |by apply Hrow].
    destruct (Hc (q.1.1, q.1.2)) as [Hin|Hin]; [|exact Hin|by apply elem_of_nil in Hin].
    apply list_elem_of_fmap. exists (MkClaim [q.1.1] q.1.1 q.1.2 q.2). split; [done|].
    apply list_elem_of_fmap. by exists q.
Qed.

(** What a proof of provenance gives: the rows of an ordinary generation. *)
Lemma proven_rows key compact row : proven key compact row ->
  exists data n, as_text (man_data_generation_id row) = Some data /\ row_count row = Ok n
    /\ present_rows p artifact data key = n.
Proof.
  induction 1 as [compact al c row data m n _ Hd _ _ _ Hn Hp|compact al c row anchor m _ _ _ He _ (data & n & Hd & Hn & Hp)].
  - eauto.
  - exists data, n. split; [by rewrite <- (ev_data _ _ He)|]. split; [|done].
    destruct (ev_count _ _ He) as (n' & E1 & E2). congruence.
Qed.
End Claims.
