(* ===== verification/LineageThms.v ===== *)
(** * Projection lineage: what a resolution promises

    The abstract specification of a reader: a partition belongs to the nearest
    generation of the base chain that has a manifest for it.  The resolver computes
    it or fails, never guesses, and the rows it points to exist. *)
From S2P Require Import Prelude PyValue FeeLedger FeeProps Lineage LineageProps.
#[local] Open Scope Z_scope.
#[local] Notation manifest := SettlementProjectionPartitionManifest.
#[local] Notation generation := SettlementProjectionGeneration.

(** ** Specification *)

(** A generation and its bases down to the root. *)
Inductive lineage (p : projectiondb) : string -> list generation -> Prop :=
| lineage_root id g : get_generation p id = Some g -> gen_base g = None -> lineage p id [g]
| lineage_base id g b rows :
    get_generation p id = Some g -> gen_base g = Some b -> lineage p b rows -> lineage p id (g :: rows).

Definition generation_name (g : generation) : string := strip (gen_id g).

(** The nearest generation with a manifest of the partition. *)
Fixpoint nearest (p : projectiondb) (artifact key : string) (rows : list generation) : option (generation * manifest) :=
  match rows with
  | [] => None
  | g :: rest =>
      match manifest_at p artifact (generation_name g) key with
      | Some m => Some (g, m)
      | None => nearest p artifact key rest
      end
  end.

Definition follows_nearest (p : projectiondb) (artifact : string) (rows : list generation) (key : string)
    (r : PartitionResolution) : Prop :=
  match nearest p artifact key rows with
  | None => res_owner r = None /\ res_data r = None /\ res_source_kind r = "legacy_root"
  | Some (g, m) =>
      res_owner r = Some (generation_name g) /\ res_data r = as_text (man_data_generation_id m)
      /\ as_text (Some (man_source_kind m)) = Some (res_source_kind r)
      /\ as_text (Some (man_owner_state m)) = Some (res_owner_state r)
  end.

(** Where the rows of an overlay come from: a generation of the lineage, or what the
    compact generation at its end proves. *)
Definition overlay_source (json_loads : string -> option pyval) (p : projectiondb) (artifact : string)
    (rows : list generation) (key : string) (g : generation) (m : manifest) (data : string) : Prop :=
  if opt_is (as_text (Some (gen_kind g))) "compact"
  then proven json_loads p artifact key (generation_name g) m
  else data ∈ generation_name <$> rows.
Definition backed (json_loads : string -> option pyval) (p : projectiondb) (artifact : string)
    (rows : list generation) (key : string) (r : PartitionResolution) : Prop :=
  res_source_kind r = "overlay" -> exists g m data n,
    nearest p artifact key rows = Some (g, m) /\ res_data r = Some data /\ row_count m = Ok n
    /\ n <= present_rows p artifact data key /\ overlay_source json_loads p artifact rows key g m data.

(** ** Keys and texts *)

Definition clean (s : string) : Prop := as_text (Some s) = Some s.

Lemma as_text_clean v s : as_text v = Some s -> clean s.
Proof.
  unfold clean. destruct v as [t|]; cbn; [|done]. unfold blank. destruct (str_eqb (strip t) "") eqn:E; [done|].
  intros [= <-]. by rewrite strip_idem, E.
Qed.
Lemma as_text_strip v s : as_text (Some v) = Some s -> s = strip v.
Proof. cbn. destruct (blank v); [done|]. by intros [= <-]. Qed.

Lemma bounded_keys_returns values : forall consumed seen,
  NoDup seen -> (forall k, k ∈ seen -> clean k) ->
  returns (bounded_keys consumed seen values) (fun keys => NoDup keys /\ forall k, k ∈ keys -> clean k).
Proof.
  induction values as [|v values IH]; intros consumed seen Hnd Hc; [done|]. cbn [bounded_keys].
  destruct (_ <? _); [apply returns_error|]. destruct (as_text (Some v)) as [key|] eqn:E; [|apply returns_error].
  destruct (str_in key seen) eqn:Ei; [by apply IH|]. apply bool_decide_eq_false in Ei.
  destruct (_ <? _); [apply returns_error|]. apply IH.
  - apply NoDup_app. split; [done|]. split; [set_solver|apply NoDup_singleton].
  - intros k [?|Hk%list_elem_of_singleton]%elem_of_app; [by apply Hc|]. subst k. by eapply as_text_clean.
Qed.

Lemma find_filter_head {A} (P : A -> bool) l : List.find P l = head (List.filter P l).
Proof. induction l as [|a l IH]; [done|]. cbn. by destruct (P a). Qed.

(** ** The lineage *)

Lemma base_chain_lineage p : forall hops id g rest,
  base_chain hops p id = rest -> last rest = Some g -> gen_base g = None -> lineage p id rest.
Proof.
  induction hops as [|hops IH]; intros id g rest; cbn [base_chain];
    destruct (get_generation p id) as [h|] eqn:Eg; [|by intros <-| |by intros <-].
  - intros <- [= <-] E. by apply lineage_root.
  - destruct (gen_base h) as [b|] eqn:Eb; intros <-; [|intros [= <-] E; by apply lineage_root].
    destruct (base_chain hops p b) as [|h' l] eqn:El; [intros [= <-]; congruence|]. rewrite last_cons_cons. intros Hl E.
    eapply lineage_base; [done|done|]. by apply (IH b g).
Qed.

Lemma check_generation_spec pinned depth hop last_ previous ids g :
  returns (check_generation pinned depth hop last_ previous ids g) (fun id =>
    as_text (Some (gen_id g)) = Some id /\ id ∉ ids /\ (is_Some (gen_base g) -> as_text (gen_base g) <> None)
    /\ (hop = 0 -> id = pinned /\ as_text (Some (gen_state g)) = Some "published")
    /\ (opt_is (as_text (Some (gen_kind g))) "compact" = true -> last_ = true)).
Proof.
  unfold check_generation. destruct (as_text (Some (gen_id g))) as [id|]; [|apply returns_error].
  eapply returns_bind; [apply returns_fail_if|]. intros u1 H1. cbn in H1. apply bool_decide_eq_false in H1.
  eapply returns_bind; [apply returns_fail_if|]. intros u2 H2. cbn in H2.
  eapply returns_bind; [apply returns_fail_if|]. intros u3 _.
  eapply (returns_bind _ _ (fun _ => opt_is (as_text (Some (gen_kind g))) "compact" = true -> last_ = true)).
  { destruct (opt_is _ "compact") eqn:Ek.
    - eapply returns_bind; [apply returns_fail_if|]. intros u H. cbn in H. apply negb_false_iff in H.
      eapply returns_bind; [apply returns_fail_if|]. intros u' _. by eapply returns_mono; [apply returns_fail_if|].
    - eapply returns_bind; [apply returns_fail_if|]. intros u _. by eapply returns_mono; [apply returns_fail_if|]. }
  intros u4 H4. eapply (returns_bind _ _ (fun _ => hop = 0 -> id = pinned /\ as_text (Some (gen_state g)) = Some "published")).
  { destruct (Z.eqb_spec hop 0); (eapply returns_mono; [apply returns_fail_if|]); intros u H; cbn in H; [|done].
    intros _. by tests. }
  intros u5 H5. eapply returns_bind; [apply returns_fail_if|]. intros u6 _.
  eapply (returns_bind _ _ (fun _ => True)); [destruct previous; [by eapply returns_mono; [apply returns_fail_if|]|done]|].
  intros u7 _. cbn. repeat split; try done; try by apply H5.
  intros Hb E. apply andb_false_iff in H2 as [H2|H2]; by apply bool_decide_eq_false in H2.
Qed.

Record rows_ok (rows : list generation) : Prop := {
  ro_clean : forall g, g ∈ rows -> as_text (Some (gen_id g)) = Some (generation_name g);
  ro_bases : forall g, g ∈ rows -> is_Some (gen_base g) -> as_text (gen_base g) <> None;
  ro_compact : forall g l l', rows = l ++ g :: l' -> opt_is (as_text (Some (gen_kind g))) "compact" = true -> l' = [];
  ro_nodup : NoDup (generation_name <$> rows);
}.

Lemma check_lineage_returns pinned depth rows : forall hop previous ids,
  NoDup ids -> 0 <= hop ->
  returns (check_lineage pinned depth hop previous ids rows) (fun ids' =>
    ids' = ids ++ (generation_name <$> rows) /\ NoDup ids' /\ rows_ok rows
    /\ (hop = 0 -> forall g rest, rows = g :: rest ->
          generation_name g = pinned /\ as_text (Some (gen_state g)) = Some "published")).
Proof.
  induction rows as [|g rows IH]; intros hop previous ids Hnd Hh; cbn [check_lineage].
  { cbn. rewrite app_nil_r. repeat split; try done; try (by intros ? ?%elem_of_nil); [by intros ? [|? ?] ?|constructor]. }
  eapply returns_bind; [apply check_generation_spec|]. intros id (Ht & Hid & Hb & H0 & Hk).
  eapply returns_mono; [apply (IH (hop + 1) (Some g) (ids ++ [id])); [|lia]|].
  { apply NoDup_app. split; [done|]. split; [|apply NoDup_singleton]. intros y Hy Ey%list_elem_of_singleton. by subst y. }
  intros ids' (-> & Hnd' & [Hc Hbs Hcm Hn] & _). pose proof (as_text_strip _ _ Ht) as ->.
  rewrite fmap_cons, <- app_assoc in *. split; [done|]. split; [done|]. split.
  - split.
    + intros h [->|Hin]%elem_of_cons; [done|by apply Hc].
    + intros h [->|Hin]%elem_of_cons; [done|by apply Hbs].
    + intros h l l' E Hcp. destruct l as [|h' l]; cbn in E; injection E as <- ->.
      * specialize (Hk Hcp). by apply bool_decide_eq_true in Hk.
      * by eapply Hcm.
    + apply NoDup_app in Hnd' as (_ & _ & Hnd'). done.
  - intros -> h rest [= <- <-]. destruct (H0 eq_refl) as [<- ?]. done.
Qed.

(** ** The index of manifests *)

Definition manifest_id (m : manifest) : string * string := (man_generation_id m, man_partition_key m).
Definition indexed (m : manifest) : string * string * manifest := (manifest_id m, m).

Lemma indexed_ids l : (indexed <$> l).*1 = manifest_id <$> l.
Proof. induction l as [|m l IH]; [done|]. cbn. by rewrite IH. Qed.

Lemma find_manifest_none d g k : find_manifest d g k = None -> (g, k) ∉ d.*1.
Proof.
  unfold find_manifest. destruct (List.find _ d) as [?|] eqn:E; [done|]. intros _ (q & Eq & Hq)%list_elem_of_fmap.
  pose proof (List.find_none _ _ E q ltac:(by apply list_elem_of_In)) as H. destruct q as [[g' k'] m]. cbn in Eq. injection Eq as -> ->.
  cbn in H. by rewrite !str_eqb_refl in H.
Qed.

Lemma find_manifest_indexed l g k :
  find_manifest (indexed <$> l) g k
  = head (List.filter (fun m => str_eqb (man_generation_id m) g && str_eqb (man_partition_key m) k) l).
Proof.
  unfold find_manifest. induction l as [|m l IH]; [done|]. cbn. by destruct (str_eqb _ g && str_eqb _ k).
Qed.

(** Within the generations and keys of the query, the index is the table. *)
Lemma index_table p artifact generations keys g k :
  g ∈ generations -> k ∈ keys ->
  find_manifest (indexed <$> manifests_of p artifact generations keys) g k = manifest_at p artifact g k.
Proof.
  intros Hg Hk. rewrite find_manifest_indexed. unfold manifests_of, manifest_at, manifests_at. rewrite filter_filter. f_equal.
  apply filter_ext_elem. intros m _. unfold str_in.
  destruct (str_eqb (man_artifact m) artifact); cbn; [|done].
  destruct (str_eqb (man_generation_id m) g) eqn:E1; cbn; [|by rewrite andb_false_r].
  destruct (str_eqb (man_partition_key m) k) eqn:E2; cbn; [|by rewrite andb_false_r].
  tests. subst. by rewrite !bool_decide_true.
Qed.

(** The identity of a row is unique, so that the row is the one its identity finds. *)
Lemma indexed_found p artifact generations keys m :
  let l := manifests_of p artifact generations keys in
  NoDup (manifest_id <$> l) -> m ∈ l -> manifest_at p artifact (man_generation_id m) (man_partition_key m) = Some m.
Proof.
  intros l Hnd Hm. pose proof Hm as Hin. apply list_elem_of_In, filter_In in Hin as [_ Hin]. tests.
  rewrite <- (index_table p artifact generations keys) by (by eapply bool_decide_eq_true_1). rewrite find_manifest_indexed.
  rewrite <- find_filter_head. fold l.
  destruct (List.find _ l) as [m'|] eqn:E.
  - apply find_some_in in E as [Hin' E]. tests. f_equal. apply (fmap_NoDup_inj manifest_id l); [done|done|done|].
    unfold manifest_id. congruence.
  - pose proof (List.find_none _ _ E m ltac:(by apply list_elem_of_In)) as H'. cbn in H'. by rewrite !str_eqb_refl in H'.
Qed.

Definition owned_overlay (m : manifest) : bool :=
  opt_is (as_text (Some (man_owner_state m))) "owned" && opt_is (as_text (Some (man_source_kind m))) "overlay".

(** The rows that were indexed, and the claims among them. *)
Record index_ok (ids : list string) (compact : option string) (l : list manifest)
    (d claims : list (string * string * manifest)) : Prop := {
  io_index : d = indexed <$> l;
  io_nodup : NoDup (manifest_id <$> l);
  io_claims : forall q, q ∈ claims -> exists m, m ∈ l /\ q = indexed m;
  io_claimed : forall m, m ∈ l -> compact = Some (man_generation_id m) -> owned_overlay m = true -> indexed m ∈ claims;
  io_data : forall m, m ∈ l -> compact <> Some (man_generation_id m) -> as_text (Some (man_source_kind m)) = Some "overlay" ->
    exists data, as_text (man_data_generation_id m) = Some data /\ data ∈ ids;
  io_owned : forall m, m ∈ l -> as_text (Some (man_source_kind m)) = Some "overlay" -> owned_overlay m = true;
}.

Lemma validate_manifest_spec m ids bases u :
  validate_manifest m ids bases = Ok u -> as_text (Some (man_source_kind m)) = Some "overlay" ->
  owned_overlay m = true /\ exists data, as_text (man_data_generation_id m) = Some data /\ data ∈ ids.
Proof.
  unfold validate_manifest, owned_overlay. cbv zeta. intros H E. rewrite E in *. revert H.
  intros (? & _ & H)%result_bind_Ok. revert H. intros (? & _ & H)%result_bind_Ok. revert H. intros (n & _ & H)%result_bind_Ok.
  revert H. intros (? & H & _)%result_bind_Ok.
  destruct (opt_is _ "owned") eqn:Eo; cbn in *.
  - split; [done|]. apply fail_if_ok, negb_false_iff in H. unfold opt_in in H.
    destruct (as_text (man_data_generation_id m)); [|done]. eexists. split; [done|]. by apply bool_decide_eq_true in H.
  - destruct (opt_is _ "tombstone"); cbn in H; discriminate H.
Qed.

Lemma validate_named m ids bases : fails_named (validate_manifest m ids bases).
Proof. unfold validate_manifest. named. apply row_count_named. Qed.

Lemma index_ok_snoc ids compact l d claims claims' m :
  index_ok ids compact l d claims -> find_manifest d (man_generation_id m) (man_partition_key m) = None ->
  (claims' = claims \/ claims' = claims ++ [indexed m]) ->
  (compact = Some (man_generation_id m) -> owned_overlay m = true -> indexed m ∈ claims') ->
  (compact <> Some (man_generation_id m) -> as_text (Some (man_source_kind m)) = Some "overlay" ->
     exists data, as_text (man_data_generation_id m) = Some data /\ data ∈ ids) ->
  (as_text (Some (man_source_kind m)) = Some "overlay" -> owned_overlay m = true) ->
  index_ok ids compact (l ++ [m]) (d ++ [indexed m]) claims'.
Proof.
  intros [-> Hnd Hc Hcl Hd Ho] Hf Hcs H1 H2 H3.
  assert (forall q, q ∈ claims -> q ∈ claims') as Hsub by (destruct Hcs as [-> | ->]; [done|intros q; rewrite elem_of_app; by left]).
  split.
  - by rewrite fmap_app.
  - rewrite fmap_app. apply NoDup_app. split; [done|]. split; [|apply NoDup_singleton].
    intros q Hq Eq%list_elem_of_singleton. subst q. apply find_manifest_none in Hf. rewrite indexed_ids in Hf. by apply Hf.
  - intros q Hq. destruct Hcs as [-> | ->].
    + destruct (Hc q Hq) as (m' & Hm & ->). exists m'. split; [apply elem_of_app; by left|done].
    + apply elem_of_app in Hq as [Hq|Hq%list_elem_of_singleton].
      * destruct (Hc q Hq) as (m' & Hm & ->). exists m'. split; [apply elem_of_app; by left|done].
      * exists m. split; [apply elem_of_app; right; by apply list_elem_of_singleton|done].
  - intros m' [Hm|Hm%list_elem_of_singleton]%elem_of_app; [intros; by apply Hsub, Hcl|by subst m'].
  - intros m' [Hm|Hm%list_elem_of_singleton]%elem_of_app; [by apply Hd|by subst m'].
  - intros m' [Hm|Hm%list_elem_of_singleton]%elem_of_app; [by apply Ho|by subst m'].
Qed.

Lemma index_manifest_returns ids bases compact l d claims m :
  index_ok ids compact l d claims -> clean (man_generation_id m) -> clean (man_partition_key m) ->
  returns (index_manifest ids bases compact (d, claims) m) (fun s => index_ok ids compact (l ++ [m]) s.1 s.2).
Proof.
  intros Hok Hg Hk. unfold index_manifest. rewrite Hg, Hk.
  eapply returns_bind; [apply returns_fail_if|]. intros u _.
  eapply (returns_bind _ _ (fun claims' => (claims' = claims \/ claims' = claims ++ [indexed m])
    /\ (compact = Some (man_generation_id m) -> owned_overlay m = true -> indexed m ∈ claims')
    /\ (compact <> Some (man_generation_id m) -> as_text (Some (man_source_kind m)) = Some "overlay" ->
          exists data, as_text (man_data_generation_id m) = Some data /\ data ∈ ids)
    /\ (as_text (Some (man_source_kind m)) = Some "overlay" -> owned_overlay m = true))).
  - destruct (opt_is compact (man_generation_id m)) eqn:Ec.
    + apply opt_is_true in Ec. fold (owned_overlay m). destruct (owned_overlay m) eqn:Eo.
      * cbn. split; [by right|]. split; [intros; apply elem_of_app; right; by apply list_elem_of_singleton|done].
      * destruct (opt_is _ "tombstone" && opt_is _ "tombstone"); [|apply returns_error].
        eapply returns_bind; [apply returns_eq, validate_named|]. intros ? Hv. split; [by left|]. split; [done|].
        split; [done|]. intros E. destruct (validate_manifest_spec _ _ _ _ Hv E). congruence.
    + apply bool_decide_eq_false in Ec. eapply returns_bind; [apply returns_eq, validate_named|]. intros ? Hv.
      split; [by left|]. split; [done|]. split; intros; by destruct (validate_manifest_spec _ _ _ _ Hv).
  - intros claims' (H1 & H2 & H3 & H4). destruct (find_manifest d _ _) eqn:Ef; [apply returns_error|]. cbn.
    by apply (index_ok_snoc ids compact l d claims).
Qed.

Lemma index_manifests_returns ids bases compact l :
  (forall m, m ∈ l -> clean (man_generation_id m) /\ clean (man_partition_key m)) ->
  returns (fold_result (index_manifest ids bases compact) ([], []) l) (fun s => index_ok ids compact l s.1 s.2).
Proof.
  intros Hl.
  eapply returns_mono; [apply (returns_fold_rest _ (fun rest s => exists l1, l = l1 ++ rest /\ index_ok ids compact l1 s.1 s.2))|].
  - intros m rest [d claims] (l1 & -> & Hok). destruct (Hl m) as [Hg Hk]; [set_solver|].
    eapply returns_mono; [by apply index_manifest_returns|]. intros s Hs. exists (l1 ++ [m]). by rewrite <- app_assoc.
  - exists []. split; [done|]. split; cbn; [done|constructor|..]; by intros ? ?%elem_of_nil.
  - intros s (l1 & -> & Hok). by rewrite app_nil_r.
Qed.

(** ** Resolving a key *)

Lemma nearest_in p artifact key rows g m :
  nearest p artifact key rows = Some (g, m) -> g ∈ rows /\ manifest_at p artifact (generation_name g) key = Some m.
Proof.
  induction rows as [|h rows IH]; [done|]. cbn. destruct (manifest_at p artifact (generation_name h) key) eqn:E.
  - intros [= <- <-]. split; [by left|done].
  - intros [? ?]%IH. split; [by right|done].
Qed.

Lemma select_nearest p artifact key d rows : 
  (forall g, g ∈ rows -> as_text (Some (gen_id g)) = Some (generation_name g)) ->
  (forall g, g ∈ rows -> find_manifest d (generation_name g) key = manifest_at p artifact (generation_name g) key) ->
  forall hop, match nearest p artifact key rows with
    | Some (g, m) => exists hop', select_manifest d key hop rows = Some (generation_name g, hop', m)
    | None => select_manifest d key hop rows = None
    end.
Proof.
  induction rows as [|g rows IH]; intros Hc Hf hop; [done|]. cbn [nearest select_manifest].
  rewrite (Hc g), (Hf g) by left. destruct (manifest_at _ _ _ _); [by eexists|].
  apply IH; intros h Hh; [apply Hc|apply Hf]; by right.
Qed.

Lemma resolve_key_returns p artifact ids rows d key :
  (forall g, g ∈ rows -> as_text (Some (gen_id g)) = Some (generation_name g)) ->
  (forall g, g ∈ rows -> find_manifest d (generation_name g) key = manifest_at p artifact (generation_name g) key) ->
  returns (resolve_key artifact ids rows d key) (fun r => res_partition_key r = key /\ follows_nearest p artifact rows key r).
Proof.
  intros Hc Hf. pose proof (select_nearest p artifact key d rows Hc Hf 0) as Hs. unfold resolve_key, follows_nearest.
  destruct (nearest p artifact key rows) as [[g m]|]; [|by rewrite Hs].
  destruct Hs as [hop ->]. destruct (as_text (Some (man_source_kind m))) as [kind|]; [|apply returns_error].
  eapply returns_bind; [apply returns_fail_if|]. intros u _.
  destruct (as_text (Some (man_owner_state m))); [done|apply returns_error].
Qed.

(** A value for each key, in order. *)
Lemma fold_keys_returns (f : string -> result PartitionResolution) (P : string -> PartitionResolution -> Prop) keys :
  (forall key, key ∈ keys -> returns (f key) (P key)) ->
  returns (fold_result (fun acc key => let* r := f key in Ok (acc ++ [(key, r)])) [] keys) (fun resolved =>
    resolved.*1 = keys /\ forall q, q ∈ resolved -> P q.1 q.2).
Proof.
  intros Hf.
  eapply returns_mono; [apply (returns_fold_rest _ (fun rest acc => exists ks, keys = ks ++ rest /\ acc.*1 = ks
    /\ forall q, q ∈ acc -> P q.1 q.2))|].
  - intros key rest acc (ks & -> & E & Hq). eapply returns_bind; [apply Hf; set_solver|]. intros r Hr. cbn.
    exists (ks ++ [key]). rewrite <- app_assoc, fmap_app, E. split; [done|]. split; [done|].
    intros q [?|Eq%list_elem_of_singleton]%elem_of_app; [by apply Hq|by subst q].
  - exists []. split; [done|]. split; [done|]. by intros ? ?%elem_of_nil.
  - intros acc (ks & -> & E & Hq). by rewrite app_nil_r.
Qed.

Lemma row_count_nonneg m n : row_count m = Ok n -> 0 <= n.
Proof.
  unfold row_count, manifest_integer. intros (k & _ & H)%result_bind_Ok.
  revert H. intros (? & E%fail_if_ok & [= <-])%result_bind_Ok. by bool_to_prop.
Qed.

(** The overlays that an ordinary generation owns have the rows of their manifests. *)
Definition requires (compact : option string) (d : list (string * string * manifest)) (r : PartitionResolution)
    (acc : requirements) : Prop :=
  forall data owner, res_source_kind r = "overlay" -> res_data r = Some data -> res_owner r = Some owner ->
    compact <> Some owner -> exists m n, find_manifest d owner (res_partition_key r) = Some m /\ row_count m = Ok n
      /\ (0 < n -> (data, res_partition_key r, n) ∈ acc).

Lemma overlay_requirements_returns compact d l :
  returns (fold_result (overlay_requirement compact d) [] l) (fun acc => forall r, r ∈ l -> requires compact d r acc).
Proof.
  eapply returns_mono; [apply (returns_fold_all _ (fun _ => True) (requires compact d)); [|done]|by intros acc (_ & H & _)].
  intros acc r _ _.
  assert (forall acc', (forall q, q ∈ acc -> q ∈ acc') -> forall b, requires compact d b acc -> requires compact d b acc') as Hm.
  { intros acc' Hsub b Hb data owner H1 H2 H3 H4. destruct (Hb data owner H1 H2 H3 H4) as (m & n & ? & ? & ?). exists m, n. auto. }
  unfold overlay_requirement. destruct (str_eqb (res_source_kind r) "overlay") eqn:Ek; cbn.
  2: { split; [done|]. split; [|by apply Hm]. intros data owner E. apply bool_decide_eq_false in Ek. done. }
  destruct (res_data r) as [data|] eqn:Ed; cbn.
  2: { split; [done|]. split; [|by apply Hm]. intros data owner _ E. congruence. }
  destruct (res_owner r) as [owner|] eqn:Eo; [|apply returns_error].
  destruct (opt_is compact owner) eqn:Ec; cbn.
  { apply opt_is_true in Ec. split; [done|]. split; [|by apply Hm]. intros data' owner' _ _ E Hc. congruence. }
  destruct (find_manifest d owner (res_partition_key r)) as [m|] eqn:Ef; [|apply returns_error].
  eapply returns_bind; [apply returns_eq, row_count_named|]. intros n Hn. cbn. split; [done|].
  assert (forall q, q ∈ acc -> q ∈ if 0 <? n then acc ++ [(data, res_partition_key r, n)] else acc) as Hsub.
  { intros q Hq. destruct (0 <? n); [apply elem_of_app; by left|done]. }
  split; [|by apply Hm]. intros data' owner' _ E1 E2 _. rewrite Ed in E1. injection E1 as <-. rewrite Eo in E2. injection E2 as <-.
  exists m, n. split; [done|]. split; [done|]. intros Hpos. destruct (Z.ltb_spec 0 n); [|lia].
  apply elem_of_app. right. by apply list_elem_of_singleton.
Qed.

(** ** The resolver *)

Section Resolver.
Context (json_loads : string -> option pyval) (p : projectiondb) (artifact : string).

Definition resolved_ok (rows : list generation) (keys : list string) (s : list (string * PartitionResolution) * provenance)
  : Prop :=
  context_ok json_loads p artifact s.2 /\ s.1.*1 = keys
  /\ forall q, q ∈ s.1 -> follows_nearest p artifact rows q.1 q.2 /\ backed json_loads p artifact rows q.1 q.2.

Lemma manifest_at_in generation key m : manifest_at p artifact generation key = Some m ->
  m ∈ projection_manifests p /\ man_artifact m = artifact /\ man_generation_id m = generation /\ man_partition_key m = key.
Proof using Type.
  unfold manifest_at, manifests_at. intros H%head_Some_elem_of. apply list_elem_of_In, filter_In in H as [H E].
  tests. split; [by apply list_elem_of_In|done].
Qed.

Lemma in_manifests_of generations keys m :
  m ∈ manifests_of p artifact generations keys <->
  m ∈ projection_manifests p /\ man_artifact m = artifact /\ man_generation_id m ∈ generations /\ man_partition_key m ∈ keys.
Proof using Type.
  clear json_loads.
  unfold manifests_of. rewrite list_elem_of_In, filter_In, !andb_true_iff, str_eqb_true, list_elem_of_In.
  unfold str_in. rewrite !bool_decide_eq_true. naive_solver.
Qed.

(** The backing of one overlay of an ordinary lineage. *)
Lemma ordinary_backed rows keys final compact d claims needed key r :
  rows_ok rows -> last rows = Some final ->
  compact = (if opt_is (as_text (Some (gen_kind final))) "compact" then as_text (Some (gen_id final)) else None) ->
  index_ok (generation_name <$> rows) compact (manifests_of p artifact (generation_name <$> rows) keys) d claims ->
  (forall q, q ∈ claims -> compact <> None -> proven json_loads p artifact q.1.2 q.1.1 q.2) ->
  (forall data key n, (data, key, n) ∈ needed -> n <= present_rows p artifact data key) ->
  key ∈ keys -> res_partition_key r = key -> follows_nearest p artifact rows key r -> requires compact d r needed ->
  backed json_loads p artifact rows key r.
Proof.
  intros Hrows Hlast Hcompact [-> Hnd Hcl Hclaimed Hdata Howned] Hproven Hneeded Hkey Ekey Hnear Hreq Hkind.
  unfold follows_nearest in Hnear. destruct (nearest p artifact key rows) as [[g m]|] eqn:En.
  2: { destruct Hnear as (_ & _ & E). congruence. }
  destruct Hnear as (Eo & Ed & Ek & _). destruct (nearest_in _ _ _ _ _ _ En) as [Hg Hm].
  destruct (manifest_at_in _ _ _ Hm) as (Hin & Ha & Egm & Ekm).
  assert (generation_name g ∈ generation_name <$> rows) as Hgn by (by apply list_elem_of_fmap_2).
  assert (m ∈ manifests_of p artifact (generation_name <$> rows) keys) as Hmo.
  { apply in_manifests_of. split; [done|]. split; [done|]. split; congruence. }
  rewrite Hkind in Ek. pose proof (Howned m Hmo Ek) as Hov.
  assert (final ∈ rows) as Hfin by (apply last_Some_elem_of in Hlast; done).
  unfold backed, overlay_source.
  destruct (decide (compact = Some (generation_name g))) as [Hc|Hc].
  - assert (opt_is (as_text (Some (gen_kind g))) "compact" = true) as Hgk.
    { rewrite Hcompact in Hc. destruct (opt_is _ "compact") eqn:Ef; [|done].
      rewrite (ro_clean rows Hrows final Hfin) in Hc. injection Hc as Hc.
      assert (final = g) as <-; [|done]. by apply (fmap_NoDup_inj generation_name rows); [apply Hrows| | |]. }
    assert (proven json_loads p artifact key (generation_name g) m) as Hp.
    { rewrite <- Egm, <- Ekm. apply (Hproven (indexed m)); [|congruence]. apply Hclaimed; [done|congruence|done]. }
    destruct (proven_rows _ _ _ _ _ _ Hp) as (data & n & E1 & E2 & E3).
    exists g, m, data, n. split; [done|]. split; [congruence|]. split; [done|]. split; [lia|by rewrite Hgk].
  - assert (opt_is (as_text (Some (gen_kind g))) "compact" = false) as Hgk.
    { destruct (opt_is (as_text (Some (gen_kind g))) "compact") eqn:Ekc; [|done]. apply list_elem_of_split in Hg as (l1 & l2 & El).
      pose proof (ro_compact rows Hrows g l1 l2 El Ekc) as ->. rewrite El, last_snoc in Hlast. injection Hlast as <-.
      destruct Hc. rewrite Hcompact, Ekc. by apply (ro_clean rows Hrows). }
    destruct (Hdata m Hmo ltac:(congruence) Ek) as (data & Edm & Hd).
    destruct (Hreq data (generation_name g) Hkind ltac:(congruence) Eo Hc) as (m' & n & Em & En' & Hpos).
    rewrite Ekey, index_table, Hm in Em by done. injection Em as <-.
    exists g, m, data, n. split; [done|]. split; [congruence|]. split; [done|]. split; [|by rewrite Hgk].
    pose proof (row_count_nonneg _ _ En'). destruct (decide (0 < n)) as [Hn|Hn].
    + rewrite Ekey in Hpos. by apply Hneeded, Hpos.
    + assert (n = 0) as -> by lia. unfold present_rows. repeat case_match; lia.
Qed.

Lemma resolve_ordinary_returns keys pinned rows first final x :
  context_ok json_loads p artifact x -> (forall k, k ∈ keys -> clean k) ->
  base_chain (Z.to_nat MAX_LINEAGE_DEPTH) p pinned = rows -> head rows = Some first -> last rows = Some final ->
  returns (resolve_ordinary json_loads p artifact keys pinned rows first final x) (fun s =>
    lineage p pinned rows /\ as_text (Some (gen_state first)) = Some "published" /\ resolved_ok rows keys s).
Proof.
  intros Hx Hkeys Hchain Hfirst Hfinal. unfold resolve_ordinary. cbv zeta.
  eapply returns_bind; [apply returns_fail_if|]. intros u1 _. eapply returns_bind; [apply returns_fail_if|]. intros u2 _.
  eapply returns_bind; [apply check_lineage_returns; [constructor|done]|]. intros ids (-> & Hnd & Hrows & H0). cbn [app] in *.
  eapply (returns_bind _ _ (fun _ => as_text (gen_base final) = None)).
  { destruct (as_text (gen_base final)); [destruct (str_in _ _); apply returns_error|done]. }
  intros u3 Hbase. set (compact := if opt_is _ "compact" then _ else _).
  eapply (returns_bind _ _ (context_ok json_loads p artifact)).
  { destruct compact as [c|]; [|done]. destruct Hx as [Hi Hv Hs].
    eapply returns_bind; [apply verified_closure_returns; [done|rewrite Hv; apply closure_turns]|].
    intros [cl x'] ([Hi' Ev Evd Hc _] & _). cbn in *. split; [done|congruence|].
    intros c' key Hin. rewrite Evd in Hin. eapply entry_mono; [|by intros ? ?%elem_of_nil|by apply Hs].
    split; [intros e; by rewrite Evd|done|done]. }
  intros x1 Hx1. eapply returns_bind; [apply index_manifests_returns|].
  { intros m (_ & _ & Hg & Hk)%in_manifests_of. split; [|by apply Hkeys].
    apply list_elem_of_fmap in Hg as (g & -> & Hg). by eapply as_text_clean, (ro_clean rows Hrows). }
  intros [d claims] Hidx. cbn [fst snd] in Hidx.
  eapply (returns_bind _ _ (fun x' => context_ok json_loads p artifact x'
    /\ forall q, q ∈ claims -> compact <> None -> proven json_loads p artifact q.1.2 q.1.1 q.2)).
  { destruct compact as [c|] eqn:Ec; [|done]. eapply returns_mono; [apply verify_claims_returns; [done|]|naive_solver].
    intros q Hq. destruct (io_claims _ _ _ _ _ Hidx q Hq) as (m & Hm & ->). cbn. eapply indexed_found; [|done]. apply Hidx. }
  intros x2 [Hx2 Hproven].
  assert (forall g key, g ∈ rows -> key ∈ keys -> find_manifest d (generation_name g) key
    = manifest_at p artifact (generation_name g) key) as Hfind.
  { intros g key Hg Hk. rewrite (io_index _ _ _ _ _ Hidx). apply index_table; [by apply list_elem_of_fmap_2|done]. }
  eapply returns_bind; [apply (fold_keys_returns _ (fun key r => res_partition_key r = key /\ follows_nearest p artifact rows key r));
    intros key Hk; apply resolve_key_returns; [apply Hrows|intros g Hg; by apply Hfind]|].
  intros resolved [Eks Hres]. eapply returns_bind; [apply overlay_requirements_returns|]. intros needed Hneed. cbn in Hneed.
  eapply returns_bind; [apply returns_fail_if|]. intros u4 Hpres. cbn in Hpres.
  cbn [returns]. split; [|split; [|split; [done|split; [done|]]]].
  - eapply base_chain_lineage; [done|done|]. destruct (gen_base final) eqn:Eb; [|done].
    destruct (ro_bases rows Hrows final); [by apply last_Some_elem_of|by eexists|congruence].
  - destruct rows as [|g rest]; [done|]. injection Hfirst as ->. by eapply H0.
  - intros q Hq. destruct (Hres q Hq) as [Ek Hn]. split; [done|].
    assert (q.1 ∈ keys) as Hk by (rewrite <- Eks; by apply list_elem_of_fmap_2).
    eapply (ordinary_backed rows keys final compact d claims needed); try done.
    + intros data key n Hin. pose proof (existsb_false_in _ _ _ Hpres Hin) as H. cbn in H. by bool_to_prop.
    + apply Hneed. by apply list_elem_of_fmap_2.
Qed.

(** ** A compact head *)

Lemma index_head_returns pinned l :
  (forall m, m ∈ l -> man_generation_id m = pinned /\ clean (man_partition_key m)) ->
  returns (fold_result (index_head pinned) [] l) (fun d => d = indexed <$> l /\ NoDup (manifest_id <$> l)).
Proof.
  intros Hl.
  eapply returns_mono; [apply (returns_fold_rest _ (fun rest d => exists l1, l = l1 ++ rest /\ d = indexed <$> l1
    /\ NoDup (manifest_id <$> l1)))|].
  - intros m rest d (l1 & -> & -> & Hnd). destruct (Hl m) as [Hg Hk]; [set_solver|]. unfold index_head. rewrite Hk.
    destruct (find_manifest _ _ _) eqn:Ef; [apply returns_error|]. cbn. exists (l1 ++ [m]).
    rewrite <- app_assoc, !fmap_app. split; [done|]. split; [cbn; unfold indexed at 3, manifest_id; by rewrite Hg|].
    apply NoDup_app. split; [done|]. split; [|apply NoDup_singleton].
    intros q Hq Eq%list_elem_of_singleton. subst q. apply find_manifest_none in Ef. rewrite indexed_ids in Ef. apply Ef.
    unfold manifest_id in Hq. by rewrite Hg in Hq.
  - exists []. split; [done|]. split; [done|constructor].
  - intros d (l1 & -> & -> & Hnd). by rewrite app_nil_r.
Qed.

(** The resolution of a manifest row of the head, and the claim it makes. *)
Lemma compact_resolution_returns pinned key m :
  returns (compact_resolution artifact pinned key m) (fun s =>
    res_owner s.1 = Some pinned /\ res_data s.1 = as_text (man_data_generation_id m)
    /\ as_text (Some (man_source_kind m)) = Some (res_source_kind s.1)
    /\ as_text (Some (man_owner_state m)) = Some (res_owner_state s.1)
    /\ (forall q, q ∈ s.2 -> q = (pinned, key, m)) /\ (res_source_kind s.1 = "overlay" -> (pinned, key, m) ∈ s.2)).
Proof.
  unfold compact_resolution. cbv zeta. eapply returns_bind; [apply returns_fail_if|]. intros u _.
  destruct (opt_is _ "tombstone" && opt_is _ "tombstone") eqn:Et.
  - eapply returns_bind; [apply returns_fail_if|]. intros u1 H1. cbv beta in H1.
    eapply returns_bind; [apply returns_eq, row_count_named|]. intros n _. eapply returns_bind; [apply returns_fail_if|].
    intros u2 _. cbn [returns fst snd res_owner res_data res_source_kind res_owner_state]. tests. repeat split; try done; try by intros q ?%elem_of_nil.
    destruct (as_text (man_data_generation_id m)) as [data|]; [|done].
    match goal with H : ~ is_Some (Some data) |- _ => by destruct H end.
  - eapply returns_bind; [apply returns_fail_if|]. intros u1 H1. cbv beta in H1.
    destruct (as_text (man_data_generation_id m)) as [data|]; [|apply returns_error].
    eapply returns_bind; [apply returns_fail_if|]. intros u2 _. cbn [returns fst snd res_owner res_data res_source_kind res_owner_state]. tests. repeat split; try done.
    + by intros q ?%list_elem_of_singleton.
    + intros _. by apply list_elem_of_singleton.
Qed.

Lemma resolve_compact_returns keys pinned first x :
  context_ok json_loads p artifact x -> (forall k, k ∈ keys -> clean k) -> get_generation p pinned = Some first ->
  returns (resolve_compact_partitions json_loads p artifact keys pinned first x) (fun s =>
    lineage p pinned [first] /\ as_text (Some (gen_state first)) = Some "published" /\ resolved_ok [first] keys s).
Proof.
  intros Hx Hkeys Hget. unfold resolve_compact_partitions.
  eapply returns_bind; [apply returns_fail_if|]. intros u1 H1. cbv beta in H1. tests.
  destruct (as_text (gen_compaction_base first)) as [base|]; [|apply returns_error].
  eapply returns_bind; [apply returns_fail_if|]. intros u2 _. destruct Hx as [Hi Hv Hs].
  eapply returns_bind; [apply verified_closure_returns; [done|rewrite Hv; apply closure_turns]|].
  intros [cl x'] ([Hi' Ev Evd Hc _] & _). cbn [fst snd] in *.
  assert (context_ok json_loads p artifact x') as Hx'.
  { split; [done|congruence|]. intros c' key Hin. rewrite Evd in Hin.
    eapply entry_mono; [|by intros ? ?%elem_of_nil|by apply Hs]. split; [intros e; by rewrite Evd|done|done]. }
  eapply returns_bind; [apply returns_fail_if|]. intros u3 _.
  assert (generation_name first = pinned) as Hname.
  { match goal with H : as_text (Some (gen_id first)) = Some pinned |- _ => by apply as_text_strip in H end. }
  eapply returns_bind; [apply index_head_returns|].
  { intros m (_ & _ & Hg%list_elem_of_singleton & Hk)%in_manifests_of. split; [done|by apply Hkeys]. }
  intros d [-> Hnd].
  assert (forall key, key ∈ keys -> find_manifest (indexed <$> manifests_of p artifact [pinned] keys) pinned key
    = manifest_at p artifact pinned key) as Hfind by (intros key Hk; apply index_table; [by left|done]).
  eapply returns_bind.
  { apply (returns_fold_rest _ (fun rest s => exists ks, keys = ks ++ rest /\ s.1.*1 = ks
      /\ (forall q, q ∈ s.2 -> manifest_at p artifact q.1.1 q.1.2 = Some q.2)
      /\ (forall q, q ∈ s.1 -> follows_nearest p artifact [first] q.1 q.2
           /\ (res_source_kind q.2 = "overlay" -> exists m, manifest_at p artifact pinned q.1 = Some m /\ (pinned, q.1, m) ∈ s.2)))).
    2: { exists []. split; [done|]. split; [done|]. split; by intros ? ?%elem_of_nil. }
    intros key rest [res claims] (ks & Eks & E1 & E2 & E3). cbn [fst snd] in *. unfold compact_key.
    rewrite Hfind by (rewrite Eks; set_solver). cbn [fst snd].
    destruct (manifest_at p artifact pinned key) as [m|] eqn:Em.
    - eapply returns_bind; [apply compact_resolution_returns|]. intros [r cs] (R1 & R2 & R3 & R4 & R5 & R6). cbn [returns fst snd] in *.
      exists (ks ++ [key]). rewrite <- app_assoc, fmap_app, E1. split; [done|]. split; [done|]. split.
      + intros q [?|Hq%R5]%elem_of_app; [by apply E2|by subst q].
      + intros q [Hq|Hq%list_elem_of_singleton]%elem_of_app.
        * destruct (E3 q Hq) as [? Ho]. split; [done|]. intros (m' & ? & ?)%Ho. exists m'. split; [done|]. apply elem_of_app. by left.
        * subst q. cbn [fst snd]. split; [unfold follows_nearest; cbn [nearest]; rewrite Hname, Em; by rewrite Hname|]. intros Hk. exists m. split; [done|].
          apply elem_of_app. right. by apply R6.
    - cbn [returns fst snd]. exists (ks ++ [key]). rewrite <- app_assoc, fmap_app, E1. split; [done|]. split; [done|].
      split; [done|]. intros q [Hq|Hq%list_elem_of_singleton]%elem_of_app; [by apply E3|]. subst q. cbn.
      split; [unfold follows_nearest; cbn; rewrite Hname, Em; done|done]. }
  intros [res claims] (ks & -> & Eks & Hcl & Hres). cbn [fst snd] in *. rewrite app_nil_r in *.
  eapply (returns_bind _ _ (fun x'' => context_ok json_loads p artifact x''
    /\ forall q, q ∈ claims -> proven json_loads p artifact q.1.2 q.1.1 q.2)).
  { destruct claims as [|q claims]; [split; [done|by intros ? ?%elem_of_nil]|]. by apply verify_claims_returns. }
  intros x'' [Hx'' Hproven]. cbn [returns]. split; [|split; [done|]].
  { apply lineage_root; [done|]. destruct (gen_base first) as [b|]; [|done].
    match goal with H : ~ is_Some (Some b) |- _ => by destruct H end. }
  split; [done|]. split; [done|]. intros q Hq. destruct (Hres q Hq) as [Hn Ho]. split; [done|]. intros Hk.
  destruct (Ho Hk) as (m & Hm & Hin). pose proof (Hproven _ Hin) as Hp. cbn in Hp.
  destruct (proven_rows _ _ _ _ _ _ Hp) as (data & n & P1 & P2 & P3). unfold follows_nearest in Hn. cbn [nearest] in Hn.
  rewrite Hname, Hm in Hn. destruct Hn as (_ & Ed & _). exists first, m, data, n. cbn [nearest]. rewrite Hname, Hm.
  split; [done|]. split; [congruence|]. split; [done|]. split; [lia|].
  unfold overlay_source. rewrite Hname. 
  match goal with H : as_text (Some (gen_kind first)) = _ |- _ => rewrite H end. by rewrite opt_is_refl.
Qed.
End Resolver.

(** ** Theorems *)

Lemma lineage_unique p id rows rows' : lineage p id rows -> lineage p id rows' -> rows = rows'.
Proof.
  intros H. revert rows'. induction H as [id g Hg Hb|id g b rows Hg Hb _ IH]; intros rows' H'; inversion H'; subst; try congruence.
  f_equal; [congruence|]. apply IH. congruence.
Qed.

Lemma chain_head p hops id g rest : base_chain hops p id = g :: rest -> get_generation p id = Some g.
Proof. destruct hops; cbn; destruct (get_generation p id); [by intros [= <- _]|done|by intros [= <- _]|done]. Qed.

Lemma resolve_returns json_loads p artifact values id pinned x :
  as_text (Some id) = Some pinned -> clean artifact -> context_ok json_loads p artifact x ->
  returns (resolve_projection_partitions json_loads p artifact values (Some id) x) (fun s =>
    exists keys, bounded_partition_keys values = Ok keys /\ s.1.*1 = keys
      /\ (keys <> [] -> exists first rest, lineage p pinned (first :: rest)
            /\ as_text (Some (gen_state first)) = Some "published"
            /\ resolved_ok json_loads p artifact (first :: rest) keys s)).
Proof.
  intros Hid Ha Hx. unfold resolve_projection_partitions. rewrite Ha.
  eapply returns_bind; [apply returns_fail_if|]. intros u _.
  destruct (bounded_partition_keys values) as [keys|e] eqn:Ek.
  2: { pose proof (bounded_keys_returns values 0 [] ltac:(constructor) ltac:(by intros ? ?%elem_of_nil)) as H.
       unfold bounded_partition_keys in Ek. rewrite Ek in H. done. }
  pose proof (bounded_keys_returns values 0 [] ltac:(constructor) ltac:(by intros ? ?%elem_of_nil)) as H.
  unfold bounded_partition_keys in Ek. rewrite Ek in H. destruct H as [_ Hkeys]. cbn [result_bind].
  destruct keys as [|k keys']; [by exists []|]. rewrite Hid. set (keys := k :: keys') in *. cbv zeta.
  destruct (base_chain _ p pinned) as [|first rest] eqn:Ec; [apply returns_error|].
  destruct (last (first :: rest)) as [final|] eqn:El; [|apply returns_error].
  eapply returns_bind; [apply returns_fail_if|]. intros u1 _.
  destruct (opt_is _ "compact").
  - eapply returns_bind; [apply returns_fail_if|]. intros u2 H2. apply negb_false_iff, bool_decide_eq_true in H2.
    destruct rest; [|discriminate H2].
    eapply returns_mono; [apply resolve_compact_returns; [done|done|by eapply chain_head]|].
    intros s (Hl & Hp & Hr). exists keys. split; [done|]. split; [apply Hr|]. intros _. by exists first, [].
  - eapply returns_mono; [by apply resolve_ordinary_returns|]. intros s (Hl & Hp & Hr). exists keys. split; [done|].
    split; [apply Hr|]. intros _. by exists first, rest.
Qed.

Lemma resolve_found json_loads p artifact values id pinned res x :
  as_text (Some id) = Some pinned -> clean artifact ->
  resolve_projection_partitions json_loads p artifact values (Some id) no_provenance = Ok (res, x) ->
  bounded_partition_keys values = Ok (res.*1)
  /\ forall key r, (key, r) ∈ res -> exists rows, lineage p pinned rows
       /\ follows_nearest p artifact rows key r /\ backed json_loads p artifact rows key r.
Proof.
  intros Hid Ha H. pose proof (resolve_returns json_loads p artifact values id pinned no_provenance Hid Ha
    (no_provenance_ok json_loads p artifact)) as Hr. rewrite H in Hr. destruct Hr as (keys & Hk & <- & Hr). cbn [fst] in *.
  split; [done|]. intros key r Hin.
  destruct Hr as (first & rest & Hl & _ & _ & _ & Hq); [intros E; apply fmap_nil_inv in E; rewrite E in Hin; by apply elem_of_nil in Hin|].
  exists (first :: rest). split; [done|]. apply (Hq (key, r) Hin).
Qed.

(** C11: A resolution is the one the specification names: every requested key is
    resolved once, in order, and for the base chain of the pinned generation it names
    the nearest generation that has a manifest for the key, with the data generation
    and the source kind of that manifest; a key without one falls back to the legacy
    tables. *)
Theorem resolution_nearest json_loads p artifact values id pinned rows res x :
  as_text (Some id) = Some pinned -> clean artifact -> lineage p pinned rows ->
  resolve_projection_partitions json_loads p artifact values (Some id) no_provenance = Ok (res, x) ->
  bounded_partition_keys values = Ok (res.*1)
  /\ forall key r, (key, r) ∈ res -> follows_nearest p artifact rows key r.
Proof.
  intros Hid Ha Hl H. destruct (resolve_found _ _ _ _ _ _ _ _ Hid Ha H) as [Hk Hr]. split; [done|].
  intros key r (rows' & Hl' & Hn & _)%Hr. by rewrite (lineage_unique p pinned rows rows').
Qed.

(** C8: An overlay is never pointed to without its rows: the data generation of a
    resolved overlay holds at least as many rows of the partition as its manifest
    counts.  It belongs to the base chain, or the compact generation at the end of the
    chain proves it by a finite chain of captured manifests with the same checksum and
    totals, down to an ordinary generation. *)
Theorem overlay_rows_present json_loads p artifact values id pinned rows res x key r :
  as_text (Some id) = Some pinned -> clean artifact -> lineage p pinned rows ->
  resolve_projection_partitions json_loads p artifact values (Some id) no_provenance = Ok (res, x) ->
  (key, r) ∈ res -> backed json_loads p artifact rows key r.
Proof.
  intros Hid Ha Hl H Hin. destruct (resolve_found _ _ _ _ _ _ _ _ Hid Ha H) as [_ Hr].
  destruct (Hr key r Hin) as (rows' & Hl' & _ & Hb). by rewrite (lineage_unique p pinned rows rows').
Qed.

(** C18: Reading a projection ends, and it fails closed: whatever the generations,
    closures and manifests hold (cycles, missing rows, chains of compact generations),
    the resolver returns a resolution or raises [LineageError]; it never runs out of
    the turns that its bounds give it and never raises anything else. *)
Theorem resolution_fails_closed json_loads p artifact values pinned :
  match resolve_projection_partitions json_loads p artifact values pinned no_provenance with
  | Ok _ => True
  | Raise e => exists msg, e = LineageError msg
  end.
Proof.
  unfold resolve_projection_partitions. destruct (as_text (Some artifact)) as [a|] eqn:Ea; [|by eexists].
  destruct pinned as [id|].
  2: { destruct (fail_if _ _) as [[]|] eqn:E; [|destruct (str_in _ _); by simplify_eq/=; eexists]. cbn [result_bind].
       pose proof (bounded_keys_returns values 0 [] ltac:(constructor) ltac:(by intros ? ?%elem_of_nil)) as H.
       unfold bounded_partition_keys. by destruct (bounded_keys 0 [] values) as [[|? ?]|]. }
  destruct (as_text (Some id)) as [q|] eqn:Eid.
  - pose proof (resolve_returns json_loads p a values id q no_provenance Eid (as_text_clean _ _ Ea)
      (no_provenance_ok json_loads p a)) as H.
    unfold resolve_projection_partitions in H. rewrite (as_text_clean _ _ Ea), Eid in H.
    revert H. by destruct (result_bind _ _).
  - destruct (fail_if _ _) as [[]|] eqn:E; [|destruct (str_in _ _); by simplify_eq/=; eexists]. cbn [result_bind].
    pose proof (bounded_keys_returns values 0 [] ltac:(constructor) ltac:(by intros ? ?%elem_of_nil)) as H.
    unfold bounded_partition_keys. destruct (bounded_keys 0 [] values) as [[|? ?]|]; [done| |done]. by eexists.
Qed.
