(* ===== verification/LineageWitness.v ===== *)
(** * Projection lineage: examples

    A projection of three generations: a root with the rows of a month, a daily
    generation over it with the rows of the next month, and a compact generation that
    captured both, with a later generation on top of it. *)
From S2P Require Import Prelude PyValue FeeLedger Lineage LineageProps LineageThms.
#[local] Open Scope Z_scope.

Definition digest_a : string := text (repeat (Ascii.ascii_of_nat 97) 64).
Definition digest_b : string := text (repeat (Ascii.ascii_of_nat 98) 64).
Definition digest_d : string := text (repeat (Ascii.ascii_of_nat 100) 64).
Definition digest_c : string := text (repeat (Ascii.ascii_of_nat 99) 64).

Definition example_generations : list SettlementProjectionGeneration :=
  [ MkGeneration "g0" None "lineage" None "settlement" "superseded" 0 (Some digest_a) (Some "job0") digest_a [] (Some 1);
    MkGeneration "g1" (Some "g0") "lineage" None "settlement" "superseded" 1 (Some digest_b) (Some "job1") digest_b [] (Some 1);
    MkGeneration "c1" None "compact" (Some "g1") "settlement" "superseded" 0 (Some digest_c) (Some "job2") digest_c [] (Some 1);
    MkGeneration "g2" (Some "c1") "lineage" None "settlement" "published" 1 None (Some "job3") digest_d [] (Some 1) ].

Definition example_manifest (generation key : string) (data base head_ : option string) (n : Z) (sum : string)
  : SettlementProjectionPartitionManifest :=
  MkManifest generation "monthly" key "owned" "overlay" data base head_ (PInt n) (PInt 700) (PDict [("1", PInt n)]) (Some sum).

Definition example_row (generation month store : string) : SettlementMonthlyOverlay :=
  MkMonthly generation month store "all" "all" month 1000 100 (-30) 0 0 0 false.

Definition example_projection : projectiondb :=
  MkProjectionDb example_generations
    [MkClosureRow "c1" "g0" digest_a; MkClosureRow "c1" "g1" digest_b]
    [MkActive "settlement" (Some "g2")]
    [ example_manifest "g0" "2026-08" (Some "g0") None None 2 digest_a;
      example_manifest "g1" "2026-09" (Some "g1") (Some "g0") None 1 digest_b;
      example_manifest "c1" "2026-08" (Some "g0") None (Some "c1") 2 digest_a;
      example_manifest "c1" "2026-09" (Some "g1") None (Some "c1") 1 digest_b;
      example_manifest "g2" "2026-10" (Some "g2") (Some "c1") None 1 digest_c ]
    [ example_row "g0" "2026-08" "s1"; example_row "g0" "2026-08" "s2"; example_row "g1" "2026-09" "s1";
      example_row "g2" "2026-10" "s1" ]
    [] [].

Definition no_json (s : string) : option pyval := None.

Example example_active : active_generation_id example_projection = Ok (Some "g2").
Proof. vm_compute. reflexivity. Qed.

(** The new month is read from the head, the older ones through the compact generation. *)
Example example_resolved :
  match resolve_projection_partitions no_json example_projection "monthly" ["2026-10"; "2026-08"; "2026-07"] (Some "g2")
          no_provenance with
  | Ok (res, _) => (fun q => (q.1, res_owner q.2, res_data q.2)) <$> res
  | Raise _ => []
  end = [("2026-10", Some "g2", Some "g2"); ("2026-08", Some "c1", Some "g0"); ("2026-07", None, None)].
Proof. vm_compute. reflexivity. Qed.

(** Without a row of the root, its month cannot be read at all. *)
Example example_missing :
  resolve_projection_partitions no_json
    (MkProjectionDb example_generations (projection_closures example_projection) [] (projection_manifests example_projection)
       [example_row "g0" "2026-08" "s1"] [] []) "monthly" ["2026-08"] (Some "g2") no_provenance
  = Raise (LineageError "compact source row count does not match manifest").
Proof. vm_compute. reflexivity. Qed.

Lemma example_lineage : lineage example_projection "g2"
  [ MkGeneration "g2" (Some "c1") "lineage" None "settlement" "published" 1 None (Some "job3") digest_d [] (Some 1);
    MkGeneration "c1" None "compact" (Some "g1") "settlement" "superseded" 0 (Some digest_c) (Some "job2") digest_c [] (Some 1) ].
Proof. eapply lineage_base; [reflexivity|reflexivity|]. by apply lineage_root. Qed.

Definition example_rows : list SettlementProjectionGeneration :=
  [ MkGeneration "g2" (Some "c1") "lineage" None "settlement" "published" 1 None (Some "job3") digest_d [] (Some 1);
    MkGeneration "c1" None "compact" (Some "g1") "settlement" "superseded" 0 (Some digest_c) (Some "job2") digest_c [] (Some 1) ].
Definition example_answer : list (string * PartitionResolution) * provenance :=
  match resolve_projection_partitions no_json example_projection "monthly" ["2026-10"; "2026-08"; "2026-07"] (Some "g2")
          no_provenance with
  | Ok s => s
  | Raise _ => ([], no_provenance)
  end.
Lemma example_answered :
  resolve_projection_partitions no_json example_projection "monthly" ["2026-10"; "2026-08"; "2026-07"] (Some "g2")
    no_provenance = Ok (example_answer.1, example_answer.2).
Proof. vm_compute. reflexivity. Qed.

Lemma resolution_nearest_witness :
  bounded_partition_keys ["2026-10"; "2026-08"; "2026-07"] = Ok (example_answer.1.*1)
  /\ forall key r, (key, r) ∈ example_answer.1 -> follows_nearest example_projection "monthly" example_rows key r.
Proof.
  apply (resolution_nearest no_json example_projection "monthly" ["2026-10"; "2026-08"; "2026-07"] "g2" "g2" example_rows
    example_answer.1 example_answer.2); [vm_compute; reflexivity|vm_compute; reflexivity|exact example_lineage|exact example_answered].
Defined.

Lemma overlay_rows_present_witness :
  backed no_json example_projection "monthly" example_rows "2026-08"
    (MkResolution "monthly" "2026-08" (Some "c1") (Some "g0") "overlay" "owned" 1 ["g2"; "c1"] []).
Proof.
  apply (overlay_rows_present no_json example_projection "monthly" ["2026-10"; "2026-08"; "2026-07"] "g2" "g2" example_rows
    example_answer.1 example_answer.2); [vm_compute; reflexivity|vm_compute; reflexivity|exact example_lineage|exact example_answered|].
  apply (list_elem_of_lookup_2 _ 1). vm_compute. reflexivity.
Defined.
