(* ===== verification/BillingSources.v ===== *)
(** * Frozen billing sources

    apps/worker/billing_source_capture.py: the sources of the bills of a publication
    are written once, a bundle for each store and month, with a marker that counts
    and fingerprints them, and are read back from the bundles alone.

    [collect_billing_sources], which reads the sources from the ledger under the slot
    locks, is the caller's argument here. *)
From S2P Require Import Prelude PyValue Jobs FeeTables FeeLedger Statements.
#[local] Open Scope Z_scope.
#[local] Set Default Proof Using "Type".

(** ** A source with its display snapshot *)

Record source_snapshot := MkSourceSnapshot {
  sn_order_status : option string;
  sn_coupon_status : option string;
  sn_product_name : option string;
  sn_sku_id : option string;
  sn_sku_name : option string;
  sn_sale_channel : option string;
  sn_sale_store_id : option string;
  sn_sale_store : option string;
  sn_verify_store_id : option string;
  sn_verify_store : option string;
  sn_sale_time : option instant;
  sn_verify_time : option instant;
  sn_received_amount_cent : option Z;
  sn_fee_rate : option Z;
  sn_refund_at : option instant;
  sn_adjustment_type : option Z;
}.

Record BillingSource := MkBillingSource {
  bs_core : StatementSource;
  bs_snapshot : source_snapshot;
}.

Definition bs_identity (x : BillingSource) : Z * string := (ss_source_type (bs_core x), ss_source_record_id (bs_core x)).
Definition bs_slot (x : BillingSource) : string * string := (ss_store_id (bs_core x), ss_posting_month (bs_core x)).

(** ** Tables *)

Record SettlementBillingSourceBundle := MkBundle {
  bun_generation_id : string;
  bun_store_id : string;
  bun_statement_month : string;
  bun_source_job_id : string;
  bun_source_fingerprint : string;
  bun_sources : list pyval;
}.

(** A [JobEvent] of type "settlement_billing_sources_frozen". *)
Record FrozenMarker := MkMarker {
  mrk_event_id : string;
  mrk_job_id : string;
  mrk_generation_id : string;
  mrk_fingerprint : string;
  mrk_source_count : Z;
  mrk_bundle_count : Z;
}.

Record capturedb := MkCaptureDb {
  billing_bundles : list SettlementBillingSourceBundle;
  frozen_markers : list FrozenMarker;
}.
#[export] Instance eta_capturedb : Eta capturedb := fun x => MkCaptureDb (billing_bundles x) (frozen_markers x).

Definition BillingSourceDriftError (msg : string) : exn := NamedError "BillingSourceDriftError" msg.

(** ** Orders *)

(** Ordered by a key first, and among equal keys by another order. *)
Definition lex {A B} (f : A -> B) (R : relation B) (S : relation A) : relation A := fun a b =>
  (f a <> f b /\ R (f a) (f b)) \/ (f a = f b /\ S a b).

(** A store and a month. *)
Definition slot_before : relation (string * string) := lex fst String.le (fun a b => String.le a.2 b.2).
#[export] Instance slot_before_dec a b : Decision (slot_before a b).
Proof. unfold slot_before, lex. apply _. Defined.

(** The slot first, then the type and the record. *)
Definition payload_before : relation BillingSource :=
  lex bs_slot slot_before (fun a b => source_order (bs_core a) (bs_core b)).
#[export] Instance payload_before_dec a b : Decision (payload_before a b).
Proof. unfold payload_before, lex. apply _. Defined.

(** ** The payload *)

Section Capture.
(** SHA-256 of a text, and of the canonical JSON of a value. *)
Context (hexdigest : string -> string) (digest : pyval -> string).
(** [str()] of a datetime and of a rate, and their readers. *)
Context (str_datetime : instant -> string) (fromisoformat : string -> option instant).
Context (str_rate : Z -> string) (read_rate : string -> option Z).

Definition text_json (o : option string) : pyval := match o with Some s => PStr s | None => PNone end.
Definition int_json (o : option Z) : pyval := match o with Some z => PInt z | None => PNone end.
Definition time_json (o : option instant) : pyval := match o with Some t => PStr (str_datetime t) | None => PNone end.
Definition rate_json (o : option Z) : pyval := match o with Some r => PStr (str_rate r) | None => PNone end.

(** [asdict(row)] after [json.dumps(..., default=str)] *)
Definition source_json (x : BillingSource) : pyval :=
  let c := bs_core x in
  let s := bs_snapshot x in
  PDict [ ("source_type", PInt (ss_source_type c)); ("source_record_id", PStr (ss_source_record_id c));
          ("original_fee_result_id", PStr (ss_original_fee_result_id c)); ("coupon_id", PStr (ss_coupon_id c));
          ("order_id", PStr (ss_order_id c)); ("fee_direction", PInt (ss_fee_direction c));
          ("original_business_month", PStr (ss_original_business_month c)); ("posting_month", PStr (ss_posting_month c));
          ("store_id", PStr (ss_store_id c)); ("product_scope", PStr (ss_product_scope c));
          ("product_type", PStr (ss_product_type c)); ("base_amount_cent", PInt (ss_base_amount_cent c));
          ("fee_amount_cent", PInt (ss_fee_amount_cent c)); ("source_amount_cent", PInt (ss_source_amount_cent c));
          ("rule_version", PStr (ss_rule_version c)); ("order_status", text_json (sn_order_status s));
          ("coupon_status", text_json (sn_coupon_status s)); ("product_name", text_json (sn_product_name s));
          ("sku_id", text_json (sn_sku_id s)); ("sku_name", text_json (sn_sku_name s));
          ("sale_channel", text_json (sn_sale_channel s)); ("sale_store_id", text_json (sn_sale_store_id s));
          ("sale_store", text_json (sn_sale_store s)); ("verify_store_id", text_json (sn_verify_store_id s));
          ("verify_store", text_json (sn_verify_store s)); ("sale_time", time_json (sn_sale_time s));
          ("verify_time", time_json (sn_verify_time s)); ("received_amount_cent", int_json (sn_received_amount_cent s));
          ("fee_rate", rate_json (sn_fee_rate s)); ("refund_at", time_json (sn_refund_at s));
          ("adjustment_type", int_json (sn_adjustment_type s)) ].

(** The fields of a stored row; a row of another shape is a [TypeError]. *)
Definition malformed {A} : result A := Raise (TypeError "StatementSource").
Definition row_text (k : string) (d : pydict) : result string :=
  match dict_lookup k d with Some (PStr s) => Ok s | _ => malformed end.
Definition row_int (k : string) (d : pydict) : result Z :=
  match dict_lookup k d with Some (PInt z) => Ok z | _ => malformed end.
Definition opt_field {A} (read : pyval -> result A) (k : string) (d : pydict) : result (option A) :=
  match dict_get k d with PNone => Ok None | v => let* a := read v in Ok (Some a) end.
Definition as_text_value (v : pyval) : result string := match v with PStr s => Ok s | _ => malformed end.
Definition as_int_value (v : pyval) : result Z := match v with PInt z => Ok z | _ => malformed end.
(** [datetime.fromisoformat] and [Decimal] *)
Definition as_time_value (v : pyval) : result instant :=
  match v with
  | PStr s => match fromisoformat s with Some t => Ok t | None => Raise (ValueError "Invalid isoformat string") end
  | _ => malformed
  end.
Definition as_rate_value (v : pyval) : result Z :=
  match v with
  | PStr s => match read_rate s with Some r => Ok r | None => Raise (NamedError "InvalidOperation" s) end
  | _ => malformed
  end.

Definition read_core (d : pydict) : result StatementSource :=
  let* f1 := row_int "source_type" d in
  let* f2 := row_text "source_record_id" d in
  let* f3 := row_text "original_fee_result_id" d in
  let* f4 := row_text "coupon_id" d in
  let* f5 := row_text "order_id" d in
  let* f6 := row_int "fee_direction" d in
  let* f7 := row_text "original_business_month" d in
  let* f8 := row_text "posting_month" d in
  let* f9 := row_text "store_id" d in
  let* f10 := row_text "product_scope" d in
  let* f11 := row_text "product_type" d in
  let* f12 := row_int "base_amount_cent" d in
  let* f13 := row_int "fee_amount_cent" d in
  let* f14 := row_int "source_amount_cent" d in
  let* f15 := row_text "rule_version" d in
  Ok (MkStatementSource f1 f2 f3 f4 f5 f6 f7 f8 f9 f10 f11 f12 f13 f14 f15).
Definition read_snapshot (d : pydict) : result source_snapshot :=
  let* f1 := opt_field as_text_value "order_status" d in
  let* f2 := opt_field as_text_value "coupon_status" d in
  let* f3 := opt_field as_text_value "product_name" d in
  let* f4 := opt_field as_text_value "sku_id" d in
  let* f5 := opt_field as_text_value "sku_name" d in
  let* f6 := opt_field as_text_value "sale_channel" d in
  let* f7 := opt_field as_text_value "sale_store_id" d in
  let* f8 := opt_field as_text_value "sale_store" d in
  let* f9 := opt_field as_text_value "verify_store_id" d in
  let* f10 := opt_field as_text_value "verify_store" d in
  let* f11 := opt_field as_time_value "sale_time" d in
  let* f12 := opt_field as_time_value "verify_time" d in
  let* f13 := opt_field as_int_value "received_amount_cent" d in
  let* f14 := opt_field as_rate_value "fee_rate" d in
  let* f15 := opt_field as_time_value "refund_at" d in
  let* f16 := opt_field as_int_value "adjustment_type" d in
  Ok (MkSourceSnapshot f1 f2 f3 f4 f5 f6 f7 f8 f9 f10 f11 f12 f13 f14 f15 f16).
Definition read_source (v : pyval) : result BillingSource :=
  match v with
  | PDict d => let* c := read_core d in let* s := read_snapshot d in Ok (MkBillingSource c s)
  | _ => malformed
  end.

(** [_payload] *)
Definition payload (sources : list BillingSource) : list pyval := source_json <$> merge_sort payload_before sources.

Definition slot_json (s : string * string) : pyval := PList [PStr s.1; PStr s.2].
(** [_fingerprint] of the rows of a bundle and of the whole input *)
Definition rows_fingerprint (rows : list pyval) : string := digest (PList rows).
Definition input_fingerprint (rows : list pyval) (slots : list (string * string)) : string :=
  digest (PDict [("sources", PList rows); ("slots", PList (slot_json <$> slots))]).

(** [_marker] *)
Definition marker_id (job generation : string) : string :=
  stable_business_id hexdigest "billing-source-manifest" [job; generation].
Definition marker (c : capturedb) (generation job : string) : option FrozenMarker :=
  List.find (fun m => str_eqb (mrk_event_id m) (marker_id job generation)) (frozen_markers c).

(** [load_billing_slots] *)
Definition bundle_slot (b : SettlementBillingSourceBundle) : string * string := (bun_store_id b, bun_statement_month b).
Definition bundle_before (a b : SettlementBillingSourceBundle) : Prop := slot_before (bundle_slot a) (bundle_slot b).
#[export] Instance bundle_before_dec a b : Decision (bundle_before a b).
Proof. unfold bundle_before. apply _. Defined.
Definition bundles_of (c : capturedb) (generation job : string) : list SettlementBillingSourceBundle :=
  merge_sort bundle_before
    (List.filter (fun b => str_eqb (bun_generation_id b) generation && str_eqb (bun_source_job_id b) job) (billing_bundles c)).
Definition load_billing_slots (c : capturedb) (generation job : string) : list (string * string) :=
  bundle_slot <$> bundles_of c generation job.

(** [load_billing_sources] *)
Definition load_billing_sources (c : capturedb) (generation job : string) : result (list BillingSource) :=
  match marker c generation job with
  | None => Raise (ValueError "frozen billing source manifest is missing")
  | Some m =>
      let bundles := bundles_of c generation job in
      let* _ := raise_if (existsb (fun b => negb (str_eqb (rows_fingerprint (bun_sources b)) (bun_source_fingerprint b))) bundles)
                  (ValueError "frozen billing source bundle changed") in
      let rows := mjoin (bun_sources <$> bundles) in
      let* _ := raise_if (negb (Z.of_nat (length bundles) =? mrk_bundle_count m)
                          || negb (Z.of_nat (length rows) =? mrk_source_count m)
                          || negb (str_eqb (input_fingerprint rows (bundle_slot <$> bundles)) (mrk_fingerprint m)))
                  (ValueError "frozen billing source manifest changed") in
      fold_result (fun l v => let* x := read_source v in Ok (l ++ [x])) [] rows
  end.

(** The identities of the sources are distinct. *)
Fixpoint duplicate_identity (seen : list (Z * string)) (sources : list BillingSource) : bool :=
  match sources with
  | [] => false
  | x :: rest => bool_decide (bs_identity x ∈ seen) || duplicate_identity (bs_identity x :: seen) rest
  end.

Definition slots_of (sources : list BillingSource) (slots : list (string * string)) : list (string * string) :=
  merge_sort slot_before (remove_dups (slots ++ (bs_slot <$> sources))).

(** The bundle of a slot. *)
Definition bundle (generation job : string) (sources : list BillingSource) (s : string * string)
  : SettlementBillingSourceBundle :=
  let rows := source_json <$> List.filter (fun x => bool_decide (bs_slot x = s)) (merge_sort payload_before sources) in
  MkBundle generation s.1 s.2 job (rows_fingerprint rows) rows.

Definition insert_bundle (c : capturedb) (b : SettlementBillingSourceBundle) : result capturedb :=
  if existsb (fun x => str_eqb (bun_generation_id x) (bun_generation_id b) && bool_decide (bundle_slot x = bundle_slot b))
       (billing_bundles c)
  then Raise (NamedError "IntegrityError" "settlement_billing_source_bundle")
  else Ok (c <| billing_bundles := billing_bundles c ++ [b] |>).

(** [freeze_billing_sources] *)
Definition freeze_billing_sources (c : capturedb) (generation job : string) (sources : list BillingSource)
    (slots : list (string * string)) : result (capturedb * string) :=
  let rows := payload sources in
  let all_slots := slots_of sources slots in
  let fingerprint := input_fingerprint rows all_slots in
  match marker c generation job with
  | Some m =>
      let* _ := raise_if (negb (str_eqb (mrk_fingerprint m) fingerprint))
                  (BillingSourceDriftError "billing sources changed after capture; create a new settlement rebuild job") in
      let* _ := load_billing_sources c generation job in
      Ok (c, fingerprint)
  | None =>
      let* _ := raise_if (duplicate_identity [] (merge_sort payload_before sources))
                  (ValueError "duplicate billing source identity") in
      let* c := fold_result insert_bundle c (bundle generation job sources <$> all_slots) in
      Ok (c <| frozen_markers := frozen_markers c
                ++ [MkMarker (marker_id job generation) job generation fingerprint (Z.of_nat (length rows))
                      (Z.of_nat (length all_slots))] |>, fingerprint)
  end.
End Capture.
