(* ===== verification/BillingSourceProps.v ===== *)
(** * Frozen billing sources: reading back what was frozen *)
From S2P Require Import Prelude PyValue Jobs FeeTables FeeLedger FeeProps Statements BillingSources.
#[local] Open Scope Z_scope.
#[local] Set Default Proof Using "Type".

(** ** Lexicographic orders *)

Section Lex.
Context {A B : Type} (f : A -> B) (R : relation B) (S : relation A).

Lemma lex_total `{EqDecision B} : Total R -> Total S -> Total (lex f R S).
Proof.
  intros HR HS a b. unfold lex. destruct (decide (f a = f b)) as [E|E].
  - destruct (HS a b); [left|right]; right; auto.
  - destruct (HR (f a) (f b)); [left|right]; left; auto.
Qed.
Lemma lex_trans : Transitive R -> AntiSymm (=) R -> Transitive S -> Transitive (lex f R S).
Proof.
  intros HR HA HS a b c [[N1 H1]|[E1 H1]] [[N2 H2]|[E2 H2]]; unfold lex.
  - left. split; [|by etrans]. intros E. apply N1. apply (HA (f a) (f b)); [done|by rewrite E].
  - left. by rewrite <- E2.
  - left. by rewrite E1.
  - right. split; [congruence|by etrans].
Qed.
End Lex.

#[export] Instance slot_before_total : Total slot_before.
Proof. apply lex_total; [apply _..|]. intros a b. apply (total String.le). Qed.
#[export] Instance slot_before_trans : Transitive slot_before.
Proof. apply lex_trans; [apply _..|]. intros a b c. apply (transitivity (R := String.le)). Qed.
#[export] Instance slot_before_antisymm : AntiSymm (=) slot_before.
Proof.
  intros [a1 a2] [b1 b2]. unfold slot_before, lex. cbn. intros [[N H]|[E H]] [[N' H']|[E' H']]; subst; try done.
  - by destruct N; apply (anti_symm String.le).
  - f_equal. by apply (anti_symm String.le).
Qed.
#[export] Instance source_order_total : Total source_order.
Proof.
  intros a b. unfold source_order. destruct (Z.lt_trichotomy (ss_source_type a) (ss_source_type b)) as [?|[?|?]]; [auto| |auto].
  destruct (total String.le (ss_source_record_id a) (ss_source_record_id b)); auto.
Qed.
#[export] Instance source_order_trans : Transitive source_order.
Proof.
  intros a b c. unfold source_order. intros [?|[? ?]] [?|[? ?]]; [left; lia|left; lia|left; lia|right].
  split; [lia|]. by etrans.
Qed.
#[export] Instance payload_before_total : Total payload_before.
Proof. apply lex_total; [apply _..|]. intros a b. apply (total source_order). Qed.
#[export] Instance payload_before_trans : Transitive payload_before.
Proof. apply lex_trans; [apply _..|]. intros a b c. apply (transitivity (R := source_order)). Qed.

(** Sorted sources fall into runs, one for each slot in order. *)
Lemma payload_slot a b : payload_before a b -> slot_before (bs_slot a) (bs_slot b).
Proof. intros [[_ H]|[-> _]]; [done|]. by right; split; [|reflexivity]. Qed.

Definition in_slot (s : string * string) (x : BillingSource) : bool := bool_decide (bs_slot x = s).

Lemma slot_leads s l : StronglySorted payload_before l -> (forall x, x ∈ l -> slot_before s (bs_slot x)) ->
  l = List.filter (in_slot s) l ++ List.filter (fun x => negb (in_slot s x)) l.
Proof.
  induction l as [|a l IH]; intros Hs Hl; [done|]. apply StronglySorted_inv in Hs as [Hs Ha]. cbn.
  destruct (in_slot s a) eqn:E; cbn.
  - f_equal. apply IH; [done|]. intros x Hx. apply Hl. by right.
  - assert (forall x, x ∈ l -> in_slot s x = false) as Hn.
    { intros x Hx. apply bool_decide_eq_false in E. apply bool_decide_eq_false. intros Ex. apply E.
      rewrite Forall_forall in Ha. apply (anti_symm slot_before); [|apply Hl; by left].
      rewrite <- Ex. by apply payload_slot, Ha. }
    rewrite (proj2 (lfilter_nil_iff _ _) Hn). cbn. f_equal. symmetry. apply filter_all, forallb_forall.
    intros x Hx%list_elem_of_In. by rewrite (Hn x Hx).
Qed.

Lemma sorted_filter {A} (R : relation A) (P : A -> bool) l : StronglySorted R l -> StronglySorted R (List.filter P l).
Proof.
  induction 1 as [|a l Hl IH Ha]; cbn; [constructor|]. destruct (P a); [|done]. constructor; [done|].
  apply Forall_forall. intros x Hx. apply list_elem_of_In, filter_In in Hx as [Hx%list_elem_of_In _].
  by eapply Forall_forall in Ha.
Qed.

Lemma runs ks : forall l,
  StronglySorted payload_before l -> StronglySorted slot_before ks -> NoDup ks -> (forall x, x ∈ l -> bs_slot x ∈ ks) ->
  mjoin ((fun s => List.filter (in_slot s) l) <$> ks) = l.
Proof.
  induction ks as [|s ks IH]; intros l Hl Hks Hnd Hin.
  { destruct l as [|x l]; [done|]. specialize (Hin x ltac:(by left)). by apply elem_of_nil in Hin. }
  apply StronglySorted_inv in Hks as [Hks Hs]. apply NoDup_cons in Hnd as [Hn Hnd]. rewrite Forall_forall in Hs.
  cbn. transitivity (List.filter (in_slot s) l ++ List.filter (fun x => negb (in_slot s x)) l); [|symmetry; apply slot_leads; [done|]].
  2: { intros x Hx. apply Hin, elem_of_cons in Hx as [->|Hx]; [by right; split; [|reflexivity]|by apply Hs]. }
  f_equal. etrans; [|apply (IH (List.filter (fun x => negb (in_slot s x)) l)); [by apply sorted_filter|done|done|]].
  - f_equal. apply list_fmap_ext. intros i k Hk. rewrite filter_filter. apply filter_ext_elem. intros x _.
    unfold in_slot. destruct (decide (bs_slot x = k)) as [E|E]; [|by rewrite (bool_decide_false _ E), andb_false_r].
    rewrite (bool_decide_true _ E), bool_decide_false; [done|]. intros E2. apply Hn. rewrite <- E2, E. by eapply list_elem_of_lookup_2.
  - intros x Hx. apply list_elem_of_In, filter_In in Hx as [Hx%list_elem_of_In Hb]. apply negb_true_iff, bool_decide_eq_false in Hb.
    by apply Hin, elem_of_cons in Hx as [?|?].
Qed.

(** ** Orders of the payload *)

Lemma source_order_identity (a b : BillingSource) :
  source_order (bs_core a) (bs_core b) -> source_order (bs_core b) (bs_core a) -> bs_identity a = bs_identity b.
Proof.
  unfold source_order, bs_identity. intros [?|[? ?]] [?|[? ?]]; try lia. f_equal; [done|]. by apply (anti_symm String.le).
Qed.
Lemma payload_identity a b : payload_before a b -> payload_before b a -> bs_identity a = bs_identity b.
Proof.
  intros H1 H2. assert (bs_slot a = bs_slot b) as E by (apply (anti_symm slot_before); by apply payload_slot).
  destruct H1 as [[? _]|[_ H1]]; [done|]. destruct H2 as [[? _]|[_ H2]]; [congruence|]. by apply source_order_identity.
Qed.

Lemma merged_unique l l' : NoDup (bs_identity <$> l) -> l' ≡ₚ l -> merge_sort payload_before l' = merge_sort payload_before l.
Proof.
  intros Hnd Hp. apply (StronglySorted_unique_strong payload_before).
  - intros a b Ha Hb H1 H2. rewrite merge_sort_Permutation, Hp in Ha. rewrite merge_sort_Permutation in Hb.
    eapply fmap_NoDup_inj; [done|done|done|]. by apply payload_identity.
  - apply StronglySorted_merge_sort; apply _.
  - apply StronglySorted_merge_sort; apply _.
  - by rewrite !merge_sort_Permutation.
Qed.

Lemma slots_of_sorted sources slots : StronglySorted slot_before (slots_of sources slots).
Proof. apply StronglySorted_merge_sort; apply _. Qed.
Lemma slots_of_nodup sources slots : NoDup (slots_of sources slots).
Proof. unfold slots_of. rewrite merge_sort_Permutation. apply NoDup_remove_dups. Qed.
Lemma elem_of_slots_of sources slots s : s ∈ slots_of sources slots <-> s ∈ slots \/ s ∈ bs_slot <$> sources.
Proof. unfold slots_of. by rewrite merge_sort_Permutation, elem_of_remove_dups, elem_of_app. Qed.
Lemma slots_of_unique sources slots sources' slots' :
  sources' ≡ₚ sources -> (forall s, s ∈ slots' <-> s ∈ slots) -> slots_of sources' slots' = slots_of sources slots.
Proof.
  intros Hp Hs. apply (StronglySorted_unique slot_before); [apply slots_of_sorted|apply slots_of_sorted|].
  apply NoDup_Permutation; [apply slots_of_nodup|apply slots_of_nodup|]. intros s. rewrite !elem_of_slots_of, Hs. by rewrite Hp.
Qed.

Lemma duplicates_none seen l : duplicate_identity seen l = false <->
  NoDup (bs_identity <$> l) /\ forall x, x ∈ l -> bs_identity x ∉ seen.
Proof.
  revert seen. induction l as [|a l IH]; intros seen; cbn.
  { split; [|done]. intros _. split; [constructor|by intros ? ?%elem_of_nil]. }
  rewrite orb_false_iff, bool_decide_eq_false, IH, NoDup_cons. setoid_rewrite elem_of_cons. split.
  - intros (Ha & Hnd & Hx). split; [split; [|done]|].
    + intros (x & E & Hin)%list_elem_of_fmap. apply (Hx x Hin). left. done.
    + intros x [->|Hin]; [done|]. intros Hs. apply (Hx x Hin). by right.
  - intros ((Hn & Hnd) & Hx). split; [apply Hx; by left|]. split; [done|]. intros x Hin [E|Hs].
    + apply Hn. apply list_elem_of_fmap. by exists x.
    + by apply (Hx x); [right|].
Qed.

(** ** Bundles *)

Section Capture.
Context (hexdigest : string -> string) (digest : pyval -> string).
Context (str_datetime : instant -> string) (fromisoformat : string -> option instant).
Context (str_rate : Z -> string) (read_rate : string -> option Z).
Hypothesis datetime_reads : forall t, fromisoformat (str_datetime t) = Some t.
Hypothesis rate_reads : forall r, read_rate (str_rate r) = Some r.
#[local] Notation source_json := (source_json str_datetime str_rate).
#[local] Notation read_source := (read_source fromisoformat read_rate).
#[local] Notation freeze := (freeze_billing_sources hexdigest digest str_datetime fromisoformat str_rate read_rate).
#[local] Notation load := (load_billing_sources hexdigest digest fromisoformat read_rate).
#[local] Notation bundle := (bundle digest str_datetime str_rate).
#[local] Notation marker := (marker hexdigest).

Lemma opt_text k d o : dict_get k d = text_json o -> opt_field as_text_value k d = Ok o.
Proof. unfold opt_field. intros ->. by destruct o. Qed.
Lemma opt_int k d o : dict_get k d = int_json o -> opt_field as_int_value k d = Ok o.
Proof. unfold opt_field. intros ->. by destruct o. Qed.
Lemma opt_time k d o : dict_get k d = time_json str_datetime o -> opt_field (as_time_value fromisoformat) k d = Ok o.
Proof using datetime_reads. unfold opt_field. intros ->. destruct o as [t|]; [|done]. cbn. by rewrite datetime_reads. Qed.
Lemma opt_rate k d o : dict_get k d = rate_json str_rate o -> opt_field (as_rate_value read_rate) k d = Ok o.
Proof using rate_reads. unfold opt_field. intros ->. destruct o as [t|]; [|done]. cbn. by rewrite rate_reads. Qed.

Lemma read_source_json x : read_source (source_json x) = Ok x.
Proof using datetime_reads rate_reads.
  destruct x as [c s]. cbn [BillingSources.read_source BillingSources.source_json].
  set (d := _ :: _).
  assert (read_core d = Ok c) as ->. { destruct c. reflexivity. }
  assert (read_snapshot fromisoformat read_rate d = Ok s) as ->; [|done].
  unfold read_snapshot. destruct s.
  do 10 (erewrite opt_text by reflexivity; cbn [result_bind]).
  do 2 (erewrite opt_time by reflexivity; cbn [result_bind]). erewrite opt_int by reflexivity; cbn [result_bind].
  erewrite opt_rate by reflexivity; cbn [result_bind]. erewrite opt_time by reflexivity; cbn [result_bind].
  erewrite opt_int by reflexivity; cbn [result_bind]. reflexivity.
Qed.

Lemma read_rows l : fold_result (fun l v => let* x := read_source v in Ok (l ++ [x])) [] (source_json <$> l) = Ok l.
Proof using datetime_reads rate_reads.
  assert (forall acc, fold_result (fun l v => let* x := read_source v in Ok (l ++ [x])) acc (source_json <$> l) = Ok (acc ++ l)) as H.
  { induction l as [|x l IH]; intros acc; [by rewrite app_nil_r|]. rewrite fmap_cons. cbn [fold_result].
    rewrite read_source_json. cbn [result_bind]. by rewrite IH, <- app_assoc. }
  apply H.
Qed.

Lemma insert_bundles_ok l : forall c c', fold_result insert_bundle c l = Ok c' ->
  c' = c <| billing_bundles := billing_bundles c ++ l |>.
Proof.
  induction l as [|b l IH]; intros c c'; cbn [fold_result].
  { intros [= <-]. destruct c. cbn. by rewrite app_nil_r. }
  intros (c1 & H1 & H2)%result_bind_Ok. rewrite (IH _ _ H2). unfold insert_bundle in H1.
  destruct (existsb _ _); [discriminate|]. injection H1 as <-. cbn. by rewrite <- app_assoc.
Qed.

(** A bundle is only written together with the marker of its job and generation. *)
Definition captured_ok (c : capturedb) : Prop :=
  forall b, b ∈ billing_bundles c -> is_Some (marker c (bun_generation_id b) (bun_source_job_id b)).

(** The state after the first freeze of a generation by a job. *)
Definition frozen (c : capturedb) (g j : string) (sources : list BillingSource) (slots : list (string * string)) : capturedb :=
  let rows := payload str_datetime str_rate sources in
  let all_slots := slots_of sources slots in
  MkCaptureDb (billing_bundles c ++ (bundle g j sources <$> all_slots))
    (frozen_markers c ++ [MkMarker (marker_id hexdigest j g) j g (input_fingerprint digest rows all_slots)
                            (Z.of_nat (length rows)) (Z.of_nat (length all_slots))]).

Lemma freeze_new c g j sources slots c' fp :
  marker c g j = None -> freeze c g j sources slots = Ok (c', fp) ->
  c' = frozen c g j sources slots /\ NoDup (bs_identity <$> sources)
  /\ fp = input_fingerprint digest (payload str_datetime str_rate sources) (slots_of sources slots).
Proof.
  unfold freeze_billing_sources. intros ->. cbv zeta. intros (u & H1 & H2)%result_bind_Ok.
  destruct u. apply raise_if_ok, duplicates_none in H1 as [Hnd _]. rewrite merge_sort_Permutation in Hnd.
  apply result_bind_Ok in H2 as (c1 & H2 & [= <- <-]). apply insert_bundles_ok in H2. subst c1. by destruct c.
Qed.

Lemma freeze_again c g j sources slots c' fp :
  is_Some (marker c g j) -> freeze c g j sources slots = Ok (c', fp) ->
  c' = c /\ exists m, marker c g j = Some m /\ mrk_fingerprint m = fp.
Proof.
  unfold freeze_billing_sources. intros [m ->]. cbv zeta. intros (u & H1 & H2)%result_bind_Ok. destruct u.
  apply raise_if_ok in H1. apply result_bind_Ok in H2 as (l & _ & [= <- <-]). split; [done|]. exists m. split; [done|].
  by tests.
Qed.

Lemma marker_frozen c g j sources slots :
  marker c g j = None -> marker (frozen c g j sources slots) g j
    = Some (MkMarker (marker_id hexdigest j g) j g
        (input_fingerprint digest (payload str_datetime str_rate sources) (slots_of sources slots))
        (Z.of_nat (length (payload str_datetime str_rate sources))) (Z.of_nat (length (slots_of sources slots)))).
Proof.
  unfold BillingSources.marker, frozen. cbn. induction (frozen_markers c) as [|m l IH]; cbn; [by rewrite str_eqb_refl|].
  destruct (str_eqb _ _); [done|]. apply IH.
Qed.

Lemma marker_keeps c g j sources slots g' j' m :
  marker c g' j' = Some m -> marker (frozen c g j sources slots) g' j' = Some m.
Proof.
  unfold BillingSources.marker, frozen. cbn. induction (frozen_markers c) as [|m' l IH]; cbn; [done|]. by destruct (str_eqb _ _).
Qed.

Lemma captured_frozen c g j sources slots :
  captured_ok c -> marker c g j = None -> captured_ok (frozen c g j sources slots).
Proof.
  intros Hc Hm b [Hb|Hb]%elem_of_app.
  - destruct (Hc b Hb) as [m Em]. exists m. by apply marker_keeps.
  - apply list_elem_of_fmap in Hb as (s & -> & _). cbn [BillingSources.bundle bun_generation_id bun_source_job_id]. rewrite marker_frozen by done. by eexists.
Qed.

(** The bundles of the freeze, and no other, are those of its job and generation. *)
Lemma bundles_frozen c g j sources slots :
  captured_ok c -> marker c g j = None ->
  bundles_of (frozen c g j sources slots) g j = bundle g j sources <$> slots_of sources slots.
Proof.
  intros Hc Hm. unfold bundles_of, frozen. cbn [billing_bundles]. rewrite lfilter_app.
  rewrite (proj2 (lfilter_nil_iff _ (billing_bundles c))).
  2: { intros b Hb. destruct (_ && _) eqn:E; [|done]. tests. destruct (Hc b Hb) as [m Em]. congruence. }
  rewrite app_nil_l, filter_all.
  2: { apply forallb_forall. intros b Hb%list_elem_of_In. apply list_elem_of_fmap in Hb as (s & -> & _). cbn. by rewrite !str_eqb_refl. }
  assert (StronglySorted bundle_before (bundle g j sources <$> slots_of sources slots)) as Hs.
  { pose proof (slots_of_sorted sources slots) as H. induction H as [|s l Hl IH Ha]; cbn; constructor; [done|].
    apply Forall_fmap. eapply Forall_impl; [done|]. intros [a b] H. unfold bundle_before. cbn. by destruct s. }
  apply (StronglySorted_unique_strong bundle_before); [| |done|by rewrite merge_sort_Permutation].
  - intros a b Ha Hb H1 H2. rewrite merge_sort_Permutation in Ha. apply list_elem_of_fmap in Ha as ([a1 a2] & -> & _), Hb as ([b1 b2] & -> & _).
    f_equal. by apply (anti_symm slot_before).
  - apply StronglySorted_merge_sort; [|]; unfold bundle_before; intros a b; [intros c'; apply transitivity|apply total; apply _].
Qed.

Lemma rows_frozen c g j sources slots :
  captured_ok c -> marker c g j = None ->
  mjoin (bun_sources <$> bundles_of (frozen c g j sources slots) g j) = payload str_datetime str_rate sources.
Proof.
  intros Hc Hm. rewrite bundles_frozen by done. unfold payload.
  rewrite <- (runs (slots_of sources slots) (merge_sort payload_before sources)) at 1.
  - induction (slots_of sources slots) as [|s l IH]; [done|]. cbn. rewrite fmap_app. f_equal. apply IH.
  - apply StronglySorted_merge_sort; apply _.
  - apply slots_of_sorted.
  - apply slots_of_nodup.
  - intros x Hx. rewrite merge_sort_Permutation in Hx. apply elem_of_slots_of. right. by apply list_elem_of_fmap_2.
Qed.

Lemma slots_frozen c g j sources slots :
  captured_ok c -> marker c g j = None ->
  bundle_slot <$> bundles_of (frozen c g j sources slots) g j = slots_of sources slots.
Proof.
  intros Hc Hm. rewrite bundles_frozen by done. induction (slots_of sources slots) as [|[a b] l IH]; [done|]. cbn. by rewrite IH.
Qed.

Lemma load_frozen c g j sources slots :
  captured_ok c -> marker c g j = None ->
  load (frozen c g j sources slots) g j = Ok (merge_sort payload_before sources).
Proof using datetime_reads rate_reads.
  intros Hc Hm. unfold load_billing_sources. rewrite marker_frozen by done. cbv zeta.
  rewrite existsb_false.
  2: { intros b. rewrite bundles_frozen by done. intros (s & -> & _)%list_elem_of_fmap. cbn. by rewrite str_eqb_refl. }
  cbn [raise_if result_bind]. rewrite rows_frozen, slots_frozen by done. cbn [mrk_bundle_count mrk_source_count mrk_fingerprint].
  rewrite <- (length_fmap bundle_slot), slots_frozen, !Z.eqb_refl, str_eqb_refl by done. cbn [negb orb raise_if result_bind].
  apply read_rows.
Qed.

(** ** Later freezes *)

(** Any job freezes any generation. *)
Definition freeze_step (c c' : capturedb) : Prop :=
  exists g j sources slots fp, freeze c g j sources slots = Ok (c', fp).

Lemma freeze_step_cases c c' : freeze_step c c' ->
  c' = c \/ exists g j sources slots, marker c g j = None /\ c' = frozen c g j sources slots.
Proof.
  intros (g & j & sources & slots & fp & H). destruct (marker c g j) as [m|] eqn:Em.
  - left. eapply freeze_again; [by eexists|done].
  - right. exists g, j, sources, slots. split; [done|]. by eapply freeze_new.
Qed.

(** What was frozen is kept: its marker, and its bundles in their order. *)
Record capture_kept (c c' : capturedb) : Prop := {
  ck_captured : captured_ok c';
  ck_markers : forall g j m, marker c g j = Some m -> marker c' g j = Some m;
  ck_bundles : forall g j, is_Some (marker c g j) -> bundles_of c' g j = bundles_of c g j;
}.

Lemma freeze_step_keeps c c' : captured_ok c -> freeze_step c c' -> capture_kept c c'.
Proof.
  intros Hc [->|(g & j & sources & slots & Hm & ->)]%freeze_step_cases; [by split|]. split.
  - by apply captured_frozen.
  - intros. by apply marker_keeps.
  - intros g' j' [m Em]. unfold bundles_of, frozen. cbn [billing_bundles]. rewrite lfilter_app.
    rewrite (proj2 (lfilter_nil_iff _ (_ <$> _))); [by rewrite app_nil_r|].
    intros b (s & -> & _)%list_elem_of_fmap. cbn [BillingSources.bundle bun_generation_id bun_source_job_id].
    destruct (_ && _) eqn:E; [|done]. tests. congruence.
Qed.

Lemma freezes_keep c c' : captured_ok c -> rtc freeze_step c c' -> capture_kept c c'.
Proof.
  intros Hc H. induction H as [c|c c1 c2 H1 _ IH]; [by split|]. pose proof (freeze_step_keeps _ _ Hc H1) as [K1 K2 K3].
  destruct (IH K1) as [L1 L2 L3]. split; [done|auto|]. intros g j [m Em]. rewrite L3 by (exists m; auto). apply K3. by exists m.
Qed.

Lemma load_kept c c' g j : capture_kept c c' -> is_Some (marker c g j) ->
  load c' g j = load c g j /\ load_billing_slots c' g j = load_billing_slots c g j.
Proof.
  intros [_ K2 K3] [m Em]. unfold load_billing_sources, load_billing_slots. rewrite (K2 _ _ _ Em), Em, K3 by (by exists m). done.
Qed.

(** C17: Frozen billing sources read back as they were captured: after the first freeze
    of a generation by a job, and after any number of later freezes of any job, the
    bundles load as the captured sources in order with every captured slot, empty ones
    included; freezing the same sources and slots again, in any order, changes nothing
    and returns the same fingerprint. *)
Theorem frozen_sources_round_trip c g j sources slots c1 fp c2 :
  captured_ok c -> marker c g j = None -> freeze c g j sources slots = Ok (c1, fp) -> rtc freeze_step c1 c2 ->
  load c2 g j = Ok (merge_sort payload_before sources)
  /\ load_billing_slots c2 g j = slots_of sources slots
  /\ forall sources' slots', sources' ≡ₚ sources -> (forall s, s ∈ slots' <-> s ∈ slots) ->
       freeze c2 g j sources' slots' = Ok (c2, fp).
Proof using datetime_reads rate_reads.
  intros Hc Hm Hf Hr. apply freeze_new in Hf as (-> & Hnd & ->); [|done].
  pose proof (captured_frozen c g j sources slots Hc Hm) as Hc1. pose proof (freezes_keep _ _ Hc1 Hr) as Hk.
  pose proof (marker_frozen c g j sources slots Hm) as Em.
  destruct (load_kept _ _ g j Hk (mk_is_Some _ _ Em)) as [El Es]. rewrite load_frozen in El by done.
  split; [done|]. split; [rewrite Es; by apply slots_frozen|]. intros sources' slots' Hp Hs.
  unfold freeze_billing_sources. rewrite (ck_markers _ _ Hk _ _ _ Em). cbv zeta. cbn [mrk_fingerprint].
  unfold payload. rewrite (merged_unique sources sources' Hnd Hp), (slots_of_unique sources slots sources' slots' Hp Hs).
  rewrite str_eqb_refl. cbn [negb raise_if result_bind]. by rewrite El.
Qed.
End Capture.
