(* ===== verification/PendingBills.v ===== *)
(** * Pending bills

    apps/worker/billing_statements.py: from the frozen sources of the published
    generation, a pending statement for every store and month whose sources changed.
    A bill that has financial facts is left alone; the others are superseded by a new
    version with the lines and entries of the sources, which must agree with the
    published monthly overlay.

    The display snapshot of the head (the store's name and finance profile) is left
    out, as it is of the entries; the locks of slots and bills make the run one step. *)
From S2P Require Import Prelude PyValue Jobs FeeTables FeeLedger Statements Lineage BillingSources.
#[local] Open Scope Z_scope.
#[local] Set Default Proof Using "Type".

Record bill_stats := MkBillStats {
  bill_generated : Z;
  bill_skipped : Z;
  bill_blocked : Z;
  bill_created : Z;
  bill_unchanged : Z;
  bill_protected : Z;
}.
#[export] Instance eta_bill_stats : Eta bill_stats := fun x =>
  MkBillStats (bill_generated x) (bill_skipped x) (bill_blocked x) (bill_created x) (bill_unchanged x) (bill_protected x).
Definition no_bills : bill_stats := MkBillStats 0 0 0 0 0 0.

(** ** Amounts of the projection *)

Definition or_all (s : string) : string := if str_eqb s "" then "all" else s.
(** [_projection_dimensions]; the order of the set does not matter *)
Definition projection_dimensions (scope kind : string) : list (string * string) :=
  remove_dups [("all", "all"); ("all", or_all kind); (or_all scope, "all"); (or_all scope, or_all kind)].

Definition amounts : Type := Z * Z * Z.
Definition no_amounts : amounts := (0, 0, 0).
Definition add_three (a b : amounts) : amounts := (a.1.1 + b.1.1, a.1.2 + b.1.2, a.2 + b.2).

(** The amounts of a source: the base, and the fee as original or adjustment. *)
Definition source_amounts (x : StatementSource) : amounts :=
  (ss_base_amount_cent x, if ss_source_type x =? 1 then ss_fee_amount_cent x else 0,
   if ss_source_type x =? 2 then ss_fee_amount_cent x else 0).
Definition dimension_keys (x : StatementSource) : list (Z * string * string) :=
  (fun q => (ss_fee_direction x, q.1, q.2)) <$> projection_dimensions (ss_product_scope x) (ss_product_type x).

Definition actual_amounts (rows : list StatementSource) (k : Z * string * string) : amounts :=
  foldr add_three no_amounts (source_amounts <$> List.filter (fun x => bool_decide (k ∈ dimension_keys x)) rows).

Definition overlay_keys (o : SettlementMonthlyOverlay) : list (Z * string * string) :=
  [(1, mon_product_scope o, mon_product_type o); (2, mon_product_scope o, mon_product_type o)].
Definition overlay_amounts (o : SettlementMonthlyOverlay) (direction : Z) : amounts :=
  if direction =? 1
  then (mon_promotion_base_cent o, mon_promotion_original_fee_cent o, mon_promotion_adjustment_fee_cent o)
  else (mon_management_base_cent o, mon_management_original_fee_cent o, mon_management_adjustment_fee_cent o).
(** A later row of the same key replaces an earlier one. *)
Definition expected_amounts (projected : list SettlementMonthlyOverlay) (k : Z * string * string) : amounts :=
  match last (List.filter (fun o => bool_decide (k ∈ overlay_keys o)) projected) with
  | Some o => overlay_amounts o k.1.1
  | None => no_amounts
  end.

(** [_validate_projection] *)
Definition validate_projection (rows : list StatementSource) (projected : list SettlementMonthlyOverlay) : result unit :=
  let keys := mjoin (overlay_keys <$> projected) ++ mjoin (dimension_keys <$> rows) in
  raise_if (existsb (fun k => negb (bool_decide (actual_amounts rows k = expected_amounts projected k))) keys)
    (ValueError "billing sources do not match published projection").

(** ** Lines and entries *)

Section Bills.
(** SHA-256 of a text, of the canonical JSON of a value, and [json.loads]. *)
Context (hexdigest : string -> string) (digest : pyval -> string) (json_loads : string -> option pyval).
(** [str()] of a datetime and of a rate. *)
Context (str_datetime : instant -> string) (str_rate : Z -> string).
#[local] Notation stable_business_id := (stable_business_id hexdigest).

Definition pending_line_key (statement : string) (k : Z * string * string) : string :=
  stable_business_id "pending-bill-line" [statement; str_of_Z k.1.1; k.1.2; k.2].
Definition pending_entry_key (statement : string) (x : StatementSource) : string :=
  stable_business_id "pending-bill-entry" [statement; str_of_Z (ss_source_type x); ss_source_record_id x].

Definition pending_line (statement : string) (k : Z * string * string) (l : list StatementSource) : SettlementStatementLine :=
  let originals := of_type 1 l in
  let adjustments := of_type 2 l in
  MkLine (pending_line_key statement k) statement k.1.1 k.1.2 k.2
    (Z.of_nat (length originals)) (Z.of_nat (length adjustments)) (base_total originals) (base_total adjustments)
    (base_total l) (fee_total originals) (fee_total adjustments) (fee_total l).
Definition pending_entry (statement line : string) (x : StatementSource) : SettlementStatementEntry :=
  MkEntry (pending_entry_key statement x) statement line (ss_source_type x) (ss_source_record_id x)
    (ss_original_fee_result_id x) (ss_coupon_id x) (ss_order_id x) (ss_fee_direction x) (ss_original_business_month x)
    (ss_posting_month x) (ss_product_scope x) (ss_product_type x) (ss_base_amount_cent x) (ss_fee_amount_cent x)
    (ss_rule_version x).

(** [_write_sources] *)
Definition write_pending_group (statement : string) (d : feedb) (g : Z * string * string * list StatementSource)
  : result feedb :=
  let '(k, l) := g in
  let line := pending_line statement k l in
  let* d := insert_line line d in
  fold_result (fun d x => insert_entry (pending_entry statement (statement_line_id line) x) d) d l.
Definition write_sources (d : feedb) (statement : string) (rows : list StatementSource) : result feedb :=
  fold_result (write_pending_group statement) d (line_groups rows).

(** ** Audits *)

(** [source_job_id or generation_id] *)
Definition request_of (generation : string) (job : option string) : string :=
  match job with Some "" | None => generation | Some j => j end.

Definition insert_audit (a : FinanceOperationAudit) (d : feedb) : result feedb :=
  if existsb (fun x => str_eqb (audit_id x) (audit_id a)) (finance_audits d)
  then Raise (NamedError "IntegrityError" "finance_operation_audit")
  else Ok (d <| finance_audits := finance_audits d ++ [a] |>).

(** [_audit_outcome] *)
Definition audit_outcome (generation : string) (job : option string) (target reason : string) (d : feedb) : feedb :=
  let id := stable_business_id "pending-bill-outcome" [generation; target; reason] in
  if existsb (fun x => str_eqb (audit_id x) id) (finance_audits d) then d
  else d <| finance_audits := finance_audits d
       ++ [MkAudit id "PENDING_STATEMENT_GENERATION_BLOCKED" "SETTLEMENT_STATEMENT" target
             (PDict [("generationId", PStr generation); ("sourceJobId", text_json job); ("reason", PStr reason)]) 2
             (request_of generation job) None] |>.

(** ** One slot *)

Definition current_bill (d : feedb) (store month : string) : option SettlementStatement :=
  List.find (fun s => str_eqb (stmt_store_id s) store && str_eqb (statement_month s) month && stmt_is_current s)
    (statements d).

Definition bill_before (a b : BillingSource) : Prop := source_order (bs_core a) (bs_core b).
#[export] Instance bill_before_dec a b : Decision (bill_before a b).
Proof. unfold bill_before. apply _. Defined.
Definition payload_hash (rows : list BillingSource) : string :=
  digest (PList (source_json str_datetime str_rate <$> merge_sort bill_before rows)).

Definition GENERATE_PENDING : string := "GENERATE_PENDING_STATEMENT".

(** The current bill was generated from the same sources. *)
Definition generated_from (d : feedb) (statement hash : string) : bool :=
  existsb (fun a => str_eqb (audit_target_id a) statement && str_eqb (audit_operation_type a) GENERATE_PENDING
                    && opt_is (audit_request_payload_sha256 a) hash) (finance_audits d).

Definition pending_id (generation store month : string) : string :=
  stable_business_id "pending-bill" [generation; store; month].
Definition bill_version (current : option SettlementStatement) : Z :=
  match current with Some c => stmt_version_no c + 1 | None => 1 end.

(** The new version, its lines, entries and totals, and the switch of the current bill. *)
Definition create_bill (generation : string) (job : option string) (store month : string)
    (current : option SettlementStatement) (rows : list BillingSource) (hash : string) (d : feedb) : result feedb :=
  let* _ := raise_if (negb (existsb (fun s => str_eqb (store_id s) store) (fee_stores d)))
              (ValueError "billing source has no store") in
  let id := pending_id generation store month in
  let* d := insert_statement (MkStatement id store month (bill_version current) false 2 0 0 0 0 0 0 None None None None
                                (statement_id <$> current)) d in
  let* d := write_sources d id (bs_core <$> rows) in
  let* d := apply_and_validate_statement_totals d id in
  let d := match current with
           | Some c => update_statement (statement_id c) (fun s => s <| stmt_is_current := false |>) d
           | None => d
           end in
  let d := update_statement id (fun s => s <| stmt_is_current := true |>) d in
  insert_audit (MkAudit (stable_business_id "pending-bill-audit" [id]) GENERATE_PENDING "SETTLEMENT_STATEMENT" id
    (PDict [("generationId", PStr generation); ("sourceJobId", text_json job); ("status", PStr "COMPUTED");
            ("versionNo", PInt (bill_version current)); ("previousStatementId", text_json (statement_id <$> current));
            ("sourceCount", PInt (Z.of_nat (length rows)))]) 1 (request_of generation job) (Some hash)) d.

(** The published rows of the slot. *)
Definition projected_rows (p : projectiondb) (resolved : list (string * PartitionResolution)) (store month : string)
    (rows : list BillingSource) : result (list SettlementMonthlyOverlay) :=
  match List.find (fun q => str_eqb q.1 month) resolved with
  | None => Raise (NamedError "KeyError" month)
  | Some q =>
      if str_eqb (res_source_kind q.2) "tombstone" && bool_decide (rows = []) then Ok []
      else if negb (str_eqb (res_source_kind q.2) "overlay")
      then Raise (ValueError "immutable monthly projection required for billing")
      else Ok (List.filter (fun o => opt_is (res_data q.2) (mon_generation_id o) && str_eqb (mon_month o) month
                                     && str_eqb (mon_store_id o) store && negb (mon_tombstone o)) (monthly_overlays p))
  end.

(** The originals that a protected bill has and the frozen sources no longer do. *)
Definition source_drift (d : feedb) (statement : string) (retained : list string) : bool :=
  existsb (fun e => str_eqb (entry_statement_id e) statement && (entry_source_type e =? 1)
                    && negb (str_in (entry_source_record_id e) retained)) (statement_entries d).

Definition bill_slot (p : projectiondb) (resolved : list (string * PartitionResolution)) (generation : string)
    (job : option string) (sources : list BillingSource) (retained : list string) (s : feedb * bill_stats)
    (slot : string * string) : result (feedb * bill_stats) :=
  let '(d, stats) := s in
  let '(store, month) := slot in
  let rows := List.filter (fun x => bool_decide (bs_slot x = slot)) sources in
  let current := current_bill d store month in
  if bool_decide (current = None)
     && existsb (fun x => str_eqb (stmt_store_id x) store && str_eqb (statement_month x) month) (statements d)
  then Ok (audit_outcome generation job (store +:+ ":" +:+ month)%string "CURRENT_STATEMENT_MISSING" d,
           stats <| bill_blocked := bill_blocked stats + 1 |>)
  else
    match current with
    | Some c =>
        if is_protected_statement d c then
          let drift := source_drift d (statement_id c) retained in
          let d := if drift then audit_outcome generation job (statement_id c) "PROTECTED_BILLING_SOURCE_DRIFT" d else d in
          let d := audit_outcome generation job (statement_id c) "FINANCIAL_FACTS_PROTECTED" d in
          Ok (d, stats <| bill_blocked := if drift then bill_blocked stats + 1 else bill_blocked stats |>
                       <| bill_protected := bill_protected stats + 1 |> <| bill_skipped := bill_skipped stats + 1 |>)
        else
          let* projected := projected_rows p resolved store month rows in
          let* _ := validate_projection (bs_core <$> rows) projected in
          if generated_from d (statement_id c) (payload_hash rows) then
            Ok (d, stats <| bill_unchanged := bill_unchanged stats + 1 |> <| bill_skipped := bill_skipped stats + 1 |>)
          else
            let* d := create_bill generation job store month current rows (payload_hash rows) d in
            Ok (d, stats <| bill_generated := bill_generated stats + 1 |> <| bill_created := bill_created stats + 1 |>)
    | None =>
        let* projected := projected_rows p resolved store month rows in
        let* _ := validate_projection (bs_core <$> rows) projected in
        let* d := create_bill generation job store month current rows (payload_hash rows) d in
        Ok (d, stats <| bill_generated := bill_generated stats + 1 |> <| bill_created := bill_created stats + 1 |>)
    end.

(** ** The run *)

Definition bad_slot (s : string * string) : bool := str_eqb s.1 "" || String.ltb s.2 "2026-08".
Fixpoint bad_sources (seen : list (Z * string)) (sources : list BillingSource) : bool :=
  match sources with
  | [] => false
  | x :: rest =>
      String.ltb (ss_posting_month (bs_core x)) "2026-08" || negb (bool_decide (ss_fee_direction (bs_core x) ∈ [1; 2]))
      || negb (bool_decide (ss_source_type (bs_core x) ∈ [1; 2])) || bool_decide (bs_identity x ∈ seen)
      || bad_sources (bs_identity x :: seen) rest
  end.

Definition retained_original (x : BillingSource) : string :=
  if ss_source_type (bs_core x) =? 1 then ss_source_record_id (bs_core x) else ss_original_fee_result_id (bs_core x).

Definition publication_current (p : projectiondb) (generation : string) (job : option string) : bool :=
  match List.find (fun a => str_eqb (act_projection_name a) "settlement") (projection_active p), get_generation p generation with
  | Some a, Some g =>
      opt_is (act_generation_id a) generation && str_eqb (gen_state g) "published"
      && match job with Some j => opt_is (gen_source_job_id g) j | None => true end
  | _, _ => false
  end.

(** [generate_pending_statements] *)
Definition generate_pending_statements (p : projectiondb) (d : feedb) (generation : string) (job : option string)
    (sources : option (list BillingSource)) (slots : list (string * string)) : result (feedb * bill_stats) :=
  let* _ := raise_if (negb (publication_current p generation job))
              (ValueError "billing requires the current published generation and source job") in
  match sources with
  | None =>
      Ok (audit_outcome generation job generation "FROZEN_SOURCES_MISSING" d, no_bills <| bill_blocked := 1 |>)
  | Some sources =>
      let* _ := raise_if (existsb bad_slot slots) (ValueError "invalid frozen billing slot") in
      let* _ := raise_if (bad_sources [] sources) (ValueError "invalid or duplicate frozen billing source") in
      let grouped := slots_of sources slots in
      let* (resolved, _) := resolve_projection_partitions json_loads p "monthly"
                              (merge_sort String.le (remove_dups (grouped.*2))) (Some generation) no_provenance in
      fold_result (bill_slot p resolved generation job sources (retained_original <$> sources)) (d, no_bills) grouped
  end.
End Bills.
