(* ===== verification/PendingProps.v ===== *)
(** * Pending bills: one slot at a time

    A run only appends: lines, entries and audits of the new bills, and the bills
    themselves; the only column it changes is the current flag of the bill that a new
    one supersedes. *)
From S2P Require Import Prelude PyValue Jobs FeeTables FeeLedger FeeProps Statements StatementLines Lineage BillingSources BillingSourceProps PendingBills.
#[local] Open Scope Z_scope.
#[local] Set Default Proof Using "Type".

(** ** Frames *)

(** The tables a run writes. *)
Definition with_bills (d : feedb) (ss : list SettlementStatement) (ls : list SettlementStatementLine)
    (es : list SettlementStatementEntry) (au : list FinanceOperationAudit) : feedb :=
  d <| statements := ss |> <| statement_lines := ls |> <| statement_entries := es |> <| finance_audits := au |>.

Lemma with_bills_id d : with_bills d (statements d) (statement_lines d) (statement_entries d) (finance_audits d) = d.
Proof. by destruct d. Qed.

Lemma protected_frame d ss ls es au s : is_protected_statement (with_bills d ss ls es au) s = is_protected_statement d s.
Proof. reflexivity. Qed.

Definition demote (id : string) (s : SettlementStatement) : SettlementStatement :=
  if str_eqb (statement_id s) id then s <| stmt_is_current := false |> else s.

Lemma update_statement_ext id f g d : (forall s, f s = g s) -> update_statement id f d = update_statement id g d.
Proof.
  intros H. unfold update_statement.
  assert ((fun s => if str_eqb (statement_id s) id then f s else s) <$> statements d
    = (fun s => if str_eqb (statement_id s) id then g s else s) <$> statements d) as E; [|cbn; by rewrite E].
  apply list_fmap_ext. intros i s _. by rewrite H.
Qed.

Section Props.
Context (hexdigest : string -> string) (digest : pyval -> string) (json_loads : string -> option pyval).
Context (str_datetime : instant -> string) (str_rate : Z -> string).
#[local] Notation create_bill := (create_bill hexdigest).
#[local] Notation bill_slot := (bill_slot hexdigest digest str_datetime str_rate).
#[local] Notation payload_hash := (payload_hash digest str_datetime str_rate).
#[local] Notation audit_outcome := (audit_outcome hexdigest).
#[local] Notation pending_id := (pending_id hexdigest).

(** ** The new lines and entries *)

Definition bill_lines (id : string) (rows : list StatementSource) : list SettlementStatementLine :=
  (fun g => pending_line hexdigest id g.1 g.2) <$> line_groups rows.
Definition bill_entries (id : string) (rows : list StatementSource) : list SettlementStatementEntry :=
  mjoin ((fun g => pending_entry hexdigest id (pending_line_key hexdigest id g.1) <$> g.2) <$> line_groups rows).

Lemma insert_entries_ok id line l : forall d d',
  fold_result (fun d x => insert_entry (pending_entry hexdigest id line x) d) d l = Ok d' ->
  d' = d <| statement_entries := statement_entries d ++ (pending_entry hexdigest id line <$> l) |>.
Proof.
  induction l as [|x l IH]; intros d d'; cbn [fold_result].
  { intros [= <-]. cbn. rewrite app_nil_r. by destruct d. }
  intros (d1 & H1 & H2)%result_bind_Ok. rewrite (IH _ _ H2). unfold insert_entry in H1.
  destruct (existsb _ _); [discriminate|]. injection H1 as <-. cbn. by rewrite <- app_assoc.
Qed.

Lemma write_group_ok id d g d' : write_pending_group hexdigest id d g = Ok d' ->
  d' = d <| statement_lines := statement_lines d ++ [pending_line hexdigest id g.1 g.2] |>
         <| statement_entries := statement_entries d ++ (pending_entry hexdigest id (pending_line_key hexdigest id g.1) <$> g.2) |>.
Proof.
  destruct g as [k l]. unfold write_pending_group. intros (d1 & H1 & H2)%result_bind_Ok.
  rewrite (insert_entries_ok _ _ _ _ _ H2). unfold insert_line in H1. destruct (existsb _ _); [discriminate|].
  by injection H1 as <-.
Qed.

Lemma write_sources_ok id rows d d' : write_sources hexdigest d id rows = Ok d' ->
  d' = with_bills d (statements d) (statement_lines d ++ bill_lines id rows) (statement_entries d ++ bill_entries id rows)
         (finance_audits d).
Proof.
  unfold write_sources, bill_lines, bill_entries. revert d. induction (line_groups rows) as [|g l IH]; intros d; cbn [fold_result].
  { intros [= <-]. cbn. rewrite !app_nil_r. by rewrite with_bills_id. }
  intros (d1 & H1 & H2)%result_bind_Ok. rewrite (IH _ H2). apply write_group_ok in H1. subst d1.
  unfold with_bills. cbn. by rewrite <- !app_assoc.
Qed.

Lemma bill_lines_of id rows l : l ∈ bill_lines id rows -> line_statement_id l = id.
Proof. intros (g & -> & _)%list_elem_of_fmap. done. Qed.
Lemma bill_entries_of id rows e : e ∈ bill_entries id rows -> entry_statement_id e = id.
Proof.
  unfold bill_entries. rewrite list_elem_of_join. intros (l & He & (g & -> & _)%list_elem_of_fmap).
  by apply list_elem_of_fmap in He as (x & -> & _).
Qed.

(** ** Totals *)

(** The head of a bill with lines of the sources only. *)
Lemma totals_ok d id rows d' :
  List.filter (fun l => str_eqb (line_statement_id l) id) (statement_lines d) = bill_lines id rows ->
  apply_and_validate_statement_totals d id = Ok d' -> d' = update_statement id (with_totals rows) d.
Proof.
  intros El. unfold apply_and_validate_statement_totals. rewrite El. cbv zeta.
  intros (? & _ & H)%result_bind_Ok. revert H. intros (? & _ & H)%result_bind_Ok. revert H. intros (u & Hn & [= <-])%result_bind_Ok.
  destruct u. apply raise_if_ok, orb_false_iff in Hn as [N1%negb_false_iff%Z.eqb_eq N2%negb_false_iff%Z.eqb_eq].
  apply update_statement_ext. intros s. unfold with_totals. rewrite N1, N2. unfold bill_lines.
  by rewrite !(lines_sum_of (pending_line hexdigest id) _ _ 1 line_original_fee_cent),
    !(lines_sum_of (pending_line hexdigest id) _ _ 2 line_adjustment_fee_cent).
Qed.

Lemma insert_audit_ok a d d' : insert_audit a d = Ok d' -> d' = d <| finance_audits := finance_audits d ++ [a] |>.
Proof. unfold insert_audit. destruct (existsb _ _); [discriminate|]. by intros [= <-]. Qed.

(** ** The invariant of bills *)

Definition slot_of (s : SettlementStatement) : string * string := (stmt_store_id s, statement_month s).

Record bills_ok (d : feedb) : Prop := {
  bo_ids : NoDup (statement_id <$> statements d);
  bo_current : forall s c, s ∈ statements d -> c ∈ statements d -> stmt_is_current s = true -> stmt_is_current c = true ->
    slot_of s = slot_of c -> s = c;
  bo_latest : forall s c, s ∈ statements d -> c ∈ statements d -> stmt_is_current c = true -> slot_of s = slot_of c ->
    stmt_version_no s <= stmt_version_no c;
  bo_lines : forall l, l ∈ statement_lines d -> line_statement_id l ∈ statement_id <$> statements d;
  bo_entries : forall e, e ∈ statement_entries d -> entry_statement_id e ∈ statement_id <$> statements d;
}.

Lemma current_bill_in d store month c : current_bill d store month = Some c ->
  c ∈ statements d /\ slot_of c = (store, month) /\ stmt_is_current c = true.
Proof. unfold current_bill. intros [H E]%find_some_in. tests. split; [done|]. split; [unfold slot_of; congruence|done]. Qed.
Lemma current_bill_none d store month s : current_bill d store month = None -> s ∈ statements d ->
  slot_of s = (store, month) -> stmt_is_current s = false.
Proof.
  unfold current_bill. intros H Hin [= <- <-]. pose proof (List.find_none _ _ H s ltac:(by apply list_elem_of_In)) as E.
  cbn in E. by rewrite !str_eqb_refl in E.
Qed.
Lemma current_bill_of d s : bills_ok d -> s ∈ statements d -> stmt_is_current s = true ->
  current_bill d (stmt_store_id s) (statement_month s) = Some s.
Proof.
  intros Hb Hin Hc. destruct (current_bill d _ _) as [c|] eqn:E.
  - apply current_bill_in in E as (Hci & Es & Hcc). f_equal. symmetry. apply (bo_current d Hb); [done|done|done|done|]. by rewrite Es.
  - rewrite (current_bill_none _ _ _ s E Hin eq_refl) in Hc. done.
Qed.

Lemma demote_fields id s : statement_id (demote id s) = statement_id s /\ slot_of (demote id s) = slot_of s
  /\ stmt_version_no (demote id s) = stmt_version_no s /\ (stmt_is_current (demote id s) = true -> demote id s = s).
Proof. unfold demote. destruct (str_eqb _ _); done. Qed.

Lemma update_other id f (l : list SettlementStatement) : id ∉ statement_id <$> l ->
  (fun s => if str_eqb (statement_id s) id then f s else s) <$> l = l.
Proof.
  intros H. induction l as [|s l IH]; [done|]. rewrite fmap_cons in H. apply not_elem_of_cons in H as [H1 H2].
  cbn. rewrite str_eqb_false by congruence. by rewrite IH.
Qed.

(** The rows of the superseded bill. *)
Definition superseded (current : option SettlementStatement) (ss : list SettlementStatement) : list SettlementStatement :=
  match current with Some c => demote (statement_id c) <$> ss | None => ss end.
Definition new_bill (g store month : string) (current : option SettlementStatement) (rows : list StatementSource)
  : SettlementStatement :=
  with_totals rows (MkStatement (pending_id g store month) store month (bill_version current) true 2 0 0 0 0 0 0
                      None None None None (statement_id <$> current)).

Definition bill_audit (g : string) (job : option string) (store month : string) (current : option SettlementStatement)
    (rows : list BillingSource) (hash : string) : FinanceOperationAudit :=
  let id := pending_id g store month in
  MkAudit (stable_business_id hexdigest "pending-bill-audit" [id]) GENERATE_PENDING "SETTLEMENT_STATEMENT" id
    (PDict [("generationId", PStr g); ("sourceJobId", text_json job); ("status", PStr "COMPUTED");
            ("versionNo", PInt (bill_version current)); ("previousStatementId", text_json (statement_id <$> current));
            ("sourceCount", PInt (Z.of_nat (length rows)))]) 1 (request_of g job) (Some hash).

Lemma create_bill_ok g job store month current rows hash d d' :
  bills_ok d -> current = current_bill d store month -> create_bill g job store month current rows hash d = Ok d' ->
  let id := pending_id g store month in
  let cores := bs_core <$> rows in
  id ∉ statement_id <$> statements d
  /\ d' = with_bills d (superseded current (statements d) ++ [new_bill g store month current cores])
            (statement_lines d ++ bill_lines id cores) (statement_entries d ++ bill_entries id cores)
            (finance_audits d ++ [bill_audit g job store month current rows hash]).
Proof.
  intros Hb Hcur. unfold PendingBills.create_bill. cbv zeta. intros (? & _ & H)%result_bind_Ok. revert H.
  set (id := pending_id g store month). set (s0 := MkStatement id _ _ _ _ _ _ _ _ _ _ _ _ _ _ _ _).
  intros (d1 & H1 & H)%result_bind_Ok. revert H. intros (d2 & H2 & H)%result_bind_Ok. revert H.
  intros (d3 & H3 & H)%result_bind_Ok.
  unfold insert_statement in H1. destruct (existsb _ _) eqn:Ex; [discriminate|]. injection H1 as <-.
  assert (id ∉ statement_id <$> statements d) as Hid.
  { intros (s & E & Hin)%list_elem_of_fmap. pose proof (existsb_false_in _ _ _ Ex Hin) as Hs. cbn in Hs.
    rewrite <- E in Hs. by rewrite str_eqb_refl in Hs. }
  split; [done|].
  apply write_sources_ok in H2. cbn in H2. subst d2. apply (totals_ok _ _ (bs_core <$> rows)) in H3.
  2: { cbn. rewrite lfilter_app, (proj2 (lfilter_nil_iff _ (statement_lines d))).
       - apply filter_all, forallb_forall. intros l Hl%list_elem_of_In. apply str_eqb_true. by eapply bill_lines_of.
       - intros l Hl. apply str_eqb_false. intros E. apply Hid. rewrite <- E. by apply (bo_lines d Hb). }
  subst d3. destruct current as [c|].
  - symmetry in Hcur. apply current_bill_in in Hcur as (Hc & _ & _).
    assert (str_eqb id (statement_id c) = false) as Hne.
    { apply str_eqb_false. intros E. apply Hid. rewrite E. by apply list_elem_of_fmap_2. }
    apply insert_audit_ok in H. subst d'.
    unfold update_statement, with_bills, superseded. cbn. repeat rewrite fmap_app. cbn.
    rewrite str_eqb_refl. cbn. rewrite Hne. cbn. rewrite str_eqb_refl. rewrite (update_other id _ (statements d)) by done.
    fold (demote (statement_id c)). rewrite (update_other id _ (demote (statement_id c) <$> statements d)); [done|].
    rewrite <- list_fmap_compose. rewrite (list_fmap_ext _ statement_id); [done|]. intros i s _. cbn. apply demote_fields.
  - apply insert_audit_ok in H. subst d'.
    unfold update_statement, with_bills, superseded. cbn. repeat rewrite fmap_app. cbn. rewrite !str_eqb_refl. cbn.
    by rewrite !(update_other id _ (statements d)).
Qed.

(** ** What a slot becomes *)

(** Only audits are added. *)
Definition audited (d d' : feedb) : Prop :=
  exists au, d' = with_bills d (statements d) (statement_lines d) (statement_entries d) (finance_audits d ++ au).

Lemma audited_refl d : audited d d.
Proof. exists []. by rewrite app_nil_r, with_bills_id. Qed.
Lemma audited_trans d1 d2 d3 : audited d1 d2 -> audited d2 d3 -> audited d1 d3.
Proof. intros [a ->] [b ->]. exists (a ++ b). cbn. by rewrite app_assoc. Qed.
Lemma audit_outcome_audited g job target reason d : audited d (audit_outcome g job target reason d).
Proof.
  unfold PendingBills.audit_outcome. cbv zeta. destruct (existsb _ _); [apply audited_refl|]. eexists.
  unfold with_bills. destruct d. reflexivity.
Qed.
Lemma generated_from_audited d d' id hash : audited d d' -> generated_from d id hash = true -> generated_from d' id hash = true.
Proof. intros [au ->]. unfold generated_from. cbn. rewrite existsb_app. by intros ->. Qed.

Section Slot.
Context (p : projectiondb) (resolved : list (string * PartitionResolution)).
Context (g : string) (job : option string) (sources : list BillingSource) (retained : list string).

Definition slot_rows (slot : string * string) : list BillingSource :=
  List.filter (fun x => bool_decide (bs_slot x = slot)) sources.
Definition checked (slot : string * string) : Prop :=
  exists projected, projected_rows p resolved slot.1 slot.2 (slot_rows slot) = Ok projected
    /\ validate_projection (bs_core <$> slot_rows slot) projected = Ok tt.

(** Nothing is left to bill. *)
Definition slot_done (d : feedb) (slot : string * string) : Prop :=
  (current_bill d slot.1 slot.2 = None /\ exists s, s ∈ statements d /\ slot_of s = slot)
  \/ (exists c, current_bill d slot.1 slot.2 = Some c
        /\ (is_protected_statement d c = true
            \/ (is_protected_statement d c = false /\ generated_from d (statement_id c) (payload_hash (slot_rows slot)) = true
                /\ checked slot))).

Definition created (d d' : feedb) (slot : string * string) : Prop :=
  let current := current_bill d slot.1 slot.2 in
  let id := pending_id g slot.1 slot.2 in
  let cores := bs_core <$> slot_rows slot in
  (current = None -> forall s, s ∈ statements d -> slot_of s <> slot)
  /\ (forall c, current = Some c -> is_protected_statement d c = false)
  /\ checked slot /\ id ∉ statement_id <$> statements d
  /\ d' = with_bills d (superseded current (statements d) ++ [new_bill g slot.1 slot.2 current cores])
            (statement_lines d ++ bill_lines id cores) (statement_entries d ++ bill_entries id cores)
            (finance_audits d ++ [bill_audit g job slot.1 slot.2 current (slot_rows slot) (payload_hash (slot_rows slot))]).

Lemma bill_slot_ok d st slot d' st' : bills_ok d -> bill_slot p resolved g job sources retained (d, st) slot = Ok (d', st') ->
  (audited d d' /\ slot_done d slot /\ bill_created st' = bill_created st)
  \/ (created d d' slot /\ bill_created st' = bill_created st + 1).
Proof.
  intros Hb. destruct slot as [store month]. unfold PendingBills.bill_slot. cbv zeta.
  destruct (bool_decide _ && existsb _ _) eqn:Em.
  { intros [= <- <-]. left. tests. split; [apply audit_outcome_audited|]. split; [|done]. left. split; [done|].
    match goal with H : existsb _ _ = true |- _ => apply existsb_exists in H as (s & Hs & E) end. tests. exists s.
    split; [by apply list_elem_of_In|]. unfold slot_of. congruence. }
  destruct (current_bill d store month) as [c|] eqn:Ec.
  - destruct (is_protected_statement d c) eqn:Ep.
    { intros [= <- <-]. left. split; [|split; [|done]].
      - eapply audited_trans; [|apply audit_outcome_audited]. destruct (source_drift _ _ _); [apply audit_outcome_audited|apply audited_refl].
      - right. exists c. split; [done|by left]. }
    intros (projected & Hpr & H)%result_bind_Ok. revert H. intros (u & Hv & H)%result_bind_Ok. destruct u.
    destruct (generated_from d (statement_id c) _) eqn:Eg.
    { injection H as <- <-. left. split; [apply audited_refl|]. split; [|done]. right. exists c. split; [done|]. right.
      split; [done|]. split; [done|]. by exists projected. }
    revert H. intros (d1 & H1 & [= <- <-])%result_bind_Ok. right. split; [|done].
    apply create_bill_ok in H1 as [Hid ->]; [|done|done].
    split; [|split; [|split; [by exists projected|split; [done|]]]]; cbn; rewrite Ec; [done|by intros c' [= <-]|done].
  - rewrite bool_decide_true in Em by done. cbn in Em.
    intros (projected & Hpr & H)%result_bind_Ok. revert H. intros (u & Hv & H)%result_bind_Ok. destruct u.
    revert H. intros (d1 & H1 & [= <- <-])%result_bind_Ok. right. split; [|done].
    apply create_bill_ok in H1 as [Hid ->]; [|done|done].
    split; [|split; [|split; [by exists projected|split; [done|]]]]; cbn; rewrite Ec; [|done|done].
    intros _ s Hs [= <- <-]. pose proof (existsb_false_in _ _ _ Em Hs) as E. cbn in E. by rewrite !str_eqb_refl in E.
Qed.

(** ** Preservation *)

Lemma superseded_in (current : option SettlementStatement) ss s : s ∈ superseded current ss ->
  exists s0, s0 ∈ ss /\ statement_id s = statement_id s0 /\ slot_of s = slot_of s0
    /\ stmt_version_no s = stmt_version_no s0 /\ (stmt_is_current s = true -> s = s0)
    /\ (forall c, current = Some c -> s0 = c -> stmt_is_current s = false).
Proof.
  destruct current as [c|]; cbn.
  - intros (s0 & -> & Hin)%list_elem_of_fmap. exists s0. destruct (demote_fields (statement_id c) s0) as (? & ? & ? & ?).
    do 5 (split; [done|]). intros c' [= <-] ->. unfold demote. by rewrite str_eqb_refl.
  - intros Hin. exists s. do 5 (split; [done|]). done.
Qed.

Lemma superseded_ids (current : option SettlementStatement) ss : statement_id <$> superseded current ss = statement_id <$> ss.
Proof.
  destruct current as [c|]; [|done]. cbn. rewrite <- list_fmap_compose. apply list_fmap_ext. intros i s _. apply demote_fields.
Qed.

Lemma superseded_other d slot s : bills_ok d -> s ∈ statements d -> slot_of s <> slot ->
  s ∈ superseded (current_bill d slot.1 slot.2) (statements d).
Proof.
  intros Hb Hs Hne. destruct (current_bill d slot.1 slot.2) as [c|] eqn:Ec; [|done]. cbn.
  apply list_elem_of_fmap. exists s. split; [|done]. unfold demote.
  rewrite str_eqb_false; [done|]. intros E. apply Hne. apply current_bill_in in Ec as (Hc & Hsl & _).
  rewrite (fmap_NoDup_inj statement_id (statements d) s c (bo_ids d Hb) Hs Hc E). rewrite Hsl. by destruct slot.
Qed.

Lemma created_bills_ok d d' slot : bills_ok d -> created d d' slot -> bills_ok d'.
Proof.
  intros Hb (Hnone & _ & _ & Hid & ->). set (current := current_bill d slot.1 slot.2) in *.
  set (new := new_bill _ _ _ _ _).
  assert (slot_of new = slot) as Hslot by (by destruct slot).
  assert (forall s, s ∈ superseded current (statements d) -> slot_of s = slot -> stmt_is_current s = false
    /\ stmt_version_no s < stmt_version_no new) as Hold.
  { intros s Hs Es. destruct (superseded_in _ _ _ Hs) as (s0 & Hin & _ & Esl & Ev & Heq & Hc).
    destruct current as [c|] eqn:Ec.
    - destruct (current_bill_in _ _ _ _ Ec) as (Hcin & Hcs & Hcc).
      assert (slot_of s0 = slot_of c) as E by (rewrite <- Esl, Es, Hcs; by destruct slot). split.
      + destruct (stmt_is_current s) eqn:Esc; [|done]. specialize (Heq eq_refl). subst s0.
        apply (Hc c eq_refl). by apply (bo_current d Hb).
      + rewrite Ev. pose proof (bo_latest d Hb s0 c Hin Hcin Hcc E). subst new. cbn. lia.
    - exfalso. by apply (Hnone eq_refl s0 Hin); rewrite <- Esl. }
  split; cbn [with_bills field_set statements statement_lines statement_entries].
  - rewrite fmap_app, superseded_ids. apply NoDup_app. split; [apply Hb|]. split; [|apply NoDup_singleton].
    intros i Hi Ei%list_elem_of_singleton. subst i. by apply Hid.
  - intros s c [Hs|Hs%list_elem_of_singleton]%elem_of_app [Hc|Hc%list_elem_of_singleton]%elem_of_app Hsc Hcc E.
    + destruct (superseded_in _ _ _ Hs) as (s0 & Hs0 & _ & _ & _ & Es & _), (superseded_in _ _ _ Hc) as (c0 & Hc0 & _ & _ & _ & Ec0 & _).
      specialize (Es Hsc). specialize (Ec0 Hcc). subst s0 c0. by apply (bo_current d Hb).
    + subst c. destruct (Hold s Hs); congruence.
    + subst s. destruct (Hold c Hc); congruence.
    + congruence.
  - intros s c [Hs|Hs%list_elem_of_singleton]%elem_of_app [Hc|Hc%list_elem_of_singleton]%elem_of_app Hcc E.
    + destruct (superseded_in _ _ _ Hs) as (s0 & Hs0 & _ & E1 & E2 & _ & _), (superseded_in _ _ _ Hc) as (c0 & Hc0 & _ & E3 & E4 & Ec0 & _).
      specialize (Ec0 Hcc). subst c0. rewrite E2. apply (bo_latest d Hb); [done|done|done|congruence].
    + subst c. destruct (Hold s Hs); [congruence|lia].
    + subst s. destruct (Hold c Hc); congruence.
    + subst s c. lia.
  - rewrite fmap_app, superseded_ids. intros l [Hl|Hl]%elem_of_app; apply elem_of_app; [left; by apply (bo_lines d Hb)|right].
    rewrite (bill_lines_of _ _ _ Hl). by left.
  - rewrite fmap_app, superseded_ids. intros l [Hl|Hl]%elem_of_app; apply elem_of_app; [left; by apply (bo_entries d Hb)|right].
    rewrite (bill_entries_of _ _ _ Hl). by left.
Qed.

Lemma audited_bills_ok d d' : bills_ok d -> audited d d' -> bills_ok d'.
Proof. intros [? ? ? ? ?] [au ->]. by split. Qed.

(** ** Slots that are done *)

Lemma slot_done_audited d d' slot : audited d d' -> slot_done d slot -> slot_done d' slot.
Proof.
  intros Ha [H|(c & Hc & H)].
  - left. by destruct Ha as [au ->].
  - right. exists c. split; [by destruct Ha as [au ->]|]. destruct H as [H|(H1 & H2 & H3)].
    + left. by destruct Ha as [au ->].
    + right. split; [by destruct Ha as [au ->]|]. split; [by eapply generated_from_audited|done].
Qed.

Lemma slot_done_created d d' slot : bills_ok d -> created d d' slot -> slot_done d' slot.
Proof.
  intros Hb Hc. pose proof (created_bills_ok _ _ _ Hb Hc) as Hb'. destruct Hc as (_ & _ & Hck & _ & ->).
  set (new := new_bill _ _ _ _ _) in *. right. exists new. split.
  - apply (current_bill_of _ new Hb'); [|done]. cbn. apply elem_of_app. right. by left.
  - destruct (is_protected_statement _ new); [by left|right]. split; [done|]. split; [|done].
    unfold generated_from. cbn. rewrite existsb_app. apply orb_true_iff. right. cbn.
    rewrite !str_eqb_refl, opt_is_refl. done.
Qed.

Lemma slot_done_other d d' slot slot' : bills_ok d -> created d d' slot -> slot' <> slot -> slot_done d slot' -> slot_done d' slot'.
Proof.
  intros Hb Hc Hne Hd. pose proof (created_bills_ok _ _ _ Hb Hc) as Hb'. destruct Hc as (_ & _ & _ & _ & Ed').
  assert (forall s, s ∈ statements d -> slot_of s = slot' -> s ∈ statements d') as Hkeep.
  { intros s Hs Es. subst d'. cbn. apply elem_of_app. left. apply superseded_other; [done|done|congruence]. }
  destruct Hd as [(Hn & s & Hs & Es)|(c & Hcur & H)].
  - left. split; [|by exists s; auto]. destruct (current_bill d' slot'.1 slot'.2) as [c|] eqn:E; [|done]. exfalso.
    apply current_bill_in in E as (Hc & Hsl & Hcc). subst d'. cbn in Hc.
    apply elem_of_app in Hc as [Hc|Hc%list_elem_of_singleton].
    + destruct (superseded_in _ _ _ Hc) as (s0 & Hin & _ & _ & _ & Heq & _). specialize (Heq Hcc). subst s0.
      rewrite (current_bill_none _ _ _ c Hn Hin Hsl) in Hcc. done.
    + apply Hne. transitivity (slot_of c); [rewrite Hsl; by destruct slot'|subst c; by destruct slot].
  - right. exists c. destruct (current_bill_in _ _ _ _ Hcur) as (Hci & Hsl & Hcc).
    assert (slot_of c = slot') as Hsl' by (rewrite Hsl; by destruct slot'). split.
    + pose proof (current_bill_of d' c Hb' (Hkeep c Hci Hsl') Hcc) as E. unfold slot_of in Hsl. injection Hsl as E1 E2. by rewrite E1, E2 in E.
    + destruct H as [H|(H1 & H2 & H3)]; [left; by subst d'|right]. split; [by subst d'|]. split; [|done].
      subst d'. unfold generated_from in *. cbn. rewrite existsb_app. by rewrite H2.
Qed.

(** A slot that is done is skipped. *)
Lemma bill_slot_done d st slot : bills_ok d -> slot_done d slot ->
  exists d' st', bill_slot p resolved g job sources retained (d, st) slot = Ok (d', st') /\ audited d d'
    /\ bill_created st' = bill_created st.
Proof.
  intros Hb Hd. destruct slot as [store month]. unfold PendingBills.bill_slot. cbv zeta.
  destruct Hd as [(Hn & s & Hs & Es)|(c & Hc & H)]; cbn [fst snd] in *.
  - rewrite Hn, bool_decide_true by done. assert (existsb (fun x => str_eqb (stmt_store_id x) store && str_eqb (statement_month x) month)
      (statements d) = true) as ->.
    { apply existsb_exists. exists s. split; [by apply list_elem_of_In|]. injection Es as -> ->. by rewrite !str_eqb_refl. }
    cbn. eexists _, _. split; [done|]. split; [apply audit_outcome_audited|done].
  - rewrite Hc. cbn [andb]. rewrite bool_decide_false by done. cbn [andb].
    destruct H as [H|(H1 & H2 & (projected & H3 & H4))].
    + rewrite H. eexists _, _. split; [done|]. split; [|done].
      eapply audited_trans; [|apply audit_outcome_audited]. destruct (source_drift _ _ _); [apply audit_outcome_audited|apply audited_refl].
    + rewrite H1. unfold slot_rows in *. cbn [fst snd] in *. rewrite H3. cbn [result_bind]. rewrite H4. cbn [result_bind]. rewrite H2.
      eexists _, _. split; [done|]. split; [apply audited_refl|done].
Qed.

(** ** All slots *)

(** The steps of a run. *)
Inductive bill_steps : feedb -> list (string * string) -> feedb -> Prop :=
| steps_nil d : bill_steps d [] d
| steps_audited d d1 d2 slot l : audited d d1 -> slot_done d slot -> bill_steps d1 l d2 -> bill_steps d (slot :: l) d2
| steps_created d d1 d2 slot l : created d d1 slot -> bill_steps d1 l d2 -> bill_steps d (slot :: l) d2.

Lemma fold_bill_steps l : forall d st d' st', bills_ok d ->
  fold_result (bill_slot p resolved g job sources retained) (d, st) l = Ok (d', st') -> bill_steps d l d'.
Proof.
  induction l as [|slot l IH]; intros d st d' st' Hb; cbn [fold_result]; [intros [= <- <-]; constructor|].
  intros ([d1 st1] & H1 & H2)%result_bind_Ok. destruct (bill_slot_ok _ _ _ _ _ Hb H1) as [(Ha & Hd & _)|(Hc & _)].
  - eapply steps_audited; [done|done|]. eapply IH; [|done]. by eapply audited_bills_ok.
  - eapply steps_created; [done|]. eapply IH; [|done]. by eapply created_bills_ok.
Qed.

Lemma steps_bills_ok d l d' : bills_ok d -> bill_steps d l d' -> bills_ok d'.
Proof.
  intros Hb H. induction H as [d|d d1 d2 slot l Ha Hd _ IH|d d1 d2 slot l Hc _ IH]; [done| |]; apply IH;
    [by eapply audited_bills_ok|by eapply created_bills_ok].
Qed.

Lemma steps_keep_done d l d' slot : bills_ok d -> bill_steps d l d' -> slot ∉ l -> slot_done d slot -> slot_done d' slot.
Proof.
  intros Hb H. induction H as [d|d d1 d2 s l Ha _ _ IH|d d1 d2 s l Hc _ IH]; intros Hn Hd; [done| |];
    apply not_elem_of_cons in Hn as [Hne Hn].
  - apply IH; [by eapply audited_bills_ok|done|by eapply slot_done_audited].
  - apply IH; [by eapply created_bills_ok|done|by eapply slot_done_other].
Qed.

Lemma steps_done d l d' slot : bills_ok d -> bill_steps d l d' -> NoDup l -> slot ∈ l -> slot_done d' slot.
Proof.
  intros Hb H. induction H as [d|d d1 d2 s l Ha Hd Hs IH|d d1 d2 s l Hc Hs IH]; intros Hnd Hin; [by apply elem_of_nil in Hin| |];
    apply NoDup_cons in Hnd as [Hn Hnd]; apply elem_of_cons in Hin as [->|Hin].
  - eapply steps_keep_done; [by eapply audited_bills_ok|done|done|by eapply slot_done_audited].
  - apply IH; [by eapply audited_bills_ok|done|done].
  - eapply steps_keep_done; [by eapply created_bills_ok|done|done|by eapply slot_done_created].
  - apply IH; [by eapply created_bills_ok|done|done].
Qed.

Lemma fold_done l : forall d st, bills_ok d -> (forall slot, slot ∈ l -> slot_done d slot) ->
  exists d' st', fold_result (bill_slot p resolved g job sources retained) (d, st) l = Ok (d', st') /\ audited d d'
    /\ bill_created st' = bill_created st.
Proof.
  induction l as [|slot l IH]; intros d st Hb Hd; cbn [fold_result].
  { exists d, st. split; [done|]. split; [apply audited_refl|done]. }
  destruct (bill_slot_done d st slot Hb) as (d1 & st1 & -> & Ha & Ec); [apply Hd; by left|]. cbn [result_bind].
  destruct (IH d1 st1) as (d2 & st2 & -> & Ha2 & Ec2).
  - by eapply audited_bills_ok.
  - intros s Hs. eapply slot_done_audited; [done|]. apply Hd. by right.
  - exists d2, st2. split; [done|]. split; [by eapply audited_trans|congruence].
Qed.
End Slot.
End Props.
