(* ===== verification/PendingThms.v ===== *)
(** * Pending bills: what a run promises *)
From S2P Require Import Prelude PyValue Jobs FeeTables FeeLedger FeeProps Statements StatementLines Lineage BillingSources BillingSourceProps PendingBills PendingProps.
#[local] Open Scope Z_scope.
#[local] Set Default Proof Using "Type".

(** ** The published amounts *)

Lemma validate_every rows projected k : validate_projection rows projected = Ok tt ->
  actual_amounts rows k = expected_amounts projected k.
Proof.
  unfold validate_projection. intros H%raise_if_ok.
  destruct (decide (k ∈ mjoin (overlay_keys <$> projected) ++ mjoin (dimension_keys <$> rows))) as [Hk|Hk].
  - pose proof (existsb_false_in _ _ _ H Hk) as E. cbn in E. by tests.
  - apply not_elem_of_app in Hk as [H1 H2]. unfold actual_amounts, expected_amounts.
    rewrite (proj2 (lfilter_nil_iff _ rows)), (proj2 (lfilter_nil_iff _ projected)); [done| |].
    + intros o Ho. apply bool_decide_eq_false. intros Hin. apply H1, list_elem_of_join. exists (overlay_keys o).
      split; [done|by apply list_elem_of_fmap_2].
    + intros x Hx. apply bool_decide_eq_false. intros Hin. apply H2, list_elem_of_join. exists (dimension_keys x).
      split; [done|by apply list_elem_of_fmap_2].
Qed.

(** The grand total of a direction adds up all its sources. *)
Lemma all_key direction x : (direction, "all", "all") ∈ dimension_keys x <-> ss_fee_direction x = direction.
Proof.
  unfold dimension_keys. rewrite list_elem_of_fmap. split; [intros (q & E & _); congruence|]. intros <-.
  exists ("all", "all"). split; [done|]. unfold projection_dimensions. apply elem_of_remove_dups. by left.
Qed.

Lemma grand_total rows direction :
  (actual_amounts rows (direction, "all", "all")).1.2 = source_fee rows direction 1
  /\ (actual_amounts rows (direction, "all", "all")).2 = source_fee rows direction 2.
Proof.
  unfold actual_amounts, source_fee, of_type, fee_total, sum_Z.
  rewrite (filter_ext_in _ (fun x => ss_fee_direction x =? direction)).
  2: { intros x. destruct (Z.eqb_spec (ss_fee_direction x) direction) as [E|E].
       - by apply bool_decide_eq_true, all_key.
       - by apply bool_decide_eq_false; rewrite all_key. }
  induction (List.filter _ rows) as [|x l [IH1 IH2]]; [done|]. cbn.
  destruct (Z.eqb_spec (ss_source_type x) 1) as [E|E].
  - rewrite E. cbn. cbn in IH1, IH2. split; [lia|]. exact IH2.
  - destruct (Z.eqb_spec (ss_source_type x) 2) as [E2|E2]; cbn; cbn in IH1, IH2; split; lia.
Qed.

(** The fees of a bill's head, as original and adjustment of either direction. *)
Definition head_fees (s : SettlementStatement) : Z * Z * Z * Z :=
  (stmt_promotion_original_fee_cent s, stmt_promotion_adjustment_fee_cent s,
   stmt_management_original_fee_cent s, stmt_management_adjustment_fee_cent s).
(** The published amounts of a store for a month. *)
Definition published_fees (projected : list SettlementMonthlyOverlay) : Z * Z * Z * Z :=
  let promotion := expected_amounts projected (PROMOTION_FEE, "all", "all") in
  let management := expected_amounts projected (MANAGEMENT_FEE, "all", "all") in
  (promotion.1.2, promotion.2, management.1.2, management.2).

Lemma head_published rows projected s :
  validate_projection rows projected = Ok tt -> head_fees (with_totals rows s) = published_fees projected.
Proof.
  intros H. unfold published_fees. rewrite <- !(validate_every rows projected) by done.
  destruct (grand_total rows PROMOTION_FEE) as [-> ->], (grand_total rows MANAGEMENT_FEE) as [-> ->]. done.
Qed.

Section Theorems.
Context (hexdigest : string -> string) (digest : pyval -> string) (json_loads : string -> option pyval).
Context (str_datetime : instant -> string) (str_rate : Z -> string).
#[local] Notation generate := (generate_pending_statements hexdigest digest json_loads str_datetime str_rate).
#[local] Notation steps p resolved g job sources := (bill_steps hexdigest digest str_datetime str_rate p resolved g job sources).

(** A run with sources is a sequence of steps over its slots. *)
Lemma generate_steps p d g job sources slots d' st :
  bills_ok d -> generate p d g job (Some sources) slots = Ok (d', st) ->
  exists resolved x, resolve_projection_partitions json_loads p "monthly"
      (merge_sort String.le (remove_dups ((slots_of sources slots).*2))) (Some g) no_provenance = Ok (resolved, x)
    /\ steps p resolved g job sources d (slots_of sources slots) d'.
Proof.
  intros Hb. unfold generate_pending_statements. intros (? & _ & H)%result_bind_Ok. revert H.
  intros (? & _ & H)%result_bind_Ok. revert H. intros (? & _ & H)%result_bind_Ok. revert H. cbv zeta.
  intros ([resolved ctx] & Hr & H)%result_bind_Ok. exists resolved, ctx. split; [done|]. by eapply fold_bill_steps.
Qed.

(** ** Nothing is lost *)

(** What a run does to the rows that were there. *)
Record appends (d d' : feedb) : Prop := {
  ap_protected : forall s, s ∈ statements d -> is_protected_statement d s = true -> s ∈ statements d';
  ap_kept : forall s, s ∈ statements d -> s ∈ statements d' \/ (stmt_is_current s = true /\ s <| stmt_is_current := false |> ∈ statements d');
  ap_lines : exists ls, statement_lines d' = statement_lines d ++ ls /\ forall l, l ∈ ls -> line_statement_id l ∉ statement_id <$> statements d;
  ap_entries : exists es, statement_entries d' = statement_entries d ++ es /\ forall e, e ∈ es -> entry_statement_id e ∉ statement_id <$> statements d;
  ap_rest : d' = with_bills d (statements d') (statement_lines d') (statement_entries d') (finance_audits d');
}.

Lemma appends_refl d : appends d d.
Proof.
  split; [done|by left|exists []; rewrite app_nil_r; split; [done|by intros ? ?%elem_of_nil]|
    exists []; rewrite app_nil_r; split; [done|by intros ? ?%elem_of_nil]|by rewrite with_bills_id].
Qed.
Lemma appends_ids d d' i : appends d d' -> i ∈ statement_id <$> statements d -> i ∈ statement_id <$> statements d'.
Proof.
  intros Ha (s & -> & Hs)%list_elem_of_fmap. destruct (ap_kept d d' Ha s Hs) as [H|[_ H]]; apply list_elem_of_fmap;
    [by exists s|by eexists; split; [|exact H]].
Qed.
Lemma appends_protected d d' s : appends d d' -> is_protected_statement d' s = is_protected_statement d s.
Proof. intros Ha. rewrite (ap_rest d d' Ha). apply protected_frame. Qed.
Lemma appends_trans d1 d2 d3 : appends d1 d2 -> appends d2 d3 -> appends d1 d3.
Proof.
  intros H1 H2. split.
  - intros s Hs Hp. apply (ap_protected d2 d3 H2); [by apply (ap_protected d1 d2 H1)|by rewrite (appends_protected d1)].
  - intros s Hs. destruct (ap_kept d1 d2 H1 s Hs) as [Hs2|[Hc Hs2]]; [by apply (ap_kept d2 d3 H2)|].
    right. split; [done|]. by destruct (ap_kept d2 d3 H2 _ Hs2) as [?|[? _]].
  - destruct (ap_lines d1 d2 H1) as (l1 & E1 & N1), (ap_lines d2 d3 H2) as (l2 & E2 & N2). exists (l1 ++ l2).
    rewrite E2, E1, app_assoc. split; [done|]. intros l [Hl|Hl]%elem_of_app; [by apply N1|].
    intros Hi. apply (N2 l Hl). by apply (appends_ids d1).
  - destruct (ap_entries d1 d2 H1) as (l1 & E1 & N1), (ap_entries d2 d3 H2) as (l2 & E2 & N2). exists (l1 ++ l2).
    rewrite E2, E1, app_assoc. split; [done|]. intros l [Hl|Hl]%elem_of_app; [by apply N1|].
    intros Hi. apply (N2 l Hl). by apply (appends_ids d1).
  - rewrite (ap_rest d2 d3 H2) at 1. rewrite (ap_rest d1 d2 H1) at 1. done.
Qed.

Lemma audited_appends d d' : audited d d' -> appends d d'.
Proof.
  intros [au ->]. split; [done|by left|exists []; rewrite app_nil_r; split; [done|by intros ? ?%elem_of_nil]|
    exists []; rewrite app_nil_r; split; [done|by intros ? ?%elem_of_nil]|done].
Qed.

Lemma created_appends p resolved g job sources d d' slot :
  bills_ok d -> created hexdigest digest str_datetime str_rate p resolved g job sources d d' slot -> appends d d'.
Proof.
  intros Hb (_ & Hun & _ & Hid & ->).
  assert (forall s, s ∈ statements d -> current_bill d slot.1 slot.2 <> Some s ->
    s ∈ superseded (current_bill d slot.1 slot.2) (statements d)) as Hkeep.
  { intros s Hs Hne. destruct (current_bill d slot.1 slot.2) as [c|] eqn:Ec; [|done]. cbn. apply list_elem_of_fmap.
    exists s. split; [|done]. unfold demote. rewrite str_eqb_false; [done|]. intros E. apply Hne. f_equal. symmetry.
    apply (fmap_NoDup_inj statement_id (statements d)); [apply Hb|done|by eapply current_bill_in|done]. }
  split; cbn [with_bills field_set statements statement_lines statement_entries].
  - intros s Hs Hp. apply elem_of_app. left. apply Hkeep; [done|]. intros Ec. rewrite (Hun s Ec) in Hp. done.
  - intros s Hs. destruct (current_bill d slot.1 slot.2) as [c|] eqn:Ec; [|left; apply elem_of_app; left; by apply Hkeep].
    destruct (decide (statement_id s = statement_id c)) as [E|E].
    + right. destruct (current_bill_in _ _ _ _ Ec) as (Hc & _ & Hcc).
      assert (s = c) as -> by (by apply (fmap_NoDup_inj statement_id (statements d)); [apply Hb| | |]). split; [done|].
      apply elem_of_app. left. cbn. apply list_elem_of_fmap. exists c. split; [|done]. unfold demote. by rewrite str_eqb_refl.
    + left. apply elem_of_app. left. apply Hkeep; [done|]. congruence.
  - eexists. split; [done|]. intros l Hl. by rewrite (bill_lines_of _ _ _ _ Hl).
  - eexists. split; [done|]. intros e He. by rewrite (bill_entries_of _ _ _ _ He).
  - done.
Qed.

Lemma steps_appends p resolved g job sources d l d' : bills_ok d -> steps p resolved g job sources d l d' -> appends d d'.
Proof.
  intros Hb H. induction H as [d|d d1 d2 slot l Ha _ _ IH|d d1 d2 slot l Hc _ IH]; [apply appends_refl| |].
  - eapply appends_trans; [by apply audited_appends|]. apply IH. by eapply audited_bills_ok.
  - eapply appends_trans; [by eapply created_appends|]. apply IH. by eapply created_bills_ok.
Qed.

(** ** The new bills *)

Definition entries_of (d : feedb) (id : string) : list SettlementStatementEntry :=
  List.filter (fun e => str_eqb (entry_statement_id e) id) (statement_entries d).

Lemma entries_appended d d' id : appends d d' -> id ∈ statement_id <$> statements d -> entries_of d' id = entries_of d id.
Proof.
  intros Ha Hid. unfold entries_of. destruct (ap_entries d d' Ha) as (es & -> & N). rewrite lfilter_app.
  rewrite (proj2 (lfilter_nil_iff _ es)); [by rewrite app_nil_r|]. intros e He. apply str_eqb_false. intros E.
  apply (N e He). by rewrite E.
Qed.

Definition is_new_bill (p : projectiondb) (resolved : list (string * PartitionResolution)) (g : string)
    (sources : list BillingSource) (d : feedb) (c : SettlementStatement) (slot : string * string) : Prop :=
  checked p resolved sources slot /\ (exists current, c = new_bill hexdigest g slot.1 slot.2 current (bs_core <$> slot_rows sources slot))
  /\ entries_of d (statement_id c) = bill_entries hexdigest (statement_id c) (bs_core <$> slot_rows sources slot).

Lemma created_new p resolved g job sources d d' slot :
  bills_ok d -> created hexdigest digest str_datetime str_rate p resolved g job sources d d' slot ->
  forall c, c ∈ statements d' -> stmt_is_current c = true -> c ∈ statements d \/ is_new_bill p resolved g sources d' c slot.
Proof.
  intros Hb (_ & _ & Hck & Hid & ->) c Hc Hcc. cbn [with_bills field_set statements] in Hc.
  apply elem_of_app in Hc as [Hc|Hc%list_elem_of_singleton].
  - left. destruct (superseded_in _ _ _ Hc) as (s0 & Hin & _ & _ & _ & E & _). by rewrite (E Hcc).
  - right. split; [done|]. split; [by eexists|]. subst c. unfold entries_of. cbn. rewrite lfilter_app.
    rewrite (proj2 (lfilter_nil_iff _ (statement_entries d))).
    + apply filter_all, forallb_forall. intros e He%list_elem_of_In. apply str_eqb_true. by eapply bill_entries_of.
    + intros e He. apply str_eqb_false. intros E. apply Hid. rewrite <- E. by apply (bo_entries d Hb).
Qed.

Lemma steps_new p resolved g job sources d l d' : bills_ok d -> steps p resolved g job sources d l d' ->
  forall c, c ∈ statements d' -> stmt_is_current c = true ->
    c ∈ statements d \/ exists slot, slot ∈ l /\ is_new_bill p resolved g sources d' c slot.
Proof.
  intros Hb H. induction H as [d|d d1 d2 slot l Ha _ Hs IH|d d1 d2 slot l Hc Hs IH]; intros c Hin Hcc; [by left| |].
  - destruct (IH (audited_bills_ok _ _ Hb Ha) c Hin Hcc) as [H|(s & Hs' & H)].
    + left. by destruct Ha as [au ->].
    + right. exists s. split; [by right|done].
  - pose proof (created_bills_ok _ _ _ _ _ _ _ _ _ _ _ _ Hb Hc) as Hb1. destruct (IH Hb1 c Hin Hcc) as [H|(s & Hs' & H)].
    + destruct (created_new _ _ _ _ _ _ _ _ Hb Hc c H Hcc) as [H'|(H1 & H2 & H3)]; [by left|right]. exists slot.
      split; [by left|]. split; [done|]. split; [done|]. rewrite <- H3.
      apply entries_appended; [by eapply steps_appends|]. by apply list_elem_of_fmap_2.
    + right. exists s. split; [by right|done].
Qed.

Lemma bill_entries_rows id rows : entry_row <$> bill_entries hexdigest id rows ≡ₚ source_row <$> rows.
Proof.
  rewrite <- (grouped_sources rows) at 2. unfold bill_entries, grouped. induction (line_groups rows) as [|x l IH]; [done|].
  cbn. rewrite !fmap_app, IH, <- list_fmap_compose. done.
Qed.

(** ** Theorems *)

(** C7: A billing run only appends: every statement row stays as it was, except that
    the current flag of a bill without financial facts may be cleared; a bill that is
    confirmed, locked, disputed or invoiced is untouched, no line or entry of an
    existing bill changes, and no table but statements, lines, entries and audits is
    written.  The bills stay well formed: one current bill for a store and month at
    most, and it has the greatest version. *)
Theorem billing_appends p d g job sources slots d' st :
  bills_ok d -> generate p d g job sources slots = Ok (d', st) -> bills_ok d' /\ appends d d'.
Proof.
  intros Hb H. destruct sources as [sources|].
  - apply generate_steps in H as (resolved & x & _ & Hs); [|done]. split; [by eapply steps_bills_ok|by eapply steps_appends].
  - unfold generate_pending_statements in H. apply result_bind_Ok in H as (? & _ & [= <- _]).
    pose proof (audit_outcome_audited hexdigest g job g "FROZEN_SOURCES_MISSING" d) as Ha.
    split; [by eapply audited_bills_ok|by apply audited_appends].
Qed.

(** C4: A new bill says what was published: the promotion and management fees in the
    head of every bill that a run makes current are the totals of the store and month
    in the monthly overlay that the published generation resolves to, its nets are
    their sums, and its entries are the frozen sources of the slot, each exactly once. *)
Theorem new_bills_are_published p d g job sources slots d' st c :
  bills_ok d -> generate p d g job (Some sources) slots = Ok (d', st) ->
  c ∈ statements d' -> stmt_is_current c = true -> c ∉ statements d ->
  exists resolved x projected,
    resolve_projection_partitions json_loads p "monthly"
      (merge_sort String.le (remove_dups ((slots_of sources slots).*2))) (Some g) no_provenance = Ok (resolved, x)
    /\ projected_rows p resolved (stmt_store_id c) (statement_month c) (slot_rows sources (slot_of c)) = Ok projected
    /\ head_fees c = published_fees projected
    /\ stmt_promotion_net_fee_cent c = stmt_promotion_original_fee_cent c + stmt_promotion_adjustment_fee_cent c
    /\ stmt_management_net_fee_cent c = stmt_management_original_fee_cent c + stmt_management_adjustment_fee_cent c
    /\ entry_row <$> entries_of d' (statement_id c) ≡ₚ source_row <$> (bs_core <$> slot_rows sources (slot_of c)).
Proof.
  intros Hb H Hc Hcc Hn. apply generate_steps in H as (resolved & x & Hr & Hs); [|done].
  destruct (steps_new _ _ _ _ _ _ _ _ Hb Hs c Hc Hcc) as [?|(slot & _ & (projected & Hp & Hv) & (cur & Ec) & He)]; [done|].
  assert (slot_of c = slot) as Esl by (subst c; by destruct slot). rewrite Esl.
  exists resolved, x, projected. split; [done|]. split; [by subst c|]. split; [subst c; by apply head_published|].
  split; [by subst c|]. split; [by subst c|]. rewrite He. apply bill_entries_rows.
Qed.

(** C16: Billing is idempotent: running it again for the same generation with the same
    frozen sources and slots succeeds, creates no bill and leaves statements, lines
    and entries as they are. *)
Theorem billing_again p d g job sources slots d' st :
  bills_ok d -> generate p d g job (Some sources) slots = Ok (d', st) ->
  exists d'' st', generate p d' g job (Some sources) slots = Ok (d'', st') /\ bill_created st' = 0
    /\ statements d'' = statements d' /\ statement_lines d'' = statement_lines d'
    /\ statement_entries d'' = statement_entries d'.
Proof.
  intros Hb H. pose proof H as H'. apply generate_steps in H' as (resolved & x & Hr & Hs); [|done].
  pose proof (steps_bills_ok _ _ _ _ _ _ _ _ _ _ _ _ Hb Hs) as Hb'.
  destruct (fold_done hexdigest digest str_datetime str_rate p resolved g job sources (retained_original <$> sources)
    (slots_of sources slots) d' no_bills Hb') as (d'' & st' & Hf & [au ->] & Ec).
  { intros slot Hin. eapply steps_done; [exact Hb|exact Hs|apply slots_of_nodup|done]. }
  exists (with_bills d' (statements d') (statement_lines d') (statement_entries d') (finance_audits d' ++ au)), st'.
  split; [|done]. unfold generate_pending_statements in *. apply result_bind_Ok in H as (? & -> & H). cbn [result_bind].
  apply result_bind_Ok in H as (? & -> & H). cbn [result_bind]. apply result_bind_Ok in H as (? & -> & H). cbn [result_bind]. cbv zeta in *.
  rewrite Hr. exact Hf.
Qed.
End Theorems.
