(* ===== verification/BillingWitness.v ===== *)
(** * Billing: examples

    The sources of a store's month are frozen, read back and billed against the
    projection of [LineageWitness]; an older bill of the same month is superseded. *)
From S2P Require Import Prelude PyValue Jobs FeeTables FeeLedger FeeProps Statements StatementLines Lineage LineageWitness BillingSources BillingSourceProps PendingBills PendingProps PendingThms.
#[local] Open Scope Z_scope.

(** Functions in the place of SHA-256 and of the printers. *)
Definition reversed (s : string) : string := text (rev (chars s)).
Definition size_digest (v : pyval) : string :=
  match v with PList l => str_of_Z (Z.of_nat (length l)) | PDict d => "input" | _ => "" end.
Definition tally (z : Z) : string :=
  text ((if z <? 0 then Ascii.ascii_of_nat 45 else Ascii.ascii_of_nat 43) :: repeat (Ascii.ascii_of_nat 49) (Z.to_nat (Z.abs z))).
Definition read_tally (s : string) : option Z :=
  match chars s with
  | c :: l => Some (if char_is c 45 then - Z.of_nat (length l) else Z.of_nat (length l))
  | [] => None
  end.
Lemma tally_reads z : read_tally (tally z) = Some z.
Proof.
  unfold read_tally, tally. rewrite chars_text. destruct (Z.ltb_spec z 0).
  - change (char_is (Ascii.ascii_of_nat 45) 45) with true. cbv iota. rewrite repeat_length. f_equal. lia.
  - change (char_is (Ascii.ascii_of_nat 43) 45) with false. cbv iota. rewrite repeat_length. f_equal. lia.
Qed.

Definition no_snapshot : source_snapshot :=
  MkSourceSnapshot None None None None None None None None None None (Some 3) None (Some 1300) (Some 5) None None.
Definition fee_source (kind : Z) (record : string) (base fee : Z) : BillingSource :=
  MkBillingSource (MkStatementSource kind record "FR1" "CP1" "OD1" 1 "2026-10" "2026-10" "s1" "all" "all" base fee 1300 "v1")
    no_snapshot.
Definition captured : list BillingSource := [fee_source 2 "AD1" (-300) (-30); fee_source 1 "FR1" 1300 100].

Definition no_capture : capturedb := MkCaptureDb [] [].
#[local] Notation freeze := (freeze_billing_sources reversed size_digest tally read_tally tally read_tally).
Definition capture : result (capturedb * string) := freeze no_capture "g2" "job3" captured [("s1", "2026-10")].
Definition after_capture : capturedb := match capture with Ok (c, _) => c | Raise _ => no_capture end.

Example captured_ex : match capture with
  | Ok (c, fp) => (load_billing_slots c "g2" "job3", fp) = ([("s1", "2026-10")], "input")
                  /\ load_billing_sources reversed size_digest read_tally read_tally c "g2" "job3" = Ok (rev captured)
  | Raise _ => False
  end.
Proof. vm_compute. split; reflexivity. Qed.

Lemma frozen_sources_round_trip_witness :
  load_billing_sources reversed size_digest read_tally read_tally after_capture "g2" "job3"
  = Ok (merge_sort payload_before captured)
  /\ load_billing_slots after_capture "g2" "job3" = slots_of captured [("s1", "2026-10")]
  /\ forall sources' slots', sources' ≡ₚ captured -> (forall s, s ∈ slots' <-> s ∈ [("s1", "2026-10")]) ->
       freeze after_capture "g2" "job3" sources' slots' = Ok (after_capture, "input").
Proof.
  apply (frozen_sources_round_trip reversed size_digest tally read_tally tally read_tally tally_reads tally_reads
    no_capture "g2" "job3" captured [("s1", "2026-10")] after_capture "input" after_capture).
  - by intros b ?%elem_of_nil.
  - reflexivity.
  - vm_compute. reflexivity.
  - apply rtc_refl.
Defined.

(** The books of the store: last month's bill is confirmed, this month's is open. *)
Definition bill (id month : string) (version status : Z) : SettlementStatement :=
  MkStatement id "s1" month version true status 0 0 0 0 0 0 None None None None None.
Definition bill_books : feedb :=
  MkFeeDb [] [] [] [] [] [] [] [] [] [bill "OLD9" "2026-09" 1 3; bill "OLD10" "2026-10" 1 2] [] [] [] [] [] [] [] []
    [MkFeeStore "s1" "store" true] [] [] [] [] [] [] [].

#[local] Notation generate := (generate_pending_statements reversed size_digest no_json tally tally).
Definition billing_run : result (feedb * bill_stats) :=
  generate example_projection bill_books "g2" (Some "job3") (Some captured) [("s1", "2026-10")].
Definition billed_books : feedb := match billing_run with Ok (d, _) => d | Raise _ => bill_books end.
Definition billed_stats : bill_stats := match billing_run with Ok (_, st) => st | Raise _ => no_bills end.

Example billed_ex : match billing_run with
  | Ok (d, st) =>
      bill_created st = 1
      /\ ((fun s => (statement_month s, stmt_version_no s, stmt_is_current s, stmt_promotion_net_fee_cent s)) <$> statements d)
         = [("2026-09", 1, true, 0); ("2026-10", 1, false, 0); ("2026-10", 2, true, 70)]
  | Raise _ => False
  end.
Proof. vm_compute. split; reflexivity. Qed.

(** Sources that the overlay does not show are refused. *)
Example refused_ex :
  generate example_projection bill_books "g2" (Some "job3") (Some [fee_source 1 "FR1" 1300 100]) []
  = Raise (ValueError "billing sources do not match published projection").
Proof. vm_compute. reflexivity. Qed.

Lemma bill_books_ok : bills_ok bill_books.
Proof.
  split; cbn.
  - apply NoDup_cons. split; [by intros ?%list_elem_of_singleton|]. apply NoDup_singleton.
  - intros s c [->|[->|?%elem_of_nil]%elem_of_cons]%elem_of_cons [->|[->|?%elem_of_nil]%elem_of_cons]%elem_of_cons _ _; done.
  - intros s c [->|[->|?%elem_of_nil]%elem_of_cons]%elem_of_cons [->|[->|?%elem_of_nil]%elem_of_cons]%elem_of_cons _; done.
  - by intros l ?%elem_of_nil.
  - by intros e ?%elem_of_nil.
Qed.
Lemma billing_ran : billing_run = Ok (billed_books, billed_stats).
Proof. vm_compute. reflexivity. Qed.

Lemma billing_appends_witness : bills_ok billed_books /\ appends bill_books billed_books.
Proof.
  apply (billing_appends reversed size_digest no_json tally tally example_projection bill_books "g2" (Some "job3")
    (Some captured) [("s1", "2026-10")] billed_books billed_stats).
  - exact bill_books_ok.
  - exact billing_ran.
Defined.

Lemma billing_again_witness : exists d'' st',
  generate example_projection billed_books "g2" (Some "job3") (Some captured) [("s1", "2026-10")] = Ok (d'', st')
  /\ bill_created st' = 0 /\ statements d'' = statements billed_books
  /\ statement_lines d'' = statement_lines billed_books /\ statement_entries d'' = statement_entries billed_books.
Proof.
  apply (billing_again reversed size_digest no_json tally tally example_projection bill_books "g2" (Some "job3")
    captured [("s1", "2026-10")] billed_books billed_stats).
  - exact bill_books_ok.
  - exact billing_ran.
Defined.

Definition october_bill : SettlementStatement :=
  new_bill reversed "g2" "s1" "2026-10" (Some (bill "OLD10" "2026-10" 1 2)) (bs_core <$> captured).

Lemma new_bills_are_published_witness : exists resolved x projected,
  resolve_projection_partitions no_json example_projection "monthly"
    (merge_sort String.le (remove_dups ((slots_of captured [("s1", "2026-10")]).*2))) (Some "g2") no_provenance = Ok (resolved, x)
  /\ projected_rows example_projection resolved (stmt_store_id october_bill) (statement_month october_bill)
       (slot_rows captured (slot_of october_bill)) = Ok projected
  /\ head_fees october_bill = published_fees projected
  /\ stmt_promotion_net_fee_cent october_bill
     = stmt_promotion_original_fee_cent october_bill + stmt_promotion_adjustment_fee_cent october_bill
  /\ stmt_management_net_fee_cent october_bill
     = stmt_management_original_fee_cent october_bill + stmt_management_adjustment_fee_cent october_bill
  /\ entry_row <$> entries_of billed_books (statement_id october_bill)
     ≡ₚ source_row <$> (bs_core <$> slot_rows captured (slot_of october_bill)).
Proof.
  apply (new_bills_are_published reversed size_digest no_json tally tally example_projection bill_books "g2" (Some "job3")
    captured [("s1", "2026-10")] billed_books billed_stats october_bill).
  - exact bill_books_ok.
  - exact billing_ran.
  - apply (list_elem_of_lookup_2 _ 2). vm_compute. reflexivity.
  - reflexivity.
  - cbn. intros [E|[E|?%elem_of_nil]%elem_of_cons]%elem_of_cons; [discriminate E|discriminate E|done].
Defined.
