(* ===== verification/Pages.v ===== *)
(** * Paged collection

    apps/worker/paged_collection.py: the pages of the upstream endpoints are fetched
    one at a time; the rows of a page and the cursor of the next one are committed in
    one transaction, so that a run that was interrupted goes on where it stopped.

    A checkpoint is the JSON object of the stage row.  [B] is the rest of the
    database, [E] everything outside (the upstream service, the clock, the leases);
    the client, the lease fence and the collectors that write the rows of a page are
    arguments, and while a request is in flight the database may change.  The numbers
    of a payload are finite, and a float is written with its least mantissa; the client
    has a query for each domain, and messages of errors are shortened. *)
From S2P Require Import Prelude PyValue Jobs.
#[local] Open Scope Z_scope.
#[local] Set Default Proof Using "Type".

(** ** Exceptions

    A thrown exception has a class, a message and attributes ([getattr]). *)
Inductive exc_class :=
| PriorityBudgetPauseError
| QuotaExceeded
| DouyinApiError
| PagedCollectionError
| LeaseFenceLost
| ConcurrentPageAdvance
| OtherException
| OtherBaseException.

Record exc := MkExc {
  exc_is : exc_class;
  exc_message : string;
  exc_attributes : pydict
}.

Inductive outcome (A : Type) :=
| Return (a : A)
| Throw (e : exc).
Arguments Return {A} a.
Arguments Throw {A} e.

Definition outcome_bind {A B} (r : outcome A) (k : A -> outcome B) : outcome B :=
  match r with Return a => k a | Throw e => Throw e end.
Notation "'let!' x := c 'in' k" := (outcome_bind c (fun x => k))
  (at level 10, x pattern, c at level 100, k at level 200) : dy_scope.

Definition throw_if (b : bool) (c : exc_class) (msg : string) : outcome unit :=
  if b then Throw (MkExc c msg []) else Return tt.
Definition paged_error {A} (msg : string) : outcome A := Throw (MkExc PagedCollectionError msg []).
Definition other_error {A} (msg : string) : outcome A := Throw (MkExc OtherException msg []).

Definition pause (retry_after_seconds : Z) : exc :=
  let seconds := Z.max 60 retry_after_seconds in
  MkExc PriorityBudgetPauseError ("priority_budget_pause retry_after_seconds=" +:+ str_of_Z seconds)
    [("retry_after_seconds", PInt seconds)].

(** [_retry_after_seconds] *)
Definition retry_after_seconds (e : exc) : Z :=
  let candidates := [dict_get "retry_after_seconds" (exc_attributes e);
                     dict_get "retry_after_seconds" (as_dict (dict_get "reservation" (exc_attributes e)))] in
  match omap (fun v => match v with PNone => None | _ => py_int v end) candidates with
  | n :: _ => Z.max 60 n
  | [] => 60
  end.

Fixpoint sub_chars (p s : list Ascii.ascii) : bool :=
  match drop_token p s with
  | Some _ => true
  | None => match s with [] => false | _ :: s' => sub_chars p s' end
  end.
(** [p in s] for texts *)
Definition substring (p s : string) : bool := sub_chars (chars p) (chars s).

(** [_raise_budget_pause_if_needed] followed by [raise] *)
Definition budget_pause_if_needed (e : exc) : exc :=
  match exc_is e with
  | PriorityBudgetPauseError => e
  | QuotaExceeded => pause (retry_after_seconds e)
  | DouyinApiError =>
      if substring "2119003" (exc_message e) || substring "请求太过频繁" (exc_message e)
      then pause (retry_after_seconds e) else e
  | _ => e
  end.

(** [_pause_halts_all_domains] *)
Definition pause_halts_all_domains (e : exc) : bool :=
  existsb (fun a => truthy (dict_get_default a (PBool false) (exc_attributes e)))
    ["halt_all_domains"; "global_pause"; "halt_all"; "pause_all_domains"; "is_global"]
  || match dict_get "scope" (exc_attributes e) with PStr s => str_in s ["global"; "all"] | _ => false end.

(** ** Python dictionaries and JSON *)

(** [d[k] = v] *)
Fixpoint dict_set (k : string) (v : pyval) (d : pydict) : pydict :=
  match d with
  | [] => [(k, v)]
  | (k', v') :: d' => if decide (k = k') then (k, v) :: d' else (k', v') :: dict_set k v d'
  end.

Fixpoint pyval_eqb (a b : pyval) {struct a} : bool :=
  match a, b with
  | PNone, PNone => true
  | PBool x, PBool y => Bool.eqb x y
  | PInt x, PInt y => x =? y
  | PFloat x, PFloat y => bool_decide (x = y)
  | PDec x, PDec y => bool_decide (x = y)
  | PStr x, PStr y => str_eqb x y
  | PList l, PList k =>
      (fix go (l k : list pyval) : bool :=
         match l, k with
         | [], [] => true
         | x :: l, y :: k => pyval_eqb x y && go l k
         | _, _ => false
         end) l k
  | PDict l, PDict k =>
      (fix go (l k : pydict) : bool :=
         match l, k with
         | [], [] => true
         | (i, x) :: l, (j, y) :: k => str_eqb i j && pyval_eqb x y && go l k
         | _, _ => false
         end) l k
  | _, _ => false
  end.

Fixpoint insert_key (kv : string * pyval) (d : pydict) : pydict :=
  match d with
  | [] => [kv]
  | kv' :: d' => if String.leb kv.1 kv'.1 then kv :: d else kv' :: insert_key kv d'
  end.

(** A value with the keys of every object in order, as [sort_keys=True] prints it. *)
Fixpoint sorted_keys (v : pyval) : pyval :=
  match v with
  | PList l => PList (map sorted_keys l)
  | PDict d => PDict (foldr insert_key [] (map (fun kv => (kv.1, sorted_keys kv.2)) d))
  | _ => v
  end.

(** [_canonical_json(a) == _canonical_json(b)] *)
Definition same_json (a b : pyval) : bool := pyval_eqb (sorted_keys a) (sorted_keys b).

(** [v == z] for an integer [z] and a JSON value *)
Definition num_is (z : Z) (v : pyval) : bool :=
  match v with
  | PInt n => n =? z
  | PBool b => Z.b2z b =? z
  | PFloat (FFin m e) => opt_is (float_int m e) z
  | _ => false
  end.

(** [v in (None, "")] *)
Definition absent (v : pyval) : bool := is_none v || is_str v "".

(** [int(d.get(k, n) or n)], none for an exception *)
Definition int_at (k : string) (n : Z) (d : pydict) : option Z :=
  py_int (py_or (dict_get_default k (PInt n) d) (PInt n)).

Section Values.
Context (repr_of json_compact : pyval -> string).

(** [_cursor_param] *)
Definition cursor_param (v : pyval) : string :=
  if absent v then "0"
  else match v with PList _ | PDict _ => json_compact v | _ => py_str repr_of v end.

(** [_optional_cursor] *)
Definition optional_cursor (v : pyval) : option string :=
  if absent v || num_is 0 v || is_str v "0" || num_is (-1) v || is_str v "-1" then None
  else Some (cursor_param v).

(** [first] of the normalizers, for plain keys *)
Fixpoint first (d : pydict) (keys : list string) : pyval :=
  match keys with
  | [] => PNone
  | k :: l => let v := dict_get k d in if absent v then first d l else v
  end.

(** [_payload_data] *)
Definition payload_data (payload : pydict) : pydict :=
  match dict_get "data" payload with PDict d => d | _ => payload end.

(** [_rows]: [data_items] of the normalizers *)
Fixpoint rows_at_key (data : pydict) (keys : list string) : list pydict :=
  match keys with
  | [] => []
  | k :: l =>
      match dict_get k data with
      | PList items => omap (fun v => match v with PDict d => Some d | _ => None end) items
      | _ => rows_at_key data l
      end
  end.
Definition rows_of (payload : pydict) (keys : list string) : list pydict := rows_at_key (payload_data payload) keys.

(** [_generic_cursor] *)
Definition generic_cursor (data : pydict) (rows : list pydict) : option string :=
  let keys := ["next_cursor"; "cursor"; "next_page_token"] in
  let page_info := as_dict (dict_get "page_info" data) in
  match omap (fun k => optional_cursor (dict_get k data)) keys ++ omap (fun k => optional_cursor (dict_get k page_info)) keys with
  | c :: _ => Some c
  | [] => match last rows with Some r => optional_cursor (first r ["cursor"; "next_cursor"]) | None => None end
  end.

(** [_order_cursor] *)
Definition order_cursor (data : pydict) (rows : list pydict) : option string :=
  match dict_get "search_after" data with
  | PDict s =>
      match optional_cursor (dict_get "CursorValue" s) with
      | Some c => Some c
      | None => generic_cursor data rows
      end
  | _ => generic_cursor data rows
  end.

(** [_explicit_bool] *)
Definition explicit_bool (v : pyval) : option bool :=
  match v with
  | PBool b => Some b
  | PInt z => if z =? 0 then Some false else if z =? 1 then Some true else None
  | PStr s =>
      let normalized := lower (strip s) in
      if str_in normalized ["true"; "1"; "yes"; "on"] then Some true
      else if str_in normalized ["false"; "0"; "no"; "off"] then Some false else None
  | _ => None
  end.

(** [_page_has_more] *)
Definition page_has_more (data : pydict) : option bool :=
  match explicit_bool (first data ["has_more"; "more"]) with
  | Some b => Some b
  | None =>
      match dict_get "page_info" data with
      | PDict d => explicit_bool (first d ["has_more"; "more"])
      | _ => None
      end
  end.

(** [_integer] *)
Definition integer (v : pyval) : option Z := if absent v then None else py_int v.

(** The declared total of a page of clues. *)
Definition page_total (data : pydict) : option Z :=
  match integer (first data ["total"; "total_count"; "count"]) with
  | Some n => Some n
  | None => match dict_get "page" data with PDict d => integer (dict_get "total" d) | _ => None end
  end.
End Values.

(** ** The job and its window *)

Definition CHECKPOINT_PROTOCOL : string := "priority-paged-v1".
Definition COLLECT_STAGE : string := "collect".
Definition MAX_PAGED_REQUESTS : Z := 100000.
Definition PAGE_ITEM_LIMIT : Z := 10000.
Definition DEFAULT_PAGE_SIZES : list (string * Z) :=
  [("orders", 100); ("refunds", 100); ("clues", 100); ("verify_records", 20)].

(** [_TARGET_DOMAINS] *)
Definition target_domains (target : string) : option (list string) :=
  if str_eqb target "all" then Some ["orders"; "refunds"; "clues"; "verify_records"]
  else if str_in target ["orders"; "refunds"; "clues"; "verify_records"] then Some [target]
  else None.

(** A time with its UTC offset in seconds. *)
Record stamp := MkStamp { stamp_at : instant; stamp_offset : Z }.

Record CollectionWindow := MkWindow {
  win_start : stamp;
  win_end : stamp;
  win_timezone_name : string
}.

Definition SHANGHAI_SECONDS : Z := 28800.

(** [_page_sizes] *)
Definition page_sizes (overrides : option pydict) : outcome (list (string * Z)) :=
  match overrides with
  | None => Return DEFAULT_PAGE_SIZES
  | Some o =>
      foldr (fun dv acc =>
        let '(domain, default_size) := dv in
        match dict_lookup domain o with
        | None => let! r := acc in Return ((domain, default_size) :: r)
        | Some v =>
            match py_int v with
            | None => other_error ("page size for " +:+ domain +:+ " must be an integer")
            | Some size =>
                if (size <? 1) || (1000 <? size) then other_error ("page size for " +:+ domain +:+ " must be between 1 and 1000")
                else let! r := acc in Return ((domain, size) :: r)
            end
        end) (Return []) DEFAULT_PAGE_SIZES
  end.
Definition size_of (sizes : list (string * Z)) (domain : string) : Z :=
  match List.find (fun dv => str_eqb dv.1 domain) sizes with Some dv => dv.2 | None => 0 end.

Section Window.
Context (repr_of : pyval -> string).
(** [datetime.isoformat]; [datetime.fromisoformat] as an optional offset and the local time, none for [ValueError] *)
Context (isoformat : stamp -> string) (fromisoformat : string -> option (option Z * Z)).

(** [_job_target] *)
Definition job_target (job : JobRun) : string :=
  py_str repr_of (py_or (dict_get "target" (as_dict (metadata_json job))) (PStr "all")).

(** [_parse_datetime] of a column or, when that is null, of a JSON value *)
Definition parse_datetime (column : option instant) (value : pyval) (field_name : string) : outcome stamp :=
  match column with
  | Some t => Return (MkStamp t 0)
  | None =>
      match value with
      | PStr s =>
          if str_eqb (strip s) "" then paged_error (field_name +:+ " is required for priority collection")
          else match fromisoformat (strip s) with
               | None => paged_error ("invalid " +:+ field_name)
               | Some (offset, local) =>
                   let o := default SHANGHAI_SECONDS offset in
                   Return (MkStamp (local - seconds o) o)
               end
      | _ => paged_error (field_name +:+ " is required for priority collection")
      end
  end.

(** [_job_window] *)
Definition job_window (job : JobRun) : outcome CollectionWindow :=
  let source_window := dict_get "source_window" (as_dict (metadata_json job)) in
  let at_key k := dict_get k (as_dict source_window) in
  let! s := parse_datetime (window_start job) (at_key "start") "window_start" in
  let! e := parse_datetime (window_end job) (at_key "end") "window_end" in
  let! _ := throw_if (stamp_at e <=? stamp_at s) PagedCollectionError "priority collection window_end must be after window_start" in
  Return (MkWindow s e (py_str repr_of (py_or (at_key "timezone") (PStr "Asia/Shanghai")))).

(** [_window_metadata] *)
Definition window_metadata (w : CollectionWindow) : pydict :=
  [("start", PStr (isoformat (win_start w))); ("end", PStr (isoformat (win_end w)));
   ("timezone", PStr (win_timezone_name w))].
End Window.

(** ** Checkpoints *)

Definition COUNT_KEYS : list string :=
  ["fetched"; "upserted"; "skipped"; "failed"; "inserted"; "updated"; "unchanged"; "rejected"].

(** [_new_domain_state] *)
Definition zero_counts : pydict := (fun k => (k, PInt 0)) <$> COUNT_KEYS.
Definition new_domain_state (domain : string) : pydict :=
  let tail := [("completed", PBool false); ("seen_positions", PList []); ("pages_committed", PInt 0)] ++ zero_counts in
  if str_eqb domain "orders" then
    [("endpoint", PStr "orders.create_order"); ("phase", PStr "create"); ("cursor", PNone)] ++ tail
  else if str_eqb domain "clues" then
    [("endpoint", PStr "clues.query"); ("page", PInt 1); ("source_total", PNone); ("source_rows", PInt 0)] ++ tail
  else [("endpoint", PStr (domain +:+ ".query")); ("cursor", PNone)] ++ tail.

Section Checkpoint.
Context (repr_of json_compact : pyval -> string) (isoformat : stamp -> string).

(** The endpoint a state must name: [_validate_domain_state], its first branch. *)
Definition expected_endpoint (domain : string) (state : pydict) : outcome string :=
  if str_eqb domain "orders" then
    match dict_get_default "phase" (PStr "create") state with
    | PList _ | PDict _ => other_error "unhashable type"
    | v => if is_str v "create" then Return "orders.create_order"
           else if is_str v "update" then Return "orders.update_order"
           else paged_error "orders checkpoint phase is invalid"
    end
  else Return (domain +:+ ".query").

Definition check_endpoint (domain : string) (state : pydict) : outcome pydict :=
  let! expected := expected_endpoint domain state in
  let v := dict_get "endpoint" state in
  let! _ := throw_if (negb (is_none v || is_str v expected)) PagedCollectionError
              (domain +:+ " checkpoint endpoint does not match") in
  Return (if is_none v then dict_set "endpoint" (PStr expected) state else state).

(** A count that must be an integer that is not negative. *)
Definition check_count (domain key : string) (n least : Z) (state : pydict) : outcome pydict :=
  match int_at key n state with
  | None => paged_error (domain +:+ " checkpoint " +:+ key +:+ " is invalid")
  | Some z =>
      let! _ := throw_if (z <? least) PagedCollectionError (domain +:+ " checkpoint " +:+ key +:+ " is too small") in
      Return (dict_set key (PInt z) state)
  end.

Definition check_counts (domain : string) (state : pydict) : outcome pydict :=
  foldl (fun acc key => let! s := acc in check_count domain key 0 0 s) (Return state) ("pages_committed" :: COUNT_KEYS).

Definition check_positions (domain : string) (state : pydict) : outcome pydict :=
  match dict_get_default "seen_positions" (PList []) state with
  | PList positions =>
      let! _ := throw_if (MAX_PAGED_REQUESTS <? Z.of_nat (length positions)) PagedCollectionError
                  (domain +:+ " checkpoint exceeds page cycle guard") in
      let! _ := throw_if (negb (bool_decide (length (remove_dups (py_str repr_of <$> positions)) = length positions)))
                  PagedCollectionError (domain +:+ " checkpoint contains a repeated page position") in
      Return (dict_set "seen_positions" (PList positions) state)
  | _ => paged_error (domain +:+ " checkpoint seen_positions is invalid")
  end.

Definition check_total (state : pydict) : outcome pydict :=
  let v := dict_get "source_total" state in
  if absent v then Return (dict_set "source_total" PNone state)
  else match py_int v with
       | None => paged_error "clues checkpoint source_total is invalid"
       | Some z =>
           let! _ := throw_if (z <? 0) PagedCollectionError "clues checkpoint source_total is negative" in
           Return (dict_set "source_total" (PInt z) state)
       end.

Definition check_cursor (state : pydict) : pydict :=
  match dict_get "cursor" state with
  | PNone | PStr _ => state
  | v => dict_set "cursor" (PStr (cursor_param repr_of json_compact v)) state
  end.

(** [_validate_domain_state] *)
Definition validate_domain_state (domain : string) (state : pydict) : outcome pydict :=
  let! s := check_endpoint domain state in
  let s := if dict_mem "completed" s then s else dict_set "completed" (PBool false) s in
  let! s := check_counts domain s in
  let! s := check_positions domain s in
  if str_eqb domain "clues" then
    let! s := check_total s in
    let! s := check_count domain "source_rows" 0 0 s in
    check_count domain "page" 1 1 s
  else Return (check_cursor s).

(** The checkpoint of a job, with its domains by name. *)
Definition domains_of (checkpoint : pydict) : pydict := as_dict (dict_get "domains" checkpoint).
Definition domain_state (checkpoint : pydict) (domain : string) : pydict := as_dict (dict_get domain (domains_of checkpoint)).
Definition state_completed (state : pydict) : bool := truthy (dict_get "completed" state).

Definition checkpoint_of (window : CollectionWindow) (target : string) (domains : pydict) (pages : Z) (completed : bool) : pydict :=
  [("protocol", PStr CHECKPOINT_PROTOCOL); ("window", PDict (window_metadata isoformat window)); ("target", PStr target);
   ("domains", PDict domains); ("pages_committed", PInt pages); ("completed", PBool completed)].

(** [_new_checkpoint] *)
Definition new_checkpoint (target : string) (names : list string) (window : CollectionWindow) : pydict :=
  checkpoint_of window target ((fun d => (d, PDict (new_domain_state d))) <$> names) 0 false.

(** [_has_known_paging_state] *)
Definition has_known_paging_state (existing : pydict) : bool :=
  existsb (fun k => dict_mem k existing)
    ["domains"; "pages_committed"; "cursor"; "page"; "endpoint"; "phase"; "seen_positions"; "source_total"; "source_rows"].

(** The loop that adds and validates the states of the target's domains. *)
Definition validate_domains (names : list string) (domains : pydict) : outcome pydict :=
  foldl (fun acc d =>
    let! ds := acc in
    let! s := validate_domain_state d (if dict_mem d ds then as_dict (dict_get d ds) else new_domain_state d) in
    Return (dict_set d (PDict s) ds)) (Return domains) names.

(** [_normalize_checkpoint] *)
Definition normalize_checkpoint (existing : pydict) (target : string) (window : CollectionWindow) : outcome pydict :=
  match target_domains target with
  | None => other_error "KeyError"
  | Some names =>
      let protocol := dict_get "protocol" existing in
      let raw_domains := dict_get "domains" existing in
      let saved_window := dict_get "window" existing in
      let saved_target := dict_get "target" existing in
      if bool_decide (existing = []) then Return (new_checkpoint target names window)
      else
        let! _ := throw_if (negb (is_none protocol || is_str protocol CHECKPOINT_PROTOCOL)) PagedCollectionError
                    "unsupported priority collect checkpoint protocol" in
        if is_none protocol && negb (truthy raw_domains) && negb (has_known_paging_state existing)
        then Return (new_checkpoint target names window)
        else
          let! _ := throw_if (negb (is_none saved_window || same_json saved_window (PDict (window_metadata isoformat window))))
                      PagedCollectionError "priority collect checkpoint window does not match job window" in
          let! _ := throw_if (negb (is_none saved_target || is_str saved_target target)) PagedCollectionError
                      "priority collect checkpoint target does not match job target" in
          match raw_domains with
          | PDict raw =>
              match int_at "pages_committed" 0 existing with
              | None => other_error "ValueError"
              | Some pages =>
                  let! ds := validate_domains names (List.filter (fun kv => is_dict kv.2) raw) in
                  let! _ := throw_if (existsb (fun kv => negb (str_in kv.1 names)) ds) PagedCollectionError
                              "priority collect checkpoint contains unexpected domains" in
                  Return (checkpoint_of window target ds pages
                    (forallb (fun d => state_completed (as_dict (dict_get d ds))) names))
              end
          | _ => paged_error "priority collect checkpoint domains are invalid"
          end
  end.
End Checkpoint.

(** ** Pages *)

Record Page := MkPage {
  page_domain : string;
  page_endpoint : string;
  page_requested_cursor : option string;
  page_requested_page : option Z;
  page_payload : pydict;
  page_rows : list pydict;
  page_next_cursor : option string;
  page_next_page : option Z;
  page_completed : bool
}.

(** What is asked of the client: the stream, the position in it and the page size. *)
Record page_request := MkRequest {
  req_endpoint : string;
  req_cursor : option string;
  req_page : option Z;
  req_size : Z
}.

Definition page_row_count (rows : list pydict) : Z := Z.of_nat (length rows).
(** [not cursor] *)
Definition no_cursor (c : option string) : bool := match c with None => true | Some s => str_eqb s "" end.

Section Fetch.
Context (repr_of json_compact : pyval -> string).
#[local] Notation optional_cursor := (optional_cursor repr_of json_compact).
#[local] Notation generic_cursor := (generic_cursor repr_of json_compact).
#[local] Notation order_cursor := (order_cursor repr_of json_compact).

Definition state_cursor (state : pydict) : option string := optional_cursor (dict_get "cursor" state).
Definition order_phase (state : pydict) : string := py_str repr_of (py_or (dict_get "phase" state) (PStr "create")).
(** [int(state.get("page", 1) or 1)] of a validated state *)
Definition state_page (state : pydict) : Z := default 1 (int_at "page" 1 state).
Definition state_rows (state : pydict) : Z := default 0 (int_at "source_rows" 0 state).

(** The request a state leads to. *)
Definition request_of_state (domain : string) (state : pydict) (page_size : Z) : page_request :=
  if str_eqb domain "clues" then MkRequest "clues.query" None (Some (state_page state)) page_size
  else MkRequest (if str_eqb domain "orders" then "orders." +:+ order_phase state +:+ "_order" else domain +:+ ".query")
         (state_cursor state) None page_size.

(** [_fetch_orders_page] after the query *)
Definition orders_page (state : pydict) (page_size : Z) (payload : pydict) : outcome Page :=
  let cursor := state_cursor state in
  let rows := rows_of payload ["orders"; "list"; "order_list"] in
  let data := payload_data payload in
  let next := order_cursor data rows in
  let explicit_more := explicit_bool (first data ["has_more"; "more"]) in
  let! _ := throw_if (bool_decide (explicit_more = Some true) && no_cursor next) PagedCollectionError
              "orders has_more=true without an advancing cursor" in
  let terminal := bool_decide (explicit_more = Some false)
                  || (bool_decide (explicit_more = None) && (page_row_count rows <? page_size)) in
  let! _ := throw_if (negb terminal && bool_decide (is_Some next) && bool_decide (next = cursor)) PagedCollectionError
              "orders cursor did not advance" in
  let! _ := throw_if (negb terminal && bool_decide (next = None)) PagedCollectionError "orders full page is missing its cursor" in
  Return (MkPage "orders" ("orders." +:+ order_phase state +:+ "_order") cursor None payload rows
    (if terminal then None else next) None terminal).

(** [_fetch_refunds_page] after the query *)
Definition refunds_page (state : pydict) (page_size : Z) (payload : pydict) : outcome Page :=
  let cursor := state_cursor state in
  let rows := rows_of payload ["refunds"; "after_sales"; "after_sale_orders"; "after_sale_order_list"; "records"; "list"] in
  let data := payload_data payload in
  let next := generic_cursor data rows in
  match page_has_more data with
  | None => paged_error "refunds page must include explicit has_more"
  | Some more =>
      let! _ := throw_if (more && no_cursor next) PagedCollectionError "refunds has_more=true without a cursor" in
      let! _ := throw_if (more && bool_decide (next = cursor)) PagedCollectionError "refunds cursor did not advance" in
      Return (MkPage "refunds" "refunds.query" cursor None payload rows (if more then next else None) None (negb more))
  end.

(** Whether a page of clues is the last one. *)
Definition clues_completed (has_more : option bool) (source_total : option Z) (source_rows rows page_size : Z) : outcome bool :=
  match has_more with
  | Some true =>
      let! _ := throw_if (rows =? 0) PagedCollectionError "clues has_more=true with an empty page" in
      let! _ := throw_if (match source_total with Some t => t <=? source_rows | None => false end) PagedCollectionError
                  "clues has_more=true after reaching the source total" in
      Return false
  | Some false =>
      let! _ := throw_if (match source_total with Some t => source_rows <? t | None => false end) PagedCollectionError
                  "clues has_more=false before reaching the declared source total" in
      Return true
  | None =>
      match source_total with
      | Some t =>
          if t <=? source_rows then Return true
          else if rows <? page_size then paged_error "clues short page before reaching the declared source total"
          else Return false
      | None => Return (rows <? page_size)
      end
  end.

(** [_fetch_clues_page] after the query *)
Definition clues_page (state : pydict) (page_size : Z) (payload : pydict) : outcome Page :=
  let page_number := state_page state in
  let rows := rows_of payload ["clue_data"; "clues"; "list"; "records"] in
  let data := payload_data payload in
  let total := page_total data in
  let! _ := throw_if (page_number <=? 0) PagedCollectionError "clues page must be positive" in
  let! _ := throw_if (PAGE_ITEM_LIMIT <=? (page_number - 1) * page_size) PagedCollectionError
              "clues page offset reaches the upstream 10000-item cap; split the source window before continuing" in
  let! _ := throw_if (match total with Some t => t <? 0 | None => false end) PagedCollectionError "clues source total is negative" in
  let previous_total := integer (dict_get "source_total" state) in
  let! _ := throw_if (match previous_total, total with Some p, Some t => negb (p =? t) | _, _ => false end) PagedCollectionError
              "clues source total changed during one page stream" in
  let source_total := match total with Some t => Some t | None => previous_total end in
  let source_rows := state_rows state + page_row_count rows in
  let! _ := throw_if (match source_total with Some t => t <? source_rows | None => false end) PagedCollectionError
              "clues rows exceed the declared source total" in
  let! _ := throw_if (match source_total with Some t => PAGE_ITEM_LIMIT <=? t | None => false end) PagedCollectionError
              "clues source total reaches the upstream 10000-item cap; split the source window before continuing" in
  let! _ := throw_if (PAGE_ITEM_LIMIT <=? source_rows) PagedCollectionError
              "clues page offset reaches the upstream 10000-item cap; split the source window before continuing" in
  let! completed := clues_completed (page_has_more data) source_total source_rows (page_row_count rows) page_size in
  Return (MkPage "clues" "clues.query" None (Some page_number) payload rows None
    (if completed then None else Some (page_number + 1)) completed).

(** [_fetch_verify_page] after the query *)
Definition verify_page (state : pydict) (page_size : Z) (payload : pydict) : outcome Page :=
  let cursor := state_cursor state in
  let rows := rows_of payload ["verify_records"; "records"; "list"] in
  let data := payload_data payload in
  let has_more := page_has_more data in
  let next := generic_cursor data rows in
  let page next completed := MkPage "verify_records" "verify_records.query" cursor None payload rows next None completed in
  let! _ := throw_if (bool_decide (has_more = Some true) && no_cursor next) PagedCollectionError
              "verify_records has_more=true without a cursor" in
  match has_more with
  | None =>
      if page_row_count rows <? page_size then Return (page None true)
      else if bool_decide (next = None) then paged_error "verify_records full page is missing its cursor"
      else Return (page next false)
  | Some false => Return (page None true)
  | Some true =>
      let! _ := throw_if (bool_decide (next = cursor)) PagedCollectionError "verify_records cursor did not advance" in
      Return (page next false)
  end.

(** [_fetch_page] after the query *)
Definition read_page (domain : string) (state : pydict) (page_size : Z) (payload : pyval) : outcome Page :=
  match payload with
  | PDict p =>
      if str_eqb domain "orders" then orders_page state page_size p
      else if str_eqb domain "refunds" then refunds_page state page_size p
      else if str_eqb domain "clues" then clues_page state page_size p
      else if str_eqb domain "verify_records" then verify_page state page_size p
      else paged_error ("unsupported priority collection domain: " +:+ domain)
  | _ => paged_error (domain +:+ " page must be an object")
  end.

(** [_page_position] *)
Definition page_position (p : Page) : string :=
  if str_eqb (page_domain p) "clues" then "page:" +:+ match page_requested_page p with Some n => str_of_Z n | None => "None" end
  else page_endpoint p +:+ ":cursor:" +:+
         (if no_cursor (page_requested_cursor p) then "__initial__" else default "" (page_requested_cursor p)).

(** [_guard_position] *)
Definition guard_position (state : pydict) (domain : string) : outcome unit :=
  match dict_get_default "seen_positions" (PList []) state with
  | PList positions =>
      let! _ := throw_if (MAX_PAGED_REQUESTS <=? Z.of_nat (length positions)) PagedCollectionError
                  (domain +:+ " exceeded the page cycle guard") in
      let position :=
        if str_eqb domain "clues" then "page:" +:+ str_of_Z (state_page state)
        else py_str repr_of (dict_get "endpoint" state) +:+ ":cursor:"
               +:+ py_str repr_of (py_or (dict_get "cursor" state) (PStr "__initial__")) in
      throw_if (existsb (fun v => is_str v position) positions) PagedCollectionError (domain +:+ " page position cycle detected")
  | _ => paged_error (domain +:+ " checkpoint seen_positions is invalid")
  end.

(** [_state_token], before it is printed *)
Definition state_token (state : pydict) : pyval :=
  PDict [("endpoint", dict_get "endpoint" state); ("phase", dict_get "phase" state); ("cursor", dict_get "cursor" state);
    ("page", dict_get "page" state); ("completed", dict_get "completed" state);
    ("pages_committed", dict_get_default "pages_committed" (PInt 0) state);
    ("seen_positions", dict_get_default "seen_positions" (PList []) state); ("source_total", dict_get "source_total" state);
    ("source_rows", dict_get_default "source_rows" (PInt 0) state)].
End Fetch.

(** ** Committing a page *)

Record PhaseStats := MkPhaseStats {
  ps_name : string;
  ps_fetched : Z; ps_upserted : Z; ps_skipped : Z; ps_failed : Z;
  ps_inserted : Z; ps_updated : Z; ps_unchanged : Z; ps_rejected : Z
}.

(** [PhaseStats.as_metadata], without the name *)
Definition as_metadata (s : PhaseStats) : list (string * Z) :=
  [("fetched", ps_fetched s); ("upserted", ps_upserted s); ("skipped", ps_skipped s); ("failed", ps_failed s);
   ("inserted", ps_inserted s); ("updated", ps_updated s); ("unchanged", ps_unchanged s); ("rejected", ps_rejected s)].

(** [state[key] = int(state.get(key, 0) or 0) + n] *)
Definition add_at (key : string) (n : Z) (state : pydict) : outcome pydict :=
  match int_at key 0 state with
  | Some z => Return (dict_set key (PInt (z + n)) state)
  | None => other_error "ValueError"
  end.

(** [_accumulate_stats] *)
Definition accumulate_stats (state : pydict) (stats : PhaseStats) : outcome pydict :=
  foldl (fun acc kn => let! s := acc in add_at kn.1 kn.2 s) (Return state) (as_metadata stats).

Definition cursor_json (c : option string) : pyval := match c with Some s => PStr s | None => PNone end.

Record JobStageRun := MkStage {
  stage_run_id : string;
  stage_job_id : string;
  stage_name : string;
  stage_status : string;
  stage_checkpoint_json : pydict;
  stage_lease_epoch : option Z;
  stage_created_at : instant;
  stage_updated_at : instant
}.
#[export] Instance eta_JobStageRun : Eta JobStageRun := fun r =>
  MkStage (stage_run_id r) (stage_job_id r) (stage_name r) (stage_status r) (stage_checkpoint_json r)
    (stage_lease_epoch r) (stage_created_at r) (stage_updated_at r).

Definition is_collect_stage (job : string) (s : JobStageRun) : bool :=
  str_eqb (stage_job_id s) job && str_eqb (stage_name s) COLLECT_STAGE.

(** The part of the state that depends on the domain. *)
Definition advance_state (page : Page) (current next : pydict) : outcome pydict :=
  if str_eqb (page_domain page) "orders" then
    if page_completed page && is_str (dict_get "phase" next) "create" then
      Return (dict_set "completed" (PBool false) (dict_set "seen_positions" (PList []) (dict_set "cursor" PNone
        (dict_set "endpoint" (PStr "orders.update_order") (dict_set "phase" (PStr "update") next)))))
    else Return (dict_set "cursor" (cursor_json (page_next_cursor page)) next)
  else if str_eqb (page_domain page) "clues" then
    let next := match page_next_page page with Some n => dict_set "page" (PInt n) next | None => next end in
    let next := match page_total (payload_data (page_payload page)) with
                | Some t => dict_set "source_total" (PInt t) next | None => next end in
    match int_at "source_rows" 0 current with
    | None => other_error "ValueError"
    | Some n =>
        Return (dict_set "completed" (PBool (page_completed page))
          (dict_set "source_rows" (PInt (n + page_row_count (page_rows page))) next))
    end
  else Return (dict_set "cursor" (cursor_json (page_next_cursor page)) next).

(** The next state of the domain of a page. *)
Definition next_state (page : Page) (current : pydict) (stats : PhaseStats) : outcome pydict :=
  let! s := accumulate_stats current stats in
  let! s := add_at "pages_committed" 1 s in
  let s := dict_set "completed" (PBool (page_completed page)) s in
  let! s := advance_state page current s in
  match dict_get_default "seen_positions" (PList []) current with
  | PList positions =>
      let! _ := throw_if (existsb (fun v => is_str v (page_position page)) positions) PagedCollectionError
                  (page_domain page +:+ " page position repeated") in
      let! _ := throw_if (MAX_PAGED_REQUESTS <? Z.of_nat (length positions) + 1) PagedCollectionError
                  (page_domain page +:+ " exceeded the page cycle guard") in
      Return (dict_set "seen_positions" (PList (positions ++ [PStr (page_position page)])) s)
  | _ => other_error "TypeError"
  end.

(** The states that are objects. *)
Definition domain_states (domains : pydict) : list pydict :=
  omap (fun kv => match kv.2 with PDict s => Some s | _ => None end) domains.
Definition pages_of (states : list pydict) : outcome Z :=
  foldl (fun acc s => let! n := acc in
    match int_at "pages_committed" 0 s with Some z => Return (n + z) | None => other_error "ValueError" end) (Return 0) states.

Section Commit.
Context {B E : Type}.
Context (repr_of json_compact : pyval -> string) (isoformat : stamp -> string).
(** The lease fence of a session, the collector of a page's domain ([_apply_page]) and the clock. *)
Context (collect : Page -> CollectionWindow -> string -> Z -> B -> E -> outcome (B * PhaseStats) * E).
Context (clock : E -> instant).

Record pagedb := MkPageDb { stages : list JobStageRun; business : B }.

Context (page_fence : option (pagedb -> E -> outcome bool * E)).

Definition collect_stage (db : pagedb) (job : string) : option JobStageRun := List.find (is_collect_stage job) (stages db).

(** Another worker's row of the same job is found by the select. *)
Definition checkpoint_json (db : pagedb) (job : string) : pydict :=
  match collect_stage db job with Some s => stage_checkpoint_json s | None => [] end.

(** [_load_checkpoint] *)
Definition load_checkpoint (db : pagedb) (job target : string) (window : CollectionWindow) : outcome pydict :=
  normalize_checkpoint repr_of json_compact isoformat (checkpoint_json db job) target window.

(** The stage row is created by the first page and updated by the others. *)
Definition put_checkpoint (db : pagedb) (job : string) (checkpoint : pydict) (created now : instant) : list JobStageRun :=
  match collect_stage db job with
  | None => stages db ++ [MkStage ("stage-" +:+ job +:+ "-" +:+ COLLECT_STAGE) job COLLECT_STAGE "pending" checkpoint (Some 0) created now]
  | Some _ =>
      (fun s => if is_collect_stage job s then s <| stage_checkpoint_json := checkpoint |> <| stage_updated_at := now |> else s)
        <$> stages db
  end.

(** [page_fence(session)], which must hold *)
Definition fenced (message : string) (db : pagedb) (e : E) : outcome unit * E :=
  match page_fence with
  | None => (Return tt, e)
  | Some f =>
      match f db e with
      | (Return true, e) => (Return tt, e)
      | (Return false, e) => (Throw (MkExc LeaseFenceLost message []), e)
      | (Throw x, e) => (Throw x, e)
      end
  end.

(** The checks of [_commit_page] before the rows are written. *)
Definition page_state (job target : string) (window : CollectionWindow) (expected_state : pydict) (page : Page) (db : pagedb)
  : outcome (pydict * pydict) :=
  let! current := load_checkpoint db job target window in
  match dict_get (page_domain page) (domains_of current) with
  | PDict current_state =>
      let! _ := throw_if (negb (same_json (state_token current_state) (state_token expected_state))) ConcurrentPageAdvance
                  (page_domain page +:+ " checkpoint advanced while page was in flight") in
      let! _ := throw_if (negb (str_eqb (py_str repr_of (dict_get "endpoint" current_state)) (page_endpoint page)))
                  PagedCollectionError (page_domain page +:+ " checkpoint endpoint changed during page commit") in
      Return (current, current_state)
  | _ => Throw (MkExc ConcurrentPageAdvance ("missing checkpoint domain " +:+ page_domain page) [])
  end.

(** The checkpoint with the next state of a page. *)
Definition next_checkpoint (current current_state : pydict) (page : Page) (stats : PhaseStats) : outcome pydict :=
  let! s := next_state page current_state stats in
  let domains := dict_set (page_domain page) (PDict s) (domains_of current) in
  let! pages := pages_of (domain_states domains) in
  Return (dict_set "completed" (PBool (forallb state_completed (domain_states domains)))
    (dict_set "pages_committed" (PInt pages) (dict_set "domains" (PDict domains) current))).

(** [_commit_page]: an exception rolls the transaction back *)
Definition commit_page (job : JobRun) (expected_checkpoint expected_state : pydict) (page : Page) (window : CollectionWindow)
    (source_run_id : string) (page_size : Z) (db : pagedb) (e : E) : outcome pydict * pagedb * E :=
  let target := py_str repr_of (py_or (dict_get "target" expected_checkpoint) (PStr (job_target repr_of job))) in
  let created := clock e in
  match page_state (job_id job) target window expected_state page db with
  | Throw x => (Throw x, db, e)
  | Return (current, current_state) =>
      match fenced "lease fence rejected before page commit" db e with
      | (Throw x, e) => (Throw x, db, e)
      | (Return _, e) =>
          match collect page window source_run_id page_size (business db) e with
          | (Throw x, e) => (Throw x, db, e)
          | (Return (rows, stats), e) =>
              match next_checkpoint current current_state page stats with
              | Throw x => (Throw x, db, e)
              | Return checkpoint =>
                  let db' := MkPageDb (put_checkpoint db (job_id job) checkpoint created (clock e)) rows in
                  match fenced "lease fence rejected before page commit" db' e with
                  | (Throw x, e) => (Throw x, db, e)
                  | (Return _, e) => (Return checkpoint, db', e)
                  end
              end
          end
      end
  end.

(** ** The run *)

Context (query : CollectionWindow -> page_request -> pagedb -> E -> outcome pyval * pagedb * E).

(** [_fetch_page]: the request, while the database may change, and the reading of its answer *)
Definition fetch_page (domain : string) (state : pydict) (window : CollectionWindow) (page_size : Z) (db : pagedb) (e : E)
  : outcome Page * pagedb * E :=
  match query window (request_of_state repr_of json_compact domain state page_size) db e with
  | (Throw x, db, e) => (Throw x, db, e)
  | (Return payload, db, e) => (read_page repr_of json_compact domain state page_size payload, db, e)
  end.

(** What a run carries from page to page. *)
Record progress := MkProgress {
  pr_checkpoint : pydict;
  pr_committed : Z;
  pr_db : pagedb;
  pr_env : E
}.

Section Run.
Context (job : JobRun) (window : CollectionWindow) (source_run_id : string) (max_pages : option Z).

(** One turn of the loop over the pages of a domain: the next progress or the exception. *)
Definition page_turn (domain : string) (page_size : Z) (pr : progress) : outcome unit * progress :=
  let state := domain_state (pr_checkpoint pr) domain in
  let stopped x db e := (Throw x, MkProgress (pr_checkpoint pr) (pr_committed pr) db e) in
  if match max_pages with Some m => m <=? pr_committed pr | None => false end then (Throw (pause 60), pr)
  else
    match guard_position repr_of state domain with
    | Throw x => (Throw x, pr)
    | Return _ =>
        match fenced "lease fence rejected before upstream page" (pr_db pr) (pr_env pr) with
        | (Throw x, e) => stopped x (pr_db pr) e
        | (Return _, e) =>
            match fetch_page domain state window page_size (pr_db pr) e with
            | (Throw x, db, e) => stopped (budget_pause_if_needed x) db e
            | (Return page, db, e) =>
                match commit_page job (pr_checkpoint pr) state page window source_run_id page_size db e with
                | (Throw x, db, e) => stopped (budget_pause_if_needed x) db e
                | (Return checkpoint, db, e) => (Return tt, MkProgress checkpoint (pr_committed pr + 1) db e)
                end
            end
        end
    end.

(** The loop over the pages of a domain; none when the turns run out. *)
Fixpoint domain_loop (turns : nat) (domain : string) (page_size : Z) (pr : progress) : option (outcome unit * progress) :=
  if state_completed (domain_state (pr_checkpoint pr) domain) then Some (Return tt, pr)
  else match turns with
       | O => None
       | S turns =>
           match page_turn domain page_size pr with
           | (Return _, pr) => domain_loop turns domain page_size pr
           | (Throw x, pr) => Some (Throw x, pr)
           end
       end.

Definition page_turns : nat := S (Z.to_nat MAX_PAGED_REQUESTS).

(** The loop over the domains, with the first error and the first pause that wait for its end. *)
Fixpoint domains_loop (domains : list string) (sizes : list (string * Z)) (error paused : option exc) (pr : progress)
  : option (outcome unit * progress) :=
  match domains with
  | [] =>
      Some (match error, paused with
            | Some x, _ => Throw x
            | None, Some x => Throw x
            | None, None => Return tt
            end, pr)
  | domain :: rest =>
      match domain_loop page_turns domain (size_of sizes domain) pr with
      | None => None
      | Some (Return _, pr) => domains_loop rest sizes error paused pr
      | Some (Throw x, pr) =>
          match exc_is x with
          | PriorityBudgetPauseError =>
              if pause_halts_all_domains x then Some (Throw x, pr)
              else domains_loop rest sizes error (match paused with None => Some x | _ => paused end) pr
          | LeaseFenceLost | ConcurrentPageAdvance | OtherBaseException => Some (Throw x, pr)
          | _ => domains_loop rest sizes (match error with None => Some x | _ => error end) paused pr
          end
      end
  end.
End Run.

(** The checkpoint a run returns. *)
Definition final_checkpoint (domains : list string) (checkpoint : pydict) : outcome pydict :=
  let! pages := pages_of (domain_state checkpoint <$> domains) in
  Return (dict_set "pages_committed" (PInt pages)
    (dict_set "completed" (PBool (forallb (fun d => state_completed (domain_state checkpoint d)) domains)) checkpoint)).

(** [collect_priority_pages] *)
Definition collect_priority_pages (fromisoformat : string -> option (option Z * Z)) (job : JobRun)
    (source_run_id : option string) (sizes : option pydict) (max_pages : option Z) (db : pagedb) (e : E)
  : option (outcome pydict * pagedb * E) :=
  let target := job_target repr_of job in
  let setup :=
    let! domains := match target_domains target with
                    | Some ds => Return ds
                    | None => paged_error "priority paged collect does not support this target"
                    end in
    let! window := job_window repr_of fromisoformat job in
    let! sizes := page_sizes sizes in
    let! checkpoint := load_checkpoint db (job_id job) target window in
    Return (domains, window, sizes, checkpoint) in
  match setup with
  | Throw x => Some (Throw x, db, e)
  | Return (domains, window, sizes, checkpoint) =>
      let source := match source_run_id with Some s => if str_eqb s "" then job_id job else s | None => job_id job end in
      match domains_loop job window source max_pages domains sizes None None (MkProgress checkpoint 0 db e) with
      | None => None
      | Some (Throw x, pr) => Some (Throw x, pr_db pr, pr_env pr)
      | Some (Return _, pr) => Some (final_checkpoint domains (pr_checkpoint pr), pr_db pr, pr_env pr)
      end
  end.
End Commit.
Arguments pagedb : clear implicits.
Arguments progress : clear implicits.
