(* ===== verification/PagesProps.v ===== *)
(** * Paged collection: the reader of a stream

    The abstract reader of an upstream stream ([reads]): it asks for the page at its
    position, takes the answer and moves on.  A committed page is a step of the
    reader that the checkpoint encodes, whoever commits it. *)
From S2P Require Import Prelude PyValue Jobs Pages.
#[local] Open Scope Z_scope.
#[local] Set Default Proof Using "Type".

(** ** Outcomes and dictionaries *)

Lemma outcome_bind_Return {A B} (r : outcome A) (k : A -> outcome B) b :
  outcome_bind r k = Return b -> exists a, r = Return a /\ k a = Return b.
Proof. destruct r; [eauto | discriminate]. Qed.
Lemma throw_if_Return b c m u : throw_if b c m = Return u -> b = false.
Proof. by destruct b. Qed.

(** Splits a chain of checks that returned. *)
Ltac returned H :=
  repeat match type of H with
  | outcome_bind (throw_if ?b ?c ?m) _ = Return _ =>
      let G := fresh "G" in
      destruct (throw_if b c m) as [[]|] eqn:G; [|discriminate H]; apply throw_if_Return in G; cbn [outcome_bind] in H
  | outcome_bind ?x _ = Return _ =>
      let a := fresh "a" in let G := fresh "G" in destruct x as [a|] eqn:G; [|discriminate H]; cbn [outcome_bind] in H
  end.

Lemma dict_set_same k v d : dict_lookup k (dict_set k v d) = Some v.
Proof.
  induction d as [|[k' v'] d IH]; cbn; [by rewrite decide_True|].
  destruct (decide (k = k')) as [->|Hk]; cbn; [by rewrite decide_True|]. by rewrite decide_False.
Qed.
Lemma dict_set_other k j v d : k <> j -> dict_lookup k (dict_set j v d) = dict_lookup k d.
Proof.
  intros H. induction d as [|[k' v'] d IH]; cbn; [by rewrite decide_False|].
  destruct (decide (j = k')) as [->|Hj]; cbn; [by rewrite !(decide_False (P := k = k')) | by destruct (decide (k = k'))].
Qed.
Lemma dict_set_lookup k j v d : dict_lookup k (dict_set j v d) = if decide (k = j) then Some v else dict_lookup k d.
Proof. destruct (decide (k = j)) as [->|H]; [apply dict_set_same | by apply dict_set_other]. Qed.

(** Looks up distinct literal keys through updates. *)
Ltac dict_steps :=
  repeat first [ rewrite dict_set_same | rewrite dict_set_other by discriminate ].

(** ** JSON *)

Lemma pyval_eqb_eq a : forall b, pyval_eqb a b = true -> a = b.
Proof.
  revert a. fix IH 1. intros [|x|x|x|x|x|l|l] [|y|y|y|y|y|k|k]; cbn [pyval_eqb]; try discriminate; try done.
  - intros H%Bool.eqb_prop. congruence.
  - intros H%Z.eqb_eq. congruence.
  - intros H%bool_decide_eq_true. congruence.
  - intros H%bool_decide_eq_true. congruence.
  - intros H%str_eqb_true. congruence.
  - intros H. f_equal. revert k H. induction l as [|x l IHl]; intros [|y k]; try done.
    intros [H1 H2]%andb_true_iff. f_equal; [by apply IH | by apply IHl].
  - intros H. f_equal. revert k H. induction l as [|[i x] l IHl]; intros [|[j y] k]; try done.
    intros [[H0 H1]%andb_true_iff H2]%andb_true_iff. apply str_eqb_true in H0 as ->.
    f_equal; [f_equal; by apply IH | by apply IHl].
Qed.

(** Texts, integers, truth values and nothing are their own canonical form. *)
Definition plain (v : pyval) : bool := match v with PNone | PStr _ | PInt _ | PBool _ => true | _ => false end.
Lemma sorted_plain v w : plain w = true -> sorted_keys v = sorted_keys w -> v = w.
Proof. destruct v, w; cbn; congruence. Qed.
Lemma sorted_texts l v : sorted_keys v = sorted_keys (PList (PStr <$> l)) -> v = PList (PStr <$> l).
Proof.
  destruct v as [| | | | | |k|]; cbn; try discriminate. intros [= H]. f_equal. revert k H.
  induction l as [|x l IH]; intros [|y k]; cbn; try discriminate; [done|]. intros [= H1 H2]. f_equal; [|by apply IH].
  by apply (sorted_plain _ (PStr x)).
Qed.
Lemma sorted_length v w : sorted_keys v = sorted_keys w ->
  match v, w with PList l, PList k => length l = length k | PList _, _ | _, PList _ => False | _, _ => True end.
Proof.
  destruct v, w; cbn; try done; try discriminate. intros [= H]. apply (f_equal length) in H. by rewrite !length_map in H.
Qed.

(** The fields of equal tokens have equal canonical forms. *)
Record same_fields (a b : pydict) : Prop := MkSameFields {
  sf_endpoint : sorted_keys (dict_get "endpoint" a) = sorted_keys (dict_get "endpoint" b);
  sf_phase : sorted_keys (dict_get "phase" a) = sorted_keys (dict_get "phase" b);
  sf_cursor : sorted_keys (dict_get "cursor" a) = sorted_keys (dict_get "cursor" b);
  sf_page : sorted_keys (dict_get "page" a) = sorted_keys (dict_get "page" b);
  sf_seen : sorted_keys (dict_get_default "seen_positions" (PList []) a) = sorted_keys (dict_get_default "seen_positions" (PList []) b);
  sf_total : sorted_keys (dict_get "source_total" a) = sorted_keys (dict_get "source_total" b);
  sf_rows : sorted_keys (dict_get_default "source_rows" (PInt 0) a) = sorted_keys (dict_get_default "source_rows" (PInt 0) b)
}.

Lemma sorted_token s : sorted_keys (state_token s) =
  PDict [("completed", sorted_keys (dict_get "completed" s)); ("cursor", sorted_keys (dict_get "cursor" s));
    ("endpoint", sorted_keys (dict_get "endpoint" s)); ("page", sorted_keys (dict_get "page" s));
    ("pages_committed", sorted_keys (dict_get_default "pages_committed" (PInt 0) s)); ("phase", sorted_keys (dict_get "phase" s));
    ("seen_positions", sorted_keys (dict_get_default "seen_positions" (PList []) s));
    ("source_rows", sorted_keys (dict_get_default "source_rows" (PInt 0) s)); ("source_total", sorted_keys (dict_get "source_total" s))].
Proof.
  unfold state_token. generalize (dict_get "completed" s) (dict_get "cursor" s) (dict_get "endpoint" s) (dict_get "page" s)
    (dict_get_default "pages_committed" (PInt 0) s) (dict_get "phase" s) (dict_get_default "seen_positions" (PList []) s)
    (dict_get_default "source_rows" (PInt 0) s) (dict_get "source_total" s).
  intros. lazy -[sorted_keys]. unfold sorted_keys at 1. reflexivity.
Qed.

Lemma same_json_fields a b : same_json (state_token a) (state_token b) = true -> same_fields a b.
Proof.
  intros H%pyval_eqb_eq. rewrite !sorted_token in H.
  injection H as ? ? ? ? ? ? ? ? ?. by constructor.
Qed.

(** ** The reader *)

Record reader := MkReader {
  rd_phase : string;
  rd_cursor : option string;
  rd_page : Z;
  rd_total : option Z;
  rd_rows : Z;
  rd_done : bool;
  rd_seen : list string
}.

Definition reader_start : reader := MkReader "create" None 1 None 0 false [].
Definition total_json (t : option Z) : pyval := match t with Some n => PInt n | None => PNone end.

(** The state of a reader as a checkpoint has it. *)
Definition state_for (r : reader) : pydict :=
  [("phase", PStr (rd_phase r)); ("cursor", cursor_json (rd_cursor r)); ("page", PInt (rd_page r));
   ("source_total", total_json (rd_total r)); ("source_rows", PInt (rd_rows r))].

(** The position after a page.  The orders are read twice, by creation and by update. *)
Definition advance (r : reader) (p : Page) : reader :=
  let seen := rd_seen r ++ [page_position p] in
  if str_eqb (page_domain p) "orders" then
    if page_completed p && str_eqb (rd_phase r) "create" then MkReader "update" None (rd_page r) (rd_total r) (rd_rows r) false seen
    else MkReader (rd_phase r) (page_next_cursor p) (rd_page r) (rd_total r) (rd_rows r) (page_completed p) seen
  else if str_eqb (page_domain p) "clues" then
    MkReader (rd_phase r) (rd_cursor r) (default (rd_page r) (page_next_page p))
      (match page_total (payload_data (page_payload p)) with Some t => Some t | None => rd_total r end)
      (rd_rows r + page_row_count (page_rows p)) (page_completed p) seen
  else MkReader (rd_phase r) (page_next_cursor p) (rd_page r) (rd_total r) (rd_rows r) (page_completed p) seen.

Definition in_domain (domain : string) (p : Page) : bool := str_eqb (page_domain p) domain.

Section Reader.
Context (repr_of json_compact : pyval -> string).
#[local] Notation read_page := (read_page repr_of json_compact).
#[local] Notation request_of_state := (request_of_state repr_of json_compact).
(** What the upstream service may answer, and the page size of a domain. *)
Context (answers : page_request -> pyval -> Prop) (sizes : string -> Z).

(** The reader of a domain asks for a page and reads the answer. *)
Definition asks (domain : string) (r : reader) (p : Page) : Prop :=
  exists payload, answers (request_of_state domain (state_for r) (sizes domain)) payload
    /\ read_page domain (state_for r) (sizes domain) payload = Return p.

Inductive reads (domain : string) : list Page -> reader -> Prop :=
| reads_start : reads domain [] reader_start
| reads_page l r p :
    reads domain l r -> asks domain r p -> page_position p ∉ rd_seen r ->
    Z.of_nat (length (rd_seen r)) < MAX_PAGED_REQUESTS -> reads domain (l ++ [p]) (advance r p).

Lemma read_page_domain domain state size payload p : read_page domain state size payload = Return p -> page_domain p = domain.
Proof.
  unfold Pages.read_page. destruct payload as [| | | | | | |d]; try discriminate.
  destruct (str_eqb domain "orders") eqn:E1; [apply str_eqb_true in E1 as ->; unfold orders_page; intros H; returned H; by simplify_eq/=|].
  destruct (str_eqb domain "refunds") eqn:E2.
  { apply str_eqb_true in E2 as ->. unfold refunds_page. destruct (page_has_more _); [|discriminate]. intros H; returned H; by simplify_eq/=. }
  destruct (str_eqb domain "clues") eqn:E3; [apply str_eqb_true in E3 as ->; unfold clues_page; intros H; returned H; by simplify_eq/=|].
  destruct (str_eqb domain "verify_records") eqn:E4; [|discriminate]. apply str_eqb_true in E4 as ->. unfold verify_page. intros H; returned H.
  split_tests_in H; returned H; by simplify_eq/=.
Qed.

(** A page depends on these fields of the state only. *)
Record same_position (domain : string) (a b : pydict) : Prop := MkSamePosition {
  sp_phase : domain = "orders" -> order_phase repr_of a = order_phase repr_of b;
  sp_cursor : domain <> "clues" -> state_cursor repr_of json_compact a = state_cursor repr_of json_compact b;
  sp_clues : domain = "clues" -> state_page a = state_page b /\ state_rows a = state_rows b
    /\ integer (dict_get "source_total" a) = integer (dict_get "source_total" b)
}.

Lemma read_page_same domain a b size payload :
  same_position domain a b -> read_page domain a size payload = read_page domain b size payload.
Proof.
  intros [H1 H2 H3]. unfold Pages.read_page. destruct payload as [| | | | | | |d]; try done.
  destruct (str_eqb domain "orders") eqn:E1; [apply str_eqb_true in E1 as ->; unfold orders_page; by rewrite H1, H2|].
  destruct (str_eqb domain "refunds") eqn:E2; [apply str_eqb_true in E2 as ->; unfold refunds_page; by rewrite H2|].
  destruct (str_eqb domain "clues") eqn:E3.
  { apply str_eqb_true in E3 as ->. destruct (H3 eq_refl) as (Hp & Hr & Ht). unfold clues_page. by rewrite Hp, Hr, Ht. }
  destruct (str_eqb domain "verify_records") eqn:E4; [apply str_eqb_true in E4 as ->; unfold verify_page; by rewrite H2 | done].
Qed.
Lemma request_same domain a b size :
  same_position domain a b -> request_of_state domain a size = request_of_state domain b size.
Proof.
  intros [H1 H2 H3]. unfold Pages.request_of_state.
  destruct (str_eqb domain "clues") eqn:E; [apply str_eqb_true in E as ->; by destruct (H3 eq_refl) as (-> & _)|].
  rewrite H2 by (intros ->; discriminate E).
  destruct (str_eqb domain "orders") eqn:E1; [apply str_eqb_true in E1 as ->; by rewrite H1 | done].
Qed.
End Reader.
#[export] Hint Constructors reads : dy.

(** ** Encodings *)

Definition endpoint_of (domain : string) (r : reader) : string :=
  if str_eqb domain "orders" then "orders." +:+ rd_phase r +:+ "_order" else domain +:+ ".query".

(** A state of a checkpoint holds the position of a reader. *)
Record encodes (domain : string) (s : pydict) (r : reader) : Prop := MkEncodes {
  en_endpoint : dict_lookup "endpoint" s = Some (PStr (endpoint_of domain r));
  en_done : dict_lookup "completed" s = Some (PBool (rd_done r));
  en_seen : dict_lookup "seen_positions" s = Some (PList (PStr <$> rd_seen r));
  en_pages : dict_lookup "pages_committed" s = Some (PInt (Z.of_nat (length (rd_seen r))));
  en_counts : forall k, k ∈ COUNT_KEYS -> exists n, dict_lookup k s = Some (PInt n);
  en_phase : domain = "orders" -> dict_lookup "phase" s = Some (PStr (rd_phase r)) /\ str_in (rd_phase r) ["create"; "update"] = true;
  en_cursor : domain <> "clues" -> dict_lookup "cursor" s = Some (cursor_json (rd_cursor r));
  en_clues : domain = "clues" -> (dict_lookup "page" s = Some (PInt (rd_page r)) /\ 1 <= rd_page r) /\ dict_lookup "source_total" s = Some (total_json (rd_total r))
    /\ dict_lookup "source_rows" s = Some (PInt (rd_rows r))
}.

(** The domains of a job. *)
Definition DOMAINS : list string := ["orders"; "refunds"; "clues"; "verify_records"].

Lemma encodes_new domain : domain ∈ DOMAINS -> encodes domain (new_domain_state domain) reader_start.
Proof.
  intros H. repeat (apply elem_of_cons in H as [->|H]); [..|by apply elem_of_nil in H].
  all: split; try done; try (intros k Hk; repeat (apply elem_of_cons in Hk as [->|Hk]); [..|by apply elem_of_nil in Hk]; exists 0; reflexivity).
Qed.

Lemma target_domains_sub target names : target_domains target = Some names -> names ⊆ DOMAINS /\ NoDup names.
Proof.
  unfold target_domains. destruct (str_eqb target "all"); [intros [= <-]; split; [done|]|].
  - repeat constructor; set_solver.
  - destruct (str_in target _) eqn:E; [|done]. intros [= <-]. apply bool_decide_eq_true in E. split; [set_solver|].
    apply NoDup_singleton.
Qed.

Lemma lookup_get k s v : dict_lookup k s = Some v -> dict_get k s = v.
Proof. unfold dict_get, dict_get_default. by intros ->. Qed.
Lemma lookup_default k s v w : dict_lookup k s = Some v -> dict_get_default k w s = v.
Proof. unfold dict_get_default. by intros ->. Qed.
Lemma plain_cursor c : plain (cursor_json c) = true. Proof. by destruct c. Qed.
Lemma plain_total t : plain (total_json t) = true. Proof. by destruct t. Qed.
#[export] Hint Resolve plain_cursor plain_total : dy.

(** A field of an expected state that a token compares with a plain value. *)
Lemma field_is {k s s' v} : plain v = true -> dict_lookup k s = Some v ->
  sorted_keys (dict_get k s) = sorted_keys (dict_get k s') -> dict_get k s' = v.
Proof. intros Hp H E. rewrite (lookup_get _ _ _ H) in E. by apply sorted_plain. Qed.

Lemma int_at_get k n s z : dict_get k s = PInt z -> int_at k n s = Some (if z =? 0 then n else z).
Proof.
  unfold int_at, dict_get, dict_get_default. destruct (dict_lookup k s); [|done]. intros ->.
  unfold py_or. cbn. by destruct (z =? 0).
Qed.
Lemma int_at_default k n s z : dict_get_default k (PInt n) s = PInt z -> int_at k n s = Some (if z =? 0 then n else z).
Proof. unfold int_at. intros ->. unfold py_or. cbn. by destruct (z =? 0). Qed.

(** A state with the token of one that encodes a reader is at its position. *)
Lemma same_reader repr_of json_compact domain cur exp r :
  encodes domain cur r -> same_fields cur exp -> same_position repr_of json_compact domain exp (state_for r).
Proof.
  intros [Ee Ed Es Ep Ec Eo Eu El] F. split.
  - intros ->. destruct (Eo eq_refl) as [H _]. unfold order_phase. by rewrite (field_is (v := PStr (rd_phase r)) eq_refl H (sf_phase _ _ F)).
  - intros Hd. unfold state_cursor. rewrite (field_is (plain_cursor _) (Eu Hd) (sf_cursor _ _ F)). reflexivity.
  - intros ->. destruct (El eq_refl) as ([H1 _] & H2 & H3). split; [|split].
    + unfold state_page. rewrite !(int_at_get "page" 1 _ (rd_page r)); [done..|].
      by apply (field_is (v := PInt (rd_page r)) eq_refl H1 (sf_page _ _ F)).
    + unfold state_rows. rewrite !(int_at_default "source_rows" 0 _ (rd_rows r)); [done..|].
      apply (sorted_plain _ (PInt (rd_rows r))); [done|]. rewrite <-(sf_rows _ _ F). by rewrite (lookup_default _ _ _ _ H3).
    + rewrite (field_is (plain_total _) H2 (sf_total _ _ F)). reflexivity.
Qed.

(** ** Dictionaries as maps *)

Definition same_dict (a b : pydict) : Prop := forall k, dict_lookup k a = dict_lookup k b.
#[export] Instance same_dict_equivalence : Equivalence same_dict.
Proof. split; unfold same_dict; [done | intros a b H k; by rewrite H | intros a b c H1 H2 k; by rewrite H1, H2]. Qed.
#[export] Instance dict_get_default_proper k v : Proper (same_dict ==> eq) (dict_get_default k v).
Proof. intros a b H. unfold dict_get_default. by rewrite H. Qed.
#[export] Instance dict_mem_proper k : Proper (same_dict ==> eq) (dict_mem k).
Proof. intros a b H. unfold dict_mem. by rewrite H. Qed.
#[export] Instance encodes_proper domain : Proper (same_dict ==> eq ==> iff) (encodes domain).
Proof.
  assert (G : forall a b r, same_dict a b -> encodes domain a r -> encodes domain b r).
  { intros a b r H [Ee Ed Es Ep Ec Eo Eu El]. unfold same_dict in H.
    constructor; try intros k; rewrite <-?H; eauto. }
  intros a b H r r' <-. split; [apply G, H | apply G; by symmetry].
Qed.

Lemma dict_set_known k v s : dict_lookup k s = Some v -> same_dict (dict_set k v s) s.
Proof. intros H j. rewrite dict_set_lookup. by destruct (decide (j = k)) as [->|]. Qed.

(** ** Validation keeps the position *)

Lemma check_count_known domain key m least s s' n :
  dict_lookup key s = Some (PInt n) -> m = 0 \/ n <> 0 -> check_count domain key m least s = Return s' -> same_dict s' s.
Proof.
  intros H Hn. unfold check_count. rewrite (int_at_default _ _ _ n) by by apply lookup_default.
  assert ((if n =? 0 then m else n) = n) as -> by (destruct (Z.eqb_spec n 0); lia).
  intros G; returned G. simplify_eq. by apply dict_set_known.
Qed.

Lemma check_counts_known domain keys s s' :
  (forall k, k ∈ keys -> exists n, dict_lookup k s = Some (PInt n)) ->
  foldl (fun acc key => let! s := acc in check_count domain key 0 0 s) (Return s) keys = Return s' -> same_dict s' s.
Proof.
  revert s. induction keys as [|k keys IH]; intros s Hk; cbn; [by intros [= <-]|].
  destruct (check_count domain k 0 0 s) as [s1|x] eqn:E.
  - destruct (Hk k) as [n Hn]; [set_solver|]. pose proof (check_count_known _ _ _ _ _ _ _ Hn (or_introl eq_refl) E) as H1.
    intros H. rewrite <-H1. apply IH; [|done]. intros j Hj. rewrite H1. apply Hk. set_solver.
  - intros H. exfalso. revert H. clear. induction keys; cbn; [discriminate|done].
Qed.

Lemma validate_known repr_of json_compact domain s s' r :
  encodes domain s r -> validate_domain_state repr_of json_compact domain s = Return s' -> same_dict s' s.
Proof.
  intros [Ee Ed Es Ep Ec Eo Eu El]. unfold validate_domain_state, check_endpoint. intros H.
  apply outcome_bind_Return in H as (s0 & H0 & H).
  rewrite (lookup_get _ _ _ Ee) in H0. returned H0. cbn [is_none] in H0. injection H0 as <-. unfold dict_mem in H. rewrite Ed in H.
  apply outcome_bind_Return in H as (s1 & H1 & H).
  apply check_counts_known in H1; [|intros k [->|Hk]%elem_of_cons; [eauto | by apply Ec]].
  apply outcome_bind_Return in H as (s2 & H2 & H). unfold check_positions in H2.
  rewrite H1, (lookup_default _ _ _ _ Es) in H2. returned H2. simplify_eq/=.
  assert (same_dict (dict_set "seen_positions" (PList (PStr <$> rd_seen r)) s1) s) as H2 by (rewrite dict_set_known; [done|by rewrite H1]).
  revert H H2. generalize (dict_set "seen_positions" (PList (PStr <$> rd_seen r)) s1) as s3. intros s3 H H3.
  destruct (str_eqb domain "clues") eqn:Ed'.
  - apply str_eqb_true in Ed' as ->. destruct (El eq_refl) as ([P1 P2] & P3 & P4).
    apply outcome_bind_Return in H as (s4 & H4 & H). apply outcome_bind_Return in H as (s5 & H5 & H).
    assert (same_dict s4 s) as E4.
    { rewrite <-H3. revert H4. unfold check_total. replace (dict_get "source_total" s3) with (total_json (rd_total r))
        by (symmetry; apply lookup_get; by rewrite H3).
      destruct (rd_total r) as [t|]; cbn [total_json absent is_none is_str py_int orb];
        [intros H4; returned H4|intros H4]; simplify_eq; apply dict_set_known; by rewrite H3. }
    assert (same_dict s5 s) as E5 by (rewrite <-E4; eapply check_count_known; [rewrite E4; exact P4 | by left | exact H5]).
    rewrite <-E5. eapply check_count_known; [rewrite E5; exact P1 | right; lia | exact H].
  - assert (domain <> "clues") as Hd by (intros ->; discriminate). simplify_eq. unfold check_cursor, dict_get.
    rewrite H3, (lookup_default _ _ _ _ (Eu Hd)). by destruct (rd_cursor r).
Qed.

(** ** Checkpoints that hold readers *)

Definition holds_states (names : list string) (ds : pydict) (f : string -> reader) : Prop :=
  forall d, d ∈ names -> exists s, dict_lookup d ds = Some (PDict s) /\ encodes d s (f d).

Record holds (target : string) (names : list string) (cp : pydict) (f : string -> reader) : Prop := MkHolds {
  ho_protocol : dict_lookup "protocol" cp = Some (PStr CHECKPOINT_PROTOCOL);
  ho_target : dict_lookup "target" cp = Some (PStr target);
  ho_domains : exists ds, dict_lookup "domains" cp = Some (PDict ds) /\ holds_states names ds f
}.

(** A checkpoint without paging state. *)
Definition fresh (cp : pydict) : bool :=
  is_none (dict_get "protocol" cp) && negb (truthy (dict_get "domains" cp)) && negb (has_known_paging_state cp).

Lemma lookup_filter (P : string * pyval -> bool) k v d : dict_lookup k d = Some v -> P (k, v) = true -> dict_lookup k (List.filter P d) = Some v.
Proof.
  intros H HP. induction d as [|[k' v'] d IH]; [done|]. cbn in *. destruct (decide (k = k')) as [->|Hk].
  - simplify_eq. rewrite HP. cbn. by rewrite decide_True.
  - destruct (P (k', v')); cbn; [rewrite decide_False by done|]; by apply IH.
Qed.
Lemma lookup_states d names : d ∈ names ->
  dict_lookup d ((fun d => (d, PDict (new_domain_state d))) <$> names) = Some (PDict (new_domain_state d)).
Proof.
  induction names as [|n names IH]; [by intros ?%elem_of_nil|]. intros H. cbn. destruct (decide (d = n)) as [->|Hn]; [done|].
  apply IH. set_solver.
Qed.

Lemma lookup_elem k v (d : pydict) : dict_lookup k d = Some v -> (k, v) ∈ d.
Proof.
  induction d as [|[k' v'] d IH]; [done|]. cbn. destruct (decide (k = k')) as [->|_]; [intros [= ->]|intros H]; set_solver.
Qed.

Section Checkpoints.
Context (repr_of json_compact : pyval -> string) (isoformat : stamp -> string).
#[local] Notation normalize := (normalize_checkpoint repr_of json_compact isoformat).

Lemma validate_domains_known names all ds ds' f :
  names ⊆ all -> holds_states all ds f -> validate_domains repr_of json_compact names ds = Return ds' -> holds_states all ds' f.
Proof.
  unfold validate_domains. revert ds. induction names as [|n names IH]; intros ds Hsub Hds; cbn; [by intros [= <-]|].
  destruct (Hds n) as (s & Hs & He); [set_solver|].
  unfold dict_mem, dict_get, dict_get_default. rewrite Hs. cbn [as_dict].
  destruct (validate_domain_state _ _ n s) as [s1|x] eqn:E.
  - cbn [outcome_bind]. apply IH; [set_solver|]. intros d Hd. rewrite dict_set_lookup. destruct (decide (d = n)) as [->|Hn]; [|by apply Hds].
    eexists. split; [done|]. by rewrite (validate_known _ _ _ _ _ _ He E).
  - cbn. intros H. exfalso. revert H. clear. induction names; cbn; [discriminate|done].
Qed.

Lemma normalize_fresh cp target names window cur :
  target_domains target = Some names -> fresh cp = true -> normalize cp target window = Return cur ->
  holds target names cur (fun _ => reader_start).
Proof.
  intros Ht Hf. unfold normalize_checkpoint. rewrite Ht. intros H.
  assert (cur = new_checkpoint isoformat target names window) as ->.
  { destruct (bool_decide (cp = [])); [by injection H|]. returned H. unfold fresh in Hf. rewrite Hf in H. by injection H. }
  split; [done..|]. eexists. split; [reflexivity|]. intros d Hd. eexists. split; [by apply lookup_states|].
  apply encodes_new. by apply (target_domains_sub _ _ Ht).
Qed.

Lemma normalize_holds cp target names window cur f :
  target_domains target = Some names -> holds target names cp f -> normalize cp target window = Return cur -> holds target names cur f.
Proof.
  intros Ht [Hp Hta (ds & Hds & Hst)]. unfold normalize_checkpoint. rewrite Ht. intros H.
  rewrite bool_decide_false in H by (intros ->; discriminate).
  rewrite (lookup_get _ _ _ Hp), (lookup_get _ _ _ Hds) in H.
  apply outcome_bind_Return in H as ([] & _ & H). cbn [is_none andb] in H.
  apply outcome_bind_Return in H as ([] & _ & H). apply outcome_bind_Return in H as ([] & _ & H).
  destruct (int_at "pages_committed" 0 cp) as [pages|]; [|discriminate].
  apply outcome_bind_Return in H as (ds' & H1 & H). returned H. simplify_eq. split; [done..|]. eexists. split; [reflexivity|].
  eapply validate_domains_known; [| |exact H1]; [done|]. intros d Hd. destruct (Hst d Hd) as (s & Hs & He).
  exists s. split; [by apply lookup_filter|done].
Qed.

Lemma normalize_keys cp target names window cur d v :
  target_domains target = Some names -> normalize cp target window = Return cur -> dict_lookup d (domains_of cur) = Some v -> d ∈ names.
Proof.
  intros Ht H Hd. unfold normalize_checkpoint in H. rewrite Ht in H.
  assert (New : forall c, c = new_checkpoint isoformat target names window -> dict_lookup d (domains_of c) = Some v -> d ∈ names).
  { intros c -> Hl. change (domains_of _) with ((fun d => (d, PDict (new_domain_state d))) <$> names) in Hl.
    apply lookup_elem, list_elem_of_fmap in Hl as (x & Hx & Hin). by injection Hx as -> _. }
  destruct (bool_decide (cp = [])); [injection H as <-; by eapply New|].
  apply outcome_bind_Return in H as ([] & _ & H). destruct (_ && _ && _); [injection H as <-; by eapply New|].
  apply outcome_bind_Return in H as ([] & _ & H). apply outcome_bind_Return in H as ([] & _ & H).
  destruct (dict_get "domains" cp) as [| | | | | | |raw]; try discriminate. destruct (int_at "pages_committed" 0 cp); [|discriminate].
  apply outcome_bind_Return in H as (ds' & H1 & H). returned H. injection H as <-.
  change (domains_of _) with ds' in Hd. apply lookup_elem in Hd.
  pose proof (existsb_false_in _ _ _ G Hd) as Hk. cbn in Hk. apply negb_false_iff in Hk. by apply bool_decide_eq_true in Hk.
Qed.
End Checkpoints.

(** ** The next state encodes the next position *)

Lemma add_at_Return key n s s' : add_at key n s = Return s' -> exists z, int_at key 0 s = Some z /\ s' = dict_set key (PInt (z + n)) s.
Proof. unfold add_at. destruct (int_at key 0 s); [|discriminate]. intros [= <-]. eauto. Qed.

Lemma accumulate_keeps l s s' :
  foldl (fun acc kn => let! s := acc in add_at kn.1 kn.2 s) (Return s) l = Return s' ->
  (forall k, k ∉ l.*1 -> dict_lookup k s' = dict_lookup k s) /\ (forall k, k ∈ l.*1 -> exists n, dict_lookup k s' = Some (PInt n)).
Proof.
  revert s. induction l as [|[k n] l IH]; intros s; cbn; [intros [= <-]; split; [done|by intros ? ?%elem_of_nil]|].
  destruct (add_at k n s) as [s1|x] eqn:E.
  - intros [H1 H2]%IH. apply add_at_Return in E as (z & Hz & ->). split.
    + intros j Hj. rewrite H1, dict_set_other; [done|..]; set_solver.
    + intros j Hj. destruct (decide (j ∈ l.*1)) as [Hl|Hl]; [by apply H2|]. rewrite H1 by done.
      assert (j = k) as -> by set_solver. rewrite dict_set_same. eauto.
  - intros H. exfalso. revert H. clear. induction l; cbn; [discriminate|done].
Qed.

Lemma stat_keys stats : (as_metadata stats).*1 = COUNT_KEYS. Proof. reflexivity. Qed.

(** What the first part of a step leaves. *)
Lemma counted_state domain s r stats s1 done :
  encodes domain s r -> (let! s := accumulate_stats s stats in add_at "pages_committed" 1 s) = Return s1 ->
  (forall k, k ∉ COUNT_KEYS -> k <> "pages_committed" -> k <> "completed" ->
     dict_lookup k (dict_set "completed" (PBool done) s1) = dict_lookup k s)
  /\ dict_lookup "pages_committed" (dict_set "completed" (PBool done) s1) = Some (PInt (Z.of_nat (length (rd_seen r)) + 1))
  /\ (forall k, k ∈ COUNT_KEYS -> exists n, dict_lookup k (dict_set "completed" (PBool done) s1) = Some (PInt n)).
Proof.
  intros He H. apply outcome_bind_Return in H as (s0 & H0 & H). apply accumulate_keeps in H0 as [K1 K2]. rewrite stat_keys in K1, K2.
  apply add_at_Return in H as (z & Hz & ->).
  assert (dict_lookup "pages_committed" s0 = Some (PInt (Z.of_nat (length (rd_seen r))))) as Hp.
  { rewrite K1; [apply (en_pages _ _ _ He)|]. by apply (bool_decide_unpack _). }
  rewrite (int_at_default _ _ _ (Z.of_nat (length (rd_seen r)))) in Hz by by apply lookup_default.
  assert (z = Z.of_nat (length (rd_seen r))) as -> by (destruct (_ =? 0) eqn:E in Hz; [apply Z.eqb_eq in E|]; injection Hz; lia).
  split; [|split].
  - intros k H1 H2 H3. rewrite !dict_set_other by done. by apply K1.
  - by dict_steps.
  - intros k Hk. destruct (K2 k Hk) as [n Hn]. exists n.
    rewrite !dict_set_other; [done|..]; intros ->; revert Hk; by apply (bool_decide_unpack _).
Qed.

Lemma counts_kept (ks : list string) s s' : (forall k, k ∈ COUNT_KEYS -> exists n, dict_lookup k s = Some (PInt n)) ->
  (forall k, k ∉ ks -> dict_lookup k s' = dict_lookup k s) -> (forall k, k ∈ ks -> k ∉ COUNT_KEYS) ->
  forall k, k ∈ COUNT_KEYS -> exists n, dict_lookup k s' = Some (PInt n).
Proof. intros H1 H2 H3 k Hk. rewrite H2; [by apply H1 | intros H; by apply (H3 k)]. Qed.

(** The keys a step changes besides the counts. *)
Definition STEP_KEYS : list string :=
  ["completed"; "cursor"; "endpoint"; "page"; "phase"; "seen_positions"; "source_rows"; "source_total"].

Lemma step_keys_counts k : k ∈ STEP_KEYS -> k ∉ COUNT_KEYS.
Proof. revert k. apply Forall_forall. by apply (bool_decide_unpack _). Qed.

Ltac keeps_others :=
  let k := fresh "k" in let Hk := fresh "Hk" in
  intros k Hk; rewrite ?dict_set_other by (intros ->; apply Hk; by apply (bool_decide_unpack _)); reflexivity.

(** A field of the next state. *)
Ltac encoded_by Hlen Hcounts :=
  first
    [ eapply (counts_kept STEP_KEYS); [exact Hcounts | keeps_others | apply step_keys_counts]
    | try intros _; repeat split; dict_steps; first [done | by rewrite Hlen | eassumption]
    | done ].

Lemma seen_advance r p : rd_seen (advance r p) = rd_seen r ++ [page_position p].
Proof. unfold advance. by repeat case_match. Qed.

Lemma advance_orders_encodes s s1 r p :
  encodes "orders" s r -> page_domain p = "orders" ->
  (forall k, k ∉ COUNT_KEYS -> k <> "pages_committed" -> k <> "completed" -> dict_lookup k s1 = dict_lookup k s) ->
  dict_lookup "completed" s1 = Some (PBool (page_completed p)) ->
  dict_lookup "pages_committed" s1 = Some (PInt (Z.of_nat (length (rd_seen r)) + 1)) ->
  (forall k, k ∈ COUNT_KEYS -> exists n, dict_lookup k s1 = Some (PInt n)) ->
  forall s2, advance_state p s s1 = Return s2 ->
  encodes "orders" (dict_set "seen_positions" (PList (PStr <$> rd_seen (advance r p))) s2) (advance r p).
Proof.
  intros He Hd K1 K2 K3 K4 s2 H. destruct (en_phase _ _ _ He eq_refl) as [Hph Hin].
  assert (dict_lookup "phase" s1 = Some (PStr (rd_phase r))) as Hp1 by (rewrite K1 by (by apply (bool_decide_unpack _)); done).
  assert (dict_lookup "endpoint" s1 = Some (PStr (endpoint_of "orders" r))) as He1
    by (rewrite K1 by (by apply (bool_decide_unpack _)); apply (en_endpoint _ _ _ He)).
  assert (Hlen : Z.of_nat (length (rd_seen (advance r p))) = Z.of_nat (length (rd_seen r)) + 1).
  { rewrite seen_advance, length_app. cbn. lia. }
  unfold advance_state in H. rewrite Hd in H. unfold advance in *. rewrite Hd in *.
  change (str_eqb "orders" "orders") with true in *. cbv iota in *. rewrite (lookup_get _ _ _ Hp1) in H. cbn [is_str] in H.
  destruct (page_completed p && str_eqb (rd_phase r) "create") eqn:Ec; injection H as <-; cbn [rd_seen] in *.
  - split; cbn [rd_seen rd_done rd_phase rd_cursor]; encoded_by Hlen K4.
  - split; cbn [rd_seen rd_done rd_phase rd_cursor]; encoded_by Hlen K4.
Qed.

Lemma advance_clues_encodes s s1 r p :
  encodes "clues" s r -> page_domain p = "clues" -> (forall n, page_next_page p = Some n -> 1 <= n) ->
  (forall k, k ∉ COUNT_KEYS -> k <> "pages_committed" -> k <> "completed" -> dict_lookup k s1 = dict_lookup k s) ->
  dict_lookup "pages_committed" s1 = Some (PInt (Z.of_nat (length (rd_seen r)) + 1)) ->
  (forall k, k ∈ COUNT_KEYS -> exists n, dict_lookup k s1 = Some (PInt n)) ->
  forall s2, advance_state p s s1 = Return s2 ->
  encodes "clues" (dict_set "seen_positions" (PList (PStr <$> rd_seen (advance r p))) s2) (advance r p).
Proof.
  intros He Hd Hn K1 K3 K4 s2 H. destruct (en_clues _ _ _ He eq_refl) as ([Hp Hp1] & Ht & Hr).
  assert (G : forall k v, dict_lookup k s = Some v -> bool_decide (k ∈ STEP_KEYS /\ k <> "completed") = true -> dict_lookup k s1 = Some v).
  { intros k v Hk [Hin Hc]%bool_decide_eq_true. rewrite K1; [done|by apply step_keys_counts| |done].
    intros ->. revert Hin. by apply (bool_decide_unpack _). }
  assert (Hlen : Z.of_nat (length (rd_seen (advance r p))) = Z.of_nat (length (rd_seen r)) + 1).
  { rewrite seen_advance, length_app. cbn. lia. }
  pose proof (G _ _ (en_endpoint _ _ _ He) eq_refl) as He1. apply G in Hp as Hp2; [|reflexivity]. apply G in Ht as Ht2; [|reflexivity].
  unfold advance_state in H. rewrite Hd in H. unfold advance in *. rewrite Hd in *.
  change (str_eqb "clues" "orders") with false in *. change (str_eqb "clues" "clues") with true in *. cbv iota in *.
  rewrite (int_at_default "source_rows" 0 _ (rd_rows r)) in H by by apply lookup_default. injection H as <-.
  assert ((if rd_rows r =? 0 then 0 else rd_rows r) = rd_rows r) as -> by (destruct (Z.eqb_spec (rd_rows r) 0); lia).
  destruct (page_next_page p) as [n|] eqn:En, (page_total (payload_data (page_payload p))) as [t|] eqn:Et;
    split; cbn [rd_seen rd_done rd_phase rd_page rd_total rd_rows default] in *; try discriminate;
    try (intros Hx; by destruct Hx); try (intros _; pose proof (Hn _ eq_refl)); encoded_by Hlen K4.
Qed.

Lemma advance_cursor_encodes domain s s1 r p :
  encodes domain s r -> page_domain p = domain -> domain <> "orders" -> domain <> "clues" ->
  (forall k, k ∉ COUNT_KEYS -> k <> "pages_committed" -> k <> "completed" -> dict_lookup k s1 = dict_lookup k s) ->
  dict_lookup "completed" s1 = Some (PBool (page_completed p)) ->
  dict_lookup "pages_committed" s1 = Some (PInt (Z.of_nat (length (rd_seen r)) + 1)) ->
  (forall k, k ∈ COUNT_KEYS -> exists n, dict_lookup k s1 = Some (PInt n)) ->
  forall s2, advance_state p s s1 = Return s2 ->
  encodes domain (dict_set "seen_positions" (PList (PStr <$> rd_seen (advance r p))) s2) (advance r p).
Proof.
  intros He Hd Ho Hc K1 K2 K3 K4 s2 H.
  assert (Hlen : Z.of_nat (length (rd_seen (advance r p))) = Z.of_nat (length (rd_seen r)) + 1).
  { rewrite seen_advance, length_app. cbn. lia. }
  assert (str_eqb domain "orders" = false) as Eo by by apply bool_decide_eq_false.
  assert (str_eqb domain "clues" = false) as Ec by by apply bool_decide_eq_false.
  assert (dict_lookup "endpoint" s1 = Some (PStr (domain +:+ ".query"))) as He1.
  { rewrite K1 by (by apply (bool_decide_unpack _)). rewrite (en_endpoint _ _ _ He). unfold endpoint_of. by rewrite Eo. }
  unfold advance_state in H. unfold advance in *. rewrite Hd, Eo, Ec in *. injection H as <-.
  split; cbn [rd_seen rd_done rd_phase rd_cursor] in *; try done; try (unfold endpoint_of; rewrite Eo); encoded_by Hlen K4.
Qed.

(** [next_state] takes a step of the reader. *)
Lemma next_state_encodes domain s r p stats s' :
  encodes domain s r -> page_domain p = domain -> (domain = "clues" -> forall n, page_next_page p = Some n -> 1 <= n) ->
  next_state p s stats = Return s' ->
  encodes domain s' (advance r p) /\ page_position p ∉ rd_seen r /\ Z.of_nat (length (rd_seen r)) < MAX_PAGED_REQUESTS.
Proof.
  intros He Hd Hn H. unfold next_state in H.
  apply outcome_bind_Return in H as (s0 & H0 & H). apply outcome_bind_Return in H as (s1 & H1 & H).
  apply outcome_bind_Return in H as (s2 & H2 & H).
  rewrite (lookup_default _ _ _ _ (en_seen _ _ _ He)) in H. returned H. injection H as <-.
  destruct (counted_state domain s r stats s1 (page_completed p) He) as (K1 & K3 & K4); [by rewrite H0|].
  pose proof (dict_set_same "completed" (PBool (page_completed p)) s1) as K2.
  assert (PStr <$> rd_seen r ++ [page_position p] = PStr <$> rd_seen (advance r p)) as E by by rewrite seen_advance.
  rewrite fmap_app in E. cbn [fmap list_fmap] in E. rewrite E. split; [|split].
  - destruct (decide (domain = "orders")) as [->|Ho]; [by eapply advance_orders_encodes|].
    destruct (decide (domain = "clues")) as [->|Hc]; [by eapply advance_clues_encodes; eauto | by eapply advance_cursor_encodes].
  - intros Hin. assert (is_str (PStr (page_position p)) (page_position p) = true) as Hs by apply str_eqb_refl.
    rewrite (existsb_false_in _ _ (PStr (page_position p)) G) in Hs; [done|]. by apply list_elem_of_fmap_2.
  - apply Z.ltb_ge in G0. rewrite length_fmap in G0. lia.
Qed.
