(* ===== verification/PagesThms.v ===== *)
(** * Paged collection: what a run promises

    Pages that are committed by any number of runs and workers, interrupted at any
    point, are the pages of one reader for each stream, each of them once; a run that
    returns has read every stream to its end, and every run ends. *)
From S2P Require Import Prelude PyValue Jobs Pages PagesProps.
#[local] Open Scope Z_scope.
#[local] Set Default Proof Using "Type".

(** ** The reader *)

Definition reader_of (l : list Page) : reader := foldl advance reader_start l.
Definition read_rows (l : list Page) : Z := foldr (fun p n => page_row_count (page_rows p) + n) 0 l.

Lemma read_rows_app l k : read_rows (l ++ k) = read_rows l + read_rows k.
Proof. induction l as [|p l IH]; [done|]. cbn [app read_rows foldr] in *. fold (read_rows (l ++ k)). fold (read_rows l). lia. Qed.

Section Streams.
Context (repr_of json_compact : pyval -> string) (answers : page_request -> pyval -> Prop) (sizes : string -> Z).
#[local] Notation reads := (reads repr_of json_compact answers sizes).
#[local] Notation asks := (asks repr_of json_compact answers sizes).

Lemma reads_reader domain l r : reads domain l r -> r = reader_of l.
Proof. induction 1 as [|l r p _ ->]; [done|]. unfold reader_of. by rewrite foldl_app. Qed.

Lemma asks_domain domain r p : asks domain r p -> page_domain p = domain.
Proof. intros (payload & _ & H). by eapply read_page_domain. Qed.

Lemma reads_domain domain l r : reads domain l r -> Forall (fun p => page_domain p = domain) l.
Proof. induction 1 as [|l r p _ IH Ha]; [constructor|]. apply Forall_app. split; [done|]. constructor; [by eapply asks_domain|constructor]. Qed.

Lemma reads_seen domain l r : reads domain l r -> rd_seen r = page_position <$> l /\ NoDup (rd_seen r) /\ Z.of_nat (length l) <= MAX_PAGED_REQUESTS.
Proof.
  induction 1 as [|l r p _ (IH1 & IH2 & IH3) Ha Hp Hl]; [cbn; repeat split; [constructor|done]|].
  rewrite seen_advance, fmap_app, IH1. split; [done|]. split.
  - rewrite <-IH1. apply NoDup_app. split; [done|]. split; [|apply NoDup_singleton]. intros x Hx ->%list_elem_of_singleton. done.
  - rewrite IH1, length_fmap in Hl. rewrite length_app. cbn. lia.
Qed.

(** The parts of a page of each kind of stream. *)
Lemma asks_clues r p : asks "clues" r p ->
  page_requested_page p = Some (state_page (state_for r)) /\ page_next_page p = (if page_completed p then None else Some (state_page (state_for r) + 1))
  /\ 0 < state_page (state_for r)
  /\ let total := match page_total (payload_data (page_payload p)) with Some t => Some t | None => rd_total r end in
     (forall t, total = Some t -> rd_rows r + page_row_count (page_rows p) <= t)
     /\ (page_completed p = true -> forall t, total = Some t -> rd_rows r + page_row_count (page_rows p) = t).
Proof.
  intros (payload & _ & H). unfold read_page in H. destruct payload as [| | | | | | |d]; try discriminate.
  change (str_eqb "clues" "orders") with false in H. change (str_eqb "clues" "refunds") with false in H.
  change (str_eqb "clues" "clues") with true in H. cbv iota in H. unfold clues_page in H.
  assert (integer (dict_get "source_total" (state_for r)) = rd_total r) as Et by by destruct r as [? ? ? [] ? ? ?].
  assert (state_rows (state_for r) = rd_rows r) as Er.
  { unfold state_rows. rewrite (int_at_default "source_rows" 0 _ (rd_rows r)) by done. cbn. destruct (Z.eqb_spec (rd_rows r) 0); cbn; lia. }
  rewrite Et, Er in H. returned H. injection H as <-. cbn [page_requested_page page_next_page page_completed page_payload page_rows].
  apply Z.leb_gt in G. split; [done|]. split; [done|]. split; [done|].
  destruct (match page_total (payload_data d) with Some t => Some t | None => rd_total r end) as [t|]; [|by split].
  apply Z.ltb_ge in G3. split; [by intros ? [= <-]|]. intros Hc t' [= <-]. revert G6. unfold clues_completed.
  destruct (page_has_more _) as [[]|]; intros G6.
  - returned G6. by simplify_eq.
  - apply outcome_bind_Return in G6 as (u & G6%throw_if_Return%Z.ltb_ge & _). lia.
  - destruct (Z.leb_spec t (rd_rows r + page_row_count (rows_of d ["clue_data"; "clues"; "list"; "records"]))); [lia|].
    destruct (_ <? _) in G6; [discriminate|]. by simplify_eq.
Qed.

Lemma state_cursor_for r : state_cursor repr_of json_compact (state_for r) = optional_cursor repr_of json_compact (cursor_json (rd_cursor r)).
Proof. reflexivity. Qed.
Lemma order_phase_for r : rd_phase r <> "" -> order_phase repr_of (state_for r) = rd_phase r.
Proof.
  intros H. unfold order_phase. change (dict_get "phase" (state_for r)) with (PStr (rd_phase r)). unfold py_or. cbn.
  unfold str_eqb. by rewrite bool_decide_false.
Qed.

Lemma asks_cursor domain r p : domain <> "clues" -> asks domain r p ->
  page_requested_cursor p = optional_cursor repr_of json_compact (cursor_json (rd_cursor r))
  /\ page_endpoint p = (if str_eqb domain "orders" then "orders." +:+ order_phase repr_of (state_for r) +:+ "_order" else domain +:+ ".query")
  /\ (page_completed p = true -> page_next_cursor p = None).
Proof.
  intros Hc (payload & _ & H). unfold read_page in H. destruct payload as [| | | | | | |d]; try discriminate.
  destruct (str_eqb domain "orders") eqn:E1.
  { unfold orders_page in H. returned H. injection H as <-. cbn. repeat split. by intros ->. }
  destruct (str_eqb domain "refunds") eqn:E2.
  { apply str_eqb_true in E2 as ->. unfold refunds_page in H. destruct (page_has_more _) as [[]|]; [..|discriminate]; returned H; by injection H as <-. }
  destruct (str_eqb domain "clues") eqn:E3; [by apply str_eqb_true in E3|].
  destruct (str_eqb domain "verify_records") eqn:E4; [|discriminate]. apply str_eqb_true in E4 as ->. unfold verify_page in H.
  returned H. destruct (page_has_more _) as [[]|]; [returned H..|]; [by injection H as <-..|].
  split_tests_in H; by injection H as <-.
Qed.

(** ** The end of a stream *)

Lemma reads_phase domain l r : reads domain l r -> rd_phase r = "create" \/ rd_phase r = "update".
Proof. induction 1; [by left|]. unfold advance. repeat case_match; cbn; auto. Qed.
Lemma reads_page_number domain l r : reads domain l r -> 1 <= rd_page r.
Proof.
  induction 1 as [|l r p _ IH Ha]; [done|]. unfold advance. rewrite (asks_domain _ _ _ Ha).
  destruct (str_eqb domain "orders"); [by destruct (_ && _)|].
  destruct (str_eqb domain "clues") eqn:E; [|done]. apply str_eqb_true in E as ->. cbn [rd_page].
  apply asks_clues in Ha as (_ & -> & Hpos & _). destruct (page_completed p); cbn; lia.
Qed.

Lemma endpoint_for domain l r p : domain <> "clues" -> reads domain l r -> asks domain r p -> page_endpoint p = endpoint_of domain r.
Proof.
  intros Hc Hr Ha. destruct (asks_cursor _ _ _ Hc Ha) as (_ & -> & _). unfold endpoint_of.
  by rewrite order_phase_for by (by destruct (reads_phase _ _ _ Hr) as [->| ->]).
Qed.

Definition initial_position (domain : string) (r : reader) : string := endpoint_of domain r +:+ ":cursor:" +:+ "__initial__".

Lemma cursor_position domain l r p : domain <> "clues" -> reads domain l r -> asks domain r p ->
  page_position p = endpoint_of domain r +:+ ":cursor:" +:+
    (if no_cursor (page_requested_cursor p) then "__initial__" else default "" (page_requested_cursor p)).
Proof.
  intros Hc Hr Ha. unfold page_position. rewrite (asks_domain _ _ _ Ha), (endpoint_for _ _ _ _ Hc Hr Ha).
  unfold str_eqb. by rewrite bool_decide_false.
Qed.

(** A stream that is being read has its first page behind it, and one that ended has no cursor left. *)
Lemma reads_initial domain l r : domain <> "clues" -> reads domain l r ->
  (initial_position domain r ∈ rd_seen r \/ (rd_cursor r = None /\ rd_done r = false)) /\ (rd_done r = true -> rd_cursor r = None).
Proof.
  intros Hc. induction 1 as [|l r p Hr [IH _] Ha Hp Hl]; [by split; [right|]|].
  destruct (asks_cursor _ _ _ Hc Ha) as (Hcur & He & Hnext). pose proof (cursor_position _ _ _ _ Hc Hr Ha) as Hpos.
  assert (initial_position domain r ∈ rd_seen r ++ [page_position p]) as Hin.
  { destruct IH as [IH|[IH _]]; [set_solver|]. rewrite IH in Hcur. cbn in Hcur. rewrite Hcur in Hpos. cbn in Hpos.
    unfold initial_position. rewrite <-Hpos. set_solver. }
  unfold advance. rewrite (asks_domain _ _ _ Ha). destruct (str_eqb domain "orders") eqn:Eo.
  - destruct (page_completed p && str_eqb (rd_phase r) "create"); cbn; [by split; [right|]|]. split; [by left|done].
  - assert (str_eqb domain "clues" = false) as -> by by apply bool_decide_eq_false. cbn. split; [|done]. left.
    unfold initial_position, endpoint_of in *. by rewrite Eo in *.
Qed.

Lemma reads_last_clues l r : reads "clues" l r -> rd_done r = true -> "page:" +:+ str_of_Z (rd_page r) ∈ rd_seen r.
Proof.
  destruct 1 as [|l r p Hr Ha Hp Hl]; [done|]. pose proof (reads_page_number _ _ _ Hr) as H1.
  pose proof (asks_clues _ _ Ha) as (Hreq & Hnext & _). pose proof (asks_domain _ _ _ Ha) as Hd.
  assert (state_page (state_for r) = rd_page r) as E.
  { unfold state_page. rewrite (int_at_get "page" 1 _ (rd_page r)) by done. destruct (Z.eqb_spec (rd_page r) 0); cbn; lia. }
  rewrite E in *. rewrite seen_advance. unfold advance, page_position. rewrite Hd. cbn [rd_done rd_page].
  change (str_eqb "clues" "orders") with false. change (str_eqb "clues" "clues") with true. cbn [rd_done rd_page].
  intros Hc. rewrite Hc in Hnext. rewrite Hnext, Hreq. cbn. set_solver.
Qed.

(** Nothing is read after the end. *)
Lemma done_closed domain l r p : reads domain l r -> rd_done r = true -> asks domain r p -> page_position p ∈ rd_seen r.
Proof.
  intros Hr Hd Ha. destruct (decide (domain = "clues")) as [->|Hc].
  - pose proof (reads_last_clues _ _ Hr Hd) as H. pose proof (reads_page_number _ _ _ Hr) as H1.
    destruct (asks_clues _ _ Ha) as (Hreq & _). unfold page_position. rewrite (asks_domain _ _ _ Ha), Hreq.
    change (str_eqb "clues" "clues") with true. cbv iota. unfold state_page.
    rewrite (int_at_get "page" 1 _ (rd_page r)) by done. by destruct (Z.eqb_spec (rd_page r) 0); [lia|].
  - destruct (reads_initial _ _ _ Hc Hr) as [[H|[_ H]] Hn]; [|congruence].
    rewrite (cursor_position _ _ _ _ Hc Hr Ha). destruct (asks_cursor _ _ _ Hc Ha) as (-> & _). rewrite Hn by done. exact H.
Qed.

Lemma reads_prefix domain l k r : reads domain (l ++ k) r -> exists r', reads domain l r'.
Proof.
  revert r. induction k as [|p k IH] using rev_ind; intros r; [rewrite app_nil_r; eauto|]. rewrite app_assoc.
  inversion 1 as [E|l' r' p' Hr Ha Hp Hl E]; [by destruct (l ++ k)|]. apply app_inj_tail in E as [-> ->]. eauto.
Qed.

Lemma reads_last domain l p r : reads domain (l ++ [p]) r -> exists r', reads domain l r' /\ asks domain r' p /\ page_position p ∉ rd_seen r'.
Proof. inversion 1 as [E|l' r' p' Hr Ha Hp Hl E]; [by destruct l|]. apply app_inj_tail in E as [-> ->]. eauto. Qed.

Lemma reads_unique domain l r r' : reads domain l r -> reads domain l r' -> r = r'.
Proof. intros H1%reads_reader H2%reads_reader. congruence. Qed.

Lemma reads_extend domain l k r r' : reads domain l r -> rd_done r = true -> reads domain (l ++ k) r' -> k = [].
Proof.
  intros Hr Hd H. destruct k as [|p k]; [done|]. exfalso.
  change (p :: k) with ([p] ++ k) in H. rewrite app_assoc in H. apply reads_prefix in H as [r2 H].
  apply reads_last in H as (r3 & H3 & Ha & Hp). rewrite (reads_unique _ _ _ _ H3 Hr) in *. apply Hp. by eapply done_closed.
Qed.

(** A source that answers each request in one way has one stream. *)
Lemma reads_comparable domain l k r s : (forall q a b, answers q a -> answers q b -> a = b) ->
  reads domain l r -> reads domain k s -> l `prefix_of` k \/ k `prefix_of` l.
Proof.
  intros Hf Hl. revert k s. induction Hl as [|l r p Hl IH Ha Hp Hn]; intros k s Hk; [left; apply prefix_nil|].
  destruct (IH k s Hk) as [[m ->]|H]; [|right; by apply prefix_app_r]. destruct m as [|q m]; [right; rewrite app_nil_r; by apply prefix_app_r|].
  left. assert (p = q) as ->; [|exists m; by rewrite <-app_assoc].
  change (q :: m) with ([q] ++ m) in Hk. rewrite app_assoc in Hk. apply reads_prefix in Hk as [s' Hk].
  apply reads_last in Hk as (r' & Hr' & Hq & _). rewrite (reads_unique _ _ _ _ Hr' Hl) in Hq.
  destruct Ha as (a & A1 & A2), Hq as (b & B1 & B2). rewrite (Hf _ _ _ A1 B1) in A2. congruence.
Qed.

Lemma streams_agree domain l k r s : (forall q a b, answers q a -> answers q b -> a = b) ->
  reads domain l r -> reads domain k s -> rd_done r = true -> rd_done s = true -> l = k.
Proof.
  intros Hf Hl Hk Dl Dk. destruct (reads_comparable _ _ _ _ _ Hf Hl Hk) as [[m ->]|[m ->]].
  - rewrite (reads_extend _ _ _ _ _ Hl Dl Hk). by rewrite app_nil_r.
  - rewrite (reads_extend _ _ _ _ _ Hk Dk Hl). by rewrite app_nil_r.
Qed.

(** The rows of a stream of clues, against the declared total. *)
Lemma reads_rows l r : reads "clues" l r -> rd_rows r = read_rows l /\ (rd_done r = true -> forall t, rd_total r = Some t -> read_rows l = t).
Proof.
  induction 1 as [|l r p Hr [IH _] Ha Hp Hl]; [done|]. pose proof (asks_clues _ _ Ha) as (_ & _ & _ & Hle & Hdone).
  pose proof (asks_domain _ _ _ Ha) as Hd. unfold advance. rewrite Hd. change (str_eqb "clues" "orders") with false.
  change (str_eqb "clues" "clues") with true. cbn [rd_rows rd_done rd_total]. rewrite read_rows_app. cbn [read_rows foldr].
  rewrite IH in *. split; [lia|]. intros Hc t Ht. specialize (Hdone Hc t Ht). lia.
Qed.
End Streams.

(** ** Committed pages *)

Section Commits.
Context {B E : Type} (repr_of json_compact : pyval -> string) (isoformat : stamp -> string).
Context (collect : Page -> CollectionWindow -> string -> Z -> B -> E -> outcome (B * PhaseStats) * E) (clock : E -> instant).
Context (page_fence : option (pagedb B -> E -> outcome bool * E)).
Context (answers : page_request -> pyval -> Prop) (sizes : string -> Z).
Context (job : JobRun) (window : CollectionWindow).
#[local] Notation commit := (commit_page repr_of json_compact isoformat collect clock page_fence job).
#[local] Notation request d s := (request_of_state repr_of json_compact d s (sizes d)).
#[local] Notation read d s v := (read_page repr_of json_compact d s (sizes d) v).
#[local] Notation reads := (reads repr_of json_compact answers sizes).
#[local] Notation target := (job_target repr_of job).
#[local] Notation stored db := (checkpoint_json (B := B) db (job_id job)).

(** Pages of the job committed one after another, each by some worker that read it for the state it saw. *)
Inductive commits (db0 : pagedb B) : list Page -> pagedb B -> Prop :=
| commits_none : commits db0 [] db0
| commits_page log db expected state domain payload page source e cp db' e' :
    commits db0 log db ->
    dict_get "target" expected = PStr target ->
    answers (request domain state) payload -> read domain state payload = Return page ->
    commit expected state page window source (sizes domain) db e = (Return cp, db', e') ->
    commits db0 (log ++ [page]) db'.

(** The rows of the pages, written by the collectors in this order. *)
Inductive replayed : B -> list Page -> B -> Prop :=
| replayed_none b : replayed b [] b
| replayed_page b log b1 page source size e b2 stats e' :
    replayed b log b1 -> collect page window source size b1 e = (Return (b2, stats), e') -> replayed b (log ++ [page]) b2.

Lemma commits_app db0 log1 db1 log2 db2 : commits db0 log1 db1 -> commits db1 log2 db2 -> commits db0 (log1 ++ log2) db2.
Proof. intros H1 H2. induction H2; [by rewrite app_nil_r|]. rewrite app_assoc. by econstructor. Qed.

(** What a commit that returned did. *)
Inductive committed (expected_state : pydict) (page : Page) (db : pagedb B) (cp : pydict) (db' : pagedb B) : Prop :=
| Committed current cs stats next :
    load_checkpoint repr_of json_compact isoformat db (job_id job) target window = Return current ->
    dict_lookup (page_domain page) (domains_of current) = Some (PDict cs) ->
    same_fields cs expected_state ->
    next_state page cs stats = Return next ->
    dict_lookup "domains" cp = Some (PDict (dict_set (page_domain page) (PDict next) (domains_of current))) ->
    (forall k, k <> "domains" -> k <> "pages_committed" -> k <> "completed" -> dict_lookup k cp = dict_lookup k current) ->
    stored db' = cp ->
    (exists source size e e', collect page window source size (business db) e = (Return (business db', stats), e')) ->
    committed expected_state page db cp db'.

Lemma stored_put (db : pagedb B) b cp created now : stored (MkPageDb (put_checkpoint db (job_id job) cp created now) b) = cp.
Proof.
  unfold checkpoint_json, collect_stage, put_checkpoint. cbn [stages]. destruct (collect_stage db (job_id job)) as [s|] eqn:Es; unfold collect_stage in Es.
  - induction (stages db) as [|x l IH]; [done|]. cbn in *. destruct (is_collect_stage (job_id job) x) eqn:Ex.
    + unfold is_collect_stage in *. cbn. by rewrite Ex.
    + rewrite Ex. by apply IH.
  - rewrite find_app, Es. cbn. unfold is_collect_stage. cbn. by rewrite !str_eqb_refl.
Qed.

Lemma commit_committed expected state page source size db e cp db' e' :
  dict_get "target" expected = PStr target -> commit expected state page window source size db e = (Return cp, db', e') ->
  committed state page db cp db'.
Proof.
  intros Ht H. unfold commit_page in H.
  assert (py_str repr_of (py_or (dict_get "target" expected) (PStr target)) = target) as Et.
  { rewrite Ht. unfold py_or. by destruct (truthy _). }
  rewrite Et in H. destruct (page_state _ _ _ _ target window state page db) as [[cur cs]|x] eqn:Es; [|discriminate].
  destruct (fenced _ _ db e) as [[u|x] e1]; [|discriminate].
  destruct (collect page window source size (business db) e1) as [[[rows stats]|x] e2] eqn:Ec; [|discriminate].
  destruct (next_checkpoint cur cs page stats) as [cp'|x] eqn:En; [|discriminate].
  destruct (fenced _ _ _ e2) as [[u'|x] e3]; [|discriminate]. injection H as <- <- <-.
  unfold page_state in Es. apply outcome_bind_Return in Es as (cur' & Hload & Es).
  unfold dict_get, dict_get_default in Es. destruct (dict_lookup (page_domain page) (domains_of cur')) as [v|] eqn:Ev; [|discriminate].
  destruct v as [| | | | | | |cs']; try discriminate. returned Es. injection Es as <- <-. apply negb_false_iff in G.
  unfold next_checkpoint in En. apply outcome_bind_Return in En as (s & Hs & En). apply outcome_bind_Return in En as (n & Hn & En).
  injection En as <-. econstructor; [exact Hload | exact Ev | by apply same_json_fields | exact Hs | by dict_steps | | apply stored_put |].
  - intros k H1 H2 H3. by rewrite !dict_set_other.
  - cbn [business]. eauto 8.
Qed.

Section History.
Context (names : list string) (Hnames : target_domains target = Some names).

(** The pages of a domain. *)
#[local] Notation of_domain d log := (List.filter (in_domain d) log).

Record history_ok (log : list Page) (db : pagedb B) : Prop := MkHistory {
  hi_domains : forall p, p ∈ log -> page_domain p ∈ names;
  hi_reads : forall d, d ∈ names -> reads d (of_domain d log) (reader_of (of_domain d log));
  hi_stored : (log = [] /\ fresh (stored db) = true) \/ holds target names (stored db) (fun d => reader_of (of_domain d log))
}.

Lemma history_start db : fresh (stored db) = true -> history_ok [] db.
Proof. intros H. split; [by intros ? ?%elem_of_nil | intros; constructor | by left]. Qed.

Lemma history_load log db cur : history_ok log db ->
  load_checkpoint repr_of json_compact isoformat db (job_id job) target window = Return cur ->
  holds target names cur (fun d => reader_of (of_domain d log)).
Proof using Hnames.
  intros [_ _ [[El Hf]|Hh]] H; [subst log; by eapply normalize_fresh | by eapply normalize_holds].
Qed.

Lemma history_commit log db state domain payload page cp db' :
  history_ok log db -> answers (request domain state) payload -> read domain state payload = Return page ->
  committed state page db cp db' -> history_ok (log ++ [page]) db' /\ holds target names cp (fun d => reader_of (of_domain d (log ++ [page]))).
Proof using Hnames.
  intros Hi Ha Hr [cur cs stats next Hload Hfound Hsame Hnext Hdoms Hothers Hst _].
  pose proof (read_page_domain _ _ _ _ _ _ _ Hr) as Hd. rewrite Hd in *.
  pose proof (normalize_keys _ _ _ _ _ _ _ _ _ _ Hnames Hload Hfound) as Hin.
  destruct (history_load _ _ _ Hi Hload) as [Hp Ht (ds & Hds & Hs)].
  assert (domains_of cur = ds) as Eds by (unfold domains_of; by rewrite (lookup_get _ _ _ Hds)). rewrite Eds in *.
  destruct (Hs domain Hin) as (s & Hl & He). rewrite Hl in Hfound. injection Hfound as ->.
  set (r := reader_of (of_domain domain log)) in *.
  pose proof (same_reader repr_of json_compact _ _ _ _ He Hsame) as Hpos.
  assert (asks repr_of json_compact answers sizes domain r page) as Hask.
  { exists payload. by rewrite <-(request_same _ _ _ _ _ _ Hpos), <-(read_page_same _ _ _ _ _ _ _ Hpos). }
  destruct (next_state_encodes domain cs r page stats next He Hd) as (He' & Hseen & Hlen); [|done|].
  { intros -> n Hn. apply asks_clues in Hask as (_ & Hnp & Hpp & _). rewrite Hn in Hnp. destruct (page_completed page); simplify_eq. lia. }
  assert (Other : forall d, d <> domain -> of_domain d (log ++ [page]) = of_domain d log).
  { intros d Hne. rewrite lfilter_app. cbn. unfold in_domain at 2, str_eqb. rewrite Hd, bool_decide_false by congruence. apply app_nil_r. }
  assert (Same : of_domain domain (log ++ [page]) = of_domain domain log ++ [page]).
  { rewrite lfilter_app. cbn. unfold in_domain at 2. by rewrite Hd, str_eqb_refl. }
  assert (Step : reader_of (of_domain domain (log ++ [page])) = advance r page) by (rewrite Same; unfold reader_of; by rewrite foldl_app).
  assert (H : holds target names cp (fun d => reader_of (of_domain d (log ++ [page])))).
  { split; [rewrite Hothers by done; done.. |]. eexists. split; [exact Hdoms|]. intros d Hdn. rewrite dict_set_lookup.
    destruct (decide (d = domain)) as [->|Hne]; [|rewrite Other by done; by apply Hs]. exists next. by rewrite Step. }
  split; [|done]. split; [| |right; by rewrite Hst].
  - intros p [Hp'| ->%list_elem_of_singleton]%elem_of_app; [by eapply hi_domains | by rewrite Hd].
  - intros d Hdn. destruct (decide (d = domain)) as [->|Hne]; [|rewrite Other by done; by apply (hi_reads _ _ Hi)].
    rewrite Step, Same. constructor; [by apply (hi_reads _ _ Hi)|done..].
Qed.

Lemma history_commits log0 db0 log db : history_ok log0 db0 -> commits db0 log db -> history_ok (log0 ++ log) db.
Proof using Hnames.
  intros Hi. induction 1 as [|log db expected state domain payload page source e cp db' e' Hc IH Ht Ha Hr Hcm]; [by rewrite app_nil_r|].
  rewrite app_assoc. eapply history_commit; [exact IH | exact Ha | exact Hr | by eapply commit_committed].
Qed.

Lemma commits_replayed db0 log db : commits db0 log db -> replayed (business db0) log (business db).
Proof.
  induction 1 as [|log db expected state domain payload page source e cp db' e' Hc IH Ht Ha Hr Hcm]; [constructor|].
  destruct (commit_committed _ _ _ _ _ _ _ _ _ _ Ht Hcm) as [cur cs stats next _ _ _ _ _ _ _ (s & z & e1 & e2 & Hcol)].
  by econstructor.
Qed.
End History.
End Commits.

(** ** Runs *)

Section Runs.
Context {B E : Type} (repr_of json_compact : pyval -> string) (isoformat : stamp -> string).
Context (collect : Page -> CollectionWindow -> string -> Z -> B -> E -> outcome (B * PhaseStats) * E) (clock : E -> instant).
Context (page_fence : option (pagedb B -> E -> outcome bool * E)).
Context (query : CollectionWindow -> page_request -> pagedb B -> E -> outcome pyval * pagedb B * E).
Context (job : JobRun) (window : CollectionWindow).
#[local] Notation target := (job_target repr_of job).
#[local] Notation of_domain d log := (List.filter (in_domain d) log).

(** ** Termination *)

Section Turns.
Context (source : string) (max_pages : option Z).
#[local] Notation turn := (page_turn repr_of json_compact isoformat collect clock page_fence query job window source max_pages).
#[local] Notation loop := (domain_loop repr_of json_compact isoformat collect clock page_fence query job window source max_pages).

Definition seen_count (s : pydict) : Z :=
  match dict_get_default "seen_positions" (PList []) s with PList l => Z.of_nat (length l) | _ => 0 end.

Lemma next_state_seen page s stats s' : next_state page s stats = Return s' -> seen_count s' = seen_count s + 1.
Proof.
  unfold next_state, seen_count. intros H. apply outcome_bind_Return in H as (s0 & _ & H). apply outcome_bind_Return in H as (s1 & _ & H).
  apply outcome_bind_Return in H as (s2 & _ & H). destruct (dict_get_default "seen_positions" (PList []) s) as [| | | | | |l|]; try discriminate.
  returned H. injection H as <-. unfold dict_get_default. rewrite dict_set_same, length_app. cbn. lia.
Qed.

(** A commit adds a position to those the worker saw. *)
Lemma commit_seen expected state page size db e cp db' e' :
  commit_page repr_of json_compact isoformat collect clock page_fence job expected state page window source size db e = (Return cp, db', e') ->
  seen_count (domain_state cp (page_domain page)) = seen_count state + 1.
Proof.
  intros H. unfold commit_page in H.
  destruct (page_state _ _ _ _ _ window state page db) as [[cur cs]|x] eqn:Es; [|discriminate].
  destruct (fenced _ _ db e) as [[u|x] e1]; [|discriminate].
  destruct (collect page window source size (business db) e1) as [[[rows stats]|x] e2] eqn:Ec; [|discriminate].
  destruct (next_checkpoint cur cs page stats) as [cp'|x] eqn:En; [|discriminate].
  destruct (fenced _ _ _ e2) as [[u'|x] e3]; [|discriminate]. injection H as <- <- <-.
  unfold page_state in Es. apply outcome_bind_Return in Es as (cur' & _ & Es).
  destruct (dict_get (page_domain page) (domains_of cur')) as [| | | | | | |cs'] eqn:Ev; try discriminate. returned Es. injection Es as <- <-.
  apply negb_false_iff, same_json_fields, sf_seen, sorted_length in G.
  unfold next_checkpoint in En. apply outcome_bind_Return in En as (s & Hs & En). apply outcome_bind_Return in En as (n & Hn & En).
  injection En as <-. unfold domain_state, domains_of, dict_get, dict_get_default. dict_steps. cbn [as_dict]. rewrite dict_set_same. cbn [as_dict].
  rewrite (next_state_seen _ _ _ _ Hs). f_equal. unfold seen_count.
  destruct (dict_get_default "seen_positions" (PList []) cs'), (dict_get_default "seen_positions" (PList []) state); try done. lia.
Qed.

Lemma turn_seen domain size pr u pr' : turn domain size pr = (Return u, pr') ->
  seen_count (domain_state (pr_checkpoint pr) domain) < MAX_PAGED_REQUESTS
  /\ seen_count (domain_state (pr_checkpoint pr') domain) = seen_count (domain_state (pr_checkpoint pr) domain) + 1.
Proof.
  unfold page_turn. destruct (match max_pages with Some m => _ | None => _ end); [discriminate|].
  destruct (guard_position repr_of (domain_state (pr_checkpoint pr) domain) domain) as [v|x] eqn:Eg; [|discriminate].
  destruct (fenced _ _ (pr_db pr) (pr_env pr)) as [[w|x] e1]; [|discriminate]. unfold fetch_page.
  destruct (query _ _ (pr_db pr) e1) as [[[payload|x] db2] e2]; [|discriminate].
  destruct (read_page _ _ domain _ size payload) as [page|x] eqn:Er; [|discriminate].
  destruct (commit_page _ _ _ _ _ _ _ _ _ page _ _ _ db2 e2) as [[[cp|x] db3] e3] eqn:Ec; [|discriminate].
  intros [= <- <-]. cbn [pr_checkpoint]. split.
  - unfold guard_position in Eg. unfold seen_count. destruct (dict_get_default "seen_positions" _ _); try discriminate. returned Eg. by apply Z.leb_gt.
  - apply commit_seen in Ec. by rewrite (read_page_domain _ _ _ _ _ _ _ Er) in Ec.
Qed.

Lemma loop_ends turns domain size pr :
  MAX_PAGED_REQUESTS < seen_count (domain_state (pr_checkpoint pr) domain) + Z.of_nat (S turns) -> loop (S turns) domain size pr <> None.
Proof.
  revert pr. induction turns as [|n IH]; intros pr Hn; cbn [domain_loop]; (destruct (state_completed _) eqn:Ed; [done|]).
  all: destruct (turn domain size pr) as [[u|x] pr'] eqn:Et; [|done]; apply turn_seen in Et as [H1 H2].
  - lia.
  - apply IH. lia.
Qed.

Lemma seen_count_nonneg s : 0 <= seen_count s.
Proof. unfold seen_count. destruct (dict_get_default _ _ _); lia. Qed.

Lemma domain_ends domain size pr : loop page_turns domain size pr <> None.
Proof.
  unfold page_turns. apply loop_ends. pose proof (seen_count_nonneg (domain_state (pr_checkpoint pr) domain)). unfold MAX_PAGED_REQUESTS. lia.
Qed.

Lemma domains_end domains sizes error paused pr :
  domains_loop repr_of json_compact isoformat collect clock page_fence query job window source max_pages domains sizes error paused pr <> None.
Proof.
  revert error paused pr. induction domains as [|d l IH]; intros error paused pr; cbn [domains_loop]; [done|].
  pose proof (domain_ends d (size_of sizes d) pr) as H. destruct (loop page_turns d (size_of sizes d) pr) as [[[u|x] pr']|]; [apply IH| |done].
  destruct (exc_is x); try apply IH; try done. by destruct (pause_halts_all_domains x).
Qed.
End Turns.

(** ** Progress *)

Section Progress.
Context (answers : page_request -> pyval -> Prop) (sizes : list (string * Z)) (names : list string).
#[local] Notation commits := (commits repr_of json_compact isoformat collect clock page_fence answers (size_of sizes) job window).
#[local] Notation history_ok := (history_ok repr_of json_compact answers (size_of sizes) job names).
#[local] Notation reads := (reads repr_of json_compact answers (size_of sizes)).
Context (Hnames : target_domains target = Some names).
(** While a request is in flight other workers may commit pages of the job. *)
Context (Hquery : forall q db e r db' e', query window q db e = (r, db', e') ->
  (exists log, commits db log db') /\ (forall payload, r = Return payload -> answers q payload)).

(** The worker's checkpoint is at or behind the position of each stream. *)
Record progress_ok (log : list Page) (pr : progress B E) : Prop := MkProgressOk {
  po_history : history_ok log (pr_db pr);
  po_target : dict_get "target" (pr_checkpoint pr) = PStr target;
  po_states : forall d, d ∈ names -> exists l, l `prefix_of` of_domain d log /\ encodes d (domain_state (pr_checkpoint pr) d) (reader_of l)
}.

Lemma holds_states_of cp f : holds target names cp f -> dict_get "target" cp = PStr target /\ forall d, d ∈ names -> encodes d (domain_state cp d) (f d).
Proof.
  intros [_ Ht (ds & Hds & H)]. split; [by apply lookup_get|]. intros d Hd. destruct (H d Hd) as (s & Hs & He).
  unfold domain_state, domains_of. rewrite (lookup_get _ _ _ Hds). cbn [as_dict]. by rewrite (lookup_get _ _ _ Hs).
Qed.

Lemma progress_held log cp committed db e :
  history_ok log db -> holds target names cp (fun d => reader_of (of_domain d log)) -> progress_ok log (MkProgress cp committed db e).
Proof.
  intros Hh [Ht Hs]%holds_states_of. split; [done..|]. intros d Hd. exists (of_domain d log). split; [done|by apply Hs].
Qed.

Lemma progress_moves log log' pr db e : progress_ok log pr -> commits (pr_db pr) log' db ->
  progress_ok (log ++ log') (MkProgress (pr_checkpoint pr) (pr_committed pr) db e).
Proof using Hnames.
  intros [Hh Ht Hs] Hc. split; [by eapply history_commits|done|]. intros d Hd. destruct (Hs d Hd) as (l & Hl & He). exists l.
  split; [|done]. rewrite lfilter_app. by apply prefix_app_r.
Qed.

Lemma turn_progress source max_pages log domain pr r pr' :
  progress_ok log pr ->
  page_turn repr_of json_compact isoformat collect clock page_fence query job window source max_pages domain (size_of sizes domain) pr = (r, pr') ->
  exists log', commits (pr_db pr) log' (pr_db pr') /\ progress_ok (log ++ log') pr'.
Proof using Hnames Hquery.
  intros Hp. pose proof (po_target _ _ Hp) as Ht.
  assert (Stay : forall db' e', pr_db pr = db' -> exists log', commits (pr_db pr) log' db' /\
    progress_ok (log ++ log') (MkProgress (pr_checkpoint pr) (pr_committed pr) db' e')).
  { intros db' e' <-. exists []. split; [constructor|]. eapply progress_moves; [done|constructor]. }
  unfold page_turn. destruct (match max_pages with Some m => _ | None => _ end).
  { intros [= <- <-]. exists []. split; [constructor|]. by rewrite app_nil_r. }
  destruct (guard_position _ _ domain); [|intros [= <- <-]; exists []; split; [constructor|by rewrite app_nil_r]].
  destruct (fenced _ _ (pr_db pr) (pr_env pr)) as [[w|x] e1]; [|intros [= <- <-]; by apply Stay]. unfold fetch_page.
  destruct (query _ _ (pr_db pr) e1) as [[q db2] e2] eqn:Eq. apply Hquery in Eq as [[log2 Hc2] Hans].
  assert (Move : forall x, exists log', commits (pr_db pr) log' db2 /\
    progress_ok (log ++ log') (MkProgress (pr_checkpoint pr) (pr_committed pr) db2 x)).
  { intros x. exists log2. split; [done|]. by eapply progress_moves. }
  destruct q as [payload|x]; [|intros [= <- <-]; apply Move].
  destruct (read_page _ _ domain _ _ payload) as [page|x] eqn:Er; [|intros [= <- <-]; apply Move].
  destruct (commit_page _ _ _ _ _ _ _ _ _ page _ _ _ db2 e2) as [[[cp|x] db3] e3] eqn:Ec.
  - intros [= <- <-]. exists (log2 ++ [page]). cbn [pr_db pr_checkpoint].
    assert (history_ok (log ++ log2) db2) as H2 by (eapply history_commits; [done|apply Hp|done]).
    split; [eapply commits_page; [done|exact Ht|by apply Hans|exact Er|exact Ec]|].
    eapply commit_committed in Ec; [|exact Ht]. rewrite app_assoc.
    destruct (history_commit _ _ _ _ _ _ _ _ _ Hnames _ _ _ _ _ _ _ _ H2 (Hans _ eq_refl) Er Ec) as [H3 H4]. by apply progress_held.
  - assert (db3 = db2) as ->; [|intros [= <- <-]; apply Move].
    revert Ec. unfold commit_page. repeat case_match; congruence.
Qed.

Lemma loop_progress source max_pages turns log domain pr r pr' :
  progress_ok log pr ->
  domain_loop repr_of json_compact isoformat collect clock page_fence query job window source max_pages turns domain (size_of sizes domain) pr
    = Some (r, pr') ->
  exists log', commits (pr_db pr) log' (pr_db pr') /\ progress_ok (log ++ log') pr'
    /\ (forall u, r = Return u -> state_completed (domain_state (pr_checkpoint pr') domain) = true).
Proof using Hnames Hquery.
  assert (Here : forall log pr, progress_ok log pr -> state_completed (domain_state (pr_checkpoint pr) domain) = true ->
    Some (Return tt, pr) = Some (r, pr') -> exists log', commits (pr_db pr) log' (pr_db pr') /\ progress_ok (log ++ log') pr'
    /\ (forall u, r = Return u -> state_completed (domain_state (pr_checkpoint pr') domain) = true)).
  { intros l p Hp Hd [= <- <-]. exists []. rewrite app_nil_r. split; [constructor|]. by split. }
  revert log pr. induction turns as [|n IH]; intros log pr Hp; cbn [domain_loop];
    (destruct (state_completed (domain_state (pr_checkpoint pr) domain)) eqn:Ed; [by apply Here|]); [done|].
  destruct (page_turn _ _ _ _ _ _ _ _ _ _ _ domain _ pr) as [r1 pr1] eqn:Et. destruct (turn_progress _ _ _ _ _ _ _ Hp Et) as (l1 & C1 & P1).
  destruct r1 as [u|x]; [|intros [= <- <-]; by exists l1].
  intros H. destruct (IH _ _ P1 H) as (l2 & C2 & P2 & H2). exists (l1 ++ l2). rewrite app_assoc. split; [by eapply commits_app|done].
Qed.

(** ** Finished streams *)

Definition finished (log : list Page) (d : string) : Prop := rd_done (reader_of (of_domain d log)) = true.

Lemma progress_finished log pr d : d ∈ names -> progress_ok log pr -> state_completed (domain_state (pr_checkpoint pr) d) = true -> finished log d.
Proof.
  intros Hd [Hh _ Hs] Hc. destruct (Hs d Hd) as (l & [k Hk] & He).
  unfold state_completed in Hc. rewrite (lookup_get _ _ _ (en_done _ _ _ He)) in Hc. cbn in Hc.
  pose proof (hi_reads _ _ _ _ _ _ _ _ Hh d Hd) as Hr. unfold finished. rewrite Hk in *.
  destruct (reads_prefix _ _ _ _ _ _ _ _ Hr) as [r Hl]. pose proof (reads_reader _ _ _ _ _ _ _ Hl) as ->.
  rewrite (reads_extend _ _ _ _ _ _ _ _ _ Hl Hc Hr). by rewrite app_nil_r.
Qed.

Lemma finished_stays log log' (db : pagedb B) d : d ∈ names -> history_ok (log ++ log') db -> finished log d -> finished (log ++ log') d.
Proof.
  intros Hd Hh Hf. pose proof (hi_reads _ _ _ _ _ _ _ _ Hh d Hd) as Hr. unfold finished. rewrite lfilter_app in *.
  destruct (reads_prefix _ _ _ _ _ _ _ _ Hr) as [r Hl]. pose proof (reads_reader _ _ _ _ _ _ _ Hl) as ->.
  rewrite (reads_extend _ _ _ _ _ _ _ _ _ Hl Hf Hr). by rewrite app_nil_r.
Qed.

Lemma domains_progress source max_pages domains error paused log pr r pr' :
  domains ⊆ names -> progress_ok log pr ->
  domains_loop repr_of json_compact isoformat collect clock page_fence query job window source max_pages domains sizes error paused pr
    = Some (r, pr') ->
  exists log', commits (pr_db pr) log' (pr_db pr') /\ progress_ok (log ++ log') pr'
    /\ (forall u, r = Return u -> error = None /\ paused = None /\ forall d, d ∈ domains -> finished (log ++ log') d).
Proof using Hnames Hquery.
  revert error paused log pr. induction domains as [|d l IH]; intros error paused log pr Hsub Hp; cbn [domains_loop].
  { intros [= <- <-]. exists []. rewrite app_nil_r. split; [constructor|]. split; [done|]. intros u Hu.
    destruct error, paused; try discriminate. repeat split; try done. by intros ? ?%elem_of_nil. }
  assert (l ⊆ names) as Hl by (intros x Hx; apply Hsub; by right). assert (d ∈ names) as Hd by (apply Hsub; by left).
  generalize page_turns. intros turns.
  destruct (domain_loop _ _ _ _ _ _ _ _ _ _ _ turns d _ pr) as [[r1 pr1]|] eqn:El; [|done].
  destruct (loop_progress _ _ _ _ _ _ _ _ Hp El) as (l1 & C1 & P1 & F1).
  assert (Next : forall error' paused', domains_loop repr_of json_compact isoformat collect clock page_fence query job window source max_pages l
      sizes error' paused' pr1 = Some (r, pr') -> exists log', commits (pr_db pr) log' (pr_db pr') /\ progress_ok (log ++ log') pr'
    /\ (forall u, r = Return u -> error' = None /\ paused' = None /\ (forall d, d ∈ l -> finished (log ++ log') d)
         /\ forall d, d ∈ names -> finished (log ++ l1) d -> finished (log ++ log') d)).
  { intros error' paused' H. destruct (IH _ _ _ _ Hl P1 H) as (l2 & C2 & P2 & F2). exists (l1 ++ l2). rewrite app_assoc.
    split; [by eapply commits_app|]. split; [done|]. intros u Hu. destruct (F2 u Hu) as (E1 & E2 & F). repeat split; try done.
    intros d' Hd' Hf. by eapply finished_stays; [|apply P2|]. }
  destruct r1 as [u|x].
  - intros H. destruct (Next _ _ H) as (l2 & C2 & P2 & F2). exists l2. split; [done|]. split; [done|]. intros v Hv.
    destruct (F2 v Hv) as (E1 & E2 & F3 & F4). repeat split; try done. intros d' [->|Hd']%elem_of_cons; [|by apply F3].
    apply F4; [done|]. eapply progress_finished; [done|done|by eapply F1].
  - assert (Stop : Some (Throw x, pr1) = Some (r, pr') -> exists log', commits (pr_db pr) log' (pr_db pr') /\ progress_ok (log ++ log') pr'
      /\ (forall u, r = Return u -> error = None /\ paused = None /\ forall d', d' ∈ d :: l -> finished (log ++ log') d')).
    { intros [= <- <-]. by exists l1. }
    assert (Defer : forall error' paused', error' <> None \/ paused' <> None ->
      domains_loop repr_of json_compact isoformat collect clock page_fence query job window source max_pages l sizes error' paused' pr1
        = Some (r, pr') -> exists log', commits (pr_db pr) log' (pr_db pr') /\ progress_ok (log ++ log') pr'
      /\ (forall u, r = Return u -> error = None /\ paused = None /\ forall d', d' ∈ d :: l -> finished (log ++ log') d')).
    { intros error' paused' Hn H. destruct (Next _ _ H) as (l2 & C2 & P2 & F2). exists l2. split; [done|]. split; [done|].
      intros v Hv. destruct (F2 v Hv) as (E1 & E2 & _). destruct Hn; congruence. }
    destruct (exc_is x); try exact Stop; try (apply Defer; left; by destruct error).
    destruct (pause_halts_all_domains x); [exact Stop|]. apply Defer. right. by destruct paused.
Qed.
End Progress.
End Runs.

Lemma fresh_not_completed cp d : fresh cp = true -> state_completed (domain_state cp d) = false.
Proof.
  unfold fresh, domain_state, domains_of. intros [[_ H]%andb_true_iff _]%andb_true_iff. apply negb_true_iff in H.
  by destruct (dict_get "domains" cp) as [| | | | | | |[]].
Qed.

(** ** Theorems *)

Section Theorems.
Context {B E : Type} (repr_of json_compact : pyval -> string) (isoformat : stamp -> string).
Context (collect : Page -> CollectionWindow -> string -> Z -> B -> E -> outcome (B * PhaseStats) * E) (clock : E -> instant).
Context (page_fence : option (pagedb B -> E -> outcome bool * E)).
Context (query : CollectionWindow -> page_request -> pagedb B -> E -> outcome pyval * pagedb B * E).
Context (job : JobRun) (window : CollectionWindow) (answers : page_request -> pyval -> Prop).
#[local] Notation target := (job_target repr_of job).
#[local] Notation of_domain d log := (List.filter (in_domain d) log).
#[local] Notation commits sizes := (commits repr_of json_compact isoformat collect clock page_fence answers sizes job window).
#[local] Notation reads sizes := (reads repr_of json_compact answers sizes).
#[local] Notation stored db := (checkpoint_json (B := B) db (job_id job)).
#[local] Notation run := (collect_priority_pages repr_of json_compact isoformat collect clock page_fence query).

(** C36: Every page is read and written once.  However many runs and workers commit
    pages of a job, in any interleaving and with interruptions anywhere, the pages of
    each stream are those that one reader gets by asking for one page after the
    other from the start, no position twice and at most 100000 of them; the stored
    checkpoint is the position of that reader, and the tables are what the collectors
    make of the pages in this order. *)
Theorem pages_read_once sizes names db0 log db :
  target_domains target = Some names -> fresh (stored db0) = true -> commits sizes db0 log db ->
  (forall p, p ∈ log -> page_domain p ∈ names)
  /\ (forall d, d ∈ names ->
        reads sizes d (of_domain d log) (reader_of (of_domain d log))
        /\ NoDup (page_position <$> of_domain d log)
        /\ Z.of_nat (length (of_domain d log)) <= MAX_PAGED_REQUESTS
        /\ (log <> [] -> encodes d (domain_state (stored db) d) (reader_of (of_domain d log))))
  /\ replayed collect window (business db0) log (business db).
Proof.
  intros Hn Hf Hc. pose proof (history_commits _ _ _ _ _ _ _ _ _ _ _ Hn [] _ _ _ (history_start _ _ _ _ _ _ _ Hf) Hc) as Hh.
  cbn [app] in Hh. split; [apply Hh|]. split; [|by eapply commits_replayed]. intros d Hd. pose proof (hi_reads _ _ _ _ _ _ _ _ Hh d Hd) as Hr.
  destruct (reads_seen _ _ _ _ _ _ _ Hr) as (Hs & Hnd & Hl). rewrite <-Hs. repeat (split; [done|]). intros Hne.
  destruct (hi_stored _ _ _ _ _ _ _ _ Hh) as [[-> _]|Hst]; [done|]. by apply holds_states_of in Hst as [_ Hst]; apply Hst.
Qed.

(** C37: A run that returns has read every stream to its end.  Whatever was committed
    before it and whatever others commit while its requests are in flight, a run only
    commits pages, and when it returns a checkpoint instead of raising, every domain
    of the job's target is finished: its last page was the terminal one, and the rows
    of the clues are as many as the source declared. *)
Theorem collection_complete fromisoformat source overrides max_pages sizes names db0 log0 db e res db' e' :
  target_domains target = Some names -> job_window repr_of fromisoformat job = Return window -> page_sizes overrides = Return sizes ->
  (forall q d1 e1 r d2 e2, query window q d1 e1 = (r, d2, e2) ->
     (exists log, commits (size_of sizes) d1 log d2) /\ (forall payload, r = Return payload -> answers q payload)) ->
  fresh (stored db0) = true -> commits (size_of sizes) db0 log0 db ->
  run fromisoformat job source overrides max_pages db e = Some (res, db', e') ->
  exists log, commits (size_of sizes) db0 (log0 ++ log) db'
    /\ forall cp, res = Return cp -> forall d, d ∈ names ->
         let pages := of_domain d (log0 ++ log) in
         reads (size_of sizes) d pages (reader_of pages) /\ rd_done (reader_of pages) = true
         /\ (d = "clues" -> forall t, rd_total (reader_of pages) = Some t -> read_rows pages = t).
Proof.
  intros Hn Hw Hs Hq Hf Hc. unfold collect_priority_pages. rewrite Hn. cbn [outcome_bind]. rewrite Hw, Hs. cbn [outcome_bind].
  pose proof (history_commits _ _ _ _ _ _ _ _ _ _ _ Hn [] _ _ _ (history_start _ _ _ _ _ _ _ Hf) Hc) as Hh. cbn [app] in Hh.
  destruct (load_checkpoint _ _ _ db (job_id job) target window) as [cur|x] eqn:El; cbn [outcome_bind].
  2: { intros [= <- <- <-]. exists []. rewrite app_nil_r. by split. }
  pose proof (history_load _ _ _ _ _ _ _ _ Hn _ _ _ Hh El) as Hcur.
  destruct (domains_loop _ _ _ _ _ _ _ _ _ _ _ names sizes None None (MkProgress cur 0 db e)) as [[r pr]|] eqn:Ed; [|discriminate].
  eapply domains_progress in Ed as (log & C1 & P1 & F1); [|done|exact Hq|done|by apply progress_held].
  intros H. assert (pr_db pr = db') as <- by (destruct r; congruence).
  exists log. split; [by eapply commits_app|]. intros cp Hres d Hd. destruct r as [u|x]; [|congruence].
  destruct (F1 u eq_refl) as (_ & _ & Hfin). destruct P1 as [Hh1 _ _]. pose proof (hi_reads _ _ _ _ _ _ _ _ Hh1 d Hd) as Hr.
  split; [done|]. split; [by apply Hfin|]. intros ->. apply (reads_rows _ _ _ _ _ _ Hr). by apply Hfin.
Qed.

(** C38: A run always ends: whatever the upstream service answers, however it fails and
    whatever the checkpoint says, the loops over pages stop within the page guard. *)
Theorem collection_ends fromisoformat j source overrides max_pages db e :
  run fromisoformat j source overrides max_pages db e <> None.
Proof.
  unfold collect_priority_pages. destruct (target_domains _) as [names|]; [|done]. cbn [outcome_bind].
  destruct (job_window repr_of fromisoformat j) as [w|]; [|done]. cbn [outcome_bind].
  destruct (page_sizes overrides) as [sizes|]; [|done]. cbn [outcome_bind].
  destruct (load_checkpoint _ _ _ db _ _ w) as [cur|]; [|done]. cbn [outcome_bind].
  match goal with |- context [domains_loop ?a ?b ?c ?d ?e ?f ?g ?h ?i ?s ?m names sizes None None ?pr] =>
    pose proof (domains_end a b c d e f g h i s m names sizes None None pr) as Hend;
    destruct (domains_loop a b c d e f g h i s m names sizes None None pr) as [[[] ?]|]; done
  end.
Qed.

(** Interruptions do not change what is collected.  If the source answers a request
    in one way, any two histories of a job that finished a stream, however they were
    interrupted, resumed or shared between workers, read the same pages of it. *)
Lemma same_pages sizes names d db0 log db db0' log' db' :
  (forall q a b, answers q a -> answers q b -> a = b) -> target_domains target = Some names -> d ∈ names ->
  fresh (stored db0) = true -> commits sizes db0 log db -> state_completed (domain_state (stored db) d) = true ->
  fresh (stored db0') = true -> commits sizes db0' log' db' -> state_completed (domain_state (stored db') d) = true ->
  of_domain d log = of_domain d log'.
Proof.
  intros Ha Hn Hd Hf Hc Hs Hf' Hc' Hs'.
  assert (Fin : forall db1 log1 db2, fresh (stored db1) = true -> commits sizes db1 log1 db2 -> state_completed (domain_state (stored db2) d) = true ->
    reads sizes d (of_domain d log1) (reader_of (of_domain d log1)) /\ rd_done (reader_of (of_domain d log1)) = true).
  { intros db1 log1 db2 F C S. pose proof (history_commits _ _ _ _ _ _ _ _ _ _ _ Hn [] _ _ _ (history_start _ _ _ _ _ _ _ F) C) as Hh.
    split; [apply (hi_reads _ _ _ _ _ _ _ _ Hh d Hd)|]. destruct (hi_stored _ _ _ _ _ _ _ _ Hh) as [[_ Hfr]|Hst].
    - by rewrite (fresh_not_completed _ _ Hfr) in S.
    - apply holds_states_of in Hst as [_ Hst]. specialize (Hst d Hd). unfold state_completed in S.
      rewrite (lookup_get _ _ _ (en_done _ _ _ Hst)) in S. exact S. }
  destruct (Fin _ _ _ Hf Hc Hs) as [R1 D1], (Fin _ _ _ Hf' Hc' Hs') as [R2 D2]. by eapply streams_agree.
Qed.
End Theorems.

(** ** An example

    The refunds of a day come in two pages.  A first run stops after one page, a
    second one goes on from its checkpoint. *)


Definition no_text (_ : pyval) : string := "?".
Definition any_time (t : stamp) : string := str_of_Z (stamp_at t).
Definition no_parse (_ : string) : option (option Z * Z) := None.

Definition paged_job : JobRun :=
  MkJobRun "day-1" "date_sync" Running None 0 0 None (PDict [("target", PStr "refunds")]) None None None None None None
    (Some 0) (Some 10) None None None None None None None None None None None None None.
Definition paged_window : CollectionWindow := MkWindow (MkStamp 0 0) (MkStamp 10 0) "Asia/Shanghai".

Definition refund (id : string) : pyval := PDict [("id", PStr id)].
(** The upstream service: two pages of refunds. *)
Definition two_pages (q : page_request) : pyval :=
  match req_cursor q with
  | None => PDict [("data", PDict [("refunds", PList [refund "a"; refund "b"]); ("has_more", PBool true); ("cursor", PStr "c1")])]
  | Some _ => PDict [("data", PDict [("refunds", PList [refund "c"]); ("has_more", PBool false); ("cursor", PStr "c1")])]
  end.
Definition answers_two (q : page_request) (v : pyval) : Prop := v = two_pages q.
Definition query_two (_ : CollectionWindow) (q : page_request) (db : pagedb (list pydict)) (e : unit)
  : outcome pyval * pagedb (list pydict) * unit := (Return (two_pages q), db, e).

(** The tables are the rows in the order they were written. *)
Definition collect_rows (p : Page) (_ : CollectionWindow) (_ : string) (_ : Z) (b : list pydict) (e : unit)
  : outcome (list pydict * PhaseStats) * unit :=
  (Return (b ++ page_rows p, MkPhaseStats "refunds" (page_row_count (page_rows p)) 0 0 0 0 0 0 0), e).
Definition midnight (_ : unit) : instant := 0.
Definition open_fence : option (pagedb (list pydict) -> unit -> outcome bool * unit) := Some (fun _ e => (Return true, e)).

Definition empty_pages : pagedb (list pydict) := MkPageDb [] [].
Definition run_two (max_pages : option Z) (db : pagedb (list pydict)) :=
  collect_priority_pages no_text no_text any_time collect_rows midnight open_fence query_two no_parse paged_job None None max_pages db tt.
Definition commit_two (state : pydict) (p : Page) (db : pagedb (list pydict)) :=
  commit_page no_text no_text any_time collect_rows midnight open_fence paged_job [("target", PStr "refunds")] state p paged_window "day-1" 100 db tt.

(** A run bounded to one page pauses; the next one completes. *)
Definition after_one : pagedb (list pydict) := match run_two (Some 1) empty_pages with Some (_, db, _) => db | None => empty_pages end.
Definition after_two : pagedb (list pydict) := match run_two None after_one with Some (_, db, _) => db | None => empty_pages end.

Example paused_ex : match run_two (Some 1) empty_pages with
  | Some (Throw x, db, _) => exc_is x = PriorityBudgetPauseError /\ length (business db) = 2%nat
  | _ => False
  end.
Proof. vm_compute. auto. Qed.

Example resumed_ex : match run_two None after_one with
  | Some (Return cp, db, _) => dict_get "completed" cp = PBool true /\ dict_get "pages_committed" cp = PInt 2 /\ length (business db) = 3%nat
  | _ => False
  end.
Proof. vm_compute. auto. Qed.

(** The pages, and the state each was read for. *)
Definition page_at (state : pydict) : Page :=
  match read_page no_text no_text "refunds" state 100 (two_pages (request_of_state no_text no_text "refunds" state 100)) with
  | Return p => p
  | Throw _ => MkPage "" "" None None [] [] None None false
  end.
Definition first_state : pydict := new_domain_state "refunds".
Definition second_state : pydict := domain_state (checkpoint_json after_one "day-1") "refunds".
Definition first_page : Page := page_at first_state.
Definition second_page : Page := page_at second_state.
Definition two_sizes : string -> Z := size_of DEFAULT_PAGE_SIZES.
#[local] Notation commits_two := (commits no_text no_text any_time collect_rows midnight open_fence answers_two two_sizes paged_job paged_window).

Lemma committed_one : commits_two empty_pages [first_page] after_one.
Proof.
  apply (commits_page _ _ _ _ _ _ _ _ _ _ empty_pages [] empty_pages [("target", PStr "refunds")] first_state "refunds"
    (two_pages (request_of_state no_text no_text "refunds" first_state 100)) first_page "day-1" tt
    (checkpoint_json after_one "day-1") after_one tt); [constructor|reflexivity..|vm_compute; reflexivity].
Qed.

Lemma committed_two : commits_two empty_pages [first_page; second_page] after_two.
Proof.
  apply (commits_page _ _ _ _ _ _ _ _ _ _ empty_pages [first_page] after_one [("target", PStr "refunds")] second_state "refunds"
    (two_pages (request_of_state no_text no_text "refunds" second_state 100)) second_page "day-1" tt
    (checkpoint_json after_two "day-1") after_two tt); [exact committed_one|reflexivity|reflexivity|vm_compute; reflexivity..].
Qed.

Lemma pages_read_once_witness :
  rd_done (reader_of [first_page; second_page]) = true /\ NoDup (page_position <$> [first_page; second_page])
  /\ replayed collect_rows paged_window [] [first_page; second_page] (business after_two).
Proof.
  pose proof (pages_read_once no_text no_text any_time collect_rows midnight open_fence paged_job paged_window answers_two two_sizes
    ["refunds"] empty_pages [first_page; second_page] after_two eq_refl eq_refl committed_two) as (_ & H & R).
  split; [reflexivity|]. split; [|exact R]. exact (proj1 (proj2 (H "refunds" ltac:(left)))).
Defined.

(** The client leaves the database alone. *)
Lemma query_two_quiet q d1 e1 r d2 e2 : query_two paged_window q d1 e1 = (r, d2, e2) ->
  (exists log, commits_two d1 log d2) /\ (forall payload, r = Return payload -> answers_two q payload).
Proof. intros [= <- <- <-]. split; [exists []; constructor | by intros payload [= <-]]. Qed.

Lemma collection_complete_witness :
  exists log, commits_two empty_pages ([first_page] ++ log) after_two
    /\ rd_done (reader_of (List.filter (in_domain "refunds") ([first_page] ++ log))) = true.
Proof.
  assert (exists cp, run_two None after_one = Some (Return cp, after_two, tt)) as [cp Hrun] by (eexists; vm_compute; reflexivity).
  destruct (collection_complete no_text no_text any_time collect_rows midnight open_fence query_two paged_job paged_window answers_two
    no_parse None None None DEFAULT_PAGE_SIZES ["refunds"] empty_pages [first_page] after_one tt (Return cp) after_two tt
    eq_refl eq_refl eq_refl query_two_quiet eq_refl committed_one Hrun) as (log & Hc & Hd).
  exists log. split; [exact Hc|]. exact (proj1 (proj2 (Hd cp eq_refl "refunds" ltac:(left)))).
Defined.

(** A second history of the same job, after an attempt of the former collector. *)
Definition legacy_pages : pagedb (list pydict) :=
  MkPageDb [MkStage "stage-day-1-collect" "day-1" "collect" "failed" [("status", PStr "failed")] (Some 1) 0 0] [].
Definition legacy_one : pagedb (list pydict) := match run_two (Some 1) legacy_pages with Some (_, db, _) => db | None => empty_pages end.
Definition legacy_two : pagedb (list pydict) := match run_two None legacy_one with Some (_, db, _) => db | None => empty_pages end.
Definition legacy_state : pydict := domain_state (checkpoint_json legacy_one "day-1") "refunds".

Lemma committed_legacy : commits_two legacy_pages [first_page; page_at legacy_state] legacy_two.
Proof.
  apply (commits_page _ _ _ _ _ _ _ _ _ _ legacy_pages [first_page] legacy_one [("target", PStr "refunds")] legacy_state "refunds"
    (two_pages (request_of_state no_text no_text "refunds" legacy_state 100)) (page_at legacy_state) "day-1" tt
    (checkpoint_json legacy_two "day-1") legacy_two tt); [|reflexivity|reflexivity|vm_compute; reflexivity..].
  apply (commits_page _ _ _ _ _ _ _ _ _ _ legacy_pages [] legacy_pages [("target", PStr "refunds")] first_state "refunds"
    (two_pages (request_of_state no_text no_text "refunds" first_state 100)) first_page "day-1" tt
    (checkpoint_json legacy_one "day-1") legacy_one tt); [constructor|reflexivity..|vm_compute; reflexivity].
Qed.

Lemma same_pages_witness :
  List.filter (in_domain "refunds") [first_page; second_page] = List.filter (in_domain "refunds") [first_page; page_at legacy_state].
Proof.
  apply (same_pages no_text no_text any_time collect_rows midnight open_fence paged_job paged_window answers_two two_sizes ["refunds"] "refunds"
    empty_pages [first_page; second_page] after_two legacy_pages [first_page; page_at legacy_state] legacy_two); try reflexivity.
  - unfold answers_two. congruence.
  - left.
  - exact committed_two.
  - exact committed_legacy.
Defined.
