(* ===== verification/Sparse.v ===== *)
(** * Sparse projections: building and publishing a generation

    apps/worker/settlement.py: a generation of the settlement projection is claimed
    over the published one, filled partition by partition, each in a transaction of
    its own, and certified ready.  apps/worker/projection_publish.py: the active
    pointer moves from the base of a ready generation to the generation itself, under
    the claim of its job, with one event for each publication.

    The months a build covers are an argument of the build ([plan_months], which
    [sparse_plan_months] instantiates on the rows it reads of the ledger), like the
    aggregation queries and the checksum of manifests; the estimates of written bytes, the cursors
    ([last_key]) and the columns for display are left out.  [hexdigest] is SHA-256,
    [reverify] the verification of a compaction (legacy_projection_bootstrap.py).  The
    clock readings are arguments: [now] of the process, [db_now] of the database
    before and after the locks were taken. *)
From S2P Require Import Prelude PyValue FeeLedger Qualification Lineage Pages.
#[local] Open Scope Z_scope.
#[local] Set Default Proof Using "Type".
#[local] Notation manifest := SettlementProjectionPartitionManifest.
#[local] Notation generation := SettlementProjectionGeneration.

Definition MAX_SETTLEMENT_PAGE_CARDINALITY : Z := 8192.
Definition SETTLEMENT_SPARSE_PROTOCOL : string := "t343-settlement-sparse-v1".

(** ** Values *)

(** [_sparse_identity], also [_identity] of the publication *)
Definition sparse_identity (value : option string) (label : string) : result string :=
  match value with
  | Some s => if str_eqb s "" || negb (str_eqb (strip s) s)
              then Raise (ValueError (label +:+ " must be a non-empty canonical string")) else Ok s
  | None => Raise (ValueError (label +:+ " must be a non-empty canonical string"))
  end.

(** [_sparse_month] *)
Definition sparse_month (value : option string) (label : string) : result string :=
  match value with
  | Some s => match parse_month s with
              | Some _ => Ok s
              | None => Raise (ValueError (label +:+ " must use YYYY-MM"))
              end
  | None => Raise (ValueError (label +:+ " must use YYYY-MM"))
  end.

(** 64 lower-case hexadecimal digits *)
Definition hex64 (s : string) : bool := (length (chars s) =? 64)%nat && forallb lower_hex (chars s).

(** ** Tables *)

Definition active_pointer (p : projectiondb) : option (option string) :=
  match List.find (fun a => str_eqb (act_projection_name a) "settlement") (projection_active p) with
  | Some a => Some (act_generation_id a)
  | None => None
  end.
Definition active_is (p : projectiondb) (id : string) : bool := opt_is (active_pointer p) (Some id).
Definition set_generation (p : projectiondb) (id : string) (f : generation -> generation) : projectiondb :=
  p <| projection_generations := (fun g => if str_eqb (gen_id g) id then f g else g) <$> projection_generations p |>.
Definition set_active (p : projectiondb) (id : string) : projectiondb :=
  p <| projection_active := (fun a => if str_eqb (act_projection_name a) "settlement" then a <| act_generation_id := Some id |> else a)
         <$> projection_active p |>.

(** ** The base *)

(** The walk of [_sparse_base_chain]; [hops] is the number of generations that may be visited. *)
Fixpoint walk_base (hops : nat) (p : projectiondb) (visited : list string) (current : generation) : result (list string) :=
  let* _ := raise_if (str_in (gen_id current) visited) (ValueError "base settlement lineage contains a cycle") in
  match hops with
  | O => Raise (ValueError "base settlement lineage exceeds the sparse limit")
  | S hops =>
      let ids := visited ++ [gen_id current] in
      if str_eqb (gen_kind current) "compact" then
        let* _ := raise_if (bool_decide (is_Some (gen_base current)) || negb (gen_lineage_depth current =? 0))
                    (ValueError "compact base settlement metadata is malformed") in
        let* _ := raise_if (bool_decide (gen_compaction_base current = None)) (ValueError "compact base settlement provenance is missing") in
        Ok ids
      else
        match gen_base current with
        | None => Ok ids
        | Some next =>
            match get_generation p next with
            | None => Raise (ValueError "base settlement lineage references a missing generation")
            | Some g =>
                let* _ := raise_if (negb (str_in (gen_state g) LIVE_STATES))
                            (ValueError "base settlement lineage contains an unpublished generation") in
                walk_base hops p ids g
            end
        end
  end.

(** [_sparse_base_chain] *)
Definition sparse_base_chain (p : projectiondb) (base_generation_id : string) : result (generation * list string) :=
  match get_generation p base_generation_id with
  | None => Raise (ValueError "base settlement generation does not exist")
  | Some base =>
      let* _ := raise_if (negb (str_eqb (gen_projection_name base) "settlement") || negb (str_eqb (gen_state base) "published"))
                  (ValueError "base settlement generation is not published") in
      let depth := gen_lineage_depth base in
      let* _ := raise_if ((depth <? 0) || (64 <=? depth)) (ValueError "base settlement lineage depth exceeds the sparse limit") in
      let* ids := walk_base 65 p [] base in
      let* _ := raise_if (negb (str_eqb (gen_kind base) "compact") && negb (Z.of_nat (length ids) =? depth + 1))
                  (ValueError "base settlement lineage depth is inconsistent") in
      Ok (base, ids)
  end.

(** ** The months of a build *)

Definition MAX_SETTLEMENT_SPARSE_MONTHS : Z := 120.
Definition month_le (a b : string) : Prop := String.le a b.
#[export] Instance month_le_dec a b : Decision (month_le a b).
Proof. unfold month_le. apply _. Defined.
Definition max_month (a b : string) : string := if String.leb a b then b else a.
Definition min_month (a b : string) : string := if String.leb a b then a else b.

(** The rows of a query on two months of which one is asked for. *)
Definition touching (values : list string) (pairs : list (string * string)) : list (string * string) :=
  List.filter (fun q => str_in q.1 values || str_in q.2 values) pairs.

(** Months that are added to a set after they were read. *)
Fixpoint add_months (pairs : list (string * string)) (expanded : list string) : result (list string) :=
  match pairs with
  | [] => Ok expanded
  | (original, posting) :: rest =>
      let* a := sparse_month (Some original) "adjustment original month" in
      let* b := sparse_month (Some posting) "adjustment posting month" in
      add_months rest (set_add b (set_add a expanded))
  end.
Fixpoint read_months (months seen : list string) : result (list string) :=
  match months with
  | [] => Ok seen
  | m :: rest => let* m := sparse_month (Some m) "affected month" in read_months rest (set_add m seen)
  end.

Section Months.
(** The months of the adjustments, those of protected bills and of the current
    results that moved away from them, and the database's choice of at most
    [MAX_SETTLEMENT_SPARSE_MONTHS + 1] rows (there is no order). *)
Context (adjustment_pairs moved_chains : list (string * string)) (limited : list (string * string) -> list (string * string)).

(** One turn of the loop of [_sparse_expand_affected_months]: the months that are linked to those known. *)
Definition expand_turn (values : list string) : result (list string) :=
  let rows := limited (remove_dups (touching values adjustment_pairs)) in
  let expanded := foldl (fun acc q => set_add q.2 (set_add q.1 acc)) values (touching values moved_chains) in
  let* expanded := add_months rows expanded in
  let* _ := raise_if (MAX_SETTLEMENT_SPARSE_MONTHS <? Z.of_nat (length expanded)) (ValueError "adjustment month closure exceeds sparse limit") in
  Ok expanded.

Definition out_of_months : exn := RuntimeError "month turns".
Fixpoint expand_loop (turns : nat) (values : list string) : result (list string) :=
  match turns with
  | O => Raise out_of_months
  | S turns =>
      let* expanded := expand_turn values in
      if (length expanded =? length values)%nat then Ok (merge_sort month_le values) else expand_loop turns expanded
  end.

(** [_sparse_expand_affected_months]; a turn that goes on has found another month *)
Definition sparse_expand_affected_months (affected_months : list string) : result (list string) :=
  let* values := read_months affected_months [] in
  let* _ := raise_if (bool_decide (values = [])) (ValueError "affected_months must not be empty") in
  let* _ := raise_if (MAX_SETTLEMENT_SPARSE_MONTHS <? Z.of_nat (length values)) (ValueError "too many affected settlement months") in
  expand_loop (S (Z.to_nat MAX_SETTLEMENT_SPARSE_MONTHS)) values.

(** [_sparse_month_range]: [more] months may follow *)
Fixpoint months_from (more : nat) (year month last : Z) : result (list string) :=
  if last <? 12 * year + month then Ok []
  else
    match more with
    | O => Raise (ValueError "settlement sparse cumulative suffix is too large")
    | S more =>
        let* _ := raise_if ((year =? 9999) && (month =? 12)) (ValueError "year 10000 is out of range") in
        let* rest := if month =? 12 then months_from more (year + 1) 1 last else months_from more year (month + 1) last in
        Ok (month_key year month :: rest)
    end.
Definition sparse_month_range (start end_ : string) : result (list string) :=
  match parse_month start, parse_month end_ with
  | Some (y, m), Some (y', m') => months_from (Z.to_nat MAX_SETTLEMENT_SPARSE_MONTHS) y m (12 * y' + m')
  | _, _ => Raise (ValueError "month must use YYYY-MM")
  end.

(** The month of a partition key. *)
Definition key_month (key : string) : string :=
  if startswith "monthly:" key then text (drop 8 (chars key))
  else if startswith "cumulative:" key then text (drop 11 (chars key)) else key.

(** [_sparse_latest_authoritative_month]; [maxima] are the results of its scalar queries *)
Definition sparse_latest_authoritative_month (p : projectiondb) (maxima : list (option string)) (affected lineage_ids : list string) : result string :=
  let read (label : string) acc m := let* best := acc in let* m := sparse_month (Some m) label in Ok (max_month best m) in
  let* best := foldl (read "authoritative month") (Ok (foldr max_month "" affected)) (omap id maxima) in
  foldl (read "base manifest month") (Ok best)
    ((fun m => key_month (man_partition_key m)) <$> List.filter (fun m => str_in (man_generation_id m) lineage_ids
       && str_in (man_artifact m) ["monthly"; "ranking"]) (projection_manifests p)).

(** The months of a build: lines 573-596 of [_sparse_preflight].  [validate] is
    [validate_protected_authority], [locked] the first locked statement of the months. *)
Definition sparse_plan_months (validate : list string -> result unit) (locked : list string -> option string) (maxima : list (option string))
    (p : projectiondb) (affected_months lineage_ids : list string) : result (list string * list string) :=
  let* expanded := sparse_expand_affected_months affected_months in
  let* _ := validate expanded in
  let* _ := match locked expanded with
            | Some id => Raise (NamedError "LockedSettlementConflict" ("affected settlement month contains locked statement: " +:+ id))
            | None => Ok tt
            end in
  let* latest := sparse_latest_authoritative_month p maxima expanded lineage_ids in
  let start := max_month (foldr min_month (List.hd "" expanded) expanded) "2026-08" in
  let* cumulative := sparse_month_range start (max_month latest start) in
  Ok (expanded, cumulative).
End Months.

(** ** Partitions *)

(** A row of the monthly aggregation. *)
Record MonthlyRow := MkMonthlyRow {
  mr_month : option string;
  mr_store_id : option string;
  mr_product_scope : option string;
  mr_product_type : option string;
  mr_sales_order_count : Z;
  mr_sales_amount_cent : Z;
  mr_verified_order_count : Z;
  mr_verified_amount_cent : Z;
  mr_promotion_base_cent : Z;
  mr_promotion_original_fee_cent : Z;
  mr_promotion_adjustment_fee_cent : Z;
  mr_management_base_cent : Z;
  mr_management_original_fee_cent : Z;
  mr_management_adjustment_fee_cent : Z;
  mr_statement_status : Z
}.

(** A row of the ranking aggregations. *)
Record RankingRow := MkRankingRow {
  rr_store_id : option string;
  rr_store_name : option string;
  rr_product_scope : option string;
  rr_product_type : option string;
  rr_sales_order_count : Z;
  rr_sales_amount_cent : Z;
  rr_verified_order_count : Z;
  rr_verified_amount_cent : Z;
  rr_promotion_net_fee_cent : Z;
  rr_management_net_fee_cent : Z
}.

(** [_SparsePartitionDigest] *)
Record SparsePartitionDigest := MkDigest {
  pd_row_count : Z;
  pd_amount_total_cent : Z;
  pd_status_counts : pydict;
  pd_digest : string
}.

(** [counts[key] = counts.get(key, 0) + 1] *)
Fixpoint count_key (key : string) (counts : pydict) : pydict :=
  match counts with
  | [] => [(key, PInt 1)]
  | (k, v) :: rest => if decide (key = k) then (k, match v with PInt n => PInt (n + 1) | _ => v end) :: rest
                      else (k, v) :: count_key key rest
  end.
Definition sorted_counts (d : pydict) : pydict := foldr insert_key [] d.

(** [_sparse_manifest_values] *)
Definition sparse_manifest_values (generation_id base_generation_id artifact partition_key : string) (d : SparsePartitionDigest) : manifest :=
  let owned := 0 <? pd_row_count d in
  MkManifest generation_id artifact partition_key (if owned then "owned" else "tombstone") (if owned then "overlay" else "tombstone")
    (if owned then Some generation_id else None) (Some base_generation_id) None
    (PInt (pd_row_count d)) (PInt (pd_amount_total_cent d)) (PDict (sorted_counts (pd_status_counts d))) (Some (pd_digest d)).

(** [_sparse_monthly_values] *)
Definition sparse_monthly_values (row : MonthlyRow) (generation_id : string) : result SettlementMonthlyOverlay :=
  let* month := sparse_month (mr_month row) "monthly source month" in
  let* store := sparse_identity (mr_store_id row) "monthly source store_id" in
  let* scope := sparse_identity (mr_product_scope row) "monthly product_scope" in
  let* type := sparse_identity (mr_product_type row) "monthly product_type" in
  let status := or_int (Some (mr_statement_status row)) 1 in
  let* _ := raise_if (negb (bool_decide (status ∈ [1; 2; 3; 4]))) (ValueError "monthly statement status is invalid") in
  Ok (MkMonthly generation_id month store scope type month (mr_promotion_base_cent row) (mr_promotion_original_fee_cent row)
        (mr_promotion_adjustment_fee_cent row) (mr_management_base_cent row) (mr_management_original_fee_cent row)
        (mr_management_adjustment_fee_cent row) false).

(** [_sparse_monthly_envelope] *)
Definition sparse_monthly_envelope (row : MonthlyRow) (o : SettlementMonthlyOverlay) : pydict :=
  [("month", PStr (mon_month o)); ("store_id", PStr (mon_store_id o)); ("product_scope", PStr (mon_product_scope o));
   ("product_type", PStr (mon_product_type o)); ("sales_order_count", PInt (mr_sales_order_count row));
   ("sales_amount_cent", PInt (mr_sales_amount_cent row)); ("verified_order_count", PInt (mr_verified_order_count row));
   ("verified_amount_cent", PInt (mr_verified_amount_cent row)); ("promotion_base_cent", PInt (mon_promotion_base_cent o));
   ("promotion_original_fee_cent", PInt (mon_promotion_original_fee_cent o));
   ("promotion_adjustment_fee_cent", PInt (mon_promotion_adjustment_fee_cent o));
   ("promotion_net_fee_cent", PInt (mon_promotion_original_fee_cent o + mon_promotion_adjustment_fee_cent o));
   ("management_base_cent", PInt (mon_management_base_cent o)); ("management_original_fee_cent", PInt (mon_management_original_fee_cent o));
   ("management_adjustment_fee_cent", PInt (mon_management_adjustment_fee_cent o));
   ("management_net_fee_cent", PInt (mon_management_original_fee_cent o + mon_management_adjustment_fee_cent o));
   ("statement_status", PInt (or_int (Some (mr_statement_status row)) 1)); ("projection_run_id", PStr (mon_generation_id o))].
Definition monthly_net (o : SettlementMonthlyOverlay) : Z :=
  (mon_promotion_original_fee_cent o + mon_promotion_adjustment_fee_cent o)
  - (mon_management_original_fee_cent o + mon_management_adjustment_fee_cent o).

Definition ranking_key (period_type : Z) (period_key : string) : string :=
  (if period_type =? 1 then "monthly" else "cumulative") +:+ ":" +:+ period_key.

(** [_sparse_ranking_values] with [_sparse_ranking_envelope] *)
Definition sparse_ranking_values (row : RankingRow) (generation_id : string) (period_type : Z) (period_key : string) : result pydict :=
  let* _ := raise_if (negb (bool_decide (period_type ∈ [1; 2]))) (ValueError "ranking period type is invalid") in
  let* month := sparse_month (Some period_key) "ranking period key" in
  let* store := sparse_identity (rr_store_id row) "ranking store_id" in
  let* scope := sparse_identity (rr_product_scope row) "ranking product_scope" in
  let* type := sparse_identity (rr_product_type row) "ranking product_type" in
  let name := match rr_store_name row with Some n => if str_eqb n "" then store else n | None => store end in
  Ok [("period_type", PInt period_type); ("period_key", PStr month); ("store_id", PStr store); ("store_name", PStr name);
      ("product_scope", PStr scope); ("product_type", PStr type); ("sales_order_count", PInt (rr_sales_order_count row));
      ("sales_amount_cent", PInt (rr_sales_amount_cent row)); ("verified_order_count", PInt (rr_verified_order_count row));
      ("verified_amount_cent", PInt (rr_verified_amount_cent row)); ("promotion_net_fee_cent", PInt (rr_promotion_net_fee_cent row));
      ("management_net_fee_cent", PInt (rr_management_net_fee_cent row));
      ("net_settlement_reference_cent", PInt (rr_promotion_net_fee_cent row - rr_management_net_fee_cent row));
      ("projection_run_id", PStr generation_id); ("month", PStr month)].

(** [_sparse_assert_writable] *)
Definition sparse_assert_writable (p : projectiondb) (generation_id base_generation_id : string) : result generation :=
  match get_generation p generation_id with
  | Some g =>
      let* _ := raise_if (negb (str_eqb (gen_state g) "staging")) (ValueError "sparse settlement generation is not writable") in
      let* _ := raise_if (negb (active_is p base_generation_id)) (ValueError "active settlement pointer changed during sparse build") in
      Ok g
  | None => Raise (ValueError "sparse settlement generation is not writable")
  end.

(** The manifests without those of a partition. *)
Definition drop_manifests (p : projectiondb) (generation_id artifact key : string) : list manifest :=
  List.filter (fun m => negb (str_eqb (man_generation_id m) generation_id && str_eqb (man_artifact m) artifact
                              && str_eqb (man_partition_key m) key)) (projection_manifests p).

Section Build.
Context (extend_digest : string -> pyval -> string) (empty_digest : string).
Context (manifest_checksum : list manifest -> result string).

(** [_SparsePartitionDigest.add] *)
Definition digest_add (d : SparsePartitionDigest) (envelope : pydict) (amount : Z) (status : option Z) : SparsePartitionDigest :=
  MkDigest (pd_row_count d + 1) (pd_amount_total_cent d + amount)
    (match status with Some n => count_key (str_of_Z n) (pd_status_counts d) | None => pd_status_counts d end)
    (extend_digest (pd_digest d) (PDict envelope)).
Definition fresh_digest : SparsePartitionDigest := MkDigest 0 0 [] empty_digest.

(** The rows of a monthly partition, with their digest. *)
Fixpoint add_monthly (generation_id : string) (rows : list MonthlyRow) (d : SparsePartitionDigest) (written : list SettlementMonthlyOverlay)
  : result (SparsePartitionDigest * list SettlementMonthlyOverlay) :=
  match rows with
  | [] => Ok (d, written)
  | row :: rest =>
      let* o := sparse_monthly_values row generation_id in
      let d := digest_add d (sparse_monthly_envelope row o) (monthly_net o) (Some (or_int (Some (mr_statement_status row)) 1)) in
      let* _ := raise_if (MAX_SETTLEMENT_PAGE_CARDINALITY <? pd_row_count d) (ValueError "monthly sparse partition exceeds row limit") in
      add_monthly generation_id rest d (written ++ [o])
  end.

(** [_sparse_write_monthly_partition]: one transaction; [guard] is the outcome of the commit guard *)
Definition sparse_write_monthly_partition (p : projectiondb) (generation_id base_generation_id month : string)
    (rows : list MonthlyRow) (guard : result unit) : result projectiondb :=
  let* _ := sparse_assert_writable p generation_id base_generation_id in
  let* (d, written) := add_monthly generation_id rows fresh_digest [] in
  let* _ := guard in
  Ok (p <| monthly_overlays := List.filter (fun o => negb (str_eqb (mon_generation_id o) generation_id && str_eqb (mon_partition_key o) month))
             (monthly_overlays p) ++ written |>
        <| projection_manifests := drop_manifests p generation_id "monthly" month
             ++ [sparse_manifest_values generation_id base_generation_id "monthly" month d] |>).

Fixpoint add_ranking (generation_id : string) (period_type : Z) (period_key : string) (rows : list RankingRow)
    (d : SparsePartitionDigest) (written : list PartitionRow) : result (SparsePartitionDigest * list PartitionRow) :=
  match rows with
  | [] => Ok (d, written)
  | row :: rest =>
      let* envelope := sparse_ranking_values row generation_id period_type period_key in
      let d := digest_add d envelope (rr_promotion_net_fee_cent row - rr_management_net_fee_cent row) None in
      let* _ := raise_if (MAX_SETTLEMENT_PAGE_CARDINALITY <? pd_row_count d) (ValueError "ranking sparse partition exceeds row limit") in
      add_ranking generation_id period_type period_key rest d
        (written ++ [MkPartitionRow generation_id (ranking_key period_type period_key) false])
  end.

(** [_sparse_write_ranking_partition] *)
Definition sparse_write_ranking_partition (p : projectiondb) (generation_id base_generation_id : string) (period_type : Z)
    (period_key : string) (rows : list RankingRow) (guard : result unit) : result projectiondb :=
  let key := ranking_key period_type period_key in
  let* _ := sparse_assert_writable p generation_id base_generation_id in
  let* (d, written) := add_ranking generation_id period_type period_key rows fresh_digest [] in
  let* _ := guard in
  Ok (p <| ranking_overlays := List.filter (fun o => negb (str_eqb (par_generation_id o) generation_id && str_eqb (par_partition_key o) key))
             (ranking_overlays p) ++ written |>
        <| projection_manifests := drop_manifests p generation_id "ranking" key
             ++ [sparse_manifest_values generation_id base_generation_id "ranking" key d] |>).

(** ** Certification *)

Definition manifest_before (a b : manifest) : Prop :=
  String.le (man_artifact a) (man_artifact b) /\ man_artifact a <> man_artifact b
  \/ man_artifact a = man_artifact b /\ String.le (man_partition_key a) (man_partition_key b).
#[export] Instance manifest_before_dec a b : Decision (manifest_before a b).
Proof. unfold manifest_before. apply _. Defined.

Definition manifest_rows (p : projectiondb) (generation_id : string) (artifacts : option (list string)) : list manifest :=
  merge_sort manifest_before (List.filter (fun m => str_eqb (man_generation_id m) generation_id
    && match artifacts with Some l => str_in (man_artifact m) l | None => true end) (projection_manifests p)).

(** [sum(int(row.row_count) for row in manifests)] *)
Definition sum_rows (rows : list manifest) : result Z :=
  foldl (fun acc m => let* n := acc in
    match py_int (man_row_count m) with Some z => Ok (n + z) | None => Raise (TypeError "int") end) (Ok 0) rows.

Record ProjectionManifestSet := MkManifestSet {
  ms_generation_id : string;
  ms_base_generation_id : string;
  ms_monthly_partitions : list string;
  ms_ranking_partitions : list string;
  ms_manifest_count : Z;
  ms_row_count : Z;
  ms_manifest_checksum : string;
  ms_resumed : bool
}.

(** [_sparse_result] *)
Definition sparse_result (p : projectiondb) (generation_id base_generation_id : string) (resumed : bool) : result ProjectionManifestSet :=
  match get_generation p generation_id with
  | None => Raise (ValueError "sparse settlement generation disappeared")
  | Some g =>
      let rows := manifest_rows p generation_id (Some ["monthly"; "ranking"]) in
      let keys artifact := man_partition_key <$> List.filter (fun m => str_eqb (man_artifact m) artifact) rows in
      let ranking := List.filter (startswith "monthly:") (keys "ranking") ++ List.filter (fun k => negb (startswith "monthly:" k)) (keys "ranking") in
      match gen_manifest_checksum g with
      | Some checksum =>
          let* _ := raise_if (negb (hex64 checksum)) (ValueError "sparse settlement generation has no canonical manifest checksum") in
          let* n := sum_rows rows in
          Ok (MkManifestSet generation_id base_generation_id (keys "monthly") ranking (Z.of_nat (length rows)) n checksum resumed)
      | None => Raise (ValueError "sparse settlement generation has no canonical manifest checksum")
      end
  end.

(** [_sparse_source_input] *)
Definition sparse_source_input (base_generation_id : string) (affected cumulative : list string) (batch_size : Z) : pydict :=
  [("protocol", PStr SETTLEMENT_SPARSE_PROTOCOL); ("projection", PStr "settlement"); ("operation", PStr "build_settlement_sparse_overlay");
   ("base_generation_id", PStr base_generation_id); ("affected_months", PList (PStr <$> affected));
   ("cumulative_months", PList (PStr <$> cumulative)); ("batch_size", PInt batch_size)].
(** [{**d, **changes}] *)
Definition dict_update (d changes : pydict) : pydict := foldl (fun d kv => dict_set kv.1 kv.2 d) d changes.
Definition build_checkpoint (source : pydict) (phase base_generation_id : string) (manifests rows : Z) : pydict :=
  dict_update source [("phase", PStr phase); ("expected_active_pointer", PStr base_generation_id); ("manifest_count", PInt manifests); ("row_count", PInt rows)].

(** [_sparse_finalize_generation]: what was committed, and the result that is read afterwards *)
Definition sparse_finalize_generation (p : projectiondb) (generation_id base_generation_id : string) (affected cumulative : list string)
    (batch_size : Z) (resumed : bool) (guard : result unit) : result (projectiondb * result ProjectionManifestSet) :=
  let* _ := sparse_assert_writable p generation_id base_generation_id in
  let rows := manifest_rows p generation_id None in
  let* checksum := manifest_checksum rows in
  let* n := sum_rows rows in
  let source := sparse_source_input base_generation_id affected cumulative batch_size in
  let* _ := guard in
  let p' := set_generation p generation_id (fun g =>
    g <| gen_checkpoint_json := build_checkpoint source "settlement_ready" base_generation_id (Z.of_nat (length rows)) n |>
      <| gen_manifest_checksum := Some checksum |>) in
  Ok (p', sparse_result p' generation_id base_generation_id resumed).

(** [mark_settlement_sparse_overlay_ready] *)
Definition mark_settlement_sparse_overlay_ready (p : projectiondb) (generation_id base_generation_id input_fingerprint : string)
    (guard : result unit) : result (projectiondb * result ProjectionManifestSet) :=
  match get_generation p generation_id with
  | None => Raise (ValueError "sparse settlement generation disappeared before ready")
  | Some g =>
      let* _ := raise_if (negb (str_eqb (gen_projection_name g) "settlement") || negb (str_eqb (gen_kind g) "lineage")
          || negb (opt_is (gen_base g) base_generation_id) || negb (str_eqb (gen_input_fingerprint g) input_fingerprint)
          || negb (str_in (gen_state g) ["staging"; "ready"; "published"]))
        (ValueError "sparse settlement generation metadata conflicts before ready") in
      let* _ := raise_if (negb (active_is p base_generation_id)) (ValueError "active settlement pointer changed before sparse ready") in
      if str_in (gen_state g) ["ready"; "published"] then
        let* _ := guard in
        Ok (p, sparse_result p generation_id base_generation_id true)
      else
        let rows := manifest_rows p generation_id (Some ["monthly"; "ranking"]) in
        let* checksum := manifest_checksum rows in
        let* n := sum_rows rows in
        let* _ := guard in
        let p' := set_generation p generation_id (fun g =>
          g <| gen_state := "ready" |> <| gen_manifest_checksum := Some checksum |>
            <| gen_checkpoint_json := build_checkpoint (gen_checkpoint_json g) "settlement_ready" base_generation_id (Z.of_nat (length rows)) n |>) in
        Ok (p', sparse_result p' generation_id base_generation_id false)
  end.

(** ** Building *)

Context (plan_months : projectiondb -> list string -> list string -> result (list string * list string)).

(** [_sparse_preflight] *)
Definition sparse_preflight (p : projectiondb) (generation_id base_generation_id : string) (affected_months : list string)
    (batch_size : Z) (input_fingerprint : string) : result (generation * list string * list string * option generation) :=
  let* generation_id := sparse_identity (Some generation_id) "generation_id" in
  let* base_generation_id := sparse_identity (Some base_generation_id) "base_generation_id" in
  let* _ := raise_if (str_eqb generation_id base_generation_id) (ValueError "sparse generation cannot reference itself as base") in
  let* _ := raise_if (negb ((1 <=? batch_size) && (batch_size <=? 400))) (ValueError "batch_size must be an integer between 1 and 400") in
  let* _ := raise_if (negb (hex64 input_fingerprint)) (ValueError "input_fingerprint must be 64 lowercase hexadecimal characters") in
  let* _ := raise_if (negb (active_is p base_generation_id)) (ValueError "active settlement pointer does not match sparse base") in
  let* (base, lineage_ids) := sparse_base_chain p base_generation_id in
  let* (affected, cumulative) := plan_months p affected_months lineage_ids in
  let existing := get_generation p generation_id in
  let* _ := raise_if (existsb (fun g => str_eqb (gen_input_fingerprint g) input_fingerprint && negb (str_eqb (gen_id g) generation_id))
                        (projection_generations p)) (ValueError "input_fingerprint already belongs to another generation") in
  let* _ := match existing with
            | Some g => raise_if (negb (str_eqb (gen_projection_name g) "settlement") || negb (str_eqb (gen_kind g) "lineage")
                || negb (opt_is (gen_base g) base_generation_id) || negb (str_eqb (gen_input_fingerprint g) input_fingerprint)
                || negb (gen_lineage_depth g =? gen_lineage_depth base + 1) || negb (str_in (gen_state g) ["staging"; "ready"; "published"]))
                (ValueError "existing sparse generation metadata conflicts")
            | None => Ok tt
            end in
  Ok (base, affected, cumulative, existing).

(** The claim of a generation: true when another worker had claimed it ([IntegrityError]). *)
Definition claim_generation (p : projectiondb) (generation_id base_generation_id input_fingerprint : string) (base_depth : Z)
    (source : pydict) (source_job_id : option string) (guard : result unit) : result (projectiondb * bool) :=
  let* _ := raise_if (negb (active_is p base_generation_id)) (ValueError "active settlement pointer changed before sparse claim") in
  let* _ := guard in
  if existsb (fun g => str_eqb (gen_id g) generation_id || str_eqb (gen_input_fingerprint g) input_fingerprint) (projection_generations p) then
    match get_generation p generation_id with
    | Some peer =>
        let* _ := raise_if (negb (opt_is (gen_base peer) base_generation_id) || negb (str_eqb (gen_input_fingerprint peer) input_fingerprint)
                            || negb (str_eqb (gen_state peer) "staging")) (NamedError "IntegrityError" "generation") in
        Ok (p, true)
    | None => Raise (NamedError "IntegrityError" "generation")
    end
  else
    Ok (p <| projection_generations := projection_generations p ++
      [MkGeneration generation_id (Some base_generation_id) "lineage" None "settlement" "staging" (base_depth + 1) None source_job_id
         input_fingerprint (build_checkpoint source "settlement_build" base_generation_id 0 0) None] |>, false).

(** Partitions one after another; a failure keeps those that were committed. *)
Fixpoint write_partitions {A} (write : projectiondb -> A -> nat -> result projectiondb) (p : projectiondb) (n : nat) (l : list A)
  : projectiondb * result nat :=
  match l with
  | [] => (p, Ok n)
  | a :: rest =>
      match write p a n with
      | Ok p => write_partitions write p (S n) rest
      | Raise e => (p, Raise e)
      end
  end.

(** The aggregation queries, on what is committed when they run, and the guards by their number. *)
Context (monthly_query : projectiondb -> string -> list MonthlyRow) (ranking_query : projectiondb -> string -> list string -> Z -> string -> list RankingRow).

(** [build_settlement_sparse_overlay] *)
Definition build_settlement_sparse_overlay (p : projectiondb) (generation_id base_generation_id : string) (affected_months : list string)
    (batch_size : Z) (input_fingerprint : string) (source_job_id : option string) (guards : nat -> result unit)
  : projectiondb * result ProjectionManifestSet :=
  match sparse_preflight p generation_id base_generation_id affected_months batch_size input_fingerprint with
  | Raise e => (p, Raise e)
  | Ok (base, affected, cumulative, existing) =>
      if match existing with Some g => str_in (gen_state g) ["ready"; "published"] | None => false end then
        (p, let* _ := guards 0%nat in sparse_result p generation_id base_generation_id true)
      else
        let resumed := bool_decide (is_Some existing) && existsb (fun m => str_eqb (man_generation_id m) generation_id) (projection_manifests p) in
        let source := sparse_source_input base_generation_id affected cumulative batch_size in
        match match existing with
              | Some _ => Ok (p, false)
              | None => claim_generation p generation_id base_generation_id input_fingerprint (gen_lineage_depth base) source source_job_id (guards 0%nat)
              end with
        | Raise e => (p, Raise e)
        | Ok (p, peer) =>
            let monthly p month n := sparse_write_monthly_partition p generation_id base_generation_id month (monthly_query p month) (guards n) in
            let ranking period p month n :=
              sparse_write_ranking_partition p generation_id base_generation_id period month
                (ranking_query p generation_id affected period month) (guards n) in
            match write_partitions monthly p 1 affected with
            | (p, Raise e) => (p, Raise e)
            | (p, Ok n) =>
                match write_partitions (ranking 1) p n affected with
                | (p, Raise e) => (p, Raise e)
                | (p, Ok n) =>
                    match write_partitions (ranking 2) p n cumulative with
                    | (p, Raise e) => (p, Raise e)
                    | (p, Ok n) =>
                        match sparse_finalize_generation p generation_id base_generation_id affected cumulative batch_size (resumed || peer) (guards n) with
                        | Raise e => (p, Raise e)
                        | Ok (p, r) => (p, r)
                        end
                    end
                end
            end
        end
  end.
End Build.

(** * Publication *)

(** ** Tables *)

(** The columns of [job_runs] that a publication reads. *)
Record PublishJob := MkPublishJob {
  pj_job_id : string;
  pj_job_name : string;
  pj_job_kind : option string;
  pj_parent_job_id : option string;
  pj_status : string;
  pj_claim_token : option string;
  pj_lease_owner : option string;
  pj_lease_expires_at : option Z
}.

(** A row of [job_events]. *)
Record PublishEvent := MkPublishEvent {
  pe_event_id : string;
  pe_job_id : string;
  pe_stage_run_id : option string;
  pe_event_type : string;
  pe_from_status : string;
  pe_to_status : string;
  pe_actor_type : string;
  pe_actor_id : option string;
  pe_reason : string;
  pe_idempotency_key : string;
  pe_payload_json : pydict;
  pe_occurred_at : Z
}.

Record publishdb := MkPublishDb {
  pub_projection : projectiondb;
  pub_jobs : list PublishJob;
  pub_events : list PublishEvent
}.
#[export] Instance eta_publishdb : Eta publishdb := fun r => MkPublishDb (pub_projection r) (pub_jobs r) (pub_events r).

Definition COMPACTION_PROTOCOL : string := "t342d-metadata-compaction-v1".
Definition COMPACTION_OPERATION : string := "metadata-compaction".
Definition MAX_BATCH_SIZE : Z := 400.
Definition COMPACTION_CHECKPOINT_KEYS : list string :=
  ["protocol"; "operation"; "phase"; "base_generation_id"; "expected_active_pointer"; "cursor"; "batch_size"; "batch_count";
   "partition_count"; "source_generation_count"; "effective_checksum"; "estimated_manifest_rows"; "estimated_write_rows";
   "estimated_write_bytes"; "estimated_wal_bytes"; "estimated_disk_headroom_bytes"].

(** [_digest] *)
Definition digest_value (value label : string) : result string :=
  if hex64 value then Ok value else Raise (ValueError (label +:+ " must be 64 lowercase hexadecimal characters")).

Definition refuse (b : bool) (msg : string) : result unit := raise_if b (RuntimeError msg).

Definition find_job (d : publishdb) (id : string) : option PublishJob := List.find (fun j => str_eqb (pj_job_id j) id) (pub_jobs d).

(** The generation becomes the active one. *)
Definition promote (p : projectiondb) (generation_id : string) (now : Z) : projectiondb :=
  set_active (set_generation p generation_id (fun g => g <| gen_state := "published" |> <| gen_published_at := Some now |>)) generation_id.

(** The compare-and-swap of the pointer, unless it was made before. *)
Definition swap_pointer (p : projectiondb) (g : generation) (base_generation_id : string) (now : Z) (changed not_ready : string) : result projectiondb :=
  if active_is p (gen_id g) && str_eqb (gen_state g) "published" then Ok p
  else
    let* _ := refuse (negb (active_is p base_generation_id)) changed in
    let* _ := refuse (negb (str_eqb (gen_state g) "ready") || bool_decide (is_Some (gen_published_at g))) not_ready in
    Ok (promote p (gen_id g) now).

(** The payload of a publication's event. *)
Definition publish_payload (generation_id base_generation_id input_fingerprint manifest_checksum : string) : pydict :=
  [("input_fingerprint", PStr input_fingerprint); ("generation_id", PStr generation_id);
   ("manifest_checksum", PStr manifest_checksum); ("base_generation_id", PStr base_generation_id)].

(** The event of a once key: a conflict, the one that exists, or a new one. *)
Definition record_event (d : publishdb) (e : PublishEvent) (conflict : string) : result publishdb :=
  match List.find (fun x => str_eqb (pe_job_id x) (pe_job_id e) && str_eqb (pe_idempotency_key x) (pe_idempotency_key e)) (pub_events d) with
  | Some x =>
      let* _ := refuse (negb (bool_decide (pe_stage_run_id x = pe_stage_run_id e))
          || negb (str_eqb (pe_event_type x) "settlement_projection_published")
          || negb (same_json (PDict (pe_payload_json x)) (PDict (pe_payload_json e)))) conflict in
      Ok d
  | None => Ok (d <| pub_events := pub_events d ++ [e] |>)
  end.

Definition actor_type (j : PublishJob) : string :=
  match pj_lease_owner j with Some o => if str_eqb o "" then "system" else "worker" | None => "system" end.

Section Publish.
Context (hexdigest : string -> string).

(** [projection_publish_once_key], [settlement_rebuild_publish_once_key], [settlement_compaction_publish_once_key];
    the length assertions of the keys hold for every SHA-256 digest *)
Definition once_key (prefix owner input_fingerprint : string) : string := prefix +:+ hexdigest (owner +:+ "|" +:+ input_fingerprint).
Definition event_id_of (prefix job key : string) : string := prefix +:+ hexdigest (job +:+ "|" +:+ key).

(** ** The last stage of a day *)

Record ProjectionPublishMutation := MkMutation {
  mut_generation_id : string;
  mut_base_generation_id : string;
  mut_input_fingerprint : string;
  mut_manifest_checksum : string;
  mut_parent_job_id : string
}.

(** [make_projection_publish_mutation] *)
Definition make_projection_publish_mutation (generation_id base_generation_id input_fingerprint manifest_checksum parent_job_id : string)
  : result ProjectionPublishMutation :=
  let* g := sparse_identity (Some generation_id) "generation_id" in
  let* b := sparse_identity (Some base_generation_id) "base_generation_id" in
  let* f := digest_value input_fingerprint "input_fingerprint" in
  let* c := digest_value manifest_checksum "manifest_checksum" in
  let* j := sparse_identity (Some parent_job_id) "parent_job_id" in
  Ok (MkMutation g b f c j).

(** [_ProjectionPublishMutation.apply] *)
Definition apply_mutation (m : ProjectionPublishMutation) (d : publishdb) (job : PublishJob) (stage : JobStageRun) (now : Z) : result publishdb :=
  let p := pub_projection d in
  let* _ := refuse (negb (str_eqb (pj_job_id job) (stage_job_id stage)) || negb (opt_is (pj_job_kind job) "finalize")
      || negb (str_eqb (stage_name stage) "finalize") || negb (opt_is (pj_parent_job_id job) (mut_parent_job_id m)))
    "projection publication event owner is invalid" in
  let* _ := refuse (bool_decide (active_pointer p = None)) "settlement active pointer is missing" in
  match get_generation p (mut_generation_id m) with
  | None => Raise (RuntimeError "settlement projection generation is missing")
  | Some g =>
      let* _ := refuse (negb (str_eqb (gen_projection_name g) "settlement") || negb (str_in (gen_kind g) ["lineage"; "compact"])
          || negb (opt_is (gen_base g) (mut_base_generation_id m)) || negb (str_eqb (gen_input_fingerprint g) (mut_input_fingerprint m)))
        "settlement projection generation metadata conflicts" in
      let* _ := refuse (negb (opt_is (gen_manifest_checksum g) (mut_manifest_checksum m))) "settlement projection manifest checksum conflicts" in
      let* p' := swap_pointer p g (mut_base_generation_id m) now "settlement active pointer changed before publication"
                   "settlement projection generation is not ready" in
      let key := once_key "finalize-consume-v1:" (mut_parent_job_id m) (mut_input_fingerprint m) in
      record_event (d <| pub_projection := p' |>)
        (MkPublishEvent (event_id_of "event-projection-" (pj_job_id job) key) (pj_job_id job) (Some (stage_run_id stage))
          "settlement_projection_published" "running" "running" (actor_type job) (pj_lease_owner job) "settlement projection published" key
          (publish_payload (mut_generation_id m) (mut_base_generation_id m) (mut_input_fingerprint m) (mut_manifest_checksum m)) now)
        "projection publication once event conflicts"
  end.

(** ** A rebuild *)

(** The claim of a job, for the time of the database; its expiry. *)
Definition live_claim (job : PublishJob) (claim_id : string) (db_now : Z) (msg : string) : result Z :=
  match pj_lease_expires_at job with
  | Some t => let* _ := refuse (negb (str_eqb (pj_status job) "running") || negb (opt_is (pj_claim_token job) claim_id) || (t <=? db_now)) msg in Ok t
  | None => Raise (RuntimeError msg)
  end.

(** [publish_settlement_rebuild] *)
Definition publish_settlement_rebuild (d : publishdb) (job_id claim_id generation_id base_generation_id input_fingerprint manifest_checksum : string)
    (db_now db_later now : Z) : result (publishdb * pydict) :=
  let p := pub_projection d in
  let* _ := sparse_identity (Some job_id) "job_id" in
  let* _ := sparse_identity (Some claim_id) "claim_id" in
  let* _ := sparse_identity (Some generation_id) "generation_id" in
  let* _ := sparse_identity (Some base_generation_id) "base_generation_id" in
  let* _ := digest_value input_fingerprint "input_fingerprint" in
  let* _ := digest_value manifest_checksum "manifest_checksum" in
  match find_job d job_id with
  | None => Raise (RuntimeError "settlement rebuild publication job is invalid")
  | Some job =>
      let* _ := refuse (negb (str_eqb (pj_job_name job) "settlement_rebuild")) "settlement rebuild publication job is invalid" in
      let* expires := live_claim job claim_id db_now "settlement rebuild publication claim is no longer active" in
      let* _ := refuse (bool_decide (active_pointer p = None)) "settlement active pointer is missing" in
      match get_generation p generation_id with
      | None => Raise (RuntimeError "settlement rebuild generation is missing")
      | Some g =>
          let* _ := refuse (negb (str_eqb (gen_projection_name g) "settlement") || negb (str_eqb (gen_kind g) "lineage")
              || negb (opt_is (gen_base g) base_generation_id) || negb (str_eqb (gen_input_fingerprint g) input_fingerprint)
              || match gen_source_job_id g with Some s => negb (str_eqb s job_id) | None => false end)
            "settlement rebuild generation metadata conflicts" in
          let* _ := refuse (negb (opt_is (gen_manifest_checksum g) manifest_checksum)) "settlement rebuild manifest checksum conflicts" in
          let* _ := refuse (expires <=? db_later) "settlement rebuild publication claim expired during lock wait" in
          let* p' := swap_pointer p g base_generation_id now "settlement active pointer changed before rebuild publish"
                       "settlement rebuild generation is not ready" in
          let key := once_key "settlement-rebuild-publish-v1:" job_id input_fingerprint in
          let payload := publish_payload generation_id base_generation_id input_fingerprint manifest_checksum in
          let* d' := record_event (d <| pub_projection := p' |>)
            (MkPublishEvent (event_id_of "event-settlement-rebuild-projection-" job_id key) job_id None "settlement_projection_published"
              (pj_status job) (pj_status job) (actor_type job) (pj_lease_owner job) "settlement rebuild projection published" key payload now)
            "settlement rebuild publication once event conflicts" in
          Ok (d', payload)
      end
  end.

(** ** A compaction *)

Context (reverify : projectiondb -> string -> result unit).

(** [_strict_int] *)
Definition strict_int (v : pyval) (label : string) (nonnegative : bool) : result Z :=
  match v with
  | PInt z => let* _ := raise_if (nonnegative && (z <? 0)) (NamedError "LegacyProjectionBootstrapError" (label +:+ " is negative")) in Ok z
  | _ => Raise (NamedError "LegacyProjectionBootstrapError" (label +:+ " is invalid"))
  end.

(** The checkpoint of a compaction that is ready. *)
Definition check_compaction (c : pydict) (compaction_base manifest_checksum : string) : result unit :=
  let invalid := "settlement compaction checkpoint is invalid" in
  let* _ := refuse (negb (forallb (fun k => dict_mem k c) COMPACTION_CHECKPOINT_KEYS)
      || negb (is_str (dict_get "protocol" c) COMPACTION_PROTOCOL) || negb (is_str (dict_get "operation" c) COMPACTION_OPERATION)
      || negb (is_str (dict_get "phase" c) "ready") || negb (is_none (dict_get "cursor" c))
      || negb (is_str (dict_get "base_generation_id" c) compaction_base) || negb (is_str (dict_get "expected_active_pointer" c) compaction_base)
      || negb (is_str (dict_get "effective_checksum" c) manifest_checksum)) invalid in
  let* size := strict_int (dict_get "batch_size" c) "compaction batch size" false in
  let* _ := refuse (negb ((1 <=? size) && (size <=? MAX_BATCH_SIZE))) invalid in
  foldl (fun acc k => let* _ := acc in let* _ := strict_int (dict_get k c) ("compaction checkpoint " +:+ k) true in Ok tt) (Ok tt)
    ["batch_count"; "partition_count"; "source_generation_count"; "estimated_manifest_rows"; "estimated_write_rows"; "estimated_write_bytes";
     "estimated_wal_bytes"; "estimated_disk_headroom_bytes"].

(** [publish_settlement_compaction] *)
Definition publish_settlement_compaction (d : publishdb) (job_id claim_id generation_id input_fingerprint manifest_checksum : string)
    (db_now db_later now : Z) : result (publishdb * pydict) :=
  let p := pub_projection d in
  let* _ := sparse_identity (Some job_id) "job_id" in
  let* _ := sparse_identity (Some generation_id) "generation_id" in
  let* _ := digest_value input_fingerprint "input_fingerprint" in
  let* _ := digest_value manifest_checksum "manifest_checksum" in
  let* _ := refuse (str_eqb claim_id "" || negb (str_eqb (strip claim_id) claim_id)) "settlement compaction publication claim is required" in
  match find_job d job_id with
  | None => Raise (RuntimeError "settlement compaction publication job is invalid")
  | Some job =>
      let* _ := refuse (negb (str_eqb (pj_job_name job) "settlement_compaction")) "settlement compaction publication job is invalid" in
      let* expires := live_claim job claim_id db_now "settlement compaction publication claim is no longer active" in
      let* _ := refuse (bool_decide (active_pointer p = None)) "settlement active pointer is missing" in
      match get_generation p generation_id with
      | None => Raise (RuntimeError "settlement compaction generation is missing")
      | Some g =>
          match gen_compaction_base g with
          | None => Raise (RuntimeError "settlement compaction generation metadata conflicts")
          | Some base =>
              let* _ := refuse (negb (str_eqb (gen_projection_name g) "settlement") || negb (str_eqb (gen_kind g) "compact")
                  || bool_decide (is_Some (gen_base g)) || negb (gen_lineage_depth g =? 0)
                  || negb (str_eqb (gen_input_fingerprint g) input_fingerprint) || negb (opt_is (gen_manifest_checksum g) manifest_checksum))
                "settlement compaction generation metadata conflicts" in
              let* _ := check_compaction (gen_checkpoint_json g) base manifest_checksum in
              let* p' :=
                if active_is p generation_id && str_eqb (gen_state g) "published" then Ok p
                else
                  let* _ := match reverify p generation_id with
                            | Raise (NamedError cls msg) =>
                                Raise (if str_eqb cls "LegacyProjectionBootstrapError"
                                       then RuntimeError ("settlement compaction publication verification failed: " +:+ msg) else NamedError cls msg)
                            | r => r
                            end in
                  let* _ := refuse (expires <=? db_later) "settlement compaction publication claim expired during lock wait" in
                  let* _ := refuse (negb (str_eqb (gen_state g) "ready") || bool_decide (is_Some (gen_published_at g)))
                              "settlement compaction generation changed during verification" in
                  let* _ := refuse (negb (active_is p base)) "settlement active pointer changed before compaction publish" in
                  Ok (promote p generation_id now) in
              let key := once_key "settlement-compaction-publish-v1:" job_id input_fingerprint in
              let payload := publish_payload generation_id base input_fingerprint manifest_checksum
                ++ [("compaction_protocol", PStr COMPACTION_PROTOCOL)] in
              let* d' := record_event (d <| pub_projection := p' |>)
                (MkPublishEvent (event_id_of "event-settlement-compaction-" job_id key) job_id None "settlement_projection_published"
                  (pj_status job) (pj_status job) (actor_type job) (pj_lease_owner job) "settlement compaction projection published" key payload now)
                "settlement compaction publication once event conflicts" in
              Ok (d', payload)
          end
      end
  end.
End Publish.
