(* ===== verification/SealedReads.v ===== *)
(** * Projection lineage: reads of sealed generations

    A database that keeps the rows of the generations that are live (published or
    superseded) answers every read pinned to one of them as before: the resolver of
    [Lineage] reads the base chain, the closures, the manifests and the row counts of
    live generations only, when the pinned generation is sealed. *)
From S2P Require Import Prelude PyValue FeeLedger FeeProps Lineage LineageProps LineageThms.
#[local] Open Scope Z_scope.
#[local] Set Default Proof Using "Type".
#[local] Notation manifest := SettlementProjectionPartitionManifest.
#[local] Notation generation := SettlementProjectionGeneration.

(** ** Live generations *)

Definition live (p : projectiondb) (id : string) : Prop :=
  exists g, get_generation p id = Some g /\ gen_state g ∈ LIVE_STATES.

(** What belongs to live generations stays as it is. *)
Record keeps (p p' : projectiondb) : Prop := {
  kp_generation : forall id g, get_generation p id = Some g -> gen_state g ∈ LIVE_STATES -> get_generation p' id = Some g;
  kp_manifests : forall P : manifest -> bool, (forall m, P m = true -> live p (man_generation_id m)) ->
    List.filter P (projection_manifests p') = List.filter P (projection_manifests p);
  kp_monthly : forall P : SettlementMonthlyOverlay -> bool, (forall o, P o = true -> live p (mon_generation_id o)) ->
    List.filter P (monthly_overlays p') = List.filter P (monthly_overlays p);
  kp_ranking : forall P : PartitionRow -> bool, (forall o, P o = true -> live p (par_generation_id o)) ->
    List.filter P (ranking_overlays p') = List.filter P (ranking_overlays p);
  kp_score : score_generations p' = score_generations p;
  kp_closures : projection_closures p' = projection_closures p;
}.

Lemma keeps_live p p' id : keeps p p' -> live p id -> live p' id.
Proof. intros Hk (g & Hg & Hs). exists g. split; [by apply (kp_generation p p' Hk)|done]. Qed.

#[export] Instance keeps_preorder : PreOrder keeps.
Proof.
  split.
  - intros p. by split.
  - intros p q r H1 H2. split.
    + intros id g Hg Hs. apply (kp_generation q r H2); [by apply (kp_generation p q H1)|done].
    + intros P HP. rewrite (kp_manifests q r H2) by (intros m Hm; apply (keeps_live p q _ H1); auto). by apply (kp_manifests p q H1).
    + intros P HP. rewrite (kp_monthly q r H2) by (intros m Hm; apply (keeps_live p q _ H1); auto). by apply (kp_monthly p q H1).
    + intros P HP. rewrite (kp_ranking q r H2) by (intros m Hm; apply (keeps_live p q _ H1); auto). by apply (kp_ranking p q H1).
    + by rewrite (kp_score q r H2), (kp_score p q H1).
    + by rewrite (kp_closures q r H2), (kp_closures p q H1).
Qed.

(** A generation all of whose reads are of live generations. *)
Inductive sealed (p : projectiondb) : string -> Prop :=
| sealed_at id g :
    get_generation p id = Some g -> gen_state g ∈ LIVE_STATES -> clean id ->
    (forall b, gen_base g = Some b -> sealed p b) ->
    (forall b, gen_compaction_base g = Some b -> live p b) ->
    (forall x, x ∈ projection_closures p -> clo_compact x = id -> sealed p (clo_source x)) ->
    (forall m data, m ∈ projection_manifests p -> man_generation_id m = id -> man_data_generation_id m = Some data ->
       live p data /\ clean data) ->
    sealed p id.

Lemma sealed_live p id : sealed p id -> live p id.
Proof. intros []. by eexists. Qed.
Lemma sealed_clean p id : sealed p id -> clean id.
Proof. by intros []. Qed.
Lemma get_generation_id p id g : get_generation p id = Some g -> gen_id g = id.
Proof. intros [_ H]%find_some_in. by tests. Qed.
Lemma sealed_name p id g : sealed p id -> get_generation p id = Some g -> as_text (Some (gen_id g)) = Some id.
Proof. intros Hs ->%get_generation_id. by apply (sealed_clean p). Qed.

Lemma sealed_data p id m data : sealed p id -> m ∈ projection_manifests p -> man_generation_id m = id ->
  as_text (man_data_generation_id m) = Some data -> live p data.
Proof.
  intros Hs Hin Hg Hd. destruct (man_data_generation_id m) as [d|] eqn:E; [|done].
  destruct Hs as [id g _ _ _ _ _ _ Hm]. destruct (Hm m d Hin Hg E) as [Hl Hc]. rewrite Hc in Hd. by injection Hd as <-.
Qed.
Lemma sealed_manifest p artifact id key m data :
  sealed p id -> manifest_at p artifact id key = Some m -> as_text (man_data_generation_id m) = Some data -> live p data.
Proof. intros Hs (Hin & _ & Hg & _)%manifest_at_in. by apply (sealed_data p id). Qed.

(** ** Computations that agree *)

(** Two computations end alike, with a value that satisfies [Q] when they return. *)
Definition agree {A} (r r' : result A) (Q : A -> Prop) : Prop := r' = r /\ forall a, r = Ok a -> Q a.

Lemma agree_eq {A} (r : result A) : agree r r (fun a => r = Ok a).
Proof. by split. Qed.
Lemma agree_true {A} (r : result A) : agree r r (fun _ => True).
Proof. by split. Qed.
Lemma agree_ok {A} (a : A) (Q : A -> Prop) : Q a -> agree (Ok a) (Ok a) Q.
Proof. intros H. split; [done|]. by intros b [= <-]. Qed.
Lemma agree_returns {A} (r : result A) Q : returns r Q -> agree r r Q.
Proof. intros H. split; [done|]. intros a ->. done. Qed.
Lemma agree_raise {A} e (Q : A -> Prop) : agree (Raise e) (Raise e) Q.
Proof. by split. Qed.
Lemma agree_error {A} msg (Q : A -> Prop) : agree (lineage_error msg) (lineage_error msg) Q.
Proof. by split. Qed.
Lemma agree_mono {A} (r r' : result A) (P Q : A -> Prop) : agree r r' P -> (forall a, P a -> Q a) -> agree r r' Q.
Proof. intros [E H] HQ. split; [done|]. auto. Qed.
Lemma agree_bind {A B} (r r' : result A) (k k' : A -> result B) P Q :
  agree r r' P -> (forall a, P a -> agree (k a) (k' a) Q) -> agree (result_bind r k) (result_bind r' k') Q.
Proof. intros [-> H] Hk. destruct r as [a|e]; cbn; [by apply Hk, H|apply agree_raise]. Qed.
Lemma agree_fail_if b msg : agree (fail_if b msg) (fail_if b msg) (fun _ => b = false).
Proof. split; [done|]. by intros a ?%fail_if_ok. Qed.
Lemma agree_fold {A S} (f f' : S -> A -> result S) (I : S -> Prop) l :
  (forall s a, a ∈ l -> I s -> agree (f s a) (f' s a) I) -> forall s, I s -> agree (fold_result f s l) (fold_result f' s l) I.
Proof.
  induction l as [|a l IH]; intros Hf s Hs; [by apply agree_ok|]. cbn [fold_result]. eapply agree_bind.
  - apply Hf; [by left|done].
  - intros s' Hs'. apply IH; [|done]. intros s1 b Hb. apply Hf. by right.
Qed.

Section Reads.
Context (p p' : projectiondb) (Hk : keeps p p').

Lemma kept_generation id : live p id -> get_generation p' id = get_generation p id.
Proof using Hk. intros (g & Hg & Hs). rewrite Hg. by apply (kp_generation p p' Hk). Qed.
Lemma kept_manifests_at artifact id key : live p id -> manifests_at p' artifact id key = manifests_at p artifact id key.
Proof using Hk. intros Hl. apply (kp_manifests p p' Hk). intros m Hm. tests. congruence. Qed.
Lemma kept_manifest_at artifact id key : live p id -> manifest_at p' artifact id key = manifest_at p artifact id key.
Proof using Hk. intros Hl. unfold manifest_at. by rewrite kept_manifests_at. Qed.
Lemma kept_manifests_of artifact ids keys : (forall id, id ∈ ids -> live p id) -> manifests_of p' artifact ids keys = manifests_of p artifact ids keys.
Proof using Hk. intros Hl. apply (kp_manifests p p' Hk). intros m Hm. unfold str_in in Hm. tests. by apply Hl. Qed.
Lemma kept_rows artifact id key : live p id -> present_rows p' artifact id key = present_rows p artifact id key.
Proof using Hk.
  intros Hl. unfold present_rows. destruct (str_eqb artifact "monthly"); [|destruct (str_eqb artifact "ranking")].
  - do 2 f_equal. apply (kp_monthly p p' Hk). intros o Ho. tests. congruence.
  - do 2 f_equal. apply (kp_ranking p p' Hk). intros o Ho. tests. congruence.
  - by rewrite (kp_score p p' Hk).
Qed.

(** ** The base chain *)

Lemma kept_chain hops : forall id, sealed p id ->
  base_chain hops p' id = base_chain hops p id /\ forall g, g ∈ base_chain hops p id -> sealed p (gen_id g).
Proof using Hk.
  induction hops as [|hops IH]; intros id Hs; cbn [base_chain]; rewrite (kept_generation id) by (by apply sealed_live);
    destruct (get_generation p id) as [g|] eqn:Eg; try (split; [done|]; by intros ? ?%elem_of_nil).
  - split; [done|]. intros h ->%list_elem_of_singleton. by rewrite (get_generation_id _ _ _ Eg).
  - destruct (gen_base g) as [b|] eqn:Eb.
    + assert (sealed p b) as Hb by (destruct Hs as [? ? E _ _ H]; rewrite E in Eg; injection Eg as <-; by apply H).
      destruct (IH b Hb) as [-> H]. split; [done|]. intros h [ -> |Hh]%elem_of_cons; [by rewrite (get_generation_id _ _ _ Eg)|by apply H].
    + split; [done|]. intros h ->%list_elem_of_singleton. by rewrite (get_generation_id _ _ _ Eg).
Qed.

(** ** Closures *)

Definition sealed_sources (c : closure) : Prop :=
  (forall s, s ∈ cl_compact_sources c -> sealed p s) /\ (forall s, s ∈ cl_ordinary_sources c -> sealed p s).
Definition sealed_context (x : provenance) : Prop := forall q, q ∈ ctx_closures x -> sealed_sources q.2.

Lemma kept_capture compact c x : sealed p (clo_source x) -> sealed_sources c ->
  agree (capture_source p compact c x) (capture_source p' compact c x) sealed_sources.
Proof using Hk.
  intros Hs [H1 H2]. unfold capture_source. rewrite (sealed_clean _ _ Hs : as_text _ = _), kept_generation by (by apply sealed_live).
  eapply agree_bind; [apply agree_fail_if|]. intros _ _. destruct (get_generation p (clo_source x)) as [g|]; [|apply agree_error].
  destruct (valid_digest _) as [dg|]; [|apply agree_error]. destruct (valid_digest _) as [ck|]; [|apply agree_error].
  destruct (_ && _); [|apply agree_error]. do 2 (eapply agree_bind; [apply agree_fail_if|]; intros _ _).
  destruct (opt_is _ "compact"); [eapply agree_bind; [apply agree_fail_if|]; intros _ _|]; apply agree_ok; split; cbn; try done;
    intros s [?| ->%list_elem_of_singleton]%elem_of_app; auto.
Qed.

Lemma closure_rows_in q compact x : x ∈ closure_rows q compact -> x ∈ projection_closures q /\ clo_compact x = compact.
Proof.
  unfold closure_rows. intros H%elem_of_take. destruct H as (i & H & _). apply list_elem_of_lookup_2 in H.
  rewrite merge_sort_Permutation in H. apply list_elem_of_In, filter_In in H as [H E]. tests. split; [by apply list_elem_of_In|done].
Qed.

Lemma kept_closure compact allowed : sealed p compact ->
  agree (verify_compact_closure p compact allowed) (verify_compact_closure p' compact allowed) sealed_sources.
Proof using Hk.
  intros Hs. unfold verify_compact_closure. rewrite kept_generation by (by apply sealed_live).
  destruct (get_generation p compact) as [head|] eqn:Eg; [|apply agree_error].
  destruct Hs as [id g E _ Hc _ Hcb Hcl _]. rewrite E in Eg. injection Eg as ->.
  assert (closure_rows p' id = closure_rows p id) as -> by (unfold closure_rows; by rewrite (kp_closures p p' Hk)).
  destruct (as_text (gen_compaction_base head)) as [base|]; [|apply agree_error].
  eapply agree_bind; [apply agree_fail_if|]. intros _ _.
  assert (match gen_compaction_base head with Some b => get_generation p' b | None => None end
    = match gen_compaction_base head with Some b => get_generation p b | None => None end) as ->.
  { destruct (gen_compaction_base head) as [b|]; [|done]. by apply kept_generation, Hcb. }
  cbv zeta. eapply agree_bind; [apply agree_true|]. intros _ _. eapply agree_bind; [apply agree_fail_if|]. intros _ _.
  eapply agree_bind; [apply agree_fold|].
  - intros c x [Hx Ex]%closure_rows_in HI. apply kept_capture; [by apply Hcl|done].
  - split; by intros ? ?%elem_of_nil.
  - intros c HI. eapply agree_bind; [apply agree_fail_if|]. intros _ _. by apply agree_ok.
Qed.

Lemma kept_verified turns : forall compact allowed x, sealed p compact -> sealed_context x ->
  agree (verified_closure turns p compact allowed x) (verified_closure turns p' compact allowed x)
    (fun s => sealed_sources s.1 /\ sealed_context s.2).
Proof using Hk.
  induction turns as [|turns IH]; intros compact allowed x Hs Hx; cbn [verified_closure]; [apply agree_raise|].
  destruct (str_in compact _); [apply agree_error|]. destruct (find_closure x compact) as [c|] eqn:Ef.
  { apply agree_ok. split; [|done]. by apply (Hx (compact, c)), find_closure_in. }
  cbv zeta. eapply agree_bind; [apply agree_fail_if|]. intros _ _. eapply agree_bind; [by apply kept_closure|]. intros c Hc.
  eapply agree_bind; [apply (agree_fold _ _ sealed_context)|].
  - intros y s Hin Hy. eapply agree_bind; [apply IH; [by apply (proj1 Hc)|done]|]. intros [c' y'] [_ H]. apply agree_ok. exact H.
  - done.
  - intros y Hy. apply agree_ok. split; [done|]. cbn. intros q [Hq|Hq%list_elem_of_singleton]%elem_of_app; [by apply Hy|subst q; exact Hc].
Qed.

(** ** Claims *)

Context (json_loads : string -> option pyval) (artifact : string).

Definition sealed_claim (c : claim) : Prop :=
  sealed p (claim_compact c) /\ forall data, as_text (man_data_generation_id (claim_row c)) = Some data -> live p data.
Definition sealed_active (a : active_claim) : Prop := sealed_sources (active_closure a) /\ live p (active_data a).
Definition live_requirements (r : requirements) : Prop := forall q, q ∈ r -> live p q.1.1.

Lemma kept_open s c : sealed_claim c -> (forall a, a ∈ s.1 -> sealed_active a) -> sealed_context s.2 ->
  agree (open_claim p artifact s c) (open_claim p' artifact s c)
    (fun s => (forall a, a ∈ s.1 -> sealed_active a) /\ sealed_context s.2).
Proof using Hk.
  destruct s as [active x]. intros [Hc Hd] Ha Hx. unfold open_claim. cbv zeta.
  eapply agree_bind; [by apply kept_verified|]. intros [cl x1] [Hcl Hx1]. cbn [fst snd] in *.
  do 2 (eapply agree_bind; [apply agree_fail_if|]; intros _ _).
  destruct (as_text (man_data_generation_id (claim_row c))) as [data|]; [|apply agree_error].
  eapply agree_bind; [apply agree_fail_if|]. intros _ _. apply agree_ok. split; [|done]. cbn [fst].
  destruct (bool_decide _); [done|]. intros a [?|Eq%list_elem_of_singleton]%elem_of_app; [by apply Ha|subst a]. split; [done|by apply Hd].
Qed.

Lemma kept_matches a : sealed_active a ->
  anchor_matches p' artifact a = anchor_matches p artifact a
  /\ forall q, q ∈ anchor_matches p artifact a -> sealed p q.1 /\ manifest_at p artifact q.1 (claim_key (active_of a)) = Some q.2.
Proof using Hk.
  intros [[Hs _] _]. unfold anchor_matches. split.
  - induction (cl_compact_sources (active_closure a)) as [|s l IH]; [done|]. cbn.
    rewrite kept_manifest_at by (apply sealed_live, Hs; by left). rewrite IH; [done|]. intros t Ht. apply Hs. by right.
  - intros q (s & Hin & H)%list_elem_of_omap. destruct (manifest_at p artifact s _) as [m|] eqn:Em; [|done].
    destruct (opt_is _ _); [|done]. injection H as <-. split; [by apply Hs|done].
Qed.

Lemma required_grows r generation key n r' : require_presence r generation key n = Ok r' ->
  live p generation -> live_requirements r -> live_requirements r'.
Proof.
  unfold require_presence. destruct (required r generation key); [|by intros [= <-] Hl Hr q [?|Eq%list_elem_of_singleton]%elem_of_app; [apply Hr|subst q]].
  intros (? & _ & [= <-])%result_bind_Ok. done.
Qed.

Definition sealed_turn (s : list claim * requirements * provenance) : Prop :=
  (forall c, c ∈ s.1.1 -> sealed_claim c) /\ live_requirements s.1.2 /\ sealed_context s.2.

Lemma kept_step s a : sealed_active a -> sealed_turn s ->
  agree (claim_step json_loads p artifact s a) (claim_step json_loads p' artifact s a) sealed_turn.
Proof using Hk.
  destruct s as [[next r] x]. intros Ha (Hn & Hr & Hx). cbn [fst snd] in *. unfold claim_step. cbv zeta.
  destruct (str_in _ _) eqn:El.
  - unfold check_leaf. rewrite kept_manifest_at by (apply bool_decide_eq_true in El; by apply sealed_live, (proj2 (proj1 Ha))).
    eapply agree_bind; [apply agree_true|]. intros _ _. eapply agree_bind; [apply agree_true|]. intros n _.
    eapply agree_bind; [apply agree_eq|]. intros r' Hr'. cbv beta in Hr'. apply agree_ok. split; [done|]. split; [|done].
    eapply required_grows; [done|apply Ha|done].
  - destruct (kept_matches a Ha) as [-> Hm]. destruct (anchor_matches p artifact a) as [|[anchor m] [|? ?]]; try apply agree_error.
    destruct (Hm (anchor, m) ltac:(by left)) as [Hs Hat]. cbn [fst snd] in *.
    eapply agree_bind; [apply agree_fail_if|]. intros _ _. eapply agree_bind; [apply agree_true|]. intros _ _.
    eapply agree_bind; [apply agree_true|]. intros n _. eapply agree_bind; [apply agree_eq|]. intros r' Hr'. cbv beta in Hr'. apply agree_ok.
    split; [|split; [eapply required_grows; [done|apply Ha|done]|done]].
    intros c [?|Eq%list_elem_of_singleton]%elem_of_app; [by apply Hn|subst c]. split; [done|]. intros data. by apply (sealed_manifest p artifact anchor (claim_key (active_of a))).
Qed.

Lemma kept_read pairs : (forall q, q ∈ pairs -> live p q.1) -> read_manifests p' artifact pairs = read_manifests p artifact pairs.
Proof using Hk.
  intros Hl. unfold read_manifests. f_equal. induction pairs as [|q pairs IH]; [done|]. cbn.
  rewrite kept_manifests_at by (apply Hl; by left). rewrite IH; [done|]. intros q' Hq'. apply Hl. by right.
Qed.

Lemma kept_turn pending r x : (forall c, c ∈ pending -> sealed_claim c) -> live_requirements r -> sealed_context x ->
  agree (claims_turn json_loads p artifact pending r x) (claims_turn json_loads p' artifact pending r x) sealed_turn.
Proof using Hk.
  intros Hp Hr Hx. unfold claims_turn.
  eapply agree_bind; [apply (agree_fold _ _ (fun s : list active_claim * provenance => (forall a, a ∈ s.1 -> sealed_active a) /\ sealed_context s.2))|].
  - intros s c Hc [H1 H2]. by apply kept_open; [apply Hp| |].
  - split; [by intros ? ?%elem_of_nil|done].
  - intros [active x1] [Ha Hx1]. cbn [fst snd] in *. cbv zeta. eapply agree_bind; [apply agree_fail_if|]. intros _ _.
    rewrite !kept_read.
    + do 2 (eapply agree_bind; [apply agree_true|]; intros _ _). apply agree_fold; [|split; [by intros ? ?%elem_of_nil|done]].
      intros s a Hin. by apply kept_step, Ha.
    + intros q (l & Hq & (a & -> & Hin)%list_elem_of_fmap)%list_elem_of_join. apply list_elem_of_fmap in Hq as (anchor & -> & Hq).
      apply list_elem_of_In, filter_In in Hin as [Hin _]. apply sealed_live. apply (proj1 (proj1 (Ha a ltac:(by apply list_elem_of_In)))). done.
    + intros q (a & -> & Hin)%list_elem_of_fmap. apply list_elem_of_In, filter_In in Hin as [Hin _]. apply (Ha a). by apply list_elem_of_In.
Qed.

Lemma kept_loop turns : forall pending r x, (forall c, c ∈ pending -> sealed_claim c) -> live_requirements r -> sealed_context x ->
  agree (claims_loop json_loads turns p artifact pending r x) (claims_loop json_loads turns p' artifact pending r x)
    (fun s => live_requirements s.1 /\ sealed_context s.2).
Proof using Hk.
  induction turns as [|turns IH]; intros [|c pending] r x Hp Hr Hx; cbn [claims_loop]; try (by apply agree_ok); [apply agree_raise|].
  eapply agree_bind; [by apply kept_turn|]. intros [[next r'] x'] (H1 & H2 & H3). by apply IH.
Qed.

Lemma kept_claims claims x :
  (forall q, q ∈ claims -> sealed p q.1.1 /\ forall data, as_text (man_data_generation_id q.2) = Some data -> live p data) -> sealed_context x ->
  agree (verify_compact_partition_claims json_loads p artifact claims x) (verify_compact_partition_claims json_loads p' artifact claims x) sealed_context.
Proof using Hk.
  intros Hc Hx. unfold verify_compact_partition_claims. eapply agree_bind; [apply kept_loop|].
  - intros c (q & -> & Hq)%list_elem_of_fmap. by apply Hc.
  - by intros ? ?%elem_of_nil.
  - done.
  - intros [r x'] [Hr Hx']. cbn [fst snd] in *.
    assert (verify_presence p' artifact r = verify_presence p artifact r) as ->.
    { unfold verify_presence. f_equal. clear - Hr Hk. induction r as [|q r IH]; [done|]. cbn.
      rewrite kept_rows by (apply Hr; by left). rewrite IH; [done|]. intros q' Hq'. apply Hr. by right. }
    eapply agree_bind; [apply agree_true|]. intros _ _. by apply agree_ok.
Qed.

(** ** Resolutions *)

Lemma found_in d id key m : find_manifest d id key = Some m -> (id, key, m) ∈ d.
Proof.
  unfold find_manifest. destruct (List.find _ d) as [[[i k] m']|] eqn:E; [|done]. intros [= <-].
  apply find_some_in in E as [Hin E]. cbn in E. tests. by subst.
Qed.

(** The manifests of sealed generations name live data. *)
Lemma live_data ids keys m data : (forall id, id ∈ ids -> sealed p id) -> m ∈ manifests_of p artifact ids keys ->
  as_text (man_data_generation_id m) = Some data -> live p data.
Proof.
  intros Hs (Hin & _ & Hg & _)%in_manifests_of. apply (sealed_data p (man_generation_id m)); [by apply Hs|done|done].
Qed.

Lemma kept_compact keys pinned head x : sealed p pinned -> (forall k, k ∈ keys -> clean k) -> sealed_context x ->
  agree (resolve_compact_partitions json_loads p artifact keys pinned head x)
    (resolve_compact_partitions json_loads p' artifact keys pinned head x) (fun _ => True).
Proof using Hk.
  intros Hs Hkeys Hx. unfold resolve_compact_partitions. eapply agree_bind; [apply agree_fail_if|]. intros _ _.
  destruct (as_text (gen_compaction_base head)) as [base|]; [|apply agree_error].
  eapply agree_bind; [apply agree_fail_if|]. intros _ _. eapply agree_bind; [by apply kept_verified|]. intros [c x1] [_ Hx1]. cbn [fst snd] in *.
  eapply agree_bind; [apply agree_fail_if|]. intros _ _.
  assert (forall id, id ∈ [pinned] -> sealed p id) as Hids by (by intros id ->%list_elem_of_singleton).
  rewrite (kept_manifests_of artifact [pinned] keys) by (intros; by apply sealed_live, Hids).
  eapply agree_bind; [apply agree_returns, (index_head_returns json_loads)|].
  { intros m (_ & _ & Hg%list_elem_of_singleton & Hkk)%in_manifests_of. split; [done|by apply Hkeys]. }
  intros d [-> _].
  eapply agree_bind; [apply agree_returns, (returns_fold _ (fun s : list (string * PartitionResolution) * list (string * string * manifest) =>
    forall q, q ∈ s.2 -> q.1.1 = pinned /\ q.2 ∈ manifests_of p artifact [pinned] keys))|].
  { intros [res claims] key _ HI. unfold compact_key. cbn [fst snd] in *. destruct (find_manifest _ _ _) as [m|] eqn:Ef; [|done].
    eapply returns_bind; [apply compact_resolution_returns|]. intros [r cs] (_ & _ & _ & _ & Hcs & _). cbn [returns fst snd] in *.
    intros q [?|Hq%Hcs]%elem_of_app; [by apply HI|subst q]. split; [done|].
    apply found_in, list_elem_of_fmap in Ef as (m' & E & Hin). by injection E as _ _ ->. }
  { by intros ? ?%elem_of_nil. }
  intros [res claims] Hcl. cbn [fst snd] in *. eapply (agree_bind _ _ _ _ sealed_context).
  - destruct claims as [|q claims]; [by apply agree_ok|]. apply kept_claims; [|done].
    intros q' Hq'. destruct (Hcl q' Hq') as [-> Hm]. split; [done|]. intros data. by eapply live_data.
  - intros x2 _. by apply agree_ok.
Qed.

Lemma kept_presence (needed : requirements) : live_requirements needed ->
  existsb (fun q => present_rows p' artifact q.1.1 q.1.2 <? q.2) needed = existsb (fun q => present_rows p artifact q.1.1 q.1.2 <? q.2) needed.
Proof using Hk.
  induction needed as [|q l IH]; intros H; [done|]. cbn. rewrite kept_rows by (apply H; by left). rewrite IH; [done|].
  intros q' Hq'. apply H. by right.
Qed.

(** What the manifests of a lineage require is of live generations. *)
Lemma live_resolved ids rows d keys l :
  (forall id, id ∈ ids -> sealed p id) -> d = indexed <$> manifests_of p artifact ids l ->
  returns (fold_result (fun acc key => let* r := resolve_key artifact ids rows d key in Ok (acc ++ [(key, r)])) [] keys)
    (fun resolved => forall q data, q ∈ resolved -> res_data q.2 = Some data -> live p data).
Proof.
  intros Hids ->. apply (returns_fold _ (fun resolved : list (string * PartitionResolution) =>
    forall q data, q ∈ resolved -> res_data q.2 = Some data -> live p data)); [|by intros ? ? ?%elem_of_nil].
  intros acc key _ HI. eapply (returns_bind _ _ (fun r => forall data, res_data r = Some data -> live p data)).
  - unfold resolve_key. destruct (select_manifest _ _ _ _) as [[[owner hop] m]|] eqn:Es; [|done].
    assert (m ∈ manifests_of p artifact ids l) as Hm.
    { clear - Es. revert Es. generalize 0. induction rows as [|g rows IH]; intros h; cbn [select_manifest]; [done|].
      destruct (as_text (Some (gen_id g))) as [id|]; [|apply IH]. destruct (find_manifest _ id key) as [m'|] eqn:Ef; [|apply IH].
      intros [= _ _ <-]. apply found_in, list_elem_of_fmap in Ef as (m & E & Hin). by injection E as _ _ ->. }
    destruct (as_text (Some (man_source_kind m))); [|apply returns_error]. eapply returns_bind; [apply returns_fail_if|]. intros _ _.
    destruct (as_text (Some (man_owner_state m))); [|apply returns_error]. cbn. intros data. by eapply live_data.
  - intros r Hr. cbn. intros q data [?|Eq%list_elem_of_singleton]%elem_of_app; [by apply HI|subst q; apply Hr].
Qed.

Lemma live_needed compact d l : (forall r data, r ∈ l -> res_data r = Some data -> live p data) ->
  returns (fold_result (overlay_requirement compact d) [] l) live_requirements.
Proof.
  intros Hl. apply returns_fold; [|by intros ? ?%elem_of_nil]. intros acc r Hr HI. unfold overlay_requirement.
  destruct (str_eqb _ "overlay"); [|done]. destruct (res_data r) as [data|] eqn:Ed; [|done].
  destruct (res_owner r); [|apply returns_error]. destruct (opt_is _ _); [done|]. destruct (find_manifest _ _ _) as [m|]; [|apply returns_error].
  eapply returns_bind; [apply returns_eq, row_count_named|]. intros n _. cbn. destruct (0 <? n); [|done].
  intros q [?|Eq%list_elem_of_singleton]%elem_of_app; [by apply HI|subst q]. by apply (Hl r).
Qed.

Lemma kept_ordinary keys pinned rows first final x :
  (forall g, g ∈ rows -> sealed p (gen_id g)) -> last rows = Some final -> (forall k, k ∈ keys -> clean k) -> sealed_context x ->
  agree (resolve_ordinary json_loads p artifact keys pinned rows first final x)
    (resolve_ordinary json_loads p' artifact keys pinned rows first final x) (fun _ => True).
Proof using Hk.
  intros Hrows Hlast Hkeys Hx. unfold resolve_ordinary. cbv zeta. do 2 (eapply agree_bind; [apply agree_fail_if|]; intros _ _).
  eapply agree_bind; [apply agree_returns, check_lineage_returns; [constructor|done]|]. intros ids (-> & _ & Hok & _). cbn [app].
  assert (forall id, id ∈ generation_name <$> rows -> sealed p id) as Hids.
  { intros id (g & -> & Hg)%list_elem_of_fmap. pose proof (ro_clean rows Hok g Hg) as Hc.
    rewrite (sealed_clean p _ (Hrows g Hg) : as_text _ = _) in Hc. injection Hc as <-. by apply Hrows. }
  eapply agree_bind; [apply agree_true|]. intros _ _. set (compact := if opt_is _ "compact" then _ else _).
  assert (forall c, compact = Some c -> sealed p c) as Hcompact.
  { subst compact. intros c. destruct (opt_is _ "compact"); [|done]. pose proof (Hrows final ltac:(by apply last_Some_elem_of)) as Hf.
    rewrite (sealed_clean p _ Hf : as_text _ = _). by intros [= <-]. }
  eapply (agree_bind _ _ _ _ sealed_context).
  { destruct compact as [c|]; [|by apply agree_ok]. eapply agree_bind; [apply kept_verified; [by apply Hcompact|done]|].
    intros [cl x1] [_ H1]. by apply agree_ok. }
  intros x1 Hx1. rewrite (kept_manifests_of artifact) by (intros; by apply sealed_live, Hids).
  eapply agree_bind; [apply agree_returns, index_manifests_returns|].
  { intros m (_ & _ & Hg & Hkk)%in_manifests_of. split; [by apply (sealed_clean p), Hids|by apply Hkeys]. }
  intros [d claims] Hidx. cbn [fst snd] in Hidx. eapply (agree_bind _ _ _ _ sealed_context).
  { destruct compact as [c|]; [|by apply agree_ok]. apply kept_claims; [|done]. intros q Hq.
    destruct (io_claims _ _ _ _ _ Hidx q Hq) as (m & Hm & ->). split; [|intros data; by eapply live_data].
    apply in_manifests_of in Hm as (_ & _ & Hg & _). by apply Hids. }
  intros x2 _. eapply agree_bind; [eapply agree_returns, (live_resolved _ rows d keys keys Hids), Hidx|]. intros resolved Hres.
  eapply agree_bind; [apply agree_returns, live_needed|].
  { intros r data (q & -> & Hq)%list_elem_of_fmap. by apply Hres. }
  intros needed Hneed. rewrite kept_presence by done. eapply agree_bind; [apply agree_fail_if|]. intros _ _. by apply agree_ok.
Qed.
End Reads.

(** A read pinned to a sealed generation. *)
Lemma sealed_read p p' json_loads artifact values id :
  keeps p p' -> sealed p id -> clean artifact ->
  resolve_projection_partitions json_loads p' artifact values (Some id) no_provenance
  = resolve_projection_partitions json_loads p artifact values (Some id) no_provenance.
Proof.
  intros Hk Hs Ha. unfold resolve_projection_partitions. rewrite Ha.
  assert (sealed_context p no_provenance) as Hx by (by intros ? ?%elem_of_nil).
  refine (proj1 (agree_bind _ _ _ _ _ (fun _ => True) (agree_fail_if _ _) _)). intros _ _.
  eapply agree_bind; [apply agree_returns, bounded_keys_returns; [constructor|by intros ? ?%elem_of_nil]|]. intros keys [_ Hkeys].
  destruct keys as [|k keys']; [by apply agree_ok|]. rewrite (sealed_clean p id Hs : as_text _ = _). cbv zeta.
  destruct (kept_chain p p' Hk (Z.to_nat MAX_LINEAGE_DEPTH) id Hs) as [-> Hc].
  destruct (base_chain _ p id) as [|first rest] eqn:Ec; [apply agree_error|].
  destruct (last (first :: rest)) as [final|] eqn:El; [|apply agree_error].
  eapply agree_bind; [apply agree_fail_if|]. intros _ _. destruct (opt_is _ "compact").
  - eapply agree_bind; [apply agree_fail_if|]. intros _ _. by apply kept_compact.
  - by apply kept_ordinary.
Qed.
