(* ===== verification/PublishProps.v ===== *)
(** * Sparse projections: what builds and publications keep

    The transactions of the workers as steps of the projection tables, in any order
    and with any arguments.  None of them touches what belongs to a live generation,
    and the active pointer moves only from the origin of a generation to the
    generation, so that it never comes back to one it has left. *)
From S2P Require Import Prelude PyValue FeeLedger FeeProps Qualification Lineage LineageProps LineageThms SealedReads Pages Sparse.
#[local] Open Scope Z_scope.
#[local] Set Default Proof Using "Type".
#[local] Notation manifest := SettlementProjectionPartitionManifest.
#[local] Notation generation := SettlementProjectionGeneration.

(** ** Steps *)

Section Steps.
Context (extend_digest : string -> pyval -> string) (empty_digest : string) (manifest_checksum : list manifest -> result string)
        (hexdigest : string -> string) (reverify : projectiondb -> string -> result unit).

(** The transactions on the tables of a projection: the worker that builds a
    generation and those that publish one, and what others do to the jobs. *)
Inductive publish_step (d : publishdb) : publishdb -> Prop :=
| step_claim id base fingerprint depth source job guard p' peer :
    sparse_identity (Some id) "generation_id" = Ok id ->
    claim_generation (pub_projection d) id base fingerprint depth source job guard = Ok (p', peer) ->
    publish_step d (d <| pub_projection := p' |>)
| step_monthly id base month rows guard p' :
    sparse_write_monthly_partition extend_digest empty_digest (pub_projection d) id base month rows guard = Ok p' ->
    publish_step d (d <| pub_projection := p' |>)
| step_ranking id base period month rows guard p' :
    sparse_write_ranking_partition extend_digest empty_digest (pub_projection d) id base period month rows guard = Ok p' ->
    publish_step d (d <| pub_projection := p' |>)
| step_finalize id base affected cumulative batch resumed guard p' r :
    sparse_finalize_generation manifest_checksum (pub_projection d) id base affected cumulative batch resumed guard = Ok (p', r) ->
    publish_step d (d <| pub_projection := p' |>)
| step_ready id base fingerprint guard p' r :
    mark_settlement_sparse_overlay_ready manifest_checksum (pub_projection d) id base fingerprint guard = Ok (p', r) ->
    publish_step d (d <| pub_projection := p' |>)
| step_publish m job stage now d' : apply_mutation hexdigest m d job stage now = Ok d' -> publish_step d d'
| step_rebuild job claim id base fingerprint checksum t t' now d' payload :
    publish_settlement_rebuild hexdigest d job claim id base fingerprint checksum t t' now = Ok (d', payload) -> publish_step d d'
| step_compaction job claim id fingerprint checksum t t' now d' payload :
    publish_settlement_compaction hexdigest reverify d job claim id fingerprint checksum t t' now = Ok (d', payload) -> publish_step d d'
| step_jobs jobs events : publish_step d (d <| pub_jobs := jobs |> <| pub_events := pub_events d ++ events |>).
End Steps.

(** ** Rows of a generation that is not live *)

Lemma get_set_generation p id f id' : (forall g, gen_id (f g) = gen_id g) ->
  get_generation (set_generation p id f) id' = (fun g => if str_eqb (gen_id g) id then f g else g) <$> get_generation p id'.
Proof.
  intros Hf. unfold get_generation, set_generation. cbn. induction (projection_generations p) as [|g l IH]; [done|]. cbn.
  assert (gen_id (if str_eqb (gen_id g) id then f g else g) = gen_id g) as -> by (by destruct (str_eqb _ id)).
  by destruct (str_eqb (gen_id g) id').
Qed.

Lemma get_set_same p id f g : (forall g, gen_id (f g) = gen_id g) -> get_generation p id = Some g ->
  get_generation (set_generation p id f) id = Some (f g).
Proof. intros Hf Hg. rewrite get_set_generation, Hg by done. cbn. by rewrite (get_generation_id _ _ _ Hg), str_eqb_refl. Qed.
Lemma get_set_other p id f id' : (forall g, gen_id (f g) = gen_id g) -> id' <> id ->
  get_generation (set_generation p id f) id' = get_generation p id'.
Proof.
  intros Hf Hn. rewrite get_set_generation by done. destruct (get_generation p id') as [g|] eqn:E; [|done]. cbn.
  rewrite (get_generation_id _ _ _ E). unfold str_eqb. by rewrite bool_decide_false.
Qed.

(** Replacing rows that are not asked for. *)
Lemma filter_replaced {A} (P Q : A -> bool) l w :
  (forall a, P a = true -> Q a = true) -> (forall a, a ∈ w -> P a = false) -> List.filter P (List.filter Q l ++ w) = List.filter P l.
Proof.
  intros HQ Hw. rewrite lfilter_app, (proj2 (lfilter_nil_iff P w) Hw), app_nil_r, filter_filter.
  apply filter_ext_elem. intros a _. destruct (P a) eqn:E; [by rewrite HQ|by rewrite andb_false_r].
Qed.

Definition dead (p : projectiondb) (id : string) : Prop := exists g, get_generation p id = Some g /\ gen_state g ∉ LIVE_STATES.
Lemma dead_not_live p id : dead p id -> ~ live p id.
Proof. intros (g & Hg & Hs) (g' & Hg' & Hs'). congruence. Qed.

Lemma staging_dead : "staging" ∉ LIVE_STATES.
Proof. by apply (bool_decide_unpack _). Qed.
Lemma ready_dead : "ready" ∉ LIVE_STATES.
Proof. by apply (bool_decide_unpack _). Qed.
Lemma published_live : "published" ∈ LIVE_STATES.
Proof. by apply (bool_decide_unpack _). Qed.

Lemma keeps_set_generation p id f : dead p id -> (forall g, gen_id (f g) = gen_id g) -> keeps p (set_generation p id f).
Proof.
  intros Hd Hf. split; try done. intros id' g Hg Hs. rewrite get_set_other; [done|done|]. intros ->.
  apply (dead_not_live _ _ Hd). by exists g.
Qed.
Lemma keeps_set_active p id : keeps p (set_active p id).
Proof. by split. Qed.

Lemma add_monthly_rows extend_digest id rows : forall d written d' written',
  add_monthly extend_digest id rows d written = Ok (d', written') -> (forall o, o ∈ written -> mon_generation_id o = id) ->
  forall o, o ∈ written' -> mon_generation_id o = id.
Proof.
  induction rows as [|r rows IH]; intros d written d' written' H Hw; [by injection H as <- <-|]. cbn [add_monthly] in H.
  apply result_bind_Ok in H as (o & Ho & H). apply result_bind_Ok in H as (? & _ & H). apply (IH _ _ _ _ H).
  intros y [?|Hy%list_elem_of_singleton]%elem_of_app; [by apply Hw|subst y]. unfold sparse_monthly_values in Ho. guards Ho. by injection Ho as <-.
Qed.
Lemma add_ranking_rows extend_digest id period month rows : forall d written d' written',
  add_ranking extend_digest id period month rows d written = Ok (d', written') ->
  (forall o, o ∈ written -> par_generation_id o = id) -> forall o, o ∈ written' -> par_generation_id o = id.
Proof.
  induction rows as [|r rows IH]; intros d written d' written' H Hw; [by injection H as <- <-|]. cbn [add_ranking] in H.
  apply result_bind_Ok in H as (e & He & H). apply result_bind_Ok in H as (? & _ & H). apply (IH _ _ _ _ H).
  intros y [?|Hy%list_elem_of_singleton]%elem_of_app; [by apply Hw|by subst y].
Qed.

Lemma keeps_manifest p id artifact key m : ~ live p id -> man_generation_id m = id ->
  forall P : manifest -> bool, (forall m, P m = true -> live p (man_generation_id m)) ->
  List.filter P (drop_manifests p id artifact key ++ [m]) = List.filter P (projection_manifests p).
Proof.
  intros Hd Hm P HP. apply filter_replaced.
  - intros a Ha. destruct (str_eqb (man_generation_id a) id) eqn:E; [|done]. tests. destruct Hd. rewrite <- E. by apply HP.
  - intros a Ha%list_elem_of_singleton. subst a. destruct (P m) eqn:E; [|done]. destruct Hd. rewrite <- Hm. by apply HP.
Qed.

Lemma writable_dead p id base g : sparse_assert_writable p id base = Ok g -> dead p id /\ get_generation p id = Some g /\ active_is p base = true.
Proof.
  unfold sparse_assert_writable. destruct (get_generation p id) as [g'|] eqn:E; [|done]. intros H. guards H. injection H as <-. tests.
  split; [|done]. exists g'. split; [done|]. rewrite G. apply staging_dead.
Qed.

(** ** Transactions keep live generations *)

Lemma keeps_claim p id base fingerprint depth source job guard p' peer :
  claim_generation p id base fingerprint depth source job guard = Ok (p', peer) -> keeps p p' /\ projection_active p' = projection_active p.
Proof.
  unfold claim_generation. intros H. guards H. destruct (existsb _ _).
  - destruct (get_generation p id); [|done]. guards H. by injection H as <- <-.
  - injection H as <- <-. split; [|done]. split; try done. intros id' g Hg _. unfold get_generation in *. cbn. by apply find_app_some.
Qed.

Lemma keeps_monthly extend_digest empty_digest p id base month rows guard p' :
  sparse_write_monthly_partition extend_digest empty_digest p id base month rows guard = Ok p' -> keeps p p' /\ projection_active p' = projection_active p.
Proof.
  unfold sparse_write_monthly_partition. intros (g & Hw & H)%result_bind_Ok. destruct (writable_dead _ _ _ _ Hw) as (Hd%dead_not_live & _ & _).
  apply result_bind_Ok in H as ([dg written] & Hr & H). apply result_bind_Ok in H as (? & _ & [= <-]). split; [|done]. split; try done.
  - intros P HP. by apply (keeps_manifest p id "monthly" month).
  - intros P HP. apply filter_replaced.
    + intros o Ho. destruct (str_eqb (mon_generation_id o) id) eqn:E; [|done]. tests. destruct Hd. rewrite <- E. by apply HP.
    + intros o Ho. destruct (P o) eqn:E; [|done]. destruct Hd.
      rewrite <- (add_monthly_rows _ _ _ _ _ _ _ Hr ltac:(by intros ? ?%elem_of_nil) o Ho). by apply HP.
Qed.

Lemma keeps_ranking extend_digest empty_digest p id base period month rows guard p' :
  sparse_write_ranking_partition extend_digest empty_digest p id base period month rows guard = Ok p' ->
  keeps p p' /\ projection_active p' = projection_active p.
Proof.
  unfold sparse_write_ranking_partition. cbv zeta. intros (g & Hw & H)%result_bind_Ok.
  destruct (writable_dead _ _ _ _ Hw) as (Hd%dead_not_live & _ & _).
  apply result_bind_Ok in H as ([dg written] & Hr & H). apply result_bind_Ok in H as (? & _ & [= <-]). split; [|done]. split; try done.
  - intros P HP. by apply (keeps_manifest p id "ranking" (ranking_key period month)).
  - intros P HP. apply filter_replaced.
    + intros o Ho. destruct (str_eqb (par_generation_id o) id) eqn:E; [|done]. tests. destruct Hd. rewrite <- E. by apply HP.
    + intros o Ho. destruct (P o) eqn:E; [|done]. destruct Hd.
      rewrite <- (add_ranking_rows _ _ _ _ _ _ _ _ _ Hr ltac:(by intros ? ?%elem_of_nil) o Ho). by apply HP.
Qed.

Lemma keeps_finalize manifest_checksum p id base affected cumulative batch resumed guard p' r :
  sparse_finalize_generation manifest_checksum p id base affected cumulative batch resumed guard = Ok (p', r) ->
  keeps p p' /\ projection_active p' = projection_active p.
Proof.
  unfold sparse_finalize_generation. intros (g & Hw & H)%result_bind_Ok. destruct (writable_dead _ _ _ _ Hw) as (Hd & _ & _).
  cbv zeta in H. guards H. injection H as <- _. split; [by apply keeps_set_generation|done].
Qed.

Lemma keeps_ready manifest_checksum p id base fingerprint guard p' r :
  mark_settlement_sparse_overlay_ready manifest_checksum p id base fingerprint guard = Ok (p', r) ->
  keeps p p' /\ projection_active p' = projection_active p.
Proof.
  unfold mark_settlement_sparse_overlay_ready. destruct (get_generation p id) as [g|] eqn:Eg; [|done]. intros H. guards H.
  destruct (str_in (gen_state g) ["ready"; "published"]) eqn:Es; guards H; injection H as <- _; [done|].
  split; [apply keeps_set_generation; [|done]|done]. exists g. split; [done|].
  unfold str_in in *. tests.
  match goal with H : gen_state g ∈ _ |- _ => apply elem_of_cons in H as [-> |H]; [apply staging_dead|done] end.
Qed.

(** ** The pointer *)

(** The generation a generation was built from. *)
Definition origin (g : generation) : option string := match gen_base g with Some b => Some b | None => gen_compaction_base g end.

Lemma active_set_active p id : active_pointer (set_active p id) = (fun _ => Some id) <$> active_pointer p.
Proof.
  unfold active_pointer, set_active. cbn. induction (projection_active p) as [|a l IH]; [done|]. cbn.
  destruct (str_eqb (act_projection_name a) "settlement") eqn:E; cbn; by rewrite E.
Qed.

(** A pointer that stays, or moves from the origin of a ready generation to it. *)
Definition moved (p p' : projectiondb) : Prop :=
  active_pointer p' = active_pointer p
  \/ exists g g', dead p (gen_id g) /\ get_generation p (gen_id g) = Some g /\ active_pointer p = Some (origin g) /\ is_Some (origin g)
       /\ active_pointer p' = Some (Some (gen_id g)) /\ get_generation p' (gen_id g) = Some g'
       /\ gen_state g' = "published" /\ origin g' = origin g.

Lemma promoted p g base now : get_generation p (gen_id g) = Some g -> gen_state g = "ready" -> origin g = Some base ->
  active_is p base = true -> keeps p (promote p (gen_id g) now) /\ moved p (promote p (gen_id g) now).
Proof.
  intros Hg Hs Ho Ha. assert (dead p (gen_id g)) as Hd by (exists g; split; [done|]; rewrite Hs; apply ready_dead).
  split; [unfold promote; etrans; [|apply keeps_set_active]; by apply keeps_set_generation|]. right. apply opt_is_true in Ha.
  eexists g, _. split; [done|]. split; [done|]. split; [by rewrite Ho|]. split; [by rewrite Ho|].
  split; [unfold promote; rewrite active_set_active; change (active_pointer (set_generation _ _ _)) with (active_pointer p); by rewrite Ha|].
  split; [by apply (get_set_same p); [|exact Hg]|]. done.
Qed.

Lemma swapped p g base now c r p' : get_generation p (gen_id g) = Some g -> origin g = Some base ->
  swap_pointer p g base now c r = Ok p' -> keeps p p' /\ moved p p'.
Proof.
  intros Hg Ho. unfold swap_pointer, refuse. destruct (_ && _); [intros [= <-]; split; [done|by left]|]. intros H. guards H. injection H as <-.
  tests. by apply (promoted p g base now).
Qed.

Lemma recorded d e c d' : record_event d e c = Ok d' -> pub_projection d' = pub_projection d /\ pub_jobs d' = pub_jobs d.
Proof.
  unfold record_event, refuse. destruct (List.find _ _); [intros H; guards H|intros H]; by injection H as <-.
Qed.

(** What a publication that returned has checked, and what it wrote. *)
Lemma mutation_returned hexdigest m d job stage now d' :
  apply_mutation hexdigest m d job stage now = Ok d' ->
  exists g p' c r e msg, get_generation (pub_projection d) (mut_generation_id m) = Some g /\ gen_base g = Some (mut_base_generation_id m)
    /\ swap_pointer (pub_projection d) g (mut_base_generation_id m) now c r = Ok p'
    /\ record_event (d <| pub_projection := p' |>) e msg = Ok d'.
Proof.
  unfold apply_mutation, refuse. cbv zeta. intros H. guards H. destruct (get_generation _ _) as [g|]; [|done]. guards H. tests.
  exists g. eauto 10.
Qed.
Lemma rebuild_returned hexdigest d job claim id base fingerprint checksum t t' now d' payload :
  publish_settlement_rebuild hexdigest d job claim id base fingerprint checksum t t' now = Ok (d', payload) ->
  exists g p' c r e msg, get_generation (pub_projection d) id = Some g /\ gen_base g = Some base
    /\ swap_pointer (pub_projection d) g base now c r = Ok p' /\ record_event (d <| pub_projection := p' |>) e msg = Ok d'.
Proof.
  unfold publish_settlement_rebuild, refuse. cbv zeta. intros H. guards H. destruct (find_job d job); [|done]. guards H.
  destruct (get_generation _ _) as [g|]; [|done]. guards H. tests. injection H as -> <-. exists g. eauto 10.
Qed.
Lemma compaction_returned hexdigest reverify d job claim id fingerprint checksum t t' now d' payload :
  publish_settlement_compaction hexdigest reverify d job claim id fingerprint checksum t t' now = Ok (d', payload) ->
  exists g base p' e msg, get_generation (pub_projection d) id = Some g /\ gen_base g = None /\ gen_compaction_base g = Some base
    /\ (p' = pub_projection d \/ gen_state g = "ready" /\ active_is (pub_projection d) base = true /\ p' = promote (pub_projection d) id now)
    /\ record_event (d <| pub_projection := p' |>) e msg = Ok d'.
Proof.
  unfold publish_settlement_compaction, refuse. cbv zeta. intros H. guards H. destruct (find_job d job); [|done]. guards H.
  destruct (get_generation _ _) as [g|]; [|done]. destruct (gen_compaction_base g) as [base|] eqn:Eb; [|done].
  apply result_bind_Ok in H as (? & Hm & H). apply result_bind_Ok in H as (? & _ & H). apply result_bind_Ok in H as (p' & Hp & H).
  apply result_bind_Ok in H as (d2 & He & [= -> <-]). exists g, base, p'. eexists _, _. split; [done|].
  destruct (gen_base g) eqn:Egb; [by rewrite !orb_true_r in Hm|]. split; [done|]. split; [done|]. split; [|exact He].
  destruct (active_is _ id && _); [left; by injection Hp|right]. guards Hp. injection Hp as <-. by tests.
Qed.

Section Run.
Context (extend_digest : string -> pyval -> string) (empty_digest : string) (manifest_checksum : list manifest -> result string)
        (hexdigest : string -> string) (reverify : projectiondb -> string -> result unit).
#[local] Notation step := (publish_step extend_digest empty_digest manifest_checksum hexdigest reverify).

Lemma step_moves d d' : step d d' -> keeps (pub_projection d) (pub_projection d') /\ moved (pub_projection d) (pub_projection d').
Proof.
  assert (forall p p', keeps p p' /\ projection_active p' = projection_active p -> keeps p p' /\ moved p p') as Hstay.
  { intros p p' [Hk Ha]. split; [done|]. left. unfold active_pointer. by rewrite Ha. }
  destruct 1.
  - by eapply Hstay, keeps_claim.
  - by eapply Hstay, keeps_monthly.
  - by eapply Hstay, keeps_ranking.
  - by eapply Hstay, keeps_finalize.
  - by eapply Hstay, keeps_ready.
  - apply mutation_returned in H as (g & p' & c & r & e & msg & Hg & Hb & Hw & [-> _]%recorded).
    rewrite <- (get_generation_id _ _ _ Hg) in Hg. eapply swapped; [exact Hg| |exact Hw]. unfold origin. by rewrite Hb.
  - apply rebuild_returned in H as (g & p' & c & r & e & msg & Hg & Hb & Hw & [-> _]%recorded).
    rewrite <- (get_generation_id _ _ _ Hg) in Hg. eapply swapped; [exact Hg| |exact Hw]. unfold origin. by rewrite Hb.
  - apply compaction_returned in H as (g & base & p' & e & msg & Hg & Hb & Hc & Hp & [-> _]%recorded). cbn.
    destruct Hp as [-> |(Hs & Ha & ->)]; [split; [done|by left]|]. pose proof (get_generation_id _ _ _ Hg) as E. subst id.
    apply (promoted _ g base now); [done|done| |done]. unfold origin. by rewrite Hb.
  - split; [done|by left].
Qed.

Lemma steps_keep d d' : rtc step d d' -> keeps (pub_projection d) (pub_projection d').
Proof. induction 1 as [|d d1 d2 H _ IH]; [done|]. etrans; [|exact IH]. by apply step_moves. Qed.

(** C12: Readers that pinned a generation are isolated from the workers.  Whatever
    transactions build, certify and publish generations after it (in any order and
    with any arguments, those of another worker included), a read pinned to a sealed
    generation gives what it gave before: the same resolutions, owners, data
    generations and verified provenance, or the same error; and the rows it then reads
    are the same ones. *)
Theorem pinned_reads_stable d d' id :
  rtc step d d' -> sealed (pub_projection d) id ->
  (forall json_loads artifact values, clean artifact ->
     resolve_projection_partitions json_loads (pub_projection d') artifact values (Some id) no_provenance
     = resolve_projection_partitions json_loads (pub_projection d) artifact values (Some id) no_provenance)
  /\ (forall data, live (pub_projection d) data ->
       let own {A} (f : A -> string) (l : list A) := List.filter (fun o => str_eqb (f o) data) l in
       own mon_generation_id (monthly_overlays (pub_projection d')) = own mon_generation_id (monthly_overlays (pub_projection d))
       /\ own par_generation_id (ranking_overlays (pub_projection d')) = own par_generation_id (ranking_overlays (pub_projection d))).
Proof.
  intros Hr Hs. pose proof (steps_keep d d' Hr) as Hk. split.
  - intros json_loads artifact values Ha. by apply sealed_read.
  - intros data Hl own. split; [apply (kp_monthly _ _ Hk)|apply (kp_ranking _ _ Hk)]; intros o E; tests; congruence.
Qed.

(** ** The pointer never comes back *)

Definition active_live (p : projectiondb) : Prop := forall id, active_pointer p = Some (Some id) -> live p id.

Lemma step_active d d' : step d d' -> active_live (pub_projection d) -> active_live (pub_projection d').
Proof.
  intros [Hk [E|(g & g' & _ & _ & _ & _ & E & Hg & Hs & _)]]%step_moves Ha id Hid; rewrite E in Hid.
  - by apply (keeps_live _ _ _ Hk), Ha.
  - injection Hid as <-. exists g'. split; [done|]. rewrite Hs. apply published_live.
Qed.
Lemma steps_active d d' : rtc step d d' -> active_live (pub_projection d) -> active_live (pub_projection d').
Proof. induction 1 as [|d d1 d2 H _ IH]; [done|]. intros Ha. by apply IH, (step_active d). Qed.

(** The last move of the pointer: from the origin of a generation that was not live. *)
Lemma last_move d d' : rtc step d d' ->
  active_pointer (pub_projection d') = active_pointer (pub_projection d)
  \/ exists dm g, rtc step d dm /\ ~ live (pub_projection d) (gen_id g) /\ active_pointer (pub_projection dm) = Some (origin g)
       /\ is_Some (origin g) /\ active_pointer (pub_projection d') = Some (Some (gen_id g)) /\ get_generation (pub_projection d') (gen_id g) = Some g
       /\ gen_state g ∈ LIVE_STATES.
Proof.
  revert d'. apply rtc_ind_r; [by left|]. intros d1 d2 Hr Hs IH.
  destruct (step_moves d1 d2 Hs) as [Hk [E|(g & g' & Hd & Hg & Ho & Hos & Ha & Hg' & Hst & Ho')]].
  - rewrite E. destruct IH as [IH|(dm & g & H1 & H2 & H3 & H4 & H5 & H6 & H7)]; [by left|right].
    exists dm, g. do 5 (split; [done|]). split; [by apply (kp_generation _ _ Hk)|done].
  - right. exists d1, g'. rewrite (get_generation_id _ _ _ Hg'). split; [done|]. split; [|rewrite Ho', Hst; by repeat split; try apply published_live].
    intros Hl. apply (dead_not_live _ _ Hd). by apply (keeps_live _ _ _ (steps_keep d d1 Hr)).
Qed.

Lemma never_returns d d1 d2 id : active_live (pub_projection d) -> active_pointer (pub_projection d) = Some (Some id) ->
  rtc step d d1 -> rtc step d1 d2 -> active_pointer (pub_projection d2) = Some (Some id) -> active_pointer (pub_projection d1) = Some (Some id).
Proof.
  intros Hl Ha H1 H2 E. destruct (last_move d1 d2 H2) as [E2|(dm & g & _ & Hn & _ & _ & E2 & _)]; [by rewrite <- E2|].
  rewrite E in E2. injection E2 as ->. destruct Hn. by apply (keeps_live _ _ _ (steps_keep d d1 H1)), Hl.
Qed.

(** A swap over a base that the pointer has left is refused. *)
Lemma stale_swap d d1 d2 g base now c r : active_live (pub_projection d) -> active_pointer (pub_projection d) = Some (Some base) ->
  rtc step d d1 -> active_pointer (pub_projection d1) <> Some (Some base) -> rtc step d1 d2 ->
  get_generation (pub_projection d2) (gen_id g) = Some g -> gen_base g = Some base ->
  active_pointer (pub_projection d1) <> Some (Some (gen_id g)) ->
  exists e, swap_pointer (pub_projection d2) g base now c r = Raise e.
Proof.
  intros Hl Ha H1 Hn H2 Hg Hb Hg1. assert (origin g = Some base) as Ho by (unfold origin; by rewrite Hb).
  assert (forall dm, rtc step d1 dm -> active_pointer (pub_projection dm) <> Some (Some base)) as Hgone.
  { intros dm Hm E. by apply Hn, (never_returns d d1 dm). }
  unfold swap_pointer, refuse. destruct (active_is _ (gen_id g) && _) eqn:E.
  - exfalso. tests. apply opt_is_true in H.
    destruct (last_move d1 d2 H2) as [E2|(dm & g' & Hm & _ & Hf & _ & E2 & Hg' & _)]; [congruence|].
    rewrite H in E2. injection E2 as E2. rewrite <- E2, Hg in Hg'. injection Hg' as <-. rewrite Ho in Hf. by apply (Hgone dm).
  - destruct (active_is (pub_projection d2) base) eqn:Eb; [|by eexists]. apply opt_is_true in Eb. by destruct (Hgone d2 H2).
Qed.

(** C14: A base has one successor.  When the active pointer stood at a generation and
    another worker has moved it on, no generation built over that base can be published
    any more, at any later time and by either way (the last stage of a day or a
    rebuild): the publication raises and the transaction changes nothing.  The pointer
    never comes back to a generation it has left. *)
Theorem base_published_once d d1 d2 base next :
  active_live (pub_projection d) -> active_pointer (pub_projection d) = Some (Some base) ->
  rtc step d d1 -> active_pointer (pub_projection d1) = Some (Some next) -> next <> base -> rtc step d1 d2 ->
  active_pointer (pub_projection d2) <> Some (Some base)
  /\ (forall m job stage now, mut_base_generation_id m = base -> mut_generation_id m <> next ->
       exists e, apply_mutation hexdigest m d2 job stage now = Raise e)
  /\ (forall job claim id fingerprint checksum t t' now, id <> next ->
       exists e, publish_settlement_rebuild hexdigest d2 job claim id base fingerprint checksum t t' now = Raise e).
Proof.
  intros Hl Ha H1 E1 Hn H2. assert (active_pointer (pub_projection d1) <> Some (Some base)) as Hg1 by congruence.
  split; [intros E; by apply Hg1, (never_returns d d1 d2)|].
  assert (forall g now c r, get_generation (pub_projection d2) (gen_id g) = Some g -> gen_base g = Some base -> gen_id g <> next ->
    exists e, swap_pointer (pub_projection d2) g base now c r = Raise e) as Hs.
  { intros g now c r Hg Hb Hne. apply (stale_swap d d1 d2); try done. congruence. }
  split.
  - intros m job stage now <- Hne. destruct (apply_mutation _ m d2 job stage now) as [d3|e] eqn:E; [|by exists e].
    apply mutation_returned in E as (g & p' & c & r & e & msg & Hg & Hb & Hw & _). pose proof (get_generation_id _ _ _ Hg) as Ei.
    rewrite <- Ei in Hg, Hne. destruct (Hs g now c r Hg Hb Hne) as [e' He]. congruence.
  - intros job claim id fingerprint checksum t t' now Hne.
    destruct (publish_settlement_rebuild _ d2 job claim id base fingerprint checksum t t' now) as [[d3 payload]|e] eqn:E; [|by exists e].
    apply rebuild_returned in E as (g & p' & c & r & e & msg & Hg & Hb & Hw & _). pose proof (get_generation_id _ _ _ Hg) as Ei.
    rewrite <- Ei in Hg, Hne. destruct (Hs g now c r Hg Hb Hne) as [e' He]. congruence.
Qed.
End Run.

(** ** The months of a build *)

Definition value_error {A} (r : result A) : Prop := forall e, r = Raise e -> exists msg, e = ValueError msg.
Lemma value_error_bind {A B} (r : result A) (k : A -> result B) : value_error r -> (forall a, value_error (k a)) -> value_error (result_bind r k).
Proof. intros H1 H2 e. destruct r as [a|e']; cbn; [apply H2|]. intros [= <-]. by apply (H1 e'). Qed.
Lemma value_error_if b msg : value_error (raise_if b (ValueError msg)).
Proof. intros e. destruct b; [|done]. intros [= <-]. by eexists. Qed.
Lemma sparse_month_read s label : value_error (sparse_month (Some s) label) /\ forall s', sparse_month (Some s) label = Ok s' -> s' = s.
Proof. unfold sparse_month. destruct (parse_month s); split; [done|by intros s' [= <-]| |done]. intros e [= <-]. by eexists. Qed.

Lemma set_add_NoDup (a : string) l : NoDup l -> NoDup (set_add a l).
Proof. intros H. unfold set_add. case_bool_decide as E; [done|]. apply NoDup_app. split; [done|]. split; [set_solver|apply NoDup_singleton]. Qed.

Lemma read_months_spec months : forall seen, NoDup seen -> value_error (read_months months seen)
  /\ forall l, read_months months seen = Ok l -> NoDup l /\ forall m, m ∈ l <-> m ∈ months \/ m ∈ seen.
Proof.
  induction months as [|m months IH]; intros seen Hn; cbn [read_months].
  - split; [done|]. intros l [= <-]. split; [done|]. intros x. rewrite elem_of_nil. tauto.
  - destruct (sparse_month_read m "affected month") as [He Hv]. split.
    + apply value_error_bind; [done|]. intros a. by apply IH, set_add_NoDup.
    + intros l (a & ->%Hv & H)%result_bind_Ok. apply IH in H as [Hl Hx]; [|by apply set_add_NoDup]. split; [done|].
      intros x. rewrite Hx, elem_of_set_add, elem_of_cons. tauto.
Qed.

Lemma add_months_spec pairs : forall l, NoDup l -> value_error (add_months pairs l)
  /\ forall l', add_months pairs l = Ok l' -> NoDup l' /\ forall m, m ∈ l' <-> m ∈ l \/ exists q, q ∈ pairs /\ (m = q.1 \/ m = q.2).
Proof.
  induction pairs as [|[a b] pairs IH]; intros l Hn; cbn [add_months].
  - split; [done|]. intros l' [= <-]. split; [done|]. intros x. split; [by left|]. by intros [?|(q & ?%elem_of_nil & _)].
  - destruct (sparse_month_read a "adjustment original month") as [He Hv]. destruct (sparse_month_read b "adjustment posting month") as [He' Hv'].
    split; [apply value_error_bind; [done|]; intros; apply value_error_bind; [done|]; intros; by apply IH, set_add_NoDup, set_add_NoDup|].
    intros l' (a' & ->%Hv & H)%result_bind_Ok. apply result_bind_Ok in H as (b' & ->%Hv' & H).
    apply IH in H as [Hl Hx]; [|by apply set_add_NoDup, set_add_NoDup]. split; [done|]. intros x. rewrite Hx, !elem_of_set_add.
    setoid_rewrite elem_of_cons. split.
    + intros [[->|[->|?]]|(q & ? & ?)]; [right; exists (a, b); auto|right; exists (a, b); auto|by left|right; exists q; auto].
    + intros [?|(q & [->|?] & Hq)]; [tauto|destruct Hq as [->| ->]; cbn; tauto|right; eauto].
Qed.

Lemma chains_spec (pairs : list (string * string)) : forall l : list string, NoDup l -> let l' := foldl (fun acc q => set_add q.2 (set_add q.1 acc)) l pairs in
  NoDup l' /\ forall m, m ∈ l' <-> m ∈ l \/ exists q, q ∈ pairs /\ (m = q.1 \/ m = q.2).
Proof.
  induction pairs as [|q pairs IH]; intros l Hn; cbn [foldl].
  - split; [done|]. intros x. split; [by left|]. by intros [?|(q & ?%elem_of_nil & _)].
  - destruct (IH (set_add q.2 (set_add q.1 l))) as [H1 H2]; [by apply set_add_NoDup, set_add_NoDup|]. split; [done|].
    intros x. cbv zeta in H2. rewrite H2, !elem_of_set_add. setoid_rewrite elem_of_cons. split.
    + intros [[->|[->|?]]|(q' & ? & ?)]; [right; exists q; auto|right; exists q; auto|by left|right; exists q'; auto].
    + intros [?|(q' & [->|?] & Hq)]; [tauto|destruct Hq as [->| ->]; tauto|right; eauto].
Qed.

Lemma in_touching values pairs q : q ∈ touching values pairs <-> q ∈ pairs /\ (q.1 ∈ values \/ q.2 ∈ values).
Proof. unfold touching, str_in. by rewrite list_elem_of_In, filter_In, orb_true_iff, !bool_decide_eq_true, <- list_elem_of_In. Qed.
Lemma touching_perm l l' pairs : l ≡ₚ l' -> touching l pairs = touching l' pairs.
Proof. intros HP. apply filter_ext_in. intros q. unfold str_in. f_equal; apply bool_decide_ext; by rewrite HP. Qed.

Section MonthsClosed.
Context (adjustment_pairs moved_chains : list (string * string)) (limited : list (string * string) -> list (string * string)).
#[local] Notation expand := (expand_turn adjustment_pairs moved_chains limited).

(** Months that the ledger links to the affected ones. *)
Inductive linked (affected : list string) : string -> Prop :=
| linked_affected m : m ∈ affected -> linked affected m
| linked_forward a b : linked affected a -> (a, b) ∈ adjustment_pairs ++ moved_chains -> linked affected b
| linked_back a b : linked affected b -> (a, b) ∈ adjustment_pairs ++ moved_chains -> linked affected a.


(** What a database gives for a query with a limit: some of its rows, all when they are few enough. *)
Class Limited : Prop := {
  limited_in : forall l q, q ∈ limited l -> q ∈ l;
  limited_all : forall l q, Z.of_nat (length l) <= MAX_SETTLEMENT_SPARSE_MONTHS + 1 -> q ∈ l -> q ∈ limited l;
}.
Context {L : Limited}.

Lemma expand_turn_spec values : NoDup values -> value_error (expand values)
  /\ forall l, expand values = Ok l -> NoDup l /\ (forall m, m ∈ values -> m ∈ l) /\ Z.of_nat (length l) <= MAX_SETTLEMENT_SPARSE_MONTHS
    /\ (forall affected, (forall m, m ∈ values -> linked affected m) -> forall m, m ∈ l -> linked affected m)
    /\ (forall a b, (a ∈ values \/ b ∈ values) -> (a, b) ∈ moved_chains -> a ∈ l /\ b ∈ l)
    /\ (Z.of_nat (length (remove_dups (touching values adjustment_pairs))) <= MAX_SETTLEMENT_SPARSE_MONTHS + 1 ->
        forall a b, (a ∈ values \/ b ∈ values) -> (a, b) ∈ adjustment_pairs -> a ∈ l /\ b ∈ l).
Proof using L.
  intros Hn. unfold expand_turn. cbv zeta. destruct (chains_spec (touching values moved_chains) values Hn) as [H1 H2]. cbv zeta in H1, H2.
  set (l1 := foldl _ _ _) in *. set (rows := limited _). destruct (add_months_spec rows l1 H1) as [He Hv].
  split; [apply value_error_bind; [done|]; intros; apply value_error_bind; [apply value_error_if|]; done|].
  intros l (l2 & E2 & H)%result_bind_Ok. apply result_bind_Ok in H as ([] & G%raise_if_ok & [= <-]).
  destruct (Hv l2 E2) as [Hl Hx]. bool_to_prop. split; [done|]. split; [intros m Hm; apply Hx; left; apply H2; by left|]. split; [done|].
  split; [|split].
  - intros affected Hk.
    assert (forall a b, (a, b) ∈ adjustment_pairs ++ moved_chains -> (a ∈ values \/ b ∈ values) -> linked affected a /\ linked affected b) as Hp.
    { intros a b Hin [Ha|Hb]; (split; [|]); try (by apply Hk); [by eapply linked_forward; [apply Hk|]|by eapply linked_back; [apply Hk|]]. }
    intros m [[?|([a b] & [Hq Ht]%in_touching & Hm)]%H2|([a b] & Hq & Hm)]%Hx; [by apply Hk| |].
    + destruct (Hp a b) as [Ha Hb]; [apply elem_of_app; by right|done|]. by destruct Hm as [->| ->].
    + apply limited_in, elem_of_remove_dups, in_touching in Hq as [Hq Ht].
      destruct (Hp a b) as [Ha Hb]; [apply elem_of_app; by left|done|]. by destruct Hm as [->| ->].
  - intros a b Hab Hin. split; apply Hx; left; apply H2; right; exists (a, b); (split; [by apply in_touching|]); [by left|by right].
  - intros Hfew a b Hab Hin. assert ((a, b) ∈ rows) as Hr.
    { apply limited_all; [done|]. by apply elem_of_remove_dups, in_touching. }
    split; apply Hx; right; exists (a, b); (split; [done|]); [by left|by right].
Qed.

(** Sets of one size, one within the other. *)
Lemma same_size (l l' : list string) : NoDup l -> NoDup l' -> (forall m, m ∈ l -> m ∈ l') -> length l' = length l -> forall m, m ∈ l' -> m ∈ l.
Proof.
  intros H1 H2 Hs E. assert (l ≡ₚ l') as HP by (apply submseteq_length_Permutation; [by apply NoDup_submseteq|lia]). intros m. by rewrite HP.
Qed.

Record months_ok (affected months : list string) : Prop := {
  mo_nodup : NoDup months;
  mo_affected : forall m, m ∈ affected -> m ∈ months;
  mo_linked : forall m, m ∈ months -> linked affected m;
}.

Lemma expand_loop_spec affected turns : forall values, months_ok affected values -> Z.of_nat (length values) <= MAX_SETTLEMENT_SPARSE_MONTHS ->
  MAX_SETTLEMENT_SPARSE_MONTHS < Z.of_nat (length values + turns) -> let r := expand_loop adjustment_pairs moved_chains limited turns values in
  value_error r /\ forall months, r = Ok months -> months_ok affected months /\ Sorted month_le months
    /\ (Z.of_nat (length (remove_dups (touching months adjustment_pairs))) <= MAX_SETTLEMENT_SPARSE_MONTHS + 1 -> forall m, linked affected m -> m ∈ months).
Proof using L.
  induction turns as [|turns IH]; intros values [Hn Ha Hl] Hlen Hturns; cbn [expand_loop]; [lia|].
  destruct (expand_turn_spec values Hn) as [He Hv]. destruct (expand values) as [l|e] eqn:E; cbn [result_bind]; [|split; [by intros e' H; apply He|done]].
  destruct (Hv l eq_refl) as (Hnl & Hsub & Hsz & Hlk & Hm & Hp).
  destruct (Nat.eqb_spec (length l) (length values)) as [Es|Es].
  - pose proof (same_size values l Hn Hnl Hsub Es) as Hback. split; [done|]. intros months [= <-].
    pose proof (merge_sort_Permutation month_le values) as HP. split; [split; [by rewrite HP|intros m; rewrite HP; apply Ha|intros m; rewrite HP; apply Hl]|].
    split; [apply Sorted_merge_sort; unfold month_le; apply _|]. rewrite (touching_perm _ values adjustment_pairs HP). intros Hfew m Hm'. rewrite HP.
    assert (forall a b, a ∈ values \/ b ∈ values -> (a, b) ∈ adjustment_pairs ++ moved_chains -> a ∈ values /\ b ∈ values) as Hpair.
    { intros a b Hab [Hin|Hin]%elem_of_app; [destruct (Hp Hfew a b Hab Hin)|destruct (Hm a b Hab Hin)]; auto. }
    induction Hm' as [m Hin|a b _ IHl Hin|a b _ IHl Hin]; [by apply Ha|by apply (Hpair a b); [left|]|by apply (Hpair a b); [right|]].
  - assert (length values <= length l)%nat by (by apply submseteq_length, NoDup_submseteq).
    apply IH; [|done|lia]. split; [done|by auto|by apply Hlk].
Qed.

(** C40: The months of a build are closed.  From the months that a change affects, the
    builder follows adjustments and protected bills to the months they link.  The loop
    ends, whatever the ledger holds: it returns, or raises [ValueError].  What it
    returns is sorted, has no month twice, has the affected months and only months that
    are linked to them; and it has all of them, when at most 121 different pairs of
    months of the adjustments touch them. *)
Theorem build_months_closed affected :
  let r := sparse_expand_affected_months adjustment_pairs moved_chains limited affected in
  value_error r /\ forall months, r = Ok months ->
    NoDup months /\ Sorted month_le months /\ (forall m, m ∈ affected -> m ∈ months) /\ (forall m, m ∈ months -> linked affected m)
    /\ (Z.of_nat (length (remove_dups (touching months adjustment_pairs))) <= MAX_SETTLEMENT_SPARSE_MONTHS + 1 ->
        forall m, m ∈ months <-> linked affected m).
Proof using L.
  unfold sparse_expand_affected_months. cbv zeta. destruct (read_months_spec affected [] ltac:(constructor)) as [He Hv].
  destruct (read_months affected []) as [values|e] eqn:E; cbn [result_bind]; [|split; [by intros e' H; apply He|done]].
  destruct (Hv values eq_refl) as [Hn Hx]. destruct (bool_decide_reflect (values = [])) as [->|Hne]; cbn [raise_if result_bind].
  { split; [|done]. intros e' [= <-]. by eexists. }
  destruct (Z.ltb_spec MAX_SETTLEMENT_SPARSE_MONTHS (Z.of_nat (length values))) as [|Hlen]; cbn [raise_if result_bind].
  { split; [|done]. intros e' [= <-]. by eexists. }
  assert (months_ok affected values) as Hok.
  { split; [done|intros m Hm; apply Hx; by left|intros m [Hm|Hm%elem_of_nil]%Hx; [by apply linked_affected|done]]. }
  destruct (expand_loop_spec affected (S (Z.to_nat MAX_SETTLEMENT_SPARSE_MONTHS)) values Hok Hlen) as [H1 H2].
  { unfold MAX_SETTLEMENT_SPARSE_MONTHS. lia. }
  split; [exact H1|]. intros months Hr. destruct (H2 months Hr) as ([M1 M2 M3] & Hs & Hc). do 4 (split; [done|]).
  intros Hfew m. split; [apply M3|by apply Hc].
Qed.
End MonthsClosed.
