(* ===== verification/PublishThms.v ===== *)
(** * Sparse projections: from a build to its readers

    A publication that is replayed changes nothing; a build that is certified and
    published is what readers of the active generation find, for the partitions it
    built, over what they found before. *)
From S2P Require Import Prelude PyValue FeeLedger FeeProps Qualification Lineage LineageProps LineageThms LineageWitness Pages Sparse SealedReads PublishProps.
#[local] Open Scope Z_scope.
#[local] Set Default Proof Using "Type".
#[local] Notation manifest := SettlementProjectionPartitionManifest.
#[local] Notation generation := SettlementProjectionGeneration.

(** ** Replays *)

(** A generation as its publication leaves it: nothing that is checked before the swap differs. *)
Record same_checks (g g' : generation) : Prop := {
  sc_id : gen_id g' = gen_id g;
  sc_name : gen_projection_name g' = gen_projection_name g;
  sc_kind : gen_kind g' = gen_kind g;
  sc_base : gen_base g' = gen_base g;
  sc_fingerprint : gen_input_fingerprint g' = gen_input_fingerprint g;
  sc_checksum : gen_manifest_checksum g' = gen_manifest_checksum g;
  sc_job : gen_source_job_id g' = gen_source_job_id g;
}.

Lemma active_promoted p id now : active_pointer p <> None -> active_is (promote p id now) id = true.
Proof.
  intros Ha. apply opt_is_true. unfold promote. rewrite active_set_active. change (active_pointer (set_generation _ _ _)) with (active_pointer p).
  by destruct (active_pointer p).
Qed.

(** The swap of a pointer that was swapped. *)
Lemma swap_replayed p g base now c r p' : get_generation p (gen_id g) = Some g -> swap_pointer p g base now c r = Ok p' ->
  exists g', get_generation p' (gen_id g) = Some g' /\ same_checks g g' /\ active_pointer p' <> None
    /\ forall now2, swap_pointer p' g' base now2 c r = Ok p'.
Proof.
  intros Hg. unfold swap_pointer at 1, refuse. destruct (active_is p (gen_id g) && str_eqb (gen_state g) "published") eqn:E.
  - intros [= <-]. exists g. split; [done|]. split; [done|]. split; [|intros now2; unfold swap_pointer; by rewrite E].
    tests. match goal with H : active_is _ _ = true |- _ => apply opt_is_true in H; congruence end.
  - intros H. guards H. injection H as <-. tests. apply opt_is_true in G.
    assert (active_is (promote p (gen_id g) now) (gen_id g) = true) as Ha by (apply active_promoted; congruence).
    eexists. split; [by apply (get_set_same p); [|exact Hg]|]. split; [done|]. split; [by apply opt_is_true in Ha; rewrite Ha|].
    intros now2. unfold swap_pointer. cbn. by rewrite Ha.
Qed.

Lemma pyval_eqb_refl a : pyval_eqb a a = true.
Proof.
  revert a. fix IH 1. intros [|b|z|x|x|x|l|l]; cbn [pyval_eqb]; try done.
  - by destruct b.
  - apply Z.eqb_refl.
  - by apply bool_decide_true.
  - by apply bool_decide_true.
  - apply str_eqb_refl.
  - induction l as [|x l IHl]; [done|]. by rewrite IH, IHl.
  - induction l as [|[i x] l IHl]; [done|]. by rewrite str_eqb_refl, IH, IHl.
Qed.
Lemma same_json_refl a : same_json a a = true.
Proof. apply pyval_eqb_refl. Qed.

(** The event of a once key that was recorded. *)
Lemma event_replayed d e e2 c d' : record_event d e c = Ok d' ->
  pe_job_id e2 = pe_job_id e -> pe_idempotency_key e2 = pe_idempotency_key e -> pe_stage_run_id e2 = pe_stage_run_id e ->
  pe_payload_json e2 = pe_payload_json e -> pe_event_type e = "settlement_projection_published" ->
  record_event d' e2 c = Ok d'.
Proof.
  unfold record_event, refuse. intros H -> -> -> -> Ht. destruct (List.find _ (pub_events d)) as [x|] eqn:E.
  - guards H. injection H as <-. rewrite E. by rewrite G.
  - injection H as <-. change (pub_events (d <| pub_events := _ |>)) with (pub_events d ++ [e]). rewrite (find_snoc _ _ _ E) by (by rewrite !str_eqb_refl). rewrite bool_decide_true by done.
    by rewrite Ht, str_eqb_refl, same_json_refl.
Qed.

Lemma published_again d : d <| pub_projection := pub_projection d |> = d.
Proof. by destruct d. Qed.

(** A claim that was live and has not expired is live. *)
Lemma live_again j claim t u expires msg t1 : live_claim j claim t msg = Ok t1 -> pj_lease_expires_at j = Some expires -> u < expires ->
  t1 = expires /\ live_claim j claim u msg = Ok expires.
Proof.
  unfold live_claim, refuse. intros H E Hu. rewrite E in *. guards H. injection H as <-. split; [done|]. bool_to_prop.
  match goal with A : str_eqb _ _ = true, B : opt_is _ _ = true |- _ => rewrite A, B end. by destruct (Z.leb_spec expires u); [lia|].
Qed.

Section Replay.
Context (hexdigest : string -> string).

(** What a call checks before the swap, it checks again. *)
Lemma rebuild_replayed d job claim id base fingerprint checksum t t' now d' payload :
  publish_settlement_rebuild hexdigest d job claim id base fingerprint checksum t t' now = Ok (d', payload) ->
  forall j expires u u' later, find_job d job = Some j -> pj_lease_expires_at j = Some expires -> u < expires -> u' < expires ->
  publish_settlement_rebuild hexdigest d' job claim id base fingerprint checksum u u' later = Ok (d', payload).
Proof.
  intros H j expires u u' later Hj He Hu Hu'. unfold publish_settlement_rebuild, refuse in *. cbv zeta in *. rewrite Hj in H.
  guards H. destruct (get_generation (pub_projection d) id) as [g|] eqn:Eg; [|done].
  guards H. rename G10 into Gt. match goal with G : swap_pointer _ _ _ _ _ _ = Ok ?p1, E : record_event _ _ _ = Ok ?d1 |- _ => rename G into Hw, E into Hr end.
  injection H as -> <-. pose proof (get_generation_id _ _ _ Eg) as Ei. destruct (recorded _ _ _ _ Hr) as [Ep Ej]. cbn in Ep, Ej.
  rewrite <- Ei in Eg. destruct (swap_replayed _ _ _ _ _ _ _ Eg Hw) as (g' & Hg' & [E1 E2 E3 E4 E5 E6 E7] & Ha & Hw'). rewrite Ei in Hg'.
  assert (find_job d' job = Some j) as -> by (unfold find_job in *; by rewrite Ej). cbn [result_bind]. rewrite G5. cbn [raise_if result_bind].
  destruct (live_again j claim t u expires _ _ G6 He Hu) as [-> ->]. cbn [result_bind]. rewrite Ep, bool_decide_false by done. cbn [raise_if result_bind].
  rewrite Hg', E2, E3, E4, E5, E6, E7, G8, G9. cbn [raise_if result_bind].
  destruct (Z.leb_spec expires u'); [lia|]. cbn [raise_if result_bind]. rewrite Hw'. cbn [result_bind].
  rewrite <- Ep, published_again. erewrite event_replayed; [|exact Hr|done..]. done.
Qed.

Lemma mutation_replayed m d job stage now d' : apply_mutation hexdigest m d job stage now = Ok d' ->
  forall later, apply_mutation hexdigest m d' job stage later = Ok d'.
Proof.
  intros H later. unfold apply_mutation, refuse in *. cbv zeta in *. guards H.
  destruct (get_generation (pub_projection d) (mut_generation_id m)) as [g|] eqn:Eg; [|done]. guards H.
  match goal with G : swap_pointer _ _ _ _ _ _ = Ok _ |- _ => rename G into Hw end.
  pose proof (get_generation_id _ _ _ Eg) as Ei. destruct (recorded _ _ _ _ H) as [Ep _]. cbn in Ep.
  rewrite <- Ei in Eg. destruct (swap_replayed _ _ _ _ _ _ _ Eg Hw) as (g' & Hg' & [E1 E2 E3 E4 E5 E6 E7] & Ha & Hw'). rewrite Ei in Hg'.
  cbn [raise_if result_bind]. rewrite Ep, bool_decide_false by done. cbn [raise_if result_bind].
  rewrite Hg', E2, E3, E4, E5, E6, G1, G2. cbn [raise_if result_bind]. rewrite Hw'. cbn [result_bind].
  rewrite <- Ep, published_again. eapply event_replayed; [exact H|done..].
Qed.

(** C39: A publication takes effect once.  When a worker repeats the publication of a
    generation (a rebuild whose claim is still live, or the last stage of a day, after a
    crash between the commit and its acknowledgement), the call returns the same
    payload and leaves the tables as they are: the pointer is not moved again, the
    publication time is not touched and no second event is recorded. *)
Theorem publication_replayed :
  (forall d job claim id base fingerprint checksum t t' now d' payload,
     publish_settlement_rebuild hexdigest d job claim id base fingerprint checksum t t' now = Ok (d', payload) ->
     forall j expires u u' later, find_job d job = Some j -> pj_lease_expires_at j = Some expires -> u < expires -> u' < expires ->
     publish_settlement_rebuild hexdigest d' job claim id base fingerprint checksum u u' later = Ok (d', payload))
  /\ (forall m d job stage now d', apply_mutation hexdigest m d job stage now = Ok d' ->
     forall later, apply_mutation hexdigest m d' job stage later = Ok d').
Proof. split; intros; [by eapply rebuild_replayed|by eapply mutation_replayed]. Qed.
End Replay.

(** ** What a build writes *)

Lemma lfilter_all {A} (P : A -> bool) l : (forall a, a ∈ l -> P a = true) -> List.filter P l = l.
Proof.
  induction l as [|a l IH]; intros H; [done|]. cbn. rewrite (H a) by left. f_equal. apply IH. intros b Hb. apply H. by right.
Qed.

(** The rows of a partition after they were replaced. *)
Lemma filter_written {A} (P Q : A -> bool) l w :
  (forall a, P a = true -> Q a = false) -> (forall a, a ∈ w -> P a = true) -> List.filter P (List.filter Q l ++ w) = w.
Proof.
  intros HQ Hw. rewrite lfilter_app, (lfilter_all P w Hw), filter_filter, (proj2 (lfilter_nil_iff _ l)); [done|].
  intros a _. destruct (P a) eqn:E; [by rewrite HQ|by rewrite andb_false_r].
Qed.

Section Written.
Context (extend_digest : string -> pyval -> string).

Lemma add_monthly_spec id month rows : forall d written d' written',
  (forall r, r ∈ rows -> mr_month r = Some month) -> add_monthly extend_digest id rows d written = Ok (d', written') ->
  exists w, written' = written ++ w /\ pd_row_count d' = pd_row_count d + Z.of_nat (length w)
    /\ forall o, o ∈ w -> mon_generation_id o = id /\ mon_partition_key o = month /\ mon_tombstone o = false.
Proof.
  induction rows as [|r rows IH]; intros d written d' written' Hm H; cbn [add_monthly] in H.
  { injection H as <- <-. exists []. rewrite app_nil_r. split; [done|]. split; [cbn; lia|]. by intros ? ?%elem_of_nil. }
  apply result_bind_Ok in H as (o & Ho & H). apply result_bind_Ok in H as (? & _ & H).
  apply IH in H as (w & -> & Hc & Hw); [|intros r' Hr'; apply Hm; by right]. exists (o :: w). rewrite <- app_assoc. split; [done|].
  split; [rewrite Hc; cbn; lia|]. intros y [->|Hy]%elem_of_cons; [|by apply Hw].
  unfold sparse_monthly_values in Ho. rewrite (Hm r) in Ho by left. unfold sparse_month in Ho. guards Ho. injection Ho as <-.
  cbn. destruct (parse_month month); [|done]. by injection G as <-.
Qed.

Lemma add_ranking_spec id period month rows : forall d written d' written',
  add_ranking extend_digest id period month rows d written = Ok (d', written') ->
  exists w, written' = written ++ w /\ pd_row_count d' = pd_row_count d + Z.of_nat (length w)
    /\ forall o, o ∈ w -> par_generation_id o = id /\ par_partition_key o = ranking_key period month /\ par_tombstone o = false.
Proof.
  induction rows as [|r rows IH]; intros d written d' written' H; cbn [add_ranking] in H.
  { injection H as <- <-. exists []. rewrite app_nil_r. split; [done|]. split; [cbn; lia|]. by intros ? ?%elem_of_nil. }
  apply result_bind_Ok in H as (o & Ho & H). apply result_bind_Ok in H as (? & _ & H).
  apply IH in H as (w & -> & Hc & Hw). eexists (_ :: w). rewrite <- app_assoc. split; [done|].
  split; [rewrite Hc; cbn; lia|]. by intros y [->|Hy]%elem_of_cons; [|apply Hw].
Qed.

End Written.

(** A manifest that replaced the one of its partition. *)
Lemma manifest_written p p' id artifact key m :
  projection_manifests p' = drop_manifests p id artifact key ++ [m] ->
  man_generation_id m = id -> man_artifact m = artifact -> man_partition_key m = key ->
  manifest_at p' artifact id key = Some m
  /\ forall a i k, (a, i, k) <> (artifact, id, key) -> manifest_at p' a i k = manifest_at p a i k.
Proof.
  intros E <- <- <-. unfold manifest_at, manifests_at. rewrite E. split.
  - unfold drop_manifests. rewrite filter_written; [done| |].
    + intros x Hx. tests. destruct x. cbn in *. subst. by rewrite !str_eqb_refl.
    + intros x Hx%list_elem_of_singleton. subst x. by rewrite !str_eqb_refl.
  - intros a i k Hn. f_equal. unfold drop_manifests. apply filter_replaced.
    + intros x Hx. apply negb_true_iff. destruct (str_eqb (man_generation_id x) _ && _ && _) eqn:Ex; [|done]. tests. subst. destruct Hn. congruence.
    + intros x Hx%list_elem_of_singleton. subst x. destruct (_ && _ && _) eqn:Ex; [|done]. tests. subst. by destruct Hn.
Qed.

(** A generation under construction: the partitions in [K] are written, with as many
    rows as their manifests count, and nothing else of it is. *)
Record building (p0 p : projectiondb) (id base : string) (K : string -> string -> Prop) : Prop := {
  bd_keeps : keeps p0 p;
  bd_active : projection_active p = projection_active p0;
  bd_written : forall a k, K a k -> exists dg, manifest_at p a id k = Some (sparse_manifest_values id base a k dg)
    /\ pd_row_count dg = present_rows p a id k;
  bd_rest : forall a k, ~ K a k -> manifest_at p a id k = None;
  bd_own : forall m data, m ∈ projection_manifests p -> man_generation_id m = id -> man_data_generation_id m = Some data -> data = id;
  bd_generation : exists g, get_generation p id = Some g /\ gen_base g = Some base /\ gen_compaction_base g = None;
}.

Lemma building_ext p0 p id base (K K' : string -> string -> Prop) :
  (forall a k, K a k <-> K' a k) -> building p0 p id base K -> building p0 p id base K'.
Proof. intros E [H1 H2 H3 H4 H5 H6]. split; try done; intros a k; rewrite <- E; auto. Qed.

Lemma own_written p p' id base artifact key dg :
  projection_manifests p' = drop_manifests p id artifact key ++ [sparse_manifest_values id base artifact key dg] ->
  (forall m data, m ∈ projection_manifests p -> man_generation_id m = id -> man_data_generation_id m = Some data -> data = id) ->
  forall m data, m ∈ projection_manifests p' -> man_generation_id m = id -> man_data_generation_id m = Some data -> data = id.
Proof.
  intros -> H m data [Hm|Hm%list_elem_of_singleton]%elem_of_app.
  - apply list_elem_of_In, filter_In in Hm as [Hm _]. apply H. by apply list_elem_of_In.
  - subst m. cbn. destruct (0 <? _); [|done]. by intros _ [= <-].
Qed.

(** One partition more. *)
Lemma building_partition p0 p p' id base K artifact key dg :
  building p0 p id base K -> keeps p p' -> projection_active p' = projection_active p -> projection_generations p' = projection_generations p ->
  projection_manifests p' = drop_manifests p id artifact key ++ [sparse_manifest_values id base artifact key dg] ->
  pd_row_count dg = present_rows p' artifact id key ->
  (forall a k, (a, k) <> (artifact, key) -> present_rows p' a id k = present_rows p a id k) ->
  building p0 p' id base (fun a k => K a k \/ (a = artifact /\ k = key)).
Proof.
  intros [H1 H2 H3 H4 H5 H6] Hk Ha Hg Hm Hc Hr. destruct (manifest_written p p' id artifact key _ Hm eq_refl eq_refl eq_refl) as [E1 E2]. split.
  - by etrans.
  - congruence.
  - intros a k HK. destruct (decide ((a, k) = (artifact, key))) as [[= -> ->]|Hn]; [by exists dg|].
    destruct HK as [HK|[-> ->]]; [|done]. destruct (H3 a k HK) as (dg' & Hd & Hn'). exists dg'. rewrite E2 by congruence. by rewrite Hr.
  - intros a k HK. rewrite E2; [apply H4; tauto|]. intros [= -> ->]. tauto.
  - by eapply own_written.
  - unfold get_generation in *. by rewrite Hg.
Qed.

Lemma rows_kept {A} (f : A -> bool) (Q : A -> bool) l w : (forall a, f a = true -> Q a = true) -> (forall a, a ∈ w -> f a = false) ->
  Z.of_nat (length (List.filter f (List.filter Q l ++ w))) = Z.of_nat (length (List.filter f l)).
Proof. intros H1 H2. by rewrite filter_replaced. Qed.

Section Builder.
Context (extend_digest : string -> pyval -> string) (empty_digest : string).

Lemma building_monthly p0 p id base K month rows guard p' : (forall r, r ∈ rows -> mr_month r = Some month) ->
  building p0 p id base K -> sparse_write_monthly_partition extend_digest empty_digest p id base month rows guard = Ok p' ->
  building p0 p' id base (fun a k => K a k \/ (a = "monthly" /\ k = month)).
Proof.
  intros Hm Hb Hw. destruct (keeps_monthly _ _ _ _ _ _ _ _ _ Hw) as [Hk Ha]. unfold sparse_write_monthly_partition in Hw.
  apply result_bind_Ok in Hw as (g & _ & H). apply result_bind_Ok in H as ([dg w] & Hr & H). apply result_bind_Ok in H as (? & _ & [= <-]).
  apply (add_monthly_spec _ _ month) in Hr as (w' & -> & Hc & Hw); [|done]. cbn in Hc.
  eapply (building_partition p0 p _ id base K "monthly" month dg); try done.
  - rewrite Hc. unfold present_rows. rewrite str_eqb_refl. cbn. rewrite filter_written; [lia| |].
    + intros o Ho. tests. by rewrite H, H1, !str_eqb_refl.
    + intros o (-> & -> & ->)%Hw. by rewrite !str_eqb_refl.
  - intros a k Hn. unfold present_rows. cbn. destruct (str_eqb a "monthly") eqn:E; [|done]. apply str_eqb_true in E as ->. apply rows_kept.
    + intros o Ho. apply negb_true_iff. destruct (str_eqb (mon_partition_key o) month) eqn:Eo; [|by rewrite andb_false_r]. tests. destruct Hn. congruence.
    + intros o (-> & -> & ->)%Hw. rewrite str_eqb_refl. destruct (str_eqb month k) eqn:Eo; [|done]. tests. destruct Hn. congruence.
Qed.

Lemma building_ranking p0 p id base K period month rows guard p' :
  building p0 p id base K -> sparse_write_ranking_partition extend_digest empty_digest p id base period month rows guard = Ok p' ->
  building p0 p' id base (fun a k => K a k \/ (a = "ranking" /\ k = ranking_key period month)).
Proof.
  intros Hb Hw. destruct (keeps_ranking _ _ _ _ _ _ _ _ _ _ Hw) as [Hk Ha]. unfold sparse_write_ranking_partition in Hw. cbv zeta in Hw.
  apply result_bind_Ok in Hw as (g & _ & H). apply result_bind_Ok in H as ([dg w] & Hr & H). apply result_bind_Ok in H as (? & _ & [= <-]).
  apply add_ranking_spec in Hr as (w' & -> & Hc & Hw). cbn in Hc. set (key := ranking_key period month) in *.
  eapply (building_partition p0 p _ id base K "ranking" key dg); try done.
  - rewrite Hc. unfold present_rows. rewrite str_eqb_refl. cbn [monthly_overlays]. change (str_eqb "ranking" "monthly") with false. cbn. rewrite filter_written; [lia| |].
    + intros o Ho. tests. by rewrite H, H1, !str_eqb_refl.
    + intros o (-> & -> & ->)%Hw. by rewrite !str_eqb_refl.
  - intros a k Hn. unfold present_rows. cbn. destruct (str_eqb a "monthly") eqn:E0; [done|].
    destruct (str_eqb a "ranking") eqn:E; [|done]. apply str_eqb_true in E as ->. apply rows_kept.
    + intros o Ho. apply negb_true_iff. destruct (str_eqb (par_partition_key o) key) eqn:Eo; [|by rewrite andb_false_r]. tests. destruct Hn. congruence.
    + intros o (-> & -> & ->)%Hw. rewrite str_eqb_refl. destruct (str_eqb key k) eqn:Eo; [|done]. tests. destruct Hn. congruence.
Qed.

End Builder.

(** The partitions of a list, one after another. *)
Lemma building_partitions {A} (write : projectiondb -> A -> nat -> result projectiondb) artifact (key : A -> string) p0 id base :
  (forall p K a n p', building p0 p id base K -> write p a n = Ok p' ->
     building p0 p' id base (fun b k => K b k \/ (b = artifact /\ k = key a))) ->
  forall l p K n p' n', building p0 p id base K -> write_partitions write p n l = (p', Ok n') ->
    building p0 p' id base (fun b k => K b k \/ (b = artifact /\ k ∈ key <$> l)).
Proof.
  intros Hw. induction l as [|a l IH]; intros p K n p' n' Hb H; cbn [write_partitions] in H.
  - injection H as <- _. eapply building_ext; [|exact Hb]. intros b k. cbn. split; [by left|]. by intros [?|[_ ?%elem_of_nil]].
  - destruct (write p a n) as [p1|] eqn:E; [|done]. eapply building_ext; [|by eapply IH; [eapply Hw|]].
    intros b k. cbn. rewrite elem_of_cons. tauto.
Qed.

Lemma building_set p0 p id base K f : building p0 p id base K -> keeps p (set_generation p id f) ->
  (forall g, gen_id (f g) = gen_id g /\ gen_base (f g) = gen_base g /\ gen_compaction_base (f g) = gen_compaction_base g) ->
  building p0 (set_generation p id f) id base K.
Proof.
  intros [H1 H2 H3 H4 H5 (g & Hg & Hb & Hc)] Hk Hf. split; try done; [by etrans|].
  exists (f g). split; [by apply get_set_same; [apply Hf|]|]. by rewrite (proj1 (proj2 (Hf g))), (proj2 (proj2 (Hf g))).
Qed.

Lemma building_claimed p0 id base fingerprint depth source job guard p peer :
  get_generation p0 id = None -> (forall m, m ∈ projection_manifests p0 -> man_generation_id m <> id) ->
  claim_generation p0 id base fingerprint depth source job guard = Ok (p, peer) -> building p0 p id base (fun _ _ => False).
Proof.
  intros Hg Hm H. destruct (keeps_claim _ _ _ _ _ _ _ _ _ _ H) as [Hk Ha]. unfold claim_generation in H. guards H.
  rewrite Hg in H. destruct (existsb _ _); [done|]. injection H as <- _. split; try done.
  - intros b k _. unfold manifest_at. cbn. unfold manifests_at. cbn. rewrite (proj2 (lfilter_nil_iff _ _)); [done|].
    intros m Hin. destruct (str_eqb (man_generation_id m) id) eqn:E; [|by rewrite andb_false_r]. apply str_eqb_true in E. by destruct (Hm m Hin).
  - intros m data Hin E. by destruct (Hm m Hin).
  - eexists. split; [unfold get_generation in *; cbn; by rewrite (find_snoc _ _ _ Hg) by apply str_eqb_refl|done].
Qed.

(** ** Readers of a live generation *)

Lemma sealed_kept p p' id : keeps p p' -> sealed p id -> sealed p' id.
Proof.
  intros Hk. induction 1 as [id g Hg Hs Hc _ IHb Hcb _ IHc Hm]. apply (sealed_at p' id g); try done.
  - by apply (kp_generation p p' Hk).
  - intros b E. by apply (keeps_live p p' b Hk), Hcb.
  - intros x. rewrite (kp_closures p p' Hk). apply IHc.
  - intros m data Hin E Hd. destruct (Hm m data) as [Hl Hcl]; [|done|done|split; [by apply (keeps_live p p' _ Hk)|done]].
    assert (m ∈ List.filter (fun m => str_eqb (man_generation_id m) id) (projection_manifests p')) as H.
    { apply list_elem_of_In, filter_In. split; [by apply list_elem_of_In|by rewrite E, str_eqb_refl]. }
    rewrite (kp_manifests p p' Hk) in H by (intros m' Em; apply str_eqb_true in Em; rewrite Em; by exists g).
    apply list_elem_of_In, filter_In in H as [H _]. by apply list_elem_of_In.
Qed.

Lemma lineage_kept p p' id rows : keeps p p' -> sealed p id -> lineage p id rows ->
  lineage p' id rows /\ forall g, g ∈ rows -> sealed p (gen_id g).
Proof.
  intros Hk Hs Hl. induction Hl as [id g Hg Hb|id g b rows Hg Hb _ IH].
  - split; [apply lineage_root; [by rewrite (kept_generation p p' Hk) by (by apply sealed_live)|done]|].
    intros h ->%list_elem_of_singleton. by rewrite (get_generation_id _ _ _ Hg).
  - assert (sealed p b) as Hsb by (destruct Hs as [? ? E _ _ H]; rewrite E in Hg; injection Hg as ->; by apply H).
    destruct (IH Hsb) as [H1 H2]. split; [apply (lineage_base p' id g b); [by rewrite (kept_generation p p' Hk) by (by apply sealed_live)|done|done]|].
    intros h [->|Hh]%elem_of_cons; [by rewrite (get_generation_id _ _ _ Hg)|by apply H2].
Qed.

Lemma sealed_generation_name p g : sealed p (gen_id g) -> generation_name g = gen_id g.
Proof. intros H%sealed_clean. unfold clean in H. unfold generation_name. by rewrite <- (as_text_strip _ _ H). Qed.

Lemma nearest_kept p p' artifact key rows : keeps p p' -> (forall g, g ∈ rows -> sealed p (gen_id g)) ->
  nearest p' artifact key rows = nearest p artifact key rows.
Proof.
  intros Hk. induction rows as [|g rows IH]; intros Hs; [done|]. cbn [nearest].
  rewrite (sealed_generation_name p g), (kept_manifest_at p p' Hk) by (try apply sealed_live; apply Hs; by left).
  destruct (manifest_at p _ _ _); [done|]. apply IH. intros h Hh. apply Hs. by right.
Qed.

Lemma identity_clean s label s' : sparse_identity (Some s) label = Ok s' -> s' = s /\ clean s.
Proof.
  unfold sparse_identity. destruct (str_eqb s "" || negb (str_eqb (strip s) s)) eqn:E; [done|]. intros [= <-]. split; [done|].
  tests. unfold clean. cbn. unfold blank. match goal with H : strip s = s |- _ => rewrite H end.
  match goal with H : str_eqb s "" = false |- _ => by rewrite H end.
Qed.

Lemma written_count id base artifact key dg : 0 <= pd_row_count dg ->
  row_count (sparse_manifest_values id base artifact key dg) = Ok (pd_row_count dg).
Proof. intros H. unfold row_count, manifest_integer. cbn. by destruct (Z.ltb_spec (pd_row_count dg) 0); [lia|]. Qed.
Lemma present_nonneg p artifact id key : 0 <= present_rows p artifact id key.
Proof. unfold present_rows. repeat case_match; lia. Qed.

(** Promoting a generation that was built over the active one. *)
Lemma built_promoted p0 p p' id base K rows :
  building p0 p id base K -> sealed p0 base -> lineage p0 base rows -> clean id -> (forall x, x ∈ projection_closures p0 -> clo_compact x <> id) ->
  keeps p p' -> projection_manifests p' = projection_manifests p -> (forall a k, present_rows p' a id k = present_rows p a id k) ->
  forall g, get_generation p' id = Some g -> gen_state g ∈ LIVE_STATES -> gen_base g = Some base -> gen_compaction_base g = None ->
  sealed p' id /\ lineage p' id (g :: rows)
  /\ forall artifact key,
    (K artifact key -> exists m, nearest p' artifact key (g :: rows) = Some (g, m) /\ row_count m = Ok (present_rows p' artifact id key)
       /\ man_data_generation_id m = (if 0 <? present_rows p' artifact id key then Some id else None))
    /\ (~ K artifact key -> nearest p' artifact key (g :: rows) = nearest p0 artifact key rows).
Proof.
  intros [H1 H2 H3 H4 H5 H6] Hs Hl Hc Hcl Hk Hm Hr g Hg Hst Hb Hcb. assert (keeps p0 p') as Hk' by (by etrans).
  destruct (lineage_kept p0 p' base rows Hk' Hs Hl) as [Hl' Hrows]. assert (live p' id) as Hlive by (by exists g).
  assert (generation_name g = id) as Hn by (unfold generation_name; rewrite (get_generation_id _ _ _ Hg); by rewrite <- (as_text_strip _ _ Hc)).
  assert (forall a k, manifest_at p' a id k = manifest_at p a id k) as Hat by (intros; unfold manifest_at, manifests_at; by rewrite Hm).
  split; [|split; [by apply (lineage_base p' id g base)|]].
  - apply (sealed_at p' id g); try done.
    + intros b. rewrite Hb. intros [= <-]. by apply (sealed_kept p0).
    + intros b. by rewrite Hcb.
    + intros x. rewrite (kp_closures _ _ Hk'). intros Hx E. by destruct (Hcl x Hx).
    + intros m data. rewrite Hm. intros Hin E Hd. by rewrite (H5 m data Hin E Hd).
  - intros artifact key. cbn [nearest]. rewrite Hn, Hat. split.
    + intros HK. destruct (H3 artifact key HK) as (dg & -> & E). eexists. split; [done|]. rewrite Hr, <- E. split; [|done].
      apply written_count. rewrite E. apply present_nonneg.
    + intros HK. rewrite (H4 _ _ HK). by apply nearest_kept.
Qed.

Section Published.
Context (extend_digest : string -> pyval -> string) (empty_digest : string) (manifest_checksum : list manifest -> result string)
        (plan_months : projectiondb -> list string -> list string -> result (list string * list string))
        (monthly_query : projectiondb -> string -> list MonthlyRow)
        (ranking_query : projectiondb -> string -> list string -> Z -> string -> list RankingRow).

(** The partitions of a build over [affected] and [cumulative] months. *)
Definition built (affected cumulative : list string) (artifact key : string) : Prop :=
  artifact = "monthly" /\ key ∈ affected
  \/ artifact = "ranking" /\ (key ∈ ranking_key 1 <$> affected \/ key ∈ ranking_key 2 <$> cumulative).

Context (query_month : forall p month row, row ∈ monthly_query p month -> mr_month row = Some month).

Lemma preflight_returned p id base months batch fingerprint b affected cumulative existing :
  sparse_preflight plan_months p id base months batch fingerprint = Ok (b, affected, cumulative, existing) ->
  clean id /\ active_pointer p = Some (Some base) /\ existing = get_generation p id
  /\ exists ids, sparse_base_chain p base = Ok (b, ids) /\ plan_months p months ids = Ok (affected, cumulative).
Proof.
  unfold sparse_preflight. intros (i & [-> Hc]%identity_clean & H)%result_bind_Ok. apply result_bind_Ok in H as (b0 & [-> _]%identity_clean & H).
  cbv zeta in H. apply result_bind_Ok in H as (? & _ & H). apply result_bind_Ok in H as (? & _ & H). apply result_bind_Ok in H as (? & _ & H).
  apply result_bind_Ok in H as ([] & Ha%raise_if_ok & H). apply result_bind_Ok in H as ([base' ids] & Hb & H).
  apply result_bind_Ok in H as ([af cu] & Hp & H). apply result_bind_Ok in H as (? & _ & H). apply result_bind_Ok in H as (? & _ & H).
  injection H as <- <- <- <-. apply negb_false_iff, opt_is_true in Ha. split; [done|]. split; [done|]. split; [done|]. by exists ids.
Qed.

Lemma building_finished p0 p id base K affected cumulative batch resumed guard p' r :
  building p0 p id base K -> sparse_finalize_generation manifest_checksum p id base affected cumulative batch resumed guard = Ok (p', r) ->
  building p0 p' id base K.
Proof.
  intros Hb Hf. destruct (keeps_finalize _ _ _ _ _ _ _ _ _ _ _ Hf) as [Hk _]. unfold sparse_finalize_generation in Hf. cbv zeta in Hf.
  guards Hf. injection Hf as <- _. by apply building_set.
Qed.
Lemma building_ready p0 p id base K fingerprint guard p' r :
  building p0 p id base K -> mark_settlement_sparse_overlay_ready manifest_checksum p id base fingerprint guard = Ok (p', r) ->
  building p0 p' id base K.
Proof.
  intros Hb Hf. destruct (keeps_ready _ _ _ _ _ _ _ _ Hf) as [Hk _]. unfold mark_settlement_sparse_overlay_ready in Hf. cbv zeta in Hf.
  destruct (get_generation p id) as [g|]; [|done]. guards Hf. destruct (str_in _ ["ready"; "published"]); guards Hf; injection Hf as <- _; [done|].
  by apply building_set.
Qed.

Lemma build_built p0 id base months batch fingerprint job guards p ms :
  get_generation p0 id = None -> (forall m, m ∈ projection_manifests p0 -> man_generation_id m <> id) ->
  build_settlement_sparse_overlay extend_digest empty_digest manifest_checksum plan_months monthly_query ranking_query
    p0 id base months batch fingerprint job guards = (p, Ok ms) ->
  clean id /\ active_pointer p0 = Some (Some base)
  /\ exists ids affected cumulative, plan_months p0 months ids = Ok (affected, cumulative) /\ building p0 p id base (built affected cumulative).
Proof using query_month.
  intros Hg Hm H. unfold build_settlement_sparse_overlay in H.
  destruct (sparse_preflight _ _ _ _ _ _ _) as [[[[b affected] cumulative] existing]|] eqn:Ep; [|done].
  apply preflight_returned in Ep as (Hc & Ha & -> & ids & _ & Hp). split; [done|]. split; [done|]. exists ids, affected, cumulative. split; [done|].
  rewrite Hg in H. cbv zeta in H. destruct (claim_generation _ _ _ _ _ _ _ _) as [[p1 peer]|] eqn:Ec; [|done].
  apply building_claimed in Ec; [|done|done].
  destruct (write_partitions _ p1 1 affected) as [p2 [n2|]] eqn:E2; [|done].
  eapply (building_partitions _ "monthly" (fun m : string => m)) in E2; [|intros; eapply building_monthly; [|done|done]; intros r; apply query_month|exact Ec].
  destruct (write_partitions _ p2 n2 affected) as [p3 [n3|]] eqn:E3; [|done].
  eapply (building_partitions _ "ranking" (ranking_key 1)) in E3; [|intros; by eapply building_ranking|exact E2].
  destruct (write_partitions _ p3 n3 cumulative) as [p4 [n4|]] eqn:E4; [|done].
  eapply (building_partitions _ "ranking" (ranking_key 2)) in E4; [|intros; by eapply building_ranking|exact E3].
  destruct (sparse_finalize_generation _ _ _ _ _ _ _ _ _) as [[p5 r]|] eqn:E5; [|done]. injection H as <- _.
  eapply building_finished in E5; [|exact E4]. eapply building_ext; [|exact E5]. intros a k. cbn. unfold built. rewrite list_fmap_id. tauto.
Qed.

(** C13: From a rebuild to its readers.  When a rebuild over the active generation
    returns, is certified and published, the active generation is the new one, its
    lineage is itself and the lineage of its base, and it is sealed.  For a month (or
    a ranking of a month) that was rebuilt, its readers find the manifest of the new
    generation, which counts exactly the rows that the new generation holds and names
    it as the owner of the data, or nobody when there are no rows; for every other
    partition they find what the readers of the base found before. *)
Theorem rebuild_published hexdigest p0 rows id base months batch fingerprint job guards p1 ms guard p2 r jobs events claim checksum t t' now d payload :
  get_generation p0 id = None -> (forall m, m ∈ projection_manifests p0 -> man_generation_id m <> id) ->
  (forall x, x ∈ projection_closures p0 -> clo_compact x <> id) -> sealed p0 base -> lineage p0 base rows ->
  build_settlement_sparse_overlay extend_digest empty_digest manifest_checksum plan_months monthly_query ranking_query
    p0 id base months batch fingerprint (Some job) guards = (p1, Ok ms) ->
  mark_settlement_sparse_overlay_ready manifest_checksum p1 id base fingerprint guard = Ok (p2, r) ->
  publish_settlement_rebuild hexdigest (MkPublishDb p2 jobs events) job claim id base fingerprint checksum t t' now = Ok (d, payload) ->
  let p := pub_projection d in
  exists ids affected cumulative g, plan_months p0 months ids = Ok (affected, cumulative)
    /\ active_pointer p = Some (Some id) /\ gen_state g = "published" /\ sealed p id /\ lineage p id (g :: rows)
    /\ forall artifact key,
      (built affected cumulative artifact key -> exists m, nearest p artifact key (g :: rows) = Some (g, m)
         /\ row_count m = Ok (present_rows p artifact id key)
         /\ man_data_generation_id m = (if 0 <? present_rows p artifact id key then Some id else None))
      /\ (~ built affected cumulative artifact key -> nearest p artifact key (g :: rows) = nearest p0 artifact key rows).
Proof using query_month.
  intros Hg Hm Hcl Hs Hl Hbuild Hready Hpub p. destruct (build_built _ _ _ _ _ _ _ _ _ _ Hg Hm Hbuild) as (Hc & Ha & ids & af & cu & Hp & Hb).
  eapply building_ready in Hready; [|exact Hb]. apply rebuild_returned in Hpub as (g & p' & c & e1 & e & msg & Hg2 & Hgb & Hw & [Ep _]%recorded).
  cbn in Hg2, Hw, Ep. subst p. rewrite Ep. clear Ep. pose proof (get_generation_id _ _ _ Hg2) as Ei.
  assert (active_pointer p2 = Some (Some base)) as Ha2 by (unfold active_pointer in *; by rewrite (bd_active _ _ _ _ _ Hready)).
  assert (id <> base) as Hne.
  { intros ->. destruct (sealed_live _ _ Hs) as (? & ? & _). congruence. }
  unfold swap_pointer, refuse in Hw. rewrite Ei in Hw.
  assert (active_is p2 id = false) as E by (unfold active_is, opt_is; apply bool_decide_eq_false_2; congruence).
  rewrite E in Hw. cbn [andb] in Hw. guards Hw. injection Hw as <-. tests.
  assert (get_generation (promote p2 id now) id = Some (g <| gen_state := "published" |> <| gen_published_at := Some now |>)) as Hg3
    by (unfold promote; change (get_generation (set_active ?q _) id) with (get_generation q id); by rewrite (get_set_same p2 id _ g)).
  destruct (bd_generation _ _ _ _ _ Hready) as (g' & Hg' & _ & Hcb). rewrite Hg2 in Hg'. injection Hg' as <-.
  assert (keeps p2 (promote p2 id now)) as Hk.
  { unfold promote. etrans; [|apply keeps_set_active]. apply keeps_set_generation; [|done]. exists g. split; [done|].
    match goal with H : gen_state g = "ready" |- _ => rewrite H end. apply ready_dead. }
  eexists ids, af, cu, _. split; [done|]. split; [apply opt_is_true, active_promoted; congruence|]. split; [shelve|].
  eapply built_promoted; try done. apply published_live.
  Unshelve. done.
Qed.
End Published.

(** ** Builds are sequences of steps *)

Section BuildSteps.
Context (extend_digest : string -> pyval -> string) (empty_digest : string) (manifest_checksum : list manifest -> result string)
        (hexdigest : string -> string) (reverify : projectiondb -> string -> result unit).
#[local] Notation step := (publish_step extend_digest empty_digest manifest_checksum hexdigest reverify).
#[local] Notation at_ d p := (d <| pub_projection := p |>).

Lemma step_to d p p' : step (at_ d p) (at_ (at_ d p) p') -> step (at_ d p) (at_ d p').
Proof. done. Qed.

Lemma partitions_steps {A} (write : projectiondb -> A -> nat -> result projectiondb) d :
  (forall p a n p', write p a n = Ok p' -> step (at_ d p) (at_ d p')) ->
  forall l p n p' r, write_partitions write p n l = (p', r) -> rtc step (at_ d p) (at_ d p').
Proof.
  intros Hw. induction l as [|a l IH]; intros p n p' r H; cbn [write_partitions] in H; [by injection H as <- _|].
  destruct (write p a n) as [p1|] eqn:E; [|by injection H as <- _]. eapply rtc_l; [by eapply Hw|]. by eapply IH.
Qed.

(** A build, also one that fails on the way, is made of the transactions of its worker. *)
Lemma build_steps plan_months monthly_query ranking_query d p id base months batch fingerprint job guards p' r :
  build_settlement_sparse_overlay extend_digest empty_digest manifest_checksum plan_months monthly_query ranking_query
    p id base months batch fingerprint job guards = (p', r) -> rtc step (at_ d p) (at_ d p').
Proof.
  unfold build_settlement_sparse_overlay. intros H.
  destruct (sparse_preflight _ _ _ _ _ _ _) as [[[[b affected] cumulative] existing]|] eqn:Ep; [|by injection H as <- _].
  assert (sparse_identity (Some id) "generation_id" = Ok id) as Hid.
  { unfold sparse_preflight in Ep. apply result_bind_Ok in Ep as (i & Hi & _). rewrite Hi. f_equal. by apply identity_clean in Hi as [-> _]. }
  destruct (match existing with Some _ => _ | None => false end); [by injection H as <- _|]. cbv zeta in H.
  match type of H with context [match ?c with Ok _ => _ | Raise _ => _ end] => destruct c as [[p1 peer]|] eqn:Ec end; [|by injection H as <- _].
  assert (rtc step (at_ d p) (at_ d p1)) as R1.
  { destruct existing; [by injection Ec as <- _|]. apply rtc_once, step_to. eapply step_claim; [exact Hid|exact Ec]. }
  etrans; [exact R1|]. clear R1 Ec.
  match type of H with context [write_partitions ?w p1 1 affected] => destruct (write_partitions w p1 1 affected) as [p2 r2] eqn:E2 end.
  assert (rtc step (at_ d p1) (at_ d p2)) as R.
  { eapply partitions_steps; [|exact E2]. intros q a n q' Hq. apply step_to. eapply step_monthly. exact Hq. }
  etrans; [exact R|]. clear R E2. destruct r2 as [n2|]; [|by injection H as <- _].
  match type of H with context [write_partitions ?w p2 n2 affected] => destruct (write_partitions w p2 n2 affected) as [p3 r3] eqn:E3 end.
  assert (rtc step (at_ d p2) (at_ d p3)) as R.
  { eapply partitions_steps; [|exact E3]. intros q a n q' Hq. apply step_to. eapply step_ranking. exact Hq. }
  etrans; [exact R|]. clear R E3. destruct r3 as [n3|]; [|by injection H as <- _].
  match type of H with context [write_partitions ?w p3 n3 cumulative] => destruct (write_partitions w p3 n3 cumulative) as [p4 r4] eqn:E4 end.
  assert (rtc step (at_ d p3) (at_ d p4)) as R.
  { eapply partitions_steps; [|exact E4]. intros q a n q' Hq. apply step_to. eapply step_ranking. exact Hq. }
  etrans; [exact R|]. clear R E4. destruct r4 as [n4|]; [|by injection H as <- _].
  destruct (sparse_finalize_generation _ _ _ _ _ _ _ _ _) as [[p5 r5]|] eqn:E5; [|by injection H as <- _]. injection H as <- _.
  apply rtc_once, step_to. eapply step_finalize. exact E5.
Qed.

(** A rebuild from its start to its publication. *)
Lemma rebuild_run plan_months monthly_query ranking_query p0 id base months batch fingerprint job guards p1 r1 guard p2 r2 jobs events
    claim checksum t t' now d payload :
  build_settlement_sparse_overlay extend_digest empty_digest manifest_checksum plan_months monthly_query ranking_query
    p0 id base months batch fingerprint (Some job) guards = (p1, r1) ->
  mark_settlement_sparse_overlay_ready manifest_checksum p1 id base fingerprint guard = Ok (p2, r2) ->
  publish_settlement_rebuild hexdigest (MkPublishDb p2 jobs events) job claim id base fingerprint checksum t t' now = Ok (d, payload) ->
  rtc step (MkPublishDb p0 jobs events) d.
Proof.
  intros Hb Hr Hp. etrans; [exact (build_steps _ _ _ (MkPublishDb p0 jobs events) _ _ _ _ _ _ _ _ _ _ Hb)|].
  eapply rtc_l; [apply step_to; eapply step_ready; exact Hr|]. apply rtc_once. eapply step_rebuild. exact Hp.
Qed.
End BuildSteps.

(** ** An example

    October is rebuilt over a generation [g2] that stands on a compact one, and
    November is new: the rebuild [g3] has a row of November and none of October. *)

Definition digest_e : string := text (repeat (Ascii.ascii_of_nat 101) 64).
Definition digest_f : string := text (repeat (Ascii.ascii_of_nat 102) 64).
Definition same_digest (s : string) (_ : pyval) : string := s.
Definition sum_f (_ : list manifest) : result string := Ok digest_f.
Definition plan_two (_ : projectiondb) (_ _ : list string) : result (list string * list string) := Ok (["2026-10"; "2026-11"], ["2026-11"]).
Definition month_row (p : projectiondb) (month : string) : list MonthlyRow :=
  if str_eqb month "2026-11" then [MkMonthlyRow (Some month) (Some "s1") (Some "all") (Some "all") 1 9000 1 9000 9000 900 0 0 0 0 1] else [].
Definition no_ranking (p : projectiondb) (id : string) (months : list string) (period : Z) (month : string) : list RankingRow := [].
Definition plain_hash (s : string) : string := s.
Definition no_reverify (p : projectiondb) (id : string) : result unit := Raise (NamedError "LegacyProjectionBootstrapError" "none").
Definition no_guards (_ : nat) : result unit := Ok tt.

Definition example_build : projectiondb * result ProjectionManifestSet :=
  build_settlement_sparse_overlay same_digest digest_a sum_f plan_two month_row no_ranking example_projection "g3" "g2"
    ["2026-10"; "2026-11"] 100 digest_e (Some "job4") no_guards.
Definition example_built : ProjectionManifestSet :=
  match example_build.2 with Ok ms => ms | Raise _ => MkManifestSet "" "" [] [] 0 0 "" false end.
Definition example_ready : projectiondb * result ProjectionManifestSet :=
  match mark_settlement_sparse_overlay_ready sum_f example_build.1 "g3" "g2" digest_e (Ok tt) with
  | Ok q => q
  | Raise e => (example_build.1, Raise e)
  end.
Definition example_publish_job : PublishJob :=
  MkPublishJob "job4" "settlement_rebuild" None None "running" (Some "claim") (Some "worker-1") (Some 100).
Definition example_start : publishdb := MkPublishDb example_projection [example_publish_job] [].
Definition example_published : publishdb * pydict :=
  match publish_settlement_rebuild plain_hash (MkPublishDb example_ready.1 [example_publish_job] []) "job4" "claim" "g3" "g2" digest_e digest_f 10 20 30 with
  | Ok q => q
  | Raise _ => (example_start, [])
  end.

Example example_build_ok :
  build_settlement_sparse_overlay same_digest digest_a sum_f plan_two month_row no_ranking example_projection "g3" "g2"
    ["2026-10"; "2026-11"] 100 digest_e (Some "job4") no_guards = (example_build.1, Ok example_built).
Proof. vm_compute. reflexivity. Qed.
Example example_ready_ok :
  mark_settlement_sparse_overlay_ready sum_f example_build.1 "g3" "g2" digest_e (Ok tt) = Ok (example_ready.1, example_ready.2).
Proof. vm_compute. reflexivity. Qed.
Example example_publish_ok :
  publish_settlement_rebuild plain_hash (MkPublishDb example_ready.1 [example_publish_job] []) "job4" "claim" "g3" "g2" digest_e digest_f 10 20 30
  = Ok (example_published.1, example_published.2).
Proof. vm_compute. reflexivity. Qed.
(** November has a row of the new generation, October none. *)
Example example_manifests : (fun m => (man_artifact m, man_partition_key m, man_owner_state m, man_row_count m))
  <$> List.filter (fun m => str_eqb (man_generation_id m) "g3") (projection_manifests (pub_projection example_published.1))
  = [("monthly", "2026-10", "tombstone", PInt 0); ("monthly", "2026-11", "owned", PInt 1); ("ranking", "monthly:2026-10", "tombstone", PInt 0);
     ("ranking", "monthly:2026-11", "tombstone", PInt 0); ("ranking", "cumulative:2026-11", "tombstone", PInt 0)].
Proof. vm_compute. reflexivity. Qed.

(** Cases on the rows of a table that is written out. *)
Ltac each_row H E := repeat (apply elem_of_cons in H as [-> |H]; [cbn in E; try discriminate E|]); try (by apply elem_of_nil in H).

Ltac each_id H := repeat (apply elem_of_cons in H as [-> |H]); try (by apply elem_of_nil in H).

Lemma example_live id : id ∈ ["g0"; "g1"; "c1"; "g2"] -> live example_projection id /\ clean id.
Proof.
  intros H. each_id H; (split; [eexists; split; [reflexivity|by apply (bool_decide_unpack _)]|done]).
Qed.

Lemma example_sealed id : id ∈ ["g0"; "g1"; "c1"; "g2"] -> sealed example_projection id.
Proof.
  assert (sealed example_projection "g0") as H0.
  { eapply sealed_at; [reflexivity|by apply (bool_decide_unpack _)|done|done|done| |].
    - intros x Hx E. unfold example_projection in Hx. cbn [projection_closures] in Hx. each_row Hx E.
    - intros m data Hm E Hd. unfold example_projection in Hm. cbn [projection_manifests] in Hm.
      each_row Hm E; injection Hd as <-; apply example_live; set_solver. }
  assert (sealed example_projection "g1") as H1.
  { eapply sealed_at; [reflexivity|by apply (bool_decide_unpack _)|done|by intros b [= <-]|done| |].
    - intros x Hx E. unfold example_projection in Hx. cbn [projection_closures] in Hx. each_row Hx E.
    - intros m data Hm E Hd. unfold example_projection in Hm. cbn [projection_manifests] in Hm.
      each_row Hm E; injection Hd as <-; apply example_live; set_solver. }
  assert (sealed example_projection "c1") as Hc.
  { eapply sealed_at; [reflexivity|by apply (bool_decide_unpack _)|done|done| | |].
    - intros b [= <-]. apply example_live. set_solver.
    - intros x Hx E. unfold example_projection in Hx. cbn [projection_closures] in Hx. each_row Hx E; done.
    - intros m data Hm E Hd. unfold example_projection in Hm. cbn [projection_manifests] in Hm.
      each_row Hm E; injection Hd as <-; apply example_live; set_solver. }
  intros Hid. each_id Hid; try done.
  eapply sealed_at; [reflexivity|by apply (bool_decide_unpack _)|done|by intros b [= <-]|done| |].
  - intros x Hx E. unfold example_projection in Hx. cbn [projection_closures] in Hx. each_row Hx E.
  - intros m data Hm E Hd. unfold example_projection in Hm. cbn [projection_manifests] in Hm.
    each_row Hm E; injection Hd as <-; apply example_live; set_solver.
Qed.

(** The build, its certification and its publication as a run of the step relation. *)
#[local] Notation example_step := (publish_step same_digest digest_a sum_f plain_hash no_reverify).
Lemma example_run : rtc example_step example_start example_published.1.
Proof. exact (rebuild_run _ _ _ _ _ _ _ _ _ _ _ _ _ _ _ _ _ _ _ _ _ _ _ _ _ _ _ _ _ _ example_build_ok example_ready_ok example_publish_ok). Qed.

(** The pinned generation [g2] stands on a compact generation; the run is the rebuild. *)
Lemma pinned_reads_stable_witness :
  resolve_projection_partitions no_json (pub_projection example_published.1) "monthly" ["2026-10"; "2026-08"; "2026-11"] (Some "g2") no_provenance
  = resolve_projection_partitions no_json example_projection "monthly" ["2026-10"; "2026-08"; "2026-11"] (Some "g2") no_provenance.
Proof.
  refine (proj1 (pinned_reads_stable same_digest digest_a sum_f plain_hash no_reverify example_start example_published.1 "g2" example_run _) _ _ _ _).
  - apply example_sealed. set_solver.
  - reflexivity.
Defined.

Lemma example_active_live : active_live example_projection.
Proof. intros id E. vm_compute in E. injection E as <-. apply example_live. set_solver. Qed.

(** Another rebuild of [g2], by any job and claim, is refused after the publication. *)
Lemma base_published_once_witness :
  exists e, publish_settlement_rebuild plain_hash example_published.1 "job5" "claim5" "g4" "g2" digest_e digest_f 40 50 60 = Raise e.
Proof.
  refine (proj2 (proj2 (base_published_once same_digest digest_a sum_f plain_hash no_reverify example_start example_published.1 example_published.1
    "g2" "g3" example_active_live _ example_run _ _ (rtc_refl _ _))) _ _ _ _ _ _ _ _ _); [vm_compute; reflexivity|vm_compute; reflexivity|discriminate|discriminate].
Defined.

Lemma publication_replayed_witness :
  publish_settlement_rebuild plain_hash example_published.1 "job4" "claim" "g3" "g2" digest_e digest_f 40 50 60
  = Ok (example_published.1, example_published.2).
Proof.
  eapply (proj1 (publication_replayed plain_hash)); [exact example_publish_ok|reflexivity|reflexivity|reflexivity|reflexivity].
Defined.

Lemma month_row_month p month row : row ∈ month_row p month -> mr_month row = Some month.
Proof. unfold month_row. destruct (str_eqb month "2026-11"); [by intros ->%list_elem_of_singleton|by intros ?%elem_of_nil]. Qed.

Lemma november_built : built ["2026-10"; "2026-11"] ["2026-11"] "monthly" "2026-11".
Proof. left. split; [done|]. by apply (bool_decide_unpack _). Qed.
Lemma august_not_built : ~ built ["2026-10"; "2026-11"] ["2026-11"] "monthly" "2026-08".
Proof. intros [[_ H]|[H _]]; [|done]. revert H. by apply (bool_decide_unpack ("2026-08" ∉ ["2026-10"; "2026-11"])). Qed.

Lemma rebuild_published_witness : exists g rows m,
  lineage (pub_projection example_published.1) "g3" (g :: rows)
  /\ nearest (pub_projection example_published.1) "monthly" "2026-11" (g :: rows) = Some (g, m) /\ row_count m = Ok 1
  /\ nearest (pub_projection example_published.1) "monthly" "2026-08" (g :: rows) = nearest example_projection "monthly" "2026-08" rows.
Proof.
  destruct (rebuild_published same_digest digest_a sum_f plan_two month_row no_ranking month_row_month plain_hash example_projection example_rows
    "g3" "g2" ["2026-10"; "2026-11"] 100 digest_e "job4" no_guards example_build.1 example_built (Ok tt) example_ready.1 example_ready.2
    [example_publish_job] [] "claim" digest_f 10 20 30 example_published.1 example_published.2)
    as (ids & af & cu & g & [= <- <-] & _ & _ & _ & Hl & Hn).
  - reflexivity.
  - intros m Hm E. unfold example_projection in Hm. cbn [projection_manifests] in Hm. each_row Hm E.
  - intros x Hx E. unfold example_projection in Hx. cbn [projection_closures] in Hx. each_row Hx E.
  - apply example_sealed. set_solver.
  - exact example_lineage.
  - exact example_build_ok.
  - exact example_ready_ok.
  - exact example_publish_ok.
  - destruct (Hn "monthly" "2026-11") as [H1 _]. destruct (Hn "monthly" "2026-08") as [_ H2].
    destruct (H1 november_built) as (m & Hm & Hc & _). exists g, example_rows, m. split; [done|]. split; [done|]. split.
    + rewrite Hc. vm_compute. reflexivity.
    + exact (H2 august_not_built).
Defined.

(** ** Examples of months *)

(** A database that gives the first rows. *)
Definition first_rows (l : list (string * string)) : list (string * string) := take (Z.to_nat (MAX_SETTLEMENT_SPARSE_MONTHS + 1)) l.
#[export] Instance first_rows_limited : Limited first_rows.
Proof.
  split.
  - intros l q (i & H & _)%elem_of_take. by eapply list_elem_of_lookup_2.
  - intros l q Hl Hq. unfold first_rows. rewrite take_ge; [done|]. lia.
Qed.

(** A refund of September posted in November, whose store's bill moved to December. *)
Lemma build_months_closed_witness :
  sparse_expand_affected_months [("2026-09", "2026-11")] [("2026-11", "2026-12")] first_rows ["2026-09"]
    = Ok ["2026-09"; "2026-11"; "2026-12"]
  /\ forall m, m ∈ ["2026-09"; "2026-11"; "2026-12"] <-> linked [("2026-09", "2026-11")] [("2026-11", "2026-12")] ["2026-09"] m.
Proof.
  assert (sparse_expand_affected_months [("2026-09", "2026-11")] [("2026-11", "2026-12")] first_rows ["2026-09"]
    = Ok ["2026-09"; "2026-11"; "2026-12"]) as E by (vm_compute; reflexivity).
  split; [exact E|].
  destruct (build_months_closed [("2026-09", "2026-11")] [("2026-11", "2026-12")] first_rows ["2026-09"]) as [_ H].
  destruct (H _ E) as (_ & _ & _ & _ & Hc). apply Hc. vm_compute. discriminate.
Defined.

(** With sixteen months whose adjustments go from each month to each later one, there
    are 136 different pairs: the query returns 121 of them, and a month that only one
    of the others links is not found, although seventeen months are far below the
    limit. *)
Definition sixteen_months : list string := (fun n => month_key (2026 + (n + 7) / 12) ((n + 7) mod 12 + 1)) <$> seqZ 0 16.
Definition dense_adjustments : list (string * string) :=
  List.filter (fun q => String.leb q.1 q.2) (m ← sixteen_months; (fun n => (m, n)) <$> sixteen_months).
Lemma months_truncated :
  length dense_adjustments = 136%nat
  /\ sparse_expand_affected_months (dense_adjustments ++ [("2026-08", "2028-06")]) [] first_rows sixteen_months = Ok sixteen_months
  /\ linked (dense_adjustments ++ [("2026-08", "2028-06")]) [] sixteen_months "2028-06" /\ "2028-06" ∉ sixteen_months.
Proof.
  split; [vm_compute; reflexivity|]. split; [vm_compute; reflexivity|]. split; [|by apply (bool_decide_unpack _); vm_compute].
  eapply (linked_forward _ _ _ "2026-08"); [apply linked_affected; by apply (bool_decide_unpack _); vm_compute|]. rewrite app_nil_r. apply elem_of_app. right. by left.
Qed.
